(* ===== verification/_CoqProject ===== *)
-Q . S2P
Prelude.v
KString.v
KStdio.v
Console.v
KPrintf.v
Screen.v
ScreenSpec.v
Pmm.v
Memory.v
Kmalloc.v
Paging.v
AddrSpace.v
Sched.v
Task.v
TaskExit.v
Block.v
SimpleFS.v
SimpleFSSpec.v
Klog.v
KlogSpec.v
Elf.v
ElfSpec.v
ElfLoad.v
ElfExec.v
ElfSafe.v
Syscall.v
SyscallSpec.v
Timer.v
Ports.v
Ata.v
AtaSpec.v
Shell.v
ShellSpec.v
Keyboard.v
KeyboardSpec.v
Descriptors.v
Interrupts.v
Serial.v
Boot.v
BootSpec.v
ExecFile.v
ExecSafe.v
Reports.v
SessionSpec.v
LibcString.v
LibcStdio.v
LibcSpec.v
UserMode.v
KlibcSyscall.v
LibcSyscall.v
Crt0.v
UserSpec.v
ExecRun.v
