(* ===== verification/Prelude.v ===== *)
(** * ApPa: a verification of the kernel and its libraries

    ApPa is a small i386 kernel in C: a physical frame allocator, a heap,
    paging with one address space per process, a round-robin scheduler, a
    file system on a RAM disk or an ATA disk, an ELF loader with ring-3
    tasks and system calls, a kernel log, a text console, a keyboard driver
    and a shell, and a C library for user programs.  This library models
    that code and proves what it guarantees.

    ** How the code is modelled

    - An integer of the C code is a [Z]; [u32], [u16], [u8] and [i32] below
      write out where the C operation wraps.  [+!], [-!] and [*!] are the
      32-bit operations.
    - C code over a state [S] is a function of the monad [M S] of this file;
      [None] means that the code has no defined outcome (an access outside
      an object, a dereferenced [NULL]) or that a loop has not ended within
      its fuel.  Theorems state that a call returns [Some], so they include
      that no access is out of bounds and that every loop ends.  [io S] of
      [Console] adds the text printed so far.
    - The kernel is identity mapped: a kernel pointer is a physical address
      into the byte memory of [Memory].  The heap, the page tables and the
      stacks are bytes of that memory, shared by whoever holds a pointer.
      That memory is total: a byte nobody has written reads as 0, and a
      theorem about code that could read such bytes excludes it by its
      hypotheses.  A pointer into an object that nothing else points to (a
      local buffer, a string) is the list of bytes up to the end of the
      object.  The bytes of the RAM disk lie in frames that belong to it
      alone and are kept with the device once [ramdisk_init] has taken and
      cleared the frames.
    - Code that is not part of the program is a parameter: the devices
      behind the ports ([Ports.PortIO]), block devices ([Block.BlockDev]),
      the drives ([AtaSpec.AtaDrive]), the serial chip ([Serial.Uart]), the
      addresses the linker chooses ([Task.symbols], the stubs of
      [Descriptors], the literals of a user program), the other tasks while
      one waits, the self-test suites.  Each such hypothesis
      has an instance in the witness of the theorem that uses it.  A
      [Parked] system call is resumed in a state its environment chooses, so
      other tasks and interrupts run in between.

    ** Files

    - [Prelude]: machine integers, the monad, loops, list and arithmetic
      lemmas, the hint database [appa], the tactics.
    - [KString], [KStdio], [KPrintf]: klibc/string.c and klibc/stdio.c, the
      strings, number conversions and [kprintf].
    - [Console]: the log of printed bytes that kernel code sees.
      [Screen], [ScreenSpec]: drivers/screen.c (and [serial_putc]) on the
      video memory and the VGA cursor, and the abstract terminal it refines.
    - [Pmm]: kernel/mem/pmm.c, the bitmap of frames.  [Memory]: physical
      memory.  [Kmalloc]: kernel/mem/kmalloc.c, the best-fit heap.
      [Paging], [AddrSpace]: kernel/mem/paging.c, the kernel's own tables and
      the address spaces of processes, against the processor's table walk.
    - [Sched], [Task]: kernel/task/sched.c with switch.asm, and
      kernel/task/task.c.  [TaskExit]: the end of a task.
    - [Block]: fs/block.h and fs/ramdisk.c.  [SimpleFS], [SimpleFSSpec]:
      fs/simplefs.c over any block device, and the map from names to
      contents it refines.
    - [Klog], [KlogSpec]: kernel/sys/klog.c.
    - [Elf], [ElfSpec], [ElfLoad], [ElfExec]: kernel/exec/elf.c: validation,
      user stack, segment loading and the whole load.  [ElfSafe]: the load
      with whatever frames are left.
    - [Syscall], [SyscallSpec]: kernel/arch/syscall.c, INT 0x80.
    - [Timer]: kernel/sys/timer.c.  [Ports]: drivers/ports.c.
    - [Ata], [AtaSpec]: drivers/ata.c and ata_blockdev.c; the driver is an
      instance of the block device interface when the drives follow the PIO
      protocol (and, for writes, stand the driver's early flush command).
    - [Shell], [ShellSpec]: shell/shell.c.  [Keyboard], [KeyboardSpec]:
      drivers/keyboard.c and the way from the keys to the command line.
    - [Descriptors]: kernel/arch/gdt.c, tss.c, idt.c in hardware format.
      [Interrupts]: pic.c, pit.c, isr.c, irq.c and the page fault handler.
      [Serial]: drivers/serial.c.
    - [Boot], [BootSpec]: [main] of kernel/sys/kernel_main.c on the state of
      the whole machine, with the registrations of the handlers.
      [ExecFile]: [elf_exec] of a file, from the name to the task;
      [ExecSafe]: of any file without wrapping header sums, with whatever
      resources are left.
    - [Reports]: what the reports (memory, frames, pages, log, drives, files)
      print and leave unchanged.  [SessionSpec]: every command of the shell
      and any session at the keyboard.
    - [LibcString], [LibcStdio], [LibcSpec]: libc/string.c and libc/stdio.c.
    - [UserMode]: user code, its view of memory and the entry stub of INT
      0x80.  [KlibcSyscall], [LibcSyscall]: the system call wrappers
      klibc/syscall.c and libc/syscall.c.  [Crt0], [UserSpec]: libc/crt0.c
      and user/hello.c.  [ExecRun]: from [elf_exec] to the first instruction
      of the program.

    A file [XSpec] holds the abstract side and the theorems of [X].

    ** How the parts interact

    The shell, driven by the keyboard interrupt, calls the file system, the
    loader, the log and the allocators; its state is the product of theirs.
    The loader clones an address space ([Paging]), fills frames of [Pmm] and
    creates a task ([Task]); the task runs when the timer interrupt calls the
    scheduler ([Sched]), enters ring 3 through the frame the loader built and
    comes back through [Syscall].  [SimpleFS] knows its device only through
    the class [BlockDev] with the laws [BlockDevLaws]; the RAM disk and the
    ATA driver are the instances, and [main] mounts one of them: a file
    operation on the slave drive is a sequence of port accesses.  [Paging], [Kmalloc], [Task] and [Elf] use
    the frame allocator through the theorems of [Pmm].  [Boot] puts all of
    them into one state and starts them in the order of [main].

    ** What the theorems show

    - The whole: from the prompt that [main] reaches, any sequence of keys is
      handled, every command it types returns, and all invariants below hold
      again ([session_safe], [booted_prompt]), up to the first command that
      runs a self-test suite.  The files on disk are refused by [elf_validate]
      or have no header sum that wraps in 32 bits: the findings on the
      loader's checks show that this is needed.
    - Memory: after initialisation, in every reachable state (for requests of
      at most 0xFFFFFFF4 bytes: [kmalloc_zero_block] shows what a larger one
      does), frames and heap
      blocks are handed out once, frees merge and account exactly; page
      tables mean to the processor what the C code says; a process sees the
      kernel only as supervisor, cannot change the kernel's mapping, and its
      frames are all given back; cached translations stay valid.
    - Files: the operations refine the map from names to contents, all error
      results included, and survive a remount; the ATA driver finds the
      drives and delivers the disk.
    - Tasks: a tick is one step of round robin, every ready task runs within
      10 ticks per queued task, a switch restores the context, new kernel
      and user tasks start where they should, a task that exits never runs
      again, dead tasks are reaped exactly.
    - Start: every initialisation of [main] returns and leaves its component
      in the invariant from which the theorems about it start ([booted]).
    - User programs: [_start] finds the arguments the loader left, the libc
      prints through INT 0x80 exactly its text, and the demo program is
      followed from its first instruction to the death of its task.
    - Loading: accepted images are well formed; [elf_exec] of a file makes a
      task that enters ring 3 at its entry point and sees the file's segments
      and its arguments byte for byte, and leaves heap, files and the
      kernel's mapping as they were; the scheduler then runs it within a
      bounded number of ticks.  When frames, heap or task slots run out, at
      whatever point, the load is refused and no memory in use, file, task or
      heap block is disturbed.
    - System calls and interrupts: the pointer check is exact, rejected
      calls have no effect, [sleep] returns at the first round at which its
      time has passed; only vector 0x80 is open
      to users; interrupts are acknowledged before their handlers run.
    - Text: [kprintf], the log, the libc [vsnprintf] and the uptime text
      write exactly the specified text inside their buffers (for [vsnprintf]
      with any size but 0, and formats whose directives are complete); the screen is
      a terminal; a typed line is the line that is executed; commands are
      dispatched by their exact first word.

    ** Fuel and bounds

    Loops with a counter are structural.  The walks along the heap have fuel
    for one block per byte of the heap, the walks along the ready queue
    ([ring_fuel]) for more tasks than the pool holds, [utoa] for 33 digits
    (32 bits in base 2), the split of an [exec] line for one round per
    possible argument and one more; the theorems show these are never
    exhausted.  The string at a pointer of a user program ends within a page
    ([user_cstring]): arguments are shorter.  Loops that wait for a device
    (the ATA status, the keyboard controller, the serial transmitter) or for
    time ([sleep_loop]) end when the environment lets them; their bound is a
    parameter, and the theorems ask the environment to answer within it:
    [sys_sleep_waits] returns whenever the bound exceeds the rounds until the
    time has passed.

    ** Not modelled

    The boot sector and the interrupt entry stubs (assembly), except the
    context switch, the entry to user mode and the stub of INT 0x80; loading
    the registers of the descriptor tables; the stack of compiled user code;
    the self tests of tests/, which exercise the modelled code.  Interrupts
    that arrive while [main] still runs are not interleaved, and the theorem
    on sessions has no tick between two keys.  Concurrency is
    the interleaving at timer ticks and at the points where a task gives up
    the processor; code that runs with interrupts disabled is one step. *)

From stdpp Require Export prelude list gmap sets strings numbers.
From Stdlib Require Export ZArith Lia.

Open Scope Z_scope.

(** ** Machine integers *)

(** The kernel computes on [uint32_t], [uint16_t] and [uint8_t]; a value is a
    [Z] in range, and every C operation that can leave the range is wrapped. *)
Definition u32 (x : Z) : Z := x mod 4294967296.
Definition u16 (x : Z) : Z := x mod 65536.
Definition u8 (x : Z) : Z := x mod 256.

(** Conversion of a 32-bit pattern to [int32_t] (two's complement). *)
Definition i32 (x : Z) : Z :=
  let y := u32 x in if y <? 2147483648 then y else y - 4294967296.

Declare Scope c_scope.
Delimit Scope c_scope with c.
Notation "x '+!' y" := (u32 (x + y)) (at level 50, left associativity) : c_scope.
Notation "x '-!' y" := (u32 (x - y)) (at level 50, left associativity) : c_scope.
Notation "x '*!' y" := (u32 (x * y)) (at level 40, left associativity) : c_scope.
Open Scope c_scope.

(** The truth value of a C integer. *)
Definition truth (x : Z) : bool := negb (x =? 0).

(** A string literal of the source as the bytes before its terminator. *)
Definition str (s : string) : list Z :=
  (λ a, Z.of_N (Ascii.N_of_ascii a)) <$> String.list_ascii_of_string s.

(** ** Stateful code

    [M S A] is C code over the state [S] with result [A]; [None] means that
    the code has no defined outcome: an access outside an object, or a loop
    that has not ended within its fuel. *)
Definition M (S A : Type) : Type := S → option (A * S).

#[export] Instance M_ret S : MRet (M S) := λ A a s, Some (a, s).
#[export] Instance M_bind S : MBind (M S) := λ A B k c s,
  match c s with Some (a, s') => k a s' | None => None end.

Definition fault {S A} : M S A := λ _, None.
Definition get {S} : M S S := λ s, Some (s, s).
Definition put {S} (s : S) : M S () := λ _, Some ((), s).
Definition modify {S} (f : S → S) : M S () := λ s, Some ((), f s).
Definition gets {S A} (f : S → A) : M S A := λ s, Some (f s, s).
Definition of_option {S A} (o : option A) : M S A :=
  λ s, match o with Some a => Some (a, s) | None => None end.

(** [for (i = i0; n more rounds; i++) body] *)
Fixpoint for_loop {S} (n : nat) (i : Z) (body : Z → M S ()) : M S () :=
  match n with
  | O => mret ()
  | S n' => body i ;; for_loop n' (i + 1) body
  end.

(** The same loop with a body that may return from the function: [Some r] is
    the [return r], [None] the next round. *)
Fixpoint for_ret {S R} (n : nat) (i : Z) (body : Z → M S (option R)) : M S (option R) :=
  match n with
  | O => mret None
  | S n' =>
      r ← body i;
      match r with
      | Some v => mret (Some v)
      | None => for_ret n' (i + 1) body
      end
  end.

(** Run code of a component on the part of a larger state it owns. *)
Definition zoom {S T A} (get_part : S → T) (set_part : T → S → S) (c : M T A) : M S A :=
  λ s, match c (get_part s) with
       | Some (a, t) => Some (a, set_part t s)
       | None => None
       end.

Section monad_facts.
Context {S : Type}.

Lemma bind_run {A B} (c : M S A) (k : A → M S B) s :
  (c ≫= k) s = match c s with Some (a, s') => k a s' | None => None end.
Proof. reflexivity. Qed.

Lemma bind_Some {A B} (c : M S A) (k : A → M S B) s a s' :
  c s = Some (a, s') → (c ≫= k) s = k a s'.
Proof. intros E. rewrite bind_run, E. reflexivity. Qed.

(** The Hoare rule of [for_loop]: an invariant indexed by the counter. *)
Lemma for_loop_inv (P : Z → S → Prop) (body : Z → M S ()) n i s :
  (∀ j s, i ≤ j < i + Z.of_nat n → P j s →
     ∃ s', body j s = Some ((), s') ∧ P (j + 1) s') →
  P i s →
  ∃ s', for_loop n i body s = Some ((), s') ∧ P (i + Z.of_nat n) s'.
Proof.
  revert i s. induction n as [|n IH]; intros i s Hstep HP.
  - exists s. split; [reflexivity|]. by replace (i + Z.of_nat 0) with i by lia.
  - destruct (Hstep i s) as (s1 & E1 & HP1); [lia|done|].
    destruct (IH (i + 1) s1) as (s2 & E2 & HP2); [|done|].
    { intros j t Hj. apply Hstep. lia. }
    exists s2. split.
    + simpl. rewrite (bind_Some _ _ _ _ _ E1). exact E2.
    + by replace (i + Z.of_nat (Datatypes.S n)) with (i + 1 + Z.of_nat n) by lia.
Qed.

(** The Hoare rule of [for_ret]: either the invariant survives every round,
    or some round returns a value satisfying [Q]. *)
Lemma for_ret_inv {R} (P : Z → S → Prop) (Q : R → S → Prop)
    (body : Z → M S (option R)) n i s :
  (∀ j s, i ≤ j < i + Z.of_nat n → P j s →
     (∃ s', body j s = Some (None, s') ∧ P (j + 1) s') ∨
     (∃ r s', body j s = Some (Some r, s') ∧ Q r s')) →
  P i s →
  (∃ s', for_ret n i body s = Some (None, s') ∧ P (i + Z.of_nat n) s') ∨
  (∃ r s', for_ret n i body s = Some (Some r, s') ∧ Q r s').
Proof.
  revert i s. induction n as [|n IH]; intros i s Hstep HP.
  - left. exists s. split; [reflexivity|]. by replace (i + Z.of_nat 0) with i by lia.
  - destruct (Hstep i s) as [(s1 & E1 & HP1)|(r & s1 & E1 & HQ)]; [lia|done| |].
    + destruct (IH (i + 1) s1) as [(s2 & E2 & HP2)|(r & s2 & E2 & HQ)]; [|done| |].
      { intros j t Hj. apply Hstep. lia. }
      * left. exists s2. split.
        -- simpl. rewrite (bind_Some _ _ _ _ _ E1). exact E2.
        -- by replace (i + Z.of_nat (Datatypes.S n)) with (i + 1 + Z.of_nat n) by lia.
      * right. exists r, s2. split; [|done].
        simpl. rewrite (bind_Some _ _ _ _ _ E1). exact E2.
    + right. exists r, s1. split; [|done].
      simpl. rewrite (bind_Some _ _ _ _ _ E1). reflexivity.
Qed.
End monad_facts.

(** [mstep E] runs the first action of a sequence with the equation [E]. *)
Ltac mstep E := rewrite (bind_Some _ _ _ _ _ E).

(** [mrun] runs straight-line code: it unfolds the monad's operations. *)
Ltac mrun :=
  cbv beta iota zeta delta [mbind M_bind mret M_ret modify get put gets of_option].

(** [zcase] splits on an integer comparison of the goal and discards the
    branch that contradicts the context. *)
Ltac zcase :=
  match goal with
  | |- context [?x <? ?y] => destruct (Z.ltb_spec x y)
  | |- context [?x <=? ?y] => destruct (Z.leb_spec x y)
  | |- context [?x >? ?y] => rewrite (Z.gtb_ltb x y); destruct (Z.ltb_spec y x)
  | |- context [?x >=? ?y] => rewrite (Z.geb_leb x y); destruct (Z.leb_spec y x)
  | |- context [?x =? ?y] => destruct (Z.eqb_spec x y)
  end; try (exfalso; lia).

(** ** Facts on machine integers *)

Lemma u32_small x : 0 ≤ x < 4294967296 → u32 x = x.
Proof. intros. unfold u32. by apply Z.mod_small. Qed.
Lemma u32_bound x : 0 ≤ u32 x < 4294967296.
Proof. unfold u32. by apply Z.mod_pos_bound. Qed.

Lemma i32_bound x : -2147483648 ≤ i32 x < 2147483648.
Proof. unfold i32. pose proof (u32_bound x). destruct (Z.ltb_spec (u32 x) 2147483648); lia. Qed.
Lemma i32_small x : -2147483648 ≤ x < 2147483648 → i32 x = x.
Proof.
  intros Hx. unfold i32. destruct (Z.lt_ge_cases x 0).
  - assert (u32 x = x + 4294967296) as ->.
    { unfold u32. rewrite <- (Z.mod_add x 1) by lia. apply Z.mod_small. lia. }
    destruct (Z.ltb_spec (x + 4294967296) 2147483648); lia.
  - rewrite u32_small by lia. destruct (Z.ltb_spec x 2147483648); lia.
Qed.
Lemma i32_idemp x : i32 (i32 x) = i32 x.
Proof. apply i32_small, i32_bound. Qed.
Lemma u8_small x : 0 ≤ x < 256 → u8 x = x.
Proof. intros. unfold u8. by apply Z.mod_small. Qed.
Lemma u8_bound x : 0 ≤ u8 x < 256.
Proof. unfold u8. by apply Z.mod_pos_bound. Qed.
Lemma u16_small x : 0 ≤ x < 65536 → u16 x = x.
Proof. intros. unfold u16. by apply Z.mod_small. Qed.
Lemma u16_bound x : 0 ≤ u16 x < 65536.
Proof. unfold u16. by apply Z.mod_pos_bound. Qed.

Create HintDb cint.
Create Rewrite HintDb cint.
#[export] Hint Rewrite u32_small u8_small u16_small using lia : cint.
#[export] Hint Resolve u32_bound u8_bound u16_bound : cint.

(** Remove every wrap whose argument is in range. *)
Ltac unwrap := autorewrite with cint in *.

Lemma pow2_pos n : 0 ≤ n → 0 < 2 ^ n.
Proof. intros. apply Z.pow_pos_nonneg; lia. Qed.

Lemma testbit_above a n i : 0 ≤ a < 2 ^ n → n ≤ i → Z.testbit a i = false.
Proof.
  intros Ha Hi. destruct (Z.eq_dec a 0) as [->|Hne]; [apply Z.testbit_0_l|].
  assert (0 ≤ n). { destruct (Z.le_gt_cases 0 n); [done|]. rewrite Z.pow_neg_r in Ha; lia. }
  apply Z.bits_above_log2; [lia|]. apply Z.log2_lt_pow2; [lia|].
  apply Z.lt_le_trans with (2 ^ n); [lia|]. by apply Z.pow_le_mono_r.
Qed.

(** A word below [2^n] is determined by its low [n] bits. *)
Lemma bits_eq_below n a b :
  0 ≤ a < 2 ^ n → 0 ≤ b < 2 ^ n →
  (∀ i, 0 ≤ i < n → Z.testbit a i = Z.testbit b i) → a = b.
Proof.
  intros Ha Hb Hbits. apply Z.bits_inj'. intros i Hi.
  destruct (Z.lt_ge_cases i n) as [Hlt|Hge]; [by apply Hbits|].
  by rewrite !(testbit_above _ n).
Qed.

Lemma bits_bound n a :
  0 ≤ n → 0 ≤ a → (∀ i, n ≤ i → Z.testbit a i = false) → 0 ≤ a < 2 ^ n.
Proof.
  intros Hn Ha Hbits. split; [done|].
  destruct (Z.eq_dec a 0) as [->|Hne]; [by apply pow2_pos|].
  apply Z.log2_lt_pow2; [lia|].
  destruct (Z.lt_ge_cases (Z.log2 a) n) as [|Hge]; [done|].
  apply Hbits in Hge. rewrite Z.bit_log2 in Hge; [done|lia].
Qed.

Lemma lor_bound n a b : 0 ≤ n → 0 ≤ a < 2 ^ n → 0 ≤ b < 2 ^ n → 0 ≤ Z.lor a b < 2 ^ n.
Proof.
  intros Hn Ha Hb. apply bits_bound; [done|apply Z.lor_nonneg; lia|].
  intros i Hi. by rewrite Z.lor_spec, !(testbit_above _ n).
Qed.

Lemma land_bound_l n a b : 0 ≤ n → 0 ≤ a < 2 ^ n → 0 ≤ Z.land a b < 2 ^ n.
Proof.
  intros Hn Ha. apply bits_bound; [done|apply Z.land_nonneg; lia|].
  intros i Hi. by rewrite Z.land_spec, (testbit_above a n).
Qed.

Lemma testbit_u32 a i : 0 ≤ i < 32 → Z.testbit (u32 a) i = Z.testbit a i.
Proof.
  intros. unfold u32. change 4294967296 with (2 ^ 32). apply Z.mod_pow2_bits_low. lia.
Qed.

Lemma testbit_pow2 n i : 0 ≤ n → 0 ≤ i → Z.testbit (2 ^ n) i = (n =? i).
Proof.
  intros Hn Hi. rewrite Z.pow2_bits_eqb by done. done.
Qed.

(** A mask of the lowest bits. *)
Lemma land_ones_mod a n k : 0 ≤ n → k = Z.ones n → Z.land a k = a mod 2 ^ n.
Proof. intros Hn ->. by apply Z.land_ones. Qed.

(** [(w & (1 << k)) != 0] tests bit [k]. *)
Lemma land_pow2_eqb w k : 0 ≤ k → (Z.land w (2 ^ k) =? 0) = negb (Z.testbit w k).
Proof.
  intros Hk. destruct (Z.testbit w k) eqn:E; simpl.
  - apply Z.eqb_neq. intros H0.
    assert (Z.testbit (Z.land w (2 ^ k)) k = true) as Hb.
    { by rewrite Z.land_spec, E, Z.pow2_bits_true. }
    by rewrite H0, Z.testbit_0_l in Hb.
  - apply Z.eqb_eq. apply Z.bits_inj'. intros i Hi.
    rewrite Z.land_spec, Z.testbit_0_l, testbit_pow2 by done.
    destruct (Z.eqb_spec k i) as [->|]; [by rewrite E|by rewrite andb_false_r].
Qed.

(** ** Counting over an interval of integers *)

(** [countZ f lo n]: how many of [lo .. lo+n-1] satisfy [f]. *)
Fixpoint countZ (f : Z → bool) (lo : Z) (n : nat) : Z :=
  match n with
  | O => 0
  | S n' => (if f lo then 1 else 0) + countZ f (lo + 1) n'
  end.

Lemma countZ_ext f g lo n :
  (∀ i, lo ≤ i < lo + Z.of_nat n → f i = g i) → countZ f lo n = countZ g lo n.
Proof.
  revert lo. induction n as [|n IH]; intros lo H; [done|]. simpl.
  rewrite (H lo) by lia. f_equal. apply IH. intros i Hi. apply H. lia.
Qed.

Lemma countZ_bounds f lo n : 0 ≤ countZ f lo n ≤ Z.of_nat n.
Proof.
  revert lo. induction n as [|n IH]; intros lo; simpl; [lia|].
  specialize (IH (lo + 1)). destruct (f lo); lia.
Qed.

(** Changing the predicate at one point changes the count by one. *)
Lemma countZ_upd f g lo n k :
  lo ≤ k < lo + Z.of_nat n →
  f k = false → g k = true → (∀ i, i ≠ k → f i = g i) →
  countZ g lo n = countZ f lo n + 1.
Proof.
  revert lo. induction n as [|n IH]; intros lo Hk Hf Hg Heq; simpl; [lia|].
  destruct (Z.eq_dec lo k) as [->|Hne].
  - rewrite Hf, Hg. rewrite (countZ_ext g f); [lia|]. intros i Hi. symmetry. apply Heq. lia.
  - rewrite (Heq lo Hne). rewrite (IH (lo + 1)); [lia|lia|done..].
Qed.

Lemma countZ_all f lo n :
  countZ f lo n = Z.of_nat n → ∀ i, lo ≤ i < lo + Z.of_nat n → f i = true.
Proof.
  revert lo. induction n as [|n IH]; intros lo Hc i Hi; simpl in *; [lia|].
  pose proof (countZ_bounds f (lo + 1) n). destruct (f lo) eqn:E; [|lia].
  destruct (Z.eq_dec i lo) as [->|]; [done|]. apply (IH (lo + 1)); lia.
Qed.

Lemma countZ_full f lo n :
  (∀ i, lo ≤ i < lo + Z.of_nat n → f i = true) → countZ f lo n = Z.of_nat n.
Proof.
  revert lo. induction n as [|n IH]; intros lo H; simpl; [done|].
  rewrite H by lia. rewrite IH; [lia|]. intros i Hi. apply H. lia.
Qed.

(** ** First-fit search for a run

    Both allocators of the program that hand out contiguous units (physical
    frames, data blocks) scan upwards and count consecutive free units.
    [find_run] is that scan; [find_run_spec] says it is first fit. *)
Fixpoint find_run (free : Z → bool) (n : nat) (b start consecutive count : Z) : option Z :=
  match n with
  | O => None
  | S n' =>
      if free b then
        let start' := if consecutive =? 0 then b else start in
        if consecutive + 1 =? count then Some start'
        else find_run free n' (b + 1) start' (consecutive + 1) count
      else find_run free n' (b + 1) start 0 count
  end.

Lemma find_run_S free n b start consecutive count :
  find_run free (S n) b start consecutive count =
  if free b then
    let start' := if consecutive =? 0 then b else start in
    if consecutive + 1 =? count then Some start'
    else find_run free n (b + 1) start' (consecutive + 1) count
  else find_run free n (b + 1) start 0 count.
Proof. reflexivity. Qed.

Definition all_free (free : Z → bool) (s count : Z) : Prop :=
  ∀ x, s ≤ x < s + count → free x = true.

Section find_run_facts.
Context (free : Z → bool) (count : Z) (Hcount : 0 < count).

(** The state of the scan at unit [b]: the last [c] units are free, the run
    cannot be extended downwards, and no run of the wanted length ends by [b]. *)
Record scan_inv (lo b start c : Z) : Prop := {
  scan_c : 0 ≤ c < count;
  scan_lo : lo ≤ b - c;
  scan_start : 0 < c → start = b - c;
  scan_free : all_free free (b - c) c;
  scan_max : b - c = lo ∨ free (b - c - 1) = false;
  scan_none : ∀ s, lo ≤ s → s + count ≤ b → ¬ all_free free s count
}.

Lemma scan_inv_init lo start : scan_inv lo lo start 0.
Proof. split; [lia|lia|lia|intros x; lia|left; lia|intros; lia]. Qed.

(** A run ending at [b] that is blocked below its start is the lowest one. *)
Lemma scan_no_lower lo b start c s :
  scan_inv lo b start c → lo ≤ s < b - c → s + count ≤ b + 1 → ¬ all_free free s count.
Proof.
  intros [? ? ? ? Hmax Hnone] Hs Hend Hall.
  destruct Hmax as [|Hmax]; [lia|].
  destruct (Z.le_gt_cases (s + count) (b - c - 1)) as [Hle|Hgt].
  - apply (Hnone s); [lia|lia|done].
  - rewrite (Hall (b - c - 1)) in Hmax; [done|lia].
Qed.

(** One round of the scan on a free, resp. used, unit. *)
Lemma scan_inv_free lo b start c :
  scan_inv lo b start c → free b = true → c + 1 ≠ count →
  scan_inv lo (b + 1) (if c =? 0 then b else start) (c + 1).
Proof.
  intros Hinv Eb Hmore. pose proof Hinv as [Hc Hlo Hst Hfr Hmax Hnone].
  split; replace (b + 1 - (c + 1)) with (b - c) by lia; try lia; [| |done|].
  - zcase; [lia|]. intros _. apply Hst. lia.
  - intros x Hx. destruct (Z.eq_dec x b) as [->|]; [done|]. apply Hfr. lia.
  - intros s Hs Hend. apply (scan_no_lower lo b start c); [done|lia|lia].
Qed.

Lemma scan_inv_used lo b start c :
  scan_inv lo b start c → free b = false → scan_inv lo (b + 1) start 0.
Proof.
  intros [Hc Hlo Hst Hfr Hmax Hnone] Eb. split; try lia.
  - intros x. lia.
  - right. by replace (b + 1 - 0 - 1) with b by lia.
  - intros s Hs Hend Hall. destruct (Z.le_gt_cases (s + count) b) as [Hle|Hgt].
    + by apply (Hnone s).
    + rewrite (Hall b) in Eb; [done|lia].
Qed.

Lemma find_run_spec lo n b start c :
  scan_inv lo b start c →
  match find_run free n b start c count with
  | Some s => lo ≤ s ∧ s + count ≤ b + Z.of_nat n ∧ all_free free s count ∧
              ∀ s', lo ≤ s' < s → ¬ all_free free s' count
  | None => ∀ s, lo ≤ s → s + count ≤ b + Z.of_nat n → ¬ all_free free s count
  end.
Proof.
  revert b start c. induction n as [|n IH]; intros b start c Hinv; simpl.
  { intros s Hs Hend. apply (scan_none _ _ _ _ Hinv); lia. }
  pose proof Hinv as [Hc Hlo Hst Hfr Hmax Hnone].
  replace (b + Z.of_nat (S n)) with (b + 1 + Z.of_nat n) by lia.
  destruct (free b) eqn:Eb; [|by apply IH, scan_inv_used with (c := c)].
  destruct (Z.eqb_spec (c + 1) count) as [Hfull|Hmore]; [|by apply IH, scan_inv_free].
  assert ((if c =? 0 then b else start) = b - c) as -> by (zcase; [lia|apply Hst; lia]).
  split_and!; [lia|lia| |].
  - intros x Hx. destruct (Z.eq_dec x b) as [->|]; [done|]. apply Hfr. lia.
  - intros s' Hs'. apply (scan_no_lower lo b start c); [done|lia|lia].
Qed.

Corollary find_run_first lo n :
  match find_run free n lo 0 0 count with
  | Some s => lo ≤ s ∧ s + count ≤ lo + Z.of_nat n ∧ all_free free s count ∧
              ∀ s', lo ≤ s' < s → ¬ all_free free s' count
  | None => ∀ s, lo ≤ s → s + count ≤ lo + Z.of_nat n → ¬ all_free free s count
  end.
Proof. apply find_run_spec, scan_inv_init. Qed.
End find_run_facts.

(** ** Single bits of a word *)

Lemma shiftl_1_u32 k : 0 ≤ k < 32 → u32 (Z.shiftl 1 k) = 2 ^ k.
Proof.
  intros Hk. rewrite Z.shiftl_1_l. apply u32_small.
  split; [apply Z.pow_nonneg; lia|]. change 4294967296 with (2 ^ 32). apply Z.pow_lt_mono_r; lia.
Qed.

(** [w &= ~(1 << k)] clears bit [k]. *)
Lemma land_lnot_bit w k :
  0 ≤ w < 2 ^ 32 → 0 ≤ k < 32 → Z.land w (u32 (Z.lnot (Z.shiftl 1 k))) = Z.ldiff w (2 ^ k).
Proof.
  intros Hw Hk. rewrite Z.shiftl_1_l. apply Z.bits_inj'. intros i Hi.
  rewrite Z.land_spec, Z.ldiff_spec.
  destruct (Z.lt_ge_cases i 32) as [Hlt|Hge].
  - rewrite testbit_u32, Z.lnot_spec by lia. done.
  - by rewrite (testbit_above w 32) by lia.
Qed.

Lemma ldiff_bound n a b : 0 ≤ n → 0 ≤ a < 2 ^ n → 0 ≤ Z.ldiff a b < 2 ^ n.
Proof.
  intros Hn Ha. apply bits_bound; [done|apply Z.ldiff_nonneg; lia|].
  intros i Hi. by rewrite Z.ldiff_spec, (testbit_above a n).
Qed.

Lemma pow2_bound n k : 0 ≤ k < n → 0 ≤ 2 ^ k < 2 ^ n.
Proof. intros. split; [apply Z.pow_nonneg; lia|apply Z.pow_lt_mono_r; lia]. Qed.

(** Setting a clear bit and clearing it again gives the word back. *)
Lemma ldiff_lor_bit w k : 0 ≤ k → Z.testbit w k = false → Z.ldiff (Z.lor w (2 ^ k)) (2 ^ k) = w.
Proof.
  intros Hk Hbit. apply Z.bits_inj'. intros i Hi.
  rewrite Z.ldiff_spec, Z.lor_spec, testbit_pow2 by lia.
  destruct (Z.eqb_spec k i) as [<-|]; simpl; [by rewrite Hbit, andb_false_r|].
  by rewrite orb_false_r, andb_true_r.
Qed.

(** A 32-bit word with every bit set is [0xFFFFFFFF]. *)
Lemma all_bits_ones w :
  0 ≤ w < 2 ^ 32 → (∀ j, 0 ≤ j < 32 → Z.testbit w j = true) → w = 0xFFFFFFFF.
Proof.
  intros Hw Hb. apply (bits_eq_below 32); [done|lia|].
  intros i Hi. rewrite Hb by done. symmetry.
  change 0xFFFFFFFF with (Z.ones 32). apply Z.ones_spec_low. lia.
Qed.

Lemma ones32_bit j : 0 ≤ j < 32 → Z.testbit 0xFFFFFFFF j = true.
Proof. intros. change 0xFFFFFFFF with (Z.ones 32). apply Z.ones_spec_low. lia. Qed.

#[global] Arguments countZ : simpl never.
#[global] Arguments find_run : simpl never.
#[global] Arguments for_loop : simpl never.
#[global] Arguments for_ret : simpl never.
#[global] Opaque countZ.
