(* ===== verification/KString.v ===== *)
(** * klibc/string.c: C strings, memory blocks and number formatting

    A pointer argument is the list of bytes from the pointer to the end of the
    object it points into; reading or writing past that end has no defined
    result ([None]).  A C string is such a list with a zero byte in it. *)

From S2P Require Import Prelude.

Open Scope Z_scope.
Open Scope c_scope.

(** ** String functions *)

Fixpoint strlen (s : list Z) : option Z :=
  match s with
  | [] => None
  | c :: s' => if truth c then (λ n, n +! 1) <$> strlen s' else Some 0
  end.

Fixpoint strcmp (s1 s2 : list Z) : option Z :=
  match s1, s2 with
  | c1 :: t1, c2 :: t2 =>
      if truth c1 && (c1 =? c2) then strcmp t1 t2 else Some (c1 - c2)
  | _, _ => None
  end.

Fixpoint strncmp (s1 s2 : list Z) (n : nat) : option Z :=
  match n with
  | O => Some 0
  | S n' =>
      match s1, s2 with
      | c1 :: t1, c2 :: t2 =>
          if truth c1 && (c1 =? c2) then strncmp t1 t2 n' else Some (c1 - c2)
      | _, _ => None
      end
  end.

(** The functions that write return the new contents of the destination. *)
Fixpoint strcpy (dest src : list Z) : option (list Z) :=
  match dest, src with
  | _ :: d', c :: s' => if truth c then cons c <$> strcpy d' s' else Some (c :: d')
  | _, _ => None
  end.

(** The second loop of [strncpy]: zeros up to [n]. *)
Fixpoint strncpy_pad (dest : list Z) (n : nat) : option (list Z) :=
  match n, dest with
  | O, _ => Some dest
  | S n', _ :: d' => cons 0 <$> strncpy_pad d' n'
  | S _, [] => None
  end.

Fixpoint strncpy (dest src : list Z) (n : nat) : option (list Z) :=
  match n with
  | O => Some dest
  | S n' =>
      match src, dest with
      | c :: s', _ :: d' =>
          if truth c then cons c <$> strncpy d' s' n' else strncpy_pad dest n
      | _, _ => None
      end
  end.

Fixpoint strcat (dest src : list Z) : option (list Z) :=
  match dest with
  | [] => None
  | c :: d' => if truth c then cons c <$> strcat d' src else strcpy dest src
  end.

(** Pointer results are offsets into the argument; the inner [None] is [NULL]. *)
Fixpoint strchr (s : list Z) (c : Z) : option (option nat) :=
  match s with
  | [] => None
  | x :: s' =>
      if truth x then
        if x =? u8 c then Some (Some 0%nat)
        else option_map (option_map S) (strchr s' c)
      else Some (if c =? 0 then Some 0%nat else None)
  end.

Fixpoint strrchr_loop (s : list Z) (c : Z) (pos : nat) (last : option nat) : option (option nat) :=
  match s with
  | [] => None
  | x :: s' =>
      if truth x then strrchr_loop s' c (S pos) (if x =? u8 c then Some pos else last)
      else Some (if c =? 0 then Some pos else last)
  end.
Definition strrchr (s : list Z) (c : Z) : option (option nat) := strrchr_loop s c 0 None.

(** ** Memory functions on buffers *)

Fixpoint memset (p : list Z) (value : Z) (num : nat) : option (list Z) :=
  match num, p with
  | O, _ => Some p
  | S n, _ :: p' => cons (u8 value) <$> memset p' value n
  | S _, [] => None
  end.

Fixpoint memcpy (dest src : list Z) (n : nat) : option (list Z) :=
  match n, dest, src with
  | O, _, _ => Some dest
  | S n', _ :: d', c :: s' => cons c <$> memcpy d' s' n'
  | S _, _, _ => None
  end.

Fixpoint memcmp (s1 s2 : list Z) (n : nat) : option Z :=
  match n, s1, s2 with
  | O, _, _ => Some 0
  | S n', c1 :: t1, c2 :: t2 => if c1 =? c2 then memcmp t1 t2 n' else Some (c1 - c2)
  | S _, _, _ => None
  end.

(** ** uitoa *)

(** In-place exchange of two characters. *)
Definition swap (l : list Z) (i j : nat) : option (list Z) :=
  match l !! i, l !! j with
  | Some a, Some b => Some (<[j := a]> (<[i := b]> l))
  | _, _ => None
  end.

(** The reversal loop, shared by [uitoa], [reverse] and [kprint_uint]:
    exchange the two ends and move them inwards while [start < end]. *)
Fixpoint reverse_loop (fuel : nat) (l : list Z) (start end_ : Z) : option (list Z) :=
  match fuel with
  | O => None
  | S f =>
      if start <? end_ then
        l' ← swap l (Z.to_nat start) (Z.to_nat end_);
        reverse_loop f l' (start + 1) (end_ - 1)
      else Some l
  end.

Definition reverse_str (l : list Z) : option (list Z) :=
  reverse_loop (S (length l)) l 0 (Z.of_nat (length l) - 1).

Definition hex_digits : list Z := str "0123456789abcdef".

(** The [do ... while (value)] loop: digits from the least significant one. *)
Fixpoint uitoa_loop (fuel : nat) (value base : Z) : option (list Z) :=
  match fuel with
  | O => None
  | S f =>
      let tmp_value := value in
      let value := tmp_value / base in
      d ← hex_digits !! Z.to_nat (tmp_value - value * base);
      if truth value then cons d <$> uitoa_loop f value base else Some [d]
  end.

(** The characters [uitoa] leaves in [str] before the terminating zero. *)
Definition uitoa (value base : Z) : option (list Z) :=
  if value =? 0 then Some (str "0")
  else ds ← uitoa_loop 32 value base; reverse_str ds.

(** ** Facts *)

(** A byte that is not the terminator. *)
Definition nonzero (s : list Z) : Prop := Forall (λ c, 0 < c < 256) s.

#[export] Instance nonzero_dec s : Decision (nonzero s).
Proof. unfold nonzero. apply _. Defined.

Lemma nonzero_cons c s : nonzero (c :: s) ↔ 0 < c < 256 ∧ nonzero s.
Proof. apply Forall_cons_iff. Qed.

Lemma truth_pos c : 0 < c → truth c = true.
Proof. intros. unfold truth. by destruct (Z.eqb_spec c 0); [lia|]. Qed.

Lemma strlen_cstr s r :
  nonzero s → Z.of_nat (length s) < 4294967296 →
  strlen (s ++ 0 :: r) = Some (Z.of_nat (length s)).
Proof.
  induction s as [|c s IH]; intros Hs Hlen; [done|]. apply nonzero_cons in Hs as [Hc Hs].
  simpl in *. rewrite truth_pos by lia. rewrite IH by (done || lia). simpl.
  f_equal. rewrite u32_small; lia.
Qed.

(** [strcmp] decides equality of strings; its sign orders the first
    difference as unsigned characters. *)
Lemma strcmp_cstr s t r r' :
  nonzero s → nonzero t →
  ∃ d, strcmp (s ++ 0 :: r) (t ++ 0 :: r') = Some d ∧ (d = 0 ↔ s = t).
Proof.
  revert t. induction s as [|c s IH]; intros [|c' t] Hs Ht; simpl.
  - exists 0. done.
  - apply nonzero_cons in Ht as [Hc' _]. exists (0 - c'). split; [done|]. split; [lia|done].
  - apply nonzero_cons in Hs as [Hc _]. rewrite truth_pos by lia.
    destruct (Z.eqb_spec c 0); [lia|]. exists (c - 0). split; [done|]. split; [lia|done].
  - apply nonzero_cons in Hs as [Hc Hs]. apply nonzero_cons in Ht as [Hc' Ht].
    rewrite truth_pos by lia. destruct (Z.eqb_spec c c') as [->|Hne]; simpl.
    + destruct (IH t Hs Ht) as (d & E & Hd). exists d. split; [done|].
      rewrite Hd. split; [by intros ->|by intros [= ->]].
    + exists (c - c'). split; [done|]. split; [lia|]. intros [= -> _]. done.
Qed.

(** [strncmp] up to the length of the second string tests for a prefix. *)
Lemma strncmp_prefix s t r r' :
  nonzero s → nonzero t →
  ∃ d, strncmp (s ++ 0 :: r) (t ++ r') (length t) = Some d ∧ (d = 0 ↔ t `prefix_of` s).
Proof.
  revert t. induction s as [|c s IH]; intros [|c' t] Hs Ht; simpl.
  - exists 0. split; [done|]. split; [intros _; by exists []|done].
  - apply nonzero_cons in Ht as [Hc' _]. exists (0 - c'). split; [done|].
    split; [lia|]. intros H. by apply prefix_nil_not in H.
  - exists 0. split; [done|]. split; [intros _; by eexists|done].
  - apply nonzero_cons in Hs as [Hc Hs]. apply nonzero_cons in Ht as [Hc' Ht].
    rewrite truth_pos by lia. destruct (Z.eqb_spec c c') as [->|Hne]; simpl.
    + destruct (IH t Hs Ht) as (d & E & Hd). exists d. split; [done|].
      rewrite Hd. split; [by apply prefix_cons|apply prefix_cons_inv_2].
    + exists (c - c'). split; [done|]. split; [lia|]. intros H.
      by apply prefix_cons_inv_1 in H as ->.
Qed.

Lemma strncpy_pad_spec dest n :
  (n ≤ length dest)%nat → strncpy_pad dest n = Some (replicate n 0 ++ drop n dest).
Proof.
  revert dest. induction n as [|n IH]; intros [|d dest] H; simpl in *; try (done || lia).
  rewrite IH by lia. done.
Qed.

(** [strncpy] writes exactly [n] bytes: the string, cut or padded with zeros. *)
Lemma strncpy_cstr dest s r n :
  nonzero s → (n ≤ length dest)%nat →
  strncpy dest (s ++ 0 :: r) n = Some (take n (s ++ replicate n 0) ++ drop n dest).
Proof.
  revert dest n. induction s as [|c s IH]; intros dest n Hs Hn;
    (destruct n as [|n]; [by destruct dest|]).
  - destruct dest as [|d dest]; simpl in *; [lia|].
    rewrite strncpy_pad_spec by lia. by rewrite take_ge by (rewrite length_replicate; lia).
  - destruct dest as [|d dest]; simpl in *; [lia|].
    apply nonzero_cons in Hs as [Hc Hs]. rewrite truth_pos by lia.
    rewrite IH by (done || lia). simpl. do 3 f_equal.
    change (0 :: replicate n 0) with (replicate (S n) 0).
    rewrite !take_app, !take_replicate. do 2 f_equal. lia.
Qed.

Lemma strcpy_cstr dest s r :
  nonzero s → (length s < length dest)%nat → strcpy dest (s ++ 0 :: r) = Some (s ++ 0 :: drop (S (length s)) dest).
Proof.
  revert dest. induction s as [|c s IH]; intros [|d dest] Hs Hl; cbn [length] in Hl; try lia; [done|].
  apply nonzero_cons in Hs as [Hc Hs]. cbn [app strcpy]. rewrite truth_pos by lia. by rewrite IH by (done || lia).
Qed.

Lemma strcat_cstr a rest s r :
  nonzero a → nonzero s → (length s ≤ length rest)%nat →
  strcat (a ++ 0 :: rest) (s ++ 0 :: r) = Some ((a ++ s) ++ 0 :: drop (length s) rest).
Proof.
  intros Ha Hs Hl. induction a as [|c a IH].
  - change (strcpy (0 :: rest) (s ++ 0 :: r) = Some (s ++ 0 :: drop (length s) rest)).
    rewrite strcpy_cstr by (done || simpl; lia). done.
  - apply nonzero_cons in Ha as [Hc Ha]. cbn [app strcat]. rewrite truth_pos by lia. by rewrite IH.
Qed.

Lemma memset_spec p v n :
  (n ≤ length p)%nat → memset p v n = Some (replicate n (u8 v) ++ drop n p).
Proof.
  revert p. induction n as [|n IH]; intros [|x p] H; simpl in *; try (done || lia).
  rewrite IH by lia. done.
Qed.

Lemma memcpy_spec dest src n :
  (n ≤ length dest)%nat → (n ≤ length src)%nat →
  memcpy dest src n = Some (take n src ++ drop n dest).
Proof.
  revert dest src. induction n as [|n IH]; intros [|x d] [|y s] Hd Hs; simpl in *; try (done || lia).
  rewrite IH by lia. done.
Qed.

(** *** The in-place reversal *)

Lemma swap_ends pre a m b post :
  swap (pre ++ a :: m ++ b :: post) (length pre) (length pre + S (length m)) =
  Some (pre ++ b :: m ++ a :: post).
Proof.
  unfold swap.
  rewrite list_lookup_middle by done.
  replace (pre ++ a :: m ++ b :: post) with ((pre ++ a :: m) ++ b :: post)
    by (rewrite <- app_assoc; done).
  rewrite (list_lookup_middle (pre ++ a :: m)) by (rewrite length_app; simpl; lia).
  f_equal. rewrite <- app_assoc. simpl.
  rewrite insert_app_r_alt by lia. rewrite Nat.sub_diag. simpl.
  rewrite insert_app_r_alt by lia. f_equal.
  replace (length pre + S (length m) - length pre)%nat with (S (length m)) by lia.
  simpl. f_equal. rewrite insert_app_r_alt by lia. by rewrite Nat.sub_diag.
Qed.

Lemma reverse_loop_spec fuel pre mid post :
  (length mid < 2 * fuel)%nat →
  reverse_loop fuel (pre ++ mid ++ post) (Z.of_nat (length pre))
    (Z.of_nat (length pre) + Z.of_nat (length mid) - 1) = Some (pre ++ rev mid ++ post).
Proof.
  revert pre mid post. induction fuel as [|f IH]; intros pre mid post Hf; [lia|].
  simpl. destruct mid as [|a mid].
  { simpl. by zcase. }
  destruct mid as [|b m _] using rev_ind.
  { simpl. by zcase. }
  simpl. rewrite length_app in *. simpl in *. rewrite <- !app_assoc. simpl.
  zcase. rewrite Nat2Z.id.
  replace (Z.to_nat _) with (length pre + S (length m))%nat by lia.
  rewrite swap_ends. simpl.
  specialize (IH (pre ++ [b]) m (a :: post)).
  rewrite length_app in IH. simpl in IH. rewrite <- !app_assoc in IH. simpl in IH.
  rewrite rev_app_distr. simpl. rewrite length_app in Hf. simpl in Hf.
  rewrite <- IH by lia. f_equal; lia.
Qed.

Lemma reverse_str_rev l : reverse_str l = Some (rev l).
Proof.
  unfold reverse_str. pose proof (reverse_loop_spec (S (length l)) [] l [] ltac:(lia)) as H.
  simpl in H. rewrite !app_nil_r in H. exact H.
Qed.
