(* ===== verification/KStdio.v ===== *)
(** * klibc/stdio.c: number conversion

    [utoa] and [itoa] write into a caller's buffer; the model returns the
    characters they leave there before the terminating zero.  [reverse] is
    the loop [KString.reverse_loop]. *)

From S2P Require Import Prelude KString.

Open Scope Z_scope.
Open Scope c_scope.

(** [(rem > 9) ? (rem - 10) + 'a' : rem + '0'] *)
Definition digit_char (rem : Z) : Z := if rem >? 9 then rem - 10 + 97 else rem + 48.

(** [while (value != 0)]: the digits from the least significant one. *)
Fixpoint utoa_loop (fuel : nat) (value base : Z) : option (list Z) :=
  match fuel with
  | O => None
  | S f =>
      if value =? 0 then Some []
      else cons (digit_char (value mod base)) <$> utoa_loop f (value / base) base
  end.

(** 33 rounds end the loop for every 32-bit value and every base from 2 on. *)
Definition utoa (value base : Z) : option (list Z) :=
  if value =? 0 then Some (str "0")
  else ds ← utoa_loop 33 value base; reverse_str ds.

(** [value] is an [int32_t]; the negation wraps as the machine's does. *)
Definition itoa (value base : Z) : option (list Z) :=
  if value =? 0 then Some (str "0")
  else
    let is_negative := (value <? 0) && (base =? 10) in
    let uvalue := if is_negative then u32 (- value) else u32 value in
    ds ← utoa_loop 33 uvalue base;
    reverse_str (if is_negative then ds ++ str "-" else ds).

(** ** Reading numbers back *)

Definition digit_val (c : Z) : Z := if c <=? 57 then c - 48 else c - 87.

(** The value of a digit string, most significant digit first. *)
Definition parse (base : Z) (s : list Z) : Z :=
  foldl (λ acc c, acc * base + digit_val c) 0 s.

(** The same from the least significant digit. *)
Fixpoint parse_lsb (base : Z) (ds : list Z) : Z :=
  match ds with
  | [] => 0
  | c :: ds' => digit_val c + base * parse_lsb base ds'
  end.

Definition is_digit (base c : Z) : Prop :=
  0 ≤ digit_val c < base ∧ c = digit_char (digit_val c).

Lemma parse_rev base ds : parse base (rev ds) = parse_lsb base ds.
Proof.
  unfold parse. induction ds as [|c ds IH]; [done|]. simpl.
  rewrite foldl_app. simpl. rewrite IH. lia.
Qed.

Lemma digit_val_char d : 0 ≤ d < 36 → digit_val (digit_char d) = d.
Proof. intros. unfold digit_char. zcase; unfold digit_val; zcase; lia. Qed.

Lemma is_digit_char base d : 0 ≤ d < base → base ≤ 36 → is_digit base (digit_char d).
Proof. intros. split; rewrite digit_val_char; lia. Qed.

Lemma div_lt_pow base v k : 0 < base → 0 ≤ v < base ^ Z.of_nat (S k) → 0 ≤ v / base < base ^ Z.of_nat k.
Proof.
  intros Hb [Hv Hlt]. split; [by apply Z.div_pos|].
  apply Z.div_lt_upper_bound; [done|]. rewrite Nat2Z.inj_succ, Z.pow_succ_r in Hlt by lia. lia.
Qed.

Lemma utoa_loop_spec fuel k v base :
  2 ≤ base ≤ 36 → (k < fuel)%nat → 0 ≤ v < base ^ Z.of_nat k →
  ∃ ds, utoa_loop fuel v base = Some ds ∧ parse_lsb base ds = v ∧
        Forall (is_digit base) ds ∧ (length ds ≤ k)%nat ∧
        (0 < v → ∃ d ds', ds = ds' ++ [d] ∧ d ≠ 48).
Proof.
  intros Hb. revert k v. induction fuel as [|f IH]; intros k v Hk Hv; [lia|]. simpl.
  zcase.
  { exists []. split_and!; [done|simpl; lia|constructor|simpl; lia|lia]. }
  destruct k as [|k]; [simpl in Hv; lia|].
  destruct (IH k (v / base)) as (ds & E & Hp & Hd & Hl & Hm); [lia|by apply div_lt_pow; [lia|]|].
  pose proof (Z.mod_pos_bound v base) as Hmod.
  pose proof (Z.div_mod v base) as Hdm.
  rewrite E. simpl. exists (digit_char (v mod base) :: ds). split_and!; [done| | | |].
  - simpl. rewrite digit_val_char, Hp by lia. lia.
  - constructor; [|done]. apply is_digit_char; lia.
  - simpl. lia.
  - intros _. destruct (Z.eq_dec (v / base) 0) as [H0|H0].
    + exists (digit_char (v mod base)), []. split.
      * destruct f; simpl in E; [done|]. rewrite H0 in E. simpl in E. by simplify_eq.
      * unfold digit_char. zcase; lia.
    + assert (0 ≤ v / base) by (apply Z.div_pos; lia).
      destruct Hm as (d & ds' & -> & Hd0); [lia|]. by exists d, (digit_char (v mod base) :: ds').
Qed.

(** More fuel does not change a result. *)
Lemma utoa_loop_mono fuel fuel' v base ds :
  utoa_loop fuel v base = Some ds → (fuel ≤ fuel')%nat → utoa_loop fuel' v base = Some ds.
Proof.
  revert fuel' v ds. induction fuel as [|f IH]; intros [|f'] v ds E Hle; [done|done|lia|].
  simpl in *. destruct (v =? 0); [done|].
  destruct (utoa_loop f (v / base) base) as [ds'|] eqn:E'; [|done].
  rewrite (IH f' _ _ E'); [done|lia].
Qed.

Lemma pow32_le base : 2 ≤ base → 4294967296 ≤ base ^ 32.
Proof. intros. change 4294967296 with (2 ^ 32). apply Z.pow_le_mono_l. lia. Qed.

(** What [utoa] produces: the canonical numeral of the value. *)
Record numeral (base v : Z) (s : list Z) : Prop := {
  numeral_parse : parse base s = v;
  numeral_digits : Forall (is_digit base) s;
  numeral_lead : 0 < v → ∃ d s', s = d :: s' ∧ d ≠ 48;
  numeral_zero : v = 0 → s = str "0"
}.

Lemma utoa_numeral_len v base k :
  2 ≤ base ≤ 36 → 0 ≤ v < 4294967296 → v < base ^ Z.of_nat k → (1 ≤ k)%nat →
  ∃ s, utoa v base = Some s ∧ numeral base v s ∧ (length s ≤ k)%nat.
Proof.
  intros Hb Hv Hk Hk1. unfold utoa. zcase.
  - subst v. exists (str "0"). split; [done|]. split; [|simpl; lia].
    split; [done| |lia|done]. constructor; [|constructor].
    split; unfold digit_val, digit_char; simpl; lia.
  - pose proof (pow32_le base).
    destruct (utoa_loop_spec 33 (Nat.min k 32) v base) as (ds & -> & Hp & Hd & Hl & Hm); [done|lia| |].
    { split; [lia|]. destruct (Nat.min_spec k 32) as [[_ ->]|[_ ->]]; simpl; lia. }
    simpl. rewrite reverse_str_rev. exists (rev ds). split; [done|]. split.
    + split; [by rewrite parse_rev| | |lia].
      * by apply Forall_rev.
      * intros _. destruct Hm as (d & ds' & -> & Hd0); [lia|].
        exists d, (rev ds'). by rewrite rev_app_distr.
    + rewrite length_rev. lia.
Qed.

(** ** uitoa computes the same numeral *)

Lemma hex_digits_lookup d : 0 ≤ d < 16 → hex_digits !! Z.to_nat d = Some (digit_char d).
Proof.
  intros H. assert (Z.to_nat d < 16)%nat as Hn by lia.
  replace d with (Z.of_nat (Z.to_nat d)) at 2 by lia.
  generalize (Z.to_nat d) Hn. clear. intros n Hn.
  do 16 (destruct n as [|n]; [reflexivity|]). lia.
Qed.

Lemma uitoa_loop_utoa fuel v base :
  2 ≤ base ≤ 16 → 0 < v → v < base ^ Z.of_nat fuel →
  uitoa_loop fuel v base = utoa_loop (S fuel) v base.
Proof.
  intros Hb. revert v. induction fuel as [|f IH]; intros v Hv Hlt; [simpl in Hlt; lia|].
  pose proof (Z.mod_pos_bound v base). pose proof (Z.div_mod v base).
  cbn [uitoa_loop]. change (utoa_loop (S (S f)) v base) with
    (if v =? 0 then Some []
     else cons (digit_char (v mod base)) <$> utoa_loop (S f) (v / base) base).
  replace (v - v / base * base) with (v mod base) by lia.
  rewrite hex_digits_lookup by lia. simpl mbind. zcase.
  destruct (div_lt_pow base v f) as [Hd1 Hd2]; [lia|lia|].
  unfold truth. destruct (Z.eqb_spec (v / base) 0) as [->|Hne]; simpl negb; cbn iota.
  - done.
  - rewrite IH by lia. done.
Qed.

Lemma uitoa_utoa v base :
  2 ≤ base ≤ 16 → 0 ≤ v < 4294967296 → uitoa v base = utoa v base.
Proof.
  intros Hb Hv. unfold uitoa, utoa. zcase; [done|].
  pose proof (pow32_le base). rewrite uitoa_loop_utoa; [done|lia|lia|simpl; lia].
Qed.

(** ** itoa *)

Lemma itoa_spec v :
  -2147483648 ≤ v < 2147483648 →
  ∃ s, numeral 10 (Z.abs v) s ∧ (length s ≤ 10)%nat ∧
       itoa v 10 = Some (if v <? 0 then str "-" ++ s else s).
Proof.
  intros Hv. destruct (utoa_numeral_len (Z.abs v) 10 10) as (s & E & Hn & Hl); [lia|lia|lia|lia|].
  exists s. split; [done|]. split; [done|]. revert E. unfold itoa, utoa.
  destruct (Z.eqb_spec v 0) as [->|Hne]; [by intros [= <-]|].
  destruct (Z.eqb_spec (Z.abs v) 0); [lia|]. rewrite andb_true_r.
  replace (if v <? 0 then u32 (- v) else u32 v) with (Z.abs v)
    by (zcase; rewrite u32_small; lia).
  destruct (utoa_loop 33 (Z.abs v) 10) as [ds|]; simpl; [|done].
  rewrite !reverse_str_rev. intros [= <-]. zcase; [|done]. by rewrite rev_app_distr.
Qed.
