(* ===== verification/Console.v ===== *)
(** * The console as kernel code sees it (drivers/screen.c: kprint and friends)

    Kernel code prints by calling [kprint]; the console is modelled as the
    sequence of bytes printed so far, which is also what [serial_putc] sends
    to the serial line for each of them.  [io S] is a component's state next
    to that log. *)

From S2P Require Import Prelude KString KStdio.

Open Scope Z_scope.
Open Scope c_scope.

Record io (S : Type) : Type := IO { st : S; con : list Z }.
Arguments IO {S} _ _.
Arguments st {S} _.
Arguments con {S} _.

Definition kprint {S} (msg : list Z) : M (io S) () :=
  λ s, Some ((), IO (st s) (con s ++ msg)).

(** Component code that does not print, run inside [io]. *)
Definition quiet {S A} (c : M S A) : M (io S) A :=
  zoom st (λ t s, IO t (con s)) c.

(** Code of a component run by a client whose state contains it. *)
Definition zoom_io {S T A} (get_part : S → T) (set_part : T → S → S)
    (c : M (io T) A) : M (io S) A :=
  zoom (λ s, IO (get_part (st s)) (con s)) (λ t s, IO (set_part (st t) (st s)) (con t)) c.

(** ** kprint_hex: "0x" and eight upper-case digits *)

Definition hex_chars : list Z := str "0123456789ABCDEF".

(** [for (i = 9; i >= 2; i--)]: one digit per round, filled from the right. *)
Fixpoint hex_loop (n : nat) (value : Z) (acc : list Z) : list Z :=
  match n with
  | O => acc
  | S n' =>
      hex_loop n' (Z.shiftr value 4)
        (default 0 (hex_chars !! Z.to_nat (Z.land value 15)) :: acc)
  end.

Definition kprint_hex {S} (value : Z) : M (io S) () :=
  kprint (str "0x" ++ hex_loop 8 value []).

(** ** kprint_uint: decimal digits, then an in-place reversal *)

Fixpoint uint_loop (fuel : nat) (temp : Z) : option (list Z) :=
  match fuel with
  | O => None
  | S f =>
      if temp >? 0 then cons (48 + temp mod 10) <$> uint_loop f (temp / 10) else Some []
  end.

(** [for (j = 0; j < i / 2; j++)] exchange [num_str[j]] and [num_str[i-1-j]]. *)
Fixpoint reverse_for (n : nat) (j : nat) (l : list Z) : option (list Z) :=
  match n with
  | O => Some l
  | S n' => l' ← swap l j (length l - 1 - j)%nat; reverse_for n' (S j) l'
  end.

(** The contents of [num_str] before its terminator. *)
Definition uint_str (value : Z) : option (list Z) :=
  if value =? 0 then Some (str "0")
  else ds ← uint_loop 11 value; reverse_for (length ds / 2) 0 ds.

Definition kprint_uint {S} (value : Z) : M (io S) () :=
  s ← of_option (uint_str value); kprint s.

(** ** Facts *)

Lemma kprint_run {S} msg (s : S) c : kprint msg (IO s c) = Some ((), IO s (c ++ msg)).
Proof. done. Qed.

Lemma quiet_run {S A} (c : M S A) s k a s' :
  c s = Some (a, s') → quiet c (IO s k) = Some (a, IO s' k).
Proof. intros E. unfold quiet, zoom. simpl. by rewrite E. Qed.

Lemma length_swap l i j l' : swap l i j = Some l' → length l' = length l.
Proof.
  unfold swap. destruct (l !! i), (l !! j); intros; simplify_eq. by rewrite !length_insert.
Qed.

(** The counted reversal is the two-pointer one. *)
Lemma reverse_for_loop n j l :
  (n = length l / 2 - j)%nat → (j ≤ length l / 2)%nat →
  reverse_for n j l =
  reverse_loop (S n) l (Z.of_nat j) (Z.of_nat (length l) - 1 - Z.of_nat j).
Proof.
  revert j l. induction n as [|n IH]; intros j l Hn Hj;
    pose proof (Nat.div_mod_eq (length l) 2); pose proof (Nat.mod_upper_bound (length l) 2).
  - simpl. zcase. done.
  - cbn [reverse_for]. change (reverse_loop (S (S n)) l ?a ?b) with
      (if a <? b then l' ← swap l (Z.to_nat a) (Z.to_nat b); reverse_loop (S n) l' (a + 1) (b - 1)
       else Some l). zcase.
    rewrite Nat2Z.id. replace (Z.to_nat _) with (length l - 1 - j)%nat by lia.
    destruct (swap l j (length l - 1 - j)%nat) as [l'|] eqn:E; [|done]. cbn [mbind option_bind].
    apply length_swap in E. rewrite IH by (rewrite E; lia). f_equal; lia.
Qed.

Lemma reverse_for_rev l : reverse_for (length l / 2) 0 l = Some (rev l).
Proof.
  pose proof (Nat.div_mod_eq (length l) 2). pose proof (Nat.mod_upper_bound (length l) 2).
  rewrite reverse_for_loop by lia.
  pose proof (reverse_loop_spec (S (length l / 2)) [] l [] ltac:(lia)) as Hr.
  cbn [app length] in Hr. rewrite !app_nil_r in Hr. rewrite <- Hr. f_equal; lia.
Qed.

Lemma uint_loop_utoa fuel v : 0 ≤ v → uint_loop fuel v = utoa_loop fuel v 10.
Proof.
  revert v. induction fuel as [|f IH]; intros v Hv; [done|]. cbn [uint_loop utoa_loop].
  assert (0 ≤ v / 10) by (apply Z.div_pos; lia). rewrite IH by done.
  pose proof (Z.mod_pos_bound v 10). unfold digit_char.
  repeat zcase; try done. do 2 f_equal. lia.
Qed.

(** [kprint_uint] prints the canonical decimal numeral, and the ten digits
    plus terminator always fit its 11-byte buffer. *)
Lemma uint_str_numeral v :
  0 ≤ v < 4294967296 →
  ∃ s, uint_str v = Some s ∧ numeral 10 v s ∧ (length s ≤ 10)%nat.
Proof.
  intros Hv. destruct (utoa_numeral_len v 10 10) as (s & E & Hn & Hl); [lia..|].
  exists s. split; [|done]. revert E. unfold uint_str, utoa. zcase; [done|].
  rewrite uint_loop_utoa by lia.
  destruct (utoa_loop_spec 11 10 v 10) as (ds & E & _); [lia..|].
  destruct (utoa_loop_spec 33 10 v 10) as (ds' & E' & _); [lia..|].
  rewrite (utoa_loop_mono 11 33 v 10 ds E) by lia. rewrite E.
  cbn [mbind option_bind]. by rewrite reverse_for_rev, reverse_str_rev.
Qed.

(** Printing inside a sequence: the log grows, the rest goes on. *)
Lemma kprint_seq {S B} msg (k : M (io S) B) s c :
  (kprint msg ;; k) (IO s c) = k (IO s (c ++ msg)).
Proof. done. Qed.

Lemma kprint_hex_seq {S B} v (k : M (io S) B) s c :
  (kprint_hex v ;; k) (IO s c) = k (IO s (c ++ str "0x" ++ hex_loop 8 v [])).
Proof. done. Qed.

Lemma kprint_uint_run {S} v num (s : S) c :
  uint_str v = Some num → kprint_uint v (IO s c) = Some ((), IO s (c ++ num)).
Proof. intros E. unfold kprint_uint. rewrite bind_run, E. done. Qed.

Lemma kprint_uint_seq {S B} v num (k : M (io S) B) s c :
  uint_str v = Some num → (kprint_uint v ;; k) (IO s c) = k (IO s (c ++ num)).
Proof. intros E. by rewrite (bind_Some _ _ _ _ _ (kprint_uint_run v num s c E)). Qed.

Create Rewrite HintDb console.
#[export] Hint Rewrite @kprint_seq @kprint_hex_seq @kprint_run : console.
