(* ===== verification/KPrintf.v ===== *)
(** * klibc/stdio.c: kprintf

    The variable arguments are a list of machine words and string pointers;
    taking an argument of the wrong kind, or one more than were passed, has
    no defined outcome.  A format is the bytes from the pointer on and must
    contain its terminator. *)

From S2P Require Import Prelude KString KStdio Console.

Open Scope Z_scope.
Open Scope c_scope.

(** An argument: a word, or a string ([None] is [NULL]). *)
Inductive va := VInt (v : Z) | VStr (s : option (list Z)).

(** The characters of a C string: the bytes before the terminator. *)
Fixpoint cstr (s : list Z) : option (list Z) :=
  match s with
  | [] => None
  | c :: s' => if truth c then cons c <$> cstr s' else Some []
  end.

(** [va_arg(args, int)] and [va_arg(args, char* )]: take an argument and
    turn it into characters with [k]. *)
Definition va_int (args : list va) (k : Z → option (list Z)) : option (list Z * list va) :=
  match args with VInt v :: rest => (λ s, (s, rest)) <$> k v | _ => None end.
Definition va_str (args : list va) (k : option (list Z) → option (list Z)) : option (list Z * list va) :=
  match args with VStr p :: rest => (λ s, (s, rest)) <$> k p | _ => None end.

(** A one-character string is empty if the character is the terminator. *)
Definition char_str (c : Z) : list Z := if truth (u8 c) then [u8 c] else [].

Definition upper_hex (c : Z) : Z := if (97 <=? c) && (c <=? 102) then c - 32 else c.

(** The characters printed for the directive [d] and the arguments left. *)
Definition kprintf_conv (d : Z) (args : list va) : option (list Z * list va) :=
  if (d =? 100) || (d =? 105) then va_int args (λ v, itoa (i32 v) 10)         (* d, i *)
  else if d =? 117 then va_int args (λ v, utoa (u32 v) 10)                    (* u *)
  else if d =? 120 then va_int args (λ v, utoa (u32 v) 16)                    (* x *)
  else if d =? 88 then va_int args (λ v, option_map (map upper_hex) (utoa (u32 v) 16))  (* X *)
  else if d =? 99 then va_int args (λ v, Some (char_str v))                   (* c *)
  else if d =? 115 then                                                       (* s *)
    va_str args (λ p, match p with None => Some (str "(null)") | Some s => cstr s end)
  else if d =? 112 then va_int args (λ v, option_map (app (str "0x")) (utoa (u32 v) 16)) (* p *)
  else if d =? 37 then Some (str "%", args)                                   (* %% *)
  else Some (37 :: char_str d, args).

(** Everything the loop over the format prints. *)
Fixpoint kprintf_text (format : list Z) (args : list va) : option (list Z) :=
  match format with
  | [] => None
  | c :: rest =>
      if c =? 0 then Some []
      else
        match rest with
        | d :: rest' =>
            if (c =? 37) && negb (d =? 0) then
              match kprintf_conv d args with
              | Some (piece, args') => app piece <$> kprintf_text rest' args'
              | None => None
              end
            else cons c <$> kprintf_text rest args
        | [] => None
        end
  end.

Definition kprintf {S} (format : list Z) (args : list va) : M (io S) () :=
  text ← of_option (kprintf_text format args); kprint text.

(** ** Facts *)

Lemma cstr_app s r : nonzero s → cstr (s ++ 0 :: r) = Some s.
Proof.
  induction s as [|c s IH]; intros Hs; [done|]. apply nonzero_cons in Hs as [Hc Hs].
  cbn [app cstr]. rewrite truth_pos by lia. by rewrite IH.
Qed.

Lemma cstr_nonzero s t : Forall (λ b, 0 ≤ b < 256) s → cstr s = Some t → nonzero t.
Proof.
  revert t. induction s as [|c s IH]; intros t Hs E; [done|].
  apply Forall_cons_iff in Hs as [Hc Hs]. cbn [cstr] in E. unfold truth in E.
  destruct (Z.eqb_spec c 0); cbn [negb] in E; [by injection E as <-; constructor|].
  destruct (cstr s) as [u|]; [|done]. injection E as <-. apply nonzero_cons. split; [lia|]. by apply IH.
Qed.

(** Text without directives is printed as it is. *)
Lemma kprintf_text_plain s r args :
  nonzero s → Forall (λ c, c ≠ 37) s → kprintf_text (s ++ 0 :: r) args = Some s.
Proof.
  induction s as [|c s IH]; intros Hs Hp; [done|].
  apply nonzero_cons in Hs as [Hc Hs]. apply Forall_cons_iff in Hp as [Hc' Hp].
  cbn [app kprintf_text]. destruct (Z.eqb_spec c 0); [lia|]. destruct (Z.eqb_spec c 37); [done|].
  cbn [andb]. rewrite IH by done. by destruct s.
Qed.
