(* ===== verification/Screen.v ===== *)
(** * drivers/screen.c: the text console

    The video memory is the 4000 bytes at 0xB8000, two per cell; the cursor
    lives in the VGA controller, which the driver reaches through an index
    and a data port.  A write outside the video memory has no defined
    outcome.  [Terminal] is what the driver is meant to be: 2000 cells and a
    position, with wrapping and scrolling. *)

From S2P Require Import Prelude KString KStdio Console.

Open Scope Z_scope.
Open Scope c_scope.

Definition MAX_ROWS : Z := 25.
Definition MAX_COLS : Z := 80.
Definition WHITE_ON_BLACK : Z := 0x0f.
Definition REG_SCREEN_CTRL : Z := 0x3d4.
Definition REG_SCREEN_DATA : Z := 0x3d5.

(** ** The devices *)

(** [crtc] holds the registers of the VGA controller; [serial] the bytes sent
    to the serial line. *)
Record screen := Screen {
  vidmem : list Z;
  crtc_index : Z;
  crtc : gmap Z Z;
  current_color : Z;
  serial : list Z
}.

Definition upd_vidmem (f : list Z → list Z) (s : screen) : screen :=
  Screen (f (vidmem s)) (crtc_index s) (crtc s) (current_color s) (serial s).
Definition set_index (i : Z) (s : screen) : screen :=
  Screen (vidmem s) i (crtc s) (current_color s) (serial s).
Definition upd_crtc (f : gmap Z Z → gmap Z Z) (s : screen) : screen :=
  Screen (vidmem s) (crtc_index s) (f (crtc s)) (current_color s) (serial s).
Definition set_color (c : Z) (s : screen) : screen :=
  Screen (vidmem s) (crtc_index s) (crtc s) c (serial s).
Definition send (c : Z) (s : screen) : screen :=
  Screen (vidmem s) (crtc_index s) (crtc s) (current_color s) (serial s ++ [c]).

(** The two ports of the controller (the driver uses no other). *)
Definition port_byte_out (port data : Z) : M screen () :=
  if port =? REG_SCREEN_CTRL then modify (set_index (u8 data))
  else if port =? REG_SCREEN_DATA then modify (λ s, upd_crtc <[crtc_index s := u8 data]> s)
  else fault.
Definition port_byte_in (port : Z) : M screen Z :=
  if port =? REG_SCREEN_DATA then gets (λ s, default 0 (crtc s !! crtc_index s)) else fault.

(** drivers/serial.c: the polling loop ends when the line is ready, which is
    up to the device; then the byte is sent. *)
Definition serial_putc (c : Z) : M screen () := modify (send (u8 c)).

(** [vidmem[offset] = v] *)
Definition vid_write (offset v : Z) : M screen () :=
  s ← get;
  if (0 <=? offset) && (offset <? Z.of_nat (length (vidmem s)))
  then put (upd_vidmem (<[Z.to_nat offset := u8 v]>) s) else fault.
Definition vid_read (offset : Z) : M screen Z :=
  s ← get;
  if 0 <=? offset then of_option (vidmem s !! Z.to_nat offset) else fault.

(** ** Offsets (C division rounds towards zero) *)

Definition get_offset (col row : Z) : Z := 2 * (row * MAX_COLS + col).
Definition get_offset_row (offset : Z) : Z := Z.quot offset (2 * MAX_COLS).
Definition get_offset_col (offset : Z) : Z := Z.quot offset 2 - get_offset_row offset * MAX_COLS.

(** ** The cursor *)

Definition get_cursor_offset : M screen Z :=
  port_byte_out REG_SCREEN_CTRL 14 ;;
  hi ← port_byte_in REG_SCREEN_DATA;
  let offset := Z.shiftl hi 8 in
  port_byte_out REG_SCREEN_CTRL 15 ;;
  lo ← port_byte_in REG_SCREEN_DATA;
  mret ((offset + lo) * 2).

Definition set_cursor_offset (offset : Z) : M screen () :=
  let offset := Z.quot offset 2 in
  port_byte_out REG_SCREEN_CTRL 14 ;;
  port_byte_out REG_SCREEN_DATA (u8 (Z.shiftr offset 8)) ;;
  port_byte_out REG_SCREEN_CTRL 15 ;;
  port_byte_out REG_SCREEN_DATA (u8 (Z.land offset 0xff)).

(** ** Drawing *)

(** The body of the loop that moves a row up. *)
Definition move_cell (row col : Z) : M screen () :=
  let src_offset := get_offset col row in
  let dst_offset := get_offset col (row - 1) in
  v ← vid_read src_offset;
  vid_write dst_offset v ;;
  v ← vid_read (src_offset + 1);
  vid_write (dst_offset + 1) v.

(** A blank at an offset. *)
Definition blank_cell (offset : Z) : M screen () :=
  vid_write offset 32 ;;
  s ← get;
  vid_write (offset + 1) (current_color s).

Definition scroll_screen : M screen () :=
  for_loop (Z.to_nat (MAX_ROWS - 1)) 1 (λ row, for_loop (Z.to_nat MAX_COLS) 0 (move_cell row)) ;;
  for_loop (Z.to_nat MAX_COLS) 0 (λ col, blank_cell (get_offset col (MAX_ROWS - 1))).

Definition clear_screen : M screen () :=
  for_loop (Z.to_nat (MAX_COLS * MAX_ROWS)) 0 (λ i, blank_cell (i * 2)) ;;
  set_cursor_offset (get_offset 0 0).

Definition set_text_color (color : Z) : M screen () := modify (set_color color).
Definition get_text_color (s : screen) : Z := current_color s.

Definition print_char (c col row attr : Z) : M screen Z :=
  s ← get;
  let attr := if truth attr then attr else current_color s in
  offset ← (if (0 <=? col) && (0 <=? row) then mret (get_offset col row) else get_cursor_offset);
  offset ← (if c =? 10 then
              let row := get_offset_row offset in mret (get_offset 0 (row + 1))
            else
              vid_write offset c ;; vid_write (offset + 1) attr ;; mret (offset + 2));
  offset ← (if offset >=? MAX_ROWS * MAX_COLS * 2 then
              scroll_screen ;; mret (get_offset 0 (MAX_ROWS - 1))
            else mret offset);
  set_cursor_offset offset ;;
  mret offset.

(** The loop over the message: [msg] is a C string. *)
Fixpoint print_loop (msg : list Z) (col row : Z) : M screen () :=
  match msg with
  | [] => fault
  | c :: msg' =>
      if c =? 0 then mret ()
      else
        s ← get;
        offset ← print_char c col row (current_color s);
        serial_putc c ;;
        print_loop msg' (get_offset_col offset) (get_offset_row offset)
  end.

Definition kprint_at (msg : list Z) (col row : Z) : M screen () :=
  if (0 <=? col) && (0 <=? row) then print_loop msg col row
  else
    offset ← get_cursor_offset;
    print_loop msg (get_offset_col offset) (get_offset_row offset).

(** [kprint(message)] of the driver. *)
Definition kprint_screen (message : list Z) : M screen () := kprint_at message (-1) (-1).

Definition kprint_backspace : M screen () :=
  offset ← get_cursor_offset;
  if offset >? 0 then
    let offset := offset - 2 in
    blank_cell offset ;;
    set_cursor_offset offset
  else mret ().
