(* ===== verification/ScreenSpec.v ===== *)
(** * The text console is a terminal

    The abstract terminal has 2000 cells of a character and an attribute and
    a position; printing a character writes a cell and advances, a newline
    moves to the next row, and past the last row everything moves up by one
    row.  The driver refines it, cell for cell. *)

From S2P Require Import Prelude KString KStdio Console Screen.

Open Scope Z_scope.
Open Scope c_scope.

(** ** The abstract terminal *)

Abbreviation cell := (Z * Z)%type.

Record terminal := Terminal { cells : list cell; pos : nat }.

(** Everything moves up one row; the last one becomes blank. *)
Definition scroll_up (color : Z) (l : list cell) : list cell := drop 80 l ++ replicate 80 (32, color).

Definition advance (color : Z) (l : list cell) (p : nat) : terminal :=
  if (2000 <=? p)%nat then Terminal (scroll_up color l) 1920 else Terminal l p.

Definition term_put (color : Z) (t : terminal) (c : Z) : terminal :=
  if c =? 10 then advance color (cells t) (80 * (pos t / 80 + 1))
  else advance color (<[pos t := (c, color)]> (cells t)) (pos t + 1).

(** ** Cells and bytes *)

Fixpoint flat (l : list cell) : list Z :=
  match l with [] => [] | (c, a) :: l' => c :: a :: flat l' end.

Lemma length_flat l : length (flat l) = (2 * length l)%nat.
Proof. induction l as [|[c a] l IH]; [done|]. cbn [flat length]. lia. Qed.

Lemma flat_lookup l i c a :
  l !! i = Some (c, a) → flat l !! (2 * i)%nat = Some c ∧ flat l !! S (2 * i)%nat = Some a.
Proof.
  revert i. induction l as [|[c' a'] l IH]; intros [|i] E; [done|done| |].
  - by injection E as -> ->.
  - replace (2 * S i)%nat with (S (S (2 * i))) by lia. by apply IH.
Qed.

Lemma flat_insert l i c a :
  (i < length l)%nat → <[S (2 * i)%nat := a]> (<[(2 * i)%nat := c]> (flat l)) = flat (<[i := (c, a)]> l).
Proof.
  revert i. induction l as [|[c' a'] l IH]; intros [|i] Hi; cbn [length] in Hi; [lia|lia|done|].
  replace (2 * S i)%nat with (S (S (2 * i))) by lia. cbn. do 2 f_equal. apply IH. lia.
Qed.

Definition byte_cells (l : list cell) : Prop := Forall (λ x, 0 ≤ fst x < 256 ∧ 0 ≤ snd x < 256) l.

(** The video memory of a screen showing [l]. *)
Definition show (l : list cell) (s : screen) : screen := upd_vidmem (λ _, flat l) s.

Lemma show_show l l' s : show l (show l' s) = show l s.
Proof. done. Qed.

Lemma vid_write_run s off v :
  (off < length (vidmem s))%nat → vid_write (Z.of_nat off) v s = Some ((), upd_vidmem <[off := u8 v]> s).
Proof. intros H. unfold vid_write. mrun. repeat zcase. cbn [andb]. by rewrite Nat2Z.id. Qed.

Lemma vid_read_run s off v : vidmem s !! off = Some v → vid_read (Z.of_nat off) s = Some (v, s).
Proof. intros H. unfold vid_read. mrun. zcase. by rewrite Nat2Z.id, H. Qed.

(** The bytes of cell [i]. *)
Lemma char_at i : 2 * Z.of_nat i = Z.of_nat (2 * i).
Proof. lia. Qed.
Lemma attr_at i : 2 * Z.of_nat i + 1 = Z.of_nat (S (2 * i)).
Proof. lia. Qed.

(** Writing a cell. *)
Lemma write_cell {A} l s i c a (k : () → M screen A) :
  (i < length l)%nat →
  (vid_write (2 * Z.of_nat i) c ;; vid_write (2 * Z.of_nat i + 1) a ≫= k) (show l s) =
  k () (show (<[i := (u8 c, u8 a)]> l) s).
Proof.
  intros Hi. rewrite attr_at, char_at. rewrite bind_run, vid_write_run by (cbn; rewrite length_flat; lia).
  rewrite bind_run, vid_write_run by (cbn; rewrite length_insert, length_flat; lia).
  f_equal. unfold show, upd_vidmem. cbn [vidmem crtc_index crtc current_color serial]. by rewrite flat_insert.
Qed.

(** Copying the cell one row below, a byte at a time. *)
Lemma copy_cell l s k row col c a :
  byte_cells l → l !! (k + 80)%nat = Some (c, a) → Z.of_nat k = 80 * (row - 1) + col →
  move_cell row col (show l s) = Some ((), show (<[k := (c, a)]> l) s).
Proof.
  intros Hb E Ek. pose proof (lookup_lt_Some _ _ _ E) as Hk.
  unfold move_cell, get_offset, MAX_COLS.
  replace (2 * (row * 80 + col)) with (2 * Z.of_nat (k + 80)) by lia.
  replace (2 * ((row - 1) * 80 + col)) with (2 * Z.of_nat k) by lia.
  destruct (Forall_lookup_1 _ _ _ _ Hb E) as [Hc Ha]. cbn [fst snd] in Hc, Ha.
  destruct (flat_lookup _ _ _ _ E) as [E1 E2]. rewrite !attr_at, !char_at.
  rewrite bind_run, (vid_read_run (show l s) _ c E1). rewrite bind_run, vid_write_run by (cbn; rewrite length_flat; lia).
  rewrite bind_run, (vid_read_run _ _ a) by (cbn; rewrite list_lookup_insert_ne by lia; done).
  rewrite vid_write_run by (cbn; rewrite length_insert, length_flat; lia).
  unfold show, upd_vidmem. cbn [vidmem crtc_index crtc current_color serial].
  by rewrite !u8_small, flat_insert by (done || lia).
Qed.

(** ** Scrolling *)

(** The first [k] cells moved up by a row. *)
Definition scrolled (k : nat) (l : list cell) : list cell := take k (drop 80 l) ++ drop k l.

Lemma length_scrolled k l : (k + 80 ≤ length l)%nat → length (scrolled k l) = length l.
Proof. intros. unfold scrolled. rewrite length_app, length_take, !length_drop. lia. Qed.

Lemma scrolled_step k l x :
  l !! (k + 80)%nat = Some x → scrolled k l !! (k + 80)%nat = Some x ∧ <[k := x]> (scrolled k l) = scrolled (S k) l.
Proof.
  intros E. pose proof (lookup_lt_Some _ _ _ E) as Hk. unfold scrolled.
  assert (length (take k (drop 80 l)) = k) as Hl by (rewrite length_take, length_drop; lia). split.
  - rewrite lookup_app_r, Hl, lookup_drop by lia. by replace (k + (k + 80 - k))%nat with (k + 80)%nat by lia.
  - rewrite insert_app_r_alt, Hl, Nat.sub_diag by lia.
    destruct (lookup_lt_is_Some_2 l k) as [y Hy]; [lia|]. rewrite (drop_S _ _ _ Hy). cbn.
    rewrite (take_S_r _ _ x); [by rewrite <- app_assoc|]. rewrite lookup_drop. by rewrite Nat.add_comm.
Qed.

Lemma scrolled_bytes k l : byte_cells l → byte_cells (scrolled k l).
Proof. intros H. apply Forall_app. split; [by apply Forall_take, Forall_drop|by apply Forall_drop]. Qed.

Lemma scroll_row l s row :
  length l = 2000%nat → byte_cells l → 1 ≤ row < 25 →
  for_loop 80 0 (move_cell row) (show (scrolled (Z.to_nat (80 * (row - 1))) l) s) =
  Some ((), show (scrolled (Z.to_nat (80 * row)) l) s).
Proof.
  intros Hl Hb Hrow.
  destruct (for_loop_inv (λ col t, t = show (scrolled (Z.to_nat (80 * (row - 1) + col)) l) s) (move_cell row) 80 0
    (show (scrolled (Z.to_nat (80 * (row - 1))) l) s)) as (t & -> & ->); [|by rewrite Z.add_0_r|].
  - intros col t Hcol ->. set (k := Z.to_nat (80 * (row - 1) + col)).
    replace (Z.to_nat (80 * (row - 1) + (col + 1))) with (S k) by (unfold k; lia).
    destruct (lookup_lt_is_Some_2 l (k + 80)) as [[c a] E]; [unfold k; lia|].
    destruct (scrolled_step _ _ _ E) as [E' <-]. eexists. split; [|reflexivity].
    apply copy_cell; [by apply scrolled_bytes|done|unfold k; lia].
  - do 4 f_equal. lia.
Qed.

Lemma scroll_rows l s :
  length l = 2000%nat → byte_cells l →
  for_loop 24 1 (λ row, for_loop 80 0 (move_cell row)) (show l s) = Some ((), show (scrolled 1920 l) s).
Proof.
  intros Hl Hb.
  destruct (for_loop_inv (λ row t, t = show (scrolled (Z.to_nat (80 * (row - 1))) l) s)
    (λ row, for_loop 80 0 (move_cell row)) 24 1 (show l s)) as (t & -> & ->); [|done|done].
  intros row t Hrow ->. eexists. split; [apply scroll_row; [done|done|lia]|]. by replace (row + 1 - 1) with row by lia.
Qed.

(** ** Blanks *)

(** The cells from [i] on made blank, [n] of them. *)
Definition blanked (i n : nat) (color : Z) (l : list cell) : list cell :=
  take i l ++ replicate n (32, color) ++ drop (i + n) l.

Lemma blank_cell_run l s i :
  (i < length l)%nat → 0 ≤ current_color s < 256 →
  blank_cell (2 * Z.of_nat i) (show l s) = Some ((), show (<[i := (32, current_color s)]> l) s).
Proof.
  intros Hi Hc. unfold blank_cell. rewrite bind_run, char_at, vid_write_run by (cbn; rewrite length_flat; lia).
  mrun. replace (Z.of_nat (2 * i) + 1) with (Z.of_nat (S (2 * i))) by lia.
  rewrite vid_write_run by (cbn; rewrite length_insert, length_flat; lia).
  unfold show, upd_vidmem. cbn [vidmem crtc_index crtc current_color serial].
  by rewrite !u8_small, flat_insert by lia.
Qed.

Lemma blanked_step i n color l :
  (i + n < length l)%nat → <[(i + n)%nat := (32, color)]> (blanked i n color l) = blanked i (S n) color l.
Proof.
  intros H. unfold blanked. rewrite app_assoc, insert_app_r_alt by (rewrite length_app, length_take, length_replicate; lia).
  rewrite length_app, length_take, length_replicate. replace (i + n - _)%nat with 0%nat by lia.
  destruct (lookup_lt_is_Some_2 l (i + n)) as [y Hy]; [lia|]. rewrite (drop_S _ _ _ Hy). cbn [insert list_insert].
  rewrite <- app_assoc. f_equal. replace (S n) with (n + 1)%nat by lia. rewrite replicate_add, <- app_assoc. cbn.
  do 4 f_equal. lia.
Qed.

Lemma length_blanked i n color l : (i + n ≤ length l)%nat → length (blanked i n color l) = length l.
Proof. intros. unfold blanked. rewrite !length_app, length_take, length_replicate, length_drop. lia. Qed.

Lemma blank_loop l s (f : Z → Z) i n :
  (i + n ≤ length l)%nat → 0 ≤ current_color s < 256 →
  (∀ j, 0 ≤ j < Z.of_nat n → f j = 2 * (Z.of_nat i + j)) →
  for_loop n 0 (λ j, blank_cell (f j)) (show l s) = Some ((), show (blanked i n (current_color s) l) s).
Proof.
  intros Hn Hc Hf.
  destruct (for_loop_inv (λ j t, t = show (blanked i (Z.to_nat j) (current_color s) l) s) (λ j, blank_cell (f j)) n 0
    (show l s)) as (t & -> & ->).
  - intros j t Hj ->. eexists. split; [|reflexivity]. rewrite Hf by lia.
    replace (2 * (Z.of_nat i + j)) with (2 * Z.of_nat (i + Z.to_nat j)) by lia.
    rewrite blank_cell_run by (rewrite ?length_blanked; cbn; lia). do 3 f_equal.
    replace (Z.to_nat (j + 1)) with (S (Z.to_nat j)) by lia. apply blanked_step. lia.
  - change (Z.to_nat 0) with 0%nat. unfold blanked. cbn [replicate app]. by rewrite Nat.add_0_r, take_drop.
  - do 4 f_equal. lia.
Qed.

Lemma scroll_screen_run l s :
  length l = 2000%nat → byte_cells l → 0 ≤ current_color s < 256 →
  scroll_screen (show l s) = Some ((), show (scroll_up (current_color s) l) s).
Proof.
  intros Hl Hb Hc. unfold scroll_screen. rewrite bind_run.
  change (Z.to_nat (MAX_ROWS - 1)) with 24%nat. change (Z.to_nat MAX_COLS) with 80%nat.
  rewrite scroll_rows by done.
  rewrite (blank_loop _ s _ 1920 80); [|rewrite length_scrolled; lia|done|].
  - do 3 f_equal. unfold blanked, scrolled, scroll_up.
    assert (length (drop 80 l) = 1920%nat) as Hd by (rewrite length_drop; lia).
    rewrite (take_ge (drop 80 l)) by lia. rewrite take_app_length' by lia.
    rewrite (drop_ge (drop 80 l ++ drop 1920 l)) by (rewrite length_app, !length_drop; lia). by rewrite app_nil_r.
  - intros j Hj. unfold get_offset, MAX_ROWS, MAX_COLS. lia.
Qed.

(** ** The cursor *)

(** The driver's state [s] shows the terminal [t]. *)
Record shows (s : screen) (t : terminal) : Prop := {
  sh_cells : vidmem s = flat (cells t);
  sh_length : length (cells t) = 2000%nat;
  sh_bytes : byte_cells (cells t);
  sh_pos : (pos t < 2000)%nat;
  sh_hi : crtc s !! 14 = Some (Z.of_nat (pos t) / 256);
  sh_lo : crtc s !! 15 = Some (Z.of_nat (pos t) mod 256);
  sh_color : 0 ≤ current_color s < 256
}.

Lemma get_cursor_run s t :
  shows s t → get_cursor_offset s = Some (2 * Z.of_nat (pos t), set_index 15 s).
Proof.
  intros [_ _ _ _ Hhi Hlo _]. unfold get_cursor_offset, port_byte_out, port_byte_in. mrun.
  cbn [Z.eqb Pos.eqb REG_SCREEN_CTRL REG_SCREEN_DATA set_index crtc crtc_index].
  change (u8 14) with 14. change (u8 15) with 15. rewrite Hhi, Hlo. cbn [default].
  f_equal. f_equal. rewrite Z.shiftl_mul_pow2 by lia. change (2 ^ 8) with 256.
  pose proof (Z.div_mod (Z.of_nat (pos t)) 256). cbn. lia.
Qed.

(** The screen with the cursor at cell [p]. *)
Definition at_pos (p : nat) (s : screen) : screen :=
  set_index 15 (upd_crtc (λ r, <[15 := Z.of_nat p mod 256]> (<[14 := Z.of_nat p / 256]> r)) s).

Lemma set_cursor_run s p :
  Z.of_nat p < 65536 → set_cursor_offset (2 * Z.of_nat p) s = Some ((), at_pos p s).
Proof.
  intros Hp. unfold set_cursor_offset, port_byte_out. mrun.
  cbn [Z.eqb Pos.eqb REG_SCREEN_CTRL REG_SCREEN_DATA set_index upd_crtc crtc crtc_index vidmem current_color serial].
  rewrite Z.mul_comm, Z.quot_mul by lia. unfold at_pos, set_index, upd_crtc. cbn [crtc crtc_index vidmem current_color serial].
  change (u8 14) with 14. change (u8 15) with 15. do 4 f_equal.
  - change 255 with (Z.ones 8). rewrite Z.land_ones by lia. change (2 ^ 8) with 256.
    pose proof (Z.mod_pos_bound (Z.of_nat p) 256). rewrite (u8_small (u8 _)) by apply u8_bound. by rewrite u8_small by lia.
  - rewrite Z.shiftr_div_pow2 by lia. change (2 ^ 8) with 256.
    assert (0 ≤ Z.of_nat p / 256 < 256) by (split; [apply Z.div_pos; lia|apply Z.div_lt_upper_bound; lia]).
    rewrite (u8_small (u8 _)) by apply u8_bound. by rewrite u8_small by lia.
Qed.

(** Showing new cells and moving the cursor. *)
Lemma shows_at s l p :
  length l = 2000%nat → byte_cells l → (p < 2000)%nat → 0 ≤ current_color s < 256 →
  shows (at_pos p (show l s)) (Terminal l p).
Proof.
  intros Hl Hb Hp Hc. split; try done; cbn [at_pos set_index upd_crtc show upd_vidmem crtc cells pos].
  - by rewrite lookup_insert_ne, lookup_insert_eq.
  - by rewrite lookup_insert_eq.
Qed.

(** Clearing blanks the whole screen, whatever it showed, and moves the cursor
    to its first cell. *)
Lemma clear_screen_run s l :
  vidmem s = flat l → length l = 2000%nat → 0 ≤ current_color s < 256 →
  ∃ s', clear_screen s = Some ((), s') ∧ current_color s' = current_color s ∧ serial s' = serial s ∧
    shows s' (Terminal (replicate 2000 (32, current_color s)) 0).
Proof.
  intros Hv Hl Hc. unfold clear_screen. change (Z.to_nat (MAX_COLS * MAX_ROWS)) with 2000%nat.
  assert (show l s = s) as Hshow by (unfold show, upd_vidmem; rewrite <- Hv; by destruct s).
  pose proof (blank_loop l s (λ i, i * 2) 0 2000 ltac:(lia) Hc ltac:(intros; lia)) as E. rewrite Hshow in E.
  rewrite bind_run, E.
  assert (blanked 0 2000 (current_color s) l = replicate 2000 (32, current_color s)) as ->.
  { unfold blanked. rewrite take_0, drop_ge by lia. by rewrite app_nil_r. }
  change (get_offset 0 0) with (2 * Z.of_nat 0). rewrite set_cursor_run by done.
  eexists. split; [reflexivity|]. split; [done|]. split; [done|]. apply shows_at; [done| |lia|done].
  apply Forall_replicate. cbn. lia.
Qed.

(** ** Printing *)

Lemma offset_row p : get_offset_row (2 * Z.of_nat p) = Z.of_nat (p / 80).
Proof.
  unfold get_offset_row, MAX_COLS. rewrite Z.quot_div_nonneg, Nat2Z.inj_div by lia.
  change (2 * 80) with (2 * 80). by rewrite Z.div_mul_cancel_l by lia.
Qed.

Lemma offset_col p : get_offset_col (2 * Z.of_nat p) = Z.of_nat (p mod 80).
Proof.
  unfold get_offset_col. rewrite offset_row, Z.mul_comm, Z.quot_mul by lia. unfold MAX_COLS.
  pose proof (Nat.div_mod_eq p 80). lia.
Qed.

Lemma offset_back p : get_offset (get_offset_col (2 * Z.of_nat p)) (get_offset_row (2 * Z.of_nat p)) = 2 * Z.of_nat p.
Proof. rewrite offset_col, offset_row. unfold get_offset, MAX_COLS. pose proof (Nat.div_mod_eq p 80). lia. Qed.

(** The last steps of [print_char]: scroll if the offset has left the screen,
    then move the cursor. *)
Lemma advance_run l s p :
  length l = 2000%nat → byte_cells l → 0 ≤ current_color s < 256 → (p ≤ 2080)%nat →
  let t := advance (current_color s) l p in
  ((offset ← (if 2 * Z.of_nat p >=? MAX_ROWS * MAX_COLS * 2 then
                scroll_screen ;; mret (get_offset 0 (MAX_ROWS - 1)) else mret (2 * Z.of_nat p));
    set_cursor_offset offset ;; mret offset) : M screen Z) (show l s) =
    Some (2 * Z.of_nat (pos t), at_pos (pos t) (show (cells t) s)) ∧
  shows (at_pos (pos t) (show (cells t) s)) t.
Proof.
  intros Hl Hb Hc Hp t. unfold t, advance. unfold MAX_ROWS, MAX_COLS.
  destruct (Nat.leb_spec 2000 p); cbn [pos cells].
  - rewrite Z.geb_leb. destruct (Z.leb_spec (25 * 80 * 2) (2 * Z.of_nat p)); [|lia]. split.
    + rewrite bind_run, bind_run, scroll_screen_run by done. mrun.
      change (get_offset 0 (25 - 1)) with (2 * Z.of_nat 1920). by rewrite set_cursor_run by lia.
    + apply shows_at; [|apply Forall_app; split; [by apply Forall_drop|apply Forall_replicate; cbn; lia]|lia|done].
      unfold scroll_up. rewrite length_app, length_drop, length_replicate. lia.
  - rewrite Z.geb_leb. destruct (Z.leb_spec (25 * 80 * 2) (2 * Z.of_nat p)); [lia|]. split.
    + mrun. by rewrite set_cursor_run by lia.
    + by apply shows_at.
Qed.

Lemma shows_show s t : shows s t → show (cells t) s = s.
Proof. intros [H _ _ _ _ _ _]. unfold show, upd_vidmem. rewrite <- H. by destruct s. Qed.

Lemma print_char_run s t c :
  shows s t → 0 < c < 256 →
  let p := 2 * Z.of_nat (pos t) in
  let t' := term_put (current_color s) t c in
  ∃ s', print_char c (get_offset_col p) (get_offset_row p) (current_color s) s = Some (2 * Z.of_nat (pos t'), s') ∧
    shows s' t' ∧ current_color s' = current_color s ∧ serial s' = serial s.
Proof.
  intros Hs Hc p t'. pose proof Hs as [_ Hl Hb Hp _ _ Hcol]. unfold print_char.
  rewrite bind_run. cbn [get].
  replace (if truth (current_color s) then current_color s else current_color s) with (current_color s)
    by (by destruct (truth _)).
  assert (0 ≤ get_offset_col p ∧ 0 ≤ get_offset_row p) as [H1 H2] by (unfold p; rewrite offset_col, offset_row; lia).
  apply Z.leb_le in H1, H2. rewrite H1, H2. cbn [andb]. unfold p. rewrite offset_back, bind_run. cbn [mret M_ret].
  pose proof (shows_show _ _ Hs) as Hsame. unfold t', term_put. destruct (Z.eqb_spec c 10) as [->|Hn].
  - destruct (advance_run (cells t) s (80 * (pos t / 80 + 1)) Hl Hb Hcol) as [E Hsh].
    { assert (pos t / 80 < 25)%nat by (apply Nat.Div0.div_lt_upper_bound; lia). lia. }
    eexists. split; [|split; [exact Hsh|done]].
    rewrite bind_run. cbn [mret M_ret]. rewrite offset_row.
    replace (get_offset 0 (Z.of_nat (pos t / 80) + 1)) with (2 * Z.of_nat (80 * (pos t / 80 + 1))).
    2:{ unfold get_offset, MAX_COLS. lia. }
    rewrite Hsame in E at 1. exact E.
  - destruct (advance_run (<[pos t := (c, current_color s)]> (cells t)) s (pos t + 1)) as [E Hsh];
      [by rewrite length_insert|by apply Forall_insert; [|cbn; lia]|done|lia|].
    eexists. split; [|split; [exact Hsh|done]].
    pose proof (write_cell (cells t) s (pos t) c (current_color s)
      (λ _, mret (2 * Z.of_nat (pos t) + 2) : M screen Z) ltac:(lia)) as Ew.
    rewrite !u8_small in Ew by lia. rewrite Hsame in Ew at 1. rewrite bind_run, Ew. cbn [mret M_ret].
    replace (2 * Z.of_nat (pos t) + 2) with (2 * Z.of_nat (pos t + 1)) by lia. exact E.
Qed.

Definition term_print (color : Z) (t : terminal) (msg : list Z) : terminal := foldl (term_put color) t msg.

Lemma print_loop_run msg s t r :
  shows s t → nonzero msg →
  let p := 2 * Z.of_nat (pos t) in
  ∃ s', print_loop (msg ++ 0 :: r) (get_offset_col p) (get_offset_row p) s = Some ((), s') ∧
    shows s' (term_print (current_color s) t msg) ∧ current_color s' = current_color s ∧
    serial s' = serial s ++ msg.
Proof.
  revert s t. induction msg as [|c msg IH]; intros s t Hs Hm p.
  - exists s. by rewrite app_nil_r.
  - apply nonzero_cons in Hm as [Hc Hm]. cbn [app print_loop]. destruct (Z.eqb_spec c 0); [lia|].
    destruct (print_char_run s t c Hs Hc) as (s1 & E1 & Hs1 & Hc1 & Hser1).
    rewrite bind_run. cbn [get]. rewrite (bind_Some _ _ _ _ _ E1). rewrite bind_run. cbn [serial_putc modify].
    assert (shows (send (u8 c) s1) (term_put (current_color s) t c)) as Hs2 by (by destruct Hs1).
    destruct (IH _ _ Hs2 Hm) as (s2 & E2 & Hs3 & Hc2 & Hser2).
    exists s2. split; [exact E2|]. cbn [send current_color serial] in *. rewrite Hc1 in *.
    split; [exact Hs3|]. split; [exact Hc2|]. rewrite Hser2, Hser1, u8_small, <- app_assoc by lia. done.
Qed.

Lemma kprint_screen_run s t msg r :
  shows s t → nonzero msg →
  ∃ s', kprint_screen (msg ++ 0 :: r) s = Some ((), s') ∧
    shows s' (term_print (current_color s) t msg) ∧ current_color s' = current_color s ∧
    serial s' = serial s ++ msg.
Proof.
  intros Hs Hm. unfold kprint_screen, kprint_at. cbn [Z.leb Z.compare andb].
  rewrite (bind_Some _ _ _ _ _ (get_cursor_run s t Hs)).
  apply (print_loop_run msg (set_index 15 s) t r); [|done]. by destruct Hs.
Qed.

(** C31: Printing a string refines the terminal: on a screen that shows [t],
    [kprint] returns, never writes outside the video memory, leaves a screen
    that shows [t] with the characters of the string put one after the other
    (newlines, wrapping and scrolling included), and has sent exactly those
    characters to the serial line. *)
Theorem kprint_refines_terminal s t msg r :
  shows s t → nonzero msg →
  ∃ s', kprint_screen (msg ++ 0 :: r) s = Some ((), s') ∧
    shows s' (term_print (current_color s) t msg) ∧ current_color s' = current_color s ∧
    serial s' = serial s ++ msg.
Proof. apply kprint_screen_run. Qed.

(** [kprint_backspace] undoes the last character of a row that did not
    scroll: on a screen that shows [t] it blanks the cell before the cursor
    and moves there, or does nothing at the top left corner. *)
Theorem kprint_backspace_erases s t :
  shows s t →
  ∃ s', kprint_backspace s = Some ((), s') ∧ serial s' = serial s ∧
    shows s' (match pos t with O => t | S p => Terminal (<[p := (32, current_color s)]> (cells t)) p end).
Proof.
  intros Hs. pose proof Hs as [_ Hl Hb Hp _ _ Hcol]. unfold kprint_backspace.
  rewrite (bind_Some _ _ _ _ _ (get_cursor_run s t Hs)).
  destruct (pos t) as [|p] eqn:Ep.
  - exists (set_index 15 s). split; [done|]. split; [done|]. by destruct Hs.
  - destruct (Z.gtb_spec (2 * Z.of_nat (S p)) 0); [|lia].
    replace (2 * Z.of_nat (S p) - 2) with (2 * Z.of_nat p) by lia.
    assert (set_index 15 s = show (cells t) (set_index 15 s)) as -> by (symmetry; apply shows_show; by destruct Hs).
    rewrite (bind_Some _ _ _ _ _ (blank_cell_run (cells t) (set_index 15 s) p ltac:(lia) Hcol)).
    rewrite set_cursor_run by lia. eexists. split; [reflexivity|]. split; [done|].
    apply (shows_at (set_index 15 s)); [by rewrite length_insert|by apply Forall_insert; [|cbn; lia]|lia|done].
Qed.

(** ** Examples *)

Definition blank_terminal : terminal := Terminal (replicate 2000 (32, 15)) 0.
Definition blank_screen : screen :=
  Screen (flat (replicate 2000 (32, 15))) 15 (<[15 := 0]> (<[14 := 0]> ∅)) 15 [].

Lemma blank_shows : shows blank_screen blank_terminal.
Proof.
  split; cbn [blank_screen blank_terminal vidmem cells pos crtc current_color]; [done| | |lia|done|done|lia].
  - by rewrite length_replicate.
  - apply Forall_replicate. cbn. lia.
Qed.

Lemma demo_msg : nonzero (str "ok" ++ [10]).
Proof. apply (bool_decide_unpack _). vm_compute. exact I. Qed.

Lemma kprint_refines_terminal_witness :
  ∃ s', kprint_screen (str "ok" ++ [10] ++ [0]) blank_screen = Some ((), s') ∧
    shows s' (term_print 15 blank_terminal (str "ok" ++ [10])) ∧ serial s' = str "ok" ++ [10].
Proof.
  destruct (kprint_refines_terminal blank_screen blank_terminal (str "ok" ++ [10]) [] blank_shows demo_msg)
    as (s' & E & Hs & _ & Hser).
  exists s'. split; [exact E|]. split; [exact Hs|exact Hser].
Defined.

Lemma kprint_backspace_erases_witness :
  ∃ s', kprint_backspace blank_screen = Some ((), s') ∧ shows s' blank_terminal.
Proof.
  destruct (kprint_backspace_erases blank_screen blank_terminal blank_shows) as (s' & E & _ & Hs).
  exists s'. split; [exact E|exact Hs].
Defined.
