(* ===== verification/Pmm.v ===== *)
(** * kernel/mem/pmm.c: the physical memory manager

    A bitmap of 4096 bits in 128 words, one per 4 KB frame of the 16 MB
    machine.  The bitmap array sits in the reserved frame at
    [PMM_BITMAP_ADDRESS], so no other component writes to it; it is modelled
    as the list of its words.  An access outside the array faults. *)

From S2P Require Import Prelude KString KStdio Console.

Open Scope Z_scope.
Open Scope c_scope.

(** ** Configuration (pmm.h) *)

Definition TOTAL_MEMORY : Z := 16 * 1024 * 1024.
Definition PAGE_SIZE : Z := 4096.
Definition TOTAL_FRAMES : Z := TOTAL_MEMORY / PAGE_SIZE.
Definition PMM_BITMAP_ADDRESS : Z := 0x200000.
Definition PMM_POOL_START : Z := 0x201000.
Definition PMM_POOL_END : Z := 0xF00000.
Definition BITMAP_INDEX (frame : Z) : Z := frame / 32.
Definition BITMAP_OFFSET (frame : Z) : Z := frame mod 32.

(** ** State *)

Record pmm_t := Pmm {
  total_frames : Z;
  used_frames : Z;
  bitmap : list Z;
  bitmap_size : Z
}.

Definition bm_get (idx : Z) : M pmm_t Z :=
  p ← get; of_option (bitmap p !! Z.to_nat idx).

Definition bm_put (idx w : Z) : M pmm_t () :=
  p ← get;
  if idx <? Z.of_nat (length (bitmap p)) then
    put (Pmm (total_frames p) (used_frames p) (<[Z.to_nat idx := w]> (bitmap p)) (bitmap_size p))
  else fault.

Definition set_used (f : Z → Z) : M pmm_t () :=
  modify (λ p, Pmm (total_frames p) (f (used_frames p)) (bitmap p) (bitmap_size p)).

(** ** Frame bits *)

Definition pmm_set_frame (frame : Z) : M pmm_t () :=
  let idx := BITMAP_INDEX frame in
  let off := BITMAP_OFFSET frame in
  w ← bm_get idx;
  bm_put idx (Z.lor w (u32 (Z.shiftl 1 off))) ;;
  set_used (λ n, n +! 1).

Definition pmm_clear_frame (frame : Z) : M pmm_t () :=
  let idx := BITMAP_INDEX frame in
  let off := BITMAP_OFFSET frame in
  w ← bm_get idx;
  bm_put idx (Z.land w (u32 (Z.lnot (Z.shiftl 1 off)))) ;;
  set_used (λ n, n -! 1).

Definition pmm_test_frame (frame : Z) : M pmm_t bool :=
  let idx := BITMAP_INDEX frame in
  let off := BITMAP_OFFSET frame in
  w ← bm_get idx;
  mret (truth (Z.land w (u32 (Z.shiftl 1 off)))).

(** Outer loop over the words, inner loop over the bits of the first word
    that is not all ones. *)
Definition pmm_first_free_frame : M pmm_t Z :=
  p ← get;
  r ← for_ret (Z.to_nat (bitmap_size p)) 0 (λ i,
        w ← bm_get i;
        if negb (w =? 0xFFFFFFFF) then
          for_ret 32 0 (λ j,
            let bit := u32 (Z.shiftl 1 j) in
            w ← bm_get i;
            if Z.land w bit =? 0 then mret (Some (i * 32 + j)) else mret None)
        else mret None);
  mret (default TOTAL_FRAMES r).

(** ** Initialisation *)

Definition pmm_mark_reserved_regions : M pmm_t () :=
  for_loop 256 0 pmm_set_frame ;;
  for_loop 256 256 pmm_set_frame ;;
  p ← get;
  (let bitmap_start_frame := PMM_BITMAP_ADDRESS / PAGE_SIZE in
   let bitmap_bytes := bitmap_size p * 4 in
   let bitmap_frames := bitmap_bytes / PAGE_SIZE + 1 in
   for_loop (Z.to_nat bitmap_frames) 0 (λ i, pmm_set_frame (bitmap_start_frame + i))) ;;
  for_loop 256 3840 pmm_set_frame.

Definition pmm_init : M pmm_t () :=
  let total := TOTAL_FRAMES in
  let size := (total + 31) / 32 in
  put (Pmm total 0 (replicate (Z.to_nat size) 0) size) ;;
  pmm_mark_reserved_regions.

(** ** Allocation *)

Definition alloc_page : M pmm_t Z :=
  frame ← pmm_first_free_frame;
  if frame =? TOTAL_FRAMES then mret 0
  else pmm_set_frame frame ;; mret (frame *! PAGE_SIZE).

(** The scan of [alloc_pages] from [frame] on, [n] frames to go. *)
Fixpoint alloc_pages_scan (n : nat) (frame start_frame consecutive count : Z) : M pmm_t Z :=
  match n with
  | O => mret 0
  | S n' =>
      used ← pmm_test_frame frame;
      if negb used then
        let start_frame := if consecutive =? 0 then frame else start_frame in
        let consecutive := consecutive + 1 in
        if consecutive =? count then
          for_loop (Z.to_nat count) 0 (λ i, pmm_set_frame (start_frame + i)) ;;
          mret (start_frame *! PAGE_SIZE)
        else alloc_pages_scan n' (frame + 1) start_frame consecutive count
      else alloc_pages_scan n' (frame + 1) start_frame 0 count
  end.

Definition alloc_pages (count : Z) : M pmm_t Z :=
  if count =? 0 then mret 0
  else if count =? 1 then alloc_page
  else p ← get; alloc_pages_scan (Z.to_nat (total_frames p)) 0 0 0 count.

Definition free_page (addr : Z) : M (io pmm_t) () :=
  if negb (addr mod PAGE_SIZE =? 0) then
    kprint (str "ERROR: free_page() - Address not page-aligned: 0x") ;;
    kprint_hex addr ;;
    kprint [10]
  else
    let frame := addr / PAGE_SIZE in
    p ← quiet get;
    if frame >=? total_frames p then
      kprint (str "ERROR: free_page() - Frame out of range: ") ;;
      kprint_uint frame ;;
      kprint [10]
    else
      used ← quiet (pmm_test_frame frame);
      if negb used then
        kprint (str "WARNING: free_page() - Double free detected at 0x") ;;
        kprint_hex addr ;;
        kprint [10]
      else quiet (pmm_clear_frame frame).

(** ** Statistics *)

Definition get_total_memory (p : pmm_t) : Z := total_frames p *! PAGE_SIZE.
Definition get_used_memory (p : pmm_t) : Z := used_frames p *! PAGE_SIZE.
Definition get_free_memory (p : pmm_t) : Z := (total_frames p -! used_frames p) *! PAGE_SIZE.

Definition pmm_status : M (io pmm_t) () :=
  p ← quiet get;
  let total_kb := (total_frames p *! PAGE_SIZE) / 1024 in
  let used_kb := (used_frames p *! PAGE_SIZE) / 1024 in
  let free_kb := total_kb -! used_kb in
  let free_frames := total_frames p -! used_frames p in
  kprint (str "Physical Memory Manager Status:" ++ [10]) ;;
  kprint (str "  Total Memory:  ") ;; kprint_uint total_kb ;; kprint (str " KB (") ;;
  kprint_uint (total_frames p) ;; kprint (str " frames)" ++ [10]) ;;
  kprint (str "  Used Memory:   ") ;; kprint_uint used_kb ;; kprint (str " KB (") ;;
  kprint_uint (used_frames p) ;; kprint (str " frames)" ++ [10]) ;;
  kprint (str "  Free Memory:   ") ;; kprint_uint free_kb ;; kprint (str " KB (") ;;
  kprint_uint free_frames ;; kprint (str " frames)" ++ [10]) ;;
  kprint (str "  Page Size:     ") ;; kprint_uint (PAGE_SIZE / 1024) ;; kprint (str " KB" ++ [10]) ;;
  kprint (str "  Bitmap Size:   ") ;; kprint_uint (bitmap_size p *! 4) ;; kprint (str " bytes (") ;;
  kprint_uint (bitmap_size p) ;; kprint (str " uint32_t)" ++ [10]).

(** ** Specification: which frames are used *)

Definition word_at (p : pmm_t) (i : Z) : Z := default 0 (bitmap p !! Z.to_nat i).
Definition used (p : pmm_t) (f : Z) : bool := Z.testbit (word_at p (f / 32)) (f mod 32).
Definition is_frame (f : Z) : Prop := 0 ≤ f < TOTAL_FRAMES.

(** The representation invariant: the array has its size, its words are
    32-bit, and the counter is the number of bits set. *)
Record pmm_wf (p : pmm_t) : Prop := {
  wf_total : total_frames p = TOTAL_FRAMES;
  wf_size : bitmap_size p = 128;
  wf_len : length (bitmap p) = 128%nat;
  wf_words : Forall (λ w, 0 ≤ w < 2 ^ 32) (bitmap p);
  wf_count : used_frames p = countZ (used p) 0 (Z.to_nat TOTAL_FRAMES)
}.

(** The state after frame [f] has been marked used, resp. free. *)
Definition mark (f : Z) (p : pmm_t) : pmm_t :=
  Pmm (total_frames p) (used_frames p +! 1)
    (<[Z.to_nat (f / 32) := Z.lor (word_at p (f / 32)) (2 ^ (f mod 32))]> (bitmap p))
    (bitmap_size p).

Definition unmark (f : Z) (p : pmm_t) : pmm_t :=
  Pmm (total_frames p) (used_frames p -! 1)
    (<[Z.to_nat (f / 32) := Z.ldiff (word_at p (f / 32)) (2 ^ (f mod 32))]> (bitmap p))
    (bitmap_size p).

Lemma div32_bounds f : is_frame f → 0 ≤ f / 32 < 128 ∧ 0 ≤ f mod 32 < 32.
Proof.
  unfold is_frame. change TOTAL_FRAMES with 4096. intros H.
  split; [|by apply Z.mod_pos_bound].
  split; [apply Z.div_pos; lia|apply Z.div_lt_upper_bound; lia].
Qed.

Section wf_facts.
Context (p : pmm_t) (Hwf : pmm_wf p).

Lemma bm_get_run i : 0 ≤ i < 128 → bm_get i p = Some (word_at p i, p).
Proof.
  intros Hi. unfold bm_get, word_at. rewrite bind_run. simpl.
  destruct (lookup_lt_is_Some_2 (bitmap p) (Z.to_nat i)) as [w Hw].
  { rewrite (wf_len _ Hwf). lia. }
  unfold of_option. by rewrite Hw.
Qed.

Lemma bm_put_run i w :
  0 ≤ i < 128 →
  bm_put i w p =
  Some ((), Pmm (total_frames p) (used_frames p) (<[Z.to_nat i := w]> (bitmap p)) (bitmap_size p)).
Proof.
  intros Hi. unfold bm_put. rewrite bind_run. simpl. rewrite (wf_len _ Hwf). by zcase.
Qed.

Lemma word_bound i : 0 ≤ i < 128 → 0 ≤ word_at p i < 2 ^ 32.
Proof.
  intros Hi. unfold word_at.
  destruct (lookup_lt_is_Some_2 (bitmap p) (Z.to_nat i)) as [w Hw].
  { rewrite (wf_len _ Hwf). lia. }
  rewrite Hw. simpl. exact (proj1 (Forall_lookup _ _) (wf_words _ Hwf) _ _ Hw).
Qed.

Lemma set_frame_run f : is_frame f → pmm_set_frame f p = Some ((), mark f p).
Proof.
  intros Hf. destruct (div32_bounds f Hf).
  unfold pmm_set_frame, BITMAP_INDEX, BITMAP_OFFSET. rewrite shiftl_1_u32 by done.
  mstep (bm_get_run (f / 32) ltac:(done)). by mstep (bm_put_run (f / 32)
    (Z.lor (word_at p (f / 32)) (2 ^ (f mod 32))) ltac:(done)).
Qed.

Lemma clear_frame_run f : is_frame f → pmm_clear_frame f p = Some ((), unmark f p).
Proof.
  intros Hf. destruct (div32_bounds f Hf).
  unfold pmm_clear_frame, BITMAP_INDEX, BITMAP_OFFSET.
  mstep (bm_get_run (f / 32) ltac:(done)).
  rewrite land_lnot_bit by (done || by apply word_bound).
  by mstep (bm_put_run (f / 32) (Z.ldiff (word_at p (f / 32)) (2 ^ (f mod 32))) ltac:(done)).
Qed.

Lemma test_frame_run f : is_frame f → pmm_test_frame f p = Some (used p f, p).
Proof.
  intros Hf. destruct (div32_bounds f Hf).
  unfold pmm_test_frame, BITMAP_INDEX, BITMAP_OFFSET. rewrite shiftl_1_u32 by done.
  mstep (bm_get_run (f / 32) ltac:(done)). unfold truth, used.
  rewrite land_pow2_eqb by lia. by rewrite negb_involutive.
Qed.

(** Rewriting one word changes the bits of that word only. *)
Lemma word_at_insert n' i w j :
  0 ≤ i < 128 → 0 ≤ j →
  word_at (Pmm (total_frames p) n' (<[Z.to_nat i := w]> (bitmap p)) (bitmap_size p)) j =
  if i =? j then w else word_at p j.
Proof.
  intros Hi Hj. unfold word_at. simpl. zcase.
  - subst j. rewrite list_lookup_insert_eq; [done|]. rewrite (wf_len _ Hwf). lia.
  - rewrite list_lookup_insert_ne; [done|]. lia.
Qed.

Lemma used_mark f g : is_frame f → 0 ≤ g → used (mark f p) g = (f =? g) || used p g.
Proof.
  intros Hf Hg. destruct (div32_bounds f Hf).
  pose proof (Z.mod_pos_bound g 32). pose proof (Z.div_pos g 32).
  unfold used, mark. rewrite word_at_insert by lia.
  pose proof (Z.div_mod f 32). pose proof (Z.div_mod g 32).
  destruct (Z.eqb_spec (f / 32) (g / 32)) as [E|E].
  - rewrite Z.lor_spec, testbit_pow2, E by lia. rewrite orb_comm. f_equal.
    destruct (Z.eqb_spec (f mod 32) (g mod 32)), (Z.eqb_spec f g); congruence || lia.
  - destruct (Z.eqb_spec f g); [congruence|done].
Qed.

Lemma used_unmark f g : is_frame f → 0 ≤ g → used (unmark f p) g = negb (f =? g) && used p g.
Proof.
  intros Hf Hg. destruct (div32_bounds f Hf).
  pose proof (Z.mod_pos_bound g 32). pose proof (Z.div_pos g 32).
  unfold used, unmark. rewrite word_at_insert by lia.
  pose proof (Z.div_mod f 32). pose proof (Z.div_mod g 32).
  destruct (Z.eqb_spec (f / 32) (g / 32)) as [E|E].
  - rewrite Z.ldiff_spec, testbit_pow2, E by lia. rewrite andb_comm. do 2 f_equal.
    destruct (Z.eqb_spec (f mod 32) (g mod 32)), (Z.eqb_spec f g); congruence || lia.
  - destruct (Z.eqb_spec f g); [congruence|done].
Qed.

Lemma used_frames_bound : 0 ≤ used_frames p ≤ 4096.
Proof.
  rewrite (wf_count _ Hwf). pose proof (countZ_bounds (used p) 0 (Z.to_nat TOTAL_FRAMES)).
  change (Z.of_nat (Z.to_nat TOTAL_FRAMES)) with 4096 in *. lia.
Qed.

Lemma insert_words i w :
  0 ≤ w < 2 ^ 32 → Forall (λ w, 0 ≤ w < 2 ^ 32) (<[i := w]> (bitmap p)).
Proof. intros Hw. apply Forall_insert; [apply (wf_words _ Hwf)|done]. Qed.

Lemma mark_wf f : is_frame f → used p f = false → pmm_wf (mark f p).
Proof.
  intros Hf Hu. destruct (div32_bounds f Hf).
  assert (countZ (used (mark f p)) 0 (Z.to_nat TOTAL_FRAMES) =
          countZ (used p) 0 (Z.to_nat TOTAL_FRAMES) + 1) as Hcnt.
  { transitivity (countZ (λ g, (f =? g) || used p g) 0 (Z.to_nat TOTAL_FRAMES)).
    - apply countZ_ext. intros i Hi. apply used_mark; [done|lia].
    - apply countZ_upd with f; [by rewrite Z2Nat.id by done|done| |].
      + by rewrite Z.eqb_refl.
      + intros i Hi. by destruct (Z.eqb_spec f i); [congruence|]. }
  pose proof used_frames_bound as Hub. split; simpl.
  - apply (wf_total _ Hwf).
  - apply (wf_size _ Hwf).
  - rewrite length_insert. apply (wf_len _ Hwf).
  - apply insert_words, lor_bound; [lia|by apply word_bound|by apply pow2_bound].
  - change (Pmm _ _ _ _) with (mark f p). rewrite Hcnt, <- (wf_count _ Hwf).
    rewrite u32_small; lia.
Qed.

Lemma unmark_wf f : is_frame f → used p f = true → pmm_wf (unmark f p).
Proof.
  intros Hf Hu. destruct (div32_bounds f Hf).
  assert (countZ (used p) 0 (Z.to_nat TOTAL_FRAMES) =
          countZ (used (unmark f p)) 0 (Z.to_nat TOTAL_FRAMES) + 1) as Hcnt.
  { transitivity (countZ (λ g, negb (f =? g) && used p g) 0 (Z.to_nat TOTAL_FRAMES) + 1).
    - apply countZ_upd with f; [by rewrite Z2Nat.id by done| |done|].
      + by rewrite Z.eqb_refl.
      + intros i Hi. by destruct (Z.eqb_spec f i); [congruence|].
    - f_equal. apply countZ_ext. intros i Hi. symmetry. apply used_unmark; [done|lia]. }
  pose proof used_frames_bound as Hub. split; simpl.
  - apply (wf_total _ Hwf).
  - apply (wf_size _ Hwf).
  - rewrite length_insert. apply (wf_len _ Hwf).
  - apply insert_words, ldiff_bound; [lia|by apply word_bound].
  - change (Pmm _ _ _ _) with (unmark f p). rewrite (wf_count _ Hwf) in *.
    pose proof (countZ_bounds (used (unmark f p)) 0 (Z.to_nat TOTAL_FRAMES)).
    rewrite u32_small; lia.
Qed.

Lemma unmark_mark f : is_frame f → used p f = false → unmark f (mark f p) = p.
Proof.
  intros Hf Hu. destruct (div32_bounds f Hf). pose proof used_frames_bound.
  unfold unmark. unfold mark at 3. rewrite word_at_insert by lia. rewrite Z.eqb_refl.
  rewrite ldiff_lor_bit by (lia || exact Hu).
  destruct p as [t n b sz] eqn:Ep. simpl in *.
  f_equal; [rewrite (u32_small (n + 1)) by lia; rewrite u32_small; lia|].
  rewrite list_insert_insert_eq. apply list_insert_id.
  unfold word_at. simpl. destruct (lookup_lt_is_Some_2 b (Z.to_nat (f / 32))) as [w Hw].
  { pose proof (wf_len _ Hwf) as Hl. simpl in Hl. lia. }
  by rewrite Hw.
Qed.
End wf_facts.

(** A well-formed state is determined by the set of its used frames. *)
Lemma pmm_ext p q :
  pmm_wf p → pmm_wf q → (∀ f, is_frame f → used p f = used q f) → p = q.
Proof.
  intros Hp Hq Heq.
  assert (bitmap p = bitmap q) as Hb.
  { apply list_eq_same_length with 128%nat; [by rewrite (wf_len _ Hq)|by rewrite (wf_len _ Hp)|].
    intros i x y Hi Hx Hy.
    assert (word_at p (Z.of_nat i) = x) as <- by (unfold word_at; by rewrite Nat2Z.id, Hx).
    assert (word_at q (Z.of_nat i) = y) as <- by (unfold word_at; by rewrite Nat2Z.id, Hy).
    apply (bits_eq_below 32); [by apply word_bound; [|lia]..|].
    intros j Hj. specialize (Heq (32 * Z.of_nat i + j)).
    unfold used in Heq. rewrite Z.add_comm, Z.mul_comm in Heq.
    rewrite Z.div_add, Z.mod_add, Z.div_small, Z.mod_small in Heq by lia.
    rewrite Z.add_0_l in Heq. apply Heq. unfold is_frame. change TOTAL_FRAMES with 4096. lia. }
  assert (used_frames p = used_frames q) as Hn.
  { rewrite (wf_count _ Hp), (wf_count _ Hq). apply countZ_ext. intros f Hf. apply Heq.
    unfold is_frame. rewrite Z2Nat.id in Hf by done. lia. }
  pose proof (wf_total _ Hp). pose proof (wf_total _ Hq).
  pose proof (wf_size _ Hp). pose proof (wf_size _ Hq).
  destruct p, q; simpl in *; congruence.
Qed.

(** [used] at bit [j] of word [i]. *)
Lemma used_word p i j : 0 ≤ j < 32 → used p (i * 32 + j) = Z.testbit (word_at p i) j.
Proof.
  intros Hj. unfold used. rewrite Z.add_comm, Z.div_add, Z.mod_add by lia.
  by rewrite Z.div_small, Z.mod_small, Z.add_0_l by lia.
Qed.

(** The lowest free frame, if there is one. *)
Definition lowest_free (p : pmm_t) (f : Z) : Prop :=
  is_frame f ∧ used p f = false ∧ ∀ g, 0 ≤ g < f → used p g = true.

Lemma first_free_spec p :
  pmm_wf p →
  (∃ f, pmm_first_free_frame p = Some (f, p) ∧ lowest_free p f) ∨
  (pmm_first_free_frame p = Some (TOTAL_FRAMES, p) ∧ ∀ g, is_frame g → used p g = true).
Proof.
  intros Hwf. unfold pmm_first_free_frame. rewrite bind_run. simpl. rewrite (wf_size _ Hwf).
  match goal with |- context [for_ret (Z.to_nat 128) 0 ?b] => set (body := b) end.
  destruct (for_ret_inv (λ i s, s = p ∧ ∀ g, 0 ≤ g < i * 32 → used p g = true)
              (λ f s, s = p ∧ lowest_free p f) body (Z.to_nat 128) 0 p)
    as [(s' & E & -> & Hall)|(f & s' & E & -> & Hf)].
  - intros i s Hi [-> Hall]. unfold body. mstep (bm_get_run p Hwf i ltac:(lia)).
    destruct (Z.eqb_spec (word_at p i) 0xFFFFFFFF) as [Hw|Hw]; cbn [negb].
    + left. exists p. split; [done|]. split; [done|]. intros g Hg.
      destruct (Z.lt_ge_cases g (i * 32)); [by apply Hall; lia|].
      replace g with (i * 32 + (g - i * 32)) by lia. rewrite used_word, Hw by lia.
      apply ones32_bit. lia.
    + replace ((i + 1) * 32) with (i * 32 + (0 + Z.of_nat 32)) by lia.
      apply (for_ret_inv (λ j s, s = p ∧ ∀ g, 0 ≤ g < i * 32 + j → used p g = true)
               (λ f s, s = p ∧ lowest_free p f)).
      * intros j s Hj [-> Hj']. rewrite shiftl_1_u32 by lia.
        mstep (bm_get_run p Hwf i ltac:(lia)). rewrite land_pow2_eqb by lia.
        destruct (Z.testbit (word_at p i) j) eqn:Eb; simpl.
        -- left. exists p. split; [done|]. split; [done|]. intros g Hg.
           destruct (Z.eq_dec g (i * 32 + j)) as [->|]; [by rewrite used_word by lia|].
           apply Hj'. lia.
        -- right. exists (i * 32 + j), p. split; [done|]. split; [done|].
           split; [unfold is_frame; change TOTAL_FRAMES with 4096; lia|].
           split; [by rewrite used_word by lia|]. intros g Hg. apply Hj'. lia.
      * split; [done|]. intros g Hg. apply Hall. lia.
  - split; [done|]. intros g Hg. lia.
  - right. mstep E. simpl. split; [done|]. intros g Hg. apply Hall.
    unfold is_frame in Hg. change TOTAL_FRAMES with 4096 in Hg. lia.
  - left. exists f. mstep E. done.
Qed.

(** ** alloc_page *)

Lemma frame_addr f : is_frame f → f *! PAGE_SIZE = f * PAGE_SIZE.
Proof.
  unfold is_frame, PAGE_SIZE. change TOTAL_FRAMES with 4096. intros. apply u32_small. lia.
Qed.

Lemma alloc_page_run p :
  pmm_wf p →
  (∃ f, lowest_free p f ∧ alloc_page p = Some (f * PAGE_SIZE, mark f p)) ∨
  ((∀ g, is_frame g → used p g = true) ∧ alloc_page p = Some (0, p)).
Proof.
  intros Hwf. unfold alloc_page.
  destruct (first_free_spec p Hwf) as [(f & E & Hf)|[E Hall]]; mstep E.
  - left. exists f. split; [done|]. destruct Hf as (Hf & Hu & _).
    destruct (Z.eqb_spec f TOTAL_FRAMES); [unfold is_frame in Hf; lia|].
    mstep (set_frame_run p Hwf f Hf). by rewrite frame_addr.
  - right. by rewrite Z.eqb_refl.
Qed.

(** ** alloc_pages *)

(** The used frames of [p'] are those of [p] and the [n] frames from [s]. *)
Definition marked_range (p p' : pmm_t) (s n : Z) : Prop :=
  pmm_wf p' ∧ ∀ g, is_frame g → used p' g = used p g || ((s <=? g) && (g <? s + n)).

Lemma mark_range_run p s n :
  pmm_wf p → 0 ≤ s → 0 ≤ n → s + n ≤ TOTAL_FRAMES →
  all_free (λ g, negb (used p g)) s n →
  ∃ p', for_loop (Z.to_nat n) 0 (λ i, pmm_set_frame (s + i)) p = Some ((), p') ∧
        marked_range p p' s n.
Proof.
  intros Hwf Hs Hn Hsn Hfree.
  destruct (for_loop_inv (λ j q, marked_range p q s j) (λ i, pmm_set_frame (s + i))
              (Z.to_nat n) 0 p) as (p' & E & Hp').
  - intros j q Hj [Hq Hu]. assert (is_frame (s + j)) as Hf by (unfold is_frame; lia).
    assert (used q (s + j) = false) as Hfr.
    { rewrite Hu by done. assert (used p (s + j) = false) as ->.
      { apply negb_true_iff. apply (Hfree (s + j)). lia. } repeat zcase; done. }
    exists (mark (s + j) q). split; [by apply set_frame_run|]. split; [by apply mark_wf|].
    intros g Hg. rewrite used_mark by (done || unfold is_frame in Hg; lia). rewrite Hu by done.
    destruct (used p g); [by rewrite orb_true_r|]. simpl. repeat zcase; done.
  - split; [done|]. intros g Hg. repeat zcase; by rewrite orb_false_r.
  - exists p'. split; [done|]. by rewrite Z.add_0_l, Z2Nat.id in Hp' by done.
Qed.

Lemma alloc_pages_scan_run p n frame start c count :
  pmm_wf p → 0 < count → 0 ≤ frame → frame + Z.of_nat n = TOTAL_FRAMES →
  scan_inv (λ g, negb (used p g)) count 0 frame start c →
  match find_run (λ g, negb (used p g)) n frame start c count with
  | Some s => ∃ p', alloc_pages_scan n frame start c count p = Some (s * PAGE_SIZE, p') ∧
                    marked_range p p' s count
  | None => alloc_pages_scan n frame start c count p = Some (0, p)
  end.
Proof.
  intros Hwf Hcount. revert frame start c.
  induction n as [|n IH]; intros frame start c Hfr Hn Hinv; [done|].
  assert (is_frame frame) as Hframe by (unfold is_frame; lia).
  pose proof (find_run_spec _ _ Hcount 0 (S n) frame start c Hinv) as Hspec.
  rewrite find_run_S in *. cbn [alloc_pages_scan]. mstep (test_frame_run p Hwf frame Hframe).
  destruct (negb (used p frame)) eqn:Eu; cbv zeta in *.
  - destruct (Z.eqb_spec (c + 1) count) as [Hfull|Hmore].
    + destruct Hspec as (Hs0 & Hs1 & Hall & _).
      set (s := if c =? 0 then frame else start) in *.
      destruct (mark_range_run p s count) as (p' & E & Hp'); [done|lia|lia|lia|done|].
      exists p'. mstep E. split; [|done]. rewrite frame_addr; [done|unfold is_frame; lia].
    + apply IH; [lia|lia|].
      exact (scan_inv_free _ _ _ _ _ _ Hinv Eu Hmore).
  - apply IH; [lia|lia|]. exact (scan_inv_used _ _ Hcount _ _ _ _ Hinv Eu).
Qed.

Lemma alloc_pages_run p count :
  pmm_wf p → 0 ≤ count < 4294967296 →
  let free g := negb (used p g) in
  ∃ a p', alloc_pages count p = Some (a, p') ∧ pmm_wf p' ∧
    ((a = 0 ∧ p' = p ∧
      (count = 0 ∨ ∀ s, 0 ≤ s → s + count ≤ TOTAL_FRAMES → ¬ all_free free s count)) ∨
     (∃ s, a = s * PAGE_SIZE ∧ 0 ≤ s ∧ s + count ≤ TOTAL_FRAMES ∧ 0 < count ∧
           all_free free s count ∧ (∀ s', 0 ≤ s' < s → ¬ all_free free s' count) ∧
           marked_range p p' s count)).
Proof.
  intros Hwf Hc free. unfold alloc_pages. destruct (Z.eqb_spec count 0) as [->|H0].
  { exists 0, p. split_and!; [done|done|]. left. auto. }
  destruct (Z.eqb_spec count 1) as [->|H1].
  - destruct (alloc_page_run p Hwf) as [(f & (Hf & Hu & Hlow) & E)|[Hall E]].
    + exists (f * PAGE_SIZE), (mark f p). split_and!; [done|by apply mark_wf|]. right.
      exists f. unfold is_frame in Hf. split_and!; [done|lia|lia|lia| | |split].
      * intros x Hx. replace x with f by lia. unfold free. by rewrite Hu.
      * intros s' Hs' Hall. specialize (Hall s' ltac:(lia)). unfold free in Hall.
        by rewrite Hlow in Hall by lia.
      * by apply mark_wf.
      * intros g Hg. rewrite used_mark by (done || unfold is_frame in Hg; lia).
        rewrite orb_comm. f_equal. repeat zcase; done.
    + exists 0, p. split_and!; [done|done|]. left. split_and!; [done|done|]. right.
      intros s Hs Hend Hfr. specialize (Hfr s ltac:(lia)). unfold free in Hfr.
      rewrite Hall in Hfr; [done|unfold is_frame; lia].
  - rewrite bind_run. cbn. rewrite (wf_total _ Hwf).
    pose proof (find_run_first free count ltac:(lia) 0 (Z.to_nat TOTAL_FRAMES)) as Hspec.
    pose proof (alloc_pages_scan_run p (Z.to_nat TOTAL_FRAMES) 0 0 0 count Hwf ltac:(lia)
      ltac:(lia) eq_refl (scan_inv_init free count ltac:(lia) 0 0)) as Hrun.
    fold free in Hrun. change (0 + Z.of_nat (Z.to_nat TOTAL_FRAMES)) with TOTAL_FRAMES in Hspec.
    destruct (find_run free (Z.to_nat TOTAL_FRAMES) 0 0 0 count) as [s|].
    + destruct Hrun as (p' & E & Hp'). destruct Hspec as (? & ? & ? & ?).
      exists (s * PAGE_SIZE), p'. split_and!; [done|apply Hp'|]. right. exists s. by split_and!; try lia.
    + exists 0, p. split_and!; [done|done|]. left. auto.
Qed.

(** ** free_page *)

(** The outcome of [free_page] on each of its paths. *)
Inductive free_outcome (p : pmm_t) (addr : Z) : pmm_t → list Z → Prop :=
| free_misaligned :
    addr mod PAGE_SIZE ≠ 0 →
    free_outcome p addr p
      (str "ERROR: free_page() - Address not page-aligned: 0x" ++
       (str "0x" ++ hex_loop 8 addr []) ++ [10])
| free_out_of_range num :
    addr mod PAGE_SIZE = 0 → TOTAL_FRAMES ≤ addr / PAGE_SIZE →
    numeral 10 (addr / PAGE_SIZE) num →
    free_outcome p addr p
      (str "ERROR: free_page() - Frame out of range: " ++ num ++ [10])
| free_double :
    addr mod PAGE_SIZE = 0 → is_frame (addr / PAGE_SIZE) → used p (addr / PAGE_SIZE) = false →
    free_outcome p addr p
      (str "WARNING: free_page() - Double free detected at 0x" ++
       (str "0x" ++ hex_loop 8 addr []) ++ [10])
| free_done :
    addr mod PAGE_SIZE = 0 → is_frame (addr / PAGE_SIZE) → used p (addr / PAGE_SIZE) = true →
    free_outcome p addr (unmark (addr / PAGE_SIZE) p) [].

Lemma free_outcome_wf p addr p' msg : pmm_wf p → free_outcome p addr p' msg → pmm_wf p'.
Proof. intros Hwf [ | | | ]; try done. by apply unmark_wf. Qed.

Lemma free_page_run p c addr :
  pmm_wf p → 0 ≤ addr < 4294967296 →
  ∃ p' msg, free_page addr (IO p c) = Some ((), IO p' (c ++ msg)) ∧ free_outcome p addr p' msg.
Proof.
  intros Hwf Ha. unfold free_page.
  destruct (Z.eqb_spec (addr mod PAGE_SIZE) 0) as [Hal|Hal]; cbn [negb].
  2:{ eexists p, _. split; [|by apply free_misaligned].
      autorewrite with console. by rewrite <- !app_assoc. }
  mstep (quiet_run get p c p p eq_refl). rewrite (wf_total _ Hwf).
  pose proof (Z.div_pos addr PAGE_SIZE ltac:(lia) ltac:(done)) as Hpos.
  destruct (Z.leb_spec TOTAL_FRAMES (addr / PAGE_SIZE)) as [Hr|Hr]; rewrite Z.geb_leb;
    (destruct (Z.leb_spec TOTAL_FRAMES (addr / PAGE_SIZE)); [|try lia]; try lia).
  - assert (addr / PAGE_SIZE < 4294967296) by (apply Z.div_lt_upper_bound; [done|unfold PAGE_SIZE; lia]).
    destruct (uint_str_numeral (addr / PAGE_SIZE)) as (num & En & Hnum & _); [lia|].
    eexists p, _. split; [|by apply free_out_of_range].
    rewrite kprint_seq, (kprint_uint_seq _ _ _ _ _ En), kprint_run. by rewrite <- !app_assoc.
  - assert (is_frame (addr / PAGE_SIZE)) as Hf by (unfold is_frame; lia).
    mstep (quiet_run _ p c _ _ (test_frame_run p Hwf _ Hf)).
    destruct (used p (addr / PAGE_SIZE)) eqn:Eu; cbn [negb].
    + exists (unmark (addr / PAGE_SIZE) p), []. rewrite app_nil_r.
      split; [|by apply free_done]. exact (quiet_run _ p c _ _ (clear_frame_run p Hwf _ Hf)).
    + eexists p, _. split; [|by apply free_double].
      autorewrite with console. by rewrite <- !app_assoc.
Qed.

(** ** Properties *)

(** The frames [pmm_init] reserves: 0-2 MB, the bitmap's frame, 15-16 MB. *)
Definition reserved (f : Z) : bool := (f <? 513) || (3840 <=? f).

(** A property of every frame, checked by computation. *)
Lemma frames_check (P : Z → bool) :
  forallb P (seqZ 0 TOTAL_FRAMES) = true → ∀ f, is_frame f → P f = true.
Proof.
  intros H f Hf. rewrite forallb_forall in H. apply H, list_elem_of_In, elem_of_seqZ.
  unfold is_frame in Hf. lia.
Qed.

Lemma pmm_init_run p :
  ∃ p', pmm_init p = Some ((), p') ∧ pmm_wf p' ∧ used_frames p' = 769 ∧
        ∀ f, is_frame f → used p' f = reserved f.
Proof.
  eexists. split; [vm_compute; reflexivity|]. split_and!; [|reflexivity|].
  - split; [reflexivity..| |vm_compute; reflexivity].
    apply (bool_decide_unpack _). vm_compute. exact I.
  - intros f Hf. apply eqb_prop. revert f Hf. apply frames_check. vm_compute. reflexivity.
Qed.

(** initialisation reserves exactly low memory, the kernel heap, the
    bitmap's own frame and the top megabyte, whatever the state before, and
    establishes the invariant with 769 frames used. *)
Theorem pmm_init_reserved p :
  ∃ p', pmm_init p = Some ((), p') ∧ pmm_wf p' ∧ used_frames p' = 769 ∧
        ∀ f, is_frame f → used p' f = reserved f.
Proof. apply pmm_init_run. Qed.

(** [alloc_page] always returns; it hands out the lowest free frame and
    changes no other frame, or returns 0 and changes nothing when every frame
    is used. *)
Theorem alloc_page_lowest p :
  pmm_wf p →
  ∃ a p', alloc_page p = Some (a, p') ∧ pmm_wf p' ∧
    ((a = 0 ∧ p' = p ∧ ∀ g, is_frame g → used p g = true) ∨
     (∃ f, a = f * PAGE_SIZE ∧ lowest_free p f ∧
           ∀ g, is_frame g → used p' g = (f =? g) || used p g)).
Proof.
  intros Hwf. destruct (alloc_page_run p Hwf) as [(f & Hf & E)|[Hall E]].
  - exists (f * PAGE_SIZE), (mark f p). pose proof Hf as (Hf' & Hu & _).
    split_and!; [done|by apply mark_wf|]. right. exists f. split_and!; [done|done|].
    intros g Hg. apply used_mark; [done|done|]. unfold is_frame in Hg. lia.
  - exists 0, p. split_and!; [done|done|]. by left.
Qed.

(** [alloc_pages count] is first fit on frames: it returns the lowest run
    of [count] free frames and marks exactly that run, or returns 0 with the
    state unchanged when there is no such run (or [count] is 0). *)
Theorem alloc_pages_first_fit p count :
  pmm_wf p → 0 ≤ count < 4294967296 →
  let free g := negb (used p g) in
  ∃ a p', alloc_pages count p = Some (a, p') ∧ pmm_wf p' ∧
    ((a = 0 ∧ p' = p ∧
      (count = 0 ∨ ∀ s, 0 ≤ s → s + count ≤ TOTAL_FRAMES → ¬ all_free free s count)) ∨
     (∃ s, a = s * PAGE_SIZE ∧ 0 ≤ s ∧ s + count ≤ TOTAL_FRAMES ∧ 0 < count ∧
           all_free free s count ∧ (∀ s', 0 ≤ s' < s → ¬ all_free free s' count) ∧
           marked_range p p' s count)).
Proof. apply alloc_pages_run. Qed.

(** [free_page] returns on every 32-bit address; it clears exactly the
    frame's bit when the address is an allocated page, and otherwise leaves
    the allocator alone and prints the message of the failed check. *)
Theorem free_page_outcome p c addr :
  pmm_wf p → 0 ≤ addr < 4294967296 →
  ∃ p' msg, free_page addr (IO p c) = Some ((), IO p' (c ++ msg)) ∧
    free_outcome p addr p' msg ∧ pmm_wf p' ∧
    ∀ g, is_frame g →
      used p' g = used p g && negb ((addr mod PAGE_SIZE =? 0) && (addr / PAGE_SIZE =? g)).
Proof.
  intros Hwf Ha. destruct (free_page_run p c addr Hwf Ha) as (p' & msg & E & Ho).
  exists p', msg. split_and!; [done|done|by eapply free_outcome_wf|]. intros g Hg.
  destruct Ho as [Hal|num Hal Hr _|Hal Hf Hu|Hal Hf Hu].
  - zcase. by rewrite andb_true_r.
  - unfold is_frame in Hg. repeat zcase. by rewrite andb_true_r.
  - zcase. simpl. zcase; [|by rewrite andb_true_r]. subst g. by rewrite Hu.
  - rewrite used_unmark by (done || unfold is_frame in Hg; lia).
    rewrite Hal, andb_comm. done.
Qed.

(** freeing a page just allocated restores the allocator exactly. *)
Theorem alloc_free_page_roundtrip p a p' c :
  pmm_wf p → alloc_page p = Some (a, p') → a ≠ 0 →
  free_page a (IO p' c) = Some ((), IO p c).
Proof.
  intros Hwf E Ha. destruct (alloc_page_run p Hwf) as [(f & (Hf & Hu & _) & E')|[_ E']];
    rewrite E' in E; simplify_eq.
  pose proof (mark_wf p Hwf f Hf Hu) as Hm. unfold is_frame in Hf.
  change TOTAL_FRAMES with 4096 in Hf.
  destruct (free_page_run (mark f p) c (f * PAGE_SIZE) Hm) as (q & msg & Er & Ho).
  { unfold PAGE_SIZE. lia. }
  assert (f * PAGE_SIZE / PAGE_SIZE = f) as Hdiv by (by apply Z.div_mul).
  assert (used (mark f p) f = true) as Hused.
  { rewrite used_mark by (done || lia). by rewrite Z.eqb_refl. }
  rewrite Er. destruct Ho as [Hal|num Hal Hr _|Hal Hf' Hu'|Hal Hf' Hu']; rewrite ?Hdiv in *.
  - by rewrite Z.mod_mul in Hal.
  - change TOTAL_FRAMES with 4096 in Hr. lia.
  - congruence.
  - rewrite unmark_mark by done. by rewrite app_nil_r.
Qed.

(** Clients of the allocator: any mix of allocations, and of frees of
    addresses outside the reserved regions. *)
Inductive pmm_step : io pmm_t → io pmm_t → Prop :=
| step_alloc_page s s' a :
    quiet alloc_page s = Some (a, s') → pmm_step s s'
| step_alloc_pages count s s' a :
    0 ≤ count < 4294967296 → quiet (alloc_pages count) s = Some (a, s') → pmm_step s s'
| step_free_page addr s s' :
    0 ≤ addr < 4294967296 → reserved (addr / PAGE_SIZE) = false →
    free_page addr s = Some ((), s') → pmm_step s s'.

Definition pmm_inv (s : io pmm_t) : Prop :=
  pmm_wf (st s) ∧ ∀ f, is_frame f → reserved f = true → used (st s) f = true.

Lemma pmm_init_inv p0 : ∃ p, pmm_init p0 = Some ((), p) ∧ ∀ c, pmm_inv (IO p c).
Proof.
  destruct (pmm_init_run p0) as (p & E & Hwf & _ & Hu). exists p. split; [done|].
  intros c. split; [done|]. intros f Hf Hr. simpl. by rewrite Hu.
Qed.

Lemma pmm_step_inv s s' : pmm_inv s → pmm_step s s' → pmm_inv s'.
Proof.
  intros [Hwf Hres] Hstep.
  destruct Hstep as [s s' a E|count s s' a Hc E|addr s s' Ha Hr E].
  - unfold quiet, zoom in E.
    destruct (alloc_page_run (st s) Hwf) as [(f & (Hf & Hu & _) & E')|[_ E']];
      rewrite E' in E; simplify_eq; split; simpl; try done; [by apply mark_wf|].
    intros g Hg Hrg. rewrite used_mark by (done || unfold is_frame in Hg; lia).
    by rewrite (Hres g), orb_true_r.
  - destruct (alloc_pages_run (st s) count Hwf Hc) as (b & q & E' & Hq & Hcase).
    unfold quiet, zoom in E. rewrite E' in E. simplify_eq. split; [done|]. intros f Hf Hrf. simpl.
    destruct Hcase as [(_ & -> & _)|(g & _ & _ & _ & _ & _ & _ & _ & Hu)]; [by apply Hres|].
    by rewrite Hu, Hres by done.
  - destruct s as [p c]. destruct (free_page_run p c addr Hwf Ha) as (q & msg & E' & Ho).
    rewrite E' in E. simplify_eq. split; simpl in *; [by eapply free_outcome_wf|].
    intros f Hf Hrf. destruct Ho as [| | |_ Hf' _]; [by apply Hres..|].
    rewrite used_unmark by (done || unfold is_frame in Hf; lia).
    rewrite Hres by done. zcase; [|done]. by subst; rewrite Hrf in Hr.
Qed.

Lemma pmm_steps_inv s s' : pmm_inv s → rtc pmm_step s s' → pmm_inv s'.
Proof. intros Hs. induction 1; eauto using pmm_step_inv. Qed.

Lemma pool_frame f : is_frame f → reserved f = false →
  PMM_POOL_START ≤ f * PAGE_SIZE ∧ f * PAGE_SIZE + PAGE_SIZE ≤ PMM_POOL_END.
Proof.
  unfold reserved, is_frame, PMM_POOL_START, PMM_POOL_END, PAGE_SIZE. intros Hf.
  repeat zcase; intros; simplify_eq; lia.
Qed.

(** What the allocator promises its clients in the kernel: a page that was
    free, inside the pool (so not the null address), and nothing else changed. *)
Record fresh_page (p : pmm_t) (a : Z) (p' : pmm_t) : Prop := {
  fp_aligned : a mod PAGE_SIZE = 0;
  fp_pool : PMM_POOL_START ≤ a ∧ a + PAGE_SIZE ≤ PMM_POOL_END;
  fp_was_free : used p (a / PAGE_SIZE) = false;
  fp_used : ∀ g, 0 ≤ g → used p' g = (a / PAGE_SIZE =? g) || used p g;
  fp_unmark : p = unmark (a / PAGE_SIZE) p';
  fp_count : used_frames p' = used_frames p + 1
}.

Lemma all_used_count p : pmm_wf p → (∀ g, is_frame g → used p g = true) → used_frames p = TOTAL_FRAMES.
Proof.
  intros Hwf Hall. rewrite (wf_count _ Hwf), countZ_full; [by rewrite Z2Nat.id by done|].
  intros i Hi. apply Hall. unfold is_frame. by rewrite Z2Nat.id in Hi by done.
Qed.

Lemma alloc_page_fresh p c :
  pmm_inv (IO p c) →
  (∃ a p', alloc_page p = Some (a, p') ∧ fresh_page p a p' ∧ pmm_inv (IO p' c)) ∨
  (alloc_page p = Some (0, p) ∧ ∀ g, is_frame g → used p g = true).
Proof.
  intros [Hwf Hres]. simpl in *. destruct (alloc_page_run p Hwf) as [(f & (Hf & Hu & _) & E)|[Hall E]]; [left|by right].
  assert (reserved f = false) as Hrf by (apply not_true_is_false; intros Hr; by rewrite Hres in Hu).
  exists (f * PAGE_SIZE), (mark f p). split; [done|]. split.
  - destruct (pool_frame f Hf Hrf). split; rewrite ?Z.div_mul by done; [by apply Z.mod_mul|done|done| | |].
    + intros g Hg. by apply used_mark.
    + by rewrite unmark_mark.
    + simpl. pose proof (used_frames_bound p Hwf). rewrite u32_small by lia. done.
  - split; simpl; [by apply mark_wf|]. intros g Hg Hr.
    rewrite used_mark by (done || unfold is_frame in Hg; lia). by rewrite Hres, orb_true_r.
Qed.

(** C12: in every state a client can reach from [pmm_init] without freeing a
    reserved region, the counter is exact, the reserved frames are used, and
    a page that [alloc_page] hands out lies in the page pool, so it is never
    the null address that signals failure. *)
Theorem pmm_reachable_safe p0 p c s :
  pmm_init p0 = Some ((), p) → rtc pmm_step (IO p c) s →
  pmm_inv s ∧
  ∃ a p', alloc_page (st s) = Some (a, p') ∧
    ((a = 0 ∧ p' = st s ∧ used_frames (st s) = TOTAL_FRAMES) ∨
     (PMM_POOL_START ≤ a ∧ a + PAGE_SIZE ≤ PMM_POOL_END ∧ a mod PAGE_SIZE = 0 ∧
      used (st s) (a / PAGE_SIZE) = false)).
Proof.
  intros Hinit Hsteps.
  assert (pmm_inv (IO p c)) as Hp.
  { destruct (pmm_init_inv p0) as (p' & E & Hi). rewrite E in Hinit.
    injection Hinit as ->. apply Hi. }
  pose proof (pmm_steps_inv _ _ Hp Hsteps) as Hs. split; [done|]. destruct Hs as [Hwf Hres].
  destruct (alloc_page_run (st s) Hwf) as [(f & (Hf & Hu & _) & E)|[Hall E]].
  - exists (f * PAGE_SIZE), (mark f (st s)). split; [done|]. right.
    assert (reserved f = false) as Hrf by (apply not_true_is_false; intros Hr; by rewrite Hres in Hu).
    destruct (pool_frame f Hf Hrf). split_and!; [done|done|by apply Z.mod_mul|].
    by rewrite Z.div_mul.
  - exists 0, (st s). split; [done|]. left. split_and!; [done|done|]. by apply all_used_count.
Qed.

(** ** Witnesses: the allocator as it is after boot *)

Definition boot_pmm : pmm_t :=
  Eval vm_compute in
    match pmm_init (Pmm 0 0 [] 0) with Some (_, p) => p | None => Pmm 0 0 [] 0 end.

Lemma boot_pmm_init : pmm_init (Pmm 0 0 [] 0) = Some ((), boot_pmm).
Proof. vm_compute. reflexivity. Qed.

Lemma boot_pmm_wf : pmm_wf boot_pmm.
Proof.
  destruct (pmm_init_run (Pmm 0 0 [] 0)) as (p & E & Hwf & _).
  rewrite boot_pmm_init in E. by injection E as ->.
Qed.

Lemma alloc_page_lowest_witness :
  ∃ p', alloc_page boot_pmm = Some (PMM_POOL_START, p') ∧ pmm_wf p'.
Proof.
  destruct (alloc_page_lowest boot_pmm boot_pmm_wf) as (a & p' & E & Hwf & _).
  exists p'. split; [|exact Hwf]. rewrite E. f_equal. f_equal.
  apply (f_equal (λ r, match r with Some (x, _) => x | None => 0 end)) in E.
  vm_compute in E. symmetry. exact E.
Defined.

Lemma alloc_pages_first_fit_witness :
  ∃ p', alloc_pages 64 boot_pmm = Some (0x201000, p') ∧ pmm_wf p'.
Proof.
  destruct (alloc_pages_first_fit boot_pmm 64 boot_pmm_wf) as (a & p' & E & Hwf & _); [lia|].
  exists p'. split; [|exact Hwf]. rewrite E. f_equal. f_equal.
  apply (f_equal (λ r, match r with Some (x, _) => x | None => 0 end)) in E.
  vm_compute in E. symmetry. exact E.
Defined.

Lemma free_page_outcome_witness :
  ∃ p' msg, free_page 0x201001 (IO boot_pmm []) = Some ((), IO p' msg) ∧ pmm_wf p'.
Proof.
  destruct (free_page_outcome boot_pmm [] 0x201001 boot_pmm_wf) as (p' & msg & E & _ & Hwf & _); [lia|].
  exists p', msg. split; [exact E|exact Hwf].
Defined.

Lemma alloc_free_page_roundtrip_witness :
  ∃ p', alloc_page boot_pmm = Some (0x201000, p') ∧
        free_page 0x201000 (IO p' []) = Some ((), IO boot_pmm []).
Proof.
  eexists. split; [vm_compute; reflexivity|].
  apply (alloc_free_page_roundtrip boot_pmm); [exact boot_pmm_wf|vm_compute; reflexivity|lia].
Defined.

Lemma pmm_reachable_safe_witness : ∃ s, pmm_step (IO boot_pmm []) s ∧ pmm_inv s.
Proof.
  assert (∃ s, pmm_step (IO boot_pmm []) s) as [s Hs].
  { eexists. eapply step_alloc_page. vm_compute. reflexivity. }
  exists s. split; [exact Hs|].
  apply (pmm_reachable_safe (Pmm 0 0 [] 0) boot_pmm [] s boot_pmm_init).
  eapply rtc_l; [exact Hs|apply rtc_refl].
Defined.
