(* ===== verification/Memory.v ===== *)
(** * Physical memory

    The kernel runs identity mapped, so a pointer is the physical address it
    points to.  Memory is a finite map from addresses to bytes (cells that
    were never written read as 0; every theorem quantifies over the map).
    Words are little endian, as on the i386. *)

From S2P Require Import Prelude.

Open Scope Z_scope.
Open Scope c_scope.

Abbreviation mem := (gmap Z Z).

Definition load8 (m : mem) (a : Z) : Z := u8 (default 0 (m !! a)).
Definition store8 (m : mem) (a v : Z) : mem := <[a := u8 v]> m.

Definition load16 (m : mem) (a : Z) : Z := load8 m a + 256 * load8 m (a + 1).

Definition load32 (m : mem) (a : Z) : Z :=
  load8 m a + 256 * load8 m (a + 1) + 65536 * load8 m (a + 2) + 16777216 * load8 m (a + 3).

Definition store32 (m : mem) (a v : Z) : mem :=
  store8 (store8 (store8 (store8 m a v) (a + 1) (v / 256)) (a + 2) (v / 65536))
    (a + 3) (v / 16777216).

(** [memset] and [memcpy] of klibc/string.c on memory: byte by byte, upwards. *)
Fixpoint mem_set (m : mem) (p value : Z) (num : nat) : mem :=
  match num with
  | O => m
  | S n => mem_set (store8 m p value) (p + 1) value n
  end.

Fixpoint mem_cpy (m : mem) (dest src : Z) (n : nat) : mem :=
  match n with
  | O => m
  | S n' => mem_cpy (store8 m dest (load8 m src)) (dest + 1) (src + 1) n'
  end.

(** Copy bytes that come from outside physical memory (a file buffer). *)
Fixpoint mem_put (m : mem) (dest : Z) (bytes : list Z) : mem :=
  match bytes with
  | [] => m
  | b :: bs => mem_put (store8 m dest b) (dest + 1) bs
  end.

(** ** Bytes *)

Lemma load8_bound m a : 0 ≤ load8 m a < 256.
Proof. apply u8_bound. Qed.

Lemma load8_store8 m a v b : load8 (store8 m a v) b = if a =? b then u8 v else load8 m b.
Proof.
  unfold load8, store8. zcase.
  - subst. rewrite lookup_insert_eq. simpl. apply u8_small, u8_bound.
  - by rewrite lookup_insert_ne.
Qed.

Lemma load8_store8_ne m a v b : a ≠ b → load8 (store8 m a v) b = load8 m b.
Proof. intros. rewrite load8_store8. by zcase. Qed.

(** ** Words *)

Lemma load32_bytes m a :
  load32 m a = load8 m a + 256 * load8 m (a + 1) + 65536 * load8 m (a + 2) + 16777216 * load8 m (a + 3).
Proof. done. Qed.

Lemma load32_bound m a : 0 ≤ load32 m a < 4294967296.
Proof.
  unfold load32. pose proof (load8_bound m a). pose proof (load8_bound m (a + 1)).
  pose proof (load8_bound m (a + 2)). pose proof (load8_bound m (a + 3)). lia.
Qed.

Lemma load32_ext m m' a b :
  (∀ i, 0 ≤ i < 4 → load8 m (a + i) = load8 m' (b + i)) → load32 m a = load32 m' b.
Proof.
  intros H. unfold load32. pose proof (H 0 ltac:(lia)) as H0. rewrite !Z.add_0_r in H0.
  rewrite H0, (H 1), (H 2), (H 3) by lia. done.
Qed.

Lemma load8_store32_ne m a v b : b < a ∨ a + 4 ≤ b → load8 (store32 m a v) b = load8 m b.
Proof. intros. unfold store32. by rewrite !load8_store8_ne by lia. Qed.

Lemma load32_store32_ne m a v b :
  b + 4 ≤ a ∨ a + 4 ≤ b → load32 (store32 m a v) b = load32 m b.
Proof. intros H. apply load32_ext. intros i Hi. apply load8_store32_ne. lia. Qed.

Lemma load32_store32_eq m a v : 0 ≤ v < 4294967296 → load32 (store32 m a v) a = v.
Proof.
  intros Hv. unfold load32, store32. rewrite !load8_store8.
  repeat (rewrite Z.eqb_refl || match goal with |- context [?x =? ?y] =>
    replace (x =? y) with false by (symmetry; apply Z.eqb_neq; lia) end).
  unfold u8. change 65536 with (256 * 256). change 16777216 with (256 * (256 * 256)).
  rewrite <- !Z.div_div by lia.
  pose proof (Z.div_mod v 256). pose proof (Z.div_mod (v / 256) 256).
  pose proof (Z.div_mod (v / 256 / 256) 256).
  assert (v / 256 / 256 / 256 < 256) by (repeat (apply Z.div_lt_upper_bound; [lia|]); lia).
  assert (0 ≤ v / 256 / 256 / 256) by (repeat apply Z.div_pos; lia).
  rewrite (Z.mod_small (v / 256 / 256 / 256)) by lia. lia.
Qed.

(** A byte is determined by its word. *)
Lemma load8_word m m' a :
  load32 m a = load32 m' a → ∀ i, 0 ≤ i < 4 → load8 m (a + i) = load8 m' (a + i).
Proof.
  unfold load32. intros E i Hi.
  pose proof (load8_bound m a). pose proof (load8_bound m (a + 1)). pose proof (load8_bound m (a + 2)).
  pose proof (load8_bound m (a + 3)). pose proof (load8_bound m' a). pose proof (load8_bound m' (a + 1)).
  pose proof (load8_bound m' (a + 2)). pose proof (load8_bound m' (a + 3)).
  assert (i = 0 ∨ i = 1 ∨ i = 2 ∨ i = 3) as [->|[->|[->| ->]]] by lia; rewrite ?Z.add_0_r; lia.
Qed.

(** ** Blocks *)

Lemma load8_mem_set m p v n a :
  load8 (mem_set m p v n) a =
  if (p <=? a) && (a <? p + Z.of_nat n) then u8 v else load8 m a.
Proof.
  revert m p. induction n as [|n IH]; intros m p; cbn [mem_set].
  - repeat zcase; done.
  - rewrite IH, load8_store8. repeat zcase; simpl; done.
Qed.

Lemma load32_mem_set_0 m p n a :
  p ≤ a → a + 4 ≤ p + Z.of_nat n → load32 (mem_set m p 0 n) a = 0.
Proof.
  intros. unfold load32. rewrite !load8_mem_set. repeat zcase. done.
Qed.

Lemma load32_mem_set_ne m p v n a :
  a + 4 ≤ p ∨ p + Z.of_nat n ≤ a → load32 (mem_set m p v n) a = load32 m a.
Proof. intros. apply load32_ext. intros i Hi. rewrite load8_mem_set. repeat zcase; done. Qed.

Lemma load8_mem_cpy m d s n a :
  d + Z.of_nat n ≤ s ∨ s + Z.of_nat n ≤ d →
  load8 (mem_cpy m d s n) a =
  if (d <=? a) && (a <? d + Z.of_nat n) then load8 m (s + (a - d)) else load8 m a.
Proof.
  revert m d s. induction n as [|n IH]; intros m d s Hdis; cbn [mem_cpy].
  - repeat zcase; done.
  - rewrite IH by lia. rewrite !load8_store8.
    destruct (Z.eq_dec a d) as [->|Hne].
    + rewrite Z.eqb_refl, Z.sub_diag, Z.add_0_r. repeat zcase. simpl. apply u8_small, load8_bound.
    + replace (s + 1 + (a - (d + 1))) with (s + (a - d)) by lia. repeat zcase; done.
Qed.

Lemma load32_mem_cpy m d s n a :
  d + Z.of_nat n ≤ s ∨ s + Z.of_nat n ≤ d → d ≤ a → a + 4 ≤ d + Z.of_nat n →
  load32 (mem_cpy m d s n) a = load32 m (s + (a - d)).
Proof.
  intros Hdis Ha Hb. apply load32_ext. intros i Hi. rewrite load8_mem_cpy by done.
  repeat zcase. simpl. f_equal. lia.
Qed.

Lemma load32_mem_cpy_ne m d s n a :
  d + Z.of_nat n ≤ s ∨ s + Z.of_nat n ≤ d → a + 4 ≤ d ∨ d + Z.of_nat n ≤ a →
  load32 (mem_cpy m d s n) a = load32 m a.
Proof.
  intros Hdis Ha. apply load32_ext. intros i Hi. rewrite load8_mem_cpy by done.
  repeat zcase; done.
Qed.

#[global] Arguments load8 : simpl never.
#[global] Arguments load32 : simpl never.
#[global] Arguments store8 : simpl never.
#[global] Arguments store32 : simpl never.
#[global] Arguments mem_set : simpl never.
#[global] Arguments mem_cpy : simpl never.

Create Rewrite HintDb mem.
#[export] Hint Rewrite load32_store32_ne load8_store32_ne using lia : mem.

(** Only the lemmas above unfold the block operations. *)
#[global] Opaque mem_set mem_cpy.
