(* ===== verification/Kmalloc.v ===== *)
(** * kernel/mem/kmalloc.c: the kernel heap

    A best-fit allocator on the region [HEAP_START .. HEAP_END).  The heap is
    a chain of blocks, each with an 8-byte header (total size, free flag) in
    memory itself; the model works on the same bytes.  The walks along the
    chain have no bound in the code (a header of size 0 would loop for ever),
    so they carry fuel, and the theorems show it is never exhausted on a
    well-formed heap. *)

From S2P Require Import Prelude KString KStdio Console Memory.

Open Scope Z_scope.
Open Scope c_scope.

Definition HEAP_START : Z := 0x100000.
Definition HEAP_END : Z := 0x200000.
Definition HEAP_SIZE : Z := HEAP_END - HEAP_START.
Definition MIN_ALLOC_SIZE : Z := 16.

(** [sizeof(block_header_t)]; [size] is at offset 0, [is_free] at offset 4. *)
Definition HEADER : Z := 8.
Definition blk_size (m : mem) (b : Z) : Z := load32 m b.
Definition blk_free (m : mem) (b : Z) : Z := load32 m (b + 4).
Definition set_size (m : mem) (b v : Z) : mem := store32 m b v.
Definition set_free (m : mem) (b v : Z) : mem := store32 m (b + 4) v.

(** Enough rounds for a chain of blocks of at least 8 bytes each. *)
Definition heap_fuel : nat := Z.to_nat (HEAP_SIZE / 8 + 2).

Definition kmalloc_init : M mem () :=
  modify (λ m, set_free (set_size m HEAP_START HEAP_SIZE) HEAP_START 1).

(** Round up to a multiple of 4 (in 32-bit arithmetic). *)
Definition align4 (size : Z) : Z :=
  if negb (size mod 4 =? 0) then size +! (4 - size mod 4) else size.

(** The best-fit search; a perfect fit ends it early.  0 is [NULL]. *)
Fixpoint best_fit_scan (fuel : nat) (m : mem) (total_size current best_fit best_fit_size : Z)
    : option Z :=
  match fuel with
  | O => None
  | S f =>
      if current <? HEAP_END then
        let next := current +! blk_size m current in
        if truth (blk_free m current) && (blk_size m current >=? total_size)
           && (blk_size m current <? best_fit_size) then
          if blk_size m current =? total_size then Some current
          else best_fit_scan f m total_size next current (blk_size m current)
        else best_fit_scan f m total_size next best_fit best_fit_size
      else Some best_fit
  end.

Definition kmalloc (size : Z) : M mem Z :=
  if size =? 0 then mret 0
  else
    let size := align4 size in
    let total_size := size +! HEADER in
    m ← get;
    best_fit ← of_option (best_fit_scan heap_fuel m total_size HEAP_START 0 0xFFFFFFFF);
    if best_fit =? 0 then mret 0
    else
      (if blk_size m best_fit >=? total_size +! HEADER +! MIN_ALLOC_SIZE then
         let new_block := best_fit +! total_size in
         modify (λ m, set_size m new_block (blk_size m best_fit -! total_size)) ;;
         modify (λ m, set_free m new_block 1) ;;
         modify (λ m, set_size m best_fit total_size)
       else mret ()) ;;
      modify (λ m, set_free m best_fit 0) ;;
      mret (best_fit +! HEADER).

(** The walk of [kfree] from the start of the heap to [block]: the block
    before it, 0 if [block] is the first. *)
Fixpoint find_prev (fuel : nat) (m : mem) (block current prev : Z) : option Z :=
  match fuel with
  | O => None
  | S f =>
      if (current <? HEAP_END) && negb (current =? block) then
        find_prev f m block (current +! blk_size m current) current
      else Some prev
  end.

Definition kfree (ptr : Z) : M mem () :=
  if ptr =? 0 then mret ()
  else
    let block := ptr -! HEADER in
    modify (λ m, set_free m block 1) ;;
    m ← get;
    let next := block +! blk_size m block in
    (if (next <? HEAP_END) && truth (blk_free m next) then
       modify (λ m, set_size m block (blk_size m block +! blk_size m next))
     else mret ()) ;;
    m ← get;
    prev ← of_option (find_prev heap_fuel m block HEAP_START 0);
    if negb (prev =? 0) && truth (blk_free m prev) then
      if prev +! blk_size m prev =? block then
        modify (λ m, set_size m prev (blk_size m prev +! blk_size m block))
      else mret ()
    else mret ().

(** ** kmalloc_status *)

Record heap_stats := Stats {
  total_blocks : Z;
  free_blocks : Z;
  allocated_blocks : Z;
  total_free : Z;
  total_allocated : Z
}.

Fixpoint stats_scan (fuel : nat) (m : mem) (current : Z) (s : heap_stats) : option heap_stats :=
  match fuel with
  | O => None
  | S f =>
      if current <? HEAP_END then
        let payload := blk_size m current -! HEADER in
        let s' :=
          if truth (blk_free m current) then
            Stats (total_blocks s +! 1) (free_blocks s +! 1) (allocated_blocks s)
              (total_free s +! payload) (total_allocated s)
          else
            Stats (total_blocks s +! 1) (free_blocks s) (allocated_blocks s +! 1)
              (total_free s) (total_allocated s +! payload) in
        stats_scan f m (current +! blk_size m current) s'
      else Some s
  end.

Definition kmalloc_status : M (io mem) () :=
  kprint ([10] ++ str "=== Heap Status ===" ++ [10]) ;;
  m ← quiet get;
  s ← of_option (stats_scan heap_fuel m HEAP_START (Stats 0 0 0 0 0));
  kprint (str "Total blocks: ") ;; kprint_uint (total_blocks s) ;;
  kprint ([10] ++ str "Free blocks: ") ;; kprint_uint (free_blocks s) ;;
  kprint ([10] ++ str "Allocated blocks: ") ;; kprint_uint (allocated_blocks s) ;;
  kprint ([10] ++ str "Free memory: ") ;; kprint_uint (total_free s) ;;
  kprint (str " bytes" ++ [10]) ;;
  kprint (str "Allocated memory: ") ;; kprint_uint (total_allocated s) ;;
  kprint (str " bytes" ++ [10]).

(** ** Specification: the heap as a list of blocks *)

(** A block: its total size and whether it is free. *)
Abbreviation block := (Z * bool)%type.

Definition span (bs : list block) : Z := foldr (λ b acc, b.1 + acc) 0 bs.

(** [seg m a bs b]: memory holds the blocks [bs] from address [a] to [b]. *)
Fixpoint seg (m : mem) (a : Z) (bs : list block) (b : Z) : Prop :=
  match bs with
  | [] => a = b
  | (sz, fr) :: bs' =>
      blk_size m a = sz ∧ truth (blk_free m a) = fr ∧ 12 ≤ sz ∧ sz mod 4 = 0 ∧
      seg m (a + sz) bs' b
  end.

Definition heap_rep (m : mem) (bs : list block) : Prop := seg m HEAP_START bs HEAP_END.

(** No two neighbours are both free: [kfree] coalesces. *)
Fixpoint coalesced (bs : list block) : Prop :=
  match bs with
  | (_, true) :: (((_, true) :: _) as bs') => False
  | _ :: bs' => coalesced bs'
  | [] => True
  end.

(** The block [kmalloc] must choose: the smallest free block that fits, and
    the first of those. *)
Definition best_fit_of (total : Z) (bs pre : list block) (sz : Z) (post : list block) : Prop :=
  bs = pre ++ (sz, true) :: post ∧ total ≤ sz ∧
  (∀ sz', (sz', true) ∈ bs → total ≤ sz' → sz ≤ sz') ∧
  (∀ sz', (sz', true) ∈ pre → total ≤ sz' → sz < sz').

(** What becomes of the chosen block. *)
Definition carve (total sz : Z) : list block :=
  if total + 24 <=? sz then [(total, false); (sz - total, true)] else [(sz, false)].

(** Merging a freed block of size [sz] with a free right neighbour, and the
    result with a free left neighbour. *)
Definition merge_right (sz : Z) (post : list block) : list block :=
  match post with
  | (sz', true) :: post' => (sz + sz', true) :: post'
  | _ => (sz, true) :: post
  end.

Fixpoint merge_left (pre : list block) (mid : list block) : list block :=
  match pre with
  | [] => mid
  | [(sz, true)] =>
      match mid with (sz', fr) :: post => (sz + sz', true) :: post | [] => pre end
  | b :: pre' => b :: merge_left pre' mid
  end.

(** An address in the payload of an allocated block of the chain at [a]. *)
Fixpoint payload_at (a : Z) (bs : list block) (x : Z) : Prop :=
  match bs with
  | [] => False
  | (sz, fr) :: bs' => (fr = false ∧ a + HEADER ≤ x < a + sz) ∨ payload_at (a + sz) bs' x
  end.

Definition in_payload (bs : list block) (x : Z) : Prop := payload_at HEAP_START bs x.

(** ** Chains of blocks *)

Lemma span_app bs bs' : span (bs ++ bs') = span bs + span bs'.
Proof. unfold span. induction bs as [|b bs IH]; simpl; lia. Qed.

Lemma span_cons sz fr bs : span ((sz, fr) :: bs) = sz + span bs.
Proof. done. Qed.

Lemma seg_span m a bs b : seg m a bs b → b = a + span bs ∧ 12 * Z.of_nat (length bs) ≤ span bs.
Proof.
  revert a. induction bs as [|[sz fr] bs IH]; intros a; simpl.
  - intros ->. lia.
  - intros (_ & _ & Hsz & _ & Hs). destruct (IH _ Hs). lia.
Qed.

Lemma seg_app m a bs bs' b :
  seg m a (bs ++ bs') b ↔ seg m a bs (a + span bs) ∧ seg m (a + span bs) bs' b.
Proof.
  revert a. induction bs as [|[sz fr] bs IH]; intros a; simpl.
  - rewrite Z.add_0_r. tauto.
  - rewrite IH, !Z.add_assoc. tauto.
Qed.

(** A segment depends on the bytes of its own range only. *)
Lemma seg_frame m m' a bs b :
  seg m a bs b → (∀ x, a ≤ x < b → load8 m' x = load8 m x) → seg m' a bs b.
Proof.
  revert a. induction bs as [|[sz fr] bs IH]; intros a; simpl; [done|].
  intros (Hs & Hf & Hsz & Hmod & Hseg) Heq. destruct (seg_span _ _ _ _ Hseg) as [Hb Hlen].
  assert (blk_size m' a = blk_size m a) as -> by (apply load32_ext; intros i Hi; apply Heq; lia).
  assert (blk_free m' a = blk_free m a) as ->.
  { apply load32_ext. intros i Hi. apply Heq. lia. }
  split_and!; try done. apply IH; [done|]. intros x Hx. apply Heq. lia.
Qed.

Lemma seg_cons m a sz fr bs b :
  seg m a ((sz, fr) :: bs) b ↔
  blk_size m a = sz ∧ truth (blk_free m a) = fr ∧ 12 ≤ sz ∧ sz mod 4 = 0 ∧ seg m (a + sz) bs b.
Proof. done. Qed.

Section heap.
Context (m : mem) (bs : list block) (Hrep : heap_rep m bs).

Lemma heap_span : span bs = HEAP_SIZE ∧ 12 * Z.of_nat (length bs) ≤ HEAP_SIZE.
Proof. destruct (seg_span _ _ _ _ Hrep). unfold HEAP_SIZE in *. lia. Qed.

Lemma heap_fuel_ok : (length bs < heap_fuel)%nat.
Proof.
  destruct heap_span as [_ H]. unfold heap_fuel.
  change (HEAP_SIZE / 8 + 2) with 131074. change HEAP_SIZE with 1048576 in H. lia.
Qed.

(** The parts of the heap around a block. *)
Lemma heap_at pre sz fr post :
  bs = pre ++ (sz, fr) :: post →
  let a := HEAP_START + span pre in
  seg m HEAP_START pre a ∧ blk_size m a = sz ∧ truth (blk_free m a) = fr ∧
  12 ≤ sz ∧ sz mod 4 = 0 ∧ seg m (a + sz) post HEAP_END ∧
  0 ≤ span pre ∧ a + sz + span post = HEAP_END ∧ 0 ≤ span post.
Proof.
  intros -> a. unfold heap_rep in Hrep. rewrite seg_app, seg_cons in Hrep.
  destruct Hrep as (H1 & H2 & H3 & H4 & H5 & H6).
  destruct (seg_span _ _ _ _ H1), (seg_span _ _ _ _ H6). fold a in H6. split_and!; try done; lia.
Qed.

(** *** The search *)

Definition best_so_far (total : Z) (seen : list block) (best best_size : Z) : Prop :=
  (best = 0 ∧ best_size = 0xFFFFFFFF ∧ ∀ sz', (sz', true) ∈ seen → ¬ total ≤ sz') ∨
  (∃ pre post, best_fit_of total seen pre best_size post ∧ best = HEAP_START + span pre).

Lemma best_skip total seen best best_size sz fr :
  best_so_far total seen best best_size → sz < 0xFFFFFFFF →
  (fr = true → total ≤ sz → best_size ≤ sz) →
  best_so_far total (seen ++ [(sz, fr)]) best best_size.
Proof.
  intros [(-> & -> & Hno)|(pre & post & (-> & Hfit & Hmin & Hfirst) & ->)] Hlt Hskip.
  - left. split_and!; [done|done|]. intros sz' [Hin|Hin]%elem_of_app; [by apply Hno|].
    apply list_elem_of_singleton in Hin. simplify_eq. intros Hle. specialize (Hskip eq_refl Hle). lia.
  - right. exists pre, (post ++ [(sz, fr)]). split; [|done].
    split; [by rewrite <- app_assoc|]. split; [done|]. split; [|done].
    intros sz' [Hin|Hin]%elem_of_app Hle; [by apply Hmin|].
    apply list_elem_of_singleton in Hin. simplify_eq. by apply Hskip.
Qed.

Lemma best_take total seen best best_size sz :
  best_so_far total seen best best_size → total ≤ sz → sz < best_size →
  best_fit_of total (seen ++ [(sz, true)]) seen sz [].
Proof.
  intros Hb Hle Hlt.
  assert (∀ sz', (sz', true) ∈ seen → total ≤ sz' → sz < sz') as Hall.
  { intros sz' Hin Hle'. destruct Hb as [(_ & _ & Hno)|(pre & post & (_ & _ & Hmin & _) & _)].
    - by apply Hno in Hin.
    - specialize (Hmin sz' Hin Hle'). lia. }
  split_and!; [done|done| |done].
  intros sz' [Hin|Hin]%elem_of_app Hle'; [specialize (Hall sz' Hin Hle'); lia|].
  apply list_elem_of_singleton in Hin. simplify_eq. lia.
Qed.

(** Blocks that are not smaller do not change the choice. *)
Lemma best_fit_extend total seen pre sz post rest :
  best_fit_of total seen pre sz post → total = sz →
  best_fit_of total (seen ++ rest) pre sz (post ++ rest).
Proof.
  intros (-> & Hfit & Hmin & Hfirst) ->. split; [by rewrite <- app_assoc|]. split_and!; [done| |done].
  intros sz' _ Hle. lia.
Qed.

Lemma best_fit_scan_spec fuel total seen rest best best_size :
  bs = seen ++ rest → (length rest < fuel)%nat → best_so_far total seen best best_size →
  ∃ r, best_fit_scan fuel m total (HEAP_START + span seen) best best_size = Some r ∧
    ((r = 0 ∧ ∀ sz', (sz', true) ∈ bs → ¬ total ≤ sz') ∨
     (∃ pre sz post, best_fit_of total bs pre sz post ∧ r = HEAP_START + span pre)).
Proof.
  revert seen rest best best_size. induction fuel as [|f IH]; intros seen rest best best_size Hbs Hf Hbest; [lia|].
  cbn [best_fit_scan]. destruct rest as [|[sz fr] rest].
  - rewrite app_nil_r in Hbs. subst seen. destruct heap_span as [-> _].
    change (HEAP_START + HEAP_SIZE) with HEAP_END. rewrite Z.ltb_irrefl. exists best. split; [done|].
    destruct Hbest as [(-> & _ & Hno)|(pre & post & Hb & ->)]; [by left|]. right. eauto.
  - destruct (heap_at seen sz fr rest Hbs) as (_ & Hsz & Hfr & Hge & _ & _ & Hs0 & Hend & Hp0).
    rewrite Hsz, Hfr. change HEAP_END with (0x200000) in *. change HEAP_START with 0x100000 in *.
    rewrite u32_small by lia. zcase.
    assert (bs = (seen ++ [(sz, fr)]) ++ rest) as Hbs' by (by rewrite <- app_assoc).
    assert (0x100000 + span seen + sz = 0x100000 + span (seen ++ [(sz, fr)])) as Hcur.
    { rewrite span_app. simpl. lia. }
    rewrite Hcur. rewrite Z.geb_leb.
    destruct (fr && (total <=? sz) && (sz <? best_size)) eqn:Etest.
    + apply andb_true_iff in Etest as [[-> H1%Z.leb_le]%andb_true_iff H2%Z.ltb_lt].
      pose proof (best_take _ _ _ _ _ Hbest H1 H2) as Htake.
      destruct (Z.eqb_spec sz total) as [->|Hne].
      * eexists. split; [done|]. right. exists seen, total, rest. split; [|done].
        rewrite Hbs'. apply (best_fit_extend total _ _ _ [] rest Htake eq_refl).
      * apply (IH _ rest); [done|simpl in Hf; lia|]. right. exists seen, []. done.
    + apply (IH _ rest); [done|simpl in Hf; lia|]. apply best_skip; [done|lia|].
      intros -> Hle. apply andb_false_iff in Etest as [Etest|Etest].
      * simpl in Etest. apply Z.leb_gt in Etest. lia.
      * by apply Z.ltb_ge in Etest.
Qed.
End heap.

(** The total size of the block for a request, when it does not overflow. *)
Definition request (size : Z) : Z := 4 * ((size + 3) / 4) + HEADER.

Lemma align4_request size :
  0 < size ≤ 0xFFFFFFF4 → align4 size +! HEADER = request size ∧
  size + HEADER ≤ request size < size + HEADER + 4 ∧ request size mod 4 = 0 ∧ 12 ≤ request size.
Proof.
  intros Hs. unfold align4, request, HEADER.
  pose proof (Z.div_mod size 4). pose proof (Z.mod_pos_bound size 4).
  pose proof (Z.div_mod (size + 3) 4). pose proof (Z.mod_pos_bound (size + 3) 4).
  assert (4 * ((size + 3) / 4) + 8 = ((size + 3) / 4 + 2) * 4) as E4 by lia.
  split_and!; [|lia|lia|by rewrite E4, Z.mod_mul|lia].
  destruct (Z.eqb_spec (size mod 4) 0); cbn [negb].
  - rewrite u32_small; lia.
  - rewrite (u32_small (size + _)) by lia. rewrite u32_small; lia.
Qed.

Lemma truth_1 : truth 1 = true. Proof. done. Qed.

(** Writes inside [lo .. hi) leave the other bytes alone. *)
Definition only_in (m m' : mem) (lo hi : Z) : Prop :=
  ∀ x, x < lo ∨ hi ≤ x → load8 m' x = load8 m x.

(** The header of a block right after it was written. *)
Ltac header := unfold blk_size, blk_free, set_size, set_free, HEADER in *;
  repeat first [rewrite load32_store32_eq by lia | rewrite load32_store32_ne by lia].

Lemma carve_seg m a sz total :
  blk_size m a = sz → truth (blk_free m a) = true → 12 ≤ total ≤ sz → sz mod 4 = 0 → total mod 4 = 0 →
  0 ≤ a → a + sz < 0x400000 → 
  let m1 := if sz >=? total + HEADER + MIN_ALLOC_SIZE then
              set_size (set_free (set_size m (a + total) (sz - total)) (a + total) 1) a total
            else m in
  let m2 := set_free m1 a 0 in
  seg m2 a (carve total sz) (a + sz) ∧ only_in m m2 a (a + sz).
Proof.
  intros Hsz Hfr Ht Hm4 Ht4 Ha Hend m1 m2. unfold m2, m1, carve, MIN_ALLOC_SIZE in *. clear m1 m2.
  rewrite Z.geb_leb. unfold HEADER. replace (total + 8 + 16) with (total + 24) by lia.
  destruct (Z.leb_spec (total + 24) sz).
  - split.
    + rewrite !seg_cons. cbn [seg]. header. split_and!; first [done|lia|by rewrite Zminus_mod, Hm4, Ht4].
    + intros x Hx. unfold set_free, set_size. by rewrite !load8_store32_ne by lia.
  - split.
    + rewrite !seg_cons. cbn [seg]. header. split_and!; first [done|lia|by rewrite Zminus_mod, Hm4, Ht4].
    + intros x Hx. unfold set_free, set_size. by rewrite !load8_store32_ne by lia.
Qed.

Lemma kmalloc_run m bs size :
  heap_rep m bs → 0 < size ≤ 0xFFFFFFF4 →
  ∃ p m', kmalloc size m = Some (p, m') ∧
    ((p = 0 ∧ m' = m ∧ ∀ sz, (sz, true) ∈ bs → sz < request size) ∨
     (∃ pre sz post, best_fit_of (request size) bs pre sz post ∧
        let a := HEAP_START + span pre in
        p = a + HEADER ∧ heap_rep m' (pre ++ carve (request size) sz ++ post) ∧
        only_in m m' a (a + sz))).
Proof.
  intros Hrep Hs. destruct (align4_request size Hs) as (Ereq & Hreq & Hmod & Hmin).
  unfold kmalloc. destruct (Z.eqb_spec size 0); [lia|]. rewrite Ereq.
  rewrite bind_run. cbn -[best_fit_scan heap_fuel].
  destruct (best_fit_scan_spec m bs Hrep heap_fuel (request size) [] bs 0 0xFFFFFFFF)
    as (r & Er & Hcase); [done|by apply heap_fuel_ok with m| |].
  { left. split_and!; [done|done|]. intros sz' Hin. by apply elem_of_nil in Hin. }
  cbn [span foldr] in Er. rewrite Z.add_0_r in Er.
  rewrite bind_run. unfold of_option. rewrite Er.
  destruct Hcase as [(-> & Hno)|(pre & sz & post & Hbest & ->)].
  { exists 0, m. split; [done|]. left. split_and!; [done|done|]. intros sz Hin.
    apply Hno in Hin. lia. }
  pose proof Hbest as (Hbs & Hfit & _).
  destruct (heap_at m bs Hrep pre sz true post Hbs)
    as (Hpre & Hsz & Hfr & Hge & Hsmod & Hpost & Hp0 & Hend & Hq0).
  set (a := HEAP_START + span pre) in *.
  change HEAP_START with 0x100000 in *. change HEAP_END with 0x200000 in *.
  destruct (Z.eqb_spec a 0); [lia|].
  destruct (carve_seg m a sz (request size)) as [Hseg Honly]; [done..|lia|lia|].
  rewrite Hsz. unfold HEADER, MIN_ALLOC_SIZE in *.
  rewrite !(u32_small (request size + _)) by lia. rewrite (u32_small (request size + 8 + 16)) by lia.
  rewrite (u32_small (a + 8)) by lia.
  match type of Hseg with seg ?x _ _ _ => exists (a + 8), x; set (m2 := x) in * end.
  split.
  { rewrite (u32_small (a + request size)) by lia. unfold m2.
    rewrite Z.geb_leb. destruct (Z.leb_spec (request size + 8 + 16) sz); [|reflexivity].
    mrun. rewrite Hsz, (u32_small (sz - request size)) by lia. reflexivity. }
  right. exists pre, sz, post. split; [done|]. cbv zeta. split; [done|].
  split; [|done]. unfold heap_rep. rewrite !seg_app.
  change HEAP_START with 0x100000. change HEAP_END with 0x200000. fold a. split_and!.
  - apply seg_frame with m; [done|]. intros x Hx. apply Honly. lia.
  - assert (span (carve (request size) sz) = sz) as -> by (unfold carve; zcase; simpl; lia). done.
  - assert (span (carve (request size) sz) = sz) as -> by (unfold carve; zcase; simpl; lia).
    apply seg_frame with m; [done|]. intros x Hx. apply Honly. lia.
Qed.

(** *** Freeing *)

(** Where the block before the end of [pre] starts; 0 if there is none. *)
Definition prev_addr (pre : list block) : Z :=
  match pre with [] => 0 | _ => HEAP_START + span (removelast pre) end.

Lemma prev_addr_snoc pre b : prev_addr (pre ++ [b]) = HEAP_START + span pre.
Proof. unfold prev_addr. rewrite removelast_last. by destruct pre. Qed.

Lemma find_prev_spec fuel m seen rest tail :
  heap_rep m (seen ++ rest ++ tail) → (length rest < fuel)%nat →
  find_prev fuel m (HEAP_START + span (seen ++ rest)) (HEAP_START + span seen) (prev_addr seen) =
  Some (prev_addr (seen ++ rest)).
Proof.
  revert seen rest. induction fuel as [|f IH]; intros seen rest Hrep Hf; [lia|]. cbn [find_prev].
  destruct rest as [|[sz fr] rest].
  { by rewrite app_nil_r, Z.eqb_refl, andb_false_r. }
  destruct (heap_at m _ Hrep seen sz fr (rest ++ tail) eq_refl)
    as (_ & Hsz & _ & Hge & _ & Hs & Hp0 & Hend & Hq0).
  destruct (seg_span _ _ _ _ (proj1 (proj1 (seg_app _ _ rest tail _) Hs))) as [_ Hrest].
  rewrite Hsz, span_app, span_cons. change HEAP_END with 0x200000 in *.
  change HEAP_START with 0x100000 in *. rewrite u32_small by lia. repeat zcase. cbn [andb negb].
  specialize (IH (seen ++ [(sz, fr)]) rest). rewrite <- !app_assoc in IH. simpl app in IH.
  rewrite prev_addr_snoc, !span_app, !span_cons in IH. cbn [span foldr] in IH.
  change HEAP_START with 0x100000 in *. rewrite Z.add_0_r, !Z.add_assoc in IH.
  rewrite !Z.add_assoc. apply IH; [done|simpl in Hf; lia].
Qed.

Lemma merge_left_free pre s s' fr post :
  merge_left (pre ++ [(s, true)]) ((s', fr) :: post) = pre ++ (s + s', true) :: post.
Proof.
  induction pre as [|b pre IH]; [done|]. simpl. rewrite IH. destruct b as [? []], pre; done.
Qed.

Lemma merge_left_used pre s mid : merge_left (pre ++ [(s, false)]) mid = pre ++ (s, false) :: mid.
Proof. induction pre as [|b pre IH]; [done|]. simpl. rewrite IH. destruct b as [? []], pre; done. Qed.

(** Growing a free block over its right neighbour. *)
Lemma merge_seg m a s1 s2 f2 rest b :
  seg m a ((s1, true) :: (s2, f2) :: rest) b → b < 0x400000 → 0 ≤ a →
  let m' := set_size m a (s1 + s2) in
  seg m' a ((s1 + s2, true) :: rest) b ∧ only_in m m' a (a + HEADER).
Proof.
  intros Hseg Hb Ha m'. rewrite !seg_cons in Hseg.
  destruct Hseg as (H1 & H2 & H3 & H4 & H5 & H6 & H7 & H8 & H9).
  destruct (seg_span _ _ _ _ H9) as [Hend Hlen].
  assert (only_in m m' a (a + HEADER)) as Honly.
  { intros x Hx. unfold m', set_size, HEADER in *. by rewrite load8_store32_ne by lia. }
  split; [|done]. rewrite seg_cons. split_and!; [| |lia| |].
  - unfold m'. header. done.
  - rewrite <- H2. f_equal. unfold m'. header. done.
  - by rewrite Z.add_mod, H4, H8.
  - rewrite Z.add_assoc. apply seg_frame with m; [done|]. intros x Hx. apply Honly.
    unfold HEADER. lia.
Qed.

Lemma heap_rep_app m pre rest :
  heap_rep m (pre ++ rest) ↔
  seg m HEAP_START pre (HEAP_START + span pre) ∧ seg m (HEAP_START + span pre) rest HEAP_END.
Proof. apply seg_app. Qed.

(** A write to the bytes of a suffix keeps the prefix. *)
Lemma heap_rep_suffix m m' pre rest rest' hi :
  heap_rep m (pre ++ rest) → seg m' (HEAP_START + span pre) rest' HEAP_END →
  only_in m m' (HEAP_START + span pre) hi → heap_rep m' (pre ++ rest').
Proof.
  rewrite !heap_rep_app. intros [H1 H2] H3 H4. split; [|done]. apply seg_frame with m; [done|].
  intros x Hx. apply H4. lia.
Qed.

Lemma only_in_trans m1 m2 m3 lo hi lo' hi' :
  only_in m1 m2 lo hi → only_in m2 m3 lo' hi' → only_in m1 m3 (Z.min lo lo') (Z.max hi hi').
Proof. intros H1 H2 x Hx. rewrite H2, H1 by lia. done. Qed.

(** The first half of [kfree]: the free flag and forward coalescing. *)
Lemma kfree_forward m pre sz fr post :
  heap_rep m (pre ++ (sz, fr) :: post) →
  let a := HEAP_START + span pre in
  let m1 := set_free m a 1 in
  let next := a +! blk_size m1 a in
  let m2 := if (next <? HEAP_END) && truth (blk_free m1 next)
            then set_size m1 a (blk_size m1 a +! blk_size m1 next) else m1 in
  heap_rep m2 (pre ++ merge_right sz post) ∧ only_in m m2 a (a + HEADER).
Proof.
  intros Hrep a m1 next m2. pose proof (proj1 (heap_rep_app _ _ _) Hrep) as [Hpre Hs].
  fold a in Hs, Hpre. rewrite seg_cons in Hs. destruct Hs as (Hsz & _ & Hge & Hmod & Hpost).
  destruct (seg_span _ _ _ _ Hpre) as [_ Hp], (seg_span _ _ _ _ Hpost) as [Hend Hq].
  assert (only_in m m1 a (a + HEADER)) as Hm1.
  { intros x Hx. unfold m1, set_free, HEADER in *. by rewrite load8_store32_ne by lia. }
  assert (0x100000 ≤ a) as Ha by (unfold a; change HEAP_START with 0x100000; lia).
  assert (seg m1 a ((sz, true) :: post) HEAP_END) as Hseg1.
  { rewrite seg_cons. split_and!; [unfold m1; header; done|unfold m1; header; done|done|done|].
    apply seg_frame with m; [done|]. intros x Hx. apply Hm1. unfold HEADER. lia. }
  assert (heap_rep m1 (pre ++ (sz, true) :: post)) as Hrep1.
  { by apply heap_rep_suffix with m ((sz, fr) :: post) (a + HEADER). }
  assert (HEAP_END = 0x200000) as HE by done.
  unfold m2, next. rewrite (proj1 Hseg1), (u32_small (a + sz)) by lia.
  destruct post as [|[s2 f2] post].
  { simpl in Hend. rewrite Z.add_0_r in Hend. rewrite <- Hend, Z.ltb_irrefl. done. }
  rewrite span_cons in Hend. pose proof Hseg1 as (_ & _ & _ & _ & E1 & E2 & Hge2 & _ & Hs3).
  destruct (seg_span _ _ _ _ Hs3) as [_ Hq3].
  destruct (Z.ltb_spec (a + sz) HEAP_END); [|lia]. rewrite E2, E1, u32_small by lia. cbn [andb].
  destruct f2; [|done]. destruct (merge_seg _ _ _ _ _ _ _ Hseg1) as [Hseg2 Hm2]; [done|lia|].
  split; [by apply heap_rep_suffix with m1 ((sz, true) :: (s2, true) :: post) (a + HEADER)|].
  pose proof (only_in_trans _ _ _ _ _ _ _ Hm1 Hm2) as Ht. by rewrite Z.min_id, Z.max_id in Ht.
Qed.

(** The second half: backward coalescing. *)
Lemma kfree_backward m pre sz fr post :
  heap_rep m (pre ++ (sz, fr) :: post) →
  let a := HEAP_START + span pre in
  let prev := prev_addr pre in
  let m' := if negb (prev =? 0) && truth (blk_free m prev) then
              if prev +! blk_size m prev =? a
              then set_size m prev (blk_size m prev +! blk_size m a) else m
            else m in
  heap_rep m' (merge_left pre ((sz, fr) :: post)) ∧
  (∀ x, (∀ pre' s, pre = pre' ++ [(s, true)] →
     ¬ HEAP_START + span pre' ≤ x < HEAP_START + span pre' + HEADER) → load8 m' x = load8 m x).
Proof.
  intros Hrep a prev m'. unfold m', prev.
  assert (HEAP_START = 0x100000) as HS by done. assert (HEAP_END = 0x200000) as HE by done.
  destruct pre as [|[s f] pre _] using rev_ind; [done|].
  rewrite prev_addr_snoc. rewrite <- app_assoc in Hrep. simpl app in Hrep.
  destruct (heap_at m _ Hrep pre s f ((sz, fr) :: post) eq_refl)
    as (Hpre & Hs & Hf & Hge & Hmod & Hpost & Hp0 & Hend & Hq0).
  assert (a = HEAP_START + span pre + s) as Ea.
  { unfold a. rewrite span_app. simpl. lia. }
  rewrite Hs, Hf. rewrite <- Ea in Hpost, Hend. pose proof Hpost as (Hsz & _ & Hge' & _).
  rewrite Hsz, span_cons in *. destruct (seg_span _ _ _ _ Hpost) as [_ Hlen].
  simpl in Hlen. rewrite (u32_small (HEAP_START + _ + s)), <- Ea, Z.eqb_refl by lia.
  destruct (Z.eqb_spec (HEAP_START + span pre) 0) as [|Hnz]; [lia|].
  destruct f; cbn [negb andb]; [|rewrite merge_left_used; done].
  rewrite merge_left_free. apply heap_rep_app in Hrep as Hs2. destruct Hs2 as [_ Hs2].
  destruct (merge_seg _ _ _ _ _ _ _ Hs2) as [Hs3 Hm3]; [done|lia|].
  destruct (seg_span _ _ _ _ (proj2 (proj2 (proj2 (proj2 Hpost))))) as [_ Hq3].
  rewrite u32_small by lia. split.
  - by apply heap_rep_suffix with m ((s, true) :: (sz, fr) :: post) (HEAP_START + span pre + HEADER).
  - intros x Hx. apply Hm3. specialize (Hx pre s eq_refl). unfold HEADER in *. lia.
Qed.

Lemma kfree_run m pre sz fr post :
  heap_rep m (pre ++ (sz, fr) :: post) →
  let a := HEAP_START + span pre in
  ∃ m', kfree (a + HEADER) m = Some ((), m') ∧
    heap_rep m' (merge_left pre (merge_right sz post)) ∧
    (∀ x, ¬ a ≤ x < a + HEADER →
       (∀ pre' s, pre = pre' ++ [(s, true)] →
          ¬ HEAP_START + span pre' ≤ x < HEAP_START + span pre' + HEADER) →
       load8 m' x = load8 m x).
Proof.
  intros Hrep a. destruct (kfree_forward _ _ _ _ _ Hrep) as [Hrep2 Honly]. fold a in Hrep2, Honly.
  destruct (heap_at m _ Hrep pre sz fr post eq_refl)
    as (_ & _ & _ & Hge & _ & _ & Hp0 & Hend & Hq0). fold a in Hend.
  assert (0x100000 ≤ a) as Ha by (unfold a; change HEAP_START with 0x100000; lia).
  assert (HEAP_END = 0x200000) as HE by done.
  assert (∃ s' fr' post', merge_right sz post = (s', fr') :: post') as (s' & fr' & post' & Em).
  { destruct post as [|[? []] ?]; simpl; eauto. }
  rewrite Em in *. match type of Hrep2 with heap_rep ?x _ => set (m2 := x) in * end.
  destruct (kfree_backward _ _ _ _ _ Hrep2) as [Hrep3 Hframe]. fold a in Hrep3, Hframe.
  pose proof (find_prev_spec heap_fuel m2 [] pre ((s', fr') :: post') Hrep2) as Hprev.
  simpl app in Hprev. cbn [span foldr] in Hprev. rewrite Z.add_0_r in Hprev. fold a in Hprev.
  match type of Hrep3 with heap_rep ?x _ => exists x end. split; [|split; [done|]].
  - unfold kfree. destruct (Z.eqb_spec (a + HEADER) 0); [unfold HEADER in *; lia|].
    replace (a + HEADER -! HEADER) with a by (unfold HEADER; rewrite u32_small; lia).
    mrun. match goal with |- match ?c with _ => _ end = _ =>
      assert (c = Some ((), m2)) as -> by (unfold m2; by destruct (_ && _)) end.
    change 0 with (prev_addr []) at 1. rewrite Hprev.
    2:{ pose proof (heap_fuel_ok _ _ Hrep) as Hf. rewrite length_app in Hf. lia. }
    destruct (negb (prev_addr pre =? 0) && _); [|done]. by destruct (_ +! _ =? a).
  - intros x Hx Hx'. rewrite Hframe by done. apply Honly. lia.
Qed.

(** ** Payloads *)

Lemma payload_app a bs bs' x :
  payload_at a (bs ++ bs') x ↔ payload_at a bs x ∨ payload_at (a + span bs) bs' x.
Proof.
  revert a. induction bs as [|[sz fr] bs IH]; intros a; simpl.
  - rewrite Z.add_0_r. tauto.
  - rewrite IH, Z.add_assoc. tauto.
Qed.

Lemma payload_bounds m a bs b x : seg m a bs b → payload_at a bs x → a + HEADER ≤ x < b.
Proof.
  revert a. induction bs as [|[sz fr] bs IH]; intros a; simpl; [done|].
  intros (_ & _ & Hge & _ & Hs) [[_ Hx]|Hx].
  - destruct (seg_span _ _ _ _ Hs). lia.
  - apply IH in Hx; [lia|done].
Qed.

(** The header of a block, and all of a free block, is outside every payload. *)
Lemma payload_not_header m pre sz fr post x :
  heap_rep m (pre ++ (sz, fr) :: post) → in_payload (pre ++ (sz, fr) :: post) x →
  let a := HEAP_START + span pre in
  ¬ a ≤ x < a + (if fr then sz else HEADER).
Proof.
  intros Hrep Hx a. apply heap_rep_app in Hrep as [Hpre Hs]. fold a in Hpre, Hs.
  unfold in_payload in Hx. rewrite payload_app in Hx. fold a in Hx. simpl in Hx.
  rewrite seg_cons in Hs. destruct Hs as (_ & _ & Hge & _ & Hs). unfold HEADER in *.
  destruct Hx as [Hx|[[-> Hx]|Hx]].
  - apply (payload_bounds _ _ _ _ _ Hpre) in Hx. destruct fr; lia.
  - lia.
  - apply (payload_bounds _ _ _ _ _ Hs) in Hx. unfold HEADER in *. destruct fr; lia.
Qed.

(** ** Coalesced heaps *)

Definition head_free (bs : list block) : bool := match bs with (_, fr) :: _ => fr | [] => false end.
Definition last_free (bs : list block) : bool := head_free (rev bs).

Lemma last_free_snoc bs sz fr : last_free (bs ++ [(sz, fr)]) = fr.
Proof. unfold last_free. by rewrite rev_unit. Qed.

Lemma coalesced_cons sz fr bs : coalesced ((sz, fr) :: bs) ↔ fr && head_free bs = false ∧ coalesced bs.
Proof. destruct fr, bs as [|[? []] ?]; simpl; intuition congruence. Qed.

Lemma coalesced_app bs bs' :
  coalesced (bs ++ bs') ↔ coalesced bs ∧ coalesced bs' ∧ last_free bs && head_free bs' = false.
Proof.
  induction bs as [|[sz fr] bs IH]; [simpl; tauto|].
  rewrite <- app_comm_cons, !coalesced_cons, IH.
  destruct bs as [|b bs _] using rev_ind; [unfold last_free; simpl; rewrite andb_false_r; tauto|].
  assert (head_free ((bs ++ [b]) ++ bs') = head_free (bs ++ [b])) as -> by (by destruct bs).
  destruct b. rewrite app_comm_cons, !last_free_snoc. tauto.
Qed.

Lemma carve_coalesced pre total sz post :
  coalesced (pre ++ (sz, true) :: post) → coalesced (pre ++ carve total sz ++ post).
Proof.
  rewrite !coalesced_app, coalesced_cons. intros (H1 & (H2 & H3) & H4).
  unfold carve, last_free in *. zcase; simpl in *; rewrite ?andb_false_r; tauto.
Qed.

(** Freeing the first block of a carved one restores the chain. *)
Lemma carve_merge pre total sz post :
  coalesced (pre ++ (sz, true) :: post) →
  (∃ s fr post', carve total sz ++ post = (s, fr) :: post' ∧
     merge_left pre (merge_right s post') = pre ++ (sz, true) :: post).
Proof.
  rewrite coalesced_app, coalesced_cons. intros (_ & (H2 & _) & H4). simpl in H4.
  rewrite andb_true_r in H4.
  assert (∀ mid, merge_left pre mid = pre ++ mid) as Hl.
  { intros mid. destruct pre as [|[s f] pre _] using rev_ind; [done|].
    rewrite last_free_snoc in H4. subst. rewrite merge_left_used, <- app_assoc. done. }
  unfold carve. zcase; simpl; do 3 eexists; (split; [done|]); rewrite Hl.
  - simpl. by replace (total + (sz - total)) with sz by lia.
  - by destruct post as [|[? []] ?].
Qed.

Lemma merge_coalesced pre sz post :
  coalesced (pre ++ (sz, false) :: post) → coalesced (merge_left pre (merge_right sz post)).
Proof.
  rewrite coalesced_app, coalesced_cons. intros (H1 & (_ & H3) & H4).
  assert (∃ s rest, merge_right sz post = (s, true) :: rest ∧ coalesced rest ∧ head_free rest = false)
    as (s & rest & -> & Hr & Hh).
  { destruct post as [|[s' []] post]; simpl; do 2 eexists; (split; [done|]); simpl in *; [tauto| |tauto].
    apply (coalesced_cons s' true post) in H3. simpl in H3. tauto. }
  destruct pre as [|[s1 f1] pre _] using rev_ind.
  { simpl merge_left. rewrite coalesced_cons, Hh. done. }
  rewrite coalesced_app in H1. destruct H1 as (H1 & _ & H5). simpl in H5. rewrite ?andb_true_r in H5.
  destruct f1.
  - rewrite merge_left_free, coalesced_app, coalesced_cons, Hh. simpl. rewrite andb_true_r in *. tauto.
  - rewrite merge_left_used, coalesced_app, !coalesced_cons, Hh. simpl. rewrite andb_false_r. tauto.
Qed.

(** ** Properties *)

Lemma seg_mod4 m a bs b : seg m a bs b → span bs mod 4 = 0.
Proof.
  revert a. induction bs as [|[sz fr] bs IH]; intros a; simpl; [done|].
  intros (_ & _ & _ & Hmod & Hs). apply IH in Hs. by rewrite Z.add_mod, Hmod, Hs.
Qed.

Lemma kmalloc_init_run m :
  ∃ m', kmalloc_init m = Some ((), m') ∧ heap_rep m' [(HEAP_SIZE, true)].
Proof.
  eexists. split; [done|]. unfold heap_rep. rewrite seg_cons. cbn [seg].
  change HEAP_SIZE with 1048576. change HEAP_START with 0x100000.
  split_and!; [header; done|header; done|lia|done|done].
Qed.

(** C5: [kmalloc] is best fit.  On a well-formed heap, for every request of at
    most 0xFFFFFFF4 bytes (above, the size of the block no longer fits into 32
    bits), the search ends; it returns [NULL] and changes nothing exactly when
    the request is empty or no free block is large enough, and otherwise it
    takes the smallest free block that fits (the first of equals), splits off
    the remainder when that leaves room for a header and 16 bytes, and leaves a
    well-formed heap in which only the chosen block has changed. *)
Theorem kmalloc_best_fit m bs size :
  heap_rep m bs → 0 ≤ size ≤ 0xFFFFFFF4 →
  ∃ p m', kmalloc size m = Some (p, m') ∧
    if p =? 0 then m' = m ∧ (size = 0 ∨ ∀ sz, (sz, true) ∈ bs → sz < request size)
    else 0 < size ∧ ∃ pre sz post, best_fit_of (request size) bs pre sz post ∧
           p = HEAP_START + span pre + HEADER ∧
           heap_rep m' (pre ++ carve (request size) sz ++ post) ∧
           only_in m m' (HEAP_START + span pre) (HEAP_START + span pre + sz).
Proof.
  intros Hrep Hs. destruct (Z.eq_dec size 0) as [->|]; [exists 0, m; split; [done|]; split; [done|by left]|].
  destruct (kmalloc_run m bs size Hrep ltac:(lia)) as (p & m' & E & [(-> & -> & Hno)|H]).
  { exists 0, m. split; [done|]. split; [done|by right]. }
  exists p, m'. split; [done|]. destruct H as (pre & sz & post & Hb & -> & Hrep' & Hon).
  destruct (heap_at m bs Hrep pre sz true post (proj1 Hb)) as (_ & _ & _ & _ & _ & _ & Hp0 & _).
  change HEAP_START with 0x100000 in *. unfold HEADER. zcase. split; [lia|]. eauto 10.
Qed.

(** A two-block heap for the witnesses: one allocated block, the rest free. *)
Definition heap2 : mem :=
  match (kmalloc_init ;; kmalloc 100) ∅ with Some (_, m) => m | None => ∅ end.

Lemma heap2_rep : heap_rep heap2 [(108, false); (HEAP_SIZE - 108, true)].
Proof. by vm_compute. Qed.

Lemma kmalloc_best_fit_witness :
  heap_rep heap2 [(108, false); (HEAP_SIZE - 108, true)] ∧
  ∃ p m', kmalloc 10 heap2 = Some (p, m') ∧
    if p =? 0 then m' = heap2 ∧ (10 = 0 ∨ ∀ sz, (sz, true) ∈ [(108, false); (HEAP_SIZE - 108, true)] → sz < request 10)
    else 0 < 10 ∧ ∃ pre sz post,
           best_fit_of (request 10) [(108, false); (HEAP_SIZE - 108, true)] pre sz post ∧
           p = HEAP_START + span pre + HEADER ∧ heap_rep m' (pre ++ carve (request 10) sz ++ post) ∧
           only_in heap2 m' (HEAP_START + span pre) (HEAP_START + span pre + sz).
Proof. split; [exact heap2_rep|]. apply (kmalloc_best_fit heap2 _ 10); [exact heap2_rep|lia]. Defined.

(** the memory [kmalloc] hands out is usable and private.  The pointer is
    4-aligned, its [size] bytes lie inside the heap and in no payload that was
    already allocated, and every byte of every allocated payload keeps its
    value and stays allocated. *)
Theorem kmalloc_fresh m bs size p m' :
  heap_rep m bs → 0 < size ≤ 0xFFFFFFF4 → kmalloc size m = Some (p, m') → p ≠ 0 →
  ∃ bs', heap_rep m' bs' ∧ p mod 4 = 0 ∧ HEAP_START + HEADER ≤ p ∧ p + size ≤ HEAP_END ∧
    (∀ x, p ≤ x < p + size → in_payload bs' x ∧ ¬ in_payload bs x) ∧
    (∀ x, in_payload bs x → in_payload bs' x ∧ load8 m' x = load8 m x).
Proof.
  intros Hrep Hs E Hp. destruct (kmalloc_run m bs size Hrep Hs) as (p' & m'' & E' & Hcase).
  rewrite E in E'. simplify_eq. destruct Hcase as [(-> & _)|(pre & sz & post & Hb & -> & Hrep' & Honly)]; [done|].
  destruct Hb as (-> & Hfit & _). exists (pre ++ carve (request size) sz ++ post).
  destruct (align4_request size Hs) as (_ & Hreq & _ & _).
  destruct (heap_at m _ Hrep pre sz true post eq_refl) as (Hpre & _ & _ & Hge & Hmod & Hpost & Hp0 & Hend & Hq0).
  set (a := HEAP_START + span pre) in *.
  assert (Hnew : ∀ x, a + HEADER ≤ x < a + request size → payload_at a (carve (request size) sz) x).
  { intros x Hx. unfold carve. zcase; left; (split; [done|lia]). }
  assert (∀ x, in_payload (pre ++ (sz, true) :: post) x → ¬ a ≤ x < a + sz) as Hold.
  { intros x Hx. exact (payload_not_header m pre sz true post x Hrep Hx). }
  unfold HEADER in *.
  assert (span (carve (request size) sz) = sz) as Hspan by (unfold carve; zcase; simpl; lia).
  split_and!; [done| |unfold a; lia|lia| |].
  - apply seg_mod4 in Hpre. unfold a. change HEAP_START with (0x100000).
    rewrite <- Z.add_assoc, Z.add_mod, (Z.add_mod (span pre)), Hpre by lia. done.
  - intros x Hx. split; [|intros H%Hold; lia]. unfold in_payload. rewrite !payload_app. fold a.
    right. left. apply Hnew. lia.
  - intros x Hx. split; [|apply Honly; apply Hold in Hx; lia].
    unfold in_payload in *. rewrite !payload_app, Hspan in *. simpl in Hx. fold a in Hx |- *.
    destruct Hx as [Hx|[[? _]|Hx]]; [by left|done|by right; right].
Qed.

Lemma kmalloc_fresh_witness :
  kmalloc 10 heap2 = Some (HEAP_START + 116, default ∅ (snd <$> kmalloc 10 heap2)) ∧
  ∃ bs', heap_rep (default ∅ (snd <$> kmalloc 10 heap2)) bs' ∧ (HEAP_START + 116) mod 4 = 0 ∧
    HEAP_START + HEADER ≤ HEAP_START + 116 ∧ HEAP_START + 116 + 10 ≤ HEAP_END ∧
    (∀ x, HEAP_START + 116 ≤ x < HEAP_START + 116 + 10 →
       in_payload bs' x ∧ ¬ in_payload [(108, false); (HEAP_SIZE - 108, true)] x) ∧
    (∀ x, in_payload [(108, false); (HEAP_SIZE - 108, true)] x →
       in_payload bs' x ∧ load8 (default ∅ (snd <$> kmalloc 10 heap2)) x = load8 heap2 x).
Proof.
  split; [by vm_compute|].
  apply (kmalloc_fresh heap2 _ 10); [exact heap2_rep|lia|by vm_compute|by vm_compute].
Defined.

(** Payload bytes of the other blocks survive [kfree]. *)
Lemma kfree_payload m m' pre sz post x :
  heap_rep m (pre ++ (sz, false) :: post) →
  (∀ x, ¬ HEAP_START + span pre ≤ x < HEAP_START + span pre + HEADER →
     (∀ pre' s, pre = pre' ++ [(s, true)] →
        ¬ HEAP_START + span pre' ≤ x < HEAP_START + span pre' + HEADER) →
     load8 m' x = load8 m x) →
  in_payload (pre ++ (sz, false) :: post) x → load8 m' x = load8 m x.
Proof.
  intros Hrep Hframe Hx. apply Hframe; [exact (payload_not_header _ _ _ _ _ _ Hrep Hx)|].
  intros pre' s ->. rewrite <- app_assoc in Hrep, Hx. simpl app in Hrep, Hx.
  destruct (heap_at m _ Hrep pre' s true ((sz, false) :: post) eq_refl) as (_ & _ & _ & Hge & _).
  pose proof (payload_not_header _ _ _ _ _ _ Hrep Hx) as Hn. simpl in Hn. unfold HEADER. lia.
Qed.

(** [kfree] of an allocated block returns (the walk that looks for the
    previous block ends), and leaves the heap in which the block is free and
    merged with a free right and a free left neighbour; the bytes of every
    payload, the freed one included, are unchanged. *)
Theorem kfree_coalesces m pre sz post :
  heap_rep m (pre ++ (sz, false) :: post) →
  ∃ m', kfree (HEAP_START + span pre + HEADER) m = Some ((), m') ∧
    heap_rep m' (merge_left pre (merge_right sz post)) ∧
    (coalesced (pre ++ (sz, false) :: post) → coalesced (merge_left pre (merge_right sz post))) ∧
    (∀ x, in_payload (pre ++ (sz, false) :: post) x → load8 m' x = load8 m x).
Proof.
  intros Hrep. destruct (kfree_run _ _ _ _ _ Hrep) as (m' & E & Hrep' & Hframe).
  exists m'. split_and!; [done|done|apply merge_coalesced|].
  intros x Hx. by apply (kfree_payload m m' pre sz post).
Qed.

Lemma kfree_coalesces_witness :
  heap_rep heap2 ([] ++ (108, false) :: [(HEAP_SIZE - 108, true)]) ∧
  ∃ m', kfree (HEAP_START + span [] + HEADER) heap2 = Some ((), m') ∧
    heap_rep m' (merge_left [] (merge_right 108 [(HEAP_SIZE - 108, true)])) ∧
    (coalesced ([] ++ (108, false) :: [(HEAP_SIZE - 108, true)]) →
     coalesced (merge_left [] (merge_right 108 [(HEAP_SIZE - 108, true)]))) ∧
    (∀ x, in_payload ([] ++ (108, false) :: [(HEAP_SIZE - 108, true)]) x → load8 m' x = load8 heap2 x).
Proof. split; [exact heap2_rep|]. exact (kfree_coalesces heap2 [] 108 _ heap2_rep). Defined.

(** allocating and freeing the result gives the heap back: on a coalesced
    heap the chain of blocks is exactly what it was before [kmalloc]. *)
Theorem kmalloc_kfree_restores m bs size p m' :
  heap_rep m bs → coalesced bs → 0 < size ≤ 0xFFFFFFF4 → kmalloc size m = Some (p, m') → p ≠ 0 →
  ∃ m'', kfree p m' = Some ((), m'') ∧ heap_rep m'' bs.
Proof.
  intros Hrep Hco Hs E Hp. destruct (kmalloc_run m bs size Hrep Hs) as (p' & m1 & E' & Hcase).
  rewrite E in E'. simplify_eq. destruct Hcase as [(-> & _)|(pre & sz & post & (-> & _) & -> & Hrep' & _)]; [done|].
  destruct (carve_merge pre (request size) sz post Hco) as (s & fr & post' & Ec & Em).
  rewrite Ec in Hrep'. destruct (kfree_run _ _ _ _ _ Hrep') as (m'' & E2 & Hrep2 & _).
  rewrite Em in Hrep2. eauto.
Qed.

Lemma kmalloc_kfree_restores_witness :
  kmalloc 10 heap2 = Some (HEAP_START + 116, default ∅ (snd <$> kmalloc 10 heap2)) ∧
  ∃ m'', kfree (HEAP_START + 116) (default ∅ (snd <$> kmalloc 10 heap2)) = Some ((), m'') ∧
    heap_rep m'' [(108, false); (HEAP_SIZE - 108, true)].
Proof.
  split; [by vm_compute|].
  apply (kmalloc_kfree_restores heap2 _ 10);
    [exact heap2_rep|done|lia|by vm_compute|by vm_compute].
Defined.

(** *** Any sequence of operations *)

(** The pointers of the allocated blocks of the chain at [a]. *)
Fixpoint live_ptrs (a : Z) (bs : list block) : list Z :=
  match bs with
  | [] => []
  | (sz, fr) :: bs' => (if fr then [] else [a + HEADER]) ++ live_ptrs (a + sz) bs'
  end.

(** The heap and its clients: [live] is what they hold.  A client allocates,
    frees a pointer it holds, or writes a byte of a payload it holds. *)
Inductive heap_steps : mem → list Z → Prop :=
  | hs_init m m' : kmalloc_init m = Some ((), m') → heap_steps m' []
  | hs_malloc m live size p m' :
      heap_steps m live → 0 ≤ size ≤ 0xFFFFFFF4 → kmalloc size m = Some (p, m') →
      heap_steps m' (if p =? 0 then live else p :: live)
  | hs_free m live p m' :
      heap_steps m (p :: live) → kfree p m = Some ((), m') → heap_steps m' live
  | hs_write m live p x v :
      heap_steps m live → p ∈ live → p ≤ x < p + (blk_size m (p - HEADER) - HEADER) →
      heap_steps (store8 m x v) live
  | hs_perm m live live' : heap_steps m live → live ≡ₚ live' → heap_steps m live'.

Lemma live_app a bs bs' : live_ptrs a (bs ++ bs') = live_ptrs a bs ++ live_ptrs (a + span bs) bs'.
Proof.
  revert a. induction bs as [|[sz fr] bs IH]; intros a; simpl.
  - by rewrite Z.add_0_r.
  - by rewrite IH, Z.add_assoc, app_assoc.
Qed.

Lemma live_inv a bs p :
  p ∈ live_ptrs a bs → ∃ pre sz post, bs = pre ++ (sz, false) :: post ∧ p = a + span pre + HEADER.
Proof.
  revert a. induction bs as [|[sz fr] bs IH]; intros a; simpl; [by intros ?%elem_of_nil|].
  intros [Hp|Hp]%elem_of_app.
  - destruct fr; [by apply elem_of_nil in Hp|]. apply list_elem_of_singleton in Hp as ->.
    exists [], sz, bs. simpl. by rewrite Z.add_0_r.
  - destruct (IH _ Hp) as (pre & sz' & post & -> & ->). exists ((sz, fr) :: pre), sz', post.
    simpl. split; [done|lia].
Qed.

Lemma live_carve a pre total sz post :
  total ≤ sz →
  live_ptrs a (pre ++ carve total sz ++ post) ≡ₚ
  (a + span pre + HEADER) :: live_ptrs a (pre ++ (sz, true) :: post).
Proof.
  intros. rewrite !live_app. unfold carve. zcase; simpl.
  - replace (a + span pre + (total + (sz - total + 0))) with (a + span pre + sz) by lia. 
    by rewrite <- Permutation_middle.
  - rewrite Z.add_0_r. by rewrite <- Permutation_middle.
Qed.

Lemma live_merge a pre sz post :
  live_ptrs a (merge_left pre (merge_right sz post)) = live_ptrs a (pre ++ (sz, true) :: post).
Proof.
  assert (∃ s rest, merge_right sz post = (s, true) :: rest ∧
    ∀ b, live_ptrs b ((s, true) :: rest) = live_ptrs b ((sz, true) :: post)) as (s & rest & -> & Hr).
  { destruct post as [|[s' []] post]; simpl; do 2 eexists; (split; [done|]); intros b; simpl; [done| |done].
    by rewrite Z.add_assoc. }
  destruct pre as [|[s1 f1] pre _] using rev_ind; [apply Hr|].
  rewrite <- app_assoc. simpl app. destruct f1.
  - rewrite merge_left_free, !live_app. f_equal. specialize (Hr (a + span pre + s1)). simpl in *.
    by rewrite Z.add_assoc.
  - rewrite merge_left_used, !live_app. f_equal. specialize (Hr (a + span pre + s1)). simpl in *.
    by rewrite Hr.
Qed.

(** A write into a payload keeps the chain. *)
Lemma seg_write m a bs b x v : seg m a bs b → payload_at a bs x → seg (store8 m x v) a bs b.
Proof.
  revert a. induction bs as [|[sz fr] bs IH]; intros a Hs Hx; [done|].
  rewrite seg_cons in Hs |- *. destruct Hs as (H1 & H2 & H3 & H4 & H5).
  assert (a + HEADER ≤ x) as Hge.
  { destruct Hx as [[_ Hx]|Hx]; [lia|]. apply (payload_bounds _ _ _ _ _ H5) in Hx. unfold HEADER in *. lia. }
  unfold HEADER in Hge. split_and!; [| |done|done|].
  - rewrite <- H1. apply load32_ext. intros i Hi. by rewrite load8_store8_ne by lia.
  - rewrite <- H2. f_equal. apply load32_ext. intros i Hi. by rewrite load8_store8_ne by lia.
  - destruct Hx as [[_ Hx]|Hx]; [|by apply IH]. apply seg_frame with m; [done|].
    intros y Hy. by rewrite load8_store8_ne by lia.
Qed.

Definition heap_inv (m : mem) (live : list Z) : Prop :=
  ∃ bs, heap_rep m bs ∧ coalesced bs ∧ live ≡ₚ live_ptrs HEAP_START bs.

(** What a held pointer points to. *)
Lemma heap_inv_held m p live :
  heap_inv m live → p ∈ live →
  ∃ pre sz post, heap_rep m (pre ++ (sz, false) :: post) ∧ coalesced (pre ++ (sz, false) :: post) ∧
    p = HEAP_START + span pre + HEADER ∧ live ≡ₚ live_ptrs HEAP_START (pre ++ (sz, false) :: post).
Proof.
  intros (bs & Hrep & Hco & Hl) Hp. rewrite Hl in Hp. destruct (live_inv _ _ _ Hp) as (pre & sz & post & -> & ->).
  eauto 10.
Qed.

Lemma heap_inv_malloc m live size p m' :
  heap_inv m live → 0 ≤ size ≤ 0xFFFFFFF4 → kmalloc size m = Some (p, m') →
  heap_inv m' (if p =? 0 then live else p :: live).
Proof.
  intros (bs & Hrep & Hco & Hl) Hs E. destruct (Z.eq_dec size 0) as [->|].
  { injection E as <- <-. by exists bs. }
  destruct (kmalloc_run m bs size Hrep ltac:(lia)) as (p' & m1 & E' & Hcase). rewrite E in E'. simplify_eq. destruct Hcase as [(-> & -> & _)|(pre & sz & post & Hb & -> & Hrep' & _)].
  { by exists bs. }
  destruct Hb as (-> & Hfit & _).
  destruct (heap_at m _ Hrep pre sz true post eq_refl) as (_ & _ & _ & _ & _ & _ & Hp0 & _).
  destruct (Z.eqb_spec (HEAP_START + span pre + HEADER) 0) as [E0|_].
  { change HEAP_START with 0x100000 in E0. unfold HEADER in E0. lia. }
  eexists. split; [done|]. split; [by apply carve_coalesced|]. by rewrite Hl, <- live_carve.
Qed.

Lemma heap_inv_free m live p m' :
  heap_inv m (p :: live) → kfree p m = Some ((), m') → heap_inv m' live.
Proof.
  intros Hinv E. destruct (heap_inv_held m p _ Hinv) as (pre & sz & post & Hrep & Hco & -> & Hl); [left|].
  destruct (kfree_run _ _ _ _ _ Hrep) as (m1 & E' & Hrep' & _). rewrite E in E'. simplify_eq.
  eexists. split; [done|]. split; [by apply merge_coalesced|]. rewrite live_merge.
  rewrite !live_app in Hl |- *. simpl in Hl |- *. rewrite <- Permutation_middle in Hl.
  by apply Permutation_cons_inv in Hl.
Qed.

Lemma heap_inv_write m live p x v :
  heap_inv m live → p ∈ live → p ≤ x < p + (blk_size m (p - HEADER) - HEADER) →
  heap_inv (store8 m x v) live.
Proof.
  intros Hinv Hp Hx. destruct (heap_inv_held m p _ Hinv Hp) as (pre & sz & post & Hrep & Hco & -> & Hl).
  eexists. split; [|done]. apply seg_write; [done|]. rewrite payload_app. right. left.
  destruct (heap_at m _ Hrep pre sz false post eq_refl) as (_ & Hsz & _).
  replace (HEAP_START + span pre + HEADER - HEADER) with (HEAP_START + span pre) in Hx by lia.
  rewrite Hsz in Hx. split; [done|lia].
Qed.

Lemma heap_steps_inv m live : heap_steps m live → heap_inv m live.
Proof.
  induction 1 as [m m' E|m live size p m' _ IH Hs E|m live p m' _ IH E|m live p x v _ IH Hp Hx|m live live' _ IH Hperm].
  - destruct (kmalloc_init_run m) as (m1 & E' & Hrep). rewrite E in E'. simplify_eq.
    by eexists; split_and!; [done|done|].
  - by apply heap_inv_malloc with m size.
  - by apply heap_inv_free with m p.
  - by apply heap_inv_write with p.
  - destruct IH as (bs & ? & ? & ?). exists bs. by rewrite <- Hperm.
Qed.

Lemma live_ptrs_gt m a bs b p : seg m a bs b → p ∈ live_ptrs a bs → a < p.
Proof.
  intros Hs Hp. destruct (live_inv _ _ _ Hp) as (pre & sz & post & -> & ->).
  apply seg_app in Hs as [Hs _]. destruct (seg_span _ _ _ _ Hs). unfold HEADER. lia.
Qed.

Lemma live_ptrs_nodup m a bs b : seg m a bs b → NoDup (live_ptrs a bs).
Proof.
  revert a. induction bs as [|[sz fr] bs IH]; intros a Hs; [constructor|]. rewrite seg_cons in Hs.
  destruct Hs as (_ & _ & Hge & _ & Hs). simpl. destruct fr; simpl; [by apply IH|].
  constructor; [|by apply IH]. intros Hp. apply (live_ptrs_gt _ _ _ _ _ Hs) in Hp. unfold HEADER in Hp. lia.
Qed.

(** C2: Whatever sequence of [kmalloc] of at most 0xFFFFFFF4 bytes, [kfree] of
    held pointers and writes into held payloads the clients perform after
    [kmalloc_init], the heap is a
    well-formed chain without adjacent free blocks, its allocated blocks are
    exactly the held pointers (none is handed out twice), and the next
    [kmalloc] or [kfree] returns: no walk of the chain runs on for ever. *)
Theorem heap_steps_safe m live :
  heap_steps m live →
  (∃ bs, heap_rep m bs ∧ coalesced bs ∧ live ≡ₚ live_ptrs HEAP_START bs) ∧ NoDup live ∧
  (∀ size, 0 ≤ size ≤ 0xFFFFFFF4 → is_Some (kmalloc size m)) ∧
  (∀ p, p ∈ live → is_Some (kfree p m)).
Proof.
  intros H%heap_steps_inv. split; [done|]. pose proof H as (bs & Hrep & Hco & Hl). split_and!.
  - rewrite Hl. by apply live_ptrs_nodup with m HEAP_END.
  - intros size Hs. destruct (Z.eq_dec size 0) as [->|]; [by eexists|].
    destruct (kmalloc_run m bs size Hrep ltac:(lia)) as (p & m' & E & _). eauto.
  - intros p Hp. destruct (heap_inv_held m p live H Hp) as (pre & sz & post & Hr & _ & -> & _).
    destruct (kfree_run _ _ _ _ _ Hr) as (m' & E & _). eauto.
Qed.

Lemma heap_steps_safe_witness :
  (∃ bs, heap_rep heap2 bs ∧ coalesced bs ∧ [HEAP_START + 8] ≡ₚ live_ptrs HEAP_START bs) ∧
  NoDup [HEAP_START + 8] ∧
  (∀ size, 0 ≤ size ≤ 0xFFFFFFF4 → is_Some (kmalloc size heap2)) ∧
  (∀ p, p ∈ [HEAP_START + 8] → is_Some (kfree p heap2)).
Proof.
  apply (heap_steps_safe heap2).
  refine (hs_malloc _ [] 100 (HEAP_START + 8) heap2 (hs_init ∅ _ eq_refl) _ _); [lia|by vm_compute].
Defined.

(** *** Accounting *)

Definition block_count (fr : bool) (bs : list block) : Z :=
  foldr (λ b acc, (if eqb b.2 fr then 1 else 0) + acc) 0 bs.
Definition payload_sum (fr : bool) (bs : list block) : Z :=
  foldr (λ b acc, (if eqb b.2 fr then b.1 - HEADER else 0) + acc) 0 bs.

(** What the counters of [kmalloc_status] must be for the blocks [bs]. *)
Definition accounts (bs : list block) : heap_stats :=
  Stats (Z.of_nat (length bs)) (block_count true bs) (block_count false bs)
    (payload_sum true bs) (payload_sum false bs).

Lemma block_count_app fr bs bs' : block_count fr (bs ++ bs') = block_count fr bs + block_count fr bs'.
Proof. unfold block_count. induction bs as [|b bs IH]; simpl; lia. Qed.
Lemma payload_sum_app fr bs bs' : payload_sum fr (bs ++ bs') = payload_sum fr bs + payload_sum fr bs'.
Proof. unfold payload_sum. induction bs as [|b bs IH]; simpl; lia. Qed.

Lemma block_count_one fr sz f : block_count fr [(sz, f)] = if eqb f fr then 1 else 0.
Proof. by destruct f, fr. Qed.
Lemma payload_sum_one fr sz f : payload_sum fr [(sz, f)] = if eqb f fr then sz - HEADER else 0.
Proof. unfold payload_sum. destruct f, fr; simpl; lia. Qed.

Lemma accounts_total m a bs b :
  seg m a bs b →
  block_count true bs + block_count false bs = Z.of_nat (length bs) ∧
  payload_sum true bs + payload_sum false bs + HEADER * Z.of_nat (length bs) = span bs ∧
  0 ≤ block_count true bs ∧ 0 ≤ block_count false bs ∧
  0 ≤ payload_sum true bs ∧ 0 ≤ payload_sum false bs.
Proof.
  unfold HEADER. revert a. induction bs as [|[sz fr] bs IH]; intros a; [simpl; lia|].
  rewrite seg_cons. intros (_ & _ & Hge & _ & Hs). apply IH in Hs.
  unfold block_count, payload_sum, HEADER in *. destruct fr; simpl; lia.
Qed.

Lemma stats_scan_spec fuel m seen rest :
  heap_rep m (seen ++ rest) → (length rest < fuel)%nat →
  stats_scan fuel m (HEAP_START + span seen) (accounts seen) = Some (accounts (seen ++ rest)).
Proof.
  revert seen rest. induction fuel as [|f IH]; intros seen rest Hrep Hf; [lia|]. cbn [stats_scan].
  destruct rest as [|[sz fr] rest].
  { rewrite app_nil_r in *. destruct (heap_span m _ Hrep) as [-> _].
    change (HEAP_START + HEAP_SIZE) with HEAP_END. by rewrite Z.ltb_irrefl. }
  destruct (heap_at m _ Hrep seen sz fr rest eq_refl)
    as (Hpre & Hsz & Hfr & Hge & _ & _ & Hp0 & Hend & Hq0).
  destruct (accounts_total _ _ _ _ Hpre) as (H1 & H2 & H3 & H4 & H5 & H6).
  rewrite Hsz, Hfr. change HEAP_END with 0x200000 in *. unfold HEADER in *.
  change HEAP_START with 0x100000 in *. zcase. rewrite (u32_small (_ + sz)), (u32_small (sz - 8)) by lia.
  specialize (IH (seen ++ [(sz, fr)]) rest). rewrite <- app_assoc in IH. simpl app in IH.
  rewrite <- IH; [|done|simpl in Hf; lia]. rewrite span_app, span_cons. change (span []) with 0.
  change HEAP_START with 0x100000. f_equal; [lia|]. unfold accounts.
  rewrite !block_count_app, !payload_sum_app, length_app. simpl length. unfold accounts; cbn [total_blocks
    free_blocks allocated_blocks total_free total_allocated].
  rewrite !block_count_one, !payload_sum_one.
  destruct fr; cbn [eqb]; unfold HEADER; rewrite !u32_small by lia; f_equal; lia.
Qed.

(** [kmalloc_status] reports the heap: on a well-formed heap its walk ends
    and prints the numerals of counters that agree with the blocks; free and
    allocated blocks add up, and free bytes, allocated bytes and one header
    per block add up to the heap. *)
Theorem kmalloc_status_accounts m bs c :
  heap_rep m bs →
  ∃ s n1 n2 n3 n4 n5,
    stats_scan heap_fuel m HEAP_START (Stats 0 0 0 0 0) = Some s ∧ s = accounts bs ∧
    free_blocks s + allocated_blocks s = total_blocks s ∧
    total_free s + total_allocated s + HEADER * total_blocks s = HEAP_SIZE ∧
    numeral 10 (total_blocks s) n1 ∧ numeral 10 (free_blocks s) n2 ∧
    numeral 10 (allocated_blocks s) n3 ∧ numeral 10 (total_free s) n4 ∧
    numeral 10 (total_allocated s) n5 ∧
    kmalloc_status (IO m c) = Some ((), IO m (c ++
      [10] ++ str "=== Heap Status ===" ++ [10] ++ str "Total blocks: " ++ n1 ++
      [10] ++ str "Free blocks: " ++ n2 ++ [10] ++ str "Allocated blocks: " ++ n3 ++
      [10] ++ str "Free memory: " ++ n4 ++ str " bytes" ++ [10] ++
      str "Allocated memory: " ++ n5 ++ str " bytes" ++ [10])).
Proof.
  intros Hrep. pose proof (stats_scan_spec heap_fuel m [] bs Hrep (heap_fuel_ok m bs Hrep)) as E.
  cbn [span foldr app] in E. rewrite Z.add_0_r in E. change (accounts []) with (Stats 0 0 0 0 0) in E.
  destruct (accounts_total _ _ _ _ Hrep) as (H1 & H2 & H3 & H4 & H5 & H6).
  destruct (heap_span m bs Hrep) as [H7 H8]. rewrite H7 in H2.
  change HEAP_SIZE with 1048576 in *. unfold HEADER in *.
  destruct (uint_str_numeral (Z.of_nat (length bs))) as (n1 & E1 & N1 & _); [lia|].
  destruct (uint_str_numeral (block_count true bs)) as (n2 & E2 & N2 & _); [lia|].
  destruct (uint_str_numeral (block_count false bs)) as (n3 & E3 & N3 & _); [lia|].
  destruct (uint_str_numeral (payload_sum true bs)) as (n4 & E4 & N4 & _); [lia|].
  destruct (uint_str_numeral (payload_sum false bs)) as (n5 & E5 & N5 & _); [lia|].
  exists (accounts bs), n1, n2, n3, n4, n5.
  split; [done|]. split; [done|]. cbn [accounts free_blocks allocated_blocks total_blocks total_free total_allocated].
  split_and!; [done|done|done..|].
  unfold kmalloc_status. rewrite kprint_seq, bind_run, (quiet_run get m _ m m eq_refl).
  rewrite bind_run. unfold of_option. rewrite E.
  cbn [accounts free_blocks allocated_blocks total_blocks total_free total_allocated].
  repeat first [rewrite kprint_seq | rewrite (kprint_uint_seq _ _ _ _ _ E1)
    | rewrite (kprint_uint_seq _ _ _ _ _ E2) | rewrite (kprint_uint_seq _ _ _ _ _ E3)
    | rewrite (kprint_uint_seq _ _ _ _ _ E4) | rewrite (kprint_uint_seq _ _ _ _ _ E5)].
  rewrite kprint_run. by rewrite <- !app_assoc.
Qed.

Lemma kmalloc_status_accounts_witness :
  heap_rep heap2 [(108, false); (HEAP_SIZE - 108, true)] ∧
  ∃ out, kmalloc_status (IO heap2 []) = Some ((), IO heap2 out).
Proof.
  split; [exact heap2_rep|].
  destruct (kmalloc_status_accounts heap2 _ [] heap2_rep)
    as (s & n1 & n2 & n3 & n4 & n5 & _ & _ & _ & _ & _ & _ & _ & _ & _ & E).
  eexists. exact E.
Defined.

(** *** Requests that overflow *)

(** A request of 0xFFFFFFF5 to 0xFFFFFFF8 bytes makes the size of its block wrap
    to 0: the first block of the heap becomes one of size 0 that is in use, and
    from then on the search of [kmalloc] stays there for ever, whatever is
    requested: no number of rounds is enough. *)
Theorem kmalloc_zero_block size m m0 :
  0xFFFFFFF5 ≤ size ≤ 0xFFFFFFF8 → kmalloc_init m = Some ((), m0) →
  ∃ m', kmalloc size m0 = Some (HEAP_START + HEADER, m') ∧
    ∀ fuel total best best_size, best_fit_scan fuel m' total HEAP_START best best_size = None.
Proof.
  intros Hs E. assert (align4 size +! HEADER = 0) as Ea.
  { assert (size = 0xFFFFFFF5 ∨ size = 0xFFFFFFF6 ∨ size = 0xFFFFFFF7 ∨ size = 0xFFFFFFF8) as [->|[->|[->| ->]]] by lia; done. }
  destruct (kmalloc_init_run m) as (m1 & E' & Hrep). rewrite E in E'. injection E' as <-.
  destruct (heap_at m0 _ Hrep [] HEAP_SIZE true [] eq_refl) as (_ & Hsz & Hfr & _).
  change (HEAP_START + span []) with 0x100000 in *. change HEAP_SIZE with 1048576 in *.
  unfold kmalloc. destruct (Z.eqb_spec size 0); [lia|]. rewrite Ea.
  assert (best_fit_scan heap_fuel m0 0 HEAP_START 0 0xFFFFFFFF = Some 0x100000) as Eb.
  { pose proof (heap_fuel_ok m0 _ Hrep) as Hf. destruct heap_fuel as [|[|f]]; [simpl in Hf; lia..|].
    cbn [best_fit_scan]. change HEAP_START with 0x100000. rewrite Hsz, Hfr. reflexivity. }
  mrun. rewrite Eb. change (0x100000 =? 0) with false. cbv iota. rewrite Hsz.
  change (1048576 >=? _) with true. cbv iota beta. eexists. split; [reflexivity|].
  match goal with |- ∀ fuel total best best_size, best_fit_scan fuel ?x _ _ _ _ = None => set (m' := x) end.
  assert (blk_size m' HEAP_START = 0 ∧ blk_free m' HEAP_START = 0) as [Es Ef].
  { change HEAP_START with 0x100000. unfold m', blk_size, blk_free, set_free, set_size.
    rewrite load32_store32_ne, load32_store32_eq, load32_store32_eq by lia. done. }
  induction fuel as [|fuel IH]; intros total best best_size; [done|]. cbn [best_fit_scan]. rewrite Es, Ef.
  change (HEAP_START <? HEAP_END) with true. change (HEAP_START +! 0) with HEAP_START. cbn [truth Z.eqb negb andb]. apply IH.
Qed.

Lemma kmalloc_zero_block_witness :
  ∃ m', kmalloc 0xFFFFFFF8 (default ∅ (snd <$> kmalloc_init ∅)) = Some (HEAP_START + HEADER, m') ∧
    ∀ fuel total best best_size, best_fit_scan fuel m' total HEAP_START best best_size = None.
Proof. apply (kmalloc_zero_block 0xFFFFFFF8 ∅); [lia|reflexivity]. Defined.

(** A request of 0xFFFFFFFD bytes or more wraps to 0 when it is rounded
    up, so instead of failing [kmalloc] carves an 8-byte block with no payload
    at all and returns a pointer to it. *)
Theorem kmalloc_wraps_to_empty size m m0 :
  0xFFFFFFFD ≤ size ≤ 0xFFFFFFFF → kmalloc_init m = Some ((), m0) →
  ∃ m', kmalloc size m0 = Some (HEAP_START + HEADER, m') ∧ blk_size m' HEAP_START = HEADER.
Proof.
  intros Hs E. assert (align4 size = 0) as Ea.
  { assert (size = 0xFFFFFFFD ∨ size = 0xFFFFFFFE ∨ size = 0xFFFFFFFF) as [->|[->| ->]] by lia; done. }
  destruct (kmalloc_init_run m) as (m1 & E' & Hrep). rewrite E in E'. injection E' as <-.
  destruct (heap_at m0 _ Hrep [] HEAP_SIZE true [] eq_refl) as (_ & Hsz & Hfr & _).
  change (HEAP_START + span []) with 0x100000 in *. change HEAP_SIZE with 1048576 in *.
  unfold kmalloc. destruct (Z.eqb_spec size 0); [lia|]. rewrite Ea. change (0 +! HEADER) with 8.
  assert (best_fit_scan heap_fuel m0 8 HEAP_START 0 0xFFFFFFFF = Some 0x100000) as Eb.
  { pose proof (heap_fuel_ok m0 _ Hrep) as Hf. destruct heap_fuel as [|[|f]]; [simpl in Hf; lia..|].
    cbn [best_fit_scan]. change HEAP_START with 0x100000. rewrite Hsz, Hfr. reflexivity. }
  mrun. rewrite Eb. change (0x100000 =? 0) with false. cbv iota. rewrite Hsz.
  change (1048576 >=? _) with true. cbv iota beta. eexists. split; [reflexivity|].
  change HEAP_START with 0x100000. unfold blk_size, set_free, set_size.
  rewrite load32_store32_ne by lia. rewrite load32_store32_eq by lia. done.
Qed.

Lemma kmalloc_wraps_to_empty_witness :
  ∃ m', kmalloc 0xFFFFFFFF (default ∅ (snd <$> kmalloc_init ∅)) = Some (HEAP_START + HEADER, m') ∧
    blk_size m' HEAP_START = HEADER.
Proof. apply (kmalloc_wraps_to_empty 0xFFFFFFFF ∅); [lia|reflexivity]. Defined.
