(* ===== verification/Paging.v ===== *)
(** * kernel/mem/paging.c: page directories and page tables

    Two-level i386 page tables, kept in frames of the physical allocator and
    read and written through the identity mapping.  The state is physical
    memory, the frame allocator, the statics of paging.c and the processor
    state they drive (CR3, CR0 and the TLB).  [hw_walk] is what the processor
    does with the tables; the theorems relate the C code to it. *)

From S2P Require Import Prelude KString KStdio Console Pmm Memory.

Open Scope Z_scope.
Open Scope c_scope.

(** ** Constants (paging.h) *)

Definition PAGES_PER_TABLE : Z := 1024.
Definition TABLES_PER_DIR : Z := 1024.
Definition PAGE_PRESENT : Z := 0x1.
Definition PAGE_WRITABLE : Z := 0x2.
Definition PAGE_USER : Z := 0x4.
Definition PAGE_FRAME_MASK : Z := 0xFFFFF000.
Definition KERNEL_PDE_COUNT : Z := 4.
Definition USER_STACK_VIRT : Z := 0xBFFFF000.
Definition USER_STACK_TOP : Z := 0xC0000000.

Definition PAGE_DIR_INDEX (va : Z) : Z := Z.land (Z.shiftr va 22) 0x3FF.
Definition PAGE_TABLE_INDEX (va : Z) : Z := Z.land (Z.shiftr va 12) 0x3FF.
Definition PAGE_FRAME (entry : Z) : Z := Z.land entry PAGE_FRAME_MASK.

Definition present (e : Z) : bool := truth (Z.land e PAGE_PRESENT).

(** ** State *)

(** A cached translation: frame, writable, user. *)
Abbreviation rights := (Z * bool * bool)%type.

Record vm := Vm {
  ram : mem;
  frames : pmm_t;
  kernel_directory : Z;
  pd_tables : list Z;
  pd_physical_address : Z;
  cr3 : Z;
  cr0 : Z;
  pf_handler : bool;
  tlb : gmap Z rights
}.

Definition upd_ram (f : mem → mem) (s : vm) : vm :=
  Vm (f (ram s)) (frames s) (kernel_directory s) (pd_tables s) (pd_physical_address s)
     (cr3 s) (cr0 s) (pf_handler s) (tlb s).
Definition set_frames (p : pmm_t) (s : vm) : vm :=
  Vm (ram s) p (kernel_directory s) (pd_tables s) (pd_physical_address s)
     (cr3 s) (cr0 s) (pf_handler s) (tlb s).
Definition upd_tables (f : list Z → list Z) (s : vm) : vm :=
  Vm (ram s) (frames s) (kernel_directory s) (f (pd_tables s)) (pd_physical_address s)
     (cr3 s) (cr0 s) (pf_handler s) (tlb s).
Definition upd_tlb (f : gmap Z rights → gmap Z rights) (s : vm) : vm :=
  Vm (ram s) (frames s) (kernel_directory s) (pd_tables s) (pd_physical_address s)
     (cr3 s) (cr0 s) (pf_handler s) (f (tlb s)).

(** [table->entries[idx]] *)
Definition entry (m : mem) (table idx : Z) : Z := load32 m (table + 4 * idx).
Definition read_entry (table idx : Z) : M (io vm) Z :=
  s ← quiet get; mret (entry (ram s) table idx).
Definition write_entry (table idx v : Z) : M (io vm) () :=
  quiet (modify (upd_ram (λ m, store32 m (table + 4 * idx) v))).

Definition zero_page (p : Z) : M (io vm) () :=
  quiet (modify (upd_ram (λ m, mem_set m p 0 4096))).

(** Calls of the physical allocator. *)
Definition pmm_alloc : M (io vm) Z := quiet (zoom frames set_frames alloc_page).
Definition pmm_free (a : Z) : M (io vm) () := zoom_io frames set_frames (free_page a).

(** [pd_tables[i]]; an index outside the array faults. *)
Definition get_table (i : Z) : M (io vm) Z :=
  s ← quiet get; of_option (pd_tables s !! Z.to_nat i).
Definition set_table (i t : Z) : M (io vm) () :=
  quiet (modify (upd_tables (λ l, <[Z.to_nat i := t]> l))).

(** [invlpg] drops the cached translation of one page; a write to CR3 drops
    them all. *)
Definition flush_tlb_entry (virt : Z) : M (io vm) () :=
  quiet (modify (upd_tlb (λ t, delete (virt / PAGE_SIZE) t))).
Definition load_cr3 (v : Z) : M (io vm) () :=
  quiet (modify (λ s, Vm (ram s) (frames s) (kernel_directory s) (pd_tables s)
    (pd_physical_address s) v (cr0 s) (pf_handler s) ∅)).

(** ** Operations *)

Definition paging_init : M (io vm) () :=
  pd_phys ← pmm_alloc;
  if pd_phys =? 0 then
    kprint (str "PANIC: paging_init - cannot allocate page directory" ++ [10])
  else
    quiet (modify (λ s, Vm (ram s) (frames s) pd_phys (pd_tables s) (pd_physical_address s)
      (cr3 s) (cr0 s) (pf_handler s) (tlb s))) ;;
    zero_page pd_phys ;;
    quiet (modify (upd_tables (λ _, replicate 1024 0))) ;;
    quiet (modify (λ s, Vm (ram s) (frames s) (kernel_directory s) (pd_tables s) pd_phys
      (cr3 s) (cr0 s) (pf_handler s) (tlb s))) ;;
    failed ← for_ret 4 0 (λ i,
      pt_phys ← pmm_alloc;
      if pt_phys =? 0 then
        kprint (str "PANIC: paging_init - cannot allocate page table" ++ [10]) ;;
        mret (Some ())
      else
        let chunk_base := i *! 0x400000 in
        for_loop 1024 0 (λ j,
          let phys_addr := chunk_base +! j *! 0x1000 in
          write_entry pt_phys j (Z.lor (Z.lor phys_addr PAGE_PRESENT) PAGE_WRITABLE)) ;;
        s ← quiet get;
        write_entry (kernel_directory s) i (Z.lor (Z.lor pt_phys PAGE_PRESENT) PAGE_WRITABLE) ;;
        set_table i pt_phys ;;
        mret None);
    match failed with
    | Some _ => mret ()
    | None =>
        quiet (modify (λ s, Vm (ram s) (frames s) (kernel_directory s) (pd_tables s)
          (pd_physical_address s) (cr3 s) (cr0 s) true (tlb s))) ;;
        load_cr3 pd_phys ;;
        quiet (modify (λ s, Vm (ram s) (frames s) (kernel_directory s) (pd_tables s)
          (pd_physical_address s) (cr3 s) (Z.lor (cr0 s) 0x80000000) (pf_handler s) (tlb s)))
    end.

(** The first half of [paging_map_page]: make sure a page table exists.
    [None] is the early return. *)
Definition ensure_table (pd_idx flags : Z) : M (io vm) (option ()) :=
  s ← quiet get;
  e ← read_entry (kernel_directory s) pd_idx;
  if negb (present e) then
    pt_phys ← pmm_alloc;
    if pt_phys =? 0 then
      kprint (str "paging_map_page: out of memory for page table" ++ [10]) ;; mret None
    else
      zero_page pt_phys ;;
      write_entry (kernel_directory s) pd_idx
        (Z.lor (Z.lor (Z.lor pt_phys PAGE_PRESENT) PAGE_WRITABLE) (Z.land flags PAGE_USER)) ;;
      set_table pd_idx pt_phys ;;
      mret (Some ())
  else if truth (Z.land flags PAGE_USER) then
    write_entry (kernel_directory s) pd_idx (Z.lor e PAGE_USER) ;; mret (Some ())
  else mret (Some ()).

Definition pte_of (phys flags : Z) : Z :=
  Z.lor (Z.lor (Z.land phys PAGE_FRAME_MASK) (Z.land flags 0xFFF)) PAGE_PRESENT.

Definition paging_map_page (virt phys flags : Z) : M (io vm) () :=
  let pd_idx := PAGE_DIR_INDEX virt in
  let pt_idx := PAGE_TABLE_INDEX virt in
  ok ← ensure_table pd_idx flags;
  match ok with
  | None => mret ()
  | Some _ =>
      table ← get_table pd_idx;
      write_entry table pt_idx (pte_of phys flags) ;;
      flush_tlb_entry virt
  end.

Definition paging_map_user (virt phys rw : Z) : M (io vm) () :=
  let flags := Z.lor PAGE_PRESENT PAGE_USER in
  let flags := if truth rw then Z.lor flags PAGE_WRITABLE else flags in
  paging_map_page virt phys flags.

Definition paging_enable_user_access : M (io vm) () :=
  for_loop 4 0 (λ i,
    s ← quiet get;
    e ← read_entry (kernel_directory s) i;
    if negb (present e) then mret ()
    else
      write_entry (kernel_directory s) i (Z.lor e PAGE_USER) ;;
      pt ← get_table i;
      if pt =? 0 then mret ()
      else
        for_loop 1024 0 (λ j,
          pte ← read_entry pt j;
          if present pte then write_entry pt j (Z.lor pte PAGE_USER) else mret ())) ;;
  s ← quiet get;
  load_cr3 (cr3 s).

Definition paging_unmap_page (virt : Z) : M (io vm) () :=
  let pd_idx := PAGE_DIR_INDEX virt in
  let pt_idx := PAGE_TABLE_INDEX virt in
  s ← quiet get;
  e ← read_entry (kernel_directory s) pd_idx;
  if negb (present e) then mret ()
  else
    table ← get_table pd_idx;
    if table =? 0 then mret ()
    else write_entry table pt_idx 0 ;; flush_tlb_entry virt.

Definition paging_translate (virt : Z) : M (io vm) Z :=
  let pd_idx := PAGE_DIR_INDEX virt in
  let pt_idx := PAGE_TABLE_INDEX virt in
  s ← quiet get;
  e ← read_entry (kernel_directory s) pd_idx;
  if negb (present e) then mret 0
  else
    table ← get_table pd_idx;
    if table =? 0 then mret 0
    else
      pte ← read_entry table pt_idx;
      if negb (present pte) then mret 0
      else mret (Z.lor (PAGE_FRAME pte) (Z.land virt 0xFFF)).

(** The counting loops of [paging_status]. *)
Definition count_entries (m : mem) (table : Z) : Z :=
  countZ (λ j, present (entry m table j)) 0 1024.

Fixpoint status_scan (n : nat) (i : Z) (s : vm) (present_tables total_mapped_pages : Z)
    : option (Z * Z) :=
  match n with
  | O => Some (present_tables, total_mapped_pages)
  | S n' =>
      if present (entry (ram s) (kernel_directory s) i) then
        table ← pd_tables s !! Z.to_nat i;
        if table =? 0 then status_scan n' (i + 1) s (present_tables +! 1) total_mapped_pages
        else status_scan n' (i + 1) s (present_tables +! 1)
               (total_mapped_pages +! count_entries (ram s) table)
      else status_scan n' (i + 1) s present_tables total_mapped_pages
  end.

Definition kprint_uitoa {S} (value base : Z) : M (io S) () :=
  s ← of_option (uitoa value base); kprint s.

Definition paging_status : M (io vm) () :=
  s ← quiet get;
  if kernel_directory s =? 0 then kprint (str "Paging: not initialized" ++ [10])
  else
    '(present_tables, total_mapped_pages) ← of_option (status_scan 1024 0 s 0 0);
    let mapped_mb := (total_mapped_pages *! 4) / 1024 in
    kprint (str "Page Directory Status:" ++ [10]) ;;
    kprint (str "  Present tables: ") ;; kprint_uitoa present_tables 10 ;;
    kprint (str " / 1024" ++ [10]) ;;
    kprint (str "  Mapped pages:   ") ;; kprint_uitoa total_mapped_pages 10 ;; kprint [10] ;;
    kprint (str "  Mapped memory:  ") ;; kprint_uitoa mapped_mb 10 ;; kprint (str " MB") ;;
    if (total_mapped_pages =? 4096) && (present_tables =? 4) then
      kprint (str " (identity mapped 0x00000000 - 0x00FFFFFF)" ++ [10])
    else kprint [10].

(** ** Per-process address spaces *)

(** Returns the directory; 0 is [NULL].  [*out_phys] is the same address. *)
Definition paging_clone_directory : M (io vm) Z :=
  dir_phys ← pmm_alloc;
  if dir_phys =? 0 then mret 0
  else
    zero_page dir_phys ;;
    pt0 ← get_table 0;
    ok ← (if negb (pt0 =? 0) then
            pt0_phys ← pmm_alloc;
            if pt0_phys =? 0 then pmm_free dir_phys ;; mret false
            else
              quiet (modify (upd_ram (λ m, mem_cpy m pt0_phys pt0 4096))) ;;
              write_entry dir_phys 0 (Z.lor (Z.lor pt0_phys PAGE_PRESENT) PAGE_WRITABLE) ;;
              mret true
          else mret true);
    if negb ok then mret 0
    else
      for_loop 3 1 (λ i,
        s ← quiet get;
        e ← read_entry (kernel_directory s) i;
        write_entry dir_phys i e) ;;
      mret dir_phys.

Definition paging_map_page_in (dir virt phys flags : Z) : M (io vm) () :=
  let pd_idx := PAGE_DIR_INDEX virt in
  let pt_idx := PAGE_TABLE_INDEX virt in
  e ← read_entry dir pd_idx;
  ok ← (if negb (present e) then
          pt_phys ← pmm_alloc;
          if pt_phys =? 0 then
            kprint (str "paging_map_page_in: out of memory for page table" ++ [10]) ;; mret false
          else
            zero_page pt_phys ;;
            write_entry dir pd_idx
              (Z.lor (Z.lor (Z.lor pt_phys PAGE_PRESENT) PAGE_WRITABLE) (Z.land flags PAGE_USER)) ;;
            mret true
        else if truth (Z.land flags PAGE_USER) then
          write_entry dir pd_idx (Z.lor e PAGE_USER) ;; mret true
        else mret true);
  if negb ok then mret ()
  else
    e ← read_entry dir pd_idx;
    let table := Z.land e PAGE_FRAME_MASK in
    write_entry table pt_idx (pte_of phys flags).

Definition paging_free_directory (dir : Z) : M (io vm) () :=
  if dir =? 0 then mret ()
  else
    e0 ← read_entry dir 0;
    (if present e0 then pmm_free (Z.land e0 PAGE_FRAME_MASK) else mret ()) ;;
    for_loop (Z.to_nat (TABLES_PER_DIR - KERNEL_PDE_COUNT)) KERNEL_PDE_COUNT (λ i,
      e ← read_entry dir i;
      if negb (present e) then mret ()
      else
        let pt_phys := Z.land e PAGE_FRAME_MASK in
        for_loop 1024 0 (λ j,
          pte ← read_entry pt_phys j;
          if present pte then pmm_free (Z.land pte PAGE_FRAME_MASK) else mret ()) ;;
        pmm_free pt_phys) ;;
    pmm_free dir.

Definition paging_get_kernel_cr3 (s : vm) : Z := pd_physical_address s.

(** ** The processor *)

(** Both levels must be present; the access rights are those of both. *)
Definition hw_walk (m : mem) (dir va : Z) : option rights :=
  let pde := entry m dir (PAGE_DIR_INDEX va) in
  if present pde then
    let pte := entry m (PAGE_FRAME pde) (PAGE_TABLE_INDEX va) in
    if present pte then
      Some (PAGE_FRAME pte,
            truth (Z.land pde PAGE_WRITABLE) && truth (Z.land pte PAGE_WRITABLE),
            truth (Z.land pde PAGE_USER) && truth (Z.land pte PAGE_USER))
    else None
  else None.

(** ** Entries as numbers *)

Lemma lor_frame f fl : 0 ≤ fl < 4096 → Z.lor (f * 4096) fl = f * 4096 + fl.
Proof.
  intros Hfl. change 4096 with (2 ^ 12) in *. symmetry. rewrite <- Z.lxor_lor, <- Z.add_nocarry_lxor; [done|..];
    apply Z.bits_inj'; intros i Hi; rewrite Z.land_spec, Z.testbit_0_l;
    (destruct (Z.lt_ge_cases i 12);
      [by rewrite Z.mul_pow2_bits_low|by rewrite (testbit_above fl 12), andb_false_r]).
Qed.

Lemma page_frame e : 0 ≤ e < 4294967296 → PAGE_FRAME e = e / 4096 * 4096.
Proof.
  intros He. unfold PAGE_FRAME, PAGE_FRAME_MASK. change 4096 with (2 ^ 12).
  rewrite <- Z.shiftl_mul_pow2, <- Z.shiftr_div_pow2, <- Z.ldiff_ones_r by lia.
  apply Z.bits_inj'. intros i Hi. rewrite Z.land_spec, Z.ldiff_spec.
  change 0xFFFFF000 with (Z.shiftl (Z.ones 20) 12). rewrite Z.shiftl_spec by lia.
  destruct (Z.lt_ge_cases i 12).
  - rewrite (Z.ones_spec_low 12), (Z.testbit_neg_r _ (i - 12)) by lia. done.
  - rewrite (Z.ones_spec_high 12) by lia. destruct (Z.lt_ge_cases i 32).
    + by rewrite Z.ones_spec_low by lia.
    + by rewrite (testbit_above e 32) by lia.
Qed.

Lemma page_frame_at f fl : 0 ≤ f < 1048576 → 0 ≤ fl < 4096 → PAGE_FRAME (f * 4096 + fl) = f * 4096.
Proof.
  intros Hf Hfl. rewrite page_frame by lia. f_equal.
  rewrite Z.add_comm, Z.div_add, Z.div_small by lia. lia.
Qed.

Lemma dir_index va : 0 ≤ va < 4294967296 → PAGE_DIR_INDEX va = va / 4194304 ∧ 0 ≤ va / 4194304 < 1024.
Proof.
  intros Hva. assert (0 ≤ va / 4194304 < 1024).
  { split; [apply Z.div_pos; lia|apply Z.div_lt_upper_bound; lia]. }
  unfold PAGE_DIR_INDEX. rewrite (land_ones_mod _ 10) by done.
  rewrite Z.shiftr_div_pow2 by lia. split; [|done]. apply Z.mod_small. done.
Qed.

Lemma table_index va : PAGE_TABLE_INDEX va = (va / 4096) mod 1024 ∧ 0 ≤ (va / 4096) mod 1024 < 1024.
Proof.
  unfold PAGE_TABLE_INDEX. rewrite (land_ones_mod _ 10) by done.
  rewrite Z.shiftr_div_pow2 by lia. split; [done|by apply Z.mod_pos_bound].
Qed.

(** Two addresses with the same indices are in the same page. *)
Lemma same_page va vb :
  0 ≤ va < 4294967296 → 0 ≤ vb < 4294967296 →
  PAGE_DIR_INDEX va = PAGE_DIR_INDEX vb ∧ PAGE_TABLE_INDEX va = PAGE_TABLE_INDEX vb ↔
  va / 4096 = vb / 4096.
Proof.
  intros Ha Hb. destruct (dir_index va Ha) as [-> _], (dir_index vb Hb) as [-> _].
  destruct (table_index va) as [-> _], (table_index vb) as [-> _].
  change 4194304 with (4096 * 1024). rewrite <- !Z.div_div by lia.
  pose proof (Z.div_mod (va / 4096) 1024). pose proof (Z.div_mod (vb / 4096) 1024).
  split; [lia|]. intros ->. done.
Qed.

(** Flag [k] of an entry. *)
Lemma flag_bit e k : 0 ≤ k → truth (Z.land e (2 ^ k)) = Z.testbit e k.
Proof. intros Hk. unfold truth. by rewrite land_pow2_eqb, negb_involutive. Qed.

Lemma present_bit e : present e = Z.testbit e 0.
Proof. exact (flag_bit e 0 ltac:(lia)). Qed.

Lemma flag_at f fl k : 0 ≤ fl < 4096 → 0 ≤ k < 12 → Z.testbit (f * 4096 + fl) k = Z.testbit fl k.
Proof.
  intros Hfl Hk. rewrite <- lor_frame by done. change 4096 with (2 ^ 12).
  by rewrite Z.lor_spec, Z.mul_pow2_bits_low by lia.
Qed.

Lemma page_frame_lor e k : 0 ≤ k < 12 → 0 ≤ e < 4294967296 → PAGE_FRAME (Z.lor e (2 ^ k)) = PAGE_FRAME e.
Proof.
  intros Hk He. unfold PAGE_FRAME, PAGE_FRAME_MASK. rewrite Z.land_lor_distr_l.
  assert (Z.land (2 ^ k) 0xFFFFF000 = 0) as ->; [|by rewrite Z.lor_0_r].
  apply Z.bits_inj'. intros i Hi. rewrite Z.land_spec, testbit_pow2, Z.testbit_0_l by lia.
  zcase; [|done]. change 0xFFFFF000 with (Z.shiftl (Z.ones 20) 12).
  by rewrite Z.shiftl_spec, Z.testbit_neg_r by lia.
Qed.

(** The entry [paging_map_page] writes. *)
Lemma pte_of_spec phys flags :
  0 ≤ phys < 4294967296 → 0 ≤ flags →
  0 ≤ pte_of phys flags < 4294967296 ∧ present (pte_of phys flags) = true ∧
  PAGE_FRAME (pte_of phys flags) = PAGE_FRAME phys ∧
  ∀ k, 0 < k < 12 → Z.testbit (pte_of phys flags) k = Z.testbit flags k.
Proof.
  intros Hp Hf. unfold pte_of. rewrite (land_ones_mod flags 12) by done.
  pose proof (Z.mod_pos_bound flags (2 ^ 12)) as Hm. change (2 ^ 12) with 4096 in *.
  fold (PAGE_FRAME phys). rewrite page_frame by done.
  assert (0 ≤ phys / 4096 < 1048576).
  { split; [apply Z.div_pos; lia|apply Z.div_lt_upper_bound; lia]. }
  rewrite <- Z.lor_assoc. assert (0 ≤ Z.lor (flags mod 4096) PAGE_PRESENT < 4096) as Hb.
  { change 4096 with (2 ^ 12) in *. apply lor_bound; [lia|lia|unfold PAGE_PRESENT; lia]. }
  rewrite lor_frame by done. split_and!; [lia|lia| |by rewrite page_frame_at|].
  - rewrite present_bit, flag_at by lia. rewrite Z.lor_spec. change (Z.testbit PAGE_PRESENT 0) with true.
    apply orb_true_r.
  - intros k Hk. rewrite flag_at, Z.lor_spec by lia. change PAGE_PRESENT with (2 ^ 0).
    rewrite testbit_pow2 by lia. zcase. rewrite orb_false_r. change 4096 with (2 ^ 12).
    apply Z.mod_pow2_bits_low. lia.
Qed.

(** ** Tables in memory *)

Definition aligned (a : Z) : Prop := a mod 4096 = 0.
Definition idx (i : Z) : Prop := 0 ≤ i < 1024.

Lemma entry_bound m t i : 0 ≤ entry m t i < 4294967296.
Proof. apply load32_bound. Qed.

Lemma aligned_apart a b : aligned a → aligned b → a ≠ b → a + 4096 ≤ b ∨ b + 4096 ≤ a.
Proof.
  unfold aligned. intros Ha Hb Hne. pose proof (Z.div_mod a 4096). pose proof (Z.div_mod b 4096). lia.
Qed.

Lemma entry_store m t i v t' j :
  aligned t → aligned t' → idx i → idx j → 0 ≤ v < 4294967296 →
  entry (store32 m (t + 4 * i) v) t' j = if (t =? t') && (i =? j) then v else entry m t' j.
Proof.
  unfold idx, entry. intros Ht Ht' Hi Hj Hv. destruct (Z.eqb_spec t t') as [<-|Hne]; cbn [andb].
  - zcase; [subst; by apply load32_store32_eq|]. apply load32_store32_ne. lia.
  - destruct (aligned_apart t t' Ht Ht' Hne); apply load32_store32_ne; lia.
Qed.

Lemma entry_zero m p t j :
  aligned p → aligned t → idx j → entry (mem_set m p 0 4096) t j = if p =? t then 0 else entry m t j.
Proof.
  unfold idx, entry. intros Hp Ht Hj. destruct (Z.eqb_spec p t) as [<-|Hne].
  - apply load32_mem_set_0; lia.
  - destruct (aligned_apart p t Hp Ht Hne); apply load32_mem_set_ne; lia.
Qed.

Lemma entry_copy m d s t j :
  aligned d → aligned s → aligned t → d ≠ s → idx j →
  entry (mem_cpy m d s 4096) t j = if d =? t then entry m s j else entry m t j.
Proof.
  unfold idx, entry. intros Hd Hs Ht Hne Hj. pose proof (aligned_apart d s Hd Hs Hne) as Hap.
  destruct (Z.eqb_spec d t) as [<-|Hne'].
  - rewrite load32_mem_cpy by lia. f_equal. lia.
  - destruct (aligned_apart d t Hd Ht Hne'); apply load32_mem_cpy_ne; lia.
Qed.

#[global] Arguments entry : simpl never.

(** ** The kernel's address space *)

(** A frame the allocator has handed out. *)
Definition frame_used (p : pmm_t) (a : Z) : Prop :=
  aligned a ∧ 0 < a < TOTAL_MEMORY ∧ used p (a / PAGE_SIZE) = true.

(** The page tables are consistent: the software array [pd_tables] agrees with
    the directory the hardware reads, and directory and tables are distinct
    frames owned by the kernel. *)
Record vm_inv (s : vm) : Prop := {
  vi_pmm : pmm_inv (IO (frames s) []);
  vi_dir : frame_used (frames s) (kernel_directory s);
  vi_len : length (pd_tables s) = 1024%nat;
  vi_tab : ∀ i, idx i →
    pd_tables s !! Z.to_nat i =
    Some (let e := entry (ram s) (kernel_directory s) i in if present e then PAGE_FRAME e else 0);
  vi_frame : ∀ i, idx i → let e := entry (ram s) (kernel_directory s) i in
    present e = true → frame_used (frames s) (PAGE_FRAME e) ∧ PAGE_FRAME e ≠ kernel_directory s;
  vi_inj : ∀ i j, idx i → idx j →
    let e := entry (ram s) (kernel_directory s) i in
    let e' := entry (ram s) (kernel_directory s) j in
    present e = true → present e' = true → PAGE_FRAME e = PAGE_FRAME e' → i = j;
  vi_write : ∀ i, idx i → let e := entry (ram s) (kernel_directory s) i in
    present e = true → Z.testbit e 1 = true
}.

Lemma page_frame_aligned e : 0 ≤ e < 4294967296 → aligned (PAGE_FRAME e).
Proof. intros. rewrite page_frame by done. unfold aligned. by apply Z.mod_mul. Qed.

(** Run the memory and register accesses of the code. *)
Ltac vrun :=
  unfold read_entry, write_entry, zero_page, get_table, set_table, flush_tlb_entry, load_cr3,
    pmm_alloc, quiet, zoom, upd_ram, upd_tables, upd_tlb, set_frames, of_option;
  mrun; cbn [st con ram frames kernel_directory pd_tables pd_physical_address cr3 cr0 pf_handler tlb].

(** Rewriting a table entry as the kernel's tables change. *)
Lemma fresh_apart p a p' b :
  fresh_page p a p' → frame_used p b → a ≠ b ∧ frame_used p' b.
Proof.
  intros Hf (Hal & Hr & Hu). split.
  - intros ->. by rewrite (fp_was_free _ _ _ Hf) in Hu.
  - split_and!; [done|lia|lia|]. rewrite (fp_used _ _ _ Hf), Hu; [apply orb_true_r|].
    apply Z.div_pos; [lia|done].
Qed.

Lemma fresh_frame_used p a p' : fresh_page p a p' → frame_used p' a ∧ 0 < a < TOTAL_MEMORY.
Proof.
  intros Hf. destruct (fp_pool _ _ _ Hf) as [H1 H2].
  unfold PMM_POOL_START, PMM_POOL_END, PAGE_SIZE in *. change TOTAL_MEMORY with 16777216.
  split; [|lia]. split_and!; [apply (fp_aligned _ _ _ Hf)|lia|change TOTAL_MEMORY with 16777216; lia|].
  rewrite (fp_used _ _ _ Hf); [by rewrite Z.eqb_refl|]. apply Z.div_pos; [lia|done].
Qed.

(** The directory entry for a fresh table. *)
Definition new_pde (pt flags : Z) : Z :=
  Z.lor (Z.lor (Z.lor pt PAGE_PRESENT) PAGE_WRITABLE) (Z.land flags PAGE_USER).

Lemma new_pde_spec pt flags :
  aligned pt → 0 ≤ pt < 4294967296 → 0 ≤ flags →
  0 ≤ new_pde pt flags < 4294967296 ∧ present (new_pde pt flags) = true ∧
  PAGE_FRAME (new_pde pt flags) = pt ∧
  Z.testbit (new_pde pt flags) 1 = true ∧ Z.testbit (new_pde pt flags) 2 = Z.testbit flags 2.
Proof.
  intros Ha Hp Hf. unfold new_pde. rewrite <- !Z.lor_assoc.
  set (fl := Z.lor PAGE_PRESENT (Z.lor PAGE_WRITABLE (Z.land flags PAGE_USER))).
  assert (∀ k, 0 ≤ k → Z.testbit fl k = (k =? 0) || (k =? 1) || ((k =? 2) && Z.testbit flags 2)) as Hbits.
  { intros k Hk. unfold fl. rewrite !Z.lor_spec, Z.land_spec.
    change PAGE_PRESENT with (2 ^ 0). change PAGE_WRITABLE with (2 ^ 1). change PAGE_USER with (2 ^ 2).
    rewrite !testbit_pow2 by lia. rewrite !(Z.eqb_sym _ k), orb_assoc, andb_comm.
    f_equal. zcase; [by subst|done]. }
  assert (0 ≤ fl < 4096) as Hfl.
  { change 4096 with (2 ^ 12). apply bits_bound; [lia| |].
    - unfold fl. rewrite !Z.lor_nonneg, Z.land_nonneg. unfold PAGE_PRESENT, PAGE_WRITABLE, PAGE_USER. lia.
    - intros i Hi. rewrite Hbits by lia. by repeat zcase. }
  pose proof (Z.div_mod pt 4096) as Hdm. unfold aligned in Ha.
  replace pt with (pt / 4096 * 4096) by lia.
  assert (0 ≤ pt / 4096 < 1048576).
  { split; [apply Z.div_pos; lia|apply Z.div_lt_upper_bound; lia]. }
  rewrite lor_frame by done.
  split_and!; [lia|lia| |by rewrite page_frame_at by lia| |].
  - rewrite present_bit, flag_at, Hbits by lia. done.
  - rewrite flag_at, Hbits by lia. done.
  - rewrite flag_at, Hbits by lia. done.
Qed.

(** Installing a directory entry keeps the invariant. *)
Lemma vm_inv_set_pde s s' i e' :
  vm_inv s → idx i →
  kernel_directory s' = kernel_directory s →
  pd_tables s' = <[Z.to_nat i := PAGE_FRAME e']> (pd_tables s) →
  pmm_inv (IO (frames s') []) →
  (∀ a, frame_used (frames s) a → frame_used (frames s') a) →
  (∀ j, idx j → entry (ram s') (kernel_directory s) j =
     if i =? j then e' else entry (ram s) (kernel_directory s) j) →
  present e' = true → Z.testbit e' 1 = true → frame_used (frames s') (PAGE_FRAME e') →
  PAGE_FRAME e' ≠ kernel_directory s →
  (∀ j, idx j → i ≠ j → present (entry (ram s) (kernel_directory s) j) = true →
     PAGE_FRAME (entry (ram s) (kernel_directory s) j) ≠ PAGE_FRAME e') →
  vm_inv s'.
Proof.
  intros Hinv Hi Hkd Htabs Hp Hfr Hent He' Hw' Hf' Hne Hdist.
  split; rewrite ?Hkd; try done.
  - apply Hfr, Hinv.
  - rewrite Htabs, length_insert. apply Hinv.
  - intros j Hj. rewrite Hent, Htabs by done. unfold idx in *. zcase.
    + subst j. rewrite He', list_lookup_insert_eq; [done|]. rewrite (vi_len _ Hinv). lia.
    + rewrite list_lookup_insert_ne by lia. by apply (vi_tab _ Hinv).
  - intros j Hj. rewrite Hent by done. zcase; [done|]. intros e Hpe.
    destruct (vi_frame _ Hinv j Hj Hpe). split; [by apply Hfr|done].
  - intros j k Hj Hk. rewrite !Hent by done. repeat zcase; intros e1 e2 H1 H2 Heq; subst.
    + done.
    + destruct (Hdist k); done.
    + destruct (Hdist j); done.
    + by apply (vi_inj _ Hinv).
  - intros j Hj. rewrite Hent by done. zcase; [done|]. by apply (vi_write _ Hinv).
Qed.

(** How a translation may change when a directory entry gains the user bit. *)
Definition rights_le (r r' : option rights) : Prop :=
  match r, r' with
  | None, None => True
  | Some (f, w, u), Some (f', w', u') => f = f' ∧ w = w' ∧ (u = true → u' = true)
  | _, _ => False
  end.

#[export] Instance rights_le_trans : Transitive rights_le.
Proof. intros [[[? ?] ?]|] [[[? ?] ?]|] [[[? ?] ?]|]; simpl; intuition congruence. Qed.

#[export] Instance rights_le_refl : Reflexive rights_le.
Proof. intros [[[f w] u]|]; simpl; auto. Qed.

(** The TLB grants nothing the tables of the loaded directory do not grant. *)
Definition tlb_ok (s : vm) : Prop :=
  ∀ page r, tlb s !! page = Some r →
    0 ≤ page < 1048576 ∧ rights_le (Some r) (hw_walk (ram s) (cr3 s) (page * PAGE_SIZE)).

Definition kwalk (s : vm) (va : Z) : option rights := hw_walk (ram s) (kernel_directory s) va.
Definition addr32 (va : Z) : Prop := 0 ≤ va < 4294967296.

(** The parts of the state only the processor sees. *)
Definition same_cpu (s s' : vm) : Prop :=
  kernel_directory s' = kernel_directory s ∧ pd_physical_address s' = pd_physical_address s ∧
  cr3 s' = cr3 s ∧ cr0 s' = cr0 s ∧ pf_handler s' = pf_handler s ∧ tlb s' = tlb s.

(** The walk in terms of bits. *)
Lemma hw_walk_bits m dir va :
  hw_walk m dir va =
  let pde := entry m dir (PAGE_DIR_INDEX va) in
  let pte := entry m (PAGE_FRAME pde) (PAGE_TABLE_INDEX va) in
  if Z.testbit pde 0 then
    if Z.testbit pte 0 then
      Some (PAGE_FRAME pte, Z.testbit pde 1 && Z.testbit pte 1, Z.testbit pde 2 && Z.testbit pte 2)
    else None
  else None.
Proof.
  unfold hw_walk. rewrite !present_bit. change PAGE_WRITABLE with (2 ^ 1). change PAGE_USER with (2 ^ 2).
  by rewrite !flag_bit by lia.
Qed.

(** What [ensure_table] achieves for directory entry [i]. *)
Record table_ready (s s' : vm) (i flags : Z) : Prop := {
  tr_inv : vm_inv s';
  tr_cpu : same_cpu s s';
  tr_present : present (entry (ram s') (kernel_directory s) i) = true;
  tr_user : Z.testbit flags 2 = true → Z.testbit (entry (ram s') (kernel_directory s) i) 2 = true;
  tr_walk : ∀ va, addr32 va → rights_le (kwalk s va) (kwalk s' va)
}.

(** Changing only flag bits of a present entry. *)
Lemma table_ready_user s i flags :
  vm_inv s → idx i → present (entry (ram s) (kernel_directory s) i) = true →
  table_ready s (upd_ram (λ m, store32 m (kernel_directory s + 4 * i)
    (Z.lor (entry (ram s) (kernel_directory s) i) PAGE_USER)) s) i flags.
Proof.
  intros Hinv Hi Hpr. set (e := entry (ram s) (kernel_directory s) i) in *.
  destruct (vi_dir _ Hinv) as (Hkal & _ & _).
  assert (0 ≤ e < 4294967296) as He by apply entry_bound.
  assert (0 ≤ Z.lor e PAGE_USER < 4294967296) as Hv.
  { change 4294967296 with (2 ^ 32) in *. apply lor_bound; [lia|done|unfold PAGE_USER; lia]. }
  assert (PAGE_FRAME (Z.lor e PAGE_USER) = PAGE_FRAME e) as Hpf by (apply (page_frame_lor e 2); lia).
  assert (∀ k, 0 ≤ k → Z.testbit (Z.lor e PAGE_USER) k = Z.testbit e k || (k =? 2)) as Hb.
  { intros k Hk. rewrite Z.lor_spec. change PAGE_USER with (2 ^ 2).
    rewrite testbit_pow2 by lia. by rewrite Z.eqb_sym. }
  destruct (vi_frame _ Hinv i Hi Hpr) as [Hfu Hne]. fold e in Hfu, Hne.
  assert (∀ t j, aligned t → idx j →
    entry (ram (upd_ram (λ m, store32 m (kernel_directory s + 4 * i) (Z.lor e PAGE_USER)) s)) t j =
    if (kernel_directory s =? t) && (i =? j) then Z.lor e PAGE_USER else entry (ram s) t j) as Hent.
  { intros t j Ht Hj. simpl. by apply entry_store. }
  split.
  - apply (vm_inv_set_pde s _ i (Z.lor e PAGE_USER)); rewrite ?Hpf; try done.
    + simpl. symmetry. apply list_insert_id. rewrite (vi_tab _ Hinv) by done. simpl.
      fold e. by rewrite Hpr.
    + apply Hinv.
    + intros j Hj. by rewrite Hent, Z.eqb_refl.
    + rewrite present_bit, Hb, <- present_bit by lia. by rewrite Hpr.
    + rewrite Hb by lia. pose proof (vi_write _ Hinv i Hi Hpr) as Hw. fold e in Hw. by rewrite Hw.
    + intros j Hj Hij Hprj Heq. apply Hij. symmetry. by apply (vi_inj _ Hinv).
  - by repeat split.
  - rewrite Hent, !Z.eqb_refl by done. cbn [andb]. rewrite present_bit, Hb, <- present_bit by lia. by rewrite Hpr.
  - intros _. rewrite Hent, !Z.eqb_refl by done. cbn [andb]. rewrite Hb by lia. by rewrite orb_true_r.
  - intros va Hva. unfold kwalk. rewrite !hw_walk_bits. cbn [upd_ram kernel_directory].
    destruct (dir_index va Hva) as [Hd1 Hd2], (table_index va) as [Ht1 Ht2]. rewrite Hd1, Ht1.
    rewrite Hent, Z.eqb_refl by done. cbn [andb]. zcase.
    + subst i. fold e. rewrite Hpf, !Hb by lia. cbn [Z.eqb]. rewrite !orb_false_r, orb_true_r.
      rewrite Hent by (done || apply Hfu). destruct (Z.eqb_spec (kernel_directory s) (PAGE_FRAME e)); [congruence|].
      cbn [andb]. destruct (Z.testbit e 0); [|done].
      destruct (Z.testbit _ 0); simpl; [|done]. split_and!; [done|done|]. by intros [_ ->]%andb_true_iff.
    + destruct (Z.testbit (entry (ram s) (kernel_directory s) (va / 4194304)) 0) eqn:E0; [|done].
      destruct (vi_frame _ Hinv (va / 4194304) Hd2) as [Hf2 Hn2]; [by rewrite present_bit|].
      rewrite Hent by (done || apply Hf2).
      destruct (Z.eqb_spec (kernel_directory s) (PAGE_FRAME (entry (ram s) (kernel_directory s) (va / 4194304)))) as [E|];
        [congruence|]. done.
Qed.

(** Installing a fresh, empty table in an absent entry. *)
Definition install_table (s : vm) (i flags pt : Z) (p' : pmm_t) : vm :=
  Vm (store32 (mem_set (ram s) pt 0 4096) (kernel_directory s + 4 * i) (new_pde pt flags)) p'
    (kernel_directory s) (<[Z.to_nat i := pt]> (pd_tables s)) (pd_physical_address s)
    (cr3 s) (cr0 s) (pf_handler s) (tlb s).

Lemma table_ready_fresh s i flags pt p' :
  vm_inv s → idx i → addr32 flags → present (entry (ram s) (kernel_directory s) i) = false →
  fresh_page (frames s) pt p' → pmm_inv (IO p' []) →
  table_ready s (install_table s i flags pt p') i flags.
Proof.
  intros Hinv Hi Hfl Hpr Hfresh Hp'. destruct (vi_dir _ Hinv) as (Hkal & _ & _).
  destruct (fresh_apart _ _ _ _ Hfresh (vi_dir _ Hinv)) as [Hptkd Hkd'].
  destruct (fresh_frame_used _ _ _ Hfresh) as [Hpu Hpr2]. change TOTAL_MEMORY with 16777216 in Hpr2.
  pose proof Hpu as (Hpal & _).
  destruct (new_pde_spec pt flags Hpal ltac:(lia) (proj1 Hfl)) as (Hv & Hv0 & Hvf & Hv1 & Hv2).
  assert (∀ t j, aligned t → idx j →
    entry (ram (install_table s i flags pt p')) t j =
    if (kernel_directory s =? t) && (i =? j) then new_pde pt flags
    else if pt =? t then 0 else entry (ram s) t j) as Hent.
  { intros t j Ht Hj. cbn [install_table ram]. rewrite entry_store by done. by rewrite entry_zero. }
  assert (Hkd : ∀ j, idx j → entry (ram (install_table s i flags pt p')) (kernel_directory s) j =
    if i =? j then new_pde pt flags else entry (ram s) (kernel_directory s) j).
  { intros j Hj. rewrite Hent, Z.eqb_refl by done. cbn [andb]. by destruct (Z.eqb_spec pt (kernel_directory s)). }
  split.
  - apply (vm_inv_set_pde s _ i (new_pde pt flags)); rewrite ?Hvf; try done.
    + intros a Ha. by apply (fresh_apart _ _ _ _ Hfresh).
    + intros j Hj Hij Hprj. destruct (vi_frame _ Hinv j Hj Hprj) as [Hfj _].
      destruct (fresh_apart _ _ _ _ Hfresh Hfj). done.
  - by repeat split.
  - rewrite Hkd, Z.eqb_refl by done. done.
  - intros Hu. rewrite Hkd, Z.eqb_refl by done. by rewrite Hv2.
  - intros va Hva. unfold kwalk. rewrite !hw_walk_bits. cbv zeta.
    change (kernel_directory (install_table s i flags pt p')) with (kernel_directory s).
    destruct (dir_index va Hva) as [Hd1 Hd2], (table_index va) as [Ht1 Ht2]. rewrite Hd1, Ht1.
    rewrite Hkd by done. zcase.
    + subst i. rewrite present_bit in Hpr. rewrite Hpr, Hvf. rewrite Hent by done.
      destruct (Z.eqb_spec (kernel_directory s) pt); [congruence|]. cbn [andb]. rewrite Z.eqb_refl.
      rewrite Z.testbit_0_l. by destruct (Z.testbit (new_pde pt flags) 0).
    + destruct (Z.testbit (entry (ram s) (kernel_directory s) (va / 4194304)) 0) eqn:E0; [|done].
      destruct (vi_frame _ Hinv (va / 4194304) Hd2) as [Hf2 Hn2]; [by rewrite present_bit|].
      rewrite Hent by (done || apply Hf2). destruct (fresh_apart _ _ _ _ Hfresh Hf2) as [Hn3 _].
      destruct (Z.eqb_spec (kernel_directory s) (PAGE_FRAME (entry (ram s) (kernel_directory s) (va / 4194304))));
        [congruence|]. cbn [andb].
      by destruct (Z.eqb_spec pt (PAGE_FRAME (entry (ram s) (kernel_directory s) (va / 4194304)))).
Qed.

Lemma ensure_table_run s c i flags :
  vm_inv s → idx i → addr32 flags →
  (ensure_table i flags (IO s c) =
     Some (None, IO s (c ++ str "paging_map_page: out of memory for page table" ++ [10])) ∧
   present (entry (ram s) (kernel_directory s) i) = false ∧
   ∀ g, is_frame g → used (frames s) g = true) ∨
  (∃ s', ensure_table i flags (IO s c) = Some (Some (), IO s' c) ∧ table_ready s s' i flags).
Proof.
  intros Hinv Hi Hfl. unfold ensure_table. vrun.
  destruct (present (entry (ram s) (kernel_directory s) i)) eqn:Epr; cbn [negb]; vrun.
  - right. assert (truth (Z.land flags PAGE_USER) = Z.testbit flags 2) as -> by (apply (flag_bit flags 2); lia).
    destruct (Z.testbit flags 2) eqn:Eu.
    + eexists. split; [reflexivity|]. exact (table_ready_user s i flags Hinv Hi Epr).
    + exists s. split; [done|]. split; [done|by repeat split|done|congruence|done].
  - destruct (alloc_page_fresh (frames s) [] (vi_pmm _ Hinv)) as [(a & p' & E & Hf & Hp')|[E Hall]];
      rewrite E.
    + right. destruct (fresh_frame_used _ _ _ Hf) as [_ Hr].
      destruct (Z.eqb_spec a 0); [lia|]. eexists. split; [reflexivity|].
      exact (table_ready_fresh s i flags a p' Hinv Hi Hfl Epr Hf Hp').
    + left. simpl. by destruct s.
Qed.

(** Writing one entry of one of the kernel's tables changes the translation
    of exactly one page. *)
Lemma set_pte s d k v :
  vm_inv s → idx d → idx k → addr32 v → present (entry (ram s) (kernel_directory s) d) = true →
  let pde := entry (ram s) (kernel_directory s) d in
  let s' := upd_ram (λ m, store32 m (PAGE_FRAME pde + 4 * k) v) s in
  vm_inv s' ∧
  (∀ j, idx j → entry (ram s') (kernel_directory s) j = entry (ram s) (kernel_directory s) j) ∧
  (∀ va, addr32 va → kwalk s' va =
     if (PAGE_DIR_INDEX va =? d) && (PAGE_TABLE_INDEX va =? k) then
       if present v then
         Some (PAGE_FRAME v, Z.testbit pde 1 && Z.testbit v 1, Z.testbit pde 2 && Z.testbit v 2)
       else None
     else kwalk s va).
Proof.
  intros Hinv Hd Hk Hv Hpr pde s'. destruct (vi_frame _ Hinv d Hd Hpr) as [Hfu Hne]. fold pde in Hfu, Hne.
  pose proof (vi_dir _ Hinv) as (Hkal & _). pose proof Hfu as (Htal & _).
  assert (∀ t j, aligned t → idx j →
    entry (ram s') t j = if (PAGE_FRAME pde =? t) && (k =? j) then v else entry (ram s) t j) as Hent.
  { intros t j Ht Hj. unfold s', upd_ram. simpl. by apply entry_store. }
  assert (∀ j, idx j → entry (ram s') (kernel_directory s) j = entry (ram s) (kernel_directory s) j) as Hkd.
  { intros j Hj. rewrite Hent by done. by destruct (Z.eqb_spec (PAGE_FRAME pde) (kernel_directory s)). }
  split; [|split; [done|]].
  - split; change (kernel_directory s') with (kernel_directory s);
      change (frames s') with (frames s); change (pd_tables s') with (pd_tables s).
    + apply Hinv. + apply Hinv. + apply Hinv.
    + intros i Hi. rewrite Hkd by done. by apply (vi_tab _ Hinv).
    + intros i Hi. rewrite Hkd by done. by apply (vi_frame _ Hinv).
    + intros i j Hi Hj. rewrite !Hkd by done. by apply (vi_inj _ Hinv).
    + intros i Hi. rewrite Hkd by done. by apply (vi_write _ Hinv).
  - intros va Hva. unfold kwalk. rewrite !hw_walk_bits. cbv zeta.
    change (kernel_directory s') with (kernel_directory s).
    destruct (dir_index va Hva) as [-> Hd2], (table_index va) as [-> Ht2]. rewrite Hkd by done.
    destruct (Z.testbit (entry (ram s) (kernel_directory s) (va / 4194304)) 0) eqn:E0.
    + assert (present (entry (ram s) (kernel_directory s) (va / 4194304)) = true) as E0' by (by rewrite present_bit).
      destruct (vi_frame _ Hinv (va / 4194304) Hd2 E0') as [Hf2 _].
      rewrite Hent by (done || apply Hf2). rewrite (Z.eqb_sym (va / 4194304)), (Z.eqb_sym _ k).
      destruct (Z.eqb_spec d (va / 4194304)) as [<-|Hd3].
      * fold pde. rewrite Z.eqb_refl. cbn [andb]. zcase; [|done]. by rewrite present_bit.
      * destruct (Z.eqb_spec (PAGE_FRAME pde) (PAGE_FRAME (entry (ram s) (kernel_directory s) (va / 4194304)))) as [E|];
          [|done]. destruct Hd3. by apply (vi_inj _ Hinv).
    + destruct (Z.eqb_spec (va / 4194304) d) as [E|]; [|done]. exfalso. rewrite E in E0.
      by rewrite present_bit, E0 in Hpr.
Qed.

(** [paging_translate] reads the tables as the processor does. *)
Lemma translate_run s c va :
  vm_inv s → addr32 va →
  paging_translate va (IO s c) =
  Some (match kwalk s va with Some (f, _, _) => f + va mod 4096 | None => 0 end, IO s c).
Proof.
  intros Hinv Hva. unfold paging_translate, kwalk. rewrite hw_walk_bits. cbv zeta.
  destruct (dir_index va Hva) as [-> Hd2], (table_index va) as [-> Ht2]. vrun.
  rewrite present_bit. destruct (Z.testbit (entry (ram s) (kernel_directory s) (va / 4194304)) 0) eqn:E0;
    cbn [negb]; vrun; [|done].
  assert (present (entry (ram s) (kernel_directory s) (va / 4194304)) = true) as E0' by (by rewrite present_bit).
  rewrite (vi_tab _ Hinv) by done. cbv zeta. rewrite E0'.
  destruct (vi_frame _ Hinv _ Hd2 E0') as [(_ & Hr & _) _].
  destruct (Z.eqb_spec (PAGE_FRAME (entry (ram s) (kernel_directory s) (va / 4194304))) 0); [lia|]. vrun.
  match goal with |- context [present ?x] => set (pte := x) end.
  rewrite present_bit. destruct (Z.testbit pte 0); cbn [negb]; vrun; [|done].
  rewrite (page_frame pte) by apply entry_bound. rewrite (land_ones_mod va 12) by done. change (2 ^ 12) with 4096.
  rewrite lor_frame by (by apply Z.mod_pos_bound). done.
Qed.

(** The translation after a mapping request for the page of [virt]. *)
Definition maps_page (s s' : vm) (virt phys flags : Z) : Prop :=
  ∀ va, addr32 va →
    if va / PAGE_SIZE =? virt / PAGE_SIZE then
      kwalk s' va = Some (PAGE_FRAME phys, Z.testbit flags 1, Z.testbit flags 2)
    else rights_le (kwalk s va) (kwalk s' va).

Lemma page_eqb va vb :
  addr32 va → addr32 vb →
  (PAGE_DIR_INDEX va =? PAGE_DIR_INDEX vb) && (PAGE_TABLE_INDEX va =? PAGE_TABLE_INDEX vb) =
  (va / PAGE_SIZE =? vb / PAGE_SIZE).
Proof.
  intros Ha Hb. apply eq_true_iff_eq. rewrite andb_true_iff, !Z.eqb_eq. by apply same_page.
Qed.

Lemma map_page_run s c virt phys flags :
  vm_inv s → addr32 virt → addr32 phys → addr32 flags →
  (paging_map_page virt phys flags (IO s c) =
     Some ((), IO s (c ++ str "paging_map_page: out of memory for page table" ++ [10])) ∧
   present (entry (ram s) (kernel_directory s) (PAGE_DIR_INDEX virt)) = false ∧
   ∀ g, is_frame g → used (frames s) g = true) ∨
  (∃ s', paging_map_page virt phys flags (IO s c) = Some ((), IO s' c) ∧ vm_inv s' ∧
     maps_page s s' virt phys flags ∧ kernel_directory s' = kernel_directory s ∧ cr3 s' = cr3 s ∧
     tlb s' = delete (virt / PAGE_SIZE) (tlb s)).
Proof.
  intros Hinv Hva Hph Hfl. destruct (dir_index virt Hva) as [Hd Hd2]. destruct (table_index virt) as [Ht Ht2].
  assert (idx (PAGE_DIR_INDEX virt)) as Hdi by (by rewrite Hd).
  unfold paging_map_page. rewrite bind_run.
  destruct (ensure_table_run s c (PAGE_DIR_INDEX virt) flags Hinv) as [(E & Hab & Hall)|(s1 & E & Hr)];
    [done|done|left; by rewrite E|]. right. rewrite E.
  pose proof (tr_inv _ _ _ _ Hr) as Hinv1. destruct (tr_cpu _ _ _ _ Hr) as (Hkd & Hpd & Hc3 & Hc0 & Hpf & Htlb).
  pose proof (tr_present _ _ _ _ Hr) as Hp1. rewrite <- Hkd in Hp1.
  destruct (pte_of_spec phys flags Hph (proj1 Hfl)) as (Hv & Hv0 & Hvf & Hvk).
  destruct (set_pte s1 (PAGE_DIR_INDEX virt) (PAGE_TABLE_INDEX virt) (pte_of phys flags) Hinv1)
    as (Hinv2 & _ & Hwalk); [done|by rewrite Ht|done|done|].
  vrun. rewrite (vi_tab _ Hinv1) by done. cbv zeta. rewrite Hp1. vrun.
  eexists. split; [reflexivity|]. split_and!; [|..|cbn; by rewrite Htlb]; [|intros va Hva2|done|done].
  - destruct Hinv2 as [H1 H2 H3 H4 H5 H6 H7]. by split.
  - change (kwalk (Vm _ _ _ _ _ _ _ _ _) va) with
      (kwalk (upd_ram (λ m, store32 m (PAGE_FRAME (entry (ram s1) (kernel_directory s1) (PAGE_DIR_INDEX virt))
        + 4 * PAGE_TABLE_INDEX virt) (pte_of phys flags)) s1) va).
    rewrite Hwalk, page_eqb by done. rewrite Hv0, Hvf, !Hvk by lia.
    rewrite (vi_write _ Hinv1 _ Hdi Hp1). zcase; [|by apply (tr_walk _ _ _ _ Hr)]. do 2 f_equal.
    pose proof (tr_user _ _ _ _ Hr) as Hu. rewrite <- Hkd in Hu.
    destruct (Z.testbit flags 2); [by rewrite Hu|by rewrite andb_false_r].
Qed.

Lemma unmap_page_run s c virt :
  vm_inv s → addr32 virt →
  ∃ s', paging_unmap_page virt (IO s c) = Some ((), IO s' c) ∧ vm_inv s' ∧
    kernel_directory s' = kernel_directory s ∧ cr3 s' = cr3 s ∧ frames s' = frames s ∧
    (∀ va, addr32 va → kwalk s' va = if va / PAGE_SIZE =? virt / PAGE_SIZE then None else kwalk s va) ∧
    (tlb s' = delete (virt / PAGE_SIZE) (tlb s) ∨ (tlb s' = tlb s ∧ kwalk s virt = None)).
Proof.
  intros Hinv Hva. destruct (dir_index virt Hva) as [Hd Hd2]. destruct (table_index virt) as [Ht Ht2].
  assert (idx (PAGE_DIR_INDEX virt)) as Hdi by (by rewrite Hd).
  unfold paging_unmap_page. vrun.
  destruct (present (entry (ram s) (kernel_directory s) (PAGE_DIR_INDEX virt))) eqn:Ep; cbn [negb]; vrun.
  - rewrite (vi_tab _ Hinv) by done. cbv zeta. rewrite Ep.
    destruct (vi_frame _ Hinv _ Hdi Ep) as [(_ & Hr & _) _].
    destruct (Z.eqb_spec (PAGE_FRAME (entry (ram s) (kernel_directory s) (PAGE_DIR_INDEX virt))) 0); [lia|].
    vrun. destruct (set_pte s (PAGE_DIR_INDEX virt) (PAGE_TABLE_INDEX virt) 0 Hinv)
      as (Hinv2 & _ & Hwalk); [done|by rewrite Ht|unfold addr32; lia|done|].
    eexists. split; [reflexivity|]. split_and!; [|done|done|done| |by left].
    + destruct Hinv2 as [H1 H2 H3 H4 H5 H6 H7]. by split.
    + intros va Hva2. rewrite <- page_eqb by done. exact (Hwalk va Hva2).
  - assert (∀ va, addr32 va → va / PAGE_SIZE = virt / PAGE_SIZE → kwalk s va = None) as Hn.
    { intros va Hva2 Heq. apply same_page in Heq as [Hdd _]; [|done..].
      unfold kwalk, hw_walk. cbv zeta. rewrite Hdd. by rewrite Ep. }
    exists s. split_and!; [done..| |right; split; [done|by apply Hn]].
    intros va Hva2. zcase; [by apply Hn|done].
Qed.

(** ** Initialisation *)

(** The loop that fills a page table. *)
Lemma fill_table_run pt (v : Z → Z) s c :
  aligned pt → (∀ j, idx j → addr32 (v j)) →
  ∃ m', for_loop 1024 0 (λ j, write_entry pt j (v j)) (IO s c) = Some ((), IO (upd_ram (λ _, m') s) c) ∧
    ∀ t j, aligned t → idx j → entry m' t j = if pt =? t then v j else entry (ram s) t j.
Proof.
  intros Hpt Hv.
  destruct (for_loop_inv (λ i s', ∃ m', s' = IO (upd_ram (λ _, m') s) c ∧
    ∀ t j, aligned t → idx j → entry m' t j = if (pt =? t) && (j <? i) then v j else entry (ram s) t j)
    (λ j, write_entry pt j (v j)) 1024 0 (IO s c)) as (s' & E & m' & -> & Hm).
  - intros i s' Hi (m' & -> & Hm). eexists. split; [reflexivity|].
    exists (store32 m' (pt + 4 * i) (v i)). split; [done|]. intros t j Ht Hj.
    rewrite entry_store, Hm by (done || unfold idx; lia || apply Hv; unfold idx; lia).
    destruct (Z.eqb_spec pt t); cbn [andb]; [|done]. repeat zcase; subst; done.
  - exists (ram s). split; [by destruct s|]. intros t j Ht Hj. unfold idx in Hj.
    destruct (Z.ltb_spec j 0); [lia|]. by rewrite andb_false_r.
  - exists m'. split; [done|]. intros t j Ht Hj. rewrite Hm by done. unfold idx in Hj. zcase.
    by rewrite andb_true_r.
Qed.

Definition identity_pte (i j : Z) : Z :=
  Z.lor (Z.lor (i *! 0x400000 +! j *! 0x1000) PAGE_PRESENT) PAGE_WRITABLE.

Lemma identity_pte_spec i j :
  0 ≤ i < 4 → idx j → identity_pte i j = (i * 1024 + j) * 4096 + 3.
Proof.
  unfold idx. intros Hi Hj. unfold identity_pte. rewrite (u32_small (i * _)), (u32_small (j * _)) by lia.
  rewrite u32_small by lia. rewrite <- Z.lor_assoc. change (Z.lor PAGE_PRESENT PAGE_WRITABLE) with 3.
  replace (i * 0x400000 + j * 0x1000) with ((i * 1024 + j) * 4096) by lia. apply lor_frame. lia.
Qed.

(** The identity mapping of the first [i] regions of 4 MB. *)
Definition identity_upto (s : vm) (i : Z) : Prop :=
  ∀ va, addr32 va →
    kwalk s va = if va <? i * 0x400000 then Some (va / PAGE_SIZE * PAGE_SIZE, true, false) else None.

(** One round of the loop of [paging_init]. *)
Lemma init_round s i pt p' m1 :
  vm_inv s → 0 ≤ i < 4 → identity_upto s i → present (entry (ram s) (kernel_directory s) i) = false →
  fresh_page (frames s) pt p' → pmm_inv (IO p' []) →
  (∀ t j, aligned t → idx j → entry m1 t j = if pt =? t then identity_pte i j else entry (ram s) t j) →
  let s' := Vm (store32 m1 (kernel_directory s + 4 * i) (new_pde pt 0)) p' (kernel_directory s)
              (<[Z.to_nat i := pt]> (pd_tables s)) (pd_physical_address s)
              (cr3 s) (cr0 s) (pf_handler s) (tlb s) in
  vm_inv s' ∧ identity_upto s' (i + 1) ∧
  (∀ j, idx j → i ≠ j → entry (ram s') (kernel_directory s) j = entry (ram s) (kernel_directory s) j).
Proof.
  intros Hinv Hi Hid Habs Hf Hp' Hm1 s'. destruct (fresh_frame_used _ _ _ Hf) as [Hpu Hr].
  change TOTAL_MEMORY with 16777216 in Hr. pose proof Hpu as (Hpal & _).
  pose proof (vi_dir _ Hinv) as (Hkal & _). destruct (fresh_apart _ _ _ _ Hf (vi_dir _ Hinv)) as [Hne Hkd'].
  destruct (new_pde_spec pt 0 Hpal ltac:(lia) ltac:(lia)) as (Hv & Hv0 & Hvf & Hv1 & Hv2).
  assert (idx i) as Hii by (unfold idx; lia).
  assert (∀ t j, aligned t → idx j → entry (ram s') t j =
    if (kernel_directory s =? t) && (i =? j) then new_pde pt 0
    else if pt =? t then identity_pte i j else entry (ram s) t j) as Hent.
  { intros t j Ht Hj. cbn [s' ram]. rewrite entry_store by done. by rewrite Hm1. }
  assert (∀ j, idx j → entry (ram s') (kernel_directory s) j =
    if i =? j then new_pde pt 0 else entry (ram s) (kernel_directory s) j) as Hkd.
  { intros j Hj. rewrite Hent, Z.eqb_refl by done. cbn [andb]. by destruct (Z.eqb_spec pt (kernel_directory s)). }
  split_and!.
  - apply (vm_inv_set_pde s s' i (new_pde pt 0)); rewrite ?Hvf; try done.
    + intros a Ha. by apply (fresh_apart _ _ _ _ Hf).
    + intros j Hj Hij Hprj. destruct (vi_frame _ Hinv j Hj Hprj) as [Hfj _].
      destruct (fresh_apart _ _ _ _ Hf Hfj). done.
  - intros va Hva. pose proof (Hid va Hva) as Hold. unfold kwalk in Hold |- *.
    rewrite !hw_walk_bits in Hold |- *. cbv zeta in Hold |- *.
    change (kernel_directory s') with (kernel_directory s).
    destruct (dir_index va Hva) as [Hd1 Hd2], (table_index va) as [Ht1 Ht2]. rewrite Hd1, Ht1 in *.
    pose proof (Z.div_mod va 4194304 ltac:(lia)) as Hdm. pose proof (Z.mod_pos_bound va 4194304 ltac:(lia)).
    rewrite Hkd by done. destruct (Z.eqb_spec i (va / 4194304)) as [Ei|Ei].
    + rewrite present_bit in Hv0. rewrite Hv0, Hv1, Hv2, Hvf. rewrite Hent by done.
      destruct (Z.eqb_spec (kernel_directory s) pt); [congruence|]. cbn [andb]. rewrite Z.eqb_refl.
      rewrite identity_pte_spec by done. rewrite !flag_at by lia. change (Z.testbit 3 0) with true.
      change (Z.testbit 3 1) with true. change (Z.testbit 3 2) with false.
      unfold idx in *. rewrite page_frame_at by lia. zcase. f_equal. f_equal. f_equal. unfold PAGE_SIZE. f_equal.
      pose proof (Z.div_mod (va / 4096) 1024). rewrite Ei. change 4194304 with (4096 * 1024).
      rewrite <- Z.div_div by lia. lia.
    + replace (va <? (i + 1) * 0x400000) with (va <? i * 0x400000) by (repeat zcase; done).
      rewrite <- Hold. clear Hold.
      destruct (Z.testbit (entry (ram s) (kernel_directory s) (va / 4194304)) 0) eqn:E0; [|done].
      destruct (vi_frame _ Hinv (va / 4194304) Hd2) as [Hf2 Hn2]; [by rewrite present_bit|].
      rewrite Hent by (done || apply Hf2). destruct (fresh_apart _ _ _ _ Hf Hf2) as [Hn3 _].
      destruct (Z.eqb_spec (kernel_directory s) (PAGE_FRAME (entry (ram s) (kernel_directory s) (va / 4194304))));
        [congruence|]. cbn [andb].
      by destruct (Z.eqb_spec pt (PAGE_FRAME (entry (ram s) (kernel_directory s) (va / 4194304)))).
  - intros j Hj Hij. rewrite Hkd by done. by zcase.
Qed.

Lemma new_pde_0 pt : Z.lor (Z.lor pt PAGE_PRESENT) PAGE_WRITABLE = new_pde pt 0.
Proof. unfold new_pde. by rewrite Z.land_0_l, Z.lor_0_r. Qed.

#[local] Opaque entry present PAGE_FRAME new_pde load32 store32 for_loop for_ret.

(** The state in which the loop of [paging_init] starts: an empty directory. *)
Lemma empty_directory s pd p' :
  pmm_inv (IO (frames s) []) → fresh_page (frames s) pd p' → pmm_inv (IO p' []) →
  let s' := Vm (mem_set (ram s) pd 0 4096) p' pd (replicate 1024 0) pd (cr3 s) (cr0 s) (pf_handler s) (tlb s) in
  vm_inv s' ∧ identity_upto s' 0 ∧ (∀ j, idx j → present (entry (ram s') pd j) = false).
Proof.
  intros Hp Hf Hp' s'. destruct (fresh_frame_used _ _ _ Hf) as [Hpu Hr]. pose proof Hpu as (Hpal & _).
  assert (∀ j, idx j → entry (ram s') pd j = 0) as H0.
  { intros j Hj. cbn [s' ram]. rewrite entry_zero by done. by rewrite Z.eqb_refl. }
  assert (∀ j, idx j → present (entry (ram s') pd j) = false) as Hn by (intros j Hj; rewrite H0, present_bit by done; apply Z.testbit_0_l).
  split_and!; [|intros va Hva|done].
  - split; change (kernel_directory s') with pd; [exact Hp'|exact Hpu|apply length_replicate|..].
    + intros i Hi. cbv zeta. rewrite Hn by done. apply lookup_replicate_2. unfold idx in Hi. lia.
    + intros i Hi. cbv zeta. rewrite Hn by done. intros [=].
    + intros i j Hi Hj. cbv zeta. rewrite Hn by done. intros [=].
    + intros i Hi. cbv zeta. rewrite Hn by done. intros [=].
  - unfold kwalk, hw_walk. cbv zeta. change (kernel_directory s') with pd.
    destruct (dir_index va Hva) as [-> Hd2]. rewrite Hn by done. unfold addr32 in Hva. by zcase.
Qed.

(** The allocator after [n] single pages have been taken. *)
Fixpoint pages_taken (n : nat) (p : pmm_t) : option pmm_t :=
  match n with
  | O => Some p
  | S n' => q ← pages_taken n' p; snd <$> alloc_page q
  end.

(** Memory below the pool of frames, with the heap in it, is unchanged. *)
Definition low_words (m m' : mem) : Prop :=
  ∀ t j, aligned t → idx j → t < PMM_POOL_START → entry m' t j = entry m t j.

(** The kernel's directory and tables are frames of the pool. *)
Definition tables_in_pool (s : vm) : Prop :=
  PMM_POOL_START ≤ kernel_directory s ∧
  ∀ j, idx j → present (entry (ram s) (kernel_directory s) j) = true →
    PMM_POOL_START ≤ PAGE_FRAME (entry (ram s) (kernel_directory s) j).

(** The invariant of that loop after [i] rounds. *)
Definition init_inv (s : vm) (c : list Z) (pd : Z) (i : Z) (t : io vm) : Prop :=
  con t = c ∧ vm_inv (st t) ∧ identity_upto (st t) i ∧
  kernel_directory (st t) = pd ∧ pd_physical_address (st t) = pd ∧ cr0 (st t) = cr0 s ∧
  (∀ j, idx j → i ≤ j → present (entry (ram (st t)) pd j) = false) ∧
  used_frames (frames (st t)) = used_frames (frames s) + 1 + i ∧ low_words (ram s) (ram (st t)) ∧
  pages_taken (S (Z.to_nat i)) (frames s) = Some (frames (st t)) ∧ tables_in_pool (st t).

Lemma init_start s c pd p' :
  pmm_inv (IO (frames s) []) → fresh_page (frames s) pd p' → pmm_inv (IO p' []) → snd <$> alloc_page (frames s) = Some p' →
  init_inv s c pd 0 (IO (Vm (mem_set (ram s) pd 0 4096) p' pd (replicate 1024 0) pd (cr3 s) (cr0 s) (pf_handler s) (tlb s)) c).
Proof.
  intros Hp Hf1 Hp1 E1. destruct (empty_directory s pd p' Hp Hf1 Hp1) as (Hinv0 & Hid0 & Habs0).
  split_and!; cbn [st con]; [reflexivity|exact Hinv0|exact Hid0|reflexivity|reflexivity|reflexivity| | | | |].
  - intros j Hj _. apply Habs0, Hj.
  - cbn [frames]. rewrite (fp_count _ _ _ Hf1). lia.
  - intros t j Ht Hj Htl. pose proof (fp_pool _ _ _ Hf1). cbn [ram].
    rewrite entry_zero by (done || exact (fp_aligned _ _ _ Hf1)). by destruct (Z.eqb_spec pd t); [lia|].
  - exact E1.
  - split; [apply (fp_pool _ _ _ Hf1)|]. intros j Hj Hpr. exfalso. revert Hpr. cbn [kernel_directory]. rewrite (Habs0 j Hj). intros [=].
Qed.

Lemma init_next s c pd i s1 pt p2 m1 :
  init_inv s c pd i (IO s1 c) → 0 ≤ i < 4 → PMM_POOL_START ≤ pd →
  fresh_page (frames s1) pt p2 → pmm_inv (IO p2 []) → snd <$> alloc_page (frames s1) = Some p2 →
  (∀ t j, aligned t → idx j → entry m1 t j = if pt =? t then identity_pte i j else entry (ram s1) t j) →
  init_inv s c pd (i + 1) (IO (Vm (store32 m1 (kernel_directory s1 + 4 * i) (new_pde pt 0)) p2 (kernel_directory s1)
    (<[Z.to_nat i := pt]> (pd_tables s1)) (pd_physical_address s1) (cr3 s1) (cr0 s1) (pf_handler s1) (tlb s1)) c).
Proof.
  intros (Hc & Hinv & Hid & Hkd & Hpd & Hc0 & Habs & Hcnt & Hlow & Htake & Htp) Hi Hpool Hf2 Hp2 E2 Hm1. cbn [st con] in *.
  destruct (fresh_frame_used _ _ _ Hf2) as [(Hpal & _) Hr2]. change TOTAL_MEMORY with 16777216 in Hr2.
  destruct (init_round s1 i pt p2 m1 Hinv) as (Hinv2 & Hid2 & Hold2);
    [lia|done|rewrite Hkd; apply Habs; unfold idx; lia|done|done|done|].
  pose proof (vi_dir _ Hinv) as (Hkal & _). pose proof (fp_pool _ _ _ Hf2).
  destruct (new_pde_spec pt 0 Hpal ltac:(lia) ltac:(lia)) as (Hv & _ & Hvf & _).
  split_and!; cbn [st con]; [reflexivity|exact Hinv2|exact Hid2|exact Hkd|exact Hpd|exact Hc0| | | | |].
  - intros j Hj Hij. rewrite <- Hkd in Habs |- *. rewrite Hold2; [|exact Hj|clear -Hij; lia]. apply Habs; [exact Hj|lia].
  - cbn [frames]. rewrite (fp_count _ _ _ Hf2). lia.
  - intros t j Ht Hj Htl. cbn [ram]. rewrite entry_store; [|exact Hkal|exact Ht|unfold idx; lia|exact Hj|exact Hv].
    rewrite Hm1 by assumption. rewrite Hkd.
    destruct (Z.eqb_spec pd t); [lia|]. destruct (Z.eqb_spec pt t); [lia|]. cbn [andb]. by apply Hlow.
  - replace (Z.to_nat (i + 1)) with (S (Z.to_nat i)) by lia. cbn [frames].
    cbn [pages_taken] in Htake |- *. rewrite Htake. exact E2.
  - destruct Htp as [Htd Htt]. split; [exact Htd|]. intros j Hj. cbn [kernel_directory].
    destruct (Z.eq_dec i j) as [<-|Hne]; [|rewrite Hold2 by done; by apply Htt]. intros _. cbn [ram].
    rewrite entry_store; [|exact Hkal|exact Hkal|exact Hj|exact Hj|exact Hv].
    rewrite !Z.eqb_refl. cbn [andb]. rewrite Hvf. apply (fp_pool _ _ _ Hf2).
Qed.

Lemma paging_init_run s c :
  pmm_inv (IO (frames s) []) → used_frames (frames s) + 5 ≤ TOTAL_FRAMES →
  ∃ s', paging_init (IO s c) = Some ((), IO s' c) ∧ vm_inv s' ∧ identity_upto s' 4 ∧
    cr3 s' = kernel_directory s' ∧ pd_physical_address s' = kernel_directory s' ∧
    Z.testbit (cr0 s') 31 = true ∧ pf_handler s' = true ∧ tlb s' = ∅ ∧
    used_frames (frames s') = used_frames (frames s) + 5 ∧ low_words (ram s) (ram s') ∧
    pages_taken 5 (frames s) = Some (frames s') ∧ tables_in_pool s'.
Proof.
  intros Hp Hfree. unfold paging_init. rewrite bind_run.
  destruct (alloc_page_fresh (frames s) [] Hp) as [(pd & p1 & E1 & Hf1 & Hp1)|[E1 Hall]].
  2:{ apply all_used_count in Hall; [lia|apply Hp]. }
  pose proof (init_start s c pd p1 Hp Hf1 Hp1 ltac:(by rewrite E1)) as Hstart.
  unfold pmm_alloc at 1, quiet at 1, zoom at 1 2. cbn [st con]. rewrite E1.
  destruct (fresh_frame_used _ _ _ Hf1) as [_ Hr1]. destruct (Z.eqb_spec pd 0); [lia|].
  unfold zero_page. do 4 (rewrite bind_run; cbn [quiet zoom modify st con upd_ram set_frames upd_tables ram
    frames kernel_directory pd_tables pd_physical_address cr3 cr0 pf_handler tlb]).
  rewrite bind_run. match goal with |- context [for_ret 4 0 ?b ?t] => set (body := b); set (t0 := t) in * end.
  destruct (for_ret_inv (init_inv s c pd) (λ _ _, False) body 4 0 t0) as [(t & E & Ht)|(r & t & _ & [])].
  - intros i [s1 c1] Hi Hcur. pose proof Hcur as (Hc & Hinv & _ & _ & _ & _ & _ & Hcnt & _). cbn [st con] in *. subst c1. left.
    destruct (alloc_page_fresh (frames s1) [] (vi_pmm _ Hinv)) as [(pt & p2 & E2 & Hf2 & Hp2)|[_ Hall]].
    2:{ apply all_used_count in Hall; [lia|apply (vi_pmm _ Hinv)]. }
    destruct (fresh_frame_used _ _ _ Hf2) as [(Hpal & _) Hr2].
    destruct (fill_table_run pt (identity_pte i) (set_frames p2 s1) c Hpal) as (m1 & Efill & Hm1).
    { intros j Hj. rewrite identity_pte_spec by (done || lia). unfold addr32, idx in *. lia. }
    eexists. split.
    + unfold body. rewrite bind_run. unfold pmm_alloc, quiet at 1, zoom at 1 2. cbn [st con]. rewrite E2.
      destruct (Z.eqb_spec pt 0); [lia|]. cbv zeta. rewrite bind_run.
      unfold identity_pte in Efill. rewrite Efill. vrun. rewrite new_pde_0. reflexivity.
    + apply (init_next s c pd i s1 pt p2 m1 Hcur); [lia|apply (fp_pool _ _ _ Hf1)|exact Hf2|exact Hp2|by rewrite E2|exact Hm1].
  - exact Hstart.
  - destruct t as [s1 c1]. destruct Ht as (Hc & Hinv & Hid & Hkd & Hpd & Hc0 & _ & Hcnt & Hlow & Htake & Htp). cbn [st con] in *.
    subst c1. rewrite E. eexists. split; [vrun; reflexivity|]. cbn [kernel_directory cr3 cr0 pf_handler tlb
      pd_physical_address frames]. split_and!; [|exact Hid|symmetry; exact Hkd|congruence| |done|done|lia|exact Hlow|exact Htake|exact Htp].
    + destruct Hinv as [H1 H2 H3 H4 H5 H6 H7]. by split.
    + rewrite Z.lor_spec. by rewrite orb_true_r.
Qed.

(** ** Properties of the kernel's address space *)

(** C10: [paging_init] identity-maps exactly the first 16 MB.  With five free
    frames it succeeds, paging is switched on with the new directory loaded,
    every address below 16 MB translates to itself, writable and reserved to
    the supervisor, and no other address is mapped. *)
Theorem paging_init_identity s c :
  pmm_inv (IO (frames s) []) → used_frames (frames s) + 5 ≤ TOTAL_FRAMES →
  ∃ s', paging_init (IO s c) = Some ((), IO s' c) ∧ vm_inv s' ∧
    cr3 s' = kernel_directory s' ∧ paging_get_kernel_cr3 s' = cr3 s' ∧
    Z.testbit (cr0 s') 31 = true ∧ tlb s' = ∅ ∧
    used_frames (frames s') = used_frames (frames s) + 5 ∧
    ∀ va, addr32 va →
      hw_walk (ram s') (cr3 s') va =
        (if va <? 0x1000000 then Some (va / PAGE_SIZE * PAGE_SIZE, true, false) else None) ∧
      paging_translate va (IO s' c) = Some (if va <? 0x1000000 then va else 0, IO s' c).
Proof.
  intros Hp Hfree. destruct (paging_init_run s c Hp Hfree) as (s' & E & Hinv & Hid & Hc3 & Hpd & Hpg & _ & Htlb & Hcnt & _).
  exists s'. unfold paging_get_kernel_cr3. split_and!; [done|done|done|congruence|done|done|done|].
  intros va Hva. rewrite translate_run by done. specialize (Hid va Hva). unfold kwalk in *. rewrite Hc3, Hid.
  change (4 * 0x400000) with 0x1000000. split; [done|]. zcase; [|done]. do 2 f_equal.
  unfold PAGE_SIZE. pose proof (Z.div_mod va 4096). lia.
Qed.

(** C11: [paging_map_page] maps one page.  It either reports that no frame is
    left for a page table and changes nothing, or makes every address of the
    page translate to the frame of [phys] with the rights of [flags]; no other
    page changes its frame or its write permission, or loses user access. *)
Theorem paging_map_page_spec s c virt phys flags :
  vm_inv s → addr32 virt → addr32 phys → addr32 flags →
  ∃ s' msg, paging_map_page virt phys flags (IO s c) = Some ((), IO s' (c ++ msg)) ∧ vm_inv s' ∧
    ((s' = s ∧ used_frames (frames s) = TOTAL_FRAMES ∧ kwalk s virt = None ∧
      msg = str "paging_map_page: out of memory for page table" ++ [10]) ∨
     (msg = [] ∧ ∀ va, addr32 va →
        (va / PAGE_SIZE = virt / PAGE_SIZE →
           kwalk s' va = Some (PAGE_FRAME phys, Z.testbit flags 1, Z.testbit flags 2) ∧
           paging_translate va (IO s' c) = Some (PAGE_FRAME phys + va mod PAGE_SIZE, IO s' c)) ∧
        (va / PAGE_SIZE ≠ virt / PAGE_SIZE → rights_le (kwalk s va) (kwalk s' va)))).
Proof.
  intros Hinv Hva Hph Hfl. destruct (map_page_run s c virt phys flags Hinv Hva Hph Hfl)
    as [(E & Hab & Hall)|(s' & E & Hinv' & Hmap & _)].
  - eexists s, _. split; [done|]. split; [done|]. left. split_and!; [done| | |done].
    + apply all_used_count; [apply (vi_pmm _ Hinv)|done].
    + unfold kwalk, hw_walk. cbv zeta. by rewrite Hab.
  - exists s', []. rewrite app_nil_r. split; [done|]. split; [done|]. right. split; [done|].
    intros va Hva2. specialize (Hmap va Hva2). split; intros Heq.
    + rewrite Heq, Z.eqb_refl in Hmap. split; [done|]. rewrite translate_run by done. by rewrite Hmap.
    + by destruct (Z.eqb_spec (va / PAGE_SIZE) (virt / PAGE_SIZE)).
Qed.

(** [paging_unmap_page] unmaps one page, mapped or not: the walk of the
    processor and [paging_translate] then both find nothing there, no frame is
    freed, and the translation of every other page is unchanged. *)
Theorem paging_unmap_page_spec s c virt :
  vm_inv s → addr32 virt →
  ∃ s', paging_unmap_page virt (IO s c) = Some ((), IO s' c) ∧ vm_inv s' ∧ frames s' = frames s ∧
    ∀ va, addr32 va →
      (va / PAGE_SIZE = virt / PAGE_SIZE →
         kwalk s' va = None ∧ paging_translate va (IO s' c) = Some (0, IO s' c)) ∧
      (va / PAGE_SIZE ≠ virt / PAGE_SIZE → kwalk s' va = kwalk s va).
Proof.
  intros Hinv Hva. destruct (unmap_page_run s c virt Hinv Hva) as (s' & E & Hinv' & _ & _ & Hfr & Hw & _).
  exists s'. split_and!; [done..|]. intros va Hva2. specialize (Hw va Hva2). split; intros Heq.
  - rewrite Heq, Z.eqb_refl in Hw. split; [done|]. rewrite translate_run by done. by rewrite Hw.
  - by destruct (Z.eqb_spec (va / PAGE_SIZE) (virt / PAGE_SIZE)).
Qed.

Lemma page_div page : page * PAGE_SIZE / PAGE_SIZE = page.
Proof. by apply Z.div_mul. Qed.

(** C13: the TLB never grants what the tables do not.  If the kernel's
    directory is loaded and every cached translation is covered by the tables,
    this is still so after [paging_map_page] and [paging_unmap_page]: the page
    whose entry changed is flushed. *)
Theorem paging_tlb_coherent s c virt phys flags :
  vm_inv s → cr3 s = kernel_directory s → tlb_ok s → addr32 virt → addr32 phys → addr32 flags →
  (∃ t, paging_map_page virt phys flags (IO s c) = Some ((), t) ∧ tlb_ok (st t)) ∧
  (∃ t, paging_unmap_page virt (IO s c) = Some ((), t) ∧ tlb_ok (st t)).
Proof.
  intros Hinv Hc3 Htlb Hva Hph Hfl.
  assert (∀ page, 0 ≤ page < 1048576 → addr32 (page * PAGE_SIZE)) as Hpg.
  { intros page Hpage. unfold addr32, PAGE_SIZE. lia. }
  split.
  - destruct (map_page_run s c virt phys flags Hinv Hva Hph Hfl)
      as [(E & _)|(s' & E & Hinv' & Hmap & Hkd & Hc & Ht)]; [by eexists|].
    eexists. split; [done|]. intros page r. cbn [st]. rewrite Ht. intros [Hne Hr]%lookup_delete_Some.
    destruct (Htlb page r Hr) as [Hpage Hle]. split; [done|]. specialize (Hmap _ (Hpg page Hpage)).
    rewrite page_div in Hmap. destruct (Z.eqb_spec page (virt / PAGE_SIZE)); [congruence|].
    unfold kwalk in Hmap. rewrite Hkd in Hmap. rewrite Hc, Hc3 in *. by etrans.
  - destruct (unmap_page_run s c virt Hinv Hva) as (s' & E & Hinv' & Hkd & Hc & _ & Hw & Ht).
    eexists. split; [done|]. intros page r Hr. cbn [st] in *.
    assert (tlb s !! page = Some r ∧ page ≠ virt / PAGE_SIZE) as [Hr' Hne].
    { destruct Ht as [Ht|[Ht Hnone]]; rewrite Ht in Hr.
      - apply lookup_delete_Some in Hr as [? ?]. done.
      - split; [done|]. intros ->. destruct (Htlb _ r Hr) as [Hpage Hle]. rewrite Hc3 in Hle.
        specialize (Hpg _ Hpage). assert (kwalk s (virt / PAGE_SIZE * PAGE_SIZE) = None) as Hn.
        { revert Hnone. unfold kwalk, hw_walk. cbv zeta.
          destruct (same_page (virt / PAGE_SIZE * PAGE_SIZE) virt Hpg Hva) as [_ Hsp].
          destruct Hsp as [-> ->]; [apply page_div|done]. }
        unfold kwalk in Hn. rewrite Hn in Hle. by destruct r as [[? ?] ?]. }
    destruct (Htlb page r Hr') as [Hpage Hle]. split; [done|]. specialize (Hw _ (Hpg page Hpage)).
    rewrite page_div in Hw. destruct (Z.eqb_spec page (virt / PAGE_SIZE)); [done|].
    unfold kwalk in Hw. rewrite Hkd in Hw. rewrite Hc, Hc3 in *. by rewrite Hw.
Qed.

(** ** Witnesses: the address space as it is after boot *)

Definition blank_vm : vm := Vm ∅ boot_pmm 0 (replicate 1024 0) 0 0 0x11 false ∅.

Lemma boot_pmm_inv : pmm_inv (IO boot_pmm []).
Proof.
  destruct (pmm_init_inv (Pmm 0 0 [] 0)) as (p & E & Hp). rewrite boot_pmm_init in E.
  injection E as <-. apply Hp.
Qed.

Lemma boot_pmm_room : used_frames boot_pmm + 5 ≤ TOTAL_FRAMES.
Proof. vm_compute. discriminate. Qed.

Definition boot_vm : vm := match paging_init (IO blank_vm []) with Some (_, t) => st t | None => blank_vm end.

Lemma boot_vm_facts :
  vm_inv boot_vm ∧ identity_upto boot_vm 4 ∧ cr3 boot_vm = kernel_directory boot_vm ∧ tlb boot_vm = ∅ ∧
  used_frames (frames boot_vm) = used_frames boot_pmm + 5.
Proof.
  destruct (paging_init_run blank_vm [] boot_pmm_inv boot_pmm_room)
    as (s' & E & Hinv & Hid & Hc3 & _ & _ & _ & Ht & Hcnt & _).
  unfold boot_vm. rewrite E. cbn [st]. split_and!; assumption.
Qed.

Lemma paging_init_identity_witness :
  used_frames boot_pmm + 5 ≤ TOTAL_FRAMES ∧
  ∃ s', paging_init (IO blank_vm []) = Some ((), IO s' []) ∧ vm_inv s'.
Proof.
  split; [exact boot_pmm_room|].
  destruct (paging_init_identity blank_vm [] boot_pmm_inv boot_pmm_room) as (s' & E & Hinv & _).
  exists s'. split; assumption.
Defined.

Lemma paging_map_page_spec_witness :
  vm_inv boot_vm ∧
  ∃ s' msg, paging_map_page 0xBFFFF000 0x300000 7 (IO boot_vm []) = Some ((), IO s' ([] ++ msg)) ∧ vm_inv s'.
Proof.
  pose proof (proj1 boot_vm_facts) as Hinv. split; [exact Hinv|].
  destruct (paging_map_page_spec boot_vm [] 0xBFFFF000 0x300000 7 Hinv)
    as (s' & msg & E & Hinv' & _); [unfold addr32; lia..|].
  exists s', msg. split; assumption.
Defined.

Lemma paging_unmap_page_spec_witness :
  vm_inv boot_vm ∧
  ∃ s', paging_unmap_page 0x5000 (IO boot_vm []) = Some ((), IO s' []) ∧ kwalk s' 0x5123 = None.
Proof.
  pose proof (proj1 boot_vm_facts) as Hinv. split; [exact Hinv|].
  destruct (paging_unmap_page_spec boot_vm [] 0x5000 Hinv) as (s' & E & _ & _ & H); [unfold addr32; lia|].
  exists s'. split; [exact E|]. apply H; [unfold addr32; lia|reflexivity].
Defined.

(** The boot state with one page cached by the TLB. *)
Lemma paging_tlb_coherent_witness :
  let s := upd_tlb (λ _, {[ 5 := (0x5000, true, false) ]}) boot_vm in
  vm_inv s ∧ tlb_ok s ∧ ∃ t, paging_unmap_page 0x5000 (IO s []) = Some ((), t) ∧ tlb_ok (st t).
Proof.
  destruct boot_vm_facts as (Hinv & Hid & Hc3 & _).
  set (s := upd_tlb (λ _, {[ 5 := (0x5000, true, false) ]}) boot_vm).
  assert (vm_inv s) as Hs by (destruct Hinv as [H1 H2 H3 H4 H5 H6 H7]; split; assumption).
  assert (tlb_ok s) as Ht.
  { intros page r Hr. unfold s in Hr. cbn [tlb upd_tlb] in Hr. apply lookup_singleton_Some in Hr as [<- <-]. split; [lia|].
    change (ram s) with (ram boot_vm). change (cr3 s) with (cr3 boot_vm). rewrite Hc3.
    assert (addr32 (5 * PAGE_SIZE)) as Ha by (unfold addr32, PAGE_SIZE; lia).
    specialize (Hid _ Ha). unfold kwalk in Hid. rewrite Hid. simpl. auto. }
  cbv zeta. split; [exact Hs|]. split; [exact Ht|].
  destruct (paging_tlb_coherent s [] 0x5000 0x5000 3 Hs Hc3 Ht) as [_ H]; [unfold addr32; lia..|exact H].
Defined.
