(* ===== verification/AddrSpace.v ===== *)
(** * Per-process address spaces (second half of kernel/mem/paging.c)

    The definitions are those of Paging: [paging_clone_directory],
    [paging_map_page_in], [paging_free_directory].  This file proves that a
    cloned directory sees the kernel's mapping without user access, that
    mapping into it cannot change the kernel's translation, and that freeing
    it gives back exactly the frames it owns. *)

From S2P Require Import Prelude KString KStdio Console Pmm Memory Paging.

Open Scope Z_scope.
Open Scope c_scope.

#[local] Opaque entry present PAGE_FRAME new_pde load32 store32 for_loop for_ret.

(** ** Freeing a list of frames *)

Fixpoint frees (l : list Z) : M (io vm) () :=
  match l with
  | [] => mret ()
  | a :: l' => pmm_free a ;; frees l'
  end.

Lemma frees_app l l' t : frees (l ++ l') t = (frees l ;; frees l') t.
Proof.
  revert t. induction l as [|a l IH]; intros t; [done|]. simpl. rewrite !bind_run.
  destruct (pmm_free a t) as [[[] t']|]; [|done]. rewrite IH. by rewrite bind_run.
Qed.

Definition listed (l : list Z) (g : Z) : bool := bool_decide (g * PAGE_SIZE ∈ l).

Lemma frame_used_frame p a : frame_used p a → is_frame (a / PAGE_SIZE) ∧ a / PAGE_SIZE * PAGE_SIZE = a ∧ addr32 a.
Proof.
  intros (Hal & Hr & Hu). unfold aligned in Hal. pose proof (Z.div_mod a 4096). unfold PAGE_SIZE.
  change TOTAL_MEMORY with 16777216 in Hr. split_and!; [|lia|unfold addr32; lia]. unfold is_frame.
  change TOTAL_FRAMES with 4096. lia.
Qed.

Lemma pmm_free_run s c a :
  pmm_wf (frames s) → frame_used (frames s) a →
  pmm_free a (IO s c) = Some ((), IO (set_frames (unmark (a / PAGE_SIZE) (frames s)) s) c).
Proof.
  intros Hwf Hu. destruct (frame_used_frame _ _ Hu) as (Hf & Hmul & Ha). destruct Hu as (Hal & _ & Hu).
  destruct (free_page_run (frames s) c a Hwf Ha) as (p' & msg & E & Ho).
  unfold pmm_free, zoom_io, zoom. cbn [st con]. rewrite E. cbn [st con].
  destruct Ho as [Hm|num _ Hr _|_ _ Hu'|_ _ _]; [done| |congruence|by rewrite app_nil_r].
  unfold is_frame in Hf. lia.
Qed.

(** Freeing distinct allocated frames clears exactly their bits, silently. *)
Lemma frees_run l s c :
  pmm_wf (frames s) → NoDup l → Forall (frame_used (frames s)) l →
  ∃ p', frees l (IO s c) = Some ((), IO (set_frames p' s) c) ∧ pmm_wf p' ∧
    (∀ g, is_frame g → used p' g = used (frames s) g && negb (listed l g)).
Proof.
  revert s. induction l as [|a l IH]; intros s Hwf Hnd Hall.
  - exists (frames s). split_and!; [by destruct s|done|]. intros g Hg. by rewrite andb_true_r.
  - inversion Hnd as [|? ? Hni Hnd2]; subst. clear Hnd. rename Hnd2 into Hnd. apply Forall_cons_iff in Hall as [Ha Hall].
    destruct (frame_used_frame _ _ Ha) as (Hf & Hmul & Ha32). pose proof Ha as (_ & _ & Hu).
    simpl. rewrite bind_run, pmm_free_run by done.
    set (s1 := set_frames (unmark (a / PAGE_SIZE) (frames s)) s).
    assert (∀ g, is_frame g → used (frames s1) g = negb (a / PAGE_SIZE =? g) && used (frames s) g) as Hu1.
    { intros g Hg. apply used_unmark; [done|done|]. unfold is_frame in Hg. lia. }
    destruct (IH s1) as (p' & E & Hwf' & Hu').
    { by apply unmark_wf. } { done. }
    { apply Forall_forall. intros b Hb. pose proof (proj1 (Forall_forall _ _) Hall b Hb) as Hbfu.
      destruct (frame_used_frame (frames s) b Hbfu) as (Hbf & Hbm & _). destruct Hbfu as (Hbal & Hbr & Hbu).
      split_and!; [done|lia|lia|].
      rewrite Hu1 by done. rewrite Hbu. zcase; [|done]. exfalso. apply Hni.
      replace a with b by congruence. by apply list_elem_of_In. }
    exists p'. rewrite E. split_and!; [done|done|]. intros g Hg. rewrite Hu', Hu1 by done. unfold listed.
    destruct (Z.eqb_spec (a / PAGE_SIZE) g) as [Eg|Ng]; cbn [negb andb].
    + rewrite (bool_decide_eq_true_2 (g * PAGE_SIZE ∈ a :: l)); [by rewrite andb_false_r|].
      replace (g * PAGE_SIZE) with a by congruence. left.
    + f_equal. f_equal. apply bool_decide_ext. rewrite elem_of_cons. split; [by right|].
      intros [Eg|?]; [|done]. destruct Ng. rewrite <- Eg. by rewrite page_div.
Qed.

(** ** What [paging_free_directory] frees *)

Lemma frees_ram l t :
  match frees l t with Some (_, t') => ram (st t') = ram (st t) | None => True end.
Proof.
  revert t. induction l as [|a l IH]; intros t; [done|]. simpl. rewrite bind_run.
  unfold pmm_free at 1, zoom_io, zoom. destruct (free_page a _) as [[[] [p1 c1]]|]; [|done].
  specialize (IH (IO (set_frames p1 (st t)) c1)). cbn [st con] in *.
  destruct (frees l _) as [[[] t']|]; [|done]. by rewrite IH.
Qed.

(** A loop whose rounds each free a list of frames computed from memory. *)
Lemma for_loop_frees (body : Z → M (io vm) ()) (l : Z → list Z) m n i :
  (∀ j t, i ≤ j < i + Z.of_nat n → ram (st t) = m → body j t = frees (l j) t) →
  ∀ t, ram (st t) = m →
  for_loop n i body t = frees (concat (l <$> seqZ i (Z.of_nat n))) t.
Proof.
  revert i. induction n as [|n IH]; intros i Hb t Ht; [done|].
  rewrite seqZ_cons by lia. replace (Z.pred (Z.of_nat (S n))) with (Z.of_nat n) by lia.
  rewrite fmap_cons. simpl concat. rewrite frees_app.
  change (for_loop (S n) i body t) with ((body i ;; for_loop n (i + 1) body) t).
  rewrite !bind_run. rewrite Hb by (done || lia).
  pose proof (frees_ram (l i) t) as Hram. destruct (frees (l i) t) as [[[] t']|]; [|done].
  rewrite (IH (i + 1)); [by replace (Z.succ i) with (i + 1) by lia| |by rewrite Hram].
  intros j t0 Hj. apply Hb. lia.
Qed.

(** The frames mapped by a page table. *)
Definition table_frames (m : mem) (pt : Z) : list Z :=
  concat ((λ j, let pte := entry m pt j in if present pte then [PAGE_FRAME pte] else []) <$> seqZ 0 1024).

(** Everything a per-process directory owns, in the order it is freed. *)
Definition dir_frames (m : mem) (dir : Z) : list Z :=
  (let e0 := entry m dir 0 in if present e0 then [PAGE_FRAME e0] else []) ++
  concat ((λ i, let e := entry m dir i in
             if present e then table_frames m (PAGE_FRAME e) ++ [PAGE_FRAME e] else [])
          <$> seqZ 4 1020) ++
  [dir].

Lemma frees_snoc l a t : frees (l ++ [a]) t = (frees l ;; pmm_free a) t.
Proof.
  rewrite frees_app, !bind_run. destruct (frees l t) as [[[] t']|]; [|done]. simpl. rewrite bind_run.
  by destruct (pmm_free a t') as [[[] t'']|].
Qed.

Lemma frees_one a t : frees [a] t = pmm_free a t.
Proof. simpl. rewrite bind_run. by destruct (pmm_free a t) as [[[] t']|]. Qed.

Lemma free_directory_frees t dir :
  dir ≠ 0 → paging_free_directory dir t = frees (dir_frames (ram (st t)) dir) t.
Proof.
  intros Hd. destruct t as [s c]. unfold paging_free_directory, dir_frames.
  destruct (Z.eqb_spec dir 0); [done|]. cbn [st]. set (m := ram s). rewrite frees_app, !bind_run.
  change (read_entry dir 0 (IO s c)) with (Some (entry m dir 0, IO s c)). cbv beta iota zeta. rewrite bind_run.
  set (A := if present (entry m dir 0) then [PAGE_FRAME (entry m dir 0)] else []).
  assert ((if present (entry m dir 0) then pmm_free (Z.land (entry m dir 0) PAGE_FRAME_MASK) else mret ()) (IO s c)
    = frees A (IO s c)) as ->.
  { unfold A. destruct (present (entry m dir 0)); [by rewrite frees_one|done]. }
  pose proof (frees_ram A (IO s c)) as Hram. destruct (frees A (IO s c)) as [[[] t1]|]; [|done].
  rewrite frees_snoc, !bind_run. change (st (IO s c)) with s in Hram. fold m in Hram.
  rewrite (for_loop_frees _ (λ i, let e := entry m dir i in
    if present e then table_frames m (PAGE_FRAME e) ++ [PAGE_FRAME e] else []) m); [done| |done].
  intros i t Hi Ht. rewrite bind_run.
  change (read_entry dir i t) with (Some (entry (ram (st t)) dir i, IO (st t) (con t))).
  rewrite Ht. cbv beta iota zeta. destruct t as [s2 c2]. cbn [st con] in *.
  destruct (present (entry m dir i)); cbn [negb]; [|done].
  rewrite frees_snoc, !bind_run. change (Z.land (entry m dir i) PAGE_FRAME_MASK) with (PAGE_FRAME (entry m dir i)).
  rewrite (for_loop_frees _ (λ j, let pte := entry m (PAGE_FRAME (entry m dir i)) j in
    if present pte then [PAGE_FRAME pte] else []) m); [done| |done].
  intros j [s3 c3] Hj Ht3. rewrite bind_run. cbn [st] in Ht3.
  change (read_entry _ j (IO s3 c3)) with (Some (entry (ram s3) (PAGE_FRAME (entry m dir i)) j, IO s3 c3)).
  rewrite Ht3. cbv beta iota zeta. destruct (present (entry m (PAGE_FRAME (entry m dir i)) j)); [|done].
  by rewrite frees_one.
Qed.

(** ** The kernel's own tables *)

(** The frames that hold the kernel's directory and page tables. *)
Definition kernel_page (s : vm) (t : Z) : Prop :=
  t = kernel_directory s ∨
  ∃ i, idx i ∧ present (entry (ram s) (kernel_directory s) i) = true ∧
       t = PAGE_FRAME (entry (ram s) (kernel_directory s) i).

Lemma kernel_page_used s t : vm_inv s → kernel_page s t → frame_used (frames s) t.
Proof.
  intros Hinv [->|(i & Hi & Hp & ->)]; [apply Hinv|]. by apply (vi_frame _ Hinv).
Qed.

(** A change that leaves those frames alone leaves the kernel's address space
    alone. *)
Lemma kernel_framed s s' :
  vm_inv s → kernel_directory s' = kernel_directory s → pd_tables s' = pd_tables s →
  pmm_inv (IO (frames s') []) →
  (∀ a, kernel_page s a → frame_used (frames s') a) →
  (∀ t j, kernel_page s t → idx j → entry (ram s') t j = entry (ram s) t j) →
  vm_inv s' ∧ ∀ va, addr32 va → kwalk s' va = kwalk s va.
Proof.
  intros Hinv Hkd Htab Hp Hfr Hent.
  assert (∀ j, idx j → entry (ram s') (kernel_directory s) j = entry (ram s) (kernel_directory s) j) as Hd.
  { intros j Hj. apply Hent; [by left|done]. }
  split.
  - split; rewrite ?Hkd, ?Htab.
    + done.
    + apply Hfr. by left.
    + apply Hinv.
    + intros i Hi. rewrite Hd by done. by apply (vi_tab _ Hinv).
    + intros i Hi. rewrite Hd by done. intros e Hpe. split; [|by apply (vi_frame _ Hinv)].
      apply Hfr. right. by exists i.
    + intros i j Hi Hj. rewrite !Hd by done. by apply (vi_inj _ Hinv).
    + intros i Hi. rewrite Hd by done. by apply (vi_write _ Hinv).
  - intros va Hva. unfold kwalk. rewrite Hkd, !hw_walk_bits. cbv zeta.
    destruct (dir_index va Hva) as [-> Hd2], (table_index va) as [-> Ht2]. rewrite Hd by done.
    destruct (Z.testbit (entry (ram s) (kernel_directory s) (va / 4194304)) 0) eqn:E0; [|done].
    rewrite Hent; [done| |done]. right. exists (va / 4194304). by rewrite present_bit.
Qed.

(** ** Cloning *)

(** The memory of a fresh clone. *)
Record cloned (s s' : vm) (dir pt0 : Z) : Prop := {
  cl_cpu : kernel_directory s' = kernel_directory s ∧ pd_tables s' = pd_tables s ∧ cr3 s' = cr3 s ∧ tlb s' = tlb s ∧
    pd_physical_address s' = pd_physical_address s;
  cl_p1 : ∃ p1, fresh_page (frames s) dir p1 ∧ fresh_page p1 pt0 (frames s');
  cl_pmm : pmm_inv (IO (frames s') []);
  cl_dir : ∀ j, idx j → entry (ram s') dir j =
    if j =? 0 then new_pde pt0 0 else if j <? 4 then entry (ram s) (kernel_directory s) j else 0;
  cl_pt0 : ∀ j, idx j → entry (ram s') pt0 j =
    entry (ram s) (PAGE_FRAME (entry (ram s) (kernel_directory s) 0)) j;
  cl_other : ∀ t j, aligned t → idx j → t ≠ dir → t ≠ pt0 → entry (ram s') t j = entry (ram s) t j
}.

(** The loop that shares the kernel's entries 1 to 3. *)
Lemma share_loop s c dir :
  aligned dir → aligned (kernel_directory s) → dir ≠ kernel_directory s →
  ∃ m', for_loop 3 1 (λ i, s ← quiet get; e ← read_entry (kernel_directory s) i; write_entry dir i e) (IO s c) =
      Some ((), IO (upd_ram (λ _, m') s) c) ∧
    ∀ t j, aligned t → idx j → entry m' t j =
      if (dir =? t) && ((1 <=? j) && (j <? 4)) then entry (ram s) (kernel_directory s) j else entry (ram s) t j.
Proof.
  intros Hd Hk Hne.
  match goal with |- context [for_loop 3 1 ?b] => set (body := b) end.
  destruct (for_loop_inv (λ i t, ∃ m', t = IO (upd_ram (λ _, m') s) c ∧
    ∀ t j, aligned t → idx j → entry m' t j =
      if (dir =? t) && ((1 <=? j) && (j <? i)) then entry (ram s) (kernel_directory s) j else entry (ram s) t j)
    body 3 1 (IO s c)) as (t & E & m' & -> & Hm).
  - intros i t Hi (m' & -> & Hm). eexists. split; [reflexivity|].
    cbn [upd_ram kernel_directory ram]. exists (store32 m' (dir + 4 * i) (entry m' (kernel_directory s) i)).
    split; [reflexivity|]. intros t j Ht Hj.
    assert (idx i) as Hii by (unfold idx; lia). rewrite entry_store by (done || apply entry_bound).
    rewrite !Hm by done. destruct (Z.eqb_spec dir (kernel_directory s)); [done|]. cbn [andb].
    destruct (Z.eqb_spec dir t); cbn [andb]; [|done]. repeat zcase; subst; reflexivity.
  - exists (ram s). split; [by destruct s|]. intros t j Ht Hj. repeat zcase; cbn [andb]; try done; by rewrite ?andb_false_r.
  - exists m'. split; [exact E|exact Hm].
Qed.

Lemma pmm_alloc_run s c r p' :
  alloc_page (frames s) = Some (r, p') → pmm_alloc (IO s c) = Some (r, IO (set_frames p' s) c).
Proof. intros E. unfold pmm_alloc, quiet, zoom. cbn [st con]. by rewrite E. Qed.

Lemma unmark_fresh p a p' : fresh_page p a p' → unmark (a / PAGE_SIZE) p' = p.
Proof. intros Hf. symmetry. apply (fp_unmark _ _ _ Hf). Qed.

(** The two allocations of a clone, up to the second one's result. *)
Lemma clone_prefix s c dir p1 kt0 :
  alloc_page (frames s) = Some (dir, p1) → dir ≠ 0 → pd_tables s !! 0%nat = Some kt0 → kt0 ≠ 0 →
  let s1 := upd_ram (λ m, mem_set m dir 0 4096) (set_frames p1 s) in
  paging_clone_directory (IO s c) =
  (ok ← (pt0_phys ← pmm_alloc;
         if pt0_phys =? 0 then pmm_free dir ;; mret false
         else
           quiet (modify (upd_ram (λ m, mem_cpy m pt0_phys kt0 4096))) ;;
           write_entry dir 0 (new_pde pt0_phys 0) ;;
           mret true);
   if negb ok then mret 0
   else
     for_loop 3 1 (λ i, s ← quiet get; e ← read_entry (kernel_directory s) i; write_entry dir i e) ;;
     mret dir) (IO s1 c).
Proof.
  intros E1 Hd Htab Hk s1. unfold paging_clone_directory. mstep (pmm_alloc_run s c _ _ E1).
  destruct (Z.eqb_spec dir 0); [done|]. rewrite bind_run.
  change (zero_page dir _) with (Some ((), IO s1 c)). cbv beta iota. rewrite bind_run.
  assert (get_table 0 (IO s1 c) = Some (kt0, IO s1 c)) as ->.
  { unfold get_table. vrun. change (pd_tables s1) with (pd_tables s). change (Z.to_nat 0) with 0%nat. by rewrite Htab. }
  destruct (Z.eqb_spec kt0 0); [done|]. cbn [negb]. rewrite !bind_run.
  destruct (pmm_alloc (IO s1 c)) as [[r t]|]; [|done]. by rewrite new_pde_0.
Qed.

Section clone.
Context (s : vm) (c : list Z) (Hinv : vm_inv s).
Context (Hpr : present (entry (ram s) (kernel_directory s) 0) = true).
Context (dir : Z) (p1 : pmm_t) (Hf1 : fresh_page (frames s) dir p1) (Hp1 : pmm_inv (IO p1 [])).
Let kt0 := PAGE_FRAME (entry (ram s) (kernel_directory s) 0).
Let s1 := upd_ram (λ m, mem_set m dir 0 4096) (set_frames p1 s).

Lemma clone_s1 t j : aligned t → idx j → entry (ram s1) t j = if dir =? t then 0 else entry (ram s) t j.
Proof using Hf1.
  intros Ht Hj. destruct (fresh_frame_used _ _ _ Hf1) as [(Hdal & _) _].
  unfold s1. cbn [upd_ram set_frames ram]. by apply entry_zero.
Qed.

Lemma clone_kt0 : frame_used (frames s) kt0 ∧ pd_tables s !! 0%nat = Some kt0.
Proof using Hinv Hpr.
  assert (idx 0) as Hi0 by (unfold idx; lia). split; [by apply (vi_frame _ Hinv 0)|].
  pose proof (vi_tab _ Hinv 0 Hi0) as Htab. cbv zeta in Htab. by rewrite Hpr in Htab.
Qed.

(** No frame is left for the page table: the directory's frame goes back. *)
Lemma clone_undone :
  alloc_page p1 = Some (0, p1) →
  (ok ← (pt0_phys ← pmm_alloc;
         if pt0_phys =? 0 then pmm_free dir ;; mret false
         else
           quiet (modify (upd_ram (λ m, mem_cpy m pt0_phys kt0 4096))) ;;
           write_entry dir 0 (new_pde pt0_phys 0) ;;
           mret true);
   if negb ok then mret 0
   else
     for_loop 3 1 (λ i, s ← quiet get; e ← read_entry (kernel_directory s) i; write_entry dir i e) ;;
     mret dir) (IO s1 c) = Some (0, IO (set_frames (frames s) s1) c) ∧
  vm_inv (set_frames (frames s) s1) ∧
  ∀ va, addr32 va → kwalk (set_frames (frames s) s1) va = kwalk s va.
Proof using Hinv Hpr Hf1 Hp1.
  intros E2. destruct (fresh_frame_used _ _ _ Hf1) as [Hdu Hdr]. split.
  - rewrite !bind_run. rewrite (pmm_alloc_run s1 c 0 p1 E2). cbv beta iota. rewrite Z.eqb_refl, bind_run.
    change (set_frames p1 s1) with s1.
    rewrite pmm_free_run by (apply Hp1 || exact Hdu). change (frames s1) with p1.
    by rewrite (unmark_fresh _ _ _ Hf1).
  - apply kernel_framed; [exact Hinv|reflexivity|reflexivity|apply (vi_pmm _ Hinv)|intros a Ha; exact (kernel_page_used s a Hinv Ha)|].
    intros t j Ht Hj. apply (kernel_page_used _ _ Hinv) in Ht. change (ram (set_frames (frames s) s1)) with (ram s1).
    rewrite clone_s1 by (done || apply Ht). destruct (fresh_apart _ _ _ _ Hf1 Ht) as [Hne _].
    by destruct (Z.eqb_spec dir t).
Qed.
End clone.

Lemma clone_done s c dir p1 pt0 p2 :
  vm_inv s → present (entry (ram s) (kernel_directory s) 0) = true →
  fresh_page (frames s) dir p1 → alloc_page p1 = Some (pt0, p2) → fresh_page p1 pt0 p2 → pmm_inv (IO p2 []) →
  let kt0 := PAGE_FRAME (entry (ram s) (kernel_directory s) 0) in
  let s1 := upd_ram (λ m, mem_set m dir 0 4096) (set_frames p1 s) in
  ∃ s', (ok ← (pt0_phys ← pmm_alloc;
           if pt0_phys =? 0 then pmm_free dir ;; mret false
           else
             quiet (modify (upd_ram (λ m, mem_cpy m pt0_phys kt0 4096))) ;;
             write_entry dir 0 (new_pde pt0_phys 0) ;;
             mret true);
     if negb ok then mret 0
     else
       for_loop 3 1 (λ i, s ← quiet get; e ← read_entry (kernel_directory s) i; write_entry dir i e) ;;
       mret dir) (IO s1 c) = Some (dir, IO s' c) ∧ cloned s s' dir pt0.
Proof.
  intros Hinv Hpr Hf1 E2 Hf2 Hp2 kt0 s1. destruct (clone_kt0 s Hinv Hpr) as [Hf0 _]. fold kt0 in Hf0.
  pose proof (vi_dir _ Hinv) as Hkd. pose proof Hkd as (Hkal & _). pose proof Hf0 as (Htal & _).
  destruct (fresh_frame_used _ _ _ Hf1) as [Hdu _], (fresh_frame_used _ _ _ Hf2) as [(Hpal & _) Hpr2].
  pose proof Hdu as (Hdal & _).
  destruct (fresh_apart _ _ _ _ Hf1 Hkd) as [Hdk Hkd1], (fresh_apart _ _ _ _ Hf1 Hf0) as [Hdt Hf01].
  destruct (fresh_apart _ _ _ _ Hf2 Hkd1) as [Hpk _], (fresh_apart _ _ _ _ Hf2 Hf01) as [Hpt _].
  destruct (fresh_apart _ _ _ _ Hf2 Hdu) as [Hpd _]. change TOTAL_MEMORY with 16777216 in Hpr2.
  destruct (new_pde_spec pt0 0 Hpal ltac:(lia) ltac:(lia)) as (Hv & _).
  set (s2 := upd_ram (λ m, store32 m (dir + 4 * 0) (new_pde pt0 0))
               (upd_ram (λ m, mem_cpy m pt0 kt0 4096) (set_frames p2 s1))).
  assert (∀ t j, aligned t → idx j → entry (ram s2) t j =
    if (dir =? t) && (0 =? j) then new_pde pt0 0
    else if pt0 =? t then entry (ram s) kt0 j else if dir =? t then 0 else entry (ram s) t j) as Hs2.
  { intros t j Ht Hj. unfold s2. cbn [upd_ram ram set_frames].
    rewrite entry_store by (assumption || unfold idx; lia).
    rewrite entry_copy by assumption. rewrite !(clone_s1 s dir p1 Hf1) by assumption.
    by destruct (Z.eqb_spec dir kt0). }
  destruct (share_loop s2 c dir Hdal Hkal Hdk) as (m' & Eloop & Hm').
  exists (upd_ram (λ _, m') s2). split.
  - rewrite !bind_run, (pmm_alloc_run s1 c pt0 p2 E2). cbv beta iota. destruct (Z.eqb_spec pt0 0); [lia|].
    rewrite bind_run. unfold quiet at 1, zoom at 1, modify at 1. cbn [st con]. rewrite bind_run.
    unfold write_entry at 1, quiet at 1, zoom at 1, modify at 1. cbn [st con negb mret M_ret].
    fold s2. rewrite bind_run. change (kernel_directory s2) with (kernel_directory s) in *.
    unfold mret, M_ret. cbv beta iota. cbn [negb]. rewrite Eloop. reflexivity.
  - assert (∀ j, idx j → entry (ram s2) (kernel_directory s2) j = entry (ram s) (kernel_directory s) j) as Hk2.
    { intros j Hj. change (kernel_directory s2) with (kernel_directory s). rewrite Hs2 by assumption.
      destruct (Z.eqb_spec dir (kernel_directory s)); [contradiction|]. cbn [andb].
      destruct (Z.eqb_spec pt0 (kernel_directory s)); [contradiction|reflexivity]. }
    split; [split_and!; reflexivity|exists p1; split; assumption|exact Hp2|..]; cbn [upd_ram ram].
    + intros j Hj. rewrite Hm', Hk2, Hs2, Z.eqb_refl by assumption. cbn [andb]. unfold idx in Hj.
      rewrite (Z.eqb_sym j 0). destruct (Z.eqb_spec 0 j) as [<-|]; [reflexivity|].
      destruct (Z.eqb_spec pt0 dir); [contradiction|]. repeat zcase; reflexivity.
    + intros j Hj. rewrite Hm' by assumption. destruct (Z.eqb_spec dir pt0) as [|Hn]; [congruence|].
      cbn [andb]. rewrite Hs2 by assumption. apply Z.eqb_neq in Hn. by rewrite Hn, Z.eqb_refl.
    + intros t j Ht Hj Hn1 Hn2. rewrite Hm' by assumption. destruct (Z.eqb_spec dir t) as [|Hn]; [congruence|].
      cbn [andb]. rewrite Hs2 by assumption. apply Z.eqb_neq in Hn. rewrite Hn. cbn [andb].
      destruct (Z.eqb_spec pt0 t); [congruence|reflexivity].
Qed.

(** ** What a directory owns *)

(** [dir] is a per-process directory: it and the tables of its private
    entries (0 and 4 upwards) are distinct frames outside the kernel's tables,
    and its entries 1 to 3 point to kernel tables. *)
Definition private (i : Z) : Prop := i = 0 ∨ 4 ≤ i < 1024.

Record space (s : vm) (dir : Z) : Prop := {
  sp_dir : frame_used (frames s) dir ∧ ¬ kernel_page s dir;
  sp_table : ∀ i, private i → let e := entry (ram s) dir i in present e = true →
    frame_used (frames s) (PAGE_FRAME e) ∧ ¬ kernel_page s (PAGE_FRAME e) ∧ PAGE_FRAME e ≠ dir;
  sp_inj : ∀ i j, private i → private j →
    let e := entry (ram s) dir i in let e' := entry (ram s) dir j in
    present e = true → present e' = true → PAGE_FRAME e = PAGE_FRAME e' → i = j;
  sp_shared : ∀ i, 1 ≤ i < 4 → let e := entry (ram s) dir i in present e = true → kernel_page s (PAGE_FRAME e)
}.

Lemma private_idx i : private i → idx i.
Proof. unfold private, idx. lia. Qed.

(** The rights of the kernel's mapping with user access removed. *)
Definition no_user (r : option rights) : option rights :=
  match r with Some (f, w, _) => Some (f, w, false) | None => None end.

Section cloned.
Context (s s' : vm) (dir pt0 : Z) (Hinv : vm_inv s).
Context (Hpr : present (entry (ram s) (kernel_directory s) 0) = true) (Hcl : cloned s s' dir pt0).

Lemma cloned_frames :
  (∃ p1, fresh_page (frames s) dir p1 ∧ fresh_page p1 pt0 (frames s')) ∧
  frame_used (frames s') dir ∧ frame_used (frames s') pt0 ∧ dir ≠ pt0 ∧
  (∀ t, frame_used (frames s) t → t ≠ dir ∧ t ≠ pt0 ∧ frame_used (frames s') t).
Proof using Hcl.
  destruct (cl_p1 _ _ _ _ Hcl) as (p1 & Hf1 & Hf2). split; [by exists p1|].
  destruct (fresh_frame_used _ _ _ Hf1) as [Hdu _], (fresh_frame_used _ _ _ Hf2) as [Hpu _].
  destruct (fresh_apart _ _ _ _ Hf2 Hdu) as [Hne Hdu']. split_and!; [exact Hdu'|exact Hpu|congruence|].
  intros t Ht. destruct (fresh_apart _ _ _ _ Hf1 Ht) as [? Ht1]. destruct (fresh_apart _ _ _ _ Hf2 Ht1) as [? ?].
  split_and!; [congruence|congruence|assumption].
Qed.

Lemma cloned_kernel : vm_inv s' ∧ ∀ va, addr32 va → kwalk s' va = kwalk s va.
Proof using Hinv Hcl.
  destruct cloned_frames as (_ & _ & _ & _ & Hold). destruct (cl_cpu _ _ _ _ Hcl) as (Hkd & Htab & _).
  apply kernel_framed; [exact Hinv|exact Hkd|exact Htab|apply (cl_pmm _ _ _ _ Hcl)|..].
  - intros a Ha. apply Hold, (kernel_page_used s a Hinv Ha).
  - intros t j Ht Hj. apply (kernel_page_used s t Hinv) in Ht. destruct (Hold t Ht) as (? & ? & _).
    apply (cl_other _ _ _ _ Hcl); [apply Ht|exact Hj|assumption..].
Qed.

Lemma kernel_page_cloned t : kernel_page s' t ↔ kernel_page s t.
Proof using Hinv Hcl.
  destruct cloned_frames as (_ & _ & _ & _ & Hold). destruct (cl_cpu _ _ _ _ Hcl) as (Hkd & _).
  assert (∀ i, idx i → entry (ram s') (kernel_directory s) i = entry (ram s) (kernel_directory s) i) as He.
  { intros i Hi. destruct (Hold _ (vi_dir _ Hinv)) as (? & ? & _).
    apply (cl_other _ _ _ _ Hcl); [apply (vi_dir _ Hinv)|exact Hi|assumption..]. }
  unfold kernel_page. rewrite Hkd. split; (intros [Hk|(i & Hi & Hp & Hk)]; [by left|right; exists i]);
    rewrite He in * by exact Hi; auto.
Qed.

Lemma pt0_pde : 0 ≤ new_pde pt0 0 < 4294967296 ∧ present (new_pde pt0 0) = true ∧
  PAGE_FRAME (new_pde pt0 0) = pt0 ∧ Z.testbit (new_pde pt0 0) 1 = true ∧ Z.testbit (new_pde pt0 0) 2 = false.
Proof using Hcl.
  destruct cloned_frames as (_ & _ & Hpu & _). destruct (frame_used_frame _ _ Hpu) as (_ & _ & Ha32).
  apply (new_pde_spec pt0 0); [apply Hpu|exact Ha32|lia].
Qed.

Lemma cloned_walk va :
  addr32 va →
  hw_walk (ram s') dir va =
  if va <? 0x400000 then no_user (kwalk s va) else if va <? 0x1000000 then kwalk s va else None.
Proof using Hinv Hpr Hcl.
  intros Hva. destruct (dir_index va Hva) as [Hd1 Hd2], (table_index va) as [Ht1 Ht2].
  destruct cloned_frames as (_ & Hdu & Hpu & _ & Hold).
  destruct pt0_pde as (_ & Hv0 & Hvf & Hv1 & Hv2). rewrite present_bit in Hv0, Hpr.
  pose proof (Z.div_mod va 4194304 ltac:(lia)). pose proof (Z.mod_pos_bound va 4194304 ltac:(lia)).
  unfold kwalk. rewrite !hw_walk_bits. cbv zeta. rewrite Hd1, Ht1, (cl_dir _ _ _ _ Hcl) by exact Hd2.
  destruct (Z.eqb_spec (va / 4194304) 0) as [E0|E0].
  - rewrite E0, Hv0, Hv1, Hv2, Hvf, (cl_pt0 _ _ _ _ Hcl) by exact Ht2.
    rewrite Hpr. rewrite <- present_bit in Hpr. rewrite (vi_write _ Hinv 0 ltac:(unfold idx; lia) Hpr).
    unfold no_user. zcase.
    match goal with |- context [Z.testbit ?e 0] => destruct (Z.testbit e 0) end; reflexivity.
  - destruct (Z.ltb_spec va 0x400000); [lia|]. destruct (Z.ltb_spec (va / 4194304) 4) as [Hlt|Hge].
    + destruct (Z.ltb_spec va 0x1000000); [|lia].
      destruct (Z.testbit (entry (ram s) (kernel_directory s) (va / 4194304)) 0) eqn:Ep; [|reflexivity].
      rewrite <- present_bit in Ep. destruct (vi_frame _ Hinv _ Hd2 Ep) as [Hfu _].
      destruct (Hold _ Hfu) as (? & ? & _).
      rewrite (cl_other _ _ _ _ Hcl); [reflexivity|apply Hfu|exact Ht2|assumption..].
    + destruct (Z.ltb_spec va 0x1000000); [lia|]. rewrite Z.testbit_0_l. reflexivity.
Qed.

Lemma cloned_space : space s' dir.
Proof using Hinv Hcl.
  destruct cloned_frames as (_ & Hdu & Hpu & Hne & Hold). destruct pt0_pde as (_ & Hv0 & Hvf & _ & _).
  assert (∀ t, kernel_page s' t → t ≠ dir ∧ t ≠ pt0) as Hk.
  { intros t Ht%kernel_page_cloned. apply (kernel_page_used s t Hinv) in Ht. destruct (Hold t Ht) as (? & ? & _). auto. }
  assert (∀ i, private i → present (entry (ram s') dir i) = true → i = 0 ∧ entry (ram s') dir i = new_pde pt0 0) as Hpriv.
  { intros i Hi. rewrite (cl_dir _ _ _ _ Hcl) by (by apply private_idx). unfold private in Hi.
    destruct (Z.eqb_spec i 0); [auto|]. destruct (Z.ltb_spec i 4); [lia|].
    rewrite present_bit, Z.testbit_0_l. intros [=]. }
  split.
  - split; [exact Hdu|]. intros Ht. by destruct (Hk dir Ht).
  - intros i Hi e He. unfold e in *. destruct (Hpriv i Hi He) as [_ ->]. rewrite Hvf.
    split_and!; [exact Hpu| |congruence]. intros Ht. by destruct (Hk pt0 Ht).
  - intros i j Hi Hj e e' He He' _. destruct (Hpriv i Hi He) as [-> _], (Hpriv j Hj He') as [-> _]. reflexivity.
  - intros i Hi e He. unfold e in *. clear e. rewrite (cl_dir _ _ _ _ Hcl) in * by (unfold idx; lia).
    destruct (Z.eqb_spec i 0); [lia|]. destruct (Z.ltb_spec i 4); [|lia].
    apply kernel_page_cloned. right. exists i. split_and!; [unfold idx; lia|exact He|reflexivity].
Qed.

Lemma cloned_dir_frames : dir_frames (ram s') dir = [pt0; dir].
Proof using Hcl.
  destruct pt0_pde as (_ & Hv0 & Hvf & _ & _). unfold dir_frames.
  rewrite (cl_dir _ _ _ _ Hcl) by (unfold idx; lia). rewrite Z.eqb_refl. cbv zeta. rewrite Hv0, Hvf.
  assert (∀ l, (∀ i, i ∈ l → 4 ≤ i < 1024) →
    concat ((λ i, if present (entry (ram s') dir i) then table_frames (ram s') (PAGE_FRAME (entry (ram s') dir i))
      ++ [PAGE_FRAME (entry (ram s') dir i)] else []) <$> l) = []) as Hnil.
  { intros l. induction l as [|i l IH]; intros Hl; [reflexivity|]. rewrite fmap_cons. simpl concat.
    rewrite IH by (intros j Hj; apply Hl; by right). specialize (Hl i ltac:(left)).
    rewrite (cl_dir _ _ _ _ Hcl) by (unfold idx; lia). destruct (Z.eqb_spec i 0); [lia|].
    destruct (Z.ltb_spec i 4); [lia|]. by rewrite present_bit, Z.testbit_0_l. }
  rewrite Hnil; [reflexivity|]. intros i Hi. apply elem_of_seqZ in Hi. lia.
Qed.
End cloned.

(** ** Mapping into a process's directory *)

(** The memory after [paging_map_page_in]: entry [k] of table [T] and entry
    [d] of the directory are set; [T] is new (and empty) or was there. *)
Record mapped_in (s s' : vm) (dir d k pte T e' : Z) (fresh : bool) : Prop := {
  mi_cpu : kernel_directory s' = kernel_directory s ∧ pd_tables s' = pd_tables s ∧ cr3 s' = cr3 s ∧ tlb s' = tlb s ∧
    pd_physical_address s' = pd_physical_address s;
  mi_frames : if fresh then fresh_page (frames s) T (frames s') else frames s' = frames s;
  mi_pmm : pmm_inv (IO (frames s') []);
  mi_old : present (entry (ram s) dir d) = negb fresh ∧ (fresh = false → T = PAGE_FRAME (entry (ram s) dir d));
  mi_new : addr32 e' ∧ present e' = true ∧ PAGE_FRAME e' = T ∧
           Z.testbit e' 1 = (fresh || Z.testbit (entry (ram s) dir d) 1);
  mi_entries : ∀ t j, aligned t → idx j → entry (ram s') t j =
    if (T =? t) && (k =? j) then pte
    else if (dir =? t) && (d =? j) then e'
    else if fresh && (T =? t) then 0 else entry (ram s) t j
}.

Lemma map_page_in_run s c dir virt phys flags :
  vm_inv s → space s dir → addr32 virt → addr32 phys → addr32 flags → private (PAGE_DIR_INDEX virt) →
  (paging_map_page_in dir virt phys flags (IO s c) =
     Some ((), IO s (c ++ str "paging_map_page_in: out of memory for page table" ++ [10])) ∧
   used_frames (frames s) = TOTAL_FRAMES) ∨
  (∃ s' T e' fresh, paging_map_page_in dir virt phys flags (IO s c) = Some ((), IO s' c) ∧
     mapped_in s s' dir (PAGE_DIR_INDEX virt) (PAGE_TABLE_INDEX virt) (pte_of phys flags) T e' fresh ∧
     Z.testbit e' 2 = Z.testbit flags 2 || (negb fresh && Z.testbit (entry (ram s) dir (PAGE_DIR_INDEX virt)) 2)).
Proof.
  intros Hinv Hsp Hva Hph Hfl Hd. set (d := PAGE_DIR_INDEX virt) in *. set (k := PAGE_TABLE_INDEX virt).
  assert (idx k) as Hk by (unfold k; by destruct (table_index virt) as [-> ?]).
  pose proof (private_idx d Hd) as Hdi. destruct (sp_dir _ _ Hsp) as [(Hdal & _ & Hdu) Hdk].
  destruct (pte_of_spec phys flags Hph (proj1 Hfl)) as (Hv & _ & _ & _).
  set (e := entry (ram s) dir d). assert (addr32 e) as He by apply entry_bound.
  assert (truth (Z.land flags PAGE_USER) = Z.testbit flags 2) as Huser by (apply (flag_bit flags 2); lia).
  unfold paging_map_page_in. cbv zeta. fold d k. destruct (present e) eqn:Ep.
  - right. destruct (sp_table _ _ Hsp d Hd Ep) as ((Htal & _) & _ & Hne). fold e in Htal, Hne.
    destruct (Z.testbit flags 2) eqn:Eu.
    + assert (addr32 (Z.lor e PAGE_USER)) as He'.
      { unfold addr32 in *. change 4294967296 with (2 ^ 32) in *. apply lor_bound; [lia|lia|unfold PAGE_USER; lia]. }
      assert (PAGE_FRAME (Z.lor e PAGE_USER) = PAGE_FRAME e) as Hpf by (apply (page_frame_lor e 2); [lia|exact He]).
      assert (∀ b, 0 ≤ b → Z.testbit (Z.lor e PAGE_USER) b = Z.testbit e b || (b =? 2)) as Hb.
      { intros b Hb. rewrite Z.lor_spec. change PAGE_USER with (2 ^ 2). rewrite testbit_pow2 by lia. by rewrite Z.eqb_sym. }
      eexists _, (PAGE_FRAME e), (Z.lor e PAGE_USER), false. split.
      { vrun. fold e. rewrite Ep, Huser. cbn [negb]. vrun. cbn [negb]. vrun. rewrite entry_store by assumption.
        rewrite !Z.eqb_refl. cbn [andb]. change (Z.land (Z.lor e PAGE_USER) PAGE_FRAME_MASK) with (PAGE_FRAME (Z.lor e PAGE_USER)).
        rewrite Hpf. reflexivity. }
      split.
      * split; [split_and!; reflexivity|reflexivity|apply (vi_pmm _ Hinv)|split; [exact Ep|reflexivity]| |].
        -- split_and!; [exact He'| |exact Hpf|].
           ++ rewrite present_bit, Hb, <- present_bit, Ep by lia. reflexivity.
           ++ rewrite Hb by lia. by rewrite orb_false_r.
        -- intros t j Ht Hj. cbn [ram]. rewrite !entry_store by assumption. reflexivity.
      * rewrite Hb by lia. by rewrite orb_true_r.
    + eexists _, (PAGE_FRAME e), e, false. split.
      { vrun. fold e. rewrite Ep, Huser. cbn [negb]. vrun. cbn [negb]. vrun. fold e. reflexivity. }
      split; [|done].
      split; [split_and!; reflexivity|reflexivity|apply (vi_pmm _ Hinv)|split; [exact Ep|reflexivity]| |].
      * split_and!; [exact He|exact Ep|reflexivity|reflexivity].
      * intros t j Ht Hj. cbn [ram]. rewrite entry_store by assumption.
        destruct (Z.eqb_spec dir t) as [<-|]; [|reflexivity]. destruct (Z.eqb_spec d j) as [<-|]; reflexivity.
  - destruct (alloc_page_fresh (frames s) [] (vi_pmm _ Hinv)) as [(pt & p' & E & Hf & Hp')|[E Hall]].
    + right. destruct (fresh_frame_used _ _ _ Hf) as [(Hpal & _) Hpr]. change TOTAL_MEMORY with 16777216 in Hpr.
      destruct (new_pde_spec pt flags Hpal ltac:(lia) (proj1 Hfl)) as (Hn & Hn0 & Hnf & Hn1 & Hn2).
      destruct (fresh_apart _ _ _ _ Hf (proj1 (sp_dir _ _ Hsp))) as [Hne _].
      eexists _, pt, (new_pde pt flags), true. split.
      { vrun. fold e. rewrite Ep. cbn [negb]. vrun. rewrite E. destruct (Z.eqb_spec pt 0); [lia|]. vrun. cbn [negb].
        vrun. change (Z.lor (Z.lor (Z.lor pt PAGE_PRESENT) PAGE_WRITABLE) (Z.land flags PAGE_USER))
          with (new_pde pt flags). rewrite entry_store by assumption. rewrite !Z.eqb_refl. cbn [andb].
        change (Z.land (new_pde pt flags) PAGE_FRAME_MASK) with (PAGE_FRAME (new_pde pt flags)). rewrite Hnf. reflexivity. }
      split; [|by rewrite Hn2, orb_false_r].
      split; [split_and!; reflexivity|exact Hf|exact Hp'|split; [exact Ep|intros [=]]| |].
      * split_and!; [exact Hn|exact Hn0|exact Hnf|exact Hn1].
      * intros t j Ht Hj. cbn [ram]. rewrite !entry_store by assumption. rewrite entry_zero by assumption. reflexivity.
    + left. split; [|apply all_used_count; [apply (vi_pmm _ Hinv)|exact Hall]].
      vrun. fold e. rewrite Ep. cbn [negb]. vrun. rewrite E. vrun. cbn [negb]. vrun. by destruct s.
Qed.

Section mapped_in.
Context (s s' : vm) (dir d k pte T e' : Z) (fresh : bool).
Context (Hinv : vm_inv s) (Hsp : space s dir) (Hd : private d) (Hk : idx k) (Hpte : addr32 pte).
Context (Hm : mapped_in s s' dir d k pte T e' fresh).

Lemma mi_T : frame_used (frames s') T ∧ ¬ kernel_page s T ∧ T ≠ dir ∧
  (∀ t, frame_used (frames s) t → frame_used (frames s') t) ∧ (fresh = true → ∀ t, frame_used (frames s) t → T ≠ t).
Proof using Hinv Hsp Hd Hm.
  pose proof (mi_frames _ _ _ _ _ _ _ _ _ Hm) as Hf. destruct (mi_old _ _ _ _ _ _ _ _ _ Hm) as [Hold HT].
  destruct fresh; cbn [negb] in Hold.
  - destruct (fresh_frame_used _ _ _ Hf) as [Hu _]. split_and!; [exact Hu| | |..].
    + intros Hkp%(kernel_page_used s T Hinv). by destruct (fresh_apart _ _ _ _ Hf Hkp).
    + by destruct (fresh_apart _ _ _ _ Hf (proj1 (sp_dir _ _ Hsp))).
    + intros t Ht. by destruct (fresh_apart _ _ _ _ Hf Ht).
    + intros _ t Ht. by destruct (fresh_apart _ _ _ _ Hf Ht).
  - rewrite Hf. rewrite HT by reflexivity. destruct (sp_table _ _ Hsp d Hd Hold) as (H1 & H2 & H3).
    split_and!; [exact H1|exact H2|exact H3|auto|intros [=]].
Qed.

(** No entry of the kernel's tables changes. *)
Lemma mi_kernel_entry t j : kernel_page s t → idx j → entry (ram s') t j = entry (ram s) t j.
Proof using Hinv Hsp Hd Hm.
  intros Ht Hj. destruct mi_T as (_ & HTk & _). destruct (sp_dir _ _ Hsp) as [_ Hdk].
  rewrite (mi_entries _ _ _ _ _ _ _ _ _ Hm) by (exact Hj || apply (kernel_page_used s t Hinv Ht)).
  destruct (Z.eqb_spec T t); [congruence|]. destruct (Z.eqb_spec dir t); [congruence|].
  cbn [andb]. by rewrite andb_false_r.
Qed.

Lemma mi_kernel : vm_inv s' ∧ ∀ va, addr32 va → kwalk s' va = kwalk s va.
Proof using Hinv Hsp Hd Hm.
  destruct (mi_cpu _ _ _ _ _ _ _ _ _ Hm) as (Hkd & Htab & _). destruct mi_T as (_ & _ & _ & Hmono & _).
  apply kernel_framed; [exact Hinv|exact Hkd|exact Htab|apply (mi_pmm _ _ _ _ _ _ _ _ _ Hm)|..].
  - intros a Ha. apply Hmono, (kernel_page_used s a Hinv Ha).
  - exact mi_kernel_entry.
Qed.

(** Any other directory whose tables are its own is unaffected. *)
Lemma mi_other_entry t j :
  frame_used (frames s) t → t ≠ dir → t ≠ T → idx j → entry (ram s') t j = entry (ram s) t j.
Proof using Hinv Hsp Hd Hm.
  intros Ht Hnd HnT Hj. rewrite (mi_entries _ _ _ _ _ _ _ _ _ Hm) by (exact Hj || apply Ht).
  destruct (Z.eqb_spec T t); [congruence|]. destruct (Z.eqb_spec dir t); [congruence|].
  cbn [andb]. by rewrite andb_false_r.
Qed.

Lemma mi_dir_entry j : idx j → entry (ram s') dir j = if d =? j then e' else entry (ram s) dir j.
Proof using Hinv Hsp Hd Hm.
  intros Hj. destruct mi_T as (_ & _ & HTd & _). destruct (sp_dir _ _ Hsp) as [(Hdal & _) _].
  rewrite (mi_entries _ _ _ _ _ _ _ _ _ Hm) by assumption. destruct (Z.eqb_spec T dir); [congruence|].
  rewrite Z.eqb_refl. cbn [andb]. rewrite andb_false_r. by destruct (d =? j).
Qed.

(** The page table entry a walk ends at. *)
Definition pte_at (m : mem) (va : Z) : Z := entry m (PAGE_FRAME (entry m dir (PAGE_DIR_INDEX va))) (PAGE_TABLE_INDEX va).

(** Other pages keep their frame and their writable right; a page behind the
    same directory entry has the user right of its own entry. *)
Lemma mi_walk_other va :
  addr32 va → (PAGE_DIR_INDEX va =? d) && (PAGE_TABLE_INDEX va =? k) = false →
  hw_walk (ram s') dir va =
    (λ '(f, w, u), (f, w, if PAGE_DIR_INDEX va =? d then Z.testbit e' 2 && Z.testbit (pte_at (ram s) va) 2 else u)) <$>
    hw_walk (ram s) dir va.
Proof using Hinv Hsp Hd Hk Hpte Hm.
  intros Hva. unfold pte_at. rewrite !hw_walk_bits. cbv zeta.
  destruct (dir_index va Hva) as [-> Hd2], (table_index va) as [-> Ht2]. rewrite mi_dir_entry by exact Hd2.
  destruct mi_T as (HTu & HTk & HTd & Hmono & Hfr). destruct (mi_new _ _ _ _ _ _ _ _ _ Hm) as (_ & Hp' & Hf' & Hw').
  destruct (mi_old _ _ _ _ _ _ _ _ _ Hm) as [Hold HT]. rewrite (Z.eqb_sym _ d), (Z.eqb_sym _ k).
  rewrite present_bit in Hp', Hold. destruct (Z.eqb_spec d (va / 4194304)) as [<-|Hne]; cbn [andb].
  - intros Hk'. rewrite Hp', Hf', Hw'. rewrite (mi_entries _ _ _ _ _ _ _ _ _ Hm) by (exact Ht2 || apply HTu).
    rewrite Z.eqb_refl, Hk'. cbn [andb].
    destruct (Z.eqb_spec dir T); [congruence|]. cbn [andb]. rewrite andb_true_r, Hold.
    destruct fresh; cbn [negb orb]; [by rewrite Z.testbit_0_l|]. rewrite <- HT by reflexivity.
    by destruct (Z.testbit (entry (ram s) T ((va / 4096) mod 1024)) 0).
  - intros _. set (e := entry (ram s) dir (va / 4194304)) in *.
    destruct (Z.testbit e 0) eqn:E0; [|done]. rewrite <- present_bit in E0.
    assert (entry (ram s') (PAGE_FRAME e) ((va / 4096) mod 1024) = entry (ram s) (PAGE_FRAME e) ((va / 4096) mod 1024)) as ->.
    { assert (private (va / 4194304) ∨ 1 ≤ va / 4194304 < 4) as [Hpv|Hsh] by (unfold private; lia).
      - destruct (sp_table _ _ Hsp _ Hpv E0) as (Hu & _ & Hnd). fold e in Hu, Hnd.
        apply mi_other_entry; [exact Hu|exact Hnd| |exact Ht2]. intros Heq.
        destruct fresh eqn:Efr; [by apply (Hfr eq_refl _ Hu)|]. rewrite HT in Heq by reflexivity.
        apply Hne. apply (sp_inj _ _ Hsp); [exact Hd|exact Hpv| |exact E0|symmetry; exact Heq].
        rewrite present_bit. exact Hold.
      - apply mi_kernel_entry; [|exact Ht2]. exact (sp_shared _ _ Hsp _ Hsh E0). }
    by destruct (Z.testbit (entry (ram s) (PAGE_FRAME e) ((va / 4096) mod 1024)) 0).
Qed.

(** The walk in the changed directory. *)
Lemma mi_walk va :
  addr32 va →
  let w := hw_walk (ram s) dir va in
  let w' := hw_walk (ram s') dir va in
  if (PAGE_DIR_INDEX va =? d) && (PAGE_TABLE_INDEX va =? k) then
    w' = if present pte then
           Some (PAGE_FRAME pte, Z.testbit e' 1 && Z.testbit pte 1, Z.testbit e' 2 && Z.testbit pte 2)
         else None
  else match w, w' with
       | None, None => True
       | Some (f, _, _), Some (f', _, _) => f = f'
       | _, _ => False
       end.
Proof using Hinv Hsp Hd Hk Hpte Hm.
  intros Hva. cbv zeta. destruct (_ && _) eqn:Ex.
  - apply andb_true_iff in Ex as [Ed%Z.eqb_eq Ek%Z.eqb_eq]. rewrite !hw_walk_bits. cbv zeta. rewrite Ed, Ek.
    destruct mi_T as (HTu & _). destruct (mi_new _ _ _ _ _ _ _ _ _ Hm) as (_ & Hp' & Hf' & _).
    rewrite mi_dir_entry, Z.eqb_refl by (by apply private_idx). rewrite present_bit in Hp'. rewrite Hp', Hf'.
    rewrite (mi_entries _ _ _ _ _ _ _ _ _ Hm) by (exact Hk || apply HTu). rewrite !Z.eqb_refl. cbn [andb]. by rewrite present_bit.
  - rewrite mi_walk_other by done. by destruct (hw_walk (ram s) dir va) as [[[? ?] ?]|].
Qed.
End mapped_in.

(** ** Properties *)

(** Both outcomes of a clone, together. *)
Lemma clone_run s c :
  vm_inv s → present (entry (ram s) (kernel_directory s) 0) = true →
  (∃ s', paging_clone_directory (IO s c) = Some (0, IO s' c) ∧ frames s' = frames s ∧
     TOTAL_FRAMES ≤ used_frames (frames s) + 1 ∧ vm_inv s' ∧ (∀ va, addr32 va → kwalk s' va = kwalk s va) ∧
     (kernel_directory s' = kernel_directory s ∧ pd_tables s' = pd_tables s ∧ cr3 s' = cr3 s ∧
      pd_physical_address s' = pd_physical_address s) ∧
     ∀ t j, frame_used (frames s) t → idx j → entry (ram s') t j = entry (ram s) t j) ∨
  (∃ dir pt0 s', paging_clone_directory (IO s c) = Some (dir, IO s' c) ∧ dir ≠ 0 ∧ cloned s s' dir pt0).
Proof.
  intros Hinv Hpr. destruct (clone_kt0 s Hinv Hpr) as [(_ & Hkr & _) Htab].
  destruct (alloc_page_fresh (frames s) [] (vi_pmm _ Hinv)) as [(dir & p1 & E1 & Hf1 & Hp1)|[E1 Hall]].
  - destruct (fresh_frame_used _ _ _ Hf1) as [_ Hdr]. assert (dir ≠ 0) as Hd0 by lia.
    rewrite (clone_prefix s c dir p1 _ E1 Hd0 Htab) by lia. cbv zeta.
    destruct (alloc_page_fresh p1 [] Hp1) as [(pt0 & p2 & E2 & Hf2 & Hp2)|[E2 Hall]].
    + right. destruct (clone_done s c dir p1 pt0 p2 Hinv Hpr Hf1 E2 Hf2 Hp2) as (s' & E & Hcl). eauto 10.
    + left. destruct (clone_undone s c Hinv Hpr dir p1 Hf1 Hp1 E2) as (E & Hinv' & Hw).
      eexists. split; [exact E|]. split_and!; [reflexivity| |exact Hinv'|exact Hw|done..|].
      * apply all_used_count in Hall; [|apply Hp1]. rewrite (fp_count _ _ _ Hf1) in Hall. lia.
      * intros t j Ht Hj. cbn [ram set_frames]. rewrite (clone_s1 s dir p1 Hf1) by (done || apply Ht).
        destruct (fresh_apart _ _ _ _ Hf1 Ht) as [Hne _]. by destruct (Z.eqb_spec dir t).
  - left. exists s. apply all_used_count in Hall; [|apply (vi_pmm _ Hinv)].
    split_and!; [|reflexivity|lia|exact Hinv|done..].
    unfold paging_clone_directory. mstep (pmm_alloc_run s c _ _ E1). by destruct s.
Qed.

(** C6: [paging_clone_directory] gives a process the kernel's mapping without
    user access.  Either fewer than two frames are free, the result is [NULL]
    and the allocator is as before, or the new directory translates 0-4 MB as
    the kernel does but for the supervisor only, 4-16 MB exactly as the
    kernel does, and nothing above; the kernel's own translation of every
    address is unchanged in both cases. *)
Theorem paging_clone_isolated s c :
  vm_inv s → present (entry (ram s) (kernel_directory s) 0) = true →
  ∃ dir s', paging_clone_directory (IO s c) = Some (dir, IO s' c) ∧ vm_inv s' ∧
    (∀ va, addr32 va → kwalk s' va = kwalk s va) ∧
    ((dir = 0 ∧ frames s' = frames s ∧ TOTAL_FRAMES ≤ used_frames (frames s) + 1) ∨
     (dir ≠ 0 ∧ space s' dir ∧ used_frames (frames s') = used_frames (frames s) + 2 ∧
      ∀ va, addr32 va → hw_walk (ram s') dir va =
        if va <? 0x400000 then no_user (kwalk s va)
        else if va <? 0x1000000 then kwalk s va else None)).
Proof.
  intros Hinv Hpr. destruct (clone_run s c Hinv Hpr)
    as [(s' & E & Hfr & Hfull & Hinv' & Hw & _)|(dir & pt0 & s' & E & Hd & Hcl)].
  - exists 0, s'. split_and!; [exact E|exact Hinv'|exact Hw|]. left. auto.
  - exists dir, s'. destruct (cloned_kernel s s' dir pt0 Hinv Hcl) as [Hinv' Hw].
    split_and!; [exact E|exact Hinv'|exact Hw|]. right. split_and!; [exact Hd| | |].
    + exact (cloned_space s s' dir pt0 Hinv Hcl).
    + destruct (cl_p1 _ _ _ _ Hcl) as (p1 & Hf1 & Hf2). rewrite (fp_count _ _ _ Hf2), (fp_count _ _ _ Hf1). lia.
    + exact (cloned_walk s s' dir pt0 Hinv Hpr Hcl).
Qed.

(** creating an address space and freeing it again leaks nothing: the
    allocator is exactly as before and nothing is printed. *)
Theorem clone_free_restores s c dir t :
  vm_inv s → present (entry (ram s) (kernel_directory s) 0) = true →
  paging_clone_directory (IO s c) = Some (dir, t) → dir ≠ 0 →
  ∃ t', paging_free_directory dir t = Some ((), t') ∧ frames (st t') = frames s ∧ con t' = c.
Proof.
  intros Hinv Hpr E Hd. destruct (clone_run s c Hinv Hpr) as [(s' & E' & _)|(dir' & pt0 & s' & E' & _ & Hcl)];
    rewrite E in E'; injection E' as E1 ->; [contradiction|]. subst dir'.
  rewrite free_directory_frees by exact Hd. cbn [st]. rewrite (cloned_dir_frames s s' dir pt0 Hcl). cbn [frees].
  destruct (cloned_frames s s' dir pt0 Hcl) as ((p1 & Hf1 & Hf2) & _ & Hpu & _).
  rewrite bind_run. rewrite pmm_free_run; [|apply (cl_pmm _ _ _ _ Hcl)|exact Hpu].
  rewrite (unmark_fresh _ _ _ Hf2), bind_run.
  assert (pmm_wf p1) as Hwf1.
  { rewrite <- (unmark_fresh _ _ _ Hf2). apply unmark_wf; [apply (cl_pmm _ _ _ _ Hcl)| |apply Hpu].
    by apply (frame_used_frame _ _ Hpu). }
  rewrite pmm_free_run; [|exact Hwf1|exact (proj1 (fresh_frame_used _ _ _ Hf1))].
  eexists. split; [reflexivity|]. split; [|reflexivity]. exact (unmark_fresh _ _ _ Hf1).
Qed.

(** C7: Mapping a page into a process's directory is private to it.  For an
    address in the process's own part of the address space (below 4 MB or
    from 16 MB; in between lie the kernel's shared tables), either a message
    says that no frame is left for the page table and nothing changes, or the
    page translates to the requested frame with the requested user right, and
    is writable if requested and if the directory entry was absent or
    writable.  Every other page of the process keeps its frame and its
    writable right, and its user right too unless it lies behind the same
    directory entry and a user page was mapped: then its own entry decides.
    The kernel's translation of every address is unchanged, and so is every
    entry of every other frame that was in use. *)
Theorem paging_map_page_in_isolated s c dir virt phys flags :
  vm_inv s → space s dir → addr32 virt → addr32 phys → addr32 flags → private (PAGE_DIR_INDEX virt) →
  let pde := entry (ram s) dir (PAGE_DIR_INDEX virt) in
  (paging_map_page_in dir virt phys flags (IO s c) =
     Some ((), IO s (c ++ str "paging_map_page_in: out of memory for page table" ++ [10])) ∧
   used_frames (frames s) = TOTAL_FRAMES) ∨
  (∃ s' T, paging_map_page_in dir virt phys flags (IO s c) = Some ((), IO s' c) ∧ vm_inv s' ∧
     (∀ va, addr32 va → kwalk s' va = kwalk s va) ∧
     (∀ va, addr32 va → va / PAGE_SIZE = virt / PAGE_SIZE →
        hw_walk (ram s') dir va =
          Some (PAGE_FRAME phys, (negb (present pde) || Z.testbit pde 1) && Z.testbit flags 1, Z.testbit flags 2)) ∧
     (∀ va, addr32 va → va / PAGE_SIZE ≠ virt / PAGE_SIZE →
        hw_walk (ram s') dir va =
          (λ '(f, w, u), (f, w, if (PAGE_DIR_INDEX va =? PAGE_DIR_INDEX virt) && Z.testbit flags 2
                                then Z.testbit (pte_at dir (ram s) va) 2 else u)) <$> hw_walk (ram s) dir va) ∧
     (∀ t j, frame_used (frames s) t → t ≠ dir → t ≠ T → idx j → entry (ram s') t j = entry (ram s) t j)).
Proof.
  intros Hinv Hsp Hva Hph Hfl Hpriv pde.
  destruct (map_page_in_run s c dir virt phys flags Hinv Hsp Hva Hph Hfl Hpriv)
    as [?|(s' & T & e' & fresh & E & Hm & Huser)]; [by left|]. right. exists s', T. fold pde in Huser.
  destruct (pte_of_spec phys flags Hph (proj1 Hfl)) as (Hv & Hv0 & Hvf & Hvk).
  assert (idx (PAGE_TABLE_INDEX virt)) as Hk by (by destruct (table_index virt) as [-> ?]).
  destruct (mi_kernel _ _ _ _ _ _ _ _ _ Hinv Hsp Hpriv Hm) as [Hinv' Hw].
  destruct (mi_new _ _ _ _ _ _ _ _ _ Hm) as (_ & _ & _ & Hwr). destruct (mi_old _ _ _ _ _ _ _ _ _ Hm) as [Hold _]. fold pde in Hwr, Hold.
  split_and!; [exact E|exact Hinv'|exact Hw| | |].
  - intros va Hva2 Heq. pose proof (mi_walk _ _ _ _ _ _ _ _ _ Hinv Hsp Hpriv Hk Hv Hm va Hva2) as Hwalk. cbv zeta in Hwalk.
    rewrite page_eqb, Heq, Z.eqb_refl in Hwalk by assumption. rewrite Hv0, Hvf, !Hvk, Hwr, Huser in Hwalk by lia.
    rewrite Hwalk, Hold, negb_involutive. do 2 f_equal. destruct (Z.testbit flags 2); [done|by rewrite andb_false_r].
  - intros va Hva2 Hne. rewrite (mi_walk_other _ _ _ _ _ _ _ _ _ Hinv Hsp Hpriv Hk Hv Hm va Hva2);
      [|rewrite page_eqb by assumption; by apply Z.eqb_neq].
    rewrite hw_walk_bits. cbv zeta. destruct (Z.eqb_spec (PAGE_DIR_INDEX va) (PAGE_DIR_INDEX virt)) as [Ed|]; [|done]. cbn [andb].
    rewrite Huser. unfold pte_at. rewrite Ed. fold pde. rewrite present_bit in Hold. rewrite Hold.
    destruct fresh; [done|]. cbn [negb andb]. destruct (Z.testbit (entry (ram s) (PAGE_FRAME pde) _) 0); [|done].
    by destruct (Z.testbit flags 2).
  - exact (mi_other_entry _ _ _ _ _ _ _ _ _ Hinv Hsp Hpriv Hm).
Qed.

(** C14: [paging_free_directory] frees exactly what the directory owns: its
    private page tables, every frame mapped above 16 MB, and the directory;
    each is marked free once, no other frame changes, and nothing is printed. *)
Theorem paging_free_directory_exact s c dir :
  pmm_wf (frames s) → dir ≠ 0 →
  NoDup (dir_frames (ram s) dir) → Forall (frame_used (frames s)) (dir_frames (ram s) dir) →
  ∃ s', paging_free_directory dir (IO s c) = Some ((), IO s' c) ∧ pmm_wf (frames s') ∧ ram s' = ram s ∧
    ∀ g, is_frame g → used (frames s') g = used (frames s) g && negb (listed (dir_frames (ram s) dir) g).
Proof.
  intros Hwf Hd Hnd Hall. destruct (frees_run _ s c Hwf Hnd Hall) as (p' & E & Hwf' & Hu).
  exists (set_frames p' s). rewrite free_directory_frees by exact Hd. auto.
Qed.

(** ** Witnesses *)

Lemma boot_pde0 : present (entry (ram boot_vm) (kernel_directory boot_vm) 0) = true.
Proof.
  destruct boot_vm_facts as (_ & Hid & _). specialize (Hid 0 ltac:(unfold addr32; lia)).
  unfold kwalk, hw_walk in Hid. cbv zeta in Hid. change (PAGE_DIR_INDEX 0) with 0 in Hid.
  destruct (present (entry (ram boot_vm) (kernel_directory boot_vm) 0)); [reflexivity|discriminate Hid].
Qed.

(** A process's directory, cloned right after boot. *)
Lemma boot_clone :
  ∃ dir pt0 s', paging_clone_directory (IO boot_vm []) = Some (dir, IO s' []) ∧ dir ≠ 0 ∧ cloned boot_vm s' dir pt0.
Proof.
  destruct boot_vm_facts as (Hinv & _ & _ & _ & Hcnt).
  destruct (clone_run boot_vm [] Hinv boot_pde0) as [(s' & _ & _ & Hfull & _)|H]; [|exact H].
  exfalso. rewrite Hcnt in Hfull. revert Hfull. vm_compute. auto.
Qed.

Lemma paging_clone_isolated_witness :
  vm_inv boot_vm ∧ ∃ dir s', paging_clone_directory (IO boot_vm []) = Some (dir, IO s' []) ∧ vm_inv s'.
Proof.
  destruct boot_vm_facts as (Hinv & _). split; [exact Hinv|].
  destruct (paging_clone_isolated boot_vm [] Hinv boot_pde0) as (dir & s' & E & Hinv' & _).
  exists dir, s'. split; assumption.
Defined.

Lemma clone_free_restores_witness :
  ∃ dir t t', paging_clone_directory (IO boot_vm []) = Some (dir, t) ∧
    paging_free_directory dir t = Some ((), t') ∧ frames (st t') = frames boot_vm.
Proof.
  destruct boot_vm_facts as (Hinv & _). destruct boot_clone as (dir & pt0 & s' & E & Hd & _).
  destruct (clone_free_restores boot_vm [] dir _ Hinv boot_pde0 E Hd) as (t' & E' & Hfr & _).
  exists dir, (IO s' []), t'. split; [exact E|]. split; assumption.
Defined.

Lemma paging_map_page_in_isolated_witness :
  ∃ dir s, vm_inv s ∧ space s dir ∧ 
    ∃ t, paging_map_page_in dir USER_STACK_VIRT 0x300000 7 (IO s []) = Some ((), t).
Proof.
  destruct boot_vm_facts as (Hinv & _). destruct boot_clone as (dir & pt0 & s & E & Hd & Hcl).
  pose proof (proj1 (cloned_kernel _ _ _ _ Hinv Hcl)) as Hinv'. pose proof (cloned_space _ _ _ _ Hinv Hcl) as Hsp.
  exists dir, s. split; [exact Hinv'|]. split; [exact Hsp|].
  destruct (paging_map_page_in_isolated s [] dir USER_STACK_VIRT 0x300000 7 Hinv' Hsp)
    as [[H _]|(s' & T & H & _)]; [unfold addr32, USER_STACK_VIRT; lia..|right; vm_compute; split; congruence| |];
    eexists; exact H.
Defined.

Lemma paging_free_directory_exact_witness :
  ∃ dir s s', paging_free_directory dir (IO s []) = Some ((), IO s' []) ∧ pmm_wf (frames s').
Proof.
  destruct boot_vm_facts as (Hinv & _). destruct boot_clone as (dir & pt0 & s & E & Hd & Hcl).
  destruct (cloned_frames _ _ _ _ Hcl) as (_ & Hdu & Hpu & Hne & _).
  destruct (paging_free_directory_exact s [] dir) as (s' & H & Hwf & _);
    [apply (cl_pmm _ _ _ _ Hcl)|exact Hd|rewrite (cloned_dir_frames _ _ _ _ Hcl)..|].
  - constructor; [intros Hin%list_elem_of_singleton; exact (Hne (eq_sym Hin))|]. apply NoDup_singleton.
  - constructor; [exact Hpu|]. constructor; [exact Hdu|constructor].
  - exists dir, s, s'. split; assumption.
Defined.
