(* ===== verification/Sched.v ===== *)
(** * kernel/task/sched.c and switch.asm: the round-robin scheduler

    Task control blocks live in the static pool of task.c or are the boot
    task of sched.c; a [task_t*] is [NULL], the boot task or a pool slot.  The
    ready queue is the circular list through the [next] fields.  The processor
    is its callee-saved registers, stack pointer and program counter, the
    interrupt flag, the [esp0] field of the TSS and, in [vmem], CR3, the TLB
    and memory.  Dereferencing [NULL] has no defined outcome; the walks along
    the queue carry fuel, and the theorems show it is never exhausted. *)

From S2P Require Import Prelude KString KStdio Console Pmm Memory Paging.

Open Scope Z_scope.
Open Scope c_scope.

(** ** Data (task.h) *)

Definition TASK_KERNEL_STACK_SIZE : Z := 4096.
Definition TASK_NAME_MAX : Z := 32.
Definition TASK_MAX_TASKS : Z := 64.
Definition SCHED_TIME_SLICE : Z := 10.

Inductive task_state := TASK_READY | TASK_RUNNING | TASK_BLOCKED | TASK_DEAD.

#[export] Instance task_state_eq_dec : EqDecision task_state.
Proof. solve_decision. Defined.

Inductive ptr := PNull | PBoot | PSlot (i : nat).

#[export] Instance ptr_eq_dec : EqDecision ptr.
Proof. solve_decision. Defined.

Record task := Task {
  t_id : Z;
  t_name : list Z;
  t_state : task_state;
  t_esp : Z;
  t_esp0 : Z;
  t_kernel_stack : Z;
  t_user_stack : Z;
  t_user_stack_top : Z;
  t_is_user : Z;
  t_cr3 : Z;
  t_page_dir : Z;
  t_next : ptr
}.

(** [memset(t, 0, sizeof(task_t))]; [TASK_READY] is 0. *)
Definition zero_task : task := Task 0 (replicate 32 0) TASK_READY 0 0 0 0 0 0 0 0 PNull.

Definition set_state (x : task_state) (t : task) : task :=
  Task (t_id t) (t_name t) x (t_esp t) (t_esp0 t) (t_kernel_stack t) (t_user_stack t)
       (t_user_stack_top t) (t_is_user t) (t_cr3 t) (t_page_dir t) (t_next t).
Definition set_esp (x : Z) (t : task) : task :=
  Task (t_id t) (t_name t) (t_state t) x (t_esp0 t) (t_kernel_stack t) (t_user_stack t)
       (t_user_stack_top t) (t_is_user t) (t_cr3 t) (t_page_dir t) (t_next t).
Definition set_next (x : ptr) (t : task) : task :=
  Task (t_id t) (t_name t) (t_state t) (t_esp t) (t_esp0 t) (t_kernel_stack t) (t_user_stack t)
       (t_user_stack_top t) (t_is_user t) (t_cr3 t) (t_page_dir t) x.

(** ** State *)

Record cpu := Cpu { ebx : Z; esi : Z; edi : Z; ebp : Z; esp : Z; eip : Z }.

Record os := Os {
  vmem : vm;
  task_pool : list task;
  next_task_id : Z;
  boot_task : task;
  current_task : ptr;
  ready_head : ptr;
  scheduler_on : Z;
  slice_remaining : Z;
  tss_esp0 : Z;
  if_flag : bool;
  regs : cpu
}.

Definition set_vmem (v : vm) (s : os) : os :=
  Os v (task_pool s) (next_task_id s) (boot_task s) (current_task s) (ready_head s)
     (scheduler_on s) (slice_remaining s) (tss_esp0 s) (if_flag s) (regs s).
Definition set_pool (l : list task) (s : os) : os :=
  Os (vmem s) l (next_task_id s) (boot_task s) (current_task s) (ready_head s)
     (scheduler_on s) (slice_remaining s) (tss_esp0 s) (if_flag s) (regs s).
Definition set_task_id (n : Z) (s : os) : os :=
  Os (vmem s) (task_pool s) n (boot_task s) (current_task s) (ready_head s)
     (scheduler_on s) (slice_remaining s) (tss_esp0 s) (if_flag s) (regs s).
Definition set_boot (t : task) (s : os) : os :=
  Os (vmem s) (task_pool s) (next_task_id s) t (current_task s) (ready_head s)
     (scheduler_on s) (slice_remaining s) (tss_esp0 s) (if_flag s) (regs s).
Definition set_current (p : ptr) (s : os) : os :=
  Os (vmem s) (task_pool s) (next_task_id s) (boot_task s) p (ready_head s)
     (scheduler_on s) (slice_remaining s) (tss_esp0 s) (if_flag s) (regs s).
Definition set_head (p : ptr) (s : os) : os :=
  Os (vmem s) (task_pool s) (next_task_id s) (boot_task s) (current_task s) p
     (scheduler_on s) (slice_remaining s) (tss_esp0 s) (if_flag s) (regs s).
Definition set_on (x : Z) (s : os) : os :=
  Os (vmem s) (task_pool s) (next_task_id s) (boot_task s) (current_task s) (ready_head s)
     x (slice_remaining s) (tss_esp0 s) (if_flag s) (regs s).
Definition set_slice (x : Z) (s : os) : os :=
  Os (vmem s) (task_pool s) (next_task_id s) (boot_task s) (current_task s) (ready_head s)
     (scheduler_on s) x (tss_esp0 s) (if_flag s) (regs s).
Definition set_tss (x : Z) (s : os) : os :=
  Os (vmem s) (task_pool s) (next_task_id s) (boot_task s) (current_task s) (ready_head s)
     (scheduler_on s) (slice_remaining s) x (if_flag s) (regs s).
Definition set_if (b : bool) (s : os) : os :=
  Os (vmem s) (task_pool s) (next_task_id s) (boot_task s) (current_task s) (ready_head s)
     (scheduler_on s) (slice_remaining s) (tss_esp0 s) b (regs s).
Definition set_regs (r : cpu) (s : os) : os :=
  Os (vmem s) (task_pool s) (next_task_id s) (boot_task s) (current_task s) (ready_head s)
     (scheduler_on s) (slice_remaining s) (tss_esp0 s) (if_flag s) r.

Definition get_task (s : os) (p : ptr) : option task :=
  match p with
  | PNull => None
  | PBoot => Some (boot_task s)
  | PSlot i => task_pool s !! i
  end.

Definition put_task (p : ptr) (t : task) (s : os) : os :=
  match p with
  | PNull => s
  | PBoot => set_boot t s
  | PSlot i => set_pool (<[i := t]> (task_pool s)) s
  end.

(** [*p] and an assignment to a field of [*p]. *)
Definition deref (p : ptr) : M os task := s ← get; of_option (get_task s p).
Definition update (p : ptr) (f : task → task) : M os () :=
  t ← deref p; modify (put_task p (f t)).

Definition cli : M os () := modify (set_if false).
Definition sti : M os () := modify (set_if true).

(** ** Queue operations *)

Definition insert_after (after task : ptr) : M os () :=
  a ← deref after;
  update task (set_next (t_next a)) ;;
  update after (set_next task).

Definition runnable (x : task_state) : bool :=
  match x with TASK_READY | TASK_RUNNING => true | _ => false end.

(** Enough rounds for a circle of the pool's 64 tasks and the boot task. *)
Definition ring_fuel : nat := 66.

(** The [do ... while (t != start)] loop of [pick_next_ready]. *)
Fixpoint pick_loop (fuel : nat) (t start : ptr) : M os ptr :=
  match fuel with
  | O => fault
  | S f =>
      x ← deref t;
      if runnable (t_state x) then mret t
      else if bool_decide (t_next x = start) then s ← get; mret (current_task s)
      else pick_loop f (t_next x) start
  end.

Definition pick_next_ready : M os ptr :=
  s ← get;
  c ← deref (current_task s);
  pick_loop ring_fuel (t_next c) (t_next c).

(** ** The context switch *)

Definition push (v : Z) : M os () :=
  modify (λ s,
    let r := regs s in
    let sp := esp r -! 4 in
    set_regs (Cpu (ebx r) (esi r) (edi r) (ebp r) sp (eip r))
      (set_vmem (upd_ram (λ m, store32 m sp v) (vmem s)) s)).

Definition pop : M os Z :=
  s ← get;
  let r := regs s in
  modify (set_regs (Cpu (ebx r) (esi r) (edi r) (ebp r) (esp r +! 4) (eip r))) ;;
  mret (load32 (ram (vmem s)) (esp r)).

Definition upd_regs (f : cpu → cpu) : M os () := modify (λ s, set_regs (f (regs s)) s).

(** switch.asm, entered with [esp] at the return address; [*old_esp] is the
    field of the task switched out. *)
Definition task_switch (old : ptr) (new_esp : Z) : M os () :=
  s ← get;
  push (ebx (regs s)) ;;
  push (esi (regs s)) ;;
  push (edi (regs s)) ;;
  push (ebp (regs s)) ;;
  s ← get;
  update old (set_esp (esp (regs s))) ;;
  upd_regs (λ r, Cpu (ebx r) (esi r) (edi r) (ebp r) new_esp (eip r)) ;;
  v ← pop; upd_regs (λ r, Cpu (ebx r) (esi r) (edi r) v (esp r) (eip r)) ;;
  v ← pop; upd_regs (λ r, Cpu (ebx r) (esi r) v (ebp r) (esp r) (eip r)) ;;
  v ← pop; upd_regs (λ r, Cpu (ebx r) v (edi r) (ebp r) (esp r) (eip r)) ;;
  v ← pop; upd_regs (λ r, Cpu v (esi r) (edi r) (ebp r) (esp r) (eip r)) ;;
  v ← pop; upd_regs (λ r, Cpu (ebx r) (esi r) (edi r) (ebp r) (esp r) v).

Definition tss_set_kernel_stack (x : Z) : M os () := modify (set_tss x).

(** [cr3 ? cr3 : paging_get_kernel_cr3()] *)
Definition task_cr3 (s : os) (t : task) : Z :=
  if truth (t_cr3 t) then t_cr3 t else paging_get_kernel_cr3 (vmem s).

(** A write to CR3 drops the cached translations. *)
Definition write_cr3 (v : Z) (m : vm) : vm :=
  Vm (ram m) (frames m) (kernel_directory m) (pd_tables m) (pd_physical_address m)
     v (cr0 m) (pf_handler m) ∅.

(** Returns whether the processor has left the calling task: the rest of the
    caller then runs only when that task is switched to again. *)
Definition switch_to (next : ptr) : M os bool :=
  s ← get;
  if bool_decide (next = current_task s) then mret false
  else
    let prev := current_task s in
    p ← deref prev;
    (if bool_decide (t_state p = TASK_RUNNING) then update prev (set_state TASK_READY)
     else mret ()) ;;
    update next (set_state TASK_RUNNING) ;;
    modify (set_current next) ;;
    modify (set_slice SCHED_TIME_SLICE) ;;
    n ← deref next;
    tss_set_kernel_stack (t_esp0 n) ;;
    s ← get;
    p ← deref prev;
    (if bool_decide (task_cr3 s n = task_cr3 s p) then mret ()
     else modify (λ s, set_vmem (write_cr3 (task_cr3 s n) (vmem s)) s)) ;;
    task_switch prev (t_esp n) ;;
    mret true.

(** ** Public operations *)

Definition sched_init : M os () :=
  modify (set_boot (Task 0 (str "idle" ++ replicate 28 0) TASK_RUNNING 0 0 0 0 0 0 0 0 PBoot)) ;;
  modify (set_current PBoot) ;;
  modify (set_head PBoot) ;;
  modify (set_slice SCHED_TIME_SLICE) ;;
  modify (set_on 0).

Definition sched_enable : M os () := modify (set_on 1).
Definition sched_disable : M os () := modify (set_on 0).

(** [while (tail->next != ready_head) tail = tail->next;] *)
Fixpoint find_tail (fuel : nat) (tail : ptr) : M os ptr :=
  match fuel with
  | O => fault
  | S f =>
      x ← deref tail;
      s ← get;
      if bool_decide (t_next x = ready_head s) then mret tail else find_tail f (t_next x)
  end.

Definition sched_add_task (task : ptr) : M os () :=
  if bool_decide (task = PNull) then mret ()
  else
    cli ;;
    s ← get;
    (if bool_decide (ready_head s = PNull) then
       update task (set_next task) ;; modify (set_head task)
     else
       tail ← find_tail ring_fuel (ready_head s);
       insert_after tail task) ;;
    sti.

(** In [sched_yield] interrupts are enabled again when the caller goes on:
    at once if there is no other task, otherwise when it is resumed. *)
Definition sched_yield : M os () :=
  cli ;;
  next ← pick_next_ready;
  switched ← switch_to next;
  if switched : bool then mret () else sti.

Definition schedule : M os () :=
  s ← get;
  if scheduler_on s =? 0 then mret ()
  else
    (if slice_remaining s >? 0 then modify (set_slice (slice_remaining s - 1)) else mret ()) ;;
    s ← get;
    if slice_remaining s >? 0 then mret ()
    else
      next ← pick_next_ready;
      switch_to next ;;
      mret ().

Definition sched_get_current (s : os) : ptr := current_task s.
Definition sched_is_enabled (s : os) : Z := scheduler_on s.

(** The [do ... while (prev != start)] loop of [sched_remove_task]: find the
    predecessor and unlink. *)
Fixpoint unlink_loop (fuel : nat) (prev start task : ptr) : M os () :=
  match fuel with
  | O => fault
  | S f =>
      x ← deref prev;
      if bool_decide (t_next x = task) then
        t ← deref task;
        update prev (set_next (t_next t)) ;;
        s ← get;
        t ← deref task;
        (if bool_decide (ready_head s = task) then modify (set_head (t_next t)) else mret ()) ;;
        update task (set_next PNull)
      else if bool_decide (t_next x = start) then mret ()
      else unlink_loop f (t_next x) start task
  end.

Definition sched_remove_task (task : ptr) : M os () :=
  s ← get;
  if bool_decide (task = PNull) || bool_decide (ready_head s = PNull) then mret ()
  else if bool_decide (task = PBoot) then mret ()
  else
    cli ;;
    t ← deref task;
    (if bool_decide (t_next t = task) then
       modify (set_head PNull) ;; update task (set_next PNull)
     else unlink_loop ring_fuel (ready_head s) (ready_head s) task) ;;
    sti.

(** ** Facts on the task store *)

Lemma get_put s p q x t :
  get_task s p = Some x → get_task (put_task p t s) q = if decide (p = q) then Some t else get_task s q.
Proof.
  intros Hp. destruct p as [| |i]; [done| |]; destruct q as [| |j]; cbn [get_task put_task set_boot set_pool
    boot_task task_pool]; repeat case_decide; simplify_eq; try done.
  - cbn in Hp. apply list_lookup_insert_eq. by eapply lookup_lt_Some.
  - apply list_lookup_insert_ne. congruence.
Qed.

Lemma get_put_eq s p t y : get_task s p = Some y → get_task (put_task p t s) p = Some t.
Proof. intros E. rewrite (get_put _ _ _ _ _ E). by rewrite decide_True. Qed.

Lemma deref_run s p t : get_task s p = Some t → deref p s = Some (t, s).
Proof. intros E. unfold deref. rewrite bind_run. cbn [get]. by rewrite E. Qed.

Lemma update_run s p f t :
  get_task s p = Some t → update p f s = Some ((), put_task p (f t) s).
Proof. intros E. unfold update. mstep (deref_run _ _ _ E). done. Qed.

(** What the [next] fields say. *)
Definition nx (s : os) (p : ptr) : option ptr := t_next <$> get_task s p.

Lemma nx_get s p q : nx s p = Some q → ∃ t, get_task s p = Some t ∧ t_next t = q.
Proof. unfold nx. destruct (get_task s p) as [t|]; [|done]. intros [= <-]. by exists t. Qed.

(** [chain nx ps e]: following [next] from the head of [ps] runs through
    [ps] and arrives at [e]. *)
Fixpoint chain (n : ptr → option ptr) (ps : list ptr) (e : ptr) : Prop :=
  match ps with
  | [] => True
  | p :: ps' => n p = Some (hd e ps') ∧ chain n ps' e
  end.

Lemma chain_app n a b e : chain n (a ++ b) e ↔ chain n a (hd e b) ∧ chain n b e.
Proof.
  induction a as [|x a IH]; simpl; [tauto|]. rewrite IH.
  replace (hd e (a ++ b)) with (hd (hd e b) a) by (by destruct a). tauto.
Qed.

Lemma chain_ext n n' ps e : (∀ p, p ∈ ps → n p = n' p) → chain n ps e → chain n' ps e.
Proof.
  induction ps as [|p ps IH]; intros Heq; simpl; [done|]. intros [Hp Hc]. split.
  - rewrite <- Heq; [done|]. left.
  - apply IH; [|done]. intros q Hq. apply Heq. by right.
Qed.

(** A circle can be entered anywhere. *)
Lemma chain_rotate n a c b :
  chain n (a ++ c :: b) (hd c a) → chain n (b ++ a ++ [c]) (hd c (b ++ a)).
Proof.
  rewrite chain_app. cbn [hd chain]. intros (Ha & Hc & Hb).
  rewrite !chain_app. cbn [chain hd]. 
  assert (hd (hd c a) b = hd c (b ++ a)) as E by (by destruct b).
  split_and!; [|done| |done].
  - destruct a; exact Hb.
  - rewrite <- E. exact Hc.
Qed.

(** ** The ready queue *)

Definition pool_slot (p : ptr) : Prop := ∃ i, p = PSlot i ∧ (i < 64)%nat.

(** The queue is a circle through the boot task, its head, and the tasks
    [qs] in the order they were added. *)
Record queue (s : os) (qs : list ptr) : Prop := {
  queue_head : ready_head s = PBoot;
  queue_pool : length (task_pool s) = 64%nat;
  queue_chain : chain (nx s) (PBoot :: qs) PBoot;
  queue_nodup : NoDup qs;
  queue_slots : ∀ p, p ∈ qs → pool_slot p;
  queue_current : current_task s ∈ PBoot :: qs
}.

Lemma queue_ring_nodup s qs : queue s qs → NoDup (PBoot :: qs).
Proof.
  intros Hq. apply list.NoDup_cons. split; [|apply Hq].
  intros Hin. apply (queue_slots _ _ Hq) in Hin as (i & ? & _). done.
Qed.

Lemma queue_length s qs : queue s qs → (length qs ≤ 64)%nat.
Proof.
  intros Hq. transitivity (length (PSlot <$> seq 0 64)); [|by rewrite length_fmap, length_seq].
  apply NoDup_incl_length; [apply NoDup_ListNoDup, Hq|].
  intros p Hp. apply list_elem_of_In in Hp. apply (queue_slots _ _ Hq) in Hp as (i & -> & Hi).
  apply list_elem_of_In, list_elem_of_fmap. exists i. split; [done|]. apply elem_of_seq. lia.
Qed.

Lemma queue_get s qs p : queue s qs → p ∈ PBoot :: qs → ∃ t, get_task s p = Some t.
Proof.
  intros Hq Hp. apply list_elem_of_split in Hp as (a & b & E).
  pose proof (queue_chain _ _ Hq) as Hc. rewrite E, chain_app in Hc. destruct Hc as [_ [Hn _]].
  apply nx_get in Hn as (t & Ht & _). by exists t.
Qed.

(** Changes of fields other than [next], [current_task] inside the circle. *)
Lemma queue_keep s s' qs :
  queue s qs → ready_head s' = ready_head s → length (task_pool s') = length (task_pool s) →
  (∀ p, p ∈ PBoot :: qs → nx s' p = nx s p) → current_task s' ∈ PBoot :: qs → queue s' qs.
Proof.
  intros Hq Hh Hl Hn Hc. split; [|rewrite Hl| | | |done].
  - rewrite Hh. apply Hq.
  - apply Hq.
  - eapply chain_ext; [|apply Hq]. intros p Hp. by rewrite Hn.
  - apply Hq.
  - apply Hq.
Qed.

Lemma find_tail_run s tail l fuel :
  chain (nx s) (tail :: l) (ready_head s) → ready_head s ∉ l → (length l < fuel)%nat →
  find_tail fuel tail s = Some (List.last l tail, s).
Proof.
  revert tail l. induction fuel as [|f IH]; intros tail l Hc Hni Hf; [lia|].
  destruct Hc as [Hn Hc]. apply nx_get in Hn as (t & Ht & Hnx).
  cbn [find_tail]. mstep (deref_run _ _ _ Ht). rewrite bind_run. cbn [get]. rewrite Hnx.
  destruct l as [|x l].
  - simpl. by rewrite bool_decide_eq_true_2.
  - cbn [hd]. rewrite bool_decide_eq_false_2.
    + rewrite (IH x l); [|done| |simpl in Hf; lia].
      * do 2 f_equal. destruct l as [|y l]; [done|]. cbn [List.last].
        generalize y. clear. induction l as [|z l IH]; intros y; [done|]. apply IH.
      * intros Hin. apply Hni. by right.
    + intros ->. apply Hni. left.
Qed.

(** Appending [p] after the last node and before the head of a chain. *)
Lemma chain_snoc n n' ps z p e :
  chain n (ps ++ [z]) e → NoDup (ps ++ [z]) → p ∉ ps ++ [z] →
  n' z = Some p → n' p = Some e → (∀ q, q ≠ z → q ≠ p → n' q = n q) →
  chain n' ((ps ++ [z]) ++ [p]) e.
Proof.
  intros Hc Hnd Hp Hz He Hrest. rewrite !chain_app in *. cbn [hd chain] in *.
  destruct Hc as [Hc _]. split_and!; [|done|done|done|done].
  eapply chain_ext; [|exact Hc]. intros q Hq. symmetry. apply Hrest.
  - intros ->. apply list.NoDup_app in Hnd as (_ & Hd & _). apply (Hd z Hq). left.
  - intros ->. apply Hp. apply elem_of_app. by left.
Qed.

Lemma nx_put_next s p t q x :
  get_task s p = Some t → nx (put_task p (set_next x t) s) q = if decide (p = q) then Some x else nx s q.
Proof. intros E. unfold nx. rewrite (get_put _ _ _ _ _ E). by case_decide. Qed.

Lemma put_task_same s p t :
  ready_head (put_task p t s) = ready_head s ∧ current_task (put_task p t s) = current_task s ∧
  length (task_pool (put_task p t s)) = length (task_pool s) ∧ vmem (put_task p t s) = vmem s ∧
  regs (put_task p t s) = regs s ∧ slice_remaining (put_task p t s) = slice_remaining s ∧
  scheduler_on (put_task p t s) = scheduler_on s ∧ if_flag (put_task p t s) = if_flag s ∧
  next_task_id (put_task p t s) = next_task_id s ∧ tss_esp0 (put_task p t s) = tss_esp0 s.
Proof. destruct p; cbn; rewrite ?length_insert; done. Qed.

Lemma put_head s p t : ready_head (put_task p t s) = ready_head s.
Proof. apply put_task_same. Qed.
Lemma put_current s p t : current_task (put_task p t s) = current_task s.
Proof. apply put_task_same. Qed.
Lemma put_length s p t : length (task_pool (put_task p t s)) = length (task_pool s).
Proof. apply put_task_same. Qed.
Lemma put_vmem s p t : vmem (put_task p t s) = vmem s.
Proof. apply put_task_same. Qed.
Lemma put_regs s p t : regs (put_task p t s) = regs s.
Proof. apply put_task_same. Qed.
Lemma put_slice s p t : slice_remaining (put_task p t s) = slice_remaining s.
Proof. apply put_task_same. Qed.
Lemma put_on s p t : scheduler_on (put_task p t s) = scheduler_on s.
Proof. apply put_task_same. Qed.
Lemma put_if s p t : if_flag (put_task p t s) = if_flag s.
Proof. apply put_task_same. Qed.
Lemma put_id s p t : next_task_id (put_task p t s) = next_task_id s.
Proof. apply put_task_same. Qed.
Lemma put_tss s p t : tss_esp0 (put_task p t s) = tss_esp0 s.
Proof. apply put_task_same. Qed.

Create Rewrite HintDb tstore.
#[export] Hint Rewrite put_head put_current put_length put_vmem put_regs put_slice put_on put_if put_id
  put_tss : tstore.

(** [sched_add_task] of a task outside the queue puts it at the end. *)
Lemma insert_after_run s a p ta tp :
  get_task s a = Some ta → get_task s p = Some tp → a ≠ p →
  ∃ s', insert_after a p s = Some ((), s') ∧
    s' = put_task a (set_next p ta) (put_task p (set_next (t_next ta) tp) s) ∧
    (∀ q, nx s' q = if decide (a = q) then Some p else if decide (p = q) then Some (t_next ta) else nx s q).
Proof.
  intros Ea Ep Hne. eexists. unfold insert_after. mstep (deref_run _ _ _ Ea).
  mstep (update_run _ _ (set_next (t_next ta)) _ Ep).
  assert (get_task (put_task p (set_next (t_next ta) tp) s) a = Some ta) as Ea'.
  { rewrite (get_put _ _ _ _ _ Ep). by case_decide. }
  rewrite (update_run _ _ _ _ Ea'). split_and!; [done|done|]. intros q.
  rewrite (nx_put_next _ _ _ _ _ Ea'). case_decide; [done|]. apply (nx_put_next _ _ _ _ _ Ep).
Qed.

Lemma last_split (x : ptr) l : ∃ ps, x :: l = ps ++ [List.last l x].
Proof.
  destruct l as [|y l _] using rev_ind; [by exists []|].
  exists (x :: l). by rewrite last_last.
Qed.

(** The part of the state the queue operations leave alone. *)
Definition same_machine (s s' : os) : Prop :=
  vmem s' = vmem s ∧ current_task s' = current_task s ∧ regs s' = regs s ∧
  slice_remaining s' = slice_remaining s ∧ scheduler_on s' = scheduler_on s ∧
  next_task_id s' = next_task_id s ∧ tss_esp0 s' = tss_esp0 s.

(** Two states whose tasks differ only in the links of the tasks [ps]. *)
Definition same_tasks (ps : list ptr) (s s' : os) : Prop :=
  ∀ p, set_next PNull <$> get_task s' p = set_next PNull <$> get_task s p ∧
       (p ∉ ps → get_task s' p = get_task s p).

#[export] Instance same_tasks_trans ps : Transitive (same_tasks ps).
Proof.
  intros a b c H1 H2 p. destruct (H1 p) as [Ha Ha'], (H2 p) as [Hb Hb']. split; [by rewrite Hb, Ha|].
  intros Hp. by rewrite Hb', Ha'.
Qed.

Lemma same_tasks_put_next ps s p t x :
  p ∈ ps → get_task s p = Some t → same_tasks ps s (put_task p (set_next x t) s).
Proof.
  intros Hp E q. rewrite (get_put _ _ _ _ _ E). case_decide as Hd; [|done]. subst q. by rewrite E.
Qed.

Lemma same_machine_put s p t : same_machine s (put_task p t s).
Proof. destruct p; done. Qed.

#[export] Instance same_machine_trans : Transitive same_machine.
Proof. intros a b c (?&?&?&?&?&?&?) (?&?&?&?&?&?&?). unfold same_machine. split_and!; congruence. Qed.

(** The queue after its last node has been linked to [p] and [p] to the head. *)
Lemma queue_snoc s s' qs p :
  queue s qs → pool_slot p → p ∉ qs → same_machine s s' → ready_head s' = ready_head s →
  length (task_pool s') = length (task_pool s) →
  (∀ q, nx s' q = if decide (List.last qs PBoot = q) then Some p
                  else if decide (p = q) then Some PBoot else nx s q) →
  queue s' (qs ++ [p]).
Proof.
  intros Hq Hp Hni Hm Hh Hl Hn. pose proof (queue_ring_nodup _ _ Hq) as Hnd.
  destruct (last_split PBoot qs) as (ps & Eps). set (z := List.last qs PBoot) in *.
  assert (p ∉ PBoot :: qs) as Hni'.
  { intros [->|?]%elem_of_cons; [|done]. by destruct Hp as (i & ? & _). }
  assert (z ≠ p). { intros E. apply Hni'. rewrite Eps, E. apply elem_of_app. right. left. }
  split.
  - rewrite Hh. apply Hq.
  - rewrite Hl. apply Hq.
  - rewrite app_comm_cons, Eps. apply (chain_snoc (nx s)); try (by rewrite <- Eps).
    + rewrite <- Eps. apply Hq.
    + rewrite Hn. by case_decide.
    + rewrite Hn. repeat case_decide; congruence.
    + intros q Hqz Hqp. rewrite Hn. repeat case_decide; congruence.
  - apply list.NoDup_app. split_and!; [apply Hq| |apply NoDup_singleton].
    intros q Hqq ->%list_elem_of_singleton. done.
  - intros q [Hqq| ->%list_elem_of_singleton]%elem_of_app; [by apply Hq|done].
  - destruct Hm as (_ & -> & _). rewrite app_comm_cons. apply elem_of_app. left. apply Hq.
Qed.

Lemma queue_tail s qs : queue s qs → ∃ t, get_task s (List.last qs PBoot) = Some t ∧ t_next t = PBoot.
Proof.
  intros Hq. apply nx_get. destruct (last_split PBoot qs) as (ps & Eps).
  pose proof (queue_chain _ _ Hq) as Hc. rewrite Eps, chain_app in Hc. apply Hc.
Qed.

Lemma queue_tail_ne s qs p : queue s qs → pool_slot p → p ∉ qs → List.last qs PBoot ≠ p.
Proof.
  intros Hq (i & -> & _) Hni E. destruct (last_split PBoot qs) as (ps & Eps).
  assert (PSlot i ∈ PBoot :: qs) as Hin by (rewrite Eps, E; apply elem_of_app; right; left).
  apply elem_of_cons in Hin as [?|?]; done.
Qed.

Lemma sched_add_task_run s qs p t :
  queue s qs → pool_slot p → p ∉ qs → get_task s p = Some t →
  ∃ s', sched_add_task p s = Some ((), s') ∧ queue s' (qs ++ [p]) ∧ same_machine s s' ∧
        same_tasks (PBoot :: qs ++ [p]) s s' ∧ if_flag s' = true.
Proof.
  intros Hq Hp Hni Ht. pose proof (queue_length _ _ Hq) as Hlen.
  pose proof (queue_ring_nodup _ _ Hq) as Hnd. apply list.NoDup_cons in Hnd as [Hnb _].
  pose proof (queue_tail_ne _ _ _ Hq Hp Hni) as Hz. destruct (queue_tail _ _ Hq) as (tz & Etz & Hnz).
  unfold sched_add_task. rewrite bool_decide_eq_false_2 by (by destruct Hp as (i & -> & _)).
  rewrite bind_run. cbn [cli modify]. rewrite bind_run. cbn [get].
  set (s0 := set_if false s). change (ready_head s0) with (ready_head s). rewrite (queue_head _ _ Hq).
  rewrite bool_decide_eq_false_2 by done. rewrite bind_run, bind_run.
  pose proof (find_tail_run s0 PBoot qs ring_fuel) as Ef.
  change (ready_head s0) with (ready_head s) in Ef. rewrite (queue_head _ _ Hq) in Ef.
  rewrite Ef; [clear Ef|apply Hq|done|unfold ring_fuel; lia].
  destruct (insert_after_run s0 _ p tz t Etz Ht Hz) as (s1 & -> & Hs1 & Hn1).
  cbn [sti modify]. eexists. split; [reflexivity|].
  destruct (put_task_same s0 p (set_next (t_next tz) t)) as (Hh0 & _ & Hl0 & _).
  destruct (put_task_same (put_task p (set_next (t_next tz) t) s0) (List.last qs PBoot) (set_next p tz))
    as (Hh1 & _ & Hl1 & _).
  assert (same_machine s s1) as Hm.
  { subst s1. etransitivity; [|apply same_machine_put]. etransitivity; [|apply same_machine_put]. done. }
  split_and!; [|done| |done].
  - apply (queue_snoc s); try done; cbn [ready_head task_pool set_if]; subst s1.
    + by rewrite Hh1, Hh0.
    + by rewrite Hl1, Hl0.
    + intros q. rewrite Hnz in *. apply Hn1.
  - subst s1. etransitivity; [apply (same_tasks_put_next _ s0 p t (t_next tz)); [|exact Ht]|].
    { right. apply elem_of_app. right. left. }
    apply same_tasks_put_next.
    + destruct (last_split PBoot qs) as (ps & Eps). rewrite app_comm_cons, Eps, !elem_of_app. left. right. left.
    + rewrite (get_put s0 _ _ _ _ Ht). case_decide; [congruence|exact Etz].
Qed.

Lemma last_cons_last (x y : ptr) l : List.last (y :: l) x = List.last l y.
Proof.
  destruct l as [|z l]; [done|]. cbn [List.last]. generalize z. clear z.
  induction l as [|w l IH]; intros z; [done|]. apply IH.
Qed.

(** The walk of [sched_remove_task] up to the predecessor of [p]. *)
Lemma unlink_loop_run s start p tp prev l1 l2 e fuel :
  chain (nx s) (prev :: l1 ++ p :: l2) e → p ∉ l1 → start ∉ l1 → p ≠ start → ready_head s ≠ p → prev ≠ p →
  get_task s p = Some tp → (length l1 < fuel)%nat →
  ∃ tz, get_task s (List.last l1 prev) = Some tz ∧ List.last l1 prev ≠ p ∧
    unlink_loop fuel prev start p s =
      Some ((), put_task p (set_next PNull tp) (put_task (List.last l1 prev) (set_next (t_next tp) tz) s)).
Proof.
  revert prev l1. induction fuel as [|f IH]; intros prev l1 Hc Hp Hst Hps Hh Hpp Ht Hf; [lia|].
  destruct Hc as [Hn Hc]. apply nx_get in Hn as (t & Et & Hnx).
  cbn [unlink_loop]. rewrite (bind_Some _ _ _ _ _ (deref_run _ _ _ Et)), Hnx.
  destruct l1 as [|x l1].
  - exists t. split_and!; [done|done|]. cbn [hd app List.last]. rewrite bool_decide_eq_true_2 by done.
    mstep (deref_run _ _ _ Ht). mstep (update_run _ _ (set_next (t_next tp)) _ Et).
    rewrite bind_run. cbn [get].
    assert (get_task (put_task prev (set_next (t_next tp) t) s) p = Some tp) as Ht'.
    { rewrite (get_put _ _ _ _ _ Et). by case_decide. }
    mstep (deref_run _ _ _ Ht'). rewrite (proj1 (put_task_same _ _ _)), bool_decide_eq_false_2 by done.
    rewrite bind_run. apply (update_run _ _ _ _ Ht').
  - cbn [hd app] in *. apply not_elem_of_cons in Hp as [Hpx Hp]. apply not_elem_of_cons in Hst as [Hsx Hst].
    rewrite !bool_decide_eq_false_2 by done.
    destruct (IH x l1) as (tz & E1 & E2 & E3); [done..|simpl in Hf; lia|].
    exists tz. by rewrite last_cons_last.
Qed.

(** Unlinking [p] from a chain. *)
Lemma chain_unlink n n' a p b e :
  chain n (a ++ p :: b) e → NoDup (a ++ p :: b) → a ≠ [] →
  n' (List.last a p) = Some (hd e b) → (∀ q, q ≠ p → List.last a p ≠ q → n' q = n q) →
  chain n' (a ++ b) e.
Proof.
  intros Hc Hnd Ha Hz Hrest. destruct a as [|z a _] using rev_ind; [done|].
  rewrite last_last in *. rewrite <- app_assoc in *. cbn [app] in *.
  rewrite chain_app in *. cbn [chain hd] in *. destruct Hc as (Hc & _ & _ & Hb).
  apply list.NoDup_app in Hnd as (Hnd1 & Hd & Hnd2).
  apply list.NoDup_cons in Hnd2 as [Hzn Hnd2]. apply list.NoDup_cons in Hnd2 as [Hpn _].
  split_and!; [|done|].
  - eapply chain_ext; [|exact Hc]. intros q Hq. symmetry. apply Hrest.
    + intros ->. apply (Hd p Hq). right. left.
    + intros <-. apply (Hd z Hq). left.
  - eapply chain_ext; [|exact Hb]. intros q Hq. symmetry. apply Hrest.
    + intros ->. done.
    + intros <-. apply Hzn. by right.
Qed.

(** What the queue says of a task in the middle of it. *)
Lemma queue_mid s l1 p l2 :
  queue s (l1 ++ p :: l2) →
  (p ∉ l1) ∧ (PBoot ∉ l1) ∧ p ≠ PBoot ∧ p ≠ PNull ∧ (length l1 < ring_fuel)%nat ∧
  ∃ tp, get_task s p = Some tp ∧ t_next tp = hd PBoot l2 ∧ t_next tp ≠ p.
Proof.
  intros Hq. pose proof (queue_length _ _ Hq) as Hlen. pose proof (queue_ring_nodup _ _ Hq) as Hnd.
  pose proof (queue_chain _ _ Hq) as Hc. rewrite app_comm_cons, chain_app in Hc. destruct Hc as [_ [Hn _]].
  apply nx_get in Hn as (tp & Htp & Hnx). rewrite length_app in Hlen. simpl in Hlen.
  pose proof (queue_slots _ _ Hq p ltac:(apply elem_of_app; right; left)) as (i & Ei & _).
  apply list.NoDup_cons in Hnd as [Hbn Hnd]. apply list.NoDup_app in Hnd as (_ & Hd & Hnd).
  apply list.NoDup_cons in Hnd as [Hpn _].
  split_and!.
  - intros H1. apply (Hd p H1). left.
  - intros H1. apply Hbn, elem_of_app. by left.
  - by subst.
  - by subst.
  - unfold ring_fuel. lia.
  - exists tp. split_and!; [done|done|]. rewrite Hnx. destruct l2 as [|x l2]; [by subst|]. cbn [hd].
    intros ->. apply Hpn. left.
Qed.

(** The queue after [p] has been unlinked. *)
Lemma queue_unlink s s' l1 p l2 :
  queue s (l1 ++ p :: l2) → current_task s ≠ p → same_machine s s' → ready_head s' = ready_head s →
  length (task_pool s') = length (task_pool s) →
  (∀ q, nx s' q = if decide (p = q) then Some PNull
                  else if decide (List.last l1 PBoot = q) then Some (hd PBoot l2) else nx s q) →
  List.last l1 PBoot ≠ p → queue s' (l1 ++ l2).
Proof.
  intros Hq Hcur Hm Hh Hl Hn Hz.
  assert (∀ q, q ∈ l1 ++ l2 → q ∈ l1 ++ p :: l2) as Hsub.
  { intros q. rewrite !elem_of_app, elem_of_cons. tauto. }
  split.
  - rewrite Hh. apply Hq.
  - rewrite Hl. apply Hq.
  - rewrite app_comm_cons. eapply (chain_unlink (nx s) _ (PBoot :: l1) p).
    + apply Hq.
    + apply (queue_ring_nodup _ _ Hq).
    + done.
    + rewrite last_cons_last, Hn. case_decide; [congruence|]. by case_decide.
    + intros q Hqp Hzq. rewrite last_cons_last in Hzq. rewrite Hn. repeat case_decide; congruence.
  - pose proof (queue_nodup _ _ Hq) as Hnd. apply list.NoDup_app in Hnd as (H1 & Hd & H2).
    apply list.NoDup_app. split_and!; [done| |by apply list.NoDup_cons in H2 as [_ ?]].
    intros q Hq1 Hq2. apply (Hd q Hq1). by right.
  - intros q Hqq. apply Hq, Hsub, Hqq.
  - destruct Hm as (_ & Ec & _). rewrite Ec. pose proof (queue_current _ _ Hq) as Hc.
    rewrite elem_of_cons, elem_of_app, elem_of_cons in Hc. rewrite elem_of_cons, elem_of_app. tauto.
Qed.

(** [sched_remove_task] of a queued task other than the running one. *)
Lemma sched_remove_task_run s l1 p l2 :
  queue s (l1 ++ p :: l2) → current_task s ≠ p →
  ∃ s', sched_remove_task p s = Some ((), s') ∧ queue s' (l1 ++ l2) ∧ same_machine s s' ∧
        same_tasks (PBoot :: l1 ++ p :: l2) s s' ∧ get_task s' p = set_next PNull <$> get_task s p ∧
        if_flag s' = true.
Proof.
  intros Hq Hcur. destruct (queue_mid _ _ _ _ Hq) as (Hp1 & Hb1 & Hnb & Hnn & Hf & tp & Htp & Hnx & Hself).
  unfold sched_remove_task. rewrite bind_run. cbn [get]. rewrite (queue_head _ _ Hq).
  rewrite !bool_decide_eq_false_2 by done. cbn [orb]. rewrite bind_run. cbn [cli modify].
  set (s0 := set_if false s). rewrite (bind_Some _ _ _ _ _ (deref_run s0 _ _ Htp)).
  rewrite bool_decide_eq_false_2 by done. rewrite bind_run.
  destruct (unlink_loop_run s0 PBoot p tp PBoot l1 l2 PBoot ring_fuel) as (tz & Etz & Hzp & ->); try done.
  { apply (queue_chain _ _ Hq). }
  { cbn [ready_head set_if s0]. rewrite (queue_head _ _ Hq). congruence. }
  cbn [sti modify]. set (z := List.last l1 PBoot) in *. eexists. split; [reflexivity|].
  set (s1 := put_task z (set_next (t_next tp) tz) s0).
  assert (get_task s1 p = Some tp) as Htp1.
  { unfold s1. rewrite (get_put s0 _ _ _ _ Etz). case_decide; [congruence|exact Htp]. }
  destruct (put_task_same s0 z (set_next (t_next tp) tz)) as (Hh0 & _ & Hl0 & _).
  destruct (put_task_same s1 p (set_next PNull tp)) as (Hh1 & _ & Hl1 & _).
  assert (same_machine s (put_task p (set_next PNull tp) s1)) as Hm.
  { etransitivity; [|apply same_machine_put]. etransitivity; [|apply same_machine_put]. done. }
  split_and!; [|done| | |done].
  - apply (queue_unlink s _ l1 p l2); try done; cbn [ready_head task_pool set_if].
    + exact (eq_trans Hh1 Hh0).
    + exact (eq_trans Hl1 Hl0).
    + intros q. rewrite <- Hnx. change (nx (put_task p (set_next PNull tp) s1) q = if decide (p = q) then Some PNull
        else if decide (z = q) then Some (t_next tp) else nx s q).
      rewrite (nx_put_next _ _ _ _ _ Htp1). case_decide; [done|].
      unfold s1. by rewrite (nx_put_next s0 _ _ _ _ Etz).
  - etransitivity; [apply (same_tasks_put_next _ s0 z tz (t_next tp)); [|exact Etz]|].
    { destruct (last_split PBoot l1) as (ps & Eps). rewrite app_comm_cons, Eps, !elem_of_app. left. right. left. }
    apply (same_tasks_put_next _ s1); [|exact Htp1]. rewrite app_comm_cons, elem_of_app. right. left.
  - rewrite Htp. exact (get_put_eq s1 p _ _ Htp1).
Qed.

(** ** Choosing the next task *)

Definition runnable_at (s : os) (p : ptr) : bool :=
  match get_task s p with Some t => runnable (t_state t) | None => false end.

Lemma pick_loop_run s t l start fuel :
  chain (nx s) (t :: l) start → start ∉ l → (length l < fuel)%nat →
  pick_loop fuel t start s = Some (default (current_task s) (List.find (runnable_at s) (t :: l)), s).
Proof.
  revert t l. induction fuel as [|f IH]; intros t l Hc Hst Hf; [lia|].
  destruct Hc as [Hn Hc]. apply nx_get in Hn as (x & Ex & Hnx).
  cbn [pick_loop List.find]. mstep (deref_run _ _ _ Ex). unfold runnable_at at 1. rewrite Ex, Hnx.
  destruct (runnable (t_state x)); [done|]. destruct l as [|y l].
  - cbn [hd]. by rewrite bool_decide_eq_true_2.
  - cbn [hd]. apply not_elem_of_cons in Hst as [Hsy Hst].
    rewrite bool_decide_eq_false_2 by done. apply IH; [done|done|simpl in Hf; lia].
Qed.

(** The tasks in the order in which the scheduler looks at them, when the
    circle is [a ++ c :: b] and [c] is running. *)
Lemma pick_next_ready_run s qs a c b :
  queue s qs → current_task s = c → PBoot :: qs = a ++ c :: b →
  pick_next_ready s = Some (default c (List.find (runnable_at s) (b ++ a ++ [c])), s).
Proof.
  intros Hq Hc E. pose proof (queue_chain _ _ Hq) as Hch. rewrite E in Hch.
  replace PBoot with (hd c a) in Hch by (destruct a; injection E; auto).
  pose proof (chain_rotate _ _ _ _ Hch) as Hrot.
  destruct (queue_get _ _ c Hq) as (t & Et); [rewrite E; apply elem_of_app; right; left|].
  assert (t_next t = hd c (b ++ a)) as Hnx.
  { rewrite !chain_app in Hch. destruct Hch as (_ & Hn & _). unfold nx in Hn. rewrite Et in Hn.
    injection Hn as ->. destruct b; [|done]. by destruct a. }
  unfold pick_next_ready. rewrite bind_run. cbn [get]. rewrite Hc. mstep (deref_run _ _ _ Et). rewrite Hnx.
  pose proof (queue_ring_nodup _ _ Hq) as Hnd. rewrite E in Hnd.
  pose proof (queue_length _ _ Hq) as Hlen. apply (f_equal length) in E.
  rewrite length_app in E. cbn [length] in E.
  rewrite app_assoc in Hrot |- *. destruct (b ++ a) as [|x w] eqn:Ew; cbn [hd app] in *.
  - rewrite (pick_loop_run _ c []); [by rewrite Hc|done|apply not_elem_of_nil|unfold ring_fuel; simpl; lia].
  - assert (length (b ++ a) = S (length w)) as Hw by (by rewrite Ew). rewrite length_app in Hw.
    rewrite (pick_loop_run _ x (w ++ [c])); [by rewrite Hc|done| |rewrite length_app; unfold ring_fuel; simpl; lia].
    assert (NoDup (x :: w ++ [c])) as Hnd'; [|by apply list.NoDup_cons in Hnd' as [? _]].
    change (x :: w ++ [c]) with ((x :: w) ++ [c]). rewrite <- Ew.
    eapply NoDup_Permutation_proper; [|exact Hnd]. rewrite <- app_assoc. solve_Permutation.
Qed.

(** ** The context switch *)

(** Memory after the four pushes, the stack pointer they leave, and the
    registers that four pops and a [ret] load from a stack. *)
Definition saved_esp (r : cpu) : Z := esp r -! 4 -! 4 -! 4 -! 4.
Definition save_frame (r : cpu) (m : mem) : mem :=
  store32 (store32 (store32 (store32 m (esp r -! 4) (ebx r)) (esp r -! 4 -! 4) (esi r))
    (esp r -! 4 -! 4 -! 4) (edi r)) (saved_esp r) (ebp r).
Definition load_frame (m : mem) (sp : Z) : cpu :=
  Cpu (load32 m (sp +! 4 +! 4 +! 4)) (load32 m (sp +! 4 +! 4)) (load32 m (sp +! 4)) (load32 m sp)
      (sp +! 4 +! 4 +! 4 +! 4 +! 4) (load32 m (sp +! 4 +! 4 +! 4 +! 4)).

#[global] Opaque load32 store32.

(** The state [s] with other registers and memory. *)
Definition with_cpu (r : cpu) (m : mem) (s : os) : os :=
  set_regs r (set_vmem (upd_ram (λ _, m) (vmem s)) s).

Lemma with_cpu_id s : with_cpu (regs s) (ram (vmem s)) s = s.
Proof. by destruct s as [[] ? ? ? ? ? ? ? ? ? []]. Qed.

Lemma ram_with_cpu r m s : ram (vmem (with_cpu r m s)) = m.
Proof. reflexivity. Qed.

Lemma regs_with_cpu r m s : regs (with_cpu r m s) = r.
Proof. reflexivity. Qed.

Lemma push_run v r m s :
  push v (with_cpu r m s) =
  Some ((), with_cpu (Cpu (ebx r) (esi r) (edi r) (ebp r) (esp r -! 4) (eip r)) (store32 m (esp r -! 4) v) s).
Proof. reflexivity. Qed.

Lemma pop_run r m s :
  pop (with_cpu r m s) =
  Some (load32 m (esp r), with_cpu (Cpu (ebx r) (esi r) (edi r) (ebp r) (esp r +! 4) (eip r)) m s).
Proof. reflexivity. Qed.

Lemma upd_regs_run f r m s : upd_regs f (with_cpu r m s) = Some ((), with_cpu (f r) m s).
Proof. reflexivity. Qed.

Lemma update_with_cpu p f t r m s :
  get_task s p = Some t → update p f (with_cpu r m s) = Some ((), with_cpu r m (put_task p (f t) s)).
Proof. intros E. rewrite (update_run _ _ f t); [|by destruct p]. by destruct p. Qed.

Lemma task_switch_run s old t new_esp :
  get_task s old = Some t →
  task_switch old new_esp s =
  Some ((), with_cpu (load_frame (save_frame (regs s) (ram (vmem s))) new_esp)
    (save_frame (regs s) (ram (vmem s))) (put_task old (set_esp (saved_esp (regs s)) t) s)).
Proof.
  intros Ht. unfold task_switch. rewrite bind_run. cbn [get].
  set (r := regs s). set (m := ram (vmem s)).
  match goal with |- ?f s = _ => rewrite <- (with_cpu_id s : with_cpu r m s = s) at 1 end.
  do 4 (rewrite (bind_Some _ _ _ _ _ (push_run _ _ _ _)); cbn [ebx esi edi ebp esp eip]).
  rewrite bind_run. cbn [get]. erewrite bind_Some by exact (update_with_cpu _ _ _ _ _ _ Ht).
  rewrite (bind_Some _ _ _ _ _ (upd_regs_run _ _ _ _)). cbn [ebx esi edi ebp esp eip].
  do 4 (rewrite (bind_Some _ _ _ _ _ (pop_run _ _ _)), (bind_Some _ _ _ _ _ (upd_regs_run _ _ _ _));
    cbn [ebx esi edi ebp esp eip]).
  rewrite (bind_Some _ _ _ _ _ (pop_run _ _ _)). reflexivity.
Qed.

(** Everything a context switch from [prev] to [next] does. *)
Record switched (s : os) (prev next : ptr) (tp tn : task) (s' : os) : Prop := {
  sw_current : current_task s' = next;
  sw_slice : slice_remaining s' = SCHED_TIME_SLICE;
  sw_tss : tss_esp0 s' = t_esp0 tn;
  sw_cr3 : cr3 (vmem s') = if decide (task_cr3 s tn = task_cr3 s tp) then cr3 (vmem s) else task_cr3 s tn;
  sw_kernel : pd_physical_address (vmem s') = pd_physical_address (vmem s);
  sw_ram : ram (vmem s') = save_frame (regs s) (ram (vmem s));
  sw_regs : regs s' = load_frame (save_frame (regs s) (ram (vmem s))) (t_esp tn);
  sw_prev : get_task s' prev = Some (set_esp (saved_esp (regs s))
              (set_state (if decide (t_state tp = TASK_RUNNING) then TASK_READY else t_state tp) tp));
  sw_next : get_task s' next = Some (set_state TASK_RUNNING tn);
  sw_other : ∀ p, p ≠ prev → p ≠ next → get_task s' p = get_task s p;
  sw_rest : ready_head s' = ready_head s ∧ length (task_pool s') = length (task_pool s) ∧
            scheduler_on s' = scheduler_on s ∧ if_flag s' = if_flag s ∧ next_task_id s' = next_task_id s
}.

Lemma switch_to_self s : switch_to (current_task s) s = Some (false, s).
Proof. unfold switch_to. rewrite bind_run. cbn [get]. by rewrite bool_decide_eq_true_2. Qed.

Lemma get_with_cpu r m s p : get_task (with_cpu r m s) p = get_task s p.
Proof. by destruct p. Qed.

(** The bookkeeping of [switch_to] before the registers are swapped. *)
Definition pre_switch (s : os) (prev next : ptr) (tp tn : task) : os :=
  let tp' := set_state (if decide (t_state tp = TASK_RUNNING) then TASK_READY else t_state tp) tp in
  let s1 := put_task next (set_state TASK_RUNNING tn) (put_task prev tp' s) in
  let s2 := set_tss (t_esp0 tn) (set_slice SCHED_TIME_SLICE (set_current next s1)) in
  if decide (task_cr3 s tn = task_cr3 s tp) then s2 else set_vmem (write_cr3 (task_cr3 s tn) (vmem s)) s2.

Lemma set_state_id t : set_state (t_state t) t = t.
Proof. by destruct t. Qed.

Lemma put_task_id s p t : get_task s p = Some t → put_task p t s = s.
Proof.
  destruct s. destruct p; cbn; intros E; simplify_eq; [done|].
  unfold set_pool. cbn. by rewrite list_insert_id.
Qed.

Lemma switch_to_pre s next tp tn :
  next ≠ current_task s → get_task s (current_task s) = Some tp → get_task s next = Some tn →
  switch_to next s =
  (task_switch (current_task s) (t_esp tn) ;; mret true) (pre_switch s (current_task s) next tp tn).
Proof.
  remember (current_task s) as prev eqn:Ec. intros Hne Hp Hn.
  set (tp' := set_state (if decide (t_state tp = TASK_RUNNING) then TASK_READY else t_state tp) tp).
  unfold switch_to. rewrite bind_run. cbn [get]. rewrite <- Ec, bool_decide_eq_false_2 by done.
  mstep (deref_run _ _ _ Hp).
  assert ((if bool_decide (t_state tp = TASK_RUNNING) then update prev (set_state TASK_READY) else mret ()) s
          = Some ((), put_task prev tp' s)) as E1.
  { unfold tp'. case_bool_decide; case_decide; try congruence.
    - by rewrite (update_run _ _ _ _ Hp).
    - by rewrite set_state_id, put_task_id. }
  mstep E1. assert (get_task (put_task prev tp' s) next = Some tn) as Hn1.
  { rewrite (get_put _ _ _ _ _ Hp), decide_False by done. done. }
  mstep (update_run _ _ (set_state TASK_RUNNING) _ Hn1).
  set (s1 := put_task next (set_state TASK_RUNNING tn) (put_task prev tp' s)).
  assert (get_task s1 next = Some (set_state TASK_RUNNING tn) ∧ get_task s1 prev = Some tp') as [Hn2 Hp2].
  { unfold s1. rewrite !(get_put _ _ _ _ _ Hn1). split; [by rewrite decide_True|].
    rewrite decide_False by done. by rewrite (get_put _ _ _ _ _ Hp), decide_True. }
  rewrite bind_run. cbn [modify]. rewrite bind_run. cbn [modify].
  set (s2 := set_slice SCHED_TIME_SLICE (set_current next s1)).
  rewrite (bind_Some _ _ _ _ _ (deref_run s2 next _ (Hn2 : get_task s2 next = _))).
  rewrite bind_run. cbn [tss_set_kernel_stack modify]. rewrite bind_run. cbn [get].
  set (s3 := set_tss (t_esp0 (set_state TASK_RUNNING tn)) s2).
  rewrite (bind_Some _ _ _ _ _ (deref_run s3 prev _ (Hp2 : get_task s3 prev = _))).
  assert (vmem s3 = vmem s) as Hv.
  { change (vmem s1 = vmem s). unfold s1.
    by rewrite !(proj1 (proj2 (proj2 (proj2 (put_task_same _ _ _))))). }
  assert (∀ t x, task_cr3 s3 (set_state x t) = task_cr3 s t) as Hcr by (intros; unfold task_cr3; by rewrite Hv).
  unfold tp'. rewrite !Hcr. unfold pre_switch. rewrite bind_run.
  destruct (decide (task_cr3 s tn = task_cr3 s tp)).
  - by rewrite bool_decide_eq_true_2.
  - rewrite bool_decide_eq_false_2 by done. cbn [modify]. by rewrite Hcr, Hv.
Qed.

Lemma pre_switch_get s prev next tp tn p :
  next ≠ prev → get_task s prev = Some tp → get_task s next = Some tn →
  get_task (pre_switch s prev next tp tn) p =
  if decide (next = p) then Some (set_state TASK_RUNNING tn)
  else if decide (prev = p) then
    Some (set_state (if decide (t_state tp = TASK_RUNNING) then TASK_READY else t_state tp) tp)
  else get_task s p.
Proof.
  intros Hne Hp Hn. set (x := if decide (t_state tp = TASK_RUNNING) then _ else _).
  transitivity (get_task (put_task next (set_state TASK_RUNNING tn) (put_task prev (set_state x tp) s)) p).
  { unfold pre_switch. fold x. case_decide; by destruct p. }
  assert (get_task (put_task prev (set_state x tp) s) next = Some tn) as Hn1.
  { rewrite (get_put _ _ _ _ _ Hp), decide_False by done. done. }
  by rewrite (get_put _ _ _ _ _ Hn1), (get_put _ _ _ _ _ Hp).
Qed.

Lemma pre_switch_rest s prev next tp tn (s0 := pre_switch s prev next tp tn) :
  current_task s0 = next ∧ slice_remaining s0 = SCHED_TIME_SLICE ∧ tss_esp0 s0 = t_esp0 tn ∧
  cr3 (vmem s0) = (if decide (task_cr3 s tn = task_cr3 s tp) then cr3 (vmem s) else task_cr3 s tn) ∧
  pd_physical_address (vmem s0) = pd_physical_address (vmem s) ∧ ram (vmem s0) = ram (vmem s) ∧
  regs s0 = regs s ∧ ready_head s0 = ready_head s ∧ length (task_pool s0) = length (task_pool s) ∧
  scheduler_on s0 = scheduler_on s ∧ if_flag s0 = if_flag s ∧ next_task_id s0 = next_task_id s.
Proof.
  unfold s0, pre_switch. destruct (decide (task_cr3 s tn = task_cr3 s tp));
    cbn [current_task slice_remaining tss_esp0 vmem regs ready_head task_pool scheduler_on if_flag next_task_id
         set_vmem set_tss set_slice set_current]; autorewrite with tstore; done.
Qed.

Lemma switch_to_run s next tp tn :
  next ≠ current_task s → get_task s (current_task s) = Some tp → get_task s next = Some tn →
  ∃ s', switch_to next s = Some (true, s') ∧ switched s (current_task s) next tp tn s'.
Proof.
  intros Hne Hp Hn. rewrite (switch_to_pre _ _ _ _ Hne Hp Hn).
  remember (current_task s) as prev eqn:Ec. clear Ec.
  pose proof (pre_switch_get s prev next tp tn) as Hget.
  destruct (pre_switch_rest s prev next tp tn) as (E1&E2&E3&E4&E5&E6&E7&E8&E9&E10&E11&E12).
  set (s0 := pre_switch s prev next tp tn) in *.
  assert (get_task s0 prev = Some (set_state (if decide (t_state tp = TASK_RUNNING) then TASK_READY
            else t_state tp) tp)) as Hp0.
  { rewrite Hget by done. rewrite (decide_False (P := next = prev)) by done. by rewrite (decide_True (P := prev = prev)). }
  rewrite bind_run, (task_switch_run _ _ _ _ Hp0), E6, E7. eexists. split; [reflexivity|].
  split; rewrite ?get_with_cpu, ?(get_put _ _ _ _ _ Hp0);
    try (unfold with_cpu; cbn [current_task slice_remaining tss_esp0 vmem regs ready_head task_pool scheduler_on
      if_flag next_task_id set_vmem set_regs upd_ram cr3 pd_physical_address ram]; autorewrite with tstore; by try split_and!).
  - by rewrite decide_True.
  - rewrite decide_False by done. rewrite Hget by done. by rewrite decide_True.
  - intros p Hpp Hpn. rewrite get_with_cpu, (get_put _ _ _ _ _ Hp0), decide_False by done.
    rewrite Hget by done. rewrite !decide_False by done. done.
Qed.

(** ** The scheduler's invariant *)

Record sched_inv (s : os) (qs : list ptr) : Prop := {
  si_queue : queue s qs;
  si_running : ∀ p t, p ∈ PBoot :: qs → get_task s p = Some t → t_state t = TASK_RUNNING →
                 p = current_task s;
  si_cr3 : ∀ t, get_task s (current_task s) = Some t → cr3 (vmem s) = task_cr3 s t;
  si_slice : 0 ≤ slice_remaining s ≤ SCHED_TIME_SLICE
}.

(** The circle in the order in which the scheduler looks at it: from the task
    after the running one round to the running one. *)
Definition order (s : os) (qs L : list ptr) : Prop :=
  ∃ a b, PBoot :: qs = a ++ current_task s :: b ∧ L = b ++ a ++ [current_task s].

Lemma order_exists s qs : queue s qs → ∃ L, order s qs L.
Proof.
  intros Hq. pose proof (queue_current _ _ Hq) as Hc. apply list_elem_of_split in Hc as (a & b & E).
  by exists (b ++ a ++ [current_task s]), a, b.
Qed.

Lemma order_perm s qs L : order s qs L → L ≡ₚ PBoot :: qs.
Proof. intros (a & b & -> & ->). solve_Permutation. Qed.

(** Moving on to [n] rotates the order. *)
Lemma order_next s s' qs L1 n L2 :
  order s qs (L1 ++ n :: L2) → L2 ≠ [] → current_task s' = n → order s' qs (L2 ++ L1 ++ [n]).
Proof.
  intros (a & b & Er & EL) Hne Hc. unfold order. rewrite Hc, Er.
  symmetry in EL. apply app_eq_inv in EL as [(k & -> & Ek)|(k & -> & Ek)].
  - destruct k as [|x k]; cbn [app] in Ek.
    + destruct a as [|y a]; cbn [app] in Ek.
      * injection Ek as _ ->. done.
      * injection Ek as -> ->. exists [], (a ++ current_task s :: L1).
        rewrite !app_nil_r. split; [done|]. by rewrite <- !app_assoc.
    + injection Ek as -> ->. exists (a ++ current_task s :: L1), k.
      split; by rewrite <- !app_assoc.
  - apply app_eq_inv in Ek as [(k' & -> & Ek)|(k' & -> & Ek)].
    + destruct k' as [|x k']; cbn [app] in Ek.
      * injection Ek as _ ->. done.
      * injection Ek as -> ->. exists k, (k' ++ current_task s :: b).
        split; by rewrite <- !app_assoc.
    + exfalso. destruct k' as [|x [|]]; cbn in Ek; simplify_eq.
Qed.

Lemma find_first (f : ptr → bool) L :
  match List.find f L with
  | Some n => ∃ L1 L2, L = L1 ++ n :: L2 ∧ f n = true ∧ ∀ x, x ∈ L1 → f x = false
  | None => ∀ x, x ∈ L → f x = false
  end.
Proof.
  induction L as [|x L IH]; cbn [List.find]; [intros x Hx; by apply not_elem_of_nil in Hx|].
  destruct (f x) eqn:Ex.
  - exists [], L. split_and!; [done|done|]. intros y Hy. by apply not_elem_of_nil in Hy.
  - destruct (List.find f L) as [n|].
    + destruct IH as (L1 & L2 & -> & Hn & H1). exists (x :: L1), L2. split_and!; [done|done|].
      intros y [->|Hy]%elem_of_cons; [done|]. by apply H1.
    + intros y [->|Hy]%elem_of_cons; [done|]. by apply IH.
Qed.

Lemma pick_run s qs L :
  queue s qs → order s qs L →
  pick_next_ready s = Some (default (current_task s) (List.find (runnable_at s) L), s).
Proof. intros Hq (a & b & E & ->). by apply (pick_next_ready_run s qs). Qed.

(** A switch keeps the invariant, the circle and the states of bystanders. *)
Lemma switched_inv s qs next tp tn s' :
  sched_inv s qs → next ∈ PBoot :: qs → next ≠ current_task s →
  get_task s (current_task s) = Some tp → get_task s next = Some tn →
  switched s (current_task s) next tp tn s' → sched_inv s' qs.
Proof.
  intros [Hq Hrun Hcr Hsl] Hin Hne Htp Htn Hsw.
  assert (∀ p, nx s' p = nx s p) as Hnx.
  { intros p. unfold nx. destruct (decide (p = current_task s)) as [->|Hp1].
    - by rewrite (sw_prev _ _ _ _ _ _ Hsw), Htp.
    - destruct (decide (p = next)) as [->|Hp2]; [by rewrite (sw_next _ _ _ _ _ _ Hsw), Htn|].
      by rewrite (sw_other _ _ _ _ _ _ Hsw). }
  destruct (sw_rest _ _ _ _ _ _ Hsw) as (Hh & Hl & _).
  assert (∀ t x, task_cr3 s' (set_state x t) = task_cr3 s t) as Htc.
  { intros. unfold task_cr3, paging_get_kernel_cr3. by rewrite (sw_kernel _ _ _ _ _ _ Hsw). }
  split.
  - apply (queue_keep s); try done. by rewrite (sw_current _ _ _ _ _ _ Hsw).
  - intros p t Hp Ht Hst. rewrite (sw_current _ _ _ _ _ _ Hsw).
    destruct (decide (p = next)) as [|Hp2]; [done|]. exfalso.
    destruct (decide (p = current_task s)) as [->|Hp1].
    + rewrite (sw_prev _ _ _ _ _ _ Hsw) in Ht. injection Ht as <-. cbn in Hst. by case_decide.
    + rewrite (sw_other _ _ _ _ _ _ Hsw) in Ht by done. by apply Hp1, (Hrun p t).
  - intros t. rewrite (sw_current _ _ _ _ _ _ Hsw), (sw_next _ _ _ _ _ _ Hsw). intros [= <-].
    rewrite (sw_cr3 _ _ _ _ _ _ Hsw), Htc. case_decide as Hd; [|done]. by rewrite Hd, (Hcr _ Htp).
  - rewrite (sw_slice _ _ _ _ _ _ Hsw). unfold SCHED_TIME_SLICE. lia.
Qed.

(** What one timer tick does: count down, go on with the running task when it
    is the only one that can run, or switch to the first task in [L] that can. *)
Inductive tick_step (s : os) (L : list ptr) : os → Prop :=
  | tick_count : 1 < slice_remaining s → tick_step s L (set_slice (slice_remaining s - 1) s)
  | tick_stay :
      slice_remaining s ≤ 1 →
      default (current_task s) (List.find (runnable_at s) L) = current_task s →
      tick_step s L (set_slice 0 s)
  | tick_switch next tp tn s' :
      slice_remaining s ≤ 1 →
      List.find (runnable_at s) L = Some next → next ≠ current_task s →
      get_task s (current_task s) = Some tp → get_task s next = Some tn →
      switched (set_slice 0 s) (current_task s) next tp tn s' →
      tick_step s L s'.

Lemma set_slice_inv s qs x : sched_inv s qs → 0 ≤ x ≤ SCHED_TIME_SLICE → sched_inv (set_slice x s) qs.
Proof.
  intros [Hq Hr Hc Hs] Hx. split; [split; apply Hq| | |done].
  - intros p t Hp Ht. apply (Hr p t Hp). by destruct p.
  - intros t Ht. apply (Hc t). cbn [current_task set_slice] in Ht. by destruct (current_task s).
Qed.

Lemma set_slice_get s x p : get_task (set_slice x s) p = get_task s p.
Proof. by destruct p. Qed.

Lemma schedule_run s qs L :
  sched_inv s qs → order s qs L → scheduler_on s ≠ 0 →
  ∃ s', schedule s = Some ((), s') ∧ tick_step s L s' ∧ sched_inv s' qs.
Proof.
  intros Hinv Hord Hon. pose proof (si_slice _ _ Hinv) as Hsl. unfold schedule. rewrite bind_run. cbn [get].
  rewrite (proj2 (Z.eqb_neq _ _) Hon).
  set (x := Z.max 0 (slice_remaining s - 1)).
  assert ((if slice_remaining s >? 0 then modify (set_slice (slice_remaining s - 1)) else mret ()) s =
          Some ((), set_slice x s)) as E.
  { zcase; cbn [modify]; unfold x; [by rewrite Z.max_r by lia|].
    rewrite Z.max_l by lia. replace 0 with (slice_remaining s) by lia. by destruct s. }
  mstep E. rewrite bind_run. cbn [get slice_remaining set_slice].
  assert (sched_inv (set_slice x s) qs) as Hinv' by (apply set_slice_inv; [done|unfold x, SCHED_TIME_SLICE in *; lia]).
  zcase.
  { exists (set_slice x s). split_and!; [done| |done]. unfold x in *.
    rewrite Z.max_r in * by lia. apply tick_count. lia. }
  assert (slice_remaining s ≤ 1) as Hle by (unfold x in *; lia).
  replace x with 0 in * by lia. clear E. set (s0 := set_slice 0 s) in *.
  assert (order s0 qs L) as Hord' by done.
  mstep (pick_run _ _ _ (si_queue _ _ Hinv') Hord').
  change (current_task s0) with (current_task s).
  assert (List.find (runnable_at s0) L = List.find (runnable_at s) L) as ->.
  { reflexivity. }
  pose proof (find_first (runnable_at s) L) as Hf. destruct (List.find (runnable_at s) L) as [n|] eqn:Ef; cbn [default].
  - destruct (decide (n = current_task s)) as [->|Hne].
    + mstep (switch_to_self s0 : switch_to (current_task s) s0 = _).
      exists s0. split_and!; [done| |done]. apply tick_stay; [lia|]. by rewrite Ef.
    + destruct Hf as (L1 & L2 & EL & Hn & _).
      assert (n ∈ PBoot :: qs) as Hin.
      { rewrite <- (order_perm _ _ _ Hord), EL. apply elem_of_app. right. left. }
      destruct (queue_get _ _ _ (si_queue _ _ Hinv') Hin) as (tn & Etn).
      destruct (queue_get _ _ _ (si_queue _ _ Hinv') (queue_current _ _ (si_queue _ _ Hinv'))) as (tp & Etp).
      destruct (switch_to_run s0 n tp tn Hne Etp Etn) as (s' & E' & Hsw).
      mstep E'. exists s'. split_and!; [done| |by apply (switched_inv s0 qs n tp tn)].
      eapply tick_switch; [lia|done|done| | |done].
      * cbn [current_task s0 set_slice] in Etp. by rewrite <- Etp, <- (set_slice_get s 0).
      * by rewrite <- Etn, <- (set_slice_get s 0).
  - mstep (switch_to_self s0 : switch_to (current_task s) s0 = _).
    exists s0. split_and!; [done| |done]. apply tick_stay; [lia|]. by rewrite Ef.
Qed.

(** ** Runs

    Between two ticks the running task changes registers and memory; [env]
    says how, and [run_ticks env n] is [n] ticks with that behaviour. *)
Fixpoint run_ticks (env : nat → cpu * mem) (n : nat) (s : os) : option os :=
  match n with
  | O => Some s
  | S n' =>
      match schedule (with_cpu (env 0%nat).1 (env 0%nat).2 s) with
      | Some (_, s') => run_ticks (λ k, env (S k)) n' s'
      | None => None
      end
  end.

Lemma with_cpu_inv r m s qs : sched_inv s qs → sched_inv (with_cpu r m s) qs.
Proof.
  intros [Hq Hr Hc Hs]. split; [|intros p t Hp; rewrite get_with_cpu; by apply Hr| |done].
  - apply (queue_keep s); [done|done|done| |apply Hq]. intros p _. unfold nx. by rewrite get_with_cpu.
  - intros t. rewrite get_with_cpu. apply Hc.
Qed.

Definition state_of (s : os) (p : ptr) : option task_state := t_state <$> get_task s p.

Lemma ready_runnable s p : state_of s p = Some TASK_READY → runnable_at s p = true.
Proof. unfold state_of, runnable_at. destruct (get_task s p); [|done]. by intros [= ->]. Qed.

(** The running task comes last in the order, and only there. *)
Lemma order_last s qs A B :
  queue s qs → order s qs (A ++ current_task s :: B) → B = [].
Proof.
  intros Hq Hord. pose proof (queue_ring_nodup _ _ Hq) as Hnd.
  rewrite <- (order_perm _ _ _ Hord) in Hnd. destruct Hord as (a & b & _ & EL).
  destruct B as [|x B _] using rev_ind; [done|]. exfalso.
  rewrite app_comm_cons, !app_assoc in EL. apply app_inj_tail in EL as [_ ->].
  apply list.NoDup_app in Hnd as (_ & _ & Hnd). apply list.NoDup_cons in Hnd as [Hni _].
  apply Hni, elem_of_app. right. left.
Qed.

Lemma order_not_last s qs A p B : order s qs (A ++ p :: B) → p ≠ current_task s → B ≠ [].
Proof.
  intros (a & b & _ & EL) Hne ->. rewrite app_assoc in EL. apply app_inj_tail in EL as [_ ?]. done.
Qed.

Lemma find_upto (f : ptr → bool) L1 p L2 :
  f p = true →
  List.find f (L1 ++ p :: L2) = Some p ∨
  ∃ M1 n M2, L1 = M1 ++ n :: M2 ∧ List.find f (L1 ++ p :: L2) = Some n.
Proof.
  intros Hp. induction L1 as [|x L1 IH]; cbn [app List.find]; [left; by rewrite Hp|].
  destruct (f x); [right; by exists [], x, L1|].
  destruct IH as [->|(M1 & n & M2 & -> & E)]; [by left|]. right. by exists (x :: M1), n, M2.
Qed.

(** One tick brings a ready task nearer: it runs next, or its place in the
    order, counted in time slices, goes down. *)
Lemma tick_progress s qs L1 p L2 s' :
  queue s qs → order s qs (L1 ++ p :: L2) → state_of s p = Some TASK_READY → p ≠ current_task s →
  tick_step s (L1 ++ p :: L2) s' →
  current_task s' = p ∨
  ∃ L1' L2', order s' qs (L1' ++ p :: L2') ∧ state_of s' p = Some TASK_READY ∧ p ≠ current_task s' ∧
    10 * Z.of_nat (length L1') + Z.max 1 (slice_remaining s') <
    10 * Z.of_nat (length L1) + Z.max 1 (slice_remaining s).
Proof.
  intros Hq Hord Hst Hne Hstep. pose proof (find_upto _ L1 p L2 (ready_runnable _ _ Hst)) as Hf.
  pose proof (order_not_last _ _ _ _ _ Hord Hne) as HL2.
  inversion Hstep as [Hs|Hs Hd|n tp tn ? Hs Hfi Hn Htp Htn Hsw]; subst.
  - right. exists L1, L2. split_and!; [done| |done|].
    + unfold state_of in *. by rewrite set_slice_get.
    + cbn [slice_remaining set_slice]. lia.
  - exfalso. destruct Hf as [Hf|(M1 & n & M2 & -> & Hf)]; rewrite Hf in Hd; cbn in Hd; [done|].
    subst n. rewrite <- app_assoc in Hord. cbn [app] in Hord.
    apply order_last in Hord; [|done]. by destruct M2.
  - rewrite (sw_current _ _ _ _ _ _ Hsw). destruct Hf as [Hf|(M1 & n' & M2 & -> & Hf)];
      rewrite Hfi in Hf; injection Hf as <-; [by left|right].
    rewrite <- app_assoc in Hord. cbn [app] in Hord.
    exists M2, (L2 ++ M1 ++ [n]).
    pose proof (queue_ring_nodup _ _ Hq) as Hnd. rewrite <- (order_perm _ _ _ Hord) in Hnd.
    assert (p ≠ n) as Hpn.
    { intros ->. apply list.NoDup_app in Hnd as (_ & _ & Hnd). apply list.NoDup_cons in Hnd as [Hni _].
      apply Hni, elem_of_app. right. left. }
    split_and!; [| |done|].
    + rewrite app_comm_cons, app_assoc. apply (order_next s); [done|by destruct M2|].
      apply (sw_current _ _ _ _ _ _ Hsw).
    + unfold state_of in *. by rewrite (sw_other _ _ _ _ _ _ Hsw), set_slice_get.
    + rewrite (sw_slice _ _ _ _ _ _ Hsw), length_app. unfold SCHED_TIME_SLICE. simpl. lia.
Qed.

Lemma tick_step_on s L s' : tick_step s L s' → scheduler_on s' = scheduler_on s.
Proof.
  intros Hstep. inversion Hstep as [| |n tp tn ? ? ? ? ? ? Hsw]; subst; [done..|].
  by destruct (sw_rest _ _ _ _ _ _ Hsw) as (_ & _ & -> & _).
Qed.

Lemma fair_run env s qs L1 p L2 k :
  sched_inv s qs → scheduler_on s ≠ 0 → order s qs (L1 ++ p :: L2) → state_of s p = Some TASK_READY →
  p ≠ current_task s → 10 * Z.of_nat (length L1) + Z.max 1 (slice_remaining s) ≤ Z.of_nat k →
  ∃ n s', (n ≤ k)%nat ∧ run_ticks env n s = Some s' ∧ current_task s' = p ∧ sched_inv s' qs.
Proof.
  revert env s L1 L2. induction k as [|k IH]; intros env s L1 L2 Hinv Hon Hord Hst Hne Hk; [lia|].
  set (s0 := with_cpu (env 0%nat).1 (env 0%nat).2 s).
  assert (sched_inv s0 qs) as Hinv0 by by apply with_cpu_inv.
  assert (state_of s0 p = Some TASK_READY) as Hst0 by (unfold state_of, s0; by rewrite get_with_cpu).
  destruct (schedule_run s0 qs (L1 ++ p :: L2)) as (s1 & E & Hstep & Hinv1); [done..|].
  destruct (tick_progress s0 qs L1 p L2 s1) as [Hcur|(L1' & L2' & Hord1 & Hst1 & Hne1 & Hlt)];
    [apply Hinv0|done..| |].
  - exists 1%nat, s1. split_and!; [lia| |done|done]. cbn [run_ticks]. fold s0. by rewrite E.
  - change (slice_remaining s0) with (slice_remaining s) in Hlt.
    destruct (IH (λ k, env (S k)) s1 L1' L2') as (n & s' & Hn & Er & Hc & Hi); [done| |done..|lia|].
    { by rewrite (tick_step_on _ _ _ Hstep). }
    exists (S n), s'. split_and!; [lia| |done|done]. cbn [run_ticks]. fold s0. by rewrite E.
Qed.

(** A ready task runs within its bound of ticks. *)
Lemma fair_ticks s qs p env :
  sched_inv s qs → scheduler_on s ≠ 0 → p ∈ PBoot :: qs → state_of s p = Some TASK_READY →
  ∃ n s', Z.of_nat n ≤ SCHED_TIME_SLICE * Z.of_nat (S (length qs)) ∧
    run_ticks env n s = Some s' ∧ current_task s' = p ∧ sched_inv s' qs.
Proof.
  intros Hinv Hon Hp Hst. pose proof (si_slice _ _ Hinv) as Hsl. unfold SCHED_TIME_SLICE in *.
  destruct (decide (p = current_task s)) as [->|Hne].
  { exists 0%nat, s. split_and!; [lia|done|done|done]. }
  destruct (order_exists s qs (si_queue _ _ Hinv)) as (L & HL). pose proof (order_perm _ _ _ HL) as HP.
  assert (p ∈ L) as HpL by (by rewrite HP). apply list_elem_of_split in HpL as (L1 & L2 & ->).
  pose proof (order_not_last _ _ _ _ _ HL Hne). apply Permutation_length in HP.
  rewrite length_app in HP. cbn [length] in HP.
  destruct (fair_run env s qs L1 p L2 (10 * S (length L1))) as (n & s' & Hn & E & Hc & Hi); [done..|lia|].
  exists n, s'. split_and!; [lia|done|done|done].
Qed.

(** ** Frames on the stack *)

Definition word32 (x : Z) : Prop := 0 ≤ x < 4294967296.

(** A processor state with room for the frame below the stack pointer. *)
Record cpu_ok (r : cpu) : Prop := {
  ok_ebx : word32 (ebx r);
  ok_esi : word32 (esi r);
  ok_edi : word32 (edi r);
  ok_ebp : word32 (ebp r);
  ok_esp : 16 ≤ esp r < 4294967296 - 4
}.

Lemma saved_esp_ok r : cpu_ok r → saved_esp r = esp r - 16.
Proof.
  intros H. pose proof (ok_esp _ H). unfold saved_esp.
  rewrite (u32_small (esp r - 4)) by lia. rewrite (u32_small (esp r - 4 - 4)) by lia.
  rewrite (u32_small (esp r - 4 - 4 - 4)) by lia. rewrite u32_small by lia. lia.
Qed.

Lemma save_frame_ok r m :
  cpu_ok r → save_frame r m =
  store32 (store32 (store32 (store32 m (esp r - 4) (ebx r)) (esp r - 8) (esi r)) (esp r - 12) (edi r))
    (esp r - 16) (ebp r).
Proof.
  intros H. pose proof (ok_esp _ H). unfold save_frame. rewrite (saved_esp_ok _ H).
  rewrite (u32_small (esp r - 4)) by lia. rewrite (u32_small (esp r - 4 - 4)) by lia.
  rewrite (u32_small (esp r - 4 - 4 - 4)) by lia.
  replace (esp r - 4 - 4) with (esp r - 8) by lia. by replace (esp r - 8 - 4) with (esp r - 12) by lia.
Qed.

Lemma load_frame_ok m sp :
  0 ≤ sp < 4294967296 - 20 → load_frame m sp =
  Cpu (load32 m (sp + 12)) (load32 m (sp + 8)) (load32 m (sp + 4)) (load32 m sp) (sp + 20) (load32 m (sp + 16)).
Proof.
  intros H. unfold load_frame. rewrite (u32_small (sp + 4)) by lia. rewrite (u32_small (sp + 4 + 4)) by lia.
  rewrite (u32_small (sp + 4 + 4 + 4)) by lia. rewrite (u32_small (sp + 4 + 4 + 4 + 4)) by lia.
  rewrite u32_small by lia. f_equal; solve [lia | f_equal; lia].
Qed.

Lemma load32_save_frame_ne r m a :
  cpu_ok r → a + 4 ≤ esp r - 16 ∨ esp r ≤ a → load32 (save_frame r m) a = load32 m a.
Proof.
  intros H Ha. rewrite save_frame_ok by done. by rewrite !load32_store32_ne by lia.
Qed.

(** The frame that [save_frame] leaves holds the registers. *)
Lemma frame_roundtrip r m m' :
  cpu_ok r →
  (∀ a, esp r - 16 ≤ a → a + 4 ≤ esp r + 4 → load32 m' a = load32 (save_frame r m) a) →
  load_frame m' (esp r - 16) = Cpu (ebx r) (esi r) (edi r) (ebp r) (esp r + 4) (load32 m (esp r)).
Proof.
  intros H Hm. pose proof H as [Hb Hsi Hdi Hbp Hsp]. rewrite load_frame_ok by lia.
  rewrite !Hm by lia. rewrite save_frame_ok by done.
  replace (esp r - 16 + 12) with (esp r - 4) by lia. replace (esp r - 16 + 8) with (esp r - 8) by lia.
  replace (esp r - 16 + 4) with (esp r - 12) by lia. replace (esp r - 16 + 16) with (esp r) by lia.
  f_equal; [| | | |lia|].
  all: repeat (rewrite load32_store32_ne by lia); try (by apply load32_store32_eq). done.
Qed.

(** ** Theorems *)

(** C23: one timer tick of the round-robin scheduler.  With scheduling on,
    [schedule] always returns (the walk round the queue ends): it counts the
    time slice down, or, when the slice is used up, switches to the first
    ready task after the running one in the circle, or goes on with the
    running task if there is none.  It keeps the invariant: the queue, at most
    one running task, and CR3 holding the running task's page directory. *)
Theorem schedule_round_robin s qs :
  sched_inv s qs → scheduler_on s ≠ 0 →
  ∃ L s', order s qs L ∧ schedule s = Some ((), s') ∧ tick_step s L s' ∧ sched_inv s' qs.
Proof.
  intros Hinv Hon. destruct (order_exists s qs (si_queue _ _ Hinv)) as (L & HL).
  destruct (schedule_run s qs L Hinv HL Hon) as (s' & E & Hs & Hi). by exists L, s'.
Qed.

(** C22: no ready task starves.  Whatever the tasks do to registers and memory
    between ticks, a task that is ready in a queue of [n] tasks is running
    after at most [10 n] timer ticks, where 10 is the time slice. *)
Theorem round_robin_fair s qs p env :
  sched_inv s qs → scheduler_on s ≠ 0 → p ∈ PBoot :: qs → state_of s p = Some TASK_READY →
  ∃ n s', Z.of_nat n ≤ SCHED_TIME_SLICE * Z.of_nat (S (length qs)) ∧
    run_ticks env n s = Some s' ∧ current_task s' = p ∧ sched_inv s' qs.
Proof. apply fair_ticks. Qed.

(** C24: a context switch is transparent to the task switched out.  When a task
    is switched out by [task_switch] and later switched to again, with its
    saved stack pointer and the 20 bytes of its stack frame untouched in
    between, it goes on at its return address with its callee-saved registers
    and its stack pointer exactly as it left them, whatever task [from] ran
    last on whatever other stack. *)
Theorem context_switch_restores s old t new_esp s1 s2 t2 from tf :
  cpu_ok (regs s) → get_task s old = Some t → task_switch old new_esp s = Some ((), s1) →
  get_task s2 old = Some t2 → get_task s1 old = Some (set_esp (t_esp t2) t) →
  (∀ a, esp (regs s) - 16 ≤ a → a + 4 ≤ esp (regs s) + 4 →
     load32 (ram (vmem s2)) a = load32 (ram (vmem s1)) a) →
  get_task s2 from = Some tf → cpu_ok (regs s2) →
  esp (regs s2) ≤ esp (regs s) - 16 ∨ esp (regs s) + 4 ≤ esp (regs s2) - 16 →
  ∃ s3, task_switch from (t_esp t2) s2 = Some ((), s3) ∧
    regs s3 = Cpu (ebx (regs s)) (esi (regs s)) (edi (regs s)) (ebp (regs s)) (esp (regs s) + 4)
                  (load32 (ram (vmem s)) (esp (regs s))).
Proof.
  intros Hr Ht E1 Ht2 Hsaved Hm Hf Hr2 Hdis. rewrite (task_switch_run _ _ _ _ Ht) in E1.
  injection E1 as <-. rewrite get_with_cpu, (get_put _ _ _ _ _ Ht), decide_True in Hsaved by done.
  assert (t_esp t2 = esp (regs s) - 16) as ->.
  { rewrite <- (saved_esp_ok _ Hr). by injection Hsaved. }
  rewrite (task_switch_run _ _ _ _ Hf). eexists. split; [reflexivity|]. cbn [regs with_cpu set_regs].
  apply frame_roundtrip with (m := ram (vmem s)); [done|]. intros a Ha Hb.
  rewrite load32_save_frame_ne by (done || lia). by apply Hm.
Qed.

(** the ready queue is kept first-in first-out.  [sched_add_task] of a
    task outside the queue appends it, and [sched_remove_task] of a queued
    task that is not running takes exactly it out; in both cases the walk
    ends, the order of the others, their fields, the running task and the
    machine are unchanged, and interrupts are enabled on return. *)
Theorem ready_queue_fifo s qs p t :
  queue s qs → pool_slot p → get_task s p = Some t →
  (p ∉ qs → ∃ s', sched_add_task p s = Some ((), s') ∧ queue s' (qs ++ [p]) ∧ same_machine s s' ∧
     same_tasks (PBoot :: qs ++ [p]) s s' ∧ if_flag s' = true) ∧
  (∀ l1 l2, qs = l1 ++ p :: l2 → current_task s ≠ p →
     ∃ s', sched_remove_task p s = Some ((), s') ∧ queue s' (l1 ++ l2) ∧ same_machine s s' ∧
       same_tasks (PBoot :: qs) s s' ∧ get_task s' p = Some (set_next PNull t) ∧ if_flag s' = true).
Proof.
  intros Hq Hp Ht. split; [intros Hni; by apply (sched_add_task_run s qs p t)|].
  intros l1 l2 -> Hc. destruct (sched_remove_task_run s l1 p l2 Hq Hc) as (s' & H). rewrite Ht in H. by exists s'.
Qed.

(** ** Examples *)

(** Three tasks: the boot task runs, slots 0 and 2 are queued; slot 2 is dead. *)
Definition demo_task (state : task_state) (sp : Z) : task :=
  Task 1 (str "demo" ++ replicate 28 0) state sp (sp + 28) 0x300000 0 0 0 0 0 PNull.

Definition demo_os : os :=
  let blank := Os blank_vm (replicate 64 zero_task) 0 zero_task PNull PNull 0 0 0 true
                 (Cpu 1 2 3 4 0x90000 0) in
  let code :=
    sched_init ;;
    modify (put_task (PSlot 0) (demo_task TASK_READY 0x300FE4)) ;;
    modify (put_task (PSlot 2) (demo_task TASK_DEAD 0x301FE4)) ;;
    sched_add_task (PSlot 2) ;; sched_add_task (PSlot 0) ;; sched_enable in
  match code blank with Some (_, s) => s | None => blank end.

Lemma demo_queue : queue demo_os [PSlot 2; PSlot 0].
Proof.
  split; [reflexivity|reflexivity|by vm_compute| | |].
  - by apply (bool_decide_unpack _); vm_compute.
  - intros p Hp. set_unfold in Hp. destruct Hp as [->|[->|[]]]; eexists; (split; [done|lia]).
  - left.
Qed.

Lemma demo_inv : sched_inv demo_os [PSlot 2; PSlot 0].
Proof.
  split; [apply demo_queue| | |].
  - intros p t Hp Ht Hs. set_unfold in Hp. destruct Hp as [->|[->|[->|[]]]]; [done| |];
      vm_compute in Ht; injection Ht as <-; done.
  - intros t Ht. vm_compute in Ht. injection Ht as <-. done.
  - vm_compute. split; discriminate.
Qed.

Lemma schedule_round_robin_witness :
  ∃ L s', order demo_os [PSlot 2; PSlot 0] L ∧ schedule demo_os = Some ((), s') ∧
    tick_step demo_os L s' ∧ sched_inv s' [PSlot 2; PSlot 0].
Proof. apply (schedule_round_robin demo_os [PSlot 2; PSlot 0]); [apply demo_inv|discriminate]. Defined.

Lemma round_robin_fair_witness :
  ∃ n s', Z.of_nat n ≤ SCHED_TIME_SLICE * 3 ∧
    run_ticks (λ _, (Cpu 0 0 0 0 0x80000 0, ∅)) n demo_os = Some s' ∧ current_task s' = PSlot 0 ∧
    sched_inv s' [PSlot 2; PSlot 0].
Proof.
  apply (round_robin_fair demo_os [PSlot 2; PSlot 0] (PSlot 0)); [apply demo_inv|discriminate| |reflexivity].
  right. right. left.
Defined.

(** The demo's boot task switched out, and slot 0 about to switch back. *)
Definition demo_out : os :=
  match task_switch PBoot 0x300FE4 demo_os with Some (_, s) => s | None => demo_os end.
Definition demo_back : os := with_cpu (Cpu 9 8 7 6 0x300F00 0) (ram (vmem demo_out)) demo_out.

Lemma demo_cpu_ok : cpu_ok (regs demo_os) ∧ cpu_ok (regs demo_back).
Proof. split; split; vm_compute; split; congruence. Qed.

Lemma demo_switch : task_switch PBoot 0x300FE4 demo_os = Some ((), demo_out).
Proof. unfold demo_out. by rewrite (task_switch_run demo_os PBoot (boot_task demo_os)). Qed.

Lemma context_switch_restores_witness :
  ∃ s3, task_switch (PSlot 0) 0x8FFF0 demo_back = Some ((), s3) ∧
    regs s3 = Cpu 1 2 3 4 0x90004 (load32 (ram (vmem demo_os)) 0x90000).
Proof.
  apply (context_switch_restores demo_os PBoot (boot_task demo_os) 0x300FE4 demo_out demo_back
    (boot_task demo_back) (PSlot 0) (set_next PBoot (demo_task TASK_READY 0x300FE4))).
  - apply demo_cpu_ok.
  - reflexivity.
  - apply demo_switch.
  - reflexivity.
  - unfold demo_back, demo_out. by rewrite (task_switch_run demo_os PBoot (boot_task demo_os)).
  - intros a _ _. unfold demo_back. by rewrite ram_with_cpu.
  - unfold demo_back, demo_out. by rewrite (task_switch_run demo_os PBoot (boot_task demo_os)).
  - apply demo_cpu_ok.
  - right. vm_compute. discriminate.
Defined.

Lemma ready_queue_fifo_witness :
  ∃ s', sched_remove_task (PSlot 2) demo_os = Some ((), s') ∧ queue s' [PSlot 0] ∧
    same_machine demo_os s' ∧ same_tasks [PBoot; PSlot 2; PSlot 0] demo_os s' ∧
    get_task s' (PSlot 2) = Some (demo_task TASK_DEAD 0x301FE4) ∧ if_flag s' = true.
Proof.
  apply (proj2 (ready_queue_fifo demo_os [PSlot 2; PSlot 0] (PSlot 2) (set_next (PSlot 0) (demo_task TASK_DEAD 0x301FE4))
    demo_queue ltac:(exists 2%nat; split; [done|lia]) ltac:(vm_compute; reflexivity)) [] [PSlot 0]);
    [reflexivity|discriminate].
Defined.
