(* ===== verification/Task.v ===== *)
(** * kernel/task/task.c: creating, ending and reaping tasks

    Tasks are control blocks of the static pool of [Sched]; their kernel
    stacks and page directories are frames of the physical allocator.  The
    code builds the first stack frame of a task by hand; the theorems say
    where the first context switch to it arrives.  The addresses the linker
    gives to the functions whose address is taken are the record [symbols]. *)

From S2P Require Import Prelude KString KStdio Console Pmm Memory Paging AddrSpace Sched.

Open Scope Z_scope.
Open Scope c_scope.

(** ** Setters for the fields of a task *)

Definition set_id (x : Z) (t : task) : task :=
  Task x (t_name t) (t_state t) (t_esp t) (t_esp0 t) (t_kernel_stack t) (t_user_stack t)
       (t_user_stack_top t) (t_is_user t) (t_cr3 t) (t_page_dir t) (t_next t).
Definition set_name (x : list Z) (t : task) : task :=
  Task (t_id t) x (t_state t) (t_esp t) (t_esp0 t) (t_kernel_stack t) (t_user_stack t)
       (t_user_stack_top t) (t_is_user t) (t_cr3 t) (t_page_dir t) (t_next t).
Definition set_kernel_stack (x x0 : Z) (t : task) : task :=
  Task (t_id t) (t_name t) (t_state t) (t_esp t) x0 x (t_user_stack t)
       (t_user_stack_top t) (t_is_user t) (t_cr3 t) (t_page_dir t) (t_next t).
Definition set_user_stack (x top : Z) (t : task) : task :=
  Task (t_id t) (t_name t) (t_state t) (t_esp t) (t_esp0 t) (t_kernel_stack t) x
       top (t_is_user t) (t_cr3 t) (t_page_dir t) (t_next t).
Definition set_is_user (x : Z) (t : task) : task :=
  Task (t_id t) (t_name t) (t_state t) (t_esp t) (t_esp0 t) (t_kernel_stack t) (t_user_stack t)
       (t_user_stack_top t) x (t_cr3 t) (t_page_dir t) (t_next t).
Definition set_directory (dir phys : Z) (t : task) : task :=
  Task (t_id t) (t_name t) (t_state t) (t_esp t) (t_esp0 t) (t_kernel_stack t) (t_user_stack t)
       (t_user_stack_top t) (t_is_user t) phys dir (t_next t).

(** ** Link addresses and selectors *)

Record symbols := Symbols {
  sym_task_wrapper : Z;
  sym_enter_usermode : Z;
  sym_sys_exit : Z;
  sym_sys_write : Z;
  sym_sys_read : Z;
  sym_sys_yield : Z;
  sym_sys_getpid : Z;
  sym_sys_sleep : Z
}.

Definition GDT_USER_CODE_SEG : Z := 0x1B.
Definition GDT_USER_DATA_SEG : Z := 0x23.

(** ** Calls of the other components *)

Definition vm_op {A} (c : M (io vm) A) : M (io os) A := zoom_io vmem set_vmem c.

(** [*(--sp) = v], one statement per word. *)
Fixpoint stack_words (sp : Z) (vs : list Z) : M (io os) Z :=
  match vs with
  | [] => mret sp
  | v :: vs' =>
      let sp := sp -! 4 in
      quiet (modify (λ s, set_vmem (upd_ram (λ m, store32 m sp v) (vmem s)) s)) ;;
      stack_words sp vs'
  end.

(** ** The pool *)

Definition alloc_tcb : M os ptr :=
  r ← for_ret (Z.to_nat TASK_MAX_TASKS) 0 (λ i,
        t ← deref (PSlot (Z.to_nat i));
        if (t_id t =? 0) && (t_kernel_stack t =? 0) then mret (Some (PSlot (Z.to_nat i)))
        else mret None);
  mret (default PNull r).

(** [t->id = ++next_task_id] and the copy of the name. *)
Definition assign_identity (t : ptr) (name : list Z) : M os () :=
  s ← get;
  let id := next_task_id s +! 1 in
  modify (set_task_id id) ;;
  update t (set_id id) ;;
  x ← deref t;
  n ← of_option (strncpy (t_name x) name (Z.to_nat (TASK_NAME_MAX - 1)));
  update t (set_name (<[Z.to_nat (TASK_NAME_MAX - 1) := 0]> n)).

(** The rest of the three creating functions: publish the frame. *)
Definition make_ready (t : ptr) (sp : Z) : M os () :=
  update t (set_esp sp) ;;
  update t (set_state TASK_READY) ;;
  update t (set_next PNull) ;;
  sched_add_task t.

Definition clear_task (t : ptr) : M os () := update t (λ _, zero_task).

Definition task_create (sy : symbols) (entry : Z) (name : list Z) : M (io os) ptr :=
  t ← quiet alloc_tcb;
  if bool_decide (t = PNull) then mret PNull
  else
    quiet (assign_identity t name) ;;
    stack_phys ← vm_op pmm_alloc;
    if stack_phys =? 0 then quiet (clear_task t) ;; mret PNull
    else
      let top := stack_phys +! TASK_KERNEL_STACK_SIZE in
      quiet (update t (set_kernel_stack stack_phys top)) ;;
      sp ← stack_words top [entry; 0; sym_task_wrapper sy; 0; 0; 0; 0];
      quiet (make_ready t sp) ;;
      mret t.

Definition task_get_current (s : os) : ptr := sched_get_current s.

(** The code behind [sched_yield] is an endless loop of [hlt], which is reached
    only when no other task can run: the state of the result is then the one
    in which the processor halts, and callers do not go on from it
    ([Syscall.sys_exit_handler] ends with [Stopped]). *)
Definition task_exit : M os () :=
  s ← get;
  let cur := task_get_current s in
  (if bool_decide (cur = PNull) then mret () else update cur (set_state TASK_DEAD)) ;;
  sched_yield.

(** The trampoline; [entry] is the body of the task. *)
Definition task_wrapper (entry : M (io os) ()) : M (io os) () :=
  quiet sti ;; entry ;; quiet task_exit.

(** ** Reaping *)

Definition reap_slot (i : Z) : M (io os) () :=
  let p := PSlot (Z.to_nat i) in
  t ← quiet (deref p);
  if bool_decide (t_state t = TASK_DEAD) && negb (t_kernel_stack t =? 0) then
    quiet (sched_remove_task p) ;;
    vm_op (pmm_free (t_kernel_stack t)) ;;
    (if negb (t_page_dir t =? 0) then vm_op (paging_free_directory (t_page_dir t))
     else if negb (t_user_stack t =? 0) then
       vm_op (paging_unmap_page (t_user_stack t)) ;; vm_op (pmm_free (t_user_stack t))
     else mret ()) ;;
    quiet (clear_task p)
  else mret ().

Definition task_reap : M (io os) () :=
  quiet cli ;;
  for_loop (Z.to_nat TASK_MAX_TASKS) 0 reap_slot ;;
  quiet sti.

(** ** User tasks *)

Definition USER_FLAGS : Z := Z.lor (Z.lor PAGE_PRESENT PAGE_WRITABLE) PAGE_USER.

(** [MAP_USER_PAGE(func_addr)] for each address of the list. *)
Fixpoint map_user_pages (dir : Z) (addrs : list Z) : M (io os) () :=
  match addrs with
  | [] => mret ()
  | a :: rest =>
      let pg := Z.land a PAGE_FRAME_MASK in
      vm_op (paging_map_page_in dir pg pg USER_FLAGS) ;;
      map_user_pages dir rest
  end.

(** The frame popped by [task_switch], [enter_usermode] and its [iret]. *)
Definition user_frame (sy : symbols) (esp entry : Z) : list Z :=
  [GDT_USER_DATA_SEG; esp; 0x202; GDT_USER_CODE_SEG; entry; sym_enter_usermode sy; 0; 0; 0; 0].

Definition task_create_user (sy : symbols) (entry : Z) (name : list Z) : M (io os) ptr :=
  t ← quiet alloc_tcb;
  if bool_decide (t = PNull) then mret PNull
  else
    quiet (assign_identity t name) ;;
    quiet (update t (set_is_user 1)) ;;
    kstack_phys ← vm_op pmm_alloc;
    if kstack_phys =? 0 then quiet (clear_task t) ;; mret PNull
    else
      let top := kstack_phys +! TASK_KERNEL_STACK_SIZE in
      quiet (update t (set_kernel_stack kstack_phys top)) ;;
      clone_dir ← vm_op paging_clone_directory;
      if clone_dir =? 0 then
        vm_op (pmm_free kstack_phys) ;; quiet (clear_task t) ;; mret PNull
      else
        quiet (update t (set_directory clone_dir clone_dir)) ;;
        map_user_pages clone_dir
          [entry; entry +! 0x1000; sym_sys_exit sy; sym_sys_write sy; sym_sys_read sy;
           sym_sys_yield sy; sym_sys_getpid sy; sym_sys_sleep sy] ;;
        ustack_phys ← vm_op pmm_alloc;
        if ustack_phys =? 0 then
          vm_op (paging_free_directory clone_dir) ;;
          vm_op (pmm_free kstack_phys) ;;
          quiet (clear_task t) ;;
          mret PNull
        else
          vm_op (zero_page ustack_phys) ;;
          quiet (update t (set_user_stack ustack_phys USER_STACK_TOP)) ;;
          vm_op (paging_map_page_in clone_dir USER_STACK_VIRT ustack_phys USER_FLAGS) ;;
          sp ← stack_words top (user_frame sy USER_STACK_TOP entry);
          quiet (make_ready t sp) ;;
          mret t.

Definition task_create_user_mapped (sy : symbols) (entry_vaddr : Z) (name : list Z)
    (dir dir_phys user_esp : Z) : M (io os) ptr :=
  t ← quiet alloc_tcb;
  if bool_decide (t = PNull) then mret PNull
  else
    quiet (assign_identity t name) ;;
    quiet (update t (set_is_user 1)) ;;
    kstack_phys ← vm_op pmm_alloc;
    if kstack_phys =? 0 then quiet (clear_task t) ;; mret PNull
    else
      let top := kstack_phys +! TASK_KERNEL_STACK_SIZE in
      quiet (update t (set_kernel_stack kstack_phys top)) ;;
      quiet (update t (set_directory dir dir_phys)) ;;
      quiet (update t (set_user_stack 0 user_esp)) ;;
      sp ← stack_words top (user_frame sy user_esp entry_vaddr);
      quiet (make_ready t sp) ;;
      mret t.

(** ** Words on a stack *)

Fixpoint put_words (m : mem) (sp : Z) (vs : list Z) : mem :=
  match vs with
  | [] => m
  | v :: vs' => put_words (store32 m (sp - 4) v) (sp - 4) vs'
  end.

Lemma stack_words_run sp vs s c :
  4 * Z.of_nat (length vs) ≤ sp ≤ 4294967296 →
  stack_words sp vs (IO s c) =
  Some (sp - 4 * Z.of_nat (length vs), IO (set_vmem (upd_ram (λ m, put_words m sp vs) (vmem s)) s) c).
Proof.
  revert sp s. induction vs as [|v vs IH]; intros sp s Hsp; cbn [stack_words put_words length].
  - replace (sp - 4 * Z.of_nat 0) with sp by lia. by destruct s as [[] ? ? ? ? ? ? ? ? ? ?].
  - cbn [length] in Hsp. rewrite (u32_small (sp - 4)) by lia. rewrite bind_run. cbn [quiet zoom modify st con].
    unfold quiet, zoom. cbn [modify st con]. rewrite IH by lia. f_equal. f_equal. lia.
Qed.

Lemma load32_put_words_ne m sp vs a :
  a + 4 ≤ sp - 4 * Z.of_nat (length vs) ∨ sp ≤ a → load32 (put_words m sp vs) a = load32 m a.
Proof.
  revert m sp. induction vs as [|v vs IH]; intros m sp Ha; cbn [put_words]; [done|].
  cbn [length] in Ha. rewrite IH by lia. apply load32_store32_ne. lia.
Qed.

Lemma load32_put_words m sp vs k v :
  Forall word32 vs → vs !! k = Some v → load32 (put_words m sp vs) (sp - 4 - 4 * Z.of_nat k) = v.
Proof.
  revert m sp k. induction vs as [|x vs IH]; intros m sp k Hw Hk; [done|].
  apply Forall_cons_iff in Hw as [Hx Hw]. cbn [put_words]. destruct k as [|k].
  - injection Hk as <-. rewrite load32_put_words_ne by lia.
    replace (sp - 4 - 4 * Z.of_nat 0) with (sp - 4) by lia. by apply load32_store32_eq.
  - replace (sp - 4 - 4 * Z.of_nat (S k)) with (sp - 4 - 4 - 4 * Z.of_nat k) by lia. by apply IH.
Qed.

(** ** The pool *)

(** Slots outside the queue are zero, queued ones have a kernel stack. *)
Record task_inv (s : os) (qs : list ptr) : Prop := {
  ti_sched : sched_inv s qs;
  ti_free : ∀ i t, task_pool s !! i = Some t → PSlot i ∉ qs → t = zero_task;
  ti_live : ∀ i t, task_pool s !! i = Some t → PSlot i ∈ qs → t_kernel_stack t ≠ 0
}.

Lemma pool_lookup s qs i : queue s qs → (i < 64)%nat → ∃ t, task_pool s !! i = Some t.
Proof. intros Hq Hi. apply lookup_lt_is_Some_2. by rewrite (queue_pool _ _ Hq). Qed.

(** [alloc_tcb] finds the first slot outside the queue. *)
Lemma alloc_tcb_run s qs :
  task_inv s qs →
  (∃ i, (i < 64)%nat ∧ alloc_tcb s = Some (PSlot i, s) ∧ (PSlot i ∉ qs) ∧ task_pool s !! i = Some zero_task ∧
        ∀ j, (j < i)%nat → PSlot j ∈ qs) ∨
  (alloc_tcb s = Some (PNull, s) ∧ ∀ i, (i < 64)%nat → PSlot i ∈ qs).
Proof.
  intros [Hs Hfree Hlive]. pose proof (si_queue _ _ Hs) as Hq. unfold alloc_tcb.
  set (body := λ i : Z, _).
  destruct (for_ret_inv (λ j s', s' = s ∧ ∀ k, Z.of_nat k < j → PSlot k ∈ qs)
    (λ p s', s' = s ∧ ∃ i, p = PSlot i ∧ (i < 64)%nat ∧ (PSlot i ∉ qs) ∧ task_pool s !! i = Some zero_task ∧
       ∀ j, (j < i)%nat → PSlot j ∈ qs) body (Z.to_nat TASK_MAX_TASKS) 0 s)
    as [(s' & E & -> & Hall)|(p & s' & E & -> & i & -> & Hi & Hni & Hz & Hlow)].
  - intros j s' Hj [-> Hlow]. change (0 + Z.of_nat (Z.to_nat TASK_MAX_TASKS)) with 64 in Hj.
    destruct (pool_lookup s qs (Z.to_nat j) Hq) as (t & Et); [lia|].
    unfold body. rewrite (bind_Some _ _ _ _ _ (deref_run s (PSlot (Z.to_nat j)) t Et)).
    destruct (decide (PSlot (Z.to_nat j) ∈ qs)) as [Hin|Hni].
    + left. exists s. rewrite (proj2 (Z.eqb_neq _ _) (Hlive _ _ Et Hin)), andb_false_r.
      split_and!; [done|done|]. intros k Hk. destruct (Z.eq_dec (Z.of_nat k) j) as [<-|]; [by rewrite Nat2Z.id in Hin|].
      apply Hlow. lia.
    + right. pose proof (Hfree _ _ Et Hni) as ->. exists (PSlot (Z.to_nat j)), s. split_and!; [reflexivity|done|].
      exists (Z.to_nat j). split_and!; [done|lia|done|done|]. intros k Hk. apply Hlow. lia.
  - split; [done|]. intros k Hk. lia.
  - right. rewrite (bind_Some _ _ _ _ _ E). split; [done|]. intros i Hi. apply Hall.
    change (0 + Z.of_nat (Z.to_nat TASK_MAX_TASKS)) with 64. lia.
  - left. exists i. rewrite (bind_Some _ _ _ _ _ E). done.
Qed.

Lemma put_put s p x y : put_task p x (put_task p y s) = put_task p x s.
Proof. destruct p; [done|done|]. cbn. unfold set_pool. cbn. by rewrite list_insert_insert_eq. Qed.

(** Two assignments to the same task in a row. *)
Lemma update_put s p f t y :
  get_task s p = Some y → update p f (put_task p t s) = Some ((), put_task p (f t) s).
Proof. intros E. rewrite (update_run _ _ f t); [by rewrite put_put|]. by apply (get_put_eq _ _ _ y). Qed.

(** The name as it is stored: cut to 31 characters, padded with zeros. *)
Definition stored_name (name : list Z) : list Z := take 31 (name ++ replicate 31 0) ++ [0].

Lemma assign_identity_run s p name r :
  get_task s p = Some zero_task → nonzero name →
  assign_identity p (name ++ 0 :: r) s =
  Some ((), put_task p (set_name (stored_name name) (set_id (next_task_id s +! 1) zero_task))
              (set_task_id (next_task_id s +! 1) s)).
Proof.
  intros Ht Hn. unfold assign_identity. rewrite bind_run. cbn [get]. set (id := next_task_id s +! 1).
  rewrite bind_run. cbn [modify]. set (s0 := set_task_id id s).
  assert (get_task s0 p = Some zero_task) as Ht0 by (by destruct p).
  rewrite (bind_Some _ _ _ _ _ (update_run s0 p (set_id id) _ Ht0)).
  rewrite (bind_Some _ _ _ _ _ (deref_run _ p _ (get_put_eq s0 p (set_id id zero_task) _ Ht0))).
  change (Z.to_nat (TASK_NAME_MAX - 1)) with 31%nat. change (t_name (set_id id zero_task)) with (replicate 32 0).
  rewrite strncpy_cstr; [|exact Hn|rewrite length_replicate; lia].
  rewrite bind_run. cbn [of_option]. rewrite (update_put _ _ _ _ _ Ht0). do 3 f_equal.
  assert (length (take 31 (name ++ replicate 31 0)) = 31%nat) as Hl.
  { rewrite length_take, length_app, length_replicate. lia. }
  f_equal. unfold stored_name. change (drop 31 (replicate 32 0)) with [0].
  rewrite insert_app_r_alt by (rewrite Hl; lia). by rewrite Hl.
Qed.

(** ** Publishing a task *)

(** Moving memory and the id counter does not touch the queue. *)
Lemma queue_vmem s v qs : queue s qs → queue (set_vmem v s) qs.
Proof. intros Hq. split; apply Hq. Qed.

(** What stacking [words] below [top] and making [p] ready does. *)
Record spawned (s : os) (qs : list ptr) (p : ptr) (t : task) (top : Z) (words : list Z) (s' : os) : Prop := {
  sp_queue : queue s' (qs ++ [p]);
  sp_task : ∃ n, get_task s' p =
    Some (set_next n (set_state TASK_READY (set_esp (top - 4 * Z.of_nat (length words)) t)));
  sp_others : ∀ q, q ≠ p → set_next PNull <$> get_task s' q = set_next PNull <$> get_task s q ∧
    (q ∉ PBoot :: qs → get_task s' q = get_task s q);
  sp_vmem : vmem s' = upd_ram (λ m, put_words m top words) (vmem s);
  sp_current : current_task s' = current_task s;
  sp_slice : slice_remaining s' = slice_remaining s;
  sp_regs : regs s' = regs s;
  sp_id : next_task_id s' = next_task_id s;
  sp_on : scheduler_on s' = scheduler_on s
}.

Lemma set_next_eq t t' : set_next PNull t = set_next PNull t' → t = set_next (t_next t) t'.
Proof. destruct t, t'. unfold set_next. cbn. intros E. injection E. intros. by subst. Qed.

Lemma spawn_run s c qs p t top words :
  queue s qs → pool_slot p → p ∉ qs → get_task s p = Some t →
  4 * Z.of_nat (length words) ≤ top ≤ 4294967296 →
  ∃ s', (sp ← stack_words top words; quiet (make_ready p sp) ;; mret p) (IO s c) = Some (p, IO s' c) ∧
        spawned s qs p t top words s'.
Proof.
  intros Hq Hp Hni Ht Htop. mstep (stack_words_run top words s c Htop).
  set (sp := top - _). set (s1 := set_vmem _ s).
  assert (get_task s1 p = Some t) as Ht1 by (by destruct p).
  set (t' := set_next PNull (set_state TASK_READY (set_esp sp t))).
  assert (queue (put_task p t' s1) qs) as Hq1.
  { apply (queue_keep s1); [by apply queue_vmem|apply put_head|apply put_length| |].
    - intros q Hqq. unfold nx. rewrite (get_put _ _ _ _ _ Ht1). rewrite decide_False; [done|].
      intros <-. apply elem_of_cons in Hqq as [->|?]; [|done]. by destruct Hp as (i & ? & _).
    - rewrite put_current. apply Hq. }
  destruct (sched_add_task_run (put_task p t' s1) qs p t') as (s2 & E & Hq2 & Hm & Hst & _);
    [done..|by apply (get_put_eq _ _ _ t)|].
  assert (make_ready p sp s1 = Some ((), s2)) as Er.
  { unfold make_ready. mstep (update_run s1 p (set_esp sp) t Ht1).
    mstep (update_put s1 p (set_state TASK_READY) (set_esp sp t) t Ht1).
    mstep (update_put s1 p (set_next PNull) (set_state TASK_READY (set_esp sp t)) t Ht1). exact E. }
  mstep (quiet_run _ s1 c _ _ Er). exists s2. split; [reflexivity|].
  destruct Hm as (Hv & Hc & Hr & Hsl & Hon & Hid & _). autorewrite with tstore in *.
  split; try done.
  - destruct (Hst p) as [Hst' _]. clear Hst. rename Hst' into Hst. rewrite (get_put_eq _ _ _ _ Ht1) in Hst. cbn in Hst.
    destruct (get_task s2 p) as [t2|]; [|done]. cbn in Hst. apply (inj Some) in Hst.
    apply set_next_eq in Hst. exists (t_next t2). by rewrite Hst.
  - intros q Hqp. destruct (Hst q) as [Hst1 Hst2].
    rewrite (get_put _ _ _ _ _ Ht1), decide_False in Hst1, Hst2 by done.
    split; [rewrite Hst1; by destruct q|]. intros Hqq. rewrite Hst2; [by destruct q|].
    rewrite app_comm_cons, elem_of_app, list_elem_of_singleton. tauto.
Qed.

Lemma spawned_get s qs p t top words s' q x :
  spawned s qs p t top words s' → q ≠ p → get_task s' q = Some x →
  ∃ y n, get_task s q = Some y ∧ x = set_next n y.
Proof.
  intros Hsp Hne Hx. destruct (sp_others _ _ _ _ _ _ _ Hsp q Hne) as [E _]. rewrite Hx in E. cbn in E.
  destruct (get_task s q) as [y|]; [|done]. cbn in E. apply (inj Some) in E. apply set_next_eq in E.
  by exists y, (t_next x).
Qed.

(** Spawning keeps the invariants; [s0] is the state before slot [p] was
    filled with [t]. *)
Lemma spawned_inv s qs i t top words s' :
  sched_inv s qs → (∀ j u, j ≠ i → task_pool s !! j = Some u →
    (PSlot j ∉ qs → u = zero_task) ∧ (PSlot j ∈ qs → t_kernel_stack u ≠ 0)) →
  PSlot i ∉ qs → t_kernel_stack t ≠ 0 →
  spawned s qs (PSlot i) t top words s' → task_inv s' (qs ++ [PSlot i]).
Proof.
  intros Hs Hpool Hni Hk Hsp. destruct (sp_task _ _ _ _ _ _ _ Hsp) as (n & Hp).
  pose proof (sp_queue _ _ _ _ _ _ _ Hsp) as Hq'. pose proof (queue_current _ _ (si_queue _ _ Hs)) as Hcur.
  assert (current_task s ≠ PSlot i) as Hci by (intros E; rewrite E, elem_of_cons in Hcur; destruct Hcur; done).
  assert (∀ x, task_cr3 s' x = task_cr3 s x) as Hcr.
  { intros x. unfold task_cr3, paging_get_kernel_cr3. by rewrite (sp_vmem _ _ _ _ _ _ _ Hsp). }
  split; [split; [done| | |]| |].
  - intros q x Hq Hx Hst. rewrite (sp_current _ _ _ _ _ _ _ Hsp).
    destruct (decide (q = PSlot i)) as [->|Hne]; [rewrite Hp in Hx; by injection Hx as <-|].
    destruct (spawned_get _ _ _ _ _ _ _ _ _ Hsp Hne Hx) as (y & m & Hy & ->).
    apply (si_running _ _ Hs q y); [|done|done].
    rewrite app_comm_cons in Hq. apply elem_of_app in Hq as [?|?%list_elem_of_singleton]; done.
  - intros x Hx. rewrite (sp_current _ _ _ _ _ _ _ Hsp) in Hx.
    destruct (spawned_get _ _ _ _ _ _ _ _ _ Hsp Hci Hx) as (y & m & Hy & ->).
    rewrite (sp_vmem _ _ _ _ _ _ _ Hsp), Hcr. apply (si_cr3 _ _ Hs y Hy).
  - rewrite (sp_slice _ _ _ _ _ _ _ Hsp). apply Hs.
  - intros j x Hx Hj. rewrite elem_of_app, list_elem_of_singleton in Hj.
    assert (j ≠ i) as Hji by (intros ->; tauto).
    destruct (sp_others _ _ _ _ _ _ _ Hsp (PSlot j)) as [_ Hsame]; [congruence|].
    apply (Hpool j x Hji); [|tauto]. change (get_task s' (PSlot j) = Some x) in Hx.
    rewrite Hsame in Hx; [done|]. rewrite elem_of_cons. intros [?|?]; [done|tauto].
  - intros j x Hx Hj. destruct (decide (j = i)) as [->|Hji].
    + change (get_task s' (PSlot i) = Some x) in Hx. rewrite Hp in Hx. by injection Hx as <-.
    + destruct (spawned_get _ _ _ _ _ _ _ (PSlot j) x Hsp) as (y & m & Hy & ->); [congruence|done|].
      apply (Hpool j y Hji Hy). rewrite elem_of_app, list_elem_of_singleton in Hj. destruct Hj; [done|congruence].
Qed.

(** ** The first switch to a task *)

(** Whatever runs on another stack, switching to [t] loads the registers [r]. *)
Definition starts_at (s : os) (t : task) (r : cpu) : Prop :=
  ∀ old told r0, get_task s old = Some told → cpu_ok r0 →
    esp r0 ≤ t_esp t ∨ t_esp0 t ≤ esp r0 - 16 →
    ∃ s2, task_switch old (t_esp t) (with_cpu r0 (ram (vmem s)) s) = Some ((), s2) ∧ regs s2 = r.

Lemma spawned_word s qs p t top words s' k w :
  spawned s qs p t top words s' → Forall word32 words → words !! k = Some w →
  load32 (ram (vmem s')) (top - 4 - 4 * Z.of_nat k) = w.
Proof. intros Hsp Hw Hk. rewrite (sp_vmem _ _ _ _ _ _ _ Hsp). by apply load32_put_words. Qed.

Lemma spawned_at s qs p t top words s' k w a :
  spawned s qs p t top words s' → Forall word32 words → words !! k = Some w → a = top - 4 - 4 * Z.of_nat k →
  load32 (ram (vmem s')) a = w.
Proof. intros Hsp Hw Hk ->. by apply (spawned_word s qs p t top words). Qed.

Lemma spawned_starts s qs p t top pre ip s' t' :
  spawned s qs p t top (pre ++ [ip; 0; 0; 0; 0]) s' → Forall word32 (pre ++ [ip; 0; 0; 0; 0]) →
  get_task s' p = Some t' → t_esp0 t = top → 4 * Z.of_nat (length pre) + 20 ≤ top < 4294967296 →
  starts_at s' t' (Cpu 0 0 0 0 (top - 4 * Z.of_nat (length pre)) ip).
Proof.
  intros Hsp Hw Ht' Htop Hb old told r0 Hold Hr0 Hdis.
  destruct (sp_task _ _ _ _ _ _ _ Hsp) as (n & Ht). rewrite Ht in Ht'. injection Ht' as <-.
  cbn [t_esp t_esp0 set_next set_state set_esp] in *. rewrite length_app in *. cbn [length] in *.
  set (L := length pre) in *. set (sp := top - 4 * Z.of_nat (L + 5)) in *.
  assert (∀ k w, [ip; 0; 0; 0; 0] !! k = Some w → load32 (ram (vmem s')) (sp + 16 - 4 * Z.of_nat k) = w) as Hword.
  { intros k w Hk. assert (k < 5)%nat by (by apply lookup_lt_Some in Hk).
    rewrite <- (spawned_word _ _ _ _ _ _ _ (L + k) w Hsp Hw); [f_equal; lia|].
    rewrite lookup_app_r by (unfold L; lia). by replace (L + k - length pre)%nat with k by (unfold L; lia). }
  rewrite (task_switch_run _ _ told) by (by rewrite get_with_cpu).
  eexists. split; [reflexivity|]. rewrite !regs_with_cpu, ram_with_cpu.
  assert (sp = top - 4 * Z.of_nat (L + 5)) as Esp by reflexivity. clearbody sp.
  rewrite load_frame_ok by lia. rewrite !load32_save_frame_ne by (assumption || lia).
  rewrite <- (Hword 0%nat ip eq_refl). rewrite <- (Hword 4%nat 0 eq_refl) at 4.
  rewrite <- (Hword 3%nat 0 eq_refl) at 3. rewrite <- (Hword 2%nat 0 eq_refl) at 2.
  rewrite <- (Hword 1%nat 0 eq_refl) at 1.
  f_equal; solve [lia | f_equal; lia].
Qed.

(** Only the words of the first frame matter. *)
Lemma starts_at_ext s s' t r :
  (∀ p, get_task s' p = get_task s p) → 0 ≤ t_esp t < 4294967296 - 20 → t_esp t + 20 ≤ t_esp0 t →
  (∀ a, t_esp t ≤ a < t_esp t + 20 → load8 (ram (vmem s')) a = load8 (ram (vmem s)) a) →
  starts_at s t r → starts_at s' t r.
Proof.
  intros Hg He Htop Hm Hst old told r0 Hold Hr0 Hdis. rewrite Hg in Hold.
  destruct (Hst old told r0 Hold Hr0 Hdis) as (s2 & E & <-).
  rewrite (task_switch_run _ _ told) in E by (by rewrite get_with_cpu). injection E as <-.
  rewrite (task_switch_run _ _ told) by (by rewrite get_with_cpu, Hg). eexists. split; [reflexivity|].
  rewrite !regs_with_cpu, !ram_with_cpu, !load_frame_ok by lia.
  assert (∀ o, 0 ≤ o ≤ 16 → load32 (ram (vmem s')) (t_esp t + o) = load32 (ram (vmem s)) (t_esp t + o)) as Hw.
  { intros o Ho. apply load32_ext. intros i Hi. apply Hm. lia. }
  pose proof (Hw 0 ltac:(lia)) as Hw0. rewrite !Z.add_0_r in Hw0.
  rewrite !load32_save_frame_ne by (assumption || lia). by rewrite !Hw, Hw0 by lia.
Qed.

(** ** Allocation of a stack page *)

Lemma vm_op_alloc s c a p' :
  alloc_page (frames (vmem s)) = Some (a, p') →
  vm_op pmm_alloc (IO s c) = Some (a, IO (set_vmem (set_frames p' (vmem s)) s) c).
Proof. intros E. unfold vm_op, zoom_io, zoom, pmm_alloc, quiet, zoom. cbn. by rewrite E. Qed.

Lemma set_vmem_id s : set_vmem (set_frames (frames (vmem s)) (vmem s)) s = s.
Proof. by destruct s as [[] ? ? ? ? ? ? ? ? ? ?]. Qed.

(** The control block after the identity has been assigned. *)
Definition named (s : os) (name : list Z) : task :=
  set_name (stored_name name) (set_id (next_task_id s +! 1) zero_task).

(** Filling a free slot keeps the scheduler's invariant. *)
Lemma fill_slot_inv s qs i t :
  task_inv s qs → (i < 64)%nat → PSlot i ∉ qs →
  sched_inv (put_task (PSlot i) t s) qs ∧
  ∀ j u, j ≠ i → task_pool (put_task (PSlot i) t s) !! j = Some u →
    (PSlot j ∉ qs → u = zero_task) ∧ (PSlot j ∈ qs → t_kernel_stack u ≠ 0).
Proof.
  intros [Hs Hfree Hlive] Hi Hni. pose proof (si_queue _ _ Hs) as Hq.
  destruct (pool_lookup s qs i Hq Hi) as (u0 & Eu).
  assert (∀ q, q ∈ PBoot :: qs → get_task (put_task (PSlot i) t s) q = get_task s q) as Hsame.
  { intros q Hqq. rewrite (get_put s (PSlot i) q u0 t Eu), decide_False; [done|]. intros <-.
    apply elem_of_cons in Hqq as [?|?]; done. }
  split.
  - split; [|intros q x Hqq; rewrite Hsame by done; by apply Hs| |apply Hs].
    + apply (queue_keep s); [done|apply put_head|apply put_length| |apply Hq].
      intros q Hqq. unfold nx. by rewrite Hsame.
    + intros x. rewrite put_current, Hsame by apply Hq. apply Hs.
  - intros j u Hji Hu. cbn in Hu. rewrite list_lookup_insert_ne in Hu by done.
    split; intros Hj; [by apply (Hfree j)|by apply (Hlive j)].
Qed.

Lemma task_inv_frames s qs id p :
  task_inv s qs → task_inv (set_vmem (set_frames p (vmem s)) (set_task_id id s)) qs.
Proof.
  intros [[Hq Hr Hc Hs] Hf Hl]. split; [split|exact Hf|exact Hl].
  - split; apply Hq.
  - intros q t Hqq Ht. apply (Hr q t Hqq). by destruct q.
  - intros t Ht. apply (Hc t). cbn [current_task set_vmem set_task_id] in Ht. by destruct (current_task s).
  - exact Hs.
Qed.

(** The end of every creating function: slot [i] has been filled with [t],
    whose stack page has just been allocated. *)
Lemma spawn_new s c qs i t p' id words :
  task_inv s qs → (i < 64)%nat → PSlot i ∉ qs → task_pool s !! i = Some zero_task →
  fresh_page (frames (vmem s)) (t_kernel_stack t) p' → t_esp0 t = t_kernel_stack t + PAGE_SIZE →
  (length words ≤ 1024)%nat →
  let s1 := put_task (PSlot i) t (set_vmem (set_frames p' (vmem s)) (set_task_id id s)) in
  ∃ s', (sp ← stack_words (t_esp0 t) words; quiet (make_ready (PSlot i) sp) ;; mret (PSlot i)) (IO s1 c) =
          Some (PSlot i, IO s' c) ∧
        spawned s1 qs (PSlot i) t (t_esp0 t) words s' ∧ task_inv s' (qs ++ [PSlot i]) ∧
        frames (vmem s') = p' ∧
        (∀ a, a + 4 ≤ t_kernel_stack t ∨ t_kernel_stack t + PAGE_SIZE ≤ a →
           load32 (ram (vmem s')) a = load32 (ram (vmem s)) a).
Proof.
  intros Hti Hi Hni Hz Hfp Htop Hlen s1. pose proof (fp_pool _ _ _ Hfp) as [Hlo Hhi].
  unfold PMM_POOL_START, PMM_POOL_END, PAGE_SIZE in *.
  pose proof (task_inv_frames s qs id p' Hti) as Hti0.
  destruct (fill_slot_inv _ qs i t Hti0 Hi Hni) as [Hs1 Hpool]. fold s1 in Hs1, Hpool.
  destruct (spawn_run s1 c qs (PSlot i) t (t_esp0 t) words) as (s' & E & Hsp);
    [apply Hs1|by exists i|done| |lia|].
  { exact (get_put_eq _ (PSlot i) t zero_task Hz). }
  exists s'. split_and!; [done|done| | |].
  - apply (spawned_inv s1 qs i t (t_esp0 t) words); try done. lia.
  - by rewrite (sp_vmem _ _ _ _ _ _ _ Hsp).
  - intros a Ha. rewrite (sp_vmem _ _ _ _ _ _ _ Hsp). cbn [ram upd_ram].
    rewrite load32_put_words_ne by lia. done.
Qed.

(** ** Reaping *)

Definition dead (s : os) (p : ptr) : Prop := state_of s p = Some TASK_DEAD.

#[export] Instance dead_dec s p : Decision (dead s p).
Proof. unfold dead. apply _. Defined.

(** The frames a task owns: its kernel stack and its address space. *)
Definition owned (m : mem) (t : task) : list Z :=
  t_kernel_stack t :: (if t_page_dir t =? 0 then [] else dir_frames m (t_page_dir t)).

Definition owned_by_slot (s : os) (j : Z) : list Z :=
  match task_pool s !! Z.to_nat j with
  | Some t => if decide (t_state t = TASK_DEAD) then owned (ram (vmem s)) t else []
  | None => []
  end.

(** What the first [i] slots hand back. *)
Definition reaped_frames (s : os) (i : Z) : list Z := concat (owned_by_slot s <$> seqZ 0 i).

Lemma reaped_frames_S s i : 0 ≤ i → reaped_frames s (i + 1) = reaped_frames s i ++ owned_by_slot s i.
Proof.
  intros Hi. unfold reaped_frames. rewrite seqZ_app, fmap_app, concat_app by lia.
  f_equal. replace (0 + i) with i by lia.
  rewrite seqZ_cons, seqZ_nil by lia. rewrite fmap_cons. cbn [concat fmap list_fmap]. by rewrite app_nil_r.
Qed.

Lemma vm_op_run {A} (f : M (io vm) A) s c a v c' :
  f (IO (vmem s) c) = Some (a, IO v c') → vm_op f (IO s c) = Some (a, IO (set_vmem v s) c').
Proof. intros E. unfold vm_op, zoom_io, zoom. cbn. by rewrite E. Qed.

Lemma vm_op_bind {A B} (f : M (io vm) A) (g : A → M (io vm) B) s :
  vm_op (f ≫= g) s = (vm_op f ≫= λ a, vm_op (g a)) s.
Proof.
  unfold vm_op, zoom_io, zoom, mbind, M_bind. destruct s as [s c]. cbn [st con].
  destruct (f (IO (vmem s) c)) as [[a [v k]]|]; [|done]. cbn [st con].
  destruct (g a _) as [[b [v' k']]|]; [|done]. cbn. by destruct s.
Qed.

(** Freeing what a dead task owns. *)
Lemma free_owned t s c :
  (t_page_dir t ≠ 0 ∨ t_user_stack t = 0) →
  (vm_op (pmm_free (t_kernel_stack t)) ;;
   (if negb (t_page_dir t =? 0) then vm_op (paging_free_directory (t_page_dir t))
    else if negb (t_user_stack t =? 0) then
      vm_op (paging_unmap_page (t_user_stack t)) ;; vm_op (pmm_free (t_user_stack t))
    else mret ())) (IO s c) = vm_op (frees (owned (ram (vmem s)) t)) (IO s c).
Proof.
  intros Hu. unfold owned. cbn [frees]. rewrite vm_op_bind. rewrite !bind_run.
  destruct (vm_op (pmm_free (t_kernel_stack t)) (IO s c)) as [[[] [s1 c1]]|] eqn:E; [|done].
  destruct (Z.eqb_spec (t_page_dir t) 0) as [E0|E0]; cbn [negb].
  - destruct Hu as [?| ->]; [done|]. cbn. unfold vm_op, zoom_io, zoom. cbn. by destruct s1.
  - unfold vm_op, zoom_io, zoom. cbn [st con]. rewrite free_directory_frees by done. cbn [st].
    replace (ram (vmem s1)) with (ram (vmem s)); [done|].
    unfold vm_op, zoom_io, zoom, pmm_free, zoom_io, zoom in E. cbn in E.
    destruct (free_page (t_kernel_stack t) _) as [[[] [p k]]|]; [|done]. by injection E as <- _.
Qed.

(** Dead tasks among the first [i] slots. *)
Definition dead_below (s : os) (i : Z) (p : ptr) : Prop :=
  dead s p ∧ match p with PSlot j => Z.of_nat j < i | _ => False end.

(** The state of [task_reap], started in [s], before slot [i]. *)
Record reaping (s : os) (qs : list ptr) (c : list Z) (i : Z) (t : io os) : Prop := {
  rp_con : con t = c;
  rp_queue : ∃ q, queue (st t) q ∧ q `sublist_of` qs ∧ ∀ p, p ∈ q ↔ p ∈ qs ∧ ¬ dead_below s i p;
  rp_frames : frees (reaped_frames s i) (IO (vmem s) c) = Some ((), IO (vmem (st t)) c);
  rp_ram : ram (vmem (st t)) = ram (vmem s);
  rp_machine : current_task (st t) = current_task s ∧ regs (st t) = regs s ∧
    slice_remaining (st t) = slice_remaining s ∧ next_task_id (st t) = next_task_id s;
  rp_kept : ∀ p, ¬ dead_below s i p →
    set_next PNull <$> get_task (st t) p = set_next PNull <$> get_task s p ∧
    (p ∉ PBoot :: qs → get_task (st t) p = get_task s p);
  rp_gone : ∀ j, dead_below s i (PSlot j) → task_pool (st t) !! j = Some zero_task
}.

(** When a state of the pool can be reaped: the running task is not dead, no
    dead task has a stack outside its address space, and the frames of the
    dead tasks are distinct allocated frames. *)
Record reapable (s : os) (qs : list ptr) : Prop := {
  ra_inv : task_inv s qs;
  ra_current : ¬ dead s (current_task s);
  ra_stack : ∀ j t, task_pool s !! j = Some t → t_state t = TASK_DEAD → t_page_dir t ≠ 0 ∨ t_user_stack t = 0;
  ra_pmm : pmm_wf (frames (vmem s));
  ra_nodup : NoDup (reaped_frames s 64);
  ra_used : Forall (frame_used (frames (vmem s))) (reaped_frames s 64)
}.

Lemma reaped_prefix s i : 0 ≤ i ≤ 64 → ∃ rest, reaped_frames s 64 = reaped_frames s i ++ rest.
Proof.
  intros Hi. unfold reaped_frames. replace 64 with (i + (64 - i)) by lia.
  rewrite seqZ_app, fmap_app, concat_app by lia. by eexists.
Qed.

Lemma frees_prefix s qs c i :
  reapable s qs → 0 ≤ i ≤ 64 →
  ∃ p', frees (reaped_frames s i) (IO (vmem s) c) = Some ((), IO (set_frames p' (vmem s)) c) ∧ pmm_wf p' ∧
    (∀ g, is_frame g → used p' g = used (frames (vmem s)) g && negb (listed (reaped_frames s i) g)).
Proof.
  intros Hr Hi. destruct (reaped_prefix s i Hi) as (rest & E). pose proof (ra_nodup _ _ Hr) as Hnd.
  pose proof (ra_used _ _ Hr) as Hu. rewrite E in Hnd, Hu.
  apply frees_run; [apply Hr|by apply list.NoDup_app in Hnd as [? _]|by apply Forall_app in Hu as [? _]].
Qed.

Lemma dead_slot s qs j t :
  task_inv s qs → task_pool s !! j = Some t → t_state t = TASK_DEAD →
  PSlot j ∈ qs ∧ t_kernel_stack t ≠ 0 ∧ dead s (PSlot j).
Proof.
  intros Hti Ht Hd. assert (dead s (PSlot j)) as Hdead by (unfold dead, state_of; cbn; rewrite Ht; cbn; by rewrite Hd).
  destruct (decide (PSlot j ∈ qs)) as [Hin|Hni].
  - split_and!; [done| |done]. by apply (ti_live _ _ Hti j).
  - by rewrite (ti_free _ _ Hti j t Ht Hni) in Hd.
Qed.

(** The next slot does not hold a dead task: nothing happens. *)
Lemma reap_slot_skip s qs c i t x :
  reaping s qs c i t → 0 ≤ i → ¬ dead s (PSlot (Z.to_nat i)) →
  task_pool s !! Z.to_nat i = Some x → reap_slot i t = Some ((), t) ∧ reaping s qs c (i + 1) t.
Proof.
  intros Hrp Hi Hd Hx. assert (t_state x ≠ TASK_DEAD) as Hst.
  { intros E. apply Hd. unfold dead, state_of. cbn. rewrite Hx. cbn. by rewrite E. }
  assert (∀ p, dead_below s (i + 1) p ↔ dead_below s i p) as Hiff.
  { intros p. unfold dead_below. destruct p as [| |j]; try done. split; intros [Hdj Hj]; (split; [done|]); [|lia].
    destruct (Z.eq_dec (Z.of_nat j) i) as [E|]; [|lia]. rewrite <- E, Nat2Z.id in Hd. done. }
  split.
  - destruct t as [u k]. unfold reap_slot.
    destruct (rp_kept _ _ _ _ _ Hrp (PSlot (Z.to_nat i))) as [Hk _].
    { rewrite <- Hiff. by intros [? _]. }
    cbn [get_task st] in Hk. rewrite Hx in Hk. destruct (task_pool u !! Z.to_nat i) as [y|] eqn:Ey; [|done].
    cbn in Hk. apply (inj Some), set_next_eq in Hk.
    rewrite (bind_Some _ _ _ _ _ (quiet_run _ u k _ _ (deref_run u (PSlot (Z.to_nat i)) y Ey))).
    rewrite bool_decide_eq_false_2; [done|]. by rewrite Hk.
  - destruct Hrp as [H1 H2 H3 H4 H5 H6 H7]. split; try done.
    + destruct H2 as (q & Hq & Hsub & Hin). exists q. split_and!; [done|done|]. intros p. by rewrite Hiff.
    + rewrite reaped_frames_S by done. unfold owned_by_slot. rewrite Hx, decide_False by done. by rewrite app_nil_r.
    + intros p. rewrite Hiff. apply H6.
    + intros j. rewrite Hiff. apply H7.
Qed.

Lemma frees_step s qs c i t :
  reapable s qs → reaping s qs c i t → 0 ≤ i < 64 →
  ∃ p', frees (owned_by_slot s i) (IO (vmem (st t)) c) = Some ((), IO (set_frames p' (vmem s)) c) ∧
        frees (reaped_frames s (i + 1)) (IO (vmem s) c) = Some ((), IO (set_frames p' (vmem s)) c).
Proof.
  intros Hra Hrp Hi. destruct (frees_prefix s qs c (i + 1) Hra) as (p' & E & _); [lia|].
  exists p'. split; [|done]. rewrite reaped_frames_S, frees_app, bind_run, (rp_frames _ _ _ _ _ Hrp) in E by lia.
  exact E.
Qed.

Lemma dead_below_S s i p :
  0 ≤ i → dead s (PSlot (Z.to_nat i)) → (dead_below s (i + 1) p ↔ dead_below s i p ∨ p = PSlot (Z.to_nat i)).
Proof.
  intros Hi Hd. unfold dead_below. split.
  - intros [Hdp Hp]. destruct p as [| |j]; try done. destruct (Z.eq_dec (Z.of_nat j) i) as [<-|].
    + right. by rewrite Nat2Z.id.
    + left. split; [done|lia].
  - intros [[Hdp Hp]| ->]; [|split; [done|lia]]. split; [done|]. destruct p; try done. lia.
Qed.

(** The queue without a dead task. *)
Lemma reaped_queue s qs i l1 p l2 :
  NoDup (l1 ++ p :: l2) → 0 ≤ i → dead s (PSlot (Z.to_nat i)) → p = PSlot (Z.to_nat i) →
  l1 ++ p :: l2 `sublist_of` qs → (∀ x, x ∈ l1 ++ p :: l2 ↔ x ∈ qs ∧ ¬ dead_below s i x) →
  l1 ++ l2 `sublist_of` qs ∧ ∀ x, x ∈ l1 ++ l2 ↔ x ∈ qs ∧ ¬ dead_below s (i + 1) x.
Proof.
  intros Hnd Hi Hd Hp Hsub Hin. split.
  - etransitivity; [|exact Hsub]. apply sublist_app; [done|]. by apply sublist_cons.
  - apply list.NoDup_app in Hnd as (_ & Hdis & Hnd). apply list.NoDup_cons in Hnd as [Hp2 _].
    intros x. rewrite dead_below_S, <- Hp by done. specialize (Hin x).
    rewrite elem_of_app, elem_of_cons in Hin. rewrite elem_of_app. split.
    + intros Hx. assert (x ≠ p). { intros ->. destruct Hx; [|done]. apply (Hdis p); [done|]. left. }
      tauto.
    + intros [Hx1 Hx2]. destruct Hin as [_ Hin]. destruct Hin as [?|[?|?]]; tauto.
Qed.

Lemma reaping_next s qs c i u u1 l1 l2 p' y :
  let p := PSlot (Z.to_nat i) in
  reaping s qs c i (IO u c) → 0 ≤ i → dead s p → p ∈ qs →
  queue u (l1 ++ p :: l2) → l1 ++ p :: l2 `sublist_of` qs → (∀ x, x ∈ l1 ++ p :: l2 ↔ x ∈ qs ∧ ¬ dead_below s i x) →
  queue u1 (l1 ++ l2) → same_machine u u1 → same_tasks (PBoot :: l1 ++ p :: l2) u u1 → get_task u1 p = Some y →
  frees (reaped_frames s (i + 1)) (IO (vmem s) c) = Some ((), IO (set_frames p' (vmem s)) c) →
  reaping s qs c (i + 1) (IO (put_task p zero_task (set_vmem (set_frames p' (vmem s)) u1)) c).
Proof.
  intros p [Hcon _ _ Hram (Hcur & Hregs & Hsl & Hid) Hkept Hgone] Hi Hd Hpin Hq Hsub Hqin Hq1
    (Hv1 & Hc1 & Hr1 & Hs1 & _ & Hid1 & _) Hst1 Hy Ef. cbn [st con] in *.
  destruct (reaped_queue s qs i l1 p l2 (queue_nodup _ _ Hq) Hi Hd eq_refl Hsub Hqin) as [Hsub' Hin'].
  set (u2 := set_vmem (set_frames p' (vmem s)) u1). assert (get_task u2 p = Some y) as Hy2 by exact Hy.
  pose proof (queue_nodup _ _ Hq) as Hnd. apply list.NoDup_app in Hnd as (_ & Hdis & Hnd).
  apply list.NoDup_cons in Hnd as [Hp2 _].
  assert (p ∉ l1 ++ l2) as Hpn. { intros [Hx|?]%elem_of_app; [|done]. apply (Hdis p Hx). left. }
  split; cbn [st con]; autorewrite with tstore; try done.
  - exists (l1 ++ l2). split_and!; [|done|done].
    apply (queue_keep u2); [by apply queue_vmem|apply put_head|apply put_length| |].
    + intros x Hx. unfold nx. rewrite (get_put _ _ _ _ _ Hy2), decide_False; [done|].
      intros <-. apply elem_of_cons in Hx as [?|?]; done.
    + rewrite put_current. apply Hq1.
  - cbn [u2 current_task regs slice_remaining next_task_id set_vmem]. split_and!; congruence.
  - intros x Hx. rewrite dead_below_S in Hx by done. fold p in Hx.
    rewrite (get_put _ _ _ _ _ Hy2), decide_False by (intros E; apply Hx; by right).
    replace (get_task u2 x) with (get_task u1 x) by (by destruct x).
    destruct (Hst1 x) as [Ha Hb], (Hkept x) as [Hc Hd']; [tauto|].
    split; [by rewrite Ha, Hc|]. intros Hxq. rewrite Hb, Hd'; [done|done|].
    intros Hin. apply Hxq. apply elem_of_cons in Hin as [->|Hin]; [left|]. right. by apply Hqin.
  - intros j Hj. rewrite dead_below_S in Hj by done. fold p in Hj.
    change (get_task (put_task p zero_task u2) (PSlot j) = Some zero_task).
    rewrite (get_put _ _ _ _ _ Hy2). case_decide as E; [done|].
    destruct Hj as [Hj|Hj]; [|congruence]. specialize (Hgone j Hj).
    destruct (Hst1 (PSlot j)) as [_ Hb]. change (get_task u1 (PSlot j) = Some zero_task).
    rewrite Hb; [exact Hgone|]. intros [?|Hin]%elem_of_cons; [done|]. apply Hqin in Hin. tauto.
Qed.

(** The next slot holds a dead task: it is unlinked, what it owns is freed
    and the slot is cleared. *)
Lemma reap_slot_dead s qs c i t x :
  reapable s qs → reaping s qs c i t → 0 ≤ i < 64 → task_pool s !! Z.to_nat i = Some x →
  t_state x = TASK_DEAD → ∃ t', reap_slot i t = Some ((), t') ∧ reaping s qs c (i + 1) t'.
Proof.
  intros Hra Hrp Hi Hx Hst. destruct (dead_slot s qs _ x (ra_inv _ _ Hra) Hx Hst) as (Hin & Hk & Hd).
  set (p := PSlot (Z.to_nat i)) in *. destruct (frees_step s qs c i t Hra Hrp Hi) as (p' & Ef & Ef').
  pose proof Hrp as [Hcon (q & Hq & Hsub & Hqin) _ Hram (Hcur & Hregs & Hsl & Hid) Hkept Hgone].
  assert (¬ dead_below s i p) as Hnb by (unfold dead_below, p; intros [_ ?]; lia).
  assert (p ∈ q) as Hpq by (by apply Hqin). apply list_elem_of_split in Hpq as (l1 & l2 & ->).
  destruct t as [u k]. cbn [st con] in *. subst k. destruct (Hkept p Hnb) as [Hy _].
  cbn [get_task p] in Hy. rewrite Hx in Hy. destruct (task_pool u !! Z.to_nat i) as [y|] eqn:Ey; [|done].
  cbn in Hy. apply (inj Some), set_next_eq in Hy.
  destruct (sched_remove_task_run u l1 p l2 Hq) as (u1 & E1 & Hq1 & Hm1 & Hst1 & Hp1 & _).
  { rewrite Hcur. intros E. apply (ra_current _ _ Hra). by rewrite E. }
  pose proof Hm1 as (Hv1 & _).
  assert (get_task u1 p = Some (set_next PNull y)) as Hp1' by (rewrite Hp1; cbn; by rewrite Ey).
  assert (owned_by_slot s i = owned (ram (vmem u1)) y) as Eo.
  { unfold owned_by_slot. rewrite Hx, decide_True by done. rewrite Hv1, Hram, Hy. done. }
  set (u2 := set_vmem (set_frames p' (vmem s)) u1).
  exists (IO (put_task p zero_task u2) c). split.
  - unfold reap_slot. fold p.
    rewrite (bind_Some _ _ _ _ _ (quiet_run _ u c _ _ (deref_run u p y Ey))).
    rewrite bool_decide_eq_true_2 by (by rewrite Hy). replace (t_kernel_stack y =? 0) with false
      by (symmetry; apply Z.eqb_neq; by rewrite Hy). cbn [andb negb].
    rewrite (bind_Some _ _ _ _ _ (quiet_run _ u c _ _ E1)).
    assert (t_page_dir y ≠ 0 ∨ t_user_stack y = 0) as Hstk.
    { rewrite Hy. apply (ra_stack _ _ Hra _ _ Hx Hst). }
    pose proof (free_owned y u1 c Hstk) as Efo. rewrite <- Eo in Efo.
    rewrite (vm_op_run (frees (owned_by_slot s i)) u1 c () (set_frames p' (vmem s)) c) in Efo by (by rewrite Hv1).
    rewrite bind_run in Efo |- *. destruct (vm_op (pmm_free (t_kernel_stack y)) (IO u1 c)) as [[[] w]|]; [|done].
    rewrite (bind_Some _ _ _ _ _ Efo). apply (quiet_run _ u2 c).
    unfold clear_task. apply (update_run u2 p (λ _, zero_task) (set_next PNull y)). exact Hp1'.
  - apply (reaping_next s qs c i u u1 l1 l2 p' (set_next PNull y)); done || lia.
Qed.

Lemma reaping_start s qs c : reapable s qs → reaping s qs c 0 (IO (set_if false s) c).
Proof.
  intros Hra. pose proof (si_queue _ _ (ti_sched _ _ (ra_inv _ _ Hra))) as Hq.
  split; cbn [st con]; try done.
  - exists qs. split_and!; [split; apply Hq|done|]. intros p. split; [|tauto]. intros Hp. split; [done|].
    intros [_ Hx]. destruct p; [done|done|lia].
  - intros j [_ Hj]. lia.
Qed.

Lemma task_reap_run s qs c :
  reapable s qs → ∃ t, task_reap (IO s c) = Some ((), t) ∧
    (∃ u, st t = set_if true u ∧ reaping s qs c 64 (IO u (con t))).
Proof.
  intros Hra. unfold task_reap. rewrite (bind_Some _ _ _ _ _ (quiet_run cli s c () (set_if false s) eq_refl)).
  destruct (for_loop_inv (reaping s qs c) reap_slot (Z.to_nat TASK_MAX_TASKS) 0 (IO (set_if false s) c))
    as (t & E & Hrp).
  - intros j t Hj Hrp. change (0 + Z.of_nat (Z.to_nat TASK_MAX_TASKS)) with 64 in Hj.
    destruct (pool_lookup s qs (Z.to_nat j)) as (x & Hx); [apply Hra|lia|].
    destruct (decide (dead s (PSlot (Z.to_nat j)))) as [Hd|Hd].
    + apply (reap_slot_dead s qs c j t x); [done|done|lia|done|].
      unfold dead, state_of in Hd. cbn in Hd. rewrite Hx in Hd. by injection Hd.
    + exists t. apply (reap_slot_skip s qs c j t x); [done|lia|done|done].
  - by apply reaping_start.
  - mstep E. destruct t as [u k]. eexists. split; [reflexivity|]. exists u. done.
Qed.

(** ** Theorems *)

(** C26: [task_create] starts a kernel task.  It returns [NULL] and changes
    nothing when no slot is free, and [NULL] with only the counter of task ids
    advanced when no frame is free.  Otherwise it takes the lowest free slot, puts a ready task with the given
    name and a fresh id and stack page at the end of the queue, changes no
    memory outside that page, and the first switch to the task arrives in
    [task_wrapper] with [entry] as its argument. *)
Theorem task_create_spec sy s c qs entry name r :
  task_inv s qs → pmm_inv (IO (frames (vmem s)) []) → nonzero name →
  word32 entry → word32 (sym_task_wrapper sy) →
  ∃ p s', task_create sy entry (name ++ 0 :: r) (IO s c) = Some (p, IO s' c) ∧
    ((p = PNull ∧ s' = s ∧ ∀ i, (i < 64)%nat → PSlot i ∈ qs) ∨
     (p = PNull ∧ s' = set_task_id (next_task_id s +! 1) s ∧
      ∀ g, is_frame g → used (frames (vmem s)) g = true) ∨
     (∃ i t, p = PSlot i ∧ (PSlot i ∉ qs) ∧ (∀ j, (j < i)%nat → PSlot j ∈ qs) ∧
      task_inv s' (qs ++ [p]) ∧ get_task s' p = Some t ∧
      t_state t = TASK_READY ∧ t_name t = stored_name name ∧ t_id t = next_task_id s +! 1 ∧
      fresh_page (frames (vmem s)) (t_kernel_stack t) (frames (vmem s')) ∧
      (∀ a, a + 4 ≤ t_kernel_stack t ∨ t_kernel_stack t + PAGE_SIZE ≤ a →
         load32 (ram (vmem s')) a = load32 (ram (vmem s)) a) ∧
      (let top := t_kernel_stack t + PAGE_SIZE in
       starts_at s' t (Cpu 0 0 0 0 (top - 8) (sym_task_wrapper sy)) ∧
       load32 (ram (vmem s')) (top - 8) = 0 ∧ load32 (ram (vmem s')) (top - 4) = entry))).
Proof.
  intros Hti Hpmm Hname He Hw. unfold task_create.
  destruct (alloc_tcb_run s qs Hti) as [(i & Hi & Ea & Hni & Hz & Hlow)|[Ea Hall]].
  2:{ exists PNull, s. mstep (quiet_run _ s c _ _ Ea). rewrite bool_decide_eq_true_2 by done.
      split; [done|]. left. done. }
  mstep (quiet_run _ s c _ _ Ea). rewrite bool_decide_eq_false_2 by done.
  mstep (quiet_run _ s c _ _ (assign_identity_run s (PSlot i) name r Hz Hname)).
  set (id := next_task_id s +! 1). fold (named s name).
  set (s0 := set_task_id id s). change (frames (vmem s)) with (frames (vmem (put_task (PSlot i) (named s name) s0))) in Hpmm.
  destruct (alloc_page_fresh _ _ Hpmm) as [(k & p' & Ek & Hfp & _)|[Ek Hused]].
  - mstep (vm_op_alloc _ c _ _ Ek). pose proof (fp_pool _ _ _ Hfp) as [Hlo Hhi].
    unfold PMM_POOL_START, PMM_POOL_END, PAGE_SIZE in Hlo, Hhi. destruct (Z.eqb_spec k 0); [lia|].
    rewrite u32_small by (unfold TASK_KERNEL_STACK_SIZE; lia). change TASK_KERNEL_STACK_SIZE with PAGE_SIZE.
    set (t := set_kernel_stack k (k + PAGE_SIZE) (named s name)).
    set (v := set_frames p' (vmem s)).
    assert (update (PSlot i) (set_kernel_stack k (k + PAGE_SIZE))
      (set_vmem v (put_task (PSlot i) (named s name) s0)) = Some ((), put_task (PSlot i) t (set_vmem v s0))) as Eu.
    { apply (update_put (set_vmem v s0) (PSlot i) _ (named s name) zero_task). exact Hz. }
    mstep (quiet_run _ _ c _ _ Eu).
    destruct (spawn_new s c qs i t p' id [entry; 0; sym_task_wrapper sy; 0; 0; 0; 0])
      as (s' & E & Hsp & Hti' & Hfr & Hmem); [done..|simpl; lia|].
    exists (PSlot i), s'. split; [exact E|]. right. right.
    destruct (sp_task _ _ _ _ _ _ _ Hsp) as (nx & Ht). eexists i, _.
    assert (Forall word32 [entry; 0; sym_task_wrapper sy; 0; 0; 0; 0]) as Hws.
    { repeat (constructor; [done || (unfold word32; lia)|]). constructor. }
    split_and!; [done|done|done|done|exact Ht|done|done|done|by rewrite Hfr|exact Hmem| | |].
    + change (t_kernel_stack _) with k. replace (k + PAGE_SIZE - 8) with (k + PAGE_SIZE - 4 * Z.of_nat (length [entry; 0])) by (simpl; lia).
      eapply (spawned_starts _ _ _ t _ [entry; 0]); [exact Hsp|exact Hws|exact Ht|done|].
      unfold PAGE_SIZE. simpl. lia.
    + change (t_kernel_stack _) with k. change (t_esp0 t) with (k + PAGE_SIZE) in Hsp.
      apply (spawned_at _ _ _ _ _ _ _ 1 _ _ Hsp Hws); [done|lia].
    + change (t_kernel_stack _) with k. change (t_esp0 t) with (k + PAGE_SIZE) in Hsp.
      apply (spawned_at _ _ _ _ _ _ _ 0 _ _ Hsp Hws); [done|lia].
  - mstep (vm_op_alloc _ c _ _ Ek). rewrite set_vmem_id. cbn [Z.eqb].
    assert (clear_task (PSlot i) (put_task (PSlot i) (named s name) s0) = Some ((), s0)) as Ec.
    { unfold clear_task. rewrite (update_put s0 (PSlot i) _ _ zero_task Hz). by rewrite (put_task_id s0). }
    mstep (quiet_run _ _ c _ _ Ec). exists PNull, s0. split; [done|]. right. left. done.
Qed.

Lemma user_mapped_run sy s c qs entry name r dir dir_phys user_esp :
  task_inv s qs → pmm_inv (IO (frames (vmem s)) []) → nonzero name →
  word32 entry → word32 user_esp → word32 (sym_enter_usermode sy) →
  ∃ p s', task_create_user_mapped sy entry (name ++ 0 :: r) dir dir_phys user_esp (IO s c) =
            Some (p, IO s' c) ∧
    ((p = PNull ∧ s' = s ∧ ∀ i, (i < 64)%nat → PSlot i ∈ qs) ∨
     (p = PNull ∧ s' = set_task_id (next_task_id s +! 1) s ∧
      ∀ g, is_frame g → used (frames (vmem s)) g = true) ∨
     (∃ i t, p = PSlot i ∧ ((PSlot i ∉ qs) ∧ current_task s' = current_task s ∧ scheduler_on s' = scheduler_on s) ∧ task_inv s' (qs ++ [p]) ∧ get_task s' p = Some t ∧
      t_id t = next_task_id s +! 1 ∧ t_esp0 t = t_kernel_stack t + PAGE_SIZE ∧ t_esp t = t_esp0 t - 40 ∧
      vmem s' = upd_ram (λ m, put_words m (t_kernel_stack t + PAGE_SIZE) (user_frame sy user_esp entry))
                  (set_frames (frames (vmem s')) (vmem s)) ∧ pmm_inv (IO (frames (vmem s')) []) ∧
      t_state t = TASK_READY ∧ t_is_user t = 1 ∧ t_page_dir t = dir ∧ t_cr3 t = dir_phys ∧
      fresh_page (frames (vmem s)) (t_kernel_stack t) (frames (vmem s')) ∧
      (let top := t_kernel_stack t + PAGE_SIZE in
       starts_at s' t (Cpu 0 0 0 0 (top - 20) (sym_enter_usermode sy)) ∧
       (λ k, load32 (ram (vmem s')) (top - 20 + 4 * k)) <$> [0; 1; 2; 3; 4] =
         [entry; 0x1B; 0x202; user_esp; 0x23]))).
Proof.
  intros Hti Hpmm Hname He Hue Hw. unfold task_create_user_mapped.
  destruct (alloc_tcb_run s qs Hti) as [(i & Hi & Ea & Hni & Hz & Hlow)|[Ea Hall]].
  2:{ exists PNull, s. mstep (quiet_run _ s c _ _ Ea). rewrite bool_decide_eq_true_2 by done.
      split; [done|]. left. done. }
  mstep (quiet_run _ s c _ _ Ea). rewrite bool_decide_eq_false_2 by done.
  mstep (quiet_run _ s c _ _ (assign_identity_run s (PSlot i) name r Hz Hname)).
  set (id := next_task_id s +! 1). fold (named s name). set (s0 := set_task_id id s).
  mstep (quiet_run _ _ c _ _ (update_put s0 (PSlot i) (set_is_user 1) (named s name) zero_task Hz)).
  set (t1 := set_is_user 1 (named s name)).
  change (frames (vmem s)) with (frames (vmem (put_task (PSlot i) t1 s0))) in Hpmm.
  destruct (alloc_page_fresh _ _ Hpmm) as [(k & p' & Ek & Hfp & Hp')|[Ek Hused]].
  - mstep (vm_op_alloc _ c _ _ Ek). pose proof (fp_pool _ _ _ Hfp) as [Hlo Hhi].
    unfold PMM_POOL_START, PMM_POOL_END, PAGE_SIZE in Hlo, Hhi. destruct (Z.eqb_spec k 0); [lia|].
    rewrite u32_small by (unfold TASK_KERNEL_STACK_SIZE; lia). change TASK_KERNEL_STACK_SIZE with PAGE_SIZE.
    set (v := set_frames p' (vmem s)).
    assert (∀ f t, update (PSlot i) f (put_task (PSlot i) t (set_vmem v s0)) =
      Some ((), put_task (PSlot i) (f t) (set_vmem v s0))) as Eu.
    { intros f t. apply (update_put (set_vmem v s0) (PSlot i) f t zero_task). exact Hz. }
    mstep (quiet_run _ _ c _ _ (Eu (set_kernel_stack k (k + PAGE_SIZE)) t1)).
    mstep (quiet_run _ _ c _ _ (Eu (set_directory dir dir_phys) (set_kernel_stack k (k + PAGE_SIZE) t1))).
    mstep (quiet_run _ _ c _ _ (Eu (set_user_stack 0 user_esp)
      (set_directory dir dir_phys (set_kernel_stack k (k + PAGE_SIZE) t1)))).
    set (t := set_user_stack 0 user_esp (set_directory dir dir_phys (set_kernel_stack k (k + PAGE_SIZE) t1))).
    destruct (spawn_new s c qs i t p' id (user_frame sy user_esp entry))
      as (s' & E & Hsp & Hti' & Hfr & _); [done..|simpl; lia|].
    exists (PSlot i), s'. split; [exact E|]. right. right.
    destruct (sp_task _ _ _ _ _ _ _ Hsp) as (nx & Ht). eexists i, _.
    assert (Forall word32 (user_frame sy user_esp entry)) as Hws.
    { repeat (constructor; [done || (unfold word32, GDT_USER_CODE_SEG, GDT_USER_DATA_SEG; lia)|]). constructor. }
    split_and!; [done|done|exact (sp_current _ _ _ _ _ _ _ Hsp)|exact (sp_on _ _ _ _ _ _ _ Hsp)|done|exact Ht|done|done|done| |by rewrite Hfr|done|done|done|done|by rewrite Hfr| |].
    { rewrite Hfr. exact (sp_vmem _ _ _ _ _ _ _ Hsp). }
    + change (t_kernel_stack _) with k. set (pre := [GDT_USER_DATA_SEG; user_esp; 0x202; GDT_USER_CODE_SEG; entry]).
      replace (k + PAGE_SIZE - 20) with (k + PAGE_SIZE - 4 * Z.of_nat (length pre)) by (simpl; lia).
      eapply (spawned_starts _ _ _ t _ pre); [exact Hsp|exact Hws|exact Ht|done|].
      unfold PAGE_SIZE. simpl. lia.
    + change (t_kernel_stack _) with k. change (t_esp0 t) with (k + PAGE_SIZE) in Hsp. cbn [fmap list_fmap].
      f_equal; [apply (spawned_at _ _ _ _ _ _ _ 4 _ _ Hsp Hws); [done|lia]|].
      f_equal; [apply (spawned_at _ _ _ _ _ _ _ 3 _ _ Hsp Hws); [done|lia]|].
      f_equal; [apply (spawned_at _ _ _ _ _ _ _ 2 _ _ Hsp Hws); [done|lia]|].
      f_equal; [apply (spawned_at _ _ _ _ _ _ _ 1 _ _ Hsp Hws); [done|lia]|].
      f_equal. apply (spawned_at _ _ _ _ _ _ _ 0 _ _ Hsp Hws); [done|lia].
  - mstep (vm_op_alloc _ c _ _ Ek). rewrite set_vmem_id. cbn [Z.eqb].
    assert (clear_task (PSlot i) (put_task (PSlot i) t1 s0) = Some ((), s0)) as Ec.
    { unfold clear_task. rewrite (update_put s0 (PSlot i) _ _ zero_task Hz). by rewrite (put_task_id s0). }
    mstep (quiet_run _ _ c _ _ Ec). exists PNull, s0. split; [done|]. right. left. done.
Qed.

(** C27: [task_create_user_mapped] starts a user task on a prepared address
    space.  It fails as [task_create] does; otherwise the new ready task has
    the given page directory, and the first switch to it arrives in
    [enter_usermode] with a stack from which [iret] takes, in this order, the
    entry point, the user code segment (ring 3), flags with interrupts
    enabled, the user stack pointer and the user data segment. *)
Theorem user_task_enters_ring3 sy s c qs entry name r dir dir_phys user_esp :
  task_inv s qs → pmm_inv (IO (frames (vmem s)) []) → nonzero name →
  word32 entry → word32 user_esp → word32 (sym_enter_usermode sy) →
  ∃ p s', task_create_user_mapped sy entry (name ++ 0 :: r) dir dir_phys user_esp (IO s c) =
            Some (p, IO s' c) ∧
    ((p = PNull ∧ s' = s ∧ ∀ i, (i < 64)%nat → PSlot i ∈ qs) ∨
     (p = PNull ∧ s' = set_task_id (next_task_id s +! 1) s ∧
      ∀ g, is_frame g → used (frames (vmem s)) g = true) ∨
     (∃ i t, p = PSlot i ∧ (PSlot i ∉ qs) ∧ task_inv s' (qs ++ [p]) ∧ get_task s' p = Some t ∧
      t_state t = TASK_READY ∧ t_is_user t = 1 ∧ t_page_dir t = dir ∧ t_cr3 t = dir_phys ∧
      fresh_page (frames (vmem s)) (t_kernel_stack t) (frames (vmem s')) ∧
      (let top := t_kernel_stack t + PAGE_SIZE in
       starts_at s' t (Cpu 0 0 0 0 (top - 20) (sym_enter_usermode sy)) ∧
       (λ k, load32 (ram (vmem s')) (top - 20 + 4 * k)) <$> [0; 1; 2; 3; 4] =
         [entry; 0x1B; 0x202; user_esp; 0x23]))).
Proof.
  intros Hti Hpmm Hname He Hue Hw.
  destruct (user_mapped_run sy s c qs entry name r dir dir_phys user_esp Hti Hpmm Hname He Hue Hw)
    as (p & s' & E & [H|[H|(i & t & H1 & [H2 _] & H3 & H4 & _ & _ & _ & _ & _ & H5)]]).
  - exists p, s'. auto.
  - exists p, s'. auto.
  - exists p, s'. split; [exact E|]. right. right. by exists i, t.
Qed.

(** C25: [task_reap] hands back everything dead tasks own and nothing else.  It
    unlinks every dead task from the queue, keeping the order of the others,
    frees exactly their kernel stacks and address spaces, each frame once and
    without a diagnostic, and clears their slots for reuse; every other task
    keeps all its fields but the link, and memory and the running task are
    unchanged. *)
Theorem task_reap_exact s c qs :
  reapable s qs →
  ∃ s' q, task_reap (IO s c) = Some ((), IO s' c) ∧ queue s' q ∧
    q `sublist_of` qs ∧ (∀ p, p ∈ q ↔ p ∈ qs ∧ ¬ dead s p) ∧
    pmm_wf (frames (vmem s')) ∧ ram (vmem s') = ram (vmem s) ∧ current_task s' = current_task s ∧
    (∀ g, is_frame g → used (frames (vmem s')) g =
       used (frames (vmem s)) g && negb (listed (reaped_frames s 64) g)) ∧
    (∀ j, dead s (PSlot j) → task_pool s' !! j = Some zero_task) ∧
    (∀ p, ¬ dead s p → set_next PNull <$> get_task s' p = set_next PNull <$> get_task s p).
Proof.
  intros Hra. pose proof (si_queue _ _ (ti_sched _ _ (ra_inv _ _ Hra))) as Hq0.
  destruct (task_reap_run s qs c Hra) as ([s' k] & E & u & Eu & Hrp). cbn [st con] in *. subst s'.
  destruct Hrp as [Hc (q & Hq & Hsub & Hin) Hf Hram (Hcur & _) Hkept Hgone]. cbn [st con] in *. subst k.
  destruct (frees_prefix s qs c 64 Hra) as (p' & Ef & Hwf & Hused); [lia|].
  rewrite Hf in Ef. injection Ef as Ev.
  assert (∀ j, dead s (PSlot j) → dead_below s 64 (PSlot j)) as Hall.
  { intros j Hd. split; [done|]. unfold dead, state_of in Hd. cbn in Hd.
    destruct (task_pool s !! j) eqn:Ej; [|done]. apply lookup_lt_Some in Ej. rewrite (queue_pool _ _ Hq0) in Ej. lia. }
  exists (set_if true u), q. cbn [vmem set_if]. rewrite Ev. cbn [ram frames set_frames].
  split_and!; try done.
  - split; apply Hq.
  - intros p. rewrite Hin. split; intros [Hp Hd]; (split; [done|]); [|by intros [? _]].
    intros Hdead. apply Hd. apply (queue_slots _ _ Hq0) in Hp as (j & -> & _). by apply Hall.
  - intros j Hj. apply Hgone, Hall, Hj.
  - intros p Hp. destruct (Hkept p) as [Hk _]; [by intros [? _]|]. rewrite <- Hk. by destruct p.
Qed.

(** ** Examples *)

Definition demo_symbols : symbols := Symbols 0x10000 0x10100 0x11000 0x11040 0x11080 0x110C0 0x11100 0x11140.

(** The system after [sched_init]: one task, the idle task. *)
Definition idle_os : os :=
  Os blank_vm (replicate 64 zero_task) 0 (Task 0 (str "idle" ++ replicate 28 0) TASK_RUNNING 0 0 0 0 0 0 0 0 PBoot)
     PBoot PBoot 0 10 0 true (Cpu 0 0 0 0 0x90000 0).

Lemma idle_inv : task_inv idle_os [].
Proof.
  split; [split; [split| | |]| |]; try done.
  - apply base.NoDup_nil_2.
  - intros p Hp. by apply not_elem_of_nil in Hp.
  - left.
  - intros p t Hp _ _. by apply list_elem_of_singleton in Hp.
  - intros t Ht. injection Ht as <-. done.
  - intros i t Ht _. by apply lookup_replicate in Ht as [? _].
  - intros i t _ Hi. by apply not_elem_of_nil in Hi.
Qed.

Lemma demo_name : nonzero (str "demo").
Proof. apply (bool_decide_unpack _). vm_compute. exact I. Qed.

Lemma task_create_spec_witness :
  ∃ p s', task_create demo_symbols 0x12345 (str "demo" ++ [0]) (IO idle_os []) = Some (p, IO s' []).
Proof.
  destruct (task_create_spec demo_symbols idle_os [] [] 0x12345 (str "demo") [])
    as (p & s' & E & _); [apply idle_inv|apply boot_pmm_inv|apply demo_name|done|done|].
  exists p, s'. exact E.
Defined.

Lemma user_task_enters_ring3_witness :
  ∃ p s', task_create_user_mapped demo_symbols 0x8048000 (str "demo" ++ [0]) 0x300000 0x300000 0xBFFFFFF0
            (IO idle_os []) = Some (p, IO s' []).
Proof.
  destruct (user_task_enters_ring3 demo_symbols idle_os [] [] 0x8048000 (str "demo") [] 0x300000 0x300000 0xBFFFFFF0)
    as (p & s' & E & _); [apply idle_inv|apply boot_pmm_inv|apply demo_name|done..|].
  exists p, s'. exact E.
Defined.

(** The idle task and one dead kernel task, whose stack is the first page of
    the pool. *)
Definition one_page : pmm_t := match alloc_page boot_pmm with Some (_, p) => p | None => boot_pmm end.
Definition dead_task : task := Task 1 (str "demo" ++ replicate 28 0) TASK_DEAD 0 0x202000 0x201000 0 0 0 0 0 PBoot.
Definition dead_os : os :=
  Os (set_frames one_page blank_vm) (dead_task :: replicate 63 zero_task) 1
     (Task 0 (str "idle" ++ replicate 28 0) TASK_RUNNING 0 0 0 0 0 0 0 0 (PSlot 0))
     PBoot PBoot 0 10 0 true (Cpu 0 0 0 0 0x90000 0).

Lemma dead_inv : task_inv dead_os [PSlot 0].
Proof.
  split; [split; [split| | |]| |]; try done.
  - apply NoDup_singleton.
  - intros p ->%list_elem_of_singleton. exists 0%nat. split; [done|lia].
  - left.
  - intros p t Hp Ht Hs. apply elem_of_cons in Hp as [->| ->%list_elem_of_singleton]; [done|].
    injection Ht as <-. done.
  - intros t Ht. injection Ht as <-. done.
  - intros [|i] t Ht Hi; [exfalso; apply Hi; left|]. by apply lookup_replicate in Ht as [? _].
  - intros i t Ht [= ->]%list_elem_of_singleton. injection Ht as <-. done.
Qed.

Lemma dead_frames : reaped_frames dead_os 64 = [0x201000].
Proof. vm_compute. reflexivity. Qed.

Lemma dead_reapable : reapable dead_os [PSlot 0].
Proof.
  split; [apply dead_inv|done| | | |].
  - intros j t Ht Hs. right. destruct j as [|j]; [by injection Ht as <-|].
    apply lookup_replicate in Ht as [-> _]. done.
  - change (pmm_wf one_page). unfold one_page. destruct (alloc_page_fresh boot_pmm [] boot_pmm_inv) as [(a & p & -> & _ & Hp)|[-> _]].
    + apply Hp.
    + apply boot_pmm_inv.
  - rewrite dead_frames. apply NoDup_singleton.
  - rewrite dead_frames. constructor; [|constructor]. split_and!; [done|done|done|vm_compute; reflexivity].
Qed.

Lemma task_reap_exact_witness :
  ∃ s' q, task_reap (IO dead_os []) = Some ((), IO s' []) ∧ queue s' q ∧ used (frames (vmem s')) 513 = false.
Proof.
  destruct (task_reap_exact dead_os [] [PSlot 0] dead_reapable) as (s' & q & E & Hq & _ & _ & _ & _ & _ & Hu & _).
  exists s', q. split; [exact E|]. split; [exact Hq|].
  rewrite (Hu 513) by (split; [done|reflexivity]). rewrite dead_frames. vm_compute. reflexivity.
Defined.
