(* ===== verification/TaskExit.v ===== *)
(** * Giving up the processor and ending a task

    [sched_yield] is the voluntary form of a timer tick; [task_exit] is a
    yield of a task that has marked itself dead.  A dead task is in no state
    the scheduler chooses, so it never runs again. *)

From S2P Require Import Prelude Console Pmm Memory Paging Sched Task.

Open Scope Z_scope.

(** ** Yielding *)

(** The running task goes on, or the first task of [L] that can run takes
    over. *)
Inductive yield_step (s : os) (L : list ptr) : os → Prop :=
  | yield_stay :
      default (current_task s) (List.find (runnable_at s) L) = current_task s →
      yield_step s L (set_if true s)
  | yield_switch next tp tn s' :
      List.find (runnable_at s) L = Some next → next ≠ current_task s →
      get_task s (current_task s) = Some tp → get_task s next = Some tn →
      switched (set_if false s) (current_task s) next tp tn s' →
      yield_step s L s'.

Lemma set_if_get b s p : get_task (set_if b s) p = get_task s p.
Proof. by destruct p. Qed.

Lemma set_if_inv b s qs : sched_inv s qs → sched_inv (set_if b s) qs.
Proof.
  intros [Hq Hr Hc Hs]. split; [|intros p t Hp; rewrite set_if_get; by apply Hr| |done].
  - apply (queue_keep s); [done|done|done| |apply Hq]. intros p _. unfold nx. by rewrite set_if_get.
  - intros t. rewrite set_if_get. apply Hc.
Qed.

(** [sched_yield] always returns, to the running task or to the one after it
    that can run. *)
Lemma sched_yield_run s qs L :
  sched_inv s qs → order s qs L →
  ∃ s', sched_yield s = Some ((), s') ∧ yield_step s L s' ∧ sched_inv s' qs.
Proof.
  intros Hinv Hord. unfold sched_yield. rewrite bind_run. cbn [cli modify].
  set (s0 := set_if false s). pose proof (set_if_inv false _ _ Hinv) as Hinv0. fold s0 in Hinv0.
  mstep (pick_run s0 qs L (si_queue _ _ Hinv0) (Hord : order s0 qs L)).
  change (current_task s0) with (current_task s). change (List.find (runnable_at s0) L) with (List.find (runnable_at s) L).
  pose proof (find_first (runnable_at s) L) as Hf.
  destruct (decide (default (current_task s) (List.find (runnable_at s) L) = current_task s)) as [Hd|Hd].
  - rewrite Hd. mstep (switch_to_self s0 : switch_to (current_task s) s0 = _). cbn [sti modify].
    exists (set_if true s). split_and!; [done|by apply yield_stay|by apply set_if_inv].
  - destruct (List.find (runnable_at s) L) as [n|] eqn:Ef; [|done]. cbn [default] in *.
    destruct Hf as (L1 & L2 & EL & _).
    assert (n ∈ PBoot :: qs) as Hin.
    { rewrite <- (order_perm _ _ _ Hord), EL. apply elem_of_app. right. left. }
    destruct (queue_get _ _ _ (si_queue _ _ Hinv0) Hin) as (tn & Etn).
    destruct (queue_get _ _ _ (si_queue _ _ Hinv0) (queue_current _ _ (si_queue _ _ Hinv0))) as (tp & Etp).
    destruct (switch_to_run s0 n tp tn Hd Etp Etn) as (s' & E' & Hsw). mstep E'.
    exists s'. split_and!; [done| |by apply (switched_inv s0 qs n tp tn)].
    unfold s0 in Etn, Etp. rewrite set_if_get in Etn, Etp. by eapply yield_switch.
Qed.

(** ** Dead tasks *)

Lemma dead_not_runnable s p : state_of s p = Some TASK_DEAD → runnable_at s p = false.
Proof. unfold state_of, runnable_at. destruct (get_task s p); [|done]. by intros [= ->]. Qed.

Lemma found_runnable s L n : List.find (runnable_at s) L = Some n → runnable_at s n = true.
Proof. by intros [_ ?]%List.find_some. Qed.

(** A switch between two other tasks leaves a dead one dead. *)
Lemma switched_dead s0 s prev n tp tn s' p :
  switched s0 prev n tp tn s' → (∀ q, get_task s0 q = get_task s q) →
  state_of s p = Some TASK_DEAD → runnable_at s n = true → p ≠ prev →
  state_of s' p = Some TASK_DEAD ∧ current_task s' ≠ p.
Proof.
  intros Hsw Hget Hd Hn Hp. assert (p ≠ n) as Hpn by (intros ->; by rewrite (dead_not_runnable _ _ Hd) in Hn).
  rewrite (sw_current _ _ _ _ _ _ Hsw). split; [|congruence]. unfold state_of in *. by rewrite (sw_other _ _ _ _ _ _ Hsw), Hget.
Qed.

Lemma schedule_dead s qs p :
  sched_inv s qs → state_of s p = Some TASK_DEAD → current_task s ≠ p →
  ∃ s', schedule s = Some ((), s') ∧ sched_inv s' qs ∧ state_of s' p = Some TASK_DEAD ∧ current_task s' ≠ p.
Proof.
  intros Hinv Hd Hc. destruct (decide (scheduler_on s = 0)) as [Hon|Hon].
  { exists s. split; [|done]. unfold schedule. rewrite bind_run. cbn [get]. by rewrite Hon. }
  destruct (order_exists s qs (si_queue _ _ Hinv)) as (L & HL).
  destruct (schedule_run s qs L Hinv HL Hon) as (s' & E & Hs & Hi). exists s'. split_and!; [done|done|..];
    (inversion Hs as [| |n tp tn ? ? Hf ? ? ? Hsw]; subst;
      [unfold state_of in *; by rewrite ?set_slice_get..|]);
    destruct (switched_dead _ _ _ _ _ _ _ p Hsw (set_slice_get s 0) Hd (found_runnable _ _ _ Hf)) as [??]; congruence.
Qed.

Lemma run_ticks_dead env n s qs p :
  sched_inv s qs → state_of s p = Some TASK_DEAD → current_task s ≠ p →
  ∃ s', run_ticks env n s = Some s' ∧ sched_inv s' qs ∧ state_of s' p = Some TASK_DEAD ∧ current_task s' ≠ p.
Proof.
  revert env s. induction n as [|n IH]; intros env s Hinv Hd Hc; [by exists s|]. cbn [run_ticks].
  set (s0 := with_cpu (env 0%nat).1 (env 0%nat).2 s).
  assert (state_of s0 p = Some TASK_DEAD) as Hd0 by (unfold state_of, s0 in *; by rewrite get_with_cpu).
  destruct (schedule_dead s0 qs p (with_cpu_inv _ _ _ _ Hinv) Hd0 Hc) as (s1 & -> & Hi & Hd1 & Hc1). by apply IH.
Qed.

(** ** Exit *)

Lemma put_state_inv s qs x t :
  sched_inv s qs → x ≠ TASK_RUNNING → get_task s (current_task s) = Some t →
  sched_inv (put_task (current_task s) (set_state x t) s) qs.
Proof.
  intros [Hq Hr Hc Hs] Hx Ht. split; [|intros q u Hq' Hu Hst| |].
  - apply (queue_keep s); autorewrite with tstore; [done..| |apply Hq]. intros q _. unfold nx.
    rewrite (get_put _ _ _ _ _ Ht). by case_decide; subst; [rewrite Ht|].
  - rewrite (get_put _ _ _ _ _ Ht) in Hu. rewrite put_current. case_decide as Hd; [|by apply (Hr q u)].
    injection Hu as <-. cbn in Hst. done.
  - intros u. rewrite put_current, (get_put_eq _ _ _ _ Ht). intros [= <-].
    unfold task_cr3. rewrite put_vmem. exact (Hc t Ht).
  - by rewrite put_slice.
Qed.

Lemma task_exit_run s qs t q :
  sched_inv s qs → get_task s (current_task s) = Some t →
  q ∈ PBoot :: qs → q ≠ current_task s → state_of s q = Some TASK_READY →
  ∃ s', task_exit s = Some ((), s') ∧ sched_inv s' qs ∧
    state_of s' (current_task s) = Some TASK_DEAD ∧ current_task s' ≠ current_task s.
Proof.
  intros Hinv Ht Hq Hne Hst. set (p := current_task s) in *.
  assert (p ≠ PNull) as Hnn by (intros Hp; rewrite Hp in Ht; done).
  unfold task_exit. rewrite bind_run. cbn [get]. unfold task_get_current. fold p.
  rewrite bool_decide_eq_false_2 by done. mstep (update_run s p (set_state TASK_DEAD) t Ht).
  set (s1 := put_task p (set_state TASK_DEAD t) s).
  assert (sched_inv s1 qs) as Hinv1 by by apply put_state_inv.
  assert (state_of s1 p = Some TASK_DEAD) as Hd by (unfold state_of, s1; by rewrite (get_put_eq _ _ _ _ Ht)).
  assert (state_of s1 q = Some TASK_READY) as Hr.
  { unfold state_of, s1 in *. by rewrite (get_put _ _ _ _ _ Ht), decide_False. }
  assert (current_task s1 = p) as Hc by apply put_current.
  destruct (order_exists s1 qs (si_queue _ _ Hinv1)) as (L & HL).
  destruct (sched_yield_run s1 qs L Hinv1 HL) as (s' & E & Hstep & Hi). exists s'. split; [done|]. split; [done|].
  inversion Hstep as [Hdef|n tp tn ? Hf Hn Htp Htn Hsw]; subst.
  - exfalso. rewrite <- (order_perm _ _ _ HL) in Hq. pose proof (find_first (runnable_at s1) L) as Hf.
    destruct (List.find (runnable_at s1) L) as [n|]; cbn in Hdef.
    + destruct Hf as (_ & _ & _ & Hf & _). by rewrite Hdef, Hc, (dead_not_runnable _ _ Hd) in Hf.
    + specialize (Hf q Hq). by rewrite (ready_runnable _ _ Hr) in Hf.
  - rewrite (sw_current _ _ _ _ _ _ Hsw), <- Hc. split; [|done]. unfold state_of.
    rewrite (sw_prev _ _ _ _ _ _ Hsw). rewrite Hc in Htp. unfold s1 in Htp. rewrite (get_put_eq _ _ _ _ Ht) in Htp.
    injection Htp as <-. done.
Qed.

(** C20: A task that calls [task_exit] while another task is ready is gone: the
    call ends in another task, the caller is dead, the scheduler's invariant
    holds, and whatever the tasks do to registers and memory, no number of
    timer ticks brings it back (every one of them returns). *)
Theorem task_exit_final s qs q env n :
  sched_inv s qs → q ∈ PBoot :: qs → q ≠ current_task s → state_of s q = Some TASK_READY →
  ∃ s', task_exit s = Some ((), s') ∧ state_of s' (current_task s) = Some TASK_DEAD ∧
    current_task s' ≠ current_task s ∧
    ∃ s'', run_ticks env n s' = Some s'' ∧ current_task s'' ≠ current_task s ∧ sched_inv s'' qs.
Proof.
  intros Hinv Hq Hne Hst.
  destruct (queue_get _ _ _ (si_queue _ _ Hinv) (queue_current _ _ (si_queue _ _ Hinv))) as (t & Ht).
  destruct (task_exit_run s qs t q) as (s' & E & Hi & Hd & Hc); [done..|].
  exists s'. split_and!; [done..|]. destruct (run_ticks_dead env n s' qs (current_task s) Hi Hd Hc) as (s2 & ? & ? & _ & ?).
  by exists s2.
Qed.

(** The boot task of the example exits; slot 0 is ready. *)
Lemma task_exit_final_witness :
  ∃ s', task_exit demo_os = Some ((), s') ∧ state_of s' PBoot = Some TASK_DEAD ∧ current_task s' ≠ PBoot ∧
    ∃ s'', run_ticks (λ _, (Cpu 0 0 0 0 0x80000 0, ∅)) 20 s' = Some s'' ∧ current_task s'' ≠ PBoot ∧
      sched_inv s'' [PSlot 2; PSlot 0].
Proof.
  apply (task_exit_final demo_os [PSlot 2; PSlot 0] (PSlot 0)); [apply demo_inv| |discriminate|vm_compute; reflexivity].
  apply elem_of_cons. right. apply elem_of_cons. right. apply elem_of_cons. by left.
Defined.
