(* ===== verification/Block.v ===== *)
(** * fs/block.h and fs/ramdisk.c: block devices

    [BlockDev] is the interface [block_device_t]: two functions that may fail
    and the number of blocks.  [BlockDevLaws] is what the file system relies
    on.  The RAM disk, whose bytes lie in frames of the physical allocator
    that belong to it alone, is an instance of both; the ATA driver is the
    other one ([AtaSpec]). *)

From S2P Require Import Prelude KString KStdio Console Pmm Memory.

Open Scope Z_scope.
Open Scope c_scope.

Definition BLOCK_SIZE : Z := 512.

(** The operations run on the state of the device, which a read may change as
    well (the registers of a drive).  A read gives the bytes stored in the
    buffer, or [None] for the result -1; a write gives the C result. *)
Class BlockDev (D : Type) := {
  bd_read : Z → M D (option (list Z));
  bd_write : Z → list Z → M D Z;
  bd_total : D → Z
}.

(** A buffer the size of a block, of bytes. *)
Definition is_block (buf : list Z) : Prop := length buf = 512%nat ∧ Forall (λ b, 0 ≤ b < 256) buf.

(** Two states of a device that hold the same blocks. *)
Definition same_blocks {D} (ok : D → Prop) (total : D → Z) (blk : D → Z → list Z) (d d' : D) : Prop :=
  (ok d → ok d') ∧ total d' = total d ∧ ∀ b, 0 ≤ b < total d → blk d' b = blk d b.

(** The contract of a device in good order: [blk] are the bytes it holds. *)
Class BlockDevLaws (D : Type) `{BlockDev D} := {
  bd_ok : D → Prop;
  blk : D → Z → list Z;
  bd_total_bound d : bd_ok d → 0 ≤ bd_total d < 4294967296;
  blk_block d b : bd_ok d → 0 ≤ b < bd_total d → is_block (blk d b);
  bd_read_ok d b : bd_ok d → 0 ≤ b < bd_total d →
    ∃ d', bd_read b d = Some (Some (blk d b), d') ∧ same_blocks bd_ok bd_total blk d d';
  bd_write_ok d b buf : bd_ok d → 0 ≤ b < bd_total d → is_block buf →
    ∃ d', bd_write b buf d = Some (0, d') ∧ bd_ok d' ∧ bd_total d' = bd_total d ∧
      blk d' b = buf ∧
      (∀ b', 0 ≤ b' < bd_total d → b' ≠ b → blk d' b' = blk d b')
}.

Definition bd_same {D} `{BlockDevLaws D} (d d' : D) : Prop := same_blocks bd_ok bd_total blk d d'.

(** ** The RAM disk *)

Record ramdisk := Ramdisk {
  rd_mem : mem;
  ramdisk_base : Z;
  ramdisk_size : Z
}.

(** [memcpy(buf, p, n)] from memory into a buffer. *)
Fixpoint mem_get (m : mem) (p : Z) (n : nat) : list Z :=
  match n with
  | O => []
  | S n' => load8 m p :: mem_get m (p + 1) n'
  end.

Definition ramdisk_read (r : ramdisk) (block : Z) : option (list Z) :=
  if ramdisk_base r =? 0 then None
  else
    let offset := block *! BLOCK_SIZE in
    if offset +! BLOCK_SIZE >? ramdisk_size r then None
    else Some (mem_get (rd_mem r) (ramdisk_base r + offset) 512).

Definition ramdisk_write (r : ramdisk) (block : Z) (buf : list Z) : option ramdisk :=
  if ramdisk_base r =? 0 then None
  else
    let offset := block *! BLOCK_SIZE in
    if offset +! BLOCK_SIZE >? ramdisk_size r then None
    else Some (Ramdisk (mem_put (rd_mem r) (ramdisk_base r + offset) (take 512 buf))
                 (ramdisk_base r) (ramdisk_size r)).

#[export] Instance ramdisk_dev : BlockDev ramdisk := {
  bd_read := λ b r, Some (ramdisk_read r b, r);
  bd_write := λ b buf r, match ramdisk_write r b buf with Some r' => Some (0, r') | None => Some (-1, r) end;
  bd_total := λ r, ramdisk_size r / BLOCK_SIZE
}.

(** [ramdisk_init] takes its pages from the physical allocator; the result is
    [None] for [NULL]. *)
Definition ramdisk_init (size_kb : Z) : M (io (pmm_t * ramdisk)) bool :=
  let size_bytes := size_kb *! 1024 in
  let pages_needed := (size_bytes +! PAGE_SIZE -! 1) / PAGE_SIZE in
  phys_addr ← quiet (zoom fst (λ p s, (p, snd s)) (alloc_pages pages_needed));
  if phys_addr =? 0 then
    kprint (str "ERROR: ramdisk_init() - Failed to allocate ") ;;
    kprint_uint pages_needed ;;
    kprint (str " pages" ++ [10]) ;;
    mret false
  else
    quiet (modify (λ s,
      let size := pages_needed *! PAGE_SIZE in
      (s.1, Ramdisk (mem_set (rd_mem s.2) phys_addr 0 (Z.to_nat size)) phys_addr size))) ;;
    mret true.

(** ** Facts *)

Lemma length_mem_get m p n : length (mem_get m p n) = n.
Proof. revert p. induction n as [|n IH]; intros p; simpl; [done|]. by rewrite IH. Qed.

Lemma mem_get_ext m m' p n :
  (∀ x, p ≤ x < p + Z.of_nat n → load8 m' x = load8 m x) → mem_get m' p n = mem_get m p n.
Proof.
  revert p. induction n as [|n IH]; intros p H; simpl; [done|].
  rewrite H by lia. f_equal. apply IH. intros x Hx. apply H. lia.
Qed.

Lemma mem_get_bytes m p n : Forall (λ b, 0 ≤ b < 256) (mem_get m p n).
Proof. revert p. induction n as [|n IH]; intros p; simpl; constructor; [apply load8_bound|apply IH]. Qed.

Lemma load8_mem_put m p bs x :
  load8 (mem_put m p bs) x =
  if (p <=? x) && (x <? p + Z.of_nat (length bs)) then u8 (default 0 (bs !! Z.to_nat (x - p))) else load8 m x.
Proof.
  revert m p. induction bs as [|b bs IH]; intros m p; simpl length; cbn [mem_put].
  - repeat zcase; done.
  - rewrite IH, load8_store8. destruct (Z.eqb_spec p x) as [<-|Hne].
    + replace (p - p) with 0 by lia. repeat zcase; done.
    + repeat zcase; try done. simpl. replace (Z.to_nat (x - p)) with (S (Z.to_nat (x - (p + 1)))) by lia. done.
Qed.

Lemma mem_get_put m p bs :
  Forall (λ b, 0 ≤ b < 256) bs → mem_get (mem_put m p bs) p (length bs) = bs.
Proof.
  intros Hb. assert (∀ k l, bs = k ++ l →
    mem_get (mem_put m p bs) (p + Z.of_nat (length k)) (length l) = l) as H.
  { intros k l. revert k. induction l as [|b l IH]; intros k Hk; simpl; [done|]. f_equal.
    - rewrite load8_mem_put, Hk. rewrite length_app. simpl. repeat zcase. simpl.
      replace (Z.to_nat _) with (length k) by lia. rewrite list_lookup_middle by done. simpl.
      apply u8_small. subst. apply Forall_app in Hb as [_ Hb]. by apply Forall_cons_iff in Hb as [? _].
    - specialize (IH (k ++ [b])). rewrite length_app in IH. simpl in IH. 
      replace (p + Z.of_nat (length k) + 1) with (p + Z.of_nat (length k + 1)) by lia. apply IH.
      by rewrite <- app_assoc. }
  specialize (H [] bs eq_refl). simpl in H. by rewrite Z.add_0_r in H.
Qed.

(** A disk as [ramdisk_init] leaves it: inside the 16 MB of memory. *)
Definition ramdisk_ok (r : ramdisk) : Prop :=
  0 < ramdisk_base r ∧ 0 ≤ ramdisk_size r ∧ ramdisk_base r + ramdisk_size r ≤ TOTAL_MEMORY.

Lemma ramdisk_offset r b :
  ramdisk_ok r → 0 ≤ b < ramdisk_size r / BLOCK_SIZE →
  b *! BLOCK_SIZE = b * 512 ∧ (b *! BLOCK_SIZE +! BLOCK_SIZE >? ramdisk_size r) = false ∧
  b * 512 + 512 ≤ ramdisk_size r ∧ (ramdisk_base r =? 0) = false.
Proof.
  unfold ramdisk_ok, BLOCK_SIZE. change TOTAL_MEMORY with 16777216. intros (Hb & Hs & Hle) Hr.
  pose proof (Z.div_mod (ramdisk_size r) 512). pose proof (Z.mod_pos_bound (ramdisk_size r) 512).
  rewrite (u32_small (b * 512)) by lia. rewrite u32_small by lia. split_and!; [done| |lia|].
  - rewrite Z.gtb_ltb. apply Z.ltb_ge. lia.
  - apply Z.eqb_neq. lia.
Qed.

(** A RAM disk keeps what is written to it.  For a disk inside memory and
    blocks below its size, a write succeeds, reading the block back gives the
    written bytes, and every other block is unchanged. *)
Theorem ramdisk_read_write r b buf :
  ramdisk_ok r → 0 ≤ b < bd_total r → is_block buf →
  ∃ r', ramdisk_write r b buf = Some r' ∧ ramdisk_ok r' ∧ bd_total r' = bd_total r ∧ ramdisk_read r' b = Some buf ∧
    ∀ b', 0 ≤ b' < bd_total r → b' ≠ b → ramdisk_read r' b' = ramdisk_read r b'.
Proof.
  intros Hok Hr [Hlen Hbytes]. destruct (ramdisk_offset r b Hok Hr) as (E1 & E2 & Hfit & E3).
  eexists. split; [unfold ramdisk_write; by rewrite E3, E2|].
  rewrite E1, take_ge by lia. split; [done|]. split; [done|]. split.
  - unfold ramdisk_read. cbn [ramdisk_base ramdisk_size rd_mem]. rewrite E3, E2, E1. f_equal.
    rewrite <- Hlen. by apply mem_get_put.
  - intros b' Hr' Hne. destruct (ramdisk_offset r b' Hok Hr') as (E1' & E2' & Hfit' & _).
    unfold ramdisk_read. cbn [ramdisk_base ramdisk_size rd_mem]. rewrite E3, E2', E1'. f_equal.
    apply mem_get_ext. intros x Hx. rewrite load8_mem_put, Hlen. repeat zcase; done.
Qed.

Lemma ramdisk_reads r b :
  ramdisk_ok r → 0 ≤ b < bd_total r → ∃ buf, ramdisk_read r b = Some buf ∧ is_block buf.
Proof.
  intros Hok Hr. destruct (ramdisk_offset r b Hok Hr) as (E1 & E2 & _ & E3).
  eexists. split; [unfold ramdisk_read; by rewrite E3, E2|].
  split; [apply length_mem_get|apply mem_get_bytes].
Qed.

#[export] Instance ramdisk_laws : BlockDevLaws ramdisk.
Proof.
  refine {| bd_ok := ramdisk_ok; blk := λ r b, default [] (ramdisk_read r b) |}.
  - intros r (Hb & Hs & Hle). simpl. change TOTAL_MEMORY with 16777216 in Hle. unfold BLOCK_SIZE.
    split; [apply Z.div_pos; lia|apply Z.div_lt_upper_bound; lia].
  - intros r b Hok Hr. by destruct (ramdisk_reads r b Hok Hr) as (buf & -> & Hbuf).
  - intros r b Hok Hr. destruct (ramdisk_reads r b Hok Hr) as (buf & E & Hbuf). exists r. cbn [bd_read ramdisk_dev].
    rewrite E. done.
  - intros r b buf Hok Hr Hbuf. destruct (ramdisk_read_write r b buf Hok Hr Hbuf) as (r' & E & Hok' & Ht & Eb & Hne).
    exists r'. cbn [bd_write ramdisk_dev]. rewrite E, Eb. split_and!; [done|done|done|done|].
    intros b' Hb' Hn. by rewrite Hne.
Defined.

(** The bounds check of the RAM disk is computed in 32 bits: block
    0x800000 wraps to block 0, so it is served instead of refused. *)
Theorem ramdisk_block_wraps r :
  ramdisk_read r 0x800000 = ramdisk_read r 0 ∧
  ∀ buf, ramdisk_write r 0x800000 buf = ramdisk_write r 0 buf.
Proof. done. Qed.

Lemma ramdisk_read_write_witness :
  ∃ r', ramdisk_write (Ramdisk ∅ 0x201000 262144) 5 (replicate 512 7) = Some r' ∧
        ramdisk_read r' 5 = Some (replicate 512 7).
Proof.
  destruct (ramdisk_read_write (Ramdisk ∅ 0x201000 262144) 5 (replicate 512 7)) as (r' & E & _ & _ & E' & _).
  - vm_compute. split_and!; congruence.
  - vm_compute. split; congruence.
  - split; [reflexivity|]. apply Forall_replicate. lia.
  - exists r'. split; assumption.
Defined.
