(* ===== verification/SimpleFS.v ===== *)
(** * fs/simplefs.c: the file system

    Block 0 holds the superblock, blocks 1 and 2 the 32 directory entries of
    32 bytes each, block 3 upwards the file contents, one contiguous run per
    file.  The code is modelled over any block device of the class [BlockDev];
    its statics are the device, the cached superblock and the scratch buffer
    [block_buf] that every directory access goes through. *)

From S2P Require Import Prelude KString Block.

Open Scope Z_scope.
Open Scope c_scope.

(** ** Constants *)

Definition FS_MAGIC : Z := 0x41504653.
Definition FS_VERSION : Z := 1.
Definition FS_NAME_MAX : Z := 23.
Definition FS_DIR_BLOCKS : Z := 2.
Definition FS_ENTRIES_PER_BLOCK : Z := 16.
Definition FS_MAX_ENTRIES : Z := FS_DIR_BLOCKS * FS_ENTRIES_PER_BLOCK.
Definition FS_TYPE_FREE : Z := 0x00.
Definition FS_TYPE_FILE : Z := 0x01.
Definition FS_TYPE_DIR : Z := 0x02.

(** ** Little-endian fields *)

Fixpoint le_enc (n : nat) (v : Z) : list Z :=
  match n with
  | O => []
  | S n' => u8 v :: le_enc n' (v / 256)
  end.

Fixpoint le_dec (bs : list Z) : Z :=
  match bs with
  | [] => 0
  | b :: bs' => b + 256 * le_dec bs'
  end.

(** The field of [n] bytes at offset [off] of a structure. *)
Definition field (off n : nat) (bs : list Z) : list Z := take n (drop off bs).

(** ** Superblock and directory entries *)

Record fs_superblock := Superblock {
  magic : Z;
  version : Z;
  total_blocks : Z;
  free_blocks : Z;
  dir_start_block : Z;
  dir_block_count : Z;
  data_start_block : Z;
  first_free_block : Z;
  sb_reserved : list Z
}.

Definition enc_superblock (s : fs_superblock) : list Z :=
  le_enc 4 (magic s) ++ le_enc 4 (version s) ++ le_enc 4 (total_blocks s) ++ le_enc 4 (free_blocks s) ++
  le_enc 4 (dir_start_block s) ++ le_enc 4 (dir_block_count s) ++ le_enc 4 (data_start_block s) ++
  le_enc 4 (first_free_block s) ++ sb_reserved s.

Definition dec_superblock (bs : list Z) : fs_superblock :=
  Superblock (le_dec (field 0 4 bs)) (le_dec (field 4 4 bs)) (le_dec (field 8 4 bs))
    (le_dec (field 12 4 bs)) (le_dec (field 16 4 bs)) (le_dec (field 20 4 bs))
    (le_dec (field 24 4 bs)) (le_dec (field 28 4 bs)) (field 32 480 bs).

Record fs_entry := Entry {
  e_name : list Z;          (* char name[24] *)
  e_type : Z;
  e_reserved : Z;
  e_start_block : Z;
  e_size : Z
}.

Definition enc_entry (e : fs_entry) : list Z :=
  e_name e ++ [e_type e; e_reserved e] ++ le_enc 2 (e_start_block e) ++ le_enc 4 (e_size e).

Definition dec_entry (bs : list Z) : fs_entry :=
  Entry (field 0 24 bs) (le_dec (field 24 1 bs)) (le_dec (field 25 1 bs))
    (le_dec (field 26 2 bs)) (le_dec (field 28 4 bs)).

(** [memset(&entry, 0, sizeof(entry))] *)
Definition zero_entry : fs_entry := Entry (replicate 24 0) 0 0 0 0.

(** ** State *)

Record fs (D : Type) := Fs {
  fs_dev : option D;
  superblock : fs_superblock;
  block_buf : list Z
}.
Arguments Fs {D} _ _ _.
Arguments fs_dev {D} _.
Arguments superblock {D} _.
Arguments block_buf {D} _.

Section simplefs.
Context {D : Type} `{BlockDev D}.

Definition set_dev (d : D) (s : fs D) : fs D := Fs (Some d) (superblock s) (block_buf s).
Definition set_sb (b : fs_superblock) (s : fs D) : fs D := Fs (fs_dev s) b (block_buf s).
Definition set_buf (buf : list Z) (s : fs D) : fs D := Fs (fs_dev s) (superblock s) buf.

(** [fs_dev->read(block, block_buf)] and [fs_dev->write(block, buf)]: the
    result is the C return value.  A null device faults, and so does a
    buffer of less than a block. *)
Definition dev_read_buf (block : Z) : M (fs D) Z :=
  s ← get;
  match fs_dev s with
  | None => fault
  | Some d =>
      match bd_read block d with
      | Some (Some buf, d') => put (set_buf buf (set_dev d' s)) ;; mret 0
      | Some (None, d') => put (set_dev d' s) ;; mret (-1)
      | None => fault
      end
  end.

Definition dev_write (block : Z) (buf : list Z) : M (fs D) Z :=
  s ← get;
  match fs_dev s with
  | None => fault
  | Some d =>
      if (length buf <? 512)%nat then fault
      else match bd_write block (take 512 buf) d with
           | Some (r, d') => put (set_dev d' s) ;; mret r
           | None => fault
           end
  end.

(** ** Internal helpers *)

Definition fs_flush_superblock : M (fs D) Z :=
  s ← get; dev_write 0 (enc_superblock (superblock s)).

(** [None] is the error result. *)
Definition fs_read_entry (index : Z) : M (fs D) (option fs_entry) :=
  if index >=? FS_MAX_ENTRIES then mret None
  else
    s ← get;
    let block := dir_start_block (superblock s) +! index / FS_ENTRIES_PER_BLOCK in
    let offset := (index mod FS_ENTRIES_PER_BLOCK) * 32 in
    r ← dev_read_buf block;
    if negb (r =? 0) then mret None
    else
      s ← get;
      mret (Some (dec_entry (field (Z.to_nat offset) 32 (block_buf s)))).

Definition fs_write_entry (index : Z) (entry : fs_entry) : M (fs D) Z :=
  if index >=? FS_MAX_ENTRIES then mret (-1)
  else
    s ← get;
    let block := dir_start_block (superblock s) +! index / FS_ENTRIES_PER_BLOCK in
    let offset := (index mod FS_ENTRIES_PER_BLOCK) * 32 in
    r ← dev_read_buf block;
    if negb (r =? 0) then mret (-1)
    else
      s ← get;
      tail ← of_option (memcpy (drop (Z.to_nat offset) (block_buf s)) (enc_entry entry) 32);
      put (set_buf (take (Z.to_nat offset) (block_buf s) ++ tail) s) ;;
      s ← get;
      r ← dev_write block (block_buf s);
      if negb (r =? 0) then mret (-1) else mret 0.

Definition fs_find_entry (name : list Z) : M (fs D) (option (fs_entry * Z)) :=
  for_ret (Z.to_nat FS_MAX_ENTRIES) 0 (λ i,
    r ← fs_read_entry i;
    match r with
    | None => mret None
    | Some e =>
        if negb (e_type e =? FS_TYPE_FREE) then
          c ← of_option (strcmp (e_name e) name);
          if c =? 0 then mret (Some (e, i)) else mret None
        else mret None
    end).

Definition fs_find_free_slot : M (fs D) Z :=
  r ← for_ret (Z.to_nat FS_MAX_ENTRIES) 0 (λ i,
        r ← fs_read_entry i;
        match r with
        | None => mret None
        | Some e => if e_type e =? FS_TYPE_FREE then mret (Some i) else mret None
        end);
  mret (default FS_MAX_ENTRIES r).

(** *** fs_alloc_blocks *)

Definition file_blocks (size : Z) : Z := (size +! BLOCK_SIZE -! 1) / BLOCK_SIZE.

(** [used[blk / 8] |= 1 << (blk % 8)] on the 128-byte array. *)
Definition mark_block (blk : Z) (used : list Z) : option (list Z) :=
  if blk / 8 <? 128 then
    w ← used !! Z.to_nat (blk / 8);
    Some (<[Z.to_nat (blk / 8) := u8 (Z.lor w (Z.shiftl 1 (blk mod 8)))]> used)
  else Some used.

Definition block_used (used : list Z) (b : Z) : bool :=
  truth (Z.land (default 0 (used !! Z.to_nat (b / 8))) (Z.shiftl 1 (b mod 8))).

(** [for (b = 0; b < file_blocks && start + b < data_blocks; b++)], [n] rounds
    left of the first bound. *)
Fixpoint mark_file (n : nat) (b start data_blocks : Z) (used : list Z) : option (list Z) :=
  match n with
  | O => Some used
  | S n' =>
      if start + b <? data_blocks then
        used' ← mark_block (start + b) used;
        mark_file n' (b + 1) start data_blocks used'
      else Some used
  end.

(** Marking the blocks of all entries from [i] on. *)
Fixpoint mark_all (n : nat) (i data_blocks : Z) (used : list Z) : M (fs D) (list Z) :=
  match n with
  | O => mret used
  | S n' =>
      r ← fs_read_entry i;
      used' ←
        match r with
        | None => mret used
        | Some e =>
            if e_type e =? FS_TYPE_FREE then mret used
            else if e_type e =? FS_TYPE_DIR then mret used
            else of_option (mark_file (Z.to_nat (file_blocks (e_size e))) 0 (e_start_block e) data_blocks used)
        end;
      mark_all n' (i + 1) data_blocks used'
  end.

(** The scan is [find_run] over the blocks the array covers. *)
Definition fs_alloc_blocks (count : Z) : M (fs D) Z :=
  if count =? 0 then mret 0xFFFFFFFF
  else
    s ← get;
    if count >? free_blocks (superblock s) then mret 0xFFFFFFFF
    else
      let data_blocks := total_blocks (superblock s) -! data_start_block (superblock s) in
      used ← mark_all (Z.to_nat FS_MAX_ENTRIES) 0 data_blocks (replicate 128 0);
      mret (default 0xFFFFFFFF
        (find_run (λ b, negb (block_used used b)) (Z.to_nat (Z.min data_blocks 1024)) 0 0 0 count)).

Definition fs_format : M (fs D) Z :=
  s ← get;
  match fs_dev s with
  | None => fault
  | Some d =>
      let total := bd_total d in
      put (set_sb (Superblock FS_MAGIC FS_VERSION total (total -! 3) 1 FS_DIR_BLOCKS 3 0 (replicate 480 0)) s) ;;
      r ← fs_flush_superblock;
      if negb (r =? 0) then mret (-1)
      else
        modify (set_buf (replicate 512 0)) ;;
        r ← for_ret (Z.to_nat FS_DIR_BLOCKS) 0 (λ i,
              s ← get;
              r ← dev_write (dir_start_block (superblock s) +! i) (block_buf s);
              if negb (r =? 0) then mret (Some (-1)) else mret None);
        mret (default 0 r)
  end.

(** ** Public operations *)

(** A null device pointer is [None]. *)
Definition fs_init (dev : option D) : M (fs D) Z :=
  match dev with
  | None => mret (-1)
  | Some d =>
      modify (set_dev d) ;;
      match bd_read 0 d with
      | Some (None, d') => modify (set_dev d') ;; fs_format
      | Some (Some buf, d') =>
          modify (set_dev d') ;;
          modify (set_sb (dec_superblock buf)) ;;
          s ← get;
          if negb (magic (superblock s) =? FS_MAGIC) then fs_format else mret 0
      | None => fault
      end
  end.

Definition fs_create (name : option (list Z)) (type : Z) : M (fs D) Z :=
  s ← get;
  match fs_dev s, name with
  | Some _, Some name =>
      len ← of_option (strlen name);
      if (len =? 0) || (len >? FS_NAME_MAX) then mret (-1)
      else if negb (type =? FS_TYPE_FILE) && negb (type =? FS_TYPE_DIR) then mret (-1)
      else
        existing ← fs_find_entry name;
        match existing with
        | Some _ => mret (-1)
        | None =>
            slot ← fs_find_free_slot;
            if slot >=? FS_MAX_ENTRIES then mret (-1)
            else
              nm ← of_option (strncpy (e_name zero_entry) name (Z.to_nat FS_NAME_MAX));
              let nm := <[Z.to_nat FS_NAME_MAX := 0]> nm in
              r ← fs_write_entry slot (Entry nm (u8 type) 0 0 0);
              if negb (r =? 0) then mret (-1) else mret 0
        end
  | _, _ => mret (-1)
  end.

(** The loop over the blocks of the file; [Some _] is the early return. *)
Fixpoint write_blocks (n : nat) (i start_block : Z) (src : list Z) (remaining : Z) : M (fs D) (option Z) :=
  match n with
  | O => mret None
  | S n' =>
      s ← get;
      let abs_block := data_start_block (superblock s) +! start_block +! i in
      let chunk := if remaining >? BLOCK_SIZE then BLOCK_SIZE else remaining in
      r ← (if chunk <? BLOCK_SIZE then
             buf ← of_option (memset (block_buf s) 0 512);
             buf ← of_option (memcpy buf src (Z.to_nat chunk));
             put (set_buf buf s) ;;
             dev_write abs_block buf
           else dev_write abs_block src);
      if negb (r =? 0) then mret (Some (-1))
      else write_blocks n' (i + 1) start_block (drop (Z.to_nat chunk) src) (remaining -! chunk)
  end.

(** Recount of the used blocks. *)
Fixpoint count_used (n : nat) (i total_used : Z) : M (fs D) Z :=
  match n with
  | O => mret total_used
  | S n' =>
      r ← fs_read_entry i;
      let total' :=
        match r with
        | None => total_used
        | Some e =>
            if (e_type e =? FS_TYPE_FILE) && (e_size e >? 0)
            then total_used +! file_blocks (e_size e) else total_used
        end in
      count_used n' (i + 1) total'
  end.

Definition set_free_blocks (n : Z) (b : fs_superblock) : fs_superblock :=
  Superblock (magic b) (version b) (total_blocks b) n (dir_start_block b) (dir_block_count b)
    (data_start_block b) (first_free_block b) (sb_reserved b).

Definition fs_write_file (name data : option (list Z)) (size : Z) : M (fs D) Z :=
  s ← get;
  match fs_dev s, name, data with
  | Some _, Some name, Some data =>
      found ← fs_find_entry name;
      match found with
      | None => mret (-1)
      | Some (entry, index) =>
          if negb (e_type entry =? FS_TYPE_FILE) then mret (-1)
          else
            let blocks_needed := file_blocks size in
            start_block ← (if blocks_needed >? 0 then fs_alloc_blocks blocks_needed else mret 0);
            if (blocks_needed >? 0) && (start_block =? 0xFFFFFFFF) then mret (-1)
            else
              failed ← write_blocks (Z.to_nat blocks_needed) 0 start_block data size;
              match failed with
              | Some r => mret r
              | None =>
                  r ← fs_write_entry index
                        (Entry (e_name entry) (e_type entry) (e_reserved entry) (u16 start_block) size);
                  if negb (r =? 0) then mret (-1)
                  else
                    total_used ← count_used (Z.to_nat FS_MAX_ENTRIES) 0 0;
                    s ← get;
                    let sb := superblock s in
                    let data_total := total_blocks sb -! data_start_block sb in
                    put (set_sb (set_free_blocks
                      (if data_total >? total_used then data_total -! total_used else 0) sb) s) ;;
                    _ ← fs_flush_superblock;
                    mret 0
              end
      end
  | _, _, _ => mret (-1)
  end.

(** The bytes copied to the caller's buffer, and whether every block could
    be read. *)
Fixpoint read_blocks (n : nat) (i start_block : Z) (remaining : Z) (dst : list Z) : M (fs D) (bool * list Z) :=
  match n with
  | O => mret (true, dst)
  | S n' =>
      s ← get;
      let abs_block := data_start_block (superblock s) +! start_block +! i in
      r ← dev_read_buf abs_block;
      if negb (r =? 0) then mret (false, dst)
      else
        let chunk := if remaining >? BLOCK_SIZE then BLOCK_SIZE else remaining in
        s ← get;
        read_blocks n' (i + 1) start_block (remaining -! chunk)
          (dst ++ take (Z.to_nat chunk) (block_buf s))
  end.

Definition read_result (to_read : Z) (r : bool * list Z) : Z * list Z :=
  (if fst r then i32 to_read else -1, snd r).

(** The return value and the bytes written to [buf]. *)
Definition fs_read_file (name : option (list Z)) (max_size : Z) : M (fs D) (Z * list Z) :=
  s ← get;
  match fs_dev s, name with
  | Some _, Some name =>
      found ← fs_find_entry name;
      match found with
      | None => mret (-1, [])
      | Some (entry, _) =>
          if negb (e_type entry =? FS_TYPE_FILE) then mret (-1, [])
          else
            let to_read := if e_size entry >? max_size then max_size else e_size entry in
            let blocks := (to_read +! BLOCK_SIZE -! 1) / BLOCK_SIZE in
            r ← read_blocks (Z.to_nat blocks) 0 (e_start_block entry) to_read [];
            mret (read_result to_read r)
      end
  | _, _ => mret (-1, [])
  end.

(** Clearing the children of a deleted directory from entry [i] on. *)
Fixpoint delete_children (n : nat) (i : Z) (name : list Z) (prefix_len freed_blocks : Z) : M (fs D) Z :=
  match n with
  | O => mret freed_blocks
  | S n' =>
      r ← fs_read_entry i;
      freed' ←
        match r with
        | None => mret freed_blocks
        | Some child =>
            if e_type child =? FS_TYPE_FREE then mret freed_blocks
            else
              c ← of_option (strncmp (e_name child) name (Z.to_nat prefix_len));
              if c =? 0 then
                ch ← of_option (e_name child !! Z.to_nat prefix_len);
                if ch =? 47 then
                  _ ← fs_write_entry i zero_entry;
                  mret (if (e_type child =? FS_TYPE_FILE) && (e_size child >? 0)
                        then freed_blocks +! file_blocks (e_size child) else freed_blocks)
                else mret freed_blocks
              else mret freed_blocks
        end;
      delete_children n' (i + 1) name prefix_len freed'
  end.

Definition fs_delete (name : option (list Z)) : M (fs D) Z :=
  s ← get;
  match fs_dev s, name with
  | Some _, Some name =>
      found ← fs_find_entry name;
      match found with
      | None => mret (-1)
      | Some (entry, index) =>
          let freed_blocks :=
            if (e_type entry =? FS_TYPE_FILE) && (e_size entry >? 0) then file_blocks (e_size entry) else 0 in
          freed ← (if e_type entry =? FS_TYPE_DIR then
                     prefix_len ← of_option (strlen name);
                     delete_children (Z.to_nat FS_MAX_ENTRIES) 0 name prefix_len freed_blocks
                   else mret freed_blocks);
          r ← fs_write_entry index zero_entry;
          if negb (r =? 0) then mret (-1)
          else
            s ← get;
            put (set_sb (set_free_blocks (free_blocks (superblock s) +! freed) (superblock s)) s) ;;
            _ ← fs_flush_superblock;
            mret 0
      end
  | _, _ => mret (-1)
  end.

Fixpoint list_entries (n : nat) (i count max : Z) (entries : list fs_entry) : M (fs D) (list fs_entry) :=
  match n with
  | O => mret entries
  | S n' =>
      if count <? max then
        r ← fs_read_entry i;
        match r with
        | Some e =>
            if negb (e_type e =? FS_TYPE_FREE) then list_entries n' (i + 1) (count + 1) max (entries ++ [e])
            else list_entries n' (i + 1) count max entries
        | None => list_entries n' (i + 1) count max entries
        end
      else mret entries
  end.

(** The entries stored; their number is the return value. *)
Definition fs_list (max : Z) : M (fs D) (list fs_entry) :=
  s ← get;
  match fs_dev s with
  | None => mret []
  | Some _ => list_entries (Z.to_nat FS_MAX_ENTRIES) 0 0 max []
  end.

(** The entry stored in [*out] on success. *)
Definition fs_stat (name : option (list Z)) : M (fs D) (option fs_entry) :=
  s ← get;
  match fs_dev s, name with
  | Some _, Some name => found ← fs_find_entry name; mret (fst <$> found)
  | _, _ => mret None
  end.

End simplefs.
