(* ===== verification/SimpleFSSpec.v ===== *)
(** * What the file system promises

    Abstractly a SimpleFS is a finite map from names to a type and, for a
    file, its bytes: the relation [has].  This file states the invariant of
    the on-disk structures and proves that the operations of SimpleFS, run on
    any device that satisfies [BlockDevLaws], implement the map operations. *)

From S2P Require Import Prelude KString Block SimpleFS.

Open Scope Z_scope.
Open Scope c_scope.

(** ** Encodings *)

Lemma length_le_enc n v : length (le_enc n v) = n.
Proof. revert v. induction n as [|n IH]; intros v; simpl; [done|]. by rewrite IH. Qed.

Lemma le_enc_bytes n v : Forall (λ b, 0 ≤ b < 256) (le_enc n v).
Proof. revert v. induction n as [|n IH]; intros v; simpl; constructor; [apply u8_bound|apply IH]. Qed.

Lemma le_dec_enc n v : 0 ≤ v < 256 ^ Z.of_nat n → le_dec (le_enc n v) = v.
Proof.
  revert v. induction n as [|n IH]; intros v Hv; simpl.
  - rewrite Z.pow_0_r in Hv. lia.
  - pose proof (Z.div_mod v 256). rewrite IH; [unfold u8; lia|].
    rewrite Nat2Z.inj_succ, Z.pow_succ_r in Hv by lia.
    split; [apply Z.div_pos; lia|apply Z.div_lt_upper_bound; lia].
Qed.

Lemma le_dec_bound bs : Forall (λ b, 0 ≤ b < 256) bs → 0 ≤ le_dec bs < 256 ^ Z.of_nat (length bs).
Proof.
  induction 1 as [|b bs Hb _ IH]; simpl length; [by rewrite Z.pow_0_r|].
  rewrite Nat2Z.inj_succ, Z.pow_succ_r by lia. simpl. lia.
Qed.

(** Fields of a structure written as a concatenation. *)
Lemma field_app_l off n bs bs' : (off + n ≤ length bs)%nat → field off n (bs ++ bs') = field off n bs.
Proof.
  intros. unfold field. rewrite drop_app_le by lia. rewrite take_app_le; [done|]. rewrite length_drop. lia.
Qed.

Lemma field_app_r off n bs bs' : (length bs ≤ off)%nat → field off n (bs ++ bs') = field (off - length bs) n bs'.
Proof. intros. unfold field. by rewrite drop_app_ge. Qed.

Lemma field_all n bs : length bs = n → field 0 n bs = bs.
Proof. intros. unfold field. rewrite drop_0. apply take_ge. lia. Qed.

Lemma field_hit n bs bs' : length bs = n → field 0 n (bs ++ bs') = bs.
Proof. intros. rewrite field_app_l by lia. by apply field_all. Qed.

Record entry_wf (e : fs_entry) : Prop := {
  ew_name : length (e_name e) = 24%nat;
  ew_bytes : Forall (λ b, 0 ≤ b < 256) (e_name e);
  ew_type : 0 ≤ e_type e < 256;
  ew_reserved : 0 ≤ e_reserved e < 256;
  ew_start : 0 ≤ e_start_block e < 65536;
  ew_size : 0 ≤ e_size e < 4294967296
}.

Lemma length_enc_entry e : entry_wf e → length (enc_entry e) = 32%nat.
Proof. intros Hw. unfold enc_entry. rewrite !length_app, !length_le_enc, (ew_name _ Hw). done. Qed.

Lemma enc_entry_bytes e : entry_wf e → Forall (λ b, 0 ≤ b < 256) (enc_entry e).
Proof.
  intros Hw. unfold enc_entry. rewrite !Forall_app. split_and!; try apply le_enc_bytes; [apply Hw|].
  repeat constructor; apply Hw.
Qed.

Lemma dec_enc_entry e rest : entry_wf e → dec_entry (enc_entry e ++ rest) = e.
Proof.
  intros Hw. destruct Hw as [Hn Hb Ht Hr Hs Hz]. destruct e as [nm ty rs sb sz]. cbn [e_name e_type e_reserved e_start_block e_size] in *.
  unfold dec_entry, enc_entry. cbn [e_name e_type e_reserved e_start_block e_size]. rewrite <- !app_assoc.
  f_equal.
  - by apply field_hit.
  - rewrite field_app_r, Hn by lia. cbn. lia.
  - rewrite field_app_r, Hn by lia. cbn. lia.
  - rewrite !field_app_r by (rewrite ?Hn; simpl; lia). rewrite Hn. cbn [length Nat.sub].
    rewrite field_hit by apply length_le_enc. by apply le_dec_enc.
  - rewrite !field_app_r by (rewrite ?Hn, ?length_le_enc; simpl; lia). rewrite Hn, length_le_enc. cbn [length Nat.sub].
    rewrite field_hit by apply length_le_enc. by apply le_dec_enc.
Qed.

Record superblock_wf (b : fs_superblock) : Prop := {
  sw_magic : 0 ≤ magic b < 4294967296;
  sw_version : 0 ≤ version b < 4294967296;
  sw_total : 0 ≤ total_blocks b < 4294967296;
  sw_free : 0 ≤ free_blocks b < 4294967296;
  sw_dir : 0 ≤ dir_start_block b < 4294967296;
  sw_count : 0 ≤ dir_block_count b < 4294967296;
  sw_data : 0 ≤ data_start_block b < 4294967296;
  sw_first : 0 ≤ first_free_block b < 4294967296;
  sw_reserved : length (sb_reserved b) = 480%nat ∧ Forall (λ b, 0 ≤ b < 256) (sb_reserved b)
}.

Lemma enc_superblock_block b : superblock_wf b → is_block (enc_superblock b).
Proof.
  intros Hw. destruct (sw_reserved _ Hw) as [Hl Hb]. split.
  - unfold enc_superblock. rewrite !length_app, !length_le_enc, Hl. done.
  - unfold enc_superblock. rewrite !Forall_app. split_and!; try apply le_enc_bytes. done.
Qed.

Lemma dec_enc_superblock b : superblock_wf b → dec_superblock (enc_superblock b) = b.
Proof.
  intros [H1 H2 H3 H4 H5 H6 H7 H8 [H9 _]]. destruct b as [f1 f2 f3 f4 f5 f6 f7 f8 f9].
  cbn [magic version total_blocks free_blocks dir_start_block dir_block_count data_start_block first_free_block sb_reserved] in *.
  unfold dec_superblock, enc_superblock.
  cbn [magic version total_blocks free_blocks dir_start_block dir_block_count data_start_block first_free_block sb_reserved].
  f_equal; repeat (rewrite field_app_r by (rewrite length_le_enc; lia); rewrite length_le_enc; cbn [Nat.sub]);
    rewrite ?field_hit by apply length_le_enc; rewrite ?le_dec_enc by done; try done.
  by apply field_all.
Qed.

(** ** The directory on the device *)

(** A name as the directory stores it. *)
Definition named (e : fs_entry) (n : list Z) : Prop := nonzero n ∧ ∃ r, e_name e = n ++ 0 :: r.

Lemma named_inj e n n' : named e n → named e n' → n = n'.
Proof.
  intros [Hn [r Hr]] [Hn' [r' Hr']]. rewrite Hr in Hr'. clear Hr.
  revert n' Hn' Hr'. induction n as [|c n IH]; intros [|c' n'] Hn' E; simpl in E; simplify_eq; [done|..].
  - apply nonzero_cons in Hn' as [? _]. lia.
  - apply nonzero_cons in Hn as [? _]. lia.
  - apply nonzero_cons in Hn as [_ Hn]. apply nonzero_cons in Hn' as [_ Hn']. f_equal. by apply IH.
Qed.

Definition slot (i : Z) : Prop := 0 ≤ i < 32.
Definition in_use (e : fs_entry) : Prop := e_type e ≠ FS_TYPE_FREE.
Definition is_file (e : fs_entry) : Prop := e_type e = FS_TYPE_FILE.

(** Blocks of a file of [size] bytes. *)
Definition nblocks (size : Z) : Z := (size + 511) / 512.

Lemma file_blocks_eq size : 0 ≤ size < 4294966784 → file_blocks size = nblocks size.
Proof.
  intros Hs. unfold file_blocks, nblocks, BLOCK_SIZE. rewrite (u32_small (size + 512)) by lia.
  rewrite u32_small by lia. f_equal. lia.
Qed.

Lemma nblocks_bounds size : 0 ≤ size → 0 ≤ nblocks size ∧ size ≤ 512 * nblocks size < size + 512.
Proof.
  intros Hs. unfold nblocks. pose proof (Z.div_mod (size + 511) 512). pose proof (Z.mod_pos_bound (size + 511) 512).
  split; [apply Z.div_pos; lia|lia].
Qed.

Section spec.
Context {D : Type} `{BlockDevLaws D}.

(** The contents of a run of blocks of a device. *)
Definition run_bytes (d : D) (start n : Z) : list Z := concat (blk d <$> seqZ (3 + start) n).

Definition dirent (d : D) (i : Z) : fs_entry :=
  dec_entry (field (Z.to_nat ((i mod 16) * 32)) 32 (blk d (1 + i / 16))).

Definition content (d : D) (e : fs_entry) : list Z :=
  take (Z.to_nat (e_size e)) (run_bytes d (e_start_block e) (nblocks (e_size e))).

(** The abstract file system: [name] has type [t] and, if a file, bytes [x]. *)
Definition has (d : D) (name : list Z) (t : Z) (x : list Z) : Prop :=
  ∃ i, slot i ∧ in_use (dirent d i) ∧ named (dirent d i) name ∧ e_type (dirent d i) = t ∧
       x = (if t =? FS_TYPE_FILE then content d (dirent d i) else []).

(** *** Invariants *)

(** The device and the cached superblock fit together. *)
Record mounted (d : D) (sb : fs_superblock) : Prop := {
  mo_ok : bd_ok d;
  mo_size : 3 ≤ bd_total d;
  mo_total : total_blocks sb = bd_total d;
  mo_dir : dir_start_block sb = 1;
  mo_data : data_start_block sb = 3;
  mo_wf : superblock_wf sb
}.

(** Data blocks the allocator can hand out: its array has 1024 bits. *)
Definition capacity (d : D) : Z := Z.min (bd_total d - 3) 1024.

Definition entry_blocks (e : fs_entry) : Z := if e_type e =? FS_TYPE_FILE then nblocks (e_size e) else 0.

Definition sumZ (f : Z → Z) (n : nat) : Z := foldr (λ i acc, f i + acc) 0 (seqZ 0 (Z.of_nat n)).

Record fs_inv (d : D) (sb : fs_superblock) : Prop := {
  fi_mounted : mounted d sb;
  fi_type : ∀ i, slot i → e_type (dirent d i) = FS_TYPE_FREE ∨ e_type (dirent d i) = FS_TYPE_FILE ∨
                          e_type (dirent d i) = FS_TYPE_DIR;
  fi_name : ∀ i, slot i → in_use (dirent d i) → ∃ n, named (dirent d i) n;
  fi_unique : ∀ i j n, slot i → slot j → in_use (dirent d i) → in_use (dirent d j) →
    named (dirent d i) n → named (dirent d j) n → i = j;
  fi_range : ∀ i, slot i → is_file (dirent d i) → e_size (dirent d i) ≠ 0 →
    e_start_block (dirent d i) + nblocks (e_size (dirent d i)) ≤ capacity d;
  fi_disjoint : ∀ i j, slot i → slot j → i ≠ j → is_file (dirent d i) → is_file (dirent d j) →
    e_size (dirent d i) ≠ 0 → e_size (dirent d j) ≠ 0 →
    e_start_block (dirent d i) + nblocks (e_size (dirent d i)) ≤ e_start_block (dirent d j) ∨
    e_start_block (dirent d j) + nblocks (e_size (dirent d j)) ≤ e_start_block (dirent d i);
  fi_free : free_blocks sb = bd_total d - 3 - sumZ (λ i, entry_blocks (dirent d i)) 32 ∧ 0 ≤ free_blocks sb;
  fi_disk : blk d 0 = enc_superblock sb
}.

(** The state of the code, up to the scratch buffer and up to what reading
    does to the device: it holds the blocks of [d]. *)
Definition fs_at (d : D) (sb : fs_superblock) (s : fs D) : Prop :=
  (∃ d0, fs_dev s = Some d0 ∧ bd_same d d0) ∧ superblock s = sb ∧ is_block (block_buf s).

(** *** Device access *)

Lemma bd_same_refl (d : D) : bd_same d d.
Proof. by split. Qed.

Lemma bd_same_trans (d d' d'' : D) : bd_same d d' → bd_same d' d'' → bd_same d d''.
Proof.
  intros (O1 & T1 & B1) (O2 & T2 & B2). split; [auto|]. split; [congruence|]. intros b Hb.
  rewrite B2 by (by rewrite T1). by apply B1.
Qed.

Lemma fs_at_dev d sb s : fs_at d sb s → ∃ d0, fs_dev s = Some d0.
Proof. intros ((d0 & Hd & _) & _). by exists d0. Qed.

Lemma fs_at_set_buf d sb s buf : fs_at d sb s → is_block buf → fs_at d sb (set_buf buf s).
Proof. by intros (Hd & Hsb & _) Hb. Qed.

Lemma read_buf_run d sb s b :
  fs_at d sb s → bd_ok d → 0 ≤ b < bd_total d →
  ∃ s', dev_read_buf b s = Some (0, s') ∧ fs_at d sb s' ∧ block_buf s' = blk d b.
Proof.
  intros ((d0 & Hd & Hsame) & Hsb & Hbuf) Hok Hb. pose proof Hsame as (Hok0 & Ht0 & Hb0).
  destruct (bd_read_ok d0 b (Hok0 Hok)) as (d1 & Er & Hsame1); [by rewrite Ht0|].
  exists (set_buf (blk d b) (set_dev d1 s)). unfold dev_read_buf. mrun. rewrite Hd, Er, Hb0 by done. split; [done|]. split; [|done].
  split; [exists d1; split; [done|by apply (bd_same_trans _ d0)]|]. split; [done|by apply blk_block].
Qed.

(** What a successful write of block [b] does to the device. *)
Record written (d d' : D) (b : Z) (buf : list Z) : Prop := {
  wr_ok : bd_ok d';
  wr_total : bd_total d' = bd_total d;
  wr_same : blk d' b = buf;
  wr_other : ∀ b', 0 ≤ b' < bd_total d → b' ≠ b → blk d' b' = blk d b'
}.

Lemma write_run d sb s b buf :
  fs_at d sb s → bd_ok d → 0 ≤ b < bd_total d → is_block (take 512 buf) →
  ∃ d' s', dev_write b buf s = Some (0, s') ∧ fs_at d' sb s' ∧ block_buf s' = block_buf s ∧
    written d d' b (take 512 buf).
Proof.
  intros ((d0 & Hd & Hok0 & Ht0 & Hb0) & Hsb & Hbuf) Hok Hb Hblk.
  destruct (bd_write_ok d0 b _ (Hok0 Hok) ltac:(by rewrite Ht0) Hblk) as (d' & Ew & Hok' & Ht & Hr & Ho).
  exists d', (set_dev d' s). unfold dev_write. mrun. rewrite Hd.
  destruct (Nat.ltb_spec (length buf) 512) as [Hlt|_].
  { destruct Hblk as [Hl _]. rewrite length_take in Hl. lia. }
  rewrite Ew. split; [done|]. split; [split; [exists d'; split; [done|apply bd_same_refl]|done]|]. split; [done|].
  split; [done|congruence|done|]. intros b' Hb' Hne. rewrite Ho, Hb0 by (rewrite ?Ht0; done). done.
Qed.

(** *** Directory entries *)

Lemma slot_block i : slot i → 0 ≤ i / 16 < 2 ∧ 0 ≤ i mod 16 < 16.
Proof.
  unfold slot. intros Hi. pose proof (Z.mod_pos_bound i 16). pose proof (Z.div_mod i 16). lia.
Qed.

Lemma dir_block d sb i : mounted d sb → slot i → 0 ≤ 1 + i / 16 < bd_total d.
Proof. intros Hm Hi. destruct (slot_block i Hi). pose proof (mo_size _ _ Hm). lia. Qed.

Lemma dir_block_c sb i d : mounted d sb → slot i → dir_start_block sb +! i / FS_ENTRIES_PER_BLOCK = 1 + i / 16.
Proof.
  intros Hm Hi. rewrite (mo_dir _ _ Hm). destruct (slot_block i Hi). unfold FS_ENTRIES_PER_BLOCK.
  apply u32_small. lia.
Qed.

Lemma field_bytes off n bs : Forall (λ b, 0 ≤ b < 256) bs → Forall (λ b, 0 ≤ b < 256) (field off n bs).
Proof. intros. unfold field. by apply Forall_take, Forall_drop. Qed.

Lemma length_field off n bs : (off + n ≤ length bs)%nat → length (field off n bs) = n.
Proof. intros. unfold field. rewrite length_take, length_drop. lia. Qed.

Lemma field_field off n off' n' bs :
  (off' + n' ≤ n)%nat → field off' n' (field off n bs) = field (off + off') n' bs.
Proof. intros. unfold field. rewrite skipn_firstn_comm, take_take, drop_drop. f_equal. lia. Qed.

Lemma dirent_wf d sb i : mounted d sb → slot i → entry_wf (dirent d i).
Proof.
  intros Hm Hi. destruct (blk_block d (1 + i / 16) (mo_ok _ _ Hm) (dir_block d sb i Hm Hi)) as [Hl Hb].
  destruct (slot_block i Hi). unfold dirent. set (bs := field _ 32 _).
  assert (length bs = 32%nat) as Hlb by (apply length_field; lia).
  assert (Forall (λ b, 0 ≤ b < 256) bs) as Hbb by (by apply field_bytes).
  assert (∀ off n, (off + n ≤ 32)%nat → 0 ≤ le_dec (field off n bs) < 256 ^ Z.of_nat n) as Hf.
  { intros off n Hon. pose proof (le_dec_bound (field off n bs) (field_bytes off n bs Hbb)) as Hd.
    by rewrite length_field in Hd by lia. }
  split; cbn [dec_entry e_name e_type e_reserved e_start_block e_size].
  - apply length_field. lia.
  - by apply field_bytes.
  - apply (Hf 24%nat 1%nat). lia.
  - apply (Hf 25%nat 1%nat). lia.
  - apply (Hf 26%nat 2%nat). lia.
  - apply (Hf 28%nat 4%nat). lia.
Qed.

Lemma read_entry_run d sb s i :
  fs_at d sb s → mounted d sb → slot i →
  ∃ s', fs_read_entry i s = Some (Some (dirent d i), s') ∧ fs_at d sb s'.
Proof.
  intros Hat Hm Hi. destruct (read_buf_run d sb s (1 + i / 16) Hat (mo_ok _ _ Hm) (dir_block d sb i Hm Hi))
    as (s' & E & Hat' & Hbuf). exists s'. split; [|done].
  unfold fs_read_entry. unfold slot in Hi. change FS_MAX_ENTRIES with 32. zcase.
  pose proof Hat as (_ & Hsb & _). rewrite bind_run. cbn [get]. rewrite Hsb, (dir_block_c sb i d) by done.
  mstep E. cbn [Z.eqb negb]. mrun. by rewrite Hbuf.
Qed.

(** Storing 32 bytes at an entry's offset of its block. *)
Definition splice (off : nat) (bs new : list Z) : list Z := take off bs ++ new ++ drop (off + length new) bs.

Lemma field_splice_same off bs new :
  (off + length new ≤ length bs)%nat → field off (length new) (splice off bs new) = new.
Proof.
  intros Hl. unfold splice. rewrite field_app_r by (rewrite length_take; lia).
  rewrite length_take_le by lia. rewrite Nat.sub_diag. by apply field_hit.
Qed.

Lemma field_splice_other off off' n bs new :
  (off + length new ≤ length bs)%nat → (off' + n ≤ length bs)%nat →
  (off' + n ≤ off ∨ off + length new ≤ off')%nat →
  field off' n (splice off bs new) = field off' n bs.
Proof.
  intros Hl Hl' [Hb|Ha]; unfold splice.
  - rewrite field_app_l by (rewrite length_take; lia). unfold field. rewrite skipn_firstn_comm, take_take.
    f_equal. lia.
  - rewrite field_app_r by (rewrite length_take; lia). rewrite length_take_le by lia.
    rewrite field_app_r by lia. unfold field. rewrite drop_drop. f_equal. f_equal. lia.
Qed.

Lemma splice_block off bs new :
  is_block bs → (off + length new ≤ 512)%nat → Forall (λ b, 0 ≤ b < 256) new → is_block (splice off bs new).
Proof.
  intros [Hl Hb] Hn Hnew. unfold splice. split.
  - rewrite !length_app, length_take, length_drop. lia.
  - rewrite !Forall_app. split_and!; [by apply Forall_take|done|by apply Forall_drop].
Qed.

(** What storing an entry does to the device. *)
Record stored (d d' : D) (i : Z) (e : fs_entry) : Prop := {
  so_ok : bd_ok d';
  so_total : bd_total d' = bd_total d;
  so_entry : ∀ j, slot j → dirent d' j = if i =? j then e else dirent d j;
  so_data : ∀ b, 3 ≤ b < bd_total d → blk d' b = blk d b;
  so_zero : blk d' 0 = blk d 0
}.

Lemma write_entry_run d sb s i e :
  fs_at d sb s → mounted d sb → slot i → entry_wf e →
  ∃ d' s', fs_write_entry i e s = Some (0, s') ∧ fs_at d' sb s' ∧ stored d d' i e.
Proof.
  intros Hat Hm Hi He. pose proof (dir_block d sb i Hm Hi) as Hblk. destruct (slot_block i Hi) as [Hi1 Hi2].
  destruct (read_buf_run d sb s (1 + i / 16) Hat (mo_ok _ _ Hm) Hblk) as (s1 & E & Hat1 & Hbuf).
  pose proof (blk_block d (1 + i / 16) (mo_ok _ _ Hm) Hblk) as Hb. pose proof Hb as [Hlb _].
  set (off := Z.to_nat ((i mod 16) * 32)). pose proof (length_enc_entry e He) as Hle.
  set (new := splice off (blk d (1 + i / 16)) (enc_entry e)).
  assert (is_block new) as Hnew by (apply splice_block; [done|rewrite Hle; lia|by apply enc_entry_bytes]).
  assert (fs_at d sb (set_buf new s1)) as Hat2 by (destruct Hat1 as (? & ? & ?); done).
  destruct (write_run d sb (set_buf new s1) (1 + i / 16) new Hat2 (mo_ok _ _ Hm) Hblk) as (d' & s2 & E2 & Hat3 & _ & Hwr);
    [by rewrite take_ge by (destruct Hnew; lia)|].
  rewrite take_ge in Hwr by (destruct Hnew; lia).
  exists d', s2. split; [|split; [done|]].
  - unfold fs_write_entry. unfold slot in Hi. change FS_MAX_ENTRIES with 32. zcase.
    pose proof Hat as (_ & Hsb & _). rewrite bind_run. cbn [get]. rewrite Hsb, (dir_block_c sb i d) by done.
    mstep E. cbn [Z.eqb negb]. rewrite bind_run. cbn [get]. rewrite Hbuf.
    change (i mod FS_ENTRIES_PER_BLOCK) with (i mod 16). fold off.
    rewrite memcpy_spec by (rewrite ?length_drop, ?Hle; lia). rewrite bind_run. cbn [of_option].
    rewrite (take_ge (enc_entry e)) by (rewrite Hle; lia). rewrite drop_drop. rewrite bind_run. cbn [put].
    rewrite bind_run. cbn [get]. 
    assert (take off (blk d (1 + i / 16)) ++ enc_entry e ++ drop (off + 32) (blk d (1 + i / 16)) = new) as ->
      by (unfold new, splice; by rewrite Hle).
    cbn [block_buf set_buf]. fold (set_buf new s1). mstep E2. done.
  - split; [apply Hwr|apply Hwr| | |].
    + intros j Hj. destruct (slot_block j Hj) as [Hj1 Hj2].
      pose proof (Z.div_mod i 16 ltac:(lia)). pose proof (Z.div_mod j 16 ltac:(lia)). unfold dirent.
      destruct (Z.eq_dec (j / 16) (i / 16)) as [Ej|Ej].
      * rewrite Ej, (wr_same _ _ _ _ Hwr). unfold new. zcase.
        -- subst j. fold off. rewrite <- Hle. rewrite field_splice_same by lia.
           rewrite <- (app_nil_r (enc_entry e)). by apply dec_enc_entry.
        -- rewrite field_splice_other by lia. done.
      * rewrite (wr_other _ _ _ _ Hwr) by (apply (dir_block d sb j Hm Hj) || lia).
        destruct (Z.eqb_spec i j); [congruence|]. done.
    + intros b Hb3. apply (wr_other _ _ _ _ Hwr); lia.
    + pose proof (mo_size _ _ Hm). apply (wr_other _ _ _ _ Hwr); lia.
Qed.

(** *** Searches *)

Lemma find_entry_run d sb s n r :
  fs_at d sb s → mounted d sb → nonzero n →
  (∀ i, slot i → in_use (dirent d i) → ∃ m, named (dirent d i) m) →
  ∃ s', fs_at d sb s' ∧
    ((∃ i, slot i ∧ in_use (dirent d i) ∧ named (dirent d i) n ∧
        fs_find_entry (n ++ 0 :: r) s = Some (Some (dirent d i, i), s')) ∨
     (fs_find_entry (n ++ 0 :: r) s = Some (None, s') ∧
        ∀ i, slot i → in_use (dirent d i) → ¬ named (dirent d i) n)).
Proof.
  intros Hat Hm Hn Hnames. unfold fs_find_entry. change (Z.to_nat FS_MAX_ENTRIES) with 32%nat.
  match goal with |- context [for_ret 32 0 ?b] => set (body := b) end.
  destruct (for_ret_inv (λ j t, fs_at d sb t ∧ ∀ i, 0 ≤ i < j → in_use (dirent d i) → ¬ named (dirent d i) n)
    (λ r t, fs_at d sb t ∧ slot r.2 ∧ in_use (dirent d r.2) ∧ named (dirent d r.2) n ∧ r.1 = dirent d r.2)
    body 32 0 s) as [(s' & E & Hat' & Hno)|([e i] & s' & E & Hat' & Hi & Hu & Hnm & He)].
  - intros j t Hj [Ht Hno]. assert (slot j) as Hsj by (unfold slot; lia).
    destruct (read_entry_run d sb t j Ht Hm Hsj) as (t' & E & Ht'). unfold body. mstep E.
    destruct (Z.eqb_spec (e_type (dirent d j)) FS_TYPE_FREE) as [Ef|Ef]; cbn [negb].
    + left. exists t'. split; [done|]. split; [done|]. intros i Hi Hu.
      destruct (Z.eq_dec i j) as [->|]; [done|]. apply Hno; [lia|done].
    + destruct (Hnames j Hsj Ef) as (m & Hnz & rm & Hrm). rewrite Hrm.
      destruct (strcmp_cstr m n rm r Hnz Hn) as (c & Ec & Hc). rewrite bind_run. rewrite Ec. cbn [of_option].
      destruct (Z.eqb_spec c 0) as [Hc0|Hc0].
      * right. exists (dirent d j, j), t'. split; [done|]. split_and!; [done|done|done| |done].
        apply Hc in Hc0 as ->. split; [done|]. by exists rm.
      * left. exists t'. split; [done|]. split; [done|]. intros i Hi Hu Hnm.
        destruct (Z.eq_dec i j) as [->|]; [|by apply (Hno i); [lia|..]].
        apply Hc0, Hc. apply (named_inj (dirent d j)); [split; [done|by exists rm]|done].
  - split; [done|]. intros i Hi. lia.
  - exists s'. split; [done|]. right. split; [done|]. intros i Hi. apply Hno. unfold slot in Hi. lia.
  - simpl in *. subst e. exists s'. split; [done|]. left. by exists i.
Qed.

Lemma find_free_slot_run d sb s :
  fs_at d sb s → mounted d sb →
  ∃ s', fs_at d sb s' ∧
    ((∃ i, slot i ∧ ¬ in_use (dirent d i) ∧ (∀ j, 0 ≤ j < i → in_use (dirent d j)) ∧
        fs_find_free_slot s = Some (i, s')) ∨
     (fs_find_free_slot s = Some (32, s') ∧ ∀ j, slot j → in_use (dirent d j))).
Proof.
  intros Hat Hm. unfold fs_find_free_slot. change (Z.to_nat FS_MAX_ENTRIES) with 32%nat.
  match goal with |- context [for_ret 32 0 ?b] => set (body := b) end.
  destruct (for_ret_inv (λ j t, fs_at d sb t ∧ ∀ i, 0 ≤ i < j → in_use (dirent d i))
    (λ i t, fs_at d sb t ∧ slot i ∧ ¬ in_use (dirent d i) ∧ ∀ j, 0 ≤ j < i → in_use (dirent d j)) body 32 0 s)
    as [(s' & E & Hat' & Hall)|(i & s' & E & Hat' & Hi & Hf & Hlow)].
  - intros j t Hj [Ht Hall]. assert (slot j) as Hsj by (unfold slot; lia).
    destruct (read_entry_run d sb t j Ht Hm Hsj) as (t' & E & Ht'). unfold body. mstep E.
    destruct (Z.eqb_spec (e_type (dirent d j)) FS_TYPE_FREE) as [Ef|Ef].
    + right. exists j, t'. split; [done|]. split_and!; [done|done| |done]. by intros Hu.
    + left. exists t'. split; [done|]. split; [done|]. intros i Hi.
      destruct (Z.eq_dec i j) as [->|]; [done|]. apply Hall. lia.
  - split; [done|]. intros i Hi. lia.
  - exists s'. split; [done|]. right. mstep E. split; [done|]. intros j Hj. apply Hall. unfold slot in Hj. lia.
  - exists s'. split; [done|]. left. exists i. mstep E. done.
Qed.

(** *** Allocation of data blocks *)

(** Data block [b] belongs to a file. *)
Definition covers (e : fs_entry) (b : Z) : Prop :=
  is_file e ∧ e_start_block e ≤ b < e_start_block e + nblocks (e_size e).
Definition covered (d : D) (b : Z) : Prop := ∃ i, slot i ∧ covers (dirent d i) b.

(** The occupancy array: 128 bytes. *)
Definition bits_ok (used : list Z) : Prop := length used = 128%nat ∧ Forall (λ b, 0 ≤ b < 2 ^ 8) used.

Lemma block_used_bit used b : 0 ≤ b → block_used used b = Z.testbit (default 0 (used !! Z.to_nat (b / 8))) (b mod 8).
Proof.
  intros Hb. unfold block_used, truth. pose proof (Z.mod_pos_bound b 8).
  rewrite Z.shiftl_1_l, land_pow2_eqb by lia. by rewrite negb_involutive.
Qed.

Lemma mark_block_run blk used :
  bits_ok used → 0 ≤ blk →
  ∃ used', mark_block blk used = Some used' ∧ bits_ok used' ∧
    ∀ b, 0 ≤ b < 1024 → block_used used' b = (blk =? b) || block_used used b.
Proof.
  intros [Hl Hb] Hk. pose proof (Z.mod_pos_bound blk 8 ltac:(lia)) as Hm.
  pose proof (Z.div_mod blk 8 ltac:(lia)) as Hd. destruct (Z.le_gt_cases 1024 blk) as [Hbig|Hsmall].
  { exists used. unfold mark_block. zcase. split; [done|]. split; [done|]. intros b Hb2. by zcase. }
  destruct (lookup_lt_is_Some_2 used (Z.to_nat (blk / 8))) as [w Hw]; [lia|].
  assert (0 ≤ w < 2 ^ 8) as Hwb by (exact (proj1 (Forall_lookup _ _) Hb _ _ Hw)).
  assert (0 ≤ Z.lor w (2 ^ (blk mod 8)) < 2 ^ 8) as Hor by (apply lor_bound; [lia|done|by apply pow2_bound]).
  unfold mark_block. zcase. rewrite Hw. cbn [mbind option_bind]. rewrite Z.shiftl_1_l, u8_small by (exact Hor).
  eexists. split; [done|]. split; [split; [by rewrite length_insert|by apply Forall_insert]|].
  intros b Hb2. rewrite !block_used_bit by lia. pose proof (Z.mod_pos_bound b 8 ltac:(lia)) as Hm2.
  pose proof (Z.div_mod b 8 ltac:(lia)) as Hd2. assert (0 ≤ b / 8) by (apply Z.div_pos; lia).
  destruct (Z.eq_dec (blk / 8) (b / 8)) as [Eq|Nq].
  - rewrite Eq in *. rewrite list_lookup_insert_eq by lia. rewrite Hw. cbn [default]. unfold from_option, id.
    rewrite Z.lor_spec, testbit_pow2 by lia. rewrite orb_comm. f_equal.
    destruct (Z.eqb_spec (blk mod 8) (b mod 8)), (Z.eqb_spec blk b); lia || done.
  - rewrite list_lookup_insert_ne by lia. destruct (Z.eqb_spec blk b) as [->|]; [done|]. done.
Qed.

Lemma mark_file_run n b0 start cap used :
  bits_ok used → 0 ≤ start + b0 →
  ∃ used', mark_file n b0 start cap used = Some used' ∧ bits_ok used' ∧
    ∀ b, 0 ≤ b < Z.min cap 1024 → block_used used' b =
      block_used used b || ((start + b0 <=? b) && (b <? start + b0 + Z.of_nat n)).
Proof.
  intros Hbits Hpos. revert b0 used Hbits Hpos.
  induction n as [|n IH]; intros b0 used Hbits Hpos; cbn [mark_file].
  - exists used. split; [done|]. split; [done|]. intros b Hb. repeat zcase; by rewrite orb_false_r.
  - destruct (Z.ltb_spec (start + b0) cap) as [Hlt|Hge].
    + destruct (mark_block_run (start + b0) used Hbits) as (used1 & E1 & Hbits1 & H1); [lia|].
      rewrite E1. cbn [mbind option_bind].
      destruct (IH (b0 + 1) used1 Hbits1) as (used' & E & Hbits' & H2); [lia|].
      exists used'. split; [done|]. split; [done|]. intros b Hb. rewrite H2, H1 by lia.
      destruct (block_used used b); [by rewrite orb_true_r|]. rewrite orb_false_r. cbn [orb].
      repeat zcase; done.
    + exists used. split; [done|]. split; [done|]. intros b Hb. destruct (Z.leb_spec (start + b0) b); [lia|].
      by rewrite orb_false_r.
Qed.

Section with_inv.
Context (d : D) (sb : fs_superblock) (Hinv : fs_inv d sb).

Lemma file_small i : slot i → is_file (dirent d i) →
  0 ≤ e_size (dirent d i) ≤ 524288 ∧ file_blocks (e_size (dirent d i)) = nblocks (e_size (dirent d i)) ∧
  0 ≤ e_start_block (dirent d i).
Proof using Hinv.
  intros Hi Hf. pose proof (dirent_wf d sb i (fi_mounted _ _ Hinv) Hi) as Hw.
  pose proof (ew_size _ Hw) as Hz. pose proof (ew_start _ Hw) as Hst.
  assert (e_size (dirent d i) ≤ 524288).
  { destruct (Z.eq_dec (e_size (dirent d i)) 0) as [->|Hne]; [lia|].
    pose proof (fi_range _ _ Hinv i Hi Hf Hne) as Hr. unfold capacity in Hr.
    destruct (nblocks_bounds (e_size (dirent d i))); lia. }
  split_and!; [lia|lia|apply file_blocks_eq; lia|lia].
Qed.

Lemma mark_all_run n i used s :
  fs_at d sb s → bits_ok used → 0 ≤ i → i + Z.of_nat n ≤ 32 →
  let cap := bd_total d - 3 in
  ∃ used' s', mark_all n i cap used s = Some (used', s') ∧ fs_at d sb s' ∧ bits_ok used' ∧
    ∀ b, 0 ≤ b < capacity d → (block_used used' b = true ↔
      block_used used b = true ∨ ∃ j, i ≤ j < i + Z.of_nat n ∧ covers (dirent d j) b).
Proof using Hinv.
  intros Hat Hbits Hi Hn cap. revert i used s Hat Hbits Hi Hn.
  induction n as [|n IH]; intros i used s Hat Hbits Hi Hn; cbn [mark_all].
  - exists used, s. split_and!; [done..|]. intros b Hb. split; [by left|]. intros [?|(j & Hj & _)]; [done|lia].
  - assert (slot i) as Hsi by (unfold slot; lia).
    destruct (read_entry_run d sb s i Hat (fi_mounted _ _ Hinv) Hsi) as (s1 & E1 & Hat1). mstep E1.
    assert (∃ used1, match Some (dirent d i) with
        | None => mret used
        | Some e => if e_type e =? FS_TYPE_FREE then mret used
            else if e_type e =? FS_TYPE_DIR then mret used
            else of_option (mark_file (Z.to_nat (file_blocks (e_size e))) 0 (e_start_block e) cap used)
        end s1 = Some (used1, s1) ∧ bits_ok used1 ∧
        ∀ b, 0 ≤ b < capacity d → (block_used used1 b = true ↔ block_used used b = true ∨ covers (dirent d i) b))
      as (used1 & E2 & Hbits1 & H1).
    { destruct (Z.eqb_spec (e_type (dirent d i)) FS_TYPE_FREE) as [Et|Et].
      { exists used. split_and!; [done..|]. intros b Hb. split; [by left|]. intros [?|[Hf _]]; [done|].
        unfold is_file in Hf. rewrite Et in Hf. done. }
      destruct (Z.eqb_spec (e_type (dirent d i)) FS_TYPE_DIR) as [Ed|Ed].
      { exists used. split_and!; [done..|]. intros b Hb. split; [by left|]. intros [?|[Hf _]]; [done|].
        unfold is_file in Hf. rewrite Ed in Hf. done. }
      assert (is_file (dirent d i)) as Hf by (destruct (fi_type _ _ Hinv i Hsi) as [?|[?|?]]; done).
      destruct (file_small i Hsi Hf) as (Hz & Hfb & Hst). rewrite Hfb.
      destruct (nblocks_bounds (e_size (dirent d i)) ltac:(lia)) as [Hnb _].
      destruct (mark_file_run (Z.to_nat (nblocks (e_size (dirent d i)))) 0 (e_start_block (dirent d i)) cap used Hbits)
        as (used1 & E & Hb1 & H1); [lia|]. exists used1. rewrite E. split_and!; [done|done|].
      intros b Hb. rewrite H1 by (unfold capacity in Hb; lia). rewrite orb_true_iff, andb_true_iff, Z.leb_le, Z.ltb_lt.
      unfold covers. rewrite Z2Nat.id by lia. rewrite Z.add_0_r. tauto. }
    mstep E2. destruct (IH (i + 1) used1 s1 Hat1 Hbits1) as (used' & s' & E & Hat' & Hbits' & H2); [lia|lia|].
    exists used', s'. split_and!; [done..|]. intros b Hb. rewrite H2, H1 by done. split.
    + intros [[?|?]|(j & Hj & ?)]; [by left|right; exists i; split; [lia|done]|right; exists j; split; [lia|done]].
    + intros [?|(j & Hj & ?)]; [by left; left|]. destruct (Z.eq_dec j i) as [->|]; [by left; right|].
      right. exists j. split; [lia|done].
Qed.
End with_inv.

Lemma alloc_run d sb s count :
  fs_inv d sb → fs_at d sb s → 0 < count < 4294967296 →
  ∃ r s', fs_alloc_blocks count s = Some (r, s') ∧ fs_at d sb s' ∧
    ((r = 0xFFFFFFFF ∧ (free_blocks sb < count ∨
        ∀ a, 0 ≤ a → a + count ≤ capacity d → ∃ b, a ≤ b < a + count ∧ covered d b)) ∨
     (0 ≤ r ∧ r + count ≤ capacity d ∧ count ≤ free_blocks sb ∧ (∀ b, r ≤ b < r + count → ¬ covered d b) ∧
      ∀ a, 0 ≤ a < r → ∃ b, a ≤ b < a + count ∧ covered d b)).
Proof.
  intros Hinv Hat Hc. pose proof (fi_mounted _ _ Hinv) as Hm. unfold fs_alloc_blocks.
  destruct (Z.eqb_spec count 0); [lia|]. rewrite bind_run. cbn [get]. pose proof Hat as (_ & Hsb & _). rewrite Hsb.
  rewrite Z.gtb_ltb. destruct (Z.ltb_spec (free_blocks sb) count) as [Hlt|Hge].
  { exists 0xFFFFFFFF, s. split; [done|]. split; [done|]. left. split; [done|]. by left. }
  pose proof (bd_total_bound d (mo_ok _ _ Hm)). pose proof (mo_size _ _ Hm).
  rewrite (mo_total _ _ Hm), (mo_data _ _ Hm), u32_small by lia.
  destruct (mark_all_run d sb Hinv 32 0 (replicate 128 0) s Hat) as (used & s' & E & Hat' & Hbits & Hu);
    [split; [done|by apply Forall_replicate]|lia|lia|].
  change (Z.to_nat FS_MAX_ENTRIES) with 32%nat. mstep E.
  assert (∀ b, 0 ≤ b < capacity d → (block_used used b = true ↔ covered d b)) as Hcov.
  { intros b Hb. rewrite Hu by done. unfold covered, slot. split.
    - intros [Hf|(j & Hj & Hcv)]; [|exists j; split; [lia|done]]. exfalso. rewrite block_used_bit in Hf by lia.
      destruct (replicate 128 0 !! Z.to_nat (b / 8)) as [w|] eqn:Ew; simpl in Hf; [|by rewrite Z.testbit_0_l in Hf].
      apply lookup_replicate in Ew as [-> _]. by rewrite Z.testbit_0_l in Hf.
    - intros (j & Hj & Hcv). right. exists j. split; [lia|done]. }
  assert (∀ a, 0 ≤ a → a + count ≤ capacity d → ¬ all_free (λ b, negb (block_used used b)) a count →
    ∃ b, a ≤ b < a + count ∧ covered d b) as Hex.
  { intros a Ha Hac Hnf. destruct (decide (Exists (λ b, block_used used b = true) (seqZ a count))) as [Hex|Hno].
    - apply Exists_exists in Hex as (b & Hin & Hb). apply list_elem_of_In, elem_of_seqZ in Hin. exists b. split; [lia|]. apply Hcov; [lia|done].
    - destruct Hnf. intros x Hx. apply negb_true_iff, not_true_iff_false. intros Hux. apply Hno. apply Exists_exists.
      exists x. split; [apply list_elem_of_In, elem_of_seqZ; lia|done]. }
  unfold capacity in *. set (cap := Z.min (bd_total d - 3) 1024) in *.
  pose proof (find_run_first (λ b, negb (block_used used b)) count ltac:(lia) 0 (Z.to_nat cap)) as Hrun.
  destruct (find_run _ (Z.to_nat cap) 0 0 0 count) as [r|].
  - exists r, s'. split; [done|]. split; [done|]. right. destruct Hrun as (Hr0 & Hrc & Hfree & Hfirst).
    split_and!; [done|lia|lia| |].
    + intros b Hb Hcb. apply Hcov in Hcb; [|lia]. specialize (Hfree b Hb). simpl in Hfree. by rewrite Hcb in Hfree.
    + intros a Ha. apply Hex; [lia|lia|]. by apply Hfirst.
  - exists 0xFFFFFFFF, s'. split; [done|]. split; [done|]. left. split; [done|]. right. intros a Ha Hac.
    apply Hex; [done|done|]. apply Hrun; lia.
Qed.

(** *** Writing and reading runs of blocks *)

Lemma run_bytes_S d start n :
  0 < n → run_bytes d start n = blk d (3 + start) ++ run_bytes d (start + 1) (n - 1).
Proof.
  intros Hn. unfold run_bytes. rewrite seqZ_cons by lia. rewrite fmap_cons. simpl concat. do 3 f_equal.
  replace (Z.succ (3 + start)) with (3 + (start + 1)) by lia. f_equal.
Qed.

Lemma run_bytes_ext d d' start n :
  (∀ b, 3 + start ≤ b < 3 + start + n → blk d' b = blk d b) → run_bytes d' start n = run_bytes d start n.
Proof.
  intros Hb. unfold run_bytes. f_equal. apply list_fmap_ext. intros i x Hx. apply Hb.
  apply list_elem_of_lookup_2, elem_of_seqZ in Hx. lia.
Qed.

(** The device after a run of blocks was written. *)
Record run_written (d d' : D) (start n : Z) (bytes : list Z) : Prop := {
  rw_ok : bd_ok d';
  rw_total : bd_total d' = bd_total d;
  rw_bytes : run_bytes d' start n = bytes;
  rw_other : ∀ b, 0 ≤ b < bd_total d → b < 3 + start ∨ 3 + start + n ≤ b → blk d' b = blk d b
}.

(** One round of the writing loop: the block that is written. *)
Definition chunk_block (src : list Z) (remaining : Z) : list Z :=
  take (Z.to_nat (Z.min remaining 512)) src ++ replicate (Z.to_nat (512 - Z.min remaining 512)) 0.

Lemma chunk_is_block src remaining :
  0 ≤ remaining ≤ Z.of_nat (length src) → Forall (λ b, 0 ≤ b < 256) src → is_block (chunk_block src remaining).
Proof.
  intros Hr Hb. unfold chunk_block. split.
  - rewrite length_app, length_take, length_replicate. lia.
  - apply Forall_app. split; [by apply Forall_take|apply Forall_replicate; lia].
Qed.

Lemma write_round d sb s start i src remaining :
  fs_at d sb s → mounted d sb → 0 < remaining ≤ Z.of_nat (length src) → Forall (λ b, 0 ≤ b < 256) src →
  0 ≤ start → 0 ≤ i → 3 + start + i < bd_total d →
  let chunk := if remaining >? BLOCK_SIZE then BLOCK_SIZE else remaining in
  let abs_block := data_start_block (superblock s) +! start +! i in
  ∃ d' s',
    (if chunk <? BLOCK_SIZE then
       buf ← of_option (memset (block_buf s) 0 512);
       buf ← of_option (memcpy buf src (Z.to_nat chunk));
       put (set_buf buf s) ;;
       dev_write abs_block buf
     else dev_write abs_block src) s = Some (0, s') ∧ fs_at d' sb s' ∧
    written d d' (3 + start + i) (chunk_block src remaining) ∧ chunk = Z.min remaining 512.
Proof.
  intros Hat Hm Hr Hb Hs Hi Ht chunk abs_block. pose proof Hat as ((d0 & Hd & _) & Hsb & Hbuf).
  pose proof (bd_total_bound d (mo_ok _ _ Hm)) as Htb.
  assert (abs_block = 3 + start + i) as Habs.
  { unfold abs_block. rewrite Hsb, (mo_data _ _ Hm). rewrite (u32_small (3 + start)) by lia. apply u32_small. lia. }
  assert (chunk = Z.min remaining 512) as Hchunk by (unfold chunk, BLOCK_SIZE; zcase; lia).
  pose proof (chunk_is_block src remaining ltac:(lia) Hb) as Hcb. rewrite Habs, Hchunk. unfold BLOCK_SIZE.
  destruct (Z.ltb_spec (Z.min remaining 512) 512) as [Hlt|Hge].
  - assert (Z.min remaining 512 = remaining) as Emin by lia.
    destruct (write_run d sb (set_buf (chunk_block src remaining) s) (3 + start + i) (chunk_block src remaining))
      as (d' & s' & E & Hat' & _ & Hw); [by apply fs_at_set_buf|apply Hm|lia|by rewrite take_ge by (destruct Hcb; lia)|].
    rewrite take_ge in Hw by (destruct Hcb; lia). exists d', s'. split; [|done].
    destruct Hbuf as [Hl _]. rewrite bind_run, memset_spec by lia. cbn [of_option]. rewrite drop_ge, app_nil_r by lia.
    rewrite bind_run, memcpy_spec by (rewrite ?length_replicate; lia). cbn [of_option].
    rewrite drop_replicate. mrun. change (u8 0) with 0.
    assert (take (Z.to_nat (Z.min remaining 512)) src ++ replicate (512 - Z.to_nat (Z.min remaining 512)) 0 =
      chunk_block src remaining) as ->; [|exact E].
    unfold chunk_block. do 2 f_equal. lia.
  - assert (chunk_block src remaining = take 512 src) as Ecb.
    { unfold chunk_block. replace (Z.min remaining 512) with 512 by lia. simpl. by rewrite app_nil_r. }
    rewrite Ecb in *. destruct (write_run d sb s (3 + start + i) src) as (d' & s' & E & Hat' & _ & Hw);
      [done|apply Hm|lia|done|]. exists d', s'. done.
Qed.

Lemma mounted_written d d' sb b buf : mounted d sb → written d d' b buf → mounted d' sb.
Proof.
  intros [] Hw. split; try done; [apply Hw|rewrite (wr_total _ _ _ _ Hw); done..].
Qed.

(** The contents written by the loop: the data, zero-filled to a block. *)
Definition padded (src : list Z) (size : Z) : list Z :=
  take (Z.to_nat size) src ++ replicate (Z.to_nat (512 * nblocks size - size)) 0.

Lemma padded_S src size :
  0 < size ≤ Z.of_nat (length src) →
  padded src size = chunk_block src size ++ padded (drop (Z.to_nat (Z.min size 512)) src) (size - Z.min size 512) ∧
  nblocks (size - Z.min size 512) = nblocks size - 1.
Proof.
  intros Hs. assert (nblocks (size - Z.min size 512) = nblocks size - 1) as Hn.
  { destruct (nblocks_bounds size), (nblocks_bounds (size - Z.min size 512)); lia. }
  split; [|done]. unfold padded, chunk_block. rewrite Hn. destruct (Z.le_gt_cases size 512) as [Hle|Hgt].
  - replace (Z.min size 512) with size by lia. rewrite Z.sub_diag. simpl take.
    assert (nblocks size = 1) as -> by (destruct (nblocks_bounds size); lia). 
    replace (Z.to_nat (512 * (1 - 1) - 0)) with 0%nat by lia. simpl. rewrite app_nil_r. do 2 f_equal. 
  - replace (Z.min size 512) with 512 by lia. replace (Z.to_nat (512 - 512)) with 0%nat by lia. simpl replicate.
    rewrite app_nil_r, app_assoc. f_equal; [|f_equal; lia].
    rewrite <- (take_drop (Z.to_nat 512) src) at 1. rewrite take_app_ge by (rewrite length_take; lia). do 2 f_equal.
    rewrite length_take. lia.
Qed.

Lemma write_blocks_run n d sb s start i src size :
  fs_at d sb s → mounted d sb → 0 ≤ size ≤ Z.of_nat (length src) → size < 4294967296 →
  Forall (λ b, 0 ≤ b < 256) src →
  0 ≤ start → 0 ≤ i → Z.of_nat n = nblocks size → 3 + start + i + nblocks size ≤ bd_total d →
  ∃ d' s', write_blocks n i start src size s = Some (None, s') ∧ fs_at d' sb s' ∧
    run_written d d' (start + i) (nblocks size) (padded src size).
Proof.
  revert d s i src size. induction n as [|n IH]; intros d s i src size Hat Hm Hs Hs32 Hb Hst Hi Hn Ht.
  - assert (size = 0) as -> by (destruct (nblocks_bounds size); lia).
    exists d, s. split; [done|]. split; [done|]. split; [apply Hm|done|done|done].
  - assert (0 < size) as Hpos.
    { destruct (Z.eq_dec size 0) as [->|]; [|lia]. change (nblocks 0) with 0 in Hn. lia. }
    destruct (padded_S src size ltac:(lia)) as [Hpad Hnb].
    destruct (write_round d sb s start i src size Hat Hm ltac:(lia) Hb Hst Hi ltac:(lia))
      as (d1 & s1 & E1 & Hat1 & Hw1 & Hchunk).
    cbn [write_blocks]. rewrite bind_run. cbn [get]. rewrite bind_run, E1. cbn [Z.eqb negb]. rewrite Hchunk.
    rewrite u32_small by lia.
    destruct (IH d1 s1 (i + 1) (drop (Z.to_nat (Z.min size 512)) src) (size - Z.min size 512))
      as (d' & s' & E & Hat' & Hrw);
      [done|by eapply mounted_written|rewrite length_drop; lia|lia|by apply Forall_drop|done|lia|lia| |].
    { rewrite (wr_total _ _ _ _ Hw1). lia. }
    exists d', s'. split; [done|]. split; [done|]. destruct Hrw as [Hok Htot Hby Hot].
    rewrite (wr_total _ _ _ _ Hw1) in *. split; [done|done| |].
    + rewrite run_bytes_S by lia. rewrite Hpad. f_equal.
      * rewrite Hot by lia. replace (3 + (start + i)) with (3 + start + i) by lia. apply Hw1.
      * rewrite <- Hnb. by replace (start + i + 1) with (start + (i + 1)) by lia.
    + intros b Hbb Hout. rewrite Hot by lia. apply (wr_other _ _ _ _ Hw1); lia.
Qed.

Lemma length_blk d b : bd_ok d → 0 ≤ b < bd_total d → length (blk d b) = 512%nat.
Proof. intros Hok Hb. by destruct (blk_block d b Hok Hb). Qed.

Lemma read_blocks_run n d sb s start i size dst :
  fs_at d sb s → mounted d sb → 0 ≤ size < 4294967296 →
  0 ≤ start → 0 ≤ i → Z.of_nat n = nblocks size → 3 + start + i + nblocks size ≤ bd_total d →
  ∃ s', read_blocks n i start size dst s =
      Some ((true, dst ++ take (Z.to_nat size) (run_bytes d (start + i) (nblocks size))), s') ∧ fs_at d sb s'.
Proof.
  revert s i size dst. induction n as [|n IH]; intros s i size dst Hat Hm Hs Hst Hi Hn Ht.
  - assert (size = 0) as -> by (destruct (nblocks_bounds size); lia).
    exists s. split; [|done]. by rewrite app_nil_r.
  - assert (0 < size) as Hpos.
    { destruct (Z.eq_dec size 0) as [->|]; [|lia]. change (nblocks 0) with 0 in Hn. lia. }
    assert (nblocks (size - Z.min size 512) = nblocks size - 1) as Hnb.
    { destruct (nblocks_bounds size), (nblocks_bounds (size - Z.min size 512)); lia. }
    pose proof Hat as (_ & Hsb & _). pose proof (bd_total_bound d (mo_ok _ _ Hm)).
    destruct (read_buf_run d sb s (3 + start + i) Hat (mo_ok _ _ Hm)) as (s1 & E1 & Hat1 & Hbuf); [lia|].
    cbn [read_blocks]. rewrite bind_run. cbn [get]. rewrite Hsb, (mo_data _ _ Hm).
    rewrite (u32_small (3 + start)), (u32_small (3 + start + i)) by lia. mstep E1. cbn [Z.eqb negb].
    rewrite bind_run. cbn [get]. rewrite Hbuf.
    assert ((if size >? BLOCK_SIZE then BLOCK_SIZE else size) = Z.min size 512) as -> by (unfold BLOCK_SIZE; zcase; lia).
    rewrite u32_small by lia.
    destruct (IH s1 (i + 1) (size - Z.min size 512) (dst ++ take (Z.to_nat (Z.min size 512)) (blk d (3 + start + i))))
      as (s' & E & Hat'); [done|done|lia|done|lia|lia|lia|].
    exists s'. split; [|done]. rewrite E, <- app_assoc. do 4 f_equal. rewrite (run_bytes_S d (start + i)) by lia.
    rewrite Hnb. replace (3 + (start + i)) with (3 + start + i) by lia. replace (start + i + 1) with (start + (i + 1)) by lia.
    assert (length (blk d (3 + start + i)) = 512%nat) as Hl by (apply length_blk; [apply Hm|lia]).
    rewrite take_app. f_equal; [|f_equal; lia]. destruct (Z.le_gt_cases size 512).
    + f_equal. lia.
    + rewrite !take_ge by lia. done.
Qed.

(** *** Sums over the directory *)

Lemma sumZ_S f n : sumZ f (S n) = sumZ f n + f (Z.of_nat n).
Proof.
  unfold sumZ. replace (Z.of_nat (S n)) with (Z.of_nat n + 1) by lia. rewrite seqZ_app by lia.
  rewrite foldr_app. simpl. assert (∀ l a, foldr (λ i acc, f i + acc) a l = foldr (λ i acc, f i + acc) 0 l + a) as Hf.
  { intros l a. induction l as [|x l IH]; simpl; lia. }
  rewrite Hf. f_equal. simpl. by rewrite Z.add_0_r.
Qed.

Lemma sumZ_ext f g n : (∀ i, 0 ≤ i < Z.of_nat n → f i = g i) → sumZ f n = sumZ g n.
Proof.
  induction n as [|n IH]; intros Hfg; [done|]. rewrite !sumZ_S, IH, Hfg by lia || (intros; apply Hfg; lia). done.
Qed.

Lemma sumZ_upd f g n k :
  0 ≤ k < Z.of_nat n → (∀ i, 0 ≤ i < Z.of_nat n → i ≠ k → g i = f i) → sumZ g n = sumZ f n - f k + g k.
Proof.
  induction n as [|n IH]; intros Hk Hg; [lia|]. rewrite !sumZ_S. destruct (Z.eq_dec k (Z.of_nat n)) as [->|Hne].
  - rewrite (sumZ_ext g f); [lia|]. intros i Hi. apply Hg; lia.
  - rewrite IH; [rewrite (Hg (Z.of_nat n)); lia|lia|]. intros i Hi. apply Hg. lia.
Qed.

Lemma sumZ_bounds f n M : (∀ i, 0 ≤ i < Z.of_nat n → 0 ≤ f i ≤ M) → 0 ≤ sumZ f n ≤ Z.of_nat n * M.
Proof.
  induction n as [|n IH]; intros Hf; [unfold sumZ; simpl; lia|]. rewrite sumZ_S.
  specialize (Hf (Z.of_nat n)) as Hfn. assert (0 ≤ sumZ f n ≤ Z.of_nat n * M) by (apply IH; intros; apply Hf; lia). lia.
Qed.

(** The files' sizes are such that no block count overflows. *)
Definition sizes_ok (d : D) : Prop := ∀ i, slot i → is_file (dirent d i) → 0 ≤ e_size (dirent d i) ≤ 0xFFFFFDFF.

Lemma count_used_run n d sb s i tot :
  fs_at d sb s → mounted d sb → sizes_ok d → 0 ≤ i → i + Z.of_nat n = 32 → 0 ≤ tot →
  tot + sumZ (λ i, entry_blocks (dirent d i)) 32 - sumZ (λ i, entry_blocks (dirent d i)) (Z.to_nat i) < 4294967296 →
  ∃ s', count_used n i tot s =
    Some (tot + sumZ (λ i, entry_blocks (dirent d i)) 32 - sumZ (λ i, entry_blocks (dirent d i)) (Z.to_nat i), s') ∧
    fs_at d sb s'.
Proof.
  intros Hat Hm Hsz. revert s i tot Hat. induction n as [|n IH]; intros s i tot Hat Hi Hn Ht Hlt.
  - exists s. split; [|done]. replace (Z.to_nat i) with 32%nat by lia.
    change (count_used 0 i tot s) with (Some (tot, s)). do 2 f_equal. lia.
  - assert (slot i) as Hsi by (unfold slot; lia).
    destruct (read_entry_run d sb s i Hat Hm Hsi) as (s1 & E1 & Hat1). cbn [count_used]. mstep E1.
    assert (∀ j, slot j → 0 ≤ entry_blocks (dirent d j)) as Hnn.
    { intros j Hj. unfold entry_blocks. destruct (Z.eqb_spec (e_type (dirent d j)) FS_TYPE_FILE) as [Hf|]; [|lia].
      apply nblocks_bounds. apply (Hsz j Hj Hf). }
    assert (sumZ (λ i, entry_blocks (dirent d i)) (Z.to_nat (i + 1)) =
      sumZ (λ i, entry_blocks (dirent d i)) (Z.to_nat i) + entry_blocks (dirent d i)) as Hsum.
    { replace (Z.to_nat (i + 1)) with (S (Z.to_nat i)) by lia. rewrite sumZ_S. by rewrite Z2Nat.id by lia. }
    assert (0 ≤ sumZ (λ i, entry_blocks (dirent d i)) 32 - sumZ (λ i, entry_blocks (dirent d i)) (Z.to_nat (i + 1))) as Hle.
    { assert (∀ m k, (k + m ≤ 32)%nat → sumZ (λ i, entry_blocks (dirent d i)) k ≤ sumZ (λ i, entry_blocks (dirent d i)) (k + m)) as Hmono.
      { intros m. induction m as [|m IHm]; intros k Hk; [rewrite Nat.add_0_r; lia|].
        rewrite Nat.add_succ_r, sumZ_S. specialize (IHm k ltac:(lia)).
        specialize (Hnn (Z.of_nat (k + m)) ltac:(unfold slot; lia)). lia. }
      specialize (Hmono (32 - Z.to_nat (i + 1))%nat (Z.to_nat (i + 1)) ltac:(lia)).
      replace (Z.to_nat (i + 1) + (32 - Z.to_nat (i + 1)))%nat with 32%nat in Hmono by lia. lia. }
    set (tot' := if (e_type (dirent d i) =? FS_TYPE_FILE) && (e_size (dirent d i) >? 0)
                 then tot +! file_blocks (e_size (dirent d i)) else tot).
    assert (tot' = tot + entry_blocks (dirent d i)) as Htot.
    { unfold tot', entry_blocks. destruct (Z.eqb_spec (e_type (dirent d i)) FS_TYPE_FILE) as [Hf|]; cbn [andb]; [|lia].
      pose proof (Hsz i Hsi Hf). specialize (Hnn i Hsi). rewrite Z.gtb_ltb.
      assert (entry_blocks (dirent d i) = nblocks (e_size (dirent d i))) as He.
      { unfold entry_blocks. unfold is_file in Hf. by rewrite Hf. }
      destruct (Z.ltb_spec 0 (e_size (dirent d i))).
      - rewrite file_blocks_eq by lia. apply u32_small. lia.
      - replace (e_size (dirent d i)) with 0 by lia. change (nblocks 0) with 0. lia. }
    destruct (IH s1 (i + 1) tot' Hat1) as (s' & E & Hat'); [lia|lia|specialize (Hnn i Hsi); lia|lia|].
    exists s'. split; [|done]. fold tot'. rewrite E. do 2 f_equal. lia.
Qed.

(** *** Keeping the invariant *)

Lemma flush_run d sb s :
  fs_at d sb s → mounted d sb →
  ∃ d' s', fs_flush_superblock s = Some (0, s') ∧ fs_at d' sb s' ∧ bd_ok d' ∧ bd_total d' = bd_total d ∧
    (∀ b, 1 ≤ b < bd_total d → blk d' b = blk d b) ∧ blk d' 0 = enc_superblock sb.
Proof.
  intros Hat Hm. pose proof Hat as (_ & Hsb & _). pose proof (enc_superblock_block sb (mo_wf _ _ Hm)) as Hb.
  destruct (write_run d sb s 0 (enc_superblock sb) Hat (mo_ok _ _ Hm)) as (d' & s' & E & Hat' & _ & Hw).
  { pose proof (mo_size _ _ Hm). lia. } { by rewrite take_ge by (destruct Hb; lia). }
  exists d', s'. unfold fs_flush_superblock. rewrite bind_run. cbn [get]. rewrite Hsb.
  split_and!; [done|done|apply Hw|apply Hw| |].
  - intros b Hbb. apply (wr_other _ _ _ _ Hw); lia.
  - rewrite (wr_same _ _ _ _ Hw). apply take_ge. destruct Hb. lia.
Qed.

Lemma dirent_ext d d' sb i :
  mounted d sb → slot i → (∀ b, 1 ≤ b < bd_total d → blk d' b = blk d b) → dirent d' i = dirent d i.
Proof.
  intros Hm Hi Hb. unfold dirent. rewrite Hb; [done|]. pose proof (dir_block d sb i Hm Hi).
  destruct (slot_block i Hi). lia.
Qed.

Lemma content_ext d d' e :
  (∀ b, 3 + e_start_block e ≤ b < 3 + e_start_block e + nblocks (e_size e) → blk d' b = blk d b) →
  content d' e = content d e.
Proof. intros Hb. unfold content. f_equal. apply run_bytes_ext. intros b Hbb. apply Hb. lia. Qed.

(** Changing one entry. *)
Record replaced (d d' : D) (i : Z) (e' : fs_entry) : Prop := {
  rp_entry : ∀ j, slot j → dirent d' j = if i =? j then e' else dirent d j;
  rp_content : ∀ j, slot j → j ≠ i → is_file (dirent d j) → content d' (dirent d j) = content d (dirent d j)
}.

Lemma fs_inv_replace d d' sb sb' i e' :
  fs_inv d sb → slot i → mounted d' sb' → bd_total d' = bd_total d → replaced d d' i e' →
  (e_type e' = FS_TYPE_FREE ∨ e_type e' = FS_TYPE_FILE ∨ e_type e' = FS_TYPE_DIR) →
  (in_use e' → ∃ n, named e' n ∧ ∀ j, slot j → j ≠ i → in_use (dirent d j) → ¬ named (dirent d j) n) →
  (is_file e' → e_size e' ≠ 0 → e_start_block e' + nblocks (e_size e') ≤ capacity d ∧
     ∀ j, slot j → j ≠ i → is_file (dirent d j) → e_size (dirent d j) ≠ 0 →
       e_start_block e' + nblocks (e_size e') ≤ e_start_block (dirent d j) ∨
       e_start_block (dirent d j) + nblocks (e_size (dirent d j)) ≤ e_start_block e') →
  free_blocks sb' = bd_total d - 3 -
    (sumZ (λ i, entry_blocks (dirent d i)) 32 - entry_blocks (dirent d i) + entry_blocks e') ∧
  0 ≤ free_blocks sb' → blk d' 0 = enc_superblock sb' →
  fs_inv d' sb'.
Proof.
  intros Hinv Hi Hm Htot Hrp Hty Hnm Hrg [Hfr Hfr0] Hdisk. pose proof (rp_entry _ _ _ _ Hrp) as He. split; [done|..].
  - intros j Hj. rewrite He by done. zcase; [done|]. by apply (fi_type _ _ Hinv).
  - intros j Hj. rewrite He by done. zcase.
    + intros Hu. destruct (Hnm Hu) as (n & Hn & _). by exists n.
    + by apply (fi_name _ _ Hinv).
  - intros j k n Hj Hk. rewrite !He by done. repeat zcase; subst; [done|..].
    + intros Hu Hu' Hn1 Hn2. destruct (Hnm Hu) as (n' & Hn' & Hno). rewrite (named_inj _ _ _ Hn1 Hn') in *.
      by destruct (Hno k Hk ltac:(congruence) Hu').
    + intros Hu Hu' Hn1 Hn2. destruct (Hnm Hu') as (n' & Hn' & Hno). rewrite (named_inj _ _ _ Hn2 Hn') in *.
      by destruct (Hno j Hj ltac:(congruence) Hu).
    + by apply (fi_unique _ _ Hinv).
  - intros j Hj. rewrite He by done. unfold capacity in *. rewrite Htot. zcase.
    + intros Hf Hz. by apply Hrg.
    + by apply (fi_range _ _ Hinv).
  - intros j k Hj Hk Hne. rewrite !He by done. repeat zcase; subst; intros Hf1 Hf2 Hz1 Hz2.
    + destruct (Hrg Hf1 Hz1) as [_ Hd]. apply Hd; [done|congruence|done|done].
    + destruct (Hrg Hf2 Hz2) as [_ Hd]. destruct (Hd j) as [?|?]; auto.
    + by apply (fi_disjoint _ _ Hinv).
  - split; [|done]. rewrite Htot, Hfr. f_equal. unfold slot in Hi.
    rewrite (sumZ_upd (λ i, entry_blocks (dirent d i)) (λ i, entry_blocks (dirent d' i)) 32 i).
    + cbv beta. rewrite (He i), Z.eqb_refl by done. done.
    + lia.
    + intros j Hj Hne. cbv beta. rewrite He by (unfold slot; lia). by zcase.
  - done.
Qed.

(** The map after the change. *)
Lemma has_replace d d' sb i e' n t x :
  fs_inv d sb → slot i → replaced d d' i e' →
  has d' n t x ↔
  (in_use e' ∧ named e' n ∧ e_type e' = t ∧ x = (if t =? FS_TYPE_FILE then content d' e' else [])) ∨
  (has d n t x ∧ ¬ (in_use (dirent d i) ∧ named (dirent d i) n)).
Proof.
  intros Hinv Hi Hrp. pose proof (rp_entry _ _ _ _ Hrp) as He. split.
  - intros (j & Hj & Hu & Hn & Ht & Hx). rewrite He in * by done. destruct (Z.eqb_spec i j) as [<-|Hne]; [by left|].
    right. split.
    + exists j. split_and!; [done..|]. rewrite Hx. destruct (Z.eqb_spec t FS_TYPE_FILE) as [->|]; [|done].
      by apply (rp_content _ _ _ _ Hrp).
    + intros [Hu' Hn']. apply Hne. by apply (fi_unique _ _ Hinv i j n).
  - intros [(Hu & Hn & Ht & Hx)|[(j & Hj & Hu & Hn & Ht & Hx) Hno]].
    + exists i. rewrite He, Z.eqb_refl by done. done.
    + assert (i ≠ j) as Hne by (intros ->; tauto). exists j. rewrite He by done.
      destruct (Z.eqb_spec i j); [done|]. split_and!; [done..|]. rewrite Hx.
      destruct (Z.eqb_spec t FS_TYPE_FILE) as [->|]; [|done]. symmetry. apply (rp_content _ _ _ _ Hrp); [done|congruence|done].
Qed.

(** Storing an entry replaces it when no data block changes. *)
Lemma stored_replaced d d' sb i e' : fs_inv d sb → stored d d' i e' → replaced d d' i e'.
Proof.
  intros Hinv Hs. split; [apply (so_entry _ _ _ _ Hs)|]. intros j Hj Hne Hf. apply content_ext. intros b Hb.
  destruct (file_small d sb Hinv j Hj Hf) as (Hz & _ & Hst). apply (so_data _ _ _ _ Hs).
  destruct (Z.eq_dec (e_size (dirent d j)) 0) as [Ez|Ez]; [rewrite Ez in Hb; change (nblocks 0) with 0 in Hb; lia|].
  pose proof (fi_range _ _ Hinv j Hj Hf Ez) as Hr. unfold capacity in Hr. lia.
Qed.

(** *** Creating entries *)

(** The name field [fs_create] builds. *)
Lemma create_name n r :
  nonzero n → (length n ≤ 23)%nat →
  strncpy (e_name zero_entry) (n ++ 0 :: r) (Z.to_nat FS_NAME_MAX) = Some (n ++ replicate (24 - length n) 0) ∧
  <[Z.to_nat FS_NAME_MAX := 0]> (n ++ replicate (24 - length n) 0) = n ++ replicate (24 - length n) 0.
Proof.
  intros Hn Hl. change (Z.to_nat FS_NAME_MAX) with 23%nat. split.
  - rewrite strncpy_cstr by (done || simpl; lia). f_equal. cbn [e_name zero_entry]. rewrite drop_replicate.
    rewrite take_app_ge by lia. rewrite take_replicate. rewrite <- app_assoc. f_equal.
    rewrite <- replicate_add. f_equal. lia.
  - rewrite list_insert_id; [done|]. rewrite lookup_app_r by lia. apply lookup_replicate_2. lia.
Qed.

Lemma new_entry_named n type : nonzero n → (length n ≤ 23)%nat →
  named (Entry (n ++ replicate (24 - length n) 0) type 0 0 0) n.
Proof.
  intros Hn Hl. split; [done|]. exists (replicate (23 - length n) 0). cbn [e_name]. f_equal.
  by replace (24 - length n)%nat with (S (23 - length n)) by lia.
Qed.

Lemma new_entry_wf n type :
  nonzero n → (length n ≤ 23)%nat → 0 ≤ type < 256 → entry_wf (Entry (n ++ replicate (24 - length n) 0) type 0 0 0).
Proof.
  intros Hn Hl Ht. split; cbn [e_name e_type e_reserved e_start_block e_size]; try lia.
  - rewrite length_app, length_replicate. lia.
  - apply Forall_app. split; [|apply Forall_replicate; lia]. eapply Forall_impl; [|exact Hn]. simpl. intros; lia.
Qed.

Lemma free_entry_blocks e : e_type e = FS_TYPE_FREE → entry_blocks e = 0.
Proof. intros E. unfold entry_blocks. by rewrite E. Qed.

Lemma file_entry_blocks e : is_file e → entry_blocks e = nblocks (e_size e).
Proof. intros E. unfold entry_blocks. by rewrite E. Qed.

Lemma mounted_same d d' sb : mounted d sb → bd_ok d' → bd_total d' = bd_total d → mounted d' sb.
Proof. intros [] Hok Ht. split; try done; by rewrite Ht. Qed.

Lemma create_done d sb i n type d' :
  fs_inv d sb → slot i → ¬ in_use (dirent d i) → nonzero n → (length n ≤ 23)%nat →
  (type = FS_TYPE_FILE ∨ type = FS_TYPE_DIR) →
  (∀ j, slot j → in_use (dirent d j) → ¬ named (dirent d j) n) →
  stored d d' i (Entry (n ++ replicate (24 - length n) 0) type 0 0 0) →
  fs_inv d' sb ∧ ∀ m t x, has d' m t x ↔ (m = n ∧ t = type ∧ x = []) ∨ has d m t x.
Proof.
  intros Hinv Hi Hfree Hn Hl Hty Hno Hst. set (e' := Entry _ type 0 0 0) in *.
  pose proof (stored_replaced d d' sb i e' Hinv Hst) as Hrp. pose proof (new_entry_named n type Hn Hl) as Hnm.
  fold e' in Hnm. assert (in_use e') as Hu by (unfold in_use; destruct Hty as [->| ->]; done).
  assert (e_type (dirent d i) = FS_TYPE_FREE) as Hfr0.
  { destruct (Z.eq_dec (e_type (dirent d i)) FS_TYPE_FREE); [done|]. by destruct Hfree. }
  split.
  - apply (fs_inv_replace d d' sb sb i e'); try done.
    + apply (mounted_same d); [apply (fi_mounted _ _ Hinv)|apply (so_ok _ _ _ _ Hst)|apply (so_total _ _ _ _ Hst)].
    + apply (so_total _ _ _ _ Hst).
    + right. exact Hty.
    + intros _. exists n. split; [done|]. intros j Hj _. by apply Hno.
    + destruct (fi_free _ _ Hinv) as [Hf Hf0]. split; [|done]. rewrite Hf. rewrite free_entry_blocks by done.
      replace (entry_blocks e') with 0; [lia|]. unfold entry_blocks. simpl. by destruct (_ =? _).
    + rewrite (so_zero _ _ _ _ Hst). apply (fi_disk _ _ Hinv).
  - intros m t x. rewrite (has_replace d d' sb i e' m t x Hinv Hi Hrp). split.
    + intros [(_ & Hm & Ht & Hx)|[Hh _]]; [|by right]. left.
      split_and!; [by apply (named_inj e')|done|]. rewrite Hx. by destruct (_ =? _).
    + intros [(-> & -> & ->)|Hh]; [left|right].
      * split_and!; [done..|]. by destruct (_ =? _).
      * split; [done|]. intros [? _]. done.
Qed.

(** [has] and the search agree. *)
Lemma has_slot d n i : slot i → in_use (dirent d i) → named (dirent d i) n →
  has d n (e_type (dirent d i)) (if e_type (dirent d i) =? FS_TYPE_FILE then content d (dirent d i) else []).
Proof. intros. by exists i. Qed.

Lemma has_not d n : (∀ i, slot i → in_use (dirent d i) → ¬ named (dirent d i) n) → ∀ t x, ¬ has d n t x.
Proof. intros Hno t x (i & Hi & Hu & Hn & _). by apply (Hno i). Qed.

(** Why [fs_create] may refuse. *)
Definition create_refused (d : D) (n : list Z) (type : Z) : Prop :=
  n = [] ∨ (23 < length n)%nat ∨ (type ≠ FS_TYPE_FILE ∧ type ≠ FS_TYPE_DIR) ∨
  (∃ t x, has d n t x) ∨ (∀ i, slot i → in_use (dirent d i)).

Lemma create_run d sb s n r type :
  fs_inv d sb → fs_at d sb s → nonzero n → Z.of_nat (length n) < 4294967296 →
  ∃ code d' s', fs_create (Some (n ++ 0 :: r)) type s = Some (code, s') ∧ fs_at d' sb s' ∧ fs_inv d' sb ∧
    ((code = -1 ∧ d' = d ∧ create_refused d n type) ∨
     (code = 0 ∧ (∀ t x, ¬ has d n t x) ∧ ∀ m t x, has d' m t x ↔ (m = n ∧ t = type ∧ x = []) ∨ has d m t x)).
Proof.
  intros Hinv Hat Hn Hlen. pose proof (fi_mounted _ _ Hinv) as Hm. pose proof Hat as ((d0 & Hd & _) & Hsb & Hbuf).
  unfold fs_create. rewrite bind_run. cbn [get]. rewrite Hd. rewrite bind_run, strlen_cstr by done. cbn [of_option].
  change FS_NAME_MAX with 23 at 1. destruct (Z.eqb_spec (Z.of_nat (length n)) 0) as [El|El]; cbn [orb].
  { exists (-1), d, s. split_and!; [done..|]. left. split_and!; [done..|]. left. by destruct n. }
  rewrite Z.gtb_ltb. destruct (Z.ltb_spec 23 (Z.of_nat (length n))) as [Hl|Hl].
  { exists (-1), d, s. split_and!; [done..|]. left. split_and!; [done..|]. right. left. lia. }
  destruct (Z.eqb_spec type FS_TYPE_FILE) as [Hf|Hf], (Z.eqb_spec type FS_TYPE_DIR) as [Hdir|Hdir]; cbn [negb andb];
    try (exfalso; subst; done).
  3:{ exists (-1), d, s. split_and!; [done..|]. left. split_and!; [done..|]. right. right. by left. }
  all: assert (type = FS_TYPE_FILE ∨ type = FS_TYPE_DIR) as Hty by (by left + by right).
  all: destruct (find_entry_run d sb s n r Hat Hm Hn (fi_name _ _ Hinv)) as (s1 & Hat1 & [(i & Hi & Hu & Hnm & E)|[E Hno]]); mstep E;
    [exists (-1), d, s1; split_and!; [done..|]; left; split_and!; [done..|]; right; right; right; left; do 2 eexists; by apply has_slot|].
  all: destruct (find_free_slot_run d sb s1 Hat1 Hm) as (s2 & Hat2 & [(i & Hi & Hfr & _ & E2)|[E2 Hall]]); mstep E2;
    [|exists (-1), d, s2; split_and!; [done..|]; left; split_and!; [done..|]; right; right; right; by right].
  all: destruct (create_name n r Hn ltac:(lia)) as [Ecp Eins].
  all: rewrite Z.geb_leb; change FS_MAX_ENTRIES with 32; destruct (Z.leb_spec 32 i); [unfold slot in Hi; lia|].
  all: rewrite bind_run, Ecp; cbn [of_option]; cbv zeta; rewrite Eins.
  all: rewrite u8_small by (subst; done).
  all: destruct (write_entry_run d sb s2 i _ Hat2 Hm Hi (new_entry_wf n type Hn ltac:(lia) ltac:(subst; done)))
    as (d' & s3 & E3 & Hat3 & Hst); mstep E3; cbn [Z.eqb negb].
  all: destruct (create_done d sb i n type d' Hinv Hi Hfr Hn ltac:(lia) Hty Hno Hst) as [Hinv' Hhas].
  all: exists 0, d', s3; split_and!; [done..|]; right; split_and!; [done|by apply has_not|done].
Qed.

(** *** Writing files *)

(** A run of blocks that no file uses was written, then entry [i] changed to
    point to it: the other files are as they were. *)
Lemma run_replaced d d1 d2 sb i e' start n bytes :
  fs_inv d sb → slot i → 0 ≤ start → start + n ≤ capacity d ∨ n = 0 →
  (∀ b, start ≤ b < start + n → ¬ covered d b) →
  run_written d d1 start n bytes → stored d1 d2 i e' → replaced d d2 i e' ∧ run_bytes d2 start n = bytes.
Proof.
  intros Hinv Hi Hst Hcap Hunc Hrw Hso. pose proof (fi_mounted _ _ Hinv) as Hm.
  pose proof (rw_total _ _ _ _ _ Hrw) as Ht1. split.
  - split.
    + intros j Hj. rewrite (so_entry _ _ _ _ Hso) by done. zcase; [done|]. unfold dirent.
      rewrite (rw_other _ _ _ _ _ Hrw); [done|by eapply dir_block|]. destruct (slot_block j Hj). lia.
    + intros j Hj Hne Hf. apply content_ext. intros b Hb. destruct (file_small d sb Hinv j Hj Hf) as (Hz & _ & Hs0).
      assert (b < bd_total d) as Hbt.
      { destruct (Z.eq_dec (e_size (dirent d j)) 0) as [Ez|Ez];
          [rewrite Ez in Hb; change (nblocks 0) with 0 in Hb; lia|].
        pose proof (fi_range _ _ Hinv j Hj Hf Ez) as Hr. unfold capacity in Hr. lia. }
      rewrite (so_data _ _ _ _ Hso) by lia. apply (rw_other _ _ _ _ _ Hrw); [lia|].
      destruct (Z.le_gt_cases (3 + start + n) b); [lia|]. destruct (Z.lt_ge_cases b (3 + start)); [lia|].
      exfalso. apply (Hunc (b - 3)); [lia|]. exists j. split; [done|]. split; [done|lia].
  - rewrite <- (rw_bytes _ _ _ _ _ Hrw). apply run_bytes_ext. intros b Hb. apply (so_data _ _ _ _ Hso).
    unfold capacity in Hcap. lia.
Qed.

Lemma take_padded data size :
  Z.of_nat (length data) = size → take (Z.to_nat size) (padded data size) = data.
Proof. intros Hl. unfold padded. rewrite take_app_le; rewrite take_ge; rewrite ?take_ge; lia || done. Qed.

(** The directory entry after a write. *)
Definition file_entry (e : fs_entry) (start size : Z) : fs_entry :=
  Entry (e_name e) (e_type e) (e_reserved e) (u16 start) size.

(** The blocks in use after a write, and the invariant it restores. *)
Lemma replaced_sum d d2 sb i start size :
  fs_inv d sb → slot i → 0 ≤ size ≤ 0xFFFFFDFF → is_file (dirent d i) → replaced d d2 i (file_entry (dirent d i) start size) →
  sizes_ok d2 ∧ 0 ≤ sumZ (λ i, entry_blocks (dirent d2 i)) 32 ∧
  sumZ (λ i, entry_blocks (dirent d2 i)) 32 =
    sumZ (λ i, entry_blocks (dirent d i)) 32 - entry_blocks (dirent d i) + nblocks size.
Proof.
  intros Hinv Hi Hsz Hf Hrp.
  assert (sizes_ok d2) as Hszs.
  { intros j Hj. rewrite (rp_entry _ _ _ _ Hrp) by done. zcase; [intros _; simpl; lia|]. intros Hfj.
    destruct (file_small d sb Hinv j Hj Hfj). lia. }
  split; [exact Hszs|]. split.
  - apply (sumZ_bounds _ _ (2 ^ 32)). intros j Hj. unfold entry_blocks. zcase; [|lia].
    assert (slot j) as Hsj by (unfold slot; lia). pose proof (Hszs j Hsj ltac:(done)).
    destruct (nblocks_bounds (e_size (dirent d2 j))); lia.
  - unfold slot in Hi. rewrite (sumZ_upd (λ i, entry_blocks (dirent d i)) (λ i, entry_blocks (dirent d2 i)) 32 i); [|lia|].
    + rewrite (rp_entry _ _ _ _ Hrp), Z.eqb_refl by done. by rewrite (file_entry_blocks (file_entry _ start size)).
    + intros j Hj Hne. rewrite (rp_entry _ _ _ _ Hrp) by (unfold slot; lia). by zcase.
Qed.

Lemma replaced_flush d d2 d3 sb sb' i e' :
  fs_inv d sb → mounted d2 sb' → bd_total d2 = bd_total d → replaced d d2 i e' →
  (∀ b, 1 ≤ b < bd_total d2 → blk d3 b = blk d2 b) → replaced d d3 i e'.
Proof.
  intros Hinv Hm2 Ht2 Hrp Hb3. split.
  - intros j Hj. rewrite (dirent_ext d2 d3 sb' j Hm2 Hj Hb3). by apply (rp_entry _ _ _ _ Hrp).
  - intros j Hj Hne Hfj. rewrite <- (rp_content _ _ _ _ Hrp j Hj Hne Hfj). apply content_ext. intros b Hbb.
    apply Hb3. destruct (file_small d sb Hinv j Hj Hfj) as (Hz & _ & Hs0). rewrite Ht2.
    destruct (Z.eq_dec (e_size (dirent d j)) 0) as [Ez|Ez];
      [rewrite Ez in Hbb; change (nblocks 0) with 0 in Hbb; lia|].
    pose proof (fi_range _ _ Hinv j Hj Hfj Ez) as Hr. unfold capacity in Hr. lia.
Qed.

Lemma fs_inv_written d d' sb sb' i start size :
  fs_inv d sb → slot i → is_file (dirent d i) → mounted d' sb' → bd_total d' = bd_total d →
  replaced d d' i (file_entry (dirent d i) start size) → 0 ≤ start < 65536 → 0 ≤ size ≤ 0xFFFFFDFF →
  (start + nblocks size ≤ capacity d ∨ nblocks size = 0) → (∀ b, start ≤ b < start + nblocks size → ¬ covered d b) →
  free_blocks sb' = bd_total d - 3 -
    (sumZ (λ i, entry_blocks (dirent d i)) 32 - entry_blocks (dirent d i) + nblocks size) ∧ 0 ≤ free_blocks sb' →
  blk d' 0 = enc_superblock sb' → fs_inv d' sb'.
Proof.
  intros Hinv Hi Hf Hm' Ht' Hrp Hst Hsz Hcap Hunc Hfree Hz.
  apply (fs_inv_replace d d' sb sb' i (file_entry (dirent d i) start size)); try done.
  + right. left. exact Hf.
  + intros _. destruct (fi_name _ _ Hinv i Hi) as [m Hm]; [unfold in_use; unfold is_file in Hf; by rewrite Hf|].
    exists m. split; [exact Hm|]. intros j Hj Hne Hu Hnj. apply Hne. apply (fi_unique _ _ Hinv j i m); try done.
    unfold in_use. unfold is_file in Hf. by rewrite Hf.
  + intros _ Hne0. cbn [file_entry e_start_block e_size] in *. rewrite u16_small by lia.
    assert (0 < nblocks size) as Hnn by (destruct (nblocks_bounds size); lia).
    destruct Hcap as [Hcap|?]; [|lia]. split; [done|]. intros j Hj Hnej Hfj Hzj.
    destruct (file_small d sb Hinv j Hj Hfj) as (Hzz & _ & Hs0). destruct (nblocks_bounds (e_size (dirent d j)) ltac:(lia)).
    destruct (Z.le_gt_cases (start + nblocks size) (e_start_block (dirent d j))); [by left|]. right.
    destruct (Z.le_gt_cases (e_start_block (dirent d j) + nblocks (e_size (dirent d j))) start); [done|].
    exfalso. apply (Hunc (Z.max start (e_start_block (dirent d j)))); [lia|]. exists j. split; [done|]. split; [done|lia].
  + by rewrite (file_entry_blocks (file_entry _ start size)).
Qed.

Lemma write_tail d sb s i start size n bytes d1 :
  fs_inv d sb → slot i → is_file (dirent d i) → fs_at d1 sb s → run_written d d1 start n bytes →
  0 ≤ start < 65536 → 0 ≤ size ≤ 0xFFFFFDFF → n = nblocks size → (start + n ≤ capacity d ∨ n = 0) →
  n ≤ free_blocks sb → (∀ b, start ≤ b < start + n → ¬ covered d b) →
  ∃ d' sb' s',
    (r ← fs_write_entry i (file_entry (dirent d i) start size);
     if negb (r =? 0) then mret (-1)
     else
       total_used ← count_used (Z.to_nat FS_MAX_ENTRIES) 0 0;
       s ← get;
       let sb := superblock s in
       let data_total := total_blocks sb -! data_start_block sb in
       put (set_sb (set_free_blocks
         (if data_total >? total_used then data_total -! total_used else 0) sb) s) ;;
       _ ← fs_flush_superblock;
       mret 0) s = Some (0, s') ∧ fs_at d' sb' s' ∧ fs_inv d' sb' ∧
    replaced d d' i (file_entry (dirent d i) start size) ∧ run_bytes d' start n = bytes.
Proof.
  intros Hinv Hi Hf Hat1 Hrw Hst Hsz Hn Hcap Hfree Hunc. pose proof (fi_mounted _ _ Hinv) as Hm.
  assert (mounted d1 sb) as Hm1 by (apply (mounted_same d); [done|apply Hrw|apply Hrw]).
  set (e' := file_entry (dirent d i) start size).
  assert (entry_wf e') as Hwf'.
  { destruct (dirent_wf d sb i Hm Hi). split; cbn [e' file_entry e_name e_type e_reserved e_start_block e_size]; try done.
    - apply u16_bound. - lia. }
  destruct (write_entry_run d1 sb s i e' Hat1 Hm1 Hi Hwf') as (d2 & s2 & E2 & Hat2 & Hso).
  destruct (run_replaced d d1 d2 sb i e' start n bytes Hinv Hi ltac:(lia) Hcap Hunc Hrw Hso) as [Hrp Hby].
  pose proof (so_total _ _ _ _ Hso) as Ht2. pose proof (rw_total _ _ _ _ _ Hrw) as Ht1.
  assert (mounted d2 sb) as Hm2 by (apply (mounted_same d1); [done|apply Hso|done]).
  destruct (replaced_sum d d2 sb i start size Hinv Hi Hsz Hf Hrp) as (Hszs & Hsum0 & Hsum). rewrite <- Hn in Hsum.
  assert (0 ≤ entry_blocks (dirent d i)) as Hold0.
  { rewrite file_entry_blocks by done. apply nblocks_bounds. destruct (file_small d sb Hinv i Hi Hf). lia. }
  destruct (fi_free _ _ Hinv) as [Hfr Hfr0]. destruct (nblocks_bounds size ltac:(lia)) as [Hn0 _].
  pose proof (bd_total_bound d (mo_ok _ _ Hm)) as Htb. pose proof (mo_size _ _ Hm).
  destruct (count_used_run 32 d2 sb s2 0 0 Hat2 Hm2 Hszs) as (s3 & E3 & Hat3); [lia|lia|lia| |].
  { change (Z.to_nat 0) with 0%nat. change (sumZ _ 0) with 0. lia. }
  change (Z.to_nat 0) with 0%nat in E3. change (sumZ _ 0) with 0 in E3. rewrite Z.add_0_l, Z.sub_0_r in E3.
  set (used' := sumZ (λ i, entry_blocks (dirent d2 i)) 32) in *. pose proof Hat3 as (Hd3 & Hsb3 & Hbuf3).
  set (sb' := set_free_blocks (bd_total d - 3 - used') sb).
  assert (mounted d2 sb') as Hm3.
  { destruct Hm2 as [? ? ? ? ? Hw]. split; try done. destruct Hw. split; try done. cbn [sb' set_free_blocks free_blocks]. lia. }
  assert (fs_at d2 sb' (set_sb sb' s3)) as Hat4 by done.
  destruct (flush_run d2 sb' (set_sb sb' s3) Hat4 Hm3) as (d3 & s4 & E4 & Hat5 & Hok3 & Ht3 & Hb3 & Hz3).
  pose proof (replaced_flush d d2 d3 sb sb' i e' Hinv Hm3 (eq_trans Ht2 Ht1) Hrp Hb3) as Hrp3.
  exists d3, sb', s4. split_and!; [|done| |done|].
  - fold e'. mstep E2. cbn [Z.eqb negb]. change (Z.to_nat FS_MAX_ENTRIES) with 32%nat. mstep E3.
    rewrite bind_run. cbn [get]. rewrite Hsb3. rewrite (mo_total _ _ Hm), (mo_data _ _ Hm). cbv zeta.
    rewrite (u32_small (bd_total d - 3)) by lia.
    assert ((if bd_total d - 3 >? used' then bd_total d - 3 -! used' else 0) = bd_total d - 3 - used') as ->.
    { zcase; [rewrite u32_small by lia; done|lia]. }
    fold sb'. rewrite bind_run. cbn [put]. mstep E4. done.
  - rewrite Hn in *. apply (fs_inv_written d d3 sb sb' i start size); try done; [by apply (mounted_same d2)|congruence|].
    cbn [sb' set_free_blocks free_blocks]. lia.
  - rewrite <- Hby. apply run_bytes_ext. intros b Hbb. apply Hb3. rewrite Ht2, Ht1. unfold capacity in Hcap.
    lia.
Qed.

(** Why [fs_write_file] may refuse to store [size] bytes under [n]. *)
Definition write_refused (d : D) (sb : fs_superblock) (n : list Z) (size : Z) : Prop :=
  (∀ x, ¬ has d n FS_TYPE_FILE x) ∨ free_blocks sb < nblocks size ∨
  (0 < nblocks size ∧ ∀ a, 0 ≤ a → a + nblocks size ≤ capacity d → ∃ b, a ≤ b < a + nblocks size ∧ covered d b).

Lemma run_written_nil d start : bd_ok d → run_written d d start 0 [].
Proof. intros Hok. split; done. Qed.

(** Allocation of the blocks for [size] bytes, none for an empty file. *)
Lemma write_alloc d sb s size :
  fs_inv d sb → fs_at d sb s → 0 ≤ size ≤ 0xFFFFFDFF →
  ∃ r s', (if file_blocks size >? 0 then fs_alloc_blocks (file_blocks size) else mret 0) s = Some (r, s') ∧
    fs_at d sb s' ∧
    (((file_blocks size >? 0) && (r =? 0xFFFFFFFF) = true ∧
      (free_blocks sb < nblocks size ∨ (0 < nblocks size ∧ ∀ a, 0 ≤ a → a + nblocks size ≤ capacity d →
         ∃ b, a ≤ b < a + nblocks size ∧ covered d b))) ∨
     ((file_blocks size >? 0) && (r =? 0xFFFFFFFF) = false ∧ 0 ≤ r < 65536 ∧
      (r + nblocks size ≤ capacity d ∨ nblocks size = 0) ∧ nblocks size ≤ free_blocks sb ∧
      ∀ b, r ≤ b < r + nblocks size → ¬ covered d b)).
Proof.
  intros Hinv Hat Hs. rewrite file_blocks_eq by lia. destruct (nblocks_bounds size ltac:(lia)) as [Hn0 Hnb].
  rewrite Z.gtb_ltb. destruct (Z.ltb_spec 0 (nblocks size)) as [Hpos|Hz]; cbn [andb].
  - destruct (alloc_run d sb s (nblocks size) Hinv Hat ltac:(lia)) as (r & s' & E & Hat' & [(-> & Hno)|(Hr & Hc & Hf & Hu & _)]).
    + exists 0xFFFFFFFF, s'. split; [done|]. split; [done|]. left. split; [done|]. destruct Hno; [by left|by right].
    + exists r, s'. split; [done|]. split; [done|]. right. unfold capacity in *.
      split_and!; [apply Z.eqb_neq; lia|lia|lia|by left|done|done].
  - exists 0, s. split; [done|]. split; [done|]. right. destruct (fi_free _ _ Hinv).
    split_and!; [done|lia|lia|right; lia|lia|]. intros b Hb. lia.
Qed.

Lemma write_file_run d sb s n r data size :
  fs_inv d sb → fs_at d sb s → nonzero n → Forall (λ b, 0 ≤ b < 256) data →
  Z.of_nat (length data) = size → size ≤ 0xFFFFFDFF →
  ∃ code d' sb' s', fs_write_file (Some (n ++ 0 :: r)) (Some data) size s = Some (code, s') ∧
    fs_at d' sb' s' ∧ fs_inv d' sb' ∧
    ((code = -1 ∧ d' = d ∧ sb' = sb ∧ write_refused d sb n size) ∨
     (code = 0 ∧ (∃ x, has d n FS_TYPE_FILE x) ∧
      ∀ m t x, has d' m t x ↔ (m = n ∧ t = FS_TYPE_FILE ∧ x = data) ∨ (m ≠ n ∧ has d m t x))).
Proof.
  intros Hinv Hat Hn Hb Hlen Hsz. pose proof (fi_mounted _ _ Hinv) as Hm. destruct (fs_at_dev _ _ _ Hat) as [d0 Hd].
  unfold fs_write_file. rewrite bind_run. cbn [get]. rewrite Hd.
  destruct (find_entry_run d sb s n r Hat Hm Hn (fi_name _ _ Hinv)) as (s1 & Hat1 & [(i & Hi & Hu & Hnm & E)|[E Hno]]); mstep E.
  2:{ exists (-1), d, sb, s1. split_and!; [done..|]. left. split_and!; [done..|]. left. intros x. by apply has_not. }
  destruct (Z.eqb_spec (e_type (dirent d i)) FS_TYPE_FILE) as [Hf|Hf]; cbn [negb].
  2:{ exists (-1), d, sb, s1. split_and!; [done..|]. left. split_and!; [done..|]. left. intros x (j & Hj & Huj & Hnj & Htj & _).
      apply Hf. by rewrite (fi_unique _ _ Hinv i j n). }
  destruct (write_alloc d sb s1 size Hinv Hat1 ltac:(lia)) as (st0 & s2 & E2 & Hat2 & Hcase). cbv zeta. mstep E2.
  destruct Hcase as [[-> Hno]|(-> & Hr & Hcap & Hfree & Hunc)].
  { exists (-1), d, sb, s2. split_and!; [done..|]. left. split_and!; [done..|]. right. destruct Hno; [by left|by right]. }
  destruct (nblocks_bounds size ltac:(lia)) as [Hn0 _].
  assert (∃ d1 s3, write_blocks (Z.to_nat (file_blocks size)) 0 st0 data size s2 = Some (None, s3) ∧
    fs_at d1 sb s3 ∧ run_written d d1 st0 (nblocks size) (padded data size)) as (d1 & s3 & E3 & Hat3 & Hrw).
  { rewrite file_blocks_eq by lia. destruct (Z.eq_dec (nblocks size) 0) as [Hz|Hz].
    - rewrite Hz. exists d, s2. split; [done|]. split; [done|]. assert (size = 0) as -> by (destruct (nblocks_bounds size); lia).
      unfold padded. simpl. apply run_written_nil, Hm.
    - destruct (write_blocks_run (Z.to_nat (nblocks size)) d sb s2 st0 0 data size) as (d1 & s3 & E3 & Hat3 & Hrw);
        [done|done|lia|lia|done|lia|lia|lia|unfold capacity in Hcap; lia|]. rewrite Z.add_0_r in Hrw. eauto. }
  mstep E3. destruct (write_tail d sb s3 i st0 size (nblocks size) (padded data size) d1)
    as (d' & sb' & s' & E4 & Hat4 & Hinv' & Hrp & Hby); [done|done|done|done|done|done|lia|done|done|done|done|].
  change (Entry (e_name (dirent d i)) (e_type (dirent d i)) (e_reserved (dirent d i)) (u16 st0) size)
    with (file_entry (dirent d i) st0 size).
  exists 0, d', sb', s'. split_and!; [exact E4|done|done|]. right. split; [done|]. split.
  { eexists. rewrite <- Hf. by apply has_slot. }
  intros m t x. rewrite (has_replace d d' sb i _ m t x Hinv Hi Hrp). split.
  - intros [(_ & Hm' & Ht & Hx)|[Hh Hno]].
    + left. assert (m = n) as -> by (apply (named_inj (dirent d i)); done). cbn [file_entry e_type] in Ht.
      rewrite Hf in Ht. subst t. split_and!; [done..|]. rewrite Hx. cbn [Z.eqb FS_TYPE_FILE Pos.eqb].
      unfold content. cbn [file_entry e_size e_start_block]. rewrite u16_small, Hby by lia. by apply take_padded.
    + right. split; [|done]. intros ->. by apply Hno.
  - intros [(-> & -> & ->)|[Hne Hh]]; [left|right].
    + split_and!; [done|done|exact Hf|]. cbn [Z.eqb FS_TYPE_FILE Pos.eqb].
      unfold content. cbn [file_entry e_size e_start_block]. rewrite u16_small, Hby by lia. symmetry. by apply take_padded.
    + split; [done|]. intros [_ Hn2]. apply Hne. by apply (named_inj (dirent d i)).
Qed.

(** *** Reading files *)

Lemma run_bytes_app d start a b :
  0 ≤ a → 0 ≤ b → run_bytes d start (a + b) = run_bytes d start a ++ run_bytes d (start + a) b.
Proof.
  intros Ha Hb. unfold run_bytes. rewrite seqZ_app by lia. rewrite fmap_app, concat_app.
  by replace (3 + start + a) with (3 + (start + a)) by lia.
Qed.

Lemma length_run_bytes d start n :
  bd_ok d → 0 ≤ start → 0 ≤ n → 3 + start + n ≤ bd_total d →
  length (run_bytes d start n) = Z.to_nat (512 * n).
Proof.
  intros Hok Hs Hn Ht. unfold run_bytes. assert (∀ l, (∀ b, b ∈ l → 0 ≤ b < bd_total d) →
    length (concat (blk d <$> l)) = (512 * length l)%nat) as Hl.
  { intros l. induction l as [|b l IH]; intros Hb; [done|]. rewrite fmap_cons. cbn [concat length]. rewrite length_app.
    rewrite length_blk by (done || apply Hb; left). rewrite IH by (intros x Hx; apply Hb; by right). lia. }
  rewrite Hl; [rewrite length_seqZ; lia|]. intros b Hb. apply elem_of_seqZ in Hb. lia.
Qed.

(** A truncated read sees a prefix of the contents. *)
Lemma take_run_bytes d start tr sz mx :
  bd_ok d → 0 ≤ start → tr = Z.min sz mx → 0 ≤ sz → 0 ≤ mx → nblocks tr ≤ nblocks sz →
  3 + start + nblocks tr ≤ bd_total d ∨ tr = 0 →
  take (Z.to_nat tr) (run_bytes d start (nblocks tr)) =
  take (Z.to_nat mx) (take (Z.to_nat sz) (run_bytes d start (nblocks sz))).
Proof.
  intros Hok Hs Htr Hsz Hmx Hle Hin. rewrite take_take. replace (Z.to_nat mx `min` Z.to_nat sz)%nat with (Z.to_nat tr) by lia.
  destruct Hin as [Hin|Hin]; [|by rewrite Hin]. destruct (nblocks_bounds tr ltac:(lia)) as [Hn0 Hn1].
  replace (nblocks sz) with (nblocks tr + (nblocks sz - nblocks tr)) by lia. rewrite run_bytes_app by lia.
  rewrite take_app_le; [done|]. rewrite length_run_bytes by (done || lia). lia.
Qed.

Lemma read_file_run d sb s n r max_size :
  fs_inv d sb → fs_at d sb s → nonzero n → 0 ≤ max_size < 4294967296 →
  ∃ code out s', fs_read_file (Some (n ++ 0 :: r)) max_size s = Some ((code, out), s') ∧ fs_at d sb s' ∧
    ((code = -1 ∧ out = [] ∧ ∀ x, ¬ has d n FS_TYPE_FILE x) ∨
     (∃ x, has d n FS_TYPE_FILE x ∧ out = take (Z.to_nat max_size) x ∧ code = Z.of_nat (length out))).
Proof.
  intros Hinv Hat Hn Hmax. pose proof (fi_mounted _ _ Hinv) as Hm. destruct (fs_at_dev _ _ _ Hat) as [d0 Hd].
  unfold fs_read_file. rewrite bind_run. cbn [get]. rewrite Hd.
  destruct (find_entry_run d sb s n r Hat Hm Hn (fi_name _ _ Hinv)) as (s1 & Hat1 & [(i & Hi & Hu & Hnm & E)|[E Hno]]); mstep E.
  2:{ exists (-1), [], s1. split_and!; [done..|]. left. split_and!; [done..|]. intros x. by apply has_not. }
  destruct (Z.eqb_spec (e_type (dirent d i)) FS_TYPE_FILE) as [Hf|Hf]; cbn [negb].
  2:{ exists (-1), [], s1. split_and!; [done..|]. left. split_and!; [done..|]. intros x (j & Hj & Huj & Hnj & Htj & _).
      apply Hf. by rewrite (fi_unique _ _ Hinv i j n). }
  destruct (file_small d sb Hinv i Hi Hf) as (Hz & _ & Hs0).
  set (sz := e_size (dirent d i)) in *. set (tr := if sz >? max_size then max_size else sz).
  assert (tr = Z.min sz max_size) as Htr by (unfold tr; zcase; lia).
  change ((tr +! BLOCK_SIZE -! 1) / BLOCK_SIZE) with (file_blocks tr). rewrite file_blocks_eq by lia.
  destruct (nblocks_bounds tr ltac:(lia)) as [Ht0 Ht1]. destruct (nblocks_bounds sz ltac:(lia)) as [Hs1 Hs2].
  pose proof (mo_size _ _ Hm) as Hms. 
  assert (sz = 0 ∨ e_start_block (dirent d i) + nblocks sz ≤ capacity d) as Hr.
  { destruct (Z.eq_dec sz 0); [by left|]. right. by apply (fi_range _ _ Hinv). }
  assert (0 ≤ e_start_block (dirent d i)) as Hst by done.
  assert (∃ s2, read_blocks (Z.to_nat (nblocks tr)) 0 (e_start_block (dirent d i)) tr [] s1 =
    Some ((true, take (Z.to_nat tr) (run_bytes d (e_start_block (dirent d i)) (nblocks tr))), s2) ∧ fs_at d sb s2)
    as (s2 & E2 & Hat2).
  { destruct (Z.eq_dec tr 0) as [Ez|Ez]; [rewrite Ez; exists s1; done|].
    destruct (read_blocks_run (Z.to_nat (nblocks tr)) d sb s1 (e_start_block (dirent d i)) 0 tr []) as (s2 & E2 & Hat2);
      [done|done|lia|lia|lia|lia|unfold capacity in Hr; lia|]. rewrite Z.add_0_r in E2. eauto. }
  mstep E2. exists (i32 tr), (take (Z.to_nat tr) (run_bytes d (e_start_block (dirent d i)) (nblocks tr))), s2.
  split; [done|]. split; [done|]. right. exists (content d (dirent d i)). split.
  { pose proof (has_slot d n i Hi Hu Hnm) as Hh. rewrite Hf in Hh. exact Hh. }
  assert (nblocks tr ≤ nblocks sz) as Hle by lia.
  assert (3 + e_start_block (dirent d i) + nblocks tr ≤ bd_total d ∨ tr = 0) as Hin.
  { unfold capacity in Hr. lia. }
  split; [apply (take_run_bytes d (e_start_block (dirent d i)) tr sz max_size); done || lia || apply Hm|].
  rewrite length_take. destruct Hin as [Hin|Hin].
  - rewrite length_run_bytes by (lia || apply Hm). unfold i32. rewrite u32_small by lia. zcase. lia.
  - rewrite Hin. done.
Qed.

(** *** Deleting entries *)

(** [d'] is [d] with the entries [clr] cleared and the data blocks as they were. *)
Record cleared (d d' : D) (clr : Z → bool) : Prop := {
  ce_ok : bd_ok d';
  ce_total : bd_total d' = bd_total d;
  ce_entry : ∀ j, slot j → dirent d' j = if clr j then zero_entry else dirent d j;
  ce_data : ∀ b, 3 ≤ b < bd_total d → blk d' b = blk d b
}.

Lemma zero_entry_wf : entry_wf zero_entry.
Proof. split; cbn [zero_entry e_name e_type e_reserved e_start_block e_size]; try done. by apply Forall_replicate. Qed.

Lemma cleared_store d d1 d2 clr i :
  cleared d d1 clr → slot i → stored d1 d2 i zero_entry → cleared d d2 (λ j, clr j || (i =? j)).
Proof.
  intros Hc Hi Hs. split.
  - apply Hs.
  - rewrite (so_total _ _ _ _ Hs). apply Hc.
  - intros j Hj. rewrite (so_entry _ _ _ _ Hs) by done. rewrite (ce_entry _ _ _ Hc) by done.
    destruct (i =? j); [by rewrite orb_true_r|by rewrite orb_false_r].
  - intros b Hb. rewrite (so_data _ _ _ _ Hs) by (rewrite (ce_total _ _ _ Hc); lia). by apply (ce_data _ _ _ Hc).
Qed.

Lemma cleared_ext d d' clr clr' :
  (∀ j, slot j → clr j = clr' j) → cleared d d' clr → cleared d d' clr'.
Proof.
  intros He [H1 H2 H3 H4]. split; [done|done| |done]. intros j Hj. rewrite H3, He by done. done.
Qed.

Lemma sumZ_add f g n : sumZ (λ i, f i + g i) n = sumZ f n + sumZ g n.
Proof. induction n as [|n IH]; [done|]. rewrite !sumZ_S, IH. lia. Qed.

(** Blocks given back by clearing. *)
Definition freed_by (d : D) (clr : Z → bool) (n : nat) : Z :=
  sumZ (λ j, if clr j then entry_blocks (dirent d j) else 0) n.

Lemma entry_blocks_bounds d sb i : fs_inv d sb → slot i → 0 ≤ entry_blocks (dirent d i) ≤ 1024.
Proof.
  intros Hinv Hi. unfold entry_blocks. destruct (Z.eqb_spec (e_type (dirent d i)) FS_TYPE_FILE) as [Hf|]; [|lia].
  destruct (file_small d sb Hinv i Hi Hf). destruct (nblocks_bounds (e_size (dirent d i))); lia.
Qed.

Lemma cleared_sum d d' sb clr :
  fs_inv d sb → cleared d d' clr →
  sumZ (λ j, entry_blocks (dirent d' j)) 32 = sumZ (λ j, entry_blocks (dirent d j)) 32 - freed_by d clr 32 ∧
  0 ≤ freed_by d clr 32 ≤ 32768 ∧ 0 ≤ sumZ (λ j, entry_blocks (dirent d' j)) 32 ≤ 32768.
Proof.
  intros Hinv Hc. pose proof (entry_blocks_bounds d sb) as Hb. split_and!.
  - rewrite (sumZ_ext (λ j, entry_blocks (dirent d j))
      (λ j, entry_blocks (dirent d' j) + (if clr j then entry_blocks (dirent d j) else 0))).
    + rewrite (sumZ_add (λ j, entry_blocks (dirent d' j))). unfold freed_by. lia.
    + intros j Hj. rewrite (ce_entry _ _ _ Hc) by (unfold slot; lia). destruct (clr j); [|lia].
      change (entry_blocks zero_entry) with 0. lia.
  - apply (sumZ_bounds _ 32 1024). intros j Hj. specialize (Hb j Hinv ltac:(unfold slot; lia)). destruct (clr j); lia.
  - apply (sumZ_bounds _ 32 1024). intros j Hj. specialize (Hb j Hinv ltac:(unfold slot; lia)). destruct (clr j); lia.
  - apply (sumZ_bounds _ 32 1024). intros j Hj. rewrite (ce_entry _ _ _ Hc) by (unfold slot; lia).
    specialize (Hb j Hinv ltac:(unfold slot; lia)). destruct (clr j); [change (entry_blocks zero_entry) with 0|]; lia.
  - apply (sumZ_bounds _ 32 1024). intros j Hj. rewrite (ce_entry _ _ _ Hc) by (unfold slot; lia).
    specialize (Hb j Hinv ltac:(unfold slot; lia)). destruct (clr j); [change (entry_blocks zero_entry) with 0|]; lia.
Qed.

Lemma cleared_content d d' sb clr j :
  fs_inv d sb → cleared d d' clr → slot j → is_file (dirent d j) → content d' (dirent d j) = content d (dirent d j).
Proof.
  intros Hinv Hc Hj Hf. apply content_ext. intros b Hb. destruct (file_small d sb Hinv j Hj Hf) as (Hz & _ & Hs0).
  apply (ce_data _ _ _ Hc). destruct (Z.eq_dec (e_size (dirent d j)) 0) as [Ez|Ez];
    [rewrite Ez in Hb; change (nblocks 0) with 0 in Hb; lia|].
  pose proof (fi_range _ _ Hinv j Hj Hf Ez) as Hr. unfold capacity in Hr. lia.
Qed.

Lemma fs_inv_clear d d' sb sb' clr :
  fs_inv d sb → cleared d d' clr → mounted d' sb' → free_blocks sb' = free_blocks sb + freed_by d clr 32 →
  blk d' 0 = enc_superblock sb' → fs_inv d' sb'.
Proof.
  intros Hinv Hc Hm Hfr Hdisk. pose proof (ce_entry _ _ _ Hc) as He. pose proof (ce_total _ _ _ Hc) as Ht.
  destruct (cleared_sum d d' sb clr Hinv Hc) as (Hsum & Hf0 & _). destruct (fi_free _ _ Hinv) as [Hfree Hfree0].
  assert (¬ in_use zero_entry) as Hz by (unfold in_use; auto). split; [done|..].
  - intros j Hj. rewrite He by done. destruct (clr j); [by left|]. by apply (fi_type _ _ Hinv).
  - intros j Hj. rewrite He by done. destruct (clr j); [done|]. by apply (fi_name _ _ Hinv).
  - intros j k n Hj Hk. rewrite !He by done. destruct (clr j), (clr k); try done. by apply (fi_unique _ _ Hinv).
  - intros j Hj. rewrite He by done. unfold capacity. rewrite Ht. destruct (clr j); [done|]. by apply (fi_range _ _ Hinv).
  - intros j k Hj Hk Hne. rewrite !He by done. destruct (clr j), (clr k); try done. by apply (fi_disjoint _ _ Hinv).
  - rewrite Ht, Hsum. lia.
  - done.
Qed.

Lemma has_clear d d' sb clr n t x :
  fs_inv d sb → cleared d d' clr →
  has d' n t x ↔ ∃ j, slot j ∧ clr j = false ∧ in_use (dirent d j) ∧ named (dirent d j) n ∧ e_type (dirent d j) = t ∧
                      x = (if t =? FS_TYPE_FILE then content d (dirent d j) else []).
Proof.
  intros Hinv Hc. pose proof (ce_entry _ _ _ Hc) as He.
  assert (∀ j, slot j → e_type (dirent d j) = t →
    (if t =? FS_TYPE_FILE then content d' (dirent d j) else []) = (if t =? FS_TYPE_FILE then content d (dirent d j) else [])) as Hco.
  { intros j Hj Ht. destruct (Z.eqb_spec t FS_TYPE_FILE) as [->|]; [|done]. by eapply cleared_content. }
  split; intros (j & Hj & Hrest); exists j; split; try done.
  - rewrite He in Hrest by done. destruct (clr j); [by destruct Hrest|]. destruct Hrest as (Hu & Hn & Ht & ->).
    rewrite (Hco j) by done. done.
  - destruct Hrest as (Hcj & Hu & Hn & Ht & ->). rewrite He, Hcj by done. rewrite (Hco j) by done. done.
Qed.

(** A child of directory [n]: an entry whose name starts with [n] and a slash. *)
Definition is_child (n : list Z) (e : fs_entry) : bool :=
  negb (e_type e =? FS_TYPE_FREE) && bool_decide ((n ++ [47]) `prefix_of` e_name e).

Lemma prefix_nonzero n m r : nonzero n → n `prefix_of` (m ++ 0 :: r) ↔ n `prefix_of` m.
Proof.
  intros Hn. split; [|intros Hp; by apply prefix_app_r].
  revert m. induction n as [|c n IH]; intros [|c' m] Hp; simpl in *; [apply prefix_nil|apply prefix_nil|..].
  - apply prefix_cons_inv_1 in Hp as ->. apply nonzero_cons in Hn as [? _]. lia.
  - pose proof (prefix_cons_inv_1 _ _ _ _ Hp) as ->. apply prefix_cons_inv_2 in Hp.
    apply nonzero_cons in Hn as [_ Hn]. apply prefix_cons, IH; done.
Qed.

Lemma slash_prefix n l : (n ++ [47]) `prefix_of` l ↔ n `prefix_of` l ∧ l !! length n = Some 47.
Proof.
  split.
  - intros [k ->]. split; [rewrite <- app_assoc; by eexists|]. rewrite <- app_assoc. by apply list_lookup_middle.
  - intros [[k ->] Hl]. rewrite lookup_app_r in Hl by lia. rewrite Nat.sub_diag in Hl.
    destruct k as [|c k]; simplify_eq/=. exists k. by rewrite <- app_assoc.
Qed.

(** The test of the loop in [fs_delete]. *)
Lemma child_test e m n r :
  named e m → nonzero n → (length n ≤ 23)%nat → length (e_name e) = 24%nat →
  ∃ c ch, strncmp (e_name e) (n ++ 0 :: r) (length n) = Some c ∧ e_name e !! length n = Some ch ∧
    (c =? 0) && (ch =? 47) = bool_decide ((n ++ [47]) `prefix_of` e_name e).
Proof.
  intros [Hm [rm Hrm]] Hn Hl Hl24. destruct (lookup_lt_is_Some_2 (e_name e) (length n)) as [ch Hch]; [lia|].
  destruct (strncmp_prefix m n rm (0 :: r) Hm Hn) as (c & Ec & Hc). rewrite <- Hrm in Ec.
  exists c, ch. split_and!; [done|done|]. apply eq_true_iff_eq.
  rewrite andb_true_iff, bool_decide_eq_true, !Z.eqb_eq, slash_prefix, Hch, Hrm, prefix_nonzero, Hc by done.
  split; [intros [? ->]; done|intros [? [= ->]]; done].
Qed.

Lemma delete_children_run k d sb s i n r freed clr d1 :
  fs_inv d sb → fs_at d1 sb s → nonzero n → (length n ≤ 23)%nat → 0 ≤ i → i + Z.of_nat k = 32 →
  cleared d d1 (λ j, (j <? i) && is_child n (dirent d j)) →
  clr = (λ j, is_child n (dirent d j)) → freed = freed_by d clr (Z.to_nat i) →
  ∃ d' s', delete_children k i (n ++ 0 :: r) (Z.of_nat (length n)) freed s = Some (freed_by d clr 32, s') ∧
    fs_at d' sb s' ∧ cleared d d' (λ j, is_child n (dirent d j)).
Proof.
  intros Hinv Hat Hn Hl Hi Hk Hc Hclr. revert d1 s i freed Hat Hi Hk Hc.
  induction k as [|k IH]; intros d1 s i freed Hat Hi Hk Hc Hfr.
  - exists d1, s. replace (Z.to_nat i) with 32%nat in Hfr by lia. split; [by subst freed|]. split; [done|].
    eapply cleared_ext; [|exact Hc]. intros j Hj. unfold slot in Hj. cbv beta. by zcase.
  - assert (slot i) as Hsi by (unfold slot; lia). pose proof (fi_mounted _ _ Hinv) as Hm.
    assert (mounted d1 sb) as Hm1 by (apply (mounted_same d); [done|apply Hc|apply Hc]).
    destruct (read_entry_run d1 sb s i Hat Hm1 Hsi) as (s1 & E1 & Hat1). cbn [delete_children]. mstep E1.
    assert (dirent d1 i = dirent d i) as Hdi by (rewrite (ce_entry _ _ _ Hc) by done; by rewrite Z.ltb_irrefl).
    rewrite Hdi. replace (Z.to_nat (i + 1)) with (S (Z.to_nat i)) in * by lia.
    assert (freed_by d clr (Z.to_nat (i + 1)) =
      freed_by d clr (Z.to_nat i) + (if clr i then entry_blocks (dirent d i) else 0)) as Hnext.
    { replace (Z.to_nat (i + 1)) with (S (Z.to_nat i)) by lia. unfold freed_by. rewrite sumZ_S, Z2Nat.id by lia. done. }
    assert (is_child n (dirent d i) = false →
      ∃ d' s', delete_children k (i + 1) (n ++ 0 :: r) (Z.of_nat (length n)) freed s1 = Some (freed_by d clr 32, s') ∧
        fs_at d' sb s' ∧ cleared d d' (λ j, is_child n (dirent d j))) as Hskip.
    { intros Hno. apply (IH d1); [done|lia|lia| |].
      - eapply cleared_ext; [|exact Hc]. intros j Hj. cbv beta. destruct (Z.eq_dec j i) as [->|].
        + by rewrite Hno, !andb_false_r.
        + repeat zcase; done.
      - rewrite Hnext, Hfr, Hclr. cbv beta. rewrite Hno. lia. }
    destruct (Z.eqb_spec (e_type (dirent d i)) FS_TYPE_FREE) as [Hft|Hft].
    { apply Hskip. unfold is_child. by rewrite Hft. }
    destruct (fi_name _ _ Hinv i Hsi Hft) as [m Hnm]. pose proof (dirent_wf d sb i Hm Hsi) as Hwf.
    destruct (child_test (dirent d i) m n r Hnm Hn Hl (ew_name _ Hwf)) as (c & ch & Ec & Ech & Htest).
    assert (is_child n (dirent d i) = (c =? 0) && (ch =? 47)) as Hich.
    { unfold is_child. apply Z.eqb_neq in Hft. by rewrite Hft, Htest. }
    rewrite !bind_run, Nat2Z.id, Ec. cbn [of_option]. destruct (c =? 0); [|by apply Hskip].
    rewrite bind_run, Ech. cbn [of_option]. destruct (ch =? 47); [|by apply Hskip]. cbn [andb] in Hich.
    destruct (write_entry_run d1 sb s1 i zero_entry Hat1 Hm1 Hsi zero_entry_wf) as (d2 & s2 & E2 & Hat2 & Hst).
    mstep E2. unfold mret, M_ret. cbv beta iota.
    apply (IH d2); [done|lia|lia| |].
    + eapply cleared_ext; [|exact (cleared_store d d1 d2 _ i Hc Hsi Hst)]. intros j Hj. cbv beta.
      destruct (Z.eqb_spec i j) as [<-|]; [rewrite Hich, orb_true_r; by zcase|]. rewrite orb_false_r. repeat zcase; done.
    + rewrite Hnext, Hclr. cbv beta. rewrite Hich. rewrite <- Hclr, <- Hfr. unfold entry_blocks.
      destruct (Z.eqb_spec (e_type (dirent d i)) FS_TYPE_FILE) as [Hf|]; cbn [andb]; [|lia].
      destruct (file_small d sb Hinv i Hsi Hf) as (Hz & Hfb & _). destruct (nblocks_bounds (e_size (dirent d i)) ltac:(lia)).
      rewrite Z.gtb_ltb. destruct (Z.ltb_spec 0 (e_size (dirent d i))).
      * rewrite Hfb. apply u32_small. rewrite Hfr. assert (0 ≤ freed_by d clr (Z.to_nat i) ≤ 32768) as Hfb2; [|lia].
        assert (Z.of_nat (Z.to_nat i) * 1024 ≤ 32768) by lia.
        pose proof (sumZ_bounds (λ j, if clr j then entry_blocks (dirent d j) else 0) (Z.to_nat i) 1024) as Hsb.
        destruct Hsb as [? ?]; [|unfold freed_by; lia]. intros j Hj.
        pose proof (entry_blocks_bounds d sb j Hinv ltac:(unfold slot; lia)). destruct (clr j); lia.
      * replace (e_size (dirent d i)) with 0 by lia. change (nblocks 0) with 0. lia.
Qed.

Lemma cleared_flush d d1 d2 sb clr :
  mounted d1 sb → cleared d d1 clr → bd_ok d2 → bd_total d2 = bd_total d1 →
  (∀ b, 1 ≤ b < bd_total d1 → blk d2 b = blk d1 b) → cleared d d2 clr.
Proof.
  intros Hm Hc Hok Ht Hb. split; [done|by rewrite Ht, (ce_total _ _ _ Hc)|..].
  - intros j Hj. rewrite (dirent_ext d1 d2 sb j Hm Hj Hb). by apply (ce_entry _ _ _ Hc).
  - intros b Hbb. rewrite Hb by (rewrite (ce_total _ _ _ Hc); lia). by apply (ce_data _ _ _ Hc).
Qed.

(** The end of [fs_delete]: the entry itself and the superblock. *)
Lemma delete_tail d d1 sb s i clr freed :
  fs_inv d sb → fs_at d1 sb s → slot i → cleared d d1 clr →
  freed = freed_by d (λ j, clr j || (i =? j)) 32 →
  ∃ d' sb' s',
    (r ← fs_write_entry i zero_entry;
     if negb (r =? 0) then mret (-1)
     else
       s ← get;
       put (set_sb (set_free_blocks (free_blocks (superblock s) +! freed) (superblock s)) s) ;;
       _ ← fs_flush_superblock;
       mret 0) s = Some (0, s') ∧
    fs_at d' sb' s' ∧ fs_inv d' sb' ∧ cleared d d' (λ j, clr j || (i =? j)).
Proof.
  intros Hinv Hat Hi Hc Hfr. pose proof (fi_mounted _ _ Hinv) as Hm.
  assert (mounted d1 sb) as Hm1 by (apply (mounted_same d); [done|apply Hc|apply Hc]).
  destruct (write_entry_run d1 sb s i zero_entry Hat Hm1 Hi zero_entry_wf) as (d2 & s2 & E2 & Hat2 & Hst).
  pose proof (cleared_store d d1 d2 clr i Hc Hi Hst) as Hc2.
  destruct (cleared_sum d d2 sb _ Hinv Hc2) as (Hsum & Hf0 & Hs0). rewrite <- Hfr in Hsum, Hf0.
  destruct (fi_free _ _ Hinv) as [Hfree Hfree0]. pose proof (bd_total_bound d (mo_ok _ _ Hm)).
  assert (free_blocks sb +! freed = free_blocks sb + freed) as Hadd by (apply u32_small; lia).
  set (sb' := set_free_blocks (free_blocks sb + freed) sb). pose proof Hat2 as (Hd2 & Hsb2 & Hbuf2).
  assert (mounted d2 sb') as Hm2.
  { destruct (mounted_same d d2 sb Hm (ce_ok _ _ _ Hc2) (ce_total _ _ _ Hc2)) as [? ? ? ? ? Hw]. split; try done.
    destruct Hw. split; try done. cbn [sb' set_free_blocks free_blocks]. lia. }
  assert (fs_at d2 sb' (set_sb sb' s2)) as Hat3 by done.
  destruct (flush_run d2 sb' (set_sb sb' s2) Hat3 Hm2) as (d3 & s4 & E4 & Hat5 & Hok3 & Ht3 & Hb3 & Hz3).
  pose proof (cleared_flush d d2 d3 sb' _ Hm2 Hc2 Hok3 Ht3 Hb3) as Hc3.
  exists d3, sb', s4. split_and!; [|done| |done].
  - mstep E2. cbn [Z.eqb negb]. rewrite bind_run. cbn [get]. rewrite Hsb2, Hadd. fold sb'.
    rewrite bind_run. cbn [put]. mstep E4. done.
  - apply (fs_inv_clear d d3 sb sb' _ Hinv Hc3); [by apply (mounted_same d2)| |exact Hz3].
    cbn [sb' set_free_blocks free_blocks]. by rewrite Hfr.
Qed.

Lemma named_length e n : named e n → length (e_name e) = 24%nat → (length n ≤ 23)%nat.
Proof. intros [_ [r Hr]] Hl. rewrite Hr, length_app in Hl. simpl in Hl. lia. Qed.

(** The entries [fs_delete] removes besides entry [i] itself, named [n]. *)
Definition below (d : D) (i : Z) (n : list Z) (j : Z) : bool :=
  (e_type (dirent d i) =? FS_TYPE_DIR) && is_child n (dirent d j).

Lemma delete_below d sb s i n r :
  fs_inv d sb → fs_at d sb s → slot i → nonzero n → (length n ≤ 23)%nat →
  let own := if (e_type (dirent d i) =? FS_TYPE_FILE) && (e_size (dirent d i) >? 0) then file_blocks (e_size (dirent d i)) else 0 in
  ∃ d1 s2 freed,
    (if e_type (dirent d i) =? FS_TYPE_DIR then
       prefix_len ← of_option (strlen (n ++ 0 :: r));
       delete_children (Z.to_nat FS_MAX_ENTRIES) 0 (n ++ 0 :: r) prefix_len own
     else mret own) s = Some (freed, s2) ∧
    fs_at d1 sb s2 ∧ cleared d d1 (below d i n) ∧ freed = freed_by d (λ j, below d i n j || (i =? j)) 32.
Proof.
  intros Hinv Hat Hi Hn Hl. pose proof (fi_mounted _ _ Hinv) as Hm. cbv zeta.
  assert (cleared d d (λ _, false)) as Hc0 by (split; done || apply Hm).
  destruct (Z.eqb_spec (e_type (dirent d i)) FS_TYPE_DIR) as [Hdir|Hnd].
  - rewrite Hdir. change (FS_TYPE_DIR =? FS_TYPE_FILE) with false. cbn [andb].
    rewrite bind_run, strlen_cstr by (done || lia). cbn [of_option]. change (Z.to_nat FS_MAX_ENTRIES) with 32%nat.
    destruct (delete_children_run 32 d sb s 0 n r 0 (λ j, is_child n (dirent d j)) d Hinv Hat Hn Hl)
      as (d1 & s2 & E2 & Hat2 & Hc); [lia|lia| |done|done|].
    { eapply cleared_ext; [|exact Hc0]. intros j Hj. unfold slot in Hj. cbv beta. by zcase. }
    exists d1, s2, (freed_by d (λ j, is_child n (dirent d j)) 32). split_and!; [done|done| |].
    + eapply cleared_ext; [|exact Hc]. intros j Hj. unfold below. by rewrite ?Hdir.
    + unfold freed_by. apply sumZ_ext. intros j Hj. unfold below. rewrite ?Hdir. cbn [Z.eqb FS_TYPE_DIR Pos.eqb andb].
      destruct (Z.eqb_spec i j) as [<-|]; [|by rewrite orb_false_r]. rewrite orb_true_r.
      assert (entry_blocks (dirent d i) = 0) as -> by (unfold entry_blocks; by rewrite Hdir). by destruct (is_child _ _).
  - exists d, s, (entry_blocks (dirent d i)). assert (∀ j, below d i n j = false) as Hch.
    { intros j. unfold below. apply Z.eqb_neq in Hnd. by rewrite ?Hnd. }
    split_and!; [|done|by eapply cleared_ext; [|exact Hc0]; intros; rewrite Hch|].
    + do 2 f_equal. unfold mret, M_ret. do 2 f_equal. unfold entry_blocks.
      destruct (Z.eqb_spec (e_type (dirent d i)) FS_TYPE_FILE) as [Hf|]; cbn [andb]; [|done].
      destruct (file_small d sb Hinv i Hi Hf) as (Hz & Hfb & _). rewrite Z.gtb_ltb.
      destruct (Z.ltb_spec 0 (e_size (dirent d i))); [done|]. by replace (e_size (dirent d i)) with 0 by lia.
    + unfold freed_by. unfold slot in Hi. rewrite (sumZ_upd (λ _, 0) _ 32 i); [|lia|].
      * rewrite Hch, Z.eqb_refl. cbn [orb]. assert (∀ k, sumZ (λ _, 0) k = 0) as ->; [|lia].
        intros k. induction k as [|k IHk]; [done|]. rewrite sumZ_S. lia.
      * intros j Hj Hne. rewrite Hch. cbn [orb]. by zcase.
Qed.

Lemma has_deleted d d' sb i n m t x :
  fs_inv d sb → slot i → in_use (dirent d i) → named (dirent d i) n → cleared d d' (λ j, below d i n j || (i =? j)) →
  has d' m t x ↔ has d m t x ∧ m ≠ n ∧ (e_type (dirent d i) = FS_TYPE_DIR → ¬ (n ++ [47]) `prefix_of` m).
Proof.
  intros Hinv Hi Hu Hnm Hc'. rewrite (has_clear d d' sb _ m t x Hinv Hc'). split.
  - intros (j & Hj & Hcj & Huj & Hnj & Htj & Hx). apply orb_false_iff in Hcj as [Hcj Hij].
    split; [by exists j|]. apply Z.eqb_neq in Hij. split.
    + intros ->. apply Hij. by apply (fi_unique _ _ Hinv i j n).
    + intros Hdir Hpre. unfold below in Hcj. rewrite Hdir in Hcj. cbn [Z.eqb FS_TYPE_DIR Pos.eqb andb] in Hcj.
      unfold is_child in Hcj. apply Z.eqb_neq in Huj. rewrite Huj in Hcj. cbn [negb andb] in Hcj.
      apply bool_decide_eq_false in Hcj. apply Hcj. destruct Hnj as [_ [rj ->]]. by apply prefix_app_r.
  - intros [(j & Hj & Huj & Hnj & Htj & Hx) [Hne Hpre]]. exists j. split; [done|]. split; [|done].
    apply orb_false_iff. split.
    + unfold below. destruct (Z.eqb_spec (e_type (dirent d i)) FS_TYPE_DIR) as [Hdir|]; [|done]. cbn [andb].
      unfold is_child. apply andb_false_iff. right. apply bool_decide_eq_false. intros Hp. apply (Hpre Hdir).
      destruct Hnj as [_ [rj Hrj]]. rewrite Hrj in Hp. apply prefix_nonzero in Hp; [done|].
      apply Forall_app. split; [apply Hnm|]. repeat constructor; lia.
    + apply Z.eqb_neq. intros <-. apply Hne. by apply (named_inj (dirent d i)).
Qed.

Lemma delete_run d sb s n r :
  fs_inv d sb → fs_at d sb s → nonzero n →
  ∃ code d' sb' s', fs_delete (Some (n ++ 0 :: r)) s = Some (code, s') ∧ fs_at d' sb' s' ∧ fs_inv d' sb' ∧
    ((code = -1 ∧ d' = d ∧ sb' = sb ∧ ∀ t x, ¬ has d n t x) ∨
     (code = 0 ∧ ∃ t0 x0, has d n t0 x0 ∧
        ∀ m t x, has d' m t x ↔
          has d m t x ∧ m ≠ n ∧ (t0 = FS_TYPE_DIR → ¬ (n ++ [47]) `prefix_of` m))).
Proof.
  intros Hinv Hat Hn. pose proof (fi_mounted _ _ Hinv) as Hm. destruct (fs_at_dev _ _ _ Hat) as [d0 Hd].
  unfold fs_delete. rewrite bind_run. cbn [get]. rewrite Hd.
  destruct (find_entry_run d sb s n r Hat Hm Hn (fi_name _ _ Hinv)) as (s1 & Hat1 & [(i & Hi & Hu & Hnm & E)|[E Hno]]); mstep E.
  2:{ exists (-1), d, sb, s1. split_and!; [done..|]. left. split_and!; [done..|]. by apply has_not. }
  pose proof (named_length _ _ Hnm (ew_name _ (dirent_wf d sb i Hm Hi))) as Hl.
  destruct (delete_below d sb s1 i n r Hinv Hat1 Hi Hn Hl) as (d1 & s2 & freed & E2 & Hat2 & Hc & Hfr).
  cbv zeta. mstep E2. destruct (delete_tail d d1 sb s2 i _ freed Hinv Hat2 Hi Hc Hfr) as (d' & sb' & s' & E3 & Hat3 & Hinv' & Hc').
  exists 0, d', sb', s'. split_and!; [exact E3|done|done|]. right. split; [done|].
  eexists _, _. split; [by apply has_slot|]. intros m t x. by apply (has_deleted d d' sb).
Qed.

(** *** Mounting *)

Lemma for_ret_S {S R} n i (body : Z → M S (option R)) s :
  for_ret (Datatypes.S n) i body s =
  (r ← body i; match r with Some v => mret (Some v) | None => for_ret n (i + 1) body end) s.
Proof. done. Qed.

Lemma field_zeros off n k : field off n (replicate k 0) = replicate (n `min` (k - off)) 0.
Proof. unfold field. by rewrite drop_replicate, take_replicate. Qed.

Lemma le_dec_zeros n : le_dec (replicate n 0) = 0.
Proof. induction n as [|n IH]; simpl; lia. Qed.

Lemma zero_dirent d i : slot i → blk d (1 + i / 16) = replicate 512 0 → e_type (dirent d i) = FS_TYPE_FREE.
Proof.
  intros Hi Hb. destruct (slot_block i Hi). unfold dirent. rewrite Hb. cbn [dec_entry e_type].
  rewrite !field_zeros. apply le_dec_zeros.
Qed.

Definition fresh_sb (total : Z) : fs_superblock :=
  Superblock FS_MAGIC FS_VERSION total (total - 3) 1 FS_DIR_BLOCKS 3 0 (replicate 480 0).

Lemma fresh_inv d :
  bd_ok d → 3 ≤ bd_total d → blk d 0 = enc_superblock (fresh_sb (bd_total d)) →
  (∀ i, slot i → blk d (1 + i / 16) = replicate 512 0) →
  fs_inv d (fresh_sb (bd_total d)) ∧ ∀ n t x, ¬ has d n t x.
Proof.
  intros Hok Ht Hz Hdir. pose proof (bd_total_bound d Hok) as Htb.
  assert (∀ i, slot i → e_type (dirent d i) = FS_TYPE_FREE) as Hfree by (intros i Hi; apply zero_dirent; auto).
  assert (∀ i, slot i → ¬ in_use (dirent d i)) as Hnu by (intros i Hi Hu; by apply Hu, Hfree).
  assert (∀ i, slot i → ¬ is_file (dirent d i)) as Hnf by (intros i Hi Hf; unfold is_file in Hf; by rewrite Hfree in Hf).
  split; [|intros n t x (i & Hi & Hu & _); by apply (Hnu i)].
  split; [|by left; apply Hfree|..].
  - split; try done. split; cbn [fresh_sb magic version total_blocks free_blocks dir_start_block dir_block_count
      data_start_block first_free_block sb_reserved]; unfold FS_MAGIC, FS_VERSION, FS_DIR_BLOCKS; try lia.
    split; [done|by apply Forall_replicate].
  - intros i Hi Hu. by apply (Hnu i) in Hu.
  - intros i j n Hi Hj Hu. by apply (Hnu i) in Hu.
  - intros i Hi Hf. by apply (Hnf i) in Hf.
  - intros i j Hi Hj _ Hf. by apply (Hnf i) in Hf.
  - cbn [fresh_sb free_blocks]. rewrite (sumZ_ext _ (λ _, 0)).
    + assert (∀ k, sumZ (λ _, 0) k = 0) as -> by (intros k; induction k as [|k IHk]; [done|]; rewrite sumZ_S; lia). lia.
    + intros i Hi. apply free_entry_blocks, Hfree. unfold slot. lia.
  - done.
Qed.

Lemma format_run d s :
  fs_dev s = Some d → bd_ok d → 3 ≤ bd_total d → is_block (block_buf s) →
  ∃ d' s', fs_format s = Some (0, s') ∧ fs_at d' (fresh_sb (bd_total d)) s' ∧ bd_total d' = bd_total d ∧
    fs_inv d' (fresh_sb (bd_total d)) ∧ ∀ n t x, ¬ has d' n t x.
Proof.
  intros Hd Hok Ht Hbuf. pose proof (bd_total_bound d Hok) as Htb. set (sb := fresh_sb (bd_total d)).
  assert (mounted d sb) as Hm.
  { split; try done. split; cbn [sb fresh_sb magic version total_blocks free_blocks dir_start_block dir_block_count
      data_start_block first_free_block sb_reserved]; unfold FS_MAGIC, FS_VERSION, FS_DIR_BLOCKS; try lia.
    split; [done|by apply Forall_replicate]. }
  unfold fs_format. rewrite bind_run. cbn [get]. rewrite Hd. cbv zeta.
  assert (Superblock FS_MAGIC FS_VERSION (bd_total d) (bd_total d -! 3) 1 FS_DIR_BLOCKS 3 0 (replicate 480 0) = sb) as ->
    by (unfold sb, fresh_sb; by rewrite u32_small by lia).
  rewrite bind_run. cbn [put]. set (s1 := set_sb sb s). assert (fs_at d sb s1) as Hat1 by (split; [exists d; split; [done|apply bd_same_refl]|done]).
  destruct (flush_run d sb s1 Hat1 Hm) as (d1 & s2 & E1 & Hat2 & Hok1 & Ht1 & Hb1 & Hz1). mstep E1. cbn [Z.eqb negb].
  rewrite bind_run. cbn [modify]. set (zb := replicate 512 0).
  assert (is_block zb) as Hzb by (split; [done|by apply Forall_replicate]).
  assert (∀ t : fs D, is_block (take 512 (block_buf (set_buf zb t)))) as Htz by (intros t; cbn [block_buf set_buf]; rewrite take_ge by (simpl; lia); done).
  assert (fs_at d1 sb (set_buf zb s2)) as Hat3 by (destruct Hat2 as (? & ? & ?); done).
  change (Z.to_nat FS_DIR_BLOCKS) with 2%nat.
  destruct (write_run d1 sb (set_buf zb s2) 1 (block_buf (set_buf zb s2)) Hat3 Hok1) as (d2 & s3 & E2 & Hat4 & Hbuf4 & Hw2);
    [lia|apply Htz|].
  destruct (write_run d2 sb s3 2 (block_buf s3) Hat4 (wr_ok _ _ _ _ Hw2)) as (d3 & s4 & E3 & Hat5 & _ & Hw3);
    [rewrite (wr_total _ _ _ _ Hw2); lia|rewrite Hbuf4; apply Htz|].
  rewrite Hbuf4 in Hw3. cbn [block_buf set_buf] in Hw2, Hw3. rewrite take_ge in Hw2, Hw3 by (simpl; lia).
  pose proof (wr_total _ _ _ _ Hw2) as Ht2. pose proof (wr_total _ _ _ _ Hw3) as Ht3.
  assert (bd_total d3 = bd_total d) as Ht' by congruence. rewrite <- Ht' in *. fold sb.
  assert (fs_inv d3 sb ∧ ∀ n t x, ¬ has d3 n t x) as [Hinv Hno].
  { unfold sb. rewrite <- Ht'. apply fresh_inv; [apply Hw3|lia| |].
    - rewrite (wr_other _ _ _ _ Hw3), (wr_other _ _ _ _ Hw2), Hz1 by lia. unfold sb. by rewrite Ht'.
    - intros i Hi. destruct (slot_block i Hi). assert (i / 16 = 0 ∨ i / 16 = 1) as [E|E] by lia; rewrite E.
      + rewrite (wr_other _ _ _ _ Hw3) by lia. apply Hw2.
      + apply Hw3. }
  exists d3, s4. split_and!; [|done|done|done|done].
  rewrite bind_run, for_ret_S. destruct Hat3 as (Hd3 & Hsb3 & _), Hat4 as (Hd4 & Hsb4 & _).
  rewrite !bind_run. cbn [get]. rewrite bind_run, Hsb3. change (dir_start_block sb +! 0) with 1. rewrite E2. cbn [Z.eqb negb].
  unfold mret, M_ret. cbv beta iota. rewrite for_ret_S, !bind_run. cbn [get]. rewrite bind_run, Hsb4.
  change (dir_start_block sb +! (0 + 1)) with 2. rewrite E3. done.
Qed.

(** ** Properties *)

(** [fs_init] on a device without a file system formats it: it succeeds,
    establishes the invariant and the file system is empty. *)
Theorem fs_init_formats d s :
  bd_ok d → 3 ≤ bd_total d → is_block (block_buf s) → magic (dec_superblock (blk d 0)) ≠ FS_MAGIC →
  ∃ d' sb s', fs_init (Some d) s = Some (0, s') ∧ fs_at d' sb s' ∧ bd_total d' = bd_total d ∧
    fs_inv d' sb ∧ ∀ n t x, ¬ has d' n t x.
Proof.
  intros Hok Ht Hbuf Hmg. destruct (bd_read_ok d 0 Hok ltac:(lia)) as (d1 & Er & Hok1 & Ht1 & _).
  unfold fs_init. rewrite bind_run. cbn [modify]. rewrite Er, bind_run. cbn [modify]. rewrite bind_run. cbn [modify].
  rewrite bind_run. cbn [get set_dev set_sb superblock fs_dev block_buf].
  destruct (Z.eqb_spec (magic (dec_superblock (blk d 0))) FS_MAGIC); [done|].
  cbn [negb]. destruct (format_run d1 (Fs (Some d1) (dec_superblock (blk d 0)) (block_buf s)) eq_refl (Hok1 Hok) ltac:(lia) Hbuf)
    as (d' & s' & E & Hat & Ht' & Hinv & Hno). rewrite <- Ht1. eauto 10.
Qed.

Lemma remount_run d sb s :
  fs_inv d sb → is_block (block_buf s) → magic sb = FS_MAGIC →
  ∃ s', fs_init (Some d) s = Some (0, s') ∧ fs_at d sb s'.
Proof.
  intros Hinv Hbuf Hmg. pose proof (fi_mounted _ _ Hinv) as Hm. pose proof (mo_size _ _ Hm).
  destruct (bd_read_ok d 0 (mo_ok _ _ Hm) ltac:(lia)) as (d1 & Er & Hsame). rewrite (fi_disk _ _ Hinv) in Er.
  eexists. unfold fs_init. rewrite bind_run. cbn [modify]. rewrite Er, bind_run. cbn [modify]. rewrite bind_run. cbn [modify].
  rewrite bind_run. cbn [get set_dev set_sb superblock fs_dev block_buf].
  rewrite dec_enc_superblock by apply Hm. rewrite Hmg. split; [reflexivity|].
  split; [by exists d1|done].
Qed.

(** C21: what was stored survives a remount: [fs_init] on a device that holds
    a file system recognises it and restores exactly the superblock that was
    in memory, so every entry and every byte is found again. *)
Theorem fs_remount d sb s :
  fs_inv d sb → is_block (block_buf s) → magic sb = FS_MAGIC →
  ∃ s', fs_init (Some d) s = Some (0, s') ∧ fs_at d sb s'.
Proof. apply remount_run. Qed.

(** C9: [fs_create] adds exactly one entry.  It returns -1 and changes
    nothing when the name is empty or longer than 23 characters, the type is
    neither file nor directory, the name exists, or all 32 entries are used;
    otherwise it returns 0 and the file system is the old one plus the new,
    empty entry. *)
Theorem fs_create_adds d sb s n r type :
  fs_inv d sb → fs_at d sb s → nonzero n → Z.of_nat (length n) < 4294967296 →
  ∃ code d' s', fs_create (Some (n ++ 0 :: r)) type s = Some (code, s') ∧ fs_at d' sb s' ∧ fs_inv d' sb ∧
    ((code = -1 ∧ d' = d ∧ create_refused d n type) ∨
     (code = 0 ∧ (∀ t x, ¬ has d n t x) ∧
      ∀ m t x, has d' m t x ↔ (m = n ∧ t = type ∧ x = []) ∨ has d m t x)).
Proof. apply create_run. Qed.

(** C3: [fs_write_file] replaces the contents of one file.  It returns -1
    and changes nothing when there is no such file, fewer free blocks than
    needed, or no contiguous run of them among the blocks the allocator can
    see; otherwise it returns 0, the file has exactly the given bytes, and
    every other entry has the type and bytes it had. *)
Theorem fs_write_file_stores d sb s n r data size :
  fs_inv d sb → fs_at d sb s → nonzero n → Forall (λ b, 0 ≤ b < 256) data →
  Z.of_nat (length data) = size → size ≤ 0xFFFFFDFF →
  ∃ code d' sb' s', fs_write_file (Some (n ++ 0 :: r)) (Some data) size s = Some (code, s') ∧
    fs_at d' sb' s' ∧ fs_inv d' sb' ∧
    ((code = -1 ∧ d' = d ∧ sb' = sb ∧ write_refused d sb n size) ∨
     (code = 0 ∧ (∃ x, has d n FS_TYPE_FILE x) ∧
      ∀ m t x, has d' m t x ↔ (m = n ∧ t = FS_TYPE_FILE ∧ x = data) ∨ (m ≠ n ∧ has d m t x))).
Proof. apply write_file_run. Qed.

(** C4: [fs_read_file] returns the file's bytes, cut to the caller's buffer,
    and their number; it returns -1 and no bytes exactly when there is no
    file of that name.  The device is not changed. *)
Theorem fs_read_file_returns d sb s n r max_size :
  fs_inv d sb → fs_at d sb s → nonzero n → 0 ≤ max_size < 4294967296 →
  ∃ code out s', fs_read_file (Some (n ++ 0 :: r)) max_size s = Some ((code, out), s') ∧ fs_at d sb s' ∧
    ((code = -1 ∧ out = [] ∧ ∀ x, ¬ has d n FS_TYPE_FILE x) ∨
     (∃ x, has d n FS_TYPE_FILE x ∧ out = take (Z.to_nat max_size) x ∧ code = Z.of_nat (length out))).
Proof. apply read_file_run. Qed.

(** C8: [fs_delete] removes one entry, or a directory with everything below
    it.  It returns -1 and changes nothing when the name does not exist;
    otherwise it returns 0 and exactly the named entry is gone and, if it
    was a directory, every entry whose name starts with the name and a
    slash; the invariant with its count of free blocks is kept. *)
Theorem fs_delete_removes d sb s n r :
  fs_inv d sb → fs_at d sb s → nonzero n →
  ∃ code d' sb' s', fs_delete (Some (n ++ 0 :: r)) s = Some (code, s') ∧ fs_at d' sb' s' ∧ fs_inv d' sb' ∧
    ((code = -1 ∧ d' = d ∧ sb' = sb ∧ ∀ t x, ¬ has d n t x) ∨
     (code = 0 ∧ ∃ t0 x0, has d n t0 x0 ∧
        ∀ m t x, has d' m t x ↔
          has d m t x ∧ m ≠ n ∧ (t0 = FS_TYPE_DIR → ¬ (n ++ [47]) `prefix_of` m))).
Proof. apply delete_run. Qed.

(** [fs_alloc_blocks] is first fit over the blocks no file uses: it
    returns the lowest run of [count] such blocks among those its array
    covers, or 0xFFFFFFFF when fewer are free or there is no such run. *)
Theorem fs_alloc_blocks_first_fit d sb s count :
  fs_inv d sb → fs_at d sb s → 0 < count < 4294967296 →
  ∃ r s', fs_alloc_blocks count s = Some (r, s') ∧ fs_at d sb s' ∧
    ((r = 0xFFFFFFFF ∧ (free_blocks sb < count ∨
        ∀ a, 0 ≤ a → a + count ≤ capacity d → ∃ b, a ≤ b < a + count ∧ covered d b)) ∨
     (0 ≤ r ∧ r + count ≤ capacity d ∧ count ≤ free_blocks sb ∧ (∀ b, r ≤ b < r + count → ¬ covered d b) ∧
      ∀ a, 0 ≤ a < r → ∃ b, a ≤ b < a + count ∧ covered d b)).
Proof. apply alloc_run. Qed.
End spec.

(** ** Witnesses: a 32 KB RAM disk *)

Definition disk0 : ramdisk := Ramdisk ∅ 0x201000 32768.
Definition unmounted : fs ramdisk := Fs None (dec_superblock []) (replicate 512 0).

Lemma disk0_ok : bd_ok disk0 ∧ 3 ≤ bd_total disk0 ∧ is_block (block_buf unmounted).
Proof.
  split; [vm_compute; split_and!; congruence|]. split; [vm_compute; congruence|].
  split; [reflexivity|]. by apply Forall_replicate.
Qed.

Lemma disk0_blank : magic (dec_superblock (blk disk0 0)) ≠ FS_MAGIC.
Proof. vm_compute. congruence. Qed.

(** A mounted, empty file system. *)
Lemma empty_fs :
  ∃ (d : ramdisk) s, fs_at d (fresh_sb 64) s ∧ fs_inv d (fresh_sb 64) ∧ ∀ n t x, ¬ has d n t x.
Proof.
  destruct disk0_ok as (Hok & Ht & Hb).
  destruct (format_run disk0 (Fs (Some disk0) (dec_superblock []) (replicate 512 0)) eq_refl Hok Ht Hb)
    as (d & s & _ & Hat & _ & Hinv & Hno).
  change (bd_total disk0) with 64 in *. eauto 10.
Qed.

(** The same with one empty file called "a". *)
Lemma file_fs_only :
  ∃ (d : ramdisk) s, fs_at d (fresh_sb 64) s ∧ fs_inv d (fresh_sb 64) ∧ has d (str "a") FS_TYPE_FILE [] ∧
    ∀ n t x, has d n t x → x = [].
Proof.
  destruct empty_fs as (d & s & Hat & Hinv & Hno).
  destruct (create_run d (fresh_sb 64) s (str "a") [] FS_TYPE_FILE Hinv Hat)
    as (code & d' & s' & _ & Hat' & Hinv' & [(_ & _ & Hr)|(_ & _ & Hh)]).
  - repeat constructor; vm_compute; congruence.
  - vm_compute. reflexivity.
  - exfalso. destruct Hr as [Hr|[Hr|[[Hr _]|[(t & x & Hr)|Hr]]]].
    + discriminate Hr. + vm_compute in Hr. lia. + by apply Hr. + by apply (Hno _ _ _ Hr).
    + specialize (Hr 0 ltac:(unfold slot; lia)). destruct (fi_name _ _ Hinv 0 ltac:(unfold slot; lia) Hr) as [m Hm].
      eapply Hno. by apply (has_slot d m 0).
  - exists d', s'. split_and!; [exact Hat'|exact Hinv'|apply Hh; by left|].
    intros n t x [(_ & _ & ->)|Hx]%Hh; [done|by destruct (Hno _ _ _ Hx)].
Qed.

Lemma file_fs :
  ∃ (d : ramdisk) s, fs_at d (fresh_sb 64) s ∧ fs_inv d (fresh_sb 64) ∧ has d (str "a") FS_TYPE_FILE [].
Proof. destruct file_fs_only as (d & s & Hat & Hinv & Hh & _). by exists d, s. Qed.

Lemma fs_init_formats_witness :
  ∃ (d' : ramdisk) sb s', fs_init (Some disk0) unmounted = Some (0, s') ∧ fs_inv d' sb.
Proof.
  destruct disk0_ok as (Hok & Ht & Hb).
  destruct (fs_init_formats disk0 unmounted Hok Ht Hb disk0_blank) as (d' & sb & s' & E & _ & _ & Hinv & _).
  exists d', sb, s'. split; assumption.
Defined.

Lemma fs_remount_witness :
  ∃ (d : ramdisk) s', fs_inv d (fresh_sb 64) ∧ fs_init (Some d) unmounted = Some (0, s') ∧ fs_at d (fresh_sb 64) s'.
Proof.
  destruct file_fs as (d & s & Hat & Hinv & _). destruct disk0_ok as (_ & _ & Hb).
  destruct (fs_remount d (fresh_sb 64) unmounted Hinv Hb eq_refl) as (s' & E & Hat').
  exists d, s'. split; [exact Hinv|]. split; assumption.
Defined.

Lemma fs_create_adds_witness :
  ∃ (d : ramdisk) s code s', fs_inv d (fresh_sb 64) ∧ fs_create (Some (str "b" ++ [0])) FS_TYPE_DIR s = Some (code, s').
Proof.
  destruct file_fs as (d & s & Hat & Hinv & _).
  destruct (fs_create_adds d (fresh_sb 64) s (str "b") [] FS_TYPE_DIR Hinv Hat) as (code & d' & s' & E & _).
  - repeat constructor; vm_compute; congruence.
  - vm_compute. reflexivity.
  - exists d, s, code, s'. split; assumption.
Defined.

Lemma fs_write_file_stores_witness :
  ∃ (d : ramdisk) s code s', fs_inv d (fresh_sb 64) ∧ has d (str "a") FS_TYPE_FILE [] ∧
    fs_write_file (Some (str "a" ++ [0])) (Some (replicate 600 65)) 600 s = Some (code, s').
Proof.
  destruct file_fs as (d & s & Hat & Hinv & Hh).
  destruct (fs_write_file_stores d (fresh_sb 64) s (str "a") [] (replicate 600 65) 600 Hinv Hat)
    as (code & d' & sb' & s' & E & _).
  - repeat constructor; vm_compute; congruence.
  - apply Forall_replicate. lia.
  - reflexivity.
  - lia.
  - exists d, s, code, s'. split; [exact Hinv|]. split; assumption.
Defined.

Lemma fs_read_file_returns_witness :
  ∃ (d : ramdisk) s code out s', fs_inv d (fresh_sb 64) ∧
    fs_read_file (Some (str "a" ++ [0])) 100 s = Some ((code, out), s').
Proof.
  destruct file_fs as (d & s & Hat & Hinv & Hh).
  destruct (fs_read_file_returns d (fresh_sb 64) s (str "a") [] 100 Hinv Hat) as (code & out & s' & E & _).
  - repeat constructor; vm_compute; congruence.
  - lia.
  - exists d, s, code, out, s'. split; assumption.
Defined.

Lemma fs_delete_removes_witness :
  ∃ (d : ramdisk) s code s', fs_inv d (fresh_sb 64) ∧ fs_delete (Some (str "a" ++ [0])) s = Some (code, s').
Proof.
  destruct file_fs as (d & s & Hat & Hinv & Hh).
  destruct (fs_delete_removes d (fresh_sb 64) s (str "a") [] Hinv Hat) as (code & d' & sb' & s' & E & _).
  - repeat constructor; vm_compute; congruence.
  - exists d, s, code, s'. split; assumption.
Defined.

Lemma fs_alloc_blocks_first_fit_witness :
  ∃ (d : ramdisk) s r s', fs_inv d (fresh_sb 64) ∧ fs_alloc_blocks 3 s = Some (r, s').
Proof.
  destruct file_fs as (d & s & Hat & Hinv & Hh).
  destruct (fs_alloc_blocks_first_fit d (fresh_sb 64) s 3 Hinv Hat) as (r & s' & E & _); [lia|].
  exists d, s, r, s'. split; assumption.
Defined.
