(* ===== verification/Klog.v ===== *)
(** * kernel/sys/klog.c: the kernel log

    A ring of 256 entries with a formatter of its own that writes into a
    128-byte buffer.  The buffer's bound is part of the model: a write past
    its end has no defined outcome.  [KlogSpec] relates the ring to the list
    of all messages and the formatter to [kprintf]. *)

From S2P Require Import Prelude KString KStdio Console KPrintf Block SimpleFS.

Open Scope Z_scope.
Open Scope c_scope.

Definition KLOG_BUFFER_SIZE : Z := 256.
Definition KLOG_MSG_MAX_LEN : Z := 128.
Definition KLOG_DEBUG : Z := 0.
Definition KLOG_INFO : Z := 1.
Definition KLOG_WARN : Z := 2.
Definition KLOG_ERROR : Z := 3.

Record klog_entry := LogEntry { level : Z; message : list Z; timestamp : Z }.

Definition zero_log_entry : klog_entry := LogEntry 0 (replicate 128 0) 0.

Record klog_t := Klog {
  log_buffer : list klog_entry;
  log_head : Z;
  log_count : Z;
  current_timestamp : Z
}.

Definition level_names : list (list Z) :=
  [str "[DEBUG]"; str "[INFO] "; str "[WARN] "; str "[ERROR]"].

Definition klog_init : M klog_t () :=
  put (Klog (replicate (Z.to_nat KLOG_BUFFER_SIZE) zero_log_entry) 0 0 0).

(** ** The formatter *)

(** [temp_buffer[pos++] = s[j]] for each character of [s] while
    [pos < KLOG_MSG_MAX_LEN - 1]; [out] is what the buffer holds. *)
Definition fill (out s : list Z) : list Z :=
  out ++ take (Z.to_nat (KLOG_MSG_MAX_LEN - 1) - length out) s.

(** The buffer after the directive [d], and the arguments left. *)
Definition klog_conv (d : Z) (args : list va) (out : list Z) : option (list Z * list va) :=
  if (d =? 100) || (d =? 105) then va_int args (λ v, option_map (fill out) (itoa (i32 v) 10))
  else if d =? 117 then va_int args (λ v, option_map (fill out) (utoa (u32 v) 10))
  else if d =? 120 then va_int args (λ v, option_map (fill out) (utoa (u32 v) 16))
  else if d =? 115 then
    va_str args (λ p, match p with None => Some out | Some s => option_map (fill out) (cstr s) end)
  else if d =? 99 then va_int args (λ v, Some (out ++ [u8 v]))
  else if d =? 37 then Some (out ++ [37], args)
  else Some (out ++ [37; d], args).

Fixpoint klog_format (format : list Z) (args : list va) (out : list Z) : option (list Z) :=
  match format with
  | [] => None
  | c :: rest =>
      if (c =? 0) || negb (Z.of_nat (length out) <? KLOG_MSG_MAX_LEN - 1) then Some out
      else
        match rest with
        | d :: rest' =>
            if (c =? 37) && negb (d =? 0) then
              match klog_conv d args out with
              | Some (out', args') => klog_format rest' args' out'
              | None => None
              end
            else klog_format rest args (out ++ [c])
        | [] => None
        end
  end.

(** ** Logging *)

Definition klog (lvl : Z) (format : list Z) (args : list va) : M (io klog_t) () :=
  k ← quiet get;
  e ← of_option (log_buffer k !! Z.to_nat (log_head k));
  temp_buffer ← of_option (klog_format format args []);
  if negb (Z.of_nat (length temp_buffer) <? KLOG_MSG_MAX_LEN) then fault
  else
    m ← of_option (strncpy (message e) (temp_buffer ++ [0]) (Z.to_nat (KLOG_MSG_MAX_LEN - 1)));
    let m := <[Z.to_nat (KLOG_MSG_MAX_LEN - 1) := 0]> m in
    name ← of_option (level_names !! Z.to_nat lvl);
    text ← of_option (cstr m);
    kprint name ;; kprint (str " ") ;; kprint text ;; kprint [10] ;;
    quiet (put (Klog (<[Z.to_nat (log_head k) := LogEntry lvl m (current_timestamp k)]> (log_buffer k))
                     ((log_head k +! 1) mod KLOG_BUFFER_SIZE) (log_count k +! 1)
                     (current_timestamp k +! 1))).

Definition klog_debug := klog KLOG_DEBUG.
Definition klog_info := klog KLOG_INFO.
Definition klog_warn := klog KLOG_WARN.
Definition klog_error := klog KLOG_ERROR.

(** ** Reading the log *)

(** [(log_count < KLOG_BUFFER_SIZE) ? log_count : KLOG_BUFFER_SIZE] *)
Definition log_size (k : klog_t) : Z :=
  if log_count k <? KLOG_BUFFER_SIZE then log_count k else KLOG_BUFFER_SIZE.

(** The totals written through the two pointers. *)
Definition klog_get_stats (k : klog_t) : Z * Z := (log_count k, log_size k).

Definition start_pos (k : klog_t) : Z := if log_count k <=? KLOG_BUFFER_SIZE then 0 else log_head k.

(** The inner [option] is the [NULL] result. *)
Definition klog_get_entry (index : Z) : M klog_t (option klog_entry) :=
  k ← get;
  if index >=? log_size k then mret None
  else
    let actual_index := (start_pos k +! index) mod KLOG_BUFFER_SIZE in
    e ← of_option (log_buffer k !! Z.to_nat actual_index);
    mret (Some e).

Definition dump_line (i : Z) : M (io klog_t) () :=
  k ← quiet get;
  e ← of_option (log_buffer k !! Z.to_nat ((start_pos k +! i) mod KLOG_BUFFER_SIZE));
  name ← of_option (level_names !! Z.to_nat (level e));
  kprintf (str "[%u] %s %s" ++ [10; 0])
    [VInt (timestamp e); VStr (Some (name ++ [0])); VStr (Some (message e))].

Definition klog_dump : M (io klog_t) () :=
  kprintf ([10] ++ str "=== Kernel Log Dump ===" ++ [10; 0]) [] ;;
  k ← quiet get;
  kprintf (str "Total messages logged: %u" ++ [10; 0]) [VInt (log_count k)] ;;
  kprintf (str "Messages in buffer: %u" ++ [10; 0]) [VInt (log_size k)] ;;
  kprintf [10; 0] [] ;;
  for_loop (Z.to_nat (log_size k)) 0 dump_line ;;
  kprintf ([10] ++ str "=== End of Log ===" ++ [10; 0]) [].

Definition klog_clear : M (io klog_t) () :=
  quiet klog_init ;;
  kprintf (str "[INFO]  Log buffer cleared" ++ [10; 0]) [].

(** ** Writing the log to a file *)

Definition FLUSH_BUF_SIZE : Z := 4096.

(** [flush_buf[pos++] = s[j]] while [pos < FLUSH_BUF_SIZE - 2]. *)
Definition flush_put (out s : list Z) : list Z :=
  out ++ take (Z.to_nat (FLUSH_BUF_SIZE - 2) - length out) s.

(** One entry: level, space, timestamp, space, message, newline. *)
Definition flush_entry (out : list Z) (e : klog_entry) : option (list Z) :=
  lvl ← level_names !! Z.to_nat (level e);
  ts ← utoa (timestamp e) 10;
  msg ← cstr (message e);
  let out := flush_put out lvl in
  let out := flush_put out (str " ") in
  let out := flush_put out ts in
  let out := flush_put out (str " ") in
  let out := flush_put out msg in
  Some (if Z.of_nat (length out) <? FLUSH_BUF_SIZE - 1 then out ++ [10] else out).

Fixpoint flush_loop (n : nat) (i : Z) (k : klog_t) (out : list Z) : option (list Z) :=
  match n with
  | O => Some out
  | S n' =>
      if Z.of_nat (length out) <? FLUSH_BUF_SIZE - 2 then
        e ← log_buffer k !! Z.to_nat ((start_pos k +! i) mod KLOG_BUFFER_SIZE);
        out' ← flush_entry out e;
        flush_loop n' (i + 1) k out'
      else Some out
  end.

Section flush.
Context {D : Type} `{BlockDev D}.

Definition klog_flush_to_file (filename : option (list Z)) : M (klog_t * fs D) Z :=
  match filename with
  | None => mret (-1)
  | Some name =>
      s ← get;
      if log_size (fst s) =? 0 then mret 0
      else
        text ← of_option (flush_loop (Z.to_nat (log_size (fst s))) 0 (fst s) []);
        let on_fs {A} (c : M (fs D) A) := zoom snd (λ f s, (fst s, f)) c in
        st ← on_fs (fs_stat (Some name));
        created ← (match st with
                   | Some _ => mret 0
                   | None => on_fs (fs_create (Some name) FS_TYPE_FILE)
                   end : M (klog_t * fs D) Z);
        if negb (created =? 0) then mret (-1)
        else
          r ← on_fs (fs_write_file (Some name) (Some text) (Z.of_nat (length text)));
          if negb (r =? 0) then mret (-1) else mret 0
  end.
End flush.
