(* ===== verification/KlogSpec.v ===== *)
(** * The kernel log: what the formatter and the ring promise

    The formatter of [klog] stores the first 127 characters of what [kprintf]
    would print; the ring holds the last 256 messages of the list of all
    messages logged. *)

From S2P Require Import Prelude KString KStdio Console KPrintf Block SimpleFS Klog.

Open Scope Z_scope.
Open Scope c_scope.

(** ** The formatter *)

(** The directives [klog] shares with [kprintf], with an argument that both
    treat alike: a string that is not [NULL], a character that is not zero. *)
Definition shared_conv (d : Z) (args : list va) : bool :=
  if (d =? 100) || (d =? 105) || (d =? 117) || (d =? 120) || (d =? 37) then true
  else if d =? 99 then match args with VInt v :: _ => truth (u8 v) | _ => false end
  else if d =? 115 then match args with VStr (Some _) :: _ => true | _ => false end
  else false.

(** A format all of whose directives are shared. *)
Fixpoint shared_format (format : list Z) (args : list va) : bool :=
  match format with
  | c :: rest =>
      if c =? 0 then true
      else
        match rest with
        | d :: rest' =>
            if (c =? 37) && negb (d =? 0) then
              shared_conv d args &&
              match kprintf_conv d args with Some (_, args') => shared_format rest' args' | None => false end
            else shared_format rest args
        | [] => false
        end
  | [] => false
  end.

Lemma take_take_app {A} n (l m : list A) : take n (take n l ++ m) = take n (l ++ m).
Proof.
  destruct (Nat.le_gt_cases n (length l)) as [Hle|Hgt].
  - rewrite !take_app_le; [|done|rewrite length_take; lia]. by rewrite take_take, Nat.min_id.
  - by rewrite (take_ge l) by lia.
Qed.

Definition cut (l : list Z) : list Z := take 127 l.

Lemma fill_cut out s : (length out ≤ 127)%nat → fill out s = cut (out ++ s).
Proof.
  intros H. unfold fill, cut. change (Z.to_nat (KLOG_MSG_MAX_LEN - 1)) with 127%nat.
  by rewrite take_app, (take_ge out) by lia.
Qed.

Lemma length_cut l : (length (cut l) ≤ 127)%nat.
Proof. unfold cut. rewrite length_take. lia. Qed.

Lemma cut_short l : (length l ≤ 127)%nat → cut l = l.
Proof. intros. by apply take_ge. Qed.

Lemma va_int_fill args k out piece rest :
  (length out ≤ 127)%nat → va_int args k = Some (piece, rest) →
  va_int args (λ v, option_map (fill out) (k v)) = Some (cut (out ++ piece), rest).
Proof.
  intros Ho E. destruct args as [|[v|s] args]; try done. cbn [va_int] in *.
  destruct (k v) as [p|]; [|done]. injection E as -> ->. cbn. by rewrite fill_cut.
Qed.

(** One directive: [klog] appends what [kprintf] prints, cut to the buffer. *)
Lemma klog_conv_shared d args out piece rest :
  shared_conv d args = true → kprintf_conv d args = Some (piece, rest) → (length out < 127)%nat →
  klog_conv d args out = Some (cut (out ++ piece), rest).
Proof.
  unfold shared_conv, kprintf_conv, klog_conv. intros Hs E Ho.
  assert (∀ b, cut (out ++ [b]) = out ++ [b]) as Hone.
  { intros b. apply cut_short. rewrite length_app. simpl. lia. }
  destruct ((d =? 100) || (d =? 105)) eqn:E1; [by apply va_int_fill; [lia|]|].
  destruct (Z.eqb_spec d 117) as [->|N2]; [by apply va_int_fill; [lia|]|].
  destruct (Z.eqb_spec d 120) as [->|N3]; [by apply va_int_fill; [lia|]|].
  destruct (Z.eqb_spec d 37) as [->|N4].
  { injection E as <- <-. change (str "%") with [37]. by rewrite Hone. }
  destruct (Z.eqb_spec d 99) as [->|N5].
  { cbn in Hs |- *. destruct args as [|[v|s] args]; try done. cbn in E. unfold char_str in E. rewrite Hs in E.
    injection E as <- <-. by rewrite Hone. }
  destruct (Z.eqb_spec d 115) as [->|N6]; [|done].
  cbn in Hs |- *. destruct args as [|[v|[s|]] args]; try done. cbn in E. cbn.
  destruct (cstr s) as [t|]; [|done]. injection E as <- <-. cbn. by rewrite fill_cut by lia.
Qed.

Lemma klog_format_cut format args out text :
  shared_format format args = true → kprintf_text format args = Some text → (length out ≤ 127)%nat →
  klog_format format args out = Some (cut (out ++ text)).
Proof.
  remember (length format) as n eqn:En. assert (length format ≤ n)%nat as Hn by lia. clear En.
  revert format args out text Hn. induction n as [|n IH]; intros format args out text Hn Hs E Ho;
    (destruct format as [|c rest]; [done|]); cbn [length] in Hn; [lia|].
  cbn [shared_format kprintf_text klog_format] in *. destruct (Z.eqb_spec c 0) as [->|Hc].
  { injection E as <-. cbn. by rewrite app_nil_r, cut_short. }
  cbn [orb]. change (KLOG_MSG_MAX_LEN - 1) with 127.
  destruct rest as [|d rest']; [done|].
  destruct (Z.ltb_spec (Z.of_nat (length out)) 127); cbn [negb].
  2:{ f_equal. unfold cut. rewrite take_app_le by lia. by rewrite take_ge by lia. }
  destruct ((c =? 37) && negb (d =? 0)).
  - apply andb_true_iff in Hs as [Hs1 Hs2]. destruct (kprintf_conv d args) as [[piece args']|] eqn:Ec; [|done].
    rewrite (klog_conv_shared _ _ _ _ _ Hs1 Ec) by lia.
    destruct (kprintf_text rest' args') as [t|] eqn:Et; [|done]. injection E as <-.
    rewrite (IH rest' args' _ t); [|cbn [length] in Hn; lia|done|done|apply length_cut].
    unfold cut. by rewrite take_take_app, <- app_assoc.
  - destruct (kprintf_text (d :: rest') args) as [t|] eqn:Et; [|done]. injection E as <-.
    rewrite (IH (d :: rest') args _ t); [by rewrite <- app_assoc|cbn [length] in *; lia|done|done|].
    rewrite length_app. simpl. lia.
Qed.

(** ** The ring *)

(** A message as it is stored: padded with zeros to 128 bytes. *)
Definition pad128 (s : list Z) : list Z := s ++ replicate (128 - length s) 0.

(** The ring holds the last 256 of the messages [h], each at its number
    modulo 256, and the counters agree with [h]. *)
Record log_rep (k : klog_t) (h : list klog_entry) : Prop := {
  lr_len : length (log_buffer k) = 256%nat;
  lr_msgs : Forall (λ e, length (message e) = 128%nat) (log_buffer k);
  lr_head : log_head k = Z.of_nat (length h) mod 256;
  lr_count : log_count k = Z.of_nat (length h);
  lr_ts : current_timestamp k = Z.of_nat (length h);
  lr_bound : Z.of_nat (length h) < 4294967296;
  lr_ring : ∀ i, (i < length h)%nat → (length h ≤ i + 256)%nat → log_buffer k !! (i mod 256)%nat = h !! i
}.

Lemma pad128_cstr s : nonzero s → (length s ≤ 127)%nat → cstr (pad128 s) = Some s.
Proof.
  intros Hs Hl. unfold pad128. replace (128 - length s)%nat with (S (127 - length s)) by lia.
  by apply cstr_app.
Qed.

Lemma store_message old s :
  length old = 128%nat → nonzero s → (length s ≤ 127)%nat →
  ∃ m, strncpy old (s ++ [0]) 127 = Some m ∧ <[127%nat := 0]> m = pad128 s.
Proof.
  intros Ho Hs Hl. rewrite strncpy_cstr by (done || lia). eexists. split; [reflexivity|].
  assert (take 127 (s ++ replicate 127 0) = s ++ replicate (127 - length s) 0) as ->.
  { rewrite take_app, (take_ge s) by lia. f_equal. rewrite take_replicate. f_equal. lia. }
  assert (length (s ++ replicate (127 - length s) 0) = 127%nat) as H127.
  { rewrite length_app, length_replicate. lia. }
  rewrite insert_app_r_alt by lia. rewrite H127.
  destruct (drop 127 old) as [|x [|y l]] eqn:Ed; apply (f_equal length) in Ed;
    rewrite length_drop, Ho in Ed; try done.
  unfold pad128. replace (128 - length s)%nat with ((127 - length s) + 1)%nat by lia.
  by rewrite replicate_add, app_assoc.
Qed.

Lemma mod256_Z n : Z.to_nat (Z.of_nat n mod 256) = (n mod 256)%nat.
Proof. change 256 with (Z.of_nat 256). rewrite <- Nat2Z.inj_mod. by rewrite Nat2Z.id. Qed.

Lemma mod256_ne i n : (i < n)%nat → (n < i + 256)%nat → (i mod 256 ≠ n mod 256)%nat.
Proof.
  intros H1 H2 E. pose proof (Nat.div_mod_eq i 256). pose proof (Nat.div_mod_eq n 256).
  assert (i / 256 < n / 256)%nat by nia. nia.
Qed.

(** Overwriting the oldest entry appends to the log. *)
Lemma log_rep_snoc k h e :
  log_rep k h → Z.of_nat (length h) + 1 < 4294967296 → length (message e) = 128%nat →
  log_rep (Klog (<[Z.to_nat (log_head k) := e]> (log_buffer k)) ((log_head k +! 1) mod KLOG_BUFFER_SIZE)
             (log_count k +! 1) (current_timestamp k +! 1)) (h ++ [e]).
Proof.
  intros [Hl Hm Hh Hc Ht Hb Hr] Hn He. pose proof (Z.mod_pos_bound (Z.of_nat (length h)) 256).
  split; cbn [log_buffer log_head log_count current_timestamp]; rewrite ?length_app; cbn [length].
  - by rewrite length_insert.
  - by apply Forall_insert.
  - rewrite Hh, u32_small by lia. unfold KLOG_BUFFER_SIZE. rewrite Nat2Z.inj_add.
    by rewrite Zplus_mod_idemp_l.
  - rewrite Hc, u32_small by lia. lia.
  - rewrite Ht, u32_small by lia. lia.
  - lia.
  - intros i Hi Hi2. rewrite Hh, mod256_Z. destruct (decide (i = length h)) as [->|Hne].
    + rewrite list_lookup_insert_eq; [by rewrite lookup_app_r, Nat.sub_diag|].
      rewrite Hl. by apply Nat.mod_upper_bound.
    + rewrite list_lookup_insert_ne by (intros E; symmetry in E; revert E; apply mod256_ne; lia).
      rewrite Hr by lia. by rewrite lookup_app_l by lia.
Qed.

Lemma klog_run k h lvl format args text c :
  log_rep k h → 0 ≤ lvl < 4 → Z.of_nat (length h) + 1 < 4294967296 →
  shared_format format args = true → kprintf_text format args = Some text → nonzero text →
  ∃ k' name, level_names !! Z.to_nat lvl = Some name ∧
    klog lvl format args (IO k c) = Some ((), IO k' (c ++ name ++ str " " ++ cut text ++ [10])) ∧
    log_rep k' (h ++ [LogEntry lvl (pad128 (cut text)) (Z.of_nat (length h))]).
Proof.
  intros Hrep Hlvl Hn Hs Et Hnz. pose proof Hrep as [Hl Hm Hh Hc Ht Hb Hr].
  assert (nonzero (cut text)) as Hcut by (by apply Forall_take).
  destruct (log_buffer k !! Z.to_nat (log_head k)) as [e|] eqn:Ee.
  2:{ apply lookup_ge_None in Ee. pose proof (Z.mod_pos_bound (Z.of_nat (length h)) 256). lia. }
  assert (length (message e) = 128%nat) as Hme.
  { rewrite Forall_lookup in Hm. by eapply Hm. }
  destruct (store_message (message e) (cut text) Hme Hcut (length_cut _)) as (m & Em & Epad).
  destruct (lookup_lt_is_Some_2 level_names (Z.to_nat lvl)) as (name & En); [cbn; lia|].
  eexists _, name. split; [done|]. unfold klog. rewrite bind_run. cbn [quiet zoom get st con].
  unfold quiet at 1, zoom at 1. cbn [get st con]. rewrite bind_run, Ee. cbn [of_option].
  rewrite bind_run, (klog_format_cut _ _ _ _ Hs Et) by (cbn; lia). cbn [of_option app].
  pose proof (length_cut text). destruct (Z.ltb_spec (Z.of_nat (length (cut text))) KLOG_MSG_MAX_LEN);
    [|unfold KLOG_MSG_MAX_LEN in *; lia]. cbn [negb].
  change (Z.to_nat (KLOG_MSG_MAX_LEN - 1)) with 127%nat.
  rewrite bind_run, Em. cbn [of_option]. rewrite Epad, bind_run, En. cbn [of_option].
  rewrite bind_run, pad128_cstr by done. cbn [of_option]. rewrite !kprint_seq. unfold quiet, zoom. cbn [put st con].
  split; [rewrite <- !app_assoc; reflexivity|]. rewrite Ht. rewrite <- Ht at 2.
  apply log_rep_snoc; [done|done|]. cbn. unfold pad128. rewrite length_app, length_replicate. lia.
Qed.

Lemma log_size_rep k h : log_rep k h → log_size k = Z.of_nat (length h `min` 256)%nat.
Proof. intros Hrep. unfold log_size, KLOG_BUFFER_SIZE. rewrite (lr_count _ _ Hrep). zcase; lia. Qed.

(** Where the readers find the messages in the ring. *)
Lemma ring_lookup k h index :
  log_rep k h → 0 ≤ index < Z.of_nat (length h `min` 256)%nat →
  log_buffer k !! Z.to_nat ((start_pos k +! index) mod KLOG_BUFFER_SIZE) =
  h !! (length h - length h `min` 256 + Z.to_nat index)%nat.
Proof.
  intros [Hl Hm Hh Hc Ht Hb Hr] Hi. unfold start_pos, KLOG_BUFFER_SIZE. rewrite Hc, Hh.
  pose proof (Z.mod_pos_bound (Z.of_nat (length h)) 256).
  assert (Z.to_nat (((if Z.of_nat (length h) <=? 256 then 0 else Z.of_nat (length h) mod 256) +! index) mod 256) =
    ((length h - length h `min` 256 + Z.to_nat index) mod 256)%nat) as ->.
  { rewrite <- mod256_Z. f_equal. rewrite Nat2Z.inj_add, Nat2Z.inj_sub, Z2Nat.id by lia.
    zcase; rewrite u32_small by lia.
    - f_equal. lia.
    - rewrite Zplus_mod_idemp_l. replace (Z.of_nat (length h `min` 256)) with 256 by lia.
      replace (Z.of_nat (length h) + index) with (Z.of_nat (length h) - 256 + index + 1 * 256) by lia.
      by rewrite Z.mod_add. }
  apply Hr; lia.
Qed.

(** ** Theorems *)

(** C28: [klog] appends one message.  For a format that [klog] and [kprintf]
    treat alike ([shared_format]: the directives both know, no null string, no
    zero character), if [kprintf] would print [text] for it, the entry stored holds
    exactly the first 127 characters of [text], padded with zeros, the level
    and the next timestamp; the same characters are printed after the level's
    name, nothing is written past the 128-byte buffers, and the ring then
    holds the last 256 messages. *)
Theorem klog_appends k h lvl format args text c :
  log_rep k h → 0 ≤ lvl < 4 → Z.of_nat (length h) + 1 < 4294967296 →
  shared_format format args = true → kprintf_text format args = Some text → nonzero text →
  ∃ k' name, level_names !! Z.to_nat lvl = Some name ∧
    klog lvl format args (IO k c) = Some ((), IO k' (c ++ name ++ str " " ++ cut text ++ [10])) ∧
    log_rep k' (h ++ [LogEntry lvl (pad128 (cut text)) (Z.of_nat (length h))]).
Proof. apply klog_run. Qed.

(** [klog_get_entry] numbers the messages in the ring from the oldest one:
    it returns [NULL] exactly for a number not below the smaller of 256 and
    the number of messages logged, and otherwise the message of that number
    among the last 256. *)
Theorem klog_get_entry_recent k h index :
  log_rep k h → 0 ≤ index < 4294967296 →
  let size := (length h `min` 256)%nat in
  klog_get_entry index k =
  Some (if index <? Z.of_nat size then h !! (length h - size + Z.to_nat index)%nat else None, k).
Proof.
  intros Hrep Hi size. unfold klog_get_entry. rewrite bind_run. cbn [get]. rewrite (log_size_rep k h Hrep). fold size.
  rewrite Z.geb_leb. destruct (Z.ltb_spec index (Z.of_nat size)), (Z.leb_spec (Z.of_nat size) index);
    [lia| |done|lia].
  unfold size in *. rewrite (ring_lookup k h index Hrep) by lia. rewrite bind_run.
  destruct (lookup_lt_is_Some_2 h (length h - length h `min` 256 + Z.to_nat index)) as (e & ->); [lia|]. done.
Qed.

(** ** Examples *)

Definition empty_log : klog_t := Klog (replicate 256 zero_log_entry) 0 0 0.

Lemma empty_log_rep : log_rep empty_log [].
Proof.
  split; try done.
  - by apply Forall_replicate.
  - intros i Hi. cbn in Hi. lia.
Qed.

Definition demo_args : list va := [VStr (Some (str "hello" ++ [0])); VInt 0x8048000].

Lemma klog_appends_witness :
  ∃ k', klog KLOG_INFO (str "ELF: loading '%s' entry=0x%x" ++ [0]) demo_args (IO empty_log []) =
          Some ((), IO k' (str "[INFO]  ELF: loading 'hello' entry=0x8048000" ++ [10])) ∧
        log_rep k' [LogEntry KLOG_INFO (pad128 (str "ELF: loading 'hello' entry=0x8048000")) 0].
Proof.
  destruct (klog_appends empty_log [] KLOG_INFO (str "ELF: loading '%s' entry=0x%x" ++ [0]) demo_args
    (str "ELF: loading 'hello' entry=0x8048000") []) as (k' & name & En & E & Hrep);
    [apply empty_log_rep|done|done|vm_compute; reflexivity|vm_compute; reflexivity| |].
  - apply (bool_decide_unpack _). vm_compute. exact I.
  - injection En as <-. exists k'. split; [exact E|exact Hrep].
Defined.

(** The log after one message. *)
Definition demo_entry : klog_entry := LogEntry KLOG_INFO (pad128 (str "hello")) 0.
Definition demo_log : klog_t := Klog (<[0%nat := demo_entry]> (replicate 256 zero_log_entry)) 1 1 1.

Lemma klog_get_entry_recent_witness :
  klog_get_entry 0 demo_log = Some (Some demo_entry, demo_log) ∧
  klog_get_entry 1 demo_log = Some (None, demo_log).
Proof.
  assert (log_rep demo_log [demo_entry]) as Hrep by (apply (log_rep_snoc empty_log []); [apply empty_log_rep|done|done]).
  split; [apply (klog_get_entry_recent demo_log [demo_entry] 0 Hrep)|
          apply (klog_get_entry_recent demo_log [demo_entry] 1 Hrep)]; lia.
Defined.
