(* ===== verification/Elf.v ===== *)
(** * kernel/exec/elf.c: the ELF32 loader

    The loader reads the file from memory, clones an address space, copies
    the loadable segments into fresh frames, prepares the user stack and
    spawns a ring-3 task.  The file buffer is a pointer into the same memory
    the loader writes to, so nothing is assumed about overlap: the code that
    needs it is proved to need it. *)

From S2P Require Import Prelude KString KStdio Console Pmm Memory Kmalloc Paging AddrSpace Sched Task.
From S2P Require Import KPrintf Block SimpleFS Klog.

Open Scope Z_scope.
Open Scope c_scope.

(** ** Format (elf.h) *)

Definition EI_NIDENT : Z := 16.
Definition ELFMAG0 : Z := 0x7f.
Definition ELFMAG1 : Z := 69.
Definition ELFMAG2 : Z := 76.
Definition ELFMAG3 : Z := 70.
Definition ELFCLASS32 : Z := 1.
Definition ELFDATA2LSB : Z := 1.
Definition ET_EXEC : Z := 2.
Definition EM_386 : Z := 3.
Definition PT_LOAD : Z := 1.
Definition PF_W : Z := 2.
Definition ELF_MAX_FILE_SIZE : Z := 256 * 1024.

Record elf32_ehdr := Ehdr {
  e_ident : list Z;
  e_type : Z;
  e_machine : Z;
  e_version : Z;
  e_entry : Z;
  e_phoff : Z;
  e_shoff : Z;
  e_flags : Z;
  e_ehsize : Z;
  e_phentsize : Z;
  e_phnum : Z;
  e_shentsize : Z;
  e_shnum : Z;
  e_shstrndx : Z
}.
Definition sizeof_ehdr : Z := 52.

Record elf32_phdr := Phdr {
  p_type : Z;
  p_offset : Z;
  p_vaddr : Z;
  p_paddr : Z;
  p_filesz : Z;
  p_memsz : Z;
  p_flags : Z;
  p_align : Z
}.
Definition sizeof_phdr : Z := 32.

(** The packed structures at an address. *)
Definition ehdr_at (m : mem) (p : Z) : elf32_ehdr :=
  Ehdr (mem_get m p 16) (load16 m (p + 16)) (load16 m (p + 18)) (load32 m (p + 20)) (load32 m (p + 24))
       (load32 m (p + 28)) (load32 m (p + 32)) (load32 m (p + 36)) (load16 m (p + 40)) (load16 m (p + 42))
       (load16 m (p + 44)) (load16 m (p + 46)) (load16 m (p + 48)) (load16 m (p + 50)).

Definition phdr_at (m : mem) (p : Z) : elf32_phdr :=
  Phdr (load32 m p) (load32 m (p + 4)) (load32 m (p + 8)) (load32 m (p + 12)) (load32 m (p + 16))
       (load32 m (p + 20)) (load32 m (p + 24)) (load32 m (p + 28)).

(** ** Validation *)

(** [ph_end], computed in 32 bits. *)
Definition ph_end (e : elf32_ehdr) : Z := e_phoff e +! e_phnum e *! e_phentsize e.

Definition elf_validate (m : mem) (buf size : Z) : Z :=
  if (buf =? 0) || (size <? sizeof_ehdr) then -1
  else
    let ehdr := ehdr_at m buf in
    let ident i := nth i (e_ident ehdr) 0 in
    if negb (ident 0%nat =? ELFMAG0) || negb (ident 1%nat =? ELFMAG1)
       || negb (ident 2%nat =? ELFMAG2) || negb (ident 3%nat =? ELFMAG3) then -1
    else if negb (ident 4%nat =? ELFCLASS32) then -1
    else if negb (ident 5%nat =? ELFDATA2LSB) then -1
    else if negb (e_type ehdr =? ET_EXEC) then -1
    else if negb (e_machine ehdr =? EM_386) then -1
    else if (e_phoff ehdr =? 0) || (e_phnum ehdr =? 0) then -1
    else if e_phentsize ehdr <? sizeof_phdr then -1
    else if ph_end ehdr >? size then -1
    else if e_entry ehdr =? 0 then -1
    else 0.

(** ** The kernel the loader runs in *)

Record kernel (D : Type) := Kernel { k_os : os; k_log : klog_t; k_fs : fs D }.
Arguments Kernel {D} _ _ _.
Arguments k_os {D} _.
Arguments k_log {D} _.
Arguments k_fs {D} _.

Section loader.
Context {D : Type} `{BlockDev D}.

Definition os_op {A} (c : M (io os) A) : M (io (kernel D)) A :=
  zoom_io k_os (λ o k, Kernel o (k_log k) (k_fs k)) c.
Definition mem_op {A} (c : M mem A) : M (io (kernel D)) A :=
  os_op (quiet (zoom (λ s, ram (vmem s)) (λ m s, set_vmem (upd_ram (λ _, m) (vmem s)) s) c)).
Definition log_op {A} (c : M (io klog_t) A) : M (io (kernel D)) A :=
  zoom_io k_log (λ l k, Kernel (k_os k) l (k_fs k)) c.
Definition fs_op {A} (c : M (fs D) A) : M (io (kernel D)) A :=
  quiet (zoom k_fs (λ f k, Kernel (k_os k) (k_log k) f) c).
Definition vmem_op {A} (c : M (io vm) A) : M (io (kernel D)) A := os_op (vm_op c).

(** A string literal used as a format. *)
Definition lit (s : string) : list Z := str s ++ [0].

(** ** Segments *)

(** The part of the page at [vpage] that comes from the file: where it
    starts and ends, as virtual addresses. *)
Definition copy_range (ph : elf32_phdr) (vpage : Z) : Z * Z :=
  let page_start := vpage in
  let page_end := vpage +! PAGE_SIZE in
  let file_va_start := p_vaddr ph in
  let file_va_end := p_vaddr ph +! p_filesz ph in
  (if file_va_start >? page_start then file_va_start else page_start,
   if file_va_end <? page_end then file_va_end else page_end).

(** One round of the page loop; [Some r] is the [return r].  A source address
    outside the file buffer reads whatever memory holds there; the theorems
    exclude it ([ElfExec.tame]). *)
Definition load_page (file dir : Z) (ph : elf32_phdr) (flags i vpage : Z) : M (io (kernel D)) (option Z) :=
  phys ← vmem_op pmm_alloc;
  if phys =? 0 then
    log_op (klog_error (lit "ELF: out of physical memory mapping segment %d") [VInt i]) ;;
    mret (Some (-1))
  else
    vmem_op (zero_page phys) ;;
    let copy_start := fst (copy_range ph vpage) in
    let copy_end := snd (copy_range ph vpage) in
    (if copy_start <? copy_end then
       let dst_offset := copy_start -! vpage in
       let file_offset := p_offset ph +! (copy_start -! p_vaddr ph) in
       let copy_len := copy_end -! copy_start in
       mem_op (modify (λ m, mem_cpy m (phys +! dst_offset) (file +! file_offset) (Z.to_nat copy_len)))
     else mret ()) ;;
    vmem_op (paging_map_page_in dir vpage phys flags) ;;
    mret None.

Definition seg_start (ph : elf32_phdr) : Z := Z.land (p_vaddr ph) PAGE_FRAME_MASK.
Definition seg_end (ph : elf32_phdr) : Z :=
  Z.land (p_vaddr ph +! p_memsz ph +! PAGE_SIZE -! 1) PAGE_FRAME_MASK.
Definition seg_flags (ph : elf32_phdr) : Z :=
  let flags := Z.lor PAGE_PRESENT PAGE_USER in
  if truth (Z.land (p_flags ph) PF_W) then Z.lor flags PAGE_WRITABLE else flags.

(** The pages from [seg_start] up to [seg_end], both multiples of the page
    size. *)
Definition load_segment (file size dir : Z) (i : Z) (ph : elf32_phdr) : M (io (kernel D)) (option Z) :=
  if negb (p_type ph =? PT_LOAD) then mret None
  else if p_memsz ph =? 0 then mret None
  else if p_filesz ph >? p_memsz ph then mret (Some (-1))
  else if p_offset ph +! p_filesz ph >? size then mret (Some (-1))
  else if p_vaddr ph <? KERNEL_PDE_COUNT * 4 * 1024 * 1024 then
    log_op (klog_error (lit "ELF: segment vaddr 0x%x overlaps kernel") [VInt (p_vaddr ph)]) ;;
    mret (Some (-1))
  else
    for_ret (Z.to_nat ((seg_end ph - seg_start ph) / PAGE_SIZE)) 0 (λ j,
      load_page file dir ph (seg_flags ph) i (seg_start ph + j * PAGE_SIZE)).

Definition load_segments (buf size : Z) (ehdr : elf32_ehdr) (dir : Z) : M (io (kernel D)) Z :=
  r ← for_ret (Z.to_nat (e_phnum ehdr)) 0 (λ i,
        k ← quiet get;
        let p := buf +! e_phoff ehdr +! i *! e_phentsize ehdr in
        load_segment buf size dir i (phdr_at (ram (vmem (k_os k))) p));
  mret (default 0 r).

(** ** Arguments on the user stack *)

Definition ARGV_MAX_TOTAL : Z := PAGE_SIZE - 256.

(** Step 1: the bytes of the first [n] strings with their terminators. *)
Fixpoint total_str (argv : list (list Z)) (n : nat) : option Z :=
  match n, argv with
  | O, _ => Some 0
  | S n', s :: argv' => len ← strlen s; rest ← total_str argv' n'; Some (u32 (len + 1 + rest))
  | S _, [] => None
  end.

(** Step 2: the strings from number [n - 1] down to 0; returns the cursor
    and the virtual addresses of the strings in order. *)
Fixpoint copy_args (argv : list (list Z)) (n : nat) (page_top cursor : Z) (virt_addrs : list Z)
    : M mem (Z * list Z) :=
  match n with
  | O => mret (cursor, virt_addrs)
  | S i =>
      s ← of_option (argv !! i);
      len ← of_option (strlen s);
      let len := len +! 1 in
      let cursor := cursor -! len in
      modify (λ m, mem_put m cursor (take (Z.to_nat len) s)) ;;
      if (64 <=? Z.of_nat i) then fault
      else copy_args argv i page_top cursor ((USER_STACK_TOP -! (page_top -! cursor)) :: virt_addrs)
  end.

(** [*(--slot) = v] for each word. *)
Fixpoint put_down (slot : Z) (vs : list Z) : M mem Z :=
  match vs with
  | [] => mret slot
  | v :: vs' => let slot := slot -! 4 in modify (λ m, store32 m slot v) ;; put_down slot vs'
  end.

(** Steps 2 to 5, once the arguments are known to fit. *)
Definition write_args (ustack_phys : Z) (argv : list (list Z)) (argc : Z) : M mem Z :=
  let page_top := ustack_phys +! PAGE_SIZE in
  r ← copy_args argv (Z.to_nat argc) page_top page_top [];
  let cursor := Z.land (fst r) 0xFFFFFFFC in
  slot ← put_down cursor (0 :: reverse (snd r));
  let argv_virt := USER_STACK_TOP -! (page_top -! slot) in
  slot ← put_down slot [argv_virt; u32 argc];
  mret (USER_STACK_TOP -! (page_top -! slot)).

Definition setup_user_stack_args (ustack_phys : Z) (argv : option (list (list Z))) (argc : Z)
    : M (io (kernel D)) Z :=
  match argv with
  | None => mret USER_STACK_TOP
  | Some argv =>
      if argc <=? 0 then mret USER_STACK_TOP
      else
        total ← of_option (total_str argv (Z.to_nat argc));
        let ptr_space := u32 (argc + 1 + 1 + 1) *! 4 in
        if total +! ptr_space >? ARGV_MAX_TOTAL then
          log_op (klog_error (lit "ELF: argv too large (%u + %u > %u)")
                    [VInt total; VInt ptr_space; VInt ARGV_MAX_TOTAL]) ;;
          mret USER_STACK_TOP
        else mem_op (write_args ustack_phys argv argc)
  end.

(** ** Loading *)

Definition elf_load_internal (sy : symbols) (buf size : Z) (task_name : list Z)
    (argv : option (list (list Z))) (argc : Z) : M (io (kernel D)) ptr :=
  k ← quiet get;
  let m := ram (vmem (k_os k)) in
  if negb (elf_validate m buf size =? 0) then
    log_op (klog_error (lit "ELF: invalid header for '%s'") [VStr (Some task_name)]) ;;
    mret PNull
  else
    let ehdr := ehdr_at m buf in
    log_op (klog_info (lit "ELF: loading '%s' entry=0x%x phnum=%d argc=%d")
      [VStr (Some task_name); VInt (e_entry ehdr); VInt (e_phnum ehdr); VInt argc]) ;;
    dir ← vmem_op paging_clone_directory;
    if dir =? 0 then
      log_op (klog_error (lit "ELF: failed to clone page directory") []) ;;
      mret PNull
    else
      r ← load_segments buf size ehdr dir;
      if negb (r =? 0) then
        log_op (klog_error (lit "ELF: failed to load segments for '%s'") [VStr (Some task_name)]) ;;
        vmem_op (paging_free_directory dir) ;;
        mret PNull
      else
        ustack_phys ← vmem_op pmm_alloc;
        if ustack_phys =? 0 then
          log_op (klog_error (lit "ELF: failed to allocate user stack") []) ;;
          vmem_op (paging_free_directory dir) ;;
          mret PNull
        else
          vmem_op (zero_page ustack_phys) ;;
          vmem_op (paging_map_page_in dir USER_STACK_VIRT ustack_phys USER_FLAGS) ;;
          user_esp ← setup_user_stack_args ustack_phys argv argc;
          k ← quiet get;
          let ehdr := ehdr_at (ram (vmem (k_os k))) buf in
          t ← os_op (task_create_user_mapped sy (e_entry ehdr) task_name dir dir user_esp);
          if bool_decide (t = PNull) then
            log_op (klog_error (lit "ELF: failed to create task for '%s'") [VStr (Some task_name)]) ;;
            vmem_op (paging_free_directory dir) ;;
            mret PNull
          else
            tcb ← os_op (quiet (deref t));
            log_op (klog_info (lit "ELF: spawned task '%s' (tid=%d, entry=0x%x, cr3=0x%x, esp=0x%x)")
              [VStr (Some task_name); VInt (t_id tcb); VInt (e_entry ehdr); VInt dir; VInt user_esp]) ;;
            mret t.

Definition elf_exec (sy : symbols) (filename task_name : option (list Z))
    (argv : option (list (list Z))) (argc : Z) : M (io (kernel D)) ptr :=
  match filename, task_name with
  | Some filename, Some task_name =>
      st ← fs_op (fs_stat (Some filename));
      match st with
      | None =>
          log_op (klog_error (lit "ELF: file '%s' not found") [VStr (Some filename)]) ;;
          mret PNull
      | Some entry =>
          if (e_size entry =? 0) || (e_size entry >? ELF_MAX_FILE_SIZE) then
            log_op (klog_error (lit "ELF: file '%s' size %u invalid (max %u)")
              [VStr (Some filename); VInt (e_size entry); VInt ELF_MAX_FILE_SIZE]) ;;
            mret PNull
          else
            buf ← mem_op (kmalloc (e_size entry));
            if buf =? 0 then
              log_op (klog_error (lit "ELF: failed to allocate %u bytes for '%s'")
                [VInt (e_size entry); VStr (Some filename)]) ;;
              mret PNull
            else
              r ← fs_op (fs_read_file (Some filename) (e_size entry));
              mem_op (modify (λ m, mem_put m buf (snd r))) ;;
              let bytes_read := fst r in
              if (bytes_read <? 0) || (u32 bytes_read <? sizeof_ehdr) then
                log_op (klog_error (lit "ELF: failed to read '%s' (got %d bytes)")
                  [VStr (Some filename); VInt (u32 bytes_read)]) ;;
                mem_op (kfree buf) ;;
                mret PNull
              else
                t ← elf_load_internal sy buf (u32 bytes_read) task_name argv argc;
                mem_op (kfree buf) ;;
                mret t
      end
  | _, _ => mret PNull
  end.

Definition elf_exec_mem (sy : symbols) (buf size : Z) (task_name : option (list Z))
    (argv : option (list (list Z))) (argc : Z) : M (io (kernel D)) ptr :=
  match task_name with
  | Some task_name =>
      if (buf =? 0) || (size =? 0) then mret PNull
      else elf_load_internal sy buf size task_name argv argc
  | None => mret PNull
  end.
End loader.
