(* ===== verification/ElfSpec.v ===== *)
(** * What the ELF loader guarantees

    The checks of [elf_validate], the layout of the initial user stack, and
    the pages a segment is loaded into. *)

From S2P Require Import Prelude KString KStdio Console Pmm Memory Kmalloc Paging AddrSpace Sched Task.
From S2P Require Import KPrintf Block SimpleFS Klog Elf.

Open Scope Z_scope.
Open Scope c_scope.

(** ** The arguments *)

(** [argv] points to the strings [args]. *)
Definition c_strings (args argv : list (list Z)) : Prop :=
  Forall2 (λ b s, nonzero b ∧ ∃ r, s = b ++ 0 :: r) args argv.

(** The bytes of the strings one after the other, terminators included. *)
Definition packed (args : list (list Z)) : list Z := concat ((λ b, b ++ [0]) <$> args).

Lemma packed_app a b : packed (a ++ b) = packed a ++ packed b.
Proof. unfold packed. by rewrite fmap_app, concat_app. Qed.

Lemma packed_one b : packed [b] = b ++ [0].
Proof. unfold packed. simpl. by rewrite app_nil_r. Qed.

(** Where string [i] starts in them. *)
Definition str_off (args : list (list Z)) (i : nat) : Z := Z.of_nat (length (packed (take i args))).

Lemma str_off_S args i b : args !! i = Some b → str_off args (S i) = str_off args i + Z.of_nat (length b) + 1.
Proof.
  intros Hb. unfold str_off. rewrite (take_S_r _ _ _ Hb), packed_app, packed_one, !length_app. simpl. lia.
Qed.

Lemma str_off_mono args i j : (i ≤ j)%nat → 0 ≤ str_off args i ≤ str_off args j.
Proof.
  intros Hij. unfold str_off. rewrite <- (take_drop i (take j args)), take_take, Nat.min_l by done.
  rewrite packed_app, length_app. lia.
Qed.

Lemma str_off_all args : str_off args (length args) = Z.of_nat (length (packed args)).
Proof. unfold str_off. by rewrite take_ge by lia. Qed.

Lemma packed_bytes args : Forall nonzero args → Forall (λ b, 0 ≤ b < 256) (packed args).
Proof.
  induction 1 as [|b args Hb _ IH]; [constructor|]. change (b :: args) with ([b] ++ args).
  rewrite packed_app, packed_one. apply Forall_app. split; [|done].
  apply Forall_app. split; [|repeat constructor; lia].
  eapply Forall_impl; [|exact Hb]. simpl. intros; lia.
Qed.

Lemma c_strings_lookup args argv i b :
  c_strings args argv → args !! i = Some b → nonzero b ∧ ∃ r, argv !! i = Some (b ++ 0 :: r).
Proof.
  intros HF Hb. destruct (Forall2_lookup_l _ _ _ _ _ HF Hb) as (s & Hs & Hnz & r & ->). eauto.
Qed.

Lemma c_strings_nonzero args argv : c_strings args argv → Forall nonzero args.
Proof. induction 1 as [|b s args argv [Hb _] _ IH]; by constructor. Qed.

(** *** Step 1: the size of the strings *)

Lemma total_str_run args argv :
  c_strings args argv → Z.of_nat (length (packed args)) < 4294967296 →
  total_str argv (length args) = Some (Z.of_nat (length (packed args))).
Proof.
  induction 1 as [|b s args argv [Hb (r & ->)] _ IH]; intros Hsz; [done|].
  change (b :: args) with ([b] ++ args) in *. rewrite packed_app, packed_one, !length_app in *. simpl in Hsz.
  cbn [length total_str Nat.add app]. rewrite (strlen_cstr b r) by (done || lia). cbn [mbind option_bind].
  rewrite IH by lia. cbn [mbind option_bind]. f_equal. rewrite u32_small by lia. simpl. lia.
Qed.

(** *** Step 2: the strings, packed below the cursor *)

Lemma copy_args_run args argv page_top cursor n addrs m :
  c_strings args argv → (n ≤ length args)%nat → (n ≤ 64)%nat →
  0 ≤ page_top - PAGE_SIZE → page_top ≤ 4294967295 →
  page_top - PAGE_SIZE ≤ cursor - str_off args n → cursor ≤ page_top →
  let c' := cursor - str_off args n in
  ∃ m', copy_args argv n page_top cursor addrs m =
    Some (c', ((λ i, USER_STACK_TOP - (page_top - (c' + str_off args i))) <$> seq 0 n) ++ addrs, m') ∧
    ∀ a, load8 m' a =
      if (c' <=? a) && (a <? cursor) then u8 (default 0 (packed (take n args) !! Z.to_nat (a - c')))
      else load8 m a.
Proof.
  intros HF. revert cursor addrs m. induction n as [|n IH]; intros cursor addrs m Hn H64 Hlo Hhi Hroom Hc c'.
  - exists m. assert (c' = cursor) as -> by (unfold c', str_off; change (length _) with 0%nat; lia).
    split; [done|]. intros a. repeat zcase; done.
  - destruct (lookup_lt_is_Some_2 args n ltac:(lia)) as [b Hb].
    destruct (c_strings_lookup _ _ _ _ HF Hb) as [Hnz [r Hr]].
    pose proof (str_off_S _ _ _ Hb) as Hoff. pose proof (str_off_mono args n n ltac:(lia)) as Hpos.
    unfold PAGE_SIZE in *. set (len := Z.of_nat (length b) + 1) in *.
    destruct (IH (cursor - len) ((USER_STACK_TOP - (page_top - (cursor - len))) :: addrs)
                (mem_put m (cursor - len) (b ++ [0]))) as (m' & Em & Hm); [lia..|].
    replace (cursor - len - str_off args n) with c' in * by (unfold c', len in *; lia).
    exists m'. split.
    + cbn [copy_args]. mrun. rewrite Hr, (strlen_cstr b r) by (done || lia).
      rewrite (u32_small (Z.of_nat (length b) + 1)) by lia. fold len.
      rewrite (u32_small (cursor - len)) by lia.
      replace (take (Z.to_nat len) (b ++ 0 :: r)) with (b ++ [0]).
      2:{ replace (Z.to_nat len) with (length b + 1)%nat by (unfold len; lia).
          by rewrite take_app_add. }
      destruct (Z.leb_spec 64 (Z.of_nat n)); [lia|].
      rewrite (u32_small (page_top - (cursor - len))), (u32_small (USER_STACK_TOP - _)) by (unfold USER_STACK_TOP; lia).
      rewrite Em. rewrite seq_S, fmap_app, <- app_assoc. cbn [fmap list_fmap app Nat.add].
      repeat f_equal. unfold c'. lia.
    + intros a. rewrite Hm, load8_mem_put. rewrite (take_S_r _ _ _ Hb), packed_app, packed_one, !length_app.
      simpl length. assert (c' = cursor - len - str_off args n) as Hc' by (unfold c', len in *; lia).
      clearbody c'. unfold str_off in Hc'.
      repeat zcase; try done; cbn [andb]; f_equal; f_equal.
      * by rewrite lookup_app_l by lia.
      * rewrite (lookup_app_r (packed _)) by lia. f_equal. lia.
Qed.

(** *** Step 4: the words below the strings *)

Lemma put_down_run slot vs m :
  4 * Z.of_nat (length vs) ≤ slot ≤ 4294967296 →
  put_down slot vs m = Some (slot - 4 * Z.of_nat (length vs), put_words m slot vs).
Proof.
  revert slot m. induction vs as [|v vs IH]; intros slot m Hs; cbn [put_down put_words length] in *.
  - by replace (slot - 4 * Z.of_nat 0) with slot by lia.
  - mrun. rewrite (u32_small (slot - 4)) by lia. rewrite IH by lia. f_equal. f_equal. lia.
Qed.

Lemma load8_put_words_ne m sp vs a :
  a < sp - 4 * Z.of_nat (length vs) ∨ sp ≤ a → load8 (put_words m sp vs) a = load8 m a.
Proof.
  revert m sp. induction vs as [|v vs IH]; intros m sp Ha; cbn [put_words length] in *; [done|].
  rewrite IH by lia. apply load8_store32_ne. lia.
Qed.

Lemma put_words_app m sp vs ws :
  put_words m sp (vs ++ ws) = put_words (put_words m sp vs) (sp - 4 * Z.of_nat (length vs)) ws.
Proof.
  revert m sp. induction vs as [|v vs IH]; intros m sp; cbn [put_words length app].
  - f_equal. lia.
  - rewrite IH. f_equal. lia.
Qed.

Lemma land_fffc a : 0 ≤ a < 4294967296 → Z.land a 0xFFFFFFFC = a / 4 * 4.
Proof.
  intros Ha. change 0xFFFFFFFC with (Z.ldiff (Z.ones 32) (Z.ones 2)).
  apply Z.bits_inj'. intros i Hi. change 4 with (2 ^ 2).
  rewrite Z.land_spec, Z.ldiff_spec, <- Z.shiftr_div_pow2, <- Z.shiftl_mul_pow2, Z.shiftl_spec by lia.
  rewrite Z.testbit_ones_nonneg, Z.testbit_ones_nonneg by lia.
  destruct (Z.lt_ge_cases i 2).
  - rewrite (Z.testbit_neg_r _ (i - 2)) by lia. destruct (Z.ltb_spec i 2); [|lia]. by rewrite !andb_false_r.
  - rewrite Z.shiftr_spec by lia. replace (i - 2 + 2) with i by lia.
    destruct (Z.ltb_spec i 2); [lia|]. cbn [negb]. rewrite andb_true_r.
    destruct (Z.ltb_spec i 32); [by rewrite andb_true_r|]. by rewrite (testbit_above a 32).
Qed.

(** ** The stack page a new program finds *)

(** What a program reads through its stack page: [v] gives the byte at an
    address of the page. *)
Definition in_page (ustack_phys va : Z) : Z := ustack_phys + (va - USER_STACK_VIRT).

Record args_on_stack (m : mem) (ustack_phys : Z) (args : list (list Z)) (esp : Z) : Prop := {
  as_esp : USER_STACK_VIRT ≤ esp < USER_STACK_TOP ∧ esp mod 4 = 0;
  as_argc : load32 m (in_page ustack_phys esp) = Z.of_nat (length args);
  as_argv : load32 m (in_page ustack_phys (esp + 4)) = esp + 8;
  as_null : load32 m (in_page ustack_phys (esp + 8 + 4 * Z.of_nat (length args))) = 0;
  as_strings : ∀ i b, args !! i = Some b →
    let p := load32 m (in_page ustack_phys (esp + 8 + 4 * Z.of_nat i)) in
    esp + 12 + 4 * Z.of_nat (length args) ≤ p ∧ p + Z.of_nat (length b) < USER_STACK_TOP ∧
    mem_get m (in_page ustack_phys p) (S (length b)) = b ++ [0]
}.

Lemma mem_get_list m p l :
  (∀ k b, l !! k = Some b → load8 m (p + Z.of_nat k) = b) → mem_get m p (length l) = l.
Proof.
  revert p. induction l as [|x l IH]; intros p H; cbn [length mem_get]; [done|]. f_equal.
  - rewrite <- (H 0%nat x eq_refl). f_equal. lia.
  - apply IH. intros k b Hk. rewrite <- (H (S k) b Hk). f_equal. lia.
Qed.

(** String [i] inside the packed strings. *)
Lemma packed_string args i b k x :
  args !! i = Some b → (b ++ [0]) !! k = Some x →
  packed args !! (length (packed (take i args)) + k)%nat = Some x.
Proof.
  intros Hb Hk.
  assert (packed args = packed (take i args) ++ (b ++ [0]) ++ packed (drop (S i) args)) as ->.
  { rewrite <- packed_one, <- !packed_app. f_equal. symmetry. by apply take_drop_middle. }
  rewrite lookup_app_r by lia.
  replace (_ + k - _)%nat with k by lia. by apply lookup_app_l_Some.
Qed.

(** The words [write_args] leaves below the strings, from the top down. *)
Definition stack_table (args : list (list Z)) (page_top c' argv_virt : Z) : list Z :=
  0 :: reverse ((λ i, USER_STACK_TOP - (page_top - (c' + str_off args i))) <$> seq 0 (length args)) ++
  [argv_virt; Z.of_nat (length args)].

Lemma length_stack_table args page_top c' av : length (stack_table args page_top c' av) = (length args + 3)%nat.
Proof. unfold stack_table. cbn [length]. rewrite length_app, length_reverse, length_fmap, length_seq. simpl. lia. Qed.

Lemma stack_table_addr args page_top c' av i :
  (i < length args)%nat →
  stack_table args page_top c' av !! (length args - i)%nat =
  Some (USER_STACK_TOP - (page_top - (c' + str_off args i))).
Proof.
  intros Hi. unfold stack_table. replace (length args - i)%nat with (S (length args - 1 - i)) by lia.
  cbn [lookup list_lookup]. change (?l !! ?i) with (lookup i l). rewrite lookup_app_l.
  - rewrite reverse_lookup by (rewrite length_fmap, length_seq; lia).
    rewrite length_fmap, length_seq. replace (length args - S (length args - 1 - i))%nat with i by lia.
    rewrite list_lookup_fmap, lookup_seq_lt by lia. done.
  - rewrite length_reverse, length_fmap, length_seq. lia.
Qed.

Section stack.
Context (args argv : list (list Z)) (P : Z) (m : mem).
Hypothesis Hargs : c_strings args argv.
Hypothesis Hcount : (0 < length args ≤ 64)%nat.
Hypothesis HP : 0 ≤ P ≤ 4294963199 ∧ P mod 4096 = 0.
Hypothesis Hfit : Z.of_nat (length (packed args)) + 4 * (Z.of_nat (length args) + 3) ≤ ARGV_MAX_TOTAL.

Let top := P + 4096.
Let c' := top - Z.of_nat (length (packed args)).
Let cur := c' / 4 * 4.
Let av := USER_STACK_TOP - (top - (cur - 4 * (Z.of_nat (length args) + 1))).
Let ws := stack_table args top c' av.

Lemma cur_bounds :
  c' - 3 ≤ cur ≤ c' ∧ cur mod 4 = 0 ∧ P + 256 + 4 * (Z.of_nat (length args) + 3) ≤ c' ∧ c' ≤ top ≤ 4294967295.
Proof.
  pose proof (Z.div_mod c' 4). pose proof (Z.mod_pos_bound c' 4).
  unfold ARGV_MAX_TOTAL, PAGE_SIZE in Hfit. unfold cur.
  split_and!; [lia|lia|apply Z.mod_mul; lia|unfold c', top; lia..].
Qed.

Lemma write_args_run :
  ∃ m1, write_args P argv (Z.of_nat (length args)) m =
    Some (av - 8, put_words m1 cur ws) ∧
    ∀ a, load8 m1 a = if (c' <=? a) && (a <? top) then u8 (default 0 (packed args !! Z.to_nat (a - c')))
                      else load8 m a.
Proof.
  pose proof (str_off_all args) as Hoff.
  destruct (copy_args_run args argv top top (length args) [] m) as (m1 & E & Hm);
    [done|lia|lia|unfold top, PAGE_SIZE; lia|unfold top; lia| |lia|].
  { rewrite Hoff. unfold top, ARGV_MAX_TOTAL, PAGE_SIZE in *. lia. }
  rewrite Hoff, take_ge in Hm by lia. rewrite Hoff, app_nil_r in E. fold c' in E, Hm.
  exists m1. split; [|done]. unfold write_args, ARGV_MAX_TOTAL, PAGE_SIZE in *.
  rewrite (u32_small (P + 4096)) by lia. fold top. mrun. rewrite Nat2Z.id, E. cbn [fst snd].
  pose proof cur_bounds.
  rewrite land_fffc by lia. fold cur.
  rewrite put_down_run by (cbn [length]; rewrite length_reverse, length_fmap, length_seq; lia).
  cbn [length]. rewrite length_reverse, length_fmap, length_seq.
  replace (cur - 4 * Z.of_nat (S (length args))) with (cur - 4 * (Z.of_nat (length args) + 1)) by lia.
  assert (top = P + 4096) by done.
  rewrite (u32_small (top - _)), (u32_small (USER_STACK_TOP - _)) by (unfold USER_STACK_TOP; lia). fold av.
  rewrite put_down_run by (cbn [length]; lia). cbn [length].
  rewrite (u32_small (top - _)), (u32_small (USER_STACK_TOP - _)), (u32_small (Z.of_nat _)) by (unfold USER_STACK_TOP; lia).
  f_equal. f_equal; [unfold av; lia|].
  unfold ws, stack_table. rewrite app_comm_cons, put_words_app. cbn [length].
  rewrite length_reverse, length_fmap, length_seq. f_equal. lia.
Qed.

Lemma ws_words : Forall word32 ws.
Proof.
  pose proof cur_bounds. assert (top = P + 4096) by done. unfold ws, stack_table, word32.
  constructor; [lia|]. apply Forall_app. split.
  - apply Forall_reverse, Forall_fmap, Forall_forall. intros i Hi. apply in_seq in Hi. simpl.
    pose proof (str_off_mono args i (length args) ltac:(lia)) as Hi'.
    rewrite str_off_all in Hi'. unfold c', USER_STACK_TOP in *. lia.
  - repeat constructor; unfold av, USER_STACK_TOP; lia.
Qed.

(** The word at [esp + 4 * j]. *)
Lemma stack_word m1 j x :
  ws !! (length args + 2 - j)%nat = Some x → (j ≤ length args + 2)%nat →
  load32 (put_words m1 cur ws) (in_page P (av - 8 + 4 * Z.of_nat j)) = x.
Proof.
  intros Hx Hj. rewrite <- (load32_put_words m1 cur ws _ x ws_words Hx). f_equal.
  unfold in_page, av, top, USER_STACK_TOP, USER_STACK_VIRT. lia.
Qed.

Lemma write_args_layout m1 :
  (∀ a, load8 m1 a = if (c' <=? a) && (a <? top) then u8 (default 0 (packed args !! Z.to_nat (a - c')))
                     else load8 m a) →
  args_on_stack (put_words m1 cur ws) P args (av - 8) ∧
  ∀ a, a < P ∨ P + PAGE_SIZE ≤ a → load8 (put_words m1 cur ws) a = load8 m a.
Proof.
  intros Hm. pose proof cur_bounds as (Hcur & Hmod & Hlow & Htop). assert (top = P + 4096) as HT by done.
  pose proof (length_stack_table args top c' av) as Hws. fold ws in Hws.
  assert (∀ i, (i < length args)%nat →
    load32 (put_words m1 cur ws) (in_page P (av - 8 + 8 + 4 * Z.of_nat i)) =
    USER_STACK_TOP - (top - (c' + str_off args i))) as Haddr.
  { intros i Hi. replace (av - 8 + 8 + 4 * Z.of_nat i) with (av - 8 + 4 * Z.of_nat (i + 2)) by lia.
    apply stack_word; [|lia]. replace (_ + 2 - (i + 2))%nat with (length args - i)%nat by lia.
    by apply stack_table_addr. }
  assert (ws !! (length args + 1)%nat = Some av ∧ ws !! (length args + 2)%nat = Some (Z.of_nat (length args))) as [Hav Hac].
  { unfold ws, stack_table. rewrite app_comm_cons.
    split; (rewrite lookup_app_r; cbn [length]; rewrite length_reverse, length_fmap, length_seq; [|lia]).
    - by replace (_ - _)%nat with 0%nat by lia.
    - by replace (_ - _)%nat with 1%nat by lia. }
  split; [split|].
  - split; [unfold av, USER_STACK_TOP, USER_STACK_VIRT in *; lia|].
    unfold av, USER_STACK_TOP. apply Z.mod_divide; [lia|]. apply Z.mod_divide in Hmod; [|lia].
    destruct Hmod as [q Hq]. assert (P mod 4 = 0) as HP4.
    { destruct HP as [_ HP']. apply Z.mod_divide in HP'; [|lia]. destruct HP' as [r ->].
      apply Z.mod_divide; [lia|]. exists (r * 1024). lia. }
    apply Z.mod_divide in HP4 as [r Hr]; [|lia].
    exists (0x30000000 - r - 1024 + q - Z.of_nat (length args) - 1 - 2). lia.
  - rewrite <- (stack_word m1 0 (Z.of_nat (length args))); [f_equal; f_equal; lia| |lia].
    by rewrite Nat.sub_0_r.
  - replace (av - 8 + 4) with (av - 8 + 4 * Z.of_nat 1) by lia. rewrite (stack_word m1 1 av); [lia| |lia]. replace (_ + 2 - 1)%nat with (length args + 1)%nat by lia. done.
  - replace (av - 8 + 8 + _) with (av - 8 + 4 * Z.of_nat (length args + 2)) by lia.
    apply stack_word; [|lia]. by rewrite Nat.sub_diag.
  - intros i b Hb. cbv zeta. pose proof (lookup_lt_Some _ _ _ Hb) as Hi. rewrite Haddr by done.
    pose proof (str_off_S _ _ _ Hb) as HS. pose proof (str_off_mono args (S i) (length args) ltac:(lia)) as Hend.
    pose proof (str_off_mono args 0 i ltac:(lia)) as H0.
    rewrite str_off_all in Hend.
    split_and!; [unfold av; lia|unfold c' in *; lia|].
    replace (S (length b)) with (length (b ++ [0])) by (rewrite length_app; simpl; lia).
    apply mem_get_list. intros k x Hk. pose proof (lookup_lt_Some _ _ _ Hk) as Hkl.
    rewrite length_app in Hkl. simpl in Hkl.
    replace (in_page P _ + Z.of_nat k) with (c' + str_off args i + Z.of_nat k)
      by (unfold in_page, USER_STACK_TOP, USER_STACK_VIRT; lia).
    rewrite load8_put_words_ne, Hm by lia. repeat zcase. cbn [andb].
    replace (Z.to_nat _) with (length (packed (take i args)) + k)%nat by (unfold str_off; lia).
    pose proof (packed_string _ _ _ _ _ Hb Hk) as Hx. rewrite Hx. apply u8_small.
    eapply Forall_lookup in Hx; [|by eapply packed_bytes, c_strings_nonzero]. done.
  - intros a Ha. unfold PAGE_SIZE in Ha. rewrite load8_put_words_ne, Hm by lia. repeat zcase; done.
Qed.
End stack.

(** ** Lifting to the kernel *)

Section lifting.
Context {D : Type}.

(** The kernel with other memory contents. *)
Definition with_ram (m : mem) (k : kernel D) : kernel D :=
  Kernel (set_vmem (upd_ram (λ _, m) (vmem (k_os k))) (k_os k)) (k_log k) (k_fs k).
Definition kram (k : kernel D) : mem := ram (vmem (k_os k)).

Lemma mem_op_run {A} (f : M mem A) (k : kernel D) c a m :
  f (kram k) = Some (a, m) → mem_op f (IO k c) = Some (a, IO (with_ram m k) c).
Proof.
  intros E. unfold mem_op, os_op, zoom_io, quiet, zoom. cbn [st con]. unfold kram in E. by rewrite E.
Qed.

(** The arguments that reach the program: one to 64 of them, with strings,
    pointers and the two words of the frame in a page less 256 bytes. *)
Definition args_size (args : list (list Z)) : Z := Z.of_nat (length (packed args)) + 4 * (Z.of_nat (length args) + 3).
Definition args_fit (args : list (list Z)) : Prop := (0 < length args ≤ 64)%nat ∧ args_size args ≤ ARGV_MAX_TOTAL.

(** Those the code handles at all: more than 64 that fit overrun an array. *)
Definition args_ok (args : list (list Z)) : Prop :=
  ((length args ≤ 64)%nat ∨ ARGV_MAX_TOTAL < args_size args) ∧ args_size args < 4294967296.

#[export] Instance args_fit_dec args : Decision (args_fit args).
Proof. unfold args_fit. apply _. Defined.

Lemma setup_args_run (k : kernel D) c ustack_phys args argv :
  c_strings args argv → (0 < length args ≤ 64)%nat →
  0 ≤ ustack_phys ≤ 4294963199 → ustack_phys mod 4096 = 0 →
  Z.of_nat (length (packed args)) + 4 * (Z.of_nat (length args) + 3) ≤ ARGV_MAX_TOTAL →
  ∃ esp m', setup_user_stack_args ustack_phys (Some argv) (Z.of_nat (length args)) (IO k c) =
      Some (esp, IO (with_ram m' k) c) ∧
    args_on_stack m' ustack_phys args esp ∧
    ∀ a, a < ustack_phys ∨ ustack_phys + PAGE_SIZE ≤ a → load8 m' a = load8 (kram k) a.
Proof.
  intros Hargs Hcount HP HP' Hfit.
  assert (Z.of_nat (length (packed args)) + 4 * (Z.of_nat (length args) + 3) ≤ 3840) as Hsz by exact Hfit.
  destruct (write_args_run args argv ustack_phys (kram k)) as (m1 & E & Hm); [done..|].
  destruct (write_args_layout args argv ustack_phys (kram k) Hargs Hcount (conj HP HP') Hfit m1 Hm) as [Hl Ho].
  eexists _, _. split; [|split; [exact Hl|exact Ho]].
  unfold setup_user_stack_args. destruct (Z.leb_spec (Z.of_nat (length args)) 0); [lia|].
  rewrite bind_run, Nat2Z.id, (total_str_run _ _ Hargs) by lia. cbn [of_option].
  rewrite (u32_small (_ + 1 + 1 + 1)), (u32_small (_ * 4)), (u32_small (_ + _ * 4)) by lia.
  rewrite Z.gtb_ltb. destruct (Z.ltb_spec ARGV_MAX_TOTAL
    (Z.of_nat (length (packed args)) + (Z.of_nat (length args) + 1 + 1 + 1) * 4)); [lia|].
  by apply mem_op_run.
Qed.

End lifting.

(** ** Validation *)

Lemma elf_validate_facts m buf size :
  elf_validate m buf size = 0 →
  let e := ehdr_at m buf in
  buf ≠ 0 ∧ sizeof_ehdr ≤ size ∧
  take 6 (e_ident e) = [ELFMAG0; ELFMAG1; ELFMAG2; ELFMAG3; ELFCLASS32; ELFDATA2LSB] ∧
  e_type e = ET_EXEC ∧ e_machine e = EM_386 ∧ e_entry e ≠ 0 ∧ 0 < e_phnum e ∧
  (e_phoff e + e_phnum e * e_phentsize e < 4294967296 →
   ∀ i, 0 ≤ i < e_phnum e →
     0 < e_phoff e + i * e_phentsize e ∧
     e_phoff e + i * e_phentsize e + sizeof_phdr ≤ e_phoff e + (i + 1) * e_phentsize e ≤ size).
Proof.
  unfold elf_validate. set (e := ehdr_at m buf).
  repeat match goal with
  | |- (if ?b then -1 else _) = 0 → _ => let E := fresh "E" in destruct b eqn:E; [done|]
  end.
  intros _. repeat match goal with H : (_ || _) = false |- _ => apply orb_false_iff in H as [? ?] end.
  repeat match goal with H : negb _ = false |- _ => apply negb_false_iff, Z.eqb_eq in H end.
  repeat match goal with
  | H : (_ <? _) = false |- _ => apply Z.ltb_ge in H
  | H : (_ >? _) = false |- _ => rewrite Z.gtb_ltb in H; apply Z.ltb_ge in H
  | H : (_ =? _) = false |- _ => apply Z.eqb_neq in H
  end.
  assert (0 ≤ e_phoff e ∧ 0 ≤ e_phnum e ∧ 0 ≤ e_phentsize e) as (? & ? & ?).
  { unfold e, ehdr_at. cbn [e_phoff e_phnum e_phentsize]. unfold load16.
    pose proof (load32_bound m (buf + 28)). pose proof (load8_bound m (buf + 44)). pose proof (load8_bound m (buf + 44 + 1)).
    pose proof (load8_bound m (buf + 42)). pose proof (load8_bound m (buf + 42 + 1)). lia. }
  split_and!; try done; try lia.
  - unfold e in *. cbn [ehdr_at e_ident mem_get nth take] in *. congruence.
  - unfold ph_end in *. intros Hw i Hi. rewrite (u32_small (e_phnum e * e_phentsize e)), u32_small in * by nia.
    unfold sizeof_phdr in *. nia.
Qed.

(** C30: An image that [elf_validate] accepts has a header inside the file, the
    ELF magic, class, machine and type the loader supports, a non-zero entry,
    and, when the end of the program header table does not overflow 32 bits,
    every program header inside the file, none of them overlapping the next. *)
Theorem elf_validate_sound m buf size :
  elf_validate m buf size = 0 →
  let e := ehdr_at m buf in
  buf ≠ 0 ∧ sizeof_ehdr ≤ size ∧
  take 6 (e_ident e) = [ELFMAG0; ELFMAG1; ELFMAG2; ELFMAG3; ELFCLASS32; ELFDATA2LSB] ∧
  e_type e = ET_EXEC ∧ e_machine e = EM_386 ∧ e_entry e ≠ 0 ∧ 0 < e_phnum e ∧
  (e_phoff e + e_phnum e * e_phentsize e < 4294967296 →
   ∀ i, 0 ≤ i < e_phnum e →
     0 < e_phoff e + i * e_phentsize e ∧
     e_phoff e + i * e_phentsize e + sizeof_phdr ≤ e_phoff e + (i + 1) * e_phentsize e ≤ size).
Proof. apply elf_validate_facts. Qed.

(** An image of bytes at an address. *)
Definition at_addr (p : Z) (bytes : list Z) : mem := mem_put ∅ p bytes.

Definition demo_ehdr (phoff phnum : Z) : list Z :=
  [0x7f; 69; 76; 70; 1; 1; 1; 0] ++ replicate 8 0 ++ [2; 0; 3; 0] ++ [1; 0; 0; 0] ++ [0; 0; 0x40; 0] ++
  [u8 phoff; u8 (phoff / 256); u8 (phoff / 65536); u8 (phoff / 16777216)] ++ replicate 8 0 ++
  [52; 0; 32; 0; phnum; 0; 0; 0; 0; 0; 0; 0].

Lemma elf_validate_sound_witness :
  let e := ehdr_at (at_addr 0x200000 (demo_ehdr 52 1)) 0x200000 in
  e_phoff e + 0 * e_phentsize e + sizeof_phdr ≤ 84.
Proof.
  destruct (elf_validate_sound (at_addr 0x200000 (demo_ehdr 52 1)) 0x200000 84) as (_ & _ & _ & _ & _ & _ & _ & H);
    [vm_compute; reflexivity|].
  destruct (H ltac:(vm_compute; reflexivity) 0) as [_ [H1 H2]]; [vm_compute; split; done|].
  etransitivity; [exact H1|exact H2].
Defined.

(** The end of the program header table is computed in 32 bits: an image of
    52 bytes whose table lies 32 bytes before the buffer is accepted. *)
Theorem elf_validate_wraps :
  let m := at_addr 0x200000 (demo_ehdr 0xFFFFFFE0 1) in
  elf_validate m 0x200000 52 = 0 ∧ 0x200000 +! e_phoff (ehdr_at m 0x200000) = 0x200000 - 32.
Proof. split; vm_compute; reflexivity. Qed.

(** ** Example *)

Definition demo_kernel : kernel () :=
  Kernel idle_os (Klog (replicate 256 zero_log_entry) 0 0 0) (Fs None (Superblock 0 0 0 0 0 0 0 0 []) []).
