(* ===== verification/ElfLoad.v ===== *)
(** * Loading a segment

    After [load_segment] the new process sees the segment: at every address
    of its pages the byte of the file, or zero outside the file's part.  The
    loader works on the frames themselves; the argument is that the frames of
    the pages are never page tables, so neither later pages nor new tables
    overwrite what has been loaded. *)

From S2P Require Import Prelude KString KStdio Console Pmm Memory Kmalloc Paging AddrSpace Sched Task.
From S2P Require Import KPrintf Block SimpleFS Klog Elf ElfSpec.

Open Scope Z_scope.
Open Scope c_scope.

(** ** Data frames *)

(** A frame in use that is no table of the kernel or of the directory. *)
Record data_frame (s : vm) (dir f : Z) : Prop := {
  df_used : frame_used (frames s) f;
  df_kernel : ¬ kernel_page s f;
  df_dir : f ≠ dir;
  df_table : ∀ i, private i → present (entry (ram s) dir i) = true → PAGE_FRAME (entry (ram s) dir i) ≠ f
}.

Lemma frame_bytes m m' f :
  (∀ j, idx j → entry m' f j = entry m f j) → ∀ o, 0 ≤ o < 4096 → load8 m' (f + o) = load8 m (f + o).
Proof.
  intros H o Ho. pose proof (Z.div_mod o 4). pose proof (Z.mod_pos_bound o 4).
  assert (idx (o / 4)) as Hi by (split; [apply Z.div_pos; lia|apply Z.div_lt_upper_bound; lia]).
  replace (f + o) with (f + 4 * (o / 4) + o mod 4) by lia. apply load8_word; [|lia]. exact (H _ Hi).
Qed.

(** Two states in which the frames in use before hold the same words. *)
Record extends (s s' : vm) : Prop := {
  ex_dir : kernel_directory s' = kernel_directory s;
  ex_tables : pd_tables s' = pd_tables s;
  ex_cpu : cr3 s' = cr3 s ∧ pd_physical_address s' = pd_physical_address s;
  ex_pmm : pmm_inv (IO (frames s') []);
  ex_used : ∀ t, frame_used (frames s) t → frame_used (frames s') t;
  ex_entry : ∀ t j, frame_used (frames s) t → idx j → entry (ram s') t j = entry (ram s) t j
}.

Section extends.
Context (s s' : vm) (dir : Z) (Hinv : vm_inv s) (Hsp : space s dir) (Hex : extends s s').

Lemma ex_kernel : vm_inv s' ∧ ∀ va, addr32 va → kwalk s' va = kwalk s va.
Proof using Hinv Hex.
  apply kernel_framed; [exact Hinv|apply Hex..| |].
  - intros a Ha. apply (ex_used _ _ Hex), (kernel_page_used s a Hinv Ha).
  - intros t j Ht Hj. apply (ex_entry _ _ Hex); [exact (kernel_page_used s t Hinv Ht)|exact Hj].
Qed.

Lemma ex_kernel_page t : kernel_page s' t ↔ kernel_page s t.
Proof using Hinv Hex.
  unfold kernel_page. rewrite (ex_dir _ _ Hex).
  split; (intros [Hk|(i & Hi & Hp & Hk)]; [by left|right; exists i]);
    rewrite (ex_entry _ _ Hex) in * by (exact Hi || exact (vi_dir _ Hinv)); auto.
Qed.

Lemma ex_dir_entry i : idx i → entry (ram s') dir i = entry (ram s) dir i.
Proof using Hsp Hex. intros Hi. apply (ex_entry _ _ Hex); [exact (proj1 (sp_dir _ _ Hsp))|exact Hi]. Qed.

Lemma ex_space : space s' dir.
Proof using Hinv Hsp Hex.
  split.
  - rewrite ex_kernel_page. destruct (sp_dir _ _ Hsp) as [Hu Hk]. split; [by apply (ex_used _ _ Hex)|exact Hk].
  - intros i Hi e. unfold e. rewrite ex_dir_entry by (by apply private_idx). intros Hp.
    destruct (sp_table _ _ Hsp i Hi Hp) as (H1 & H2 & H3). rewrite ex_kernel_page.
    split_and!; [by apply (ex_used _ _ Hex)|exact H2|exact H3].
  - intros i j Hi Hj e e'. unfold e, e'. rewrite !ex_dir_entry by (by apply private_idx). by apply (sp_inj _ _ Hsp).
  - intros i Hi e. unfold e. rewrite ex_dir_entry by (unfold idx; lia). rewrite ex_kernel_page. by apply (sp_shared _ _ Hsp).
Qed.

Lemma ex_data f : data_frame s dir f → data_frame s' dir f.
Proof using Hinv Hsp Hex.
  intros [H1 H2 H3 H4]. split; [by apply (ex_used _ _ Hex)|by rewrite ex_kernel_page|exact H3|].
  intros i Hi. rewrite ex_dir_entry by (by apply private_idx). by apply H4.
Qed.

Lemma ex_walk va : addr32 va → hw_walk (ram s') dir va = hw_walk (ram s) dir va.
Proof using Hinv Hsp Hex.
  intros Hva. rewrite !hw_walk_bits. cbv zeta. destruct (dir_index va Hva) as [-> Hd], (table_index va) as [-> Ht].
  rewrite ex_dir_entry by exact Hd. set (e := entry (ram s) dir (va / 4194304)).
  destruct (Z.testbit e 0) eqn:E0; [|done]. rewrite <- present_bit in E0.
  assert (frame_used (frames s) (PAGE_FRAME e)) as Hu.
  { assert (private (va / 4194304) ∨ 1 ≤ va / 4194304 < 4) as [Hp|Hsh] by (unfold private; lia).
    - by apply (sp_table _ _ Hsp).
    - apply (kernel_page_used s _ Hinv). by apply (sp_shared _ _ Hsp). }
  by rewrite (ex_entry _ _ Hex).
Qed.
End extends.

(** ** Mapping a page keeps the process's other pages *)

Section mapped.
Context (s s' : vm) (dir d k pte T e' : Z) (fresh : bool).
Context (Hinv : vm_inv s) (Hsp : space s dir) (Hd : private d) (Hk : idx k) (Hpte : addr32 pte).
Context (Hm : mapped_in s s' dir d k pte T e' fresh).

Let HT := mi_T _ _ _ _ _ _ _ _ _ Hinv Hsp Hd Hm.

Lemma mi_kernel_page t : kernel_page s' t ↔ kernel_page s t.
Proof using Hinv Hsp Hd Hm.
  destruct (mi_cpu _ _ _ _ _ _ _ _ _ Hm) as (Hkd & _). unfold kernel_page. rewrite Hkd.
  assert (∀ i, idx i → entry (ram s') (kernel_directory s) i = entry (ram s) (kernel_directory s) i) as He.
  { intros i Hi. apply (mi_kernel_entry _ _ _ _ _ _ _ _ _ Hinv Hsp Hd Hm); [by left|exact Hi]. }
  split; (intros [Hkp|(i & Hi & Hp & Hkp)]; [by left|right; exists i]); rewrite He in * by exact Hi; auto.
Qed.

(** A table of the directory after the change: the new one, or an old one. *)
Lemma mi_table i :
  private i → present (entry (ram s') dir i) = true →
  (i = d ∧ PAGE_FRAME (entry (ram s') dir i) = T) ∨
  (i ≠ d ∧ entry (ram s') dir i = entry (ram s) dir i ∧ PAGE_FRAME (entry (ram s) dir i) ≠ T).
Proof using Hinv Hsp Hd Hm.
  intros Hi. rewrite (mi_dir_entry _ _ _ _ _ _ _ _ _ Hinv Hsp Hd Hm) by (by apply private_idx).
  destruct (mi_new _ _ _ _ _ _ _ _ _ Hm) as (_ & _ & Hf' & _). destruct (mi_old _ _ _ _ _ _ _ _ _ Hm) as [Hold HTo].
  destruct HT as (_ & _ & _ & _ & Hfr). destruct (Z.eqb_spec d i) as [<-|Hne]; [by left|].
  intros Hp. right. split_and!; [congruence|reflexivity|]. intros Heq.
  destruct fresh; cbn [negb] in Hold.
  - apply (Hfr eq_refl (PAGE_FRAME (entry (ram s) dir i))); [|congruence]. by apply (sp_table _ _ Hsp).
  - apply Hne. apply (sp_inj _ _ Hsp); [exact Hd|exact Hi|exact Hold|exact Hp|]. rewrite <- HTo by reflexivity. congruence.
Qed.

Lemma mi_space : space s' dir.
Proof using Hinv Hsp Hd Hm.
  destruct HT as (HTu & HTk & HTd & Hmono & _).
  split.
  - rewrite mi_kernel_page. destruct (sp_dir _ _ Hsp) as [Hu Hkp]. split; [by apply Hmono|exact Hkp].
  - intros i Hi e Hp. unfold e in *. rewrite mi_kernel_page. destruct (mi_table i Hi Hp) as [[_ ->]|(_ & Heq & _)]; [done|].
    rewrite Heq in *. destruct (sp_table _ _ Hsp i Hi Hp) as (H1 & H2 & H3). split_and!; [by apply Hmono|exact H2|exact H3].
  - intros i j Hi Hj ei ej Hpi Hpj. unfold ei, ej in *.
    destruct (mi_table i Hi Hpi) as [[-> ->]|(Hni & Hei & HneT)], (mi_table j Hj Hpj) as [[-> ->]|(Hnj & Hej & HneT')];
      rewrite ?Hei, ?Hej in *; [reflexivity|congruence|congruence|]. by apply (sp_inj _ _ Hsp).
  - intros i Hi e. unfold e. rewrite mi_kernel_page.
    rewrite (mi_dir_entry _ _ _ _ _ _ _ _ _ Hinv Hsp Hd Hm) by (unfold idx; lia).
    destruct (Z.eqb_spec d i); [unfold private in Hd; lia|]. by apply (sp_shared _ _ Hsp).
Qed.

Lemma mi_data f : data_frame s dir f → T ≠ f ∧ data_frame s' dir f.
Proof using Hinv Hsp Hd Hm.
  intros [H1 H2 H3 H4]. destruct HT as (HTu & HTk & HTd & Hmono & Hfr).
  destruct (mi_old _ _ _ _ _ _ _ _ _ Hm) as [Hold HTo].
  assert (T ≠ f) as HTf.
  { destruct fresh; [by apply Hfr|]. rewrite HTo by reflexivity. by apply H4. }
  split; [exact HTf|]. split; [by apply Hmono|by rewrite mi_kernel_page|exact H3|].
  intros i Hi Hp. destruct (mi_table i Hi Hp) as [[_ ->]|(_ & Heq & _)]; [exact HTf|]. rewrite Heq in *. by apply H4.
Qed.

Lemma mi_data_byte f o : data_frame s dir f → 0 ≤ o < 4096 → load8 (ram s') (f + o) = load8 (ram s) (f + o).
Proof using Hinv Hsp Hd Hm.
  intros Hf Ho. destruct (mi_data f Hf) as [HTf _]. apply frame_bytes; [|exact Ho]. intros j Hj.
  apply (mi_other_entry _ _ _ _ _ _ _ _ _ Hinv Hsp Hd Hm); [apply Hf|apply Hf|congruence|exact Hj].
Qed.

(** With user access in the new directory entry, a user page stays one. *)
Lemma mi_user_walk va f w :
  addr32 va → Z.testbit e' 2 = true → (PAGE_DIR_INDEX va =? d) && (PAGE_TABLE_INDEX va =? k) = false →
  hw_walk (ram s) dir va = Some (f, w, true) → ∃ w', hw_walk (ram s') dir va = Some (f, w', true).
Proof using Hinv Hsp Hd Hk Hpte Hm.
  intros Hva Hu Hne. pose proof (mi_walk _ _ _ _ _ _ _ _ _ Hinv Hsp Hd Hk Hpte Hm va Hva) as Hw.
  cbv zeta in Hw. rewrite Hne in Hw. intros E. rewrite E in Hw.
  destruct (hw_walk (ram s') dir va) as [[[f' w'] u']|] eqn:E'; [|done]. subst f'. exists w'. do 2 f_equal.
  rewrite hw_walk_bits in E, E'. cbv zeta in E, E'. destruct (dir_index va Hva) as [Hdi Hdr], (table_index va) as [Hti Htr].
  rewrite Hdi, Hti in *. rewrite (mi_dir_entry _ _ _ _ _ _ _ _ _ Hinv Hsp Hd Hm) in E' by exact Hdr.
  destruct HT as (HTu & HTk & HTd & Hmono & Hfr). destruct (mi_new _ _ _ _ _ _ _ _ _ Hm) as (_ & Hp' & Hf' & _).
  destruct (mi_old _ _ _ _ _ _ _ _ _ Hm) as [Hold HTo]. rewrite present_bit in Hp', Hold.
  rewrite (Z.eqb_sym _ d) in Hne. revert Hne E E'.
  destruct (Z.eqb_spec d (va / 4194304)) as [Hdd|Hnd]; cbn [andb]; intros Hne E E'.
  - rewrite <- Hdd in E. rewrite Hp', Hf', Hu in E'. rewrite (mi_entries _ _ _ _ _ _ _ _ _ Hm) in E' by (exact Htr || apply HTu).
    rewrite Z.eqb_refl, (Z.eqb_sym k), Hne in E'. cbn [andb] in E'. destruct (Z.eqb_spec dir T); [congruence|].
    cbn [andb] in E'. rewrite andb_true_r in E'. rewrite Hold in E. destruct fresh; cbn [negb] in E; [discriminate|].
    rewrite <- HTo in E by reflexivity. destruct (Z.testbit (entry (ram s) T _) 0); [|discriminate].
    injection E as _ _ Eu. injection E' as _ _ <-. by apply andb_true_iff in Eu as [_ ->].
  - set (e := entry (ram s) dir (va / 4194304)) in *. destruct (Z.testbit e 0) eqn:E0; [|discriminate].
    rewrite <- present_bit in E0.
    assert (entry (ram s') (PAGE_FRAME e) ((va / 4096) mod 1024) = entry (ram s) (PAGE_FRAME e) ((va / 4096) mod 1024)) as He.
    { assert (private (va / 4194304) ∨ 1 ≤ va / 4194304 < 4) as [Hpv|Hsh] by (unfold private; lia).
      - assert (present (entry (ram s') dir (va / 4194304)) = true) as Hp2.
        { rewrite (mi_dir_entry _ _ _ _ _ _ _ _ _ Hinv Hsp Hd Hm) by exact Hdr. by destruct (Z.eqb_spec d (va / 4194304)). }
        destruct (mi_table _ Hpv Hp2) as [[? _]|(_ & _ & HneT)]; [congruence|].
        destruct (sp_table _ _ Hsp _ Hpv E0) as (Hu' & _ & Hnd').
        apply (mi_other_entry _ _ _ _ _ _ _ _ _ Hinv Hsp Hd Hm); [exact Hu'|exact Hnd'|exact HneT|exact Htr].
      - apply (mi_kernel_entry _ _ _ _ _ _ _ _ _ Hinv Hsp Hd Hm); [|exact Htr]. exact (sp_shared _ _ Hsp _ Hsh E0). }
    rewrite He in E'. congruence.
Qed.
End mapped.

(** ** The contents of a page *)

Lemma in_page_iff vpage va : aligned vpage → va / PAGE_SIZE = vpage / PAGE_SIZE ↔ vpage ≤ va < vpage + 4096.
Proof.
  unfold aligned, PAGE_SIZE. intros Hal. pose proof (Z.div_mod va 4096). pose proof (Z.div_mod vpage 4096).
  pose proof (Z.mod_pos_bound va 4096). split; intros; [lia|]. symmetry. apply Z.div_unique with (va mod 4096); lia.
Qed.

(** A loadable segment whose arithmetic does not wrap. *)
Record seg_ok (ph : elf32_phdr) : Prop := {
  so_vaddr : 0x1000000 ≤ p_vaddr ph;
  so_sizes : 0 ≤ p_filesz ph ≤ p_memsz ph;
  so_end : p_vaddr ph + p_memsz ph ≤ 0xFFFFF000;
  so_offset : 0 ≤ p_offset ph ∧ p_offset ph + p_filesz ph < 4294967296
}.

(** The byte the program is to find at [va]. *)
Definition seg_byte (ph : elf32_phdr) (file : Z) (m : mem) (va : Z) : Z :=
  if (p_vaddr ph <=? va) && (va <? p_vaddr ph + p_filesz ph)
  then load8 m (file + p_offset ph + (va - p_vaddr ph)) else 0.

(** The memory after the page at [phys] has been cleared and filled. *)
Definition filled (m : mem) (file : Z) (ph : elf32_phdr) (vpage phys : Z) : mem :=
  let m := mem_set m phys 0 4096 in
  let copy_start := fst (copy_range ph vpage) in
  let copy_end := snd (copy_range ph vpage) in
  if copy_start <? copy_end then
    mem_cpy m (phys +! (copy_start -! vpage)) (file +! (p_offset ph +! (copy_start -! p_vaddr ph)))
      (Z.to_nat (copy_end -! copy_start))
  else m.

Lemma copy_range_spec ph vpage :
  seg_ok ph → 0 ≤ vpage → vpage + 4096 < 4294967296 →
  copy_range ph vpage = (Z.max (p_vaddr ph) vpage, Z.min (p_vaddr ph + p_filesz ph) (vpage + 4096)).
Proof.
  intros [H1 H2 H3 H4] Hv Hv'. unfold copy_range, PAGE_SIZE. rewrite !u32_small by lia.
  rewrite Z.gtb_ltb. f_equal; zcase; lia.
Qed.

Lemma filled_bytes m file ph vpage phys a :
  seg_ok ph → 0 ≤ vpage → vpage + 4096 < 4294967296 → aligned phys → 0 ≤ phys → phys + 4096 < 4294967296 →
  0 ≤ file → file + p_offset ph + p_filesz ph < 4294967296 →
  (∀ x, 0 ≤ x < p_filesz ph → (file + p_offset ph + x) / 4096 * 4096 ≠ phys) →
  load8 (filled m file ph vpage phys) a =
  if (phys <=? a) && (a <? phys + 4096) then seg_byte ph file m (vpage + (a - phys)) else load8 m a.
Proof.
  intros Hok Hv Hv' Hal Hp Hp' Hf Hf' Hsrc. unfold filled. rewrite copy_range_spec by done. cbn [fst snd].
  destruct Hok as [H1 H2 H3 H4]. unfold seg_byte.
  set (cs := Z.max (p_vaddr ph) vpage). set (ce := Z.min (p_vaddr ph + p_filesz ph) (vpage + 4096)).
  assert (load8 (mem_set m phys 0 4096) a = if (phys <=? a) && (a <? phys + 4096) then 0 else load8 m a) as Hset
    by (rewrite load8_mem_set; done).
  destruct (Z.ltb_spec cs ce) as [Hlt|Hge].
  2:{ rewrite Hset. destruct ((phys <=? a) && (a <? phys + 4096)) eqn:Ea; [|done].
      apply andb_true_iff in Ea as [Ea1%Z.leb_le Ea2%Z.ltb_lt]. repeat zcase; done. }
  rewrite (u32_small (cs - vpage)), (u32_small (cs - p_vaddr ph)), (u32_small (ce - cs)), (u32_small (p_offset ph + _)),
    !u32_small by (unfold cs, ce in *; lia).
  assert (∀ x, 0 ≤ x < p_filesz ph → file + p_offset ph + x < phys ∨ phys + 4096 ≤ file + p_offset ph + x) as Hout.
  { intros x Hx. specialize (Hsrc x Hx). unfold aligned in Hal. pose proof (Z.div_mod (file + p_offset ph + x) 4096).
    pose proof (Z.mod_pos_bound (file + p_offset ph + x) 4096). pose proof (Z.div_mod phys 4096). nia. }
  pose proof (Hout (cs - p_vaddr ph) ltac:(unfold cs, ce in *; lia)) as Hfirst.
  pose proof (Hout (ce - 1 - p_vaddr ph) ltac:(unfold cs, ce in *; lia)) as Hlast.
  rewrite load8_mem_cpy by (rewrite Z2Nat.id by lia; unfold cs, ce in *; lia). rewrite Z2Nat.id by lia.
  destruct ((phys + (cs - vpage) <=? a) && (a <? phys + (cs - vpage) + (ce - cs))) eqn:Ec.
  - apply andb_true_iff in Ec as [Ec1%Z.leb_le Ec2%Z.ltb_lt].
    pose proof (Hout (vpage + (a - phys) - p_vaddr ph) ltac:(unfold cs, ce in *; lia)) as Ha.
    assert (phys ≤ a < phys + 4096) as Hin by (unfold cs, ce in *; lia).
    rewrite load8_mem_set. repeat zcase; cbn [andb]; try (exfalso; unfold cs, ce in *; lia); f_equal; lia.
  - rewrite Hset. destruct ((phys <=? a) && (a <? phys + 4096)) eqn:Ea; [|done].
    apply andb_true_iff in Ea as [Ea1%Z.leb_le Ea2%Z.ltb_lt]. apply andb_false_iff in Ec as [Ec%Z.leb_gt|Ec%Z.ltb_ge];
      repeat zcase; cbn [andb]; try done; exfalso; unfold cs, ce in *; lia.
Qed.

(** ** One page *)

(** A byte the loader may rely on: it lies in a data frame. *)
Definition safe (s : vm) (dir a : Z) : Prop := data_frame s dir (a / 4096 * 4096).

(** What a process sees: a user page with this byte, in a data frame of the
    allocator's pool. *)
Definition sees (s : vm) (dir va b : Z) : Prop :=
  ∃ f w, hw_walk (ram s) dir va = Some (f, w, true) ∧ data_frame s dir f ∧ PMM_POOL_START ≤ f ∧
    load8 (ram s) (f + va mod 4096) = b.

(** A step of the loader that maps pages of the range from [lo] to [hi]. *)
Record loads (s s' : vm) (dir lo hi : Z) : Prop := {
  ld_inv : vm_inv s';
  ld_cpu : cr3 s' = cr3 s ∧ pd_physical_address s' = pd_physical_address s;
  ld_space : space s' dir;
  ld_kernel : ∀ va, addr32 va → kwalk s' va = kwalk s va;
  ld_data : ∀ f, data_frame s dir f → data_frame s' dir f;
  ld_bytes : ∀ f o, data_frame s dir f → 0 ≤ o < 4096 → load8 (ram s') (f + o) = load8 (ram s) (f + o);
  ld_walk : ∀ va f w, addr32 va → va < lo ∨ hi ≤ va → hw_walk (ram s) dir va = Some (f, w, true) →
    ∃ w', hw_walk (ram s') dir va = Some (f, w', true)
}.

Lemma loads_refl s dir lo hi : vm_inv s → space s dir → loads s s dir lo hi.
Proof. split; eauto. Qed.

Lemma loads_weaken s s' dir lo hi lo' hi' : loads s s' dir lo hi → lo' ≤ lo → hi ≤ hi' → loads s s' dir lo' hi'.
Proof. intros Hl H1 H2. split; [apply Hl..|]. intros va f w Hva Hout. apply (ld_walk _ _ _ _ _ Hl); [exact Hva|lia]. Qed.

(** Steps one after the other, wherever they map their pages. *)
Lemma loads_seq s1 s2 s3 dir lo hi : loads s1 s2 dir lo hi → loads s2 s3 dir lo hi → loads s1 s3 dir lo hi.
Proof.
  intros H1 H2. destruct (ld_cpu _ _ _ _ _ H1) as [Hc1 Hp1], (ld_cpu _ _ _ _ _ H2) as [Hc2 Hp2].
  split; [apply H2|split; congruence|apply H2| | | |].
  - intros va Hva. rewrite (ld_kernel _ _ _ _ _ H2), (ld_kernel _ _ _ _ _ H1) by done. reflexivity.
  - intros f Hf. by apply (ld_data _ _ _ _ _ H2), (ld_data _ _ _ _ _ H1).
  - intros f o Hf Ho. rewrite (ld_bytes _ _ _ _ _ H2) by (done || by apply (ld_data _ _ _ _ _ H1)).
    by apply (ld_bytes _ _ _ _ _ H1).
  - intros va f w Hva Hout E. destruct (ld_walk _ _ _ _ _ H1 va f w Hva Hout E) as [w1 E1].
    exact (ld_walk _ _ _ _ _ H2 va f w1 Hva Hout E1).
Qed.

Lemma loads_trans s1 s2 s3 dir lo mid hi :
  lo ≤ mid ≤ hi → loads s1 s2 dir lo mid → loads s2 s3 dir mid hi → loads s1 s3 dir lo hi.
Proof. intros Hr H1 H2. apply (loads_seq s1 s2 s3); eapply loads_weaken; (eassumption || lia). Qed.

Lemma loads_sees s s' dir lo hi va b :
  loads s s' dir lo hi → addr32 va → va < lo ∨ hi ≤ va → sees s dir va b → sees s' dir va b.
Proof.
  intros Hl Hva Hout (f & w & E & Hf & Hpool & Hb). destruct (ld_walk _ _ _ _ _ Hl va f w Hva Hout E) as [w' E'].
  exists f, w'. split; [exact E'|]. split; [by apply (ld_data _ _ _ _ _ Hl)|]. split; [exact Hpool|]. rewrite <- Hb.
  apply (ld_bytes _ _ _ _ _ Hl); [exact Hf|]. by apply Z.mod_pos_bound.
Qed.

Lemma loads_safe s s' dir lo hi a :
  loads s s' dir lo hi → safe s dir a → safe s' dir a ∧ load8 (ram s') a = load8 (ram s) a.
Proof.
  intros Hl Ha. split; [by apply (ld_data _ _ _ _ _ Hl)|].
  pose proof (Z.div_mod a 4096). pose proof (Z.mod_pos_bound a 4096).
  replace a with (a / 4096 * 4096 + a mod 4096) by lia. apply (ld_bytes _ _ _ _ _ Hl); [exact Ha|lia].
Qed.

Lemma extends_loads s s' dir lo : vm_inv s → space s dir → extends s s' → loads s s' dir lo lo.
Proof.
  intros Hinv Hsp Hex. destruct (ex_kernel s s' Hinv Hex) as [Hinv' Hw].
  split; [exact Hinv'|exact (ex_cpu _ _ Hex)|exact (ex_space s s' dir Hinv Hsp Hex)|exact Hw| | |].
  - intros f. exact (ex_data s s' dir Hinv Hsp Hex f).
  - intros f o Hf Ho. apply frame_bytes; [|exact Ho]. intros j Hj. apply (ex_entry _ _ Hex); [apply Hf|exact Hj].
  - intros va f w Hva _ E. exists w. by rewrite (ex_walk s s' dir Hinv Hsp Hex).
Qed.

Section page.
Context (s : vm) (dir phys : Z) (p' : pmm_t) (m' : mem).
Context (Hinv : vm_inv s) (Hsp : space s dir) (Hfresh : fresh_page (frames s) phys p') (Hp' : pmm_inv (IO p' [])).
Hypothesis Hm' : ∀ a, a < phys ∨ phys + 4096 ≤ a → load8 m' a = load8 (ram s) a.

(** The state with the new frame taken and written. *)
Let s1 := upd_ram (λ _, m') (set_frames p' s).

Lemma fill_extends : extends s s1.
Proof using Hfresh Hp' Hm'.
  split; [done|done|done|exact Hp'| |].
  - intros t Ht. by destruct (fresh_apart _ _ _ _ Hfresh Ht).
  - intros t j Ht Hj. destruct (fresh_apart _ _ _ _ Hfresh Ht) as [Hne _].
    destruct (aligned_apart phys t (fp_aligned _ _ _ Hfresh) (proj1 Ht) Hne);
      apply load32_ext; intros i Hi; apply Hm'; unfold idx in Hj; lia.
Qed.

Lemma fill_data : data_frame s1 dir phys.
Proof using Hinv Hsp Hfresh Hp' Hm'.
  assert (∀ t, frame_used (frames s) t → phys ≠ t) as Hne by (intros t Ht; by destruct (fresh_apart _ _ _ _ Hfresh Ht)).
  split.
  - exact (proj1 (fresh_frame_used _ _ _ Hfresh)).
  - rewrite (ex_kernel_page s s1 Hinv fill_extends). intros Hk%(kernel_page_used s phys Hinv). by apply Hne in Hk.
  - apply Hne, (sp_dir _ _ Hsp).
  - intros i Hi. rewrite (ex_dir_entry s s1 dir Hsp fill_extends) by (by apply private_idx). intros Hp Heq.
    by apply (Hne (PAGE_FRAME (entry (ram s) dir i))); [apply (sp_table _ _ Hsp i Hi Hp)|].
Qed.
End page.

(** Writing into data frames, those of the set [X]. *)
Section written.
Context (s : vm) (dir : Z) (X : Z → Prop) (m' : mem) (Hinv : vm_inv s) (Hsp : space s dir).
Hypothesis Hx : ∀ x, X x → data_frame s dir x.
Hypothesis Hm' : ∀ a, ¬ X (a / 4096 * 4096) → load8 m' a = load8 (ram s) a.

Let s1 := upd_ram (λ _, m') s.

Lemma wr_byte f o : aligned f → ¬ X f → 0 ≤ o < 4096 → load8 m' (f + o) = load8 (ram s) (f + o).
Proof using Hm'.
  unfold aligned. intros Hal Hne Ho. apply Hm'. pose proof (Z.div_mod f 4096).
  assert ((f + o) / 4096 = f / 4096) as -> by (symmetry; apply Z.div_unique with o; lia).
  by replace (f / 4096 * 4096) with f by lia.
Qed.

Lemma wr_entry t j : frame_used (frames s) t → ¬ X t → idx j → entry m' t j = entry (ram s) t j.
Proof using Hm'.
  intros (Hal & _) Hne Hj. unfold idx in Hj. apply load32_ext. intros i Hi. rewrite <- Z.add_assoc. apply wr_byte; [done..|lia].
Qed.

Lemma wr_kernel_entry t j : kernel_page s t → idx j → entry m' t j = entry (ram s) t j.
Proof using Hinv Hx Hm'.
  intros Ht Hj. apply wr_entry; [by apply (kernel_page_used s t Hinv)| |exact Hj]. intros Hxt. by apply (df_kernel _ _ _ (Hx t Hxt)).
Qed.

Lemma wr_dir_entry i : idx i → entry m' dir i = entry (ram s) dir i.
Proof using Hsp Hx Hm'.
  intros Hi. apply wr_entry; [apply Hsp| |exact Hi]. intros Hxd. by apply (df_dir _ _ _ (Hx dir Hxd)).
Qed.

Lemma wr_kernel : vm_inv s1 ∧ ∀ va, addr32 va → kwalk s1 va = kwalk s va.
Proof using Hinv Hx Hm'.
  apply kernel_framed; [exact Hinv|done|done|apply Hinv| |exact wr_kernel_entry].
  intros a Ha. exact (kernel_page_used s a Hinv Ha).
Qed.

Lemma wr_kernel_page t : kernel_page s1 t ↔ kernel_page s t.
Proof using Hinv Hx Hm'.
  unfold kernel_page. change (kernel_directory s1) with (kernel_directory s). change (ram s1) with m'.
  split; (intros [Hk|(i & Hi & Hp & Hk)]; [by left|right; exists i]);
    rewrite wr_kernel_entry in * by (exact Hi || by left); auto.
Qed.

Lemma wr_space : space s1 dir.
Proof using Hinv Hsp Hx Hm'.
  split; change (ram s1) with m'; change (frames s1) with (frames s).
  - rewrite wr_kernel_page. apply Hsp.
  - intros i Hi e. unfold e. rewrite wr_kernel_page, wr_dir_entry by (by apply private_idx). by apply (sp_table _ _ Hsp).
  - intros i j Hi Hj e e'. unfold e, e'. rewrite !wr_dir_entry by (by apply private_idx). by apply (sp_inj _ _ Hsp).
  - intros i Hi e. unfold e. rewrite wr_kernel_page, wr_dir_entry by (unfold idx; lia). by apply (sp_shared _ _ Hsp).
Qed.

Lemma wr_data f : data_frame s dir f → data_frame s1 dir f.
Proof using Hinv Hsp Hx Hm'.
  intros [H1 H2 H3 H4]. split; [exact H1|by rewrite wr_kernel_page|exact H3|].
  intros i Hi. change (ram s1) with m'. rewrite wr_dir_entry by (by apply private_idx). by apply H4.
Qed.

Lemma wr_walk va : addr32 va → hw_walk m' dir va = hw_walk (ram s) dir va.
Proof using Hinv Hsp Hx Hm'.
  intros Hva. rewrite !hw_walk_bits. cbv zeta. destruct (dir_index va Hva) as [-> Hd], (table_index va) as [-> Ht].
  rewrite wr_dir_entry by exact Hd. set (e := entry (ram s) dir (va / 4194304)).
  destruct (Z.testbit e 0) eqn:E0; [|done]. rewrite <- present_bit in E0.
  assert (private (va / 4194304) ∨ 1 ≤ va / 4194304 < 4) as [Hp|Hsh] by (unfold private; lia).
  - rewrite wr_entry; [done|by apply (sp_table _ _ Hsp)| |exact Ht]. intros Hxe. by apply (df_table _ _ _ (Hx _ Hxe) _ Hp E0).
  - rewrite wr_kernel_entry; [done|by apply (sp_shared _ _ Hsp)|exact Ht].
Qed.

(** Filling frames that have been taken since the state [r]. *)
Lemma wr_loads r lo hi : loads r s dir lo hi → (∀ x, X x → ¬ frame_used (frames r) x) → loads r s1 dir lo hi.
Proof using Hinv Hsp Hx Hm'.
  intros Hl Hnew. destruct wr_kernel as [Hi Hk]. split.
  - exact Hi.
  - exact (ld_cpu _ _ _ _ _ Hl).
  - exact wr_space.
  - intros va Hva. rewrite Hk by exact Hva. by apply (ld_kernel _ _ _ _ _ Hl).
  - intros f Hf. by apply wr_data, (ld_data _ _ _ _ _ Hl).
  - intros f o Hf Ho. rewrite <- (ld_bytes _ _ _ _ _ Hl f o Hf Ho).
    apply wr_byte; [apply (df_used _ _ _ Hf)| |exact Ho]. intros HX. by apply (Hnew f HX), (df_used _ _ _ Hf).
  - intros va f w Hva Hout E. change (ram s1) with m'. rewrite wr_walk by exact Hva. exact (ld_walk _ _ _ _ _ Hl va f w Hva Hout E).
Qed.
End written.

(** What mapping a data frame for the user does. *)
Lemma mapped_loads s s' dir vpage phys flags T e' fresh :
  vm_inv s → space s dir → frame_used (frames s) phys →
  aligned vpage → 0x1000000 ≤ vpage < 4294967296 → addr32 flags → Z.testbit flags 2 = true →
  mapped_in s s' dir (PAGE_DIR_INDEX vpage) (PAGE_TABLE_INDEX vpage) (pte_of phys flags) T e' fresh → Z.testbit e' 2 = true →
  loads s s' dir vpage (vpage + 4096) ∧ used_frames (frames s') ≤ used_frames (frames s) + 1 ∧
  (∀ va, vpage ≤ va < vpage + 4096 → ∃ w, hw_walk (ram s') dir va = Some (phys, w, true)) ∧
  4 ≤ PAGE_DIR_INDEX vpage < 1024 ∧ idx (PAGE_TABLE_INDEX vpage) ∧
  present (pte_of phys flags) = true ∧ PAGE_FRAME (pte_of phys flags) = phys.
Proof.
  intros Hinv Hsp (Hpal & Hpr & _) Hal Hv Hfl Hbit Hm Huser.
  change TOTAL_MEMORY with 16777216 in Hpr.
  assert (addr32 vpage) as Hva by (unfold addr32; lia). assert (addr32 phys) as Hph by (unfold addr32; lia).
  assert (4 ≤ PAGE_DIR_INDEX vpage < 1024) as Hd4.
  { destruct (dir_index vpage Hva) as [-> Hd]. split; [|lia]. apply Z.div_le_lower_bound; lia. }
  assert (private (PAGE_DIR_INDEX vpage)) as Hd by (by right).
  destruct (pte_of_spec phys flags Hph (proj1 Hfl)) as (Hpte & Hp0 & Hpf & Hpk).
  assert (PAGE_FRAME phys = phys) as Hpp.
  { rewrite page_frame by exact Hph. unfold aligned in Hpal. pose proof (Z.div_mod phys 4096). lia. }
  assert (idx (PAGE_TABLE_INDEX vpage)) as Hk by (by destruct (table_index vpage) as [-> ?]).
  destruct (mi_kernel _ _ _ _ _ _ _ _ _ Hinv Hsp Hd Hm) as [Hinv' Hw].
  split_and!; [| | |lia|lia|exact Hk|exact Hp0|by rewrite Hpf].
  - destruct (mi_cpu _ _ _ _ _ _ _ _ _ Hm) as (_ & _ & Hc3 & _ & Hpd).
    split; [exact Hinv'|by split|exact (mi_space _ _ _ _ _ _ _ _ _ Hinv Hsp Hd Hm)|exact Hw| | |].
    + intros f Hdf. exact (proj2 (mi_data _ _ _ _ _ _ _ _ _ Hinv Hsp Hd Hm f Hdf)).
    + exact (mi_data_byte _ _ _ _ _ _ _ _ _ Hinv Hsp Hd Hm).
    + intros va f w Hva' Hout. apply (mi_user_walk _ _ _ _ _ _ _ _ _ Hinv Hsp Hd Hk Hpte Hm); [exact Hva'|exact Huser|].
      rewrite page_eqb by assumption. apply Z.eqb_neq. intros Heq. by apply (in_page_iff vpage va Hal) in Heq; lia.
  - pose proof (mi_frames _ _ _ _ _ _ _ _ _ Hm) as Hfr. destruct fresh; [rewrite (fp_count _ _ _ Hfr); lia|rewrite Hfr; lia].
  - intros va Hin. assert (addr32 va) as Hva' by (unfold addr32, aligned in *; pose proof (Z.div_mod vpage 4096); lia).
    pose proof (mi_walk _ _ _ _ _ _ _ _ _ Hinv Hsp Hd Hk Hpte Hm va Hva') as Hwalk. cbv zeta in Hwalk.
    rewrite page_eqb in Hwalk by assumption. rewrite (proj2 (in_page_iff vpage va Hal) Hin), Z.eqb_refl in Hwalk.
    rewrite Hp0, Hpf, (Hpk 2), Hbit, Huser, Hpp in Hwalk by (done || lia). by eexists.
Qed.

(** Mapping a data frame for the user, while a frame for a table is left. *)
Lemma map_loads s c dir vpage phys flags :
  vm_inv s → space s dir → data_frame s dir phys → used_frames (frames s) < TOTAL_FRAMES →
  aligned vpage → 0x1000000 ≤ vpage < 4294967296 → addr32 flags → Z.testbit flags 2 = true →
  ∃ s', paging_map_page_in dir vpage phys flags (IO s c) = Some ((), IO s' c) ∧
    loads s s' dir vpage (vpage + 4096) ∧ used_frames (frames s') ≤ used_frames (frames s) + 1 ∧
    ∀ va, vpage ≤ va < vpage + 4096 → ∃ w, hw_walk (ram s') dir va = Some (phys, w, true).
Proof.
  intros Hinv Hsp Hf Hcnt Hal Hv Hfl Hbit. pose proof (df_used _ _ _ Hf) as (_ & Hpr & _). change TOTAL_MEMORY with 16777216 in Hpr.
  assert (addr32 vpage) as Hva by (unfold addr32; lia). assert (addr32 phys) as Hph by (unfold addr32; lia).
  assert (private (PAGE_DIR_INDEX vpage)) as Hd.
  { destruct (dir_index vpage Hva) as [-> Hd]. right. split; [|lia]. apply Z.div_le_lower_bound; lia. }
  destruct (map_page_in_run s c dir vpage phys flags Hinv Hsp Hva Hph Hfl Hd)
    as [[_ Hfull]|(s' & T & e' & fresh & E & Hm & Huser)]; [lia|].
  destruct (mapped_loads s s' dir vpage phys flags T e' fresh Hinv Hsp (df_used _ _ _ Hf) Hal Hv Hfl Hbit Hm ltac:(by rewrite Huser, Hbit)) as (Hl & Hu & Hw & _).
  by exists s'.
Qed.

(** ** In the kernel *)

Section kernel.
Context {D : Type} `{BlockDev D}.

Definition kvm (k : kernel D) : vm := vmem (k_os k).
Definition with_vm (s : vm) (k : kernel D) : kernel D := Kernel (set_vmem s (k_os k)) (k_log k) (k_fs k).

Lemma vmem_op_run {A} (f : M (io vm) A) (k : kernel D) s c a s' c' :
  f (IO s c) = Some (a, IO s' c') → vmem_op f (IO (with_vm s k) c) = Some (a, IO (with_vm s' k) c').
Proof. intros E. unfold vmem_op, os_op, vm_op, zoom_io, zoom. cbn [st con with_vm k_os vmem set_vmem]. by rewrite E. Qed.

Lemma vmem_mem_op_run {A} (f : M mem A) (k : kernel D) s c a m' :
  f (ram s) = Some (a, m') → mem_op f (IO (with_vm s k) c) = Some (a, IO (with_vm (upd_ram (λ _, m') s) k) c).
Proof. intros E. rewrite (mem_op_run f _ c a m'); [done|exact E]. Qed.

Lemma filled_fold file ph vpage phys (k : kernel D) s c :
  let copy_start := fst (copy_range ph vpage) in
  let copy_end := snd (copy_range ph vpage) in
  (if copy_start <? copy_end then
     mem_op (modify (λ m, mem_cpy m (phys +! (copy_start -! vpage)) (file +! (p_offset ph +! (copy_start -! p_vaddr ph)))
       (Z.to_nat (copy_end -! copy_start))))
   else mret ()) (IO (with_vm (upd_ram (λ _, mem_set (ram s) phys 0 4096) s) k) c) =
  Some ((), IO (with_vm (upd_ram (λ _, filled (ram s) file ph vpage phys) s) k) c).
Proof.
  intros cs ce. unfold filled. fold cs ce. destruct (cs <? ce); [|done]. by rewrite (vmem_mem_op_run _ k _ c () _ eq_refl).
Qed.

(** What the loader needs of the buffer: it does not reach the end of the
    address space and its frames hold data. *)
Record source_ok (s : vm) (dir file : Z) (ph : elf32_phdr) : Prop := {
  sr_range : 0 ≤ file ∧ file + p_offset ph + p_filesz ph < 4294967296;
  sr_safe : ∀ x, 0 ≤ x < p_filesz ph → safe s dir (file + p_offset ph + x)
}.

Lemma seg_byte_loads s s' dir lo hi file ph va :
  loads s s' dir lo hi → source_ok s dir file ph → seg_byte ph file (ram s') va = seg_byte ph file (ram s) va.
Proof.
  intros Hl Hsrc. unfold seg_byte. destruct ((p_vaddr ph <=? va) && (va <? p_vaddr ph + p_filesz ph)) eqn:E; [|done].
  apply andb_true_iff in E as [E1%Z.leb_le E2%Z.ltb_lt]. apply (loads_safe _ _ _ _ _ _ Hl). apply (sr_safe _ _ _ _ Hsrc). lia.
Qed.

Lemma load_page_run (k : kernel D) s c dir file ph flags i vpage :
  vm_inv s → space s dir → source_ok s dir file ph → seg_ok ph → used_frames (frames s) + 2 ≤ TOTAL_FRAMES →
  aligned vpage → 0x1000000 ≤ vpage → vpage + 4096 < 4294967296 → addr32 flags → Z.testbit flags 2 = true →
  ∃ s', load_page file dir ph flags i vpage (IO (with_vm s k) c) = Some (None, IO (with_vm s' k) c) ∧
    loads s s' dir vpage (vpage + 4096) ∧ used_frames (frames s') ≤ used_frames (frames s) + 2 ∧
    ∀ va, vpage ≤ va < vpage + 4096 → sees s' dir va (seg_byte ph file (ram s) va).
Proof.
  intros Hinv Hsp Hsrc Hok Hcnt Hal Hv Hv' Hfl Hbit. pose proof (sr_range _ _ _ _ Hsrc) as [Hf0 Hf1].
  destruct (alloc_page_fresh (frames s) [] (vi_pmm _ Hinv)) as [(phys & p' & E & Hfr & Hp')|[_ Hall]].
  2:{ apply all_used_count in Hall; [lia|apply (vi_pmm _ Hinv)]. }
  destruct (fresh_frame_used _ _ _ Hfr) as [(Hpal & _) Hpr]. change TOTAL_MEMORY with 16777216 in Hpr.
  assert (∀ a, load8 (filled (ram s) file ph vpage phys) a =
    if (phys <=? a) && (a <? phys + 4096) then seg_byte ph file (ram s) (vpage + (a - phys)) else load8 (ram s) a) as Hbytes.
  { intros a. apply filled_bytes; try done; try lia.
    intros x Hx Heq. pose proof (df_used _ _ _ (sr_safe _ _ _ _ Hsrc x Hx)) as Hu.
    destruct (fresh_apart _ _ _ _ Hfr Hu) as [Hne _]. congruence. }
  set (m' := filled (ram s) file ph vpage phys) in *. set (s1 := upd_ram (λ _, m') (set_frames p' s)).
  assert (∀ a, a < phys ∨ phys + 4096 ≤ a → load8 m' a = load8 (ram s) a) as Hm'.
  { intros a Ha. rewrite Hbytes. repeat zcase; done. }
  pose proof (extends_loads s s1 dir vpage Hinv Hsp (fill_extends s phys p' m' Hfr Hp' Hm')) as Hl1.
  destruct (map_loads s1 c dir vpage phys flags) as (s2 & E2 & Hl2 & Hcnt2 & Hw);
    [apply Hl1|apply Hl1|exact (fill_data s dir phys p' m' Hinv Hsp Hfr Hp' Hm')| |done|lia|done|done|].
  { change (used_frames p' < TOTAL_FRAMES). rewrite (fp_count _ _ _ Hfr). lia. }
  exists s2. split_and!.
  - unfold load_page. mstep (vmem_op_run pmm_alloc k s c _ _ _ (pmm_alloc_run s c _ _ E)).
    destruct (Z.eqb_spec phys 0); [lia|].
    mstep (vmem_op_run (zero_page phys) k (set_frames p' s) c () (upd_ram (λ _, mem_set (ram s) phys 0 4096) (set_frames p' s)) c eq_refl).
    cbv zeta. mstep (filled_fold file ph vpage phys k (set_frames p' s) c).
    by mstep (vmem_op_run _ k _ c _ _ _ E2).
  - apply (loads_trans s s1 s2 dir vpage vpage); [lia|exact Hl1|exact Hl2].
  - etransitivity; [exact Hcnt2|]. change (frames s1) with p'. rewrite (fp_count _ _ _ Hfr). lia.
  - intros va Hva. destruct (Hw va Hva) as [w Ew]. exists phys, w. split; [exact Ew|].
    pose proof (fill_data s dir phys p' m' Hinv Hsp Hfr Hp' Hm') as Hdf.
    split; [exact (ld_data _ _ _ _ _ Hl2 _ Hdf)|]. split; [apply (fp_pool _ _ _ Hfr)|].
    assert (va mod 4096 = va - vpage) as Hmod.
    { apply (in_page_iff vpage va Hal) in Hva. unfold aligned, PAGE_SIZE in *.
      pose proof (Z.div_mod va 4096). pose proof (Z.div_mod vpage 4096). lia. }
    rewrite (ld_bytes _ _ _ _ _ Hl2) by (done || lia). change (ram s1) with m'. rewrite Hbytes, Hmod. repeat zcase.
    cbn [andb]. f_equal. lia.
Qed.
Lemma u32_pred x : u32 (u32 x - 1) = u32 (x - 1).
Proof. apply Zminus_mod_idemp_l. Qed.

(** The pages of a segment. *)
Lemma seg_pages ph :
  seg_ok ph → 0 < p_memsz ph →
  aligned (seg_start ph) ∧ aligned (seg_end ph) ∧
  0x1000000 ≤ seg_start ph ≤ p_vaddr ph ∧ p_vaddr ph + p_memsz ph ≤ seg_end ph ≤ 0xFFFFF000.
Proof.
  intros [H1 H2 H3 H4] Hm. unfold seg_start, seg_end, PAGE_SIZE.
  rewrite (u32_small (p_vaddr ph + _)), u32_pred, (u32_small (_ - 1)) by lia.
  fold (PAGE_FRAME (p_vaddr ph)). fold (PAGE_FRAME (p_vaddr ph + p_memsz ph + 4096 - 1)).
  rewrite !page_frame by lia. unfold aligned. rewrite !Z.mod_mul by lia.
  pose proof (Z.div_mod (p_vaddr ph) 4096). pose proof (Z.mod_pos_bound (p_vaddr ph) 4096).
  pose proof (Z.div_mod (p_vaddr ph + p_memsz ph + 4096 - 1) 4096).
  pose proof (Z.mod_pos_bound (p_vaddr ph + p_memsz ph + 4096 - 1) 4096).
  assert (4096 ≤ p_vaddr ph / 4096) by (apply Z.div_le_lower_bound; lia).
  assert ((p_vaddr ph + p_memsz ph + 4096 - 1) / 4096 < 1048576) by (apply Z.div_lt_upper_bound; lia).
  lia.
Qed.

Lemma seg_flags_user ph : addr32 (seg_flags ph) ∧ Z.testbit (seg_flags ph) 2 = true.
Proof. unfold seg_flags, addr32. destruct (truth _); vm_compute; repeat split; congruence. Qed.

Lemma with_kvm (k : kernel D) : with_vm (kvm k) k = k.
Proof. by destruct k as [[] ? ?]. Qed.

(** A segment that passes the checks is loaded page by page. *)
Lemma load_segment_enter dir file size i ph (t : io (kernel D)) :
  seg_ok ph → p_type ph = PT_LOAD → 0 < p_memsz ph → p_offset ph + p_filesz ph ≤ size →
  load_segment file size dir i ph t = for_ret (Z.to_nat ((seg_end ph - seg_start ph) / PAGE_SIZE)) 0 (λ j,
    load_page file dir ph (seg_flags ph) i (seg_start ph + j * PAGE_SIZE)) t.
Proof.
  intros [Hv Hsz Hend Hoff] Htype Hmem Hsize. unfold load_segment. rewrite Htype, Z.eqb_refl. cbn [negb]. rewrite u32_small by lia.
  rewrite !Z.gtb_ltb. change (KERNEL_PDE_COUNT * 4 * 1024 * 1024) with 0x1000000.
  by destruct (Z.eqb_spec (p_memsz ph) 0), (Z.ltb_spec (p_memsz ph) (p_filesz ph)), (Z.ltb_spec size (p_offset ph + p_filesz ph)),
    (Z.ltb_spec (p_vaddr ph) 0x1000000); try lia.
Qed.

Lemma load_segment_run (k : kernel D) c dir file size i ph :
  vm_inv (kvm k) → space (kvm k) dir → source_ok (kvm k) dir file ph → seg_ok ph →
  p_type ph = PT_LOAD → 0 < p_memsz ph → p_offset ph + p_filesz ph ≤ size →
  used_frames (frames (kvm k)) + 2 * ((seg_end ph - seg_start ph) / PAGE_SIZE) ≤ TOTAL_FRAMES →
  ∃ s', load_segment file size dir i ph (IO k c) = Some (None, IO (with_vm s' k) c) ∧
    loads (kvm k) s' dir (seg_start ph) (seg_end ph) ∧
    used_frames (frames s') ≤ used_frames (frames (kvm k)) + 2 * ((seg_end ph - seg_start ph) / PAGE_SIZE) ∧
    seg_start ph ≤ p_vaddr ph ∧ p_vaddr ph + p_memsz ph ≤ seg_end ph ∧
    ∀ va, seg_start ph ≤ va < seg_end ph → sees s' dir va (seg_byte ph file (kram k) va).
Proof.
  intros Hinv Hsp Hsrc Hok Htype Hmem Hsize Hcnt. destruct (seg_pages ph Hok Hmem) as (Ha1 & Ha2 & Hs & He).
  destruct (seg_flags_user ph) as [Hfl Hbit]. pose proof Hok as [Hv Hsz Hend Hoff].
  set (n := (seg_end ph - seg_start ph) / PAGE_SIZE) in *. set (s0 := kvm k) in *.
  assert (seg_end ph = seg_start ph + n * 4096) as Hn.
  { unfold n, PAGE_SIZE, aligned in *. apply Z.mod_divide in Ha1 as [a ->]; [|done]. apply Z.mod_divide in Ha2 as [b ->]; [|done].
    rewrite <- Z.mul_sub_distr_r, Z.div_mul by done. lia. }
  destruct (for_ret_inv (λ j t, ∃ s', t = IO (with_vm s' k) c ∧ loads s0 s' dir (seg_start ph) (seg_start ph + j * 4096) ∧
      used_frames (frames s') ≤ used_frames (frames s0) + 2 * j ∧
      ∀ va, seg_start ph ≤ va < seg_start ph + j * 4096 → sees s' dir va (seg_byte ph file (ram s0) va))
    (λ _ _, False) (λ j, load_page file dir ph (seg_flags ph) i (seg_start ph + j * PAGE_SIZE)) (Z.to_nat n) 0 (IO k c))
    as [(t & E & s' & -> & Hl & Hused & Hsee)|(_ & _ & _ & [])].
  - intros j t Hj (s' & -> & Hl & Hc & Hsee). left. unfold PAGE_SIZE. set (vp := seg_start ph + j * 4096) in *.
    assert (vp = seg_start ph + j * 4096) as Hvp by done.
    assert (source_ok s' dir file ph) as Hsrc'.
    { split; [apply Hsrc|]. intros x Hx. apply (loads_safe _ _ _ _ _ _ Hl), (sr_safe _ _ _ _ Hsrc x Hx). }
    destruct (load_page_run k s' c dir file ph (seg_flags ph) i vp) as (s2 & E & Hl2 & Hc2 & Hsee2);
      [apply Hl|apply Hl|exact Hsrc'|exact Hok|lia| |lia|lia|exact Hfl|exact Hbit|].
    { unfold aligned, vp in *. by rewrite Z.mod_add. }
    eexists. split; [exact E|]. exists s2. replace (seg_start ph + (j + 1) * 4096) with (vp + 4096) by lia.
    split_and!; [reflexivity|apply (loads_trans s0 s' s2 dir (seg_start ph) vp); [lia|exact Hl|exact Hl2]|lia|].
    intros va Hva. destruct (decide (va < vp)).
    + apply (loads_sees _ _ _ _ _ _ _ Hl2); [unfold addr32; lia|lia|]. apply Hsee. lia.
    + rewrite <- (seg_byte_loads s0 s' dir _ _ file ph va Hl Hsrc). apply Hsee2. lia.
  - exists s0. rewrite Z.mul_0_l, Z.add_0_r. unfold s0. rewrite with_kvm.
    split_and!; [reflexivity|by apply loads_refl|lia|lia].
  - exists s'. rewrite Z.add_0_l, Z2Nat.id, <- Hn in Hl, Hsee by lia. rewrite Z.add_0_l, Z2Nat.id in Hused by lia.
    split_and!; [|exact Hl|exact Hused|lia|lia|exact Hsee].
    rewrite <- E. by apply load_segment_enter.
Qed.

(** Loading a segment.  With frames for its pages and their tables, a
    well-formed loadable segment whose file bytes lie outside the page tables
    is loaded without an error: at every address of its pages the process
    sees, with user access, the byte of the file, or zero where the file has
    none (the rest of the pages, the bss included); every other page the
    process had keeps its frame and contents, no frame holding data changes,
    and the kernel's own translation is untouched. *)
Theorem load_segment_loads (k : kernel D) c dir file size i ph :
  vm_inv (kvm k) → space (kvm k) dir → source_ok (kvm k) dir file ph → seg_ok ph →
  p_type ph = PT_LOAD → 0 < p_memsz ph → p_offset ph + p_filesz ph ≤ size →
  used_frames (frames (kvm k)) + 2 * ((seg_end ph - seg_start ph) / PAGE_SIZE) ≤ TOTAL_FRAMES →
  ∃ s', load_segment file size dir i ph (IO k c) = Some (None, IO (with_vm s' k) c) ∧
    loads (kvm k) s' dir (seg_start ph) (seg_end ph) ∧
    seg_start ph ≤ p_vaddr ph ∧ p_vaddr ph + p_memsz ph ≤ seg_end ph ∧
    ∀ va, seg_start ph ≤ va < seg_end ph → sees s' dir va (seg_byte ph file (kram k) va).
Proof.
  intros Hinv Hsp Hsrc Hok Htype Hmem Hsize Hcnt.
  destruct (load_segment_run k c dir file size i ph Hinv Hsp Hsrc Hok Htype Hmem Hsize Hcnt) as (s' & E & Hl & _ & H1 & H2 & Hsee).
  by exists s'.
Qed.
End kernel.

(** ** Example *)

(** A kernel with one process directory and a frame that holds a file whose
    first byte is 42. *)
Lemma demo_loader :
  ∃ s dir file, vm_inv s ∧ space s dir ∧ data_frame s dir file ∧ load8 (ram s) file = 42 ∧
    used_frames (frames s) = used_frames boot_pmm + 8.
Proof.
  destruct boot_vm_facts as (Hinv & _ & _ & _ & Hcnt). destruct boot_clone as (dir & pt0 & s & E & Hd & Hcl).
  pose proof (proj1 (cloned_kernel _ _ _ _ Hinv Hcl)) as Hinv'. pose proof (cloned_space _ _ _ _ Hinv Hcl) as Hsp.
  destruct (cl_p1 _ _ _ _ Hcl) as (p1 & Hf1 & Hf2).
  assert (used_frames (frames s) = used_frames boot_pmm + 7) as Hs.
  { rewrite (fp_count _ _ _ Hf2), (fp_count _ _ _ Hf1), Hcnt. lia. }
  destruct (alloc_page_fresh (frames s) [] (vi_pmm _ Hinv')) as [(file & p' & _ & Hfr & Hp')|[_ Hall]].
  2:{ apply all_used_count in Hall; [|apply (vi_pmm _ Hinv')]. rewrite Hall in Hs. revert Hs. vm_compute. discriminate. }
  set (m' := store8 (ram s) file 42).
  assert (∀ a, a < file ∨ file + 4096 ≤ a → load8 m' a = load8 (ram s) a) as Hm'.
  { intros a Ha. unfold m'. apply load8_store8_ne. lia. }
  exists (upd_ram (λ _, m') (set_frames p' s)), dir, file.
  pose proof (fill_extends s file p' m' Hfr Hp' Hm') as Hex. pose proof (extends_loads _ _ dir 0 Hinv' Hsp Hex) as Hl.
  split_and!; [apply Hl|apply Hl|exact (fill_data s dir file p' m' Hinv' Hsp Hfr Hp' Hm')| |].
  { change (load8 m' file = 42). unfold m'. by rewrite load8_store8, Z.eqb_refl. }
  change (used_frames p' = used_frames boot_pmm + 8). rewrite (fp_count _ _ _ Hfr). lia.
Qed.

Definition demo_segment : elf32_phdr := Phdr PT_LOAD 0 0x40000010 0 1 32 6 4096.

Lemma load_segment_loads_witness :
  ∃ (k : kernel ()) dir file s',
    load_segment file 1 dir 0 demo_segment (IO k []) = Some (None, IO (with_vm s' k) []) ∧
    sees s' dir 0x40000010 42 ∧ sees s' dir 0x40000011 0.
Proof.
  destruct demo_loader as (s & dir & file & Hinv & Hsp & Hdf & Hb & Hcnt).
  pose proof (df_used _ _ _ Hdf) as (Hal & Hr & _). change TOTAL_MEMORY with 16777216 in Hr.
  destruct (load_segment_loads (with_vm s demo_kernel)
    [] dir file 1 0 demo_segment) as (s' & E & _ & _ & _ & Hsee);
    [exact Hinv|exact Hsp| |split; cbn; lia|reflexivity|cbn; lia|cbn; lia| |].
  - split; cbn; [lia|]. intros x Hx. replace (file + 0 + x) with file by lia. unfold safe.
    unfold aligned in Hal. pose proof (Z.div_mod file 4096). by replace (file / 4096 * 4096) with file by lia.
  - change (kvm _) with s. rewrite Hcnt. vm_compute. discriminate.
  - eexists _, dir, file, s'. split; [exact E|]. split.
    + specialize (Hsee 0x40000010 ltac:(vm_compute; split; [discriminate|reflexivity])). unfold seg_byte in Hsee. cbn in Hsee.
      rewrite Z.add_0_r, Z.add_0_r in Hsee. change (kram _) with (ram s) in Hsee. rewrite Hb in Hsee. exact Hsee.
    + exact (Hsee 0x40000011 ltac:(vm_compute; split; [discriminate|reflexivity])).
Defined.
