(* ===== verification/ElfExec.v ===== *)
(** * Executing a program: kernel/exec/elf.c from the image to the task

    [elf_load_internal] puts the pieces together: the clone of the kernel's
    address space, the segments of the image, the stack with the arguments
    and the task.  The theorems follow one call to its end: the new task
    enters ring 3 at the entry point of the image, in an address space in
    which it sees the image and its arguments. *)

From S2P Require Import Prelude KString KStdio Console KPrintf Pmm Memory Kmalloc Paging AddrSpace Sched Task.
From S2P Require Import Block SimpleFS Klog KlogSpec Elf ElfSpec ElfLoad.

Open Scope Z_scope.
Open Scope c_scope.

(** ** Log messages *)

(** Arguments whose text is never cut short by a zero byte. *)
Definition arg_ok (a : va) : Prop :=
  match a with VInt _ => True | VStr p => ∃ t r, p = Some (t ++ 0 :: r) ∧ nonzero t end.

(** The directives of the format find arguments of their kind. *)
Fixpoint fits (format : list Z) (args : list va) : bool :=
  match format with
  | c :: rest =>
      if c =? 0 then true
      else
        match rest with
        | d :: rest' =>
            if (c =? 37) && negb (d =? 0) then
              match args with
              | VInt _ :: args' => ((d =? 100) || (d =? 117) || (d =? 120)) && fits rest' args'
              | VStr (Some _) :: args' => (d =? 115) && fits rest' args'
              | _ => false
              end
            else (0 <? c) && (c <? 256) && fits rest args
        | [] => false
        end
  | [] => false
  end.

Lemma digit_nonzero base c : base ≤ 36 → is_digit base c → 0 < c < 256.
Proof. intros Hb [Hv ->]. unfold digit_char. rewrite Z.gtb_ltb. zcase; lia. Qed.

Lemma utoa_text v base : 2 ≤ base ≤ 36 → ∃ t, utoa (u32 v) base = Some t ∧ nonzero t.
Proof.
  intros Hb. pose proof (u32_bound v). pose proof (pow32_le base ltac:(lia)).
  destruct (utoa_numeral_len (u32 v) base 32) as (t & E & Hn & _); [lia|lia|lia|lia|]. exists t. split; [exact E|].
  eapply list.Forall_impl; [apply Hn|]. intros c Hc. by apply (digit_nonzero base); [lia|].
Qed.

Lemma itoa_text v : ∃ t, itoa (i32 v) 10 = Some t ∧ nonzero t.
Proof.
  destruct (itoa_spec (i32 v) (i32_bound v)) as (t & Hn & _ & E).
  assert (nonzero t) as Ht by (eapply list.Forall_impl; [apply Hn|]; intros c Hc; by apply (digit_nonzero 10); [lia|]).
  eexists. split; [exact E|]. destruct (i32 v <? 0); [|exact Ht]. apply Forall_app_2; [by apply (bool_decide_unpack _)|exact Ht].
Qed.

(** A directive that [fits] has a text, and the log formats it like [kprintf]. *)
Lemma conv_int d v args :
  (d =? 100) || (d =? 117) || (d =? 120) = true →
  shared_conv d (VInt v :: args) = true ∧ ∃ t, kprintf_conv d (VInt v :: args) = Some (t, args) ∧ nonzero t.
Proof.
  intros Hd. destruct (itoa_text v) as (t1 & E1 & H1), (utoa_text v 10) as (t2 & E2 & H2), (utoa_text v 16) as (t3 & E3 & H3); [lia..|].
  unfold shared_conv, kprintf_conv, va_int.
  destruct (Z.eqb_spec d 100) as [->|]; [by rewrite E1; split; [|exists t1]|].
  destruct (Z.eqb_spec d 117) as [->|]; [by rewrite E2; split; [|exists t2]|].
  destruct (Z.eqb_spec d 120) as [->|]; [by rewrite E3; split; [|exists t3]|]. done.
Qed.

Lemma fits_text format args :
  fits format args = true → Forall arg_ok args →
  shared_format format args = true ∧ ∃ text, kprintf_text format args = Some text ∧ nonzero text.
Proof.
  remember (length format) as n eqn:Hn. revert format args Hn. induction n as [n IH] using lt_wf_ind. intros format args -> Hf Ha.
  destruct format as [|c rest]; [done|]. cbn [fits shared_format kprintf_text length] in *.
  destruct (c =? 0); [split; [done|]; exists []; split; [done|constructor]|].
  destruct rest as [|d rest']; [done|]. destruct ((c =? 37) && negb (d =? 0)).
  - destruct args as [|[v|[s|]] args']; [done| | |done]; apply andb_true_iff in Hf as [Hd Hf]; inversion_clear Ha as [|? ? Ha1 Ha2].
    + destruct (conv_int d v args' Hd) as (-> & t & -> & Ht).
      destruct (IH (length rest') ltac:(cbn; lia) rest' args' eq_refl Hf Ha2) as (-> & u & -> & Hu).
      split; [done|]. exists (t ++ u). split; [done|by apply Forall_app_2].
    + apply Z.eqb_eq in Hd as ->. destruct Ha1 as (t & r & [= ->] & Ht).
      change (kprintf_conv 115 (VStr (Some (t ++ 0 :: r)) :: args')) with ((λ s, (s, args')) <$> cstr (t ++ 0 :: r)).
      rewrite cstr_app by done. cbn [fmap option_fmap option_map].
      destruct (IH (length rest') ltac:(cbn; lia) rest' args' eq_refl Hf Ha2) as (-> & u & -> & Hu).
      split; [done|]. exists (t ++ u). split; [done|by apply Forall_app_2].
  - apply andb_true_iff in Hf as [Hc Hf]. apply andb_true_iff in Hc as [H1%Z.ltb_lt H2%Z.ltb_lt].
    destruct (IH (length (d :: rest')) ltac:(cbn; lia) (d :: rest') args eq_refl Hf Ha) as (-> & u & -> & Hu).
    split; [done|]. exists (c :: u). split; [done|]. by constructor.
Qed.

(** ** Images *)

Lemma phdr_at_ext m m' p : (∀ x, 0 ≤ x < sizeof_phdr → load8 m' (p + x) = load8 m (p + x)) → phdr_at m' p = phdr_at m p.
Proof.
  intros Hx. unfold sizeof_phdr in Hx. unfold phdr_at.
  f_equal; apply load32_ext; intros i Hi; rewrite <- ?Z.add_assoc; apply Hx; lia.
Qed.

Lemma ehdr_at_ext m m' p : (∀ x, 0 ≤ x < sizeof_ehdr → load8 m' (p + x) = load8 m (p + x)) → ehdr_at m' p = ehdr_at m p.
Proof.
  intros Hx. unfold sizeof_ehdr in Hx.
  assert (∀ o, 0 ≤ o ≤ 48 → load32 m' (p + o) = load32 m (p + o)) as H32.
  { intros o Ho. apply load32_ext. intros i Hi. rewrite <- Z.add_assoc. apply Hx. lia. }
  assert (∀ o, 0 ≤ o ≤ 50 → load16 m' (p + o) = load16 m (p + o)) as H16.
  { intros o Ho. unfold load16. rewrite <- Z.add_assoc, !Hx by lia. done. }
  unfold ehdr_at. rewrite !H32, !H16 by lia. f_equal.
  apply mem_get_ext. intros x Hlt. replace x with (p + (x - p)) by lia. apply Hx. lia.
Qed.

Lemma ehdr_phnum m p : 0 ≤ e_phnum (ehdr_at m p).
Proof.
  unfold ehdr_at. cbn [e_phnum]. unfold load16. pose proof (load8_bound m (p + 44)). pose proof (load8_bound m (p + 44 + 1)). lia.
Qed.

(** The program header of number [i]. *)
Definition phdr_no (m : mem) (buf i : Z) : elf32_phdr :=
  let e := ehdr_at m buf in phdr_at m (buf + e_phoff e + i * e_phentsize e).

Definition loadable (ph : elf32_phdr) : bool := (p_type ph =? PT_LOAD) && negb (p_memsz ph =? 0).

(** The pages of the first [n] segments. *)
Definition pages_of (ph : elf32_phdr) : Z := if loadable ph then (seg_end ph - seg_start ph) / PAGE_SIZE else 0.
Fixpoint page_count (m : mem) (buf : Z) (n : nat) : Z :=
  match n with O => 0 | S n' => page_count m buf n' + pages_of (phdr_no m buf (Z.of_nat n')) end.

(** A frame in use that is no table of the kernel. *)
Definition plain_frame (s : vm) (f : Z) : Prop := frame_used (frames s) f ∧ ¬ kernel_page s f.

(** An image the loader can load: valid, with a program header table that
    does not wrap, and with segments on pages of their own between the
    kernel's 16 MB and the stack. *)
Record image (m : mem) (buf size : Z) : Prop := {
  im_valid : elf_validate m buf size = 0;
  im_range : 0 < buf ∧ buf + size < 4294967296;
  im_table : let e := ehdr_at m buf in e_phoff e + e_phnum e * e_phentsize e < 4294967296;
  im_segs : ∀ i, 0 ≤ i < e_phnum (ehdr_at m buf) → let ph := phdr_no m buf i in
    loadable ph = true → seg_ok ph ∧ p_offset ph + p_filesz ph ≤ size ∧ seg_end ph ≤ USER_STACK_VIRT;
  im_apart : ∀ i j, 0 ≤ i < e_phnum (ehdr_at m buf) → 0 ≤ j < e_phnum (ehdr_at m buf) → i ≠ j →
    let ph := phdr_no m buf i in let ph' := phdr_no m buf j in
    loadable ph = true → loadable ph' = true → seg_end ph ≤ seg_start ph' ∨ seg_end ph' ≤ seg_start ph
}.

(** What the loader's checks take for granted: the sums of 32-bit fields they
    compute do not wrap.  This is all that keeps the loader safe; segments that
    are refused, overlap or reach into the stack are covered. *)
Record tame (m : mem) (buf size : Z) : Prop := {
  ta_valid : elf_validate m buf size = 0;
  ta_range : 0 < buf ∧ buf + size < 4294967296;
  ta_table : let e := ehdr_at m buf in e_phoff e + e_phnum e * e_phentsize e < 4294967296;
  ta_segs : ∀ i, 0 ≤ i < e_phnum (ehdr_at m buf) → let ph := phdr_no m buf i in loadable ph = true →
    p_offset ph + p_filesz ph < 4294967296 ∧ p_vaddr ph + p_memsz ph + 4095 < 4294967296
}.

Lemma image_tame m buf size : image m buf size → tame m buf size.
Proof.
  intros [Hv Hr Ht Hs _]. split; [done..|]. intros i Hi ph Hl. destruct (Hs i Hi Hl) as ([_ _ He Ho] & _). fold ph in He, Ho. lia.
Qed.

(** The image is where the loader finds it, in frames with data. *)
Definition holds (s : vm) (dir : Z) (m : mem) (buf size : Z) : Prop :=
  ∀ x, 0 ≤ x < size → safe s dir (buf + x) ∧ load8 (ram s) (buf + x) = load8 m (buf + x).

(** The process sees the segment with the program header [ph]. *)
Definition sees_segment (s : vm) (dir : Z) (ph : elf32_phdr) (buf : Z) (m : mem) : Prop :=
  ∀ va, seg_start ph ≤ va < seg_end ph → sees s dir va (seg_byte ph buf m va).

(** ** The new address space *)

(** What was in memory before the clone is data for the new directory. *)
Lemma clone_data s s' dir pt0 f :
  vm_inv s → cloned s s' dir pt0 → plain_frame s f →
  data_frame s' dir f ∧ ∀ o, 0 ≤ o < 4096 → load8 (ram s') (f + o) = load8 (ram s) (f + o).
Proof.
  intros Hinv Hcl [Hu Hk]. destruct (cloned_frames s s' dir pt0 Hcl) as (_ & _ & _ & _ & Hold).
  destruct (Hold f Hu) as (Hd & Hp & Hu'). split.
  - split; [exact Hu'|by rewrite (kernel_page_cloned s s' dir pt0 Hinv Hcl)|exact Hd|].
    intros i Hi. rewrite (cl_dir _ _ _ _ Hcl) by (by apply private_idx).
    destruct (pt0_pde s s' dir pt0 Hcl) as (_ & _ & Hpf & _).
    destruct (Z.eqb_spec i 0) as [->|]; [intros _; rewrite Hpf; congruence|]. unfold private in Hi.
    destruct (Z.ltb_spec i 4); [lia|]. rewrite present_bit, Z.testbit_0_l. intros [=].
  - apply frame_bytes. intros j Hj. apply (cl_other _ _ _ _ Hcl); [apply Hu|exact Hj|exact Hd|exact Hp].
Qed.

Lemma clone_holds s s' dir pt0 buf size :
  vm_inv s → cloned s s' dir pt0 → (∀ x, 0 ≤ x < size → plain_frame s ((buf + x) / 4096 * 4096)) →
  holds s' dir (ram s) buf size.
Proof.
  intros Hinv Hcl Hdata x Hx. destruct (clone_data s s' dir pt0 _ Hinv Hcl (Hdata x Hx)) as [Hdf Hb]. split; [exact Hdf|].
  pose proof (Z.div_mod (buf + x) 4096). pose proof (Z.mod_pos_bound (buf + x) 4096).
  replace (buf + x) with ((buf + x) / 4096 * 4096 + (buf + x) mod 4096) by lia. apply Hb. lia.
Qed.

Lemma holds_loads s s' dir lo hi m buf size : loads s s' dir lo hi → holds s dir m buf size → holds s' dir m buf size.
Proof.
  intros Hl Hh x Hx. destruct (Hh x Hx) as [Hs Hb]. destruct (loads_safe _ _ _ _ _ _ Hl Hs) as [Hs' Hb'].
  split; [exact Hs'|congruence].
Qed.

Section tame.
Context (s : vm) (dir : Z) (m : mem) (buf size : Z) (Htm : tame m buf size) (Hh : holds s dir m buf size).

Lemma image_ehdr : ehdr_at (ram s) buf = ehdr_at m buf.
Proof using Htm Hh.
  destruct (elf_validate_facts m buf size (ta_valid _ _ _ Htm)) as (_ & Hsz & _). apply ehdr_at_ext. intros x Hx. apply Hh. lia.
Qed.

Lemma image_table i : 0 ≤ i < e_phnum (ehdr_at m buf) → let e := ehdr_at m buf in
  0 < e_phoff e + i * e_phentsize e ∧ e_phoff e + i * e_phentsize e + sizeof_phdr ≤ size.
Proof using Htm.
  intros Hi e. destruct (elf_validate_facts m buf size (ta_valid _ _ _ Htm)) as (_ & _ & _ & _ & _ & _ & _ & Ht).
  specialize (Ht (ta_table _ _ _ Htm) i Hi). fold e in Ht. lia.
Qed.

(** The address the loop computes. *)
Lemma image_phdr i : 0 ≤ i < e_phnum (ehdr_at m buf) →
  phdr_at (ram s) (buf +! e_phoff (ehdr_at m buf) +! i *! e_phentsize (ehdr_at m buf)) = phdr_no m buf i.
Proof using Htm Hh.
  intros Hi. pose proof (image_table i Hi) as Ht. cbv zeta in Ht. set (e := ehdr_at m buf) in *.
  pose proof (ta_range _ _ _ Htm). unfold sizeof_phdr in Ht.
  assert (0 ≤ i * e_phentsize e ∧ 0 ≤ e_phoff e) as [H1 H2].
  { unfold e, ehdr_at. cbn [e_phoff e_phentsize]. pose proof (load32_bound m (buf + 28)).
    unfold load16. pose proof (load8_bound m (buf + 42)). pose proof (load8_bound m (buf + 42 + 1)). split; [nia|lia]. }
  rewrite (u32_small (buf + _)), (u32_small (i * _)), u32_small by lia.
  unfold phdr_no. fold e. apply phdr_at_ext. intros x Hx. unfold sizeof_phdr in Hx.
  replace (buf + e_phoff e + i * e_phentsize e + x) with (buf + (e_phoff e + i * e_phentsize e + x)) by lia. apply Hh. lia.
Qed.

Lemma tame_source ph : 0 ≤ p_offset ph → p_offset ph + p_filesz ph ≤ size → source_ok s dir buf ph.
Proof using Htm Hh.
  intros Ho Hsz. pose proof (ta_range _ _ _ Htm). split; [lia|]. intros x Hx. rewrite <- Z.add_assoc. apply Hh. lia.
Qed.

Lemma tame_byte ph va : 0 ≤ p_offset ph → p_offset ph + p_filesz ph ≤ size → seg_byte ph buf (ram s) va = seg_byte ph buf m va.
Proof using Htm Hh.
  intros Ho Hsz. unfold seg_byte. destruct (_ && _) eqn:E; [|done]. apply andb_true_iff in E as [E1%Z.leb_le E2%Z.ltb_lt].
  rewrite <- Z.add_assoc. apply Hh. lia.
Qed.
End tame.

Section image.
Context (s : vm) (dir : Z) (m : mem) (buf size : Z) (Him : image m buf size) (Hh : holds s dir m buf size).

Lemma image_source i : 0 ≤ i < e_phnum (ehdr_at m buf) → loadable (phdr_no m buf i) = true →
  source_ok s dir buf (phdr_no m buf i).
Proof using Him Hh.
  intros Hi Hl. destruct (im_segs _ _ _ Him i Hi Hl) as (Hok & Hsz & _). destruct Hok as [_ _ _ [Hoff _]].
  by apply (tame_source s dir m buf size (image_tame _ _ _ Him) Hh).
Qed.

Lemma image_byte i va : 0 ≤ i < e_phnum (ehdr_at m buf) → loadable (phdr_no m buf i) = true →
  seg_byte (phdr_no m buf i) buf (ram s) va = seg_byte (phdr_no m buf i) buf m va.
Proof using Him Hh.
  intros Hi Hl. destruct (im_segs _ _ _ Him i Hi Hl) as (Hok & Hsz & _). destruct Hok as [_ _ _ [Hoff _]].
  by apply (tame_byte s dir m buf size (image_tame _ _ _ Him) Hh).
Qed.
End image.

Lemma loadable_true ph : loadable ph = true → p_type ph = PT_LOAD ∧ p_memsz ph ≠ 0.
Proof. unfold loadable. intros [Ht%Z.eqb_eq Hm%negb_true_iff%Z.eqb_neq]%andb_true_iff. done. Qed.

Section pages.
Context (m : mem) (buf size : Z) (Him : image m buf size).

Lemma pages_of_nonneg i : 0 ≤ i < e_phnum (ehdr_at m buf) → 0 ≤ pages_of (phdr_no m buf i).
Proof using Him.
  intros Hi. unfold pages_of. destruct (loadable _) eqn:E; [|lia].
  destruct (im_segs _ _ _ Him i Hi E) as (Hok & _). apply loadable_true in E as [_ Hm].
  destruct (seg_pages _ Hok) as (_ & _ & H1 & H2); [destruct Hok; lia|]. apply Z.div_pos; [|done].
  destruct Hok. lia.
Qed.

Lemma page_count_le n n' : (n ≤ n')%nat → Z.of_nat n' ≤ e_phnum (ehdr_at m buf) → page_count m buf n ≤ page_count m buf n'.
Proof using Him.
  induction 1 as [|N Hle IH]; intros HN; [lia|]. cbn [page_count].
  pose proof (pages_of_nonneg (Z.of_nat N) ltac:(lia)). specialize (IH ltac:(lia)). lia.
Qed.
End pages.

(** ** Loading the segments *)

Section kernel.
Context {D : Type} `{BlockDev D}.
Context (k : kernel D) (dir : Z) (m : mem) (buf size : Z) (Him : image m buf size).

Let n := e_phnum (ehdr_at m buf).

Lemma load_segment_step s c i :
  vm_inv s → space s dir → holds s dir m buf size → 0 ≤ i < n →
  used_frames (frames s) + 2 * pages_of (phdr_no m buf i) ≤ TOTAL_FRAMES →
  let ph := phdr_no m buf i in
  ∃ s', load_segment buf size dir i ph (IO (with_vm s k) c) = Some (None, IO (with_vm s' k) c) ∧
    loads s s' dir 0x1000000 USER_STACK_VIRT ∧ used_frames (frames s') ≤ used_frames (frames s) + 2 * pages_of ph ∧
    (loadable ph = true → sees_segment s' dir ph buf m) ∧
    (∀ va b, addr32 va → (loadable ph = true → va < seg_start ph ∨ seg_end ph ≤ va) → sees s dir va b → sees s' dir va b).
Proof using Him.
  intros Hinv Hsp Hh Hi Hcnt ph. unfold pages_of in *. fold ph in Hcnt |- *. destruct (loadable ph) eqn:El.
  - destruct (im_segs _ _ _ Him i Hi El) as (Hok & Hsz & Hend). fold ph in Hok, Hsz, Hend.
    pose proof (image_source s dir m buf size Him Hh i Hi El) as Hsrc. destruct (loadable_true _ El) as [Ht Hm].
    pose proof (so_sizes _ Hok). assert (0 < p_memsz ph) as Hm' by lia.
    destruct (load_segment_run (with_vm s k) c dir buf size i ph Hinv Hsp Hsrc Hok Ht Hm' Hsz Hcnt)
      as (s' & E & Hl & Hu & Hlo & Hhi & Hsee).
    destruct (seg_pages ph Hok Hm') as (_ & _ & Hs1 & _).
    exists s'. split_and!; [exact E|apply (loads_weaken _ _ _ _ _ _ _ Hl); lia|exact Hu| |].
    + intros _ va Hva. pose proof (image_byte s dir m buf size Him Hh i va Hi El) as Hb. fold ph in Hb. rewrite <- Hb. exact (Hsee va Hva).
    + intros va b Hva Hout. apply (loads_sees _ _ _ _ _ _ _ Hl Hva). by apply Hout.
  - exists s. split_and!; [|by apply loads_refl|lia|done|by intros va b _ _].
    unfold load_segment. unfold loadable in El. apply andb_false_iff in El as [->|El]; [done|].
    apply negb_false_iff in El. rewrite El. by destruct (negb (p_type ph =? PT_LOAD)).
Qed.

Lemma load_segments_run s c :
  vm_inv s → space s dir → holds s dir m buf size →
  used_frames (frames s) + 2 * page_count m buf (Z.to_nat n) ≤ TOTAL_FRAMES →
  ∃ s', load_segments buf size (ehdr_at m buf) dir (IO (with_vm s k) c) = Some (0, IO (with_vm s' k) c) ∧
    loads s s' dir 0x1000000 USER_STACK_VIRT ∧
    used_frames (frames s') ≤ used_frames (frames s) + 2 * page_count m buf (Z.to_nat n) ∧
    ∀ i, 0 ≤ i < n → loadable (phdr_no m buf i) = true → sees_segment s' dir (phdr_no m buf i) buf m.
Proof using Him.
  intros Hinv Hsp Hh Hcnt.
  pose proof (ehdr_phnum m buf : 0 ≤ n) as Hn.
  set (P := λ i (t : io (kernel D)), ∃ s', t = IO (with_vm s' k) c ∧ loads s s' dir 0x1000000 USER_STACK_VIRT ∧
    used_frames (frames s') ≤ used_frames (frames s) + 2 * page_count m buf (Z.to_nat i) ∧
    ∀ j, 0 ≤ j < i → loadable (phdr_no m buf j) = true → sees_segment s' dir (phdr_no m buf j) buf m).
  unfold load_segments. rewrite bind_run.
  match goal with |- context [for_ret _ _ ?b _] => set (body := b) end.
  destruct (for_ret_inv P (λ _ _, False) body (Z.to_nat n) 0 (IO (with_vm s k) c)) as [(t & E & s' & -> & Hl & Hu & Hsee)|(_ & _ & _ & [])].
  - intros i t Hi (s1 & -> & Hl & Hu & Hsee). left. rewrite Z2Nat.id in Hi by lia.
    assert (page_count m buf (Z.to_nat (i + 1)) = page_count m buf (Z.to_nat i) + pages_of (phdr_no m buf i)) as Hpc.
    { replace (Z.to_nat (i + 1)) with (S (Z.to_nat i)) by lia. cbn [page_count]. by rewrite Z2Nat.id by lia. }
    pose proof (page_count_le m buf size Him (Z.to_nat (i + 1)) (Z.to_nat n) ltac:(lia) ltac:(fold n; lia)) as Hle.
    pose proof (holds_loads _ _ _ _ _ _ _ _ Hl Hh) as Hh1.
    destruct (load_segment_step s1 c i (ld_inv _ _ _ _ _ Hl) (ld_space _ _ _ _ _ Hl) Hh1) as (s2 & E & Hl2 & Hu2 & Hnew & Hold);
      [lia|lia|].
    exists (IO (with_vm s2 k) c). split.
    { unfold body. rewrite bind_run. cbn [quiet zoom get st con]. unfold quiet, zoom. cbn [get st con].
      cbn [with_vm k_os vmem set_vmem]. rewrite (image_phdr s1 dir m buf size (image_tame _ _ _ Him) Hh1) by (fold n; lia). exact E. }
    exists s2. split; [done|]. split; [by apply (loads_seq s s1 s2)|]. split; [lia|].
    intros j Hj Hlj. destruct (Z.eq_dec j i) as [->|Hne]; [by apply Hnew|]. intros va Hva.
    destruct (im_segs _ _ _ Him j ltac:(fold n; lia) Hlj) as (Hokj & _ & Hej).
    destruct (seg_pages _ Hokj) as (_ & _ & Hsj & _); [destruct (loadable_true _ Hlj), Hokj; lia|].
    apply Hold; [unfold addr32, USER_STACK_VIRT in *; lia| |exact (Hsee j ltac:(lia) Hlj va Hva)].
    intros Hli. pose proof (im_apart _ _ _ Him j i ltac:(fold n; lia) ltac:(fold n; lia) Hne Hlj Hli). lia.
  - exists s. split; [done|]. split; [by apply loads_refl|]. split; [change (page_count m buf (Z.to_nat 0)) with 0; lia|intros j Hj; lia].
  - fold n in E |- *. rewrite E. cbn [mret M_ret default]. exists s'. rewrite Z.add_0_l, Z2Nat.id in Hu, Hsee by lia.
    split_and!; [done|exact Hl|exact Hu|exact Hsee].
Qed.
End kernel.

(** ** The stack and the task *)

Lemma task_inv_vmem s qs v :
  task_inv s qs → cr3 v = cr3 (vmem s) → pd_physical_address v = pd_physical_address (vmem s) → task_inv (set_vmem v s) qs.
Proof.
  intros [[Hq Hr Hc Hs] Hf Hl] Hc3 Hpd. split; [split|exact Hf|exact Hl].
  - by apply queue_vmem.
  - intros q t Hqq Ht. apply (Hr q t Hqq). by destruct q.
  - intros t Ht. cbn [current_task set_vmem] in Ht. change (vmem (set_vmem v s)) with v. rewrite Hc3.
    rewrite (Hc t) by (by destruct (current_task s)). unfold task_cr3, paging_get_kernel_cr3. cbn [vmem set_vmem]. by rewrite Hpd.
  - exact Hs.
Qed.

(** The arguments depend on the bytes of their page only. *)
Lemma args_on_stack_ext m m' P args esp :
  (0 < length args)%nat → (∀ o, 0 ≤ o < 4096 → load8 m' (P + o) = load8 m (P + o)) →
  args_on_stack m P args esp → args_on_stack m' P args esp.
Proof.
  intros Hne Hb [H1 H2 H3 H4 H5]. destruct (lookup_lt_is_Some_2 args 0 Hne) as (b0 & E0). pose proof (H5 0%nat b0 E0) as Hlow.
  cbv zeta in Hlow. unfold USER_STACK_VIRT, USER_STACK_TOP in *.
  assert (∀ va, 0xBFFFF000 ≤ va → va + 4 ≤ 0xC0000000 → load32 m' (in_page P va) = load32 m (in_page P va)) as Hw.
  { intros va Hv1 Hv2. unfold in_page, USER_STACK_VIRT. apply load32_ext. intros i Hi. rewrite <- !Z.add_assoc. apply Hb. lia. }
  split; [exact H1|by rewrite Hw by lia|by rewrite Hw by lia|by rewrite Hw by lia|].
  intros i b Ei p. pose proof (lookup_lt_Some _ _ _ Ei) as Hi. unfold p. rewrite Hw by lia.
  destruct (H5 i b Ei) as (Hp1 & Hp2 & Hp3). split; [exact Hp1|]. split; [exact Hp2|]. rewrite <- Hp3.
  apply mem_get_ext. intros x Hx. unfold in_page, USER_STACK_VIRT in *.
  match goal with |- load8 m' x = _ => replace x with (P + (x - P)) by lia end. apply Hb. lia.
Qed.

Section stack.
Context {D : Type} `{BlockDev D}.
Context (k : kernel D) (s : vm) (c : list Z) (dir : Z) (Hinv : vm_inv s) (Hsp : space s dir).
Context (args argv : list (list Z)) (Hargs : c_strings args argv) (Hcount : (0 < length args ≤ 64)%nat).
Context (Hfit : Z.of_nat (length (packed args)) + 4 * (Z.of_nat (length args) + 3) ≤ ARGV_MAX_TOTAL).
Hypothesis Hroom : used_frames (frames s) + 2 ≤ TOTAL_FRAMES.

(** A frame for the stack, mapped at the top of user memory, with the
    arguments in it. *)
Lemma user_stack_run :
  ∃ P sa s1 s2 s3 esp w, P ≠ 0 ∧
    vmem_op pmm_alloc (IO (with_vm s k) c) = Some (P, IO (with_vm sa k) c) ∧
    vmem_op (zero_page P) (IO (with_vm sa k) c) = Some ((), IO (with_vm s1 k) c) ∧
    vmem_op (paging_map_page_in dir USER_STACK_VIRT P USER_FLAGS) (IO (with_vm s1 k) c) = Some ((), IO (with_vm s2 k) c) ∧
    setup_user_stack_args P (Some argv) (Z.of_nat (length args)) (IO (with_vm s2 k) c) = Some (esp, IO (with_vm s3 k) c) ∧
    loads s s3 dir USER_STACK_VIRT USER_STACK_TOP ∧ used_frames (frames s3) ≤ used_frames (frames s) + 2 ∧
    data_frame s3 dir P ∧ PMM_POOL_START ≤ P ∧ hw_walk (ram s3) dir USER_STACK_VIRT = Some (P, w, true) ∧
    args_on_stack (ram s3) P args esp.
Proof using All.
  destruct (alloc_page_fresh (frames s) [] (vi_pmm _ Hinv)) as [(P & p' & E & Hfr & Hp')|[_ Hall]].
  2:{ apply all_used_count in Hall; [lia|apply (vi_pmm _ Hinv)]. }
  destruct (fresh_frame_used _ _ _ Hfr) as [(Hpal & _) Hpr]. change TOTAL_MEMORY with 16777216 in Hpr.
  set (m1 := mem_set (ram s) P 0 4096).
  assert (∀ a, a < P ∨ P + 4096 ≤ a → load8 m1 a = load8 (ram s) a) as Hm1.
  { intros a Ha. unfold m1. rewrite load8_mem_set. repeat zcase; done. }
  pose proof (extends_loads s _ dir USER_STACK_VIRT Hinv Hsp (fill_extends s P p' m1 Hfr Hp' Hm1)) as Hl1.
  pose proof (fill_data s dir P p' m1 Hinv Hsp Hfr Hp' Hm1) as Hd1. set (s1 := upd_ram (λ _, m1) (set_frames p' s)) in *.
  destruct (map_loads s1 c dir USER_STACK_VIRT P USER_FLAGS) as (s2 & E2 & Hl2 & Hcnt2 & Hw);
    [apply Hl1|apply Hl1|exact Hd1| |done|unfold USER_STACK_VIRT; lia|split; vm_compute; congruence|done|].
  { change (used_frames p' < TOTAL_FRAMES). rewrite (fp_count _ _ _ Hfr). lia. }
  pose proof (ld_data _ _ _ _ _ Hl2 _ Hd1) as Hd2.
  destruct (setup_args_run (with_vm s2 k) c P args argv Hargs Hcount ltac:(lia) Hpal Hfit) as (esp & m3 & E3 & Hst & Hm3).
  destruct (Hw USER_STACK_VIRT) as [w Ew]; [lia|].
  exists P, (set_frames p' s), s1, s2, (upd_ram (λ _, m3) s2), esp, w.
  assert (∀ a, a / 4096 * 4096 ≠ P → load8 m3 a = load8 (ram s2) a) as Hm3'.
  { intros a Ha. apply Hm3. unfold PAGE_SIZE, aligned in *. pose proof (Z.div_mod a 4096). pose proof (Z.mod_pos_bound a 4096).
    pose proof (Z.div_mod P 4096). lia. }
  assert (∀ x, x = P → data_frame s2 dir x) as Hx by (intros x ->; exact Hd2). set (X := λ x, x = P) in *.
  pose proof (wr_walk s2 dir X m3 (ld_inv _ _ _ _ _ Hl2) (ld_space _ _ _ _ _ Hl2) Hx Hm3') as Hw3.
  pose proof (wr_data s2 dir X m3 (ld_inv _ _ _ _ _ Hl2) (ld_space _ _ _ _ _ Hl2) Hx Hm3') as Hdata3.
  split_and!; [lia| |done|by apply vmem_op_run|exact E3| | |by apply Hdata3|apply (fp_pool _ _ _ Hfr)
    |by rewrite Hw3 by (vm_compute; split; congruence)|exact Hst].
  - apply (vmem_op_run pmm_alloc k s c). by apply pmm_alloc_run.
  - pose proof (loads_trans s s1 s2 dir USER_STACK_VIRT USER_STACK_VIRT USER_STACK_TOP ltac:(vm_compute; split; congruence) Hl1 Hl2) as Hl.
    apply (wr_loads s2 dir X m3 (ld_inv _ _ _ _ _ Hl2) (ld_space _ _ _ _ _ Hl2) Hx Hm3' s _ _ Hl).
    intros x -> Hu. destruct (fresh_apart _ _ _ _ Hfr Hu) as [Hne _]. by apply Hne.
  - cbn [frames upd_ram]. etransitivity; [exact Hcnt2|]. change (frames s1) with p'. rewrite (fp_count _ _ _ Hfr). lia.
Qed.
End stack.

(** ** The whole call *)

Section load.
Context {D : Type} `{BlockDev D}.

(** A message of the loader. *)
Lemma log_ok (k : kernel D) c h lvl format arglist :
  log_rep (k_log k) h → 0 ≤ lvl < 4 → Z.of_nat (length h) + 1 < 4294967296 →
  fits format arglist = true → Forall arg_ok arglist →
  ∃ lg h' c', log_op (klog lvl format arglist) (IO k c) = Some ((), IO (Kernel (k_os k) lg (k_fs k)) c') ∧
    log_rep lg h' ∧ length h' = S (length h).
Proof.
  intros Hrep Hl Hn Hf Ha. destruct (fits_text _ _ Hf Ha) as (Hs & text & Et & Hnz).
  destruct (klog_run (k_log k) h lvl format arglist text c Hrep Hl Hn Hs Et Hnz) as (lg & name & _ & E & Hrep').
  eexists lg, _, _. split; [|split; [exact Hrep'|rewrite length_app; cbn; lia]].
  unfold log_op, zoom_io, zoom. cbn [st con k_log]. by rewrite E.
Qed.

(** The first frame of a task lies on top of its kernel stack, a page of the
    allocator's pool. *)
Definition stack_ok (t : task) : Prop :=
  PMM_POOL_START ≤ t_kernel_stack t ∧ t_kernel_stack t + PAGE_SIZE ≤ PMM_POOL_END ∧
  t_esp0 t = t_kernel_stack t + PAGE_SIZE ∧ t_esp t = t_esp0 t - 40.

(** A task that will run the image at [buf] of the memory [m]: the first
    switch to it enters ring 3 at the entry point, and in its address space
    are the segments and, on its stack, the arguments. *)
Record runs_image (sy : symbols) (m : mem) (buf : Z) (args : list (list Z)) (s : os) (t : task) : Prop := {
  ri_ready : t_state t = TASK_READY ∧ t_is_user t = 1 ∧ (t_page_dir t = t_cr3 t ∧ t_cr3 t ≠ 0) ∧ space (vmem s) (t_cr3 t);
  ri_segments : ∀ i, 0 ≤ i < e_phnum (ehdr_at m buf) → loadable (phdr_no m buf i) = true →
    sees_segment (vmem s) (t_cr3 t) (phdr_no m buf i) buf m;
  ri_kstack : stack_ok t;
  ri_stack : ∃ P w esp, hw_walk (ram (vmem s)) (t_cr3 t) USER_STACK_VIRT = Some (P, w, true) ∧
    (data_frame (vmem s) (t_cr3 t) P ∧ PMM_POOL_START ≤ P) ∧ args_on_stack (ram (vmem s)) P args esp ∧
    let top := t_kernel_stack t + PAGE_SIZE in
    starts_at s t (Cpu 0 0 0 0 (top - 20) (sym_enter_usermode sy)) ∧
    (λ k, load32 (ram (vmem s)) (top - 20 + 4 * k)) <$> [0; 1; 2; 3; 4] = [e_entry (ehdr_at m buf); 0x1B; 0x202; esp; 0x23]
}.

(** Making the task takes a frame for its kernel stack and changes nothing
    else in memory. *)
Lemma mapped_task_run sy o c qs v dir entry name r esp :
  task_inv o qs → cr3 v = cr3 (vmem o) → pd_physical_address v = pd_physical_address (vmem o) → vm_inv v → space v dir →
  (∃ i, (i < 64)%nat ∧ PSlot i ∉ qs) → used_frames (frames v) < TOTAL_FRAMES →
  nonzero name → word32 entry → word32 esp → word32 (sym_enter_usermode sy) →
  ∃ i t o', task_create_user_mapped sy entry (name ++ 0 :: r) dir dir esp (IO (set_vmem v o) c) = Some (PSlot i, IO o' c) ∧
    ((PSlot i ∉ qs) ∧ current_task o' = current_task o ∧ scheduler_on o' = scheduler_on o) ∧ task_inv o' (qs ++ [PSlot i]) ∧ get_task o' (PSlot i) = Some t ∧
    (loads v (vmem o') dir 0 0 ∧ ∀ f, frame_used (frames v) f → frame_used (frames (vmem o')) f) ∧
    stack_ok t ∧ t_state t = TASK_READY ∧ t_is_user t = 1 ∧ t_page_dir t = dir ∧ t_cr3 t = dir ∧
    let top := t_kernel_stack t + PAGE_SIZE in
    starts_at o' t (Cpu 0 0 0 0 (top - 20) (sym_enter_usermode sy)) ∧
    (λ k, load32 (ram (vmem o')) (top - 20 + 4 * k)) <$> [0; 1; 2; 3; 4] = [entry; 0x1B; 0x202; esp; 0x23].
Proof.
  intros Hti Hc3 Hpd Hinv Hsp (i0 & Hi0 & Hni0) Hroom Hname He Hesp Hsym.
  destruct (user_mapped_run sy (set_vmem v o) c qs entry name r dir dir esp (task_inv_vmem _ _ _ Hti Hc3 Hpd) (vi_pmm _ Hinv) Hname He Hesp Hsym)
    as (p & o' & E & [(_ & _ & Hall)|[(_ & _ & Hall)|(i & t & -> & (Hni & Hcur & Hon) & Hti' & Ht & _ & Htop & Hsp0 & Hv & Hp' & H1 & H2 & H3 & H4 & Hfr & H5)]]).
  - by destruct Hni0; apply Hall.
  - cbn [vmem set_vmem] in Hall. apply all_used_count in Hall; [lia|apply (vi_pmm _ Hinv)].
  - cbn [vmem set_vmem] in *. exists i, t, o'. destruct H5 as [H5 H6].
    pose proof (fp_pool _ _ _ Hfr) as [Hlo Hhi].
    assert (extends v (vmem o')) as Hex.
    { rewrite Hv. apply (fill_extends v (t_kernel_stack t) (frames (vmem o')) (put_words (ram v) (t_kernel_stack t + PAGE_SIZE) (user_frame sy esp entry)));
        [exact Hfr|exact Hp'|].
      intros a Ha. unfold PMM_POOL_START, PMM_POOL_END, PAGE_SIZE in *. apply load8_put_words_ne. unfold PAGE_SIZE. cbn [length user_frame]. lia. }
    split_and!; try assumption; [by apply extends_loads|exact (ex_used _ _ Hex)|done].
Qed.

(** The new task runs the image, once its address space is complete. *)
Lemma runs_image_of sy m buf size args s3 dir o' t P w esp :
  image m buf size → (0 < length args ≤ 64)%nat → loads s3 (vmem o') dir 0 0 → stack_ok t →
  t_state t = TASK_READY → t_is_user t = 1 → t_page_dir t = dir → t_cr3 t = dir → dir ≠ 0 →
  (∀ i, 0 ≤ i < e_phnum (ehdr_at m buf) → loadable (phdr_no m buf i) = true → sees_segment s3 dir (phdr_no m buf i) buf m) →
  data_frame s3 dir P → PMM_POOL_START ≤ P → hw_walk (ram s3) dir USER_STACK_VIRT = Some (P, w, true) →
  args_on_stack (ram s3) P args esp →
  (let top := t_kernel_stack t + PAGE_SIZE in
   starts_at o' t (Cpu 0 0 0 0 (top - 20) (sym_enter_usermode sy)) ∧
   (λ k, load32 (ram (vmem o')) (top - 20 + 4 * k)) <$> [0; 1; 2; 3; 4] = [e_entry (ehdr_at m buf); 0x1B; 0x202; esp; 0x23]) →
  runs_image sy m buf args o' t.
Proof.
  intros Him Hcount Hl Hks Hst1 Hst2 Hst3 Hst4 Hdir Hsee Hdf Hpool Hw Hst Hgo. split.
  - rewrite Hst4. split_and!; [exact Hst1|exact Hst2|exact Hst3|exact Hdir|apply Hl].
  - rewrite Hst4. intros j Hj Hlj va Hva. destruct (im_segs _ _ _ Him j Hj Hlj) as (Hok & _ & Hend).
    apply (loads_sees _ _ _ _ _ _ _ Hl); [|lia|by apply (Hsee j Hj Hlj)].
    destruct (seg_pages _ Hok) as (_ & _ & Hsg & _); [destruct (loadable_true _ Hlj), Hok; lia|].
    unfold addr32, USER_STACK_VIRT in *. lia.
  - exact Hks.
  - rewrite Hst4. assert (addr32 USER_STACK_VIRT ∧ 0 ≤ USER_STACK_VIRT) as [Ha H0] by (unfold addr32, USER_STACK_VIRT; lia).
    destruct (ld_walk _ _ _ _ _ Hl _ _ _ Ha (or_intror H0) Hw) as [w' Ew].
    exists P, w', esp. split; [exact Ew|]. split; [split; [by apply (ld_data _ _ _ _ _ Hl)|exact Hpool]|]. split; [|exact Hgo].
    apply (args_on_stack_ext (ram s3)); [lia| |exact Hst]. intros x Hx. by apply (ld_bytes _ _ _ _ _ Hl).
Qed.

Lemma os_op_run {A} (f : M (io os) A) o lg (fs : fs D) c a o' c' :
  f (IO o c) = Some (a, IO o' c') → os_op f (IO (Kernel o lg fs) c) = Some (a, IO (Kernel o' lg fs) c').
Proof. intros E. unfold os_op, zoom_io, zoom. cbn [st con k_os k_log k_fs]. by rewrite E. Qed.

Context (sy : symbols) (k : kernel D) (qs : list ptr) (buf size : Z) (name r : list Z) (args argv : list (list Z)).
Context (Htasks : task_inv (k_os k) qs) (Hvm : vm_inv (kvm k)) (Hslot : ∃ i, (i < 64)%nat ∧ PSlot i ∉ qs).
Context (Hlow : present (entry (kram k) (kernel_directory (kvm k)) 0) = true).
Context (Him : image (kram k) buf size) (Hdata : ∀ x, 0 ≤ x < size → plain_frame (kvm k) ((buf + x) / 4096 * 4096)).
Context (Hargs : c_strings args argv) (Hcount : (0 < length args ≤ 64)%nat).
Context (Hfit : Z.of_nat (length (packed args)) + 4 * (Z.of_nat (length args) + 3) ≤ ARGV_MAX_TOTAL).
Context (Hname : nonzero name) (Hsym : word32 (sym_enter_usermode sy)).

Let n := Z.to_nat (e_phnum (ehdr_at (kram k) buf)).
Hypothesis Hroom : used_frames (frames (kvm k)) + 2 * page_count (kram k) buf n + 5 ≤ TOTAL_FRAMES.

Lemma arg_name : arg_ok (VStr (Some (name ++ 0 :: r))).
Proof using Hname. by exists name, r. Qed.

(** The new address space with the segments and the stack. *)
Lemma address_space_run lg c :
  let k1 := Kernel (k_os k) lg (k_fs k) in let m := kram k in
  ∃ dir s1 s2 P sa sb sc s3 esp w, dir ≠ 0 ∧ P ≠ 0 ∧
    vmem_op paging_clone_directory (IO k1 c) = Some (dir, IO (with_vm s1 k1) c) ∧
    load_segments buf size (ehdr_at m buf) dir (IO (with_vm s1 k1) c) = Some (0, IO (with_vm s2 k1) c) ∧
    vmem_op pmm_alloc (IO (with_vm s2 k1) c) = Some (P, IO (with_vm sa k1) c) ∧
    vmem_op (zero_page P) (IO (with_vm sa k1) c) = Some ((), IO (with_vm sb k1) c) ∧
    vmem_op (paging_map_page_in dir USER_STACK_VIRT P USER_FLAGS) (IO (with_vm sb k1) c) = Some ((), IO (with_vm sc k1) c) ∧
    setup_user_stack_args P (Some argv) (Z.of_nat (length args)) (IO (with_vm sc k1) c) = Some (esp, IO (with_vm s3 k1) c) ∧
    ehdr_at (ram s3) buf = ehdr_at m buf ∧ vm_inv s3 ∧ space s3 dir ∧ used_frames (frames s3) < TOTAL_FRAMES ∧
    (cr3 s3 = cr3 (kvm k) ∧ pd_physical_address s3 = pd_physical_address (kvm k)) ∧
    (∀ va, addr32 va → kwalk s3 va = kwalk (kvm k) va) ∧
    (∀ i, 0 ≤ i < e_phnum (ehdr_at m buf) → loadable (phdr_no m buf i) = true → sees_segment s3 dir (phdr_no m buf i) buf m) ∧
    (∀ f, plain_frame (kvm k) f → data_frame s3 dir f ∧ ∀ o, 0 ≤ o < 4096 → load8 (ram s3) (f + o) = load8 m (f + o)) ∧
    data_frame s3 dir P ∧ PMM_POOL_START ≤ P ∧ hw_walk (ram s3) dir USER_STACK_VIRT = Some (P, w, true) ∧
    args_on_stack (ram s3) P args esp.
Proof using H Hvm Hlow Him Hdata Hargs Hcount Hfit Hroom.
  intros k1 m. fold m in Hroom, Him, n. assert (0 ≤ page_count m buf n) as Hpos.
  { change 0 with (page_count m buf 0). apply (page_count_le m buf size Him); [lia|]. unfold n.
    destruct (elf_validate_facts m buf size (im_valid _ _ _ Him)) as (_ & _ & _ & _ & _ & _ & Hph & _). lia. }
  destruct (clone_run (kvm k) c Hvm Hlow) as [(s' & _ & _ & Hfull & _)|(dir & pt0 & s1 & E1 & Hdir & Hcl)]; [lia|].
  destruct (cloned_kernel _ _ _ _ Hvm Hcl) as [Hi1 Hk1]. pose proof (cloned_space _ _ _ _ Hvm Hcl) as Hs1.
  pose proof (clone_holds _ _ _ _ buf size Hvm Hcl Hdata) as Hh1. destruct (cl_cpu _ _ _ _ Hcl) as (_ & _ & Hc1 & _ & Hp1).
  assert (used_frames (frames s1) = used_frames (frames (kvm k)) + 2) as Hu1.
  { destruct (cl_p1 _ _ _ _ Hcl) as (p1 & Hf1 & Hf2). rewrite (fp_count _ _ _ Hf2), (fp_count _ _ _ Hf1). lia. }
  destruct (load_segments_run k1 dir m buf size Him s1 c Hi1 Hs1 Hh1) as (s2 & E2 & Hl2 & Hu2 & Hsee2); [fold n; lia|]. fold n in Hu2.
  destruct (user_stack_run k1 s2 c dir (ld_inv _ _ _ _ _ Hl2) (ld_space _ _ _ _ _ Hl2) args argv Hargs Hcount Hfit ltac:(lia))
    as (P & sa & sb & sc & s3 & esp & w & HP & E3 & E4 & E5 & E6 & Hl3 & Hu3 & Hdf & Hpool & Hw & Hst).
  destruct (ld_cpu _ _ _ _ _ Hl2) as [Hc2 Hp2], (ld_cpu _ _ _ _ _ Hl3) as [Hc3 Hp3].
  pose proof (holds_loads _ _ _ _ _ _ _ _ Hl3 (holds_loads _ _ _ _ _ _ _ _ Hl2 Hh1)) as Hh3.
  exists dir, s1, s2, P, sa, sb, sc, s3, esp, w.
  split_and!; try assumption; [|exact (image_ehdr s3 dir m buf size (image_tame _ _ _ Him) Hh3)|apply Hl3|apply Hl3|lia|congruence|congruence| | |].
  - rewrite <- (with_kvm k1) at 1. by apply (vmem_op_run paging_clone_directory k1 (kvm k) c).
  - intros va Hva. rewrite (ld_kernel _ _ _ _ _ Hl3), (ld_kernel _ _ _ _ _ Hl2), Hk1 by exact Hva. done.
  - intros i Hi Hl va Hva. destruct (im_segs _ _ _ Him i Hi Hl) as (Hok & _ & Hend).
    destruct (seg_pages _ Hok) as (_ & _ & Hst1 & _); [destruct (loadable_true _ Hl), Hok; lia|].
    apply (loads_sees _ _ _ _ _ _ _ Hl3); [unfold addr32, USER_STACK_VIRT in *; lia|lia|by apply (Hsee2 i Hi Hl)].
  - intros f Hf. destruct (clone_data _ _ _ _ f Hvm Hcl Hf) as [Hf1 Hb1]. pose proof (ld_data _ _ _ _ _ Hl2 _ Hf1) as Hf2.
    split; [exact (ld_data _ _ _ _ _ Hl3 _ Hf2)|]. intros o Ho.
    by rewrite (ld_bytes _ _ _ _ _ Hl3), (ld_bytes _ _ _ _ _ Hl2), Hb1 by assumption.
Qed.

Lemma elf_load_run c h :
  log_rep (k_log k) h → Z.of_nat (length h) + 2 < 4294967296 →
  ∃ i t k' c' h', elf_load_internal sy buf size (name ++ 0 :: r) (Some argv) (Z.of_nat (length args)) (IO k c) =
      Some (PSlot i, IO k' c') ∧
    ((PSlot i ∉ qs) ∧ current_task (k_os k') = current_task (k_os k) ∧ scheduler_on (k_os k') = scheduler_on (k_os k)) ∧
    task_inv (k_os k') (qs ++ [PSlot i]) ∧ get_task (k_os k') (PSlot i) = Some t ∧
    runs_image sy (kram k) buf args (k_os k') t ∧
    vm_inv (kvm k') ∧ (∀ va, addr32 va → kwalk (kvm k') va = kwalk (kvm k) va) ∧
    (∀ f, plain_frame (kvm k) f → data_frame (kvm k') (t_cr3 t) f ∧
       ∀ o, 0 ≤ o < 4096 → load8 (kram k') (f + o) = load8 (kram k) (f + o)) ∧
    k_fs k' = k_fs k ∧ log_rep (k_log k') h' ∧ length h' = S (S (length h)).
Proof using All.
  intros Hlog Hh. set (m := kram k) in *. unfold elf_load_internal. rewrite bind_run. unfold quiet at 1, zoom at 1. cbn [get st con].
  fold m. change (ram (vmem (k_os k))) with m. rewrite (im_valid _ _ _ Him). cbn [Z.eqb negb]. cbv zeta.
  destruct (log_ok k c h KLOG_INFO (lit "ELF: loading '%s' entry=0x%x phnum=%d argc=%d")
    [VStr (Some (name ++ 0 :: r)); VInt (e_entry (ehdr_at m buf)); VInt (e_phnum (ehdr_at m buf)); VInt (Z.of_nat (length args))])
    as (lg & h1 & c1 & E0 & Hlog1 & Hlen1); [done|done|lia|done|repeat constructor; apply arg_name|].
  unfold klog_info. mstep E0.
  destruct (address_space_run lg c1) as (dir & s1 & s2 & P & sa & sb & sc & s3 & esp & w & Hdir & HP & E1 & E2 & E3 & E4 & E5 & E6 &
    Hehdr & Hi3 & Hs3 & Hu3 & [Hc3 Hp3] & Hk3 & Hsee & Hplain & Hdf & Hpool & Hw & Hst). set (k1 := Kernel (k_os k) lg (k_fs k)) in *.
  mstep E1. destruct (Z.eqb_spec dir 0); [done|]. mstep E2. cbn [Z.eqb negb].
  mstep E3. destruct (Z.eqb_spec P 0); [done|]. mstep E4. mstep E5. mstep E6.
  rewrite bind_run. unfold quiet at 1, zoom at 1. cbn [get st con]. change (ram (vmem (k_os (with_vm s3 k1)))) with (ram s3). rewrite Hehdr.
  pose proof (as_esp _ _ _ _ Hst) as [Hesp _]. unfold USER_STACK_VIRT, USER_STACK_TOP in Hesp.
  destruct (mapped_task_run sy (k_os k) c1 qs s3 dir (e_entry (ehdr_at m buf)) name r esp Htasks Hc3 Hp3 Hi3 Hs3 Hslot Hu3 Hname)
    as (i & t & o' & E7 & (Hni & Hcur & Hon) & Hti & Ht & [Hl _] & Hks & Hst1 & Hst2 & Hst3 & Hst4 & Hgo); [apply load32_bound|unfold word32; lia|exact Hsym|].
  mstep (os_op_run _ (set_vmem s3 (k_os k)) lg (k_fs k) c1 _ _ _ E7). rewrite bool_decide_eq_false_2 by done.
  mstep (os_op_run (quiet (deref (PSlot i))) o' lg (k_fs k) c1 t o' c1 (quiet_run _ o' c1 _ _ (deref_run o' _ _ Ht))).
  destruct (log_ok (Kernel o' lg (k_fs k)) c1 h1 KLOG_INFO (lit "ELF: spawned task '%s' (tid=%d, entry=0x%x, cr3=0x%x, esp=0x%x)")
    [VStr (Some (name ++ 0 :: r)); VInt (t_id t); VInt (e_entry (ehdr_at m buf)); VInt dir; VInt esp])
    as (lg2 & h2 & c2 & E8 & Hlog2 & Hlen2); [done|done|lia|done|repeat constructor; apply arg_name|].
  mstep E8. cbn [k_os k_fs]. exists i, t, (Kernel o' lg2 (k_fs k)), c2, h2. cbn [k_os k_fs k_log].
  split_and!; try done; [|apply Hl| | |lia].
  - by apply (runs_image_of sy m buf size args s3 dir o' t P w esp).
  - intros va Hva. rewrite <- (Hk3 va Hva). exact (ld_kernel _ _ _ _ _ Hl va Hva).
  - rewrite Hst4. intros f Hf. destruct (Hplain f Hf) as [Hf3 Hb3]. split; [exact (ld_data _ _ _ _ _ Hl _ Hf3)|].
    intros x Hx. exact (eq_trans (ld_bytes _ _ _ _ _ Hl f x Hf3 Hx) (Hb3 x Hx)).
Qed.
End load.
