(* ===== verification/ElfSafe.v ===== *)
(** * Loading a program with whatever memory is left

    [elf_load_internal] may run out of frames at every step.  The frames of
    the new address space are all its own: each is found at one place of the
    page directory and was free before.  So the clean-up frees each once and
    nothing else, and the address space of a program with separate segments is
    handed to a task only when it is complete.  The load of a file whose
    segments are refused or overlap ends too ([elf_load_tame]), and so does
    [setup_user_stack_args] for any arguments but too many that fit. *)

From S2P Require Import Prelude KString KStdio Console KPrintf Pmm Memory Kmalloc Paging AddrSpace Sched Task.
From S2P Require Import Block SimpleFS Klog KlogSpec Elf ElfSpec ElfLoad ElfExec.

Open Scope Z_scope.
Open Scope c_scope.

(** ** The places of a page directory *)

(** The directory itself, the tables of its private entries, the pages mapped
    above 16 MB. *)
Inductive place := PDir | PTable (i : Z) | PPage (i j : Z).

#[export] Instance place_eq_dec : EqDecision place.
Proof. solve_decision. Defined.

Definition place_ok (x : place) : Prop :=
  match x with PDir => True | PTable i => private i | PPage i j => 4 ≤ i < 1024 ∧ idx j end.

Definition frame_of (e : Z) : option Z := if present e then Some (PAGE_FRAME e) else None.

(** The frame at a place. *)
Definition frame_at (m : mem) (dir : Z) (x : place) : option Z :=
  match x with
  | PDir => Some dir
  | PTable i => frame_of (entry m dir i)
  | PPage i j => t ← frame_of (entry m dir i); frame_of (entry m t j)
  end.

Lemma frame_of_present e : present e = true → frame_of e = Some (PAGE_FRAME e).
Proof. unfold frame_of. by intros ->. Qed.

Lemma frame_at_table m dir i : present (entry m dir i) = true → frame_at m dir (PTable i) = Some (PAGE_FRAME (entry m dir i)).
Proof. apply frame_of_present. Qed.

Lemma frame_at_page m dir i j :
  frame_at m dir (PPage i j) = if present (entry m dir i) then frame_of (entry m (PAGE_FRAME (entry m dir i)) j) else None.
Proof.
  unfold frame_at. destruct (present (entry m dir i)) eqn:E; [by rewrite (frame_of_present _ E)|].
  assert (frame_of (entry m dir i) = None) as -> by (unfold frame_of; by rewrite E). done.
Qed.

Lemma NoDup_concat_seq (g : Z → list Z) a n :
  (∀ i, a ≤ i < a + n → NoDup (g i)) →
  (∀ i j x, a ≤ i < a + n → a ≤ j < a + n → x ∈ g i → x ∈ g j → i = j) → NoDup (concat (g <$> seqZ a n)).
Proof.
  intros Hnd Hdis. assert (∀ l, NoDup l → (∀ i, i ∈ l → a ≤ i < a + n) → NoDup (concat (g <$> l))) as H.
  { induction l as [|i l IH]; intros Hl Hin; [constructor|]. apply list.NoDup_cons in Hl as [Hi Hl]. cbn [fmap list_fmap concat].
    apply list.NoDup_app. split_and!; [apply Hnd, Hin; left| |apply IH; [done|]; intros j Hj; apply Hin; by right].
    intros x Hx Hx'. apply list_elem_of_In, in_concat in Hx' as (y & Hy & Hxy). apply list_elem_of_In, list_elem_of_fmap in Hy as (j & -> & Hj).
    apply list_elem_of_In in Hxy. apply Hi. rewrite (Hdis i j x); [done| | |done|done]; apply Hin; [left|by right]. }
  apply H; [apply NoDup_seqZ|]. intros i Hi. apply elem_of_seqZ in Hi. lia.
Qed.

(** The list that [paging_free_directory] frees, place by place. *)
Lemma elem_table_frames m pt f : f ∈ table_frames m pt ↔ ∃ j, idx j ∧ frame_of (entry m pt j) = Some f.
Proof.
  unfold table_frames. rewrite list_elem_of_In, in_concat. setoid_rewrite <- list_elem_of_In. split.
  - intros (l & (j & -> & Hj)%list_elem_of_fmap & Hf). apply elem_of_seqZ in Hj. exists j. split; [unfold idx; lia|].
    unfold frame_of. destruct (present (entry m pt j)); [|by apply not_elem_of_nil in Hf]. by apply list_elem_of_singleton in Hf as ->.
  - intros (j & Hj & Hf). eexists. split; [apply list_elem_of_fmap; exists j; split; [reflexivity|]|].
    + apply elem_of_seqZ. unfold idx in Hj. lia.
    + unfold frame_of in Hf. destruct (present (entry m pt j)); [|done]. injection Hf as <-. by left.
Qed.

Lemma table_frames_nodup m pt :
  (∀ j j' f, idx j → idx j' → frame_of (entry m pt j) = Some f → frame_of (entry m pt j') = Some f → j = j') →
  NoDup (table_frames m pt).
Proof.
  intros Hinj. unfold table_frames.
  assert (∀ j f, f ∈ (if present (entry m pt j) then [PAGE_FRAME (entry m pt j)] else []) → frame_of (entry m pt j) = Some f) as Hp.
  { intros j f Hf. unfold frame_of. destruct (present (entry m pt j)); [|by apply not_elem_of_nil in Hf].
    by apply list_elem_of_singleton in Hf as ->. }
  apply NoDup_concat_seq.
  - intros j Hj. cbv zeta. destruct (present (entry m pt j)); [apply NoDup_singleton|constructor].
  - intros j j' f Hj Hj' Hf Hf'. apply (Hinj j j' f); [unfold idx; lia..|by apply Hp|by apply Hp].
Qed.

Lemma elem_dir_frames m dir f : f ∈ dir_frames m dir ↔ ∃ x, place_ok x ∧ frame_at m dir x = Some f.
Proof.
  unfold dir_frames. rewrite !elem_of_app, list_elem_of_singleton. split.
  - intros [H|[H| ->]].
    + exists (PTable 0). split; [by left|]. cbn. unfold frame_of. destruct (present (entry m dir 0)); [|by apply not_elem_of_nil in H].
      by apply list_elem_of_singleton in H as ->.
    + apply list_elem_of_In, in_concat in H as (l & Hl%list_elem_of_In & Hf%list_elem_of_In).
      apply list_elem_of_fmap in Hl as (i & -> & Hi). apply elem_of_seqZ in Hi. cbv zeta in Hf.
      destruct (present (entry m dir i)) eqn:Ep; [|by apply not_elem_of_nil in Hf].
      apply elem_of_app in Hf as [(j & Hj & Hf)%elem_table_frames| ->%list_elem_of_singleton].
      * exists (PPage i j). split; [split; [lia|done]|]. by rewrite frame_at_page, Ep.
      * exists (PTable i). split; [right; lia|]. by apply frame_at_table.
    + by exists PDir.
  - intros ([|i|i j] & Hx & Hf); cbn in Hf.
    + injection Hf as ->. by right; right.
    + unfold frame_of in Hf. destruct (present (entry m dir i)) eqn:Ep; [|done]. injection Hf as <-. destruct Hx as [->|Hx].
      * left. rewrite Ep. by left.
      * right. left. apply list_elem_of_In, in_concat. eexists. split; [apply list_elem_of_In, list_elem_of_fmap; exists i; split; [reflexivity|]|].
        -- apply elem_of_seqZ. lia.
        -- cbv zeta. rewrite Ep. apply list_elem_of_In, elem_of_app. right. by left.
    + destruct Hx as [Hi Hj]. change (frame_at m dir (PPage i j) = Some f) in Hf. rewrite frame_at_page in Hf.
      destruct (present (entry m dir i)) eqn:Ep; [|done].
      right. left. apply list_elem_of_In, in_concat. eexists. split; [apply list_elem_of_In, list_elem_of_fmap; exists i; split; [reflexivity|]|].
      * apply elem_of_seqZ. lia.
      * cbv zeta. rewrite Ep. apply list_elem_of_In, elem_of_app. left. apply elem_table_frames. by exists j.
Qed.

Lemma dir_frames_nodup m dir :
  (∀ x y f, place_ok x → place_ok y → frame_at m dir x = Some f → frame_at m dir y = Some f → x = y) →
  NoDup (dir_frames m dir).
Proof.
  intros Hinj. assert (∀ i f, f ∈ (if present (entry m dir i) then table_frames m (PAGE_FRAME (entry m dir i)) ++ [PAGE_FRAME (entry m dir i)] else []) →
    4 ≤ i < 1024 → ∃ x, place_ok x ∧ frame_at m dir x = Some f ∧ match x with PDir => False | PTable i' => i' = i | PPage i' _ => i' = i end) as Hat.
  { intros i f Hf Hi. destruct (present (entry m dir i)) eqn:Ep; [|by apply not_elem_of_nil in Hf].
    apply elem_of_app in Hf as [(j & Hj & Hf)%elem_table_frames| ->%list_elem_of_singleton].
    - exists (PPage i j). split; [by split|]. by rewrite frame_at_page, Ep.
    - exists (PTable i). split; [by right|]. split; [by apply frame_at_table|done]. }
  unfold dir_frames. apply list.NoDup_app. split_and!.
  - destruct (present (entry m dir 0)); [apply NoDup_singleton|constructor].
  - intros f Hf. assert (frame_at m dir (PTable 0) = Some f) as H0.
    { cbn. unfold frame_of. destruct (present (entry m dir 0)); [|by apply not_elem_of_nil in Hf]. by apply list_elem_of_singleton in Hf as ->. }
    rewrite elem_of_app, list_elem_of_singleton. intros [H|H].
    + apply list_elem_of_In, in_concat in H as (l & Hl%list_elem_of_In & Hfl%list_elem_of_In).
      apply list_elem_of_fmap in Hl as (i & -> & Hi). apply elem_of_seqZ in Hi.
      destruct (Hat i f Hfl ltac:(lia)) as (x & Hx & Ex & Hxi). rewrite <- (Hinj (PTable 0) x f ltac:(by left) Hx H0 Ex) in Hxi. lia.
    + subst f. discriminate (Hinj (PTable 0) PDir dir ltac:(by left) I H0 eq_refl).
  - apply list.NoDup_app. split_and!; [|intros f Hf|apply NoDup_singleton].
    + apply NoDup_concat_seq.
      * intros i Hi. destruct (present (entry m dir i)) eqn:Ep; [|constructor].
        assert (∀ j f, idx j → frame_of (entry m (PAGE_FRAME (entry m dir i)) j) = Some f → frame_at m dir (PPage i j) = Some f) as Hpg.
        { intros j f Hj Hf. by rewrite frame_at_page, Ep. }
        apply list.NoDup_app. split_and!; [|intros f (j & Hj & Hf)%elem_table_frames ->%list_elem_of_singleton|apply NoDup_singleton].
        -- apply table_frames_nodup. intros j j' f Hj Hj' Hf Hf'. assert (PPage i j = PPage i j') as [=]; [|done].
           apply (Hinj _ _ f); [split; [lia|done]|split; [lia|done]|by apply Hpg..].
        -- assert (PPage i j = PTable i) as [=]. apply (Hinj _ _ (PAGE_FRAME (entry m dir i))); [split; [lia|done]|right; lia|by apply Hpg|].
           by apply frame_at_table.
      * intros i j f Hi Hj Hf Hf'. destruct (Hat i f Hf ltac:(lia)) as (x & Hx & Ex & Hxi), (Hat j f Hf' ltac:(lia)) as (y & Hy & Ey & Hyj).
        rewrite <- (Hinj x y f Hx Hy Ex Ey) in Hyj. destruct x; [done|congruence|congruence].
    + rewrite list_elem_of_singleton. intros ->. apply list_elem_of_In, in_concat in Hf as (l & Hl%list_elem_of_In & Hfl%list_elem_of_In).
      apply list_elem_of_fmap in Hl as (i & -> & Hi). apply elem_of_seqZ in Hi.
      destruct (Hat i dir Hfl ltac:(lia)) as (x & Hx & Ex & Hxi). by rewrite <- (Hinj PDir x dir I Hx eq_refl Ex) in Hxi.
Qed.

(** ** Ownership *)

(** Every frame of the address space is at one place of it, and none was in
    use in the state [u] of the allocator before the space was made. *)
Record owned (u : pmm_t) (s : vm) (dir : Z) : Prop := {
  ow_inj : ∀ x y f, place_ok x → place_ok y → frame_at (ram s) dir x = Some f → frame_at (ram s) dir y = Some f → x = y;
  ow_new : ∀ x f, place_ok x → frame_at (ram s) dir x = Some f → frame_used (frames s) f ∧ ¬ frame_used u f
}.

Lemma frame_at_ext m m' dir :
  (∀ i, idx i → entry m' dir i = entry m dir i) →
  (∀ i j, private i → idx j → present (entry m dir i) = true →
     entry m' (PAGE_FRAME (entry m dir i)) j = entry m (PAGE_FRAME (entry m dir i)) j) →
  ∀ x, place_ok x → frame_at m' dir x = frame_at m dir x.
Proof.
  intros Hd Ht [|i|i j] Hx; cbn [place_ok] in Hx.
  - done.
  - cbn [frame_at]. by rewrite Hd by (by apply private_idx).
  - destruct Hx as [Hi Hj]. rewrite !frame_at_page, Hd by (unfold idx; lia).
    destruct (present (entry m dir i)) eqn:Ep; [|done]. by rewrite Ht by (done || right; lia).
Qed.

Lemma owned_same u s s' dir :
  owned u s dir → (∀ x, place_ok x → frame_at (ram s') dir x = frame_at (ram s) dir x) →
  (∀ f, frame_used (frames s) f → frame_used (frames s') f) → owned u s' dir.
Proof.
  intros [Hi Hn] Hx Hu. split.
  - intros x y f H1 H2. rewrite !Hx by done. by apply Hi.
  - intros x f H1. rewrite Hx by done. intros Hf. destruct (Hn x f H1 Hf). split; [by apply Hu|done].
Qed.

Section steps.
Context (u : pmm_t) (s : vm) (dir : Z) (Hinv : vm_inv s) (Hsp : space s dir) (How : owned u s dir).

(** Taking and filling other frames. *)
Lemma owned_extends s' : extends s s' → owned u s' dir.
Proof using Hinv Hsp How.
  intros Hex. apply (owned_same u s); [exact How| |apply Hex]. apply frame_at_ext.
  - intros i Hi. by apply (ex_dir_entry s s' dir Hsp Hex).
  - intros i j Hi Hj Hp. apply (ex_entry _ _ Hex); [by apply (sp_table _ _ Hsp i Hi Hp)|exact Hj].
Qed.

(** Writing data. *)
Lemma owned_written (X : Z → Prop) m' :
  (∀ x, X x → data_frame s dir x) → (∀ a, ¬ X (a / 4096 * 4096) → load8 m' a = load8 (ram s) a) →
  owned u (upd_ram (λ _, m') s) dir.
Proof using Hsp How.
  intros Hx Hm'. apply (owned_same u s); [exact How| |done]. apply frame_at_ext; cbn [ram upd_ram].
  - intros i Hi. by apply (wr_dir_entry s dir X m' Hsp Hx Hm').
  - intros i j Hi Hj Hp. apply (wr_entry s X m' Hm'); [by apply (sp_table _ _ Hsp i Hi Hp)| |exact Hj].
    intros HX. by apply (df_table _ _ _ (Hx _ HX) i Hi Hp).
Qed.

(** Mapping a page. *)
Lemma mapped_frame_at s' d k pte T e' fresh x :
  4 ≤ d < 1024 → idx k → mapped_in s s' dir d k pte T e' fresh → present pte = true → place_ok x →
  frame_at (ram s') dir x =
  if decide (x = PPage d k) then Some (PAGE_FRAME pte) else if decide (x = PTable d) then Some T else frame_at (ram s) dir x.
Proof using Hinv Hsp.
  intros Hd Hk Hm Hpte Hx. assert (private d) as Hpd by (by right).
  destruct (mi_T _ _ _ _ _ _ _ _ _ Hinv Hsp Hpd Hm) as ((HTal & _) & _ & HTd & _ & HTn).
  destruct (mi_old _ _ _ _ _ _ _ _ _ Hm) as [Hold HT], (mi_new _ _ _ _ _ _ _ _ _ Hm) as (_ & He' & HeT & _).
  pose proof (sp_dir _ _ Hsp) as [(Hdal & _) _].
  assert (∀ i, idx i → entry (ram s') dir i = if d =? i then e' else entry (ram s) dir i) as Hdir.
  { intros i Hi. rewrite (mi_entries _ _ _ _ _ _ _ _ _ Hm) by done. destruct (Z.eqb_spec T dir); [done|]. rewrite Z.eqb_refl.
    cbn [andb]. by rewrite andb_false_r. }
  destruct x as [|i|i j]; cbn [place_ok] in Hx.
  - by rewrite !decide_False.
  - rewrite decide_False by done. cbn [frame_at]. rewrite Hdir by (by apply private_idx).
    destruct (Z.eqb_spec d i) as [<-|Hne]; [rewrite decide_True by done; by rewrite frame_of_present, HeT|].
    by rewrite decide_False by congruence.
  - destruct Hx as [Hi Hj]. rewrite !frame_at_page, Hdir, (decide_False (P := PPage i j = PTable d)) by (done || unfold idx; lia).
    destruct (Z.eqb_spec d i) as [<-|Hne].
    + rewrite He', HeT, (mi_entries _ _ _ _ _ _ _ _ _ Hm), Z.eqb_refl by done. cbn [andb].
      destruct (Z.eqb_spec k j) as [<-|Hkj]; [rewrite decide_True by done; by apply frame_of_present|].
      rewrite decide_False by congruence. destruct (Z.eqb_spec dir T); [done|]. cbn [andb]. rewrite Hold.
      destruct fresh; cbn [negb andb]; [by vm_compute|]. by rewrite (HT eq_refl).
    + rewrite decide_False by congruence. destruct (present (entry (ram s) dir i)) eqn:Ep; [|done].
      assert (private i) as Hpi by (right; lia). destruct (sp_table _ _ Hsp i Hpi Ep) as (Hu & _ & Htd).
      assert (T ≠ PAGE_FRAME (entry (ram s) dir i)) as HTi.
      { destruct fresh; [by apply HTn|]. rewrite (HT eq_refl). intros E. by apply Hne, (sp_inj _ _ Hsp d i Hpd Hpi). }
      rewrite (mi_entries _ _ _ _ _ _ _ _ _ Hm) by (exact Hj || apply Hu).
      destruct (Z.eqb_spec T (PAGE_FRAME (entry (ram s) dir i))); [done|].
      destruct (Z.eqb_spec dir (PAGE_FRAME (entry (ram s) dir i))); [congruence|]. cbn [andb]. by rewrite andb_false_r.
Qed.
End steps.

Section owned.
Context (u : pmm_t) (s : vm) (dir : Z) (Hinv : vm_inv s) (Hsp : space s dir) (How : owned u s dir).

Lemma owned_mapped s' d k pte T e' fresh :
  4 ≤ d < 1024 → idx k → mapped_in s s' dir d k pte T e' fresh → present pte = true →
  frame_used (frames s) (PAGE_FRAME pte) → ¬ frame_used u (PAGE_FRAME pte) →
  (∀ x, place_ok x → frame_at (ram s) dir x ≠ Some (PAGE_FRAME pte)) → (∀ f, frame_used u f → frame_used (frames s) f) →
  owned u s' dir.
Proof using Hinv Hsp How.
  intros Hd Hk Hm Hpte Hu Hnu Hnew Hmono. assert (private d) as Hpd by (by right).
  destruct (mi_T _ _ _ _ _ _ _ _ _ Hinv Hsp Hpd Hm) as (HTu & _ & _ & Hus & HTn).
  destruct (mi_old _ _ _ _ _ _ _ _ _ Hm) as [Hold HT].
  assert (∀ x f, place_ok x → frame_at (ram s') dir x = Some f → x ≠ PPage d k → x ≠ PTable d → frame_at (ram s) dir x = Some f) as Hat.
  { intros x f Hx. rewrite (mapped_frame_at s dir Hinv Hsp s' d k pte T e' fresh x Hd Hk Hm Hpte Hx). intros E H1 H2. by rewrite !decide_False in E by done. }
  assert (frame_at (ram s') dir (PPage d k) = Some (PAGE_FRAME pte)) as Hp.
  { rewrite (mapped_frame_at s dir Hinv Hsp s' d k pte T e' fresh (PPage d k) Hd Hk Hm Hpte (conj Hd Hk)). by rewrite decide_True. }
  assert (frame_at (ram s') dir (PTable d) = Some T) as Ht.
  { rewrite (mapped_frame_at s dir Hinv Hsp s' d k pte T e' fresh (PTable d) Hd Hk Hm Hpte Hpd). rewrite decide_False by done. by rewrite decide_True. }
  assert (fresh = false → frame_at (ram s) dir (PTable d) = Some T) as Ht0.
  { intros ->. rewrite (HT eq_refl). by apply frame_at_table. }
  assert (∀ x, place_ok x → x ≠ PTable d → frame_at (ram s) dir x ≠ Some T) as HTx.
  { intros x Hx Hne E. destruct fresh; [by apply (HTn eq_refl T); [apply (ow_new _ _ _ How x T Hx E)|]|].
    by apply Hne, (ow_inj _ _ _ How x (PTable d) T Hx Hpd E), Ht0. }
  assert (T ≠ PAGE_FRAME pte) as HTp.
  { destruct fresh; [by apply HTn|]. intros ->. by apply (Hnew (PTable d) Hpd), Ht0. }
  split.
  - intros x y f Hx Hy Ex Ey.
    destruct (decide (x = PPage d k)) as [->|Hx1], (decide (y = PPage d k)) as [->|Hy1]; [done| | |].
    + exfalso. rewrite Hp in Ex. injection Ex as <-. destruct (decide (y = PTable d)) as [->|Hy2]; [congruence|].
      by apply (Hnew y Hy), Hat.
    + exfalso. rewrite Hp in Ey. injection Ey as <-. destruct (decide (x = PTable d)) as [->|Hx2]; [congruence|].
      by apply (Hnew x Hx), Hat.
    + destruct (decide (x = PTable d)) as [->|Hx2], (decide (y = PTable d)) as [->|Hy2]; [done| | |].
      * exfalso. rewrite Ht in Ex. injection Ex as <-. by apply (HTx y Hy Hy2), Hat.
      * exfalso. rewrite Ht in Ey. injection Ey as <-. by apply (HTx x Hx Hx2), Hat.
      * apply (ow_inj _ _ _ How x y f); [done|done|by apply Hat|by apply Hat].
  - intros x f Hx Ex. destruct (decide (x = PPage d k)) as [->|Hx1]; [rewrite Hp in Ex; injection Ex as <-; split; [by apply Hus|done]|].
    destruct (decide (x = PTable d)) as [->|Hx2].
    + rewrite Ht in Ex. injection Ex as <-. split; [exact HTu|]. destruct fresh; [intros Hf; by apply (HTn eq_refl T); [apply Hmono|]|].
      apply (ow_new _ _ _ How (PTable d) T Hpd), Ht0. done.
    + destruct (ow_new _ _ _ How x f Hx (Hat x f Hx Ex Hx1 Hx2)). split; [by apply Hus|done].
Qed.

(** Giving the address space back. *)
Lemma free_places c :
  dir ≠ 0 → pmm_inv (IO u []) → (∀ f, frame_used u f → frame_used (frames s) f) → (∀ t, kernel_page s t → frame_used u t) →
  ∃ p', paging_free_directory dir (IO s c) = Some ((), IO (set_frames p' s) c) ∧ vm_inv (set_frames p' s) ∧
    (∀ va, addr32 va → kwalk (set_frames p' s) va = kwalk s va) ∧
    (∀ f, frame_used p' f ↔ frame_used (frames s) f ∧ ∀ x, place_ok x → frame_at (ram s) dir x ≠ Some f) ∧
    (∀ f, frame_used u f → frame_used p' f).
Proof using Hinv How.
  intros Hd Hpu Hmono Hkp. pose proof (vi_pmm _ Hinv) as [Hwf _]. cbn [st] in Hwf.
  destruct (frees_run (dir_frames (ram s) dir) s c) as (p' & E & Hwf' & Hus); [exact Hwf| | |].
  { apply dir_frames_nodup, How. }
  { apply Forall_forall. intros f (x & Hx & Hf)%list_elem_of_In%elem_dir_frames. apply (ow_new _ _ _ How x f Hx Hf). }
  assert (∀ f, frame_used p' f ↔ frame_used (frames s) f ∧ ∀ x, place_ok x → frame_at (ram s) dir x ≠ Some f) as Hiff.
  { assert (∀ f, aligned f → 0 < f < TOTAL_MEMORY → used p' (f / PAGE_SIZE) = used (frames s) (f / PAGE_SIZE) && negb (bool_decide (f ∈ dir_frames (ram s) dir))) as Hu.
    { intros f Hal Hr. change TOTAL_MEMORY with 16777216 in Hr. unfold aligned in Hal. pose proof (Z.div_mod f 4096).
      rewrite Hus by (unfold is_frame, PAGE_SIZE; change TOTAL_FRAMES with 4096; lia). do 2 f_equal. unfold listed. unfold PAGE_SIZE.
      by replace (f / 4096 * 4096) with f by lia. }
    intros f. unfold frame_used. split.
    - intros (Hal & Hr & Hf). rewrite Hu in Hf by done. apply andb_true_iff in Hf as [Hf1 Hf2%negb_true_iff%bool_decide_eq_false_1].
      split; [done|]. intros x Hx Ex. apply Hf2, elem_dir_frames. by exists x.
    - intros ((Hal & Hr & Hf) & Hno). split; [done|]. split; [done|]. rewrite Hu, Hf by done. cbn [andb].
      apply negb_true_iff, bool_decide_eq_false_2. intros (x & Hx & Ex)%elem_dir_frames. by apply (Hno x Hx). }
  assert (∀ f, frame_used u f → frame_used p' f) as Hkeep.
  { intros f Hf. apply Hiff. split; [by apply Hmono|]. intros x Hx Ex. by destruct (ow_new _ _ _ How x f Hx Ex). }
  destruct (kernel_framed s (set_frames p' s) Hinv) as [Hi Hw]; [done|done| | |done|].
  { split; [exact Hwf'|]. cbn [st frames set_frames]. intros f Hf Hr. rewrite Hus by exact Hf.
    rewrite (proj2 (vi_pmm _ Hinv) f Hf Hr : used (frames s) f = true). cbn [andb]. apply negb_true_iff, bool_decide_eq_false_2.
    intros (x & Hx & Ex)%elem_dir_frames. destruct (ow_new _ _ _ How x _ Hx Ex) as [(Hal & Hrg & _) Hnu]. apply Hnu.
    split; [exact Hal|]. split; [exact Hrg|]. unfold PAGE_SIZE. rewrite Z.div_mul by done. by apply Hpu. }
  { intros a Ha. by apply Hkeep, Hkp. }
  exists p'. rewrite free_directory_frees by exact Hd. done.
Qed.
End owned.

(** ** An address space under construction *)

Definition full (s : vm) : Prop := used_frames (frames s) = TOTAL_FRAMES.

(** [s] is the memory while the address space [dir] is built, from the state
    [s0]: what was in use before is still in use and unchanged. *)
Record building (s0 s : vm) (dir : Z) : Prop := {
  bu_inv : vm_inv s;
  bu_space : space s dir;
  bu_owned : owned (frames s0) s dir;
  bu_used : ∀ f, frame_used (frames s0) f → frame_used (frames s) f;
  bu_kernel : ∀ t, kernel_page s t ↔ kernel_page s0 t;
  bu_walk : ∀ va, addr32 va → kwalk s va = kwalk s0 va;
  bu_cpu : cr3 s = cr3 s0 ∧ pd_physical_address s = pd_physical_address s0;
  bu_plain : ∀ f, plain_frame s0 f → data_frame s dir f ∧ ∀ o, 0 ≤ o < 4096 → load8 (ram s) (f + o) = load8 (ram s0) (f + o)
}.

Lemma full_alloc s : vm_inv s → full s → alloc_page (frames s) = Some (0, frames s).
Proof.
  intros Hinv Hf. destruct (alloc_page_fresh (frames s) [] (vi_pmm _ Hinv)) as [(a & p' & _ & Hfr & Hp')|[E _]]; [|exact E].
  pose proof (fp_count _ _ _ Hfr) as Hc. pose proof (used_frames_bound p' (proj1 Hp')) as Hb. unfold full in Hf.
  change TOTAL_FRAMES with 4096 in Hf. cbn [st] in Hb. lia.
Qed.

Lemma full_grows s s' : vm_inv s' → used_frames (frames s) ≤ used_frames (frames s') → full s → full s'.
Proof.
  intros Hinv Hle Hf. pose proof (used_frames_bound _ (proj1 (vi_pmm _ Hinv))) as Hb. unfold full in *. cbn [st] in Hb.
  change TOTAL_FRAMES with 4096 in *. lia.
Qed.

Lemma building_clone s s' dir pt0 : vm_inv s → cloned s s' dir pt0 → building s s' dir.
Proof.
  intros Hinv Hcl. destruct (cloned_kernel s s' dir pt0 Hinv Hcl) as [Hi Hw]. destruct (cl_cpu _ _ _ _ Hcl) as (_ & _ & Hc & _ & Hp).
  destruct (cloned_frames s s' dir pt0 Hcl) as ((p1 & Hf1 & Hf2) & Hdu & Hpu & Hne & Hold).
  assert (¬ frame_used (frames s) dir ∧ ¬ frame_used (frames s) pt0) as [Hnd Hnp].
  { split; [intros Hd; by destruct (Hold dir Hd)|intros Hd; by destruct (Hold pt0 Hd) as (_ & ? & _)]. }
  assert (∀ x f, place_ok x → frame_at (ram s') dir x = Some f → (x = PDir ∧ f = dir) ∨ (x = PTable 0 ∧ f = pt0)) as Hat.
  { destruct (pt0_pde s s' dir pt0 Hcl) as (_ & Hv0 & Hvf & _).
    intros [|i|i j] f Hx Ex; cbn [place_ok frame_at] in *; [injection Ex as <-; by left| |].
    - rewrite (cl_dir _ _ _ _ Hcl) in Ex by (by apply private_idx). destruct (Z.eqb_spec i 0) as [->|Hi0].
      + right. split; [done|]. rewrite frame_of_present in Ex by done. congruence.
      + unfold private in Hx. destruct (Z.ltb_spec i 4); [lia|]. by vm_compute in Ex.
    - change (frame_at (ram s') dir (PPage i j) = Some f) in Ex. rewrite frame_at_page in Ex. destruct Hx as [Hx _].
      rewrite (cl_dir _ _ _ _ Hcl) in Ex by (unfold idx; lia). destruct (Z.eqb_spec i 0), (Z.ltb_spec i 4); try lia.
      by vm_compute in Ex. }
  split; [exact Hi|exact (cloned_space s s' dir pt0 Hinv Hcl)| |intros f Hf; by apply Hold| |exact Hw|by split|].
  - split.
    + intros x y f Hx Hy Ex Ey. destruct (Hat x f Hx Ex) as [[-> ->]|[-> ->]], (Hat y _ Hy Ey) as [[-> E]|[-> E]]; congruence.
    + intros x f Hx Ex. by destruct (Hat x f Hx Ex) as [[-> ->]|[-> ->]].
  - apply (kernel_page_cloned s s' dir pt0 Hinv Hcl).
  - intros f. by apply (clone_data s s' dir pt0 f Hinv Hcl).
Qed.

Section build.
Context (s0 s : vm) (dir : Z) (Hb : building s0 s dir).

(** A step of the loader that keeps the ownership. *)
Lemma building_loads s' lo hi :
  loads s s' dir lo hi → owned (frames s0) s' dir → (∀ f, frame_used (frames s0) f → frame_used (frames s') f) →
  (∀ t, kernel_page s' t ↔ kernel_page s0 t) → building s0 s' dir.
Proof using Hb.
  destruct Hb as [_ _ _ _ _ Hw [Hc Hpd] Hp]. intros Hl How Hus Hkp. destruct (ld_cpu _ _ _ _ _ Hl) as [Hc' Hpd'].
  split; [apply Hl|apply Hl|exact How|exact Hus|exact Hkp| |split; congruence|].
  - intros va Hva. by rewrite (ld_kernel _ _ _ _ _ Hl), Hw.
  - intros f Hf. destruct (Hp f Hf) as [Hd Hby]. split; [by apply (ld_data _ _ _ _ _ Hl)|].
    intros o Ho. by rewrite (ld_bytes _ _ _ _ _ Hl), Hby.
Qed.

(** A frame is taken and written. *)
Lemma building_fill phys p' m' :
  fresh_page (frames s) phys p' → pmm_inv (IO p' []) →
  (∀ a, a < phys ∨ phys + 4096 ≤ a → load8 m' a = load8 (ram s) a) →
  let s1 := upd_ram (λ _, m') (set_frames p' s) in
  building s0 s1 dir ∧ loads s s1 dir 0 0 ∧ data_frame s1 dir phys ∧ ¬ frame_used (frames s0) phys ∧
  ∀ x, place_ok x → frame_at (ram s1) dir x ≠ Some phys.
Proof using Hb.
  pose proof Hb as [Hinv Hsp How Hu Hk _ _ _]. intros Hfr Hp' Hm' s1.
  pose proof (fill_extends s phys p' m' Hfr Hp' Hm') as Hex. fold s1 in Hex.
  pose proof (extends_loads s s1 dir 0 Hinv Hsp Hex) as Hl.
  assert (∀ f, frame_used (frames s) f → phys ≠ f) as Hne by (intros f Hf; by destruct (fresh_apart _ _ _ _ Hfr Hf)).
  split_and!; [|exact Hl|exact (fill_data s dir phys p' m' Hinv Hsp Hfr Hp' Hm')|intros Hf; by apply (Hne phys); [apply Hu|]|].
  - apply (building_loads s1 0 0 Hl); [exact (owned_extends _ s dir Hinv Hsp How s1 Hex)|intros f Hf; by apply (ex_used _ _ Hex), Hu|].
    intros t. by rewrite (ex_kernel_page s s1 Hinv Hex).
  - intros x Hx Ex. assert (frame_at (ram s) dir x = Some phys) as E.
    { rewrite <- Ex. symmetry. revert x Hx Ex. intros x Hx _. revert x Hx. apply frame_at_ext.
      - intros i Hi. by apply (ex_dir_entry s s1 dir Hsp Hex).
      - intros i j Hi Hj Hpr. apply (ex_entry _ _ Hex); [by apply (sp_table _ _ Hsp i Hi Hpr)|exact Hj]. }
    by apply (Hne phys); [apply (ow_new _ _ _ How x phys Hx E)|].
Qed.

(** A page of the space is mapped to such a frame, if there is a table. *)
Lemma building_map c vpage phys flags :
  frame_used (frames s) phys → ¬ frame_used (frames s0) phys → (∀ x, place_ok x → frame_at (ram s) dir x ≠ Some phys) →
  aligned vpage → 0x1000000 ≤ vpage < 4294967296 → addr32 flags → Z.testbit flags 2 = true →
  ∃ s' out, paging_map_page_in dir vpage phys flags (IO s c) = Some ((), IO s' (c ++ out)) ∧ nonzero out ∧
    building s0 s' dir ∧ loads s s' dir vpage (vpage + 4096) ∧ used_frames (frames s) ≤ used_frames (frames s') ∧
    ((∀ va, vpage ≤ va < vpage + 4096 → ∃ w, hw_walk (ram s') dir va = Some (phys, w, true)) ∨ full s').
Proof using Hb.
  pose proof Hb as [Hinv Hsp How Hu Hk _ _ _]. intros Hfu Hnew Hno Hal Hv Hfl Hbit. pose proof Hfu as (_ & Hpr & _).
  change TOTAL_MEMORY with 16777216 in Hpr.
  assert (addr32 vpage) as Hva by (unfold addr32; lia). assert (addr32 phys) as Hph by (unfold addr32; lia).
  assert (private (PAGE_DIR_INDEX vpage)) as Hd.
  { destruct (dir_index vpage Hva) as [-> Hd]. right. split; [|lia]. apply Z.div_le_lower_bound; lia. }
  destruct (map_page_in_run s c dir vpage phys flags Hinv Hsp Hva Hph Hfl Hd) as [[E Hfull]|(s' & T & e' & fresh & E & Hm & Huser)].
  - exists s. eexists. split; [exact E|]. split; [apply (bool_decide_unpack _); by vm_compute|].
    split; [exact Hb|]. split; [by apply loads_refl|]. split; [done|by right].
  - destruct (mapped_loads s s' dir vpage phys flags T e' fresh Hinv Hsp Hfu Hal Hv Hfl Hbit Hm ltac:(by rewrite Huser, Hbit))
      as (Hl & _ & Hwalk & Hd4 & Hk' & Hpte & Hpf).
    exists s', []. rewrite app_nil_r. split_and!; [exact E|constructor| |exact Hl| |by left].
    2:{ pose proof (mi_frames _ _ _ _ _ _ _ _ _ Hm) as Hfr. destruct fresh; [rewrite (fp_count _ _ _ Hfr); lia|by rewrite Hfr]. }
    destruct (mi_T _ _ _ _ _ _ _ _ _ Hinv Hsp Hd Hm) as (_ & _ & _ & Hus & _).
    apply (building_loads s' _ _ Hl); [|intros f Hf; by apply Hus, Hu|intros t; rewrite <- Hk; apply (mi_kernel_page _ _ _ _ _ _ _ _ _ Hinv Hsp Hd Hm)].
    eapply (owned_mapped _ s dir Hinv Hsp How s'); [exact Hd4|exact Hk'|exact Hm|exact Hpte|by rewrite Hpf..|exact Hu].
Qed.
End build.

(** ** Messages *)

(** A log whose messages have been written by [klog]. *)
Definition entry_ok (e : klog_entry) : Prop :=
  0 ≤ level e < 4 ∧ 0 ≤ timestamp e < 4294967296 ∧ ∃ t, nonzero t ∧ (length t ≤ 127)%nat ∧ message e = pad128 t.
Definition logs (lg : klog_t) (h : list klog_entry) : Prop := log_rep lg h ∧ Forall entry_ok h.

Lemma level_name lvl : 0 ≤ lvl < 4 → ∃ name, level_names !! Z.to_nat lvl = Some name ∧ nonzero name.
Proof.
  intros Hl. assert (lvl = 0 ∨ lvl = 1 ∨ lvl = 2 ∨ lvl = 3) as [->|[->|[->| ->]]] by lia;
    eexists; (split; [reflexivity|]); apply (bool_decide_unpack _); by vm_compute.
Qed.

Lemma log_says {D} (k : kernel D) c h lvl format arglist :
  logs (k_log k) h → 0 ≤ lvl < 4 → Z.of_nat (length h) + 1 < 4294967296 → fits format arglist = true → Forall arg_ok arglist →
  ∃ lg h' out, log_op (klog lvl format arglist) (IO k c) = Some ((), IO (Kernel (k_os k) lg (k_fs k)) (c ++ out)) ∧
    logs lg h' ∧ length h' = S (length h) ∧ nonzero out.
Proof.
  intros [Hrep Hok] Hl Hn Hf Ha. destruct (fits_text _ _ Hf Ha) as (Hs & text & Et & Hnz).
  destruct (klog_run (k_log k) h lvl format arglist text c Hrep Hl Hn Hs Et Hnz) as (lg & name & Hname & E & Hrep').
  destruct (level_name lvl Hl) as (name' & E' & Hn'). rewrite Hname in E'. injection E' as ->.
  assert (nonzero (cut text)) as Hcut by (by apply Forall_take).
  eexists lg, _, _. split_and!.
  - unfold log_op, zoom_io, zoom. cbn [st con k_log]. by rewrite E.
  - split; [exact Hrep'|]. apply Forall_app. split; [exact Hok|]. constructor; [|constructor]. split; [done|].
    cbn [timestamp message]. split; [lia|]. exists (cut text). split_and!; [done|apply length_cut|done].
  - rewrite length_app. cbn. lia.
  - repeat (apply Forall_app; split); [exact Hn'|by repeat constructor|exact Hcut|by repeat constructor].
Qed.

(** ** The arguments *)

Lemma args_size_nonneg args : 0 ≤ args_size args.
Proof. unfold args_size. lia. Qed.

Lemma with_kram {D} (k : kernel D) : with_ram (kram k) k = k.
Proof. by destruct k as [[[]]]. Qed.

Section setup.
Context {D : Type} (k : kernel D) (c : list Z) (ustack_phys : Z) (args argv : list (list Z)) (h : list klog_entry).
Context (Hargs : c_strings args argv) (Hok : args_ok args).
Context (Hpage : 0 ≤ ustack_phys ≤ 4294963199 ∧ ustack_phys mod 4096 = 0).
Context (Hlog : logs (k_log k) h) (Hmsgs : Z.of_nat (length h) + 1 < 4294967296).

(** The message for arguments that do not fit. *)
Lemma setup_args_large : (0 < length args)%nat → ARGV_MAX_TOTAL < args_size args →
  ∃ lg h' out, setup_user_stack_args ustack_phys (Some argv) (Z.of_nat (length args)) (IO k c) =
      Some (USER_STACK_TOP, IO (Kernel (k_os k) lg (k_fs k)) (c ++ out)) ∧
    logs lg h' ∧ length h' = S (length h) ∧ nonzero out.
Proof using Hargs Hok Hlog Hmsgs.
  intros Hn Hbig. destruct Hok as [_ Hsz]. unfold args_size in *. unfold setup_user_stack_args. destruct (Z.leb_spec (Z.of_nat (length args)) 0); [lia|].
  rewrite bind_run, Nat2Z.id, (total_str_run _ _ Hargs) by lia. cbn [of_option].
  rewrite (u32_small (_ + 1 + 1 + 1)), (u32_small (_ * 4)), (u32_small (_ + _ * 4)) by lia.
  rewrite Z.gtb_ltb. destruct (Z.ltb_spec ARGV_MAX_TOTAL
    (Z.of_nat (length (packed args)) + (Z.of_nat (length args) + 1 + 1 + 1) * 4)); [|lia].
  match goal with |- context [klog_error _ ?l] => destruct (log_says k c h KLOG_ERROR (lit "ELF: argv too large (%u + %u > %u)") l)
    as (lg & h' & out & E & Hlg & Hlen & Hout) end; [exact Hlog|done|exact Hmsgs|done|by repeat constructor|].
  unfold klog_error. mstep E. by exists lg, h', out.
Qed.

(** C29: The arguments of a new program, for every argument list but one of
    more than 64 strings that would fit: [setup_user_stack_args] returns.  If
    there are arguments and they fit (strings, pointers and the two words of
    the frame in a page less 256 bytes), it writes only the stack page, and at
    the returned stack pointer, which is word aligned and inside the page, the
    program finds argc, then argv pointing to argc string pointers and a null
    pointer; each pointer leads to its string, terminator included, all inside
    the page and above the table.  Otherwise no memory is written and the
    result is the top of the stack; without arguments nothing else happens,
    and arguments that are too large are reported in one log message. *)
Theorem setup_user_stack_args_layout :
  if decide (args_fit args) then
    ∃ esp m', setup_user_stack_args ustack_phys (Some argv) (Z.of_nat (length args)) (IO k c) = Some (esp, IO (with_ram m' k) c) ∧
      args_on_stack m' ustack_phys args esp ∧
      ∀ a, a < ustack_phys ∨ ustack_phys + PAGE_SIZE ≤ a → load8 m' a = load8 (kram k) a
  else if decide (args = []) then
    setup_user_stack_args ustack_phys (Some argv) (Z.of_nat (length args)) (IO k c) = Some (USER_STACK_TOP, IO k c)
  else
    ∃ lg h' out, setup_user_stack_args ustack_phys (Some argv) (Z.of_nat (length args)) (IO k c) =
        Some (USER_STACK_TOP, IO (Kernel (k_os k) lg (k_fs k)) (c ++ out)) ∧
      logs lg h' ∧ length h' = S (length h) ∧ nonzero out.
Proof using All.
  destruct (decide (args_fit args)) as [[Hn Hfit]|Hno].
  - destruct Hpage. by apply setup_args_run.
  - destruct (decide (args = [])) as [->|Hne]; [done|]. assert (0 < length args)%nat as Hn by (by destruct args; [|cbn; lia]).
    apply setup_args_large; [done|]. destruct Hok as [[Hle|] _]; [|done].
    destruct (Z.lt_ge_cases ARGV_MAX_TOTAL (args_size args)); [done|]. exfalso. apply Hno. by repeat split.
Qed.

(** The same, for the loader: what holds in all cases. *)
Lemma setup_args_any :
  ∃ esp m' lg h' out, setup_user_stack_args ustack_phys (Some argv) (Z.of_nat (length args)) (IO k c) =
      Some (esp, IO (Kernel (k_os (with_ram m' k)) lg (k_fs k)) (c ++ out)) ∧ nonzero out ∧
    logs lg h' ∧ (length h' ≤ S (length h))%nat ∧ word32 esp ∧ (args_fit args → args_on_stack m' ustack_phys args esp) ∧
    ∀ a, a < ustack_phys ∨ ustack_phys + PAGE_SIZE ≤ a → load8 m' a = load8 (kram k) a.
Proof using All.
  destruct (decide (args_fit args)) as [[Hn Hfit]|Hno].
  - destruct Hpage as [HP HP']. destruct (setup_args_run k c ustack_phys args argv Hargs Hn HP HP' Hfit) as (esp & m' & E & Hst & Hm).
    exists esp, m', (k_log k), h, []. rewrite app_nil_r. split_and!; [exact E|constructor|exact Hlog|lia| |done|exact Hm].
    pose proof (as_esp _ _ _ _ Hst) as [Hesp _]. unfold USER_STACK_VIRT, USER_STACK_TOP in Hesp. unfold word32. lia.
  - assert (word32 USER_STACK_TOP) as Hw by (unfold word32, USER_STACK_TOP; lia).
    destruct (decide (args = [])) as [->|Hne].
    { exists USER_STACK_TOP, (kram k), (k_log k), h, []. rewrite app_nil_r, with_kram. destruct k.
      split_and!; [done|constructor|exact Hlog|lia|done|by intros ?%Hno|done]. }
    assert (0 < length args)%nat as Hn by (by destruct args; [|cbn; lia]).
    destruct setup_args_large as (lg & h' & out & E & Hlg & Hlen & Hout); [done| |].
    { destruct Hok as [[Hle|] _]; [|done]. destruct (Z.lt_ge_cases ARGV_MAX_TOTAL (args_size args)); [done|]. exfalso. apply Hno. by repeat split. }
    exists USER_STACK_TOP, (kram k), lg, h', out. rewrite with_kram. split_and!; [exact E|done|exact Hlg|lia|done|by intros ?%Hno|done].
Qed.
End setup.

(** ** Pages and segments with whatever memory is left *)

Section loader.
Context {D : Type} `{BlockDev D} (o : os) (fs : fs D) (s0 : vm) (dir : Z).

(** The kernel with the memory [s] and the log [lg]. *)
Abbreviation K s lg := (Kernel (set_vmem s o) lg fs).

Lemma load_page_any s lg h c file ph flags i vpage :
  building s0 s dir → source_ok s dir file ph → seg_ok ph →
  aligned vpage → 0x1000000 ≤ vpage → vpage + 4096 < 4294967296 → addr32 flags → Z.testbit flags 2 = true →
  logs lg h → Z.of_nat (length h) + 1 < 4294967296 →
  ∃ r s' lg' h' out, load_page file dir ph flags i vpage (IO (K s lg) c) = Some (r, IO (K s' lg') (c ++ out)) ∧ nonzero out ∧
    building s0 s' dir ∧ loads s s' dir vpage (vpage + 4096) ∧ used_frames (frames s) ≤ used_frames (frames s') ∧ logs lg' h' ∧
    ((r = None ∧ lg' = lg ∧ h' = h ∧ ((∀ va, vpage ≤ va < vpage + 4096 → sees s' dir va (seg_byte ph file (ram s) va)) ∨ full s')) ∨
     (r = Some (-1) ∧ length h' = S (length h))).
Proof.
  intros Hb Hsrc Hok Hal Hv Hv' Hfl Hbit Hlg Hn. pose proof (sr_range _ _ _ _ Hsrc) as [Hf0 Hf1]. pose proof (bu_inv _ _ _ Hb) as Hinv.
  set (k := Kernel o lg fs). unfold load_page.
  destruct (alloc_page_fresh (frames s) [] (vi_pmm _ Hinv)) as [(phys & p' & E & Hfr & Hp')|[E _]].
  2:{ mstep (vmem_op_run pmm_alloc k s c _ _ _ (pmm_alloc_run s c _ _ E)). cbn [Z.eqb].
      destruct (log_says (with_vm (set_frames (frames s) s) k) c h KLOG_ERROR (lit "ELF: out of physical memory mapping segment %d") [VInt i])
        as (lg' & h' & out & El & Hlg' & Hlen & Hout); [exact Hlg|done|exact Hn|done|by repeat constructor|].
      unfold klog_error. mstep El. exists (Some (-1)), s, lg', h', out.
      assert (set_frames (frames s) s = s) as Es by (by destruct s). cbn [with_vm k_os k_fs k]. rewrite Es.
      split_and!; [done|exact Hout|exact Hb|apply loads_refl; apply Hb|done|exact Hlg'|by right]. }
  destruct (fresh_frame_used _ _ _ Hfr) as [(Hpal & _) Hpr]. change TOTAL_MEMORY with 16777216 in Hpr.
  set (m' := filled (ram s) file ph vpage phys).
  assert (∀ a, load8 m' a = if (phys <=? a) && (a <? phys + 4096) then seg_byte ph file (ram s) (vpage + (a - phys)) else load8 (ram s) a) as Hbytes.
  { intros a. apply filled_bytes; try done; try lia. intros x Hx Heq. pose proof (df_used _ _ _ (sr_safe _ _ _ _ Hsrc x Hx)) as Hu.
    destruct (fresh_apart _ _ _ _ Hfr Hu) as [Hne _]. congruence. }
  assert (∀ a, a < phys ∨ phys + 4096 ≤ a → load8 m' a = load8 (ram s) a) as Hm'.
  { intros a Ha. rewrite Hbytes. repeat zcase; done. }
  destruct (building_fill s0 s dir Hb phys p' m' Hfr Hp' Hm') as (Hb1 & Hl1 & Hdf & Hnew & Hno).
  set (s1 := upd_ram (λ _, m') (set_frames p' s)) in *.
  destruct (building_map s0 s1 dir Hb1 c vpage phys flags (df_used _ _ _ Hdf) Hnew Hno Hal ltac:(lia) Hfl Hbit)
    as (s2 & out & E2 & Hout & Hb2 & Hl2 & Hgrow & Hmap).
  exists None, s2, lg, h, out.
  assert (loads s s2 dir vpage (vpage + 4096)) as Hl.
  { apply (loads_seq s s1 s2); [|exact Hl2]. split; [apply Hl1..|]. intros va f w Hva _. apply (ld_walk _ _ _ _ _ Hl1); [exact Hva|].
    unfold addr32 in Hva. lia. }
  split_and!; [|exact Hout|exact Hb2|exact Hl| |exact Hlg|].
  2:{ etransitivity; [|exact Hgrow]. change (frames s1) with p'. rewrite (fp_count _ _ _ Hfr). lia. }
  - mstep (vmem_op_run pmm_alloc k s c _ _ _ (pmm_alloc_run s c _ _ E)).
    destruct (Z.eqb_spec phys 0); [lia|].
    mstep (vmem_op_run (zero_page phys) k (set_frames p' s) c () (upd_ram (λ _, mem_set (ram s) phys 0 4096) (set_frames p' s)) c eq_refl).
    cbv zeta. mstep (filled_fold file ph vpage phys k (set_frames p' s) c).
    by mstep (vmem_op_run _ k _ c _ _ _ E2).
  - left. split_and!; [done..|]. destruct Hmap as [Hw|Hfull]; [left|by right]. intros va Hva. destruct (Hw va Hva) as [w Ew].
    exists phys, w. split; [exact Ew|]. split; [exact (ld_data _ _ _ _ _ Hl2 _ Hdf)|]. split; [apply (fp_pool _ _ _ Hfr)|].
    assert (va mod 4096 = va - vpage) as Hmod.
    { apply (in_page_iff vpage va Hal) in Hva. unfold aligned, PAGE_SIZE in *.
      pose proof (Z.div_mod va 4096). pose proof (Z.div_mod vpage 4096). lia. }
    rewrite (ld_bytes _ _ _ _ _ Hl2) by (done || lia). change (ram s1) with m'. rewrite Hbytes, Hmod. repeat zcase.
    cbn [andb]. f_equal. lia.
Qed.

Lemma phdr_fields m' p : let ph := phdr_at m' p in
  0 ≤ p_offset ph ∧ 0 ≤ p_vaddr ph ∧ 0 ≤ p_filesz ph ∧ 0 ≤ p_memsz ph.
Proof. cbn. split_and!; apply load32_bound. Qed.

(** The checks of a segment: refused, or its arithmetic is sound. *)
Lemma segment_checked s lg h c size i ph file :
  loadable ph = true → 0 ≤ p_offset ph → 0 ≤ p_filesz ph → 0 ≤ p_memsz ph →
  p_offset ph + p_filesz ph < 4294967296 → p_vaddr ph + p_memsz ph + 4095 < 4294967296 →
  logs lg h → Z.of_nat (length h) + 1 < 4294967296 →
  (∃ lg' h' out, load_segment file size dir i ph (IO (K s lg) c) = Some (Some (-1), IO (K s lg') (c ++ out)) ∧
     nonzero out ∧ logs lg' h' ∧ (length h' ≤ S (length h))%nat) ∨
  (seg_ok ph ∧ p_offset ph + p_filesz ph ≤ size).
Proof using H.
  intros El Ho Hfs Hms Hoff Hend Hlg Hn. destruct (loadable_true _ El) as [Htype Hm0]. unfold load_segment.
  rewrite Htype, Z.eqb_refl, !Z.gtb_ltb, u32_small by lia. cbn [negb]. change (KERNEL_PDE_COUNT * 4 * 1024 * 1024) with 0x1000000.
  assert (∃ lg' h' out, Some (Some (-1), IO (K s lg) c) = Some (Some (-1), IO (K s lg') (c ++ out)) ∧
     nonzero out ∧ logs lg' h' ∧ (length h' ≤ S (length h))%nat) as Hquiet.
  { exists lg, h, []. rewrite app_nil_r. split_and!; [done|constructor|done|lia]. }
  destruct (Z.eqb_spec (p_memsz ph) 0); [done|]. destruct (Z.ltb_spec (p_memsz ph) (p_filesz ph)); [by left|].
  destruct (Z.ltb_spec size (p_offset ph + p_filesz ph)); [by left|]. destruct (Z.ltb_spec (p_vaddr ph) 0x1000000).
  - left. destruct (log_says (K s lg) c h KLOG_ERROR (lit "ELF: segment vaddr 0x%x overlaps kernel") [VInt (p_vaddr ph)])
      as (lg' & h' & out & E & Hlg' & Hlen & Hout); [exact Hlg|done|exact Hn|done|by repeat constructor|].
    exists lg', h', out. unfold klog_error. mstep E. split_and!; [done|done|done|lia].
  - right. split; [|done]. split; lia.
Qed.

Context (m : mem) (buf size : Z) (Htm : tame m buf size).

Lemma load_segment_any s lg h c i :
  building s0 s dir → holds s dir m buf size → 0 ≤ i < e_phnum (ehdr_at m buf) → logs lg h → Z.of_nat (length h) + 1 < 4294967296 →
  let ph := phdr_no m buf i in
  ∃ r s' lg' h' out, load_segment buf size dir i ph (IO (K s lg) c) = Some (r, IO (K s' lg') (c ++ out)) ∧ nonzero out ∧
    building s0 s' dir ∧ loads s s' dir 0x1000000 0xFFFFF000 ∧ used_frames (frames s) ≤ used_frames (frames s') ∧ logs lg' h' ∧
    (∀ va b, addr32 va → (loadable ph = true → va < seg_start ph ∨ seg_end ph ≤ va) → sees s dir va b → sees s' dir va b) ∧
    ((r = None ∧ lg' = lg ∧ h' = h ∧ ((loadable ph = true → sees_segment s' dir ph buf m) ∨ full s')) ∨
     (r = Some (-1) ∧ (length h' ≤ S (length h))%nat)).
Proof using H Htm.
  intros Hb Hh Hi Hlg Hn ph. destruct (loadable ph) eqn:El.
  2:{ exists None, s, lg, h, []. rewrite app_nil_r. split_and!; [|constructor|exact Hb|apply loads_refl; apply Hb|done|exact Hlg|by intros|].
      - unfold load_segment. unfold loadable in El. apply andb_false_iff in El as [->|El]; [done|].
        apply negb_false_iff in El. rewrite El. by destruct (negb (p_type ph =? PT_LOAD)).
      - left. split_and!; [done..|by left]. }
  destruct (ta_segs _ _ _ Htm i Hi El) as [Hno1 Hno2]. fold ph in Hno1, Hno2.
  destruct (phdr_fields m (buf + e_phoff (ehdr_at m buf) + i * e_phentsize (ehdr_at m buf))) as (Ho0 & Hv0 & Hf0 & Hms0).
  fold (phdr_no m buf i) ph in Ho0, Hv0, Hf0, Hms0. destruct (loadable_true _ El) as [Htype Hm0].
  destruct (segment_checked s lg h c size i ph buf El Ho0 Hf0 Hms0 Hno1 Hno2 Hlg Hn) as [(lg' & h' & out & E & Hout & Hlg' & Hlen)|[Hok Hsz]].
  { exists (Some (-1)), s, lg', h', out. split_and!; [exact E|exact Hout|exact Hb|apply loads_refl; apply Hb|done|exact Hlg'|by intros|by right]. }
  pose proof (tame_source s dir m buf size Htm Hh ph Ho0 Hsz) as Hsrc. pose proof (so_sizes _ Hok) as Hszs.
  destruct (seg_pages ph Hok ltac:(lia)) as (Ha1 & Ha2 & Hs & He). destruct (seg_flags_user ph) as [Hfl Hbit].
  pose proof Hok as [Hv _ Hend' Hoff]. set (n := (seg_end ph - seg_start ph) / PAGE_SIZE).
  assert (seg_end ph = seg_start ph + n * 4096) as Hn4.
  { unfold n, PAGE_SIZE, aligned in *. apply Z.mod_divide in Ha1 as [a ->]; [|done]. apply Z.mod_divide in Ha2 as [b ->]; [|done].
    rewrite <- Z.mul_sub_distr_r, Z.div_mul by done. lia. }
  destruct (for_ret_inv (λ j t, ∃ s' out, t = IO (K s' lg) (c ++ out) ∧ nonzero out ∧ building s0 s' dir ∧
      loads s s' dir (seg_start ph) (seg_start ph + j * 4096) ∧ used_frames (frames s) ≤ used_frames (frames s') ∧
      ((∀ va, seg_start ph ≤ va < seg_start ph + j * 4096 → sees s' dir va (seg_byte ph buf (ram s) va)) ∨ full s'))
    (λ r t, ∃ s' lg' h' out, r = -1 ∧ t = IO (K s' lg') (c ++ out) ∧ nonzero out ∧ building s0 s' dir ∧
      loads s s' dir (seg_start ph) (seg_end ph) ∧ used_frames (frames s) ≤ used_frames (frames s') ∧ logs lg' h' ∧ length h' = S (length h))
    (λ j, load_page buf dir ph (seg_flags ph) i (seg_start ph + j * PAGE_SIZE)) (Z.to_nat n) 0 (IO (K s lg) c))
    as [(t & E & s' & out & -> & Hout & Hb' & Hl & Hg & Hsee)|(r & t & E & s' & lg' & h' & out & -> & -> & Hout & Hb' & Hl & Hg & Hlg' & Hlen)].
  - intros j t Hj (s' & out & -> & Hout & Hb' & Hl & Hg & Hsee). unfold PAGE_SIZE. set (vp := seg_start ph + j * 4096) in *.
    assert (vp = seg_start ph + j * 4096) as Hvp by done.
    assert (source_ok s' dir buf ph) as Hsrc'.
    { split; [apply Hsrc|]. intros x Hx. apply (loads_safe _ _ _ _ _ _ Hl), (sr_safe _ _ _ _ Hsrc x Hx). }
    destruct (load_page_any s' lg h (c ++ out) buf ph (seg_flags ph) i vp Hb' Hsrc' Hok) as (r & s2 & lg2 & h2 & out2 & E & Hout2 & Hb2 & Hl2 & Hg2 & Hlg2 & Hr);
      [unfold aligned, vp in *; by rewrite Z.mod_add|lia|lia|exact Hfl|exact Hbit|exact Hlg|exact Hn|].
    assert (loads s s2 dir (seg_start ph) (vp + 4096)) as Hl3 by (apply (loads_trans s s' s2 dir (seg_start ph) vp); [lia|exact Hl|exact Hl2]).
    destruct Hr as [(-> & -> & -> & Hsee2)|(-> & Hlen2)]; [left|right; exists (-1)]; eexists; (split; [exact E|]).
    + exists s2, (out ++ out2). replace (seg_start ph + (j + 1) * 4096) with (vp + 4096) by lia.
      split_and!; [by rewrite app_assoc|by apply Forall_app_2|exact Hb2|exact Hl3|lia|].
      destruct Hsee as [Hsee|Hf]; [|right; exact (full_grows s' s2 (bu_inv _ _ _ Hb2) Hg2 Hf)].
      destruct Hsee2 as [Hsee2|Hf]; [left|by right]. intros va Hva. destruct (decide (va < vp)).
      * apply (loads_sees _ _ _ _ _ _ _ Hl2); [unfold addr32; lia|lia|]. apply Hsee. lia.
      * rewrite <- (seg_byte_loads s s' dir _ _ buf ph va Hl Hsrc). apply Hsee2. lia.
    + exists s2, lg2, h2, (out ++ out2). split_and!; [done|by rewrite app_assoc|by apply Forall_app_2|exact Hb2| |lia|exact Hlg2|exact Hlen2].
      apply (loads_weaken _ _ _ _ _ _ _ Hl3); lia.
  - exists s, []. rewrite Z.mul_0_l, Z.add_0_r, app_nil_r. split_and!; [done|constructor|exact Hb|apply loads_refl; apply Hb|done|left; lia].

  - exists None, s', lg, h, out. rewrite Z.add_0_l, Z2Nat.id, <- Hn4 in Hl, Hsee by lia.
    split_and!; [rewrite <- E; apply load_segment_enter; [exact Hok|exact Htype|lia|exact Hsz]|exact Hout|exact Hb'|apply (loads_weaken _ _ _ _ _ _ _ Hl); lia|exact Hg|exact Hlg| |].
    + intros va b Hva Hout'. apply (loads_sees _ _ _ _ _ _ _ Hl Hva). by apply Hout'.
    + left. split_and!; [done..|]. destruct Hsee as [Hsee|Hf]; [left|by right]. intros _ va Hva.
      rewrite <- (tame_byte s dir m buf size Htm Hh ph va Ho0 Hsz). exact (Hsee va Hva).
  - exists (Some (-1)), s', lg', h', out.
    split_and!; [rewrite <- E; apply load_segment_enter; [exact Hok|exact Htype|lia|exact Hsz]|exact Hout|exact Hb'|apply (loads_weaken _ _ _ _ _ _ _ Hl); lia|exact Hg|exact Hlg'| |right; split; [done|lia]].
    intros va b Hva Hout'. apply (loads_sees _ _ _ _ _ _ _ Hl Hva). by apply Hout'.
Qed.

Lemma load_segments_any s lg h c :
  building s0 s dir → holds s dir m buf size → logs lg h → Z.of_nat (length h) + 1 < 4294967296 →
  ∃ r s' lg' h' out, load_segments buf size (ehdr_at m buf) dir (IO (K s lg) c) = Some (r, IO (K s' lg') (c ++ out)) ∧ nonzero out ∧
    building s0 s' dir ∧ loads s s' dir 0x1000000 0xFFFFF000 ∧ used_frames (frames s) ≤ used_frames (frames s') ∧ logs lg' h' ∧
    ((r = 0 ∧ lg' = lg ∧ h' = h ∧
       ((image m buf size → ∀ i, 0 ≤ i < e_phnum (ehdr_at m buf) → loadable (phdr_no m buf i) = true → sees_segment s' dir (phdr_no m buf i) buf m) ∨ full s')) ∨
     (r = -1 ∧ (length h' ≤ S (length h))%nat)).
Proof using H Htm.
  intros Hb Hh Hlg Hlen. set (n := e_phnum (ehdr_at m buf)). pose proof (ehdr_phnum m buf : 0 ≤ n) as Hn.
  set (P := λ i (t : io (kernel D)), ∃ s' out, t = IO (K s' lg) (c ++ out) ∧ nonzero out ∧ building s0 s' dir ∧
    loads s s' dir 0x1000000 0xFFFFF000 ∧ used_frames (frames s) ≤ used_frames (frames s') ∧
    ((image m buf size → ∀ j, 0 ≤ j < i → loadable (phdr_no m buf j) = true → sees_segment s' dir (phdr_no m buf j) buf m) ∨ full s')).
  set (Q := λ r (t : io (kernel D)), ∃ s' lg' h' out, r = -1 ∧ t = IO (K s' lg') (c ++ out) ∧ nonzero out ∧ building s0 s' dir ∧
    loads s s' dir 0x1000000 0xFFFFF000 ∧ used_frames (frames s) ≤ used_frames (frames s') ∧ logs lg' h' ∧ (length h' ≤ S (length h))%nat).
  unfold load_segments. rewrite bind_run.
  match goal with |- context [for_ret _ _ ?b _] => set (body := b) end.
  destruct (for_ret_inv P Q body (Z.to_nat n) 0 (IO (K s lg) c))
    as [(t & E & s' & out & -> & Hout & Hb' & Hl & Hg & Hsee)|(r & t & E & s' & lg' & h' & out & -> & -> & Hout & Hb' & Hl & Hg & Hlg' & Hlen')].
  - intros i t Hi (s1 & out & -> & Hout & Hb1 & Hl & Hg & Hsee). rewrite Z2Nat.id in Hi by lia.
    pose proof (holds_loads _ _ _ _ _ _ _ _ Hl Hh) as Hh1.
    destruct (load_segment_any s1 lg h (c ++ out) i Hb1 Hh1 ltac:(fold n; lia) Hlg Hlen)
      as (r & s2 & lg2 & h2 & out2 & E & Hout2 & Hb2 & Hl2 & Hg2 & Hlg2 & Hold & Hr).
    assert (body i (IO (K s1 lg) (c ++ out)) = Some (r, IO (K s2 lg2) (c ++ out ++ out2))) as E'.
    { unfold body. rewrite bind_run. unfold quiet, zoom. cbn [get st con].
      cbn [k_os vmem set_vmem]. rewrite (image_phdr s1 dir m buf size Htm Hh1), app_assoc by (fold n; lia). exact E. }
    pose proof (loads_seq s s1 s2 dir _ _ Hl Hl2) as Hl3.
    destruct Hr as [(-> & -> & -> & Hsee2)|(-> & Hlen2)]; [left|right; exists (-1)]; eexists; (split; [exact E'|]).
    + exists s2, (out ++ out2). split_and!; [done|by apply Forall_app_2|exact Hb2|exact Hl3|lia|].
      destruct Hsee as [Hsee|Hf]; [|right; exact (full_grows s1 s2 (bu_inv _ _ _ Hb2) Hg2 Hf)].
      destruct Hsee2 as [Hnew|Hf]; [left|by right].
      intros Him j Hj Hlj. destruct (Z.eq_dec j i) as [->|Hne]; [by apply Hnew|]. intros va Hva.
      destruct (im_segs _ _ _ Him j ltac:(fold n; lia) Hlj) as (Hokj & _ & Hej).
      destruct (seg_pages _ Hokj) as (_ & _ & Hsj & _); [destruct (loadable_true _ Hlj), Hokj; lia|].
      apply Hold; [unfold addr32, USER_STACK_VIRT in *; lia| |exact (Hsee Him j ltac:(lia) Hlj va Hva)].
      intros Hli. pose proof (im_apart _ _ _ Him j i ltac:(fold n; lia) ltac:(fold n; lia) Hne Hlj Hli). lia.
    + exists s2, lg2, h2, (out ++ out2). split_and!; [done|done|by apply Forall_app_2|exact Hb2|exact Hl3|lia|exact Hlg2|exact Hlen2].
  - exists s, []. rewrite app_nil_r. split_and!; [done|constructor|exact Hb|apply loads_refl; apply Hb|done|left; lia].
  - fold n in E |- *. rewrite E. exists 0, s', lg, h, out. rewrite Z.add_0_l, Z2Nat.id in Hsee by lia.
    split_and!; [done|exact Hout|exact Hb'|exact Hl|exact Hg|exact Hlg|by left].
  - fold n in E |- *. rewrite E. exists (-1), s', lg', h', out.
    split_and!; [done|exact Hout|exact Hb'|exact Hl|exact Hg|exact Hlg'|by right].
Qed.

(** The stack: no frame, or one with the arguments, mapped unless the memory
    is full now. *)
Lemma user_stack_any s lg h c args argv :
  building s0 s dir → c_strings args argv → args_ok args → logs lg h → Z.of_nat (length h) + 1 < 4294967296 →
  vmem_op pmm_alloc (IO (K s lg) c) = Some (0, IO (K s lg) c) ∨
  ∃ P sa sb sc s3 lg' h' out out' esp, P ≠ 0 ∧ nonzero out ∧ nonzero out' ∧
    vmem_op pmm_alloc (IO (K s lg) c) = Some (P, IO (K sa lg) c) ∧
    vmem_op (zero_page P) (IO (K sa lg) c) = Some ((), IO (K sb lg) c) ∧
    vmem_op (paging_map_page_in dir USER_STACK_VIRT P USER_FLAGS) (IO (K sb lg) c) = Some ((), IO (K sc lg) (c ++ out)) ∧
    setup_user_stack_args P (Some argv) (Z.of_nat (length args)) (IO (K sc lg) (c ++ out)) = Some (esp, IO (K s3 lg') ((c ++ out) ++ out')) ∧
    logs lg' h' ∧ (length h' ≤ S (length h))%nat ∧ word32 esp ∧
    building s0 s3 dir ∧ loads s s3 dir USER_STACK_VIRT USER_STACK_TOP ∧ used_frames (frames s) ≤ used_frames (frames s3) ∧
    data_frame s3 dir P ∧ PMM_POOL_START ≤ P ∧ (args_fit args → args_on_stack (ram s3) P args esp) ∧
    ((∃ w, hw_walk (ram s3) dir USER_STACK_VIRT = Some (P, w, true)) ∨ full s3).
Proof.
  intros Hb Hargs Haok Hlg Hlen. pose proof (bu_inv _ _ _ Hb) as Hinv. set (k := Kernel o lg fs).
  destruct (alloc_page_fresh (frames s) [] (vi_pmm _ Hinv)) as [(P & p' & E & Hfr & Hp')|[E _]].
  2:{ left. etransitivity; [exact (vmem_op_run pmm_alloc k s c _ _ _ (pmm_alloc_run s c _ _ E))|]. by destruct s. }
  right. destruct (fresh_frame_used _ _ _ Hfr) as [(Hpal & _) Hpr]. change TOTAL_MEMORY with 16777216 in Hpr.
  set (m1 := mem_set (ram s) P 0 4096).
  assert (∀ a, a < P ∨ P + 4096 ≤ a → load8 m1 a = load8 (ram s) a) as Hm1.
  { intros a Ha. unfold m1. rewrite load8_mem_set. repeat zcase; done. }
  destruct (building_fill s0 s dir Hb P p' m1 Hfr Hp' Hm1) as (Hb1 & Hl1 & Hd1 & Hnew & Hno).
  set (s1 := upd_ram (λ _, m1) (set_frames p' s)) in *.
  destruct (building_map s0 s1 dir Hb1 c USER_STACK_VIRT P USER_FLAGS (df_used _ _ _ Hd1) Hnew Hno)
    as (s2 & out & E2 & Hout & Hb2 & Hl2 & Hg2 & Hmap); [done|unfold USER_STACK_VIRT; lia|split; vm_compute; congruence|done|].
  pose proof (ld_data _ _ _ _ _ Hl2 _ Hd1) as Hd2. pose proof (bu_inv _ _ _ Hb2) as Hi2. pose proof (bu_space _ _ _ Hb2) as Hs2.
  assert (0 ≤ P ≤ 4294963199 ∧ P mod 4096 = 0) as HP by (split; [lia|exact Hpal]).
  destruct (setup_args_any (with_vm s2 k) (c ++ out) P args argv h Hargs Haok HP Hlg Hlen)
    as (esp & m3 & lg' & h' & out' & E3 & Hout' & Hlg' & Hlen' & Hesp & Hst & Hm3).
  assert (∀ a, a / 4096 * 4096 ≠ P → load8 m3 a = load8 (ram s2) a) as Hm3'.
  { intros a Ha. apply Hm3. unfold PAGE_SIZE, aligned in *. pose proof (Z.div_mod a 4096). pose proof (Z.mod_pos_bound a 4096).
    pose proof (Z.div_mod P 4096). lia. }
  assert (∀ x, x = P → data_frame s2 dir x) as Hx by (intros x ->; exact Hd2). set (X := λ x, x = P) in *.
  assert (loads s s2 dir USER_STACK_VIRT USER_STACK_TOP) as Hl.
  { apply (loads_seq s s1 s2); [|exact Hl2]. split; [apply Hl1..|]. intros va f w Hva _. apply (ld_walk _ _ _ _ _ Hl1); [exact Hva|].
    unfold addr32 in Hva. lia. }
  assert (loads s (upd_ram (λ _, m3) s2) dir USER_STACK_VIRT USER_STACK_TOP) as Hl3.
  { apply (wr_loads s2 dir X m3 Hi2 Hs2 Hx Hm3' s _ _ Hl). intros x -> Hu. destruct (fresh_apart _ _ _ _ Hfr Hu) as [Hne _]. by apply Hne. }
  exists P, (set_frames p' s), s1, s2, (upd_ram (λ _, m3) s2), lg', h', out, out', esp.
  split_and!; [lia|exact Hout|exact Hout'| |done|by apply (vmem_op_run _ k)|exact E3|exact Hlg'|exact Hlen'|exact Hesp| |exact Hl3| |by apply (wr_data s2 dir X m3 Hi2 Hs2 Hx Hm3')
    |apply (fp_pool _ _ _ Hfr)|exact Hst|].
  - apply (vmem_op_run pmm_alloc k s c). by apply pmm_alloc_run.
  - apply (building_loads s0 s dir Hb _ _ _ Hl3); [|apply (bu_used _ _ _ Hb2)|].
    + by apply (owned_written _ s2 dir Hs2 (bu_owned _ _ _ Hb2) X).
    + intros t. rewrite (wr_kernel_page s2 dir X m3 Hi2 Hx Hm3'). apply Hb2.
  - cbn [frames upd_ram]. etransitivity; [|exact Hg2]. change (frames s1) with p'. rewrite (fp_count _ _ _ Hfr). lia.
  - destruct Hmap as [Hw|Hf]; [left|right; exact Hf]. destruct (Hw USER_STACK_VIRT) as [w Ew]; [lia|]. exists w.
    cbn [ram upd_ram]. rewrite (wr_walk s2 dir X m3 Hi2 Hs2 Hx Hm3') by (vm_compute; split; congruence). exact Ew.
Qed.
End loader.

(** ** What stays *)

(** What was in use is still in use, and unchanged unless it is a table of
    the kernel, whose translations are as before. *)
Record kept (v v' : vm) : Prop := {
  ke_inv : vm_inv v';
  ke_cpu : cr3 v' = cr3 v ∧ pd_physical_address v' = pd_physical_address v;
  ke_walk : ∀ va, addr32 va → kwalk v' va = kwalk v va;
  ke_used : ∀ f, frame_used (frames v) f → frame_used (frames v') f;
  ke_plain : ∀ f, plain_frame v f → plain_frame v' f ∧ ∀ o, 0 ≤ o < 4096 → load8 (ram v') (f + o) = load8 (ram v) (f + o)
}.

Lemma kept_refl v : vm_inv v → kept v v.
Proof. by split. Qed.

(** A clone that fails. *)
Lemma kept_unclone v v' :
  vm_inv v → vm_inv v' → frames v' = frames v → (∀ va, addr32 va → kwalk v' va = kwalk v va) →
  kernel_directory v' = kernel_directory v → cr3 v' = cr3 v → pd_physical_address v' = pd_physical_address v →
  (∀ t j, frame_used (frames v) t → idx j → entry (ram v') t j = entry (ram v) t j) → kept v v'.
Proof.
  intros Hv Hv' Hf Hw Hkd Hc Hp He. split; [exact Hv'|by split|exact Hw|by rewrite Hf|].
  intros f [Hu Hk]. split; [|apply frame_bytes; intros j Hj; by apply He]. split; [by rewrite Hf|]. contradict Hk.
  revert Hk. unfold kernel_page. rewrite Hkd. intros [Hk|(i & Hi & Hpr & Hk)]; [by left|right; exists i].
  by rewrite He in Hpr, Hk by (exact Hi || exact (vi_dir _ Hv)).
Qed.

Lemma kept_building v s dir : building v s dir → kept v s.
Proof.
  intros [Hi _ _ Hu _ Hw Hc Hp]. split; [exact Hi|exact Hc|exact Hw|exact Hu|]. intros f Hf. destruct (Hp f Hf) as [Hd Hb].
  split; [|exact Hb]. split; [apply (df_used _ _ _ Hd)|apply (df_kernel _ _ _ Hd)].
Qed.

(** The clean-up after a failure. *)
Lemma give_back {D} `{BlockDev D} (k : kernel D) v s dir c :
  vm_inv v → building v s dir → dir ≠ 0 →
  ∃ s', vmem_op (paging_free_directory dir) (IO (with_vm s k) c) = Some ((), IO (with_vm s' k) c) ∧ kept v s' ∧
    ∀ x f, place_ok x → frame_at (ram s) dir x = Some f → ¬ frame_used (frames s') f.
Proof.
  intros Hv [Hi Hsp How Hu Hk Hw Hc Hp] Hd.
  destruct (free_places _ s dir Hi How c Hd (vi_pmm _ Hv) Hu) as (p' & E & Hi' & Hw' & Hiff & Hkeep).
  { intros t Ht%Hk. by apply kernel_page_used. }
  exists (set_frames p' s). split; [by apply vmem_op_run|]. split.
  - split; [exact Hi'|exact Hc|intros va Hva; by rewrite Hw', Hw|exact Hkeep|].
    intros f Hf. destruct (Hp f Hf) as [Hd' Hb]. split; [|exact Hb]. split; [apply Hkeep, Hf|exact (df_kernel _ _ _ Hd')].
  - intros x f Hx Ex [_ Hno]%Hiff. by apply (Hno x).
Qed.

(** ** The whole call *)

Section load.
Context {D : Type} `{BlockDev D}.
Context (sy : symbols) (k : kernel D) (qs : list ptr) (buf size : Z) (name r : list Z) (args argv : list (list Z)).
Context (Htasks : task_inv (k_os k) qs) (Hvm : vm_inv (kvm k)).
Context (Hlow : present (entry (kram k) (kernel_directory (kvm k)) 0) = true).
Context (Hargs : c_strings args argv) (Haok : args_ok args).
Context (Hname : nonzero name) (Hsym : word32 (sym_enter_usermode sy)).
Context (c : list Z) (h : list klog_entry) (Hmsgs : Z.of_nat (length h) + 3 < 4294967296).

(** How the call may end: without a task and as before, or with a task that
    runs the image. *)
Definition load_ends (res : option (ptr * io (kernel D))) : Prop :=
  ∃ p k' out h', res = Some (p, IO k' (c ++ out)) ∧ nonzero out ∧ k_fs k' = k_fs k ∧
    (logs (k_log k') h' ∧ (length h' ≤ length h + 3)%nat) ∧ kept (kvm k) (kvm k') ∧
    (current_task (k_os k') = current_task (k_os k) ∧ scheduler_on (k_os k') = scheduler_on (k_os k)) ∧
    ((p = PNull ∧ task_inv (k_os k') qs) ∨
     ∃ i t, p = PSlot i ∧ elf_validate (kram k) buf size = 0 ∧ (PSlot i ∉ qs) ∧ task_inv (k_os k') (qs ++ [PSlot i]) ∧ get_task (k_os k') (PSlot i) = Some t ∧
       (image (kram k) buf size → args_fit args → runs_image sy (kram k) buf args (k_os k') t) ∧ ∀ f, plain_frame (kvm k) f → data_frame (kvm k') (t_cr3 t) f).

(** The tasks and the log on the way, with [n] messages so far. *)
Definition on_the_way (k1 : kernel D) (h1 : list klog_entry) (out : list Z) (n : nat) : Prop :=
  (task_inv (k_os k1) qs ∧ current_task (k_os k1) = current_task (k_os k) ∧ scheduler_on (k_os k1) = scheduler_on (k_os k)) ∧
  (logs (k_log k1) h1 ∧ (length h1 ≤ length h + n)%nat) ∧ nonzero out ∧ k_fs k1 = k_fs k.

Lemma way_says k1 h1 out n lvl format arglist :
  on_the_way k1 h1 out n → (n ≤ 2)%nat → 0 ≤ lvl < 4 → fits format arglist = true → Forall arg_ok arglist →
  ∃ lg h2 out2, log_op (klog lvl format arglist) (IO k1 (c ++ out)) = Some ((), IO (Kernel (k_os k1) lg (k_fs k)) (c ++ out2)) ∧
    on_the_way (Kernel (k_os k1) lg (k_fs k)) h2 out2 (S n).
Proof using Hmsgs H.
  intros (Hti & [Hlg Hlen] & Hout & Hfs) Hn Hl Hf Ha.
  destruct (log_says k1 (c ++ out) h1 lvl format arglist Hlg Hl) as (lg & h2 & out2 & E & Hlg2 & Hlen2 & Hout2); [lia|done..|].
  exists lg, h2, (out ++ out2). rewrite <- Hfs, app_assoc. split; [exact E|].
  split_and!; [apply Hti|apply Hti|apply Hti|exact Hlg2|lia|by apply Forall_app_2|done].
Qed.

(** A message, and no task. *)
Lemma ends_message k1 h1 out format arglist :
  on_the_way k1 h1 out 2 → kept (kvm k) (kvm k1) → fits format arglist = true → Forall arg_ok arglist →
  load_ends ((log_op (klog_error format arglist) ;; mret PNull) (IO k1 (c ++ out))).
Proof using Hmsgs H.
  intros Hw Hkept Hf Ha. destruct (way_says k1 h1 out 2 KLOG_ERROR format arglist Hw) as (lg & h2 & out2 & E & (Hti & Hcur & Hon) & [Hlg Hlen] & Hout & _); [done..|].
  unfold klog_error. mstep E. exists PNull, (Kernel (k_os k1) lg (k_fs k)), out2, h2. cbn [k_os k_log k_fs] in *.
  split_and!; [done|done|done|exact Hlg|exact Hlen|exact Hkept|exact Hcur|exact Hon|by left].
Qed.

(** A message, the clean-up, and no task. *)
Lemma ends_cleanup k1 h1 out dir format arglist :
  on_the_way k1 h1 out 2 → building (kvm k) (kvm k1) dir → dir ≠ 0 → fits format arglist = true → Forall arg_ok arglist →
  load_ends ((log_op (klog_error format arglist) ;; vmem_op (paging_free_directory dir) ;; mret PNull) (IO k1 (c ++ out))).
Proof using Hvm Hmsgs H.
  intros Hw Hb Hd Hf Ha. destruct (way_says k1 h1 out 2 KLOG_ERROR format arglist Hw) as (lg & h2 & out2 & E & (Hti & Hcur & Hon) & [Hlg Hlen] & Hout & _); [done..|].
  unfold klog_error. mstep E. destruct (give_back (Kernel (k_os k1) lg (k_fs k)) (kvm k) (kvm k1) dir (c ++ out2) Hvm Hb Hd) as (s' & E' & Hkept & _).
  rewrite <- (with_kvm (Kernel (k_os k1) lg (k_fs k))) at 1. mstep E'. eexists PNull, _, out2, h2. split; [reflexivity|].
  cbn [with_vm k_os k_log k_fs] in *. destruct (ke_cpu _ _ Hkept) as [Hc1 Hp1], (bu_cpu _ _ _ Hb) as [Hc2 Hp2].
  split_and!; [done|done|exact Hlg|exact Hlen|exact Hkept|exact Hcur|exact Hon|left; split; [done|]].
  apply task_inv_vmem; [exact Hti|unfold kvm in *; congruence..].
Qed.

(** A file that is no program. *)
Lemma elf_load_invalid : elf_validate (kram k) buf size ≠ 0 → logs (k_log k) h →
  load_ends (elf_load_internal sy buf size (name ++ 0 :: r) (Some argv) (Z.of_nat (length args)) (IO k c)).
Proof using Htasks Hvm Hname Hmsgs H.
  intros Hv Hlog. unfold elf_load_internal. rewrite bind_run. unfold quiet at 1, zoom at 1. cbn [get st con].
  change (ram (vmem (k_os k))) with (kram k). destruct (Z.eqb_spec (elf_validate (kram k) buf size) 0); [done|]. cbn [negb].
  rewrite <- (app_nil_r c). apply (ends_message k h); [|by apply kept_refl|done|repeat constructor; by exists name, r].
  split_and!; [done..|lia|constructor|done].
Qed.

Context (Htm : tame (kram k) buf size) (Hdata : ∀ x, 0 ≤ x < size → plain_frame (kvm k) ((buf + x) / 4096 * 4096)).

Lemma arg_text : arg_ok (VStr (Some (name ++ 0 :: r))).
Proof using Hname. by exists name, r. Qed.

(** The last step: the task, when there is a slot and a frame for its stack. *)
Lemma ends_task lg h1 out s3 dir P esp :
  let k1 := with_vm s3 (Kernel (k_os k) lg (k_fs k)) in let ehdr := ehdr_at (kram k) buf in
  on_the_way k1 h1 out 2 → building (kvm k) s3 dir → dir ≠ 0 →
  data_frame s3 dir P → PMM_POOL_START ≤ P → word32 esp → (args_fit args → args_on_stack (ram s3) P args esp) →
  ((image (kram k) buf size → ∀ i, 0 ≤ i < e_phnum ehdr → loadable (phdr_no (kram k) buf i) = true →
      sees_segment s3 dir (phdr_no (kram k) buf i) buf (kram k)) ∨ full s3) →
  ((∃ w, hw_walk (ram s3) dir USER_STACK_VIRT = Some (P, w, true)) ∨ full s3) →
  load_ends ((t ← os_op (task_create_user_mapped sy (e_entry ehdr) (name ++ 0 :: r) dir dir esp);
    if bool_decide (t = PNull) then
      log_op (klog_error (lit "ELF: failed to create task for '%s'") [VStr (Some (name ++ 0 :: r))]) ;;
      vmem_op (paging_free_directory dir) ;;
      mret PNull
    else
      tcb ← os_op (quiet (deref t));
      log_op (klog_info (lit "ELF: spawned task '%s' (tid=%d, entry=0x%x, cr3=0x%x, esp=0x%x)")
        [VStr (Some (name ++ 0 :: r)); VInt (t_id tcb); VInt (e_entry ehdr); VInt dir; VInt esp]) ;;
      mret t) (IO k1 (c ++ out))).
Proof using All.
  intros k1 ehdr Hw Hb Hd HPd HPp He' Hst Hsegs Hstk. set (o := k_os k) in *. pose proof (bu_inv _ _ _ Hb) as Hi3. pose proof (bu_space _ _ _ Hb) as Hs3.
  destruct (bu_cpu _ _ _ Hb) as [Hc3 Hp3].
  pose proof Hw as ((Hti & Hcur & Hon) & Hlg & Hout & Hfs).
  assert (word32 (e_entry ehdr)) as He by apply load32_bound.
  destruct (user_mapped_run sy (set_vmem s3 o) (c ++ out) qs (e_entry ehdr) name r dir dir esp Hti (vi_pmm _ Hi3) Hname He He' Hsym)
    as (p & o' & E & [(-> & -> & _)|[(-> & -> & _)|(i & t & -> & (Hni & _) & Hti' & Ht & _ & _ & _ & _ & Hp' & _ & _ & _ & _ & Hfr & _)]]).
  - mstep (os_op_run _ (set_vmem s3 o) lg (k_fs k) (c ++ out) _ _ _ E). rewrite bool_decide_eq_true_2 by done.
    apply (ends_cleanup k1 h1); [|exact Hb|exact Hd|done|repeat constructor; apply arg_text].
    split_and!; [done..|apply Hlg|destruct Hlg; lia|done|done].
  - mstep (os_op_run _ (set_vmem s3 o) lg (k_fs k) (c ++ out) _ _ _ E). rewrite bool_decide_eq_true_2 by done.
    apply (ends_cleanup (Kernel (set_task_id (next_task_id o +! 1) (set_vmem s3 o)) lg (k_fs k)) h1);
      [|exact Hb|exact Hd|done|repeat constructor; apply arg_text].
    pose proof (task_inv_frames _ qs (next_task_id o +! 1) (frames s3) Hti) as Hti'. assert (set_frames (frames s3) s3 = s3) as Es by (by destruct s3).
    change (vmem (k_os k1)) with s3 in Hti'. rewrite Es in Hti'.
    split_and!; [exact Hti'|done|done|apply Hlg|destruct Hlg; lia|done|done].
  - assert (used_frames (frames s3) < TOTAL_FRAMES) as Hroom.
    { pose proof (used_frames_bound _ (proj1 Hp')) as Hbd. cbn [st] in Hbd. rewrite (fp_count _ _ _ Hfr) in Hbd.
      cbn [vmem set_vmem] in Hbd. change TOTAL_FRAMES with 4096 in *. lia. }
    assert (i < 64)%nat as Hi64 by (rewrite <- (queue_pool _ _ (si_queue _ _ (ti_sched _ _ Hti'))); by eapply lookup_lt_Some).
    clear E Hti' Ht Hp' Hfr. destruct (mapped_task_run sy o (c ++ out) qs s3 dir (e_entry ehdr) name r esp Htasks Hc3 Hp3 Hi3 Hs3 (ex_intro _ i (conj Hi64 Hni)) Hroom Hname He He' Hsym)
      as (i' & t' & o2 & E & (Hni' & Hcur' & Hon') & Hti' & Ht & [Hl Hus] & Hks & Hst1 & Hst2 & Hst3 & Hst4 & Hgo).
    mstep (os_op_run _ (set_vmem s3 o) lg (k_fs k) (c ++ out) _ _ _ E). rewrite bool_decide_eq_false_2 by done.
    mstep (os_op_run (quiet (deref (PSlot i'))) o2 lg (k_fs k) (c ++ out) t' o2 (c ++ out) (quiet_run _ o2 (c ++ out) _ _ (deref_run o2 _ _ Ht))).
    destruct (log_says (Kernel o2 lg (k_fs k)) (c ++ out) h1 KLOG_INFO (lit "ELF: spawned task '%s' (tid=%d, entry=0x%x, cr3=0x%x, esp=0x%x)")
      [VStr (Some (name ++ 0 :: r)); VInt (t_id t'); VInt (e_entry ehdr); VInt dir; VInt esp])
      as (lg2 & h2 & out2 & E2 & Hlg2 & Hlen2 & Hout2); [apply Hlg|done|destruct Hlg; lia|done|repeat constructor; apply arg_text|].
    unfold klog_info. mstep E2. exists (PSlot i'), (Kernel o2 lg2 (k_fs k)), (out ++ out2), h2.
    assert (¬ full s3) as Hnf by (unfold full; lia). destruct Hsegs as [Hsegs|]; [|done]. destruct Hstk as [[w Ew]|]; [|done].
    assert (∀ f, plain_frame (kvm k) f → data_frame (vmem o2) dir f ∧ ∀ o, 0 ≤ o < 4096 → load8 (ram (vmem o2)) (f + o) = load8 (kram k) (f + o)) as Hpl.
    { intros f Hf. destruct (bu_plain _ _ _ Hb f Hf) as [Hdf Hby]. split; [by apply (ld_data _ _ _ _ _ Hl)|].
      intros x Hx. by rewrite (ld_bytes _ _ _ _ _ Hl), Hby. }
    split_and!; [by rewrite app_assoc|by apply Forall_app_2|done|done|destruct Hlg; cbn [k_log k_os k_fs] in *; lia| |done|done|right].
    + destruct (ld_cpu _ _ _ _ _ Hl) as [Hc4 Hp4]. split; unfold kvm; cbn [k_os].
      * apply Hl.
      * unfold kvm in *. split; congruence.
      * intros va Hva. rewrite (ld_kernel _ _ _ _ _ Hl) by exact Hva. by apply (bu_walk _ _ _ Hb).
      * intros f Hf. by apply Hus, (bu_used _ _ _ Hb).
      * intros f Hf. destruct (Hpl f Hf) as [Hdf Hby]. split; [|exact Hby]. split; [apply (df_used _ _ _ Hdf)|apply (df_kernel _ _ _ Hdf)].
    + exists i', t'. split_and!; [done|apply Htm|done|done|done| |intros f Hf; rewrite Hst4; by apply Hpl].
      intros Him [Hcount Hfit]. apply (runs_image_of sy (kram k) buf size args s3 dir o2 t' P w esp); try done; [by apply Hsegs|by apply Hst].
Qed.

(** The stack and the task, after the segments. *)
Lemma ends_stack lg h1 out s dir :
  let k1 := with_vm s (Kernel (k_os k) lg (k_fs k)) in let ehdr := ehdr_at (kram k) buf in
  on_the_way k1 h1 out 1 → building (kvm k) s dir → dir ≠ 0 → holds s dir (kram k) buf size →
  ((image (kram k) buf size → ∀ i, 0 ≤ i < e_phnum ehdr → loadable (phdr_no (kram k) buf i) = true →
      sees_segment s dir (phdr_no (kram k) buf i) buf (kram k)) ∨ full s) →
  load_ends ((ustack_phys ← vmem_op pmm_alloc;
    if ustack_phys =? 0 then
      log_op (klog_error (lit "ELF: failed to allocate user stack") []) ;;
      vmem_op (paging_free_directory dir) ;;
      mret PNull
    else
      vmem_op (zero_page ustack_phys) ;;
      vmem_op (paging_map_page_in dir USER_STACK_VIRT ustack_phys USER_FLAGS) ;;
      user_esp ← setup_user_stack_args ustack_phys (Some argv) (Z.of_nat (length args));
      k ← quiet get;
      let ehdr := ehdr_at (ram (vmem (k_os k))) buf in
      t ← os_op (task_create_user_mapped sy (e_entry ehdr) (name ++ 0 :: r) dir dir user_esp);
      if bool_decide (t = PNull) then
        log_op (klog_error (lit "ELF: failed to create task for '%s'") [VStr (Some (name ++ 0 :: r))]) ;;
        vmem_op (paging_free_directory dir) ;;
        mret PNull
      else
        tcb ← os_op (quiet (deref t));
        log_op (klog_info (lit "ELF: spawned task '%s' (tid=%d, entry=0x%x, cr3=0x%x, esp=0x%x)")
          [VStr (Some (name ++ 0 :: r)); VInt (t_id tcb); VInt (e_entry ehdr); VInt dir; VInt user_esp]) ;;
        mret t) (IO k1 (c ++ out))).
Proof using All.
  intros k1 ehdr Hw Hb Hd Hh Hsegs. pose proof Hw as ((Hti & Hcur & Hon) & [Hlg Hlen] & Hout & _).
  destruct (user_stack_any (k_os k) (k_fs k) (kvm k) dir s lg h1 (c ++ out) args argv Hb Hargs Haok Hlg ltac:(lia))
    as [E|(P & sa & sb & sc & s3 & lg3 & h3 & out2 & out3 & esp & HP & Hout2 & Hout3 & E1 & E2 & E3 & E4 & Hlg3 & Hlen3 & Hesp & Hb3 & Hl & Hg & HPd & HPp & Hst & Hwalk)].
  - mstep E. cbn [Z.eqb]. apply (ends_cleanup k1 h1); [|exact Hb|exact Hd|done|constructor].
    split_and!; [done|done|done|done|lia|done|done].
  - mstep E1. destruct (Z.eqb_spec P 0); [done|]. mstep E2. mstep E3. mstep E4.
    rewrite bind_run. unfold quiet at 1, zoom at 1. cbn [get st con].
    change (ram (vmem (k_os (Kernel (set_vmem s3 (k_os k)) lg3 (k_fs k))))) with (ram s3).
    rewrite (image_ehdr s3 dir (kram k) buf size Htm (holds_loads _ _ _ _ _ _ _ _ Hl Hh)). cbv zeta.
    rewrite <- !app_assoc. apply (ends_task lg3 h3 (out ++ out2 ++ out3) s3 dir P esp); try done.
    + destruct (bu_cpu _ _ _ Hb3) as [Hc3 Hp3]. split_and!; [by apply task_inv_vmem|done|done|done|lia|by repeat apply Forall_app_2|done].
    + destruct Hsegs as [Hsegs|Hf]; [left|right; exact (full_grows s s3 (bu_inv _ _ _ Hb3) Hg Hf)].
      intros Him i Hi Hli va Hva. destruct (im_segs _ _ _ Him i Hi Hli) as (Hok & _ & Hend).
      destruct (seg_pages _ Hok) as (_ & _ & Hst1 & _); [destruct (loadable_true _ Hli), Hok; lia|].
      apply (loads_sees _ _ _ _ _ _ _ Hl); [unfold addr32, USER_STACK_VIRT in *; lia|lia|by apply (Hsegs Him i Hi Hli)].
Qed.

Lemma elf_load_tame : logs (k_log k) h →
  load_ends (elf_load_internal sy buf size (name ++ 0 :: r) (Some argv) (Z.of_nat (length args)) (IO k c)).
Proof using All.
  intros Hlog. unfold elf_load_internal. rewrite bind_run. unfold quiet at 1, zoom at 1. cbn [get st con].
  change (ram (vmem (k_os k))) with (kram k). rewrite (ta_valid _ _ _ Htm). cbn [Z.eqb negb]. cbv zeta. set (ehdr := ehdr_at (kram k) buf).
  assert (on_the_way k h [] 0) as Hw0 by (split_and!; [done..|lia|constructor|done]).
  destruct (way_says k h [] 0 KLOG_INFO (lit "ELF: loading '%s' entry=0x%x phnum=%d argc=%d")
    [VStr (Some (name ++ 0 :: r)); VInt (e_entry ehdr); VInt (e_phnum ehdr); VInt (Z.of_nat (length args))] Hw0)
    as (lg & h1 & out & E0 & Hw); [lia|done|done|repeat constructor; apply arg_text|]. rewrite app_nil_r in E0.
  unfold klog_info. mstep E0. set (k1 := Kernel (k_os k) lg (k_fs k)) in *.
  pose proof Hw as ((Hti & Hcur & Hon) & [Hlg Hlen] & Hout & _). cbn [k_os k_log k_fs k1] in *.
  rewrite <- (with_kvm k1) at 1. change (kvm k1) with (kvm k).
  destruct (clone_run (kvm k) (c ++ out) Hvm Hlow) as [(s1 & E1 & Hf1 & _ & Hi1 & Hw1 & (Hkd & _ & Hc1 & Hp1) & He1)|(dir & pt0 & s1 & E1 & Hdir & Hcl)].
  { mstep (vmem_op_run paging_clone_directory k1 (kvm k) (c ++ out) _ _ _ E1). cbn [Z.eqb].
    apply (ends_message (with_vm s1 k1) h1); [|by apply kept_unclone|done|constructor].
    split_and!; [by apply task_inv_vmem|done|done|done|lia|done|done]. }
  mstep (vmem_op_run paging_clone_directory k1 (kvm k) (c ++ out) _ _ _ E1). destruct (Z.eqb_spec dir 0); [done|].
  pose proof (building_clone _ _ _ _ Hvm Hcl) as Hb1. pose proof (clone_holds _ _ _ _ buf size Hvm Hcl Hdata) as Hh1.
  destruct (load_segments_any (k_os k) (k_fs k) (kvm k) dir (kram k) buf size Htm s1 lg h1 (c ++ out) Hb1 Hh1 Hlg ltac:(lia))
    as (v & s2 & lg2 & h2 & out2 & E2 & Hout2 & Hb2 & Hl2 & _ & Hlg2 & Hv).
  mstep E2. rewrite <- app_assoc. destruct (bu_cpu _ _ _ Hb2) as [Hc2 Hp2].
  destruct Hv as [(-> & -> & -> & Hsegs)|(-> & Hlen2)]; cbn [Z.eqb negb].
  - apply (ends_stack lg h1); [|exact Hb2|exact Hdir|by apply (holds_loads _ _ _ _ _ _ _ _ Hl2)|exact Hsegs].
    split_and!; [by apply task_inv_vmem|done|done|done|lia|by apply Forall_app_2|done].
  - apply (ends_cleanup (with_vm s2 (Kernel (k_os k) lg2 (k_fs k))) h2); [|exact Hb2|exact Hdir|done|repeat constructor; apply arg_text].
    split_and!; [by apply task_inv_vmem|done|done|done|lia|by apply Forall_app_2|done].
Qed.
End load.

(** ** Example *)

Lemma setup_user_stack_args_layout_witness :
  ∃ esp m', setup_user_stack_args 0x300000 (Some [str "prog" ++ [0]; str "-x" ++ [0]]) 2 (IO demo_kernel []) =
      Some (esp, IO (with_ram m' demo_kernel) []) ∧
    args_on_stack m' 0x300000 [str "prog"; str "-x"] esp.
Proof.
  pose proof (setup_user_stack_args_layout demo_kernel [] 0x300000 [str "prog"; str "-x"] [str "prog" ++ [0]; str "-x" ++ [0]] []) as Hl.
  rewrite decide_True in Hl by (split; [cbn; lia|vm_compute; discriminate]). destruct Hl as (esp & m' & E & Hs & _).
  - repeat constructor; try (exists []; reflexivity); apply (bool_decide_unpack _); vm_compute; exact I.
  - split; [left; cbn; lia|reflexivity].
  - split; [lia|reflexivity].
  - split; [exact empty_log_rep|constructor].
  - reflexivity.
  - exists esp, m'. split; [exact E|exact Hs].
Defined.
