(* ===== verification/Syscall.v ===== *)
(** * kernel/arch/syscall.c: system calls

    The INT 0x80 dispatcher, its table, the six handlers and the handler of
    general protection faults.  A handler runs in the address space of the
    task that called it, so a user pointer is dereferenced through the page
    tables in CR3, with the rights of the kernel.  A handler that gives up
    the processor does not return until its task is chosen again: its result
    is a computation that says so. *)

From S2P Require Import Prelude KString KStdio Console Pmm Memory Paging Sched Task KPrintf Block SimpleFS Klog.

Open Scope Z_scope.
Open Scope c_scope.

Definition SYS_EXIT : Z := 0.
Definition SYS_WRITE : Z := 1.
Definition SYS_READ : Z := 2.
Definition SYS_YIELD : Z := 3.
Definition SYS_GETPID : Z := 4.
Definition SYS_SLEEP : Z := 5.
Definition MAX_SYSCALLS : Z := 16.
Definition USER_SPACE_START : Z := 0x00001000.
Definition USER_SPACE_END : Z := 0xC0000000.

(** The frame the interrupt stub pushes. *)
Record registers_t := Registers {
  r_ds : Z;
  r_edi : Z; r_esi : Z; r_ebp : Z; r_esp : Z; r_ebx : Z; r_edx : Z; r_ecx : Z; r_eax : Z;
  int_no : Z; err_code : Z;
  r_eip : Z; r_cs : Z; r_eflags : Z; r_useresp : Z; r_ss : Z
}.

Definition set_eax (v : Z) (r : registers_t) : registers_t :=
  Registers (r_ds r) (r_edi r) (r_esi r) (r_ebp r) (r_esp r) (r_ebx r) (r_edx r) (r_ecx r) v
    (int_no r) (err_code r) (r_eip r) (r_cs r) (r_eflags r) (r_useresp r) (r_ss r).

(** ** State and outcomes *)

Inductive syscall_fn := sys_exit_fn | sys_write_fn | sys_read_fn | sys_yield_fn | sys_getpid_fn | sys_sleep_fn.

Record sys := Sys {
  y_os : os;
  y_log : klog_t;
  timer_ticks : Z;
  syscall_table : list (option syscall_fn)
}.

Definition os_in_sys {A} (c : M (io os) A) : M (io sys) A :=
  zoom_io y_os (λ o y, Sys o (y_log y) (timer_ticks y) (syscall_table y)) c.
Definition log_in_sys {A} (c : M (io klog_t) A) : M (io sys) A :=
  zoom_io y_log (λ l y, Sys (y_os y) l (timer_ticks y) (syscall_table y)) c.

(** How a handler leaves: with a result; by giving the processor to another
    task, or waiting for interrupts itself, to go on in the state it finds
    then; or never. *)
Inductive outcome (A : Type) :=
  | Done (a : A) (s : io sys)
  | Parked (s : io sys) (resume : io sys → option (outcome A))
  | Stopped (s : io sys).
Arguments Done {A} _ _.
Arguments Parked {A} _ _.
Arguments Stopped {A} _.

Definition handler (A : Type) : Type := io sys → option (outcome A).

(** Code that runs to its end. *)
Definition run {A} (c : M (io sys) A) : handler A :=
  λ s, match c s with Some (a, s') => Some (Done a s') | None => None end.

(** ** User memory *)

(** The byte at a virtual address, read with the rights of the kernel. *)
Definition virt_load8 (v : vm) (va : Z) : option Z :=
  match hw_walk (ram v) (cr3 v) va with
  | Some r => Some (load8 (ram v) (fst (fst r) + va mod PAGE_SIZE))
  | None => None
  end.

Fixpoint virt_read (v : vm) (va : Z) (n : nat) : option (list Z) :=
  match n with
  | O => Some []
  | S n' => b ← virt_load8 v va; cons b <$> virt_read v (va +! 1) n'
  end.

Definition validate_user_ptr (start len : Z) : Z :=
  let end_ := start +! len in
  if end_ <? start then -1
  else if (start <? USER_SPACE_START) || (end_ >? USER_SPACE_END) then -1
  else 0.

(** ** Handlers *)

(** [while (written < len)]: at most 128 bytes a round, copied to a kernel
    buffer and printed up to the first zero byte. *)
Fixpoint write_chunks (fuel : nat) (buf len written : Z) : M (io sys) Z :=
  match fuel with
  | O => fault
  | S f =>
      if written <? len then
        let chunk := len -! written in
        let chunk := if chunk >? 128 then 128 else chunk in
        s ← quiet get;
        bytes ← of_option (virt_read (vmem (y_os s)) (buf +! written) (Z.to_nat chunk));
        text ← of_option (cstr (bytes ++ [0]));
        kprint text ;;
        write_chunks f buf len (written +! chunk)
      else mret written
  end.

(** A round per 128 bytes, and one to leave the loop. *)
Definition sys_write_handler (regs : registers_t) : M (io sys) Z :=
  let buf := r_ebx regs in
  let len := r_ecx regs in
  if len =? 0 then mret 0
  else if negb (validate_user_ptr buf len =? 0) then mret (-1)
  else
    written ← write_chunks (S (Z.to_nat (len / 128 + 1))) buf len 0;
    mret (i32 written).

Definition sys_read_handler (regs : registers_t) : M (io sys) Z :=
  let buf := r_ebx regs in
  let max := r_ecx regs in
  if max =? 0 then mret 0
  else if negb (validate_user_ptr buf max =? 0) then mret (-1)
  else mret 0.

Definition sys_getpid_handler (regs : registers_t) : M (io sys) Z :=
  s ← quiet get;
  let cur := task_get_current (y_os s) in
  if bool_decide (cur = PNull) then mret (-1)
  else t ← os_in_sys (quiet (deref cur)); mret (i32 (t_id t)).

(** Give up the processor, then continue with [k]; when no other task can
    run, [sched_yield] returns at once. *)
Definition yield_then {A} (k : handler A) : handler A := λ s,
  match os_in_sys (quiet sched_yield) s with
  | Some (_, s') =>
      if bool_decide (current_task (y_os (st s')) = current_task (y_os (st s))) then k s' else Some (Parked s' k)
  | None => None
  end.

Definition sys_yield_handler (regs : registers_t) : handler Z := yield_then (run (mret 0)).

(** The task is dead: whatever happens next, it is not resumed. *)
Definition sys_exit_handler (regs : registers_t) : handler Z := λ s,
  match os_in_sys (quiet task_exit) s with Some (_, s') => Some (Stopped s') | None => None end.

Definition get_timer_ticks (y : sys) : Z := timer_ticks y.

(** A round of the wait: after [sched_yield], whether it came back at once or
    other tasks have run, interrupts have arrived before the counter is read
    again, so the loop goes on in a later state. *)
Definition yield_and_wait {A} (k : handler A) : handler A := λ s,
  match os_in_sys (quiet sched_yield) s with Some (_, s') => Some (Parked s' k) | None => None end.

(** [while ((get_timer_ticks() - start) < ticks_to_wait) sched_yield();] *)
Fixpoint sleep_loop (fuel : nat) (start ticks_to_wait : Z) : handler Z := λ s,
  match fuel with
  | O => None
  | S f =>
      if get_timer_ticks (st s) -! start <? ticks_to_wait
      then yield_and_wait (sleep_loop f start ticks_to_wait) s
      else Some (Done 0 s)
  end.

Definition sys_sleep_handler (fuel : nat) (regs : registers_t) : handler Z := λ s,
  let ms := r_ebx regs in
  if ms =? 0 then Some (Done 0 s)
  else
    let ticks_to_wait := ms / 10 in
    let ticks_to_wait := if ticks_to_wait =? 0 then 1 else ticks_to_wait in
    sleep_loop fuel (get_timer_ticks (st s)) ticks_to_wait s.

(** ** Dispatch *)

(** [fuel] bounds the rounds of [sys_sleep]. *)
Definition call_handler (fuel : nat) (f : syscall_fn) (regs : registers_t) : handler Z :=
  match f with
  | sys_exit_fn => sys_exit_handler regs
  | sys_write_fn => run (sys_write_handler regs)
  | sys_read_fn => run (sys_read_handler regs)
  | sys_yield_fn => sys_yield_handler regs
  | sys_getpid_fn => run (sys_getpid_handler regs)
  | sys_sleep_fn => sys_sleep_handler fuel regs
  end.

(** [regs->eax = ret], once the handler has returned. *)
Fixpoint store_result (regs : registers_t) (o : outcome Z) : outcome registers_t :=
  match o with
  | Done ret s => Done (set_eax (u32 ret) regs) s
  | Parked s k => Parked s (λ s', match k s' with Some o' => Some (store_result regs o') | None => None end)
  | Stopped s => Stopped s
  end.

Definition syscall_dispatcher (fuel : nat) (regs : registers_t) : handler registers_t := λ s,
  let num := r_eax regs in
  if num >=? MAX_SYSCALLS then Some (Done (set_eax (u32 (-1)) regs) s)
  else
    match syscall_table (st s) !! Z.to_nat num with
    | Some None => Some (Done (set_eax (u32 (-1)) regs) s)
    | Some (Some f) =>
        match call_handler fuel f regs s with
        | Some o => Some (store_result regs o)
        | None => None
        end
    | None => None
    end.

(** The table [syscall_init] fills in. *)
Definition syscall_init_table : list (option syscall_fn) :=
  let t := replicate (Z.to_nat MAX_SYSCALLS) None in
  let t := <[Z.to_nat SYS_EXIT := Some sys_exit_fn]> t in
  let t := <[Z.to_nat SYS_WRITE := Some sys_write_fn]> t in
  let t := <[Z.to_nat SYS_READ := Some sys_read_fn]> t in
  let t := <[Z.to_nat SYS_YIELD := Some sys_yield_fn]> t in
  let t := <[Z.to_nat SYS_GETPID := Some sys_getpid_fn]> t in
  <[Z.to_nat SYS_SLEEP := Some sys_sleep_fn]> t.

(** ** General protection faults *)

(** The name of the current task as it is printed: nothing without a task. *)
Definition current_name : M (io sys) (option (list Z)) :=
  s ← quiet get;
  let cur := task_get_current (y_os s) in
  if bool_decide (cur = PNull) then mret None
  else t ← os_in_sys (quiet (deref cur)); mret (Some (t_name t)).

Definition gpf_user (regs : registers_t) : M (io sys) () :=
  name ← current_name;
  kprint ([10] ++ str "[GPF] User task '") ;;
  (match name with
   | Some n => text ← of_option (cstr n); kprint text
   | None => mret ()
   end : M (io sys) ()) ;;
  kprint (str "' caused General Protection Fault at EIP=") ;;
  kprint_hex (r_eip regs) ;;
  kprint (str " err=") ;;
  kprint_hex (err_code regs) ;;
  kprint (str " -- killed." ++ [10]) ;;
  log_in_sys (klog_error (str "GPF eip=0x%x err=0x%x task='%s' [user] -> killed" ++ [0])
    [VInt (r_eip regs); VInt (err_code regs); VStr (Some (default (str "?" ++ [0]) name))]) ;;
  os_in_sys (quiet task_exit).

Definition gpf_kernel (regs : registers_t) : M (io sys) () :=
  os_in_sys (quiet cli) ;;
  log_in_sys (klog_error (str "GPF eip=0x%x cs=0x%x err=0x%x [kernel] -> halted" ++ [0])
    [VInt (r_eip regs); VInt (r_cs regs); VInt (err_code regs)]) ;;
  kprint ([10] ++ str "========== KERNEL GPF ==========" ++ [10]) ;;
  kprint (str "EIP: ") ;;
  kprint_hex (r_eip regs) ;;
  kprint (str "  CS: ") ;;
  kprint_hex (r_cs regs) ;;
  kprint (str "  Error: ") ;;
  kprint_hex (err_code regs) ;;
  kprint [10] ;;
  kprint (str "System Halted." ++ [10]).

(** Neither branch returns. *)
Definition gpf_handler (regs : registers_t) : handler () := λ s,
  match (if Z.land (r_cs regs) 0x3 =? 3 then gpf_user regs else gpf_kernel regs) s with
  | Some (_, s') => Some (Stopped s')
  | None => None
  end.
