(* ===== verification/SyscallSpec.v ===== *)
(** * What the system calls promise

    The pointer check is exact; a write prints the caller's bytes; a sleep
    ends at the first round at which its time has passed.  The pointer check
    does not look at the user bit of the pages, and the kernel may read every
    page: [sys_write_ignores_rights] shows a user task printing kernel memory. *)

From S2P Require Import Prelude KString KStdio Console Pmm Memory Paging Sched Task TaskExit KPrintf Block SimpleFS Klog.
From S2P Require Import Syscall.

Open Scope Z_scope.
Open Scope c_scope.

(** ** Pointers *)

Lemma validate_spec start len :
  0 ≤ start < 4294967296 → 0 ≤ len < 4294967296 →
  validate_user_ptr start len =
  if (USER_SPACE_START <=? start) && (start + len <=? USER_SPACE_END) then 0 else -1.
Proof.
  intros Hs Hl. unfold validate_user_ptr, USER_SPACE_START, USER_SPACE_END.
  assert (start +! len = start + len ∨ start +! len = start + len - 4294967296 ∧ 4294967296 ≤ start + len) as H.
  { destruct (Z.lt_ge_cases (start + len) 4294967296); [left; apply u32_small; lia|right]. split; [|lia].
    unfold u32. rewrite <- (Z.mod_add (start + len) (-1)) by lia. apply Z.mod_small. lia. }
  destruct (Z.leb_spec 0x1000 start), (Z.leb_spec (start + len) 0xC0000000); cbn [andb]; repeat zcase;
    cbn [orb]; try done; lia.
Qed.

(** ** Reading user memory *)

Lemma virt_read_split v va a b l :
  0 ≤ va → va + Z.of_nat (a + b) < 4294967296 → virt_read v va (a + b) = Some l →
  virt_read v va a = Some (take a l) ∧ virt_read v (va + Z.of_nat a) b = Some (drop a l).
Proof.
  revert va l. induction a as [|a IH]; intros va l Hva Hend E; cbn [Nat.add virt_read take drop] in *.
  - by rewrite Z.add_0_r, take_0, drop_0.
  - destruct (virt_load8 v va) as [x|]; [|done]. cbn [mbind option_bind] in *. rewrite (u32_small (va + 1)) in * by lia.
    destruct (virt_read v (va + 1) (a + b)) as [l'|] eqn:E'; [|done]. injection E as <-.
    destruct (IH (va + 1) l') as [H1 H2]; [lia|lia|done|]. rewrite H1. split; [done|].
    cbn [drop]. rewrite <- H2. f_equal. lia.
Qed.

Lemma length_virt_read v va n l : virt_read v va n = Some l → length l = n.
Proof.
  revert va l. induction n as [|n IH]; intros va l E; cbn [virt_read] in E; [by injection E as <-|].
  destruct (virt_load8 v va); [|done]. cbn [mbind option_bind] in E.
  destruct (virt_read v (va +! 1) n) as [l'|] eqn:E'; [|done]. injection E as <-. cbn. f_equal. by eapply IH.
Qed.

(** ** write *)

Lemma write_chunks_run fuel buf len written (s : sys) c rest :
  0 ≤ buf → 0 ≤ written ≤ len → buf + len < 4294967296 → len - written + 128 ≤ 128 * Z.of_nat fuel →
  virt_read (vmem (y_os s)) (buf + written) (Z.to_nat (len - written)) = Some rest → nonzero rest →
  write_chunks fuel buf len written (IO s c) = Some (len, IO s (c ++ rest)).
Proof.
  revert written c rest. induction fuel as [|f IH]; intros written c rest Hb Hw Hend Hf E Hnz; [lia|].
  cbn [write_chunks]. pose proof (length_virt_read _ _ _ _ E) as Hlen. destruct (Z.ltb_spec written len) as [Hlt|Hge].
  - rewrite (u32_small (len - written)), (u32_small (buf + written)) by lia.
    set (chunk := if len - written >? 128 then 128 else len - written).
    assert (0 < chunk ≤ len - written ∧ (chunk = len - written ∨ chunk = 128)) as [Hchunk Hcase].
    { unfold chunk. destruct (Z.gtb_spec (len - written) 128); lia. }
    clearbody chunk. replace (Z.to_nat (len - written)) with (Z.to_nat chunk + Z.to_nat (len - written - chunk))%nat in E by lia.
    apply virt_read_split in E as [E1 E2]; [|lia|lia].
    rewrite (bind_Some _ _ _ s (IO s c)) by done.
    rewrite bind_run, E1. cbn [of_option]. rewrite bind_run, cstr_app by (by apply Forall_take). cbn [of_option].
    rewrite bind_run, kprint_run, (u32_small (written + chunk)) by lia.
    rewrite (IH (written + chunk) _ (drop (Z.to_nat chunk) rest)); [|lia..| |by apply Forall_drop].
    + by rewrite <- app_assoc, take_drop.
    + replace (len - (written + chunk)) with (len - written - chunk) by lia.
      rewrite <- E2. f_equal. lia.
  - replace written with len by lia. replace rest with (@nil Z); [by rewrite app_nil_r|].
    destruct rest; [done|]. cbn in Hlen. lia.
Qed.

Lemma sys_write_run regs (s : sys) c bytes :
  let buf := r_ebx regs in
  let len := r_ecx regs in
  0 ≤ buf < 4294967296 → 0 < len < 4294967296 → USER_SPACE_START ≤ buf → buf + len ≤ USER_SPACE_END →
  virt_read (vmem (y_os s)) buf (Z.to_nat len) = Some bytes → nonzero bytes →
  sys_write_handler regs (IO s c) = Some (i32 len, IO s (c ++ bytes)).
Proof.
  intros buf len Hbuf Hlen Hlo Hhi E Hnz. unfold sys_write_handler. fold buf len.
  destruct (Z.eqb_spec len 0); [lia|]. rewrite validate_spec by lia.
  destruct (Z.leb_spec USER_SPACE_START buf); [|lia]. destruct (Z.leb_spec (buf + len) USER_SPACE_END); [|lia].
  cbn [andb Z.eqb negb]. rewrite bind_run.
  unfold USER_SPACE_END in *. rewrite (write_chunks_run _ buf len 0 s c bytes); [done|lia|lia|lia| | |done].
  - pose proof (Z.div_mod len 128). pose proof (Z.mod_pos_bound len 128). assert (0 ≤ len / 128) by (apply Z.div_pos; lia). lia.
  - by rewrite Z.add_0_r, Z.sub_0_r.
Qed.

(** The dispatcher on a handler that runs to its end. *)
Lemma dispatch_run fuel regs s f ret s' :
  0 ≤ r_eax regs < MAX_SYSCALLS → syscall_table (st s) !! Z.to_nat (r_eax regs) = Some (Some f) →
  call_handler fuel f regs s = Some (Done ret s') →
  syscall_dispatcher fuel regs s = Some (Done (set_eax (u32 ret) regs) s').
Proof.
  intros Hn Ht Hc. unfold syscall_dispatcher. rewrite Z.geb_leb.
  destruct (Z.leb_spec MAX_SYSCALLS (r_eax regs)); [lia|]. by rewrite Ht, Hc.
Qed.

Lemma dispatch_write fuel regs (s : sys) c bytes :
  syscall_table s = syscall_init_table → r_eax regs = SYS_WRITE →
  0 ≤ r_ebx regs < 4294967296 → 0 < r_ecx regs < 4294967296 →
  USER_SPACE_START ≤ r_ebx regs → r_ebx regs + r_ecx regs ≤ USER_SPACE_END →
  virt_read (vmem (y_os s)) (r_ebx regs) (Z.to_nat (r_ecx regs)) = Some bytes → nonzero bytes →
  syscall_dispatcher fuel regs (IO s c) = Some (Done (set_eax (r_ecx regs) regs) (IO s (c ++ bytes))).
Proof.
  intros Ht Ha Hbuf Hlen Hlo Hhi E Hnz.
  assert (u32 (i32 (r_ecx regs)) = r_ecx regs) as Hret.
  { unfold i32. rewrite (u32_small (r_ecx regs)) by lia. zcase; [apply u32_small; lia|].
    unfold u32. rewrite <- (Z.mod_add _ 1) by lia. rewrite Z.mod_small; lia. }
  rewrite <- Hret. apply (dispatch_run fuel regs _ sys_write_fn).
  - rewrite Ha. done.
  - cbn [st]. by rewrite Ht, Ha.
  - cbn [call_handler]. unfold run. by rewrite (sys_write_run regs s c bytes).
Qed.

(** Memory a ring-3 program may read. *)
Definition user_pages (v : vm) (va len : Z) : Prop :=
  ∀ a, va ≤ a < va + len → ∃ f w, hw_walk (ram v) (cr3 v) a = Some (f, w, true).

Lemma user_pages_read v va n :
  0 ≤ va → va + Z.of_nat n < 4294967296 → user_pages v va (Z.of_nat n) →
  ∃ bytes, virt_read v va n = Some bytes ∧
    ∀ i, (i < n)%nat → ∃ f w, hw_walk (ram v) (cr3 v) (va + Z.of_nat i) = Some (f, w, true) ∧
      bytes !! i = Some (load8 (ram v) (f + (va + Z.of_nat i) mod PAGE_SIZE)).
Proof.
  revert va. induction n as [|n IH]; intros va Hva Hend Hu; [by exists []; split; [|lia]|]. cbn [virt_read].
  destruct (Hu va ltac:(lia)) as (f & w & E). unfold virt_load8. rewrite E. cbn [mbind option_bind fst]. rewrite u32_small by lia.
  destruct (IH (va + 1)) as (bytes & -> & Hb); [lia|lia|intros a Ha; apply Hu; lia|]. cbn [fmap option_fmap option_map].
  eexists. split; [reflexivity|]. intros [|i] Hi; [rewrite Z.add_0_r; by exists f, w|].
  destruct (Hb i ltac:(lia)) as (f' & w' & E' & Hb'). exists f', w'. cbn [lookup list_lookup]. by replace (va + Z.of_nat (S i)) with (va + 1 + Z.of_nat i) by lia.
Qed.

(** C32: The write system call: for a text (no byte is zero) of any length in
    memory of the caller, inside the user range and on pages the caller may
    read, INT 0x80 with EAX = 1 returns, prints exactly the bytes the caller
    sees there, returns their number in EAX and changes nothing else. *)
Theorem sys_write_prints fuel regs (s : sys) c :
  syscall_table s = syscall_init_table → r_eax regs = SYS_WRITE →
  0 ≤ r_ebx regs < 4294967296 → 0 < r_ecx regs < 4294967296 →
  USER_SPACE_START ≤ r_ebx regs → r_ebx regs + r_ecx regs ≤ USER_SPACE_END →
  user_pages (vmem (y_os s)) (r_ebx regs) (r_ecx regs) →
  ∃ bytes, length bytes = Z.to_nat (r_ecx regs) ∧
    (∀ i, (i < length bytes)%nat → ∃ f w, hw_walk (ram (vmem (y_os s))) (cr3 (vmem (y_os s))) (r_ebx regs + Z.of_nat i) = Some (f, w, true) ∧
       bytes !! i = Some (load8 (ram (vmem (y_os s))) (f + (r_ebx regs + Z.of_nat i) mod PAGE_SIZE))) ∧
    (nonzero bytes →
     syscall_dispatcher fuel regs (IO s c) = Some (Done (set_eax (r_ecx regs) regs) (IO s (c ++ bytes)))).
Proof.
  intros Ht Ha Hbuf Hlen Hlo Hhi Hu. unfold USER_SPACE_END in *.
  destruct (user_pages_read (vmem (y_os s)) (r_ebx regs) (Z.to_nat (r_ecx regs))) as (bytes & E & Hb); [lia|lia|by rewrite Z2Nat.id by lia|].
  pose proof (length_virt_read _ _ _ _ E) as Hl. exists bytes. split_and!; [done|by rewrite Hl|].
  intros Hnz. by apply dispatch_write.
Qed.

(** C33: The pointer check is exact: it accepts a buffer (returns 0) exactly
    when the whole buffer lies between 0x1000 and 0xC0000000, whatever its
    length (no sum wraps), and returns -1 otherwise.  Write and read calls of
    length 0 return 0; of other lengths, with a buffer it rejects they return
    -1, and a read with a buffer it accepts returns 0; calls with a number that has no
    handler return -1; none of these changes anything but EAX. *)
Theorem syscall_rejects fuel regs (s : sys) c :
  syscall_table s = syscall_init_table →
  0 ≤ r_eax regs < 4294967296 → 0 ≤ r_ebx regs < 4294967296 → 0 ≤ r_ecx regs < 4294967296 →
  let inside := USER_SPACE_START ≤ r_ebx regs ∧ r_ebx regs + r_ecx regs ≤ USER_SPACE_END in
  let returns v := syscall_dispatcher fuel regs (IO s c) = Some (Done (set_eax v regs) (IO s c)) in
  (inside → validate_user_ptr (r_ebx regs) (r_ecx regs) = 0) ∧
  (¬ inside → validate_user_ptr (r_ebx regs) (r_ecx regs) = -1) ∧
  (5 < r_eax regs → returns 0xFFFFFFFF) ∧
  (r_eax regs = SYS_WRITE ∨ r_eax regs = SYS_READ →
     (r_ecx regs = 0 → returns 0) ∧ (r_ecx regs ≠ 0 → ¬ inside → returns 0xFFFFFFFF) ∧
     (r_ecx regs ≠ 0 → inside → r_eax regs = SYS_READ → returns 0)).
Proof.
  intros Ht Ha Hb Hc inside returns.
  assert (validate_user_ptr (r_ebx regs) (r_ecx regs) = if decide inside then 0 else -1) as Hv.
  { rewrite validate_spec by lia. unfold inside. repeat zcase; case_decide; cbn [andb]; try done; lia. }
  split_and!; [intros Hi; by rewrite Hv, decide_True|intros Hi; by rewrite Hv, decide_False| |].
  - intros Hn. unfold returns, syscall_dispatcher. rewrite Z.geb_leb. destruct (Z.leb_spec MAX_SYSCALLS (r_eax regs)) as [|Hlt]; [done|].
    cbn [st]. rewrite Ht. unfold MAX_SYSCALLS in Hlt.
    assert (Z.to_nat (r_eax regs) ∈ seq 6 10) as Hin by (apply elem_of_seq; lia).
    cbn [seq] in Hin. repeat (apply elem_of_cons in Hin as [->|Hin]; [done|]). by apply not_elem_of_nil in Hin.
  - intros Hn. assert (∀ v, call_handler fuel (if r_eax regs =? SYS_WRITE then sys_write_fn else sys_read_fn) regs (IO s c) = Some (Done v (IO s c)) →
      returns (u32 v)) as Hret.
    { intros v Hv'. eapply dispatch_run; [|cbn [st]|exact Hv']; destruct Hn as [-> | ->]; rewrite ?Ht; done. }
    split_and!.
    + intros H0. apply (Hret 0). destruct Hn as [-> | ->]; cbn [Z.eqb SYS_WRITE SYS_READ Pos.eqb call_handler]; unfold run;
        [unfold sys_write_handler|unfold sys_read_handler]; by rewrite H0.
    + intros H0 Hi. apply (Hret (-1)). destruct Hn as [-> | ->]; cbn [Z.eqb SYS_WRITE SYS_READ Pos.eqb call_handler]; unfold run;
        [unfold sys_write_handler|unfold sys_read_handler]; rewrite Hv, decide_False by done;
        (destruct (Z.eqb_spec (r_ecx regs) 0); [lia|done]).
    + intros H0 Hi Hr. apply (Hret 0). rewrite Hr. cbn [Z.eqb SYS_WRITE SYS_READ Pos.eqb call_handler]. unfold run, sys_read_handler.
      rewrite Hv, decide_True by done. by destruct (Z.eqb_spec (r_ecx regs) 0).
Qed.

(** ** sleep *)

(** A run of a handler: each time it gives up the processor, for the [i]-th
    time, the rest of the machine runs until the task goes on in state
    [env i s].  The result comes with the number of times it was resumed. *)
Fixpoint driven {A} (env : nat → io sys → io sys) (i : nat) (o : outcome A) : option (A * io sys * nat) :=
  match o with
  | Done a s => Some (a, s, i)
  | Parked s k => match k (env i s) with Some o' => driven env (S i) o' | None => None end
  | Stopped _ => None
  end.

Definition scheduler_ok (s : io sys) : Prop := ∃ qs, sched_inv (y_os (st s)) qs.

Lemma driven_store env regs i o ret s n :
  driven env i o = Some (ret, s, n) → driven env i (store_result regs o) = Some (set_eax (u32 ret) regs, s, n).
Proof.
  revert i o. fix IH 2. intros i [a s0|s0 k|s0]; cbn [driven store_result]; [by intros [= -> -> ->]| |done].
  destruct (k (env i s0)) as [o'|]; [apply IH|done].
Qed.

Lemma yield_and_wait_run {A} (k : handler A) s :
  scheduler_ok s → ∃ s', yield_and_wait k s = Some (Parked s' k) ∧ scheduler_ok s'.
Proof.
  destruct s as [y c]. intros [qs Hinv]. cbn [st] in Hinv. destruct (order_exists _ _ (si_queue _ _ Hinv)) as [L HL].
  destruct (sched_yield_run _ _ _ Hinv HL) as (o' & E & _ & Hinv').
  unfold yield_and_wait, os_in_sys, zoom_io, quiet, zoom. cbn [st con]. rewrite E. eexists. split; [reflexivity|]. by exists qs.
Qed.

Section sleep.
Context (env : nat → io sys → io sys) (T : nat → Z) (start : Z).
Hypothesis Henv : ∀ i s, scheduler_ok s → timer_ticks (st (env i s)) = u32 (start + T i) ∧ scheduler_ok (env i s).

(** The loop, resumed for the [i]-th time, with [d] more rounds to wait. *)
Lemma sleep_loop_run w d i fuel s :
  scheduler_ok s → (∀ j, (i ≤ j < i + d)%nat → 0 ≤ T j < w) → w ≤ T (i + d)%nat < 4294967296 → 0 < w → (S d ≤ fuel)%nat →
  ∃ o s', sleep_loop fuel start w (env i s) = Some o ∧ driven env (S i) o = Some (0, s', S (i + d)) ∧
    timer_ticks (st s') -! start = T (i + d)%nat.
Proof using Henv.
  assert (∀ t, 0 ≤ t < 4294967296 → u32 (start + t) -! start = t) as Helapsed.
  { intros t Ht. unfold u32. rewrite Zminus_mod_idemp_l, Z.add_simpl_l. by apply Z.mod_small. }
  revert i fuel s. induction d as [|d IH]; intros i [|f] s Hs Hlt Hw Hpos Hf; try lia;
    destruct (Henv i s Hs) as [Ht Hs']; cbn [sleep_loop]; unfold get_timer_ticks; rewrite Ht.
  - rewrite Nat.add_0_r in *. rewrite Helapsed by lia. zcase. eexists _, _. split; [reflexivity|].
    cbn [driven]. split; [done|]. rewrite Ht. apply Helapsed. lia.
  - rewrite Helapsed by (specialize (Hlt i ltac:(lia)); lia). specialize (Hlt i ltac:(lia)) as Hi0. zcase.
    destruct (yield_and_wait_run (sleep_loop f start w) _ Hs') as (s1 & -> & Hs1). eexists _.
    destruct (IH (S i) f s1 Hs1) as (o & s' & E & Hd & Hend); [intros j Hj; apply Hlt; lia| |lia|lia|].
    + by replace (S i + d)%nat with (i + S d)%nat by lia.
    + exists s'. split; [reflexivity|]. cbn [driven]. rewrite E. by replace (i + S d)%nat with (S i + d)%nat by lia.
Qed.
End sleep.


(** ** Examples *)

(** An address space with one page at 0x400000, mapped for the kernel only,
    that holds the letters "key". *)
Definition secret_vm : vm :=
  Vm (store32 (store32 (store8 (store8 (store8 ∅ 0x502000 107) 0x502001 101) 0x502002 121)
        0x500004 0x501003) 0x501000 0x502003)
     boot_pmm 0x500000 (replicate 1024 0) 0x500000 0x500000 0x80000011 false ∅.

Definition demo_sys (o : os) (ticks : Z) : sys :=
  Sys o (Klog (replicate 256 zero_log_entry) 0 0 0) ticks syscall_init_table.

Definition demo_regs (eax ebx ecx : Z) : registers_t := Registers 0 0 0 0 0 ebx 0 ecx eax 0x80 0 0 0x1B 0x202 0 0x23.

(** The kernel's page is printed for a user task that may not read it. *)
Theorem sys_write_ignores_rights :
  hw_walk (ram secret_vm) (cr3 secret_vm) 0x400000 = Some (0x502000, true, false) ∧
  syscall_dispatcher 0 (demo_regs 1 0x400000 3) (IO (demo_sys (set_vmem secret_vm idle_os) 0) []) =
  Some (Done (set_eax 3 (demo_regs 1 0x400000 3)) (IO (demo_sys (set_vmem secret_vm idle_os) 0) (str "key"))).
Proof.
  split; [vm_compute; reflexivity|].
  apply (dispatch_write 0 (demo_regs 1 0x400000 3) (demo_sys (set_vmem secret_vm idle_os) 0) [] (str "key"));
    try reflexivity; try (cbn; unfold USER_SPACE_START, USER_SPACE_END; lia).
  apply (bool_decide_unpack _). vm_compute. exact I.
Qed.

(** The same page, open to the user. *)
Definition open_vm : vm :=
  Vm (store32 (store32 (ram secret_vm) 0x500004 0x501007) 0x501000 0x502007)
     boot_pmm 0x500000 (replicate 1024 0) 0x500000 0x500000 0x80000011 false ∅.

Lemma sys_write_prints_witness :
  syscall_dispatcher 0 (demo_regs 1 0x400000 3) (IO (demo_sys (set_vmem open_vm idle_os) 0) []) =
  Some (Done (set_eax 3 (demo_regs 1 0x400000 3)) (IO (demo_sys (set_vmem open_vm idle_os) 0) (str "key"))).
Proof.
  destruct (sys_write_prints 0 (demo_regs 1 0x400000 3) (demo_sys (set_vmem open_vm idle_os) 0) []) as (bytes & Hl & Hb & Hp);
    [reflexivity|reflexivity|cbn; unfold USER_SPACE_START, USER_SPACE_END; lia..| |].
  - intros a Ha. cbn in Ha. exists 0x502000, true.
    assert (a = 0x400000 ∨ a = 0x400001 ∨ a = 0x400002) as [-> | [-> | ->]] by lia; vm_compute; reflexivity.
  - assert (bytes = str "key") as ->.
    { apply list_eq_same_length with 3%nat; [reflexivity|exact Hl|]. intros i x y Hi Hx Hy. rewrite Hl in Hb.
      destruct (Hb i Hi) as (f & w & E & Hb'). rewrite Hx in Hb'. injection Hb' as ->.
      destruct i as [|[|[|i]]]; [..|lia]; injection Hy as <-; vm_compute in E; injection E as <- _; vm_compute; reflexivity. }
    apply Hp. apply (bool_decide_unpack _). vm_compute. exact I.
Defined.

Lemma syscall_rejects_witness :
  syscall_dispatcher 0 (demo_regs 1 0xFFFFFFF0 0x20) (IO (demo_sys idle_os 0) []) =
  Some (Done (set_eax 0xFFFFFFFF (demo_regs 1 0xFFFFFFF0 0x20)) (IO (demo_sys idle_os 0) [])) ∧
  validate_user_ptr 0x1000 0xBFFFF000 = 0.
Proof.
  split.
  - apply syscall_rejects; [reflexivity|cbn; lia|cbn; lia|cbn; lia|left; reflexivity|cbn; lia|].
    cbn. unfold USER_SPACE_END. lia.
  - apply (syscall_rejects 0 (demo_regs 1 0x1000 0xBFFFF000) (demo_sys idle_os 0) []);
      [reflexivity|cbn; lia|cbn; lia|cbn; lia|]. cbn. unfold USER_SPACE_START, USER_SPACE_END. lia.
Defined.

