(* ===== verification/Timer.v ===== *)
(** * kernel/sys/timer.c: ticks and uptime

    The tick counter, the handler of the timer interrupt, which also runs
    the scheduler, and the uptime text. *)

From S2P Require Import Prelude KString KStdio Console Pmm Memory Paging Sched Task KPrintf Block SimpleFS Klog Syscall.

Open Scope Z_scope.
Open Scope c_scope.

Definition TIMER_FREQUENCY : Z := 100.

Definition set_ticks (t : Z) (y : sys) : sys := Sys (y_os y) (y_log y) t (syscall_table y).

(** The handler of IRQ 0. *)
Definition timer_handler : M (io sys) () :=
  quiet (modify (λ y, set_ticks (timer_ticks y +! 1) y)) ;;
  os_in_sys (quiet schedule).

Definition get_uptime_seconds (ticks : Z) : Z := ticks / TIMER_FREQUENCY.

(** [uitoa(v, buffer, 10)] *)
Definition uitoa_to (buffer : list Z) (v : Z) : option (list Z) :=
  ds ← uitoa v 10; strcpy buffer (ds ++ [0]).

(** [uitoa(a); strcat(sep); uitoa(b, temp); strcat(temp); strcat(unit)] with
    the 16-byte array [temp]. *)
Definition two_fields (buffer : list Z) (a : Z) (sep : list Z) (b : Z) (unit : list Z) : option (list Z) :=
  buffer ← uitoa_to buffer a;
  buffer ← strcat buffer (sep ++ [0]);
  temp ← uitoa_to (replicate 16 0) b;
  buffer ← strcat buffer temp;
  strcat buffer (unit ++ [0]).

Definition get_uptime_string (ticks : Z) (buffer : list Z) : option (list Z) :=
  let total_seconds := get_uptime_seconds ticks in
  if total_seconds <? 60 then
    buffer ← uitoa_to buffer total_seconds; strcat buffer (str "s" ++ [0])
  else if total_seconds <? 3600 then
    two_fields buffer (total_seconds / 60) (str "m ") (total_seconds mod 60) (str "s")
  else
    two_fields buffer (total_seconds / 3600) (str "h ") (total_seconds mod 3600 / 60) (str "m").

(** ** Facts *)

Lemma numeral_nonzero v s : numeral 10 v s → nonzero s.
Proof.
  intros [_ Hd _ _]. eapply Forall_impl; [|exact Hd]. intros c [Hv ->]. unfold digit_char in *. zcase; lia.
Qed.

Lemma uitoa_to_run buffer v k :
  0 ≤ v < 4294967296 → v < 10 ^ Z.of_nat k → (1 ≤ k < length buffer)%nat →
  ∃ n, uitoa_to buffer v = Some (n ++ 0 :: drop (S (length n)) buffer) ∧ numeral 10 v n ∧ (length n ≤ k)%nat.
Proof.
  intros Hv Hk Hb. destruct (utoa_numeral_len v 10 k) as (n & E & Hn & Hl); [lia|lia|lia|lia|].
  exists n. split; [|done]. unfold uitoa_to. rewrite uitoa_utoa, E by lia. cbn [mbind option_bind].
  apply (strcpy_cstr buffer n []); [by apply numeral_nonzero in Hn|lia].
Qed.

Lemma two_fields_run buffer a b (sep unit : list Z) :
  0 ≤ a < 100000 → 0 ≤ b < 60 → nonzero sep → nonzero unit → (length sep + length unit + 8 ≤ length buffer)%nat →
  ∃ na nb rest, two_fields buffer a sep b unit = Some ((na ++ sep ++ nb ++ unit) ++ 0 :: rest) ∧
    numeral 10 a na ∧ numeral 10 b nb ∧ (length na ≤ 5)%nat ∧ (length nb ≤ 2)%nat.
Proof.
  intros Ha Hb Hs Hu Hl. unfold two_fields.
  destruct (uitoa_to_run buffer a 5) as (na & -> & Hna & La); [lia|simpl; lia|lia|].
  destruct (uitoa_to_run (replicate 16 0) b 2) as (nb & Eb & Hnb & Lb); [lia|simpl; lia|simpl; lia|].
  pose proof (numeral_nonzero _ _ Hna) as Za. pose proof (numeral_nonzero _ _ Hnb) as Zb.
  cbn [mbind option_bind]. rewrite strcat_cstr by (try done; rewrite length_drop; lia). cbn [mbind option_bind].
  rewrite Eb. cbn [mbind option_bind].
  rewrite strcat_cstr; [|by apply Forall_app_2|done|rewrite !length_drop; lia]. cbn [mbind option_bind].
  rewrite strcat_cstr; [|by repeat apply Forall_app_2|done|rewrite !length_drop; lia].
  exists na, nb. eexists. rewrite <- !app_assoc. done.
Qed.

(** The uptime text.  For every tick count and a buffer of the documented
    32 bytes, [get_uptime_string] stays inside the buffer and leaves the
    terminated text "Xs" below a minute, "Xm Ys" below an hour and "Xh Ym"
    from then on, where X and Y are the decimal numerals of the whole hours,
    minutes and seconds of the uptime. *)
Theorem get_uptime_string_text ticks buffer :
  0 ≤ ticks < 4294967296 → (32 ≤ length buffer)%nat →
  let t := ticks / 100 in
  ∃ text rest, get_uptime_string ticks buffer = Some (text ++ 0 :: rest) ∧ nonzero text ∧ (length text ≤ 10)%nat ∧
    ((t < 60 ∧ ∃ n, numeral 10 t n ∧ text = n ++ str "s") ∨
     (60 ≤ t < 3600 ∧ ∃ a b, numeral 10 (t / 60) a ∧ numeral 10 (t mod 60) b ∧ text = a ++ str "m " ++ b ++ str "s") ∨
     (3600 ≤ t ∧ ∃ a b, numeral 10 (t / 3600) a ∧ numeral 10 (t mod 3600 / 60) b ∧ text = a ++ str "h " ++ b ++ str "m")).
Proof.
  intros Ht Hb t. unfold get_uptime_string, get_uptime_seconds, TIMER_FREQUENCY. fold t.
  assert (0 ≤ t < 42949673) as Hr by (unfold t; split; [apply Z.div_pos; lia|apply Z.div_lt_upper_bound; lia]).
  clearbody t.
  pose proof (Z.mod_pos_bound t 60). pose proof (Z.mod_pos_bound t 3600).
  pose proof (Z.div_mod t 60). pose proof (Z.div_mod t 3600).
  pose proof (Z.div_mod (t mod 3600) 60). pose proof (Z.mod_pos_bound (t mod 3600) 60).
  destruct (Z.ltb_spec t 60); [|destruct (Z.ltb_spec t 3600)].
  - destruct (uitoa_to_run buffer t 2) as (n & -> & Hn & Hl); [lia|simpl; lia|lia|]. cbn [mbind option_bind].
    pose proof (numeral_nonzero _ _ Hn) as Hz.
    rewrite (strcat_cstr n _ (str "s") []); [|done|by repeat constructor|rewrite length_drop; simpl; lia].
    eexists _, _. split; [reflexivity|]. split; [by apply Forall_app_2; [|repeat constructor]|].
    split; [rewrite length_app; simpl; lia|]. left. eauto.
  - destruct (two_fields_run buffer (t / 60) (t mod 60) (str "m ") (str "s")) as (a & b & rest & -> & Ha & Hb' & La & Lb);
      [lia|lia|by repeat constructor|by repeat constructor|simpl; lia|].
    eexists _, _. split; [reflexivity|]. split.
    { repeat apply Forall_app_2; [by apply (numeral_nonzero _ _ Ha)|by repeat constructor|by apply (numeral_nonzero _ _ Hb')|by repeat constructor]. }
    split; [rewrite !length_app; simpl; lia|]. right. left. split; [lia|]. eauto.
  - destruct (two_fields_run buffer (t / 3600) (t mod 3600 / 60) (str "h ") (str "m")) as (a & b & rest & -> & Ha & Hb' & La & Lb);
      [lia|lia|by repeat constructor|by repeat constructor|simpl; lia|].
    eexists _, _. split; [reflexivity|]. split.
    { repeat apply Forall_app_2; [by apply (numeral_nonzero _ _ Ha)|by repeat constructor|by apply (numeral_nonzero _ _ Hb')|by repeat constructor]. }
    split; [rewrite !length_app; simpl; lia|]. right. right. split; [lia|]. eauto.
Qed.

Lemma get_uptime_string_text_witness :
  get_uptime_string 372500 (replicate 32 1) = Some (str "1h 2m" ++ 0 :: replicate 26 1) ∧
  ∃ text rest, get_uptime_string 372500 (replicate 32 1) = Some (text ++ 0 :: rest) ∧ (length text ≤ 10)%nat.
Proof.
  split; [vm_compute; reflexivity|].
  destruct (get_uptime_string_text 372500 (replicate 32 1)) as (text & rest & E & _ & Hl & _); [lia|cbn; lia|]. eauto.
Defined.
