(* ===== verification/Ports.v ===== *)
(** * drivers/ports.c: port input and output

    The devices behind the ports are not part of the program: [PortIO] is
    their interface, the effect of the processor's IN, OUT, INS and OUTS on
    the state of the hardware.  The functions of ports.c are these
    instructions with operands of the width the C types give them. *)

From S2P Require Import Prelude KString.

Open Scope Z_scope.

Class PortIO (H : Type) := {
  hw_inb : Z → H → Z * H;
  hw_outb : Z → Z → H → H;
  hw_insw : Z → nat → H → list Z * H;
  hw_outsw : Z → list Z → H → H
}.

Section ports.
Context {H : Type} `{PortIO H}.

Definition port_byte_in (port : Z) : M H Z :=
  λ h, let r := hw_inb (u16 port) h in Some (u8 (fst r), snd r).

Definition port_byte_out (port data : Z) : M H () := modify (hw_outb (u16 port) (u8 data)).

(** A word goes through the port as one step of [insw] or [outsw] does. *)
Definition port_word_in (port : Z) : M H Z :=
  λ h, let r := hw_insw (u16 port) 1 h in
       match fst r with [w] => Some (u16 w, snd r) | _ => None end.

Definition port_word_out (port data : Z) : M H () := modify (hw_outsw (u16 port) [u16 data]).

(** [rep insw]: [count] words into a buffer, which is the result. *)
Definition port_words_in (port : Z) (count : nat) : M H (list Z) :=
  λ h, let r := hw_insw (u16 port) count h in
       if (length (fst r) =? count)%nat then Some (map u16 (fst r), snd r) else None.

(** [rep outsw]: the first [count] words of a buffer. *)
Definition port_words_out (port : Z) (buf : list Z) (count : nat) : M H () :=
  if (length buf <? count)%nat then fault else modify (hw_outsw (u16 port) (map u16 (take count buf))).

(** A write to the unused port 0x80. *)
Definition io_wait : M H () := modify (hw_outb 0x80 0).
End ports.
