(* ===== verification/Ata.v ===== *)
(** * drivers/ata.c and drivers/ata_blockdev.c: the ATA disk driver

    Programmed I/O on the primary bus.  The driver polls the status register;
    how often the drive answers busy is up to the drive, so the polling loops
    carry a bound [polls], and the theorems of [AtaSpec] say that a drive that
    becomes ready within the bound is served.  The state is the hardware
    behind the ports and the two [ata_drive_info_t] of the driver. *)

From S2P Require Import Prelude KString KStdio Console KPrintf Block Ports.

Open Scope Z_scope.
Open Scope c_scope.

Definition ATA_PRIMARY_DATA : Z := 0x1F0.
Definition ATA_PRIMARY_SECCOUNT : Z := 0x1F2.
Definition ATA_PRIMARY_LBA_LO : Z := 0x1F3.
Definition ATA_PRIMARY_LBA_MID : Z := 0x1F4.
Definition ATA_PRIMARY_LBA_HI : Z := 0x1F5.
Definition ATA_PRIMARY_DRIVE_HEAD : Z := 0x1F6.
Definition ATA_PRIMARY_STATUS : Z := 0x1F7.
Definition ATA_PRIMARY_ALT_STATUS : Z := 0x3F6.
Definition ATA_CMD_READ_SECTORS : Z := 0x20.
Definition ATA_CMD_WRITE_SECTORS : Z := 0x30.
Definition ATA_CMD_CACHE_FLUSH : Z := 0xE7.
Definition ATA_CMD_IDENTIFY : Z := 0xEC.
Definition ATA_SR_BSY : Z := 0x80.
Definition ATA_SR_DF : Z := 0x20.
Definition ATA_SR_DRQ : Z := 0x08.
Definition ATA_SR_ERR : Z := 0x01.
Definition ATA_DRIVE_MASTER : Z := 0xE0.
Definition ATA_DRIVE_SLAVE : Z := 0xF0.
Definition ATA_SECTOR_SIZE : Z := 512.

Record ata_drive_info := DriveInfo {
  di_model : list Z;             (* char model[41] *)
  lba28_sectors : Z;
  size_mb : Z;
  di_present : Z;
  lba_supported : Z
}.

(** [memset(info, 0, sizeof( *info))] *)
Definition zero_info : ata_drive_info := DriveInfo (replicate 41 0) 0 0 0 0.

(** The words of a buffer in memory order, low byte first. *)
Fixpoint words_bytes (ws : list Z) : list Z :=
  match ws with
  | [] => []
  | w :: ws' => u8 w :: u8 (w / 256) :: words_bytes ws'
  end.

Fixpoint bytes_words (bs : list Z) : list Z :=
  match bs with
  | lo :: hi :: bs' => lo + 256 * hi :: bytes_words bs'
  | _ => []
  end.

(** ** Strings of the IDENTIFY data *)

(** [for (i = 0; i < len; i += 2)] exchange [str[i]] and [str[i + 1]]. *)
Fixpoint swap_pairs (rounds i : nat) (s : list Z) : option (list Z) :=
  match rounds with
  | O => Some s
  | S n => s' ← swap s i (S i); swap_pairs n (i + 2) s'
  end.

(** [while (end >= 0 && str[end] == ' ')]: [n] is [end + 1]. *)
Fixpoint trim_loop (n : nat) (s : list Z) : option (list Z) :=
  match n with
  | O => Some s
  | S e =>
      c ← s !! e;
      if c =? 32 then trim_loop e (<[e := 0]> s) else Some s
  end.

Definition ata_fix_identify_string (s : list Z) (len : nat) : option (list Z) :=
  s ← swap_pairs ((len + 1) / 2) 0 s;
  if (len <? length s)%nat then trim_loop len (<[len := 0]> s) else None.

Section driver.
Context {H : Type} `{PortIO H} (polls : nat).

Definition ata_400ns_delay : M H () :=
  port_byte_in ATA_PRIMARY_ALT_STATUS ;;
  port_byte_in ATA_PRIMARY_ALT_STATUS ;;
  port_byte_in ATA_PRIMARY_ALT_STATUS ;;
  port_byte_in ATA_PRIMARY_ALT_STATUS ;;
  mret ().

(** [while (port_byte_in(ATA_PRIMARY_STATUS) & ATA_SR_BSY)] *)
Fixpoint busy_loop (fuel : nat) : M H () :=
  match fuel with
  | O => fault
  | S f =>
      status ← port_byte_in ATA_PRIMARY_STATUS;
      if truth (Z.land status ATA_SR_BSY) then busy_loop f else mret ()
  end.

(** [while (1)]: until an error or DRQ; [df] says whether a drive fault is
    looked at. *)
Fixpoint drq_loop (df : bool) (fuel : nat) : M H Z :=
  match fuel with
  | O => fault
  | S f =>
      status ← port_byte_in ATA_PRIMARY_STATUS;
      if truth (Z.land status ATA_SR_ERR) then mret (-1)
      else if df && truth (Z.land status ATA_SR_DF) then mret (-1)
      else if truth (Z.land status ATA_SR_DRQ) then mret 0
      else drq_loop df f
  end.

Definition ata_poll : M H Z :=
  ata_400ns_delay ;;
  busy_loop polls ;;
  status ← port_byte_in ATA_PRIMARY_STATUS;
  if truth (Z.land status ATA_SR_ERR) then mret (-1)
  else if truth (Z.land status ATA_SR_DF) then mret (-1)
  else if negb (truth (Z.land status ATA_SR_DRQ)) then drq_loop true polls
  else mret 0.

Definition ata_wait_ready : M H () := busy_loop polls.

(** ** IDENTIFY *)

(** The fields taken from the 256 words. *)
Definition identify_info (identify_data : list Z) : option ata_drive_info :=
  let word i := default 0 (identify_data !! i) in
  model ← memcpy (replicate 41 0) (words_bytes (drop 27 identify_data)) 40;
  model ← ata_fix_identify_string model 40;
  let sectors := Z.lor (u32 (Z.shiftl (word 61%nat) 16)) (word 60%nat) in
  Some (DriveInfo model sectors (sectors / 2048) 1
          (if truth (Z.land (word 49%nat) (Z.shiftl 1 9)) then 1 else 0)).

Definition ata_identify_drive (drive_select : Z) : M H ata_drive_info :=
  port_byte_out ATA_PRIMARY_DRIVE_HEAD drive_select ;;
  ata_400ns_delay ;;
  port_byte_out ATA_PRIMARY_SECCOUNT 0 ;;
  port_byte_out ATA_PRIMARY_LBA_LO 0 ;;
  port_byte_out ATA_PRIMARY_LBA_MID 0 ;;
  port_byte_out ATA_PRIMARY_LBA_HI 0 ;;
  port_byte_out ATA_PRIMARY_STATUS ATA_CMD_IDENTIFY ;;
  ata_400ns_delay ;;
  status ← port_byte_in ATA_PRIMARY_STATUS;
  if status =? 0 then mret zero_info
  else
    busy_loop polls ;;
    mid ← port_byte_in ATA_PRIMARY_LBA_MID;
    not_ata ← (if negb (mid =? 0) then mret true
               else hi ← port_byte_in ATA_PRIMARY_LBA_HI; mret (negb (hi =? 0)));
    if (not_ata : bool) then mret zero_info
    else
      r ← drq_loop false polls;
      if negb (r =? 0) then mret zero_info
      else
        identify_data ← port_words_in ATA_PRIMARY_DATA 256;
        of_option (identify_info identify_data).

(** ** Reading and writing *)

(** Drive, sector count and address into the registers. *)
Definition select_sectors (drive_select lba count : Z) : M H () :=
  port_byte_out ATA_PRIMARY_DRIVE_HEAD (Z.lor drive_select (Z.land (Z.shiftr lba 24) 0x0F)) ;;
  port_byte_out ATA_PRIMARY_SECCOUNT count ;;
  port_byte_out ATA_PRIMARY_LBA_LO (u8 (Z.land lba 0xFF)) ;;
  port_byte_out ATA_PRIMARY_LBA_MID (u8 (Z.land (Z.shiftr lba 8) 0xFF)) ;;
  port_byte_out ATA_PRIMARY_LBA_HI (u8 (Z.land (Z.shiftr lba 16) 0xFF)).

(** The rounds that are left; the result is the C result and the bytes stored
    at [wbuf]. *)
Fixpoint read_loop (n : nat) : M H (Z * list Z) :=
  match n with
  | O => mret (0, [])
  | S n' =>
      r ← ata_poll;
      if negb (r =? 0) then mret (-1, [])
      else
        ws ← port_words_in ATA_PRIMARY_DATA 256;
        rest ← read_loop n';
        mret (fst rest, words_bytes ws ++ snd rest)
  end.

Definition ata_read_sectors_internal (drive_select : Z) (info : ata_drive_info) (lba count : Z)
    : M H (Z * list Z) :=
  if di_present info =? 0 then mret (-1, [])
  else
    ata_wait_ready ;;
    select_sectors drive_select lba count ;;
    port_byte_out ATA_PRIMARY_STATUS ATA_CMD_READ_SECTORS ;;
    let sectors := if count =? 0 then 255 else count in
    read_loop (Z.to_nat sectors).

Fixpoint write_loop (n : nat) (wbuf : list Z) : M H Z :=
  match n with
  | O => mret 0
  | S n' =>
      r ← ata_poll;
      if negb (r =? 0) then mret (-1)
      else port_words_out ATA_PRIMARY_DATA wbuf 256 ;; write_loop n' (drop 256 wbuf)
  end.

Definition ata_write_sectors_internal (drive_select : Z) (info : ata_drive_info) (lba count : Z)
    (buf : list Z) : M H Z :=
  if di_present info =? 0 then mret (-1)
  else
    ata_wait_ready ;;
    select_sectors drive_select lba count ;;
    port_byte_out ATA_PRIMARY_STATUS ATA_CMD_WRITE_SECTORS ;;
    let sectors := if count =? 0 then 255 else count in
    r ← write_loop (Z.to_nat sectors) (bytes_words buf);
    if negb (r =? 0) then mret (-1)
    else
      port_byte_out ATA_PRIMARY_STATUS ATA_CMD_CACHE_FLUSH ;;
      ata_wait_ready ;;
      mret 0.

(** ** The interface of the driver *)

Record ata := Ata { ata_hw : H; drive_info : ata_drive_info; slave_info : ata_drive_info }.

Definition on_hw {A} (c : M H A) : M ata A :=
  zoom ata_hw (λ h s, Ata h (drive_info s) (slave_info s)) c.

Definition ata_init : M ata () :=
  master ← on_hw (ata_identify_drive ATA_DRIVE_MASTER);
  modify (λ s, Ata (ata_hw s) master (slave_info s)) ;;
  slave ← on_hw (ata_identify_drive ATA_DRIVE_SLAVE);
  modify (λ s, Ata (ata_hw s) (drive_info s) slave).

Definition ata_read_sectors (lba count : Z) : M ata (Z * list Z) :=
  s ← get; on_hw (ata_read_sectors_internal ATA_DRIVE_MASTER (drive_info s) lba count).
Definition ata_write_sectors (lba count : Z) (buf : list Z) : M ata Z :=
  s ← get; on_hw (ata_write_sectors_internal ATA_DRIVE_MASTER (drive_info s) lba count buf).
Definition ata_slave_read_sectors (lba count : Z) : M ata (Z * list Z) :=
  s ← get; on_hw (ata_read_sectors_internal ATA_DRIVE_SLAVE (slave_info s) lba count).
Definition ata_slave_write_sectors (lba count : Z) (buf : list Z) : M ata Z :=
  s ← get; on_hw (ata_write_sectors_internal ATA_DRIVE_SLAVE (slave_info s) lba count buf).

Definition ata_get_info (s : ata) : ata_drive_info := drive_info s.
Definition ata_get_slave_info (s : ata) : ata_drive_info := slave_info s.

(** ** ata_status *)

Definition ata_print_drive {S} (label : list Z) (info : ata_drive_info) : M (io S) () :=
  kprint label ;;
  if di_present info =? 0 then kprint (str "Not detected" ++ [10])
  else
    model ← of_option (cstr (di_model info));
    kprint [10] ;;
    kprint (str "  Model:    ") ;;
    kprint model ;;
    kprint [10] ;;
    kprint (str "  Sectors:  ") ;;
    kprint_uint (lba28_sectors info) ;;
    kprint [10] ;;
    kprint (str "  Size:     ") ;;
    kprint_uint (size_mb info) ;;
    kprint (str " MB" ++ [10]) ;;
    kprint (str "  LBA:      ") ;;
    kprint (if truth (lba_supported info) then str "Supported" else str "Not supported") ;;
    kprint [10].

Definition ata_status : M (io ata) () :=
  s ← quiet get;
  ata_print_drive (str "ATA Primary Master: ") (drive_info s) ;;
  ata_print_drive (str "ATA Primary Slave:  ") (slave_info s).

(** ** The block device *)

(** [read] gives the C result and the bytes stored in [buf]. *)
Definition ata_block_read (block : Z) : M ata (Z * list Z) := ata_slave_read_sectors block 1.
Definition ata_block_write (block : Z) (buf : list Z) : M ata Z := ata_slave_write_sectors block 1 buf.

(** [total_blocks] of the device, or [NULL]. *)
Definition ata_blockdev_init (s : ata) : option Z :=
  let info := ata_get_slave_info s in
  if di_present info =? 0 then None else Some (lba28_sectors info).
End driver.
Arguments Ata {H} _ _ _.
Arguments ata_hw {H} _.
Arguments drive_info {H} _.
Arguments slave_info {H} _.

(** [ata_blkdev]: the device that calls the driver, which for a block of one
    sector stores either the whole sector or nothing. *)
Definition ata_dev {H : Type} `{PortIO H} (polls : nat) : BlockDev (ata (H := H)) := {|
  bd_read := λ b s,
    match ata_block_read polls b s with
    | Some (r, s') => Some (if fst r =? 0 then Some (snd r) else None, s')
    | None => None
    end;
  bd_write := ata_block_write polls;
  bd_total := λ s, lba28_sectors (slave_info s)
|}.
