(* ===== verification/AtaSpec.v ===== *)
(** * The ATA driver serves a block device

    [AtaDrive] states what the driver relies on of the two drives of the bus:
    the PIO protocol of the ATA standard, for commands within the size of the
    disk.  Under it the probe ends and finds the drives, and the block device
    of ata_blockdev.c is a disk of 512-byte sectors: [ata_laws] makes the
    driver an instance of the interface the file system uses.  Writing needs
    one thing more, which the standard does not give: [flush_tolerant]. *)

From S2P Require Import Prelude KString KStdio Console KPrintf Block Ports Ata.

Open Scope Z_scope.
Open Scope c_scope.

(** ** The drives *)

(** What a drive is doing: waiting for a command, [left] more sectors to
    deliver or to take, the next one at [lba], or its description to deliver. *)
Inductive activity := Idle | Reading (lba : Z) (left : nat) | Writing (lba : Z) (left : nat) | Identifying.

(** The registers, the sectors of the two drives and the 256 words with which
    the master ([false]) and the slave ([true]) describe themselves; [None] is
    a drive that is not there. *)
Record view := View {
  regs : gmap Z Z; act : activity; master : list (list Z); slave : list (list Z); ids : bool → option (list Z)
}.

Definition reg (v : view) (r : Z) : Z := default 0 (regs v !! r).
Definition set_reg (r x : Z) (v : view) : view := View (<[r := x]> (regs v)) (act v) (master v) (slave v) (ids v).
Definition set_act (a : activity) (v : view) : view := View (regs v) a (master v) (slave v) (ids v).

(** The drive, address and count the registers select. *)
Definition sel_slave (v : view) : bool := Z.testbit (reg v ATA_PRIMARY_DRIVE_HEAD) 4.
Definition sel_disk (v : view) : list (list Z) := if sel_slave v then slave v else master v.
Definition upd_disk (f : list (list Z) → list (list Z)) (v : view) : view :=
  if sel_slave v then View (regs v) (act v) (master v) (f (slave v)) (ids v)
  else View (regs v) (act v) (f (master v)) (slave v) (ids v).
Definition reg_lba (v : view) : Z :=
  Z.land (reg v ATA_PRIMARY_DRIVE_HEAD) 15 * 16777216 + reg v ATA_PRIMARY_LBA_HI * 65536 +
  reg v ATA_PRIMARY_LBA_MID * 256 + reg v ATA_PRIMARY_LBA_LO.
Definition reg_count (v : view) : nat :=
  if reg v ATA_PRIMARY_SECCOUNT =? 0 then 256%nat else Z.to_nat (reg v ATA_PRIMARY_SECCOUNT).

Definition task_file : list Z :=
  [ATA_PRIMARY_SECCOUNT; ATA_PRIMARY_LBA_LO; ATA_PRIMARY_LBA_MID; ATA_PRIMARY_LBA_HI; ATA_PRIMARY_DRIVE_HEAD].

Ltac in_task_file := unfold task_file; repeat constructor.

(** A command in LBA mode within the selected disk. *)
Definition valid_command (v : view) : Prop :=
  act v = Idle ∧ Z.testbit (reg v ATA_PRIMARY_DRIVE_HEAD) 6 = true ∧
  reg_lba v + Z.of_nat (reg_count v) ≤ Z.of_nat (length (sel_disk v)).

(** Waiting for the host to transfer a sector. *)
Definition data_request (a : activity) : Prop :=
  match a with Idle => False | Reading _ n | Writing _ n => n ≠ 0%nat | Identifying => True end.

Definition next (start : Z → nat → activity) (lba : Z) (n : nat) : activity :=
  match n with O => Idle | S _ => start (lba + 1) n end.

(** The ports of the bus. *)
Definition ata_port (p : Z) : Prop := ATA_PRIMARY_DATA ≤ p ≤ ATA_PRIMARY_STATUS ∨ p = ATA_PRIMARY_ALT_STATUS.

(** The PIO protocol.  [busy] is how often the status will still say busy;
    it is at most [delay].  Commands and registers are written only to drives
    that are not busy; the other ports of the machine are not the drives'. *)
Class AtaDrive (H : Type) `{PortIO H} := {
  look : H → view;
  busy : H → nat;
  delay : nat;
  ad_delay h : (busy h ≤ delay)%nat;
  ad_alt h : let h' := snd (hw_inb ATA_PRIMARY_ALT_STATUS h) in look h' = look h ∧ (busy h' ≤ busy h)%nat;
  ad_status h : let r := hw_inb ATA_PRIMARY_STATUS h in
    look (snd r) = look h ∧ 0 ≤ fst r < 256 ∧
    Z.testbit (fst r) 7 = negb (busy h =? 0)%nat ∧
    (busy h ≠ 0%nat → (busy (snd r) < busy h)%nat) ∧
    (busy h = 0%nat → busy (snd r) = 0%nat ∧
       (data_request (act (look h)) → Z.land (fst r) 0x29 = 0x08));
  ad_reg h r x : busy h = 0%nat → act (look h) = Idle → r ∈ task_file → 0 ≤ x < 256 →
    look (hw_outb r x h) = set_reg r x (look h) ∧ busy (hw_outb r x h) = 0%nat;
  ad_read h : busy h = 0%nat → valid_command (look h) →
    look (hw_outb ATA_PRIMARY_STATUS ATA_CMD_READ_SECTORS h) =
    set_act (Reading (reg_lba (look h)) (reg_count (look h))) (look h);
  ad_write h : busy h = 0%nat → valid_command (look h) →
    look (hw_outb ATA_PRIMARY_STATUS ATA_CMD_WRITE_SECTORS h) =
    set_act (Writing (reg_lba (look h)) (reg_count (look h))) (look h);
  ad_flush h : busy h = 0%nat → act (look h) = Idle →
    look (hw_outb ATA_PRIMARY_STATUS ATA_CMD_CACHE_FLUSH h) = look h;
  ad_insw h lba n sec : busy h = 0%nat → act (look h) = Reading lba (S n) → 0 ≤ lba →
    sel_disk (look h) !! Z.to_nat lba = Some sec →
    let r := hw_insw ATA_PRIMARY_DATA 256 h in
    fst r = bytes_words sec ∧ look (snd r) = set_act (next Reading lba n) (look h);
  ad_outsw h lba n ws : busy h = 0%nat → act (look h) = Writing lba (S n) → 0 ≤ lba → length ws = 256%nat →
    look (hw_outsw ATA_PRIMARY_DATA ws h) =
    set_act (next Writing lba n) (upd_disk <[Z.to_nat lba := words_bytes ws]> (look h));
  ad_identify h : busy h = 0%nat → act (look h) = Idle →
    let h' := hw_outb ATA_PRIMARY_STATUS ATA_CMD_IDENTIFY h in
    match ids (look h) (sel_slave (look h)) with
    | Some _ => look h' = set_act Identifying (look h)
    | None => look h' = look h ∧ busy h' = 0%nat
    end;
  ad_absent h : busy h = 0%nat → act (look h) = Idle → ids (look h) (sel_slave (look h)) = None →
    fst (hw_inb ATA_PRIMARY_STATUS h) = 0;
  ad_address h r : busy h = 0%nat → act (look h) = Identifying → r = ATA_PRIMARY_LBA_MID ∨ r = ATA_PRIMARY_LBA_HI →
    let x := hw_inb r h in fst x = reg (look h) r ∧ look (snd x) = look h ∧ busy (snd x) = 0%nat;
  ad_describe h ws : busy h = 0%nat → act (look h) = Identifying → ids (look h) (sel_slave (look h)) = Some ws →
    let r := hw_insw ATA_PRIMARY_DATA 256 h in
    fst r = ws ∧ look (snd r) = set_act Idle (look h) ∧ busy (snd r) = 0%nat;
  ad_other_in h p : ¬ ata_port p →
    let h' := snd (hw_inb p h) in look h' = look h ∧ (busy h' ≤ busy h)%nat;
  ad_other_out h p x : ¬ ata_port p →
    let h' := hw_outb p x h in look h' = look h ∧ (busy h' ≤ busy h)%nat
}.

(** The driver gives the flush command right after the last word of a write,
    without waiting for the drive.  The standard leaves open what a drive does
    with a command it gets while it is busy; the driver works with a drive that
    has taken the sector by then, or that ignores commands while it is busy (as
    emulated drives do). *)
Definition flush_tolerant (H : Type) `{AtaDrive H} : Prop :=
  ∀ (h : H) lba ws, busy h = 0%nat → act (look h) = Writing lba 1 → length ws = 256%nat →
    let h' := hw_outsw ATA_PRIMARY_DATA ws h in
    busy h' = 0%nat ∨ look (hw_outb ATA_PRIMARY_STATUS ATA_CMD_CACHE_FLUSH h') = look h'.

(** ** Words and bytes *)

Lemma bytes_words_length bs n : length bs = (2 * n)%nat → length (bytes_words bs) = n.
Proof.
  revert bs. induction n as [|n IH]; intros bs Hl; [by destruct bs|].
  destruct bs as [|lo [|hi bs]]; cbn [length] in Hl; [lia|lia|]. cbn [bytes_words length]. rewrite IH by lia. done.
Qed.

Lemma words_bytes_words bs n :
  length bs = (2 * n)%nat → Forall (λ b, 0 ≤ b < 256) bs →
  words_bytes (map u16 (bytes_words bs)) = bs ∧ Forall (λ w, 0 ≤ w < 65536) (bytes_words bs).
Proof.
  revert bs. induction n as [|n IH]; intros bs Hl Hb; [by destruct bs|].
  destruct bs as [|lo [|hi bs]]; cbn [length] in Hl; [lia|lia|].
  apply Forall_cons_iff in Hb as [Hlo Hb]. apply Forall_cons_iff in Hb as [Hhi Hb].
  destruct (IH bs ltac:(lia) Hb) as [IH1 IH2]. cbn [bytes_words map words_bytes]. rewrite IH1.
  assert (u16 (lo + 256 * hi) = lo + 256 * hi) as -> by (unfold u16; apply Z.mod_small; lia).
  split; [|constructor; [lia|exact IH2]]. f_equal.
  - unfold u8. rewrite Z.mul_comm, Z.mod_add by lia. apply Z.mod_small. lia.
  - f_equal. rewrite Z.mul_comm, Z.div_add, Z.div_small, Z.add_0_l by lia. apply u8_small. lia.
Qed.

Lemma sector_words sec :
  is_block sec → length (bytes_words sec) = 256%nat ∧ words_bytes (map u16 (bytes_words sec)) = sec.
Proof.
  intros [Hl Hb]. split; [by apply bytes_words_length|]. by destruct (words_bytes_words sec 256 Hl Hb).
Qed.

(** ** The driver on such drives *)

Section driver.
Context {H : Type} `{AtaDrive H}.

Lemma port_in_run port h : 0 ≤ port < 65536 →
  port_byte_in port h = Some (u8 (fst (hw_inb port h)), snd (hw_inb port h)).
Proof. intros. unfold port_byte_in, u16. by rewrite Z.mod_small. Qed.

Lemma delay_run h : ∃ h', ata_400ns_delay h = Some ((), h') ∧ look h' = look h ∧ (busy h' ≤ busy h)%nat.
Proof.
  assert (∀ h, ∃ x h', port_byte_in ATA_PRIMARY_ALT_STATUS h = Some (x, h') ∧ look h' = look h ∧ (busy h' ≤ busy h)%nat) as Halt.
  { intros g. rewrite port_in_run by done. eexists _, _. split; [reflexivity|]. apply ad_alt. }
  unfold ata_400ns_delay. destruct (Halt h) as (x1 & h1 & E1 & L1 & B1). destruct (Halt h1) as (x2 & h2 & E2 & L2 & B2).
  destruct (Halt h2) as (x3 & h3 & E3 & L3 & B3). destruct (Halt h3) as (x4 & h4 & E4 & L4 & B4).
  exists h4. mstep E1. mstep E2. mstep E3. mstep E4. split; [reflexivity|]. split; [congruence|lia].
Qed.

Lemma land_bit x k : 0 ≤ k → truth (Z.land x (2 ^ k)) = Z.testbit x k.
Proof. intros Hk. unfold truth. by rewrite land_pow2_eqb, negb_involutive. Qed.

Lemma status_run h :
  ∃ x h', port_byte_in ATA_PRIMARY_STATUS h = Some (x, h') ∧ look h' = look h ∧
    truth (Z.land x ATA_SR_BSY) = negb (busy h =? 0)%nat ∧
    (busy h ≠ 0%nat → (busy h' < busy h)%nat) ∧
    (busy h = 0%nat → busy h' = 0%nat ∧ (data_request (act (look h)) → Z.land x 0x29 = 0x08)).
Proof.
  rewrite port_in_run by done. destruct (ad_status h) as (L & R & B & N & Z0).
  eexists _, _. split; [reflexivity|]. rewrite u8_small by done. split; [exact L|]. split; [|split; [exact N|exact Z0]].
  change ATA_SR_BSY with (2 ^ 7). by rewrite land_bit.
Qed.

Lemma busy_loop_run fuel h :
  (busy h < fuel)%nat → ∃ h', busy_loop fuel h = Some ((), h') ∧ look h' = look h ∧ busy h' = 0%nat.
Proof.
  revert h. induction fuel as [|f IH]; intros h Hb; [lia|].
  destruct (status_run h) as (x & h1 & E & L & T & N & Z0). cbn [busy_loop]. mstep E. rewrite T.
  destruct (Nat.eqb_spec (busy h) 0) as [Hz|Hz]; cbn [negb].
  - exists h1. split; [reflexivity|]. split; [exact L|]. by apply Z0.
  - destruct (IH h1) as (h2 & E2 & L2 & B2); [specialize (N Hz); lia|]. exists h2. split; [exact E2|]. by split; [congruence|].
Qed.

(** The three flags of a drive that requests data. *)
Lemma request_flags x :
  Z.land x 0x29 = 0x08 →
  truth (Z.land x ATA_SR_ERR) = false ∧ truth (Z.land x ATA_SR_DF) = false ∧ truth (Z.land x ATA_SR_DRQ) = true.
Proof.
  intros E.
  assert (∀ k, 0 ≤ k → Z.testbit 0x29 k = true → Z.testbit x k = Z.testbit 8 k) as Hb.
  { intros k Hk Ht. rewrite <- E, Z.land_spec, Ht. by rewrite andb_true_r. }
  change ATA_SR_ERR with (2 ^ 0). change ATA_SR_DF with (2 ^ 5). change ATA_SR_DRQ with (2 ^ 3).
  rewrite !land_bit, !Hb by done. done.
Qed.

(** *** Addresses *)

Lemma port_out_run port x h : 0 ≤ port < 65536 → port_byte_out port x h = Some ((), hw_outb port (u8 x) h).
Proof. intros. unfold port_byte_out, u16. by rewrite Z.mod_small. Qed.

Lemma reg_run r x h :
  busy h = 0%nat → act (look h) = Idle → r ∈ task_file →
  ∃ h', port_byte_out r x h = Some ((), h') ∧ look h' = set_reg r (u8 x) (look h) ∧ busy h' = 0%nat.
Proof.
  intros Hb Ha Hr. 
  assert (Forall (λ r, 0 ≤ r < 65536) task_file) as Hf by (repeat constructor; done).
  rewrite port_out_run by exact (proj1 (Forall_forall _ _) Hf r (proj1 (list_elem_of_In _ _) Hr)).
  eexists. split; [reflexivity|]. apply ad_reg; [exact Hb|exact Ha|exact Hr|apply u8_bound].
Qed.

(** The head register for a drive and the top bits of an address. *)
Lemma head_bits (sl : bool) lba :
  0 ≤ lba < 268435456 →
  let x := u8 (Z.lor (if sl then ATA_DRIVE_SLAVE else ATA_DRIVE_MASTER) (Z.land (Z.shiftr lba 24) 0x0F)) in
  Z.testbit x 4 = sl ∧ Z.testbit x 6 = true ∧ Z.land x 15 = lba / 16777216.
Proof.
  intros Hl. rewrite Z.shiftr_div_pow2 by lia. change (2 ^ 24) with 16777216.
  assert (0 ≤ lba / 16777216 < 16) as Hq by (split; [apply Z.div_pos; lia|apply Z.div_lt_upper_bound; lia]).
  set (q := lba / 16777216) in *. clearbody q.
  set (f := λ q, let x := u8 (Z.lor (if sl then ATA_DRIVE_SLAVE else ATA_DRIVE_MASTER) (Z.land q 0x0F)) in
    Bool.eqb (Z.testbit x 4) sl && Z.testbit x 6 && (Z.land x 15 =? q)).
  assert (forallb f (seqZ 0 16) = true) as Hall by (unfold f; destruct sl; vm_compute; reflexivity).
  rewrite forallb_forall in Hall. specialize (Hall q). unfold f in Hall. cbv zeta.
  rewrite !andb_true_iff, eqb_true_iff, Z.eqb_eq in Hall.
  destruct Hall as [[? ?] ?]; [|done]. apply list_elem_of_In, elem_of_seqZ. lia.
Qed.

(** The registers as the driver sets them. *)
Definition selected (sl : bool) (lba count : Z) (v : view) : view :=
  set_reg ATA_PRIMARY_LBA_HI (lba / 65536 mod 256) (set_reg ATA_PRIMARY_LBA_MID (lba / 256 mod 256)
    (set_reg ATA_PRIMARY_LBA_LO (lba mod 256) (set_reg ATA_PRIMARY_SECCOUNT count
      (set_reg ATA_PRIMARY_DRIVE_HEAD
        (u8 (Z.lor (if sl then ATA_DRIVE_SLAVE else ATA_DRIVE_MASTER) (Z.land (Z.shiftr lba 24) 0x0F))) v)))).

Lemma selected_spec sl lba count v :
  0 ≤ lba < 268435456 → 0 < count < 256 →
  let v' := selected sl lba count v in
  reg_lba v' = lba ∧ reg_count v' = Z.to_nat count ∧ sel_slave v' = sl ∧
  Z.testbit (reg v' ATA_PRIMARY_DRIVE_HEAD) 6 = true.
Proof.
  intros Hl Hc. destruct (head_bits sl lba Hl) as (H4 & H6 & H15). cbv zeta.
  assert (∀ r x v, reg (set_reg r x v) r = x) as Heq.
  { intros. unfold reg, set_reg. cbn [regs]. by rewrite lookup_insert_eq. }
  assert (∀ r r' x v, r ≠ r' → reg (set_reg r x v) r' = reg v r') as Hne.
  { intros. unfold reg, set_reg. cbn [regs]. by rewrite lookup_insert_ne. }
  unfold reg_lba, reg_count, sel_slave, selected. 
  repeat (rewrite Heq || rewrite Hne by done). rewrite H4, H6, H15. split_and!; [|by zcase|done|done].
  pose proof (Z.div_mod lba 256). pose proof (Z.div_mod (lba / 256) 256). pose proof (Z.div_mod (lba / 65536) 256).
  replace (lba / 65536) with (lba / 256 / 256) in * by (rewrite Z.div_div by lia; done).
  replace (lba / 16777216) with (lba / 256 / 256 / 256) by (rewrite !Z.div_div by lia; done). lia.
Qed.

Lemma select_run (sl : bool) lba count h :
  busy h = 0%nat → act (look h) = Idle → 0 ≤ lba < 268435456 → 0 < count < 256 →
  ∃ h', select_sectors (if sl then ATA_DRIVE_SLAVE else ATA_DRIVE_MASTER) lba count h = Some ((), h') ∧
    look h' = selected sl lba count (look h) ∧ busy h' = 0%nat.
Proof.
  intros Hb Ha Hl Hc. unfold select_sectors.
  destruct (reg_run ATA_PRIMARY_DRIVE_HEAD
    (Z.lor (if sl then ATA_DRIVE_SLAVE else ATA_DRIVE_MASTER) (Z.land (Z.shiftr lba 24) 0x0F)) h) as (h1 & E1 & L1 & B1);
    [done|done|in_task_file|]. mstep E1.
  destruct (reg_run ATA_PRIMARY_SECCOUNT count h1) as (h2 & E2 & L2 & B2); [done|by rewrite L1|in_task_file|].
  mstep E2.
  destruct (reg_run ATA_PRIMARY_LBA_LO (u8 (Z.land lba 255)) h2) as (h3 & E3 & L3 & B3);
    [done|by rewrite L2, L1|in_task_file|]. mstep E3.
  destruct (reg_run ATA_PRIMARY_LBA_MID (u8 (Z.land (Z.shiftr lba 8) 255)) h3) as (h4 & E4 & L4 & B4);
    [done|by rewrite L3, L2, L1|in_task_file|]. mstep E4.
  destruct (reg_run ATA_PRIMARY_LBA_HI (u8 (Z.land (Z.shiftr lba 16) 255)) h4) as (h5 & E5 & L5 & B5);
    [done|by rewrite L4, L3, L2, L1|in_task_file|].
  exists h5. split; [exact E5|]. split; [|exact B5]. rewrite L5, L4, L3, L2, L1. unfold selected.
  rewrite !(land_ones_mod _ 8 255) by done. change (2 ^ 8) with 256. rewrite !Z.shiftr_div_pow2 by lia.
  rewrite (u8_small count) by lia. unfold u8. by rewrite !Z.mod_mod by lia.
Qed.
(** *** Transfers *)

Context (polls : nat).
Hypothesis Hpolls : (delay < polls)%nat.

Lemma wait_ready_run h : ∃ h', ata_wait_ready polls h = Some ((), h') ∧ look h' = look h ∧ busy h' = 0%nat.
Proof using Hpolls. apply busy_loop_run. pose proof (ad_delay h). lia. Qed.

Lemma poll_run h :
  data_request (act (look h)) → ∃ h', ata_poll polls h = Some (0, h') ∧ look h' = look h ∧ busy h' = 0%nat.
Proof using Hpolls.
  intros Hreq. unfold ata_poll. destruct (delay_run h) as (h1 & E1 & L1 & B1). mstep E1.
  destruct (wait_ready_run h1) as (h2 & E2 & L2 & B2). unfold ata_wait_ready in E2. mstep E2.
  destruct (status_run h2) as (x & h3 & E3 & L3 & _ & _ & Z3). mstep E3. destruct (Z3 B2) as [B3 R3].
  destruct (request_flags x) as (-> & -> & ->); [apply R3; rewrite L2, L1; exact Hreq|].
  exists h3. split; [reflexivity|]. split; [congruence|exact B3].
Qed.

Lemma sel_act a v : sel_slave (set_act a v) = sel_slave v ∧ sel_disk (set_act a v) = sel_disk v.
Proof. done. Qed.

(** The sectors that are left, read. *)
Lemma read_loop_run n h lba :
  (act (look h) = match n with O => Idle | S _ => Reading lba n end) → 0 ≤ lba →
  lba + Z.of_nat n ≤ Z.of_nat (length (sel_disk (look h))) → Forall is_block (sel_disk (look h)) →
  ∃ h', read_loop polls n h =
      Some ((0, concat (take n (drop (Z.to_nat lba) (sel_disk (look h))))), h') ∧
    look h' = set_act Idle (look h).
Proof using Hpolls.
  revert h lba. induction n as [|n IH]; intros h lba Ha Hl Hn Hs.
  - exists h. split; [reflexivity|]. destruct (look h) eqn:E. cbn in Ha. by subst.
  - cbn [read_loop]. destruct (poll_run h) as (h1 & E1 & L1 & B1); [by rewrite Ha|]. mstep E1.
    change (negb (0 =? 0)) with false. cbv iota.
    destruct (lookup_lt_is_Some_2 (sel_disk (look h)) (Z.to_nat lba)) as [sec Esec]; [lia|].
    destruct (sector_words sec (Forall_lookup_1 _ _ _ _ Hs Esec)) as [Hlen Hwb].
    destruct (ad_insw h1 lba n sec) as [Ew Lw]; [exact B1|by rewrite L1|exact Hl|by rewrite L1|].
    rewrite bind_run. unfold port_words_in. change (u16 ATA_PRIMARY_DATA) with ATA_PRIMARY_DATA.
    rewrite Ew, Hlen. cbn [Nat.eqb]. set (h2 := snd (hw_insw ATA_PRIMARY_DATA 256 h1)) in *.
    rewrite L1 in Lw. destruct (IH h2 (lba + 1)) as (h3 & E3 & L3); [rewrite Lw; by destruct n|lia|rewrite Lw, (proj2 (sel_act _ _)); lia|by rewrite Lw|].
    mstep E3. exists h3. split; [|by rewrite L3, Lw].
    rewrite Lw. unfold mret, M_ret. do 3 f_equal. cbn [snd]. rewrite Hwb.
    rewrite (drop_S _ _ _ Esec). cbn [take concat]. do 3 f_equal. by replace (Z.to_nat (lba + 1)) with (S (Z.to_nat lba)) by lia.
Qed.

(** The disk with consecutive sectors replaced. *)
Fixpoint put_sectors (lba : nat) (secs d : list (list Z)) : list (list Z) :=
  match secs with
  | [] => d
  | sec :: secs' => put_sectors (S lba) secs' (<[lba := sec]> d)
  end.

Lemma bytes_words_app a b n : length a = (2 * n)%nat → bytes_words (a ++ b) = bytes_words a ++ bytes_words b.
Proof.
  revert a. induction n as [|n IH]; intros a Hl; [by destruct a|].
  destruct a as [|lo [|hi a]]; cbn [length] in Hl; [lia|lia|]. cbn [app bytes_words]. by rewrite IH by lia.
Qed.

Lemma upd_disk_sel f v : sel_slave (upd_disk f v) = sel_slave v ∧ sel_disk (upd_disk f v) = f (sel_disk v).
Proof.
  assert (sel_slave (upd_disk f v) = sel_slave v) as E by (unfold upd_disk; by destruct (sel_slave v) eqn:E).
  split; [exact E|]. unfold sel_disk. rewrite E. unfold upd_disk. by destruct (sel_slave v).
Qed.

Lemma upd_upd f g v : upd_disk f (upd_disk g v) = upd_disk (f ∘ g) v.
Proof. unfold upd_disk at 1. rewrite (proj1 (upd_disk_sel g v)). unfold upd_disk. by destruct (sel_slave v). Qed.

Lemma upd_set_act f a v : upd_disk f (set_act a v) = set_act a (upd_disk f v).
Proof. unfold upd_disk. rewrite (proj1 (sel_act a v)). by destruct (sel_slave v). Qed.

Hypothesis Htolerant : flush_tolerant H.

Lemma write_loop_run secs h lba rest :
  (act (look h) = match secs with [] => Idle | _ => Writing lba (length secs) end) → 0 ≤ lba → Forall is_block secs →
  (secs = [] → busy h = 0%nat ∨ look (hw_outb ATA_PRIMARY_STATUS ATA_CMD_CACHE_FLUSH h) = look h) →
  ∃ h', write_loop polls (length secs) (bytes_words (concat secs ++ rest)) h = Some (0, h') ∧
    look h' = set_act Idle (upd_disk (put_sectors (Z.to_nat lba) secs) (look h)) ∧
    (busy h' = 0%nat ∨ look (hw_outb ATA_PRIMARY_STATUS ATA_CMD_CACHE_FLUSH h') = look h').
Proof using Hpolls Htolerant.
  revert h lba. induction secs as [|sec secs IH]; intros h lba Ha Hl Hs Hf.
  - exists h. split; [reflexivity|]. split; [|by apply Hf]. unfold upd_disk. destruct (look h) as [r a m sl id]. cbn in Ha. subst a.
    by destruct (sel_slave (View r Idle m sl id)).
  - apply Forall_cons_iff in Hs as [Hsec Hs]. destruct (sector_words sec Hsec) as [Hlen Hwb].
    cbn [length write_loop concat]. destruct (poll_run h) as (h1 & E1 & L1 & B1); [by rewrite Ha|]. mstep E1.
    change (negb (0 =? 0)) with false. cbv iota.
    rewrite <- app_assoc, (bytes_words_app sec _ 256) by apply Hsec.
    rewrite bind_run. unfold port_words_out. rewrite length_app, Hlen.
    destruct (Nat.ltb_spec (256 + length (bytes_words (concat secs ++ rest))) 256); [lia|].
    rewrite take_app_length', drop_app_length' by (by rewrite Hlen). unfold modify. change (u16 ATA_PRIMARY_DATA) with ATA_PRIMARY_DATA.
    pose proof (ad_outsw h1 lba (length secs) (map u16 (bytes_words sec))) as Hw.
    rewrite L1, length_map, Hwb in Hw. specialize (Hw B1 Ha Hl Hlen).
    set (h2 := hw_outsw ATA_PRIMARY_DATA _ h1) in *.
    destruct (IH h2 (lba + 1)) as (h3 & E3 & L3 & F3); [rewrite Hw; by destruct secs|lia|exact Hs| |].
    { intros ->. apply (Htolerant h1 lba); [exact B1|by rewrite L1, Ha|by rewrite length_map]. }
    exists h3. split; [exact E3|]. split; [|exact F3]. rewrite L3, Hw. cbn [put_sectors].
    replace (Z.to_nat (lba + 1)) with (S (Z.to_nat lba)) by lia.
    rewrite upd_set_act, upd_upd. reflexivity.
Qed.
(** *** Sector commands *)

Definition the_disk (sl : bool) (v : view) : list (list Z) := if sl then slave v else master v.

(** Waiting for the drive, selecting the sectors and giving the command. *)
Lemma command_ready sl lba count h :
  act (look h) = Idle → 0 ≤ lba → 0 < count < 256 →
  lba + count ≤ Z.of_nat (length (the_disk sl (look h))) ≤ 268435456 →
  ∃ h', (ata_wait_ready polls ;; select_sectors (if sl then ATA_DRIVE_SLAVE else ATA_DRIVE_MASTER) lba count) h = Some ((), h') ∧
    busy h' = 0%nat ∧ look h' = selected sl lba count (look h) ∧ valid_command (look h') ∧
    reg_lba (look h') = lba ∧ reg_count (look h') = Z.to_nat count ∧ sel_slave (look h') = sl ∧
    sel_disk (look h') = the_disk sl (look h).
Proof using Hpolls.
  intros Ha Hl Hc Hr. destruct (wait_ready_run h) as (h1 & E1 & L1 & B1).
  destruct (select_run sl lba count h1) as (h2 & E2 & L2 & B2); [exact B1|by rewrite L1|lia|exact Hc|].
  destruct (selected_spec sl lba count (look h1) ltac:(lia) Hc) as (S1 & S2 & S3 & S4). rewrite <- L2 in *.
  assert (sel_disk (look h2) = the_disk sl (look h)) as S5.
  { unfold sel_disk. rewrite S3, L2. unfold the_disk. rewrite <- L1. by destruct sl. }
  exists h2. mstep E1. split; [exact E2|]. split; [exact B2|]. split; [by rewrite L2, L1|].
  split_and!; [split_and!; [rewrite L2, L1; exact Ha|exact S4|rewrite S1, S2, S5; lia]|exact S1|exact S2|exact S3|exact S5].
Qed.

(** What a command leaves: the drives idle again with these disks. *)
Definition settled (h : H) (sl : bool) (d other : list (list Z)) : Prop :=
  act (look h) = Idle ∧ the_disk sl (look h) = d ∧ the_disk (negb sl) (look h) = other.

Lemma read_sectors_run (sl : bool) info lba count h :
  di_present info ≠ 0 → act (look h) = Idle → 0 ≤ lba → 0 < count < 256 →
  lba + count ≤ Z.of_nat (length (the_disk sl (look h))) ≤ 268435456 → Forall is_block (the_disk sl (look h)) →
  ∃ h', ata_read_sectors_internal polls (if sl then ATA_DRIVE_SLAVE else ATA_DRIVE_MASTER) info lba count h =
      Some ((0, concat (take (Z.to_nat count) (drop (Z.to_nat lba) (the_disk sl (look h))))), h') ∧
    settled h' sl (the_disk sl (look h)) (the_disk (negb sl) (look h)).
Proof using Hpolls.
  intros Hp Ha Hl Hc Hr Hs. unfold ata_read_sectors_internal. destruct (Z.eqb_spec (di_present info) 0); [done|].
  destruct (command_ready sl lba count h Ha Hl Hc Hr) as (h2 & E2 & B2 & L2 & V2 & S1 & S2 & S3 & S5).
  rewrite bind_run in E2. rewrite bind_run. destruct (ata_wait_ready polls h) as [[[] h1]|]; [|discriminate]. mstep E2.
  rewrite bind_run, port_out_run by done. change (u8 ATA_CMD_READ_SECTORS) with ATA_CMD_READ_SECTORS.
  pose proof (ad_read h2 B2 V2) as Lr. rewrite S1, S2 in Lr. destruct (Z.eqb_spec count 0); [lia|].
  set (h3 := hw_outb _ _ h2) in *. cbv zeta.
  destruct (read_loop_run (Z.to_nat count) h3 lba) as (h4 & E4 & L4);
    [rewrite Lr; destruct (Z.to_nat count) eqn:?; [lia|reflexivity]|exact Hl|rewrite Lr, (proj2 (sel_act _ _)), S5; lia|by rewrite Lr, (proj2 (sel_act _ _)), S5|].
  exists h4. rewrite E4, Lr, (proj2 (sel_act _ _)), S5. split; [reflexivity|].
  unfold settled. rewrite L4, Lr, L2. by destruct sl.
Qed.

Lemma write_sectors_run (sl : bool) info lba secs h :
  di_present info ≠ 0 → act (look h) = Idle → 0 ≤ lba → (0 < length secs < 256)%nat → Forall is_block secs →
  lba + Z.of_nat (length secs) ≤ Z.of_nat (length (the_disk sl (look h))) ≤ 268435456 →
  ∃ h', ata_write_sectors_internal polls (if sl then ATA_DRIVE_SLAVE else ATA_DRIVE_MASTER) info lba
      (Z.of_nat (length secs)) (concat secs) h = Some (0, h') ∧
    settled h' sl (put_sectors (Z.to_nat lba) secs (the_disk sl (look h))) (the_disk (negb sl) (look h)).
Proof using Hpolls Htolerant.
  intros Hp Ha Hl Hc Hs Hr. unfold ata_write_sectors_internal. destruct (Z.eqb_spec (di_present info) 0); [done|].
  destruct (command_ready sl lba (Z.of_nat (length secs)) h Ha Hl ltac:(lia) Hr) as (h2 & E2 & B2 & L2 & V2 & S1 & S2 & S3 & S5).
  rewrite bind_run in E2. rewrite bind_run. destruct (ata_wait_ready polls h) as [[[] h1]|]; [|discriminate]. mstep E2.
  rewrite bind_run, port_out_run by done. change (u8 ATA_CMD_WRITE_SECTORS) with ATA_CMD_WRITE_SECTORS.
  pose proof (ad_write h2 B2 V2) as Lr. rewrite S1, S2, Nat2Z.id in Lr. destruct (Z.eqb_spec (Z.of_nat (length secs)) 0); [lia|].
  set (h3 := hw_outb _ _ h2) in *. cbv zeta. rewrite Nat2Z.id.
  destruct (write_loop_run secs h3 lba []) as (h4 & E4 & L4 & F4); [rewrite Lr; destruct secs; [cbn in Hc; lia|reflexivity]|exact Hl|exact Hs|intros ->; cbn in Hc; lia|].
  rewrite app_nil_r in E4. mstep E4. change (negb (0 =? 0)) with false. cbv iota.
  rewrite bind_run, port_out_run by done. change (u8 ATA_CMD_CACHE_FLUSH) with ATA_CMD_CACHE_FLUSH.
  assert (look (hw_outb ATA_PRIMARY_STATUS ATA_CMD_CACHE_FLUSH h4) = look h4) as Lf.
  { destruct F4 as [B4|F4]; [|exact F4]. apply (ad_flush h4 B4). by rewrite L4. }
  rewrite L4 in Lf.
  set (h5 := hw_outb _ _ h4) in *. destruct (wait_ready_run h5) as (h6 & E6 & L6 & B6). mstep E6.
  exists h6. split; [reflexivity|]. unfold settled. rewrite L6, Lf, Lr, upd_set_act.
  unfold upd_disk. rewrite S3. rewrite L2. by destruct sl.
Qed.

(** ** The block device *)

(** The slave drive, idle, holds the sectors [d], and the driver knows its size. *)
Record holds (s : ata (H := H)) (d boot : list (list Z)) : Prop := {
  ho_idle : settled (ata_hw s) true d boot;
  ho_present : di_present (slave_info s) ≠ 0;
  ho_total : lba28_sectors (slave_info s) = Z.of_nat (length d);
  ho_sectors : Forall is_block d;
  ho_reach : Z.of_nat (length d) ≤ 268435456
}.

Lemma block_read_run s d boot b buf :
  holds s d boot → 0 ≤ b → d !! Z.to_nat b = Some buf →
  ∃ s', ata_block_read polls b s = Some ((0, buf), s') ∧ holds s' d boot ∧ slave_info s' = slave_info s.
Proof using Hpolls.
  intros [(Hi & Hd & Hboot) Hp Ht Hs Hn] Hb E. pose proof (lookup_lt_Some _ _ _ E).
  unfold ata_block_read, ata_slave_read_sectors, on_hw, zoom.
  destruct (read_sectors_run true (slave_info s) b 1 (ata_hw s)) as (h' & Er & Hset);
    [exact Hp|exact Hi|lia|lia|rewrite Hd; lia|by rewrite Hd|].
  cbn [the_disk negb] in *. rewrite Hd in *. rewrite bind_run. cbn [get]. rewrite Er.
  rewrite (drop_S _ _ _ E). change (Z.to_nat 1) with 1%nat. cbn [take concat]. rewrite app_nil_r.
  eexists. split; [reflexivity|]. split; [|done]. split; cbn; [|exact Hp|exact Ht|done|done]. by rewrite <- Hboot.
Qed.

Lemma block_write_run s d boot b buf :
  holds s d boot → 0 ≤ b < Z.of_nat (length d) → is_block buf →
  ∃ s', ata_block_write polls b buf s = Some (0, s') ∧ holds s' (<[Z.to_nat b := buf]> d) boot ∧ slave_info s' = slave_info s.
Proof using Hpolls Htolerant.
  intros [(Hi & Hd & Hboot) Hp Ht Hs Hn] Hb Hbuf.
  unfold ata_block_write, ata_slave_write_sectors, on_hw, zoom.
  destruct (write_sectors_run true (slave_info s) b [buf] (ata_hw s)) as (h' & Ew & Hset);
    [exact Hp|exact Hi|lia|cbn; lia|by constructor|cbn [the_disk length] in *; rewrite Hd; lia|].
  cbn [the_disk negb length concat put_sectors] in *. rewrite Hd, app_nil_r in *. rewrite bind_run. cbn [get].
  change (Z.of_nat 1) with 1 in Ew. rewrite Ew. eexists. split; [reflexivity|]. split; [|done].
  split; cbn; [by rewrite <- Hboot|exact Hp|by rewrite Ht, length_insert|by apply Forall_insert|by rewrite length_insert].
Qed.
End driver.

(** C37: The block device of the ATA driver is the disk.  On drives that
    follow the PIO protocol and answer within the polling bound, the device
    reports the disk's size, and reading a block in range returns success and
    exactly the block's bytes.  If moreover the drive stands the flush command
    that follows a write at once ([flush_tolerant]), writing a block returns
    success and replaces exactly that block.  The boot disk on the same bus is
    never touched and the drives end up idle, so the next request finds them
    as this one did. *)
Theorem ata_block_refines {H : Type} `{AtaDrive H} (polls : nat) (s : ata (H := H)) d boot b :
  (delay < polls)%nat → holds s d boot → 0 ≤ b < Z.of_nat (length d) →
  ata_blockdev_init s = Some (Z.of_nat (length d)) ∧
  (∃ buf s', ata_block_read polls b s = Some ((0, buf), s') ∧ d !! Z.to_nat b = Some buf ∧ holds s' d boot) ∧
  (flush_tolerant H → ∀ buf, is_block buf →
     ∃ s', ata_block_write polls b buf s = Some (0, s') ∧ holds s' (<[Z.to_nat b := buf]> d) boot).
Proof.
  intros Hpolls Hh Hb. split; [|split].
  - unfold ata_blockdev_init, ata_get_slave_info. rewrite (ho_total _ _ _ Hh).
    by destruct (Z.eqb_spec (di_present (slave_info s)) 0) as [E|]; [destruct (ho_present _ _ _ Hh E)|].
  - destruct (lookup_lt_is_Some_2 d (Z.to_nat b)) as [buf E]; [lia|].
    destruct (block_read_run polls Hpolls s d boot b buf Hh ltac:(lia) E) as (s' & Er & Hh' & _). eauto.
  - intros Ht buf Hbuf. destruct (block_write_run polls Hpolls Ht s d boot b buf Hh Hb Hbuf) as (s' & Ew & Hh' & _). eauto.
Qed.

(** *** The driver as a device of the file system *)

Section device.
Context {H : Type} `{AtaDrive H} (polls : nat).

Definition slave_sectors (s : ata (H := H)) : list (list Z) := slave (look (ata_hw s)).

(** A bus the driver can serve. *)
Record ata_ok (s : ata (H := H)) : Prop := {
  ao_polls : (delay < polls)%nat;
  ao_flush : flush_tolerant H;
  ao_holds : holds s (slave_sectors s) (master (look (ata_hw s)))
}.

Lemma holds_sectors (s : ata (H := H)) d boot : holds s d boot → slave_sectors s = d ∧ master (look (ata_hw s)) = boot.
Proof. by intros [(_ & ? & ?) _ _ _ _]. Qed.

Definition ata_laws : @BlockDevLaws (ata (H := H)) (ata_dev polls).
Proof.
  refine (Build_BlockDevLaws (ata (H := H)) (ata_dev polls) ata_ok (λ s b, default [] (slave_sectors s !! Z.to_nat b)) _ _ _ _);
    cbn [bd_total bd_read bd_write ata_dev].
  - intros s [_ _ Hh]. pose proof (ho_reach _ _ _ Hh). rewrite (ho_total _ _ _ Hh). lia.
  - intros s b [_ _ Hh] Hb. rewrite (ho_total _ _ _ Hh) in Hb.
    destruct (lookup_lt_is_Some_2 (slave_sectors s) (Z.to_nat b)) as [buf E]; [lia|]. rewrite E.
    exact (Forall_lookup_1 _ _ _ _ (ho_sectors _ _ _ Hh) E).
  - intros s b [Hp Hf Hh] Hb. rewrite (ho_total _ _ _ Hh) in Hb.
    destruct (lookup_lt_is_Some_2 (slave_sectors s) (Z.to_nat b)) as [buf E]; [lia|]. rewrite E.
    destruct (block_read_run polls Hp s _ _ b buf Hh ltac:(lia) E) as (s' & -> & Hh' & Hi). exists s'.
    destruct (holds_sectors s' _ _ Hh') as [Hs' Hm'].
    split; [reflexivity|]. split; [intros _; split; [done|done|by rewrite Hs', Hm']|]. split; [by rewrite Hi|]. intros b' Hb'. by rewrite Hs'.
  - intros s b buf [Hp Hf Hh] Hb Hbuf. rewrite (ho_total _ _ _ Hh) in *.
    destruct (block_write_run polls Hp Hf s _ _ b buf Hh Hb Hbuf) as (s' & -> & Hh' & Hi). exists s'.
    destruct (holds_sectors s' _ _ Hh') as [Hs' Hm']. split; [done|]. split; [split; [done|done|by rewrite Hs', Hm']|].
    rewrite Hi, Hs', (ho_total _ _ _ Hh). split; [done|].
    split; [by rewrite list_lookup_insert_eq by lia|]. intros b' Hb' Hne. by rewrite list_lookup_insert_ne by lia.
Defined.
End device.

(** ** The model string *)

(** The order in which a drive delivers the characters of a string. *)
Fixpoint swapped (s : list Z) : list Z :=
  match s with
  | a :: b :: s' => b :: a :: swapped s'
  | _ => s
  end.

Lemma swap_pairs_run n pre s post :
  length s = (2 * n)%nat → swap_pairs n (length pre) (pre ++ swapped s ++ post) = Some (pre ++ s ++ post).
Proof.
  revert pre s. induction n as [|n IH]; intros pre s Hl; [by destruct s|].
  destruct s as [|a [|b s]]; cbn [length] in Hl; [lia|lia|]. cbn [swap_pairs swapped app].
  pose proof (swap_ends pre b [] a (swapped s ++ post)) as E. cbn [app length] in E. rewrite Nat.add_1_r in E.
  rewrite E. cbn [mbind option_bind]. specialize (IH (pre ++ [a; b]) s ltac:(lia)).
  rewrite length_app, <- !app_assoc in IH. exact IH.
Qed.

Lemma trim_run k s post :
  (∀ t, s ≠ t ++ [32]) →
  trim_loop (length s + k) (s ++ replicate k 32 ++ post) = Some (s ++ replicate k 0 ++ post).
Proof.
  intros Hlast. revert post. induction k as [|k IH]; intros post.
  - rewrite Nat.add_0_r. cbn [replicate app]. destruct s as [|c s _] using rev_ind; [done|].
    rewrite length_app, Nat.add_1_r. cbn [trim_loop]. rewrite <- app_assoc. cbn [app].
    rewrite list_lookup_middle by done. cbn [mbind option_bind].
    destruct (Z.eqb_spec c 32) as [->|_]; [|done]. by destruct (Hlast s).
  - rewrite Nat.add_succ_r. cbn [trim_loop]. rewrite replicate_S_end, <- app_assoc. cbn [app].
    rewrite app_assoc. assert (length s + k = length (s ++ replicate k 32%Z))%nat as -> by (rewrite length_app, length_replicate; lia).
    rewrite list_lookup_middle by done. cbn [mbind option_bind]. rewrite Z.eqb_refl.
    rewrite insert_app_r_alt, Nat.sub_diag by lia. cbn [insert list_insert].
    rewrite <- app_assoc, length_app, length_replicate, IH. rewrite replicate_S_end, <- app_assoc. done.
Qed.

(** The byte-swapped, space-padded string of the IDENTIFY data comes out as
    the string itself, terminated. *)
Theorem fix_identify_string_restores s k n x :
  length (s ++ replicate k 32) = (2 * n)%nat → (∀ t, s ≠ t ++ [32]) →
  ata_fix_identify_string (swapped (s ++ replicate k 32) ++ [x]) (2 * n) = Some (s ++ replicate k 0 ++ [0]).
Proof.
  intros Hl Hlast. unfold ata_fix_identify_string.
  assert ((2 * n + 1) / 2 = n)%nat as -> by (symmetry; apply (Nat.div_unique _ 2 n 1); lia).
  pose proof (swap_pairs_run n [] _ [x] Hl) as E. cbn [length app] in E. rewrite E. cbn [mbind option_bind].
  rewrite length_app, Hl. destruct (Nat.ltb_spec (2 * n) (2 * n + length [x])); [|cbn in *; lia].
  rewrite insert_app_r_alt, Hl, Nat.sub_diag by lia. cbn [insert list_insert].
  rewrite <- app_assoc, <- Hl, length_app, length_replicate. by apply trim_run.
Qed.

(** ** What the probe reports *)

(** Whatever the words of the IDENTIFY data, the model is terminated and the
    numbers are words of 32 bits. *)
Definition drive_shown (i : ata_drive_info) : Prop :=
  di_present i ≠ 0 → (∃ t r, di_model i = t ++ 0 :: r ∧ nonzero t) ∧
    0 ≤ lba28_sectors i < 4294967296 ∧ 0 ≤ size_mb i < 4294967296.

Definition bytes (l : list Z) : Prop := Forall (λ b, 0 ≤ b < 256) l.

Lemma first_zero l k : bytes l → l !! k = Some 0 → ∃ t r, l = t ++ 0 :: r ∧ nonzero t.
Proof.
  intros Hl. revert k. induction Hl as [|b l Hb Hl IH]; intros k Hk; [done|].
  destruct (Z.eq_dec b 0) as [->|Hne]; [exists [], l; split; [done|constructor]|].
  destruct k as [|k]; [by injection Hk as ->|]. destruct (IH k Hk) as (t & r & -> & Ht). exists (b :: t), r. split; [done|].
  constructor; [lia|done].
Qed.

Lemma words_bytes_ok ws : bytes (words_bytes ws).
Proof. induction ws as [|w ws IH]; [constructor|]. cbn [words_bytes]. constructor; [apply u8_bound|]. constructor; [apply u8_bound|exact IH]. Qed.

Lemma swap_pairs_ok n i l l' : swap_pairs n i l = Some l' → bytes l → bytes l' ∧ length l' = length l.
Proof.
  revert i l. induction n as [|n IH]; intros i l E Hl; cbn [swap_pairs] in E; [injection E as ->; done|].
  unfold swap in E. destruct (l !! i) as [a|] eqn:Ei; [|done]. destruct (l !! S i) as [b|] eqn:Ej; [|done]. cbn [mbind option_bind] in E.
  destruct (IH _ _ E) as [H1 H2].
  - apply Forall_insert; [apply Forall_insert; [exact Hl|exact (Forall_lookup_1 _ _ _ _ Hl Ej)]|exact (Forall_lookup_1 _ _ _ _ Hl Ei)].
  - by rewrite !length_insert in H2.
Qed.

Lemma trim_ok n l l' k : trim_loop n l = Some l' → bytes l → l !! k = Some 0 → (n ≤ k)%nat → bytes l' ∧ l' !! k = Some 0.
Proof.
  revert l. induction n as [|n IH]; intros l E Hl Hk Hn; cbn [trim_loop] in E; [injection E as ->; done|].
  destruct (l !! n) as [c|]; [|done]. cbn [mbind option_bind] in E. destruct (c =? 32); [|injection E as ->; done].
  apply (IH _ E); [apply Forall_insert; [exact Hl|lia]|by rewrite list_lookup_insert_ne by lia|lia].
Qed.

Lemma lor_words a b : 0 ≤ a < 4294967296 → 0 ≤ b < 65536 → 0 ≤ Z.lor a b < 4294967296.
Proof. intros Ha Hb. apply (lor_bound 32); lia. Qed.

Lemma memcpy_bytes n dest src l : memcpy dest src n = Some l → bytes dest → bytes src → bytes l.
Proof.
  revert dest src l. induction n as [|n IH]; intros dest src l E Hd Hs.
  { assert (l = dest) as -> by (destruct dest, src; cbn in E; congruence). exact Hd. }
  destruct dest as [|x dest], src as [|y src]; try done. cbn [memcpy] in E. destruct (memcpy dest src n) as [l'|] eqn:E'; [|done].
  injection E as <-. apply Forall_cons_iff in Hd as [_ Hd], Hs as [Hy Hs]. constructor; [exact Hy|by apply (IH dest src)].
Qed.

Lemma identify_shown ws i : Forall (λ w, 0 ≤ w < 65536) ws → identify_info ws = Some i → drive_shown i.
Proof.
  intros Hws E _. unfold identify_info in E.
  destruct (memcpy _ _ _) as [m1|] eqn:E1; [|done]. cbn [mbind option_bind] in E.
  destruct (ata_fix_identify_string m1 40) as [m2|] eqn:E2; [|done]. cbn [mbind option_bind] in E. injection E as <-. cbn [di_model lba28_sectors size_mb].
  assert (∀ k, 0 ≤ default 0 (ws !! k) < 65536) as Hw.
  { intros k. destruct (ws !! k) as [w|] eqn:Ew; [exact (Forall_lookup_1 _ _ _ _ Hws Ew)|cbn; lia]. }
  set (n := Z.lor _ _). assert (0 ≤ n < 4294967296) as Hn by (apply lor_words; [apply u32_bound|apply Hw]).
  split_and!; [|apply Hn|apply Hn|apply Z.div_pos; lia|apply Z.div_lt_upper_bound; lia].
  assert (bytes m1) as H1 by (apply (memcpy_bytes _ _ _ _ E1); [by apply Forall_replicate|apply words_bytes_ok]).
  unfold ata_fix_identify_string in E2. destruct (swap_pairs _ _ m1) as [m3|] eqn:E3; [|done]. cbn [mbind option_bind] in E2.
  destruct (swap_pairs_ok _ _ _ _ E3 H1) as [H3 _]. destruct (Nat.ltb_spec 40 (length m3)); [|done].
  destruct (trim_ok 40 _ m2 40 E2) as [H4 H5]; [apply Forall_insert; [exact H3|lia]|by apply list_lookup_insert_eq|lia|].
  by apply (first_zero m2 40).
Qed.

(** A condition on every result of a computation. *)
Definition yields {S A} (c : M S A) (Q : A → Prop) : Prop := ∀ s a s', c s = Some (a, s') → Q a.

Lemma yields_bind {S A B} (c : M S A) (f : A → M S B) P Q : yields c P → (∀ a, P a → yields (f a) Q) → yields (c ≫= f) Q.
Proof.
  intros Hc Hf s b s' E. rewrite bind_run in E. destruct (c s) as [[a s1]|] eqn:Ec; [|done]. exact (Hf a (Hc _ _ _ Ec) _ _ _ E).
Qed.

Lemma yields_seq {S A B} (c : M S A) (f : A → M S B) Q : (∀ a, yields (f a) Q) → yields (c ≫= f) Q.
Proof. intros Hf. by apply (yields_bind c f (λ _, True)); [by intros ? ?|]. Qed.

Lemma yields_ret {S A} (a : A) (Q : A → Prop) : Q a → yields (mret a : M S A) Q.
Proof. intros HQ s b s' [= <- _]. exact HQ. Qed.

Lemma identify_drive_shown {H} `{PortIO H} polls sel : yields (ata_identify_drive (H := H) polls sel) drive_shown.
Proof.
  assert (∀ Q : Prop, di_present zero_info ≠ 0 → Q) as Hz by done.
  unfold ata_identify_drive. repeat (apply yields_seq; intros ?).
  destruct (_ =? 0); [by apply yields_ret|]. repeat (apply yields_seq; intros ?).
  lazymatch goal with |- yields (if ?b then _ else _) _ => destruct b end; [by apply yields_ret|]. apply yields_seq. intros r. destruct (negb _); [by apply yields_ret|].
  apply (yields_bind _ _ (Forall (λ w, 0 ≤ w < 65536))).
  - intros h ws h' E. unfold port_words_in in E. destruct (_ =? _)%nat; [|done]. injection E as <- _.
    apply Forall_map, Forall_true. intros w. apply u16_bound.
  - intros ws Hws h i h' E. unfold of_option in E. destruct (identify_info ws) as [i'|] eqn:Ei; [|done]. injection E as <- _.
    by apply (identify_shown ws).
Qed.

(** After the probe both drives can be shown. *)
Lemma ata_init_shown {H} `{PortIO H} polls (a a' : ata (H := H)) :
  ata_init polls a = Some ((), a') → drive_shown (drive_info a') ∧ drive_shown (slave_info a').
Proof.
  unfold ata_init. rewrite bind_run. unfold on_hw at 1, zoom at 1.
  destruct (ata_identify_drive polls ATA_DRIVE_MASTER (ata_hw a)) as [[i1 h1]|] eqn:E1; [|done]. rewrite bind_run. cbn [modify].
  rewrite bind_run. unfold on_hw, zoom. cbn [ata_hw]. destruct (ata_identify_drive polls ATA_DRIVE_SLAVE h1) as [[i2 h2]|] eqn:E2; [|done].
  cbn [modify]. intros [= <-]. cbn [drive_info slave_info]. split; [exact (identify_drive_shown polls _ _ _ _ E1)|exact (identify_drive_shown polls _ _ _ _ E2)].
Qed.

(** *** The probe *)

(** The number of sectors in the words of a description. *)
Definition ident_sectors (ws : list Z) : Z :=
  Z.lor (u32 (Z.shiftl (default 0 (ws !! 61%nat)) 16)) (default 0 (ws !! 60%nat)).

Lemma swap_pairs_total n i l : (i + 2 * n ≤ length l)%nat → ∃ l', swap_pairs n i l = Some l' ∧ length l' = length l.
Proof.
  revert i l. induction n as [|n IH]; intros i l Hl; [by exists l|]. cbn [swap_pairs]. unfold swap.
  destruct (lookup_lt_is_Some_2 l i) as [a ->]; [lia|]. destruct (lookup_lt_is_Some_2 l (S i)) as [b ->]; [lia|].
  cbn [mbind option_bind]. destruct (IH (i + 2)%nat (<[S i := a]> (<[i := b]> l))) as (l' & E & Hl').
  - rewrite !length_insert. lia.
  - exists l'. split; [exact E|]. by rewrite !length_insert in Hl'.
Qed.

Lemma trim_total n l : (n ≤ length l)%nat → ∃ l', trim_loop n l = Some l'.
Proof.
  revert l. induction n as [|n IH]; intros l Hl; [by exists l|]. cbn [trim_loop].
  destruct (lookup_lt_is_Some_2 l n) as [c ->]; [lia|]. cbn [mbind option_bind]. destruct (c =? 32); [|by exists l].
  apply IH. rewrite length_insert. lia.
Qed.

Lemma length_words_bytes ws : length (words_bytes ws) = (2 * length ws)%nat.
Proof. induction ws as [|w ws IH]; [done|]. cbn [words_bytes length]. rewrite IH. lia. Qed.

(** The 256 words are always understood. *)
Lemma identify_total ws :
  length ws = 256%nat → ∃ i, identify_info ws = Some i ∧ lba28_sectors i = ident_sectors ws ∧ di_present i = 1.
Proof.
  intros Hl. unfold identify_info.
  rewrite memcpy_spec by (rewrite ?length_words_bytes, ?length_drop, ?length_replicate, ?Hl; lia). cbn [mbind option_bind].
  set (m := take 40 _ ++ drop 40 _).
  assert (length m = 41%nat) as Hm.
  { unfold m. rewrite length_app, length_take, length_drop, length_words_bytes, length_drop, length_replicate. lia. }
  unfold ata_fix_identify_string. change ((40 + 1) / 2)%nat with 20%nat.
  destruct (swap_pairs_total 20 0 m) as (m1 & -> & H1); [lia|]. cbn [mbind option_bind]. rewrite H1, Hm. cbn [Nat.ltb Nat.leb].
  destruct (trim_total 40 (<[40%nat := 0]> m1)) as (m2 & ->); [rewrite length_insert; lia|]. cbn [mbind option_bind].
  eexists. split; [reflexivity|]. done.
Qed.

Section probe.
Context {H : Type} `{AtaDrive H} (polls : nat).
Hypothesis Hpolls : (delay < polls)%nat.

(** What the driver finds on the bus: drives that are idle, each of which
    describes itself by 256 words with the right number of sectors. *)
Definition described (v : view) (sl : bool) : Prop :=
  ∀ ws, ids v sl = Some ws → length ws = 256%nat ∧ Forall (λ w, 0 ≤ w < 65536) ws ∧
    ident_sectors ws = Z.of_nat (length (the_disk sl v)) ∧ Z.of_nat (length (the_disk sl v)) ≤ 268435456 ∧
    Forall is_block (the_disk sl v).

Record calm (h : H) : Prop := {
  ca_busy : busy h = 0%nat;
  ca_idle : act (look h) = Idle
}.

(** The drives and what is on them. *)
Definition on_drives (v : view) := (master v, slave v, ids v).

Lemma reg_calm r x h :
  calm h → r ∈ task_file →
  ∃ h', port_byte_out r x h = Some ((), h') ∧ look h' = set_reg r (u8 x) (look h) ∧ calm h'.
Proof using Type.
  intros [Hb Ha] Hr. destruct (reg_run r x h Hb Ha Hr) as (h' & E & L & B). exists h'. split; [exact E|]. split; [exact L|].
  split; [exact B|by rewrite L].
Qed.

(** The registers when the driver asks a drive to describe itself. *)
Definition asked (sl : bool) (v : view) : view :=
  set_reg ATA_PRIMARY_LBA_HI 0 (set_reg ATA_PRIMARY_LBA_MID 0 (set_reg ATA_PRIMARY_LBA_LO 0 (set_reg ATA_PRIMARY_SECCOUNT 0
    (set_reg ATA_PRIMARY_DRIVE_HEAD (if sl then ATA_DRIVE_SLAVE else ATA_DRIVE_MASTER) v)))).

Lemma asked_spec sl v : on_drives (asked sl v) = on_drives v ∧ sel_slave (asked sl v) = sl ∧
  reg (asked sl v) ATA_PRIMARY_LBA_MID = 0 ∧ reg (asked sl v) ATA_PRIMARY_LBA_HI = 0.
Proof using Type. split; [done|]. unfold sel_slave, reg, asked, set_reg. cbn [regs]. by destruct sl; simplify_map_eq. Qed.

(** Waiting until the drive is ready for the data. *)
Lemma request_run df h :
  busy h = 0%nat → data_request (act (look h)) →
  ∃ h', drq_loop df polls h = Some (0, h') ∧ look h' = look h ∧ busy h' = 0%nat.
Proof using Hpolls.
  intros Hb Hd. destruct polls as [|f]; [lia|]. cbn [drq_loop].
  destruct (status_run h) as (x & h' & E & L & _ & _ & Z0). destruct (Z0 Hb) as [B R]. mstep E.
  destruct (request_flags x (R Hd)) as (-> & -> & ->). rewrite andb_false_r. by exists h'.
Qed.

(** Up to the first look at the status. *)
Lemma ask_run (sl : bool) h :
  calm h →
  ∃ h' : H, (∀ (A : Type) (k : M H A),
        (port_byte_out ATA_PRIMARY_DRIVE_HEAD (if sl then ATA_DRIVE_SLAVE else ATA_DRIVE_MASTER) ;;
         ata_400ns_delay ;;
         port_byte_out ATA_PRIMARY_SECCOUNT 0 ;;
         port_byte_out ATA_PRIMARY_LBA_LO 0 ;;
         port_byte_out ATA_PRIMARY_LBA_MID 0 ;;
         port_byte_out ATA_PRIMARY_LBA_HI 0 ;; k) h = k h') ∧ look h' = asked sl (look h) ∧ calm h'.
Proof using Hpolls.
  intros Hc. destruct (reg_calm ATA_PRIMARY_DRIVE_HEAD (if sl then ATA_DRIVE_SLAVE else ATA_DRIVE_MASTER) h Hc) as (h1 & E1 & L1 & C1);
    [in_task_file|].
  destruct (delay_run h1) as (h2 & E2 & L2 & B2).
  assert (calm h2) as C2. { destruct C1 as [B A]. split; [lia|by rewrite L2]. }
  destruct (reg_calm ATA_PRIMARY_SECCOUNT 0 h2 C2) as (h3 & E3 & L3 & C3); [in_task_file|].
  destruct (reg_calm ATA_PRIMARY_LBA_LO 0 h3 C3) as (h4 & E4 & L4 & C4); [in_task_file|].
  destruct (reg_calm ATA_PRIMARY_LBA_MID 0 h4 C4) as (h5 & E5 & L5 & C5); [in_task_file|].
  destruct (reg_calm ATA_PRIMARY_LBA_HI 0 h5 C5) as (h6 & E6 & L6 & C6); [in_task_file|].
  exists h6. split; [intros A k; mstep E1; mstep E2; mstep E3; mstep E4; mstep E5; by mstep E6|].
  split; [|exact C6]. rewrite L6, L5, L4, L3, L2, L1. unfold asked. by destruct sl.
Qed.

(** Reading an address register. *)
Lemma address_run r h :
  busy h = 0%nat → act (look h) = Identifying → r = ATA_PRIMARY_LBA_MID ∨ r = ATA_PRIMARY_LBA_HI → reg (look h) r = 0 →
  ∃ h', port_byte_in r h = Some (0, h') ∧ look h' = look h ∧ busy h' = 0%nat.
Proof using Type.
  intros Hb Ha Hr Hz. destruct (ad_address h r Hb Ha Hr) as (E & L & B). rewrite port_in_run by (by destruct Hr as [-> | ->]).
  rewrite E, Hz. by eexists.
Qed.

(** The probe of one drive ends: it reports a drive that is there with its
    size, and nothing for one that is not; the bus is idle again and nothing
    on the drives has changed. *)
Lemma identify_run (sl : bool) h :
  calm h → described (look h) sl →
  ∃ i h', ata_identify_drive polls (if sl then ATA_DRIVE_SLAVE else ATA_DRIVE_MASTER) h = Some (i, h') ∧ calm h' ∧
    on_drives (look h') = on_drives (look h) ∧
    match ids (look h) sl with
    | Some ws => di_present i ≠ 0 ∧ lba28_sectors i = ident_sectors ws
    | None => di_present i = 0
    end.
Proof using Hpolls.
  intros Hc Hd. unfold ata_identify_drive. destruct (ask_run sl h Hc) as (h1 & E1 & L1 & [B1 A1]). rewrite E1. clear E1.
  destruct (asked_spec sl (look h)) as (Hcon & Hsel & Hmid & Hhi). rewrite <- L1 in Hcon, Hsel, Hmid, Hhi.
  assert (ids (look h1) sl = ids (look h) sl) as Hids by (unfold on_drives in Hcon; congruence). rewrite <- Hids. unfold described in Hd. rewrite <- Hids in Hd.
  rewrite bind_run, port_out_run by done. change (u8 ATA_CMD_IDENTIFY) with ATA_CMD_IDENTIFY.
  pose proof (ad_identify h1 B1 A1) as Hid. rewrite Hsel in Hid. cbv zeta in Hid. set (h2 := hw_outb _ _ h1) in *.
  destruct (delay_run h2) as (h3 & E3 & L3 & B3). mstep E3. destruct (ids (look h1) sl) as [ws|] eqn:Ews.
  - destruct (Hd ws eq_refl) as (Hlen & Hw & _).
    destruct (status_run h3) as (x & h4 & E4 & L4 & T4 & N4 & Z4). mstep E4.
    assert (x ≠ 0) as Hx.
    { intros ->. destruct (Nat.eq_dec (busy h3) 0) as [Hz|Hz].
      - destruct (Z4 Hz) as [_ R4]. rewrite L3, Hid in R4. by specialize (R4 I).
      - cbn in T4. by destruct (Nat.eqb_spec (busy h3) 0). }
    destruct (Z.eqb_spec x 0); [done|].
    destruct (wait_ready_run polls Hpolls h4) as (h5 & E5 & L5 & B5). unfold ata_wait_ready in E5. mstep E5.
    assert (look h5 = set_act Identifying (look h1)) as V5 by congruence.
    destruct (address_run ATA_PRIMARY_LBA_MID h5 B5 ltac:(by rewrite V5) ltac:(by left) ltac:(by rewrite V5)) as (h6 & E6 & L6 & B6).
    destruct (address_run ATA_PRIMARY_LBA_HI h6 B6 ltac:(by rewrite L6, V5) ltac:(by right) ltac:(by rewrite L6, V5)) as (h7 & E7 & L7 & B7).
    mstep E6. cbn [Z.eqb negb]. rewrite !bind_run, E7. unfold mret at 1, M_ret at 1. cbv beta iota. cbn [Z.eqb negb].
    destruct (request_run false h7 B7) as (h8 & E8 & L8 & B8); [by rewrite L7, L6, V5|]. mstep E8. cbn [Z.eqb negb].
    assert (look h8 = set_act Identifying (look h1)) as V8 by congruence.
    destruct (ad_describe h8 ws B8) as (Ew & Lw & Bw); [by rewrite V8|rewrite V8; cbn [ids set_act]; by rewrite (proj1 (sel_act _ _)), Hsel|].
    rewrite bind_run. unfold port_words_in. change (u16 ATA_PRIMARY_DATA) with ATA_PRIMARY_DATA. rewrite Ew, Hlen. cbn [Nat.eqb].
    assert (map u16 ws = ws) as ->.
    { rewrite <- (map_id ws) at 2. apply map_ext_in. intros w Hin. apply u16_small. rewrite Forall_forall in Hw. by apply Hw. }
    destruct (identify_total ws Hlen) as (i & Ei & Hs & Hp). rewrite Ei. cbn [of_option].
    eexists i, _. split; [reflexivity|]. split; [split; [exact Bw|by rewrite Lw]|]. split; [rewrite Lw, V8; exact Hcon|]. rewrite Hp. by split.
  - destruct Hid as [L2 B2]. assert (busy h3 = 0%nat) as B3' by lia.
    destruct (ad_status h3) as (L4 & _ & _ & _ & Z4). destruct (Z4 B3') as [B4 _].
    assert (fst (hw_inb ATA_PRIMARY_STATUS h3) = 0) as Ez.
    { apply ad_absent; [exact B3'|by rewrite L3, L2|]. rewrite L3, L2. by rewrite Hsel. }
    rewrite bind_run, port_in_run by done. rewrite Ez. change (u8 0 =? 0) with true. cbv iota.
    eexists _, _. split; [reflexivity|]. split; [split; [exact B4|by rewrite L4, L3, L2]|]. split; [by rewrite L4, L3, L2|done].
Qed.

(** The probe of the bus: the slave is found if it is there, and the block
    device has what is on it. *)
Theorem ata_init_finds (a : ata (H := H)) :
  let v := look (ata_hw a) in
  calm (ata_hw a) → described v false → described v true →
  ∃ a', ata_init polls a = Some ((), a') ∧ calm (ata_hw a') ∧ on_drives (look (ata_hw a')) = on_drives v ∧
    match ids v true with
    | Some _ => holds a' (slave v) (master v)
    | None => di_present (slave_info a') = 0
    end.
Proof using Hpolls.
  intros v Hc Hd1 Hd2. unfold ata_init. destruct (identify_run false (ata_hw a) Hc Hd1) as (i1 & h1 & E1 & C1 & K1 & _).
  assert (described (look h1) true) as Hd2'.
  { unfold described, the_disk in *. unfold on_drives in K1. injection K1 as K1 K2 K3. rewrite K2, K3. exact Hd2. }
  destruct (identify_run true h1 C1 Hd2') as (i2 & h2 & E2 & C2 & K2 & Hi2).
  rewrite bind_run. unfold on_hw, zoom. rewrite E1. rewrite bind_run. cbn [modify]. rewrite bind_run. cbn [ata_hw]. rewrite E2. cbn [modify].
  eexists. split; [reflexivity|]. cbn [ata_hw drive_info slave_info]. split; [exact C2|]. split; [by rewrite K2, K1|].
  unfold on_drives in K1, K2. injection K1 as M1 S1 I1. injection K2 as M2 S2 I2. rewrite I1 in Hi2. fold v in Hi2.
  destruct (ids v true) as [ws|] eqn:Ews; [|exact Hi2]. destruct Hi2 as [Hp Hn]. destruct (Hd2 ws Ews) as (_ & _ & Hs & Hr & Hb).
  split; cbn [ata_hw slave_info]; [|exact Hp|by rewrite Hn|exact Hb|exact Hr].
  split; [apply C2|]. cbn [the_disk negb]. split; [by rewrite S2, S1|by rewrite M2, M1].
Qed.
End probe.

(** ** A drive that follows the protocol *)

(** It is busy for three polls after every command and every sector. *)
Record sim := Sim { sim_view : view; sim_busy : nat; sim_busy_ok : Is_true (sim_busy <=? 3)%nat }.

Definition sim_status (h : sim) : Z :=
  let v := sim_view h in
  match act v with
  | Idle => match ids v (sel_slave v) with Some _ => 0x40 | None => 0 end
  | Reading _ O | Writing _ O => 0x40
  | _ => 0x48
  end.

Lemma pred_ok n : Is_true (S n <=? 3)%nat → Is_true (n <=? 3)%nat.
Proof. rewrite !Is_true_true, !Nat.leb_le. lia. Qed.

Definition sim_inb (port : Z) (h : sim) : Z * sim :=
  if port =? ATA_PRIMARY_STATUS then
    match h with
    | Sim v (S n) p => (0x80, Sim v n (pred_ok n p))
    | Sim v O _ => (sim_status h, h)
    end
  else (reg (sim_view h) port, h).

Definition sim_outb (port x : Z) (h : sim) : sim :=
  let v := sim_view h in
  if port =? ATA_PRIMARY_STATUS then
    match sim_busy h with
    | S _ => h                       (* ignored while busy *)
    | O =>
        if x =? ATA_CMD_READ_SECTORS then Sim (set_act (Reading (reg_lba v) (reg_count v)) v) 3 I
        else if x =? ATA_CMD_WRITE_SECTORS then Sim (set_act (Writing (reg_lba v) (reg_count v)) v) 3 I
        else if x =? ATA_CMD_IDENTIFY then
          match ids v (sel_slave v) with Some _ => Sim (set_act Identifying v) 3 I | None => h end
        else Sim v 3 I
    end
  else if bool_decide (port ∈ task_file) then Sim (set_reg port x v) (sim_busy h) (sim_busy_ok h)
  else h.

Definition sim_insw (port : Z) (n : nat) (h : sim) : list Z * sim :=
  let v := sim_view h in
  match act v with
  | Reading lba (S k) =>
      (bytes_words (default [] (sel_disk v !! Z.to_nat lba)), Sim (set_act (next Reading lba k) v) 3 I)
  | Identifying => (default [] (ids v (sel_slave v)), Sim (set_act Idle v) 0 I)
  | _ => (replicate n 0, h)
  end.

Definition sim_outsw (port : Z) (ws : list Z) (h : sim) : sim :=
  let v := sim_view h in
  match act v with
  | Writing lba (S k) =>
      Sim (set_act (next Writing lba k) (upd_disk <[Z.to_nat lba := words_bytes ws]> v)) 3 I
  | _ => h
  end.

#[export] Instance sim_ports : PortIO sim :=
  { hw_inb := sim_inb; hw_outb := sim_outb; hw_insw := sim_insw; hw_outsw := sim_outsw }.

#[export] Instance sim_drive : AtaDrive sim.
Proof.
  refine {| look := sim_view; busy := sim_busy; delay := 3 |}.
  - intros [v n p]. cbn. by apply Is_true_eq_true, Nat.leb_le in p.
  - done.
  - intros [v [|n] p]; cbn; [|split_and!; [done|lia|lia|done|lia|lia]].
    unfold sim_status. cbn. destruct (act v) as [|lba [|k]|lba [|k]|] eqn:E; cbn; [destruct (ids v _)|..]; split_and!; try done; lia.
  - intros [v n p] r x Hb Ha Hr Hx. cbn in *. unfold sim_outb. cbn [sim_view sim_busy].
    destruct (Z.eqb_spec r ATA_PRIMARY_STATUS) as [->|_]; [|by rewrite bool_decide_true by exact Hr].
    exfalso. revert Hr. unfold task_file. rewrite !elem_of_cons, elem_of_nil. by intros [?|[?|[?|[?|[?|?]]]]].
  - intros [v n p] Hb Hv. cbn in *. by subst n.
  - intros [v n p] Hb Hv. cbn in *. by subst n.
  - intros [v n p] Hb Hv. cbn in *. by subst n.
  - intros [v b p] lba n sec Hb Ha Hl E. cbn in *. unfold sim_insw. cbn [sim_view]. rewrite Ha. cbn. by rewrite E.
  - intros [v b p] lba n ws Hb Ha Hl E. cbn in *. unfold sim_outsw. cbn [sim_view]. by rewrite Ha.
  - intros [v n p] Hb Ha. cbn [sim_busy sim_view] in *. subst n. unfold hw_outb, sim_ports, sim_outb. cbn -[sel_slave].
    by destruct (ids v (sel_slave v)).
  - intros [v n p] Hb Ha Hid. cbn [sim_busy sim_view] in *. subst n. cbn. unfold sim_status. cbn -[sel_slave]. by rewrite Ha, Hid.
  - intros [v n p] r Hb Ha Hr. cbn in *. subst n. by destruct Hr as [-> | ->].
  - intros [v n p] ws Hb Ha Hid. cbn [sim_busy sim_view hw_insw sim_ports] in *. unfold sim_insw. cbn [sim_view]. rewrite Ha, Hid. done.
  - intros [v n p] r Hr. cbn. unfold sim_inb. destruct (Z.eqb_spec r ATA_PRIMARY_STATUS) as [->|_]; [|done].
    destruct Hr. by left.
  - intros [v n p] r x Hr. cbn. unfold sim_outb. destruct (Z.eqb_spec r ATA_PRIMARY_STATUS) as [->|_]; [destruct Hr; left; done|].
    destruct (bool_decide_reflect (r ∈ task_file)) as [Hin|_]; [|done]. destruct Hr. left. revert Hin.
    unfold task_file. rewrite !elem_of_cons, elem_of_nil. by intros [->|[->|[->|[->|[->|?]]]]].
Defined.

Lemma sim_tolerant : flush_tolerant sim.
Proof.
  intros [v n p] lba ws Hb Ha Hw. right. cbn in *. unfold sim_outsw. cbn [sim_view]. rewrite Ha. done.
Qed.

(** A bus with an empty boot disk and a data disk of four sectors. *)
Definition demo_disk : list (list Z) := replicate 4 (replicate 512 7).
Definition demo_bus : ata (H := sim) :=
  Ata (Sim (View ∅ Idle [] demo_disk (λ _, None)) 2 I) zero_info (DriveInfo (replicate 41 0) 4 0 1 1).

Lemma ata_block_refines_witness :
  ∃ s', ata_block_write 4 2 (replicate 512 9) demo_bus = Some (0, s') ∧
        ∃ buf s'', ata_block_read 4 2 s' = Some ((0, buf), s'') ∧ buf = replicate 512 9.
Proof.
  assert (@delay sim sim_ports sim_drive < 4)%nat as Hd by (cbn; lia).
  assert (holds demo_bus demo_disk []) as Hh.
  { split; [done|done|reflexivity|apply Forall_replicate; split; [done|]; apply Forall_replicate; lia|cbn; lia]. }
  assert (is_block (replicate 512 9)) as Hb by (split; [done|apply Forall_replicate; lia]).
  destruct (ata_block_refines 4 demo_bus demo_disk [] 2 Hd Hh) as (_ & _ & Hw); [cbn; lia|].
  destruct (Hw sim_tolerant (replicate 512 9) Hb) as (s' & E & Hh'). exists s'. split; [exact E|].
  destruct (ata_block_refines 4 s' _ [] 2 Hd Hh') as (_ & (buf & s'' & E' & Eb & _) & _); [rewrite length_insert; cbn; lia|].
  exists buf, s''. split; [exact E'|]. cbn in Eb. by injection Eb as <-.
Defined.
