(* ===== verification/Shell.v ===== *)
(** * shell/shell.c: the command shell

    The line editor fed by the keyboard, the dispatch of a command line and
    the commands.  The shell stands on top of the whole kernel: its commands
    run the components' code on the parts of the state they own, and what
    they print goes to the screen of [Screen].  The four commands that run
    the self-test suites call them as parameters. *)

From S2P Require Import Prelude KString KStdio Console KPrintf Screen Pmm Memory Kmalloc Paging Sched Task.
From S2P Require Import Block SimpleFS Klog Elf Syscall Timer Ports Ata.

Open Scope Z_scope.
Open Scope c_scope.

Definition SHELL_BUFFER_SIZE : Z := 256.

(** ** State *)

Record machine (D H : Type) := Machine {
  m_kernel : kernel D;
  m_ata : ata (H := H);
  m_ticks : Z;
  m_screen : screen;
  command_buffer : list Z;
  buffer_pos : Z
}.
Arguments Machine {D H} _ _ _ _ _ _.
Arguments m_kernel {D H} _.
Arguments m_ata {D H} _.
Arguments m_ticks {D H} _.
Arguments m_screen {D H} _.
Arguments command_buffer {D H} _.
Arguments buffer_pos {D H} _.

(** ** Parsing *)

(** [while ( *p == ' ') p++] *)
Fixpoint skip_spaces (p : list Z) : option (list Z) :=
  match p with
  | [] => None
  | c :: p' => if c =? 32 then skip_spaces p' else Some p
  end.

(** [while ( *p && *p != ' ') p++] *)
Fixpoint skip_word (p : list Z) : option (list Z) :=
  match p with
  | [] => None
  | c :: p' => if truth c && negb (c =? 32) then skip_word p' else Some p
  end.

(** [*p] *)
Definition first (p : list Z) : option Z := p !! 0%nat.

Inductive command :=
  | Help | Clear | Echo | Mem | Pmem | Color | Uptime | Pagedir | Ls | Cat | Write | Mkdir | Rm | DiskInfo
  | Tasktest | Usertest | Addrtest | Exec | Elftest | Dmesg.

(** The tests of [shell_execute] in their order. *)
Definition commands : list (list Z * command) :=
  [(str "help", Help); (str "clear", Clear); (str "echo", Echo); (str "mem", Mem); (str "pmem", Pmem);
   (str "color", Color); (str "uptime", Uptime); (str "pagedir", Pagedir); (str "ls", Ls); (str "cat", Cat);
   (str "write", Write); (str "mkdir", Mkdir); (str "rm", Rm); (str "disk", DiskInfo);
   (str "tasktest", Tasktest); (str "usertest", Usertest); (str "addrtest", Addrtest); (str "exec", Exec);
   (str "elftest", Elftest); (str "dmesg", Dmesg)].

(** [strncmp(cmd, name, cmd_len) == 0 && cmd_len == strlen of the literal],
    tried one after the other. *)
Fixpoint match_command (cs : list (list Z * command)) (cmd : list Z) (cmd_len : nat) : option (option command) :=
  match cs with
  | [] => Some None
  | (name, c) :: cs' =>
      r ← strncmp cmd (name ++ [0]) cmd_len;
      if (r =? 0) && (Z.of_nat cmd_len =? Z.of_nat (length name)) then Some (Some c)
      else match_command cs' cmd cmd_len
  end.

(** The names [parse_color_name] compares with, in its order. *)
Definition color_names : list (list Z * Z) :=
  [(str "black", 0x0); (str "blue", 0x1); (str "green", 0x2); (str "cyan", 0x3); (str "red", 0x4);
   (str "magenta", 0x5); (str "brown", 0x6); (str "grey", 0x7); (str "darkgrey", 0x8); (str "lightblue", 0x9);
   (str "lightgreen", 0xA); (str "lightcyan", 0xB); (str "lightred", 0xC); (str "lightmagenta", 0xD);
   (str "yellow", 0xE); (str "white", 0xF)].

Fixpoint color_loop (cs : list (list Z * Z)) (name : list Z) : option Z :=
  match cs with
  | [] => Some 0xFF
  | (n, code) :: cs' => r ← strcmp name (n ++ [0]); if r =? 0 then Some code else color_loop cs' name
  end.
Definition parse_color_name (name : list Z) : option Z := color_loop color_names name.

(** [char name[size]; strncpy(name, start, len); name[len] = 0] *)
Definition copy_name (size : nat) (start : list Z) (len : nat) : option (list Z) :=
  name ← strncpy (replicate size 0) start len;
  if (len <? size)%nat then Some (<[len := 0]> name) else None.

(** The word at [start] and its end, cut to 31 characters. *)
Definition color_word (start : list Z) : option (list Z * list Z) :=
  fin ← skip_word start;
  let len := (length start - length fin)%nat in
  name ← copy_name 32 start (if (32 <=? len)%nat then 31 else len);
  Some (name, fin).

Definition VGA_COLOR (fg bg : Z) : Z := Z.lor (Z.shiftl bg 4) fg.

(** *** Arguments of exec *)

Definition MAX_EXEC_ARGS : nat := 16.

(** [while (args[len] && len < 255)]: the characters copied. *)
Fixpoint copy_chars (n : nat) (args : list Z) : option (list Z) :=
  match args with
  | [] => None
  | c :: args' =>
      match n with
      | O => Some []
      | S n' => if truth c then cons c <$> copy_chars n' args' else Some []
      end
  end.

(** The splitting loop on the buffer: [argv] holds the offsets of the words;
    a round that does not leave the loop adds one, so 17 rounds suffice. *)
Fixpoint split_loop (fuel : nat) (arg_buf : list Z) (p : nat) (argv : list nat) : option (list Z * list nat) :=
  match fuel with
  | O => None
  | S f =>
      c ← arg_buf !! p;
      if truth c && (length argv <? MAX_EXEC_ARGS)%nat then
        rest ← skip_spaces (drop p arg_buf);
        let p := (length arg_buf - length rest)%nat in
        c ← arg_buf !! p;
        if negb (truth c) then Some (arg_buf, argv)
        else
          fin ← skip_word (drop p arg_buf);
          let q := (length arg_buf - length fin)%nat in
          c ← arg_buf !! q;
          if truth c then split_loop f (<[q := 0]> arg_buf) (S q) (argv ++ [p])
          else split_loop f arg_buf q (argv ++ [p])
      else Some (arg_buf, argv)
  end.

(** [argv]: pointers into the static buffer of 256 bytes.  What an earlier
    command left behind the terminator is not read. *)
Definition exec_args (args : list Z) : option (list (list Z)) :=
  chars ← copy_chars 255 args;
  match split_loop 17 (chars ++ replicate (256 - length chars) 0) 0 [] with
  | Some (arg_buf, argv) => Some (map (λ p, drop p arg_buf) argv)
  | None => None
  end.

Section shell.
Context {D H : Type} `{BlockDev D} (sy : symbols).
Context (test_multitask test_userspace test_addrspace test_elf : M (io (kernel D)) ()).
Abbreviation machine := (machine D H).

Definition set_kernel (k : kernel D) (m : machine) : machine :=
  Machine k (m_ata m) (m_ticks m) (m_screen m) (command_buffer m) (buffer_pos m).
Definition set_screen (s : screen) (m : machine) : machine :=
  Machine (m_kernel m) (m_ata m) (m_ticks m) s (command_buffer m) (buffer_pos m).
Definition set_line (b : list Z) (p : Z) (m : machine) : machine :=
  Machine (m_kernel m) (m_ata m) (m_ticks m) (m_screen m) b p.

Definition on_screen {A} (c : M screen A) : M machine A := zoom m_screen set_screen c.

(** [kprint(text)] *)
Definition say (text : list Z) : M machine () := on_screen (kprint_screen (text ++ [0])).

(** Kernel code, with what it prints put on the screen. *)
Definition kernel_op {A} (c : M (io (kernel D)) A) : M machine A :=
  m ← get;
  match c (IO (m_kernel m) []) with
  | Some (a, t) => put (set_kernel (st t) m) ;; say (con t) ;; mret a
  | None => fault
  end.

(** ** Commands *)

Definition help_text : list (list Z) :=
  [str "Available commands:";
   str "  help         - Show this help message";
   str "  clear        - Clear the screen";
   str "  echo <text>  - Print text to screen";
   str "  mem          - Display memory allocation statistics";
   str "  pmem         - Display physical memory statistics";
   str "  uptime       - Show system uptime";
   str "  pagedir      - Display page directory info";
   str "  ls           - List files and directories";
   str "  cat <file>   - Display file contents";
   str "  write <file> <text> - Write text to a file";
   str "  mkdir <name> - Create a directory";
   str "  rm <name>    - Delete a file or directory";
   str "  disk         - Show ATA disk information";
   str "  tasktest     - Run multitasking tests";
   str "  usertest     - Run Ring 3 userspace tests";
   str "  addrtest     - Run per-process address space tests";
   str "  exec <file>  - Load & run ELF binary from filesystem";
   str "  elftest      - Run ELF loader tests";
   str "  dmesg        - Display kernel log buffer";
   str "  dmesg save   - Flush kernel log to klog.txt";
   str "  color <name> - Change text color";
   str "               Colors: white, red, green, blue, yellow,";
   str "                       cyan, magenta, grey, black"].

Fixpoint say_lines (ls : list (list Z)) : M machine () :=
  match ls with
  | [] => mret ()
  | l :: ls' => say (l ++ [10]) ;; say_lines ls'
  end.

Definition cmd_help : M machine () := say_lines help_text.
Definition cmd_clear : M machine () := on_screen clear_screen.

Definition cmd_echo (args : list Z) : M machine () :=
  c ← of_option (first args);
  if truth c then
    text ← of_option (cstr args);
    say text ;; say [10]
  else mret ().

(** Code on the memory, the frames and the page tables, from the kernel. *)
Definition io_mem {A} (c : M (io mem) A) : M (io (kernel D)) A :=
  zoom_io (λ k, ram (vmem (k_os k)))
    (λ m k, Kernel (set_vmem (upd_ram (λ _, m) (vmem (k_os k))) (k_os k)) (k_log k) (k_fs k)) c.
Definition io_frames {A} (c : M (io pmm_t) A) : M (io (kernel D)) A := vmem_op (zoom_io frames set_frames c).

Definition cmd_mem : M machine () := kernel_op (io_mem kmalloc_status).
Definition cmd_pmem : M machine () := kernel_op (io_frames pmm_status).
Definition cmd_pagedir : M machine () := kernel_op (vmem_op paging_status).

Definition cmd_uptime : M machine () :=
  m ← get;
  uptime_str ← of_option (get_uptime_string (m_ticks m) (replicate 32 0));
  say (str "System uptime: ") ;;
  text ← of_option (cstr uptime_str);
  say text ;; say [10].

Definition bad_color (which : list Z) (name : list Z) : M machine () :=
  text ← of_option (cstr name);
  say which ;; say text ;; say [10].

Definition cmd_color (args : list Z) : M machine () :=
  c ← of_option (first args);
  if negb (truth c) then
    say (str "Usage: color <foreground> [background]" ++ [10]) ;;
    say (str "Example: color green black" ++ [10])
  else
    fgw ← of_option (color_word args);
    fg ← of_option (parse_color_name (fst fgw));
    if fg =? 0xFF then bad_color (str "Invalid foreground color: ") (fst fgw)
    else
      bg_start ← of_option (skip_spaces (snd fgw));
      c ← of_option (first bg_start);
      if truth c then
        bgw ← of_option (color_word bg_start);
        bg ← of_option (parse_color_name (fst bgw));
        if bg =? 0xFF then bad_color (str "Invalid background color: ") (fst bgw)
        else on_screen (set_text_color (VGA_COLOR fg bg)) ;; say (str "Color changed." ++ [10])
      else on_screen (set_text_color (VGA_COLOR fg 0)) ;; say (str "Color changed." ++ [10]).

(** *** Files *)

(** A line of [cmd_ls]. *)
Definition ls_line (e : fs_entry) : M machine () :=
  say (if SimpleFS.e_type e =? FS_TYPE_FILE then str "  FILE  "
       else if SimpleFS.e_type e =? FS_TYPE_DIR then str "  DIR   " else str "  ???   ") ;;
  size_str ← of_option (uitoa (e_size e) 10);
  for_loop (8 - length size_str) 0 (λ _, say (str " ")) ;;
  say size_str ;;
  say (str " B   ") ;;
  name ← of_option (cstr (e_name e));
  say name ;;
  say [10].

Fixpoint ls_lines (es : list fs_entry) : M machine () :=
  match es with
  | [] => mret ()
  | e :: es' => ls_line e ;; ls_lines es'
  end.

Definition cmd_ls (args : list Z) : M machine () :=
  entries ← kernel_op (fs_op (fs_list FS_MAX_ENTRIES));
  match entries with
  | [] => say (str "  (empty)" ++ [10])
  | _ =>
      ls_lines entries ;;
      say (str "  ") ;;
      count_str ← of_option (uitoa (Z.of_nat (length entries)) 10);
      say count_str ;;
      say (str " entries" ++ [10])
  end.

(** [kprint(a); kprint(args); kprint(b)] *)
Definition say_quoted (a : list Z) (args : list Z) (b : list Z) : M machine () :=
  text ← of_option (cstr args);
  say a ;; say text ;; say b.

Definition cmd_cat (args : list Z) : M machine () :=
  c ← of_option (first args);
  if negb (truth c) then say (str "Usage: cat <filename>" ++ [10])
  else
    r ← kernel_op (fs_op (fs_read_file (Some args) 4095));
    if fst r <? 0 then say_quoted (str "Error: file not found '") args (str "'" ++ [10])
    else
      text ← of_option (cstr (take (Z.to_nat (fst r)) (snd r) ++ [0]));
      say text ;; say [10].

Definition cmd_write (args : list Z) : M machine () :=
  c ← of_option (first args);
  if negb (truth c) then say (str "Usage: write <filename> <text>" ++ [10])
  else
    name_end ← of_option (skip_word args);
    let name_len := (length args - length name_end)%nat in
    if (name_len =? 0)%nat || (FS_NAME_MAX <? Z.of_nat name_len) then say (str "Error: invalid filename" ++ [10])
    else
      filename ← of_option (copy_name 24 args name_len);
      text ← of_option (skip_spaces name_end);
      c ← of_option (first text);
      if negb (truth c) then say (str "Error: no text provided" ++ [10])
      else
        stat ← kernel_op (fs_op (fs_stat (Some filename)));
        created ← (match stat with
                   | Some _ => mret 0
                   | None => kernel_op (fs_op (fs_create (Some filename) FS_TYPE_FILE))
                   end : M machine Z);
        if negb (created =? 0) then say (str "Error: could not create file" ++ [10])
        else
          text_len ← of_option (strlen text);
          r ← kernel_op (fs_op (fs_write_file (Some filename) (Some (take (Z.to_nat text_len) text)) text_len));
          if negb (r =? 0) then say (str "Error: write failed" ++ [10])
          else
            len_str ← of_option (uitoa text_len 10);
            say (str "Written ") ;;
            say len_str ;;
            say_quoted (str " bytes to '") filename (str "'" ++ [10]).

Definition cmd_mkdir (args : list Z) : M machine () :=
  c ← of_option (first args);
  if negb (truth c) then say (str "Usage: mkdir <name>" ++ [10])
  else
    r ← kernel_op (fs_op (fs_create (Some args) FS_TYPE_DIR));
    if negb (r =? 0) then
      say_quoted (str "Error: could not create directory '") args (str "' (exists or full)" ++ [10])
    else say_quoted (str "Created directory '") args (str "'" ++ [10]).

Definition cmd_rm (args : list Z) : M machine () :=
  c ← of_option (first args);
  if negb (truth c) then say (str "Usage: rm <name>" ++ [10])
  else
    r ← kernel_op (fs_op (fs_delete (Some args)));
    if negb (r =? 0) then say_quoted (str "Error: '") args (str "' not found" ++ [10])
    else say_quoted (str "Deleted '") args (str "'" ++ [10]).

Definition cmd_disk : M machine () :=
  m ← get;
  match ata_status (IO (m_ata m) []) with
  | Some (_, t) => say (con t)
  | None => fault
  end.

(** *** Programs and the log *)

Definition usage_exec : list Z := str "Usage: exec <filename> [args...]" ++ [10].

Definition cmd_exec (args : list Z) : M machine () :=
  c ← of_option (first args);
  if negb (truth c) then say usage_exec
  else
    argv ← of_option (exec_args args);
    match argv with
    | [] => say usage_exec
    | a0 :: _ =>
        let argc := Z.of_nat (length argv) in
        kernel_op (kprintf (str "[ELF] Loading '%s' with %d arg(s)..." ++ [10; 0]) [VStr (Some a0); VInt argc]) ;;
        t ← kernel_op (elf_exec sy (Some a0) (Some a0) (Some argv) argc);
        if bool_decide (t = PNull) then
          kernel_op (kprintf (str "[ELF] Failed to load '%s'" ++ [10; 0]) [VStr (Some a0)])
        else
          tcb ← kernel_op (os_op (quiet (deref t)));
          kernel_op (kprintf (str "[ELF] Spawned task '%s' (tid=%d)" ++ [10; 0]) [VStr (Some a0); VInt (t_id tcb)])
    end.

Definition flush_op {A} (c : M (klog_t * fs D) A) : M (io (kernel D)) A :=
  quiet (zoom (λ k, (k_log k, k_fs k)) (λ lf k, Kernel (k_os k) (fst lf) (snd lf)) c).

Definition cmd_dmesg (args : list Z) : M machine () :=
  c ← of_option (first args);
  save ← of_option (strcmp args (str "save" ++ [0]));
  clear ← of_option (strcmp args (str "clear" ++ [0]));
  if truth c && (save =? 0) then
    r ← kernel_op (flush_op (klog_flush_to_file (Some (str "klog.txt" ++ [0]))));
    if r =? 0 then say (str "Kernel log saved to 'klog.txt'" ++ [10])
    else say (str "Error: could not save kernel log" ++ [10])
  else if truth c && (clear =? 0) then kernel_op (log_op klog_clear)
  else kernel_op (log_op klog_dump).

(** The self-test suites are parameters, of which nothing is assumed. *)
Definition cmd_tasktest : M machine () := kernel_op test_multitask.
Definition cmd_usertest : M machine () := kernel_op test_userspace.
Definition cmd_addrtest : M machine () := kernel_op test_addrspace.
Definition cmd_elftest : M machine () := kernel_op test_elf.

Definition run_command (c : command) (args : list Z) : M machine () :=
  match c with
  | Help => cmd_help
  | Clear => cmd_clear
  | Echo => cmd_echo args
  | Mem => cmd_mem
  | Pmem => cmd_pmem
  | Color => cmd_color args
  | Uptime => cmd_uptime
  | Pagedir => cmd_pagedir
  | Ls => cmd_ls args
  | Cat => cmd_cat args
  | Write => cmd_write args
  | Mkdir => cmd_mkdir args
  | Rm => cmd_rm args
  | DiskInfo => cmd_disk
  | Tasktest => cmd_tasktest
  | Usertest => cmd_usertest
  | Addrtest => cmd_addrtest
  | Exec => cmd_exec args
  | Elftest => cmd_elftest
  | Dmesg => cmd_dmesg args
  end.

(** ** The shell *)

Definition shell_execute (cmd : list Z) : M machine () :=
  cmd ← of_option (skip_spaces cmd);
  c ← of_option (first cmd);
  if c =? 0 then mret ()
  else
    args ← of_option (skip_word cmd);
    let cmd_len := (length cmd - length args)%nat in
    args ← of_option (skip_spaces args);
    r ← of_option (match_command commands cmd cmd_len);
    match r with
    | Some c => run_command c args
    | None =>
        text ← of_option (cstr cmd);
        say (str "Unknown command: ") ;;
        say text ;;
        say ([10] ++ str "Type 'help' for available commands." ++ [10])
    end.

(** [command_buffer[i] = v] *)
Definition buf_write (i v : Z) : M machine () :=
  m ← get;
  if (0 <=? i) && (i <? Z.of_nat (length (command_buffer m)))
  then put (set_line (<[Z.to_nat i := v]> (command_buffer m)) (buffer_pos m) m) else fault.
Definition set_pos (i : Z) : M machine () := modify (λ m, set_line (command_buffer m) i m).

Definition shell_init : M machine () := set_pos 0 ;; buf_write 0 0.

Definition shell_input (c : Z) : M machine () :=
  m ← get;
  let pos := buffer_pos m in
  if c =? 8 then
    if pos >? 0 then
      set_pos (pos - 1) ;;
      buf_write (pos - 1) 0 ;;
      on_screen kprint_backspace
    else mret ()
  else if c =? 10 then
    say [10] ;;
    buf_write pos 0 ;;
    m ← get;
    (if pos >? 0 then shell_execute (command_buffer m) else mret ()) ;;
    set_pos 0 ;;
    buf_write 0 0 ;;
    say (str "> ")
  else if pos <? SHELL_BUFFER_SIZE - 1 then
    buf_write pos c ;;
    set_pos (pos + 1) ;;
    buf_write (pos + 1) 0 ;;
    say [c]
  else mret ().
End shell.
