(* ===== verification/ShellSpec.v ===== *)
(** * What the shell's commands do

    A line is split into its first word and the rest and dispatched by exact
    match; what [write] reports is what happened to the file system, and
    [cat] shows it.  [outputs] describes a command by its result, the state
    of the file system it leaves and the text it puts on the screen. *)

From S2P Require Import Prelude KString KStdio Console KPrintf Screen ScreenSpec Pmm Memory Kmalloc Paging Sched Task.
From S2P Require Import Block SimpleFS SimpleFSSpec Klog Elf ElfSpec Syscall Timer Ports Ata Shell.

Open Scope Z_scope.
Open Scope c_scope.

(** ** Words of a line *)

Definition spaces (n : nat) : list Z := replicate n 32.
Definition no_space (s : list Z) : Prop := Forall (λ c, c ≠ 32) s.

(** Text that does not start with a space. *)
Definition starts (s : list Z) : Prop := match s with [] => True | c :: _ => c ≠ 32 end.

Lemma skip_spaces_run n s r : starts s → skip_spaces (spaces n ++ s ++ 0 :: r) = Some (s ++ 0 :: r).
Proof.
  intros Hs. induction n as [|n IH]; [|exact IH]. cbn [spaces replicate app].
  destruct s as [|c s]; [done|]. cbn [app skip_spaces]. by destruct (Z.eqb_spec c 32).
Qed.

Lemma skip_word_run w s : nonzero w → no_space w → (∀ c, first s = Some c → c = 0 ∨ c = 32) → s ≠ [] →
  skip_word (w ++ s) = Some s.
Proof.
  intros Hw Hn Hs Hne. induction w as [|c w IH].
  - destruct s as [|c s]; [done|]. cbn [app skip_word]. by destruct (Hs c eq_refl) as [-> | ->].
  - apply nonzero_cons in Hw as [Hc Hw]. apply Forall_cons_iff in Hn as [Hc' Hn]. cbn [app skip_word].
    rewrite truth_pos by lia. destruct (Z.eqb_spec c 32); [done|]. by apply IH.
Qed.

Lemma strncmp_word w tl name :
  nonzero w → nonzero name →
  ∃ d, strncmp (w ++ tl) (name ++ [0]) (length w) = Some d ∧
    ((d =? 0) && (Z.of_nat (length w) =? Z.of_nat (length name)) = bool_decide (name = w)).
Proof.
  intros Hw. revert name. induction w as [|c w IH]; intros name Hn.
  - exists 0. split; [by destruct tl|]. destruct name; [by rewrite bool_decide_eq_true_2|by rewrite bool_decide_eq_false_2].
  - apply nonzero_cons in Hw as [Hc Hw]. destruct name as [|c' name]; cbn [app strncmp length].
    + rewrite truth_pos by lia. destruct (Z.eqb_spec c 0); [lia|]. exists (c - 0). split; [done|].
      rewrite bool_decide_eq_false_2 by done. destruct (Z.eqb_spec (c - 0) 0); [lia|done].
    + apply nonzero_cons in Hn as [Hc' Hn]. rewrite truth_pos by lia. cbn [andb].
      destruct (Z.eqb_spec c c') as [<-|Hne].
      * destruct (IH Hw name Hn) as (d & E & Hd). exists d. split; [exact E|].
        rewrite !Nat2Z.inj_succ. destruct (Z.eqb_spec (Z.succ (Z.of_nat (length w))) (Z.succ (Z.of_nat (length name)))),
          (Z.eqb_spec (Z.of_nat (length w)) (Z.of_nat (length name))); try lia; rewrite Hd; apply bool_decide_ext; split; congruence.
      * exists (c - c'). split; [done|]. rewrite bool_decide_eq_false_2 by congruence.
        destruct (Z.eqb_spec (c - c') 0); [lia|done].
Qed.

(** The command a word names. *)
Definition command_of (cs : list (list Z * command)) (w : list Z) : option command :=
  snd <$> find (λ x, bool_decide (fst x = w)) cs.

Lemma match_command_run cs w tl :
  nonzero w → Forall (λ x, nonzero (fst x)) cs → match_command cs (w ++ tl) (length w) = Some (command_of cs w).
Proof.
  intros Hw Hcs. induction cs as [|[name c] cs IH]; [done|]. apply Forall_cons_iff in Hcs as [Hn Hcs].
  cbn [match_command]. destruct (strncmp_word w tl name Hw Hn) as (d & -> & Hd). cbn [mbind option_bind]. rewrite Hd.
  unfold command_of. cbn [find fst]. case_bool_decide; [done|]. by apply IH.
Qed.

Lemma commands_nonzero : Forall (λ x, nonzero (fst x)) commands.
Proof. apply (bool_decide_unpack _). vm_compute. exact I. Qed.

(** ** Text on the screen *)

(** From one screen to the next, [txt] has been printed. *)
Record prints (s s' : screen) (txt : list Z) : Prop := {
  pr_color : current_color s' = current_color s;
  pr_serial : serial s' = serial s ++ txt;
  pr_shows : ∀ t, shows s t → shows s' (term_print (current_color s) t txt)
}.

Definition displays (s : screen) : Prop := ∃ t, shows s t.

Lemma prints_trans s1 s2 s3 x y : prints s1 s2 x → prints s2 s3 y → prints s1 s3 (x ++ y).
Proof.
  intros [C1 S1 P1] [C2 S2 P2]. split; [congruence|by rewrite S2, S1, app_assoc|].
  intros t Ht. unfold term_print. rewrite foldl_app. rewrite <- C1. apply P2. rewrite C1. by apply P1.
Qed.

Lemma prints_displays s s' txt : prints s s' txt → displays s → displays s'.
Proof. intros [_ _ P] [t Ht]. eexists. by apply P. Qed.

Lemma kprint_prints s msg r :
  displays s → nonzero msg → ∃ s', kprint_screen (msg ++ 0 :: r) s = Some ((), s') ∧ prints s s' msg.
Proof.
  intros [t Ht] Hm. destruct (kprint_screen_run s t msg r Ht Hm) as (s' & E & Hs' & Hc & Hser).
  exists s'. split; [exact E|]. split; [exact Hc|exact Hser|].
  intros t' Ht'. destruct (kprint_screen_run s t' msg r Ht' Hm) as (s'' & E' & Hs'' & _). congruence.
Qed.

(** Printing in one go what the components print piece by piece is the same:
    on a screen that shows a terminal, only the text matters. *)
Lemma kprint_pieces s a b :
  displays s → nonzero a → nonzero b →
  ∃ s1 s2 s3, kprint_screen (a ++ [0]) s = Some ((), s1) ∧ kprint_screen (b ++ [0]) s1 = Some ((), s2) ∧
    kprint_screen (a ++ b ++ [0]) s = Some ((), s3) ∧ prints s s2 (a ++ b) ∧ prints s s3 (a ++ b).
Proof.
  intros Hd Ha Hb. destruct (kprint_prints s a [] Hd Ha) as (s1 & E1 & P1).
  destruct (kprint_prints s1 b [] (prints_displays _ _ _ P1 Hd) Hb) as (s2 & E2 & P2).
  destruct (kprint_prints s (a ++ b) [] Hd) as (s3 & E3 & P3); [by apply Forall_app_2|].
  exists s1, s2, s3. rewrite <- app_assoc in E3. split_and!; [exact E1|exact E2|exact E3|by eapply prints_trans|exact P3].
Qed.

(** ** Commands *)

Section spec.
Context {D H : Type} `{BlockDevLaws D} (sy : symbols).
Context (t1 t2 t3 t4 : M (io (kernel D)) ()).
Abbreviation machine := (machine D H).

Definition mfs (m : machine) : fs D := k_fs (m_kernel m).
Definition set_fs (f : fs D) (m : machine) : machine :=
  set_kernel (Kernel (k_os (m_kernel m)) (k_log (m_kernel m)) f) m.

(** [c] returns [a], leaves the file system in state [f], prints [txt] and
    changes nothing else. *)
Definition outputs {A} (c : M machine A) (m : machine) (a : A) (f : fs D) (txt : list Z) : Prop :=
  displays (m_screen m) →
  ∃ scr, c m = Some (a, set_screen scr (set_fs f m)) ∧ prints (m_screen m) scr txt.

Lemma set_fs_same m : set_fs (mfs m) m = m.
Proof. by destruct m as [[] ? ? ? ? ?]. Qed.

Lemma out_bind {A B} (c : M machine A) (k : A → M machine B) m a f x b f' y :
  outputs c m a f x → (∀ scr, outputs (k a) (set_screen scr (set_fs f m)) b f' y) → outputs (c ≫= k) m b f' (x ++ y).
Proof.
  intros Hc Hk Hd. destruct (Hc Hd) as (s1 & E1 & P1). destruct (Hk s1 (prints_displays _ _ _ P1 Hd)) as (s2 & E2 & P2).
  exists s2. mstep E1. split; [exact E2|]. by eapply prints_trans.
Qed.

Lemma out_say txt m f : nonzero txt → f = mfs m → outputs (say txt) m () f txt.
Proof.
  intros Ht -> Hd. destruct (kprint_prints (m_screen m) txt [] Hd Ht) as (s' & E & P).
  exists s'. rewrite set_fs_same. unfold say, on_screen, zoom. by rewrite E.
Qed.

Lemma out_fs {A} (c : M (fs D) A) m a f' : c (mfs m) = Some (a, f') → outputs (kernel_op (fs_op c)) m a f' [].
Proof.
  intros E Hd. destruct (kprint_prints (m_screen m) [] [] Hd) as (s' & Es & P); [constructor|].
  exists s'. split; [|exact P]. unfold kernel_op, fs_op, quiet, zoom. rewrite bind_run. cbn [get st con].
  unfold mfs in E. rewrite E. cbn [st con]. rewrite bind_run. cbn [put]. unfold say, on_screen, zoom.
  rewrite bind_run. cbn [set_kernel m_screen app]. cbn [app] in Es. by rewrite Es.
Qed.

(** *** Sequences *)

Lemma out_say_seq {B} txt m (k : M machine B) b f y :
  nonzero txt → (∀ scr, outputs k (set_screen scr m) b f y) → outputs (say txt ;; k) m b f (txt ++ y).
Proof.
  intros Ht Hk. eapply out_bind; [by apply out_say|]. intros scr. rewrite set_fs_same. apply Hk.
Qed.

Lemma out_fs_seq {A B} (c : M (fs D) A) m a f1 (k : A → M machine B) b f y :
  c (mfs m) = Some (a, f1) → (∀ scr, outputs (k a) (set_screen scr (set_fs f1 m)) b f y) →
  outputs (kernel_op (fs_op c) ≫= k) m b f y.
Proof. intros E Hk. apply (out_bind _ _ m a f1 [] b f y); [by apply out_fs|exact Hk]. Qed.

Lemma out_opt {A B} (o : option A) a m (k : A → M machine B) b f y :
  o = Some a → outputs (k a) m b f y → outputs (of_option o ≫= k) m b f y.
Proof. by intros ->. Qed.

Lemma out_quoted (a n r b : list Z) m f :
  nonzero a → nonzero n → nonzero b → f = mfs m → outputs (say_quoted a (n ++ 0 :: r) b) m () f (a ++ n ++ b).
Proof.
  intros Ha Hn Hb ->. unfold say_quoted. eapply out_opt; [by apply cstr_app|].
  apply out_say_seq; [done|]. intros scr. apply out_say_seq; [done|]. intros scr1. by apply out_say.
Qed.

Lemma first_nonzero n r : nonzero n → n ≠ [] → ∃ c, first (n ++ 0 :: r) = Some c ∧ truth c = true.
Proof.
  intros Hn Hne. destruct n as [|c n]; [done|]. apply nonzero_cons in Hn as [Hc _]. exists c. split; [done|].
  apply truth_pos. lia.
Qed.

Lemma lit_nonzero s : bool_decide (nonzero s) = true → nonzero s.
Proof. apply bool_decide_eq_true_1. Qed.
Ltac lit := apply lit_nonzero; vm_compute; reflexivity.

Lemma cmd_cat_run m d sb n r :
  fs_inv d sb → fs_at d sb (mfs m) → nonzero n → n ≠ [] →
  ∃ f', fs_at d sb f' ∧
    (((∀ x, ¬ has d n FS_TYPE_FILE x) ∧
      outputs (cmd_cat (n ++ 0 :: r)) m () f' (str "Error: file not found '" ++ n ++ str "'" ++ [10])) ∨
     (∃ x, has d n FS_TYPE_FILE x ∧ (nonzero x → outputs (cmd_cat (n ++ 0 :: r)) m () f' (take 4095 x ++ [10])))).
Proof.
  intros Hinv Hat Hn Hne. destruct (first_nonzero n r Hn Hne) as (c & Hc & Ht).
  destruct (read_file_run d sb (mfs m) n r 4095 Hinv Hat Hn) as (code & out & f' & E & Hat' & Hres); [lia|].
  exists f'. split; [exact Hat'|]. unfold cmd_cat.
  destruct Hres as [(-> & -> & Hno)|(x & Hx & -> & ->)]; [left|right].
  - split; [exact Hno|]. eapply out_opt; [exact Hc|]. rewrite Ht. cbn [negb].
    eapply out_fs_seq; [exact E|]. intros scr. cbn [fst Z.ltb Z.compare]. apply out_quoted; [lit|exact Hn|lit|done].
  - exists x. split; [exact Hx|]. intros Hnz. eapply out_opt; [exact Hc|]. rewrite Ht. cbn [negb].
    eapply out_fs_seq; [exact E|]. intros scr. cbn [fst snd].
    destruct (Z.ltb_spec (Z.of_nat (length (take (Z.to_nat 4095) x))) 0); [lia|].
    rewrite Nat2Z.id, (take_ge (take (Z.to_nat 4095) x)) by lia. change (Z.to_nat 4095) with 4095%nat.
    assert (nonzero (take 4095 x)) as Hnt by (by apply Forall_take).
    eapply out_opt; [by apply cstr_app|]. apply out_say_seq; [exact Hnt|]. intros scr1. apply out_say; [lit|done].
Qed.
(** *** write *)

Lemma strncpy_word dest s t :
  nonzero s → (length s ≤ length dest)%nat → strncpy dest (s ++ t) (length s) = Some (s ++ drop (length s) dest).
Proof.
  revert dest. induction s as [|c s IH]; intros [|x dest] Hs Hl; cbn [length] in Hl; try lia; [done|by destruct t|].
  apply nonzero_cons in Hs as [Hc Hs]. cbn [app length strncpy]. rewrite truth_pos by lia. by rewrite IH by (done || lia).
Qed.

Lemma copy_name_run size s t :
  nonzero s → (length s < size)%nat → copy_name size (s ++ t) (length s) = Some (s ++ 0 :: replicate (size - length s - 1) 0).
Proof.
  intros Hs Hl. unfold copy_name. rewrite strncpy_word by (done || rewrite length_replicate; lia). cbn [mbind option_bind].
  destruct (Nat.ltb_spec (length s) size); [|lia]. rewrite drop_replicate, insert_app_r_alt, Nat.sub_diag by lia.
  replace (size - length s)%nat with (S (size - length s - 1)) by lia. cbn [replicate insert list_insert].
  do 4 f_equal. lia.
Qed.

Lemma stat_run d sb s n r :
  fs_inv d sb → fs_at d sb s → nonzero n →
  ∃ o s', fs_stat (Some (n ++ 0 :: r)) s = Some (o, s') ∧ fs_at d sb s' ∧ (o = None → ∀ t x, ¬ has d n t x).
Proof.
  intros Hinv Hat Hn. destruct (fs_at_dev _ _ _ Hat) as [d0 Hd].
  destruct (find_entry_run d sb s n r Hat (fi_mounted _ _ Hinv) Hn (fi_name _ _ Hinv)) as (s1 & Hat1 & [(i & _ & _ & _ & E)|[E Hno]]).
  - exists (Some (dirent d i)), s1. unfold fs_stat. rewrite bind_run. cbn [get]. rewrite Hd. mstep E. done.
  - exists None, s1. unfold fs_stat. rewrite bind_run. cbn [get]. rewrite Hd. mstep E. split; [done|]. split; [done|].
    intros _ t x. by apply has_not.
Qed.

(** The report of a successful [write]. *)
Definition written_text (n text num : list Z) : list Z :=
  str "Written " ++ num ++ str " bytes to '" ++ n ++ str "'" ++ [10].

(** Nothing changes but possibly the entry [n]. *)
Definition others_same (d d' : D) (n : list Z) : Prop := ∀ m t x, m ≠ n → has d' m t x ↔ has d m t x.

(** The part of [cmd_write] after the file is known to exist. *)
Lemma write_data_run f d sb n z text r :
  fs_inv d sb → fs_at d sb f → nonzero n → nonzero text → Z.of_nat (length text) < 4294966784 →
  ∃ d' sb' f' out, fs_at d' sb' f' ∧ fs_inv d' sb' ∧ others_same d d' n ∧
    (∀ m, mfs m = f → outputs (text_len ← of_option (strlen (text ++ 0 :: r));
             r ← kernel_op (fs_op (fs_write_file (Some (n ++ 0 :: z)) (Some (take (Z.to_nat text_len) (text ++ 0 :: r))) text_len));
             if negb (r =? 0) then say (str "Error: write failed" ++ [10])
             else
               len_str ← of_option (uitoa text_len 10);
               say (str "Written ") ;;
               say len_str ;;
               say_quoted (str " bytes to '") (n ++ 0 :: z) (str "'" ++ [10])) m () f' out) ∧
    (((∃ num, out = written_text n text num ∧ numeral 10 (Z.of_nat (length text)) num) ∧
      ∀ x, has d' n FS_TYPE_FILE x ↔ x = text) ∨ out = str "Error: write failed" ++ [10]).
Proof.
  intros Hinv Hat Hn Ht Hl. set (len := Z.of_nat (length text)) in *.
  assert (Z.to_nat len = length text) as Hto by apply Nat2Z.id.
  destruct (write_file_run d sb f n z text len Hinv Hat Hn) as (code & d' & sb' & f' & E & Hat' & Hinv' & Hres);
    [by eapply Forall_impl; [|exact Ht]; intros; cbn in *; lia|done|lia|].
  destruct (utoa_numeral_len len 10 10) as (num & En & Hnum & _); [lia|lia|cbn; lia|lia|].
  assert (others_same d d' n) as Hoth.
  { destruct Hres as [(_ & -> & _)|(_ & _ & Hiff)]; intros p t x Hp; [done|]. rewrite Hiff. tauto. }
  destruct Hres as [(-> & _)|(-> & _ & Hiff)].
  - exists d', sb', f', (str "Error: write failed" ++ [10]). split_and!; [done|done|done| |by right].
    intros m Hm. eapply out_opt; [by apply strlen_cstr; [|lia]|]. fold len. rewrite Hto, take_app_length.
    eapply out_fs_seq; [rewrite Hm; exact E|]. intros scr. apply out_say; [lit|done].
  - exists d', sb', f', (written_text n text num). split_and!; [done|done|done| |left].
    + intros m Hm. eapply out_opt; [by apply strlen_cstr; [|lia]|]. fold len. rewrite Hto, take_app_length.
      eapply out_fs_seq; [rewrite Hm; exact E|]. intros scr. cbn [Z.eqb negb].
      eapply out_opt; [rewrite uitoa_utoa by lia; exact En|].
      apply out_say_seq; [lit|]. intros scr1. apply out_say_seq; [by apply (numeral_nonzero _ _ Hnum)|]. intros scr2.
      apply out_quoted; [lit|exact Hn|lit|done].
    + split; [by exists num|]. intros x. rewrite Hiff. tauto.
Qed.
(** A line [n text] as [cmd_write] takes it apart. *)
Record write_line (n text : list Z) : Prop := {
  wl_name : nonzero n ∧ no_space n ∧ (0 < length n ≤ 23)%nat;
  wl_text : nonzero text ∧ text ≠ [] ∧ starts text ∧ (length text ≤ 4095)%nat
}.

Lemma write_parse n text k r :
  write_line n text →
  let name_end := spaces (S k) ++ text ++ 0 :: r in
  let args := n ++ name_end in
  (∃ c, first args = Some c ∧ truth c = true) ∧ skip_word args = Some name_end ∧
  (length args - length name_end = length n)%nat ∧
  copy_name 24 args (length n) = Some (n ++ 0 :: replicate (23 - length n) 0) ∧
  skip_spaces name_end = Some (text ++ 0 :: r) ∧
  ∃ c, first (text ++ 0 :: r) = Some c ∧ truth c = true.
Proof.
  intros [(Hn & Hsp & Hl) (Ht & Hte & Hst & _)] name_end args. split_and!.
  - destruct n as [|c n]; cbn [length] in Hl; [lia|]. exists c. split; [done|]. apply nonzero_cons in Hn as [Hc _].
    apply truth_pos. lia.
  - apply skip_word_run; [done|done| |done]. cbn. intros c [= <-]. by right.
  - unfold args. rewrite length_app. lia.
  - unfold args. rewrite copy_name_run by (done || lia). do 4 f_equal. lia.
  - by apply skip_spaces_run.
  - by apply first_nonzero.
Qed.

Lemma cmd_write_run m d sb n k text r :
  fs_inv d sb → fs_at d sb (mfs m) → write_line n text →
  ∃ d' sb' f' out, fs_at d' sb' f' ∧ fs_inv d' sb' ∧ others_same d d' n ∧
    outputs (cmd_write (n ++ spaces (S k) ++ text ++ 0 :: r)) m () f' out ∧
    (((∃ num, out = written_text n text num ∧ numeral 10 (Z.of_nat (length text)) num) ∧
      ∀ x, has d' n FS_TYPE_FILE x ↔ x = text) ∨
     out = str "Error: write failed" ++ [10] ∨ out = str "Error: could not create file" ++ [10]).
Proof.
  intros Hinv Hat Hl. destruct (write_parse n text k r Hl) as ((c & Hc & Htc) & Hw & Hlen & Hcopy & Hsk & c2 & Hc2 & Ht2).
  destruct Hl as [(Hn & Hsp & Hnl) (Ht & _ & _ & Htl)].
  set (name_end := spaces (S k) ++ text ++ 0 :: r) in *. set (args := n ++ name_end) in *. set (z := replicate (23 - length n) 0) in *.
  destruct (stat_run d sb (mfs m) n z Hinv Hat Hn) as (o & f1 & Es & Hat1 & Hnone).
  assert (∀ f' out, (∀ scr, outputs
    (created ← (match o with
                | Some _ => mret 0
                | None => kernel_op (fs_op (fs_create (Some (n ++ 0 :: z)) FS_TYPE_FILE))
                end : M machine Z);
     if negb (created =? 0) then say (str "Error: could not create file" ++ [10])
     else
       text_len ← of_option (strlen (text ++ 0 :: r));
       r ← kernel_op (fs_op (fs_write_file (Some (n ++ 0 :: z)) (Some (take (Z.to_nat text_len) (text ++ 0 :: r))) text_len));
       if negb (r =? 0) then say (str "Error: write failed" ++ [10])
       else
         len_str ← of_option (uitoa text_len 10);
         say (str "Written ") ;;
         say len_str ;;
         say_quoted (str " bytes to '") (n ++ 0 :: z) (str "'" ++ [10]))
    (set_screen scr (set_fs f1 m)) () f' out) → outputs (cmd_write args) m () f' out) as Hrun.
  { intros f' out Hk. unfold cmd_write. eapply out_opt; [exact Hc|]. rewrite Htc. cbn [negb].
    eapply out_opt; [exact Hw|]. cbv zeta. rewrite Hlen.
    destruct (Nat.eqb_spec (length n) 0); [lia|]. destruct (Z.ltb_spec FS_NAME_MAX (Z.of_nat (length n))); [unfold FS_NAME_MAX in *; lia|].
    cbn [orb]. eapply out_opt; [exact Hcopy|]. eapply out_opt; [exact Hsk|]. eapply out_opt; [exact Hc2|]. rewrite Ht2. cbn [negb].
    eapply out_fs_seq; [exact Es|]. exact Hk. }
  destruct o as [e|].
  - destruct (write_data_run f1 d sb n z text r Hinv Hat1 Hn Ht ltac:(lia)) as (d' & sb' & f' & out & Hat' & Hinv' & Hoth & Hout & Hres).
    exists d', sb', f', out. split_and!; [done|done|done|apply Hrun; intros scr; by apply Hout|tauto].
  - destruct (create_run d sb f1 n z FS_TYPE_FILE Hinv Hat1 Hn ltac:(lia)) as (code & d1 & f2 & Ec & Hat2 & Hinv2 & [(-> & -> & _)|(-> & _ & Hiff)]).
    + exists d, sb, f2, (str "Error: could not create file" ++ [10]). split_and!; [done|done|done| |by right; right].
      apply Hrun. intros scr. eapply out_fs_seq; [exact Ec|]. intros scr1. apply out_say; [lit|done].
    + destruct (write_data_run f2 d1 sb n z text r Hinv2 Hat2 Hn Ht ltac:(lia)) as (d' & sb' & f' & out & Hat' & Hinv' & Hoth & Hout & Hres).
      exists d', sb', f', out. split_and!; [done|done| | |tauto].
      * intros p t x Hp. rewrite (Hoth p t x Hp), Hiff. tauto.
      * apply Hrun. intros scr. eapply out_fs_seq; [exact Ec|]. intros scr1. by apply Hout.
Qed.

(** C38: What [write] says is what happened, and [cat] shows it.  For a line
    "name text" the command always returns, keeps the file system consistent
    and every other entry as it was; if it reports the bytes written, the
    number is the length of the text and from then on [cat] on that file
    system prints exactly the text; otherwise it prints one of two error
    messages. *)
Theorem shell_write_cat m d sb n k text r :
  fs_inv d sb → fs_at d sb (mfs m) → write_line n text →
  ∃ d' sb' f' out, fs_at d' sb' f' ∧ fs_inv d' sb' ∧ others_same d d' n ∧
    outputs (cmd_write (n ++ spaces (S k) ++ text ++ 0 :: r)) m () f' out ∧
    ((∃ num, out = written_text n text num ∧ numeral 10 (Z.of_nat (length text)) num ∧
        ∀ m', mfs m' = f' → ∃ f'', fs_at d' sb' f'' ∧ outputs (cmd_cat (n ++ 0 :: r)) m' () f'' (text ++ [10])) ∨
     out = str "Error: write failed" ++ [10] ∨ out = str "Error: could not create file" ++ [10]).
Proof.
  intros Hinv Hat Hl. destruct (cmd_write_run m d sb n k text r Hinv Hat Hl) as (d' & sb' & f' & out & Hat' & Hinv' & Hoth & Hout & Hres).
  exists d', sb', f', out. split_and!; [done|done|done|exact Hout|].
  destruct Hres as [((num & -> & Hnum) & Hhas)|He]; [left|by right]. exists num. split; [done|]. split; [done|].
  intros m' Hm'. destruct Hl as [(Hn & _ & Hnl) (Ht & _ & _ & Htl)].
  destruct (cmd_cat_run m' d' sb' n r Hinv') as (f'' & Hat'' & [[Hno _]|(x & Hx & Hc)]);
    [by rewrite Hm'|done|by destruct n; [cbn in Hnl; lia|]| |].
  - destruct (Hno text). by apply Hhas.
  - apply Hhas in Hx as ->. exists f''. split; [done|]. rewrite take_ge in Hc by lia. by apply Hc.
Qed.
(** ** Dispatch *)

Lemma shell_execute_run (m : machine) n1 w n2 args r :
  nonzero w → no_space w → nonzero args → starts args → (args ≠ [] → w ≠ [] ∧ n2 ≠ 0%nat) →
  shell_execute sy t1 t2 t3 t4 (spaces n1 ++ w ++ spaces n2 ++ args ++ 0 :: r) m =
  if bool_decide (w = []) then Some ((), m)
  else match command_of commands w with
       | Some c => run_command sy t1 t2 t3 t4 c (args ++ 0 :: r) m
       | None => (say (str "Unknown command: ") ;; say (w ++ spaces n2 ++ args) ;;
                  say ([10] ++ str "Type 'help' for available commands." ++ [10])) m
       end.
Proof.
  intros Hw Hsp Ha Hst Hn2. case_bool_decide as Hwe.
  - subst w. destruct args as [|c args]; [|by destruct Hn2]. cbn [app]. rewrite app_assoc. unfold spaces at 1 2.
    rewrite <- replicate_add. fold (spaces (n1 + n2)). unfold shell_execute.
    rewrite bind_run, (skip_spaces_run _ [] r) by done. done.
  - set (tl := spaces n2 ++ args ++ 0 :: r).
    assert (starts (w ++ spaces n2 ++ args)) as Hstw by (destruct w; [done|by apply Forall_cons_iff in Hsp as [? _]]).
    unfold shell_execute. rewrite bind_run.
    replace (spaces n1 ++ w ++ tl) with (spaces n1 ++ (w ++ spaces n2 ++ args) ++ 0 :: r) by (unfold tl; by rewrite <- !app_assoc).
    rewrite skip_spaces_run by exact Hstw. cbn [of_option]. rewrite <- !app_assoc. fold tl.
    destruct w as [|c w]; [done|]. pose proof Hw as Hw'. apply nonzero_cons in Hw' as [Hc _].
    rewrite bind_run. cbn [first app lookup list_lookup of_option]. destruct (Z.eqb_spec c 0); [lia|].
    change (c :: w ++ tl) with ((c :: w) ++ tl).
    assert (skip_word ((c :: w) ++ tl) = Some tl) as Esw.
    { apply skip_word_run; [done|done| |unfold tl; by destruct n2, args].
      unfold tl. destruct n2 as [|n2]; [|cbn; intros x [= <-]; by right].
      destruct args; [cbn; intros x [= <-]; by left|by destruct Hn2]. }
    assert (skip_spaces tl = Some (args ++ 0 :: r)) as Etl by (by apply skip_spaces_run).
    rewrite bind_run, Esw. cbn [of_option]. rewrite bind_run, Etl. cbn [of_option].
    rewrite length_app, Nat.add_sub.
    rewrite bind_run, (match_command_run commands (c :: w) tl Hw commands_nonzero). cbn [of_option].
    destruct (command_of commands (c :: w)); [done|]. rewrite bind_run.
    replace ((c :: w) ++ tl) with (((c :: w) ++ spaces n2 ++ args) ++ 0 :: r) by (unfold tl; by rewrite <- !app_assoc).
    rewrite cstr_app; [done|]. repeat apply Forall_app_2; [done|apply Forall_replicate; lia|done].
Qed.

(** C40: A command line is dispatched by its first word.  Leading spaces are
    skipped and a blank line does nothing; otherwise the handler whose name
    is exactly the first word (no prefix, no longer name) gets the rest of
    the line after the spaces, and if no command has that name the line is
    reported as unknown. *)
Theorem shell_execute_dispatches (m : machine) n1 w n2 args r :
  nonzero w → no_space w → nonzero args → starts args → (args ≠ [] → w ≠ [] ∧ n2 ≠ 0%nat) →
  shell_execute sy t1 t2 t3 t4 (spaces n1 ++ w ++ spaces n2 ++ args ++ 0 :: r) m =
  if bool_decide (w = []) then Some ((), m)
  else match command_of commands w with
       | Some c => run_command sy t1 t2 t3 t4 c (args ++ 0 :: r) m
       | None => (say (str "Unknown command: ") ;; say (w ++ spaces n2 ++ args) ;;
                  say ([10] ++ str "Type 'help' for available commands." ++ [10])) m
       end.
Proof. apply shell_execute_run. Qed.
End spec.

(** ** The arguments of exec *)

Definition word (w : list Z) : Prop := nonzero w ∧ no_space w ∧ w ≠ [].

(** The rest of a line after a word: more words, each after some spaces, and
    spaces at the end. *)
Fixpoint after (items : list (nat * list Z)) (n : nat) : list Z :=
  match items with
  | [] => spaces n
  | (k, w) :: items' => spaces (S k) ++ w ++ after items' n
  end.

(** The offsets in [argv] point to finished words in the first part of the
    buffer. *)
Definition tokens (pre : list Z) (argv : list nat) (ws : list (list Z)) : Prop :=
  Forall2 (λ w p, (p ≤ length pre)%nat ∧ ∃ t, drop p pre = w ++ 0 :: t) ws argv.

Lemma tokens_extend pre x argv ws : tokens pre argv ws → tokens (pre ++ x) argv ws.
Proof.
  intros Ht. eapply Forall2_impl; [|exact Ht]. intros w p [Hp [t E]]. split; [rewrite length_app; lia|].
  exists (t ++ x). by rewrite drop_app_le, E, <- app_assoc by lia.
Qed.

Lemma tokens_snoc pre k w argv ws :
  tokens pre argv ws → tokens (pre ++ spaces k ++ w ++ [0]) (argv ++ [(length pre + k)%nat]) (ws ++ [w]).
Proof.
  intros Ht. apply Forall2_app; [by apply tokens_extend|]. constructor; [|constructor].
  split; [rewrite !length_app; unfold spaces; rewrite length_replicate; lia|]. exists [].
  rewrite drop_app_ge, Nat.add_sub_swap, Nat.sub_diag by lia. cbn [Nat.add].
  by rewrite drop_app_length' by (unfold spaces; by rewrite length_replicate).
Qed.

Lemma tokens_strings buf argv ws : tokens buf argv ws → Forall nonzero ws → c_strings ws (map (λ p, drop p buf) argv).
Proof.
  intros Ht Hnz. unfold c_strings. rewrite Forall2_fmap_r.
  induction Ht as [|x p ws argv [_ [t Hx]] Ht IH]; constructor; apply Forall_cons_iff in Hnz as [Hn Hnz]; [by eauto|by apply IH].
Qed.

Lemma lookup_at (pre : list Z) c r : (pre ++ c :: r) !! length pre = Some c.
Proof. by apply list_lookup_middle. Qed.

(** One round of the loop: a word is found; what follows it is the end of the
    buffer or a space, which becomes its terminator. *)
Lemma split_round f pre k w c r argv :
  word w → (length argv < 16)%nat → c = 0 ∨ c = 32 →
  split_loop (S f) (pre ++ spaces k ++ w ++ c :: r) (length pre) argv =
  let argv' := argv ++ [(length pre + k)%nat] in
  if c =? 0 then split_loop f (pre ++ spaces k ++ w ++ 0 :: r) (length (pre ++ spaces k ++ w)) argv'
  else split_loop f (pre ++ spaces k ++ w ++ 0 :: r) (S (length (pre ++ spaces k ++ w))) argv'.
Proof.
  intros (Hw & Hsp & Hne) Ha Hc. set (buf := pre ++ spaces k ++ w ++ c :: r).
  assert (length (spaces k) = k) as Hk by apply length_replicate.
  assert (∃ x, buf !! length pre = Some x ∧ truth x = true) as (x & Ex & Tx).
  { destruct k as [|k]; [|exists 32; split; [apply lookup_at|done]].
    destruct w as [|x w]; [done|]. exists x. split; [apply lookup_at|]. apply nonzero_cons in Hw as [? _]. apply truth_pos. lia. }
  assert (skip_spaces (drop (length pre) buf) = Some (w ++ c :: r)) as Es.
  { unfold buf. rewrite drop_app_length. clear -Hsp Hne. induction k as [|k IH]; [|exact IH]. cbn.
    destruct w as [|y w]; [done|]. apply Forall_cons_iff in Hsp as [Hy _]. cbn. by destruct (Z.eqb_spec y 32). }
  assert (length buf - length (w ++ c :: r) = length (pre ++ spaces k))%nat as Ep.
  { unfold buf. rewrite !length_app. lia. }
  assert (∃ y, buf !! length (pre ++ spaces k) = Some y ∧ truth y = true) as (y & Ey & Ty).
  { destruct w as [|y w]; [done|]. exists y. unfold buf. rewrite (app_assoc pre). split; [apply lookup_at|].
    apply nonzero_cons in Hw as [? _]. apply truth_pos. lia. }
  assert (skip_word (drop (length (pre ++ spaces k)) buf) = Some (c :: r)) as Ew.
  { unfold buf. rewrite (app_assoc pre), drop_app_length. apply skip_word_run; [done|done| |done]. by intros ? [= <-]. }
  assert (length buf - length (c :: r) = length (pre ++ spaces k ++ w))%nat as Eq.
  { unfold buf. rewrite !length_app. lia. }
  assert (buf !! length (pre ++ spaces k ++ w) = Some c) as Ec.
  { unfold buf. replace (pre ++ spaces k ++ w ++ c :: r) with ((pre ++ spaces k ++ w) ++ c :: r) by (by rewrite <- !app_assoc).
    apply lookup_at. }
  cbn [split_loop]. rewrite Ex. cbn [mbind option_bind]. rewrite Tx.
  destruct (Nat.ltb_spec (length argv) MAX_EXEC_ARGS) as [_|Hge]; [|unfold MAX_EXEC_ARGS in Hge; lia]. cbn [andb].
  rewrite Es. cbn [mbind option_bind]. rewrite Ep, Ey. cbn [mbind option_bind]. rewrite Ty. cbn [negb].
  rewrite Ew. cbn [mbind option_bind]. rewrite Eq, Ec. cbn [mbind option_bind].
  replace (length (pre ++ spaces k)) with (length pre + k)%nat by (rewrite length_app; lia).
  unfold truth. cbv zeta. destruct Hc as [-> | ->]; cbn [Z.eqb negb]; [done|].
  unfold buf. replace (<[_:=0]> _) with (pre ++ spaces k ++ w ++ 0 :: r); [done|].
  replace (pre ++ spaces k ++ w ++ 32 :: r) with ((pre ++ spaces k ++ w) ++ 32 :: r) by (by rewrite <- !app_assoc).
  rewrite insert_app_r_alt, Nat.sub_diag by lia. by rewrite <- !app_assoc.
Qed.

Lemma split_end f pre n z argv :
  split_loop (S f) (pre ++ spaces n ++ 0 :: z) (length pre) argv = Some (pre ++ spaces n ++ 0 :: z, argv).
Proof.
  cbn [split_loop]. destruct n as [|n]; [cbn [spaces replicate app]; by rewrite lookup_at|].
  assert ((pre ++ spaces (S n) ++ 0 :: z) !! length pre = Some 32) as -> by apply (lookup_at pre 32 (spaces n ++ 0 :: z)).
  cbn [mbind option_bind]. change (truth 32) with true. cbn [andb].
  destruct (length argv <? MAX_EXEC_ARGS)%nat; [|done].
  pose proof (skip_spaces_run (S n) [] z I) as Es. cbn [app] in Es. rewrite drop_app_length, Es. cbn [mbind option_bind].
  replace (length (pre ++ spaces (S n) ++ 0%Z :: z) - length (0%Z :: z))%nat with (length (pre ++ spaces (S n)))
    by (rewrite !length_app; lia).
  by rewrite (app_assoc pre), lookup_at.
Qed.

Lemma split_run items f pre k w n z argv ws :
  word w → Forall (λ x, word (snd x)) items → tokens pre argv ws →
  (length argv + length items < 16)%nat → (length items + 2 ≤ f)%nat →
  ∃ buf argv', split_loop f (pre ++ spaces k ++ w ++ after items n ++ 0 :: z) (length pre) argv = Some (buf, argv') ∧
    tokens buf argv' (ws ++ w :: map snd items).
Proof.
  revert f pre k w argv ws. induction items as [|[k' w'] items IH]; intros f pre k w argv ws Hw Hit Ht Ha Hf;
    (destruct f as [|f]; [cbn in Hf; lia|]); cbn [length after] in *.
  - pose proof (tokens_snoc pre k w argv ws Ht) as Ht'. destruct n as [|n]; cbn [spaces replicate app].
    + rewrite split_round by (done || lia || by left). cbn [Z.eqb]. cbv zeta. destruct f as [|f]; [lia|].
      pose proof (split_end f (pre ++ spaces k ++ w) 0 z (argv ++ [(length pre + k)%nat])) as E.
      cbn [spaces replicate app] in E. rewrite <- !app_assoc in E. eexists _, _. split; [exact E|].
      apply (tokens_extend _ z) in Ht'. by rewrite <- !app_assoc in Ht'.
    + fold (spaces n). rewrite split_round by (done || lia || by right). cbn [Z.eqb]. cbv zeta. destruct f as [|f]; [lia|].
      pose proof (split_end f (pre ++ spaces k ++ w ++ [0]) n z (argv ++ [(length pre + k)%nat])) as E.
      replace (length (pre ++ spaces k ++ w ++ [0])) with (S (length (pre ++ spaces k ++ w))) in E by (rewrite !length_app; simpl; lia).
      rewrite <- !app_assoc in E. eexists _, _. split; [exact E|].
      apply (tokens_extend _ (spaces n ++ 0 :: z)) in Ht'. by rewrite <- !app_assoc in Ht'.
  - apply Forall_cons_iff in Hit as [Hw' Hit]. cbn [spaces replicate app]. fold (spaces k'). rewrite <- !app_assoc.
    rewrite split_round by (done || lia || by right). cbn [Z.eqb]. cbv zeta.
    destruct (IH f (pre ++ spaces k ++ w ++ [0]) k' w' (argv ++ [(length pre + k)%nat]) (ws ++ [w])) as (buf & argv' & E & Htk);
      [done|done|by apply tokens_snoc|rewrite length_app; simpl; lia|lia|].
    replace (length (pre ++ spaces k ++ w ++ [0])) with (S (length (pre ++ spaces k ++ w))) in E by (rewrite !length_app; simpl; lia).
    rewrite <- !app_assoc in E. exists buf, argv'. split; [exact E|]. by rewrite <- app_assoc in Htk.
Qed.

Lemma copy_chars_run l r n : nonzero l → (length l ≤ n)%nat → copy_chars n (l ++ 0 :: r) = Some l.
Proof.
  revert n. induction l as [|c l IH]; intros n Hl Hn; [by destruct n|]. destruct n as [|n]; cbn [length] in Hn; [lia|].
  apply nonzero_cons in Hl as [Hc Hl]. cbn [app copy_chars]. rewrite truth_pos by lia. by rewrite IH by (done || lia).
Qed.

Lemma after_nonzero items n : Forall (λ x, word (snd x)) items → nonzero (after items n).
Proof.
  intros Hit. assert (∀ k, nonzero (spaces k)) as Hs by (intros k; apply Forall_replicate; lia).
  induction Hit as [|[k w] items [Hw _] Hit IH]; [apply Hs|]. cbn [after]. repeat apply Forall_app_2; [apply Hs|exact Hw|exact IH].
Qed.

(** The words of an exec line become the program's arguments: for a line
    of at most 255 characters and 16 words, however spaced, [cmd_exec] splits
    its buffer into exactly these words in order, each a terminated string,
    which is what the loader needs to put them on the user stack. *)
Theorem exec_args_words k w items n r :
  word w → Forall (λ x, word (snd x)) items → (length items < 16)%nat →
  (length (spaces k ++ w ++ after items n) ≤ 255)%nat →
  ∃ argv, exec_args ((spaces k ++ w ++ after items n) ++ 0 :: r) = Some argv ∧ c_strings (w :: map snd items) argv.
Proof.
  intros Hw Hit Hlen Hl. set (L := spaces k ++ w ++ after items n) in *.
  assert (nonzero L) as HL.
  { repeat apply Forall_app_2; [apply Forall_replicate; lia|apply Hw|by apply after_nonzero]. }
  unfold exec_args. rewrite copy_chars_run by done. cbn [mbind option_bind].
  destruct (split_run items 17 [] k w n (replicate (255 - length L) 0) [] []) as (buf & argv & E & Ht);
    [done|done|constructor|cbn; lia|lia|].
  replace (L ++ replicate (256 - length L) 0) with (spaces k ++ w ++ after items n ++ 0 :: replicate (255 - length L) 0).
  2:{ replace (256 - length L)%nat with (S (255 - length L)) by lia. unfold L at 2. by rewrite <- !app_assoc. }
  cbn [app length] in E. rewrite E. eexists. split; [reflexivity|]. apply (tokens_strings buf); [exact Ht|].
  constructor; [apply Hw|]. apply Forall_map. eapply Forall_impl; [|exact Hit]. by intros x [? _].
Qed.

(** ** Examples *)

Definition demo_machine (f : fs ramdisk) : machine ramdisk () :=
  Machine (Kernel idle_os (Klog (replicate 256 zero_log_entry) 0 0 0) f) (Ata () zero_info zero_info) 0
    blank_screen (replicate 256 0) 0.

Definition no_test : M (io (kernel ramdisk)) () := mret ().

Lemma shell_write_cat_witness :
  ∃ m f' out, outputs (cmd_write (str "a" ++ spaces 1 ++ str "hi" ++ [0])) (m : machine ramdisk ()) () f' out.
Proof.
  destruct file_fs as (d & s & Hat & Hinv & _).
  destruct (shell_write_cat (demo_machine s) d (fresh_sb 64) (str "a") 0 (str "hi") [] Hinv Hat)
    as (d' & sb' & f' & out & _ & _ & _ & Hout & _).
  - split; split_and!; try (by repeat constructor); cbn; try lia; try done; repeat constructor; done.
  - exists (demo_machine s), f', out. exact Hout.
Defined.

Lemma shell_execute_dispatches_witness :
  shell_execute demo_symbols no_test no_test no_test no_test (str "  echo hi" ++ [0]) (demo_machine unmounted) =
  run_command demo_symbols no_test no_test no_test no_test Echo (str "hi" ++ [0]) (demo_machine unmounted).
Proof.
  apply (shell_execute_dispatches demo_symbols no_test no_test no_test no_test (demo_machine unmounted) 2 (str "echo") 1 (str "hi") []);
    (done || by repeat constructor).
Defined.

Lemma exec_args_words_witness :
  ∃ argv, exec_args (str "hello  a b " ++ [0]) = Some argv ∧ c_strings [str "hello"; str "a"; str "b"] argv.
Proof.
  apply (exec_args_words 0 (str "hello") [(1%nat, str "a"); (0%nat, str "b")] 1 []);
    [|repeat constructor|cbn; lia|cbn; lia]; try (split_and!; [by repeat constructor|by repeat constructor|done]); by repeat constructor.
Defined.
