(* ===== verification/Keyboard.v ===== *)
(** * drivers/keyboard.c and keyboard.h: the PS/2 keyboard

    The handler of IRQ 1 turns scan codes into characters for the shell.  Its
    only state of its own is the shift key; the scan code is what the
    controller delivers at port 0x60. *)

From S2P Require Import Prelude KString KStdio Console KPrintf Screen Pmm Memory Kmalloc Paging Sched Task.
From S2P Require Import Block SimpleFS Klog Elf Syscall Timer Ports Ata Shell.

Open Scope Z_scope.
Open Scope c_scope.

Definition KEYBOARD_DATA_PORT : Z := 0x60.
Definition KEYBOARD_STATUS_PORT : Z := 0x64.
Definition KEY_LSHIFT : Z := 0x2A.
Definition KEY_RSHIFT : Z := 0x36.

(** The 128 entries of the table, in rows of eight as in the source. *)
Definition scancode_to_ascii : list Z :=
  [0; 0; 49; 50; 51; 52; 53; 54;
   55; 56; 57; 48; 45; 61; 8; 9;
   113; 119; 101; 114; 116; 121; 117; 105;
   111; 112; 91; 93; 10; 0; 97; 115;
   100; 102; 103; 104; 106; 107; 108; 59;
   39; 96; 0; 92; 122; 120; 99; 118;
   98; 110; 109; 44; 46; 47; 0; 42;
   0; 32; 0; 0; 0; 0; 0; 0;
   0; 0; 0; 0; 0; 0; 0; 55;
   56; 57; 45; 52; 53; 54; 43; 49;
   50; 51; 48; 46; 0; 0; 0; 0] ++ replicate 40 0.

(** The [switch] of [apply_shift], as pairs of characters. *)
Definition shift_table : list (Z * Z) :=
  [(49, 33); (50, 64); (51, 35); (52, 36); (53, 37); (54, 94); (55, 38); (56, 42); (57, 40); (48, 41);
   (45, 95); (61, 43); (91, 123); (93, 125); (59, 58); (39, 34); (96, 126); (92, 124); (44, 60); (46, 62);
   (47, 63)].

Fixpoint switch (cases : list (Z * Z)) (c : Z) : Z :=
  match cases with
  | [] => c
  | (k, v) :: cases' => if c =? k then v else switch cases' c
  end.

Definition apply_shift (c : Z) : Z :=
  if (97 <=? c) && (c <=? 122) then c - 32 else switch shift_table c.

Record keyboard (D H : Type) := Keyboard { kb_machine : machine D H; shift_pressed : Z }.
Arguments Keyboard {D H} _ _.
Arguments kb_machine {D H} _.
Arguments shift_pressed {D H} _.

Section keyboard.
Context {D H : Type} `{BlockDev D} (sy : symbols).
Context (test_multitask test_userspace test_addrspace test_elf : M (io (kernel D)) ()).
Abbreviation keyboard := (keyboard D H).

Definition on_machine {A} (c : M (machine D H) A) : M keyboard A :=
  zoom kb_machine (λ m k, Keyboard m (shift_pressed k)) c.
Definition set_shift (v : Z) : M keyboard () := modify (λ k, Keyboard (kb_machine k) v).

Definition keyboard_handler (scancode : Z) : M keyboard () :=
  if truth (Z.land scancode 0x80) then
    let release_code := Z.land scancode 0x7F in
    if (release_code =? KEY_LSHIFT) || (release_code =? KEY_RSHIFT) then set_shift 0 else mret ()
  else if (scancode =? KEY_LSHIFT) || (scancode =? KEY_RSHIFT) then set_shift 1
  else if scancode =? 0x3B then
    on_machine (say [10]) ;;
    on_machine (kernel_op (log_op klog_dump)) ;;
    on_machine (say (str "> "))
  else
    ascii ← of_option (scancode_to_ascii !! Z.to_nat scancode);
    if negb (ascii =? 0) then
      k ← get;
      let ascii := if truth (shift_pressed k) then apply_shift ascii else ascii in
      on_machine (shell_input sy test_multitask test_userspace test_addrspace test_elf ascii)
    else mret ().

(** A sequence of keyboard interrupts. *)
Fixpoint keys (codes : list Z) : M keyboard () :=
  match codes with
  | [] => mret ()
  | c :: codes' => keyboard_handler c ;; keys codes'
  end.
End keyboard.

(** ** Initialisation *)

Section init.
Context {H : Type} `{PortIO H}.

(** [while (!(port_byte_in(KEYBOARD_STATUS_PORT) & 0x01))] *)
Fixpoint wait_output (fuel : nat) : M H () :=
  match fuel with
  | O => fault
  | S f => s ← port_byte_in KEYBOARD_STATUS_PORT; if truth (Z.land s 1) then mret () else wait_output f
  end.

(** The port accesses of [keyboard_init]; [polls] bounds the wait. *)
Definition keyboard_init (polls : nat) : M H () :=
  port_byte_out KEYBOARD_STATUS_PORT 0xAD ;;
  port_byte_out KEYBOARD_STATUS_PORT 0xA7 ;;
  port_byte_in KEYBOARD_DATA_PORT ;;
  port_byte_out KEYBOARD_STATUS_PORT 0x20 ;;
  wait_output polls ;;
  config ← port_byte_in KEYBOARD_DATA_PORT;
  let config := Z.lor config 0x01 in
  let config := Z.land config (Z.lnot 0x10) in
  port_byte_out KEYBOARD_STATUS_PORT 0x60 ;;
  port_byte_out KEYBOARD_DATA_PORT config ;;
  port_byte_out KEYBOARD_STATUS_PORT 0xAE.
End init.
