(* ===== verification/KeyboardSpec.v ===== *)
(** * From the keyboard to the command line

    The shell's buffer is a line editor: characters are added up to 255,
    backspace takes the last one away, and Enter hands exactly the line to
    [shell_execute].  Every printable ASCII character can be typed, so a
    line typed key by key ends up in the buffer and on the screen. *)

From S2P Require Import Prelude KString KStdio Console KPrintf Screen ScreenSpec Pmm Memory Kmalloc Paging Sched Task.
From S2P Require Import Block SimpleFS SimpleFSSpec Klog Elf ElfSpec Syscall Timer Ports Ata Shell ShellSpec Keyboard.

Open Scope Z_scope.
Open Scope c_scope.

(** ** The line editor *)

Definition edit (line : list Z) (c : Z) : list Z :=
  if c =? 8 then take (length line - 1) line
  else if (length line <? 255)%nat then line ++ [c] else line.

(** What the key does to the terminal. *)
Definition echo (color : Z) (t : terminal) (line : list Z) (c : Z) : terminal :=
  if c =? 8 then
    match line, pos t with
    | [], _ | _, O => t
    | _, S p => Terminal (<[p := (32, color)]> (cells t)) p
    end
  else if (length line <? 255)%nat then term_put color t c else t.

Section editor.
Context {D H : Type} `{BlockDev D} (sy : symbols).
Context (t1 t2 t3 t4 : M (io (kernel D)) ()).
Abbreviation machine := (machine D H).

(** The shell is reading a line and has [line] so far. *)
Record editing (m : machine) (line : list Z) : Prop := {
  ed_buffer : ∃ r, command_buffer m = line ++ 0 :: r;
  ed_size : length (command_buffer m) = 256%nat;
  ed_pos : buffer_pos m = Z.of_nat (length line);
  ed_screen : displays (m_screen m)
}.

Lemma buf_write_run (m : machine) i v :
  (i < length (command_buffer m))%nat →
  buf_write (Z.of_nat i) v m = Some ((), set_line (<[i := v]> (command_buffer m)) (buffer_pos m) m).
Proof. intros Hi. unfold buf_write. rewrite bind_run. cbn [get]. repeat zcase. cbn [andb]. by rewrite Nat2Z.id. Qed.

Lemma say_run (m : machine) txt :
  displays (m_screen m) → nonzero txt → ∃ scr, say txt m = Some ((), set_screen scr m) ∧ prints (m_screen m) scr txt.
Proof.
  intros Hd Ht. destruct (kprint_prints (m_screen m) txt [] Hd Ht) as (s' & E & P).
  exists s'. unfold say, on_screen, zoom. by rewrite E.
Qed.

Lemma backspace_run s : displays s →
  ∃ s', kprint_backspace s = Some ((), s') ∧ displays s' ∧
    ∀ t, shows s t → shows s' (match pos t with O => t | S p => Terminal (<[p := (32, current_color s)]> (cells t)) p end).
Proof.
  intros [t Ht]. destruct (kprint_backspace_erases s t Ht) as (s' & E & _ & Hs').
  exists s'. split; [exact E|]. split; [by eexists|]. intros t' Ht'.
  destruct (kprint_backspace_erases s t' Ht') as (s'' & E' & _ & Hs''). congruence.
Qed.

(** The buffer when the last character is taken away or one is added. *)
Lemma buf_erase line c r : <[length line := 0]> ((line ++ [c]) ++ 0 :: r) = line ++ 0 :: 0 :: r.
Proof. rewrite <- app_assoc, insert_app_r_alt, Nat.sub_diag by lia. done. Qed.

Lemma buf_add line c x r : <[S (length line) := 0]> (<[length line := c]> (line ++ 0 :: x :: r)) = (line ++ [c]) ++ 0 :: r.
Proof.
  rewrite insert_app_r_alt, Nat.sub_diag by lia. cbn [insert list_insert].
  rewrite insert_app_r_alt by lia. replace (S (length line) - length line)%nat with 1%nat by lia. by rewrite <- app_assoc.
Qed.

Lemma shell_input_run (m : machine) line c :
  editing m line → 0 < c < 256 → c ≠ 10 →
  ∃ b p scr, shell_input sy t1 t2 t3 t4 c m = Some ((), set_screen scr (set_line b p m)) ∧
    editing (set_screen scr (set_line b p m)) (edit line c) ∧ (c ≠ 8 → current_color scr = current_color (m_screen m)) ∧
    ∀ t, shows (m_screen m) t → shows scr (echo (current_color (m_screen m)) t line c).
Proof.
  intros [[r Hr] Hs Hp Hd] Hc Hn. assert (length line ≤ 255)%nat as Hlen.
  { rewrite Hr, length_app in Hs. cbn in Hs. lia. }
  unfold shell_input. rewrite bind_run. cbn [get]. rewrite Hp. unfold edit, echo.
  destruct (Z.eqb_spec c 8) as [->|H8].
  - destruct line as [|x line' _] using rev_ind.
    { exists (command_buffer m), (buffer_pos m), (m_screen m). split; [by destruct m|]. split; [|done].
      split; [by exists r|done|done|done]. }
    rewrite length_app in *. cbn [length] in *. rewrite Z.gtb_ltb. zcase.
    replace (Z.of_nat (length line' + 1) - 1) with (Z.of_nat (length line')) by lia.
    rewrite bind_run. unfold set_pos at 1, modify. rewrite bind_run, buf_write_run by (cbn; lia).
    cbn [set_line command_buffer buffer_pos m_kernel m_ata m_ticks m_screen].
    destruct (backspace_run (m_screen m) Hd) as (s' & Es & Hd' & Hsh).
    unfold on_screen, zoom. cbn [set_line m_screen]. rewrite Es.
    eexists _, _, s'. split; [reflexivity|]. split.
    + rewrite Hr. replace (length line' + 1 - 1)%nat with (length line') by lia. rewrite take_app_length, buf_erase.
      split; cbn; [by eexists| |done|exact Hd'].
      rewrite Hr in Hs. rewrite !length_app in *. cbn in *. lia.
    + split; [done|]. intros t Ht. specialize (Hsh t Ht). by destruct line'.
  - destruct (Z.eqb_spec c 10); [done|]. unfold SHELL_BUFFER_SIZE.
    destruct (Z.ltb_spec (Z.of_nat (length line)) (256 - 1)), (Nat.ltb_spec (length line) 255); try lia.
    + rewrite bind_run, buf_write_run by lia. rewrite bind_run. unfold set_pos at 1, modify.
      cbn [set_line command_buffer buffer_pos m_kernel m_ata m_ticks m_screen].
      replace (Z.of_nat (length line) + 1) with (Z.of_nat (S (length line))) by lia.
      rewrite bind_run, buf_write_run by (cbn; rewrite length_insert; lia).
      cbn [set_line command_buffer buffer_pos m_kernel m_ata m_ticks m_screen].
      rewrite Hr. destruct r as [|x r]; [rewrite Hr, length_app in Hs; cbn in Hs; lia|]. rewrite buf_add.
      match goal with |- context [say [c] ?mm] => destruct (say_run mm [c]) as (scr & Es & P) end; [exact Hd|by constructor|].
      rewrite Es. eexists _, _, scr. split; [reflexivity|]. cbn [set_line m_screen] in P. split.
      * split; cbn; [by eexists| |rewrite length_app; simpl; lia|by eapply prints_displays].
        rewrite Hr in Hs. rewrite !length_app in *. cbn in *. lia.
      * split; [intros _; exact (pr_color _ _ _ P)|exact (pr_shows _ _ _ P)].
    + exists (command_buffer m), (buffer_pos m), (m_screen m). split; [by destruct m|]. split; [|done].
      split; [by exists r|done|done|done].
Qed.
(** The shell's input is a line editor.  With [line] in the buffer, any
    key but Enter leaves exactly the edited line there, terminated and within
    the 256 bytes: a character is added unless the line already has 255,
    backspace removes the last one; the terminal shows the change, and
    nothing else in the machine changes. *)
Theorem shell_input_edits (m : machine) line c :
  editing m line → 0 < c < 256 → c ≠ 10 →
  ∃ m', shell_input sy t1 t2 t3 t4 c m = Some ((), m') ∧ editing m' (edit line c) ∧
    (∀ t, shows (m_screen m) t → shows (m_screen m') (echo (current_color (m_screen m)) t line c)) ∧
    m_kernel m' = m_kernel m ∧ m_ata m' = m_ata m ∧ m_ticks m' = m_ticks m.
Proof.
  intros He Hc Hn. destruct (shell_input_run m line c He Hc Hn) as (b & p & scr & E & He' & _ & Hsh).
  eexists. split; [exact E|]. split; [exact He'|]. split; [exact Hsh|done].
Qed.

(** Enter: the line is executed on the screen after the newline, and then the
    shell reads the next line. *)
Lemma enter_run (m : machine) line :
  editing m line →
  ∃ r scr, command_buffer m = line ++ 0 :: r ∧ prints (m_screen m) scr [10] ∧
    ∀ m2, (if (0 <? length line)%nat then shell_execute sy t1 t2 t3 t4 (line ++ 0 :: r) else mret ()) (set_screen scr m) = Some ((), m2) →
      length (command_buffer m2) = 256%nat → displays (m_screen m2) →
      ∃ m3, shell_input sy t1 t2 t3 t4 10 m = Some ((), m3) ∧ editing m3 [] ∧
        m_kernel m3 = m_kernel m2 ∧ m_ata m3 = m_ata m2 ∧ m_ticks m3 = m_ticks m2.
Proof.
  intros [[r Hr] Hs Hp Hd]. destruct (say_run m [10] Hd) as (scr & Es & P); [by constructor|].
  exists r, scr. split; [exact Hr|]. split; [exact P|]. intros m2 Ex Hb2 Hd2.
  unfold shell_input. rewrite bind_run. cbn [get Z.eqb Pos.eqb]. rewrite bind_run, Es, Hp, bind_run.
  rewrite buf_write_run by (cbn [set_screen command_buffer]; rewrite Hr, length_app; cbn; lia).
  cbn [set_screen command_buffer buffer_pos]. rewrite bind_run. cbn [get].
  assert (set_line (<[length line := 0]> (command_buffer m)) (buffer_pos m) (set_screen scr m) = set_screen scr m) as Eid.
  { rewrite Hr, insert_app_r_alt, Nat.sub_diag by lia. cbn [insert list_insert]. rewrite <- Hr. by destruct m. }
  rewrite Eid. change (command_buffer (set_screen scr m)) with (command_buffer m). rewrite Hr, bind_run.
  assert ((Z.of_nat (length line) >? 0) = (0 <? length line)%nat) as ->.
  { rewrite Z.gtb_ltb. destruct (Z.ltb_spec 0 (Z.of_nat (length line))), (Nat.ltb_spec 0 (length line)); (done || lia). }
  rewrite Ex.
  rewrite bind_run. unfold set_pos, modify. rewrite bind_run.
  rewrite (buf_write_run _ 0 0) by (cbn; lia). cbn [set_line command_buffer buffer_pos m_kernel m_ata m_ticks m_screen].
  match goal with |- context [say ?x ?mm] => destruct (say_run mm x) as (scr2 & Es2 & P2) end; [exact Hd2|by repeat constructor|].
  rewrite Es2. eexists. split; [reflexivity|]. split; [|done]. split; cbn.
  - destruct (command_buffer m2) as [|x b]; [done|]. by exists b.
  - by rewrite length_insert.
  - done.
  - by eapply prints_displays.
Qed.
End editor.

(** ** Keys *)

Definition find_code (P : Z → bool) : option Z := (λ x, Z.of_nat (fst x)) <$> list_find (λ a, Is_true (P a)) scancode_to_ascii.

(** The scan codes for a character: press and release, between those of the
    shift key if it is needed. *)
Definition type_char (c : Z) : list Z :=
  match find_code (λ a, a =? c) with
  | Some i => [i; i + 128]
  | None =>
      match find_code (λ a, apply_shift a =? c) with
      | Some i => [KEY_LSHIFT; i; i + 128; KEY_LSHIFT + 128]
      | None => []
      end
  end.

Definition type_text (text : list Z) : list Z := concat (type_char <$> text).

Definition printable (c : Z) : Prop := 32 ≤ c ≤ 126.

(** A key that stands for a character. *)
Definition char_key (i a : Z) : bool :=
  bool_decide (scancode_to_ascii !! Z.to_nat i = Some a) && negb (a =? 0) &&
  (0 <=? i) && (i <? 128) && negb (i =? KEY_LSHIFT) && negb (i =? KEY_RSHIFT) && negb (i =? 0x3B).

(** Every printable character has such codes. *)
Definition typable (c : Z) : bool :=
  match find_code (λ a, a =? c) with
  | Some i => char_key i c
  | None =>
      match find_code (λ a, apply_shift a =? c) with
      | Some i => match scancode_to_ascii !! Z.to_nat i with Some a => char_key i a && (apply_shift a =? c) | None => false end
      | None => false
      end
  end.

Lemma printable_typable c : printable c → typable c = true.
Proof.
  intros Hc. assert (forallb typable (seqZ 32 95) = true) as Hall by (vm_compute; reflexivity).
  rewrite forallb_forall in Hall. apply Hall, list_elem_of_In, elem_of_seqZ. unfold printable in Hc. lia.
Qed.

(** The two codes of a key. *)
Lemma key_bits i : 0 ≤ i < 128 →
  truth (Z.land i 0x80) = false ∧ truth (Z.land (i + 128) 0x80) = true ∧ Z.land (i + 128) 0x7F = i.
Proof.
  intros Hi. set (f := λ i, negb (truth (Z.land i 0x80)) && truth (Z.land (i + 128) 0x80) && (Z.land (i + 128) 0x7F =? i)).
  assert (forallb f (seqZ 0 128) = true) as Hall by (vm_compute; reflexivity).
  rewrite forallb_forall in Hall. specialize (Hall i). unfold f in Hall.
  rewrite !andb_true_iff, negb_true_iff, Z.eqb_eq in Hall.
  destruct Hall as [[? ?] ?]; [|done]. apply list_elem_of_In, elem_of_seqZ. lia.
Qed.

Section typing.
Context {D H : Type} `{BlockDev D} (sy : symbols).
Context (t1 t2 t3 t4 : M (io (kernel D)) ()).
Abbreviation machine := (machine D H).
Abbreviation handler := (keyboard_handler sy t1 t2 t3 t4).
Abbreviation press := (keys sy t1 t2 t3 t4).

Lemma press_key i a (m : machine) sh :
  char_key i a = true →
  handler i (Keyboard m sh) =
    match shell_input sy t1 t2 t3 t4 (if truth sh then apply_shift a else a) m with
    | Some (x, m') => Some (x, Keyboard m' sh) | None => None end ∧
  handler (i + 128) (Keyboard m sh) = Some ((), Keyboard m sh).
Proof.
  unfold char_key. rewrite !andb_true_iff, !negb_true_iff, !Z.eqb_neq, bool_decide_eq_true, Z.leb_le, Z.ltb_lt.
  intros ((((((Hi & Ha) & H1) & H2) & Hl) & Hr) & Hf). destruct (key_bits i ltac:(lia)) as (E1 & E2 & E3). unfold keyboard_handler. split.
  - rewrite E1. apply Z.eqb_neq in Hl, Hr, Hf, Ha. rewrite Hl, Hr, Hf. cbn [orb]. rewrite bind_run, Hi. cbn [of_option]. rewrite Ha. done.
  - rewrite E2, E3. apply Z.eqb_neq in Hl, Hr. by rewrite Hl, Hr.
Qed.

Lemma press_app a b (k : keyboard D H) : press (a ++ b) k = (press a ;; press b) k.
Proof.
  revert k. induction a as [|c a IH]; intros k; [done|]. cbn [app keys]. rewrite !bind_run.
  destruct (handler c k) as [[[] k']|]; [|done]. by rewrite IH, bind_run.
Qed.

(** Typing a character is the same as giving it to the shell. *)
Lemma type_char_run c (m m' : machine) :
  printable c → shell_input sy t1 t2 t3 t4 c m = Some ((), m') →
  press (type_char c) (Keyboard m 0) = Some ((), Keyboard m' 0).
Proof.
  intros Hc E. pose proof (printable_typable c Hc) as Ht. unfold typable in Ht. unfold type_char.
  destruct (find_code (λ a, a =? c)) as [i|].
  - destruct (press_key i c m 0 Ht) as [E1 _]. destruct (press_key i c m' 0 Ht) as [_ E2].
    cbn [keys]. rewrite bind_run, E1. change (truth 0) with false. cbv iota. rewrite E. rewrite bind_run, E2. done.
  - destruct (find_code (λ a, apply_shift a =? c)) as [i|]; [|done].
    destruct (scancode_to_ascii !! Z.to_nat i) as [a|]; [|done]. apply andb_true_iff in Ht as [Ht Hs%Z.eqb_eq].
    destruct (press_key i a m 1 Ht) as [E1 _]. destruct (press_key i a m' 1 Ht) as [_ E2].
    cbn [keys]. rewrite bind_run. change (handler KEY_LSHIFT (Keyboard m 0)) with (Some ((), Keyboard m 1)). cbv iota beta.
    rewrite bind_run, E1. change (truth 1) with true. cbv iota. rewrite Hs, E. rewrite bind_run, E2. cbv iota beta. done.
Qed.

Lemma type_text_run text (m : machine) line :
  editing m line → Forall printable text → (length line + length text ≤ 255)%nat →
  ∃ b p scr, press (type_text text) (Keyboard m 0) = Some ((), Keyboard (set_screen scr (set_line b p m)) 0) ∧
    editing (set_screen scr (set_line b p m)) (line ++ text) ∧
    current_color scr = current_color (m_screen m) ∧
    ∀ t, shows (m_screen m) t → shows scr (term_print (current_color (m_screen m)) t text).
Proof.
  intros He Ht Hl. revert m line He Hl. induction Ht as [|c text Hc Ht IH]; intros m line He Hl.
  - exists (command_buffer m), (buffer_pos m), (m_screen m). rewrite app_nil_r.
    split_and!; [by destruct m|by destruct m, He|done|done].
  - unfold printable in Hc. cbn [length] in Hl.
    destruct (shell_input_run sy t1 t2 t3 t4 m line c He) as (b & p & scr & E & He1 & Hcol & Hsh); [lia|lia|].
    unfold edit in He1. destruct (Z.eqb_spec c 8); [lia|]. destruct (Nat.ltb_spec (length line) 255); [|lia].
    destruct (IH _ _ He1) as (b2 & p2 & scr2 & E2 & He2 & Hcol2 & Hsh2); [rewrite length_app; simpl; lia|].
    specialize (Hcol n). cbn [set_screen set_line m_screen] in *.
    exists b2, p2, scr2. split_and!.
    + unfold type_text. cbn [fmap list_fmap concat]. rewrite press_app, bind_run, (type_char_run c m _ ltac:(done) E). exact E2.
    + by rewrite <- app_assoc in He2.
    + congruence.
    + intros t Hs. specialize (Hsh t Hs). unfold echo in Hsh. destruct (Z.eqb_spec c 8); [lia|].
      destruct (Nat.ltb_spec (length line) 255); [|lia]. rewrite Hcol in Hsh2. exact (Hsh2 _ Hsh).
Qed.

(** C39: A line typed on the keyboard is the line the shell executes.  For
    any printable ASCII text of at most 255 characters there are scan codes
    (press, release, shift where needed) that put exactly this text into the
    buffer and on the screen; the Enter key then runs [shell_execute] on it,
    terminated, and afterwards the shell is ready for the next line with the
    effects of the command in the kernel. *)
Theorem typed_line_executes (m : machine) text :
  editing m [] → Forall printable text → (0 < length text ≤ 255)%nat →
  ∃ r m1, editing m1 text ∧ m_kernel m1 = m_kernel m ∧
    press (type_text text) (Keyboard m 0) = Some ((), Keyboard m1 0) ∧
    (∀ t, shows (m_screen m) t → shows (m_screen m1) (term_print (current_color (m_screen m)) t text)) ∧
    ∃ scr, prints (m_screen m1) scr [10] ∧
      ∀ m2, shell_execute sy t1 t2 t3 t4 (text ++ 0 :: r) (set_screen scr m1) = Some ((), m2) →
        length (command_buffer m2) = 256%nat → displays (m_screen m2) →
        ∃ m3, press (type_text text ++ [0x1C]) (Keyboard m 0) = Some ((), Keyboard m3 0) ∧
          editing m3 [] ∧ m_kernel m3 = m_kernel m2.
Proof.
  intros He Ht Hl. destruct (type_text_run text m [] He Ht) as (b & p & scr & E & He1 & _ & Hsh); [cbn; lia|].
  cbn [app] in He1. set (m1 := set_screen scr (set_line b p m)) in *.
  destruct (enter_run sy t1 t2 t3 t4 m1 text He1) as (r & scr1 & Hr & P & Hx).
  destruct (Nat.ltb_spec 0 (length text)) as [_|]; [|lia].
  exists r, m1. split_and!; [done|done|exact E|exact Hsh|]. exists scr1. split; [exact P|].
  intros m2 Ex Hb Hd. destruct (Hx m2 Ex Hb Hd) as (m3 & E3 & He3 & Hk & _). exists m3. split; [|done].
  rewrite press_app, bind_run, E. cbn [keys]. rewrite bind_run.
  destruct (press_key 0x1C 10 m1 0) as [Ek _]; [vm_compute; reflexivity|]. rewrite Ek. change (truth 0) with false. cbv iota.
  by rewrite E3.
Qed.
End typing.

(** ** Examples *)

Lemma demo_editing : editing (demo_machine unmounted) [].
Proof. split; [by exists (replicate 255 0)|done|done|]. exists blank_terminal. apply blank_shows. Qed.

Lemma shell_input_edits_witness :
  ∃ m', shell_input demo_symbols no_test no_test no_test no_test 97 (demo_machine unmounted) = Some ((), m') ∧ editing m' [97].
Proof.
  destruct (shell_input_edits demo_symbols no_test no_test no_test no_test (demo_machine unmounted) [] 97 demo_editing)
    as (m' & E & He & _); [lia|lia|]. exists m'. split; [exact E|exact He].
Defined.

Lemma typed_line_executes_witness :
  ∃ m1, keys demo_symbols no_test no_test no_test no_test (type_text (str "echo Hi!")) (Keyboard (demo_machine unmounted) 0) =
      Some ((), Keyboard m1 0) ∧ editing m1 (str "echo Hi!").
Proof.
  destruct (typed_line_executes demo_symbols no_test no_test no_test no_test (demo_machine unmounted) (str "echo Hi!") demo_editing)
    as (r & m1 & He & _ & E & _); [repeat constructor; cbn; discriminate|cbn; lia|].
  exists m1. split; [exact E|exact He].
Defined.
