(* ===== verification/Descriptors.v ===== *)
(** * kernel/arch/gdt.c, tss.c and idt.c: descriptor tables

    The descriptors in their packed hardware format, and how the processor
    reads them.  The addresses of the tables and of the assembly stubs are
    parameters: the linker chooses them. *)

From S2P Require Import Prelude.

Open Scope Z_scope.
Open Scope c_scope.

(** ** Segments *)

Definition GDT_ENTRIES : nat := 6.
Definition GDT_KERNEL_CODE_SEG : Z := 0x08.
Definition GDT_KERNEL_DATA_SEG : Z := 0x10.

Record gdt_entry := GdtEntry {
  limit_low : Z;
  base_low : Z;
  base_middle : Z;
  access : Z;
  granularity : Z;
  base_high : Z
}.

Abbreviation gdt_table := (list gdt_entry).

Definition gdt_set_gate (num : nat) (base limit acc gran : Z) : M gdt_table () :=
  g ← get;
  if (num <? length g)%nat then
    put (<[num := GdtEntry (Z.land limit 0xFFFF) (Z.land base 0xFFFF) (Z.land (Z.shiftr base 16) 0xFF) acc
                    (Z.lor (Z.land (Z.shiftr limit 16) 0x0F) (Z.land gran 0xF0)) (Z.land (Z.shiftr base 24) 0xFF)]> g)
  else fault.

(** The entry of tss.c to the table. *)
Definition gdt_set_gate_ext (num : nat) (base limit acc gran : Z) : M gdt_table () := gdt_set_gate num base limit acc gran.

Definition gdt_init : M gdt_table () :=
  gdt_set_gate 0 0 0 0 0 ;;
  gdt_set_gate 1 0 0xFFFFFFFF 0x9A 0xCF ;;
  gdt_set_gate 2 0 0xFFFFFFFF 0x92 0xCF ;;
  gdt_set_gate 3 0 0xFFFFFFFF 0xFA 0xCF ;;
  gdt_set_gate 4 0 0xFFFFFFFF 0xF2 0xCF ;;
  gdt_set_gate 5 0 0 0 0.

(** The fields of the TSS the kernel uses; all others are zero. *)
Record tss_entry := Tss { t_ss0 : Z; t_esp0 : Z; iomap_base : Z }.
Definition sizeof_tss : Z := 104.

Definition tss_init (tss_address kernel_ss kernel_esp : Z) : M (tss_entry * gdt_table) () :=
  modify (λ s, (Tss kernel_ss kernel_esp sizeof_tss, snd s)) ;;
  zoom snd (λ g s, (fst s, g)) (gdt_set_gate_ext 5 tss_address (sizeof_tss - 1) 0xE9 0x00).

(** ** Gates *)

Definition IDT_ENTRIES : nat := 256.
Definition KERNEL_CODE_SEG : Z := 0x08.
Definition IDT_FLAG_PRESENT : Z := 0x80.
Definition IDT_FLAG_RING0 : Z := 0x00.
Definition IDT_FLAG_GATE_INT : Z := 0x0E.

Record gate := Gate {
  offset_1 : Z;
  g_selector : Z;
  g_zero : Z;
  type_attributes : Z;
  offset_2 : Z
}.

Abbreviation idt_table := (list gate).

Definition idt_set_gate (num handler selector flags : Z) : M idt_table () :=
  t ← get;
  let n := Z.to_nat (u8 num) in
  if (n <? length t)%nat then
    put (<[n := Gate (Z.land handler 0xFFFF) selector 0 flags (Z.land (Z.shiftr handler 16) 0xFFFF)]> t)
  else fault.

(** [stub i] is the address of isr0..isr31 and, from 32 on, of irq0..irq15. *)
Definition idt_init (stub : Z → Z) : M idt_table () :=
  for_loop IDT_ENTRIES 0 (λ i, idt_set_gate i 0 0 0) ;;
  let flags := Z.lor (Z.lor IDT_FLAG_PRESENT IDT_FLAG_RING0) IDT_FLAG_GATE_INT in
  for_loop 32 0 (λ i, idt_set_gate i (stub i) KERNEL_CODE_SEG flags) ;;
  for_loop 16 32 (λ i, idt_set_gate i (stub i) KERNEL_CODE_SEG flags).

(** The gate of [syscall_init]. *)
Definition syscall_gate (syscall_stub : Z) : M idt_table () := idt_set_gate 0x80 syscall_stub 0x08 0xEF.

(** ** What the processor reads *)

Definition seg_base (e : gdt_entry) : Z := base_low e + 65536 * base_middle e + 16777216 * base_high e.
Definition seg_limit (e : gdt_entry) : Z :=
  let l := limit_low e + 65536 * (granularity e mod 16) in
  if Z.testbit (granularity e) 7 then 4096 * l + 4095 else l.
Definition seg_present (e : gdt_entry) : bool := Z.testbit (access e) 7.
Definition seg_dpl (e : gdt_entry) : Z := access e / 32 mod 4.
Definition seg_code (e : gdt_entry) : bool := Z.testbit (access e) 4 && Z.testbit (access e) 3.

Definition gate_offset (g : gate) : Z := offset_1 g + 65536 * offset_2 g.
Definition gate_present (g : gate) : bool := Z.testbit (type_attributes g) 7.
Definition gate_dpl (g : gate) : Z := type_attributes g / 32 mod 4.

(** The segment a selector names. *)
Definition selected_entry (g : gdt_table) (sel : Z) : option gdt_entry := g !! Z.to_nat (sel / 8).

(** ** Theorems *)

Lemma split_word x n m : 0 ≤ n → 0 ≤ m → Z.land (Z.shiftr x n) (Z.ones m) = x / 2 ^ n mod 2 ^ m.
Proof. intros Hn Hm. by rewrite Z.land_ones, Z.shiftr_div_pow2. Qed.

Lemma bytes_of_word x : 0 ≤ x < 4294967296 →
  Z.land x 0xFFFF + 65536 * Z.land (Z.shiftr x 16) 0xFF + 16777216 * Z.land (Z.shiftr x 24) 0xFF = x.
Proof.
  intros Hx. change 0xFFFF with (Z.ones 16). change 0xFF with (Z.ones 8). rewrite !split_word, Z.land_ones by lia.
  change (2 ^ 16) with 65536. change (2 ^ 8) with 256. change (2 ^ 24) with 16777216.
  pose proof (Z.div_mod x 65536). pose proof (Z.div_mod (x / 65536) 256).
  replace (x / 16777216) with (x / 65536 / 256) by (rewrite Z.div_div by lia; done).
  assert (0 ≤ x / 65536 / 256 < 256).
  { rewrite Z.div_div by lia. split; [apply Z.div_pos; lia|apply Z.div_lt_upper_bound; lia]. }
  rewrite (Z.mod_small (x / 65536 / 256)) by lia. lia.
Qed.

(** A descriptor holds the base address it was given, whatever the rest. *)
Theorem gdt_set_gate_base g num base limit acc gran :
  (num < length g)%nat → 0 ≤ base < 4294967296 →
  ∃ g' e, gdt_set_gate num base limit acc gran g = Some ((), g') ∧ g' !! num = Some e ∧ seg_base e = base ∧ access e = acc ∧
    ∀ i, i ≠ num → g' !! i = g !! i.
Proof.
  intros Hn Hb. unfold gdt_set_gate. rewrite bind_run. cbn [get]. destruct (Nat.ltb_spec num (length g)); [|lia].
  eexists _, _. split; [reflexivity|]. split; [by apply list_lookup_insert_eq|]. split; [by apply bytes_of_word|]. split; [done|].
  intros i Hi. by apply list_lookup_insert_ne.
Qed.

(** The four segments after [gdt_init]: flat 4 GB code and data segments for
    rings 0 and 3, each reached by the selector the kernel uses for it. *)
Theorem gdt_init_flat g g' :
  length g = GDT_ENTRIES → gdt_init g = Some ((), g') →
  ∀ sel ring code, (sel, ring, code) ∈ [(0x08, 0, true); (0x10, 0, false); (0x1B, 3, true); (0x23, 3, false)] →
  ∃ e, selected_entry g' sel = Some e ∧ seg_present e = true ∧ seg_base e = 0 ∧ seg_limit e = 0xFFFFFFFF ∧
       seg_dpl e = ring ∧ seg_code e = code ∧ sel mod 4 = ring.
Proof.
  intros Hl E sel ring code Hin. do 7 (destruct g as [|? g]; try discriminate Hl). vm_compute in E. injection E as <-.
  rewrite !elem_of_cons, elem_of_nil in Hin. destruct Hin as [Hin|[Hin|[Hin|[Hin|[]]]]]; injection Hin as -> -> ->;
    (eexists; split; [reflexivity|]; vm_compute; split_and!; reflexivity).
Qed.

(** *** The interrupt table *)

Lemma set_gate_run t i h s f :
  length t = 256%nat → 0 ≤ i < 256 →
  idt_set_gate i h s f t = Some ((), <[Z.to_nat i := Gate (Z.land h 0xFFFF) s 0 f (Z.land (Z.shiftr h 16) 0xFFFF)]> t).
Proof.
  intros Hl Hi. unfold idt_set_gate. rewrite bind_run. cbn [get]. rewrite u8_small by lia.
  destruct (Nat.ltb_spec (Z.to_nat i) (length t)); [done|lia].
Qed.

Definition the_gate (h s f : Z) : gate := Gate (Z.land h 0xFFFF) s 0 f (Z.land (Z.shiftr h 16) 0xFFFF).

(** A loop that sets the gates of a range. *)
Lemma set_gates_run n i t (h : Z → Z) s f :
  length t = 256%nat → 0 ≤ i → i + Z.of_nat n ≤ 256 →
  ∃ t', for_loop n i (λ j, idt_set_gate j (h j) s f) t = Some ((), t') ∧ length t' = 256%nat ∧
    ∀ k, 0 ≤ k < 256 → t' !! Z.to_nat k = if (i <=? k) && (k <? i + Z.of_nat n) then Some (the_gate (h k) s f) else t !! Z.to_nat k.
Proof.
  intros Hl Hi Hn.
  destruct (for_loop_inv (λ j t', length t' = 256%nat ∧ ∀ k, 0 ≤ k < 256 →
      t' !! Z.to_nat k = if (i <=? k) && (k <? j) then Some (the_gate (h k) s f) else t !! Z.to_nat k)
    (λ j, idt_set_gate j (h j) s f) n i t) as (t' & E & Hl' & Ht').
  - intros j t1 Hj [Hl1 Ht1]. rewrite set_gate_run by (done || lia). eexists. split; [reflexivity|].
    split; [by rewrite length_insert|]. intros k Hk. destruct (Z.eq_dec k j) as [->|Hne].
    + rewrite list_lookup_insert_eq by lia. repeat zcase. done.
    + rewrite list_lookup_insert_ne by lia. rewrite Ht1 by done. repeat zcase; done.
  - split; [done|]. intros k Hk. repeat zcase; done.
  - exists t'. split; [exact E|]. done.
Qed.

Lemma gate_offset_of h s f : 0 ≤ h < 4294967296 → gate_offset (the_gate h s f) = h.
Proof.
  intros Hh. unfold gate_offset, the_gate. cbn [offset_1 offset_2]. change 0xFFFF with (Z.ones 16).
  rewrite split_word, Z.land_ones by lia. change (2 ^ 16) with 65536. pose proof (Z.div_mod h 65536).
  rewrite (Z.mod_small (h / 65536)); [lia|]. split; [apply Z.div_pos; lia|apply Z.div_lt_upper_bound; lia].
Qed.

(** The table after [idt_init] and [syscall_init]. *)
Definition gates_set (stub : Z → Z) (syscall_stub : Z) (t : idt_table) : Prop :=
  length t = IDT_ENTRIES ∧
  ∀ n, 0 ≤ n < 256 → ∃ g, t !! Z.to_nat n = Some g ∧
    gate_present g = (n <? 48) || (n =? 0x80) ∧
    (gate_present g = true →
       gate_offset g = (if n =? 0x80 then syscall_stub else stub n) ∧ g_selector g = KERNEL_CODE_SEG ∧
       (gate_dpl g = 3 ↔ n = 0x80)).

Lemma idt_run t stub syscall_stub :
  length t = IDT_ENTRIES → (∀ i, 0 ≤ stub i < 4294967296) → 0 ≤ syscall_stub < 4294967296 →
  ∃ t3 t', idt_init stub t = Some ((), t3) ∧ syscall_gate syscall_stub t3 = Some ((), t') ∧
    gates_set stub syscall_stub t'.
Proof.
  intros Hl Hs Hy. unfold idt_init. change IDT_ENTRIES with 256%nat in *.
  change (Z.lor (Z.lor IDT_FLAG_PRESENT IDT_FLAG_RING0) IDT_FLAG_GATE_INT) with 0x8E. cbv zeta.
  destruct (set_gates_run 256 0 t (λ _, 0) 0 0 Hl) as (t1 & E1 & L1 & H1); [lia|lia|].
  destruct (set_gates_run 32 0 t1 stub KERNEL_CODE_SEG 0x8E L1) as (t2 & E2 & L2 & H2); [lia|lia|].
  destruct (set_gates_run 16 32 t2 stub KERNEL_CODE_SEG 0x8E L2) as (t3 & E3 & L3 & H3); [lia|lia|].
  exists t3, (<[128%nat := the_gate syscall_stub 8 0xEF]> t3). split; [|split; [|split; [by rewrite length_insert|]]].
  { rewrite bind_run, E1. by rewrite bind_run, E2, E3. }
  { by apply (set_gate_run t3 0x80). }
  intros n Hn. destruct (Z.eq_dec n 128) as [->|Hne].
  - exists (the_gate syscall_stub 8 0xEF). split; [apply list_lookup_insert_eq; lia|]. split; [done|]. intros _.
    split; [by apply gate_offset_of|]. done.
  - rewrite list_lookup_insert_ne by lia. rewrite H3, H2, H1 by done. destruct (Z.eqb_spec n 128); [done|].
    destruct (Z.ltb_spec n 48).
    + exists (the_gate (stub n) KERNEL_CODE_SEG 0x8E).
      split; [repeat zcase; done|]. split; [done|]. intros _. split; [by apply gate_offset_of|]. split; [done|]. split; [done|lia].
    + exists (the_gate 0 0 0). split; [repeat zcase; done|]. split; [done|]. done.
Qed.

(** The only way into the kernel a user program has is interrupt 0x80.
    After [idt_init] and [syscall_init], for any addresses of the stubs:
    exactly the vectors 0 to 47 and 0x80 are present, each leads to its own
    stub in the kernel's code segment, and only 0x80 may be raised by ring 3
    code. *)
Theorem idt_only_syscall_for_users t stub syscall_stub :
  length t = IDT_ENTRIES → (∀ i, 0 ≤ stub i < 4294967296) → 0 ≤ syscall_stub < 4294967296 →
  ∃ t', (idt_init stub ;; syscall_gate syscall_stub) t = Some ((), t') ∧ length t' = IDT_ENTRIES ∧
    ∀ n, 0 ≤ n < 256 → ∃ g, t' !! Z.to_nat n = Some g ∧
      gate_present g = (n <? 48) || (n =? 0x80) ∧
      (gate_present g = true →
         gate_offset g = (if n =? 0x80 then syscall_stub else stub n) ∧ g_selector g = KERNEL_CODE_SEG ∧
         (gate_dpl g = 3 ↔ n = 0x80)).
Proof.
  intros Hl Hs Hy. destruct (idt_run t stub syscall_stub Hl Hs Hy) as (t3 & t' & E & E' & Hg).
  exists t'. rewrite bind_run, E. by split.
Qed.

Lemma idt_only_syscall_for_users_witness :
  ∃ t', (idt_init (λ i, 0x100000 + 16 * (i mod 256)) ;; syscall_gate 0x102000) (replicate 256 (Gate 0 0 0 0 0)) = Some ((), t') ∧
    length t' = IDT_ENTRIES.
Proof.
  destruct (idt_only_syscall_for_users (replicate 256 (Gate 0 0 0 0 0)) (λ i, 0x100000 + 16 * (i mod 256)) 0x102000)
    as (t' & E & Hl & _); [reflexivity| |lia|].
  - intros i. pose proof (Z.mod_pos_bound i 256). lia.
  - exists t'. split; [exact E|exact Hl].
Defined.
