(* ===== verification/Interrupts.v ===== *)
(** * kernel/arch/pic.c, pit.c, isr.c, irq.c and the page fault handler

    The interrupt controllers and the timer chip are reached through ports;
    the reference chips of this file say what the writes mean.  The handler
    table maps vectors to code; a handler that never returns gives
    [Stopped]. *)

From S2P Require Import Prelude KString KStdio Console Pmm Memory Paging Sched Task KPrintf Block SimpleFS Klog Syscall Ports.

Open Scope Z_scope.
Open Scope c_scope.

(** ** pic.c *)

Definition PIC1_COMMAND : Z := 0x20.
Definition PIC1_DATA : Z := 0x21.
Definition PIC2_COMMAND : Z := 0xA0.
Definition PIC2_DATA : Z := 0xA1.
Definition ICW1_INIT : Z := 0x10.
Definition ICW1_ICW4 : Z := 0x01.
Definition ICW4_8086 : Z := 0x01.
Definition PIC_EOI : Z := 0x20.

Section pic.
Context {H : Type} `{PortIO H}.

Definition pic_remap (offset1 offset2 : Z) : M H () :=
  mask1 ← port_byte_in PIC1_DATA;
  mask2 ← port_byte_in PIC2_DATA;
  port_byte_out PIC1_COMMAND (Z.lor ICW1_INIT ICW1_ICW4) ;;
  io_wait ;;
  port_byte_out PIC2_COMMAND (Z.lor ICW1_INIT ICW1_ICW4) ;;
  io_wait ;;
  port_byte_out PIC1_DATA offset1 ;;
  io_wait ;;
  port_byte_out PIC2_DATA offset2 ;;
  io_wait ;;
  port_byte_out PIC1_DATA 0x04 ;;
  io_wait ;;
  port_byte_out PIC2_DATA 0x02 ;;
  io_wait ;;
  port_byte_out PIC1_DATA ICW4_8086 ;;
  io_wait ;;
  port_byte_out PIC2_DATA ICW4_8086 ;;
  io_wait ;;
  port_byte_out PIC1_DATA 0x00 ;;
  port_byte_out PIC2_DATA 0x00.

Definition pic_send_eoi (irq : Z) : M H () :=
  (if irq >=? 8 then port_byte_out PIC2_COMMAND PIC_EOI else mret ()) ;;
  port_byte_out PIC1_COMMAND PIC_EOI.

(** The port and the line on its chip. *)
Definition irq_line (irq : Z) : Z * Z := if irq <? 8 then (PIC1_DATA, irq) else (PIC2_DATA, u8 (irq - 8)).

Definition irq_clear_mask (irq : Z) : M H () :=
  let port := fst (irq_line irq) in
  let line := snd (irq_line irq) in
  v ← port_byte_in port;
  port_byte_out port (Z.land v (Z.lnot (Z.shiftl 1 line))) ;;
  port_byte_out 0xE9 85 ;;
  port_byte_out 0xE9 (48 + line).

Definition irq_set_mask (irq : Z) : M H () :=
  let port := fst (irq_line irq) in
  let line := snd (irq_line irq) in
  v ← port_byte_in port;
  port_byte_out port (Z.lor v (Z.shiftl 1 line)).

(** ** pit.c *)

Definition PIT_CHANNEL0_DATA : Z := 0x40.
Definition PIT_COMMAND : Z := 0x43.

(** A frequency of 0 divides by zero. *)
Definition pit_divisor (frequency : Z) : option Z :=
  if frequency =? 0 then None
  else
    let divisor := 1193182 / frequency in
    let divisor := if divisor >? 0xFFFF then 0xFFFF else divisor in
    Some (if divisor <? 1 then 1 else divisor).

Definition pit_init (frequency : Z) : M H () :=
  divisor ← of_option (pit_divisor frequency);
  let command := Z.lor (Z.lor (Z.lor 0x00 0x30) 0x06) 0x00 in
  port_byte_out PIT_COMMAND command ;;
  port_byte_out PIT_CHANNEL0_DATA (u8 (Z.land divisor 0xFF)) ;;
  port_byte_out PIT_CHANNEL0_DATA (u8 (Z.land (Z.shiftr divisor 8) 0xFF)).
End pic.

(** ** isr.c and irq.c *)

Definition exception_messages : list (list Z) :=
  [str "Division By Zero"; str "Debug"; str "Non Maskable Interrupt"; str "Breakpoint"; str "Overflow";
   str "Bound Range Exceeded"; str "Invalid Opcode"; str "Device Not Available"; str "Double Fault";
   str "Coprocessor Segment Overrun"; str "Invalid TSS"; str "Segment Not Present"; str "Stack-Segment Fault";
   str "General Protection Fault"; str "Page Fault"; str "Reserved"; str "x87 Floating-Point Exception";
   str "Alignment Check"; str "Machine Check"; str "SIMD Floating-Point Exception"; str "Virtualization Exception";
   str "Control Protection Exception"; str "Reserved"; str "Reserved"; str "Reserved"; str "Reserved"; str "Reserved";
   str "Reserved"; str "Reserved"; str "VMM Communication Exception"; str "Security Exception"; str "Reserved"].

(** [interrupt_handlers]: 256 function pointers, [None] for 0. *)
Abbreviation handlers := (list (option (registers_t → handler ()))).

Definition register_interrupt_handler (n : Z) (h : registers_t → handler ()) : M handlers () :=
  modify (λ t, <[Z.to_nat (u8 n) := Some h]> t).

(** [kprint(label); kprint_hex(v)] *)
Definition print_reg (label : list Z) (v : Z) : M (io sys) () := kprint label ;; kprint_hex v.

(** What the default handler prints before it halts. *)
Definition exception_report (regs : registers_t) : M (io sys) () :=
  os_in_sys (quiet cli) ;;
  kprint ([10] ++ str "========== CPU EXCEPTION ==========" ++ [10]) ;;
  kprint (str "Exception: ") ;;
  (if int_no regs <? 32 then
     name ← of_option (exception_messages !! Z.to_nat (int_no regs)); kprint name
   else mret ()) ;;
  print_reg (str " (") (int_no regs) ;;
  kprint (str ")" ++ [10]) ;;
  print_reg (str "Error Code: ") (err_code regs) ;;
  kprint [10] ;;
  print_reg (str "EIP: ") (r_eip regs) ;;
  print_reg (str "  CS: ") (r_cs regs) ;;
  kprint [10] ;;
  print_reg (str "EFLAGS: ") (r_eflags regs) ;;
  kprint [10] ;;
  print_reg (str "EAX: ") (r_eax regs) ;;
  print_reg (str "  EBX: ") (r_ebx regs) ;;
  kprint [10] ;;
  print_reg (str "ECX: ") (r_ecx regs) ;;
  print_reg (str "  EDX: ") (r_edx regs) ;;
  kprint [10] ;;
  print_reg (str "ESP: ") (r_esp regs) ;;
  print_reg (str "  EBP: ") (r_ebp regs) ;;
  kprint [10] ;;
  print_reg (str "ESI: ") (r_esi regs) ;;
  print_reg (str "  EDI: ") (r_edi regs) ;;
  kprint [10] ;;
  print_reg (str "DS: ") (r_ds regs) ;;
  kprint [10] ;;
  kprint (str "====================================" ++ [10]) ;;
  kprint (str "System Halted." ++ [10]).

(** Code that never returns. *)
Definition stops {A} (c : M (io sys) ()) : handler A := λ s,
  match c s with Some (_, s') => Some (Stopped s') | None => None end.

Definition isr_handler (interrupt_handlers : handlers) (regs : registers_t) : handler () := λ s,
  match interrupt_handlers !! Z.to_nat (int_no regs) with
  | Some (Some h) => h regs s
  | Some None => stops (exception_report regs) s
  | None => None
  end.

(** The controllers are not part of [sys]: the result is the state of the
    controllers, acknowledged, in which the handler runs, and its outcome. *)
Definition irq_handler {H} `{PortIO H} (interrupt_handlers : handlers) (regs : registers_t) (h : H) (s : io sys)
    : option (H * outcome ()) :=
  let irq := u8 (int_no regs - 32) in
  match pic_send_eoi irq h with
  | Some (_, h') =>
      match interrupt_handlers !! Z.to_nat (int_no regs) with
      | Some (Some f) => match f regs s with Some o => Some (h', o) | None => None end
      | Some None => Some (h', Done () s)
      | None => None
      end
  | None => None
  end.

(** ** page_fault_handler (paging.c) *)

(** [uitoa(v, hex_buf, 16); kprint(hex_buf)] after the label. *)
Definition print_hex16 (label : list Z) (v : Z) : M (io sys) () :=
  kprint label ;;
  hex_buf ← of_option (uitoa v 16);
  kprint hex_buf ;;
  kprint [10].

Definition fault_report (faulting_addr : Z) (regs : registers_t) : M (io sys) () :=
  let bit k := truth (Z.land (err_code regs) k) in
  os_in_sys (quiet cli) ;;
  kprint ([10] ++ str "!!! PAGE FAULT !!!" ++ [10]) ;;
  print_hex16 (str "  Faulting address: 0x") faulting_addr ;;
  kprint (str "  Cause: ") ;;
  kprint (if negb (bit 0x1) then str "page not present" else str "protection violation") ;;
  kprint (if bit 0x2 then str " | write" else str " | read") ;;
  kprint (if bit 0x4 then str " | user-mode" else str " | supervisor-mode") ;;
  (if bit 0x8 then kprint (str " | reserved-bit") else mret ()) ;;
  (if bit 0x10 then kprint (str " | instruction-fetch") else mret ()) ;;
  kprint [10] ;;
  print_hex16 (str "  EIP: 0x") (r_eip regs) ;;
  print_hex16 (str "  Error code: 0x") (err_code regs).

Definition fault_user (faulting_addr : Z) (regs : registers_t) : M (io sys) () :=
  name ← current_name;
  log_in_sys (klog_error (str "PAGE FAULT addr=0x%x eip=0x%x err=0x%x task='%s' [user] -> killed" ++ [0])
    [VInt faulting_addr; VInt (r_eip regs); VInt (err_code regs); VStr (Some (default (str "?" ++ [0]) name))]) ;;
  kprint (str "  -> Killing user task '") ;;
  (match name with
   | Some n => text ← of_option (cstr n); kprint text
   | None => mret ()
   end : M (io sys) ()) ;;
  kprint (str "'" ++ [10]) ;;
  os_in_sys (quiet task_exit).

Definition fault_kernel (faulting_addr : Z) (regs : registers_t) : M (io sys) () :=
  log_in_sys (klog_error (str "PAGE FAULT addr=0x%x eip=0x%x err=0x%x [kernel] -> halted" ++ [0])
    [VInt faulting_addr; VInt (r_eip regs); VInt (err_code regs)]) ;;
  kprint (str "System halted." ++ [10]).

(** [faulting_addr] is the contents of CR2.  With interrupts off, the final
    [hlt] does not return. *)
Definition page_fault_handler (faulting_addr : Z) (regs : registers_t) : handler () :=
  stops (fault_report faulting_addr regs ;;
         if truth (Z.land (err_code regs) 0x4) then fault_user faulting_addr regs else fault_kernel faulting_addr regs).

(** ** The 8259 controller *)

(** [expect] is the initialisation word the chip waits for, 0 in operation;
    [in_service] the lines that are being served. *)
Record chip := Chip {
  expect : Z;
  vector_base : Z;
  cascade : Z;
  mode : Z;
  imr : Z;
  in_service : list Z
}.

(** A non-specific end of interrupt ends the line of the highest priority. *)
Definition chip_command (v : Z) (c : chip) : chip :=
  if Z.testbit v 4 then Chip 2 (vector_base c) (cascade c) (mode c) 0 []
  else if v =? 0x20 then Chip (expect c) (vector_base c) (cascade c) (mode c) (imr c) (drop 1 (in_service c))
  else c.

Definition chip_data (v : Z) (c : chip) : chip :=
  if expect c =? 2 then Chip 3 v (cascade c) (mode c) (imr c) (in_service c)
  else if expect c =? 3 then Chip 4 (vector_base c) v (mode c) (imr c) (in_service c)
  else if expect c =? 4 then Chip 0 (vector_base c) (cascade c) v (imr c) (in_service c)
  else Chip (expect c) (vector_base c) (cascade c) (mode c) v (in_service c).

(** The two chips, the master first. *)
Record pics := Pics { pic1 : chip; pic2 : chip }.

#[export] Instance pics_ports : PortIO pics := {
  hw_inb := λ port p, (if port =? PIC1_DATA then imr (pic1 p) else if port =? PIC2_DATA then imr (pic2 p) else 0, p);
  hw_outb := λ port v p,
    if port =? PIC1_COMMAND then Pics (chip_command v (pic1 p)) (pic2 p)
    else if port =? PIC1_DATA then Pics (chip_data v (pic1 p)) (pic2 p)
    else if port =? PIC2_COMMAND then Pics (pic1 p) (chip_command v (pic2 p))
    else if port =? PIC2_DATA then Pics (pic1 p) (chip_data v (pic2 p))
    else p;
  hw_insw := λ _ n p, (replicate n 0, p);
  hw_outsw := λ _ _ p, p
}.

(** ** Theorems *)

(** Whatever state the BIOS left the controllers in, [pic_remap] leaves them
    in operation with the vectors asked for, the slave on line 2, 8086 mode
    and no line masked. *)
Theorem pic_remap_vectors p offset1 offset2 :
  0 ≤ offset1 < 256 → 0 ≤ offset2 < 256 →
  pic_remap offset1 offset2 p =
  Some ((), Pics (Chip 0 offset1 0x04 ICW4_8086 0 []) (Chip 0 offset2 0x02 ICW4_8086 0 [])).
Proof.
  intros H1 H2. unfold pic_remap, port_byte_in, port_byte_out, io_wait. rewrite (u8_small offset1), (u8_small offset2) by done.
  destruct p as [[] []]. vm_compute. reflexivity.
Qed.

(** Hardware interrupts are acknowledged before their handler runs: if line
    [irq] is the one being served (through line 2 of the master for the slave's
    lines), then whatever the handler does, even if it switches to another
    task and does not return, the controllers no longer count it as in
    service and deliver further interrupts. *)
Theorem irq_acknowledged hs regs p s irq m_rest s_rest :
  int_no regs = 32 + irq → 0 ≤ irq < 16 → length hs = 256%nat →
  in_service (pic1 p) = (if irq <? 8 then irq else 2) :: m_rest →
  in_service (pic2 p) = (if irq <? 8 then s_rest else irq - 8 :: s_rest) →
  ∃ p', in_service (pic1 p') = m_rest ∧ in_service (pic2 p') = s_rest ∧
    irq_handler hs regs p s =
    match hs !! Z.to_nat (int_no regs) with
    | Some (Some f) => (λ o, (p', o)) <$> f regs s
    | Some None => Some (p', Done () s)
    | None => None
    end.
Proof.
  intros Hno Hirq Hlen H1 H2. unfold irq_handler, pic_send_eoi. rewrite Hno.
  replace (32 + irq - 32) with irq by lia. rewrite u8_small by lia. rewrite bind_run. rewrite Z.geb_leb.
  destruct (Z.ltb_spec irq 8), (Z.leb_spec 8 irq); try lia.
  - eexists (Pics (chip_command PIC_EOI (pic1 p)) (pic2 p)). split; [cbn; by rewrite H1|]. split; [cbn; by rewrite H2|].
    destruct (hs !! Z.to_nat (32 + irq)) as [[f|]|]; [|reflexivity|reflexivity]. by destruct (f regs s).
  - eexists (Pics (chip_command PIC_EOI (pic1 p)) (chip_command PIC_EOI (pic2 p))). split; [cbn; by rewrite H1|]. split; [cbn; by rewrite H2|].
    destruct (hs !! Z.to_nat (32 + irq)) as [[f|]|]; [|reflexivity|reflexivity]. by destruct (f regs s).
Qed.

(** The timer runs at the requested rate as far as the chip can: the divisor
    is the base frequency divided by it, within 1 and 65535. *)
Theorem pit_divisor_range f :
  0 < f → pit_divisor f = Some (Z.max 1 (Z.min 65535 (1193182 / f))).
Proof.
  intros Hf. unfold pit_divisor. destruct (Z.eqb_spec f 0); [lia|]. cbv zeta. rewrite Z.gtb_ltb. f_equal.
  generalize (1193182 / f). intros q. destruct (Z.ltb_spec 65535 q); [destruct (Z.ltb_spec 65535 1)|destruct (Z.ltb_spec q 1)]; lia.
Qed.

(** A timer interrupt while the timer's line is being served. *)
Lemma irq_acknowledged_witness :
  let regs := Registers 0 0 0 0 0 0 0 0 0 32 0 0 0 0 0 0 in
  let p := Pics (Chip 0 32 4 1 0 [0; 5]) (Chip 0 40 2 1 0 []) in
  let s := IO (Sys idle_os (Klog [] 0 0 0) 0 []) [] in
  ∃ p', in_service (pic1 p') = [5] ∧ irq_handler (replicate 256 None) regs p s = Some (p', Done () s).
Proof.
  intros regs p s.
  destruct (irq_acknowledged (replicate 256 None) regs p s 0 [5] []) as (p' & H1 & _ & E); [reflexivity|lia|reflexivity..|].
  exists p'. split; [exact H1|exact E].
Defined.
