(* ===== verification/Serial.v ===== *)
(** * drivers/serial.c: the serial line

    The driver of the first UART, through its ports.  The wait for an empty
    transmit register is up to the chip, so the loop carries a bound [polls].
    [Uart] is what the driver relies on of the chip: the registers of a 16550
    with its divisor latch. *)

From S2P Require Import Prelude KString Ports.

Open Scope Z_scope.

Definition SERIAL_COM1 : Z := 0x3F8.
Definition SERIAL_DATA_REG : Z := 0.
Definition SERIAL_INT_ENABLE_REG : Z := 1.
Definition SERIAL_FIFO_CTRL_REG : Z := 2.
Definition SERIAL_LINE_CTRL_REG : Z := 3.
Definition SERIAL_MODEM_CTRL_REG : Z := 4.
Definition SERIAL_LINE_STATUS_REG : Z := 5.

Section driver.
Context {H : Type} `{PortIO H} (polls : nat).

Definition serial_init : M H () :=
  port_byte_out (SERIAL_COM1 + SERIAL_INT_ENABLE_REG) 0x00 ;;
  port_byte_out (SERIAL_COM1 + SERIAL_LINE_CTRL_REG) 0x80 ;;
  port_byte_out (SERIAL_COM1 + SERIAL_DATA_REG) 0x03 ;;
  port_byte_out (SERIAL_COM1 + SERIAL_INT_ENABLE_REG) 0x00 ;;
  port_byte_out (SERIAL_COM1 + SERIAL_LINE_CTRL_REG) 0x03 ;;
  port_byte_out (SERIAL_COM1 + SERIAL_FIFO_CTRL_REG) 0xC7 ;;
  port_byte_out (SERIAL_COM1 + SERIAL_MODEM_CTRL_REG) 0x0B.

Definition is_transmit_empty : M H Z :=
  v ← port_byte_in (SERIAL_COM1 + SERIAL_LINE_STATUS_REG); mret (Z.land v 0x20).

(** [while (!is_transmit_empty());] *)
Fixpoint transmit_wait (fuel : nat) : M H () :=
  match fuel with
  | O => fault
  | S f => e ← is_transmit_empty; if truth e then mret () else transmit_wait f
  end.

Definition serial_putc (c : Z) : M H () :=
  transmit_wait polls ;; port_byte_out (SERIAL_COM1 + SERIAL_DATA_REG) c.

Fixpoint serial_puts (s : list Z) : M H () :=
  match s with
  | [] => fault
  | c :: s' =>
      if c =? 0 then mret ()
      else
        (if c =? 10 then serial_putc 13 else mret ()) ;;
        serial_putc c ;;
        serial_puts s'
  end.
End driver.

(** ** The chip *)

Record uart := Uart16550 {
  divisor_lo : Z; divisor_hi : Z;        (* behind the divisor latch bit *)
  int_enable : Z; fifo_ctrl : Z; line_ctrl : Z; modem_ctrl : Z;
  line : list Z                          (* the bytes sent *)
}.

Definition latched (u : uart) : bool := Z.testbit (line_ctrl u) 7.

(** A write to register [r]: with the latch open, registers 0 and 1 are the
    divisor; otherwise register 0 sends. *)
Definition uart_write (r x : Z) (u : uart) : uart :=
  if r =? SERIAL_DATA_REG then
    if latched u then Uart16550 x (divisor_hi u) (int_enable u) (fifo_ctrl u) (line_ctrl u) (modem_ctrl u) (line u)
    else Uart16550 (divisor_lo u) (divisor_hi u) (int_enable u) (fifo_ctrl u) (line_ctrl u) (modem_ctrl u) (line u ++ [x])
  else if r =? SERIAL_INT_ENABLE_REG then
    if latched u then Uart16550 (divisor_lo u) x (int_enable u) (fifo_ctrl u) (line_ctrl u) (modem_ctrl u) (line u)
    else Uart16550 (divisor_lo u) (divisor_hi u) x (fifo_ctrl u) (line_ctrl u) (modem_ctrl u) (line u)
  else if r =? SERIAL_FIFO_CTRL_REG then
    Uart16550 (divisor_lo u) (divisor_hi u) (int_enable u) x (line_ctrl u) (modem_ctrl u) (line u)
  else if r =? SERIAL_LINE_CTRL_REG then
    Uart16550 (divisor_lo u) (divisor_hi u) (int_enable u) (fifo_ctrl u) x (modem_ctrl u) (line u)
  else if r =? SERIAL_MODEM_CTRL_REG then
    Uart16550 (divisor_lo u) (divisor_hi u) (int_enable u) (fifo_ctrl u) (line_ctrl u) x (line u)
  else u.

(** [pending] is how often the status will still say that a byte is being
    sent; a byte may be written when it is zero. *)
Class Uart (H : Type) `{PortIO H} := {
  chip : H → uart;
  pending : H → nat;
  delay : nat;
  ua_delay h : (pending h ≤ delay)%nat;
  ua_status h : let r := hw_inb (SERIAL_COM1 + SERIAL_LINE_STATUS_REG) h in
    chip (snd r) = chip h ∧ 0 ≤ fst r < 256 ∧ Z.testbit (fst r) 5 = (pending h =? 0)%nat ∧
    (pending (snd r) ≤ pred (pending h))%nat;
  ua_out h r x : 0 ≤ r ≤ 4 → 0 ≤ x < 256 →
    (r = SERIAL_DATA_REG → latched (chip h) = false → pending h = 0%nat) →
    chip (hw_outb (SERIAL_COM1 + r) x h) = uart_write r x (chip h)
}.

(** ** The line carries the text *)

Section line.
Context {H : Type} `{Uart H}.

Lemma out_run r x h :
  0 ≤ r ≤ 4 → 0 ≤ x < 256 → (r = SERIAL_DATA_REG → latched (chip h) = false → pending h = 0%nat) →
  ∃ h', port_byte_out (SERIAL_COM1 + r) x h = Some ((), h') ∧ chip h' = uart_write r x (chip h).
Proof.
  intros Hr Hx Hp. unfold port_byte_out, modify. eexists. split; [reflexivity|].
  assert (u16 (SERIAL_COM1 + r) = SERIAL_COM1 + r) as -> by (unfold u16, SERIAL_COM1; apply Z.mod_small; lia).
  rewrite u8_small by done. by apply ua_out.
Qed.

Lemma transmit_wait_run fuel h :
  (pending h < fuel)%nat → ∃ h', transmit_wait fuel h = Some ((), h') ∧ chip h' = chip h ∧ pending h' = 0%nat.
Proof.
  revert h. induction fuel as [|f IH]; intros h Hf; [lia|]. cbn [transmit_wait]. rewrite bind_run.
  unfold is_transmit_empty. rewrite bind_run. unfold port_byte_in.
  change (u16 (SERIAL_COM1 + SERIAL_LINE_STATUS_REG)) with (SERIAL_COM1 + SERIAL_LINE_STATUS_REG).
  destruct (ua_status h) as (Hc & Hb & Ht & Hd). destruct (hw_inb _ h) as [x h1]. cbn [fst snd] in *.
  rewrite u8_small by done. cbn [mret M_ret].
  change 0x20 with (2 ^ 5). unfold truth. rewrite land_pow2_eqb, negb_involutive, Ht by done.
  destruct (Nat.eqb_spec (pending h) 0) as [Hz|Hz].
  - exists h1. split_and!; [done|done|lia].
  - destruct (IH h1) as (h' & E & Hc' & Hp'); [lia|]. exists h'. by rewrite Hc', Hc.
Qed.

Lemma serial_init_run h :
  latched (chip h) = false →
  ∃ h', serial_init h = Some ((), h') ∧ chip h' = Uart16550 3 0 0 0xC7 3 0x0B (line (chip h)).
Proof.
  intros Hl. unfold serial_init.
  destruct (out_run SERIAL_INT_ENABLE_REG 0 h) as (h1 & E1 & C1); [unfold SERIAL_INT_ENABLE_REG; lia|lia|done|]. mstep E1.
  destruct (out_run SERIAL_LINE_CTRL_REG 0x80 h1) as (h2 & E2 & C2); [unfold SERIAL_LINE_CTRL_REG; lia|lia|done|]. mstep E2.
  assert (latched (chip h2) = true) as Hl2 by by rewrite C2.
  destruct (out_run SERIAL_DATA_REG 3 h2) as (h3 & E3 & C3); [unfold SERIAL_DATA_REG; lia|lia|by rewrite Hl2|]. mstep E3.
  destruct (out_run SERIAL_INT_ENABLE_REG 0 h3) as (h4 & E4 & C4); [unfold SERIAL_INT_ENABLE_REG; lia|lia|done|]. mstep E4.
  destruct (out_run SERIAL_LINE_CTRL_REG 3 h4) as (h5 & E5 & C5); [unfold SERIAL_LINE_CTRL_REG; lia|lia|done|]. mstep E5.
  destruct (out_run SERIAL_FIFO_CTRL_REG 0xC7 h5) as (h6 & E6 & C6); [unfold SERIAL_FIFO_CTRL_REG; lia|lia|done|]. mstep E6.
  destruct (out_run SERIAL_MODEM_CTRL_REG 0x0B h6) as (h7 & E7 & C7); [unfold SERIAL_MODEM_CTRL_REG; lia|lia|done|].
  exists h7. split; [done|]. rewrite C7, C6, C5, C4, C3, C2, C1. destruct (chip h) as [dl dh ie fc lc mc ln].
  unfold latched in Hl. cbn in Hl. unfold uart_write at 7. cbn. unfold latched. cbn. by rewrite Hl.
Qed.

Context (polls : nat).
Hypothesis patient : (delay < polls)%nat.

Lemma serial_putc_run c h :
  0 ≤ c < 256 → latched (chip h) = false →
  ∃ h', serial_putc polls c h = Some ((), h') ∧ chip h' = uart_write SERIAL_DATA_REG c (chip h).
Proof using patient.
  intros Hc Hl. unfold serial_putc. pose proof (ua_delay h).
  destruct (transmit_wait_run polls h) as (h1 & E & Hc1 & Hp1); [lia|]. mstep E. rewrite <- Hc1.
  apply out_run; [unfold SERIAL_DATA_REG; lia|done|done].
Qed.

Definition with_line (l : list Z) (u : uart) : uart :=
  Uart16550 (divisor_lo u) (divisor_hi u) (int_enable u) (fifo_ctrl u) (line_ctrl u) (modem_ctrl u) l.

Lemma send_chip c u : latched u = false → uart_write SERIAL_DATA_REG c u = with_line (line u ++ [c]) u.
Proof. intros Hl. unfold uart_write. by rewrite Z.eqb_refl, Hl. Qed.

(** Newlines as a terminal wants them. *)
Definition crlf (s : list Z) : list Z := concat (map (λ c, if c =? 10 then [13; 10] else [c]) s).

Lemma serial_puts_run s h :
  nonzero s → latched (chip h) = false →
  ∃ h', serial_puts polls (s ++ [0]) h = Some ((), h') ∧ chip h' = with_line (line (chip h) ++ crlf s) (chip h).
Proof using patient.
  revert h. induction s as [|c s IH]; intros h Hnz Hl; cbn [serial_puts app].
  { exists h. split; [done|]. unfold crlf. cbn. rewrite app_nil_r. by destruct (chip h). }
  apply nonzero_cons in Hnz as [Hc Hnz]. destruct (Z.eqb_spec c 0); [lia|].
  assert (∃ h1, (if c =? 10 then serial_putc polls 13 else mret ()) h = Some ((), h1) ∧
    chip h1 = with_line (line (chip h) ++ if c =? 10 then [13] else []) (chip h)) as (h1 & E1 & Hc1).
  { destruct (c =? 10).
    - destruct (serial_putc_run 13 h) as (h1 & E & Hh); [lia|done|]. exists h1. by rewrite Hh, send_chip.
    - exists h. rewrite app_nil_r. split; [done|]. by destruct (chip h). }
  mstep E1. assert (latched (chip h1) = false) as Hl1 by by rewrite Hc1.
  destruct (serial_putc_run c h1) as (h2 & E2 & Hc2); [lia|done|]. mstep E2. rewrite send_chip in Hc2 by done.
  destruct (IH h2) as (h3 & E3 & Hc3); [done|by rewrite Hc2, Hc1|]. exists h3. split; [done|].
  rewrite Hc3, Hc2, Hc1. unfold with_line, crlf. cbn. destruct (Z.eqb_spec c 10) as [->|_]; by rewrite ?app_nil_r, <- !app_assoc.
Qed.

(** The serial line carries the text: from the reset state, [serial_init]
    sets 38400 baud (divisor 3), eight bits without parity, the FIFOs on and
    interrupts off and sends nothing; [serial_puts] then returns, on a chip
    that becomes ready within [delay] polls, and sends exactly the string,
    with a carriage return before each newline. *)
Theorem serial_transmits text h :
  latched (chip h) = false → nonzero text →
  ∃ h1 h2, serial_init h = Some ((), h1) ∧ serial_puts polls (text ++ [0]) h1 = Some ((), h2) ∧
    chip h2 = Uart16550 3 0 0 0xC7 3 0x0B (line (chip h) ++ crlf text).
Proof using patient.
  intros Hl Hnz. destruct (serial_init_run h Hl) as (h1 & E1 & C1).
  destruct (serial_puts_run text h1) as (h2 & E2 & C2); [done|by rewrite C1|]. exists h1, h2. split_and!; [done..|].
  by rewrite C2, C1.
Qed.
End line.

(** ** A chip *)

(** After each byte the status says busy twice. *)
Record sim_uart := SimUart { sim_chip : uart; sim_pending : nat; sim_bound : (sim_pending ≤ 2)%nat }.

Program Definition sim_status (h : sim_uart) : Z * sim_uart :=
  (if (sim_pending h =? 0)%nat then 0x60 else 0, SimUart (sim_chip h) (pred (sim_pending h)) _).
Next Obligation. intros h. pose proof (sim_bound h). lia. Qed.

Definition sim_write (r x : Z) (h : sim_uart) : sim_uart := SimUart (uart_write r x (sim_chip h)) 2 (le_n 2).

#[export] Instance sim_ports : PortIO sim_uart := {
  hw_inb := λ p h, if p =? 0x3FD then sim_status h else (0xFF, h);
  hw_outb := λ p x h, if (0x3F8 <=? p) && (p <=? 0x3FC) then sim_write (p - 0x3F8) x h else h;
  hw_insw := λ _ n h, (replicate n 0, h);
  hw_outsw := λ _ _ h, h
}.

#[export] Program Instance sim_uart_ok : Uart sim_uart := {
  chip := sim_chip;
  pending := sim_pending;
  delay := 2
}.
Next Obligation. apply sim_bound. Qed.
Next Obligation.
  intros h r. subst r. change (hw_inb _ h) with (sim_status h). unfold sim_status. cbn [fst snd sim_chip sim_pending].
  split_and!; [done|by destruct (_ =? _)%nat..|lia].
Qed.
Next Obligation.
  intros h r x Hr Hx _. unfold hw_outb, sim_ports, SERIAL_COM1.
  destruct (Z.leb_spec 0x3F8 (0x3F8 + r)), (Z.leb_spec (0x3F8 + r) 0x3FC); cbn [andb sim_chip]; try lia.
  by replace (0x3F8 + r - 0x3F8) with r by lia.
Qed.

Lemma serial_transmits_witness :
  ∃ h1 h2, serial_init (SimUart (Uart16550 1 0 0 0 0 0 []) 0 ltac:(lia)) = Some ((), h1) ∧
    serial_puts 3 (str "ok" ++ [10; 0]) h1 = Some ((), h2) ∧ line (sim_chip h2) = str "ok" ++ [13; 10].
Proof.
  assert (@delay sim_uart _ _ < 3)%nat as Hd by (cbn; lia).
  destruct (serial_transmits 3 Hd (str "ok" ++ [10]) (SimUart (Uart16550 1 0 0 0 0 0 []) 0 ltac:(lia)))
    as (h1 & h2 & E1 & E2 & E3); [reflexivity|apply (bool_decide_unpack _); vm_compute; exact I|].
  exists h1, h2. split; [exact E1|]. split; [exact E2|]. change (sim_chip h2) with (chip h2). by rewrite E3.
Defined.
