(* ===== verification/Boot.v ===== *)
(** * kernel/sys/kernel_main.c: starting the kernel

    The whole machine: the state of the shell, which contains the kernel's,
    with the descriptor tables, the interrupt vectors and the system call
    table next to it.  [main] runs the initialisations of the components in
    their order, chooses the block device and mounts the file system.  The
    self tests are a parameter.

    There is one hardware, behind the ports.  It is kept with the machine until
    a block device is chosen, and with the block device from then on
    ([take_bus]): the reads and writes of the ATA device are port accesses of
    the driver, and other port accesses find the hardware there ([ports]). *)

From S2P Require Import Prelude KString KStdio Console KPrintf Screen Pmm Memory Kmalloc Paging Sched Task.
From S2P Require Import Block SimpleFS Klog Elf Syscall Ports Ata Shell Keyboard Descriptors Interrupts Serial.

Open Scope Z_scope.
Open Scope c_scope.

(** ** The block device *)

(** The block device: the RAM disk if there is one, and otherwise the slave
    drive, behind the driver and the ports of the machine. *)
Record blkdev (H : Type) := Blkdev { d_bus : ata (H := H); d_ram : option ramdisk }.
Arguments Blkdev {H} _ _.
Arguments d_bus {H} _.
Arguments d_ram {H} _.

Definition blkdev_dev {H : Type} `{PortIO H} (polls : nat) : BlockDev (blkdev H) :=
  let _ := ata_dev polls in {|
  bd_read := λ b d,
    match d_ram d with
    | None => match bd_read b (d_bus d) with Some (r, a) => Some (r, Blkdev a None) | None => None end
    | Some m => match bd_read b m with Some (r, m') => Some (r, Blkdev (d_bus d) (Some m')) | None => None end
    end;
  bd_write := λ b buf d,
    match d_ram d with
    | None => match bd_write b buf (d_bus d) with Some (r, a) => Some (r, Blkdev a None) | None => None end
    | Some m => match bd_write b buf m with Some (r, m') => Some (r, Blkdev (d_bus d) (Some m')) | None => None end
    end;
  bd_total := λ d, match d_ram d with None => bd_total (d_bus d) | Some m => bd_total m end
|}.

(** ** The machine *)

(** The functions that are registered for interrupts. *)
Inductive vector_handler := timer_vector | keyboard_vector | gpf_vector | page_fault_vector.

Record boot (H : Type) := Boot {
  b_machine : machine (blkdev H) (option H);
  b_gdt : list gdt_entry;
  b_tss : tss_entry;
  b_idt : list gate;
  b_vectors : list (option vector_handler);
  b_syscalls : list (option syscall_fn)
}.
Arguments Boot {H} _ _ _ _ _ _.
Arguments b_machine {H} _.
Arguments b_gdt {H} _.
Arguments b_tss {H} _.
Arguments b_idt {H} _.
Arguments b_vectors {H} _.
Arguments b_syscalls {H} _.

Section boot.
Context {H : Type} `{PortIO H} (polls : nat).
Abbreviation boot := (boot H).
Abbreviation whole := (machine (blkdev H) (option H)).

(** The polling loops of the driver carry the bound [polls]. *)
#[local] Hint Extern 0 (BlockDev (blkdev _)) => exact (blkdev_dev polls) : typeclass_instances.

Definition set_machine (m : whole) (b : boot) : boot :=
  Boot m (b_gdt b) (b_tss b) (b_idt b) (b_vectors b) (b_syscalls b).
Definition set_gdt (g : list gdt_entry) (b : boot) : boot :=
  Boot (b_machine b) g (b_tss b) (b_idt b) (b_vectors b) (b_syscalls b).
Definition set_idt (t : list gate) (b : boot) : boot :=
  Boot (b_machine b) (b_gdt b) (b_tss b) t (b_vectors b) (b_syscalls b).

(** Code of the components. *)
Definition on_m {A} (c : M (whole) A) : M boot A := zoom b_machine set_machine c.
Definition print (text : list Z) : M boot () := on_m (say text).
Definition kern {A} (c : M (io (kernel (blkdev H))) A) : M boot A := on_m (kernel_op c).

Definition set_ata (a : ata (H := option H)) (m : whole) : whole :=
  Machine (m_kernel m) a (m_ticks m) (m_screen m) (command_buffer m) (buffer_pos m).

(** The driver with the hardware of the machine. *)
Definition with_bus {A} (c : M (ata (H := H)) A) : M (ata (H := option H)) A := λ a,
  match ata_hw a with
  | Some h =>
      match c (Ata h (drive_info a) (slave_info a)) with
      | Some (r, a') => Some (r, Ata (Some (ata_hw a')) (drive_info a') (slave_info a'))
      | None => None
      end
  | None => None
  end.
Definition on_ata {A} (c : M (ata (H := H)) A) : M boot A := on_m (zoom m_ata set_ata (with_bus c)).

Definition set_blkdev (d : blkdev H) (m : whole) : whole :=
  let k := m_kernel m in
  Machine (Kernel (k_os k) (k_log k) (set_dev d (k_fs k))) (m_ata m) (m_ticks m) (m_screen m) (command_buffer m) (buffer_pos m).

(** Port accesses, where the hardware is. *)
Definition ports {A} (c : M H A) : M boot A :=
  b ← get;
  match fs_dev (k_fs (m_kernel (b_machine b))) with
  | Some d =>
      match on_hw c (d_bus d) with
      | Some (r, a') => on_m (modify (set_blkdev (Blkdev a' (d_ram d)))) ;; mret r
      | None => fault
      end
  | None => on_ata (on_hw c)
  end.

Definition register (n : nat) (h : vector_handler) : M boot () :=
  modify (λ b, Boot (b_machine b) (b_gdt b) (b_tss b) (b_idt b) (<[n := Some h]> (b_vectors b)) (b_syscalls b)).

(** ** Initialisations that touch several components *)

Definition timer_init : M boot () :=
  on_m (modify (λ m, Machine (m_kernel m) (m_ata m) 0 (m_screen m) (command_buffer m) (buffer_pos m))) ;;
  register 32 timer_vector.

(** [paging_init] registers the page fault handler ([pf_handler]) unless it
    has run out of frames. *)
Definition paging_start : M boot () :=
  kern (vmem_op paging_init) ;;
  b ← get;
  if pf_handler (vmem (k_os (m_kernel (b_machine b)))) then register 14 page_fault_vector else mret ().

Definition tss_start (tss_address : Z) : M boot () :=
  zoom (λ b, (b_tss b, b_gdt b)) (λ p b, Boot (b_machine b) (snd p) (fst p) (b_idt b) (b_vectors b) (b_syscalls b))
    (tss_init tss_address 0x10 0x9FC00) ;;
  kern (os_op (quiet (tss_set_kernel_stack 0x9FC00))).

Definition keyboard_start : M boot () :=
  register 33 keyboard_vector ;; ports (keyboard_init polls).

Definition syscall_init (syscall_stub : Z) : M boot () :=
  modify (λ b, Boot (b_machine b) (b_gdt b) (b_tss b) (b_idt b) (b_vectors b) syscall_init_table) ;;
  zoom b_idt set_idt (syscall_gate syscall_stub) ;;
  register 13 gpf_vector.

(** ** The block device and the file system *)

Definition info (msg : list Z) : M boot () := kern (log_op (klog_info (msg ++ [0]) [])).

(** [kprint("  [OK] ATA ...: "); kprint(model); kprint("\n")], or not. *)
Definition report_drive (label none : list Z) (i : ata_drive_info) : M boot () :=
  if truth (di_present i) then
    print label ;;
    model ← of_option (cstr (di_model i));
    print model ;;
    print [10]
  else print none.

(** The driver, with the hardware of the machine. *)
Definition take_bus : M boot (ata (H := H)) :=
  b ← get;
  let a := m_ata (b_machine b) in
  h ← of_option (ata_hw a);
  on_m (modify (set_ata (Ata None (drive_info a) (slave_info a)))) ;;
  mret (Ata h (drive_info a) (slave_info a)).

(** [ramdisk_init] clears and takes frames of the kernel's memory.  From then
    on the frames belong to the disk alone, and their bytes are kept with it:
    no other code of the kernel reads or writes them. *)
Definition make_ramdisk (size_kb : Z) : M (io (kernel (blkdev H))) (option ramdisk) := λ s,
  let v := vmem (k_os (st s)) in
  match ramdisk_init size_kb (IO (frames v, Ramdisk (ram v) 0 0) (con s)) with
  | Some (ok, t) =>
      let r := snd (st t) in
      let v' := set_frames (fst (st t)) (upd_ram (λ _, rd_mem r) v) in
      Some (if (ok : bool) then Some r else None,
            IO (Kernel (set_vmem v' (k_os (st s))) (k_log (st s)) (k_fs (st s))) (con t))
  | None => None
  end.

Definition choose_blkdev : M boot (option (blkdev H)) :=
  b ← get;
  match ata_blockdev_init (m_ata (b_machine b)) with
  | Some _ =>
      print (str "  [OK] ATA block device initialized (persistent)" ++ [10]) ;;
      info (str "FS: using ATA slave (persistent)") ;;
      a ← take_bus;
      mret (Some (Blkdev a None))
  | None =>
      print (str "  [--] No ATA slave — falling back to RAM disk" ++ [10]) ;;
      r ← kern (make_ramdisk 256);
      match r with
      | Some r =>
          print (str "  [OK] RAM disk initialized (256 KB, volatile)" ++ [10]) ;;
          info (str "FS: using RAM disk (volatile)") ;;
          a ← take_bus;
          mret (Some (Blkdev a (Some r)))
      | None => print (str "  [FAIL] RAM disk init failed" ++ [10]) ;; mret None
      end
  end.

Definition mount (dev : option (blkdev H)) : M boot () :=
  match dev with
  | Some d =>
      r ← kern (fs_op (fs_init (Some d)));
      if r =? 0 then
        print (str "  [OK] SimpleFS mounted" ++ [10]) ;; info (str "SimpleFS mounted")
      else print (str "  [FAIL] SimpleFS init failed" ++ [10])
  | None => mret ()
  end.

(** ** main *)

Context (stub : Z → Z) (syscall_stub tss_address : Z).

(** Up to and with the frame allocator and the page tables. *)
Definition init_hardware : M boot () :=
  ports serial_init ;;
  on_m (on_screen clear_screen) ;;
  print (str "ApPa Kernel v0.1" ++ [10]) ;;
  print (str "Initializing system..." ++ [10]) ;;
  zoom b_gdt set_gdt gdt_init ;;
  print (str "  [OK] GDT initialized" ++ [10]) ;;
  zoom b_idt set_idt (idt_init stub) ;;
  print (str "  [OK] IDT initialized" ++ [10]) ;;
  ports (pic_remap 32 40) ;;
  print (str "  [OK] PIC remapped" ++ [10]) ;;
  ports (pit_init 100) ;;
  print (str "  [OK] PIT initialized (100Hz)" ++ [10]) ;;
  timer_init ;;
  print (str "  [OK] Timer initialized" ++ [10]).

Definition init_memory : M boot () :=
  kern (mem_op kmalloc_init) ;;
  print (str "  [OK] Kernel heap initialized" ++ [10]) ;;
  kern (io_frames (quiet pmm_init)) ;;
  print (str "  [OK] Physical memory manager initialized" ++ [10]) ;;
  paging_start ;;
  print (str "  [OK] Paging enabled (identity map 0-16MB)" ++ [10]) ;;
  tss_start tss_address ;;
  print (str "  [OK] TSS initialized" ++ [10]) ;;
  kern (log_op (quiet klog_init)) ;;
  print (str "  [OK] Kernel logging initialized" ++ [10]) ;;
  info (str "ApPa Kernel v0.1 booting...").

Definition init_disks : M boot () :=
  on_ata (ata_init polls) ;;
  b ← get;
  report_drive (str "  [OK] ATA master: ") (str "  [--] No ATA master detected" ++ [10])
    (ata_get_info (m_ata (b_machine b))) ;;
  report_drive (str "  [OK] ATA slave:  ") (str "  [--] No ATA slave detected" ++ [10])
    (ata_get_slave_info (m_ata (b_machine b))) ;;
  dev ← choose_blkdev;
  mount dev.

Definition init_services : M boot () :=
  keyboard_start ;;
  print (str "  [OK] Keyboard initialized" ++ [10]) ;;
  on_m shell_init ;;
  print (str "  [OK] Shell initialized" ++ [10]) ;;
  kern (os_op (quiet sched_init)) ;;
  print (str "  [OK] Scheduler initialized" ++ [10]) ;;
  syscall_init syscall_stub ;;
  print (str "  [OK] Syscall interface initialized (INT 0x80)" ++ [10]) ;;
  kern (os_op (quiet sti)) ;;
  print (str "  [OK] Interrupts enabled" ++ [10; 10]).

Definition init_all : M boot () :=
  init_hardware ;;
  init_memory ;;
  init_disks ;;
  init_services.

Definition start (run_all_tests : M boot ()) : M boot () :=
  init_all ;;
  run_all_tests ;;
  kern (os_op (quiet sched_enable)) ;;
  print (str "  [OK] Preemptive scheduling enabled" ++ [10]) ;;
  print (str "=== ApPa OS Ready ===" ++ [10]) ;;
  print (str "Type 'help' for available commands" ++ [10; 10]) ;;
  print (str "> ").

(** One round of the idle loop, after [hlt] has been ended by an interrupt. *)
Definition idle_round : M boot () := kern (os_op task_reap).
End boot.
