(* ===== verification/BootSpec.v ===== *)
(** * The kernel that has been started

    [main] brings every component into the state its theorems start from: a
    heap of one free block, the identity mapping, an interrupt table open to
    users only at 0x80, a mounted file system (on the slave drive behind the
    ATA driver, if the probe finds one, else on a RAM disk), a scheduler with
    the idle task.  [booted] collects these invariants. *)

From S2P Require Import Prelude KString KStdio Console KPrintf Screen ScreenSpec Pmm Memory Kmalloc Paging AddrSpace Sched Task TaskExit.
From S2P Require Import Block SimpleFS SimpleFSSpec Klog KlogSpec Elf ElfSpec ElfLoad ElfExec ElfSafe Syscall Ports Ata AtaSpec.
From S2P Require Import Shell ShellSpec Keyboard Descriptors Interrupts Serial Boot.

Open Scope Z_scope.
Open Scope c_scope.

(** ** The block device *)

(** What the file system may rely on: the device is the RAM disk ([ram]) or the
    slave drive behind the driver. *)
Definition blkdev_ok {H : Type} `{AtaDrive H} (polls : nat) (ram : bool) (d : blkdev H) : Prop :=
  match d_ram d with
  | Some m => ram = true ∧ ramdisk_ok m
  | None => ram = false ∧ ata_ok polls (d_bus d)
  end.

Definition blkdev_laws {H : Type} `{AtaDrive H} (polls : nat) (ram : bool) : @BlockDevLaws (blkdev H) (blkdev_dev polls).
Proof.
  set (ad := ata_dev polls). set (al := ata_laws polls : BlockDevLaws (ata (H := H))).
  refine (Build_BlockDevLaws (blkdev H) (blkdev_dev polls) (blkdev_ok polls ram)
    (λ d b, match d_ram d with None => blk (d_bus d) b | Some m => blk m b end) _ _ _ _);
    cbn [bd_read bd_write bd_total blkdev_dev].
  - intros [a [m|]] [_ Hok]; cbn [d_ram d_bus] in *; by apply bd_total_bound.
  - intros [a [m|]] b [_ Hok] Hb; cbn [d_ram d_bus] in *; by apply blk_block.
  - intros [a [m|]] b [Hr Hok] Hb; cbn [d_ram d_bus] in *;
      [destruct (@bd_read_ok _ _ ramdisk_laws m b Hok Hb) as (d' & -> & Ho & Ht & Hs)
      |destruct (@bd_read_ok _ _ al a b Hok Hb) as (d' & -> & Ho & Ht & Hs)];
      (eexists; split; [reflexivity|]; split; [intros _; by split; [|apply Ho]|done]).
  - intros [a [m|]] b buf [Hr Hok] Hb Hbuf; cbn [d_ram d_bus] in *;
      [destruct (@bd_write_ok _ _ ramdisk_laws m b buf Hok Hb Hbuf) as (d' & -> & Ho & Hw)
      |destruct (@bd_write_ok _ _ al a b buf Hok Hb Hbuf) as (d' & -> & Ho & Hw)];
      (eexists; split; [reflexivity|]; split; [by split|exact Hw]).
Defined.

(** ** Port accesses beside the drives *)

Section beside.
Context {H : Type} `{AtaDrive H}.

Definition keeps {A} (c : M H A) : Prop :=
  ∀ h r h', c h = Some (r, h') → look h' = look h ∧ (AtaSpec.busy h' ≤ AtaSpec.busy h)%nat.

Lemma keeps_bind {A B} (c : M H A) (f : A → M H B) : keeps c → (∀ r, keeps (f r)) → keeps (c ≫= f).
Proof.
  intros Hc Hf h r h' E. rewrite bind_run in E. destruct (c h) as [[r1 h1]|] eqn:E1; [|done].
  destruct (Hc _ _ _ E1) as [L1 B1]. destruct (Hf _ _ _ _ E) as [L2 B2]. split; [congruence|lia].
Qed.

Lemma keeps_ret {A} (r : A) : keeps (mret r).
Proof. intros h r' h' [= <- <-]. by split. Qed.

Lemma keeps_in p : 0 ≤ p < 65536 → ¬ ata_port p → keeps (port_byte_in p).
Proof. intros Hp Hn h r h'. rewrite port_in_run by done. intros [= <- <-]. by apply ad_other_in. Qed.

Lemma keeps_out p x : 0 ≤ p < 65536 → ¬ ata_port p → keeps (port_byte_out p x).
Proof. intros Hp Hn h r h'. rewrite port_out_run by done. intros [= _ <-]. by apply ad_other_out. Qed.

Lemma beside p : 0 ≤ p < 65536 → (p <? 0x1F0) || (0x1F7 <? p) && negb (p =? 0x3F6) = true → ¬ ata_port p.
Proof.
  unfold ata_port, ATA_PRIMARY_DATA, ATA_PRIMARY_STATUS, ATA_PRIMARY_ALT_STATUS. intros Hp.
  destruct (Z.ltb_spec p 0x1F0), (Z.ltb_spec 0x1F7 p), (Z.eqb_spec p 0x3F6); cbn; try done; lia.
Qed.
End beside.

(** Programs of accesses to other ports. *)
Ltac keeping :=
  repeat first
    [ apply keeps_ret | apply keeps_bind; [|intros ?]
    | apply keeps_in; [done|apply beside; done] | apply keeps_out; [done|apply beside; done] ].

Section beside_runs.
Context {H : Type} `{AtaDrive H}.

Lemma serial_init_keeps : keeps (serial_init : M H ()).
Proof. unfold serial_init. keeping. Qed.

Lemma io_wait_keeps : keeps (io_wait : M H ()).
Proof. intros h r h' [= _ <-]. apply ad_other_out, beside; done. Qed.

Lemma pic_remap_keeps a b : keeps (pic_remap a b : M H ()).
Proof. unfold pic_remap. repeat first [apply io_wait_keeps|progress keeping]. Qed.

Lemma pit_init_keeps f : keeps (pit_init f : M H ()).
Proof.
  unfold pit_init. apply keeps_bind; [|intros d; keeping]. intros h r h' E. unfold of_option in E.
  destruct (pit_divisor f); [|done]. by injection E as <- <-.
Qed.

Lemma keyboard_init_keeps polls : keeps (keyboard_init polls : M H ()).
Proof.
  assert (keeps (wait_output polls : M H ())) as Hw.
  { induction polls as [|f IH]; [by intros h r h'|]. cbn [wait_output]. apply keeps_bind; [keeping|].
    intros x. destruct (truth _); [keeping|exact IH]. }
  unfold keyboard_init. repeat first [apply Hw|progress keeping].
Qed.
End beside_runs.

(** ** Steps *)

Section steps.
Context {H : Type} `{AtaDrive H}.
Context (k : kernel (blkdev H)) (a : ata (H := option H)) (n : Z) (scr : screen) (l : list Z) (p : Z).
Context (g : list gdt_entry) (ts : tss_entry) (i : list gate) (v : list (option vector_handler)) (y : list (option syscall_fn)).

Lemma print_ok txt : displays scr → nonzero txt →
  ∃ scr', print txt (Boot (Machine k a n scr l p) g ts i v y) = Some ((), Boot (Machine k a n scr' l p) g ts i v y) ∧ displays scr'.
Proof.
  intros Hd Hnz. destruct (kprint_prints scr txt [] Hd Hnz) as (scr' & E & Hp). exists scr'.
  split; [|by eapply prints_displays]. unfold print, on_m, say, on_screen, zoom. cbn [b_machine m_screen]. by rewrite E.
Qed.

Lemma kern_ok {A} (c : M (io (kernel (blkdev H))) A) r k' out :
  c (IO k []) = Some (r, IO k' out) → displays scr → nonzero out →
  ∃ scr', kern c (Boot (Machine k a n scr l p) g ts i v y) = Some (r, Boot (Machine k' a n scr' l p) g ts i v y) ∧ displays scr'.
Proof.
  intros E Hd Hnz. destruct (kprint_prints scr out [] Hd Hnz) as (scr' & Es & Hp). exists scr'.
  split; [|by eapply prints_displays]. unfold kern, on_m, zoom, kernel_op. cbn [b_machine]. rewrite bind_run. cbn [get m_kernel].
  rewrite E. cbn [st con]. rewrite bind_run. cbn [put]. rewrite bind_run. unfold say, on_screen, zoom.
  cbn [set_kernel m_screen]. by rewrite Es.
Qed.

Lemma ports_ok {A} (c : M H A) h r h' :
  fs_dev (k_fs k) = None → ata_hw a = Some h → c h = Some (r, h') →
  ports c (Boot (Machine k a n scr l p) g ts i v y) =
  Some (r, Boot (Machine k (Ata (Some h') (drive_info a) (slave_info a)) n scr l p) g ts i v y).
Proof.
  intros Hd Hh E. unfold ports. rewrite bind_run. cbn [get b_machine m_kernel]. rewrite Hd.
  unfold on_ata, on_m, with_bus, on_hw, zoom. cbn [b_machine m_ata]. rewrite Hh. cbn [ata_hw]. by rewrite E.
Qed.

(** The same with the hardware in the block device. *)
Lemma ports_dev_ok {A} (c : M H A) d r h' :
  fs_dev (k_fs k) = Some d → c (ata_hw (d_bus d)) = Some (r, h') →
  let d' := Blkdev (Ata h' (drive_info (d_bus d)) (slave_info (d_bus d))) (d_ram d) in
  ports c (Boot (Machine k a n scr l p) g ts i v y) =
  Some (r, Boot (Machine (Kernel (k_os k) (k_log k) (set_dev d' (k_fs k))) a n scr l p) g ts i v y).
Proof.
  intros Hd E. unfold ports. rewrite bind_run. cbn [get b_machine m_kernel]. rewrite Hd. unfold on_hw, zoom. rewrite E. done.
Qed.

Lemma screen_ok {A} (c : M screen A) r scr' :
  c scr = Some (r, scr') →
  on_m (on_screen c) (Boot (Machine k a n scr l p) g ts i v y) = Some (r, Boot (Machine k a n scr' l p) g ts i v y).
Proof. intros E. unfold on_m, on_screen, zoom. cbn [b_machine m_screen]. by rewrite E. Qed.

Lemma gdt_ok {A} (c : M (list gdt_entry) A) r g' :
  c g = Some (r, g') →
  zoom b_gdt set_gdt c (Boot (Machine k a n scr l p) g ts i v y) = Some (r, Boot (Machine k a n scr l p) g' ts i v y).
Proof. intros E. unfold zoom. cbn [b_gdt]. by rewrite E. Qed.

Lemma idt_ok {A} (c : M (list gate) A) r i' :
  c i = Some (r, i') →
  zoom b_idt set_idt c (Boot (Machine k a n scr l p) g ts i v y) = Some (r, Boot (Machine k a n scr l p) g ts i' v y).
Proof. intros E. unfold zoom. cbn [b_idt]. by rewrite E. Qed.

Lemma timer_ok : timer_init (Boot (Machine k a n scr l p) g ts i v y) =
  Some ((), Boot (Machine k a 0 scr l p) g ts i (<[32%nat := Some timer_vector]> v) y).
Proof. done. Qed.
End steps.

(** Run [print], with [D] the fact that the screen displays. *)
Ltac bprint D :=
  let scr := fresh "scr" in let E := fresh "E" in let D' := fresh "D" in
  match goal with
  | |- context [print ?t (Boot (Machine ?k ?a ?n ?s ?l ?p) ?g ?ts ?i ?v ?y)] =>
      destruct (print_ok k a n s l p g ts i v y t D) as (scr & E & D');
        [apply lit_nonzero; vm_compute; reflexivity|]; rewrite E; clear E D; rename D' into D
  end.
Ltac brun := rewrite bind_run.

(** ** Hardware *)

Definition flat_gdt : list gdt_entry := Eval vm_compute in
  match gdt_init (replicate 6 (GdtEntry 0 0 0 0 0 0)) with Some (_, g) => g | None => [] end.

Lemma gdt_init_run g : length g = GDT_ENTRIES → gdt_init g = Some ((), flat_gdt).
Proof. intros Hl. do 7 (destruct g as [|? g]; try discriminate Hl). vm_compute. reflexivity. Qed.

Section hardware.
Context {H : Type} `{AtaDrive H} (stub : Z → Z).

Lemma init_hardware_run k (a : ata (H := option H)) n scr l p g ts i i' v y cells h :
  vidmem scr = flat cells → length cells = 2000%nat → 0 ≤ current_color scr < 256 →
  length g = GDT_ENTRIES → idt_init stub i = Some ((), i') → fs_dev (k_fs k) = None → ata_hw a = Some h →
  ∃ h' scr', init_hardware stub (Boot (Machine k a n scr l p) g ts i v y) =
      Some ((), Boot (Machine k (Ata (Some h') (drive_info a) (slave_info a)) 0 scr' l p) flat_gdt ts i'
                  (<[32%nat := Some timer_vector]> v) y) ∧ displays scr' ∧
    look h' = look h ∧ (AtaSpec.busy h' ≤ AtaSpec.busy h)%nat.
Proof.
  intros Hv Hl Hc Hg Hi Hd Hh. unfold init_hardware.
  destruct (clear_screen_run scr cells Hv Hl Hc) as (s1 & Es & _ & _ & Hshow).
  assert (displays s1) as D by by eexists.
  assert (∀ h : H, ∃ h', serial_init h = Some ((), h')) as Hser by (intros x; eexists; reflexivity).
  assert (∀ h : H, ∃ h', pic_remap 32 40 h = Some ((), h')) as Hpic by (intros x; eexists; reflexivity).
  assert (∀ h : H, ∃ h', pit_init 100 h = Some ((), h')) as Hpit.
  { intros x. unfold pit_init. change (pit_divisor 100) with (Some 11931). eexists. reflexivity. }
  destruct (Hser h) as (h1 & E1). brun. rewrite (ports_ok _ _ _ _ _ _ _ _ _ _ _ _ _ _ _ Hd Hh E1).
  brun. erewrite screen_ok by exact Es. brun. bprint D. brun. bprint D.
  brun. erewrite gdt_ok by exact (gdt_init_run g Hg). brun. bprint D.
  brun. erewrite idt_ok by exact Hi. brun. bprint D.
  destruct (Hpic h1) as (h2 & E2). brun. erewrite ports_ok by first [exact E2|exact Hd|reflexivity]. brun. bprint D.
  destruct (Hpit h2) as (h3 & E3). brun. erewrite ports_ok by first [exact E3|exact Hd|reflexivity]. brun. bprint D.
  brun. rewrite timer_ok. bprint D.
  destruct (serial_init_keeps _ _ _ E1) as [L1 B1]. destruct (pic_remap_keeps _ _ _ _ _ E2) as [L2 B2]. destruct (pit_init_keeps _ _ _ _ E3) as [L3 B3].
  eexists h3, _. split; [reflexivity|]. split; [exact D|]. split; [congruence|lia].
Qed.
End hardware.

(** ** Memory *)

Lemma pmm_init_boot p0 : pmm_init p0 = Some ((), boot_pmm).
Proof. vm_compute. reflexivity. Qed.

(** The allocator when the kernel's page tables have been made. *)
Definition paged_pmm : pmm_t := Eval vm_compute in default boot_pmm (pages_taken 5 boot_pmm).

Lemma paged_pmm_taken : pages_taken 5 boot_pmm = Some paged_pmm.
Proof. vm_compute. reflexivity. Qed.

(** What is outside the pool of frames keeps its bytes, so the heap stays. *)
Lemma low_words_heap m m' bs : low_words m m' → heap_rep m bs → heap_rep m' bs.
Proof.
  intros Hlow Hrep. apply seg_frame with m; [exact Hrep|]. intros x Hx. unfold HEAP_START, HEAP_END in Hx.
  pose proof (Z.div_mod x 4096). pose proof (Z.mod_pos_bound x 4096).
  replace x with (x / 4096 * 4096 + x mod 4096) by lia. apply frame_bytes; [|lia].
  intros j Hj. apply Hlow; [unfold aligned; by apply Z.mod_mul|exact Hj|unfold PMM_POOL_START; lia].
Qed.

(** The heap is one free block, the first 16 MB are mapped to themselves, and
    all frames of the pool but those of the tables and the RAM disk are free. *)
Record memory_ready (s : vm) : Prop := {
  mr_heap : heap_rep (ram s) [(HEAP_SIZE, true)];
  mr_inv : vm_inv s;
  mr_identity : identity_upto s 4;
  mr_cr3 : cr3 s = kernel_directory s;
  mr_pd : pd_physical_address s = kernel_directory s;
  mr_pg : Z.testbit (cr0 s) 31 = true;
  mr_tlb : tlb s = ∅;
  mr_pool : tables_in_pool s;
  mr_free : used_frames (frames s) ≤ 838
}.

Lemma memory_run v0 m1 c :
  heap_rep m1 [(HEAP_SIZE, true)] →
  ∃ s', paging_init (IO (set_frames boot_pmm (upd_ram (λ _, m1) v0)) c) = Some ((), IO s' c) ∧
    memory_ready s' ∧ frames s' = paged_pmm ∧ pf_handler s' = true.
Proof.
  intros Hrep. set (s := set_frames boot_pmm (upd_ram (λ _, m1) v0)).
  destruct (paging_init_run s c boot_pmm_inv boot_pmm_room)
    as (s' & E & Hinv & Hid & Hc3 & Hpd & Hpg & Hpf & Htlb & _ & Hlow & Htaken & Hpool).
  assert (frames s' = paged_pmm) as Hfr.
  { change (frames s) with boot_pmm in Htaken. rewrite paged_pmm_taken in Htaken. by injection Htaken. }
  exists s'. split; [exact E|]. split; [|split; [|exact Hpf]].
  - split; [by apply (low_words_heap m1)|done..|]. rewrite Hfr. vm_compute. congruence.
  - exact Hfr.
Qed.

(** The descriptor of the task state segment. *)
Definition tss_gdt (tss_address : Z) : list gdt_entry :=
  match gdt_set_gate 5 tss_address (sizeof_tss - 1) 0xE9 0x00 flat_gdt with Some (_, g) => g | None => [] end.

Section memory.
Context {H : Type} `{AtaDrive H} (tss_address : Z).

Lemma paging_start_ok o v0 v1 lg f (a : ata (H := option H)) n scr l p g ts i v y :
  paging_init (IO v0 []) = Some ((), IO v1 []) → pf_handler v1 = true → displays scr →
  ∃ scr', paging_start (Boot (Machine (Kernel (set_vmem v0 o) lg f) a n scr l p) g ts i v y) =
    Some ((), Boot (Machine (Kernel (set_vmem v1 o) lg f) a n scr' l p) g ts i (<[14%nat := Some page_fault_vector]> v) y) ∧
    displays scr'.
Proof.
  intros E Hpf D. unfold paging_start. brun. set (k := Kernel (set_vmem v0 o) lg f).
  destruct (kern_ok k a n scr l p g ts i v y (vmem_op paging_init) () (Kernel (set_vmem v1 o) lg f) []) as (scr' & E' & D').
  - exact (vmem_op_run paging_init (Kernel o lg f) v0 [] () v1 [] E).
  - exact D.
  - constructor.
  - exists scr'. rewrite E'. brun. cbn [get b_machine m_kernel k_os vmem set_vmem]. by rewrite Hpf.
Qed.

Lemma tss_start_ok o lg f (a : ata (H := option H)) n scr l p ts i v y :
  displays scr →
  ∃ scr', tss_start tss_address (Boot (Machine (Kernel o lg f) a n scr l p) flat_gdt ts i v y) =
    Some ((), Boot (Machine (Kernel (set_tss 0x9FC00 o) lg f) a n scr' l p) (tss_gdt tss_address) (Tss 0x10 0x9FC00 104) i v y) ∧
    displays scr'.
Proof.
  intros D. unfold tss_start. brun. unfold zoom at 1. cbn [b_tss b_gdt fst snd].
  assert (tss_init tss_address 0x10 0x9FC00 (ts, flat_gdt) = Some ((), (Tss 0x10 0x9FC00 104, tss_gdt tss_address))) as -> by done.
  cbn [b_machine b_idt b_vectors b_syscalls fst snd].
  apply (kern_ok (Kernel o lg f) a n scr l p _ _ i v y _ () (Kernel (set_tss 0x9FC00 o) lg f) []); [done|exact D|constructor].
Qed.

(** [klog_info] of a literal. *)
Lemma info_ok o lg f (a : ata (H := option H)) n scr l p g ts i v y msg h :
  displays scr → logs lg h → Z.of_nat (length h) + 1 < 4294967296 →
  fits (msg ++ [0]) [] = true →
  ∃ lg' h' scr', info msg (Boot (Machine (Kernel o lg f) a n scr l p) g ts i v y) =
    Some ((), Boot (Machine (Kernel o lg' f) a n scr' l p) g ts i v y) ∧ displays scr' ∧ logs lg' h' ∧
    length h' = S (length h).
Proof.
  intros D Hrep Hn Hf. destruct (log_says (Kernel o lg f) [] h KLOG_INFO (msg ++ [0]) [] Hrep) as (lg' & h' & out & E & Hrep' & Hlen & Hout);
    [done|done|done|constructor|].
  destruct (kern_ok (Kernel o lg f) a n scr l p g ts i v y (log_op (klog_info (msg ++ [0]) [])) () (Kernel o lg' f) out E D Hout) as (scr' & E' & D').
  by exists lg', h', scr'.
Qed.

Lemma init_memory_run o lg f (a : ata (H := option H)) n scr l p ts i v y :
  displays scr →
  ∃ vm' lg' h scr', init_memory tss_address (Boot (Machine (Kernel o lg f) a n scr l p) flat_gdt ts i v y) =
    Some ((), Boot (Machine (Kernel (set_tss 0x9FC00 (set_vmem vm' o)) lg' f) a n scr' l p) (tss_gdt tss_address)
                (Tss 0x10 0x9FC00 104) i (<[14%nat := Some page_fault_vector]> v) y) ∧
    displays scr' ∧ memory_ready vm' ∧ frames vm' = paged_pmm ∧ logs lg' h ∧ length h = 1%nat.
Proof.
  intros D. unfold init_memory. destruct (kmalloc_init_run (ram (vmem o))) as (m1 & Em & Hrep).
  set (v1 := upd_ram (λ _, m1) (vmem o)).
  destruct (kern_ok (Kernel o lg f) a n scr l p flat_gdt ts i v y (mem_op kmalloc_init) () (Kernel (set_vmem v1 o) lg f) [])
    as (s1 & E1 & D1); [by apply (mem_op_run kmalloc_init (Kernel o lg f))|exact D|constructor|].
  brun. rewrite E1. brun. bprint D1. set (v2 := set_frames boot_pmm v1).
  destruct (kern_ok (Kernel (set_vmem v1 o) lg f) a n scr0 l p flat_gdt ts i v y (io_frames (quiet pmm_init)) ()
    (Kernel (set_vmem v2 o) lg f) []) as (s2 & E2 & D2); [|exact D1|constructor|].
  { apply (vmem_op_run (zoom_io frames set_frames (quiet pmm_init)) (Kernel o lg f) v1 [] () v2 []).
    unfold zoom_io, zoom, quiet, zoom. cbn [st con]. by rewrite pmm_init_boot. }
  brun. rewrite E2. brun. bprint D2. destruct (memory_run (vmem o) m1 [] Hrep) as (v3 & E3 & Hready & Hfr & Hpf).
  destruct (paging_start_ok o v2 v3 lg f a n scr1 l p flat_gdt ts i v y E3 Hpf D2) as (s3 & E4 & D3).
  brun. rewrite E4. brun. bprint D3.
  destruct (tss_start_ok (set_vmem v3 o) lg f a n scr2 l p ts i (<[14%nat := Some page_fault_vector]> v) y D3) as (s4 & E5 & D4).
  brun. rewrite E5. brun. bprint D4. set (lg0 := Klog (replicate 256 zero_log_entry) 0 0 0).
  destruct (kern_ok (Kernel (set_tss 0x9FC00 (set_vmem v3 o)) lg f) a n scr3 l p (tss_gdt tss_address) (Tss 0x10 0x9FC00 104) i
    (<[14%nat := Some page_fault_vector]> v) y (log_op (quiet klog_init)) () (Kernel (set_tss 0x9FC00 (set_vmem v3 o)) lg0 f) [])
    as (s5 & E6 & D5); [done|exact D4|constructor|].
  brun. rewrite E6. brun. bprint D5.
  destruct (info_ok (set_tss 0x9FC00 (set_vmem v3 o)) lg0 f a n scr4 l p (tss_gdt tss_address) (Tss 0x10 0x9FC00 104) i
    (<[14%nat := Some page_fault_vector]> v) y (str "ApPa Kernel v0.1 booting...") [] D5 (conj empty_log_rep (Forall_nil _)) ltac:(done) eq_refl)
    as (lg' & h & s6 & E7 & D6 & Hlog & Hlen).
  rewrite E7. exists v3, lg', h, s6. split_and!; [reflexivity|exact D6|exact Hready|exact Hfr|exact Hlog|exact Hlen].
Qed.
End memory.

(** ** The RAM disk *)

Definition ram_base : Z := Eval vm_compute in
  match alloc_pages 64 paged_pmm with Some (a, _) => a | None => 0 end.
Definition ram_pmm : pmm_t := Eval vm_compute in
  match alloc_pages 64 paged_pmm with Some (_, p) => p | None => paged_pmm end.

Lemma ram_pages : alloc_pages 64 paged_pmm = Some (ram_base, ram_pmm).
Proof. vm_compute. reflexivity. Qed.

(** The memory with the disk cleared. *)
Definition ram_cleared (m : mem) : mem := mem_set m ram_base 0 (Z.to_nat 262144).

Lemma make_ramdisk_run {H : Type} o lg (f : fs (blkdev H)) s c :
  frames s = paged_pmm →
  make_ramdisk 256 (IO (Kernel (set_vmem s o) lg f) c) =
  Some (Some (Ramdisk (ram_cleared (ram s)) ram_base 262144),
        IO (Kernel (set_vmem (set_frames ram_pmm (upd_ram (λ _, ram_cleared (ram s)) s)) o) lg f) c).
Proof.
  intros Hf. unfold make_ramdisk, ramdisk_init. cbn [st con k_os vmem set_vmem]. rewrite Hf.
  change ((256 *! 1024 +! PAGE_SIZE -! 1) / PAGE_SIZE) with 64.
  assert (64 *! PAGE_SIZE = 262144) as Hsz by (vm_compute; reflexivity). rewrite Hsz.
  rewrite bind_run. unfold quiet at 1, zoom at 1 2. cbn [st con fst snd]. rewrite ram_pages.
  change (ram_base =? 0) with false. cbv iota beta. rewrite bind_run. unfold quiet, zoom, modify.
  cbn [st con fst snd rd_mem mret M_ret k_log k_fs]. reflexivity.
Qed.

Lemma mem_get_zero m p n : (∀ x, p ≤ x < p + Z.of_nat n → load8 m x = 0) → mem_get m p n = replicate n 0.
Proof.
  revert p. induction n as [|n IH]; intros p Hz; cbn [mem_get replicate]; [done|].
  rewrite Hz by lia. f_equal. apply IH. intros x Hx. apply Hz. lia.
Qed.

(** A device that can be mounted: it holds a file system, or none. *)
Definition mountable {D} `{BlockDevLaws D} (d : D) : Prop :=
  bd_ok d ∧ 3 ≤ bd_total d ∧
  (magic (dec_superblock (blk d 0)) ≠ FS_MAGIC ∨ ∃ sb, fs_inv d sb ∧ magic sb = FS_MAGIC).

Lemma mount_run {D} `{BlockDevLaws D} (d : D) s :
  mountable d → is_block (block_buf s) →
  ∃ d' sb s', fs_init (Some d) s = Some (0, s') ∧ fs_at d' sb s' ∧ fs_inv d' sb.
Proof.
  intros (Hok & Ht & [Hm|(sb & Hinv & Hm)]) Hb.
  - destruct (fs_init_formats d s Hok Ht Hb Hm) as (d' & sb & s' & E & Hat & _ & Hinv & _). by exists d', sb, s'.
  - destruct (remount_run d sb s Hinv Hb Hm) as (s' & E & Hat). by exists d, sb, s'.
Qed.

Section ramdisk.
Context (s : vm) (Hready : memory_ready s) (Hf : frames s = paged_pmm).

Let m' := ram_cleared (ram s).
Let s' := set_frames ram_pmm (upd_ram (λ _, m') s).

(** The frames of the disk were free. *)
Lemma ram_range :
  ∃ first, ram_base = first * 4096 ∧ 513 ≤ first ∧
    (∀ g, first ≤ g < first + 64 → used paged_pmm g = false) ∧
    (∀ g, is_frame g → used paged_pmm g = true → used ram_pmm g = true) ∧ pmm_inv (IO ram_pmm []).
Proof using Hready Hf.
  pose proof (vi_pmm _ (mr_inv _ Hready)) as Hp. rewrite Hf in Hp.
  destruct (alloc_pages_run paged_pmm 64 (proj1 Hp)) as (a & p' & E & _ & Hcase); [lia|].
  rewrite ram_pages in E. injection E as <- <-. destruct Hcase as [(Ha & _)|(first & Ha & _ & _ & _ & Hfree & _ & _ & Hu)]; [done|].
  exists first. split; [exact Ha|]. split; [unfold ram_base, PAGE_SIZE in Ha; lia|]. split_and!.
  - intros g Hg. specialize (Hfree g Hg). by apply negb_true_iff in Hfree.
  - intros g Hg Hug. rewrite Hu by done. by rewrite Hug.
  - apply (pmm_step_inv (IO paged_pmm [])); [exact Hp|]. apply (step_alloc_pages 64 _ _ ram_base); [lia|].
    unfold quiet, zoom. cbn [st con]. by rewrite ram_pages.
Qed.

Lemma ram_extends : extends s s'.
Proof using Hready Hf.
  destruct ram_range as (first & Hb & _ & Hfree & Hmono & Hp). split; [done|done|done|exact Hp|..].
  - intros t (Hal & Ht & Hu). rewrite Hf in Hu. split; [exact Hal|]. split; [exact Ht|]. cbn [s' frames set_frames].
    apply Hmono; [|exact Hu]. unfold is_frame. change TOTAL_MEMORY with 16777216 in Ht. change TOTAL_FRAMES with 4096.
    unfold PAGE_SIZE. split; [apply Z.div_pos; lia|apply Z.div_lt_upper_bound; lia].
  - intros t j (Hal & Ht & Hu) Hj. rewrite Hf in Hu. unfold aligned, PAGE_SIZE, idx in *.
    pose proof (Z.div_mod t 4096). cbn [s' ram set_frames upd_ram]. unfold m', ram_cleared, entry.
    apply load32_mem_set_ne. rewrite Z2Nat.id by lia. rewrite Hb.
    destruct (Z.lt_ge_cases (t / 4096) first); [left; lia|].
    destruct (Z.lt_ge_cases (t / 4096) (first + 64)); [|right; lia]. rewrite Hfree in Hu by lia. done.
Qed.

Lemma ram_ready : memory_ready s'.
Proof using Hready Hf.
  destruct (ex_kernel s s' (mr_inv _ Hready) ram_extends) as [Hinv Hw]. destruct ram_range as (first & Hb & Hlo & _).
  destruct Hready as [Hheap Hinv0 Hid Hc3 Hpd Hpg Htlb [Hkd Hpool] _].
  split; [|exact Hinv| |exact Hc3|exact Hpd|exact Hpg|exact Htlb| |vm_compute; congruence].
  - apply seg_frame with (ram s); [exact Hheap|]. intros x Hx. cbn [s' ram set_frames upd_ram].
    unfold m', ram_cleared. rewrite load8_mem_set. unfold HEAP_END in Hx.
    destruct (Z.leb_spec ram_base x); [lia|done].
  - intros va Hva. rewrite Hw by exact Hva. by apply Hid.
  - split; [exact Hkd|]. intros j Hj. change (kernel_directory s') with (kernel_directory s).
    rewrite (ex_entry _ _ ram_extends) by (exact Hj || exact (vi_dir _ Hinv0)). by apply Hpool.
Qed.

Lemma ram_mountable {H} `{AtaDrive H} polls (a : ata (H := H)) :
  @mountable (blkdev H) (blkdev_dev polls) (blkdev_laws polls true) (Blkdev a (Some (Ramdisk m' ram_base 262144))).
Proof using.
  split; [split; [done|]; vm_compute; split_and!; congruence|]. split; [vm_compute; congruence|]. left.
  cbn [blk blkdev_laws d_ram ramdisk_laws].
  assert (ramdisk_read (Ramdisk m' ram_base 262144) 0 = Some (replicate 512 0)) as ->; [|vm_compute; congruence].
  unfold ramdisk_read. cbn [ramdisk_base ramdisk_size rd_mem].
  change (ram_base =? 0) with false. change (0 *! BLOCK_SIZE +! BLOCK_SIZE >? 262144) with false. cbv iota zeta. f_equal.
  apply mem_get_zero. intros x Hx. change (0 *! BLOCK_SIZE) with 0 in Hx. unfold m', ram_cleared. rewrite load8_mem_set, Z2Nat.id by lia.
  destruct (Z.leb_spec ram_base x); [|lia]. destruct (Z.ltb_spec x (ram_base + 262144)); [done|lia].
Qed.
End ramdisk.

(** ** Disks and the file system *)

Section disks.
Context {H : Type} `{AtaDrive H} (polls : nat).

Lemma report_drive_ok label none d k (a : ata (H := option H)) n scr l p g ts i v y :
  drive_shown d → displays scr → nonzero label → nonzero none →
  ∃ scr', report_drive label none d (Boot (Machine k a n scr l p) g ts i v y) =
    Some ((), Boot (Machine k a n scr' l p) g ts i v y) ∧ displays scr'.
Proof.
  intros Hn D Hl Hno. unfold report_drive. destruct (truth (di_present d)) eqn:Et; [|by apply print_ok].
  destruct (Hn ltac:(by intros Hz; rewrite Hz in Et)) as ((t & r & Em & Ht) & _). brun. destruct (print_ok k a n scr l p g ts i v y label D Hl) as (s1 & -> & D1).
  brun. rewrite Em, cstr_app by done. cbn [of_option].
  brun. destruct (print_ok k a n s1 l p g ts i v y t D1 Ht) as (s2 & -> & D2).
  apply print_ok; [exact D2|by apply (bool_decide_unpack _)].
Qed.

Lemma take_bus_ok k (a : ata (H := option H)) n scr l p g ts i v y h :
  ata_hw a = Some h →
  take_bus (Boot (Machine k a n scr l p) g ts i v y) =
  Some (Ata h (drive_info a) (slave_info a), Boot (Machine k (Ata None (drive_info a) (slave_info a)) n scr l p) g ts i v y).
Proof. intros Hh. unfold take_bus. brun. cbn [get b_machine m_ata]. by rewrite Hh. Qed.

#[local] Hint Extern 0 (BlockDev (blkdev _)) => exact (blkdev_dev polls) : typeclass_instances.

(** A device that can be mounted, and whether it is the RAM disk. *)
Definition usable (ram : bool) (d : blkdev H) : Prop := @mountable _ _ (blkdev_laws polls ram) d.

(** The block device is the slave, or a RAM disk in memory that was free. *)
Lemma choose_blkdev_ok o s lg f (a : ata (H := option H)) n scr l p g ts i v y h hw :
  memory_ready s → frames s = paged_pmm → displays scr → logs lg h → (length h ≤ 1)%nat → ata_hw a = Some hw →
  let ram := di_present (slave_info a) =? 0 in
  (ram = false → usable false (Blkdev (Ata hw (drive_info a) (slave_info a)) None)) →
  ∃ d s' lg' h' scr', choose_blkdev (Boot (Machine (Kernel (set_vmem s o) lg f) a n scr l p) g ts i v y) =
    Some (Some d, Boot (Machine (Kernel (set_vmem s' o) lg' f) (Ata None (drive_info a) (slave_info a)) n scr' l p) g ts i v y) ∧
    usable ram d ∧ memory_ready s' ∧ displays scr' ∧ logs lg' h' ∧ (length h' ≤ 2)%nat.
Proof.
  intros Hs Hf D Hlog Hlen Hh ram Hm. unfold choose_blkdev. brun. cbn [get b_machine m_ata].
  unfold ata_blockdev_init, ata_get_slave_info. unfold ram in *. destruct (Z.eqb_spec (di_present (slave_info a)) 0) as [Hz|Hz].
  - brun. bprint D. brun.
    destruct (kern_ok (Kernel (set_vmem s o) lg f) a n scr0 l p g ts i v y (make_ramdisk 256) _ _ _
      (make_ramdisk_run o lg f s [] Hf)) as (s2 & E2 & D2); [exact D|constructor|].
    rewrite E2. brun. bprint D2. brun. set (s' := set_frames ram_pmm _).
    destruct (info_ok (set_vmem s' o) lg f a n scr1 l p g ts i v y (str "FS: using RAM disk (volatile)") h D2 Hlog ltac:(lia) eq_refl)
      as (lg' & h' & s3 & E3 & D3 & Hlog' & Hlen'). rewrite E3. brun. rewrite (take_bus_ok _ _ _ _ _ _ _ _ _ _ _ hw Hh).
    eexists _, s', lg', h', s3. split; [reflexivity|]. split; [apply ram_mountable|].
    split; [by apply ram_ready|]. split; [exact D3|]. split; [exact Hlog'|lia].
  - brun. bprint D. brun.
    destruct (info_ok (set_vmem s o) lg f a n scr0 l p g ts i v y (str "FS: using ATA slave (persistent)") h D Hlog ltac:(lia) eq_refl)
      as (lg' & h' & s3 & E3 & D3 & Hlog' & Hlen'). rewrite E3. brun. rewrite (take_bus_ok _ _ _ _ _ _ _ _ _ _ _ hw Hh).
    eexists _, s, lg', h', s3. split; [reflexivity|]. split; [by apply Hm|].
    split; [exact Hs|]. split; [exact D3|]. split; [exact Hlog'|lia].
Qed.

(** A mounted file system on the device. *)
Definition mounted_on (ram : bool) (f : fs (blkdev H)) : Prop :=
  let _ := blkdev_laws polls ram in ∃ d sb, fs_at d sb f ∧ fs_inv d sb.

Lemma mount_ok d ram o lg f (a : ata (H := option H)) n scr l p g ts i v y h :
  usable ram d → is_block (block_buf f) → displays scr → logs lg h → (length h ≤ 2)%nat →
  ∃ lg' f' h' scr', mount polls (Some d) (Boot (Machine (Kernel o lg f) a n scr l p) g ts i v y) =
    Some ((), Boot (Machine (Kernel o lg' f') a n scr' l p) g ts i v y) ∧
    mounted_on ram f' ∧ displays scr' ∧ logs lg' h' ∧ (length h' ≤ 3)%nat.
Proof.
  intros Hd Hb D Hlog Hlen. destruct (@mount_run _ _ (blkdev_laws polls ram) d f Hd Hb) as (d' & sb & f' & E & Hat & Hinv). unfold mount. brun.
  destruct (kern_ok (Kernel o lg f) a n scr l p g ts i v y (fs_op (fs_init (Some d))) 0 (Kernel o lg f') []) as (s1 & E1 & D1);
    [|exact D|constructor|].
  { unfold fs_op, quiet, zoom. cbn [st con k_fs]. by rewrite E. }
  rewrite E1. cbn [Z.eqb]. brun. bprint D1.
  destruct (info_ok o lg f' a n scr0 l p g ts i v y (str "SimpleFS mounted") h D1 Hlog ltac:(lia) eq_refl)
    as (lg' & h' & s3 & E3 & D3 & Hlog' & Hlen'). rewrite E3.
  exists lg', f', h', s3. split_and!; [reflexivity|by exists d', sb|exact D3|exact Hlog'|lia].
Qed.

Lemma init_disks_run o s lg f (a : ata (H := option H)) (b b' : ata (H := H)) n scr l p g ts i v y h :
  memory_ready s → frames s = paged_pmm → displays scr → logs lg h → (length h ≤ 1)%nat → is_block (block_buf f) →
  a = Ata (Some (ata_hw b)) (drive_info b) (slave_info b) → ata_init polls b = Some ((), b') →
  let ram := di_present (slave_info b') =? 0 in
  (ram = false → usable false (Blkdev b' None)) →
  ∃ s' lg' f' h' scr', init_disks polls (Boot (Machine (Kernel (set_vmem s o) lg f) a n scr l p) g ts i v y) =
    Some ((), Boot (Machine (Kernel (set_vmem s' o) lg' f') (Ata None (drive_info b') (slave_info b')) n scr' l p) g ts i v y) ∧
    memory_ready s' ∧ mounted_on ram f' ∧ displays scr' ∧ logs lg' h' ∧ (length h' ≤ 3)%nat.
Proof.
  intros Hs Hf D Hlog Hlen Hb -> Ea ram Hm. destruct (ata_init_shown polls b b' Ea) as [Hn1 Hn2]. unfold init_disks. brun.
  set (a' := Ata (Some (ata_hw b')) (drive_info b') (slave_info b')).
  assert (on_ata (ata_init polls) (Boot (Machine (Kernel (set_vmem s o) lg f) (Ata (Some (ata_hw b)) (drive_info b) (slave_info b)) n scr l p) g ts i v y) =
    Some ((), Boot (Machine (Kernel (set_vmem s o) lg f) a' n scr l p) g ts i v y)) as ->.
  { unfold on_ata, on_m, zoom, with_bus. destruct b as [hb db sb]. cbn [b_machine m_ata ata_hw drive_info slave_info]. by rewrite Ea. }
  brun. cbn [get b_machine m_ata]. unfold ata_get_info, ata_get_slave_info.
  brun. edestruct (report_drive_ok (str "  [OK] ATA master: ") (str "  [--] No ATA master detected" ++ [10]) (drive_info a'))
    as (s1 & E1 & D1); [exact Hn1|exact D|by apply (bool_decide_unpack _)..|]. rewrite E1.
  brun. edestruct (report_drive_ok (str "  [OK] ATA slave:  ") (str "  [--] No ATA slave detected" ++ [10]) (slave_info a'))
    as (s2 & E2 & D2); [exact Hn2|exact D1|by apply (bool_decide_unpack _)..|]. rewrite E2.
  brun. destruct (choose_blkdev_ok o s lg f a' n s2 l p g ts i v y h (ata_hw b') Hs Hf D2 Hlog Hlen eq_refl)
    as (d & s' & lg' & h' & s3 & E3 & Hd & Hs' & D3 & Hlog' & Hlen'); [intros Hr; destruct b' as [hb db sb]; by apply Hm|]. rewrite E3.
  destruct (mount_ok d ram (set_vmem s' o) lg' f (Ata None (drive_info a') (slave_info a')) n s3 l p g ts i v y h' Hd Hb D3 Hlog' Hlen')
    as (lg2 & f2 & h2 & s4 & E4 & Hmnt & D4 & Hlog2 & Hlen2). rewrite E4.
  exists s', lg2, f2, h2, s4. done.
Qed.

(** Port accesses beside the drives leave the file system as it is. *)
Lemma mounted_keeps ram f h' d :
  mounted_on ram f → fs_dev f = Some d → look h' = look (ata_hw (d_bus d)) →
  mounted_on ram (set_dev (Blkdev (Ata h' (drive_info (d_bus d)) (slave_info (d_bus d))) (d_ram d)) f).
Proof.
  intros (d1 & sb & ((d0 & Hd0 & Hok & Ht & Hb) & Hsb & Hbuf) & Hinv) Hd L. rewrite Hd in Hd0. injection Hd0 as ->.
  exists d1, sb. split; [|exact Hinv]. split; [|done]. eexists. split; [reflexivity|].
  destruct d0 as [a [m|]]; cbn [d_bus d_ram] in *; [by split|].
  split; [|split; [exact Ht|]].
  - intros Hk. destruct (Hok Hk) as [Hr [Hp Hf [(Hi & Hs & Hm) Hpr Hto Hse Hre]]]. split; [exact Hr|].
    unfold slave_sectors in *. split; [exact Hp|exact Hf|]. unfold slave_sectors. cbn [ata_hw d_bus].
    rewrite L. split; cbn [slave_info ata_hw]; [|done..]. unfold settled. by rewrite L.
  - intros b Hbr. rewrite <- (Hb b Hbr). cbn. unfold slave_sectors. cbn [ata_hw]. by rewrite L.
Qed.
End disks.

(** ** Services *)

(** The scheduler as [sched_init] leaves it. *)
Definition idle_task : task := Task 0 (str "idle" ++ replicate 28 0) TASK_RUNNING 0 0 0 0 0 0 0 0 PBoot.
Definition scheduled (o : os) : os :=
  set_on 0 (set_slice SCHED_TIME_SLICE (set_head PBoot (set_current PBoot (set_boot idle_task o)))).

Lemma scheduled_inv o : task_pool o = replicate 64 zero_task → cr3 (vmem o) = pd_physical_address (vmem o) → task_inv (scheduled o) [].
Proof.
  intros Hp Hc. split; [split; [split| | |]| |].
  - done.
  - cbn. rewrite Hp. done.
  - done.
  - constructor.
  - intros q Hq. by apply not_elem_of_nil in Hq.
  - by left.
  - intros q t [->|Hq]%elem_of_cons Ht Hs; [done|by apply not_elem_of_nil in Hq].
  - intros t Ht. injection Ht as <-. exact Hc.
  - cbn. unfold SCHED_TIME_SLICE. lia.
  - intros j t Ht _. cbn in Ht. rewrite Hp in Ht. apply lookup_replicate in Ht as [-> _]. done.
  - intros j t _ Hj. by apply not_elem_of_nil in Hj.
Qed.

(** The flags of the processor and of the scheduler are not in the invariant. *)
Lemma set_if_task_inv f s qs : task_inv s qs → task_inv (set_if f s) qs.
Proof. intros [Hs Hf Hl]. split; [by apply set_if_inv|exact Hf|exact Hl]. Qed.

Lemma set_on_task_inv x s qs : task_inv s qs → task_inv (set_on x s) qs.
Proof.
  intros [[Hq Hr Hc Hs] Hf Hl]. split; [|exact Hf|exact Hl]. split; [|exact Hr|exact Hc|exact Hs].
  apply (queue_keep s); [done..|apply Hq].
Qed.

Section services.
Context {H : Type} `{AtaDrive H} (syscall_stub : Z) (polls : nat).
Hypothesis keyboard_answers : ∀ h : H, ∃ h', wait_output polls h = Some ((), h').

Lemma keyboard_init_run (h : H) : ∃ h', keyboard_init polls h = Some ((), h').
Proof using keyboard_answers.
  unfold keyboard_init, port_byte_out, port_byte_in. do 4 (brun; cbn [modify fst snd]). brun.
  match goal with |- context [wait_output polls ?x] => destruct (keyboard_answers x) as (h1 & E) end.
  rewrite E. brun. eexists. reflexivity.
Qed.

Lemma init_services_run ram o lg f (a : ata (H := option H)) n scr l p g ts i i' v y :
  displays scr → (0 < length l)%nat → syscall_gate syscall_stub i = Some ((), i') → mounted_on polls ram f →
  ∃ f' scr', init_services polls syscall_stub (Boot (Machine (Kernel o lg f) a n scr l p) g ts i v y) =
    Some ((), Boot (Machine (Kernel (set_if true (scheduled o)) lg f') a n scr' (<[0%nat := 0]> l) 0)
                g ts i' (<[13%nat := Some gpf_vector]> (<[33%nat := Some keyboard_vector]> v)) syscall_init_table) ∧
    displays scr' ∧ mounted_on polls ram f'.
Proof using keyboard_answers.
  intros D Hl Hi Hmnt. assert (∃ d, fs_dev f = Some d) as (d & Hd) by (destruct Hmnt as (? & ? & ((d & ? & _) & _) & _); by exists d).
  unfold init_services. destruct (keyboard_init_run (ata_hw (d_bus d))) as (h1 & E1).
  pose proof (mounted_keeps polls ram f h1 d Hmnt Hd (proj1 (keyboard_init_keeps _ _ _ _ E1))) as Hmnt'.
  set (v1 := <[33%nat := Some keyboard_vector]> v).
  brun. unfold keyboard_start. brun. unfold register, modify at 1. cbn [b_machine b_gdt b_tss b_idt b_vectors b_syscalls]. fold v1.
  rewrite (ports_dev_ok (Kernel o lg f) a n scr l p g ts i v1 y _ d () h1 Hd E1).
  cbn [k_os k_log k_fs]. set (f1 := set_dev _ f) in *. brun. bprint D.
  assert (on_m shell_init (Boot (Machine (Kernel o lg f1) a n scr0 l p) g ts i v1 y) =
    Some ((), Boot (Machine (Kernel o lg f1) a n scr0 (<[0%nat := 0]> l) 0) g ts i v1 y)) as Esh.
  { unfold on_m, zoom, shell_init, set_pos, buf_write. cbn [b_machine]. rewrite bind_run. cbn [modify]. rewrite bind_run.
    cbn [get]. unfold set_line. cbn [command_buffer]. destruct (Z.ltb_spec 0 (Z.of_nat (length l))); [done|lia]. }
  brun. rewrite Esh. brun. bprint D.
  destruct (kern_ok (Kernel o lg f1) a n scr1 (<[0%nat := 0]> l) 0 g ts i v1 y (os_op (quiet sched_init)) () (Kernel (scheduled o) lg f1) [])
    as (s2 & E2 & D2); [done|exact D|constructor|].
  brun. rewrite E2. brun. bprint D2.
  assert (syscall_init syscall_stub (Boot (Machine (Kernel (scheduled o) lg f1) a n scr2 (<[0%nat := 0]> l) 0) g ts i v1 y) =
    Some ((), Boot (Machine (Kernel (scheduled o) lg f1) a n scr2 (<[0%nat := 0]> l) 0) g ts i' (<[13%nat := Some gpf_vector]> v1)
                syscall_init_table)) as Esy.
  { unfold syscall_init. rewrite bind_run. cbn [modify]. rewrite bind_run. unfold zoom. cbn [b_idt]. by rewrite Hi. }
  brun. rewrite Esy. brun. bprint D2.
  destruct (kern_ok (Kernel (scheduled o) lg f1) a n scr3 (<[0%nat := 0]> l) 0 g ts i' (<[13%nat := Some gpf_vector]> v1) syscall_init_table
    (os_op (quiet sti)) () (Kernel (set_if true (scheduled o)) lg f1) []) as (s4 & E4 & D4); [done|exact D2|constructor|].
  brun. rewrite E4. bprint D4. eexists f1, _. split; [reflexivity|]. split; [exact D4|exact Hmnt'].
Qed.
End services.

(** ** The started kernel *)

Section start.
Context {H : Type} `{AtaDrive H} (stub : Z → Z) (syscall_stub tss_address : Z) (polls : nat).

#[local] Hint Extern 0 (BlockDev (blkdev _)) => exact (blkdev_dev polls) : typeclass_instances.

(** The machine with hardware [h] when the boot loader jumps to [main]: zeroed
    statics, anything in memory and on the screen. *)
Record loaded (h : H) (b : boot H) : Prop := {
  lo_hardware : ata_hw (m_ata (b_machine b)) = Some h;
  lo_device : fs_dev (k_fs (m_kernel (b_machine b))) = None;
  lo_cells : ∃ cells, vidmem (m_screen (b_machine b)) = flat cells ∧ length cells = 2000%nat;
  lo_color : 0 ≤ current_color (m_screen (b_machine b)) < 256;
  lo_gdt : length (b_gdt b) = GDT_ENTRIES;
  lo_idt : length (b_idt b) = IDT_ENTRIES;
  lo_vectors : b_vectors b = replicate 256 None;
  lo_pool : task_pool (k_os (m_kernel (b_machine b))) = replicate 64 zero_task;
  lo_buf : is_block (block_buf (k_fs (m_kernel (b_machine b))));
  lo_line : length (command_buffer (b_machine b)) = 256%nat
}.

(** What [main] relies on of the devices.  The drives follow the PIO protocol,
    answer within the bound, are idle and describe themselves correctly; the
    keyboard controller answers.  A slave drive, if there is one, stands a
    flush command right after a write and has at least three sectors, which
    hold no file system (no magic number), or a consistent one. *)
Record devices_ok (h : H) : Prop := {
  do_polls : (AtaSpec.delay < polls)%nat;
  do_keyboard : ∀ h' : H, ∃ h'', wait_output polls h' = Some ((), h'');
  do_calm : calm h;
  do_described : ∀ sl, described (look h) sl;
  do_flush : ids (look h) true ≠ None → flush_tolerant H;
  do_slave : ids (look h) true ≠ None → 3 ≤ Z.of_nat (length (slave (look h))) ∧
    ∀ a, slave_sectors a = slave (look h) → bd_total (Blkdev a None) = Z.of_nat (length (slave (look h))) →
      blkdev_ok polls false (Blkdev a None) →
      let _ := blkdev_laws polls false in
      magic (dec_superblock (blk (Blkdev a None) 0)) ≠ FS_MAGIC ∨ ∃ sb, fs_inv (Blkdev a None) sb ∧ magic sb = FS_MAGIC
}.

(** The invariants from which the theorems about the components start; [ram]
    says whether the file system is on the RAM disk. *)
Record booted (ram : bool) (b : boot H) : Prop := {
  bo_screen : displays (m_screen (b_machine b));
  bo_gdt : ∀ sel ring code, (sel, ring, code) ∈ [(0x08, 0, true); (0x10, 0, false); (0x1B, 3, true); (0x23, 3, false)] →
    ∃ e, selected_entry (b_gdt b) sel = Some e ∧ seg_present e = true ∧ seg_base e = 0 ∧ seg_limit e = 0xFFFFFFFF ∧
         seg_dpl e = ring ∧ seg_code e = code;
  bo_idt : gates_set stub syscall_stub (b_idt b);
  bo_vectors : ∀ n, b_vectors b !! n =
    if (n <? 256)%nat then
      Some (if (n =? 13)%nat then Some gpf_vector else if (n =? 33)%nat then Some keyboard_vector
            else if (n =? 14)%nat then Some page_fault_vector else if (n =? 32)%nat then Some timer_vector else None)
    else None;
  bo_syscalls : b_syscalls b = syscall_init_table;
  bo_memory : memory_ready (vmem (k_os (m_kernel (b_machine b))));
  bo_tasks : task_inv (k_os (m_kernel (b_machine b))) [];
  bo_interrupts : if_flag (k_os (m_kernel (b_machine b))) = true;
  bo_log : ∃ h, logs (k_log (m_kernel (b_machine b))) h ∧ Z.of_nat (length h) < 2147483648;
  bo_files : mounted_on polls ram (k_fs (m_kernel (b_machine b)));
  bo_shell : buffer_pos (b_machine b) = 0 ∧ command_buffer (b_machine b) !! 0%nat = Some 0 ∧
    length (command_buffer (b_machine b)) = 256%nat;
  bo_drives : drive_shown (drive_info (m_ata (b_machine b))) ∧ drive_shown (slave_info (m_ata (b_machine b)));
  bo_ticks : 0 ≤ m_ticks (b_machine b) < 4294967296
}.

Lemma tss_gdt_flat sel ring code :
  (sel, ring, code) ∈ [(0x08, 0, true); (0x10, 0, false); (0x1B, 3, true); (0x23, 3, false)] →
  ∃ e, selected_entry (tss_gdt tss_address) sel = Some e ∧ seg_present e = true ∧ seg_base e = 0 ∧ seg_limit e = 0xFFFFFFFF ∧
       seg_dpl e = ring ∧ seg_code e = code.
Proof using Type.
  intros Hin. rewrite !elem_of_cons, elem_of_nil in Hin. destruct Hin as [Hin|[Hin|[Hin|[Hin|[]]]]]; injection Hin as -> -> ->;
    (eexists; split; [reflexivity|]; vm_compute; split_and!; reflexivity).
Qed.

Lemma vectors_lookup (n : nat) :
  (<[13%nat := Some gpf_vector]> (<[33%nat := Some keyboard_vector]> (<[14%nat := Some page_fault_vector]>
     (<[32%nat := Some timer_vector]> (replicate 256 None))))) !! n =
  if (n <? 256)%nat then
    Some (if (n =? 13)%nat then Some gpf_vector else if (n =? 33)%nat then Some keyboard_vector
          else if (n =? 14)%nat then Some page_fault_vector else if (n =? 32)%nat then Some timer_vector else None)
  else None.
Proof using Type.
  destruct (Nat.ltb_spec n 256) as [Hn|Hn];
    [|by apply lookup_ge_None_2; rewrite !length_insert, length_replicate].
  assert (∀ (i : nat) (x : option vector_handler) l, (i < length l)%nat →
    <[i := x]> l !! n = if (n =? i)%nat then Some x else l !! n) as Hins.
  { intros i x l Hi. destruct (Nat.eqb_spec n i) as [->|Hne]; [by apply list_lookup_insert_eq|by apply list_lookup_insert_ne]. }
  rewrite !Hins by (rewrite ?length_insert, length_replicate; lia). rewrite lookup_replicate_2 by done.
  repeat case_match; done.
Qed.

(** Without a slave drive the device is the RAM disk. *)
Definition no_slave (h : H) : bool := match ids (look h) true with Some _ => false | None => true end.

(** The probe, and what it makes of the slave. *)
Lemma probe_usable b0 h0 h :
  devices_ok h → ata_hw b0 = h0 → look h0 = look h → (AtaSpec.busy h0 ≤ AtaSpec.busy h)%nat →
  ∃ b', ata_init polls b0 = Some ((), b') ∧ (di_present (slave_info b') =? 0) = no_slave h ∧
    (no_slave h = false → usable polls false (Blkdev b' None)).
Proof using Type.
  intros Hdev E L B. pose proof (do_calm h Hdev) as [Hb Hi].
  destruct (ata_init_finds polls (do_polls h Hdev) b0) as (b' & Ea & _ & _ & Hfound).
  - rewrite E. split; [lia|by rewrite L].
  - rewrite E, L. apply (do_described h Hdev).
  - rewrite E, L. apply (do_described h Hdev).
  - exists b'. split; [exact Ea|]. rewrite E, L in Hfound. unfold no_slave. destruct (ids (look h) true) as [ws|] eqn:Eid.
    + assert (ids (look h) true ≠ None) as Hne by congruence. destruct (do_slave h Hdev Hne) as [H3 Hs].
      destruct (holds_sectors b' _ _ Hfound) as [Hsec Hmas]. split; [by apply Z.eqb_neq, (ho_present _ _ _ Hfound)|]. intros _.
      assert (bd_total (Blkdev b' None) = Z.of_nat (length (slave (look h)))) as Ht by exact (ho_total _ _ _ Hfound).
      assert (blkdev_ok polls false (Blkdev b' None)) as Hok.
      { split; [done|]. cbn [d_bus]. split; [exact (do_polls h Hdev)|exact (do_flush h Hdev Hne)|]. by rewrite Hsec, Hmas. }
      split; [exact Hok|]. split; [by rewrite Ht|]. by apply Hs.
    + by rewrite Hfound.
Qed.

Context (h0 : H) (Hdev : devices_ok h0) (Hstub : ∀ i, 0 ≤ stub i < 4294967296) (Hsys : 0 ≤ syscall_stub < 4294967296).

Lemma init_all_run b :
  loaded h0 b → ∃ b', init_all polls stub syscall_stub tss_address b = Some ((), b') ∧ booted (no_slave h0) b'.
Proof using All.
  intros Hb. destruct b as [[[o lg f] a n scr l p] g ts i v y].
  destruct Hb as [Hhw Hfd (cells & Hcells & Hlen) Hcol Hg Hi Hv Hpool Hbuf Hl].
  cbn [b_machine b_gdt b_idt b_vectors m_screen m_kernel m_ata k_os k_fs command_buffer] in *.
  destruct (idt_run i stub syscall_stub Hi Hstub Hsys) as (i1 & i2 & Ei1 & Ei2 & Hgates).
  unfold init_all. brun.
  destruct (init_hardware_run stub (Kernel o lg f) a n scr l p g ts i i1 v y cells h0 Hcells Hlen Hcol Hg Ei1 Hfd Hhw) as (h1 & s1 & E1 & D1 & L1 & B1).
  rewrite E1. set (a1 := Ata (Some h1) (drive_info a) (slave_info a)). set (v1 := <[32%nat := Some timer_vector]> v).
  brun. destruct (init_memory_run tss_address o lg f a1 0 s1 l p ts i1 v1 y D1)
    as (vm1 & lg1 & hist1 & s2 & E2 & D2 & Hready & Hfr & Hlog & Hlen1).
  rewrite E2. set (v2 := <[14%nat := Some page_fault_vector]> v1).
  set (b1 := Ata h1 (drive_info a) (slave_info a)).
  destruct (probe_usable b1 h1 h0 Hdev eq_refl L1 B1) as (b2 & Ea & Hram & Hm). rewrite <- Hram in *.
  brun. destruct (init_disks_run polls (set_tss 0x9FC00 o) vm1 lg1 f a1 b1 b2 0 s2 l p (tss_gdt tss_address) (Tss 0x10 0x9FC00 104)
    i1 v2 y hist1 Hready Hfr D2 Hlog ltac:(lia) Hbuf eq_refl Ea Hm)
    as (vm2 & lg2 & f2 & hist2 & s3 & E3 & Hready2 & Hmnt & D3 & Hlog2 & Hlen2).
  change (set_tss 0x9FC00 (set_vmem vm1 o)) with (set_vmem vm1 (set_tss 0x9FC00 o)). rewrite E3.
  set (o3 := set_vmem vm2 (set_tss 0x9FC00 o)).
  destruct (init_services_run syscall_stub polls (do_keyboard h0 Hdev) _ o3 lg2 f2 (Ata None (drive_info b2) (slave_info b2)) 0 s3 l p
    (tss_gdt tss_address) (Tss 0x10 0x9FC00 104) i1 i2 v2 y D3 ltac:(lia) Ei2 Hmnt) as (f4 & s4 & E4 & D4 & Hmnt4).
  rewrite E4. eexists. split; [reflexivity|].
  split; cbn [b_machine b_gdt b_idt b_vectors b_syscalls m_screen m_kernel k_os k_log k_fs command_buffer buffer_pos].
  - exact D4.
  - exact tss_gdt_flat.
  - exact Hgates.
  - intros k. unfold v2, v1. rewrite Hv. apply vectors_lookup.
  - done.
  - exact Hready2.
  - apply set_if_task_inv, scheduled_inv; [exact Hpool|]. exact (eq_trans (mr_cr3 _ Hready2) (eq_sym (mr_pd _ Hready2))).
  - done.
  - exists hist2. split; [exact Hlog2|lia].
  - exact Hmnt4.
  - rewrite length_insert. split_and!; [done|by apply list_lookup_insert_eq; lia|done].
  - exact (ata_init_shown polls b1 b2 Ea).
  - cbn [m_ticks]. lia.
Qed.

(** C18: Starting the kernel succeeds.  [main] is entered with zeroed statics,
    arbitrary memory and screen, and hardware as [devices_ok] says: an idle ATA
    bus whose drives follow the PIO protocol and describe themselves
    correctly, a keyboard controller that answers, and, if there is a slave
    drive, one that stands the driver's early flush and holds a consistent file
    system or none.  Then all initialisations return, in the order of [main],
    and leave every component in its invariant: the screen, the flat segments
    of both rings, the interrupt table that users enter only at 0x80, the
    registered handlers, the heap of one free block, the identity mapping of
    16 MB with paging on, the idle task alone in the scheduler, the log, the
    empty command line, and a mounted file system: on the slave drive, behind
    the driver, if the probe finds one, and otherwise on a RAM disk in frames
    that were free.  If the self tests keep the invariants, preemption is
    enabled with all of them in force. *)
Theorem kernel_starts (run_all_tests : M (boot H) ()) b :
  (∀ b1, booted (no_slave h0) b1 → ∃ b2, run_all_tests b1 = Some ((), b2) ∧ booted (no_slave h0) b2) →
  loaded h0 b →
  ∃ b1 b2, init_all polls stub syscall_stub tss_address b = Some ((), b1) ∧ booted (no_slave h0) b1 ∧
    start polls stub syscall_stub tss_address run_all_tests b = Some ((), b2) ∧ booted (no_slave h0) b2 ∧
    scheduler_on (k_os (m_kernel (b_machine b2))) = 1.
Proof using All.
  intros Htests Hb. destruct (init_all_run b Hb) as (b1 & E1 & Hb1). destruct (Htests b1 Hb1) as (b2 & E2 & Hb2).
  unfold start. rewrite bind_run, E1, bind_run, E2, bind_run. exists b1.
  destruct b2 as [[[o lg f] a n scr l p] g ts i v y].
  destruct Hb2 as [D Hg Hi Hv Hy Hm Ht Hif Hlog Hfs Hl Hdr Htk].
  destruct (kern_ok (Kernel o lg f) a n scr l p g ts i v y (os_op (quiet sched_enable)) () (Kernel (set_on 1 o) lg f) [])
    as (s2 & E3 & D2); [done|exact D|constructor|].
  rewrite E3, bind_run. bprint D2. brun. bprint D2. brun. bprint D2. bprint D2.
  eexists. split; [reflexivity|]. split; [exact Hb1|]. split; [reflexivity|]. split; [|done].
  split; [exact D2|exact Hg|exact Hi|exact Hv|exact Hy|exact Hm|by apply set_on_task_inv|exact Hif|exact Hlog|exact Hfs|exact Hl|exact Hdr|exact Htk].
Qed.
End start.

(** ** A machine with a slave drive *)

(** The bus of [AtaSpec] with a keyboard controller that has always a byte to
    give; there is no master drive, and the slave has 64 blank sectors. *)
Module DemoMachine.

Record hardware := Hardware { bus : sim }.

#[export] Instance hardware_ports : PortIO hardware := {
  hw_inb := λ p h, if p =? 0x64 then (1, h) else let r := hw_inb p (bus h) in (fst r, Hardware (snd r));
  hw_outb := λ p x h, Hardware (hw_outb p x (bus h));
  hw_insw := λ p n h, let r := hw_insw p n (bus h) in (fst r, Hardware (snd r));
  hw_outsw := λ p ws h, Hardware (hw_outsw p ws (bus h))
}.

#[export] Instance hardware_drive : AtaDrive hardware.
Proof.
  refine {| look := λ h, look (bus h); AtaSpec.busy := λ h, AtaSpec.busy (bus h); AtaSpec.delay := @AtaSpec.delay sim _ sim_drive |}.
  - intros h. apply (ad_delay (bus h)).
  - intros h. apply (ad_alt (bus h)).
  - intros h. apply (ad_status (bus h)).
  - intros h. apply (ad_reg (bus h)).
  - intros h. apply (ad_read (bus h)).
  - intros h. apply (ad_write (bus h)).
  - intros h. apply (ad_flush (bus h)).
  - intros h. apply (ad_insw (bus h)).
  - intros h. apply (ad_outsw (bus h)).
  - intros h. apply (ad_identify (bus h)).
  - intros h. apply (ad_absent (bus h)).
  - intros h r Hb Ha Hr. pose proof (ad_address (bus h) r Hb Ha Hr) as Hx. by destruct Hr as [-> | ->].
  - intros h. apply (ad_describe (bus h)).
  - intros h p Hp. cbn [hw_inb hardware_ports]. destruct (p =? 0x64); [done|]. apply (ad_other_in (bus h) p Hp).
  - intros h. apply (ad_other_out (bus h)).
Defined.

(** 64 sectors, in words 60 and 61 of the description. *)
Definition description : list Z := replicate 60 0 ++ [64] ++ replicate 195 0.
Definition blank_bus : hardware :=
  Hardware (Sim (View ∅ Idle [] (replicate 64 (replicate 512 0)) (λ sl, if sl then Some description else None)) 0 I).

Definition blank_machine : boot hardware :=
  Boot (Machine (Kernel (set_pool (replicate 64 zero_task) demo_os) (Klog [] 0 0 0) (Fs None (dec_superblock (replicate 512 0)) (replicate 512 0)))
          (Ata (Some blank_bus) zero_info zero_info) 0 (Screen (flat (replicate 2000 (0, 0))) 0 ∅ 0 []) (replicate 256 0) 0)
    (replicate 6 (GdtEntry 0 0 0 0 0 0)) (Tss 0 0 0) (replicate 256 (Gate 0 0 0 0 0)) (replicate 256 None) [].

Lemma zero_sector : is_block (replicate 512 0).
Proof. split; [done|]. apply Forall_replicate. lia. Qed.

Lemma blank_devices : devices_ok 4 blank_bus.
Proof.
  split.
  - cbn. lia.
  - intros h. eexists. reflexivity.
  - done.
  - intros [] ws Hw; [|done]. injection Hw as <-. split_and!; [done|apply (bool_decide_unpack _); vm_compute; exact I|done|cbn; lia|].
    apply Forall_replicate, zero_sector.
  - intros _ h lba ws. apply (sim_tolerant (bus h)).
  - intros _. split; [cbn; lia|]. intros a Hs _ _. left. cbn [blk blkdev_laws d_ram d_bus ata_laws]. rewrite Hs. vm_compute. congruence.
Qed.

Lemma kernel_starts_witness :
  ∃ b : boot hardware, scheduler_on (k_os (m_kernel (b_machine b))) = 1 ∧ booted (λ i, i mod 256 * 16) 0x2000 4 false b.
Proof.
  destruct (kernel_starts (λ i, i mod 256 * 16) 0x2000 0x3000 4 blank_bus blank_devices) with (run_all_tests := mret () : M (boot hardware) ())
    (b := blank_machine) as (b1 & b2 & _ & _ & _ & Hb & Hon).
  - intros i. pose proof (Z.mod_pos_bound i 256). lia.
  - lia.
  - intros b1 Hb. by exists b1.
  - split; [done|done|by exists (replicate 2000 (0, 0))|done..| |done]. apply zero_sector.
  - by exists b2.
Defined.
End DemoMachine.
