(* ===== verification/ExecFile.v ===== *)
(** * Executing a file: [elf_exec] from the name to the task

    [elf_exec] reads the file into a buffer on the heap, loads the image from
    there and frees the buffer.  The theorem joins the file system, the heap,
    the loader, the scheduler and the log: the file's bytes are what the new
    task runs, and the heap is afterwards exactly as before. *)

From S2P Require Import Prelude KString KStdio Console KPrintf Pmm Memory Kmalloc Paging AddrSpace Sched Task.
From S2P Require Import Block SimpleFS SimpleFSSpec Klog KlogSpec Elf ElfSpec ElfLoad ElfExec ElfSafe Boot BootSpec Shell Ata AtaSpec Ports.

Open Scope Z_scope.
Open Scope c_scope.

(** ** Images at other addresses *)

Section moved.
Context (m m' : mem) (p p' size : Z).
Hypothesis Hmv : ∀ x, 0 ≤ x < size → load8 m' (p' + x) = load8 m (p + x).

Lemma moved_load32 o : 0 ≤ o → o + 4 ≤ size → load32 m' (p' + o) = load32 m (p + o).
Proof using Hmv. intros H1 H2. apply load32_ext. intros i Hi. rewrite <- !Z.add_assoc. apply Hmv. lia. Qed.

Lemma moved_load16 o : 0 ≤ o → o + 2 ≤ size → load16 m' (p' + o) = load16 m (p + o).
Proof using Hmv. intros H1 H2. unfold load16. rewrite <- !Z.add_assoc, !Hmv by lia. done. Qed.

Lemma moved_get n o : 0 ≤ o → o + Z.of_nat n ≤ size → mem_get m' (p' + o) n = mem_get m (p + o) n.
Proof using Hmv.
  revert o. induction n as [|n IH]; intros o H1 H2; cbn [mem_get]; [done|].
  rewrite Hmv by lia. f_equal. rewrite <- !Z.add_assoc. apply IH; lia.
Qed.

Lemma moved_ehdr : sizeof_ehdr ≤ size → ehdr_at m' p' = ehdr_at m p.
Proof using Hmv.
  unfold sizeof_ehdr. intros Hs. unfold ehdr_at. rewrite !moved_load32, !moved_load16 by lia. f_equal.
  pose proof (moved_get 16 0 ltac:(lia) ltac:(lia)) as Hg. by rewrite !Z.add_0_r in Hg.
Qed.

Lemma moved_phdr o : 0 ≤ o → o + sizeof_phdr ≤ size → phdr_at m' (p' + o) = phdr_at m (p + o).
Proof using Hmv.
  unfold sizeof_phdr. intros H1 H2. unfold phdr_at. rewrite <- !Z.add_assoc, !moved_load32 by lia. done.
Qed.

Lemma moved_validate : p ≠ 0 → p' ≠ 0 → elf_validate m' p' size = elf_validate m p size.
Proof using Hmv.
  intros H1 H2. unfold elf_validate. destruct (Z.eqb_spec p 0), (Z.eqb_spec p' 0); try done. cbn [orb].
  destruct (Z.ltb_spec size sizeof_ehdr); [done|]. by rewrite moved_ehdr.
Qed.

Lemma moved_header : tame m p size → ehdr_at m' p' = ehdr_at m p.
Proof using Hmv. intros Htm. apply moved_ehdr. apply (elf_validate_facts _ _ _ (ta_valid _ _ _ Htm)). Qed.

Lemma moved_phdr_no i : tame m p size → 0 ≤ i < e_phnum (ehdr_at m p) → phdr_no m' p' i = phdr_no m p i.
Proof using Hmv.
  intros Htm Hi. pose proof (image_table m p size Htm i Hi) as Ht. cbv zeta in Ht.
  unfold phdr_no. rewrite moved_header, <- !Z.add_assoc by exact Htm. apply moved_phdr; lia.
Qed.

Lemma moved_tame : tame m p size → 0 < p' → p' + size < 4294967296 → tame m' p' size.
Proof using Hmv.
  intros Htm H1 H2. split.
  - rewrite moved_validate; [apply Htm|pose proof (ta_range _ _ _ Htm); lia|lia].
  - done.
  - rewrite moved_header by exact Htm. apply Htm.
  - rewrite moved_header by exact Htm. intros i Hi ph. unfold ph. rewrite moved_phdr_no by done. by apply Htm.
Qed.

Context (Him : image m p size).
Let Htm : tame m p size := image_tame _ _ _ Him.

Lemma moved_seg_byte i va : 0 ≤ i < e_phnum (ehdr_at m p) → loadable (phdr_no m p i) = true →
  seg_byte (phdr_no m p i) p' m' va = seg_byte (phdr_no m p i) p m va.
Proof using Hmv Him.
  intros Hi Hl. destruct (im_segs _ _ _ Him i Hi Hl) as ([_ _ _ Hoff] & Hsz & _). unfold seg_byte.
  destruct (_ && _) eqn:E; [|done]. apply andb_true_iff in E as [E1%Z.leb_le E2%Z.ltb_lt]. rewrite <- !Z.add_assoc. apply Hmv. lia.
Qed.

Lemma moved_pages n : Z.of_nat n ≤ e_phnum (ehdr_at m p) → page_count m' p' n = page_count m p n.
Proof using Hmv Him.
  induction n as [|n IH]; intros Hn; [done|]. cbn [page_count]. rewrite IH by lia. by rewrite moved_phdr_no by (exact Htm || lia).
Qed.

Lemma moved_image : 0 < p' → p' + size < 4294967296 → image m' p' size.
Proof using Hmv Him.
  intros H1 H2. split.
  - rewrite moved_validate; [apply Him|pose proof (im_range _ _ _ Him); lia|lia].
  - done.
  - rewrite moved_header by exact Htm. apply Him.
  - rewrite moved_header by exact Htm. intros i Hi ph. unfold ph. rewrite moved_phdr_no by (exact Htm || done). by apply Him.
  - rewrite moved_header by exact Htm. intros i j Hi Hj Hne ph ph'. unfold ph, ph'. rewrite !moved_phdr_no by (exact Htm || done). by apply Him.
Qed.

Lemma moved_runs sy args s t : runs_image sy m' p' args s t → runs_image sy m p args s t.
Proof using Hmv Him.
  intros [H1 H2 H3 H4]. rewrite (moved_header Htm) in *. split; [exact H1| |exact H3|exact H4].
  intros i Hi Hl va Hva. rewrite <- (moved_seg_byte i va Hi Hl). rewrite <- (moved_phdr_no i Htm Hi) in Hl, Hva |- *. by apply (H2 i Hi Hl).
Qed.
End moved.

(** The bytes of a file as an image, at an address of no importance. *)
Definition file_mem (x : list Z) : mem := at_addr 0x1000 x.
Definition file_image (x : list Z) : Prop := image (file_mem x) 0x1000 (Z.of_nat (length x)).
Definition file_pages (x : list Z) : Z := page_count (file_mem x) 0x1000 (Z.to_nat (e_phnum (ehdr_at (file_mem x) 0x1000))).

Lemma file_moved m p x y :
  0 ≤ y < Z.of_nat (length x) → load8 (mem_put m p x) (p + y) = load8 (file_mem x) (0x1000 + y).
Proof.
  intros Hy. unfold file_mem, at_addr. rewrite !load8_mem_put. repeat zcase; cbn [andb]; try (exfalso; lia).
  do 3 f_equal. lia.
Qed.

(** ** The buffer on the heap *)

Lemma seg_put m a bs b p x :
  seg m a bs b → (∀ y, p ≤ y < p + Z.of_nat (length x) → payload_at a bs y) → seg (mem_put m p x) a bs b.
Proof.
  revert m p. induction x as [|v x IH]; intros m p Hs Hp; cbn [mem_put length] in *; [exact Hs|].
  apply IH; [|intros y Hy; apply Hp; lia]. apply seg_write; [exact Hs|]. apply Hp. lia.
Qed.

(** [kmalloc] of a buffer, filling it, and [kfree] after whatever leaves the
    heap alone: the blocks are as before and only the heap is written. *)
Lemma heap_buffer m bs size :
  heap_rep m bs → coalesced bs → 0 < size ≤ 0xFFFFFFF4 →
  (kmalloc size m = Some (0, m) ∧ ∀ sz, (sz, true) ∈ bs → sz < request size) ∨
  ∃ buf m1, kmalloc size m = Some (buf, m1) ∧
    HEAP_START < buf ∧ buf + size ≤ HEAP_END ∧ only_in m m1 HEAP_START HEAP_END ∧
    ∀ x m2, Z.of_nat (length x) ≤ size → (∀ a, HEAP_START ≤ a < HEAP_END → load8 m2 a = load8 (mem_put m1 buf x) a) →
      ∃ m3, kfree buf m2 = Some ((), m3) ∧ heap_rep m3 bs ∧ only_in m2 m3 HEAP_START HEAP_END.
Proof.
  intros Hrep Hco Hx.
  destruct (kmalloc_run m bs size Hrep Hx) as (buf & m1 & E & [(-> & -> & Hno)|(pre & sz & post & (-> & Htot & _) & Hbuf & Hrep1 & Hon)]).
  { by left. }
  destruct (heap_at m _ Hrep pre sz true post eq_refl) as (_ & _ & _ & H12 & _ & _ & Hp0 & Hend & Hpost).
  set (a := HEAP_START + span pre) in *. unfold HEADER in *.
  destruct (align4_request size Hx) as (_ & Hreq & _ & _).
  assert (size + 8 ≤ request size) as Hle.
  { unfold request, HEADER. pose proof (Z.div_mod (size + 3) 4). pose proof (Z.mod_pos_bound (size + 3) 4). lia. }
  right. exists buf, m1. split; [exact E|]. split; [unfold HEAP_START in *; lia|]. split; [lia|].
  split; [intros y Hy; apply Hon; lia|]. intros x m2 Hlen Hm2.
  destruct (carve_merge pre (request size) sz post Hco) as (s & fr & post' & Ec & Em).
  rewrite Ec in Hrep1.
  assert (fr = false ∧ request size ≤ s) as [-> Hs].
  { unfold carve in Ec. destruct (request size + 24 <=? sz); cbn in Ec; injection Ec as <- <- _; (split; [done|lia]). }
  assert (heap_rep m2 (pre ++ (s, false) :: post')) as Hrep2.
  { apply seg_frame with (mem_put m1 buf x); [|exact Hm2]. apply seg_put; [exact Hrep1|].
    intros y Hy. apply payload_app. right. cbn [payload_at]. left. fold a. unfold HEADER. lia. }
  destruct (kfree_run _ _ _ _ _ Hrep2) as (m3 & E3 & Hrep3 & Hfr). fold a in E3, Hfr. unfold HEADER in *.
  exists m3. rewrite Em in Hrep3. split; [by rewrite Hbuf|]. split; [exact Hrep3|].
  intros y Hy. apply Hfr; [lia|]. intros pre' s' ->.
  destruct (heap_at m2 _ Hrep2 pre' s' true ((s, false) :: post') ltac:(by rewrite <- app_assoc)) as (_ & _ & _ & Hs' & _ & _ & Hp' & Hend' & Hpost').
  lia.
Qed.

(** ** The file *)

Section stat.
Context {D : Type} `{BlockDevLaws D}.

Lemma content_length (d : D) sb j :
  fs_inv d sb → slot j → is_file (dirent d j) → Z.of_nat (length (content d (dirent d j))) = e_size (dirent d j).
Proof.
  intros Hinv Hj Ht. pose proof (fi_mounted _ _ Hinv) as Hm. unfold content.
  destruct (file_small d sb Hinv j Hj Ht) as (Hz & _ & Hs0).
  rewrite length_take. destruct (Z.eq_dec (e_size (dirent d j)) 0) as [->|Hne]; [done|].
  assert (0 ≤ e_size (dirent d j)) as Hz0 by apply Hz.
  destruct (nblocks_bounds (e_size (dirent d j)) Hz0) as [H1 H2].
  pose proof (fi_range _ _ Hinv j Hj Ht Hne) as Hr. unfold capacity in Hr.
  rewrite length_run_bytes by (lia || apply Hm). lia.
Qed.

Lemma stat_file_run (d : D) sb s n r x :
  fs_inv d sb → fs_at d sb s → nonzero n → has d n FS_TYPE_FILE x →
  ∃ e s', fs_stat (Some (n ++ 0 :: r)) s = Some (Some e, s') ∧ fs_at d sb s' ∧ e_size e = Z.of_nat (length x).
Proof.
  intros Hinv Hat Hn (j & Hj & Hu & Hnm & Ht & Hx). pose proof (fi_mounted _ _ Hinv) as Hm. destruct (fs_at_dev _ _ _ Hat) as [d0 Hd].
  unfold fs_stat. rewrite bind_run. cbn [get]. rewrite Hd.
  destruct (find_entry_run d sb s n r Hat Hm Hn (fi_name _ _ Hinv)) as (s1 & Hat1 & [(i & Hi & Hui & Hni & E)|[E Hno]]); mstep E.
  2:{ by destruct (Hno j Hj Hu). }
  rewrite (fi_unique _ _ Hinv i j n) by assumption. exists (dirent d j), s1. split; [done|]. split; [exact Hat1|].
  cbn in Hx. subst x. symmetry. by apply (content_length d sb).
Qed.
End stat.

(** ** Writes to the heap *)

(** The page tables of the kernel are not on the heap. *)
Definition tables_outside (s : vm) : Prop := ∀ t, kernel_page s t → t + PAGE_SIZE ≤ HEAP_START ∨ HEAP_END ≤ t.

Definition heap_frame (f : Z) : Prop := aligned f ∧ HEAP_START ≤ f < HEAP_END.

Lemma heap_frame_of a : HEAP_START ≤ a < HEAP_END → heap_frame (a / 4096 * 4096).
Proof.
  unfold heap_frame, aligned, HEAP_START, HEAP_END. intros Ha. rewrite Z.mod_mul by lia.
  pose proof (Z.div_mod a 4096). pose proof (Z.mod_pos_bound a 4096).
  assert (256 ≤ a / 4096) by (apply Z.div_le_lower_bound; lia). lia.
Qed.

Lemma heap_plain s f : vm_inv s → tables_outside s → heap_frame f → plain_frame s f.
Proof.
  unfold heap_frame, HEAP_START, HEAP_END. intros Hinv Hout [Hal Hf]. split.
  - split; [exact Hal|]. change TOTAL_MEMORY with 16777216. split; [lia|].
    destruct (vi_pmm _ Hinv) as [_ Hres]. cbn [st] in Hres. apply Hres.
    + unfold is_frame. change TOTAL_FRAMES with 4096. unfold PAGE_SIZE.
      split; [apply Z.div_pos; lia|apply Z.div_lt_upper_bound; lia].
    + unfold reserved, PAGE_SIZE. assert (f / 4096 < 513) by (apply Z.div_lt_upper_bound; lia). zcase. done.
  - intros Hk. specialize (Hout f Hk). unfold PAGE_SIZE, HEAP_START, HEAP_END in Hout. lia.
Qed.

Section heap.
Context (s : vm) (m' : mem) (Hinv : vm_inv s) (Hout : tables_outside s) (Hon : only_in (ram s) m' HEAP_START HEAP_END).

Let s' := upd_ram (λ _, m') s.

Lemma heap_kernel_entry t j : kernel_page s t → idx j → entry m' t j = entry (ram s) t j.
Proof using Hout Hon.
  intros Ht Hj. unfold idx in Hj. apply load32_ext. intros i Hi. apply Hon. specialize (Hout t Ht). unfold PAGE_SIZE in Hout. lia.
Qed.

Lemma heap_kernel : vm_inv s' ∧ ∀ va, addr32 va → kwalk s' va = kwalk s va.
Proof using Hinv Hout Hon.
  apply kernel_framed; [exact Hinv|done|done|apply Hinv| |exact heap_kernel_entry].
  intros a Ha. exact (kernel_page_used s a Hinv Ha).
Qed.

Lemma heap_kernel_page t : kernel_page s' t ↔ kernel_page s t.
Proof using Hout Hon.
  unfold kernel_page. change (kernel_directory s') with (kernel_directory s). change (ram s') with m'.
  split; (intros [Hk|(i & Hi & Hp & Hk)]; [by left|right; exists i]);
    rewrite heap_kernel_entry in * by (exact Hi || by left); auto.
Qed.

Lemma heap_outside : tables_outside s'.
Proof using Hout Hon. intros t Ht%heap_kernel_page. by apply Hout. Qed.
End heap.

(** A loaded task does not depend on the heap. *)
Lemma runs_image_heap sy m buf size args o t m' :
  image m buf size → (0 < length args)%nat → vm_inv (vmem o) → (∀ f, heap_frame f → data_frame (vmem o) (t_cr3 t) f) →
  only_in (ram (vmem o)) m' HEAP_START HEAP_END → runs_image sy m buf args o t →
  runs_image sy m buf args (set_vmem (upd_ram (λ _, m') (vmem o)) o) t.
Proof.
  intros Him Hne Hinv Hdf Hon [(H1 & H2 & [H3 H3'] & Hsp) Hseg Hks (P & w & esp & Hw & [HPd HP] & Hargs & Hst & Hir)].
  assert (∀ a, ¬ heap_frame (a / 4096 * 4096) → load8 m' a = load8 (ram (vmem o)) a) as Hm'.
  { intros a Ha. apply Hon. destruct (decide (HEAP_START ≤ a < HEAP_END)) as [Hin|]; [|lia].
    by destruct Ha; apply heap_frame_of. }
  assert (∀ a, PMM_POOL_START ≤ a → load8 m' a = load8 (ram (vmem o)) a) as Hhigh.
  { intros a Ha. apply Hon. unfold PMM_POOL_START, HEAP_END in *. lia. }
  pose proof (wr_walk _ _ heap_frame m' Hinv Hsp Hdf Hm') as Hwalk.
  destruct Hks as (Hk1 & Hk2 & Hk3 & Hk4). unfold PMM_POOL_END, PMM_POOL_START, PAGE_SIZE in *.
  split; cbn [vmem set_vmem ram upd_ram].
  - split_and!; [done..|exact (wr_space _ _ heap_frame m' Hinv Hsp Hdf Hm')].
  - intros i Hi Hl va Hva. destruct (Hseg i Hi Hl va Hva) as (f & w' & Ew & Hf & Hp & Hb). exists f, w'.
    cbn [ram upd_ram]. assert (addr32 va) as Hva32.
    { destruct (im_segs _ _ _ Him i Hi Hl) as (Hok & _ & Hend). pose proof (so_sizes _ Hok).
      destruct (seg_pages _ Hok) as (_ & _ & Hsg & _); [destruct (loadable_true _ Hl); lia|].
      unfold addr32, USER_STACK_VIRT in *. lia. }
    rewrite Hwalk by exact Hva32. split; [exact Ew|]. split; [exact (wr_data _ _ heap_frame m' Hinv Hsp Hdf Hm' f Hf)|].
    split; [exact Hp|]. rewrite <- Hb. apply Hhigh. pose proof (Z.mod_pos_bound va 4096). unfold PMM_POOL_START in Hp. lia.
  - split_and!; [exact Hk1|exact Hk2|exact Hk3|exact Hk4].
  - exists P, w, esp. rewrite Hwalk by (vm_compute; split; congruence). split; [exact Hw|].
    split; [split; [exact (wr_data _ _ heap_frame m' Hinv Hsp Hdf Hm' P HPd)|exact HP]|]. split; [|split].
    + apply (args_on_stack_ext (ram (vmem o))); [exact Hne| |exact Hargs]. intros x Hx. apply Hhigh. lia.
    + apply (starts_at_ext o); [by intros []|lia|lia| |exact Hst]. intros a Ha. apply Hhigh. lia.
    + rewrite <- Hir. apply list_fmap_ext. intros j k Hjk. apply load32_ext. intros i Hi. apply Hhigh.
      assert (k ∈ [0; 1; 2; 3; 4]) as Hin by (by eapply list_elem_of_lookup_2).
      rewrite !elem_of_cons, elem_of_nil in Hin. lia.
Qed.

(** ** The whole call *)

Lemma low_mapped s : is_Some (kwalk s 0) → present (entry (ram s) (kernel_directory s) 0) = true.
Proof.
  intros [x Hx]. revert Hx. unfold kwalk. rewrite hw_walk_bits. cbv zeta. rewrite present_bit.
  change (PAGE_DIR_INDEX 0) with 0. by destruct (Z.testbit (entry (ram s) (kernel_directory s) 0) 0).
Qed.

Section exec.
Context {D : Type} `{BlockDevLaws D}.

(** A kernel in the invariants of its components. *)
Record running (k : kernel D) (qs : list ptr) (bs : list block) (d : D) (sb : fs_superblock) (h : list klog_entry) : Prop := {
  ru_tasks : task_inv (k_os k) qs;
  ru_vm : vm_inv (kvm k);
  ru_tables : tables_outside (kvm k) ∧ is_Some (kwalk (kvm k) 0);
  ru_heap : heap_rep (kram k) bs ∧ coalesced bs;
  ru_files : fs_inv d sb ∧ fs_at d sb (k_fs k);
  ru_log : log_rep (k_log k) h
}.

Context (sy : symbols) (k : kernel D) (qs : list ptr) (bs : list block) (d : D) (sb : fs_superblock) (h : list klog_entry).
Context (Hk : running k qs bs d sb h).

(** The kernel with data in its buffer. *)
Lemma buffer_kept (fs' : fs D) lg m1 buf x :
  only_in (kram k) m1 HEAP_START HEAP_END → HEAP_START < buf → buf + Z.of_nat (length x) ≤ HEAP_END →
  let m2 := mem_put m1 buf x in let k2 := with_ram m2 (Kernel (k_os k) lg fs') in
  only_in (kram k) m2 HEAP_START HEAP_END ∧ task_inv (k_os k2) qs ∧ vm_inv (kvm k2) ∧ tables_outside (kvm k2) ∧
  present (entry (kram k2) (kernel_directory (kvm k2)) 0) = true ∧
  (∀ va, addr32 va → kwalk (kvm k2) va = kwalk (kvm k) va).
Proof using Hk.
  intros Hon Hlo Hhi m2 k2. destruct Hk as [Ht Hv [Htab Hlow] _ _ _]. change (kram k2) with m2.
  assert (only_in (ram (kvm k)) m2 HEAP_START HEAP_END) as Hon2.
  { intros a Ha. unfold m2. rewrite load8_mem_put. repeat zcase; cbn [andb]; try (exfalso; lia); by apply Hon. }
  destruct (heap_kernel (kvm k) m2 Hv Htab Hon2) as [Hv2 Hw2].
  split_and!; [exact Hon2|by apply task_inv_vmem|exact Hv2|exact (heap_outside (kvm k) m2 Htab Hon2)| |exact Hw2].
  change (present (entry m2 (kernel_directory (kvm k)) 0) = true).
  rewrite (heap_kernel_entry (kvm k) m2 Htab Hon2) by (by left || (unfold idx; lia)). by apply low_mapped.
Qed.

Lemma buffer_plain (fs' : fs D) lg m1 buf x :
  only_in (kram k) m1 HEAP_START HEAP_END → HEAP_START < buf → buf + Z.of_nat (length x) ≤ HEAP_END →
  let k2 := with_ram (mem_put m1 buf x) (Kernel (k_os k) lg fs') in
  ∀ y, 0 ≤ y < Z.of_nat (length x) → plain_frame (kvm k2) ((buf + y) / 4096 * 4096).
Proof using Hk.
  intros Hon Hlo Hhi k2 y Hy. destruct (buffer_kept fs' lg m1 buf x Hon Hlo Hhi) as (_ & _ & Hv2 & Htab2 & _). fold k2 in Hv2, Htab2.
  apply heap_plain; [exact Hv2|exact Htab2|]. apply heap_frame_of. unfold HEAP_START, HEAP_END in *. lia.
Qed.

Lemma buffer_tame (fs' : fs D) lg m1 buf x :
  HEAP_START < buf → buf + Z.of_nat (length x) ≤ HEAP_END → tame (file_mem x) 0x1000 (Z.of_nat (length x)) →
  tame (kram (with_ram (mem_put m1 buf x) (Kernel (k_os k) lg fs'))) buf (Z.of_nat (length x)).
Proof.
  unfold HEAP_START, HEAP_END. intros Hlo Hhi Htm. apply (moved_tame (file_mem x) _ 0x1000); [apply file_moved|exact Htm|lia|lia].
Qed.

(** The kernel with a program in its buffer. *)
Lemma buffer_ready (fs' : fs D) lg m1 buf x :
  only_in (kram k) m1 HEAP_START HEAP_END → HEAP_START < buf → buf + Z.of_nat (length x) ≤ HEAP_END → file_image x →
  let k2 := with_ram (mem_put m1 buf x) (Kernel (k_os k) lg fs') in
  image (kram k2) buf (Z.of_nat (length x)) ∧
  (∀ y, 0 ≤ y < Z.of_nat (length x) → plain_frame (kvm k2) ((buf + y) / 4096 * 4096)) ∧
  page_count (kram k2) buf (Z.to_nat (e_phnum (ehdr_at (kram k2) buf))) = file_pages x ∧
  (∀ args s t, runs_image sy (kram k2) buf args s t → runs_image sy (file_mem x) 0x1000 args s t).
Proof using Hk.
  intros Hon Hlo Hhi Him k2. set (m2 := mem_put m1 buf x) in *. change (kram k2) with m2.
  assert (∀ y, 0 ≤ y < Z.of_nat (length x) → load8 m2 (buf + y) = load8 (file_mem x) (0x1000 + y)) as Hmv by apply file_moved.
  pose proof (moved_header (file_mem x) m2 0x1000 buf (Z.of_nat (length x)) Hmv (image_tame _ _ _ Him)) as Hhd.
  unfold HEAP_START, HEAP_END in Hlo, Hhi.
  split_and!.
  - apply (moved_image (file_mem x) m2 0x1000 buf _ Hmv Him); lia.
  - by apply buffer_plain.
  - rewrite Hhd. apply (moved_pages (file_mem x) m2 0x1000 buf _ Hmv Him).
    destruct (elf_validate_facts _ _ _ (im_valid _ _ _ Him)) as (_ & _ & _ & _ & _ & _ & Hp & _). lia.
  - intros args s t. apply (moved_runs (file_mem x) m2 0x1000 buf _ Hmv Him).
Qed.

(** [elf_load_internal] leaves the heap to [kfree]. *)
Lemma heap_untouched (k2 k4 : kernel D) :
  vm_inv (kvm k2) → tables_outside (kvm k2) → vm_inv (kvm k4) →
  (∀ f, plain_frame (kvm k2) f → plain_frame (kvm k4) f ∧
     ∀ o, 0 ≤ o < 4096 → load8 (kram k4) (f + o) = load8 (kram k2) (f + o)) →
  (∀ a, HEAP_START ≤ a < HEAP_END → load8 (kram k4) a = load8 (kram k2) a) ∧ tables_outside (kvm k4).
Proof using.
  intros Hv2 Htab Hv4 Hpl.
  assert (∀ f, heap_frame f → plain_frame (kvm k2) f) as Hhp by (intros f Hf; by apply heap_plain). split.
  - intros a Ha. pose proof (Z.div_mod a 4096). pose proof (Z.mod_pos_bound a 4096).
    replace a with (a / 4096 * 4096 + a mod 4096) by lia. apply (Hpl _ (Hhp _ (heap_frame_of a Ha))). lia.
  - intros f Hf. pose proof (kernel_page_used _ _ Hv4 Hf) as (Hal & _).
    destruct (decide (HEAP_START ≤ f < HEAP_END)) as [Hin|Hout].
    + by destruct (Hpl f (Hhp f (conj Hal Hin))) as [[_ Hno] _].
    + unfold aligned, HEAP_START, HEAP_END, PAGE_SIZE in *. pose proof (Z.div_mod f 4096). lia.
Qed.

(** The code of [elf_exec], given what its calls do. *)
Lemma elf_exec_steps (filename task_name : list Z) (argv : list (list Z)) argc c e f1 buf m1 f2 x p k4 c4 m5 :
  let k2 := with_ram (mem_put m1 buf x) (Kernel (k_os k) (k_log k) f2) in
  fs_stat (Some filename) (k_fs k) = Some (Some e, f1) → e_size e = Z.of_nat (length x) →
  52 ≤ Z.of_nat (length x) ≤ ELF_MAX_FILE_SIZE →
  kmalloc (Z.of_nat (length x)) (kram k) = Some (buf, m1) → buf ≠ 0 →
  fs_read_file (Some filename) (Z.of_nat (length x)) f1 = Some ((Z.of_nat (length x), x), f2) →
  elf_load_internal sy buf (Z.of_nat (length x)) task_name (Some argv) argc (IO k2 c) = Some (p, IO k4 c4) →
  kfree buf (kram k4) = Some ((), m5) →
  elf_exec sy (Some filename) (Some task_name) (Some argv) argc (IO k c) = Some (p, IO (with_ram m5 k4) c4).
Proof using.
  intros k2 E1 He Hsz E2 Hbuf E3 E4 E5. unfold ELF_MAX_FILE_SIZE in Hsz.
  unfold elf_exec. rewrite bind_run. unfold fs_op at 1, quiet at 1, zoom at 1 2. cbn [st con]. rewrite E1.
  rewrite He. unfold ELF_MAX_FILE_SIZE. rewrite Z.gtb_ltb.
  destruct (Z.eqb_spec (Z.of_nat (length x)) 0), (Z.ltb_spec (256 * 1024) (Z.of_nat (length x))); try lia. cbn [orb].
  rewrite bind_run, (mem_op_run _ (Kernel (k_os k) (k_log k) f1) c buf m1 E2). destruct (Z.eqb_spec buf 0); [done|].
  rewrite bind_run. unfold fs_op at 1, quiet at 1, zoom at 1 2. cbn [st con with_ram k_fs]. rewrite E3. cbn [k_os k_log].
  rewrite bind_run, (mem_op_run _ (with_ram m1 (Kernel (k_os k) (k_log k) f2)) c () (mem_put m1 buf x)) by done. cbn [fst snd].
  unfold sizeof_ehdr. rewrite u32_small by lia.
  destruct (Z.ltb_spec (Z.of_nat (length x)) 0), (Z.ltb_spec (Z.of_nat (length x)) 52); try lia. cbn [orb].
  change (with_ram (mem_put m1 buf x) (with_ram m1 (Kernel (k_os k) (k_log k) f2))) with k2.
  by rewrite bind_run, E4, bind_run, (mem_op_run _ k4 c4 () m5 E5).
Qed.

Context (fname rf name r : list Z) (args argv : list (list Z)) (x : list Z) (c : list Z).
Context (Hfile : has d fname FS_TYPE_FILE x) (Hfname : nonzero fname) (Hmax : Z.of_nat (length x) ≤ ELF_MAX_FILE_SIZE).
Context (Him : file_image x) (Hblock : ∃ sz, (sz, true) ∈ bs ∧ request (Z.of_nat (length x)) ≤ sz).
Context (Hslot : ∃ i, (i < 64)%nat ∧ PSlot i ∉ qs).
Context (Hframes : used_frames (frames (kvm k)) + 2 * file_pages x + 5 ≤ TOTAL_FRAMES).
Context (Hargs : c_strings args argv) (Hcount : (0 < length args ≤ 64)%nat).
Context (Hfit : Z.of_nat (length (packed args)) + 4 * (Z.of_nat (length args) + 3) ≤ ARGV_MAX_TOTAL).
Context (Hname : nonzero name) (Hsym : word32 (sym_enter_usermode sy)) (Hlog : Z.of_nat (length h) + 2 < 4294967296).

(** The whole call; the running task and the scheduler's switch stay. *)
Lemma elf_exec_run :
  ∃ i t k' c' h', elf_exec sy (Some (fname ++ 0 :: rf)) (Some (name ++ 0 :: r)) (Some argv) (Z.of_nat (length args)) (IO k c) =
      Some (PSlot i, IO k' c') ∧
    ((PSlot i ∉ qs) ∧ current_task (k_os k') = current_task (k_os k) ∧ scheduler_on (k_os k') = scheduler_on (k_os k)) ∧
    running k' (qs ++ [PSlot i]) bs d sb h' ∧ get_task (k_os k') (PSlot i) = Some t ∧
    runs_image sy (file_mem x) 0x1000 args (k_os k') t ∧ (∀ va, addr32 va → kwalk (kvm k') va = kwalk (kvm k) va).
Proof using All.
  destruct Hk as [Ht Hv Htab [Hheap Hco] [Hinv Hat] Hrep].
  destruct (elf_validate_facts _ _ _ (im_valid _ _ _ Him)) as (_ & Hsz & _). unfold sizeof_ehdr, ELF_MAX_FILE_SIZE in *.
  destruct (stat_file_run d sb (k_fs k) fname rf x Hinv Hat Hfname Hfile) as (e & f1 & E1 & Hat1 & He).
  destruct (heap_buffer (kram k) bs (Z.of_nat (length x)) Hheap Hco ltac:(lia)) as [[_ Hno]|(buf & m1 & E2 & Hlo & Hhi & Hon & Hfree)].
  { destruct Hblock as (sz & Hin & Hsz'). specialize (Hno sz Hin). lia. }
  destruct (read_file_run d sb f1 fname rf (Z.of_nat (length x)) Hinv Hat1 Hfname ltac:(lia))
    as (code & out & f2 & E3 & Hat2 & [(_ & _ & Hno)|(x' & Hx' & -> & ->)]); [by destruct (Hno x)|].
  assert (x' = x) as ->.
  { destruct Hfile as (i & Hi1 & Hi2 & Hi3 & _ & ->), Hx' as (j & Hj1 & Hj2 & Hj3 & _ & ->). by rewrite (fi_unique _ _ Hinv i j fname). }
  rewrite Nat2Z.id, take_ge in E3 by lia.
  destruct (buffer_kept f2 (k_log k) m1 buf x Hon Hlo Hhi) as (_ & Ht2 & Hv2 & Htab2 & Hlow2 & Hw2).
  destruct (buffer_ready f2 (k_log k) m1 buf x Hon Hlo Hhi Him) as (Him2 & Hpl2 & Hpc & Hmv).
  set (k2 := with_ram (mem_put m1 buf x) (Kernel (k_os k) (k_log k) f2)) in *.
  destruct (elf_load_run sy k2 qs buf (Z.of_nat (length x)) name r args argv Ht2 Hv2 Hslot Hlow2 Him2 Hpl2 Hargs Hcount Hfit Hname Hsym)
    with (c := c) (h := h) as (i & t & k4 & c4 & h4 & E4 & Hni & Hti4 & Hget & Hrun & Hv4 & Hw4 & Hpl4 & Hfs4 & Hrep4 & _);
    [rewrite Hpc; exact Hframes|exact Hrep|exact Hlog|].
  destruct (heap_untouched k2 k4 Hv2 Htab2 Hv4) as [Hm4 Htab4].
  { intros f Hf. destruct (Hpl4 f Hf) as [Hdf Hby]. split; [|exact Hby]. split; [apply (df_used _ _ _ Hdf)|apply (df_kernel _ _ _ Hdf)]. }
  assert (∀ f, heap_frame f → data_frame (kvm k4) (t_cr3 t) f) as Hdf4 by (intros f Hf; by apply Hpl4, heap_plain).
  destruct (Hfree x (kram k4) ltac:(lia) Hm4) as (m5 & E5 & Hheap5 & Hon5).
  destruct (heap_kernel (kvm k4) m5 Hv4 Htab4 Hon5) as [Hv5 Hw5].
  exists i, t, (with_ram m5 k4), c4, h4.
  assert (∀ va, addr32 va → kwalk (kvm (with_ram m5 k4)) va = kwalk (kvm k) va) as Hw.
  { intros va Hva. rewrite <- (Hw2 va Hva), <- (Hw4 va Hva). exact (Hw5 va Hva). }
  split_and!; [| | | |split| | |].
  - unfold HEAP_START in Hlo.
    by apply (elf_exec_steps (fname ++ 0 :: rf) (name ++ 0 :: r) argv _ c e f1 buf m1 f2 x (PSlot i) k4 c4 m5); [| |unfold ELF_MAX_FILE_SIZE| |lia|..].
  - apply Hni.
  - apply Hni.
  - apply Hni.
  - by apply task_inv_vmem.
  - exact Hv5.
  - split; [exact (heap_outside (kvm k4) m5 Htab4 Hon5)|]. rewrite Hw by (unfold addr32; lia). apply Htab.
  - split; [exact Hheap5|exact Hco].
  - split; [exact Hinv|]. cbn [with_ram k_fs]. rewrite Hfs4. exact Hat2.
  - exact Hrep4.
  - cbn [with_ram k_os]. rewrite <- Hget. done.
  - apply (runs_image_heap sy _ _ _ args (k_os k4) t m5 Him (proj1 Hcount) Hv4 Hdf4 Hon5). by apply Hmv.
  - exact Hw.
Qed.

(** C15: Executing a file.  In a kernel that is in its invariants, with a free
    task slot and enough frames and heap, [elf_exec] of a file that holds a
    well-formed program, with one to 64 arguments that fit on the stack page,
    returns a new task: it is queued and ready, the first
    switch to it enters ring 3 at the file's entry point, and in its address
    space it sees at every address of its segments the byte of the file, or
    zero, and on its stack exactly the arguments.  All invariants hold
    afterwards; the file system is unchanged, the heap is exactly as before,
    and so is the kernel's own translation. *)
Theorem elf_exec_runs :
  ∃ i t k' c' h', elf_exec sy (Some (fname ++ 0 :: rf)) (Some (name ++ 0 :: r)) (Some argv) (Z.of_nat (length args)) (IO k c) =
      Some (PSlot i, IO k' c') ∧
    (PSlot i ∉ qs) ∧ running k' (qs ++ [PSlot i]) bs d sb h' ∧ get_task (k_os k') (PSlot i) = Some t ∧
    runs_image sy (file_mem x) 0x1000 args (k_os k') t ∧ (∀ va, addr32 va → kwalk (kvm k') va = kwalk (kvm k) va).
Proof using All.
  destruct elf_exec_run as (i & t & k' & c' & h' & E & [Hni _] & Hr & Hrest). by exists i, t, k', c', h'.
Qed.
End exec.

(** ** From the start of the kernel *)

Lemma pool_outside s : tables_in_pool s → tables_outside s.
Proof.
  intros [Hd Hp] t [->|(i & Hi & Hpr & ->)]; right; unfold PMM_POOL_START, HEAP_END in *; [lia|]. specialize (Hp i Hi Hpr). lia.
Qed.

Lemma ready_mapped s : memory_ready s → is_Some (kwalk s 0).
Proof. intros Hr. rewrite (mr_identity _ Hr) by (unfold addr32; lia). by eexists. Qed.

(** The started kernel is ready to execute programs. *)
Lemma booted_running {H} `{AtaDrive H} stub syscall_stub polls ram (b : boot H) :
  booted stub syscall_stub polls ram b → let _ := blkdev_dev polls in let _ : BlockDevLaws (blkdev H) := blkdev_laws polls ram in
  ∃ d sb h, running (m_kernel (b_machine b)) [] [(HEAP_SIZE, true)] d sb h ∧ Forall entry_ok h ∧ Z.of_nat (length h) < 2147483648.
Proof.
  intros [_ _ _ _ _ Hm Ht _ (h & [Hlog He] & Hlen) (d & sb & Hat & Hinv) _ _ _]. exists d, sb, h. split_and!; [|done|done].
  split; [exact Ht|apply Hm|split; [apply pool_outside, Hm|by apply ready_mapped]|split; [apply Hm|done]|done|exact Hlog].
Qed.

(** ** Example *)

Module Demo.

(** A program of one byte at 0x40000000. *)
Definition demo_program : list Z :=
  demo_ehdr 52 1 ++ [1; 0; 0; 0; 84; 0; 0; 0; 0; 0; 0; 0x40; 0; 0; 0; 0; 1; 0; 0; 0; 16; 0; 0; 0; 5; 0; 0; 0; 0; 16; 0; 0] ++ [0xF4].

Lemma demo_image : file_image demo_program ∧ file_pages demo_program = 1.
Proof.
  assert (∀ i, 0 ≤ i < e_phnum (ehdr_at (file_mem demo_program) 0x1000) → i = 0) as H0.
  { change (e_phnum (ehdr_at (file_mem demo_program) 0x1000)) with 1. intros i Hi. lia. }
  split; [|vm_compute; reflexivity]. split.
  - vm_compute. reflexivity.
  - vm_compute. split; congruence.
  - vm_compute. congruence.
  - intros i Hi%H0. subst i. intros ph _. assert (ph = Phdr 1 84 0x40000000 0 1 16 5 4096) as -> by (vm_compute; reflexivity).
    split; [split; cbn; lia|]. vm_compute. split; congruence.
  - intros i j Hi%H0 Hj%H0. congruence.
Qed.

(** A file system with the program in a file, and nothing else. *)
Lemma demo_files :
  ∃ (d : ramdisk) sb s, fs_at d sb s ∧ fs_inv d sb ∧ has d (str "a") FS_TYPE_FILE demo_program ∧
    ∀ f x, has d f FS_TYPE_FILE x → x = demo_program ∨ x = [].
Proof.
  destruct file_fs_only as (d & s & Hat & Hinv & Hh & Honly).
  destruct (write_file_run d (fresh_sb 64) s (str "a") [] demo_program 85 Hinv Hat)
    as (code & d' & sb' & s' & _ & Hat' & Hinv' & [(_ & _ & _ & Hr)|(_ & _ & Hh')]).
  - by apply (bool_decide_unpack _).
  - by apply (bool_decide_unpack _).
  - reflexivity.
  - lia.
  - exfalso. destruct Hr as [Hr|[Hr|[_ Hr]]]; [by apply (Hr [])|revert Hr; vm_compute; congruence|].
    assert (capacity d = 61) as Hcap.
    { unfold capacity. rewrite <- (mo_total _ _ (fi_mounted _ _ Hinv)). reflexivity. }
    destruct (Hr 0) as (b & _ & i & Hi & Hf & Hb); [lia|rewrite Hcap; vm_compute; congruence|].
    assert (in_use (dirent d i)) as Hu by (unfold in_use, is_file in *; by rewrite Hf).
    destruct (fi_name _ _ Hinv i Hi Hu) as (n & Hn).
    pose proof (has_slot d n i Hi Hu Hn) as Hc. unfold is_file in Hf. rewrite Hf in Hc. apply Honly in Hc. cbn in Hc.
    pose proof (content_length d (fresh_sb 64) i Hinv Hi Hf) as Hl. rewrite Hc in Hl.
    change (Z.of_nat (length [])) with 0 in Hl. rewrite <- Hl in Hb. change (nblocks 0) with 0 in Hb. lia.
  - exists d', sb', s'. split_and!; [exact Hat'|exact Hinv'|apply Hh'; by left|].
    intros f x [(_ & _ & ->)|[_ Hf]]%Hh'; [by left|right]. exact (Honly _ _ _ Hf).
Qed.

(** A kernel after the start, with that file system. *)
Lemma demo_running :
  ∃ (k : kernel ramdisk) d sb h, running k [] [(HEAP_SIZE, true)] d sb h ∧ has d (str "a") FS_TYPE_FILE demo_program ∧
    used_frames (frames (kvm k)) ≤ 838 ∧ length h = 0%nat ∧ ∀ f x, has d f FS_TYPE_FILE x → x = demo_program ∨ x = [].
Proof.
  destruct demo_files as (d & sb & f & Hat & Hinv & Hh & Honly). destruct (kmalloc_init_run ∅) as (m1 & _ & Hrep).
  destruct (memory_run (vmem demo_os) m1 [] Hrep) as (v & _ & Hready & _).
  set (o := set_pool (replicate 64 zero_task) (set_vmem v demo_os)).
  exists (Kernel (scheduled o) empty_log f), d, sb, []. split_and!; [|exact Hh|apply Hready|done|exact Honly].
  split; [|apply Hready|split; [apply pool_outside, Hready|by apply ready_mapped]|split; [apply Hready|done]|done|exact empty_log_rep].
  apply scheduled_inv; [done|]. change (vmem o) with v. by rewrite (mr_cr3 _ Hready), (mr_pd _ Hready).
Qed.

Lemma elf_exec_runs_witness :
  ∃ (k k' : kernel ramdisk) i t c', elf_exec demo_symbols (Some (str "a" ++ [0])) (Some (str "a" ++ [0])) (Some [str "a" ++ [0]]) 1 (IO k []) =
      Some (PSlot i, IO k' c') ∧ get_task (k_os k') (PSlot i) = Some t ∧ t_state t = TASK_READY.
Proof.
  destruct demo_running as (k & d & sb & h & Hk & Hh & Hu & Hlen & _).
  destruct demo_image as [Him Hpg].
  destruct (elf_exec_runs demo_symbols k [] [(HEAP_SIZE, true)] d sb h Hk (str "a") [] (str "a") [] [str "a"] [str "a" ++ [0]] demo_program [] Hh)
    as (i & t & k' & c' & h' & E & _ & _ & Ht & Hr & _).
  - by apply (bool_decide_unpack _).
  - vm_compute. congruence.
  - exact Him.
  - exists HEAP_SIZE. split; [by left|]. vm_compute. congruence.
  - exists 0%nat. split; [lia|]. apply not_elem_of_nil.
  - rewrite Hpg. change TOTAL_FRAMES with 4096. lia.
  - constructor; [|constructor]. split; [by apply (bool_decide_unpack _)|by exists []].
  - cbn. lia.
  - vm_compute. congruence.
  - by apply (bool_decide_unpack _).
  - vm_compute. split; congruence.
  - rewrite Hlen. lia.
  - exists k, k', i, t, c'. split; [exact E|]. split; [exact Ht|]. apply (ri_ready _ _ _ _ _ _ Hr).
Defined.
End Demo.
