(* ===== verification/ExecSafe.v ===== *)
(** * Executing any file with whatever resources are left

    [elf_exec] may fail at every step: no such file, a file that is empty or
    too large, no room on the heap, a file that cannot be read or is no
    program, no frame for the address space, a segment, the stack or the
    kernel stack, no free task.  The theorem covers all of them at once: the
    call returns, and either nothing but the log and memory that was free has
    changed, or the new task runs the program. *)

From S2P Require Import Prelude KString KStdio Console KPrintf Pmm Memory Kmalloc Paging AddrSpace Sched Task.
From S2P Require Import Block SimpleFS SimpleFSSpec Klog KlogSpec Elf ElfSpec ElfLoad ElfExec ElfSafe ExecFile Shell Boot BootSpec Ata AtaSpec Ports.

Open Scope Z_scope.
Open Scope c_scope.

Lemma same_ram {D} (o : os) lg (f : fs D) : with_ram (ram (vmem o)) (Kernel o lg f) = Kernel o lg f.
Proof. by destruct o as [[]]. Qed.

(** [fs_stat] of any name. *)
Lemma stat_any {D} `{BlockDevLaws D} (d : D) sb s n r :
  fs_inv d sb → fs_at d sb s → nonzero n →
  ∃ res s', fs_stat (Some (n ++ 0 :: r)) s = Some (res, s') ∧ fs_at d sb s' ∧
    (res = None ∨ ∃ e, res = Some e ∧ 0 ≤ e_size e < 4294967296 ∧
       ∀ x, has d n FS_TYPE_FILE x → e_size e = Z.of_nat (length x)).
Proof.
  intros Hinv Hat Hn. pose proof (fi_mounted _ _ Hinv) as Hm. destruct (fs_at_dev _ _ _ Hat) as [d0 Hd].
  unfold fs_stat. rewrite bind_run. cbn [get]. rewrite Hd.
  destruct (find_entry_run d sb s n r Hat Hm Hn (fi_name _ _ Hinv)) as (s1 & Hat1 & [(i & Hi & Hui & Hni & E)|[E Hno]]); mstep E.
  2:{ eexists _, s1. split; [done|]. split; [exact Hat1|by left]. }
  eexists _, s1. split; [done|]. split; [exact Hat1|]. right. exists (dirent d i). split; [done|].
  split; [apply (ew_size _ (dirent_wf d sb i Hm Hi))|]. intros x (j & Hj & Huj & Hnj & Ht & ->).
  rewrite (fi_unique _ _ Hinv i j n) by assumption. symmetry. by apply (content_length d sb).
Qed.

Section exec.
Context {D : Type} `{BlockDevLaws D}.
Context (sy : symbols) (k : kernel D) (qs : list ptr) (bs : list block) (d : D) (sb : fs_superblock) (h : list klog_entry).
Context (Hk : running k qs bs d sb h) (Hentries : Forall entry_ok h).
Context (fname rf name r : list Z) (args argv : list (list Z)) (c : list Z).
Context (Hfname : nonzero fname) (Hname : nonzero name).
Context (Hargs : c_strings args argv) (Haok : args_ok args).
Context (Hsym : word32 (sym_enter_usermode sy)) (Hmsgs : Z.of_nat (length h) + 3 < 4294967296).

(** A file that is refused by [elf_validate], or in whose headers the sums the
    loader checks do not wrap. *)
Definition loadable_file (x : list Z) : Prop :=
  elf_validate (file_mem x) 0x1000 (Z.of_nat (length x)) ≠ 0 ∨ tame (file_mem x) 0x1000 (Z.of_nat (length x)).

(** Memory outside the heap that was in use is in use and unchanged. *)
Definition others_kept (v v' : vm) : Prop :=
  (∀ f, frame_used (frames v) f → frame_used (frames v') f) ∧
  ∀ f, plain_frame v f → ¬ heap_frame f →
    plain_frame v' f ∧ ∀ o, 0 ≤ o < 4096 → load8 (ram v') (f + o) = load8 (ram v) (f + o).

(** How [elf_exec] may end. *)
Definition exec_ends (res : option (ptr * io (kernel D))) : Prop :=
  ∃ p k' out h', res = Some (p, IO k' (c ++ out)) ∧ nonzero out ∧
    (Forall entry_ok h' ∧ (length h' ≤ length h + 3)%nat) ∧
    (current_task (k_os k') = current_task (k_os k) ∧ scheduler_on (k_os k') = scheduler_on (k_os k)) ∧
    (∀ va, addr32 va → kwalk (kvm k') va = kwalk (kvm k) va) ∧ others_kept (kvm k) (kvm k') ∧
    ((p = PNull ∧ running k' qs bs d sb h') ∨
     ∃ i t x, p = PSlot i ∧ (PSlot i ∉ qs) ∧ running k' (qs ++ [PSlot i]) bs d sb h' ∧ get_task (k_os k') (PSlot i) = Some t ∧
       has d fname FS_TYPE_FILE x ∧ elf_validate (file_mem x) 0x1000 (Z.of_nat (length x)) = 0 ∧
       (file_image x → args_fit args → runs_image sy (file_mem x) 0x1000 args (k_os k') t)).

(** Writing on the heap only. *)
Lemma heap_others v m' :
  vm_inv v → tables_outside v → only_in (ram v) m' HEAP_START HEAP_END → others_kept v (upd_ram (λ _, m') v).
Proof.
  intros Hv Hout Hon. split; [done|]. intros f [Hu Hnk] Hno. split; [split; [exact Hu|]|].
  - intros Hk'. apply Hnk. by apply (heap_kernel_page v m' Hout Hon).
  - intros o Ho. cbn [ram upd_ram]. apply Hon. destruct Hu as (Hal & _). unfold aligned in Hal.
    assert (¬ (HEAP_START ≤ f < HEAP_END)) as Hn by (intros Hf; by apply Hno). unfold HEAP_START, HEAP_END in *.
    pose proof (Z.div_mod f 4096). lia.
Qed.

Lemma others_trans v1 v2 v3 : others_kept v1 v2 → others_kept v2 v3 → others_kept v1 v3.
Proof.
  intros [H1 H2] [H3 H4]. split; [auto|]. intros f Hf Hno. destruct (H2 f Hf Hno) as [Hf2 Hb2], (H4 f Hf2 Hno) as [Hf3 Hb3].
  split; [exact Hf3|]. intros o Ho. by rewrite Hb3, Hb2.
Qed.

(** An error of [elf_exec] itself: a message, then what puts the heap back. *)
Lemma exec_error f' m m5 format arglist (tidy : M (io (kernel D)) ()) :
  fs_at d sb f' → only_in (kram k) m HEAP_START HEAP_END → heap_rep m5 bs → only_in m m5 HEAP_START HEAP_END →
  (∀ lg c', tidy (IO (with_ram m (Kernel (k_os k) lg f')) c') = Some ((), IO (with_ram m5 (Kernel (k_os k) lg f')) c')) →
  fits format arglist = true → Forall arg_ok arglist →
  exec_ends ((log_op (klog_error format arglist) ;; tidy ;; mret PNull) (IO (with_ram m (Kernel (k_os k) (k_log k) f')) c)).
Proof using Hk Hentries Hmsgs.
  intros Hat Hon Hrep Hon5 Htidy Hf Ha. destruct Hk as [Ht Hv [Htab Hlow] [_ Hco] [Hinv _] Hlog].
  destruct (log_says (with_ram m (Kernel (k_os k) (k_log k) f')) c h KLOG_ERROR format arglist (conj Hlog Hentries))
    as (lg & h' & out & E & [Hlog' Hent'] & Hlen & Hout); [done|lia|done..|].
  unfold klog_error. mstep E.
  change (Kernel (k_os (with_ram m (Kernel (k_os k) (k_log k) f'))) lg (k_fs (with_ram m (Kernel (k_os k) (k_log k) f'))))
    with (with_ram m (Kernel (k_os k) lg f')).
  mstep (Htidy lg (c ++ out)). eexists PNull, _, out, h'. split; [reflexivity|].
  assert (only_in (ram (kvm k)) m5 HEAP_START HEAP_END) as Hall.
  { intros a Ha'. rewrite Hon5 by done. by apply Hon. }
  destruct (heap_kernel (kvm k) m5 Hv Htab Hall) as [Hv5 Hw5].
  split_and!; [done|done|lia|done|done|exact Hw5|apply (heap_others (kvm k) m5 Hv Htab Hall)..|left; split; [done|]].
  split; [by apply task_inv_vmem|exact Hv5| |done|done|done].
  split; [exact (heap_outside (kvm k) m5 Htab Hall)|]. rewrite Hw5 by (unfold addr32; lia). exact Hlow.
Qed.

(** An error before anything has been allocated. *)
Lemma exec_refused f' format arglist :
  fs_at d sb f' → fits format arglist = true → Forall arg_ok arglist →
  exec_ends ((log_op (klog_error format arglist) ;; mret PNull) (IO (Kernel (k_os k) (k_log k) f') c)).
Proof using Hk Hentries Hmsgs.
  intros Hat Hf Ha. pose proof (exec_error f' (kram k) (kram k) format arglist (mret ()) Hat (λ _ _, eq_refl)
    (proj1 (ru_heap _ _ _ _ _ _ Hk)) (λ _ _, eq_refl) (λ _ _, eq_refl) Hf Ha) as He.
  unfold kram in He. by rewrite same_ram in He.
Qed.

(** The file is in its buffer: whatever the loader does, the buffer is freed. *)
Lemma exec_loaded f2 m1 buf x :
  has d fname FS_TYPE_FILE x → loadable_file x → fs_at d sb f2 →
  only_in (kram k) m1 HEAP_START HEAP_END → HEAP_START < buf → buf + Z.of_nat (length x) ≤ HEAP_END →
  (∀ m2, (∀ a, HEAP_START ≤ a < HEAP_END → load8 m2 a = load8 (mem_put m1 buf x) a) →
     ∃ m3, kfree buf m2 = Some ((), m3) ∧ heap_rep m3 bs ∧ only_in m2 m3 HEAP_START HEAP_END) →
  let k2 := with_ram (mem_put m1 buf x) (Kernel (k_os k) (k_log k) f2) in
  exec_ends ((t ← elf_load_internal sy buf (Z.of_nat (length x)) (name ++ 0 :: r) (Some argv) (Z.of_nat (length args));
    mem_op (kfree buf) ;; mret t) (IO k2 c)).
Proof using All.
  intros Hx Hfile Hat Hon Hlo Hhi Hfree k2. pose proof Hk as [Ht Hv [Htab Hlow] [_ Hco] [Hinv _] Hlog].
  destruct (buffer_kept k qs bs d sb h Hk f2 (k_log k) m1 buf x Hon Hlo Hhi) as (Hon2 & Ht2 & Hv2 & Htab2 & Hlow2 & Hw2).
  fold k2 in Ht2, Hv2, Htab2, Hlow2, Hw2.
  assert (elf_validate (kram k2) buf (Z.of_nat (length x)) = elf_validate (file_mem x) 0x1000 (Z.of_nat (length x))) as Hval.
  { apply moved_validate; [apply file_moved|done|unfold HEAP_START in Hlo; lia]. }
  assert (load_ends sy k2 qs buf (Z.of_nat (length x)) args c h (elf_load_internal sy buf (Z.of_nat (length x)) (name ++ 0 :: r) (Some argv) (Z.of_nat (length args)) (IO k2 c)))
    as (p & k4 & out & h' & E & Hout & Hfs & [[Hlog' Hent'] Hlen] & [Hv4 [Hc4 Hp4] Hw4 Hu4 Hpl4] & [Hcur Hsch] & Hend).
  { destruct Hfile as [Hbad|Htm]; [by apply elf_load_invalid; rewrite ?Hval|].
    apply elf_load_tame; try done; [by apply (buffer_tame k)|by apply (buffer_plain k qs bs d sb h Hk)]. }
  mstep E. destruct (heap_untouched k2 k4 Hv2 Htab2 Hv4 Hpl4) as [Hm4 Htab4].
  destruct (Hfree (kram k4) Hm4) as (m5 & E5 & Hrep5 & Hon5).
  destruct (heap_kernel (kvm k4) m5 Hv4 Htab4 Hon5) as [Hv5 Hw5].
  mstep (mem_op_run (kfree buf) k4 (c ++ out) () m5 E5). exists p, (with_ram m5 k4), out, h'.
  assert (∀ va, addr32 va → kwalk (kvm (with_ram m5 k4)) va = kwalk (kvm k) va) as Hw.
  { intros va Hva. rewrite <- (Hw2 va Hva), <- (Hw4 va Hva). exact (Hw5 va Hva). }
  assert (∀ qs', task_inv (k_os k4) qs' → running (with_ram m5 k4) qs' bs d sb h') as Hrun.
  { intros qs' Hti. split; [by apply task_inv_vmem|exact Hv5| |done| |exact Hlog'].
    - split; [exact (heap_outside (kvm k4) m5 Htab4 Hon5)|]. rewrite Hw by (unfold addr32; lia). exact Hlow.
    - split; [exact Hinv|]. cbn [with_ram k_fs]. rewrite Hfs. exact Hat. }
  split_and!; [done|done|done|done|exact Hcur|exact Hsch|exact Hw| |].
  - apply (others_trans _ (kvm k2)); [apply (heap_others (kvm k) (mem_put m1 buf x) Hv Htab Hon2)|].
    apply (others_trans _ (kvm k4)); [|exact (heap_others (kvm k4) m5 Hv4 Htab4 Hon5)]. split; [exact Hu4|intros f Hf _; by apply Hpl4].
  - destruct Hend as [[-> Hti]|(i & t & -> & Hvalid & Hni & Hti & Hget & Hri & Hdf)]; [left; split; [done|by apply Hrun]|right].
    exists i, t, x. split_and!; [done|exact Hni|by apply Hrun|by rewrite <- Hget|exact Hx|by rewrite <- Hval|]. intros Him Hfit.
    destruct (buffer_ready sy k qs bs d sb h Hk f2 (k_log k) m1 buf x Hon Hlo Hhi Him) as (Him2 & _ & _ & Hmv).
    apply (runs_image_heap sy _ _ _ args (k_os k4) t m5 Him (proj1 (proj1 Hfit)) Hv4); [|exact Hon5|by apply Hmv, Hri].
    intros f Hf. by apply Hdf, heap_plain.
Qed.

Lemma elf_exec_any :
  (∀ x, has d fname FS_TYPE_FILE x → loadable_file x) →
  exec_ends (elf_exec sy (Some (fname ++ 0 :: rf)) (Some (name ++ 0 :: r)) (Some argv) (Z.of_nat (length args)) (IO k c)).
Proof using All.
  intros Hfiles. pose proof Hk as [Ht Hv [Htab Hlow] [Hheap Hco] [Hinv Hat] Hlog].
  assert (arg_ok (VStr (Some (fname ++ 0 :: rf)))) as Harg by (by exists fname, rf).
  assert (only_in (kram k) (kram k) HEAP_START HEAP_END) as Hrefl by done.
  destruct (stat_any d sb (k_fs k) fname rf Hinv Hat Hfname) as (res & f1 & E1 & Hat1 & Hres).
  unfold elf_exec. rewrite bind_run. unfold fs_op at 1, quiet at 1, zoom at 1 2. cbn [st con]. rewrite E1.
  destruct Hres as [->|(e & -> & Hsz & Hlen)]; [by apply exec_refused; [| |repeat constructor]|].
  rewrite Z.gtb_ltb. destruct (_ || _) eqn:Eb; [by apply exec_refused; [| |repeat constructor]|].
  apply orb_false_iff in Eb as [Ez%Z.eqb_neq Emax%Z.ltb_ge]. unfold ELF_MAX_FILE_SIZE in Emax.
  destruct (heap_buffer (kram k) bs (e_size e) Hheap Hco ltac:(lia)) as [[E2 _]|(buf & m1 & E2 & Hlo & Hhi & Hon & Hfree)];
    rewrite bind_run, (mem_op_run _ (Kernel (k_os k) (k_log k) f1) c _ _ E2).
  { cbn [Z.eqb]. unfold kram. rewrite same_ram. by apply exec_refused; [| |repeat constructor]. }
  destruct (Z.eqb_spec buf 0); [unfold HEAP_START in Hlo; lia|].
  destruct (read_file_run d sb f1 fname rf (e_size e) Hinv Hat1 Hfname Hsz) as (code & x & f2 & E3 & Hat2 & Hread).
  rewrite bind_run. unfold fs_op at 1, quiet at 1, zoom at 1 2. cbn [st con with_ram k_fs]. rewrite E3. cbn [k_os k_log].
  rewrite bind_run, (mem_op_run _ (with_ram m1 (Kernel (k_os k) (k_log k) f2)) c () (mem_put m1 buf x)) by done. cbn [fst snd].
  change (with_ram (mem_put m1 buf x) (with_ram m1 (Kernel (k_os k) (k_log k) f2))) with (with_ram (mem_put m1 buf x) (Kernel (k_os k) (k_log k) f2)).
  assert (Z.of_nat (length x) ≤ e_size e ∧ (code = -1 ∨ code = Z.of_nat (length x) ∧ has d fname FS_TYPE_FILE x)) as [Hx Hcode].
  { destruct Hread as [(-> & -> & _)|(y & Hy & -> & ->)]; [cbn; split; [lia|by left]|].
    rewrite take_ge by (specialize (Hlen y Hy); lia). specialize (Hlen y Hy). split; [lia|by right]. }
  destruct (_ || _) eqn:Eb.
  - destruct (Hfree x (mem_put m1 buf x) Hx) as (m5 & E5 & Hrep5 & Hon5); [done|].
    apply (exec_error f2 (mem_put m1 buf x) m5); [done| |done|done| |done|by repeat constructor].
    + intros a Ha. rewrite load8_mem_put. repeat zcase; cbn [andb]; try (exfalso; lia); by apply Hon.
    + intros lg c'. exact (mem_op_run (kfree buf) (with_ram (mem_put m1 buf x) (Kernel (k_os k) lg f2)) c' () m5 E5).
  - apply orb_false_iff in Eb as [Eneg%Z.ltb_ge _]. destruct Hcode as [->|[-> Hhas]]; [done|]. rewrite u32_small by lia.
    apply exec_loaded; [done|by apply Hfiles|done|done|lia|lia|]. intros m2 Hm2. by apply (Hfree x).
Qed.

End exec.

(** ** Example *)

Module AnyExec.
Import ExecFile.Demo.

End AnyExec.
