(* ===== verification/Reports.v ===== *)
(** * What the status commands print

    The code behind [mem], [pmem], [pagedir], [disk] and [dmesg] reads a
    component and prints.  [emits] is its contract: the code returns, prints
    text without a zero byte, and leaves its component in a state of which a
    postcondition holds.  The rules follow the structure of the code. *)

From S2P Require Import Prelude KString KStdio Console KPrintf Pmm Memory Kmalloc Paging AddrSpace Sched Task.
From S2P Require Import Block SimpleFS SimpleFSSpec Klog KlogSpec Elf ElfSpec ElfLoad ElfExec ElfSafe Timer Ports Ata AtaSpec.

Open Scope Z_scope.
Open Scope c_scope.

(** ** The contract and its rules *)

Definition emits {S A} (c : M (io S) A) (s : S) (Q : A → S → Prop) : Prop :=
  ∀ cs, ∃ a s' out, c (IO s cs) = Some (a, IO s' (cs ++ out)) ∧ nonzero out ∧ Q a s'.

Section rules.
Context {S : Type}.
Implicit Types s : S.

Lemma emits_ret {A} (a : A) s (Q : A → S → Prop) : Q a s → emits (mret a) s Q.
Proof. intros HQ cs. exists a, s, []. rewrite app_nil_r. split_and!; [done|constructor|done]. Qed.

Lemma emits_bind {A B} (c : M (io S) A) (f : A → M (io S) B) s Q :
  emits c s (λ a s', emits (f a) s' Q) → emits (c ≫= f) s Q.
Proof.
  intros Hc cs. destruct (Hc cs) as (a & s1 & o1 & E1 & H1 & Hf). destruct (Hf (cs ++ o1)) as (b & s2 & o2 & E2 & H2 & HQ).
  exists b, s2, (o1 ++ o2). mstep E1. rewrite app_assoc. split_and!; [done|by apply Forall_app_2|done].
Qed.

Lemma emits_weaken {A} (c : M (io S) A) s (P Q : A → S → Prop) : emits c s P → (∀ a s', P a s' → Q a s') → emits c s Q.
Proof. intros Hc HPQ cs. destruct (Hc cs) as (a & s1 & o1 & E1 & H1 & HP). exists a, s1, o1. auto. Qed.

Lemma emits_opt {A} (o : option A) a s (Q : A → S → Prop) : o = Some a → Q a s → emits (of_option o) s Q.
Proof. intros -> HQ cs. exists a, s, []. rewrite app_nil_r. split_and!; [done|constructor|done]. Qed.

Lemma emits_quiet {A} (c : M S A) a s s' (Q : A → S → Prop) : c s = Some (a, s') → Q a s' → emits (quiet c) s Q.
Proof. intros E HQ cs. exists a, s', []. rewrite app_nil_r. split_and!; [by apply quiet_run|constructor|done]. Qed.

Lemma emits_zoom {T A} (g : S → T) (set : T → S → S) (c : M (io T) A) s Q :
  emits c (g s) (λ a t, Q a (set t s)) → emits (zoom_io g set c) s Q.
Proof.
  intros Hc cs. destruct (Hc cs) as (a & t & o & E & Ho & HQ). exists a, (set t s), o.
  unfold zoom_io, zoom. cbn [st con]. rewrite E. done.
Qed.

Lemma emits_kprint msg s (Q : () → S → Prop) : nonzero msg → Q () s → emits (kprint msg) s Q.
Proof. intros Hm HQ cs. exists (), s, msg. done. Qed.

Lemma emits_uint v s (Q : () → S → Prop) : 0 ≤ v < 4294967296 → Q () s → emits (kprint_uint v) s Q.
Proof.
  intros Hv HQ. destruct (uint_str_numeral v Hv) as (n & E & Hn & _). apply emits_bind.
  apply (emits_opt _ n); [done|]. apply emits_kprint; [by apply (numeral_nonzero v)|done].
Qed.

Lemma uitoa_text v : 0 ≤ v < 4294967296 → ∃ n, uitoa v 10 = Some n ∧ nonzero n ∧ (length n ≤ 10)%nat.
Proof.
  intros Hv. destruct (utoa_numeral_len v 10 10) as (n & E & Hn & Hl); [lia..|]. exists n. rewrite uitoa_utoa by lia.
  split; [exact E|]. split; [by apply (numeral_nonzero v)|done].
Qed.

Lemma emits_uitoa v s (Q : () → S → Prop) : 0 ≤ v < 4294967296 → Q () s → emits (kprint_uitoa v 10) s Q.
Proof.
  intros Hv HQ. destruct (uitoa_text v Hv) as (n & E & Hn & _). apply emits_bind.
  apply (emits_opt _ n); [done|]. by apply emits_kprint.
Qed.

Lemma emits_kprintf format args s (Q : () → S → Prop) :
  fits format args = true → Forall arg_ok args → Q () s → emits (kprintf format args) s Q.
Proof.
  intros Hf Ha HQ. destruct (fits_text _ _ Hf Ha) as (_ & text & E & Hnz). apply emits_bind.
  apply (emits_opt _ text); [done|]. by apply emits_kprint.
Qed.

Lemma emits_for n i (f : Z → M (io S) ()) s (P : S → Prop) :
  (∀ j s', i ≤ j < i + Z.of_nat n → P s' → emits (f j) s' (λ _ s'', P s'')) → P s → emits (for_loop n i f) s (λ _ s', P s').
Proof.
  revert i s. induction n as [|n IH]; intros i s Hf HP; cbn [for_loop]; [by apply emits_ret|].
  apply emits_bind. eapply emits_weaken; [apply Hf; [lia|exact HP]|]. intros [] s' HP'. apply IH; [|exact HP'].
  intros j s'' Hj. apply Hf. lia.
Qed.
End rules.

(** The tactic for straight-line printing code. *)
Ltac text := apply (bool_decide_unpack _); vm_compute; exact I.
Ltac in_range := lazymatch goal with |- 0 ≤ u32 _ < _ => apply u32_bound | _ => first [assumption | lia] end.
Ltac emit :=
  repeat lazymatch goal with
    | |- emits (mbind _ _) _ _ => apply emits_bind
    | |- emits (kprint _) _ _ => apply emits_kprint; [text|]
    | |- emits (kprint_uint _) _ _ => apply emits_uint; [in_range|]
    | |- emits (kprint_uitoa _ _) _ _ => apply emits_uitoa; [in_range|]
    | |- emits (kprintf _ _) _ _ => apply emits_kprintf; [reflexivity|repeat constructor|]
    end.

(** ** The frame allocator *)

Lemma pmm_status_emits p (Q : () → pmm_t → Prop) : pmm_wf p → Q () p → emits pmm_status p Q.
Proof.
  intros Hwf HQ. pose proof (used_frames_bound p Hwf) as Hu. change TOTAL_FRAMES with 4096 in Hu.
  assert (0 ≤ 4096 *! PAGE_SIZE / 1024 < 4294967296) as H1 by (vm_compute; split; congruence).
  assert (0 ≤ used_frames p *! PAGE_SIZE / 1024 < 4294967296) as H2.
  { pose proof (u32_bound (used_frames p * PAGE_SIZE)). split; [apply Z.div_pos; lia|apply Z.div_lt_upper_bound; lia]. }
  unfold pmm_status. apply emits_bind, (emits_quiet get p p p _ eq_refl). rewrite (wf_total _ Hwf), (wf_size _ Hwf).
  assert (0 ≤ PAGE_SIZE / 1024 < 4294967296) as H3 by (vm_compute; split; congruence). emit. exact HQ.
Qed.

(** ** The page tables *)

Lemma status_scan_run s : vm_inv s → ∀ n i p t, 0 ≤ i → i + Z.of_nat n ≤ 1024 →
  0 ≤ p < 4294967296 → 0 ≤ t < 4294967296 →
  ∃ p' t', status_scan n i s p t = Some (p', t') ∧ 0 ≤ p' < 4294967296 ∧ 0 ≤ t' < 4294967296.
Proof.
  intros Hinv. induction n as [|n IH]; intros i p t Hi Hn Hp Ht; cbn [status_scan]; [by exists p, t|].
  destruct (present _); [|apply IH; [lia..|done|done]]. rewrite (vi_tab _ Hinv i) by (unfold idx; lia). cbn [mbind option_bind].
  destruct (_ =? 0); (apply IH; [lia|lia|apply u32_bound|first [done|apply u32_bound]]).
Qed.

Lemma paging_status_emits s (Q : () → vm → Prop) : vm_inv s → Q () s → emits paging_status s Q.
Proof.
  intros Hinv HQ. unfold paging_status. apply emits_bind, (emits_quiet get s s s _ eq_refl).
  destruct (kernel_directory s =? 0); [by emit|].
  destruct (status_scan_run s Hinv 1024 0 0 0) as (p & t & E & Hp & Ht); [lia..|].
  apply emits_bind, (emits_opt _ (p, t) s _ E).
  assert (0 ≤ t *! 4 / 1024 < 4294967296) as Hm.
  { pose proof (u32_bound (t * 4)). split; [apply Z.div_pos; lia|apply Z.div_lt_upper_bound; lia]. }
  emit. destruct (_ && _); by emit.
Qed.

(** ** The heap *)

Lemma kmalloc_status_emits m bs (Q : () → mem → Prop) : heap_rep m bs → Q () m → emits kmalloc_status m Q.
Proof.
  intros Hrep HQ cs. destruct (kmalloc_status_accounts m bs cs Hrep) as (s & n1 & n2 & n3 & n4 & n5 & _ & _ & _ & _ & H1 & H2 & H3 & H4 & H5 & E).
  eexists (), m, _. split; [exact E|]. split; [|exact HQ].
  repeat (apply Forall_app_2; [first [text|eapply numeral_nonzero; eassumption]|]). text.
Qed.

(** ** The log *)

(** The messages in the ring are those the readers see. *)
Lemma ring_entry k h i :
  logs k h → 0 ≤ i < log_size k →
  ∃ e, log_buffer k !! Z.to_nat ((start_pos k +! i) mod KLOG_BUFFER_SIZE) = Some e ∧ entry_ok e.
Proof.
  intros [Hrep Hok] Hi. rewrite (log_size_rep k h Hrep) in Hi. rewrite (ring_lookup k h i Hrep Hi).
  destruct (lookup_lt_is_Some_2 h (length h - length h `min` 256 + Z.to_nat i)) as (e & E); [lia|]. exists e.
  split; [exact E|]. by apply (Forall_lookup_1 _ _ _ _ Hok E).
Qed.

Lemma klog_dump_emits k h (Q : () → klog_t → Prop) : logs k h → Q () k → emits klog_dump k Q.
Proof.
  intros Hlog HQ. unfold klog_dump. emit. apply (emits_quiet get k k k _ eq_refl). emit.
  eapply emits_weaken; [apply (emits_for _ _ _ _ (λ k', k' = k)); [|done]|].
  - intros j k' Hj ->. destruct (ring_entry k h j Hlog) as (e & Ee & Hl & _ & t & Ht & Hlen & Hm); [lia|].
    destruct (level_name _ Hl) as (name & En & Hn). unfold dump_line.
    apply emits_bind, (emits_quiet get k k k _ eq_refl), emits_bind, (emits_opt _ e k _ Ee), emits_bind, (emits_opt _ name k _ En).
    rewrite Hm. unfold pad128. replace (128 - length t)%nat with (S (127 - length t)) by lia. cbn [replicate].
    apply emits_kprintf; [reflexivity| |done]. repeat constructor; [by exists name, []|by eexists t, _].
  - intros [] k' ->. by emit.
Qed.

Lemma klog_clear_emits k (Q : () → klog_t → Prop) : Q () empty_log → emits klog_clear k Q.
Proof. intros HQ. unfold klog_clear. apply emits_bind, (emits_quiet klog_init () k empty_log _ eq_refl). by emit. Qed.

(** *** The log as a file *)

(** Text that no loader takes for a program: it does not start like one. *)
Definition no_magic (x : list Z) : Prop := ∀ c t, x = c :: t → c ≠ ELFMAG0.

Record flushed (out : list Z) : Prop := {
  fl_text : nonzero out;
  fl_size : (length out ≤ 4095)%nat;
  fl_magic : no_magic out
}.

Lemma flush_put_ok out s : flushed out → nonzero s → out ≠ [] ∨ no_magic s → flushed (flush_put out s).
Proof.
  intros [H1 H2 H3] Hs Hc. unfold flush_put. change (Z.to_nat (FLUSH_BUF_SIZE - 2)) with 4094%nat. split.
  - apply Forall_app_2; [exact H1|by apply Forall_take].
  - rewrite length_app, length_take. lia.
  - intros c t E. destruct out as [|x out]; [|cbn in E; injection E as <- _; by apply (H3 x out)].
    destruct Hc as [|Hc]; [done|]. cbn [app length] in E. destruct s as [|y s]; [done|]. cbn in E. injection E as <- _. by apply (Hc y s).
Qed.

Lemma flush_put_grows out s : out ≠ [] → flush_put out s ≠ [].
Proof. intros H E. apply app_eq_nil in E as [E _]. done. Qed.

Lemma level_magic lvl name : level_names !! lvl = Some name → no_magic name ∧ name ≠ [].
Proof.
  intros E. assert (name ∈ level_names) as Hin by (by eapply list_elem_of_lookup_2).
  unfold level_names in Hin. rewrite !elem_of_cons, elem_of_nil in Hin.
  destruct Hin as [->|[->|[->|[->|[]]]]]; (split; [intros c t [= <- _]; by vm_compute|done]).
Qed.

Lemma flush_entry_ok out e : flushed out → entry_ok e → ∃ out', flush_entry out e = Some out' ∧ flushed out'.
Proof.
  intros Hout (Hl & Hts & t & Ht & Hlen & Hm). destruct (level_name _ Hl) as (name & En & Hn). destruct (level_magic _ _ En) as [Hmag Hne].
  destruct (utoa_text (timestamp e) 10 ltac:(lia)) as (ts & Ets & Hnts). rewrite u32_small in Ets by exact Hts.
  unfold flush_entry. rewrite En, Ets, Hm, pad128_cstr by done. cbn [mbind option_bind]. eexists. split; [reflexivity|].
  assert (flushed (flush_put out name) ∧ flush_put out name ≠ []) as H1.
  { split; [apply flush_put_ok; [done|done|by right]|]. unfold flush_put. intros [-> E]%app_eq_nil. cbn [length] in E. destruct name; [done|]. done. }
  assert (∀ o s, flushed o ∧ o ≠ [] → nonzero s → flushed (flush_put o s) ∧ flush_put o s ≠ []) as Hstep.
  { intros o s [Ho Hoe] Hs. split; [apply flush_put_ok; [done|done|by left]|by apply flush_put_grows]. }
  assert (nonzero (str " ")) as Hsp by text.
  apply (Hstep _ (str " ")) in H1; [|done]. apply (Hstep _ ts) in H1; [|done]. apply (Hstep _ (str " ")) in H1; [|done]. apply (Hstep _ t) in H1; [|done].
  destruct H1 as [[F1 F2 F3] Hx]. set (o := flush_put _ t) in *. destruct (Z.ltb_spec (Z.of_nat (length o)) (FLUSH_BUF_SIZE - 1)) as [Hlt|]; [|done].
  unfold FLUSH_BUF_SIZE in Hlt. split; [apply Forall_app_2; [done|text]|rewrite length_app; cbn; lia|].
  intros c u E. destruct o as [|y o]; [done|]. injection E as <- _. by apply (F3 y o).
Qed.

Lemma flush_loop_ok k h : logs k h → ∀ n i out, 0 ≤ i → i + Z.of_nat n ≤ log_size k → flushed out →
  ∃ text, flush_loop n i k out = Some text ∧ flushed text.
Proof.
  intros Hlog. induction n as [|n IH]; intros i out Hi Hn Hout; cbn [flush_loop]; [by exists out|].
  destruct (_ <? _); [|by exists out]. destruct (ring_entry k h i Hlog) as (e & -> & He); [lia|]. cbn [mbind option_bind].
  destruct (flush_entry_ok out e Hout He) as (out' & -> & Hout'). cbn [mbind option_bind]. apply IH; [lia|lia|done].
Qed.

(** ** The disks *)

Lemma print_drive_emits {S} label i (s : S) (Q : () → S → Prop) :
  nonzero label → drive_shown i → Q () s → emits (ata_print_drive label i) s Q.
Proof.
  intros Hl Hd HQ. unfold ata_print_drive. apply emits_bind, emits_kprint; [exact Hl|].
  destruct (Z.eqb_spec (di_present i) 0) as [|Hp]; [by emit|]. destruct (Hd Hp) as ((t & r & Em & Ht) & H1 & H2).
  apply emits_bind, (emits_opt _ t); [rewrite Em; by apply cstr_app|].
  do 2 (apply emits_bind, emits_kprint; [text|]). apply emits_bind, emits_kprint; [exact Ht|].
  emit. apply emits_kprint; [destruct (truth _); text|]. by emit.
Qed.

Lemma ata_status_emits {H} (a : ata (H := H)) (Q : () → ata → Prop) :
  drive_shown (drive_info a) → drive_shown (slave_info a) → Q () a → emits ata_status a Q.
Proof.
  intros H1 H2 HQ. unfold ata_status. apply emits_bind, (emits_quiet get a a a _ eq_refl), emits_bind.
  apply print_drive_emits; [text|done|]. by apply print_drive_emits; [text| |].
Qed.

(** ** The directory *)

Lemma list_entries_run {D} `{BlockDevLaws D} (d : D) sb : fs_inv d sb → ∀ n i count es s,
  fs_at d sb s → 0 ≤ i → i + Z.of_nat n ≤ 32 → Forall (λ e, ∃ j, slot j ∧ in_use (dirent d j) ∧ e = dirent d j) es →
  ∃ es' s', list_entries n i count FS_MAX_ENTRIES es s = Some (es', s') ∧ fs_at d sb s' ∧
    Forall (λ e, ∃ j, slot j ∧ in_use (dirent d j) ∧ e = dirent d j) es' ∧ (length es' ≤ length es + n)%nat.
Proof.
  intros Hinv. induction n as [|n IH]; intros i count es s Hat Hi Hn Hes; cbn [list_entries].
  { exists es, s. split_and!; [done|done|done|lia]. }
  destruct (_ <? _); [|exists es, s; split_and!; [done|done|done|lia]]. assert (slot i) as Hs by (unfold slot; lia).
  destruct (read_entry_run d sb s i Hat (fi_mounted _ _ Hinv) Hs) as (s1 & E & Hat1). mstep E.
  destruct (Z.eqb_spec (SimpleFS.e_type (dirent d i)) FS_TYPE_FREE) as [Hf|Hf]; cbn [negb].
  - destruct (IH (i + 1) count es s1 Hat1) as (es' & s' & E' & Hat' & Hes' & Hl); [lia|lia|done|].
    exists es', s'. split_and!; [done|done|done|lia].
  - destruct (IH (i + 1) (count + 1) (es ++ [dirent d i]) s1 Hat1) as (es' & s' & E' & Hat' & Hes' & Hl); [lia|lia| |].
    { apply Forall_app_2; [done|]. constructor; [|constructor]. by exists i. }
    rewrite length_app in Hl. cbn [length] in Hl. exists es', s'. split_and!; [done|done|done|lia].
Qed.

Lemma fs_list_run {D} `{BlockDevLaws D} (d : D) sb s :
  fs_inv d sb → fs_at d sb s →
  ∃ es s', fs_list FS_MAX_ENTRIES s = Some (es, s') ∧ fs_at d sb s' ∧
    Forall (λ e, ∃ j, slot j ∧ in_use (dirent d j) ∧ e = dirent d j) es ∧ (length es ≤ 32)%nat.
Proof.
  intros Hinv Hat. destruct (fs_at_dev _ _ _ Hat) as [d0 Hd]. unfold fs_list. rewrite bind_run. cbn [get]. rewrite Hd.
  by apply (list_entries_run d sb Hinv).
Qed.
