(* ===== verification/SessionSpec.v ===== *)
(** * Any session at the keyboard

    The shell runs every component's code on behalf of whoever types.  The
    theorem: up to the first self-test command, no sequence of keys makes a
    command fail to return, write outside its buffers or leave a component out
    of its invariant.  [steps]
    is the contract of the shell's code, [fine] the state it keeps. *)

From S2P Require Import Prelude KString KStdio Console KPrintf Screen ScreenSpec Pmm Memory Kmalloc Paging AddrSpace Sched Task.
From S2P Require Import Block SimpleFS SimpleFSSpec Klog KlogSpec Elf ElfSpec ElfLoad ElfExec ElfSafe Syscall Timer Ports Ata AtaSpec Shell ShellSpec.
From S2P Require Import Keyboard KeyboardSpec Boot BootSpec ExecFile ExecSafe Reports.

Open Scope Z_scope.
Open Scope c_scope.

(** ** The kernel between two commands *)

(** Every file is a program in the loader's sense, or no program at all. *)
Definition files_ok {D} `{BlockDevLaws D} (d : D) : Prop := ∀ f x, has d f FS_TYPE_FILE x → loadable_file x.

Lemma no_magic_file x : Forall (λ b, 0 ≤ b < 256) x → no_magic x → loadable_file x.
Proof.
  intros Hb Hx. left. unfold elf_validate. cbn [Z.eqb orb]. destruct (Z.ltb_spec (Z.of_nat (length x)) sizeof_ehdr) as [|Hl]; [done|].
  assert (nth 0 (e_ident (ehdr_at (file_mem x) 0x1000)) 0 ≠ ELFMAG0) as Hne.
  { unfold sizeof_ehdr in Hl. destruct x as [|c x]; [cbn in Hl; lia|].
    assert (nth 0 (e_ident (ehdr_at (file_mem (c :: x)) 0x1000)) 0 = c) as ->; [|by apply (Hx c x)].
    apply Forall_cons_iff in Hb as [Hc _]. cbn [ehdr_at e_ident mem_get nth]. unfold file_mem, at_addr.
    rewrite load8_mem_put. cbn [length]. repeat zcase. cbn [andb default]. change (Z.to_nat (0x1000 - 0x1000)) with 0%nat. cbn.
    rewrite u8_small by lia. done. }
  destruct (Z.eqb_spec (nth 0 (e_ident (ehdr_at (file_mem x) 0x1000)) 0) ELFMAG0); [done|]. done.
Qed.

(** The invariants of the kernel, with at most [n] messages logged. *)
Definition sound {D} `{BlockDevLaws D} (n : nat) (k : kernel D) : Prop :=
  ∃ qs bs d sb h, running k qs bs d sb h ∧ Forall entry_ok h ∧ (length h ≤ n)%nat ∧ files_ok d.

(** ** Lines *)

Lemma split_spaces s : ∃ k t, s = spaces k ++ t ∧ starts t.
Proof.
  induction s as [|c s (k & t & -> & Ht)]; [by exists 0%nat, []|]. destruct (Z.eq_dec c 32) as [->|Hc]; [by exists (S k), t|].
  by exists 0%nat, (c :: spaces k ++ t).
Qed.

Lemma split_at_space s : ∃ w t, s = w ++ t ∧ no_space w ∧ (t = [] ∨ ∃ u, t = 32 :: u).
Proof.
  induction s as [|c s (w & t & -> & Hw & Ht)]; [exists [], []; split_and!; [done|constructor|by left]|].
  destruct (Z.eq_dec c 32) as [->|Hc]; [exists [], (32 :: w ++ t); split_and!; [done|constructor|right; by eexists]|].
  exists (c :: w), t. split_and!; [done|by constructor|done].
Qed.

Lemma skip_word_at w t r : nonzero w → no_space w → (t = [] ∨ ∃ u, t = 32 :: u) → skip_word (w ++ t ++ 0 :: r) = Some (t ++ 0 :: r).
Proof.
  intros Hw Hn Ht. apply skip_word_run; [done|done| |by destruct t].
  destruct Ht as [->|[u ->]]; cbn; intros c [= <-]; [by left|by right].
Qed.

(** The first word of a line, and whether it names one of the self tests. *)
Fixpoint drop_spaces (s : list Z) : list Z :=
  match s with [] => [] | c :: s' => if c =? 32 then drop_spaces s' else s end.
Fixpoint take_word (s : list Z) : list Z :=
  match s with [] => [] | c :: s' => if c =? 32 then [] else c :: take_word s' end.

Definition is_test (c : command) : bool :=
  match c with Tasktest | Usertest | Addrtest | Elftest => true | _ => false end.
Definition self_test (line : list Z) : bool :=
  match command_of commands (take_word (drop_spaces line)) with Some c => is_test c | None => false end.

Lemma first_word_at k w t : no_space w → starts (w ++ t) → (t = [] ∨ ∃ u, t = 32 :: u) → take_word (drop_spaces (spaces k ++ w ++ t)) = w.
Proof.
  intros Hw Hst Ht. induction k as [|k IH]; [|exact IH]. cbn [spaces replicate app].
  assert (drop_spaces (w ++ t) = w ++ t) as ->.
  { destruct (w ++ t) as [|c v]; [done|]. cbn [drop_spaces]. destruct (Z.eqb_spec c 32) as [->|]; [|done]. by destruct Hst. }
  clear Hst. induction w as [|c w IHw]; [destruct Ht as [->|[u ->]]; done|]. apply Forall_cons_iff in Hw as [Hc Hw].
  cbn [app take_word]. destruct (Z.eqb_spec c 32); [done|]. by rewrite IHw.
Qed.

(** The rest of a line after its spaces. *)
Lemma skip_spaces_at s r : nonzero s → ∃ t, skip_spaces (s ++ 0 :: r) = Some (t ++ 0 :: r) ∧ nonzero t ∧ starts t ∧ t `suffix_of` s.
Proof.
  intros Hs. destruct (split_spaces s) as (k & t & -> & Ht). apply Forall_app in Hs as [_ Hs]. exists t.
  rewrite <- app_assoc, skip_spaces_run by done. split_and!; [done|done|done|by exists (spaces k)].
Qed.

(** The first word of a line, cut to the size of its buffer. *)
Lemma color_word_run s r : nonzero s →
  ∃ nm z t, color_word (s ++ 0 :: r) = Some (nm ++ 0 :: z, t ++ 0 :: r) ∧ nonzero nm ∧ nonzero t.
Proof.
  intros Hs. destruct (split_at_space s) as (w & t & -> & Hn & Ht). apply Forall_app in Hs as [Hw Hnt].
  unfold color_word. rewrite <- app_assoc, skip_word_at by done. cbn [mbind option_bind].
  assert (length (w ++ t ++ 0%Z :: r) - length (t ++ 0%Z :: r) = length w)%nat as -> by (rewrite length_app; lia).
  destruct (Nat.leb_spec 32 (length w)).
  - pose proof (copy_name_run 32 (take 31 w) (drop 31 w ++ t ++ 0 :: r)) as E. rewrite app_assoc, take_drop, length_take in E.
    replace (31 `min` length w)%nat with 31%nat in E by lia. rewrite E by (lia || by apply Forall_take). cbn [mbind option_bind].
    eexists _, _, t. split_and!; [done|by apply Forall_take|done].
  - rewrite copy_name_run by (done || lia). cbn [mbind option_bind]. by eexists _, _, t.
Qed.

Lemma color_loop_run cs s r : Forall (λ x, nonzero (fst x)) cs → nonzero s → ∃ code, color_loop cs (s ++ 0 :: r) = Some code.
Proof.
  intros Hcs Hs. induction cs as [|[n code] cs IH]; [by eexists|]. apply Forall_cons_iff in Hcs as [Hn Hcs]. cbn [color_loop].
  destruct (strcmp_cstr s n r [] Hs Hn) as (d & -> & _). cbn [mbind option_bind]. destruct (d =? 0); [by eexists|by apply IH].
Qed.

Lemma color_names_nonzero : Forall (λ x, nonzero (fst x)) color_names.
Proof. apply (bool_decide_unpack _). vm_compute. exact I. Qed.

Lemma parse_color_run s r : nonzero s → ∃ code, parse_color_name (s ++ 0 :: r) = Some code ∧ (code = 0xFF ∨ 0 ≤ code < 16).
Proof.
  intros Hs. destruct (color_loop_run color_names s r color_names_nonzero Hs) as (code & E). exists code. split; [exact E|].
  assert (∀ cs, Forall (λ x : list Z * Z, 0 ≤ snd x < 16) cs → color_loop cs (s ++ 0 :: r) = Some code → code = 0xFF ∨ 0 ≤ code < 16) as Hl.
  { induction cs as [|[n v] cs IH]; intros Hcs Ec; cbn [color_loop] in Ec; [left; congruence|]. apply Forall_cons_iff in Hcs as [Hv Hcs].
    destruct (strcmp _ _) as [d|]; [|done]. cbn [mbind option_bind] in Ec. destruct (d =? 0); [right; injection Ec as <-; exact Hv|by apply IH]. }
  apply (Hl color_names); [|exact E]. apply (bool_decide_unpack _). vm_compute. exact I.
Qed.

(** Any line after "exec", however many words it has. *)
Lemma split_any f : ∀ pre rest z argv ws,
  nonzero rest → tokens pre argv ws → Forall nonzero ws → (length argv ≤ 16)%nat → (17 ≤ f + length argv)%nat →
  (length (packed ws) ≤ length pre)%nat →
  ∃ buf argv' ws', split_loop f (pre ++ rest ++ 0 :: z) (length pre) argv = Some (buf, argv') ∧
    tokens buf argv' ws' ∧ Forall nonzero ws' ∧ (length argv' ≤ 16)%nat ∧ (length (packed ws') ≤ length pre + length rest + 1)%nat.
Proof.
  induction f as [|f IH]; intros pre rest z argv ws Hrest Ht Hws Ha Hf Hp; [lia|].
  assert (∀ x, tokens (pre ++ x) argv ws) as Hx by (intros x; by apply tokens_extend).
  destruct (decide (length argv = 16%nat)) as [H16|H16].
  { eexists _, argv, ws. split; [|split_and!; [apply Hx|done|lia|lia]]. cbn [split_loop].
    assert (∃ c, (pre ++ rest ++ 0 :: z) !! length pre = Some c) as [c ->] by (destruct rest; [exists 0|eexists]; apply lookup_at).
    cbn [mbind option_bind]. rewrite H16. by rewrite andb_false_r. }
  destruct (split_spaces rest) as (k & u & -> & Hu). apply Forall_app in Hrest as [_ Hnu]. rewrite length_app.
  destruct u as [|c u].
  { rewrite app_nil_r. rewrite split_end. eexists _, argv, ws. split; [done|]. split_and!; [apply Hx|done|lia|cbn; lia]. }
  destruct (split_at_space (c :: u)) as (w & t & Eu & Hsp & Htail).
  assert (w ≠ []) as Hne.
  { intros ->. cbn in Eu. destruct Htail as [->|[v ->]]; [done|]. injection Eu as -> _. by apply Hu. }
  rewrite Eu in *. apply Forall_app in Hnu as [Hw Hnt]. clear Eu.
  assert (word w) as Hword by done. rewrite length_app.
  assert (length (packed (ws ++ [w])) = length (packed ws) + length w + 1)%nat as Hpk by (rewrite packed_app, packed_one, !length_app; simpl; lia).
  assert (length (spaces k) = k) as Hk by apply length_replicate.
  destruct Htail as [->|[v ->]].
  - rewrite app_nil_r, <- app_assoc. rewrite split_round by (done || lia || by left). cbn [Z.eqb]. cbv zeta.
    destruct f as [|f]; [lia|]. pose proof (split_end f (pre ++ spaces k ++ w) 0 z (argv ++ [(length pre + k)%nat])) as E.
    cbn [spaces replicate app] in E. rewrite <- !app_assoc in E. eexists _, _, (ws ++ [w]). split; [exact E|].
    split_and!; [|by apply Forall_app_2; [|constructor]|rewrite length_app; cbn; lia|cbn [length]; lia].
    pose proof (tokens_extend _ z _ _ (tokens_snoc pre k w argv ws Ht)) as Ht'. by rewrite <- !app_assoc in Ht'.
  - rewrite <- !app_assoc. cbn [app]. rewrite split_round by (done || lia || by right). cbn [Z.eqb]. cbv zeta.
    apply nonzero_cons in Hnt as [_ Hv].
    destruct (IH (pre ++ spaces k ++ w ++ [0]) v z (argv ++ [(length pre + k)%nat]) (ws ++ [w])) as (buf & argv' & ws' & E & R1 & R2 & R3 & R4);
      [done|by apply tokens_snoc|by apply Forall_app_2; [|constructor]|rewrite length_app; cbn; lia|rewrite length_app; cbn; lia| |].
    { rewrite Hpk, !length_app. cbn. lia. }
    replace (length (pre ++ spaces k ++ w ++ [0])) with (S (length (pre ++ spaces k ++ w))) in E by (rewrite !length_app; simpl; lia).
    rewrite <- !app_assoc in E. exists buf, argv', ws'. split; [exact E|]. split_and!; [done|done|done|].
    rewrite !length_app in R4. cbn [length] in R4 |- *. lia.
Qed.

Lemma exec_args_any a r : nonzero a → (length a ≤ 255)%nat →
  ∃ argv ws, exec_args (a ++ 0 :: r) = Some argv ∧ c_strings ws argv ∧ (length ws ≤ 16)%nat ∧ (length (packed ws) ≤ 256)%nat.
Proof.
  intros Ha Hl. unfold exec_args. rewrite copy_chars_run by done. cbn [mbind option_bind].
  destruct (split_any 17 [] a (replicate (255 - length a) 0) [] []) as (buf & argv & ws & E & Ht & Hws & Hn & Hp);
    [done|constructor|constructor|cbn; lia|cbn; lia|cbn; lia|].
  replace (256 - length a)%nat with (S (255 - length a)) by lia. cbn [replicate]. cbn [app length] in E. rewrite E.
  eexists _, ws. split; [reflexivity|]. split_and!; [by apply tokens_strings| |cbn in Hp; lia].
  assert (length ws = length argv) as -> by (by eapply Forall2_length). done.
Qed.

Lemma vga_color_byte fg bg : 0 ≤ fg < 16 → 0 ≤ bg < 16 → 0 ≤ VGA_COLOR fg bg < 256.
Proof.
  intros Hf Hb.
  assert (Forall (λ b, Forall (λ f, 0 ≤ VGA_COLOR f b < 256) (seqZ 0 16)) (seqZ 0 16)) as Hall.
  { apply (bool_decide_unpack _). vm_compute. exact I. }
  rewrite Forall_forall in Hall. specialize (Hall bg). rewrite Forall_forall in Hall.
  apply Hall; apply list_elem_of_In, elem_of_seqZ; lia.
Qed.

(** What [cat] prints of a file: the bytes before the first zero. *)
Lemma cstr_bytes l : Forall (λ b, 0 ≤ b < 256) l → ∃ t, cstr (l ++ [0]) = Some t ∧ nonzero t.
Proof.
  induction 1 as [|b l Hb Hl (t & E & Ht)]; [exists []; split; [done|constructor]|]. cbn [app cstr]. unfold truth.
  destruct (Z.eqb_spec b 0); cbn [negb]; [exists []; split; [done|constructor]|]. rewrite E. exists (b :: t).
  split; [done|]. constructor; [lia|done].
Qed.

(** Files hold bytes. *)
Lemma content_bytes {D} `{BlockDevLaws D} (d : D) sb n x :
  fs_inv d sb → has d n FS_TYPE_FILE x → Forall (λ b, 0 ≤ b < 256) x.
Proof.
  intros Hinv (i & Hi & Hu & Hn & Ht & ->). cbn [Z.eqb]. change (FS_TYPE_FILE =? FS_TYPE_FILE) with true. cbv iota. unfold content.
  destruct (Z.eq_dec (e_size (dirent d i)) 0) as [->|Hne]; [constructor|]. apply Forall_take.
  pose proof (fi_range _ _ Hinv i Hi Ht Hne) as Hr. pose proof (fi_mounted _ _ Hinv) as Hm.
  destruct (file_small d sb Hinv i Hi Ht) as (Hz & _ & Hs0). destruct (nblocks_bounds (e_size (dirent d i)) (proj1 Hz)) as [Hb _].
  unfold run_bytes. apply Forall_concat, Forall_fmap, Forall_forall. intros b Hb'%list_elem_of_In%elem_of_seqZ.
  unfold capacity in Hr. apply blk_block; [apply Hm|lia].
Qed.

Section session.
Context {D H : Type} {bd : BlockDev D} {bl : BlockDevLaws D} (sy : symbols).
Abbreviation machine := (machine D H).

Lemma sound_le n n' (k : kernel D) : sound n k → (n ≤ n')%nat → sound n' k.
Proof. intros (qs & bs & d & sb & h & H1 & H2 & H3 & H4) Hn. exists qs, bs, d, sb, h. split_and!; [done|done|lia|done]. Qed.

Lemma sound_fs n o lg (f f' : fs D) :
  sound n (Kernel o lg f) → (∀ d sb, fs_inv d sb → files_ok d → fs_at d sb f → ∃ d' sb', fs_at d' sb' f' ∧ fs_inv d' sb' ∧ files_ok d') →
  sound n (Kernel o lg f').
Proof.
  intros (qs & bs & d & sb & h & [H1 H2 H3 H4 [Hinv Hat] H6] & Hent & Hlen & Hfiles) Hf.
  destruct (Hf d sb Hinv Hfiles Hat) as (d' & sb' & Hat' & Hinv' & Hfiles').
  exists qs, bs, d', sb', h. split; [|done]. by split.
Qed.

(** ** The contract of shell code *)

Definition steps {A} (c : M machine A) (m : machine) (Q : A → machine → Prop) : Prop :=
  ∃ a m', c m = Some (a, m') ∧ Q a m'.

Lemma steps_ret {A} (a : A) m (Q : A → machine → Prop) : Q a m → steps (mret a) m Q.
Proof. by exists a, m. Qed.

Lemma steps_bind {A B} (c : M machine A) (f : A → M machine B) m P Q :
  steps c m P → (∀ a m', P a m' → steps (f a) m' Q) → steps (c ≫= f) m Q.
Proof. intros (a & m1 & E & HP) Hf. destruct (Hf a m1 HP) as (b & m2 & E2 & HQ). exists b, m2. by mstep E. Qed.

Lemma steps_opt {A B} (o : option A) a (f : A → M machine B) m Q : o = Some a → steps (f a) m Q → steps (of_option o ≫= f) m Q.
Proof. by intros ->. Qed.

(** What a command keeps, from the machine [m0] on. *)
Record fine (n : nat) (m0 m : machine) : Prop := {
  fi_kernel : sound n (m_kernel m);
  fi_screen : displays (m_screen m);
  fi_frame : m_ata m = m_ata m0 ∧ m_ticks m = m_ticks m0 ∧ command_buffer m = command_buffer m0 ∧ buffer_pos m = buffer_pos m0
}.

Context (m0 : machine).

Lemma fine_le n n' m : fine n m0 m → (n ≤ n')%nat → fine n' m0 m.
Proof. intros [H1 H2 H3] Hn. split; [by apply (sound_le n)|done|done]. Qed.

(** *** Printing *)

Lemma say_steps n m txt : fine n m0 m → nonzero txt → steps (say txt) m (λ _, fine n m0).
Proof.
  intros [H1 H2 H3] Ht. destruct (say_run m txt H2 Ht) as (scr & E & P). eexists (), _. split; [exact E|].
  split; [exact H1|exact (prints_displays _ _ _ P H2)|exact H3].
Qed.

Lemma say_seq {B} n m txt (f : M machine B) Q :
  fine n m0 m → nonzero txt → (∀ m', fine n m0 m' → steps f m' Q) → steps (say txt ;; f) m Q.
Proof. intros Hm Ht Hf. eapply steps_bind; [by apply (say_steps n)|]. intros [] m' Hm'. by apply Hf. Qed.

Lemma screen_steps n m (c : M screen ()) :
  fine n m0 m → (∀ s, displays s → ∃ s', c s = Some ((), s') ∧ displays s') → steps (on_screen c) m (λ _, fine n m0).
Proof.
  intros [H1 H2 H3] Hc. destruct (Hc _ H2) as (s' & E & Hs'). exists (), (set_screen s' m). unfold on_screen, zoom. rewrite E.
  split; [done|]. by split.
Qed.

(** *** Kernel code *)

Lemma kernel_steps {A} n n' m (c : M (io (kernel D)) A) (P : A → kernel D → Prop) :
  fine n m0 m → emits c (m_kernel m) (λ a k, sound n' k ∧ P a k) →
  steps (kernel_op c) m (λ a m', fine n' m0 m' ∧ P a (m_kernel m')).
Proof.
  intros [H1 H2 H3] Hc. destruct (Hc []) as (a & k' & out & E & Hout & Hk & HP). unfold kernel_op. cbn [app] in E.
  destruct (say_run (set_kernel k' m) out H2 Hout) as (scr & Es & P'). exists a, (set_screen scr (set_kernel k' m)).
  rewrite bind_run. cbn [get]. rewrite E, bind_run. cbn [put st con]. rewrite bind_run, Es.
  split; [done|]. split; [|done]. split; [done|exact (prints_displays _ _ _ P' H2)|done].
Qed.

Lemma fs_steps {A} n m (c : M (fs D) A) (P : A → Prop) :
  fine n m0 m →
  (∀ d sb f, fs_inv d sb → files_ok d → fs_at d sb f → ∃ a f' d' sb', c f = Some (a, f') ∧ fs_at d' sb' f' ∧ fs_inv d' sb' ∧ files_ok d' ∧ P a) →
  steps (kernel_op (fs_op c)) m (λ a m', fine n m0 m' ∧ P a).
Proof.
  intros Hm Hc. pose proof (fi_kernel _ _ _ Hm) as (qs & bs & d & sb & h & Hr & Hent & Hlen & Hfiles).
  destruct (ru_files _ _ _ _ _ _ Hr) as [Hinv Hat]. destruct (Hc d sb _ Hinv Hfiles Hat) as (a & f' & d' & sb' & E & Hat' & Hinv' & Hfiles' & HP).
  apply (kernel_steps n n m _ (λ a _, P a) Hm). apply (emits_quiet _ a _ (Kernel (k_os (m_kernel m)) (k_log (m_kernel m)) f')).
  { unfold zoom. by rewrite E. }
  split; [|done]. exists qs, bs, d', sb', h. split; [|done]. destruct Hr as [R1 R2 R3 R4 R5 R6]. by split.
Qed.

(** ** The commands *)

Section commands.
Context (n : nat).

Lemma say_lines_steps ls m : fine n m0 m → Forall nonzero ls → steps (say_lines ls) m (λ _, fine n m0).
Proof.
  intros Hm Hls. revert m Hm. induction Hls as [|l ls Hl Hls IH]; intros m Hm; cbn [say_lines]; [by apply steps_ret|].
  apply (say_seq n); [exact Hm|apply Forall_app_2; [exact Hl|text]|exact IH].
Qed.

Lemma help_steps m : fine n m0 m → steps cmd_help m (λ _, fine n m0).
Proof. intros Hm. apply say_lines_steps; [exact Hm|]. apply (bool_decide_unpack _). vm_compute. exact I. Qed.

Lemma clear_steps m : fine n m0 m → steps cmd_clear m (λ _, fine n m0).
Proof.
  intros Hm. apply screen_steps; [exact Hm|]. intros s [t Ht].
  destruct (clear_screen_run s (cells t) (sh_cells _ _ Ht) (sh_length _ _ Ht) (sh_color _ _ Ht)) as (s' & E & _ & _ & Hs').
  exists s'. split; [exact E|by eexists].
Qed.

Lemma echo_steps m a r : fine n m0 m → nonzero a → steps (cmd_echo (a ++ 0 :: r)) m (λ _, fine n m0).
Proof.
  intros Hm Ha. unfold cmd_echo. destruct a as [|c a]; [by apply steps_ret|].
  apply (steps_opt _ c); [done|]. pose proof Ha as Ha'. apply nonzero_cons in Ha' as [Hc _]. rewrite truth_pos by lia.
  apply (steps_opt _ (c :: a)); [by apply cstr_app|]. apply (say_seq n); [done|done|]. intros m' Hm'. by apply say_steps; [|text].
Qed.

Lemma kernel_same {A} m (c : M (io (kernel D)) A) :
  fine n m0 m → emits c (m_kernel m) (λ _ k, k = m_kernel m) → steps (kernel_op c) m (λ _, fine n m0).
Proof.
  intros Hm Hc. destruct (kernel_steps n n m c (λ _ _, True) Hm) as (a & m' & E & Hm' & _).
  - eapply emits_weaken; [exact Hc|]. intros a k ->. split; [apply Hm|done].
  - by exists a, m'.
Qed.

Lemma mem_steps m : fine n m0 m → steps cmd_mem m (λ _, fine n m0).
Proof.
  intros Hm. pose proof (fi_kernel _ _ _ Hm) as (qs & bs & d & sb & h & Hr & _). apply kernel_same; [exact Hm|].
  apply emits_zoom, (kmalloc_status_emits _ bs); [apply Hr|]. by destruct (m_kernel m) as [[[]] ? ?].
Qed.

Lemma pmem_steps m : fine n m0 m → steps cmd_pmem m (λ _, fine n m0).
Proof.
  intros Hm. pose proof (fi_kernel _ _ _ Hm) as (qs & bs & d & sb & h & Hr & _). apply kernel_same; [exact Hm|].
  unfold io_frames, vmem_op, os_op, vm_op. do 3 apply emits_zoom. apply pmm_status_emits; [apply (vi_pmm _ (ru_vm _ _ _ _ _ _ Hr))|].
  by destruct (m_kernel m) as [[[]] ? ?].
Qed.

Lemma pagedir_steps m : fine n m0 m → steps cmd_pagedir m (λ _, fine n m0).
Proof.
  intros Hm. pose proof (fi_kernel _ _ _ Hm) as (qs & bs & d & sb & h & Hr & _). apply kernel_same; [exact Hm|].
  unfold vmem_op, os_op, vm_op. do 2 apply emits_zoom. apply paging_status_emits; [apply (ru_vm _ _ _ _ _ _ Hr)|].
  by destruct (m_kernel m) as [[] ? ?].
Qed.

Lemma uptime_steps m : fine n m0 m → 0 ≤ m_ticks m0 < 4294967296 → steps cmd_uptime m (λ _, fine n m0).
Proof.
  intros Hm Ht. unfold cmd_uptime. destruct (fi_frame _ _ _ Hm) as (_ & Et & _).
  destruct (get_uptime_string_text (m_ticks m0) (replicate 32 0) Ht) as (t & z & E & Hnz & _); [cbn; lia|].
  eapply (steps_bind get _ m (λ a m', a = m ∧ m' = m)); [by exists m, m|]. intros _ _ [-> ->]. rewrite Et.
  apply (steps_opt _ _ _ _ _ E). apply (say_seq n); [done|text|]. clear m Hm Et. intros m Hm.
  apply (steps_opt _ t); [by apply cstr_app|]. apply (say_seq n); [done|done|]. clear m Hm. intros m Hm. by apply say_steps; [|text].
Qed.

Lemma bad_color_steps which s r m : fine n m0 m → nonzero which → nonzero s → steps (bad_color which (s ++ 0 :: r)) m (λ _, fine n m0).
Proof.
  intros Hm Hw Hs. unfold bad_color. apply (steps_opt _ s); [by apply cstr_app|]. apply (say_seq n); [done|done|].
  intros m1 H1. apply (say_seq n); [done|done|]. intros m2 H2. by apply say_steps; [|text].
Qed.

Lemma set_color_steps {B} m fg bg (f : M machine B) Q :
  fine n m0 m → 0 ≤ fg < 16 → 0 ≤ bg < 16 → (∀ m', fine n m0 m' → steps f m' Q) →
  steps (on_screen (set_text_color (VGA_COLOR fg bg)) ;; f) m Q.
Proof.
  intros Hm Hfg Hbg Hf. eapply steps_bind; [apply (screen_steps n); [exact Hm|]|intros [] m' Hm'; by apply Hf].
  intros s [t [H1 H2 H3 H4 H5 H6 H7]]. eexists. split; [reflexivity|]. exists t. split; try done.
  by apply vga_color_byte.
Qed.

Lemma color_steps m a r : fine n m0 m → nonzero a → steps (cmd_color (a ++ 0 :: r)) m (λ _, fine n m0).
Proof.
  intros Hm Ha. unfold cmd_color. destruct a as [|c a].
  { apply (steps_opt _ 0); [done|]. cbn [truth negb Z.eqb]. apply (say_seq n); [done|text|]. intros m1 H1. by apply say_steps; [|text]. }
  apply (steps_opt _ c); [done|]. pose proof Ha as Ha'. apply nonzero_cons in Ha' as [Hc _]. rewrite truth_pos by lia. cbn [negb].
  destruct (color_word_run (c :: a) r Ha) as (nm & z & t & E & Hnm & Ht). apply (steps_opt _ _ _ _ _ E). cbn [fst snd].
  destruct (parse_color_run nm z Hnm) as (fg & Ef & Hfg). apply (steps_opt _ _ _ _ _ Ef).
  destruct (Z.eqb_spec fg 0xFF); [by apply bad_color_steps; [|text|]|]. destruct Hfg as [|Hfg]; [done|].
  destruct (skip_spaces_at t r Ht) as (u & Eu & Hu & _). apply (steps_opt _ _ _ _ _ Eu).
  destruct u as [|c2 u].
  { apply (steps_opt _ 0); [done|]. cbn [truth negb Z.eqb]. apply set_color_steps; [done|done|lia|]. intros m1 H1. by apply say_steps; [|text]. }
  apply (steps_opt _ c2); [done|]. pose proof Hu as Hu'. apply nonzero_cons in Hu' as [Hc2 _]. rewrite truth_pos by lia.
  destruct (color_word_run (c2 :: u) r Hu) as (nm2 & z2 & t2 & E2 & Hnm2 & _). apply (steps_opt _ _ _ _ _ E2). cbn [fst snd].
  destruct (parse_color_run nm2 z2 Hnm2) as (bg & Eb & Hbg). apply (steps_opt _ _ _ _ _ Eb).
  destruct (Z.eqb_spec bg 0xFF); [by apply bad_color_steps; [|text|]|]. destruct Hbg as [|Hbg]; [done|].
  apply set_color_steps; [done|done|done|]. intros m1 H1. by apply say_steps; [|text].
Qed.

(** *** Files *)

Lemma say_quoted_steps m a s r b : fine n m0 m → nonzero a → nonzero s → nonzero b → steps (say_quoted a (s ++ 0 :: r) b) m (λ _, fine n m0).
Proof.
  intros Hm Ha Hs Hb. unfold say_quoted. apply (steps_opt _ s); [by apply cstr_app|]. apply (say_seq n); [done|done|].
  intros m1 H1. apply (say_seq n); [done|done|]. intros m2 H2. by apply say_steps.
Qed.

Lemma for_say_steps {B} k i m (f : M machine B) Q :
  fine n m0 m → (∀ m', fine n m0 m' → steps f m' Q) → steps (for_loop k i (λ _, say (str " ")) ;; f) m Q.
Proof.
  intros Hm Hf. apply (steps_bind _ _ _ (λ _, fine n m0)); [|by intros [] m' Hm'; apply Hf]. revert i m Hm.
  induction k as [|k IH]; intros i m Hm; cbn [for_loop]; [by apply steps_ret|]. apply (say_seq n); [done|text|]. intros m1 H1. by apply IH.
Qed.

Lemma ls_line_steps {B} m e (f : M machine B) Q :
  fine n m0 m → 0 ≤ e_size e < 4294967296 → (∃ x z, e_name e = x ++ 0 :: z ∧ nonzero x) →
  (∀ m', fine n m0 m' → steps f m' Q) → steps (ls_line e ;; f) m Q.
Proof.
  intros Hm Hz (x & z & Ex & Hx) Hf. apply (steps_bind _ _ _ (λ _, fine n m0)); [|by intros [] m' Hm'; apply Hf]. unfold ls_line.
  apply (say_seq n); [done|repeat destruct (_ =? _); text|]. clear m Hm. intros m Hm.
  destruct (uitoa_text (e_size e) Hz) as (t & Et & Ht & _). apply (steps_opt _ _ _ _ _ Et). apply for_say_steps; [done|].
  clear m Hm. intros m Hm. apply (say_seq n); [done|done|]. clear m Hm. intros m Hm. apply (say_seq n); [done|text|]. clear m Hm. intros m Hm.
  apply (steps_opt _ x); [rewrite Ex; by apply cstr_app|]. apply (say_seq n); [done|done|]. intros m1 H1. by apply say_steps; [|text].
Qed.

Lemma ls_steps m args : fine n m0 m → steps (cmd_ls args) m (λ _, fine n m0).
Proof.
  intros Hm. unfold cmd_ls.
  set (good := λ e, 0 ≤ e_size e < 4294967296 ∧ ∃ x z, e_name e = x ++ 0 :: z ∧ nonzero x).
  eapply steps_bind; [apply (fs_steps n m _ (λ es, Forall good es ∧ (length es ≤ 32)%nat) Hm)|].
  { intros d sb f Hinv Hfiles Hat. destruct (fs_list_run d sb f Hinv Hat) as (es & f' & E & Hat' & Hes & Hlen).
    exists es, f', d, sb. split_and!; [done|done|done|done| |done].
    eapply list.Forall_impl; [exact Hes|]. intros e (j & Hj & Hu & ->). split; [apply (ew_size _ (dirent_wf d sb j (fi_mounted _ _ Hinv) Hj))|].
    destruct (fi_name _ _ Hinv j Hj Hu) as (x & Hx & z & Ez). by exists x, z. }
  cbn beta. intros es m1 [H1 [Hes Hlen]]. destruct es as [|e es]; [by apply say_steps; [|text]|].
  assert (∀ l m (f : M machine ()), Forall good l → fine n m0 m → (∀ m', fine n m0 m' → steps f m' (λ _, fine n m0)) →
    steps (ls_lines l ;; f) m (λ _, fine n m0)) as Hl.
  { induction l as [|x l IH]; intros m' f Hgl Hm' Hf; [by apply Hf|]. apply Forall_cons_iff in Hgl as [[Hx1 Hx2] Hgl].
    cbn [ls_lines]. apply (steps_bind _ _ _ (λ _, fine n m0)); [|by intros [] m2 H2; apply Hf].
    apply ls_line_steps; [done|done|done|]. intros m2 H2.
    destruct (IH m2 (mret ()) Hgl H2) as ([] & m3 & E3 & H3); [by intros; apply steps_ret|].
    exists (), m3. split; [|done]. revert E3. rewrite bind_run. destruct (ls_lines l m2) as [[[] ?]|]; [|done]. done. }
  apply Hl; [done|done|]. clear m m1 Hm H1. intros m Hm. apply (say_seq n); [done|text|]. clear m Hm. intros m Hm.
  destruct (uitoa_text (Z.of_nat (length (e :: es)))) as (t & Et & Ht & _); [lia|]. apply (steps_opt _ _ _ _ _ Et).
  apply (say_seq n); [done|done|]. clear m Hm. intros m Hm. by apply say_steps; [|text].
Qed.

Lemma first_steps {B} m a r (f : Z → M machine B) Q :
  nonzero a → (a = [] → steps (f 0) m Q) → (∀ c a', a = c :: a' → truth c = true → steps (f c) m Q) →
  steps (of_option (first (a ++ 0 :: r)) ≫= f) m Q.
Proof.
  intros Ha Hnil Hcons. destruct a as [|c a]; [by apply (steps_opt _ 0); [|apply Hnil]|]. apply (steps_opt _ c); [done|].
  apply (Hcons c a); [done|]. apply nonzero_cons in Ha as [Hc _]. apply truth_pos. lia.
Qed.

Lemma cat_steps m a r : fine n m0 m → nonzero a → steps (cmd_cat (a ++ 0 :: r)) m (λ _, fine n m0).
Proof.
  intros Hm Ha. unfold cmd_cat. apply first_steps; [done|intros _; by apply say_steps; [|text]|]. intros c a' _ ->. cbn [negb].
  eapply steps_bind; [apply (fs_steps n m _ (λ r, fst r < 0 ∨ Forall (λ b, 0 ≤ b < 256) (snd r)) Hm)|].
  { intros d sb f Hinv Hfiles Hat. destruct (read_file_run d sb f a r 4095 Hinv Hat Ha) as (code & out & f' & E & Hat' & Hr); [lia|].
    exists (code, out), f', d, sb. split_and!; [done|done|done|done|]. destruct Hr as [(-> & _)|(x & Hx & -> & _)]; [by left|right].
    apply Forall_take. by apply (content_bytes d sb a x). }
  cbn beta. intros [code out] m1 [H1 Hr]. cbn [fst snd] in *. destruct (Z.ltb_spec code 0) as [Hc|Hc].
  { by apply say_quoted_steps; [|text| |text]. }
  destruct Hr as [|Hr]; [lia|]. destruct (cstr_bytes (take (Z.to_nat code) out)) as (t & E & Ht); [by apply Forall_take|].
  apply (steps_opt _ _ _ _ _ E). apply (say_seq n); [done|done|]. intros m2 H2. by apply say_steps; [|text].
Qed.

Lemma mkdir_steps m a r : fine n m0 m → nonzero a → Z.of_nat (length a) < 4294967296 → steps (cmd_mkdir (a ++ 0 :: r)) m (λ _, fine n m0).
Proof.
  intros Hm Ha Hl. unfold cmd_mkdir. apply first_steps; [done|intros _; by apply say_steps; [|text]|]. intros c a' _ ->. cbn [negb].
  eapply steps_bind; [apply (fs_steps n m _ (λ _, True) Hm)|].
  { intros d sb f Hinv Hfiles Hat. destruct (create_run d sb f a r FS_TYPE_DIR Hinv Hat Ha Hl) as (code & d' & f' & E & Hat' & Hinv' & Hr).
    exists code, f', d', sb. split_and!; [done|done|done| |done]. destruct Hr as [(_ & -> & _)|(_ & _ & Hiff)]; [done|].
    intros p x [(_ & [=] & _)|Hp]%Hiff. by apply (Hfiles p). }
  cbn beta. intros code m1 [H1 _]. destruct (_ =? 0); cbn [negb]; by apply say_quoted_steps; [|text| |text].
Qed.

Lemma rm_steps m a r : fine n m0 m → nonzero a → steps (cmd_rm (a ++ 0 :: r)) m (λ _, fine n m0).
Proof.
  intros Hm Ha. unfold cmd_rm. apply first_steps; [done|intros _; by apply say_steps; [|text]|]. intros c a' _ ->. cbn [negb].
  eapply steps_bind; [apply (fs_steps n m _ (λ _, True) Hm)|].
  { intros d sb f Hinv Hfiles Hat. destruct (delete_run d sb f a r Hinv Hat Ha) as (code & d' & sb' & f' & E & Hat' & Hinv' & Hr).
    exists code, f', d', sb'. split_and!; [done|done|done| |done]. destruct Hr as [(_ & -> & _)|(_ & t0 & x0 & _ & Hiff)]; [done|].
    intros p x [Hp _]%Hiff. by apply (Hfiles p). }
  cbn beta. intros code m1 [H1 _]. destruct (_ =? 0); cbn [negb]; by apply say_quoted_steps; [|text| |text].
Qed.

(** Writing text that is no program over a file, as [write] and [dmesg save] do. *)
Lemma written_files d sb f name z text :
  fs_inv d sb → files_ok d → fs_at d sb f → nonzero name → Forall (λ b, 0 ≤ b < 256) text → no_magic text → Z.of_nat (length text) < 4294966784 →
  ∃ code f' d' sb', fs_write_file (Some (name ++ 0 :: z)) (Some text) (Z.of_nat (length text)) f = Some (code, f') ∧
    fs_at d' sb' f' ∧ fs_inv d' sb' ∧ files_ok d'.
Proof.
  intros Hinv Hfiles Hat Hn Hb Hmag Hl.
  destruct (write_file_run d sb f name z text _ Hinv Hat Hn Hb eq_refl) as (code & d' & sb' & f' & E & Hat' & Hinv' & Hr); [lia|].
  exists code, f', d', sb'. split_and!; [done|done|done|]. destruct Hr as [(_ & -> & _)|(_ & _ & Hiff)]; [done|].
  intros p x [(-> & _ & ->)|[_ Hp]]%Hiff; [by apply no_magic_file|by apply (Hfiles p)].
Qed.

Lemma created_files d sb f name z :
  fs_inv d sb → files_ok d → fs_at d sb f → nonzero name → Z.of_nat (length name) < 4294967296 →
  ∃ code f' d' sb', fs_create (Some (name ++ 0 :: z)) FS_TYPE_FILE f = Some (code, f') ∧ fs_at d' sb' f' ∧ fs_inv d' sb' ∧ files_ok d'.
Proof.
  intros Hinv Hfiles Hat Hn Hl. destruct (create_run d sb f name z FS_TYPE_FILE Hinv Hat Hn Hl) as (code & d' & f' & E & Hat' & Hinv' & Hr).
  exists code, f', d', sb. split_and!; [done|done|done|]. destruct Hr as [(_ & -> & _)|(_ & _ & Hiff)]; [done|].
  intros p x [(_ & _ & ->)|Hp]%Hiff; [by apply no_magic_file|by apply (Hfiles p)].
Qed.

Lemma stat_steps m name z : fine n m0 m → nonzero name → steps (kernel_op (fs_op (fs_stat (Some (name ++ 0 :: z))))) m (λ _, fine n m0).
Proof.
  intros Hm Hn. destruct (fs_steps n m (fs_stat (Some (name ++ 0 :: z))) (λ _, True) Hm) as (a & m' & E & H' & _); [|by exists a, m'].
  intros d sb f Hinv Hfiles Hat. destruct (stat_any d sb f name z Hinv Hat Hn) as (res & f' & E & Hat' & _). by exists res, f', d, sb.
Qed.

Definition clean (a : list Z) : Prop := Forall (λ c, 0 < c < 256 ∧ c ≠ ELFMAG0) a.

Lemma clean_nonzero a : clean a → nonzero a.
Proof. intros Ha. eapply list.Forall_impl; [exact Ha|]. by intros c [? _]. Qed.

Lemma clean_suffix a b : clean a → b `suffix_of` a → clean b.
Proof. intros Ha [p ->]. by apply Forall_app in Ha as [_ ?]. Qed.

Lemma clean_bytes a : clean a → Forall (λ b, 0 ≤ b < 256) a ∧ no_magic a.
Proof.
  intros Ha. split; [eapply list.Forall_impl; [exact Ha|]; intros c [? _]; cbn; lia|].
  intros c t ->. by apply Forall_cons_iff in Ha as [[_ ?] _].
Qed.

Lemma write_steps m a r : fine n m0 m → clean a → (length a ≤ 255)%nat → steps (cmd_write (a ++ 0 :: r)) m (λ _, fine n m0).
Proof.
  intros Hm Hcl Hl. pose proof (clean_nonzero a Hcl) as Ha. unfold cmd_write.
  apply first_steps; [done|intros _; by apply say_steps; [|text]|]. intros c a' _ ->. cbn [negb].
  destruct (split_at_space a) as (w & t & -> & Hsp & Ht). apply Forall_app in Ha as [Hw Hnt]. apply Forall_app in Hcl as [_ Hct].
  rewrite length_app in Hl. rewrite <- app_assoc. apply (steps_opt _ _ _ _ _ (skip_word_at w t r Hw Hsp Ht)). cbv zeta.
  assert (length (w ++ t ++ 0%Z :: r) - length (t ++ 0%Z :: r) = length w)%nat as -> by (rewrite length_app; lia).
  destruct (_ || _) eqn:Eb; [by apply say_steps; [|text]|]. apply orb_false_iff in Eb as [E0%Nat.eqb_neq E1%Z.ltb_ge]. unfold FS_NAME_MAX in E1.
  apply (steps_opt _ _ _ _ _ (copy_name_run 24 w (t ++ 0 :: r) Hw ltac:(lia))). set (z := replicate _ _).
  destruct (skip_spaces_at t r Hnt) as (u & Eu & Hu & _ & Hsuf). apply (steps_opt _ _ _ _ _ Eu).
  pose proof (clean_suffix t u Hct Hsuf) as Hcu. destruct (clean_bytes u Hcu) as [Hbu Hmu].
  assert (length u ≤ length t)%nat as Hlu by (destruct Hsuf as [q ->]; rewrite length_app; lia).
  apply first_steps; [done|intros _; by apply say_steps; [|text]|]. intros c2 u' _ ->. cbn [negb].
  eapply steps_bind; [by apply stat_steps|]. cbn beta. clear m Hm. intros st m Hm.
  apply (steps_bind _ _ _ (λ _, fine n m0)).
  { destruct st; [by apply steps_ret|].
    destruct (fs_steps n m (fs_create (Some (w ++ 0 :: z)) FS_TYPE_FILE) (λ _, True) Hm) as (b & m' & E & H' & _); [|by exists b, m'].
    intros d sb f Hinv Hfiles Hat. destruct (created_files d sb f w z Hinv Hfiles Hat Hw) as (code & f' & d' & sb' & E & H1 & H2 & H3); [lia|].
    by exists code, f', d', sb'. }
  clear m Hm. intros created m Hm. destruct (created =? 0); cbn [negb]; [|by apply say_steps; [|text]].
  apply (steps_opt _ (Z.of_nat (length u))); [apply strlen_cstr; [done|lia]|]. rewrite Nat2Z.id, take_app_length.
  eapply steps_bind; [apply (fs_steps n m _ (λ _, True) Hm)|].
  { intros d sb f Hinv Hfiles Hat. destruct (written_files d sb f w z u Hinv Hfiles Hat Hw Hbu Hmu) as (code & f' & d' & sb' & E & H1 & H2 & H3); [lia|].
    by exists code, f', d', sb'. }
  cbn beta. clear m Hm. intros code m [Hm _]. destruct (code =? 0); cbn [negb]; [|by apply say_steps; [|text]].
  destruct (uitoa_text (Z.of_nat (length u))) as (num & En & Hnum & _); [lia|]. apply (steps_opt _ _ _ _ _ En).
  apply (say_seq n); [done|text|]. clear m Hm. intros m Hm. apply (say_seq n); [done|done|]. clear m Hm. intros m Hm.
  by apply say_quoted_steps; [|text| |text].
Qed.

(** *** Disks and the log *)

Lemma disk_steps m : fine n m0 m → drive_shown (drive_info (m_ata m0)) → drive_shown (slave_info (m_ata m0)) → steps cmd_disk m (λ _, fine n m0).
Proof.
  intros Hm H1 H2. destruct (fi_frame _ _ _ Hm) as (Ea & _). unfold cmd_disk.
  eapply (steps_bind get _ m (λ a m', a = m ∧ m' = m)); [by exists m, m|]. intros _ _ [-> ->]. rewrite Ea.
  destruct (ata_status_emits (m_ata m0) (λ _ _, True) H1 H2 I []) as (u & a' & out & E & Hout & _). rewrite E. by apply say_steps.
Qed.

Lemma dump_steps m : fine n m0 m → steps (kernel_op (log_op klog_dump)) m (λ _, fine n m0).
Proof.
  intros Hm. pose proof (fi_kernel _ _ _ Hm) as (qs & bs & d & sb & h & Hr & Hent & _). apply kernel_same; [exact Hm|].
  apply emits_zoom, (klog_dump_emits _ h); [split; [apply Hr|done]|]. by destruct (m_kernel m).
Qed.

(** Writing the log to a file keeps the file system in order. *)
Lemma flush_file_run d sb f lg h name :
  logs lg h → fs_inv d sb → files_ok d → fs_at d sb f → nonzero name → (length name ≤ 255)%nat →
  ∃ code f' d' sb', klog_flush_to_file (Some (name ++ [0])) (lg, f) = Some (code, (lg, f')) ∧ fs_at d' sb' f' ∧ fs_inv d' sb' ∧ files_ok d'.
Proof.
  intros Hlog Hinv Hfiles Hat Hn Hl. unfold klog_flush_to_file. rewrite bind_run. cbn [get fst snd].
  destruct (log_size lg =? 0); [by exists 0, f, d, sb|]. pose proof (log_size_rep lg h (proj1 Hlog)) as Hsz.
  destruct (flush_loop_ok lg h Hlog (Z.to_nat (log_size lg)) 0 []) as (txt & Et & [Ht1 Ht2 Ht3]);
    [lia|lia|split; [constructor|cbn; lia|done]|].
  rewrite bind_run, Et. cbn [of_option]. assert (Forall (λ b, 0 ≤ b < 256) txt) as Hb by (eapply list.Forall_impl; [exact Ht1|]; cbn; lia).
  destruct (stat_any d sb f name [] Hinv Hat Hn) as (res & f1 & E1 & Hat1 & _). rewrite bind_run. unfold zoom at 1. cbn [snd fst]. rewrite E1.
  assert (∃ code f2 d2 sb2, (match res with Some _ => mret 0 | None => zoom snd (λ f s, (fst s, f)) (fs_create (Some (name ++ [0])) FS_TYPE_FILE) end : M (klog_t * fs D) Z)
    (lg, f1) = Some (code, (lg, f2)) ∧ fs_at d2 sb2 f2 ∧ fs_inv d2 sb2 ∧ files_ok d2) as (code & f2 & d2 & sb2 & E2 & Hat2 & Hinv2 & Hfiles2).
  { destruct res; [by exists 0, f1, d, sb|]. destruct (created_files d sb f1 name [] Hinv Hfiles Hat1 Hn) as (code & f2 & d2 & sb2 & E & R); [lia|].
    exists code, f2, d2, sb2. unfold zoom. cbn [snd fst]. by rewrite E. }
  rewrite bind_run, E2. destruct (code =? 0); cbn [negb]; [|by exists (-1), f2, d2, sb2].
  destruct (written_files d2 sb2 f2 name [] txt Hinv2 Hfiles2 Hat2 Hn Hb Ht3) as (code3 & f3 & d3 & sb3 & E3 & R); [lia|].
  rewrite bind_run. unfold zoom. cbn [snd fst]. rewrite E3. destruct (code3 =? 0); cbn [negb]; by eexists _, f3, d3, sb3.
Qed.

Lemma save_steps m name : fine n m0 m → nonzero name → (length name ≤ 255)%nat →
  steps (kernel_op (flush_op (klog_flush_to_file (Some (name ++ [0]))))) m (λ _, fine n m0).
Proof.
  intros Hm Hn Hl. pose proof (fi_kernel _ _ _ Hm) as (qs & bs & d & sb & h & Hr & Hent & Hlen & Hfiles).
  pose proof Hr as [R1 R2 R3 R4 [Hinv Hat] R6].
  destruct (flush_file_run d sb _ _ h name (conj R6 Hent) Hinv Hfiles Hat Hn Hl) as (code & f' & d' & sb' & E & Hat' & Hinv' & Hfiles').
  destruct (kernel_steps n n m (flush_op (klog_flush_to_file (Some (name ++ [0])))) (λ _ _, True) Hm) as (a & m' & Em & H' & _); [|by exists a, m'].
  apply (emits_quiet _ code _ (Kernel (k_os (m_kernel m)) (k_log (m_kernel m)) f')); [unfold zoom; by rewrite E|].
  split; [|done]. exists qs, bs, d', sb', h. split; [|done]. by split.
Qed.

Lemma dmesg_steps m a r : fine n m0 m → nonzero a → steps (cmd_dmesg (a ++ 0 :: r)) m (λ _, fine n m0).
Proof.
  intros Hm Ha. unfold cmd_dmesg.
  assert (∀ c, steps (save ← of_option (strcmp (a ++ 0 :: r) (str "save" ++ [0])); clear ← of_option (strcmp (a ++ 0 :: r) (str "clear" ++ [0]));
    if truth c && (save =? 0) then
      r ← kernel_op (flush_op (klog_flush_to_file (Some (str "klog.txt" ++ [0]))));
      if r =? 0 then say (str "Kernel log saved to 'klog.txt'" ++ [10]) else say (str "Error: could not save kernel log" ++ [10])
    else if truth c && (clear =? 0) then kernel_op (log_op klog_clear)
    else kernel_op (log_op klog_dump)) m (λ _, fine n m0)) as Hc; [|apply first_steps; [done|intros _; apply Hc|intros c a' _ _; apply Hc]].
  intros c. destruct (strcmp_cstr a (str "save") r [] Ha) as (d1 & E1 & _); [text|]. apply (steps_opt _ _ _ _ _ E1).
  destruct (strcmp_cstr a (str "clear") r [] Ha) as (d2 & E2 & _); [text|]. apply (steps_opt _ _ _ _ _ E2).
  destruct (_ && _); [|destruct (_ && _); [|by apply dump_steps]].
  - eapply steps_bind; [by apply save_steps; [|text|cbn; lia]|]. cbn beta. intros v m1 H1. destruct (v =? 0); by apply say_steps; [|text].
  - pose proof (fi_kernel _ _ _ Hm) as (qs & bs & d & sb & h & Hr & _ & _ & Hfiles).
    destruct (kernel_steps n n m (log_op klog_clear) (λ _ _, True) Hm) as (v & m' & Em & H' & _); [|by exists v, m'].
    apply emits_zoom, klog_clear_emits. split; [|done]. exists qs, bs, d, sb, []. destruct Hr as [R1 R2 R3 R4 R5 R6].
    split; [split; try done; exact empty_log_rep|]. split_and!; [constructor|cbn; lia|done].
Qed.
End commands.

(** *** Programs *)

Lemma exec_steps n m a r : fine n m0 m → nonzero a → (length a ≤ 255)%nat → word32 (sym_enter_usermode sy) → Z.of_nat n + 3 < 4294967296 →
  steps (cmd_exec sy (a ++ 0 :: r)) m (λ _, fine (n + 3) m0).
Proof.
  intros Hm Ha Hl Hsym Hn. pose proof (fine_le n (n + 3) m Hm ltac:(lia)) as Hm3. unfold cmd_exec.
  apply first_steps; [done|intros _; by apply say_steps; [|text]|]. intros c a' _ ->. cbn [negb].
  destruct (exec_args_any a r Ha Hl) as (argv & ws & E & Hcs & Hws & Hpk). apply (steps_opt _ _ _ _ _ E).
  destruct argv as [|a0 argv]; [by apply say_steps; [|text]|]. destruct ws as [|w ws]; [by inversion Hcs|].
  assert (length (a0 :: argv) = length (w :: ws)) as Hlen by (symmetry; by eapply Forall2_length).
  pose proof Hcs as Hcs'. apply list.Forall2_cons in Hcs' as [[Hw (z & ->)] _]. cbv zeta. rewrite Hlen.
  assert (arg_ok (VStr (Some (w ++ 0 :: z)))) as Harg by (by exists w, z).
  eapply steps_bind; [apply (kernel_same n); [exact Hm|]|cbn beta; clear m Hm Hm3; intros [] m Hm].
  { apply emits_kprintf; [reflexivity|by repeat constructor|done]. }
  pose proof (fi_kernel _ _ _ Hm) as (qs & bs & d & sb & h & Hr & Hent & Hh & Hfiles).
  eapply steps_bind; [apply (kernel_steps n (n + 3) m _ (λ p k, p = PNull ∨ ∃ t, get_task (k_os k) p = Some t) Hm)|].
  { intros cs. assert (args_ok (w :: ws)) as Haok.
    { unfold args_ok, args_size. revert Hpk Hws. clear. cbn [length]. lia. }
    assert (Z.of_nat (length h) + 3 < 4294967296) as Hmsg by (revert Hn Hh; clear; lia).
    destruct (elf_exec_any sy (m_kernel m) qs bs d sb h Hr Hent w z w z (w :: ws) ((w ++ 0 :: z) :: argv) cs Hw Hw Hcs Haok Hsym Hmsg (Hfiles w))
      as (p & k' & out & h' & Ex & Hout & [Hent' Hlen'] & _ & _ & _ & Hend).
    exists p, k', out. split; [exact Ex|]. split; [exact Hout|].
    destruct Hend as [[-> Hr']|(i & t & x & -> & _ & Hr' & Ht & _)]; (split; [|by eauto]);
      eexists _, bs, d, sb, h'; (split_and!; [exact Hr'|done|lia|done]). }
  cbn beta. clear m Hm Hr Hh. intros p m [Hm Hp]. case_bool_decide as Ep.
  { apply (kernel_same (n + 3)); [exact Hm|]. apply emits_kprintf; [reflexivity|by repeat constructor|done]. }
  destruct Hp as [|[t Ht]]; [done|].
  eapply steps_bind; [apply (kernel_steps (n + 3) (n + 3) m _ (λ _ _, True) Hm)|].
  { unfold os_op. apply emits_zoom, (emits_quiet _ t _ (k_os (m_kernel m))); [by apply deref_run|].
    split; [|done]. destruct (m_kernel m) eqn:Ek. pose proof (fi_kernel _ _ _ Hm) as Hs. by rewrite Ek in Hs. }
  cbn beta. clear m Hm Ht. intros tcb m [Hm _]. apply (kernel_same (n + 3)); [exact Hm|].
  apply emits_kprintf; [reflexivity|by repeat constructor|done].
Qed.

(** ** Any command *)

Context (t1 t2 t3 t4 : M (io (kernel D)) ()) (Hsym : word32 (sym_enter_usermode sy)).
Context (Hdrives : drive_shown (drive_info (m_ata m0)) ∧ drive_shown (slave_info (m_ata m0))) (Hticks : 0 ≤ m_ticks m0 < 4294967296).
Context (n : nat) (Hn : Z.of_nat (n + 3) < 4294967296).

Lemma fine_steps m (c : M machine ()) n' : (n' ≤ n + 3)%nat → steps c m (λ _, fine n' m0) → steps c m (λ _, fine (n + 3) m0).
Proof using. intros Hle (a & m' & E & Hm). exists a, m'. split; [done|]. by apply (fine_le n'). Qed.

Lemma run_command_steps cmd m a r : fine n m0 m → is_test cmd = false → clean a → (length a ≤ 255)%nat →
  steps (run_command sy t1 t2 t3 t4 cmd (a ++ 0 :: r)) m (λ _, fine (n + 3) m0).
Proof using Hsym Hdrives Hticks Hn.
  intros Hm Htest Hcl Hl. pose proof (clean_nonzero a Hcl) as Ha. destruct Hdrives as [H1 H2].
  destruct cmd; cbn [run_command]; try discriminate Htest;
    lazymatch goal with
    | |- steps (cmd_exec _ _) _ _ => apply (fine_steps m _ (n + 3)); [lia|]
    | _ => apply (fine_steps m _ n); [lia|]
    end.
  - by apply help_steps.
  - by apply clear_steps.
  - by apply echo_steps.
  - by apply mem_steps.
  - by apply pmem_steps.
  - by apply color_steps.
  - by apply uptime_steps.
  - by apply pagedir_steps.
  - by apply ls_steps.
  - by apply cat_steps.
  - by apply write_steps.
  - apply mkdir_steps; [done|done|lia].
  - by apply rm_steps.
  - by apply disk_steps.
  - apply exec_steps; [done|done|done|done|lia].
  - by apply dmesg_steps.
Qed.

Lemma shell_execute_steps m line r : fine n m0 m → self_test line = false → clean line → (length line ≤ 255)%nat →
  steps (shell_execute sy t1 t2 t3 t4 (line ++ 0 :: r)) m (λ _, fine (n + 3) m0).
Proof using Hsym Hdrives Hticks Hn.
  intros Hm Htest Hcl Hl. destruct (split_spaces line) as (k1 & u & -> & Hu). apply Forall_app in Hcl as [Hck Hcu].
  destruct (split_at_space u) as (w & t & -> & Hsp & Ht). apply Forall_app in Hcu as [Hcw Hct].
  destruct (split_spaces t) as (k2 & a & -> & Ha). apply Forall_app in Hct as [Hck2 Hca].
  pose proof (clean_nonzero w Hcw) as Hw. pose proof (clean_nonzero a Hca) as Hna. rewrite !length_app in Hl.
  assert (a ≠ [] → w ≠ [] ∧ k2 ≠ 0%nat) as Hsep.
  { intros Hne. split; intros ->.
    - cbn [app] in Hu. destruct k2 as [|k2]; [|by apply Hu]. destruct Ht as [Ht|[v Ht]]; cbn [spaces replicate app] in Ht; [done|].
      rewrite Ht in Ha. by apply Ha.
    - destruct Ht as [Ht|[v Ht]]; cbn [spaces replicate app] in Ht; [done|]. rewrite Ht in Ha. by apply Ha. }
  assert (∀ c, steps c m (λ _, fine (n + 3) m0) → shell_execute sy t1 t2 t3 t4 (spaces k1 ++ w ++ spaces k2 ++ a ++ 0 :: r) m = c m →
    steps (shell_execute sy t1 t2 t3 t4 ((spaces k1 ++ w ++ spaces k2 ++ a) ++ 0 :: r)) m (λ _, fine (n + 3) m0)) as Hrun.
  { intros c (v & m' & E & H') Ec. exists v, m'. split; [|done]. rewrite <- E, <- Ec. by rewrite <- !app_assoc. }
  pose proof (shell_execute_run sy t1 t2 t3 t4 m k1 w k2 a r Hw Hsp Hna Ha Hsep) as E. case_bool_decide as Hwe.
  { apply (Hrun (mret ())); [|exact E]. apply steps_ret, (fine_le n); [done|lia]. }
  unfold self_test in Htest. rewrite first_word_at in Htest by done. destruct (command_of commands w) as [cmd|].
  { apply (Hrun (run_command sy t1 t2 t3 t4 cmd (a ++ 0 :: r))); [|exact E]. apply run_command_steps; [done..|lia]. }
  eapply Hrun; [|exact E]. apply (fine_steps m _ n); [lia|]. apply (say_seq n); [done|text|]. intros m1 H1.
  apply (say_seq n); [done|by repeat apply Forall_app_2; [|apply Forall_replicate; lia|]|]. intros m2 H2. by apply say_steps; [|text].
Qed.
End session.

(** ** Any keys *)

Section keys.
Context {D H : Type} {bd : BlockDev D} {bl : BlockDevLaws D} (sy : symbols) (t1 t2 t3 t4 : M (io (kernel D)) ()).
Context (Hsym : word32 (sym_enter_usermode sy)).
Abbreviation machine := (machine D H).

(** The shell waits for a key with [line] typed so far; at most [n] messages
    have been logged. *)
Record at_prompt (n : nat) (m : machine) (line : list Z) : Prop := {
  ap_line : editing m line ∧ clean line;
  ap_kernel : sound n (m_kernel m);
  ap_drives : drive_shown (drive_info (m_ata m)) ∧ drive_shown (slave_info (m_ata m));
  ap_ticks : 0 ≤ m_ticks m < 4294967296
}.

Lemma prompt_fine n m line : at_prompt n m line → fine n m m.
Proof. intros [[He _] Hk _ _]. split; [exact Hk|apply He|done]. Qed.

Lemma line_length (m : machine) line : editing m line → (length line ≤ 255)%nat.
Proof. intros [[r Hr] Hs _ _]. rewrite Hr, length_app in Hs. cbn in Hs. lia. Qed.

Lemma clean_edit line c : clean line → 0 < c < 256 ∧ c ≠ ELFMAG0 → clean (edit line c).
Proof.
  intros Hl Hc. unfold edit. destruct (c =? 8); [by apply Forall_take|]. destruct (_ <? _)%nat; [|done].
  apply Forall_app_2; [done|by constructor].
Qed.

Lemma input_safe n m line c :
  at_prompt n m line → 0 < c < 256 ∧ c ≠ ELFMAG0 → (c = 10 → self_test line = false) → Z.of_nat (n + 3) < 4294967296 →
  ∃ m' line', shell_input sy t1 t2 t3 t4 c m = Some ((), m') ∧ at_prompt (n + 3) m' line'.
Proof using Hsym.
  intros Hp Hc Htest Hn. pose proof Hp as [[He Hcl] Hk Hdr Ht]. destruct (Z.eq_dec c 10) as [->|H10].
  - destruct (enter_run sy t1 t2 t3 t4 m line He) as (r & scr & Hr & P & Hx). set (m1 := set_screen scr m) in *.
    assert (fine n m1 m1) as Hf by (split; [exact Hk|exact (prints_displays _ _ _ P (ed_screen _ _ He))|done]).
    assert (steps (if (0 <? length line)%nat then shell_execute sy t1 t2 t3 t4 (line ++ 0 :: r) else mret ()) m1 (λ _, fine (n + 3) m1))
      as ([] & m2 & E2 & [Hk2 Hd2 (Ha2 & Ht2 & Hb2 & Hp2)]).
    { destruct (_ <? _)%nat; [|apply steps_ret, (fine_le _ n); [done|lia]].
      apply shell_execute_steps; [done..|by apply Htest|done|by apply (line_length m)]. }
    destruct (Hx m2 E2) as (m3 & E3 & He3 & Hk3 & Ha3 & Ht3); [rewrite Hb2; apply He|done|].
    exists m3, []. split; [exact E3|]. split; [split; [done|constructor]|by rewrite Hk3|by rewrite Ha3, Ha2|by rewrite Ht3, Ht2].
  - destruct (shell_input_run sy t1 t2 t3 t4 m line c He) as (b & p & scr & E & He' & _); [lia|done|].
    eexists _, (edit line c). split; [exact E|]. split; [split; [exact He'|by apply clean_edit]|apply (sound_le n); [done|lia]|done|done].
Qed.

(** The characters of the keyboard; only the Enter key ends a line. *)
Definition KEY_ENTER : Z := 0x1C.

Lemma key_chars i a sh : scancode_to_ascii !! i = Some a → a ≠ 0 →
  let c := if truth sh then apply_shift a else a in (0 < c < 256 ∧ c ≠ ELFMAG0) ∧ (c = 10 → Z.of_nat i = KEY_ENTER).
Proof.
  intros E Ha. set (ok := λ c i, (0 < c < 256 ∧ c ≠ ELFMAG0) ∧ (c ≠ 10 ∨ Z.of_nat i = KEY_ENTER)).
  assert (Forall (λ x, x.2 = 0 ∨ (ok x.2 x.1 ∧ ok (apply_shift x.2) x.1)) (imap pair scancode_to_ascii)) as Hall.
  { apply (bool_decide_unpack _). vm_compute. exact I. }
  assert (imap pair scancode_to_ascii !! i = Some (i, a)) as Ei by (by rewrite list_lookup_imap, E).
  destruct (Forall_lookup_1 _ _ _ _ Hall Ei) as [|[[H1 H2] [H3 H4]]]; [done|]. cbv zeta. cbn [fst snd] in *.
  destruct (truth sh); (split; [done|]); intros Hc; [destruct H4|destruct H2]; done.
Qed.

Lemma handler_safe n m line sh code :
  at_prompt n m line → 0 ≤ code < 256 → (code = KEY_ENTER → self_test line = false) → Z.of_nat (n + 3) < 4294967296 →
  ∃ m' sh' line', keyboard_handler sy t1 t2 t3 t4 code (Keyboard m sh) = Some ((), Keyboard m' sh') ∧ at_prompt (n + 3) m' line'.
Proof using Hsym.
  intros Hp Hc Htest Hn. assert (at_prompt (n + 3) m line) as Hsame.
  { destruct Hp as [H1 H2 H3 H4]. split; [done|apply (sound_le n); [done|lia]|done|done]. }
  unfold keyboard_handler. destruct (truth (Z.land code 128)) eqn:Et.
  { destruct (_ || _); by eexists m, _, line. }
  destruct (_ || _); [by eexists m, _, line|]. destruct (code =? 0x3B).
  - pose proof (prompt_fine n m line Hp) as Hf.
    destruct (say_steps m n m [10] Hf ltac:(text)) as ([] & m1 & E1 & Hf1). destruct (dump_steps m n m1 Hf1) as ([] & m2 & E2 & Hf2).
    destruct (say_steps m n m2 (str "> ") Hf2 ltac:(text)) as ([] & m3 & E3 & [Hk3 Hd3 (Ha3 & Ht3 & Hb3 & Hp3)]).
    exists m3, sh, line. split.
    + rewrite bind_run. unfold on_machine at 1, zoom at 1. cbn [kb_machine]. rewrite E1. cbn [shift_pressed].
      rewrite bind_run. unfold on_machine at 1, zoom at 1. cbn [kb_machine]. rewrite E2. cbn [shift_pressed].
      unfold on_machine, zoom. cbn [kb_machine]. by rewrite E3.
    + destruct Hp as [[[Hb Hs Hpos Hd] Hcl] _ Hdr Ht]. split; [split; [split|done]|apply (sound_le n); [done|lia]|by rewrite Ha3|by rewrite Ht3].
      * by rewrite Hb3.
      * by rewrite Hb3.
      * by rewrite Hp3.
      * done.
  - assert (code < 128) as Hlt.
    { destruct (Z.lt_ge_cases code 128) as [|Hge]; [done|].
      assert (Forall (λ c, truth (Z.land c 128) = true) (seqZ 128 128)) as Hall by (apply (bool_decide_unpack _); vm_compute; exact I).
      rewrite Forall_forall in Hall. rewrite Hall in Et; [done|]. apply list_elem_of_In, elem_of_seqZ. lia. }
    destruct (lookup_lt_is_Some_2 scancode_to_ascii (Z.to_nat code)) as (a & Ea); [change (length scancode_to_ascii) with 128%nat; lia|].
    rewrite bind_run, Ea. cbn [of_option]. destruct (Z.eqb_spec a 0) as [|Ha]; cbn [negb]; [by eexists m, _, line|].
    rewrite bind_run. cbn [get shift_pressed]. destruct (key_chars _ a sh Ea Ha) as [Hch Henter].
    destruct (input_safe n m line _ Hp Hch) as (m' & line' & E & Hp'); [intros ?%Henter; apply Htest; lia|exact Hn|].
    exists m', sh, line'. split; [|done]. unfold on_machine, zoom. cbn [kb_machine]. by rewrite E.
Qed.

(** C1: No sequence of keys brings the kernel down, up to the self tests.
    Whoever sits at the keyboard and whatever codes it sends, with the shell at
    its prompt and every component in its invariant (the heap, the frames, the
    page tables, the tasks, the file system, the log and the screen), every
    handler returns and all of this holds again, until Enter is pressed on a
    line whose first word is one of [tasktest], [usertest], [addrtest] and
    [elftest], which run test suites: no other command line, whatever its
    length, words or names, makes a command fault, run forever, leave its
    buffers or break an invariant.  Of the files on disk it is assumed that
    [elf_validate] refuses them or that no 32-bit sum of header fields wraps in
    them, which everything the shell itself writes satisfies; the log may count
    up to 2^32 messages.  The keys come one handler at a time, as they do with
    interrupts off in a handler, and no timer interrupt between two of them
    switches to another task. *)
Theorem session_safe codes : ∀ n m line sh,
  at_prompt n m line → Forall (λ c, 0 ≤ c < 256) codes → Z.of_nat (n + 3 * length codes) < 4294967296 →
  ∃ typed rest m' sh' line', codes = typed ++ rest ∧
    keys sy t1 t2 t3 t4 typed (Keyboard m sh) = Some ((), Keyboard m' sh') ∧
    at_prompt (n + 3 * length typed) m' line' ∧
    (rest = [] ∨ (head rest = Some KEY_ENTER ∧ self_test line' = true)).
Proof using Hsym.
  induction codes as [|c codes IH]; intros n m line sh Hp Hcs Hn; cbn [length] in *.
  { exists [], [], m, sh, line. rewrite Nat.mul_0_r, Nat.add_0_r. split_and!; [done..|by left]. }
  destruct (decide (c = KEY_ENTER ∧ self_test line = true)) as [[-> Ht]|Hno].
  { exists [], (KEY_ENTER :: codes), m, sh, line. rewrite Nat.mul_0_r, Nat.add_0_r. split_and!; [done..|by right]. }
  apply Forall_cons_iff in Hcs as [Hc Hcs].
  destruct (handler_safe n m line sh c Hp Hc) as (m1 & sh1 & line1 & E1 & Hp1);
    [intros ->; destruct (self_test line); [by destruct Hno|done]|lia|].
  destruct (IH (n + 3)%nat m1 line1 sh1 Hp1 Hcs) as (typed & rest & m2 & sh2 & line2 & -> & E2 & Hp2 & Hend); [lia|].
  exists (c :: typed), rest, m2, sh2, line2. cbn [keys length]. rewrite bind_run, E1. split_and!; [done|exact E2| |done].
  by replace (n + 3 * S (length typed))%nat with (n + 3 + 3 * length typed)%nat by lia.
Qed.
End keys.

(** Booting leads to the prompt: what [main] has established is where the
    sessions of [session_safe] start, on any disk whose files are as above. *)
Lemma booted_prompt {H} `{AtaDrive H} stub syscall_stub polls ram (b : boot H) :
  booted stub syscall_stub polls ram b → let _ := blkdev_dev polls in let _ : BlockDevLaws (blkdev H) := blkdev_laws polls ram in
  (∀ d sb, fs_at d sb (k_fs (m_kernel (b_machine b))) → files_ok d) →
  ∃ n, Z.of_nat n < 2147483648 ∧ at_prompt n (b_machine b) [].
Proof.
  intros Hb dev laws Hfiles. pose proof Hb as [Hscr _ _ _ _ _ _ _ _ _ (Hp & Hc & Hl) Hdr Htk].
  destruct (booted_running stub syscall_stub polls ram b Hb) as (d & sb & h & Hr & He & Hlen). exists (length h). split; [exact Hlen|].
  split; [split; [|constructor]| |exact Hdr|exact Htk].
  - split; [|done..]. destruct (command_buffer (b_machine b)) as [|c r]; [done|]. cbn in Hc. injection Hc as ->. by exists r.
  - exists [], [(HEAP_SIZE, true)], d, sb, h. split_and!; [exact Hr|exact He|done|exact (Hfiles d sb (proj2 (ru_files _ _ _ _ _ _ Hr)))].
Qed.

(** ** Example *)

Module AnySession.
Import ExecFile.Demo.

(** The keys of "exec a" and Enter, then F1. *)
Definition exec_keys : list Z := type_text (str "exec a") ++ [0x1C; 0x3B].

Lemma session_safe_witness :
  ∃ typed rest (m m' : machine ramdisk ()) sh' line', exec_keys = typed ++ rest ∧
    keys demo_symbols no_test no_test no_test no_test typed (Keyboard m 0) = Some ((), Keyboard m' sh') ∧
    editing m' line' ∧ vm_inv (kvm (m_kernel m')).
Proof.
  destruct demo_running as (k & d & sb & h & Hk & _ & _ & Hlen & Honly). destruct demo_image as [Him _].
  set (m := Machine k (Ata () zero_info zero_info) 0 blank_screen (replicate 256 0) 0).
  destruct (session_safe (H := ()) demo_symbols no_test no_test no_test no_test) with (codes := exec_keys) (n := 0%nat) (m := m) (line := @nil Z) (sh := 0)
    as (typed & rest & m' & sh' & line' & Ec & E & [[He _] (qs & bs & d' & sb' & h' & Hr & _) _ _] & Hend).
  - vm_compute. split; congruence.
  - split; [split; [|constructor]| |done|cbn; lia].
    + split; [by exists (replicate 255 0)|done|done|by exists blank_terminal; apply blank_shows].
    + exists [], [(HEAP_SIZE, true)], d, sb, h. rewrite (nil_length_inv _ Hlen) in *. split_and!; [exact Hk|constructor|cbn; lia|].
      intros f x [->| ->]%Honly; [right; by apply image_tame|by apply no_magic_file].
  - apply (bool_decide_unpack _). vm_compute. exact I.
  - vm_compute. reflexivity.
  - exists typed, rest, m, m', sh', line'. split_and!; [exact Ec|exact E|exact He|apply Hr].
Defined.
End AnySession.
