(* ===== verification/LibcString.v ===== *)
(** * libc/string.c: the string functions user programs are linked with

    User space has its own copies of the string functions.  They are modelled
    like klibc's (a pointer is the list of bytes up to the end of its object)
    and related to them: every function agrees with the kernel's one, except
    [strncpy], which writes one byte more than it is asked to when it pads. *)

From S2P Require Import Prelude KString.

Open Scope Z_scope.
Open Scope c_scope.

(** [int n]: counts upwards; overflow of the [int] has no defined outcome. *)
Fixpoint strlen_from (s : list Z) (n : Z) : option Z :=
  match s with
  | [] => None
  | c :: s' => if truth c then if n <? 2147483647 then strlen_from s' (n + 1) else None else Some n
  end.
Definition strlen (s : list Z) : option Z := strlen_from s 0.

Fixpoint strcmp (a b : list Z) : option Z :=
  match a, b with
  | x :: a', y :: b' => if truth x && (x =? y) then strcmp a' b' else Some (u8 x - u8 y)
  | _, _ => None
  end.

(** The loop stops with [n = 0], or at the characters to compare; [n] is
    tested first. *)
Fixpoint strncmp (a b : list Z) (n : nat) : option Z :=
  match n with
  | O => Some 0
  | S n' =>
      match a, b with
      | x :: a', y :: b' => if truth x && (x =? y) then strncmp a' b' n' else Some (u8 x - u8 y)
      | _, _ => None
      end
  end.

(** [while (( *d++ = *src++ ))]: the terminator is copied too. *)
Fixpoint strcpy (dst src : list Z) : option (list Z) :=
  match dst, src with
  | _ :: d', c :: s' => if truth c then cons c <$> strcpy d' s' else Some (c :: d')
  | _, _ => None
  end.

(** [while (n--) *d++ = 0] *)
Fixpoint zero_tail (d : list Z) (n : nat) : option (list Z) :=
  match n, d with
  | O, _ => Some d
  | S n', _ :: d' => cons 0 <$> zero_tail d' n'
  | S _, [] => None
  end.

(** [while (n && ( *d++ = *src++ )) n--]: copying the terminator ends the loop
    before [n] is decremented. *)
Fixpoint strncpy (dst src : list Z) (n : nat) : option (list Z) :=
  match n with
  | O => zero_tail dst 0
  | S n' =>
      match dst, src with
      | _ :: d', c :: s' => cons c <$> (if truth c then strncpy d' s' n' else zero_tail d' n)
      | _, _ => None
      end
  end.

Fixpoint memcpy (dst src : list Z) (n : nat) : option (list Z) :=
  match n, dst, src with
  | O, _, _ => Some dst
  | S n', _ :: d', c :: s' => cons c <$> memcpy d' s' n'
  | S _, _, _ => None
  end.

Fixpoint memset (dst : list Z) (val : Z) (n : nat) : option (list Z) :=
  match n, dst with
  | O, _ => Some dst
  | S n', _ :: d' => cons (u8 val) <$> memset d' val n'
  | S _, [] => None
  end.

Fixpoint memcmp (a b : list Z) (n : nat) : option Z :=
  match n, a, b with
  | O, _, _ => Some 0
  | S n', x :: a', y :: b' => if negb (x =? y) then Some (x - y) else memcmp a' b' n'
  | S _, _, _ => None
  end.

(** ** Agreement with the kernel's functions *)

Definition bytes (l : list Z) : Prop := Forall (λ b, 0 ≤ b < 256) l.

#[export] Instance bytes_dec l : Decision (bytes l).
Proof. unfold bytes. apply _. Defined.

Lemma bytes_cons c s : bytes (c :: s) ↔ 0 ≤ c < 256 ∧ bytes s.
Proof. apply Forall_cons_iff. Qed.

Lemma strlen_from_kernel s n k :
  KString.strlen s = Some k → 0 ≤ n → 0 ≤ k → n + Z.of_nat (length s) < 2147483648 →
  strlen_from s n = Some (n + k).
Proof.
  revert n k. induction s as [|c s IH]; intros n k E Hn Hk Hl; [done|]. cbn [KString.strlen strlen_from length] in *.
  destruct (truth c).
  - destruct (KString.strlen s) as [j|] eqn:Es; [|done]. injection E as <-.
    destruct (Z.ltb_spec n 2147483647); [|lia].
    assert (0 ≤ j < Z.of_nat (length s)) as Hj.
    { clear -Es Hl Hn. revert j Es. induction s as [|c s IH]; intros j Es; [done|]. cbn [KString.strlen length] in *.
      destruct (truth c); [|injection Es as <-; lia].
      destruct (KString.strlen s) as [i|]; [|done]. injection Es as <-.
      specialize (IH ltac:(lia) i eq_refl). rewrite u32_small; lia. }
    rewrite (IH (n + 1) j) by (done || lia). f_equal. rewrite u32_small; lia.
  - injection E as <-. f_equal. lia.
Qed.

Lemma strncmp_kernel a b n : bytes a → bytes b → strncmp a b n = KString.strncmp a b n.
Proof.
  revert a b. induction n as [|n IH]; intros [|x a] [|y b] Ha Hb; try done.
  apply bytes_cons in Ha as [Hx Ha]. apply bytes_cons in Hb as [Hy Hb]. cbn [strncmp KString.strncmp].
  by rewrite !u8_small, IH by done.
Qed.

Lemma strcmp_kernel a b : bytes a → bytes b → strcmp a b = KString.strcmp a b.
Proof.
  revert b. induction a as [|x a IH]; intros [|y b] Ha Hb; try done.
  apply bytes_cons in Ha as [Hx Ha]. apply bytes_cons in Hb as [Hy Hb]. cbn [strcmp KString.strcmp].
  by rewrite !u8_small, IH by done.
Qed.

Lemma strcpy_kernel dst src : strcpy dst src = KString.strcpy dst src.
Proof. reflexivity. Qed.

Lemma memcpy_kernel dst src n : memcpy dst src n = KString.memcpy dst src n.
Proof. reflexivity. Qed.

Lemma memset_kernel dst v n : memset dst v n = KString.memset dst v n.
Proof. reflexivity. Qed.

Lemma memcmp_kernel a b n : memcmp a b n = KString.memcmp a b n.
Proof.
  revert a b. induction n as [|n IH]; intros [|x a] [|y b]; try done. cbn. rewrite IH.
  by destruct (x =? y).
Qed.

(** *** strncpy *)

Lemma zero_tail_spec d n : (n ≤ length d)%nat → zero_tail d n = Some (replicate n 0 ++ drop n d).
Proof.
  revert d. induction n as [|n IH]; intros [|x d] H; cbn [length] in *; try (done || lia).
  cbn [zero_tail]. rewrite IH by lia. done.
Qed.

Lemma zero_tail_short d n : (length d < n)%nat → zero_tail d n = None.
Proof.
  revert d. induction n as [|n IH]; intros [|x d] H; cbn [length] in *; try (done || lia).
  cbn [zero_tail]. rewrite IH by lia. done.
Qed.

(** With room for [n + 1] bytes a string shorter than [n] is followed by
    zeros up to and including byte [n]. *)
Lemma strncpy_pads dst s r n :
  nonzero s → (length s < n)%nat → (n < length dst)%nat →
  strncpy dst (s ++ 0 :: r) n = Some (s ++ replicate (S n - length s) 0 ++ drop (S n) dst).
Proof.
  revert dst n. induction s as [|c s IH]; intros dst n Hs Hn Hd; (destruct n as [|n]; [cbn [length] in *; lia|]);
    (destruct dst as [|d dst]; [cbn [length] in *; lia|]); cbn [length app strncpy] in *.
  - change (truth 0) with false. cbn match. rewrite zero_tail_spec by lia. done.
  - apply nonzero_cons in Hs as [Hc Hs]. rewrite truth_pos by lia. rewrite IH by (done || lia). done.
Qed.

(** In an object of exactly [n] bytes the padding runs past the end. *)
Lemma strncpy_overruns dst s r n :
  nonzero s → (length s < n)%nat → length dst = n → strncpy dst (s ++ 0 :: r) n = None.
Proof.
  revert dst n. induction s as [|c s IH]; intros dst n Hs Hn Hd; (destruct n as [|n]; [cbn [length] in *; lia|]);
    (destruct dst as [|d dst]; [cbn [length] in *; lia|]); cbn [length app strncpy] in *.
  - change (truth 0) with false. cbn match. by rewrite zero_tail_short by lia.
  - apply nonzero_cons in Hs as [Hc Hs]. rewrite truth_pos by lia. by rewrite IH by (done || lia).
Qed.

(** The user-space string functions compute what the kernel's do on the
    same bytes: the two copies of strlen (for objects below 2 GB), strcmp,
    strncmp, strcpy, memcpy, memset and memcmp agree, undefined accesses
    included. *)
Theorem libc_string_agrees a b n v :
  bytes a → bytes b → Z.of_nat (length a) < 2147483648 →
  (∀ k, KString.strlen a = Some k → strlen a = Some k) ∧
  strcmp a b = KString.strcmp a b ∧
  strncmp a b n = KString.strncmp a b n ∧
  strcpy a b = KString.strcpy a b ∧
  memcpy a b n = KString.memcpy a b n ∧
  memset a v n = KString.memset a v n ∧
  memcmp a b n = KString.memcmp a b n.
Proof.
  intros Ha Hb Hl. split_and!.
  - intros k Hk. unfold strlen. rewrite (strlen_from_kernel a 0 k Hk); [done|lia| |lia].
    destruct a as [|c a]; [done|]. cbn [KString.strlen] in Hk. destruct (truth c); [|injection Hk as <-; lia].
    destruct (KString.strlen a); [|done]. injection Hk as <-. apply u32_bound.
  - by apply strcmp_kernel.
  - by apply strncmp_kernel.
  - apply strcpy_kernel.
  - apply memcpy_kernel.
  - apply memset_kernel.
  - apply memcmp_kernel.
Qed.

Lemma libc_string_agrees_witness :
  strlen (str "init" ++ [0]) = Some 4 ∧ strcmp (str "init" ++ [0]) (str "into" ++ [0]) = Some (105 - 116).
Proof.
  destruct (libc_string_agrees (str "init" ++ [0]) (str "into" ++ [0]) 3 0) as (H1 & H2 & _);
    [apply (bool_decide_unpack _); vm_compute; exact I|apply (bool_decide_unpack _); vm_compute; exact I|
     vm_compute; reflexivity|].
  split; [apply H1; vm_compute; reflexivity|]. rewrite H2. vm_compute. reflexivity.
Defined.

(** [strncpy] of a string shorter than [n] writes [n + 1] bytes: given one
    more byte it zeroes that byte too, and in a buffer of exactly [n] bytes it
    writes past the end. *)
Theorem libc_strncpy_overrun dst s r n :
  nonzero s → (length s < n)%nat →
  ((n < length dst)%nat →
   strncpy dst (s ++ 0 :: r) n = Some (s ++ replicate (S n - length s) 0 ++ drop (S n) dst)) ∧
  (length dst = n → strncpy dst (s ++ 0 :: r) n = None).
Proof. intros Hs Hn. split; [by apply strncpy_pads|by apply strncpy_overruns]. Qed.

Lemma libc_strncpy_overrun_witness :
  strncpy [9; 9; 9; 9] (str "a" ++ [0]) 4 = None ∧ strncpy [9; 9; 9; 9; 9] (str "a" ++ [0]) 4 = Some [97; 0; 0; 0; 0].
Proof.
  split.
  - apply (libc_strncpy_overrun [9; 9; 9; 9] (str "a") [] 4);
      [apply (bool_decide_unpack _); vm_compute; exact I|cbn; lia|reflexivity].
  - rewrite (proj1 (libc_strncpy_overrun [9; 9; 9; 9; 9] (str "a") [] 4
      ltac:(apply (bool_decide_unpack _); vm_compute; exact I) ltac:(cbn; lia)) ltac:(cbn; lia)).
    reflexivity.
Defined.
