(* ===== verification/LibcStdio.v ===== *)
(** * libc/stdio.c: formatted output in user space

    [vsnprintf] with its flags, width, precision and truncation, and the
    functions built on it.  A destination is the list of bytes from the
    pointer to the end of its object; a write outside it has no defined
    outcome.  Widths and precisions are [int]s: a digit string beyond
    [INT_MAX] overflows, which has no defined outcome either.  System calls
    are a parameter of the functions that make them. *)

From S2P Require Import Prelude KString KStdio Console KPrintf LibcString.

Open Scope Z_scope.
Open Scope c_scope.

(** ** Numbers *)

(** [utoa], [itoa] and [reverse] have the statements of klibc's; the digit
    loop and the reversal are shared with them. *)
Definition utoa (value base : Z) : option (list Z) :=
  if value =? 0 then Some (str "0")
  else ds ← utoa_loop 33 value base; reverse_str ds.

Definition itoa (value base : Z) : option (list Z) :=
  if value =? 0 then Some (str "0")
  else
    let is_negative := (value <? 0) && (base =? 10) in
    let uvalue := if is_negative then u32 (- value) else u32 value in
    ds ← utoa_loop 33 uvalue base;
    reverse_str (if is_negative then ds ++ str "-" else ds).

(** ** The output buffer *)

(** The contents of [buf] and the position. *)
Definition out : Type := list Z * Z.

Definition out_char (size c : Z) (o : out) : option out :=
  let buf := fst o in
  let pos := snd o in
  if pos <? size -! 1 then
    if (Z.to_nat pos <? length buf)%nat then Some (<[Z.to_nat pos := c]> buf, pos +! 1) else None
  else Some (buf, pos +! 1).

Fixpoint out_string (size : Z) (s : list Z) (o : out) : option out :=
  match s with
  | [] => None
  | c :: s' => if truth c then o' ← out_char size c o; out_string size s' o' else Some o
  end.

(** [for (j = 0; j < n; j++) out_char(buf, size, &pos, l[j])] *)
Fixpoint out_chars (size : Z) (l : list Z) (o : out) : option out :=
  match l with
  | [] => Some o
  | c :: l' => o' ← out_char size c o; out_chars size l' o'
  end.

(** ** Directives *)

Record spec := Spec { flag_left : bool; flag_zero : bool; width : Z; precision : option Z }.

Fixpoint parse_flags (fmt : list Z) (left zero : bool) : option (bool * bool * list Z) :=
  match fmt with
  | [] => None
  | c :: rest =>
      if c =? 45 then parse_flags rest true zero
      else if c =? 48 then parse_flags rest left true
      else Some (left, zero, fmt)
  end.

Fixpoint parse_digits (fmt : list Z) (n : Z) : option (Z * list Z) :=
  match fmt with
  | [] => None
  | c :: rest =>
      if (48 <=? c) && (c <=? 57) then
        let n' := n * 10 + (c - 48) in
        if n' <=? 2147483647 then parse_digits rest n' else None
      else Some (n, fmt)
  end.

Definition parse_prec (fmt : list Z) : option (option Z * list Z) :=
  match fmt with
  | [] => None
  | c :: rest =>
      if c =? 46 then (λ r, (Some (fst r), snd r)) <$> parse_digits rest 0 else Some (None, fmt)
  end.

Definition parse_long (fmt : list Z) : option (list Z) :=
  match fmt with
  | [] => None
  | c :: rest => if c =? 108 then Some rest else Some fmt
  end.

(** What follows a percent sign up to the conversion character; returns the
    text from that character on. *)
Definition parse_spec (fmt : list Z) : option (spec * list Z) :=
  match parse_flags fmt false false with
  | Some (lf, zero, fmt1) =>
      match parse_digits fmt1 0 with
      | Some (w, fmt2) =>
          match parse_prec fmt2 with
          | Some (prec, fmt3) =>
              (λ rest, (Spec lf (if lf then false else zero) w prec, rest)) <$> parse_long fmt3
          | None => None
          end
      | None => None
      end
  | None => None
  end.

(** What the [switch] leaves: a field to be padded, or characters already
    emitted by the case itself. *)
Inductive conversion := Field (is_negative is_number : bool) (conv : list Z) | Literal (chars : list Z).

Definition number (is_negative : bool) (digits : option (list Z)) : option conversion :=
  Field is_negative true <$> digits.

(** [va_arg] of a word or of a pointer to a string. *)
Definition arg_int (args : list va) (k : Z → option conversion) : option (conversion * list va) :=
  match args with VInt v :: rest => (λ c, (c, rest)) <$> k v | _ => None end.
Definition arg_str (args : list va) (k : option (list Z) → option conversion) : option (conversion * list va) :=
  match args with VStr p :: rest => (λ c, (c, rest)) <$> k p | _ => None end.

(** The truncation of [%s] by the precision. *)
Definition truncate (prec : option Z) (s : list Z) : list Z :=
  match prec with Some p => if p <? Z.of_nat (length s) then take (Z.to_nat p) s else s | None => s end.

Definition convert (d : Z) (prec : option Z) (args : list va) : option (conversion * list va) :=
  if (d =? 100) || (d =? 105) then                                              (* d, i *)
    arg_int args (λ v, let val := i32 v in
      if val <? 0 then number true (utoa (u32 (- val)) 10) else number false (utoa (u32 val) 10))
  else if d =? 117 then arg_int args (λ v, number false (utoa (u32 v) 10))       (* u *)
  else if d =? 120 then arg_int args (λ v, number false (utoa (u32 v) 16))       (* x *)
  else if d =? 88 then                                                          (* X *)
    arg_int args (λ v, number false (option_map (map upper_hex) (utoa (u32 v) 16)))
  else if d =? 111 then arg_int args (λ v, number false (utoa (u32 v) 8))        (* o *)
  else if d =? 99 then arg_int args (λ v, Some (Field false false [u8 v]))       (* c *)
  else if d =? 115 then                                                         (* s *)
    arg_str args (λ p, match p with
                       | None => Some (Field false false (truncate prec (str "(null)")))
                       | Some s => (λ t, Field false false (truncate prec t)) <$> cstr s
                       end)
  else if d =? 112 then                                                         (* p *)
    arg_int args (λ v, (λ t, Field false false (str "0x" ++ t)) <$> utoa (u32 v) 16)
  else if d =? 37 then Some (Literal (str "%"), args)                           (* %% *)
  else Some (Literal [37; d], args).

(** The extra zeros a number's precision asks for. *)
Definition zero_prefix (sp : spec) (is_number : bool) (conv : list Z) : Z :=
  match precision sp with
  | Some p => if is_number && (p >? Z.of_nat (length conv)) then p - Z.of_nat (length conv) else 0
  | None => 0
  end.

Definition repeat (c n : Z) : list Z := replicate (Z.to_nat n) c.

(** The emission at the end of the loop body. *)
Definition emit_field (size : Z) (sp : spec) (is_negative is_number : bool) (conv : list Z) (o : out) : option out :=
  let zp := zero_prefix sp is_number conv in
  let zero := if zp >? 0 then false else flag_zero sp in
  let field_len := Z.of_nat (length conv) + zp + (if is_negative then 1 else 0) in
  let pad := if width sp >? field_len then width sp - field_len else 0 in
  o ← (if negb (flag_left sp) && negb zero then out_chars size (repeat 32 pad) o else Some o);
  o ← (if is_negative then out_char size 45 o else Some o);
  o ← (if zero then out_chars size (repeat 48 pad) o else Some o);
  o ← out_chars size (repeat 48 zp) o;
  o ← out_chars size conv o;
  if flag_left sp then out_chars size (repeat 32 pad) o else Some o.

(** ** vsnprintf *)

(** The loop over the format; every round consumes a character. *)
Fixpoint vsn_loop (fuel : nat) (size : Z) (fmt : list Z) (args : list va) (o : out) : option out :=
  match fuel with
  | O => None
  | S f =>
      match fmt with
      | [] => None
      | c :: rest =>
          if c =? 0 then Some o
          else if negb (c =? 37) then o' ← out_char size c o; vsn_loop f size rest args o'
          else
            match rest with
            | [] => None
            | d0 :: _ =>
                if d0 =? 0 then Some o
                else
                  match parse_spec rest with
                  | Some (sp, d :: rest') =>
                      match convert d (precision sp) args with
                      | Some (Literal chars, args') =>
                          o' ← out_chars size chars o; vsn_loop f size rest' args' o'
                      | Some (Field neg num conv, args') =>
                          o' ← emit_field size sp neg num conv o; vsn_loop f size rest' args' o'
                      | None => None
                      end
                  | _ => None
                  end
            end
      end
  end.

(** [if (size > 0) buf[pos < size ? pos : size - 1] = 0] *)
Definition terminate (size : Z) (o : out) : option (list Z) :=
  if size >? 0 then
    let i := Z.to_nat (if snd o <? size then snd o else size - 1) in
    if (i <? length (fst o))%nat then Some (<[i := 0]> (fst o)) else None
  else Some (fst o).

(** Returns the buffer and the length. *)
Definition vsnprintf (buf : list Z) (size : Z) (fmt : list Z) (args : list va) : option (list Z * Z) :=
  o ← vsn_loop (S (length fmt)) size fmt args (buf, 0);
  buf' ← terminate size o;
  Some (buf', i32 (snd o)).

Definition snprintf (buf : list Z) (size : Z) (fmt : list Z) (args : list va) : option (list Z * Z) :=
  vsnprintf buf size fmt args.
Definition vsprintf (buf fmt : list Z) (args : list va) : option (list Z * Z) :=
  vsnprintf buf 0xFFFFFFFF fmt args.
Definition sprintf (buf fmt : list Z) (args : list va) : option (list Z * Z) := vsprintf buf fmt args.

(** ** Output through the kernel *)

Section output.
Context {W : Type} (sys_write : list Z → Z → M W Z).

Definition PRINTF_BUFSZ : Z := 256.

(** [buf0]: whatever the stack held where [buf] lies. *)
Definition vprintf (buf0 : list Z) (fmt : list Z) (args : list va) : M W Z :=
  r ← of_option (vsnprintf buf0 PRINTF_BUFSZ fmt args);
  let n := snd r in
  if n >? 0 then
    let len := if n <? PRINTF_BUFSZ then n else PRINTF_BUFSZ - 1 in
    sys_write (fst r) len ;; mret n
  else mret n.

Definition printf (buf0 : list Z) (fmt : list Z) (args : list va) : M W Z := vprintf buf0 fmt args.

Definition puts (s : list Z) : M W Z :=
  len ← of_option (strlen s);
  n ← sys_write s len;
  sys_write [10; 0] 1 ;;
  mret (n + 1).

Definition putchar (c : Z) : M W () := sys_write [c] 1 ;; mret ().

(** [while (val > 0)]: the digits from the least significant one; ten rounds
    are enough for an [int]. *)
Fixpoint int_digits (fuel : nat) (val : Z) : option (list Z) :=
  match fuel with
  | O => None
  | S f => if val >? 0 then cons (48 + val mod 10) <$> int_digits f (val / 10) else Some []
  end.

(** [while (i > 0) putchar(buf[--i])], on the digits in that order. *)
Fixpoint putchars (l : list Z) : M W () :=
  match l with
  | [] => mret ()
  | c :: l' => putchar c ;; putchars l'
  end.

(** [val] is an [int]; negating [INT_MIN] gives [INT_MIN] on the machine. *)
Definition print_int (val : Z) : M W () :=
  (if val <? 0 then putchar 45 else mret ()) ;;
  let val := if val <? 0 then i32 (- val) else val in
  if val =? 0 then putchar 48
  else ds ← of_option (int_digits 11 val); putchars (reverse ds).

(** [for (i = 7; i >= 0; i--)]: the last digit first. *)
Fixpoint hex8 (n : nat) (val : Z) (acc : list Z) : list Z :=
  match n with
  | O => acc
  | S n' => hex8 n' (Z.shiftr val 4) (default 0 (hex_digits !! Z.to_nat (Z.land val 15)) :: acc)
  end.

Definition print_hex (val : Z) : M W () :=
  sys_write (str "0x" ++ hex8 8 val [] ++ [0]) 10 ;; mret ().
End output.
