(* ===== verification/LibcSpec.v ===== *)
(** * What user-space printf promises

    [means] is the text of a format as its author writes it: characters and
    conversions with flags, width and precision, against the numerals of the
    values; [render] is the text as the code reads the format, with no buffer
    in sight.  The theorems say that the two agree, that [vsnprintf] delivers
    exactly that text, cut to the buffer, and that the plain directives mean
    what they mean to the kernel's [kprintf]. *)

From S2P Require Import Prelude KString KStdio Console KPrintf LibcString LibcStdio.

Open Scope Z_scope.
Open Scope c_scope.

(** ** The text of a format *)

(** A field: padded on the right, with zeros after the sign, or with spaces
    on the left. *)
Definition field (sp : spec) (is_negative is_number : bool) (conv : list Z) : list Z :=
  let sign := if is_negative then [45] else [] in
  let digits := repeat 48 (zero_prefix sp is_number conv) ++ conv in
  let pad := width sp - Z.of_nat (length (sign ++ digits)) in
  if flag_left sp then sign ++ digits ++ repeat 32 pad
  else if flag_zero sp && (zero_prefix sp is_number conv =? 0) then sign ++ repeat 48 pad ++ digits
  else repeat 32 pad ++ sign ++ digits.

Definition piece (sp : spec) (c : conversion) : list Z :=
  match c with Literal chars => chars | Field neg num conv => field sp neg num conv end.

Fixpoint render (fuel : nat) (fmt : list Z) (args : list va) : option (list Z) :=
  match fuel, fmt with
  | S f, c :: rest =>
      if c =? 0 then Some []
      else if negb (c =? 37) then cons c <$> render f rest args
      else
        match rest with
        | [] => None
        | d0 :: _ =>
            if d0 =? 0 then Some []
            else
              match parse_spec rest with
              | Some (sp, d :: rest') =>
                  match convert d (precision sp) args with
                  | Some (c, args') => app (piece sp c) <$> render f rest' args'
                  | None => None
                  end
              | _ => None
              end
        end
  | _, _ => None
  end.

Definition printf_text (fmt : list Z) (args : list va) : option (list Z) := render (S (length fmt)) fmt args.

Lemma zero_prefix_nonneg sp num conv : 0 ≤ zero_prefix sp num conv.
Proof. unfold zero_prefix. destruct (precision sp); [|lia]. destruct num; cbn [andb]; [zcase; lia|lia]. Qed.

Lemma length_repeat c n : length (repeat c n) = Z.to_nat n.
Proof. apply length_replicate. Qed.

Lemma field_length sp (neg num : bool) conv :
  let body := Z.of_nat (length conv) + zero_prefix sp num conv + (if neg then 1 else 0) in
  Z.of_nat (length (field sp neg num conv)) = Z.max (width sp) body.
Proof.
  cbv zeta. pose proof (zero_prefix_nonneg sp num conv). unfold field.
  destruct (flag_left sp), (flag_zero sp && (zero_prefix sp num conv =? 0)), neg; cbn [app length];
    repeat (rewrite ?length_app, ?length_repeat; cbn [length]); lia.
Qed.

(** ** Emission is output of the field *)

Lemma out_chars_app size l l' o :
  out_chars size (l ++ l') o = match out_chars size l o with Some o' => out_chars size l' o' | None => None end.
Proof.
  revert o. induction l as [|c l IH]; intros o; [done|]. cbn [app out_chars].
  destruct (out_char size c o) as [o'|]; [|done]. cbn. by rewrite IH.
Qed.

Lemma out_chars_one size c o : out_chars size [c] o = out_char size c o.
Proof. cbn. by destruct (out_char size c o). Qed.

Lemma bind_out_chars size l l' o : (out_chars size l o ≫= out_chars size l') = out_chars size (l ++ l') o.
Proof. rewrite out_chars_app. by destruct (out_chars size l o). Qed.

Lemma emit_field_chars size sp neg num conv o :
  (flag_left sp = true → flag_zero sp = false) →
  emit_field size sp neg num conv o = out_chars size (field sp neg num conv) o.
Proof.
  intros Hlz. pose proof (zero_prefix_nonneg sp num conv) as Hz. unfold emit_field, field.
  set (zp := zero_prefix sp num conv) in *.
  set (sign := if neg then [45] else []).
  set (pad := if width sp >? _ then _ else 0).
  assert (∀ c, repeat c (width sp - Z.of_nat (length (sign ++ repeat 48 zp ++ conv))) = repeat c pad) as Hpad.
  { intros c. unfold repeat at 1 3. f_equal. rewrite !length_app, length_repeat.
    unfold pad, sign. destruct neg; cbn [length]; zcase; lia. }
  rewrite !Hpad. clearbody pad. clear Hpad.
  assert (∀ o, (if neg then out_char size 45 o else Some o) = out_chars size sign o) as Hsign.
  { intros o'. unfold sign. destruct neg; [by rewrite out_chars_one|done]. }
  assert ((zp >? 0) = negb (zp =? 0)) as -> by (zcase; zcase; done).
  destruct (flag_left sp) eqn:El, (zp =? 0) eqn:Ez, (flag_zero sp) eqn:Ef; cbn [negb andb];
    try (specialize (Hlz eq_refl); done); rewrite ?out_chars_app; cbn [mbind option_bind];
    repeat (rewrite ?Hsign, ?out_chars_app;
            match goal with |- context [out_chars size ?l ?o] =>
              destruct (out_chars size l o); cbn [mbind option_bind]; [|done] end); done.
Qed.

(** ** The buffer *)

Section buffer.
Context (buf : list Z) (size : Z).
Hypothesis Hsize : 1 ≤ size < 4294967296.

Let cap : nat := Z.to_nat (size - 1).

(** The state after the characters [text]: as many of them as fit are in the
    buffer, the rest of it is untouched, and all of them are counted. *)
Definition written (text : list Z) : out :=
  (take cap text ++ drop (cap `min` length text) buf, Z.of_nat (length text)).

Lemma out_char_written text c :
  (length text < cap → length text < length buf)%nat → Z.of_nat (length text) < 2147483648 →
  out_char size c (written text) = Some (written (text ++ [c])).
Proof.
  intros Hroom Hlen. unfold out_char, written. cbn [fst snd].
  rewrite (u32_small (size - 1)), u32_small, !length_app by lia. cbn [length].
  destruct (Z.ltb_spec (Z.of_nat (length text)) (size - 1)) as [Hlt|Hge].
  - assert (length text < cap)%nat as Hc by (unfold cap; lia). rewrite !take_ge, !Nat.min_r by (rewrite ?length_app; cbn; lia).
    rewrite Nat2Z.id. destruct (Nat.ltb_spec (length text) (length text + length (drop (length text) buf))).
    2:{ rewrite length_drop in *. lia. }
    f_equal. f_equal; [|lia]. rewrite insert_app_r_alt, Nat.sub_diag by lia.
    destruct (lookup_lt_is_Some_2 buf (length text)) as [b Hb]; [lia|].
    rewrite (drop_S _ _ _ Hb). cbn. rewrite <- app_assoc. do 3 f_equal. lia.
  - assert (cap ≤ length text)%nat by (unfold cap; lia). f_equal. f_equal; [|lia].
    rewrite take_app_le, !Nat.min_l by lia. done.
Qed.

Lemma out_chars_written pre l :
  (cap `min` length (pre ++ l) < length buf)%nat → Z.of_nat (length (pre ++ l)) < 2147483648 →
  out_chars size l (written pre) = Some (written (pre ++ l)).
Proof.
  revert pre. induction l as [|c l IH]; intros pre Hroom Hlen; cbn [out_chars]; [by rewrite app_nil_r|].
  rewrite length_app in *. cbn [length] in *. rewrite out_char_written by lia. cbn [mbind option_bind].
  rewrite IH, <- app_assoc; [done|rewrite !length_app; cbn [length]; lia..].
Qed.
End buffer.

Lemma parse_spec_flags fmt sp rest : parse_spec fmt = Some (sp, rest) → flag_left sp = true → flag_zero sp = false.
Proof.
  unfold parse_spec. destruct (parse_flags fmt false false) as [[[lf z] f1]|]; [|done].
  destruct (parse_digits f1 0) as [[w f2]|]; [|done]. destruct (parse_prec f2) as [[p f3]|]; [|done].
  destruct (parse_long f3); [|done]. intros [= <- <-]. cbn. by intros ->.
Qed.

Lemma vsn_loop_written buf size fuel fmt args pre text :
  1 ≤ size < 4294967296 → render fuel fmt args = Some text →
  (Z.to_nat (size - 1) `min` length (pre ++ text) < length buf)%nat → Z.of_nat (length (pre ++ text)) < 2147483648 →
  vsn_loop fuel size fmt args (written buf size pre) = Some (written buf size (pre ++ text)).
Proof.
  intros Hsize. revert fmt args pre text. induction fuel as [|f IH]; intros fmt args pre text E Hroom Hlen; [done|].
  cbn [render vsn_loop] in *. destruct fmt as [|c rest]; [done|].
  destruct (c =? 0); [injection E as <-; by rewrite app_nil_r|].
  destruct (negb (c =? 37)).
  { destruct (render f rest args) as [t|] eqn:Er; [|done]. injection E as <-.
    rewrite length_app in Hroom, Hlen. cbn [length] in *. rewrite out_char_written by lia. cbn [mbind option_bind].
    rewrite (IH _ _ _ _ Er), <- app_assoc; [done|rewrite !length_app; cbn [length]; lia..]. }
  destruct rest as [|d0 rest']; [done|]. destruct (d0 =? 0); [injection E as <-; by rewrite app_nil_r|].
  destruct (parse_spec (d0 :: rest')) as [[sp [|d r]]|] eqn:Ep; [done| |done].
  destruct (convert d (precision sp) args) as [[cv args']|]; [|done].
  destruct (render f r args') as [t|] eqn:Er; [|done]. injection E as <-.
  rewrite app_assoc in Hroom, Hlen |- *. rewrite length_app in Hroom, Hlen.
  assert (out_chars size (piece sp cv) (written buf size pre) = Some (written buf size (pre ++ piece sp cv))) as Eo.
  { apply out_chars_written; lia. }
  destruct cv as [neg num conv|chars]; cbn [piece] in *.
  - rewrite emit_field_chars by (by eapply parse_spec_flags). rewrite Eo. cbn [mbind option_bind].
    apply IH; [done|rewrite length_app; lia..].
  - rewrite Eo. cbn [mbind option_bind]. apply IH; [done|rewrite length_app; lia..].
Qed.

Lemma vsnprintf_run buf size fmt args text :
  1 ≤ size < 4294967296 → printf_text fmt args = Some text → Z.of_nat (length text) < 2147483648 →
  let k := (Z.to_nat (size - 1) `min` length text)%nat in
  (k < length buf)%nat →
  vsnprintf buf size fmt args = Some (take k text ++ 0 :: drop (S k) buf, Z.of_nat (length text)).
Proof.
  intros Hsize Et Hlen k Hroom. unfold vsnprintf.
  pose proof (vsn_loop_written buf size _ fmt args [] text Hsize Et Hroom Hlen) as Hloop.
  unfold written at 1 in Hloop. rewrite take_nil, Nat.min_0_r in Hloop. cbn [app length] in Hloop. rewrite drop_0 in Hloop.
  change (Z.of_nat 0) with 0 in Hloop. rewrite Hloop. cbn [mbind option_bind app]. unfold terminate, written. cbn [fst snd].
  destruct (Z.gtb_spec size 0); [|lia].
  assert (Z.to_nat (if Z.of_nat (length text) <? size then Z.of_nat (length text) else size - 1) = k) as ->.
  { unfold k. zcase; lia. }
  assert (take (Z.to_nat (size - 1)) text = take k text) as ->.
  { unfold k. destruct (Nat.min_spec (Z.to_nat (size - 1)) (length text)) as [[? ->]|[? ->]]; [done|].
    by rewrite !take_ge by lia. }
  assert (length (take k text) = k) as Hk by (rewrite length_take; lia).
  fold k. rewrite length_app, Hk, length_drop. destruct (Nat.ltb_spec k (k + (length buf - k))); [|lia].
  cbn [mbind option_bind]. rewrite insert_app_r_alt, Hk, Nat.sub_diag by lia.
  destruct (lookup_lt_is_Some_2 buf k Hroom) as [b Hb]. rewrite (drop_S _ _ _ Hb). cbn.
  do 2 f_equal. unfold i32. rewrite u32_small by lia. zcase. done.
Qed.

(** ** What a format means *)

(** A format as its author writes it: characters, escaped percent signs,
    directives nobody knows, and conversions with their flags, width and
    precision (digit strings), the length modifier and the value to print. *)
Inductive value :=
  | Signed (v : Z) | Unsigned (v : Z) | Hexadecimal (upper : bool) (v : Z) | Octal (v : Z)
  | Character (c : Z) | Text (s : option (list Z)) | Pointer (v : Z).

Inductive item :=
  | Char (c : Z)
  | Percent
  | Unknown (d : Z)
  | Convert (flags width : list Z) (prec : option (list Z)) (long : bool) (v : value).

Definition letter (v : value) : Z :=
  match v with
  | Signed _ => 100 | Unsigned _ => 117 | Hexadecimal up _ => if up then 88 else 120 | Octal _ => 111
  | Character _ => 99 | Text _ => 115 | Pointer _ => 112
  end.

Definition item_format (i : item) : list Z :=
  match i with
  | Char c => [c]
  | Percent => [37; 37]
  | Unknown d => [37; d]
  | Convert fl w p l v =>
      [37] ++ fl ++ w ++ match p with Some ds => 46 :: ds | None => [] end ++ (if l then [108] else []) ++ [letter v]
  end.

Definition value_arg (v : value) : va :=
  match v with
  | Signed v => VInt (u32 v)
  | Unsigned v | Hexadecimal _ v | Octal v | Pointer v | Character v => VInt v
  | Text s => VStr (option_map (λ t, t ++ [0]) s)
  end.

Definition item_args (i : item) : list va := match i with Convert _ _ _ _ v => [value_arg v] | _ => [] end.

Definition digit (c : Z) : Prop := 48 ≤ c ≤ 57.
Definition number_ok (ds : list Z) : Prop := Forall digit ds ∧ parse 10 ds ≤ 2147483647.

Definition value_ok (v : value) : Prop :=
  match v with
  | Signed v => -2147483648 ≤ v < 2147483648
  | Unsigned v | Hexadecimal _ v | Octal v | Pointer v => 0 ≤ v < 4294967296
  | Character c => 0 ≤ c < 256
  | Text s => nonzero (default [] s)
  end.

Definition item_ok (i : item) : Prop :=
  match i with
  | Char c => c ≠ 0 ∧ c ≠ 37
  | Percent => True
  | Unknown d => d ∉ 0 :: str "diuxXocsp%-.l0123456789"
  | Convert fl w p _ v =>
      Forall (λ c, c ∈ str "-0") fl ∧ number_ok w ∧ head w ≠ Some 48 ∧ (∀ ds, p = Some ds → number_ok ds) ∧ value_ok v
  end.

(** A value as sign, zeros added by the precision, and characters: numbers are
    written in their base, strings are cut to the precision. *)
Definition value_text (prec : option Z) (v : value) (sign : list Z) (zeros : nat) (chars : list Z) : Prop :=
  let digits base n (f : list Z → list Z) :=
    ∃ s, numeral base n s ∧ zeros = (Z.to_nat (default 0%Z prec) - length s)%nat ∧ chars = f s in
  match v with
  | Signed v => digits 10 (Z.abs v) id ∧ sign = (if decide (v < 0) then str "-" else [])
  | Unsigned v => digits 10 v id ∧ sign = []
  | Hexadecimal up v => digits 16 v (if up then map upper_hex else id) ∧ sign = []
  | Octal v => digits 8 v id ∧ sign = []
  | Character c => chars = [c] ∧ sign = [] ∧ zeros = 0%nat
  | Text s => let t := default (str "(null)") s in
      chars = match prec with Some p => take (Z.to_nat p) t | None => t end ∧ sign = [] ∧ zeros = 0%nat
  | Pointer v => (∃ s, numeral 16 v s ∧ chars = str "0x" ++ s) ∧ sign = [] ∧ zeros = 0%nat
  end.

(** The field: at least [w] wide, to the left with "-", filled with zeros with
    "0" unless the precision has added some, and otherwise to the right. *)
Definition placed (fl : list Z) (w : Z) (sign : list Z) (zeros : nat) (chars : list Z) : list Z :=
  let body := replicate zeros 48 ++ chars in
  let fill := (Z.to_nat w - length (sign ++ body))%nat in
  if decide (45 ∈ fl) then sign ++ body ++ replicate fill 32
  else if decide (48 ∈ fl ∧ zeros = 0%nat) then sign ++ replicate fill 48 ++ body
  else replicate fill 32 ++ sign ++ body.

Definition item_text (i : item) (text : list Z) : Prop :=
  match i with
  | Char c => text = [c]
  | Percent => text = str "%"
  | Unknown d => text = [37; d]
  | Convert fl w p _ v => ∃ sign zeros chars, value_text (parse 10 <$> p) v sign zeros chars ∧ text = placed fl (parse 10 w) sign zeros chars
  end.

(** *** The directives are read back *)

Lemma parse_flags_run fl c rest lf z :
  Forall (λ c, c ∈ str "-0") fl → c ≠ 45 → c ≠ 48 →
  parse_flags (fl ++ c :: rest) lf z = Some (lf || bool_decide (45 ∈ fl), z || bool_decide (48 ∈ fl), c :: rest).
Proof.
  intros Hfl H1 H2. revert lf z. induction Hfl as [|f fl Hf Hfl IH]; intros lf z; cbn [app parse_flags].
  - destruct (Z.eqb_spec c 45); [done|]. destruct (Z.eqb_spec c 48); [done|]. by rewrite !orb_false_r.
  - assert (f = 45 ∨ f = 48) as [-> | ->].
    { change (str "-0") with [45; 48] in Hf. rewrite !elem_of_cons, elem_of_nil in Hf. tauto. }
    + cbn [Z.eqb Pos.eqb]. rewrite IH, (bool_decide_true (45 ∈ 45 :: fl)) by constructor.
      rewrite orb_true_l, orb_true_r. do 3 f_equal. f_equal. apply bool_decide_ext. rewrite elem_of_cons. intuition congruence.
    + cbn [Z.eqb Pos.eqb]. rewrite IH, (bool_decide_true (48 ∈ 48 :: fl)) by constructor.
      rewrite orb_true_l, orb_true_r. do 2 f_equal. f_equal. f_equal. apply bool_decide_ext. rewrite elem_of_cons. intuition congruence.
Qed.

Lemma digits_grow ds n : Forall digit ds → 0 ≤ n → n ≤ foldl (λ acc c, acc * 10 + digit_val c) n ds.
Proof.
  intros Hd. revert n. induction Hd as [|c ds Hc Hd IH]; intros n Hn; cbn [foldl]; [lia|]. unfold digit in Hc.
  assert (digit_val c = c - 48) as E by (unfold digit_val; zcase; lia). specialize (IH (n * 10 + digit_val c)). lia.
Qed.

Lemma parse_digits_run ds c rest n :
  Forall digit ds → ¬ digit c → 0 ≤ n → foldl (λ acc c, acc * 10 + digit_val c) n ds ≤ 2147483647 →
  parse_digits (ds ++ c :: rest) n = Some (foldl (λ acc c, acc * 10 + digit_val c) n ds, c :: rest).
Proof.
  intros Hd Hc. revert n. induction Hd as [|x ds Hx Hd IH]; intros n Hn Hle; cbn [app parse_digits foldl] in *; unfold digit in *.
  - destruct (Z.leb_spec 48 c), (Z.leb_spec c 57); cbn [andb]; try done; lia.
  - assert (digit_val x = x - 48) as E by (unfold digit_val; zcase; lia). rewrite E in *.
    pose proof (digits_grow ds (n * 10 + (x - 48)) Hd ltac:(lia)). repeat zcase. cbn [andb]. apply IH; [lia|done].
Qed.

(** The letter of a conversion is no flag, digit, period or modifier. *)
Lemma letter_other v : let c := letter v in c ≠ 45 ∧ c ≠ 46 ∧ ¬ digit c ∧ c ≠ 108 ∧ c ≠ 0.
Proof. destruct v as [| |[]| | | |]; cbn; unfold digit; lia. Qed.

Lemma parse_spec_run fl w p (l : bool) v rest :
  item_ok (Convert fl w p l v) →
  parse_spec (fl ++ w ++ match p with Some ds => 46 :: ds | None => [] end ++ (if l then [108] else []) ++ letter v :: rest) =
  Some (Spec (bool_decide (45 ∈ fl)) (if bool_decide (45 ∈ fl) then false else bool_decide (48 ∈ fl)) (parse 10 w) (parse 10 <$> p),
        letter v :: rest).
Proof.
  intros (Hfl & [Hw Hwn] & Hw0 & Hp & _). destruct (letter_other v) as (N1 & N2 & N3 & N4 & _).
  set (tail := (if l then [108] else []) ++ letter v :: rest).
  assert (∃ c r, tail = c :: r ∧ c ≠ 45 ∧ c ≠ 46 ∧ ¬ digit c) as (c & r & Et & T1 & T2 & T3).
  { unfold tail. destruct l; [exists 108|exists (letter v)]; eexists; (split; [reflexivity|]); [unfold digit; lia|done]. }
  assert (∃ c r, match p with Some ds => 46 :: ds | None => [] end ++ tail = c :: r ∧ c ≠ 45 ∧ ¬ digit c) as (c2 & r2 & E2 & U1 & U3).
  { destruct p as [ds|]; [exists 46, (ds ++ tail); split; [done|unfold digit; lia]|exists c, r; by rewrite Et]. }
  assert (∃ c r, w ++ c2 :: r2 = c :: r ∧ c ≠ 45 ∧ c ≠ 48) as (c1 & r1 & E1 & V1 & V2).
  { destruct w as [|x w]; [exists c2, r2; unfold digit in U3; split; [done|lia]|]. exists x, (w ++ c2 :: r2).
    apply Forall_cons_iff in Hw as [Hx _]. unfold digit in Hx. split; [done|]. split; [lia|]. intros ->. by destruct Hw0. }
  unfold parse_spec. rewrite E2, E1, parse_flags_run by done. rewrite <- E1, orb_false_l, orb_false_l.
  rewrite parse_digits_run by (done || lia). rewrite <- E2.
  assert (parse_long tail = Some (letter v :: rest)) as El.
  { unfold tail. destruct l; cbn [app parse_long]; [done|]. by destruct (Z.eqb_spec (letter v) 108). }
  destruct p as [ds|]; cbn [app parse_prec fmap option_fmap option_map].
  - destruct (Hp ds eq_refl) as [Hds Hdn]. rewrite Et, Z.eqb_refl, parse_digits_run by (done || lia). rewrite <- Et.
    cbn [fmap option_fmap option_map fst snd]. rewrite El. done.
  - rewrite Et. cbn [parse_prec]. destruct (Z.eqb_spec c 46); [done|]. rewrite <- Et, El. done.
Qed.

(** *** The conversions print the values *)

Definition the_spec (fl : list Z) (w : Z) (prec : option Z) : spec :=
  Spec (bool_decide (45 ∈ fl)) (if bool_decide (45 ∈ fl) then false else bool_decide (48 ∈ fl)) w prec.

Lemma field_placed fl w prec (neg num : bool) conv zeros :
  0 ≤ w → zeros = Z.to_nat (zero_prefix (the_spec fl w prec) num conv) →
  field (the_spec fl w prec) neg num conv = placed fl w (if neg then str "-" else []) zeros conv.
Proof.
  intros Hw Hz. pose proof (zero_prefix_nonneg (the_spec fl w prec) num conv) as Hz0.
  unfold field, placed, repeat. cbn [flag_left flag_zero width the_spec]. rewrite <- Hz.
  set (sign := if neg then _ else _). set (body := replicate zeros 48 ++ conv).
  replace (Z.to_nat (w - Z.of_nat (length (sign ++ body)))) with (Z.to_nat w - length (sign ++ body))%nat by lia.
  assert ((zero_prefix (the_spec fl w prec) num conv =? 0) = bool_decide (zeros = 0%nat)) as ->.
  { rewrite bool_decide_decide. destruct (decide (zeros = 0%nat)); zcase; lia || done. }
  rewrite !bool_decide_decide. repeat case_decide; cbn [andb]; try done; tauto.
Qed.

Definition prints (v : value) (prec : option Z) (cv : conversion) : Prop :=
  ∃ sign zeros chars, value_text prec v sign zeros chars ∧
    ∀ fl w, 0 ≤ w → piece (the_spec fl w prec) cv = placed fl w sign zeros chars.

Lemma utoa_digits n base : 2 ≤ base ≤ 36 → 0 ≤ n < 4294967296 → ∃ s, utoa n base = Some s ∧ numeral base n s.
Proof.
  intros Hb Hn. destruct (utoa_numeral_len n base 32) as (s & E & Hs & _); [lia|lia| |lia|by exists s].
  pose proof (pow32_le base). change (Z.of_nat 32) with 32. lia.
Qed.

Lemma zeros_of fl w prec conv :
  (∀ p, prec = Some p → 0 ≤ p) →
  Z.to_nat (zero_prefix (the_spec fl w prec) true conv) = (Z.to_nat (default 0%Z prec) - length conv)%nat.
Proof.
  intros Hp. unfold zero_prefix. cbn [precision the_spec]. destruct prec as [p|]; [|done]. specialize (Hp p eq_refl). cbn [default from_option id andb].
  zcase; lia.
Qed.

Lemma i32_u32 v : -2147483648 ≤ v < 2147483648 → i32 (u32 v) = v.
Proof.
  intros Hv. unfold i32. rewrite (u32_small (u32 v)) by apply u32_bound. destruct (Z.lt_ge_cases v 0).
  - assert (u32 v = v + 4294967296) as -> by (unfold u32; rewrite <- (Z.mod_add v 1) by lia; apply Z.mod_small; lia). zcase. lia.
  - rewrite u32_small by lia. zcase. lia.
Qed.

Lemma convert_run v prec args :
  value_ok v → (∀ p, prec = Some p → 0 ≤ p) →
  ∃ cv, convert (letter v) prec (value_arg v :: args) = Some (cv, args) ∧ prints v prec cv.
Proof.
  intros Hv Hp.
  assert (∀ (neg : bool) s, value_text prec v (if neg then str "-" else []) (Z.to_nat (default 0%Z prec) - length s) s →
    prints v prec (Field neg true s)) as Hnum.
  { intros neg s Hs. eexists _, _, _. split; [exact Hs|]. intros fl w Hw. cbn [piece]. apply field_placed; [done|]. by rewrite zeros_of. }
  assert (∀ s, value_text prec v [] 0 s → prints v prec (Field false false s)) as Hother.
  { intros s Hs. eexists _, _, _. split; [exact Hs|]. intros fl w Hw. cbn [piece]. apply (field_placed fl w prec false); [done|].
    unfold zero_prefix. by destruct (precision _). }
  destruct v as [v|v|up v|v|c|s|v]; cbn [letter value_arg value_ok] in *; unfold convert; cbn [Z.eqb Pos.eqb orb arg_int arg_str].
  - rewrite i32_u32 by done. destruct (utoa_digits (Z.abs v) 10) as (s & E & Hs); [lia|lia|].
    destruct (Z.ltb_spec v 0); [replace (u32 (- v)) with (Z.abs v) by (rewrite u32_small; lia)
                               |replace (u32 v) with (Z.abs v) by (rewrite u32_small; lia)];
      rewrite E; (eexists; split; [reflexivity|]); apply Hnum; cbn [value_text];
      (split; [by exists s|]); [by rewrite decide_True|by rewrite decide_False by lia].
  - rewrite u32_small by lia. destruct (utoa_digits v 10) as (s & -> & Hs); [lia|lia|]. eexists. split; [reflexivity|]. apply (Hnum false).
    split; [by exists s|done].
  - destruct (utoa_digits v 16) as (s & E & Hs); [lia|lia|]. destruct up; cbn [Z.eqb Pos.eqb orb arg_int]; rewrite u32_small, E by lia;
      (eexists; split; [reflexivity|]); apply (Hnum false); (split; [|done]); exists s; rewrite ?length_map; done.
  - rewrite u32_small by lia. destruct (utoa_digits v 8) as (s & -> & Hs); [lia|lia|]. eexists. split; [reflexivity|]. apply (Hnum false).
    split; [by exists s|done].
  - eexists. split; [reflexivity|]. apply Hother. by rewrite u8_small.
  - destruct s as [s|]; cbn [option_map default from_option id] in *; [rewrite cstr_app by done; cbn [fmap option_fmap option_map]|];
      (eexists; split; [reflexivity|]); apply Hother; cbn [value_text default from_option id]; (split; [|done]); unfold truncate;
      destruct prec as [p|]; [|done| |done]; specialize (Hp p eq_refl); (zcase; [done|]); rewrite take_ge by lia; done.
  - rewrite u32_small by lia. destruct (utoa_digits v 16) as (s & -> & Hs); [lia|lia|]. eexists. split; [reflexivity|]. apply Hother.
    split; [by exists s|done].
Qed.

(** What follows a percent sign does not start with the terminator. *)
Lemma directive_nonzero fl w p (l : bool) v rest r :
  item_ok (Convert fl w p l v) →
  fl ++ w ++ match p with Some ds => 46 :: ds | None => [] end ++ (if l then [108] else []) ++ letter v :: rest ≠ 0 :: r.
Proof.
  intros (Hfl & [Hw _] & _). destruct (letter_other v) as (_ & _ & _ & _ & Hv).
  destruct fl as [|f fl]; [|intros [= ->]; apply Forall_cons_iff in Hfl as [Hf _];
    change (str "-0") with [45; 48] in Hf; by rewrite !elem_of_cons, elem_of_nil in Hf; destruct Hf as [?|[?|?]]].
  destruct w as [|x w]; [|intros [= ->]; apply Forall_cons_iff in Hw as [Hx _]; unfold digit in Hx; lia].
  destruct p as [ds|]; [done|]. destruct l; cbn [app]; congruence.
Qed.

(** The whole format. *)
Definition format_of (items : list item) : list Z := concat (map item_format items) ++ [0].
Definition args_of (items : list item) : list va := concat (map item_args items).
Definition means (items : list item) (text : list Z) : Prop := ∃ ts, Forall2 item_text items ts ∧ text = concat ts.

Lemma unknown_run d rest args :
  d ∉ 0 :: str "diuxXocsp%-.l0123456789" →
  (d =? 0) = false ∧ parse_spec (d :: rest) = Some (Spec false false 0 None, d :: rest) ∧
  convert d None args = Some (Literal [37; d], args).
Proof.
  intros Hd. assert (forallb (λ c, negb (d =? c)) (0 :: str "diuxXocsp%-.l0123456789") = true) as Hb.
  { apply forallb_forall. intros c Hc. apply negb_true_iff, Z.eqb_neq. intros ->. by apply Hd, list_elem_of_In. }
  vm_compute (str _) in Hb. cbn [forallb] in Hb. rewrite !andb_true_iff, !negb_true_iff in Hb.
  destruct_and! Hb. split; [done|]. split.
  - unfold parse_spec. cbn [parse_flags]. replace (d =? 45) with false by done. replace (d =? 48) with false by done.
    cbn [parse_digits]. destruct (Z.leb_spec 48 d), (Z.leb_spec d 57); cbn [andb];
      try (exfalso; repeat match goal with H : (d =? _) = false |- _ => apply Z.eqb_neq in H end; lia);
      cbn [parse_prec]; replace (d =? 46) with false by done; cbn [parse_long]; replace (d =? 108) with false by done; done.
  - unfold convert. repeat match goal with H : (d =? _) = false |- _ => rewrite H; clear H end. done.
Qed.

Lemma render_items items fuel :
  Forall item_ok items → (length (format_of items) ≤ fuel)%nat →
  ∃ text, means items text ∧ render fuel (format_of items) (args_of items) = Some text.
Proof.
  unfold format_of, args_of. intros Hok. revert fuel. induction Hok as [|i items Hi Hok IH]; intros fuel Hf.
  - destruct fuel as [|f]; [cbn in Hf; lia|]. exists []. split; [by exists []|done].
  - cbn [map concat] in *. rewrite <- !app_assoc in *. rewrite length_app in Hf.
    assert (∃ t, item_text i t ∧ ∀ text f,
      render f (concat (map item_format items) ++ [0]) (concat (map item_args items)) = Some text →
      render (S f) (item_format i ++ concat (map item_format items) ++ [0]) (item_args i ++ concat (map item_args items)) = Some (t ++ text))
      as (t & Ht & Hr).
    { clear IH Hf. destruct i as [c| |d|fl w p l v]; cbn [item_format item_args app].
      - destruct Hi. exists [c]. split; [done|]. intros text f E. cbn [render]. destruct (Z.eqb_spec c 0), (Z.eqb_spec c 37); try done.
        cbn [negb]. by rewrite E.
      - exists (str "%"). split; [done|]. intros text f E. cbn [render Z.eqb Pos.eqb negb].
        change (parse_spec (37 :: ?x)) with (Some (Spec false false 0 None, 37 :: x)). cbv iota. cbn [precision].
        change (convert 37 None ?x) with (Some (Literal (str "%"), x)). cbv iota. by rewrite E.
      - exists [37; d]. split; [done|]. intros text f E. cbn [render Z.eqb Pos.eqb negb].
        destruct (unknown_run d (concat (map item_format items) ++ [0]) (concat (map item_args items)) Hi) as (-> & -> & Hc).
        cbn [precision]. by rewrite Hc, E.
      - pose proof Hi as (_ & [Hw _] & _ & Hp & Hv).
        assert (∀ q, (parse 10 <$> p) = Some q → 0 ≤ q) as Hp0.
        { intros q Eq. destruct p as [ds|]; [|done]. injection Eq as <-. apply (digits_grow ds 0); [by apply Hp|lia]. }
        destruct (convert_run v (parse 10 <$> p) (concat (map item_args items)) Hv Hp0) as (cv & Ec & sign & zeros & chars & Hvt & Hpl).
        exists (placed fl (parse 10 w) sign zeros chars). split; [by exists sign, zeros, chars|]. intros text f E.
        rewrite <- !app_assoc. cbn [render Z.eqb Pos.eqb negb app].
        pose proof (parse_spec_run fl w p l v (concat (map item_format items) ++ [0]) Hi) as Eps. fold (the_spec fl (parse 10 w) (parse 10 <$> p)) in Eps.
        set (dir := fl ++ _) in *. destruct dir as [|d0 dr] eqn:Edir; [done|].
        assert ((d0 =? 0) = false) as -> by (destruct (Z.eqb_spec d0 0) as [->|]; [by destruct (directive_nonzero _ _ _ _ _ _ _ Hi Edir)|done]).
        rewrite Eps. cbn [precision the_spec]. rewrite Ec. fold (the_spec fl (parse 10 w) (parse 10 <$> p)).
        rewrite Hpl, E by (apply (digits_grow w 0); [done|lia]). done. }
    assert (0 < length (item_format i))%nat as Hpos by (destruct i; cbn; lia).
    destruct fuel as [|f]; [lia|]. destruct (IH f) as (text & (ts & Hts & ->) & E); [lia|].
    exists (t ++ concat ts). split; [exists (t :: ts); split; [by constructor|done]|]. by apply Hr.
Qed.

(** *** A format has one meaning *)

Lemma lsb_positive base ds :
  2 ≤ base → Forall (is_digit base) ds → 0 ≤ parse_lsb base ds ∧ (∀ ds' c, ds = ds' ++ [c] → c ≠ 48 → 0 < parse_lsb base ds).
Proof.
  intros Hb Hd. induction Hd as [|x ds [Hx Ex] Hd [IH0 IH]]; cbn [parse_lsb]; [split; [lia|by intros [|] c]|].
  split; [nia|]. intros [|y ds'] c E Hc; injection E as -> ->.
  - assert (digit_val c ≠ 0); [|cbn; lia]. intros Ez. rewrite Ez in Ex. done.
  - specialize (IH ds' c eq_refl Hc). nia.
Qed.

Lemma lsb_unique base ds ds' :
  2 ≤ base → Forall (is_digit base) ds → Forall (is_digit base) ds' →
  (∀ l c, ds = l ++ [c] → c ≠ 48) → (∀ l c, ds' = l ++ [c] → c ≠ 48) → parse_lsb base ds = parse_lsb base ds' → ds = ds'.
Proof.
  intros Hb Hd. revert ds'. induction Hd as [|x ds [Hx Ex] Hd IH]; intros ds' Hd' L L' E.
  - destruct ds' as [|c l _] using rev_ind; [done|]. destruct (lsb_positive base (l ++ [c]) Hb Hd') as [_ Hp].
    specialize (Hp l c eq_refl (L' l c eq_refl)). cbn in E. lia.
  - destruct Hd' as [|x' ds' [Hx' Ex'] Hd'].
    + exfalso. destruct (lsb_positive base (x :: ds) Hb ltac:(by constructor)) as [_ Hp].
      destruct ds as [|c l _] using rev_ind; [specialize (Hp [] x eq_refl (L [] x eq_refl))|
        specialize (Hp (x :: l) c eq_refl (L (x :: l) c eq_refl))]; cbn [parse_lsb] in E, Hp; lia.
    + cbn [parse_lsb] in E.
      assert (parse_lsb base ds = parse_lsb base ds') as Et.
      { destruct (Z.lt_trichotomy (parse_lsb base ds) (parse_lsb base ds')) as [Hl|[He|Hg]]; [nia|done|nia]. }
      rewrite Et in E. assert (digit_val x = digit_val x') as Ev by lia. rewrite Ex, Ex', Ev. f_equal. apply IH; [done| | |done].
      * intros l c ->. by apply (L (x :: l) c).
      * intros l c ->. by apply (L' (x' :: l) c).
Qed.

Lemma numeral_unique base v s s' : 2 ≤ base → numeral base v s → numeral base v s' → s = s'.
Proof.
  intros Hb [P D L Z0] [P' D' L' Z0'].
  assert (∀ s, Forall (is_digit base) s → parse base s = parse_lsb base (rev s)) as Hr.
  { intros l _. by rewrite <- parse_rev, rev_involutive. }
  assert (0 ≤ v) as Hv. { rewrite <- P, Hr by done. apply lsb_positive; [done|by apply Forall_rev]. }
  destruct (Z.eq_dec v 0) as [Hz|Hz]; [by rewrite Z0, Z0'|].
  destruct L as (d & l & -> & Hd); [lia|]. destruct L' as (d' & l' & -> & Hd'); [lia|].
  rewrite <- (rev_involutive (d :: l)), <- (rev_involutive (d' :: l')). f_equal.
  apply (lsb_unique base); [done|by apply Forall_rev|by apply Forall_rev| | |by rewrite <- !Hr, P, P' by done].
  - intros m c E. cbn [rev] in E. by apply app_inj_tail in E as [_ ->].
  - intros m c E. cbn [rev] in E. by apply app_inj_tail in E as [_ ->].
Qed.

Lemma item_text_unique i t t' : item_text i t → item_text i t' → t = t'.
Proof.
  destruct i as [c| |d|fl w p l v]; cbn [item_text]; [congruence..|].
  intros (sg & z & ch & Hv & ->) (sg' & z' & ch' & Hv' & ->).
  assert (sg = sg' ∧ z = z' ∧ ch = ch') as (-> & -> & ->); [|done].
  assert (∀ b n s s', 2 ≤ b → numeral b n s → numeral b n s' → s = s') as Hu by apply numeral_unique.
  destruct v as [v|v|up v|v|c|s|v]; cbn [value_text] in *;
    first [ destruct Hv as [(s1 & N1 & -> & ->) ->], Hv' as [(s2 & N2 & -> & ->) ->]
          | destruct Hv as [(s1 & N1 & ->) [-> ->]], Hv' as [(s2 & N2 & ->) [-> ->]]
          | by destruct Hv as (-> & -> & ->), Hv' as (-> & -> & ->) ];
    (assert (s1 = s2) as -> by (refine (Hu _ _ _ _ _ N1 N2); lia)); done.
Qed.

Lemma means_unique items text text' : means items text → means items text' → text = text'.
Proof.
  intros (ts & Hts & ->) (ts' & Hts' & ->). f_equal. revert ts' Hts'.
  induction Hts as [|i t items ts Hi Hts IH]; intros ts' Hts'; inversion Hts' as [|? t' ? ts1 Hi' Hts1]; subst; [done|].
  by rewrite (item_text_unique i t t' Hi Hi'), (IH ts1 Hts1).
Qed.

(** C35: The contract of [vsnprintf], for a format of characters, [%%], unknown
    directives and conversions with any flags, width and precision (no
    directive is cut off by the end of the format), arguments that fit the
    conversions, and [size >= 1].  Such a format means a text, given by
    [means]: the numerals of the values in their bases, signs, precision and
    padding.  [vsnprintf] returns the length of this text, and the buffer
    holds the first [size - 1] characters of it, a terminator right after
    them, and its other bytes unchanged.  The buffer only has to hold what is
    stored: the text if it is short, [size] bytes if it is long. *)
Theorem vsnprintf_contract buf size items :
  1 ≤ size < 4294967296 → Forall item_ok items →
  (∃ text, means items text) ∧
  ∀ text, means items text →
    let k := (Z.to_nat (size - 1) `min` length text)%nat in
    Z.of_nat (length text) < 2147483648 → (k < length buf)%nat →
    vsnprintf buf size (format_of items) (args_of items) =
    Some (take k text ++ 0 :: drop (S k) buf, Z.of_nat (length text)).
Proof.
  intros Hs Hok. destruct (render_items items (S (length (format_of items))) Hok ltac:(lia)) as (text & Hm & E).
  split; [by exists text|]. intros text' Hm'. rewrite (means_unique _ _ _ Hm' Hm). intros k Hlen Hroom. by apply vsnprintf_run.
Qed.

(** [snprintf(buf, 5, "%-4d|%03x", 7, 255)] *)
Lemma vsnprintf_contract_witness :
  let items := [Convert (str "-") (str "4") None false (Signed 7); Char 124; Convert (str "0") (str "3") None false (Hexadecimal false 255)] in
  format_of items = str "%-4d|%03x" ++ [0] ∧ means items (str "7   |0ff") ∧
  vsnprintf (replicate 6 9) 5 (format_of items) (args_of items) = Some (str "7   " ++ [0; 9], 8).
Proof.
  intros items. split; [vm_compute; reflexivity|].
  assert (numeral 10 7 (str "7") ∧ numeral 16 255 (str "ff")) as [N1 N2].
  { split; (split; [reflexivity|repeat constructor; vm_compute; congruence|by intros _; eexists _, _; split; [reflexivity|]|done]). }
  assert (means items (str "7   |0ff")) as Hm.
  { exists [str "7   "; str "|"; str "0ff"]. split; [|reflexivity]. constructor; [|constructor; [done|constructor; [|constructor]]].
    - exists [], 0%nat, (str "7"). split; [split; [by exists (str "7")|reflexivity]|vm_compute; reflexivity].
    - exists [], 0%nat, (str "ff"). split; [split; [by exists (str "ff")|reflexivity]|vm_compute; reflexivity]. }
  split; [exact Hm|].
  destruct (vsnprintf_contract (replicate 6 9) 5 items) as [_ Hv]; [lia| |].
  - assert (∀ c, 0 ≤ c ≤ 9 → number_ok [48 + c]) as Hn.
    { intros c Hc. unfold number_ok, digit, parse, digit_val. rewrite Forall_singleton. cbn [foldl]. split; [lia|]. zcase; lia. }
    repeat constructor; try (apply (Hn 4) || apply (Hn 3)); try done; cbn; lia.
  - rewrite (Hv (str "7   |0ff") Hm); [vm_compute; reflexivity|vm_compute; reflexivity|cbn; lia].
Defined.

(** ** printf writes the text *)

Section printf.
Context {W : Type} (sys_write : list Z → Z → M W Z).

(** [sys_write] is given at least [len] bytes and looks at no others. *)
Hypothesis write_prefix : ∀ b b' len, take (Z.to_nat len) b = take (Z.to_nat len) b' → sys_write b len = sys_write b' len.

Lemma printf_run buf0 fmt args text w :
  length buf0 = 256%nat → printf_text fmt args = Some text → Z.of_nat (length text) < 2147483648 →
  printf sys_write buf0 fmt args w =
  (if Z.of_nat (length text) =? 0 then mret 0
   else sys_write (take 255 text) (Z.of_nat (length (take 255 text))) ;; mret (Z.of_nat (length text))) w.
Proof.
  intros Hb Et Hlen. unfold printf, vprintf, PRINTF_BUFSZ. rewrite bind_run.
  rewrite (vsnprintf_run buf0 256 fmt args text) by (lia || done). cbn [of_option fst snd].
  change (Z.to_nat (256 - 1)) with 255%nat. rewrite length_take.
  destruct (Z.eqb_spec (Z.of_nat (length text)) 0) as [E0|E0].
  { rewrite E0. done. }
  destruct (Z.gtb_spec (Z.of_nat (length text)) 0); [|lia].
  rewrite (write_prefix _ (take 255 text)).
  - do 3 f_equal. zcase; lia.
  - replace (Z.to_nat _) with (255 `min` length text)%nat by (zcase; lia).
    rewrite take_app_le by (rewrite length_take; lia). rewrite !take_take. f_equal. lia.
Qed.
End printf.

(** ** Agreement with the kernel's printf *)

(** The directives both know, written without flags; a character argument is
    not the terminator, and no percent sign ends the format (the kernel prints
    it, user space does not). *)
Definition plain_conv (d : Z) (args : list va) : bool :=
  bool_decide (d ∈ [100; 105; 117; 120; 88; 115; 112; 37]) ||
  (d =? 99) && match args with VInt v :: _ => truth (u8 v) | _ => false end.

Fixpoint plain_format (fmt : list Z) (args : list va) : bool :=
  match fmt with
  | c :: rest =>
      if c =? 0 then true
      else
        match rest with
        | d :: rest' =>
            if c =? 37 then
              plain_conv d args &&
              match kprintf_conv d args with Some (_, args') => plain_format rest' args' | None => false end
            else plain_format rest args
        | [] => false
        end
  | [] => false
  end.

Definition plain_spec : spec := Spec false false 0 None.

Lemma plain_field neg num conv : field plain_spec neg num conv = (if neg then [45] else []) ++ conv.
Proof.
  unfold field, plain_spec, zero_prefix. cbn [width flag_left flag_zero precision andb].
  rewrite Z.sub_0_l. replace (repeat 32 _) with (@nil Z); [by destruct neg|].
  unfold repeat. by replace (Z.to_nat _) with 0%nat by lia.
Qed.

Lemma itoa_sign v :
  -2147483648 ≤ v < 2147483648 →
  KStdio.itoa v 10 = app (if v <? 0 then [45] else []) <$> utoa (Z.abs v) 10.
Proof.
  intros Hv. unfold KStdio.itoa, utoa. destruct (Z.eqb_spec v 0) as [->|Hne]; [done|].
  destruct (Z.eqb_spec (Z.abs v) 0); [lia|]. rewrite andb_true_r.
  replace (if v <? 0 then u32 (- v) else u32 v) with (Z.abs v) by (zcase; rewrite u32_small; lia).
  destruct (utoa_loop 33 (Z.abs v) 10) as [ds|]; [|done]. cbn [mbind option_bind].
  rewrite !reverse_str_rev. cbn [fmap option_fmap option_map]. zcase; [|done]. by rewrite rev_app_distr.
Qed.


(** A plain numeric directive. *)
Lemma plain_number (t text : list Z) (args rest : list va) :
  (λ s, (s, args)) <$> Some t = Some (text, rest) →
  ∃ c, (λ c, (c, args)) <$> number false (Some t) = Some (c, rest) ∧ piece plain_spec c = text.
Proof. intros [= <- <-]. eexists. split; [reflexivity|]. cbn [piece]. by rewrite plain_field. Qed.

Lemma plain_convert d args text rest :
  plain_conv d args = true → kprintf_conv d args = Some (text, rest) →
  ∃ c, convert d None args = Some (c, rest) ∧ piece plain_spec c = text.
Proof.
  unfold plain_conv. intros Hp E. apply orb_true_iff in Hp as [Hp|Hp].
  2:{ apply andb_true_iff in Hp as [->%Z.eqb_eq Hp]. destruct args as [|[v|s] args]; try done.
      unfold kprintf_conv in E. cbn in E. unfold char_str in E. rewrite Hp in E. injection E as <- <-.
      eexists. split; [reflexivity|]. cbn [piece]. by rewrite plain_field. }
  apply bool_decide_eq_true in Hp.
  repeat (apply elem_of_cons in Hp as [->|Hp]); [..|by apply not_elem_of_nil in Hp];
    unfold kprintf_conv in E; unfold convert; cbn [Z.eqb Pos.eqb orb] in *.
  1,2: destruct args as [|[v|s] args]; [done| |done]; cbn [va_int arg_int] in *;
    rewrite itoa_sign in E by apply i32_bound; pose proof (i32_bound v);
    destruct (Z.ltb_spec (i32 v) 0); rewrite u32_small by lia;
    rewrite ?(Z.abs_neq (i32 v)), ?(Z.abs_eq (i32 v)) in E by lia;
    (destruct (utoa _ 10); [|done]); injection E as <- <-;
    (eexists; split; [reflexivity|]); cbn [piece]; by rewrite plain_field.
  1-3: destruct args as [|[v|s] args]; [done| |done]; cbn [va_int arg_int] in *;
    change KStdio.utoa with utoa in E.
  - destruct (utoa (u32 v) 10) as [t|]; [|done]. apply (plain_number _ _ _ _ E).
  - destruct (utoa (u32 v) 16) as [t|]; [|done]. apply (plain_number _ _ _ _ E).
  - destruct (utoa (u32 v) 16) as [t|]; [|done]. apply (plain_number _ _ _ _ E).
  - destruct args as [|[v|[s|]] args]; [done|done| |]; cbn [va_str arg_str] in *.
    + destruct (cstr s) as [t|]; [|done]. injection E as <- <-. eexists. split; [reflexivity|].
      cbn [piece]. by rewrite plain_field.
    + injection E as <- <-. eexists. split; [reflexivity|]. cbn [piece]. by rewrite plain_field.
  - destruct args as [|[v|s] args]; [done| |done]; cbn [va_int arg_int] in *.
    change KStdio.utoa with utoa in E. destruct (utoa (u32 v) 16) as [t|]; [|done]. injection E as <- <-.
    eexists. split; [reflexivity|]. cbn [piece]. by rewrite plain_field.
  - injection E as <- <-. by eexists.
Qed.

Lemma plain_not_zero d args : plain_conv d args = true → (d =? 0) = false.
Proof. intros H. destruct (Z.eqb_spec d 0) as [->|]; [|done]. by destruct args. Qed.

Lemma plain_parse d rest args : plain_conv d args = true → parse_spec (d :: rest) = Some (plain_spec, d :: rest).
Proof.
  unfold plain_conv. intros [Hp%bool_decide_eq_true|[->%Z.eqb_eq _]%andb_true_iff]%orb_true_iff; [|done].
  by repeat (apply elem_of_cons in Hp as [->|Hp]); [..|apply not_elem_of_nil in Hp].
Qed.

Lemma render_plain fuel fmt args text :
  (length fmt < fuel)%nat → plain_format fmt args = true → kprintf_text fmt args = Some text →
  render fuel fmt args = Some text.
Proof.
  revert fmt args text. induction fuel as [|f IH]; intros fmt args text Hf Hp E; [lia|].
  destruct fmt as [|c rest]; [done|]. cbn [length plain_format kprintf_text render] in *.
  destruct (c =? 0); [done|]. destruct rest as [|d rest']; [done|].
  destruct (c =? 37) eqn:Ec; cbn [negb andb] in *.
  - apply andb_true_iff in Hp as [Hd Hp]. rewrite (plain_not_zero _ _ Hd) in *. cbn [negb] in E.
    rewrite (plain_parse _ _ _ Hd). cbn [precision plain_spec].
    destruct (kprintf_conv d args) as [[t args']|] eqn:Ek; [|done].
    destruct (plain_convert _ _ _ _ Hd Ek) as (cv & -> & <-).
    destruct (kprintf_text rest' args') as [u|] eqn:Eu; [|done].
    rewrite (IH _ _ u); [done|cbn [length] in Hf; lia|done|done].
  - destruct (kprintf_text (d :: rest') args) as [u|] eqn:Eu; [|done].
    rewrite (IH _ _ u); [done|cbn [length] in *; lia|done|done].
Qed.

(** C36: User-space [printf] and the kernel's [kprintf] agree: a format that
    uses only their common directives without flags stands for the same text
    in both, for every list of arguments. *)
Theorem printf_agrees_with_kprintf fmt args text :
  plain_format fmt args = true → kprintf_text fmt args = Some text → printf_text fmt args = Some text.
Proof. apply render_plain. lia. Qed.

Lemma printf_agrees_with_kprintf_witness :
  printf_text (str "pid %d: %s 0x%x%%" ++ [0]) [VInt 4294967289; VStr None; VInt 48879] =
  Some (str "pid -7: (null) 0xbeef%").
Proof. apply printf_agrees_with_kprintf; vm_compute; reflexivity. Defined.
