(* ===== verification/UserMode.v ===== *)
(** * Ring 3: user memory and INT 0x80

    A user program is a computation on the kernel's state that reads memory
    through the page tables in CR3 with the rights of ring 3 and calls the
    kernel through the entry stub of kernel/arch/syscall_stub.asm.  A system
    call may give the processor away or never return, so user code is a
    [handler], sequenced by [hbind]. *)

From S2P Require Import Prelude KString Console KPrintf Pmm Memory Paging Sched Task Klog Syscall.

Open Scope Z_scope.
Open Scope c_scope.

(** ** User code *)

Definition hret {A} (a : A) : handler A := λ s, Some (Done a s).

(** What follows a call goes on when the call returns. *)
Fixpoint obind {A B} (k : A → handler B) (o : outcome A) : option (outcome B) :=
  match o with
  | Done a s => k a s
  | Parked s r => Some (Parked s (λ s', match r s' with Some o' => obind k o' | None => None end))
  | Stopped s => Some (Stopped s)
  end.

Definition hbind {A B} (c : handler A) (k : A → handler B) : handler B := λ s,
  match c s with Some o => obind k o | None => None end.

(** Code that never returns: [for (;;)]. *)
Definition forever {A} : handler A := λ s, Some (Stopped s).

(** The part of a computation that runs to its end. *)
Definition completed {A} (c : handler A) : M (io sys) A := λ s,
  match c s with Some (Done a s') => Some (a, s') | _ => None end.

(** ** User memory *)

(** A page fault, [None], without the user bit on both levels. *)
Definition user_load8 (v : vm) (va : Z) : option Z :=
  match hw_walk (ram v) (cr3 v) va with
  | Some (f, _, true) => Some (load8 (ram v) (f + va mod PAGE_SIZE))
  | _ => None
  end.

Fixpoint user_read (v : vm) (va : Z) (n : nat) : option (list Z) :=
  match n with
  | O => Some []
  | S n' => b ← user_load8 v va; cons b <$> user_read v (va +! 1) n'
  end.

Definition user_load32 (v : vm) (va : Z) : option Z :=
  match user_read v va 4 with
  | Some [a; b; c; d] => Some (a + 256 * b + 65536 * c + 16777216 * d)
  | _ => None
  end.

(** The bytes from [va] up to and with the first zero, at most [n]. *)
Fixpoint user_string (n : nat) (v : vm) (va : Z) : option (list Z) :=
  match n with
  | O => None
  | S n' =>
      b ← user_load8 v va;
      if truth b then cons b <$> user_string n' v (va +! 1) else Some [b]
  end.

(** ** INT 0x80 *)

Section stub.
Context (fuel : nat).

(** The registers the wrapper loads; the others are those of the caller. *)
Definition with_args (eax ebx ecx edx : Z) (r : registers_t) : registers_t :=
  Registers (r_ds r) (r_edi r) (r_esi r) (r_ebp r) (r_esp r) (u32 ebx) (u32 edx) (u32 ecx) (u32 eax)
    (int_no r) (err_code r) (r_eip r) (r_cs r) (r_eflags r) (r_useresp r) (r_ss r).

(** The stub completes the frame with the vector and a zero error code; POPA
    gives the registers of the frame back. *)
Definition syscall_stub (r : registers_t) : handler registers_t :=
  syscall_dispatcher fuel
    (Registers (r_ds r) (r_edi r) (r_esi r) (r_ebp r) (r_esp r) (r_ebx r) (r_edx r) (r_ecx r) (r_eax r)
       0x80 0 (r_eip r) (r_cs r) (r_eflags r) (r_useresp r) (r_ss r)).
End stub.

(** ** Facts *)

Lemma user_load8_virt v va b : user_load8 v va = Some b → virt_load8 v va = Some b.
Proof. unfold user_load8, virt_load8. by destruct (hw_walk _ _ _) as [[[f w] [|]]|]. Qed.

(** The kernel sees what the user sees. *)
Lemma user_read_virt v va n l : user_read v va n = Some l → virt_read v va n = Some l.
Proof.
  revert va l. induction n as [|n IH]; intros va l E; [done|]. cbn [user_read virt_read] in *.
  destruct (user_load8 v va) as [b|] eqn:Eb; [|done]. rewrite (user_load8_virt _ _ _ Eb). cbn [mbind option_bind] in *.
  destruct (user_read v (va +! 1) n) as [l'|] eqn:El; [|done]. by rewrite (IH _ _ El).
Qed.

Lemma length_user_read v va n l : user_read v va n = Some l → length l = n.
Proof.
  revert va l. induction n as [|n IH]; intros va l E; cbn [user_read] in E; [by injection E as <-|].
  destruct (user_load8 v va); [|done]. cbn [mbind option_bind] in E.
  destruct (user_read v (va +! 1) n) as [l'|] eqn:E'; [|done]. injection E as <-. cbn. f_equal. by eapply IH.
Qed.

(** A terminated string in memory is found by its terminator. *)
Lemma user_string_read n v va s :
  nonzero s → (length s < n)%nat → user_read v va (S (length s)) = Some (s ++ [0]) →
  user_string n v va = Some (s ++ [0]).
Proof.
  revert n va. induction s as [|c s IH]; intros [|n] va Hnz Hn E; cbn [length app] in *; try lia.
  - cbn [user_read] in E. cbn [user_string]. destruct (user_load8 v va) as [b|]; [|done].
    cbn in E. injection E as ->. done.
  - cbn [user_string]. change (user_read v va (S (S (length s)))) with
      (b ← user_load8 v va; cons b <$> user_read v (va +! 1) (S (length s))) in E.
    destruct (user_load8 v va) as [b|]; [|done]. cbn [mbind option_bind] in *.
    destruct (user_read v (va +! 1) (S (length s))) as [l|] eqn:El; [|done]. injection E as -> ->.
    apply nonzero_cons in Hnz as [Hc Hnz]. assert (truth c = true) as -> by (unfold truth; destruct (Z.eqb_spec c 0); [lia|done]).
    by rewrite (IH n (va +! 1)) by (done || lia).
Qed.

Lemma hbind_done {A B} (c : handler A) (k : A → handler B) s a s' :
  c s = Some (Done a s') → hbind c k s = k a s'.
Proof. intros E. unfold hbind. by rewrite E. Qed.

Lemma completed_run {A} (c : handler A) s a s' : completed c s = Some (a, s') ↔ c s = Some (Done a s').
Proof.
  unfold completed. destruct (c s) as [[a1 s1|s1 r|s1]|]; split; intros E; simplify_eq; done.
Qed.
