(* ===== verification/KlibcSyscall.v ===== *)
(** * klibc/syscall.h and klibc/syscall.c: system calls from kernel-linked tasks

    The inline INT 0x80 helpers, and the wrappers that the demo tasks linked
    into the kernel use.  [regs] holds the registers the helpers do not load. *)

From S2P Require Import Prelude Console Sched Klog Syscall UserMode.

Open Scope Z_scope.
Open Scope c_scope.

Section wrappers.
Context (fuel : nat) (regs : registers_t).

(** ["=a"(ret)]: the [int] in EAX. *)
Definition eax_result (r : registers_t) : handler Z := hret (i32 (r_eax r)).

Definition syscall0 (num : Z) : handler Z :=
  hbind (syscall_stub fuel (with_args num (r_ebx regs) (r_ecx regs) (r_edx regs) regs)) eax_result.
Definition syscall1 (num a1 : Z) : handler Z :=
  hbind (syscall_stub fuel (with_args num a1 (r_ecx regs) (r_edx regs) regs)) eax_result.
Definition syscall2 (num a1 a2 : Z) : handler Z :=
  hbind (syscall_stub fuel (with_args num a1 a2 (r_edx regs) regs)) eax_result.
Definition syscall3 (num a1 a2 a3 : Z) : handler Z :=
  hbind (syscall_stub fuel (with_args num a1 a2 a3 regs)) eax_result.

Definition sys_exit : handler () := hbind (syscall0 SYS_EXIT) (λ _, forever).
Definition sys_write (buf len : Z) : handler Z := syscall2 SYS_WRITE buf len.
Definition sys_read (buf max : Z) : handler Z := syscall2 SYS_READ buf max.
Definition sys_yield : handler () := hbind (syscall0 SYS_YIELD) (λ _, hret ()).
Definition sys_getpid : handler Z := syscall0 SYS_GETPID.
Definition sys_sleep (ms : Z) : handler () := hbind (syscall1 SYS_SLEEP ms) (λ _, hret ()).
End wrappers.
