(* ===== verification/LibcSyscall.v ===== *)
(** * libc/syscall.c: system calls from user programs

    The wrappers every user program is linked with, and what they return:
    each call reaches its handler in the kernel with the arguments of the
    wrapper, and the result in EAX comes back as an [int]. *)

From S2P Require Import Prelude KString Console KPrintf Pmm Memory Paging Sched Task TaskExit Klog Syscall SyscallSpec.
From S2P Require Import UserMode KlibcSyscall.

Open Scope Z_scope.
Open Scope c_scope.

Section wrappers.
Context (fuel : nat) (regs : registers_t).

Definition _syscall0 (num : Z) : handler Z :=
  hbind (syscall_stub fuel (with_args num (r_ebx regs) (r_ecx regs) (r_edx regs) regs)) eax_result.
Definition _syscall1 (num a1 : Z) : handler Z :=
  hbind (syscall_stub fuel (with_args num a1 (r_ecx regs) (r_edx regs) regs)) eax_result.
Definition _syscall2 (num a1 a2 : Z) : handler Z :=
  hbind (syscall_stub fuel (with_args num a1 a2 (r_edx regs) regs)) eax_result.

Definition sys_exit (code : Z) : handler () := hbind (_syscall1 SYS_EXIT code) (λ _, forever).
Definition sys_write (buf len : Z) : handler Z := _syscall2 SYS_WRITE buf len.
Definition sys_read (buf max : Z) : handler Z := _syscall2 SYS_READ buf max.
Definition sys_getpid : handler Z := _syscall0 SYS_GETPID.
Definition sys_yield : handler () := hbind (_syscall0 SYS_YIELD) (λ _, hret ()).
Definition sys_sleep (ms : Z) : handler () := hbind (_syscall1 SYS_SLEEP ms) (λ _, hret ()).
End wrappers.

(** ** What the calls do *)

Section calls.
Context (fuel : nat) (regs : registers_t) (s : sys).
Hypothesis table : syscall_table s = syscall_init_table.

(** A call whose handler runs to its end. *)
Lemma stub_done num ebx ecx edx f c ret s' :
  0 ≤ num < 6 → syscall_init_table !! Z.to_nat num = Some (Some f) →
  (∀ r, r_ebx r = u32 ebx → r_ecx r = u32 ecx → call_handler fuel f r (IO s c) = Some (Done ret s')) →
  hbind (syscall_stub fuel (with_args num ebx ecx edx regs)) eax_result (IO s c) = Some (Done (i32 ret) s').
Proof.
  intros Hn Hf Hc. unfold syscall_stub. erewrite hbind_done.
  2: { eapply (dispatch_run _ _ _ f ret s').
       - cbn. rewrite u32_small; unfold MAX_SYSCALLS; lia.
       - cbn [r_eax with_args st]. rewrite table, u32_small by lia. done.
       - by apply Hc. }
  unfold eax_result, hret. cbn [r_eax set_eax]. unfold i32, u32. by rewrite Zmod_mod.
Qed.

Lemma sys_write_done buf len c bytes :
  USER_SPACE_START ≤ buf → 0 < len < 2147483648 → buf + len ≤ USER_SPACE_END →
  virt_read (vmem (y_os s)) buf (Z.to_nat len) = Some bytes → nonzero bytes →
  sys_write fuel regs buf len (IO s c) = Some (Done len (IO s (c ++ bytes))).
Proof.
  intros Hlo Hlen Hhi E Hnz. unfold USER_SPACE_START, USER_SPACE_END in *.
  rewrite <- (i32_small len) at 2 by lia. apply stub_done with (f := sys_write_fn); [done|done|].
  intros r Hb Hc. cbn [call_handler]. unfold run.
  rewrite (sys_write_run r s c bytes); rewrite ?Hb, ?Hc, ?(u32_small buf), ?(u32_small len) by lia;
    try done; try (unfold USER_SPACE_START, USER_SPACE_END; lia). by rewrite i32_small by lia.
Qed.

Lemma sys_write_empty buf c : sys_write fuel regs buf 0 (IO s c) = Some (Done 0 (IO s c)).
Proof.
  apply (stub_done SYS_WRITE buf 0 (r_edx regs) sys_write_fn c 0); [done|done|].
  intros r _ Hc. cbn [call_handler]. unfold run, sys_write_handler. by rewrite Hc.
Qed.

Lemma sys_getpid_done c t :
  get_task (y_os s) (current_task (y_os s)) = Some t →
  sys_getpid fuel regs (IO s c) = Some (Done (i32 (t_id t)) (IO s c)).
Proof.
  intros Ht. replace (i32 (t_id t)) with (i32 (i32 (t_id t))) by apply i32_idemp.
  apply stub_done with (f := sys_getpid_fn); [done|done|].
  intros r _ _. cbn [call_handler]. unfold run, sys_getpid_handler. rewrite bind_run. cbn.
  unfold task_get_current, sched_get_current. rewrite bool_decide_eq_false_2 by (intros Hn; by rewrite Hn in Ht).
  rewrite bind_run. unfold os_in_sys, zoom_io, zoom, quiet, zoom. cbn. rewrite (deref_run _ _ _ Ht). cbn.
  by destruct s.
Qed.

(** The exit call does not return to its caller. *)
Lemma sys_exit_done code c o' :
  task_exit (y_os s) = Some ((), o') →
  sys_exit fuel regs code (IO s c) = Some (Stopped (IO (Sys o' (y_log s) (timer_ticks s) (syscall_table s)) c)).
Proof.
  intros E. unfold sys_exit, _syscall1, syscall_stub, hbind, syscall_dispatcher. cbn [r_eax with_args].
  rewrite (u32_small SYS_EXIT) by (unfold SYS_EXIT; lia). cbn [st].
  rewrite table. change (SYS_EXIT >=? MAX_SYSCALLS) with false.
  change (syscall_init_table !! Z.to_nat SYS_EXIT) with (Some (Some sys_exit_fn)). cbn [call_handler].
  unfold sys_exit_handler, os_in_sys, zoom_io, zoom, quiet, zoom. cbn [st con]. rewrite E. cbn [store_result obind st con]. by rewrite table.
Qed.
End calls.
