(* ===== verification/Crt0.v ===== *)
(** * libc/crt0.c and user/hello.c: a user program from start to end

    The start routine reads argc and argv from the stack the kernel prepared,
    calls [main] and hands its result to the exit call; hello.c is the demo
    program.  Where the linker and the compiler put the string literals and
    the characters that are passed to the kernel is the parameter [addr]; what
    compiled code keeps on its own stack is not modelled. *)

From S2P Require Import Prelude KString Console KPrintf Pmm Memory Paging Sched Task TaskExit Klog Syscall SyscallSpec.
From S2P Require Import LibcString LibcStdio UserMode LibcSyscall.

Open Scope Z_scope.
Open Scope c_scope.

Section program.
Context (fuel : nat) (regs : registers_t).

(** ** crt0.c *)

Definition _crt0_main (main : Z → Z → handler Z) (argc argv : Z) : handler () :=
  hbind (main argc argv) (λ ret, hbind (sys_exit fuel regs ret) (λ _, forever)).

(** [esp] is the stack pointer the program is entered with. *)
Definition _start (main : Z → Z → handler Z) (esp : Z) : handler () := λ s,
  let v := vmem (y_os (st s)) in
  match user_load32 v esp, user_load32 v (esp +! 4) with
  | Some argc, Some argv => _crt0_main main (i32 argc) argv s
  | _, _ => None
  end.

(** ** hello.c *)

Context (addr : list Z → Z).

(** [sys_write] of an object of the program. *)
Definition write_object (b : list Z) (len : Z) : M (io sys) Z := completed (sys_write fuel regs (addr b) len).

Definition user_word (va : Z) : M (io sys) Z :=
  s ← quiet get; of_option (user_load32 (vmem (y_os s)) va).

(** The string at a pointer; a page of characters is more than the stack
    holds. *)
Definition user_cstring (va : Z) : M (io sys) (list Z) :=
  s ← quiet get; of_option (user_string (Z.to_nat PAGE_SIZE) (vmem (y_os s)) va).

Definition show_arg (argv i : Z) : M (io sys) () :=
  puts write_object (str "  argv[" ++ [0]) ;;
  print_int write_object i ;;
  puts write_object (str "] = " ++ [34; 0]) ;;
  p ← user_word (argv +! 4 * i);
  (if truth p then
     b ← user_cstring p;
     len ← of_option (LibcString.strlen b);
     completed (sys_write fuel regs p len)
   else write_object (str "(null)" ++ [0]) 6) ;;
  puts write_object [34; 0] ;;
  putchar write_object 10.

Definition hello_main (argc argv : Z) : M (io sys) Z :=
  puts write_object (str "Hello from ELF!" ++ [0]) ;;
  pid ← completed (sys_getpid fuel regs);
  puts write_object (str "  My PID: " ++ [0]) ;;
  print_int write_object pid ;;
  putchar write_object 10 ;;
  (if argc >? 0 then
     puts write_object (str "  argc = " ++ [0]) ;;
     print_int write_object argc ;;
     putchar write_object 10 ;;
     for_loop (Z.to_nat argc) 0 (show_arg argv)
   else mret ()) ;;
  mret 0.
End program.

(** ** The libc output functions print *)

(** What the output functions rely on: writing the first [len] bytes of one of
    the objects [objs] prints them and changes nothing else. *)
Class Prints {S} (w : list Z → Z → M (io S) Z) (s : S) (objs : list (list Z)) : Prop :=
  prints : ∀ b len c, b ∈ objs → 0 < len < 2147483648 → len ≤ Z.of_nat (length b) → nonzero (take (Z.to_nat len) b) →
    w b len (IO s c) = Some (len, IO s (c ++ take (Z.to_nat len) b)).

Lemma strlen_text t : nonzero t → Z.of_nat (length t) < 2147483647 →
  LibcString.strlen (t ++ [0]) = Some (Z.of_nat (length t)).
Proof.
  intros Hnz Hl. unfold strlen. rewrite (strlen_from_kernel _ 0 (Z.of_nat (length t))); [done| |lia..|].
  - by rewrite strlen_cstr by (done || lia).
  - rewrite length_app. cbn. lia.
Qed.

Lemma uint_loop_digits fuel v ds : uint_loop fuel v = Some ds → ∀ ch, ch ∈ ds → 48 ≤ ch ≤ 57.
Proof.
  revert v ds. induction fuel as [|f IH]; intros v ds E ch Hin; [done|]. cbn [uint_loop] in E.
  destruct (v >? 0); [|injection E as <-; by apply not_elem_of_nil in Hin].
  destruct (uint_loop f (v / 10)) as [ds'|] eqn:E'; [|done]. injection E as <-.
  apply elem_of_cons in Hin as [->|Hin]; [|by apply (IH _ _ E')]. pose proof (Z.mod_pos_bound v 10). lia.
Qed.

Section output.
Context {S : Type} (w : list Z → Z → M (io S) Z) (s : S) (objs : list (list Z)) `{!Prints w s objs}.

Lemma puts_run t c :
  nonzero t → (0 < length t)%nat → Z.of_nat (length t) < 2147483647 → t ++ [0] ∈ objs → [10; 0] ∈ objs →
  puts w (t ++ [0]) (IO s c) = Some (Z.of_nat (length t) + 1, IO s (c ++ t ++ [10])).
Proof.
  intros Hnz Hne Hlen Ht Hn. unfold puts.
  rewrite bind_run, strlen_text by (done || lia). cbn [of_option].
  assert (take (Z.to_nat (Z.of_nat (length t))) (t ++ [0]) = t) as Htake.
  { rewrite Nat2Z.id, take_app_length. done. }
  rewrite bind_run, (prints (t ++ [0])); [|done|lia|rewrite length_app; cbn; lia|by rewrite Htake].
  rewrite bind_run, Htake, (prints [10; 0]); [|done|lia|cbn; lia|by repeat constructor].
  cbn. by rewrite <- app_assoc.
Qed.

Lemma putchar_run ch c : 0 < ch < 256 → [ch] ∈ objs → putchar w ch (IO s c) = Some ((), IO s (c ++ [ch])).
Proof.
  intros Hch Hin. unfold putchar. rewrite bind_run, (prints [ch]); [done|done|lia|cbn; lia|].
  change (take _ [ch]) with [ch]. apply nonzero_cons. split; [done|constructor].
Qed.

Lemma putchars_run l c : nonzero l → (∀ ch, ch ∈ l → [ch] ∈ objs) → putchars w l (IO s c) = Some ((), IO s (c ++ l)).
Proof.
  revert c. induction l as [|ch l IH]; intros c Hnz Hin; cbn [putchars]; [by rewrite app_nil_r|].
  apply nonzero_cons in Hnz as [Hch Hnz]. rewrite bind_run, putchar_run; [|done|apply Hin; left].
  rewrite IH; [by rewrite <- app_assoc|done|]. intros ch' Hc'. apply Hin. by right.
Qed.

(** [print_int] prints what the kernel's [kprint_uint] prints. *)
Lemma print_int_run v t c :
  0 ≤ v < 2147483648 → uint_str v = Some t → (∀ ch, 48 ≤ ch ≤ 57 → [ch] ∈ objs) →
  print_int w v (IO s c) = Some ((), IO s (c ++ t)).
Proof.
  intros Hv E Hd. unfold print_int. destruct (Z.ltb_spec v 0); [lia|]. rewrite bind_run. cbn [mret M_ret].
  revert E. unfold uint_str. destruct (Z.eqb_spec v 0) as [->|Hv0].
  - intros [= <-]. apply putchar_run; [lia|]. apply Hd. lia.
  - change (int_digits 11 v) with (uint_loop 11 v). destruct (uint_loop 11 v) as [ds|] eqn:Eds; [|done].
    cbn [mbind option_bind]. rewrite reverse_for_rev. intros [= <-]. rewrite bind_run. cbn [of_option].
    replace (rev ds) with (reverse ds) by (unfold reverse; by rewrite rev_append_rev, app_nil_r).
    assert (∀ ch, ch ∈ reverse ds → 48 ≤ ch ≤ 57) as Hch.
    { intros ch Hin. rewrite elem_of_reverse in Hin. by apply (uint_loop_digits _ _ _ Eds). }
    apply putchars_run; [|by intros ch ?%Hch; apply Hd].
    apply list.Forall_forall. intros ch ?%Hch. lia.
Qed.
End output.
