(* ===== verification/UserSpec.v ===== *)
(** * What a user program sees and does

    The frame the loader puts on the stack reaches [main]; the system calls
    of a program have the effect their names promise; the demo program prints
    its text and is gone. *)

From S2P Require Import Prelude KString KStdio Console KPrintf Pmm Memory Paging Sched Task TaskExit Block SimpleFS Klog.
From S2P Require Import Elf ElfSpec Syscall SyscallSpec LibcString LibcStdio UserMode LibcSyscall Crt0.

Open Scope Z_scope.
Open Scope c_scope.

(** ** The stack page in user memory *)

Lemma same_page_walk m dir va va' :
  0 ≤ va < 4294967296 → 0 ≤ va' < 4294967296 → va / 4096 = va' / 4096 → hw_walk m dir va = hw_walk m dir va'.
Proof.
  intros Hva Hva' Hp. apply same_page in Hp as [Hd Ht]; [|done..]. unfold hw_walk. by rewrite Hd, Ht.
Qed.

Section stack.
Context (v : vm) (P : Z) (w : bool).
Hypothesis mapped : hw_walk (ram v) (cr3 v) USER_STACK_VIRT = Some (P, w, true).

Lemma stack_load8 va : USER_STACK_VIRT ≤ va < USER_STACK_TOP → user_load8 v va = Some (load8 (ram v) (in_page P va)).
Proof using mapped.
  unfold USER_STACK_VIRT, USER_STACK_TOP. intros Hva. unfold user_load8.
  assert (va / 4096 = 786431) as Hd by (symmetry; apply (Z.div_unique _ _ _ (va - 0xBFFFF000)); lia).
  rewrite (same_page_walk _ _ va USER_STACK_VIRT), mapped; unfold USER_STACK_VIRT; [|lia|lia|by rewrite Hd].
  do 2 f_equal. unfold in_page, PAGE_SIZE, USER_STACK_VIRT. pose proof (Z.div_mod va 4096). lia.
Qed.

Lemma stack_read va n :
  USER_STACK_VIRT ≤ va → va + Z.of_nat n ≤ USER_STACK_TOP → user_read v va n = Some (mem_get (ram v) (in_page P va) n).
Proof using mapped.
  revert va. induction n as [|n IH]; intros va Hlo Hhi; [done|]. cbn [user_read mem_get].
  rewrite stack_load8 by lia. cbn [mbind option_bind]. unfold USER_STACK_VIRT, USER_STACK_TOP in *.
  rewrite u32_small by lia. rewrite IH by (unfold USER_STACK_VIRT, USER_STACK_TOP; lia). cbn [fmap option_fmap option_map].
  do 3 f_equal. unfold in_page. lia.
Qed.

Lemma stack_load32 va :
  USER_STACK_VIRT ≤ va → va + 4 ≤ USER_STACK_TOP → user_load32 v va = Some (load32 (ram v) (in_page P va)).
Proof using mapped.
  intros Hlo Hhi. unfold user_load32. rewrite (stack_read va 4) by lia. cbn [mem_get]. rewrite load32_bytes.
  do 2 f_equal; [f_equal|]; do 2 f_equal; lia.
Qed.
End stack.

(** [argv] leads to the strings [args] in the memory of the program. *)
Record arg_vector (v : vm) (argv : Z) (args : list (list Z)) : Prop := {
  av_string : ∀ i b, args !! i = Some b → ∃ p, user_load32 v (argv + 4 * Z.of_nat i) = Some p ∧
    USER_SPACE_START ≤ p ∧ p + Z.of_nat (length b) < USER_SPACE_END ∧
    user_read v p (S (length b)) = Some (b ++ [0]);
  av_null : user_load32 v (argv + 4 * Z.of_nat (length args)) = Some 0;
  av_room : 0 ≤ argv ∧ argv + 4 * Z.of_nat (length args) < USER_SPACE_END
}.

Lemma args_on_stack_vector v P w args esp :
  hw_walk (ram v) (cr3 v) USER_STACK_VIRT = Some (P, w, true) → args_on_stack (ram v) P args esp →
  (0 < length args)%nat →
  user_load32 v esp = Some (Z.of_nat (length args)) ∧ user_load32 v (esp + 4) = Some (esp + 8) ∧
  arg_vector v (esp + 8) args.
Proof.
  intros Hm [Hesp Hargc Hargv Hnull Hstr] Hne.
  destruct args as [|b0 args']; [cbn in Hne; lia|]. destruct (Hstr 0%nat b0 eq_refl) as (Hp0 & Hp1 & _).
  set (args := b0 :: args') in *. unfold USER_STACK_VIRT, USER_STACK_TOP in *.
  assert (∀ va, esp ≤ va → va + 4 ≤ esp + 12 + 4 * Z.of_nat (length args) →
    user_load32 v va = Some (load32 (ram v) (in_page P va))) as Hload.
  { intros va Hlo Hhi. apply (stack_load32 v P w Hm); unfold USER_STACK_VIRT, USER_STACK_TOP; lia. }
  rewrite (Hload esp), (Hload (esp + 4)), Hargc, Hargv by lia. split_and!; [done..|]. split.
  - intros i b Hb. pose proof (lookup_lt_Some _ _ _ Hb) as Hi. destruct (Hstr i b Hb) as (H1 & H2 & H3).
    eexists. split; [apply Hload; lia|]. unfold USER_SPACE_START, USER_SPACE_END. split_and!; [lia..|].
    rewrite (stack_read v P w Hm); [by rewrite H3|..]; unfold USER_STACK_VIRT, USER_STACK_TOP; lia.
  - rewrite Hload by lia. by rewrite Hnull.
  - unfold USER_SPACE_END. lia.
Qed.

(** ** Starting a program *)

Section start.
Context (fuel : nat) (regs : registers_t).

Lemma start_run main (s : sys) c P w args esp :
  hw_walk (ram (vmem (y_os s))) (cr3 (vmem (y_os s))) USER_STACK_VIRT = Some (P, w, true) →
  args_on_stack (ram (vmem (y_os s))) P args esp → (0 < length args ≤ 64)%nat →
  _start fuel regs main esp (IO s c) = _crt0_main fuel regs main (Z.of_nat (length args)) (esp + 8) (IO s c) ∧
  arg_vector (vmem (y_os s)) (esp + 8) args.
Proof.
  intros Hm Hargs Hlen. pose proof (as_esp _ _ _ _ Hargs) as [Hesp _]. unfold USER_STACK_VIRT, USER_STACK_TOP in Hesp.
  destruct (args_on_stack_vector _ _ _ _ _ Hm Hargs) as (E1 & E2 & Hv); [lia|]. split; [|done].
  unfold _start. cbn [st]. rewrite (u32_small (esp + 4)), E1, E2 by lia. by rewrite i32_small by lia.
Qed.

(** C19: The program gets the arguments of its loader: with the frame of
    [setup_user_stack_args] for one to 64 arguments in the page mapped at the top of user memory,
    [_start] calls [main] with argc and a vector of exactly the given strings,
    ended by a null pointer, all readable from ring 3; when [main] returns, the
    task exits and [_start] does not return. *)
Theorem program_receives_args main (s : sys) c P w args esp :
  hw_walk (ram (vmem (y_os s))) (cr3 (vmem (y_os s))) USER_STACK_VIRT = Some (P, w, true) →
  args_on_stack (ram (vmem (y_os s))) P args esp → (0 < length args ≤ 64)%nat →
  ∃ argv, arg_vector (vmem (y_os s)) argv args ∧
    ∀ ret s1 c1 o', main (Z.of_nat (length args)) argv (IO s c) = Some (Done ret (IO s1 c1)) →
      syscall_table s1 = syscall_init_table → task_exit (y_os s1) = Some ((), o') →
      _start fuel regs main esp (IO s c) =
      Some (Stopped (IO (Sys o' (y_log s1) (timer_ticks s1) (syscall_table s1)) c1)).
Proof.
  intros Hm Hargs Hlen. destruct (start_run main s c P w args esp Hm Hargs Hlen) as [E Hv].
  exists (esp + 8). split; [done|]. intros ret s1 c1 o' Hmain Ht Hexit. rewrite E. unfold _crt0_main.
  rewrite (hbind_done _ _ _ _ _ Hmain). unfold hbind. by rewrite (sys_exit_done fuel regs s1 Ht ret c1 o' Hexit).
Qed.
End start.

(** ** The demo program *)

Definition decimal (n : Z) : list Z := default [] (uint_str n).

(** [puts] ends each piece with a newline. *)
Definition arg_text (i : nat) (b : list Z) : list Z :=
  str "  argv[" ++ [10] ++ decimal (Z.of_nat i) ++ str "] = " ++ [34; 10] ++ b ++ [34; 10; 10].
Definition args_text (args : list (list Z)) : list Z := concat (imap arg_text args).
Definition hello_text (pid : Z) (args : list (list Z)) : list Z :=
  str "Hello from ELF!" ++ [10] ++ str "  My PID: " ++ [10] ++ decimal pid ++ [10] ++
  str "  argc = " ++ [10] ++ decimal (Z.of_nat (length args)) ++ [10] ++ args_text args.

(** The literals of hello.c, the newline of [puts] and the characters that
    [putchar] is given. *)
Definition hello_objects : list (list Z) :=
  [str "Hello from ELF!" ++ [0]; str "  My PID: " ++ [0]; str "  argc = " ++ [0]; str "  argv[" ++ [0];
   str "] = " ++ [34; 0]; [34; 0]; [10; 0]; [10]; [48]; [49]; [50]; [51]; [52]; [53]; [54]; [55]; [56]; [57]].

(** The objects of the program lie in its memory. *)
Definition placed (v : vm) (addr : list Z → Z) (objs : list (list Z)) : Prop :=
  Forall (λ b, USER_SPACE_START ≤ addr b ∧ addr b + Z.of_nat (length b) ≤ USER_SPACE_END ∧
               user_read v (addr b) (length b) = Some b) objs.

Lemma user_read_take v va n k l :
  (k ≤ n)%nat → user_read v va n = Some l → user_read v va k = Some (take k l).
Proof.
  revert va k l. induction n as [|n IH]; intros va [|k] l Hk E; [done|lia|done|]. cbn [user_read] in *.
  destruct (user_load8 v va) as [b|]; [|done]. cbn [mbind option_bind] in *.
  destruct (user_read v (va +! 1) n) as [l'|] eqn:El; [|done]. injection E as <-. by rewrite (IH _ k _ ltac:(lia) El).
Qed.

Section hello.
Context (fuel : nat) (regs : registers_t) (addr : list Z → Z) (s : sys).
Hypothesis table : syscall_table s = syscall_init_table.

(** The write call serves the output functions. *)
Lemma write_object_prints objs :
  placed (vmem (y_os s)) addr objs → Prints (write_object fuel regs addr) s objs.
Proof using table.
  intros Hp b len c Hb Hlen Hle Hnz. apply (proj1 (list.Forall_forall _ _) Hp) in Hb as (Hlo & Hhi & Hr).
  unfold write_object. apply completed_run. 
  apply sys_write_done; [done|lia|lia|lia| |done].
  apply user_read_virt. apply (user_read_take _ _ (length b)); [lia|done].
Qed.

Hypothesis objects : placed (vmem (y_os s)) addr hello_objects.
Let w := write_object fuel regs addr.

Lemma hello_puts t c :
  bool_decide (t ++ [0] ∈ hello_objects ∧ nonzero t ∧ (0 < length t < 20)%nat) = true →
  puts w (t ++ [0]) (IO s c) = Some (Z.of_nat (length t) + 1, IO s (c ++ t ++ [10])).
Proof using table objects.
  intros (Hin & Hnz & Hlen)%bool_decide_eq_true_1. pose proof (write_object_prints _ objects) as Hw.
  apply (puts_run w s hello_objects); [done|lia|lia|done|]. by apply (bool_decide_unpack _).
Qed.

Lemma hello_putchar c : putchar w 10 (IO s c) = Some ((), IO s (c ++ [10])).
Proof using table objects.
  pose proof (write_object_prints _ objects) as Hw. apply (putchar_run w s hello_objects); [lia|].
  by apply (bool_decide_unpack _).
Qed.

Lemma hello_print_int v c : 0 ≤ v < 2147483648 → print_int w v (IO s c) = Some ((), IO s (c ++ decimal v)).
Proof using table objects.
  intros Hv. pose proof (write_object_prints _ objects) as Hw.
  destruct (uint_str_numeral v) as (t & E & _); [lia|]. unfold decimal. rewrite E. cbn [default].
  apply (print_int_run w s hello_objects); [done|done|]. intros ch Hch.
  assert (ch ∈ [48; 49; 50; 51; 52; 53; 54; 55; 56; 57]) as Hin.
  { assert (ch = 48 ∨ ch = 49 ∨ ch = 50 ∨ ch = 51 ∨ ch = 52 ∨ ch = 53 ∨ ch = 54 ∨ ch = 55 ∨ ch = 56 ∨ ch = 57) by lia.
    set_unfold. tauto. }
  revert ch Hch Hin. cut (Forall (λ ch, [ch] ∈ hello_objects) [48; 49; 50; 51; 52; 53; 54; 55; 56; 57]).
  { intros Hall ch _ Hin. by apply (proj1 (list.Forall_forall _ _) Hall). }
  by apply (bool_decide_unpack _).
Qed.

Lemma write_arg p b c :
  USER_SPACE_START ≤ p → p + Z.of_nat (length b) < USER_SPACE_END → nonzero b → (length b < 4096)%nat →
  user_read (vmem (y_os s)) p (S (length b)) = Some (b ++ [0]) →
  completed (sys_write fuel regs p (Z.of_nat (length b))) (IO s c) = Some (Z.of_nat (length b), IO s (c ++ b)).
Proof using table.
  intros Hlo Hhi Hnz Hl Hr. apply completed_run. destruct b as [|b0 b]; [cbn; rewrite app_nil_r; by apply sys_write_empty|].
  set (l := b0 :: b) in *. assert (0 < Z.of_nat (length l)) by (cbn; lia).
  apply sys_write_done; [done|lia|lia|lia| |done]. rewrite Nat2Z.id. apply user_read_virt.
  rewrite (user_read_take _ _ (S (length l)) _ (l ++ [0])) by (lia || done). by rewrite take_app_length.
Qed.

Context (argv : Z) (args : list (list Z)).
Hypothesis vector : arg_vector (vmem (y_os s)) argv args.
Hypothesis strings : Forall (λ b, nonzero b ∧ (length b < 4096)%nat) args.
Hypothesis few : (length args ≤ 64)%nat.

Lemma show_arg_run i b c :
  args !! i = Some b → show_arg fuel regs addr argv (Z.of_nat i) (IO s c) = Some ((), IO s (c ++ arg_text i b)).
Proof using table objects vector strings few.
  intros Hb. pose proof (lookup_lt_Some _ _ _ Hb) as Hi. destruct (av_string _ _ _ vector i b Hb) as (p & Ep & Hlo & Hhi & Hr).
  destruct (proj1 (Forall_lookup _ _) strings i b Hb) as [Hnz Hl]. destruct (av_room _ _ _ vector) as [Hr0 Hr1].
  unfold show_arg. fold w. unfold USER_SPACE_START, USER_SPACE_END in *.
  rewrite bind_run, hello_puts by reflexivity. rewrite bind_run, hello_print_int by lia.
  change (str "] = " ++ [34; 0]) with ((str "] = " ++ [34]) ++ [0]).
  rewrite bind_run, hello_puts by reflexivity. rewrite bind_run. unfold user_word at 1. rewrite bind_run. cbn [quiet zoom get st con].
  rewrite u32_small, Ep by lia. cbn [of_option]. rewrite truth_pos by lia.
  rewrite bind_run. rewrite bind_run. unfold user_cstring at 1. rewrite bind_run. cbn [quiet zoom get st con].
  rewrite (user_string_read _ _ _ b) by (done || (unfold PAGE_SIZE; lia)). cbn [of_option].
  rewrite bind_run, strlen_text by (done || lia). cbn [of_option].
  rewrite write_arg by (done || (unfold USER_SPACE_START, USER_SPACE_END; lia)).
  change [34; 0] with ([34] ++ [0]). rewrite bind_run, hello_puts by reflexivity. rewrite hello_putchar.
  do 3 f_equal. unfold arg_text. by rewrite <- !app_assoc.
Qed.

Lemma show_args_run n c :
  (n ≤ length args)%nat →
  for_loop n 0 (show_arg fuel regs addr argv) (IO s c) = Some ((), IO s (c ++ args_text (take n args))).
Proof using table objects vector strings few.
  intros Hn. destruct (for_loop_inv (λ j x, x = IO s (c ++ args_text (take (Z.to_nat j) args)))
    (show_arg fuel regs addr argv) n 0 (IO s c)) as (x & E & ->).
  - intros j x Hj ->. destruct (lookup_lt_is_Some_2 args (Z.to_nat j)) as [b Hb]; [lia|].
    eexists. split; [|reflexivity]. replace j with (Z.of_nat (Z.to_nat j)) at 1 by lia. rewrite (show_arg_run _ _ _ Hb).
    do 3 f_equal. replace (Z.to_nat (j + 1)) with (S (Z.to_nat j)) by lia. rewrite <- app_assoc. f_equal.
    unfold args_text. rewrite (take_S_r _ _ _ Hb), imap_app, concat_app. cbn [imap concat].
    rewrite app_nil_r, length_take, Nat.min_l by lia. cbn. by rewrite Nat.add_0_r.
  - cbn. by rewrite app_nil_r.
  - by rewrite E, Z.add_0_l, Nat2Z.id.
Qed.

Lemma hello_main_run t c :
  get_task (y_os s) (current_task (y_os s)) = Some t → 0 ≤ t_id t < 2147483648 → (0 < length args)%nat →
  hello_main fuel regs addr (Z.of_nat (length args)) argv (IO s c) = Some (0, IO s (c ++ hello_text (t_id t) args)).
Proof using table objects vector strings few.
  intros Ht Hid Hne. unfold hello_main. fold w.
  rewrite bind_run, hello_puts by reflexivity.
  rewrite bind_run, (proj2 (completed_run _ _ _ _) (sys_getpid_done fuel regs s table _ t Ht)), i32_small by lia.
  rewrite bind_run, hello_puts by reflexivity. rewrite bind_run, hello_print_int by done.
  rewrite bind_run, hello_putchar. rewrite bind_run.
  destruct (Z.gtb_spec (Z.of_nat (length args)) 0); [|lia].
  rewrite bind_run, hello_puts by reflexivity. rewrite bind_run, hello_print_int by lia.
  rewrite bind_run, hello_putchar, Nat2Z.id, show_args_run, take_ge by done.
  cbn [mret M_ret]. do 3 f_equal. unfold hello_text. by rewrite <- !app_assoc.
Qed.
End hello.

(** The demo program from its first instruction to its end.  In a process
    whose literals are in place, whose stack holds the arguments [args] as the
    loader leaves them, and which is not the only task that can run: [_start]
    prints exactly the greeting, the process id, argc and the arguments (each
    piece on a line of its own, as [puts] does), changes nothing else in the
    kernel before the exit call, and does not return: the task is dead and
    another one runs. *)
Theorem hello_says fuel regs addr (s : sys) c P w args esp qs q t :
  syscall_table s = syscall_init_table → placed (vmem (y_os s)) addr hello_objects →
  hw_walk (ram (vmem (y_os s))) (cr3 (vmem (y_os s))) USER_STACK_VIRT = Some (P, w, true) →
  args_on_stack (ram (vmem (y_os s))) P args esp → (0 < length args ≤ 64)%nat →
  Forall (λ b, nonzero b ∧ (length b < 4096)%nat) args →
  get_task (y_os s) (current_task (y_os s)) = Some t → 0 ≤ t_id t < 2147483648 →
  sched_inv (y_os s) qs → q ∈ PBoot :: qs → q ≠ current_task (y_os s) → state_of (y_os s) q = Some TASK_READY →
  ∃ o', _start fuel regs (λ argc argv, run (hello_main fuel regs addr argc argv)) esp (IO s c) =
      Some (Stopped (IO (Sys o' (y_log s) (timer_ticks s) (syscall_table s)) (c ++ hello_text (t_id t) args))) ∧
    state_of o' (current_task (y_os s)) = Some TASK_DEAD ∧ current_task o' ≠ current_task (y_os s) ∧ sched_inv o' qs.
Proof.
  intros Htab Hobj Hm Hargs Hlen Hstr Ht Hid Hinv Hq Hne Hst.
  destruct (task_exit_run _ _ _ _ Hinv Ht Hq Hne Hst) as (o' & Ex & Hi & Hd & Hc). exists o'. split; [|done].
  set (main := λ argc argv, run (hello_main fuel regs addr argc argv)).
  destruct (start_run fuel regs main s c P w args esp Hm Hargs Hlen) as [E Hv]. rewrite E. unfold _crt0_main.
  assert (main (Z.of_nat (length args)) (esp + 8) (IO s c) = Some (Done 0 (IO s (c ++ hello_text (t_id t) args)))) as Hmain.
  { unfold main, run. by rewrite (hello_main_run fuel regs addr s Htab Hobj (esp + 8) args Hv Hstr ltac:(lia) t c Ht Hid ltac:(lia)). }
  rewrite (hbind_done _ _ _ _ _ Hmain). unfold hbind. by rewrite (sys_exit_done fuel regs s Htab 0 _ o' Ex).
Qed.

(** ** Examples *)

(** A process with a page of literals at 0x40000000 and its stack page at the
    top of user memory, which holds the arguments of "hello -x". *)
Fixpoint object_offset (objs : list (list Z)) (b : list Z) : Z :=
  match objs with
  | [] => 0
  | x :: objs' => if decide (x = b) then 0 else Z.of_nat (length x) + object_offset objs' b
  end.
Definition hello_addr (b : list Z) : Z := 0x40000000 + object_offset hello_objects b.

Definition hello_args : list (list Z) := [str "hello"; str "-x"].

Definition hello_ram : mem :=
  let m := mem_put ∅ 0x502000 (concat hello_objects) in
  let m := store32 (store32 m 0x500400 0x501007) 0x501000 0x502007 in
  let m := store32 (store32 m 0x500BFC 0x503007) 0x503FFC 0x504007 in
  match write_args 0x504000 [str "hello" ++ [0]; str "-x" ++ [0]] 2 m with Some (_, m') => m' | None => m end.

Definition hello_vm : vm := Vm hello_ram boot_pmm 0x500000 (replicate 1024 0) 0x500000 0x500000 0x80000011 false ∅.
Definition hello_sys : sys := demo_sys (set_vmem hello_vm demo_os) 0.
Definition hello_esp : Z := 0xBFFFFFE0.

Lemma hello_stack : args_on_stack hello_ram 0x504000 hello_args hello_esp.
Proof.
  split; [by vm_compute..|]. intros i b Hb. cbv zeta.
  assert (i = 0%nat ∧ b = str "hello" ∨ i = 1%nat ∧ b = str "-x") as [[-> ->]|[-> ->]].
  { destruct i as [|[|i]]; [left|right|]; by simplify_eq/=. }
  all: split; [by vm_compute|split; by vm_compute].
Qed.

Lemma hello_sched_inv : sched_inv (y_os hello_sys) [PSlot 2; PSlot 0].
Proof.
  destruct demo_inv as [Hq Hr _ Hs]. split; [|intros p t Hp Ht; apply (Hr p t Hp); by destruct p| |done].
  - apply (queue_keep demo_os); [done..| |apply Hq]. intros p _. by destruct p.
  - intros t Ht. vm_compute in Ht. injection Ht as <-. by vm_compute.
Qed.

Lemma hello_says_witness :
  ∃ o', _start 0 (demo_regs 0 0 0) (λ argc argv, run (hello_main 0 (demo_regs 0 0 0) hello_addr argc argv)) hello_esp
          (IO hello_sys []) =
        Some (Stopped (IO (Sys o' (y_log hello_sys) 0 syscall_init_table) (hello_text 0 hello_args))) ∧
    state_of o' PBoot = Some TASK_DEAD ∧ current_task o' ≠ PBoot ∧ sched_inv o' [PSlot 2; PSlot 0].
Proof.
  apply (hello_says 0 (demo_regs 0 0 0) hello_addr hello_sys [] 0x504000 true hello_args hello_esp [PSlot 2; PSlot 0] (PSlot 0)
           (boot_task demo_os));
    [reflexivity| |by vm_compute|exact hello_stack|cbn; lia| |reflexivity|by vm_compute|exact hello_sched_inv| |discriminate|by vm_compute].
  - apply (bool_decide_unpack _). vm_compute. exact I.
  - apply (bool_decide_unpack _). vm_compute. exact I.
  - apply elem_of_cons. right. apply elem_of_cons. right. apply elem_of_cons. by left.
Defined.

Lemma program_receives_args_witness :
  ∃ argv o', arg_vector hello_vm argv hello_args ∧
    _start 0 (demo_regs 0 0 0) (λ _ _, hret 7) hello_esp (IO hello_sys []) =
    Some (Stopped (IO (Sys o' (y_log hello_sys) 0 syscall_init_table) [])).
Proof.
  destruct (program_receives_args 0 (demo_regs 0 0 0) (λ _ _, hret 7) hello_sys [] 0x504000 true hello_args hello_esp
              ltac:(vm_compute; reflexivity) hello_stack ltac:(cbn; lia)) as (argv & Hv & Hrun).
  destruct (task_exit_run (y_os hello_sys) [PSlot 2; PSlot 0] (boot_task demo_os) (PSlot 0)) as (o' & Ex & _);
    [exact hello_sched_inv|reflexivity| |discriminate|by vm_compute|].
  - apply elem_of_cons. right. apply elem_of_cons. right. apply elem_of_cons. by left.
  - exists argv, o'. split; [exact Hv|]. exact (Hrun 7 hello_sys [] o' eq_refl eq_refl Ex).
Defined.
