(* ===== verification/ExecRun.v ===== *)
(** * From the file to [main]

    [elf_exec] leaves a ready task; the timer gives it the processor; the
    first switch enters ring 3, where [_start] finds the arguments.  The
    theorem follows a program along this way: while it waits, other tasks run
    and are switched out, and as long as they keep to their own memory the
    program starts in the address space the loader built. *)

From S2P Require Import Prelude KString KStdio Console KPrintf Pmm Memory Kmalloc Paging AddrSpace Sched Task.
From S2P Require Import Block SimpleFS SimpleFSSpec Klog KlogSpec Elf ElfSpec ElfLoad ElfExec Shell Ata Ports Boot BootSpec ExecFile.
From S2P Require Import Syscall UserMode LibcSyscall Crt0 UserSpec.

Open Scope Z_scope.
Open Scope c_scope.

(** ** The memory of a task *)

(** The bytes a user task depends on: its kernel stack, its page directory
    with the tables above 16 MB, and the frames it can reach there. *)
Inductive task_byte (s : vm) (t : task) (a : Z) : Prop :=
  | tb_stack : t_kernel_stack t ≤ a < t_kernel_stack t + PAGE_SIZE → task_byte s t a
  | tb_dir : t_cr3 t ≤ a < t_cr3 t + PAGE_SIZE → task_byte s t a
  | tb_table i :
      4 ≤ i < 1024 → present (entry (ram s) (t_cr3 t) i) = true →
      PAGE_FRAME (entry (ram s) (t_cr3 t) i) ≤ a < PAGE_FRAME (entry (ram s) (t_cr3 t) i) + PAGE_SIZE → task_byte s t a
  | tb_page va f w :
      0x1000000 ≤ va < 4294967296 → hw_walk (ram s) (t_cr3 t) va = Some (f, w, true) → frame_used (frames s) f →
      f ≤ a < f + PAGE_SIZE → task_byte s t a.

Definition keeps (s : vm) (t : task) (m : mem) : Prop := ∀ a, task_byte s t a → load8 m a = load8 (ram s) a.

(** The registers and the memory another task leaves when it is interrupted:
    it has written only to memory of its own, and its stack pointer too is
    outside the memory of [t]. *)
Record apart (s : vm) (t : task) (x : cpu * mem) : Prop := {
  ap_cpu : cpu_ok x.1;
  ap_mem : keeps s t x.2;
  ap_stack : ∀ a, task_byte s t a → a < esp x.1 - 16 ∨ esp x.1 ≤ a
}.

Lemma save_frame_byte r m a : cpu_ok r → a < esp r - 16 ∨ esp r ≤ a → load8 (save_frame r m) a = load8 m a.
Proof. intros Hr Ha. rewrite save_frame_ok by done. by rewrite !load8_store32_ne by lia. Qed.

Lemma apart_saved s t x : apart s t x → keeps s t (save_frame x.1 x.2).
Proof. intros [Hc Hm Hs] a Ha. rewrite save_frame_byte by (done || by apply Hs). by apply Hm. Qed.

Section memory.
Context (s : vm) (t : task) (m : mem) (Hk : keeps s t m).

Lemma keeps_walk va : 0x1000000 ≤ va < 4294967296 → hw_walk m (t_cr3 t) va = hw_walk (ram s) (t_cr3 t) va.
Proof using Hk.
  intros Hva. destruct (dir_index va ltac:(lia)) as [Ed Hd], (table_index va) as [Et Ht]. rewrite !hw_walk_bits, Ed, Et. cbv zeta.
  assert (4 ≤ va / 4194304) by (apply Z.div_le_lower_bound; lia). set (d := va / 4194304) in *.
  assert (entry m (t_cr3 t) d = entry (ram s) (t_cr3 t) d) as ->.
  { apply load32_ext. intros i Hi. apply Hk, tb_dir. unfold PAGE_SIZE. lia. }
  destruct (Z.testbit (entry (ram s) (t_cr3 t) d) 0) eqn:Ep; [|done]. set (e := entry (ram s) (t_cr3 t) d) in *.
  assert (entry m (PAGE_FRAME e) ((va / 4096) mod 1024) = entry (ram s) (PAGE_FRAME e) ((va / 4096) mod 1024)) as ->; [|done].
  apply load32_ext. intros i Hi. apply Hk, (tb_table _ _ _ d); [lia|by rewrite present_bit|]. fold e. unfold PAGE_SIZE. lia.
Qed.

Lemma keeps_page va f w o :
  0x1000000 ≤ va < 4294967296 → hw_walk (ram s) (t_cr3 t) va = Some (f, w, true) → frame_used (frames s) f →
  0 ≤ o < PAGE_SIZE →   load8 m (f + o) = load8 (ram s) (f + o).
Proof using Hk. intros Hva Hw Hu Ho. apply Hk, (tb_page _ _ _ va f w); [done..|lia]. Qed.

Lemma keeps_kstack a : t_kernel_stack t ≤ a → a + 4 ≤ t_kernel_stack t + PAGE_SIZE → load32 m a = load32 (ram s) a.
Proof using Hk. intros H1 H2. apply load32_ext. intros i Hi. apply Hk, tb_stack. lia. Qed.
End memory.

(** ** Waiting for the processor *)

Section wait.
Context (s0 : vm) (p : ptr) (t : task).

(** The processor has just been given to the task. *)
Record arrived (s : os) : Prop := {
  ar_current : current_task s = p;
  ar_task : get_task s p = Some (set_state TASK_RUNNING t);
  ar_regs : regs s = load_frame (ram (vmem s)) (t_esp t);
  ar_tss : tss_esp0 s = t_esp0 t;
  ar_mem : keeps s0 t (ram (vmem s))
}.

Lemma tick_task s L s' :
  tick_step s L s' → get_task s p = Some t → p ≠ current_task s → apart s0 t (regs s, ram (vmem s)) →
  if decide (current_task s' = p) then arrived s' else get_task s' p = Some t.
Proof.
  intros Hstep Ht Hne Hap. inversion Hstep as [|?|next tp tn ? ? ? Hn Htp Htn Hsw]; subst.
  - rewrite decide_False by (cbn; congruence). by rewrite set_slice_get.
  - rewrite decide_False by (cbn; congruence). by rewrite set_slice_get.
  - rewrite (sw_current _ _ _ _ _ _ Hsw). case_decide as Hc.
    + subst next. rewrite Ht in Htn. injection Htn as <-. split.
      * apply Hsw.
      * apply Hsw.
      * by rewrite (sw_regs _ _ _ _ _ _ Hsw), (sw_ram _ _ _ _ _ _ Hsw).
      * apply Hsw.
      * rewrite (sw_ram _ _ _ _ _ _ Hsw). exact (apart_saved _ _ _ Hap).
    + by rewrite (sw_other _ _ _ _ _ _ Hsw), set_slice_get by congruence.
Qed.

Lemma ticks_arrive n env s s' qs :
  sched_inv s qs → scheduler_on s ≠ 0 → get_task s p = Some t → p ≠ current_task s → (∀ k, apart s0 t (env k)) →
  run_ticks env n s = Some s' → current_task s' = p →
  ∃ n' s1, (n' ≤ n)%nat ∧ run_ticks env n' s = Some s1 ∧ sched_inv s1 qs ∧ arrived s1.
Proof.
  revert env s. induction n as [|n IH]; intros env s Hinv Hon Ht Hne Hap E Hc.
  { injection E as <-. by destruct Hne. }
  cbn [run_ticks] in E. set (s1 := with_cpu (env 0%nat).1 (env 0%nat).2 s) in *.
  assert (sched_inv s1 qs) as Hinv1 by by apply with_cpu_inv.
  destruct (order_exists s1 qs (si_queue _ _ Hinv1)) as (L & HL).
  destruct (schedule_run s1 qs L Hinv1 HL Hon) as (s2 & E2 & Hstep & Hinv2). rewrite E2 in E.
  pose proof (tick_task s1 L s2 Hstep) as Htick. unfold s1 at 1 2 in Htick. rewrite get_with_cpu in Htick.
  specialize (Htick Ht Hne). case_decide as Hd.
  - exists 1%nat, s2. cbn [run_ticks]. fold s1. rewrite E2. split_and!; [lia|done|done|]. apply Htick.
    unfold s1. rewrite regs_with_cpu, ram_with_cpu. specialize (Hap 0%nat). by destruct (env 0%nat).
  - destruct (IH (λ k, env (S k)) s2) as (n' & s3 & Hn & E3 & Hi & Ha); [done| | |congruence|by intros k|done|done|].
    { rewrite (tick_step_on _ _ _ Hstep). exact Hon. }
    { apply Htick. unfold s1. rewrite regs_with_cpu, ram_with_cpu. specialize (Hap 0%nat). by destruct (env 0%nat). }
    exists (S n'), s3. cbn [run_ticks]. fold s1. rewrite E2. split_and!; [lia|done|done|done].
Qed.
End wait.

(** ** The start of a program *)

(** The processor has been given to the task [t] and is about to enter the
    image at [buf] of the memory [m]: it is in [enter_usermode] in front of
    the frame for [iret], in the address space in which the segments are
    readable from ring 3, and [_start] there calls [main] with the arguments. *)
Record enters_program (sy : symbols) (m : mem) (buf : Z) (args : list (list Z)) (s : os) (t : task) : Prop := {
  ep_regs : regs s = Cpu 0 0 0 0 (t_kernel_stack t + PAGE_SIZE - 20) (sym_enter_usermode sy);
  ep_machine : cr3 (vmem s) = t_cr3 t ∧ tss_esp0 s = t_kernel_stack t + PAGE_SIZE;
  ep_segments : ∀ i, 0 ≤ i < e_phnum (ehdr_at m buf) → loadable (phdr_no m buf i) = true →
    ∀ va, seg_start (phdr_no m buf i) ≤ va < seg_end (phdr_no m buf i) →
      user_load8 (vmem s) va = Some (seg_byte (phdr_no m buf i) buf m va);
  ep_main : ∃ esp, (λ k, load32 (ram (vmem s)) (t_kernel_stack t + PAGE_SIZE - 20 + 4 * k)) <$> [0; 1; 2; 3; 4] =
      [e_entry (ehdr_at m buf); 0x1B; 0x202; esp; 0x23] ∧
    arg_vector (vmem s) (esp + 8) args ∧
    ∀ fuel regs main lg ticks table c, let y := IO (Sys s lg ticks table) c in
      _start fuel regs main esp y = _crt0_main fuel regs main (Z.of_nat (length args)) (esp + 8) y
}.

(** What [starts_at] says about the words on the stack. *)
Lemma starts_at_frame s t r old told :
  starts_at s t r → get_task s old = Some told → 16 ≤ t_esp t < 4294967296 - 20 → load_frame (ram (vmem s)) (t_esp t) = r.
Proof.
  intros Hst Hold Hsp. set (r0 := Cpu 0 0 0 0 (t_esp t) 0).
  assert (cpu_ok r0) as Hok by (split; [done..|cbn; lia]).
  destruct (Hst old told r0 Hold Hok) as (s2 & E & <-); [left; cbn; lia|].
  rewrite (task_switch_run _ _ told) in E by (by rewrite get_with_cpu). injection E as <-.
  rewrite !regs_with_cpu, ?ram_with_cpu, !load_frame_ok by lia. by rewrite !load32_save_frame_ne by (exact Hok || cbn; lia).
Qed.

Section start.
Context (sy : symbols) (m : mem) (buf size : Z) (args : list (list Z)) (o : os) (p : ptr) (t : task).
Context (Him : image m buf size) (Hargs : (0 < length args ≤ 64)%nat) (Hp : get_task o p = Some t).
Context (Hrun : runs_image sy m buf args o t).

Lemma arrived_enters s qs : sched_inv s qs → arrived (vmem o) p t s → enters_program sy m buf args s t.
Proof using All.
  intros Hinv [Hc Ht Hr Htss Hk]. destruct Hrun as [(_ & _ & [_ Hd] & _) Hseg (Hs1 & Hs2 & Hs3 & Hs4) (P & w & esp & Hw & [HPd HP] & Hst & Hgo & Hir)].
  unfold PMM_POOL_START, PMM_POOL_END, PAGE_SIZE in *. cbv zeta in Hgo, Hir.
  assert (cr3 (vmem s) = t_cr3 t) as Hcr3.
  { rewrite (si_cr3 _ _ Hinv (set_state TASK_RUNNING t)) by (by rewrite Hc). unfold task_cr3. cbn [t_cr3 set_state].
    unfold truth. by destruct (Z.eqb_spec (t_cr3 t) 0). }
  assert (hw_walk (ram (vmem s)) (cr3 (vmem s)) USER_STACK_VIRT = Some (P, w, true)) as Hw'.
  { rewrite Hcr3, (keeps_walk _ _ _ Hk) by (unfold USER_STACK_VIRT; lia). exact Hw. }
  assert (args_on_stack (ram (vmem s)) P args esp) as Hst'.
  { apply (args_on_stack_ext (ram (vmem o))); [lia| |exact Hst]. intros x Hx.
    apply (keeps_page _ _ _ Hk USER_STACK_VIRT P w); [unfold USER_STACK_VIRT; lia|exact Hw|apply HPd|unfold PAGE_SIZE; lia]. }
  split.
  - unfold PAGE_SIZE. rewrite Hr. rewrite <- (starts_at_frame o t _ p t Hgo Hp) by lia. rewrite !load_frame_ok by lia.
    by rewrite !(keeps_kstack _ _ _ Hk) by (unfold PAGE_SIZE; lia).
  - split; [exact Hcr3|]. unfold PAGE_SIZE. congruence.
  - intros i Hi Hl va Hva. destruct (Hseg i Hi Hl va Hva) as (f & w' & Ew & Hf & _ & Hb).
    assert (0x1000000 ≤ va < 4294967296) as Hva32.
    { destruct (im_segs _ _ _ Him i Hi Hl) as (Hok & _ & Hend). pose proof (so_sizes _ Hok).
      destruct (seg_pages _ Hok) as (_ & _ & Hsg & _); [destruct (loadable_true _ Hl); lia|].
      unfold USER_STACK_VIRT in *. lia. }
    unfold user_load8. rewrite Hcr3, (keeps_walk _ _ _ Hk va Hva32), Ew. rewrite <- Hb. f_equal.
    apply (keeps_page _ _ _ Hk va f w' _ Hva32 Ew (df_used _ _ _ Hf)). by apply Z.mod_pos_bound.
  - exists esp. split_and!.
    + rewrite <- Hir. apply list_fmap_ext. intros j k Hjk. apply (keeps_kstack _ _ _ Hk); unfold PAGE_SIZE;
        (assert (k ∈ [0; 1; 2; 3; 4]) as Hin by (by eapply list_elem_of_lookup_2);
         rewrite !elem_of_cons, elem_of_nil in Hin; lia).
    + apply (args_on_stack_vector _ _ _ _ _ Hw' Hst'). lia.
    + intros fuel regs main lg ticks table c y. by apply (start_run fuel regs main (Sys s lg ticks table) c P w args esp).
Qed.

(** The program gets its turn. *)
Lemma program_arrives qs env :
  sched_inv o qs → scheduler_on o ≠ 0 → p ∈ PBoot :: qs → p ≠ current_task o → (∀ k, apart (vmem o) t (env k)) →
  ∃ n s, Z.of_nat n ≤ SCHED_TIME_SLICE * Z.of_nat (S (length qs)) ∧ run_ticks env n o = Some s ∧
    current_task s = p ∧ sched_inv s qs ∧ enters_program sy m buf args s t.
Proof using All.
  intros Hinv Hon Hin Hne Hap. destruct Hrun as [(Hst & _) _ _ _].
  destruct (fair_ticks o qs p env Hinv Hon Hin) as (n & s & Hn & E & Hc & _); [unfold state_of; by rewrite Hp; cbn; rewrite Hst|].
  destruct (ticks_arrive (vmem o) p t n env o s qs Hinv Hon Hp Hne Hap E Hc) as (n' & s1 & Hn' & E1 & Hi & Ha).
  exists n', s1. split_and!; [lia|exact E1|apply Ha|exact Hi|by apply (arrived_enters s1 qs)].
Qed.
End start.

(** C16: A program on disk comes to run.  In a kernel in its invariants with
    enough resources and the scheduler on, [elf_exec] of a file that holds a
    well-formed program, with one to 64 arguments that fit on the stack page,
    returns a task, and whatever the other tasks do
    meanwhile to registers and to memory of their own, at most ten timer ticks
    per queued task later the processor is given to it: it stands in
    [enter_usermode] in front of a frame from which [iret] enters ring 3 at the
    file's entry point, in an address space in which every byte of the file's
    segments is readable from ring 3, with the task's kernel stack in the TSS,
    and [_start] on the stack pointer of that frame calls [main] with exactly
    the given arguments. *)
Theorem program_starts {D : Type} `{BlockDevLaws D} sy (k : kernel D) qs bs d sb h fname rf name r args argv x c :
  running k qs bs d sb h → scheduler_on (k_os k) ≠ 0 →
  has d fname FS_TYPE_FILE x → nonzero fname → Z.of_nat (length x) ≤ ELF_MAX_FILE_SIZE → file_image x →
  (∃ sz, (sz, true) ∈ bs ∧ request (Z.of_nat (length x)) ≤ sz) → (∃ i, (i < 64)%nat ∧ PSlot i ∉ qs) →
  used_frames (frames (kvm k)) + 2 * file_pages x + 5 ≤ TOTAL_FRAMES →
  c_strings args argv → (0 < length args ≤ 64)%nat →
  Z.of_nat (length (packed args)) + 4 * (Z.of_nat (length args) + 3) ≤ ARGV_MAX_TOTAL →
  nonzero name → word32 (sym_enter_usermode sy) → Z.of_nat (length h) + 2 < 4294967296 →
  ∃ i t k' c', elf_exec sy (Some (fname ++ 0 :: rf)) (Some (name ++ 0 :: r)) (Some argv) (Z.of_nat (length args)) (IO k c) =
      Some (PSlot i, IO k' c') ∧ get_task (k_os k') (PSlot i) = Some t ∧
    ∀ env, (∀ n, apart (kvm k') t (env n)) →
      ∃ n s, Z.of_nat n ≤ SCHED_TIME_SLICE * Z.of_nat (S (S (length qs))) ∧ run_ticks env n (k_os k') = Some s ∧
        current_task s = PSlot i ∧ sched_inv s (qs ++ [PSlot i]) ∧ enters_program sy (file_mem x) 0x1000 args s t.
Proof.
  intros Hk Hon Hfile Hfname Hmax Him Hblock Hslot Hframes Hargs Hcount Hfit Hname Hsym Hlog.
  destruct (elf_exec_run sy k qs bs d sb h Hk fname rf name r args argv x c Hfile Hfname Hmax Him Hblock Hslot Hframes Hargs Hcount Hfit
    Hname Hsym Hlog) as (i & t & k' & c' & h' & E & (Hni & Hcur & Hon') & Hk' & Ht & Hrun & _).
  pose proof (queue_current _ _ (si_queue _ _ (ti_sched _ _ (ru_tasks _ _ _ _ _ _ Hk)))) as Hc.
  exists i, t, k', c'. split; [exact E|]. split; [exact Ht|]. intros env Hap.
  destruct (program_arrives sy (file_mem x) 0x1000 _ args (k_os k') (PSlot i) t Him Hcount Ht Hrun (qs ++ [PSlot i]) env)
    as (n & s & Hn & En & Hcs & Hi & He); [apply Hk'|by rewrite Hon'| | |exact Hap|].
  - rewrite app_comm_cons. apply elem_of_app. right. left.
  - rewrite Hcur. intros Heq. rewrite <- Heq, elem_of_cons in Hc. by destruct Hc as [|].
  - exists n, s. rewrite length_app, Nat.add_comm in Hn. done.
Qed.

(** ** Example *)

Module FirstRun.
Import ExecFile.Demo.

Lemma running_on {D} `{BlockDevLaws D} (k : kernel D) qs bs d sb h :
  running k qs bs d sb h → running (Kernel (set_on 1 (k_os k)) (k_log k) (k_fs k)) qs bs d sb h.
Proof. intros [H1 H2 H3 H4 H5 H6]. by split; [apply set_on_task_inv|..]. Qed.

(** A task that is interrupted at once, on a stack above all memory. *)
Definition idler (m : mem) : cpu * mem := (Cpu 0 0 0 0 0xFFFFF000 0, m).

Lemma idler_apart s t : space s (t_cr3 t) → stack_ok t → apart s t (idler (ram s)).
Proof.
  intros Hsp (_ & Hks & _). split; [by split|done|]. cbn [idler fst esp].
  assert (∀ f, frame_used (frames s) f → f + PAGE_SIZE ≤ 0x1000000) as Hf.
  { intros f (Hal & Hr & _). change TOTAL_MEMORY with 16777216 in Hr. unfold aligned, PAGE_SIZE in *.
    pose proof (Z.div_mod f 4096). lia. }
  intros a [Ha|Ha|i Hi Hp Ha|va f w _ _ Hu Ha]; left; unfold PMM_POOL_END in Hks.
  - lia.
  - pose proof (Hf _ (proj1 (sp_dir _ _ Hsp))). lia.
  - pose proof (Hf _ (proj1 (sp_table _ _ Hsp i ltac:(unfold private; lia) Hp))). lia.
  - pose proof (Hf _ Hu). lia.
Qed.

(** The one-byte program of the demo file system starts. *)
Lemma program_starts_witness :
  ∃ (k k' : kernel ramdisk) i c' env n s, elf_exec demo_symbols (Some (str "a" ++ [0])) (Some (str "a" ++ [0])) (Some [str "a" ++ [0]]) 1 (IO k []) =
      Some (PSlot i, IO k' c') ∧ run_ticks env n (k_os k') = Some s ∧ current_task s = PSlot i ∧
    user_load8 (vmem s) 0x40000000 = Some 0xF4.
Proof.
  destruct demo_running as (k0 & d & sb & h & Hk0 & Hh & Hu & Hlen & _). apply running_on in Hk0.
  set (k := Kernel (set_on 1 (k_os k0)) (k_log k0) (k_fs k0)) in *. destruct demo_image as [Him Hpg].
  assert (nonzero (str "a")) as Ha by (by apply (bool_decide_unpack _)).
  assert (Z.of_nat (length demo_program) ≤ ELF_MAX_FILE_SIZE) as Hmax by (vm_compute; congruence).
  assert (∃ sz, (sz, true) ∈ [(HEAP_SIZE, true)] ∧ request (Z.of_nat (length demo_program)) ≤ sz) as Hblock.
  { exists HEAP_SIZE. split; [by left|]. vm_compute. congruence. }
  assert (∃ i, (i < 64)%nat ∧ PSlot i ∉ ([] : list ptr)) as Hslot by (exists 0%nat; split; [lia|apply not_elem_of_nil]).
  assert (used_frames (frames (kvm k)) + 2 * file_pages demo_program + 5 ≤ TOTAL_FRAMES) as Hfr.
  { change (kvm k) with (kvm k0). rewrite Hpg. change TOTAL_FRAMES with 4096. lia. }
  assert (c_strings [str "a"] [str "a" ++ [0]]) as Hcs by (constructor; [|constructor]; split; [exact Ha|by exists []]).
  assert (Z.of_nat (length (packed [str "a"])) + 4 * (Z.of_nat (length [str "a"]) + 3) ≤ ARGV_MAX_TOTAL) as Hfit by (vm_compute; congruence).
  assert (word32 (sym_enter_usermode demo_symbols)) as Hsym by (vm_compute; split; congruence).
  assert (0 < length [str "a"] ≤ 64)%nat as Hcnt by (cbn; lia). assert (Z.of_nat (length h) + 2 < 4294967296) as Hlog by (rewrite Hlen; lia).
  destruct (program_starts demo_symbols k [] [(HEAP_SIZE, true)] d sb h (str "a") [] (str "a") [] [str "a"] [str "a" ++ [0]] demo_program []
    Hk0 ltac:(done) Hh Ha Hmax Him Hblock Hslot Hfr Hcs Hcnt Hfit Ha Hsym Hlog) as (i & t & k' & c' & E & Ht & Hgo).
  destruct (elf_exec_run demo_symbols k [] [(HEAP_SIZE, true)] d sb h Hk0 (str "a") [] (str "a") [] [str "a"] [str "a" ++ [0]] demo_program []
    Hh Ha Hmax Him Hblock Hslot Hfr Hcs Hcnt Hfit Ha Hsym Hlog) as (i' & t' & k2 & c2 & h2 & E2 & _ & _ & Ht2 & Hr & _).
  rewrite E in E2. injection E2 as <- <- <-. rewrite Ht in Ht2. injection Ht2 as <-.
  destruct (Hgo (λ _, idler (ram (kvm k')))) as (n & s & _ & En & Hc & _ & Hep).
  { intros _. apply idler_apart; [apply (ri_ready _ _ _ _ _ _ Hr)|apply (ri_kstack _ _ _ _ _ _ Hr)]. }
  eexists k, k', i, c', _, n, s. split; [exact E|]. split; [exact En|]. split; [exact Hc|].
  rewrite (ep_segments _ _ _ _ _ _ Hep 0); [vm_compute; reflexivity|vm_compute; split; congruence|vm_compute; reflexivity|].
  vm_compute. split; congruence.
Defined.
End FirstRun.
